(* ===== verification/_CoqProject ===== *)
-Q . S2P
Prelude.v
Int32.v
JsString.v
Regex.v
Scan.v
Platform.v
Db.v
Escape.v
Allowlist.v
Devices.v
Guard.v
Plans.v
Calendar.v
Content.v
Usage.v
Exams.v
Releases.v
Power.v
Auth.v
Throttle.v
Sessions.v
Handoff.v
Billing.v
RazorpayRelay.v
LanSharing.v
HubStore.v
HubConfig.v
Printing.v
HubStatus.v
HubExams.v
HubLive.v
HubRuns.v
HubSafety.v
HubPromises.v
Cbor.v
WebAuthn.v
Totp.v
TwoFactor.v
SignIn.v
SsoToken.v
Sso.v
Relay.v
Education.v
PlanRoutes.v
Mime.v
Conversations.v
Mail.v
Mailroom.v
Inbox.v
Geo.v
Phone.v
Legal.v
Partners.v
Signup.v
Directory.v
Issues.v
Hardware.v
Bugs.v
Markdown.v
Status.v
Notices.v
