(* ===== verification/Prelude.v ===== *)
(** * A verification of the Lab Kiosk control plane

    Lab Kiosk turns PCs into locked-down web workstations. Its control plane,
    the TypeScript under src/cloudflare-control/src/, is a Cloudflare Worker: a
    request is resolved to an organization and authorized (guard.ts), routes
    (index.ts) read and write one D1 database for all organizations (db.ts),
    and each organization has a Durable Object, its hub (org_hub.ts), that
    keeps the live state of its workstations and the queue of commands for
    them; another Durable Object relays a Remote Control session
    (remote_relay.ts). Around these sit the features: plans and licences
    (plans.ts), exams (exams.ts), over-the-air releases (releases.ts,
    lan_sharing.ts), power schedules (power.ts), what workstations may reach
    (the allowlist of db.ts, link_rules.ts), printers (printing.ts), usage
    reports (usage.ts), sessions and sign-in (auth.ts, session_handoff.ts,
    two_factor.ts, webauthn.ts, sso.ts), payments and the education plan
    (billing.ts, education.ts, plan_routes.ts), mail in and out (mail.ts,
    mime.ts, mail_store.ts, conversations.ts, inbox.ts), registration
    (signup.ts, phone_verify.ts, phone_link.ts, geo.ts), legal documents
    (legal.ts), resellers (partners.ts), what workstations report of themselves
    (boot_report.ts, hardware.ts, bug_reports.ts), the status page (status.ts),
    notifications (notifications.ts) and the documentation (markdown.ts). Two more programs stand beside the
    Worker: the one that receives mail (src/cloudflare-email-routing/) and the
    relay that calls to Razorpay go through (relay/razorpay).

    ** How the code is modelled

    The embedding is shallow. A pure function of the source is a Rocq function
    of the same name. The database is a record of tables ([D1Database] in Db.v),
    each the list of its rows in insertion order; a query is a function of it
    and a statement returns the new database, so a handler threads it in the
    order of its awaits. Code that throws returns [js_result]; code that may
    find nothing returns an option. The clock and random bytes are arguments,
    given at each place the source reads them. A value of type [unknown] is a
    [jsval]. Numbers are integers; where the source relies on 32-bit operators
    they are written out (Int32.v), and no other modelled number leaves
    the integers a double holds exactly, one case apart (Releases.v says where).
    Characters are code units below 256. A Durable Object is a transition
    system: its handlers are functions of its state (tables, sockets, alarm,
    memory), its runtime's events are the steps of a relation, and what holds
    of it is proved of every run. Where calls may fail on the way (mail,
    registration, the inbox, bug reports, the status page), a handler is a
    computation of the monad [eff] (Mail.v): each call to the database or a
    service is done, lost, or done without an answer ([Outcome]), as a list of
    outcomes that is an argument says, and [keeps] carries a preorder on states
    through a handler call by call.

    What the program calls and does not contain is an interface with laws: the
    URL parser, Web Crypto and collation (Platform.v), AES-GCM, UTF-8 and JSON
    (Handoff.v), the decoder of text (Cbor.v), the cryptography of passkeys
    (WebAuthn.v), HMAC-SHA-1 (Totp.v), the character sets of mail ([MailText],
    Mime.v) and the signatures of ID tokens ([TokenCrypto], SsoToken.v). Each
    has an instance that runs, so theorems that assume the laws are applied to
    concrete inputs. What a service answers (Razorpay, an identity provider,
    Firebase, Turnstile, GitHub, the AI model) is an argument.

    ** The files

    - Prelude.v: tactics, [js_result], [jsval], arrays, sorting, upserts and the
      generic lemmas. Int32.v: the bitwise operators on 32 bits.
      JsString.v: strings. Regex.v: regular expressions, by
      derivatives. Scan.v: global replacements, matches and splits.
      Platform.v: the interfaces.
    - Db.v: rows, tables, and the queries of db.ts and types.ts several
      components share.
    - Escape.v: escape.ts. Escaping is safe and reversible; host names have one
      canonical form.
    - Allowlist.v: link_rules.ts and the allowlist, portal cards and broadcast
      shortcuts of db.ts. Which hosts a workstation may reach; which links a
      hosted page may carry.
    - Devices.v: the device_tokens table of db.ts. The limit on enrolled
      workstations holds under any interleaving of its statements.
    - Guard.v: guard.ts and demo.ts. Which organization a request is about, who
      may act on it, what is refused across sites, and how stale the cache of
      device tokens may be.
    - Plans.v: plans.ts, license.ts, plan_sync.ts and the insert of
      notifications.ts. Which workstations a plan covers, as a function of the
      limit; entitlements that lapse.
    - Content.v: the routes of index.ts that change what Allowlist.v reads, over
      a state of the database, the audit log and the hubs that were told.
    - Calendar.v: the UTC dates of [Date]. Usage.v: usage.ts and its routes. The
      counters are the sums of what was reported; the platform's totals hide
      what fewer than three organizations did.
    - Exams.v: exams.ts. Exams on one workstation never overlap; how long each
      workstation was offline, against a reference by moments.
    - Releases.v: releases.ts. Versions are ordered; who is offered which
      release, what a workstation installs next, what needs an approval.
    - Power.v: power.ts and POST /api/power-schedules. The week a workstation
      follows does not depend on the order its schedules are read in.
    - Auth.v: auth.ts. Password hashes, hexadecimal, enrollment keys and what
      their check character detects.
    - Throttle.v: the login_attempts table of db.ts and the sign-in that uses
      it. How slow guessing one after another is, statement by statement, and
      what overlapping attempts escape; how often a limited caller may act.
    - Sessions.v: the sessions table of db.ts as an implementation of
      [SessionStore], a map from tokens to sessions.
    - Handoff.v: session_handoff.ts against that interface. A code hands over
      one session, once, on one host, within a minute.
    - LanSharing.v: lan_sharing.ts. Sites are subnets; who waits for whom.
    - HubStore.v: the tables of org_hub.ts and its decisions about releases.
      Each command reaches each workstation once; Remote Control seats are
      bounded.
    - HubConfig.v: portal_url.ts, the printers a workstation is offered
      (printing.ts) and what the hub tells it (loadConfig, configFor).
      Printing.v: the rest of printing.ts and its route: which printers may be
      listed, and how the list is saved.
    - HubExams.v: how the hub starts and ends exams (examTick) and sends queued
      commands to connected workstations (enqueue).
    - HubStatus.v: what a workstation reports, and how it is read
      (normalizeStatus, normalizeUpdateReport, JavaScript's Number).
    - HubLive.v: the hub at work: sockets and their attachments, the HTTP
      heartbeat, consoles and what they watch, reminders of releases, removal,
      write-back to the registry, Wake-on-LAN and the alarm. Messages sent and
      the answers of a heartbeat and of /live are effects; beside the state runs
      a history that no handler reads: the commands asked for ([asked]), those
      that left ([handed]) and what was sent ([sent]).
    - HubRuns.v: a preorder on hubs that every handler respects, so that each
      handler is shown to respect it by its parts. HubSafety.v: requests,
      messages, closes, alarms, pings and hibernation as steps, and the
      invariant of every run. HubPromises.v: the theorems about the hub.
    - Cbor.v and WebAuthn.v: webauthn.ts. The decoder of CBOR accepts exactly a
      grammar; what an accepted passkey assertion proves.
    - Totp.v: base32 and the codes of authenticator apps (two_factor.ts).
      TwoFactor.v: the tables, the second step of a sign-in and the account's
      factors. SignIn.v: the theorems about them.
    - SsoToken.v and Sso.v: sso.ts. What an ID token proves; which sign-ins the
      three requests of single sign-on can make, in any interleaving.
    - Relay.v: remote_relay.ts, as a transition system.
    - Billing.v: billing.ts. RazorpayRelay.v: the relay to Razorpay, against the
      client that signs the calls. Education.v: education.ts. PlanRoutes.v:
      plan_routes.ts over the three. Which requests change a plan, and how far a
      payment extends it.
    - Mime.v: mime.ts, reading a message. Conversations.v: conversations.ts.
      Mail.v: mail.ts and the monad of calls that may fail. Mailroom.v:
      mail_store.ts, the inbound part of inbox.ts and the Worker that receives
      mail, as a transition system. Inbox.v: the routes of inbox.ts.
    - Geo.v: geo.ts, its tables and the checks over them. Phone.v:
      phone_verify.ts and phone_link.ts. Legal.v: legal.ts and its routes.
      Partners.v: partners.ts. Signup.v: signup.ts, turnstile.ts and
      addresses.ts. Directory.v: the routes over certified models and resellers.
    - Issues.v: the boot, restart and disk reports of boot_report.ts, and their
      routes. Hardware.v: hardware.ts and the video decoding reports. Bugs.v:
      bug_reports.ts and its routes, with every request that leaves the platform
      on record.
    - Markdown.v: markdown.ts. Status.v: status.ts and its routes. Notices.v:
      notifications.ts and its routes.

    ** What the theorems show

    Safety across organizations and hosts: tenant_isolation,
    resolveTenant_override, cross_site_refused, handoff_once,
    signInDestination_safe. Signing in: a code is spent once (codes_work_once),
    a challenge makes one session (challenge_one_session) and only for a right
    answer (second_step_proved), a second factor is asked for
    (second_factor_asked), answers are bounded (second_step_bounded,
    passkeys_bounded), and passkey_assertion_accepted says what a passkey
    proves, id_token_proves what an ID token does; sso_sign_ins_bound ties each
    session of single sign-on to the browser, the provider and the organization.
    Money: only an organization's administrators, Razorpay's signed word and the
    platform change a plan (plan_changes_authorized), a payment extends it once
    (payment_extends_once), the relay forwards only signed calls
    (relay_forwards_signed_calls), and a free education plan was applied for,
    confirmed and approved (education_verified). Mail: no accepted message is
    lost (mail_never_lost), filing one that can be filed ends
    (filing_completes, which names what cannot), only the contact
    of a conversation writes in it (strangers_stay_out), every attachment listed
    can be read again (attachments_extractable), and the loop over HTML ends
    (html_loop_ends). Registration: registration_proved, contact_proved,
    phone_token_proves and phone_link_spent say what was proved before an account
    or a message is made; approvals_guarded and tasks_stay_on_record what the
    Super Admin's inbox may do; legal_gate_exact when a console asks for the
    terms; listed_resellers_vetted who is on the hardware page; geo_answers what
    the tables of countries give. What workstations report: issue_lists_bounded,
    restart_listed_once, hardware_models_exact (the hourly list is the tally of
    the readable reports of organizations that are no demos),
    hardware_reads_back and bug_reports_agreed (nothing leaves of an
    organization that did not agree, and of the others only masked texts). Pages: markdown_inert (the documentation
    holds no tag of its source) and status_page_exact, with
    incidents_follow_updates and status_routes_step (the status page says what
    the checks found and what was posted). Notifications: notices_seen,
    dismissals_private and notice_reaches. The hub, in every run of it: hub_commands_once, hub_keeps_time,
    hub_removed_stays_out, hub_frames_watched, hub_listing_ok,
    hub_change_reaches_everyone and hub_wakes_through_neighbours. What may be
    reached: effective_whitelist_exact says which hosts,
    allowlist_changes_are_told that every change of them reaches the hub,
    portal_cards_allowed and hosted_links_exact what a card may link to. Usage:
    a report counts whole or not at all (usage_report_whole), the counters do
    not depend on the order of reports (usage_counts_every_report), and
    platform_totals_exact says what the platform's totals hold. Printers:
    printing_settings_saved. The relay: relay_between_two,
    relay_ends_for_both. What a workstation is confined to, and when:
    configFor_confines (in an exam exactly when one covers it now),
    exam_starts_and_ends_once. Limits that hold whatever
    the order of requests: token_statements_limit, guessing_is_slow,
    rate_limit_holds, remote_seats_bounded, exams_never_overlap. Refinement and
    equivalence: sessions_are_a_map, exam_workstation_offline,
    decodeCbor_grammar, rebalanceLicences_fits. Progress:
    updateTargetFor_progress, lan_waits_for_seeds. Round trips:
    base32_roundtrip, escapeHtml_safe_roundtrip, hostSubdomain_roundtrip,
    acceptances_csv_roundtrip, reference_roundtrip, transfer_roundtrip. Where
    the code does less than a comment says, the theorem states what it does
    (enrollment_key_detects, createExam_race, and the examples host_label_alias,
    handoff_interleaved, long_numbers_collide, attempts_race,
    first_heartbeat_sets_no_alarm, takedown_evaded,
    oldest_day_never_rolled_up, two_payments_one_month, inherited_entity,
    keys_asked_again, signature_of_five, sweep_starved, conversations_left,
    reply_to_apart, ids_stacked, constructor_mailbox, account_stranded,
    dollar_lost, headings_collide, incident_reopened, dismiss_all,
    guesses_overlap, late_count_unlocks, unwatched_screen_polled,
    eight_days_accepted). The check of a password against known breaches asks
    nothing when it is off and passes when the service cannot be asked:
    registration_proved says so, and breached_refused shows the other case.

    ** Fuel and bounds

    Recursion is structural but for these functions. The fuel of [decimal]
    (JsString.v) is one more than the binary logarithm, at least the number of
    decimal digits ([decimal_value] proves it enough). [decodeItem] (Cbor.v) is
    given seventeen levels: the source refuses what is nested deeper than
    sixteen, and decodeCbor_grammar has no bound. [emit5] (Totp.v) runs twice,
    as a byte adds eight bits to at most four. [chunks] (Exams.v) is given the
    length of the list ([chunks_concat]). The scans over a text ([replace_steps],
    [match_steps] and [split_steps] in Scan.v, [pieces] in Mime.v, [mask_steps]
    in Bugs.v, [link_steps] in Markdown.v) take a step per match, each of which
    reads a character at least, and are given the length of the text or one more.
    [html_loop] (Mime.v) gives [None] when its steps run out, and html_loop_ends
    proves that the length of the text is enough; so do [page_steps] and
    [list_steps] (Markdown.v), for which the number of lines is enough
    ([page_ok], [list_steps_ok]). [walk] (Mime.v) is bounded by the depth the
    source itself allows. [parse_alt] (Geo.v) reads the patterns of the tables,
    and [formats_checked] that it reads each of them. The readers that round
    trips are stated with ([read_record] and [read_csv] in Legal.v, [dec_all] in
    Hardware.v, [unescapeHtml] in Escape.v) are proved to have enough. Regular expressions are matched by
    derivatives, once per character.

    ** What is not modelled

    The HTML of the messages sent and of the pages (ui_*.ts), which are
    templates, with the metadata for search engines; the monthly summary;
    custom host names, which are calls to Cloudflare's API; the release notes;
    the queue of the audit log; stand-ins of tests and local development
    (local_do.ts, the outbox, the maps in memory); the parts of index.ts that
    only dispatch and shape JSON; and the workstation image, which is Python
    and shell. Concurrency between requests is modelled where a theorem says so
    (steps of statements); elsewhere a handler is taken to run alone, from its
    first await to its last. *)
From stdpp Require Export base list gmap strings sorting option numbers.
From Stdlib Require Export ZArith Lia Ascii.

#[global] Open Scope Z_scope.

(** ** Tactics *)

(** Case analysis on the discriminee of a [match] or [if] of the goal or of a
    hypothesis, keeping the equation. *)
Ltac case_match_eq :=
  match goal with
  | |- context [ match ?x with _ => _ end ] => destruct x eqn:?
  | H : context [ match ?x with _ => _ end ] |- _ => destruct x eqn:?
  end.

(** Turn boolean tests of the context and of the goal into propositions. *)
Ltac bool_to_prop :=
  repeat match goal with
  | H : andb _ _ = true |- _ => apply andb_true_iff in H; destruct H
  | H : orb _ _ = false |- _ => apply orb_false_iff in H; destruct H
  | H : orb _ _ = true |- _ => apply orb_true_iff in H
  | H : andb _ _ = false |- _ => apply andb_false_iff in H
  | H : negb _ = true |- _ => apply negb_true_iff in H
  | H : negb _ = false |- _ => apply negb_false_iff in H
  | H : bool_decide _ = true |- _ => apply bool_decide_eq_true in H
  | H : bool_decide _ = false |- _ => apply bool_decide_eq_false in H
  | H : String.eqb _ _ = true |- _ => apply String.eqb_eq in H
  | H : String.eqb _ _ = false |- _ => apply String.eqb_neq in H
  | H : Z.eqb _ _ = true |- _ => apply Z.eqb_eq in H
  | H : Z.eqb _ _ = false |- _ => apply Z.eqb_neq in H
  | H : Z.ltb _ _ = true |- _ => apply Z.ltb_lt in H
  | H : Z.ltb _ _ = false |- _ => apply Z.ltb_ge in H
  | H : Z.leb _ _ = true |- _ => apply Z.leb_le in H
  | H : Z.leb _ _ = false |- _ => apply Z.leb_gt in H
  end.

(** [lia] with quotients and remainders by constants. *)
Ltac div_lia := Z.to_euclidean_division_equations; lia.

Create HintDb kiosk.

(** ** Exceptions

    A TypeScript function that may [throw new Error(msg)] returns a [js_result]. *)
Inductive js_result (A : Type) : Type :=
| Returns (a : A)
| Throws (msg : string).
Arguments Returns {A} a.
Arguments Throws {A} msg.

#[export] Instance js_result_ret : MRet js_result := fun A a => Returns a.
#[export] Instance js_result_bind : MBind js_result := fun A B f m =>
  match m with Returns a => f a | Throws e => Throws e end.
#[export] Instance js_result_fmap : FMap js_result := fun A B f m =>
  match m with Returns a => Returns (f a) | Throws e => Throws e end.

(** [if (b) throw new Error(msg)]. *)
Definition throw_if (b : bool) (msg : string) : js_result unit :=
  if b then Throws msg else Returns tt.

Lemma Returns_inj {A} (x y : A) : Returns x = Returns y -> x = y.
Proof. congruence. Qed.

Lemma bind_returns {A B} (m : js_result A) (f : A -> js_result B) b :
  (m ≫= f) = Returns b <-> exists a, m = Returns a /\ f a = Returns b.
Proof.
  destruct m as [a | e]; unfold mbind; simpl; split.
  - intros H. by exists a.
  - intros (a' & [= ->] & H). done.
  - discriminate.
  - intros (a' & H & _). discriminate.
Qed.

Lemma throw_if_returns b msg u : throw_if b msg = Returns u <-> b = false.
Proof. destruct b, u; split; done. Qed.

(** Walk a chain of binds in a hypothesis that says the chain returned. *)
Ltac invert_returns :=
  repeat match goal with
  | H : (_ ≫= _) = Returns _ |- _ =>
      apply bind_returns in H; let a := fresh "a" in let E := fresh "E" in destruct H as (a & E & H)
  | H : throw_if _ _ = Returns _ |- _ => apply throw_if_returns in H
  | H : mret _ = Returns _ |- _ => injection H as H
  | H : Returns _ = Returns _ |- _ => injection H as H
  | H : Throws _ = Returns _ |- _ => discriminate H
  | a : unit |- _ => destruct a
  end.

(** [Array.prototype.map] with a callback that may throw, first element first. *)
Fixpoint result_map {A B} (f : A -> js_result B) (l : list A) : js_result (list B) :=
  match l with
  | [] => Returns []
  | x :: l' => y ← f x; ys ← result_map f l'; Returns (y :: ys)
  end.

Lemma result_map_returns {A B} (f : A -> js_result B) l ys :
  result_map f l = Returns ys <-> Forall2 (fun x y => f x = Returns y) l ys.
Proof.
  revert ys; induction l as [|x l IH]; intros ys; simpl.
  - split; [by intros [= <-]; constructor | by inversion 1].
  - split.
    + intros H; invert_returns; subst. constructor; [done | by apply IH].
    + inversion 1 as [|? y ? ys' Hx Hl]; subst. rewrite Hx. simpl.
      unfold mbind; simpl. apply IH in Hl. unfold mbind in Hl; simpl in Hl. by rewrite Hl.
Qed.

(** ** Values of type [unknown]

    What [JSON.parse] gives, and [undefined]. A number is either an integer or
    a fraction, of which only the floor is kept: every validator refuses
    fractions or floors them. The fields of an object have distinct names. *)
Inductive jsval : Type :=
| JsUndefined
| JsNull
| JsBool (b : bool)
| JsInt (z : Z)
| JsFrac (floor : Z)
| JsStr (s : string)
| JsArr (l : list jsval)
| JsObj (fields : list (string * jsval)).

Fixpoint assoc {A} (k : string) (l : list (string * A)) : option A :=
  match l with
  | [] => None
  | (k', v) :: l' => if String.eqb k k' then Some v else assoc k l'
  end.

(** [(value as Record<string, unknown>).key]; reading a field of a value that
    is not an object gives [undefined]. *)
Definition js_get (v : jsval) (k : string) : jsval :=
  match v with JsObj fields => default JsUndefined (assoc k fields) | _ => JsUndefined end.

(** [!input || typeof input !== "object" || Array.isArray(input)] is false. *)
Definition is_plain_object (v : jsval) : bool :=
  match v with JsObj _ => true | _ => false end.

(** [!input || typeof input !== "object"] is false: an array is an object too. *)
Definition is_object (v : jsval) : bool :=
  match v with JsObj _ | JsArr _ => true | _ => false end.

(** [v === undefined || v === null]. *)
Definition is_nullish (v : jsval) : bool :=
  match v with JsUndefined | JsNull => true | _ => false end.

(** [v === undefined || v === null || v === ""]. *)
Definition is_absent (v : jsval) : bool :=
  match v with JsUndefined | JsNull => true | JsStr s => String.eqb s "" | _ => false end.

Definition as_string (v : jsval) : option string :=
  match v with JsStr s => Some s | _ => None end.

(** [typeof v === "number" && Number.isInteger(v)]. *)
Definition as_integer (v : jsval) : option Z :=
  match v with JsInt z => Some z | _ => None end.

(** ** Arrays *)

(** [Array.prototype.sort(cmp)]: stable. [sort_insert] puts [x] before the
    first element that does not come strictly before it. *)
Fixpoint sort_insert {A} (cmp : A -> A -> Z) (x : A) (l : list A) : list A :=
  match l with
  | [] => [x]
  | y :: l' => if cmp x y <=? 0 then x :: y :: l' else y :: sort_insert cmp x l'
  end.

Definition js_sort {A} (cmp : A -> A -> Z) (l : list A) : list A :=
  foldr (sort_insert cmp) [] l.

Lemma sort_insert_perm {A} (cmp : A -> A -> Z) x l : sort_insert cmp x l ≡ₚ x :: l.
Proof.
  induction l as [|y l IH]; simpl; [done|]. case_match; [done|].
  rewrite IH. constructor.
Qed.

Lemma js_sort_perm {A} (cmp : A -> A -> Z) l : js_sort cmp l ≡ₚ l.
Proof. induction l as [|x l IH]; simpl; [done|]. by rewrite sort_insert_perm, IH. Qed.

Lemma js_sort_length {A} (cmp : A -> A -> Z) l : length (js_sort cmp l) = length l.
Proof. by rewrite js_sort_perm. Qed.

Lemma elem_of_js_sort {A} (cmp : A -> A -> Z) l x : x ∈ js_sort cmp l <-> x ∈ l.
Proof. by rewrite js_sort_perm. Qed.

(** What the code relies on when it sorts: the comparator is a total preorder. *)
Class Comparator {A} (cmp : A -> A -> Z) : Prop := {
  cmp_total : forall x y, cmp x y <= 0 \/ cmp y x <= 0;
  cmp_trans : forall x y z, cmp x y <= 0 -> cmp y z <= 0 -> cmp x z <= 0
}.

Section Sorting.
Context {A : Type} (cmp : A -> A -> Z) `{!Comparator cmp}.

Lemma sort_insert_sorted x l :
  StronglySorted (fun a b => cmp a b <= 0) l ->
  StronglySorted (fun a b => cmp a b <= 0) (sort_insert cmp x l).
Proof.
  induction 1 as [|y l Hl IH Hy]; simpl; [repeat constructor|].
  destruct (Z.leb_spec (cmp x y) 0) as [Hxy|Hxy].
  - constructor; [by constructor|]. constructor; [done|].
    revert Hy. apply Forall_impl. intros z Hz. by eapply cmp_trans.
  - constructor; [done|]. rewrite list.Forall_forall in Hy |- *. intros z Hz.
    rewrite sort_insert_perm in Hz. apply elem_of_cons in Hz as [->|Hz]; [|by apply Hy].
    destruct (cmp_total x y); lia.
Qed.

Lemma js_sort_sorted l : StronglySorted (fun a b => cmp a b <= 0) (js_sort cmp l).
Proof. induction l as [|x l IH]; simpl; [constructor|]. by apply sort_insert_sorted. Qed.
End Sorting.

(** [new Set(l)] spread back into an array: the first occurrence of each. *)
Definition set_add {A} `{EqDecision A} (l : list A) (x : A) : list A :=
  if decide (x ∈ l) then l else l ++ [x].

Definition js_dedup {A} `{EqDecision A} (l : list A) : list A := foldl set_add [] l.

Section Dedup.
Context {A : Type} `{EqDecision A}.

Lemma set_add_NoDup (l : list A) x : NoDup l -> NoDup (set_add l x).
Proof.
  unfold set_add. case_decide; [done|]. intros Hl. apply list.NoDup_app.
  repeat split; [done| |apply NoDup_singleton]. intros y Hy Hx.
  apply list_elem_of_singleton in Hx. congruence.
Qed.

Lemma elem_of_set_add (l : list A) x y : y ∈ set_add l x <-> y ∈ l \/ y = x.
Proof. unfold set_add. case_decide; set_solver. Qed.

Lemma foldl_set_add (l acc : list A) :
  (NoDup acc -> NoDup (foldl set_add acc l)) /\
  forall y, y ∈ foldl set_add acc l <-> y ∈ acc \/ y ∈ l.
Proof.
  revert acc; induction l as [|x l IH]; intros acc; simpl.
  - split; [done|]. set_solver.
  - destruct (IH (set_add acc x)) as [IH1 IH2]. split.
    + intros ?. by apply IH1, set_add_NoDup.
    + intros y. rewrite IH2, elem_of_set_add. set_solver.
Qed.

Lemma js_dedup_NoDup (l : list A) : NoDup (js_dedup l).
Proof. apply (foldl_set_add l []), NoDup_nil_2. Qed.

Lemma elem_of_js_dedup (l : list A) x : x ∈ js_dedup l <-> x ∈ l.
Proof. unfold js_dedup. rewrite (proj2 (foldl_set_add l [])). set_solver. Qed.
End Dedup.

(** [Array.prototype.find] and [some]. *)
Definition js_find {A} (p : A -> bool) (l : list A) : option A := List.find p l.

Lemma js_find_Some {A} (p : A -> bool) l x : js_find p l = Some x -> x ∈ l /\ p x = true.
Proof. intros H. apply List.find_some in H as [H1 H2]. by rewrite list_elem_of_In. Qed.

Lemma js_find_None {A} (p : A -> bool) l : js_find p l = None <-> forall x, x ∈ l -> p x = false.
Proof.
  split.
  - intros H x Hx. apply (List.find_none _ _ H). by apply list_elem_of_In.
  - intros H. destruct (js_find p l) as [x|] eqn:E; [|done].
    apply js_find_Some in E as [Hx Hp]. rewrite H in Hp; done.
Qed.

Lemma js_find_is_Some {A} (p : A -> bool) l x :
  x ∈ l -> p x = true -> exists y, js_find p l = Some y.
Proof.
  intros Hx Hp. destruct (js_find p l) as [y|] eqn:E; [by exists y|].
  apply (proj1 (js_find_None p l) E) in Hx. congruence.
Qed.

Lemma elem_of_bfilter {A} (p : A -> bool) l x : x ∈ List.filter p l <-> x ∈ l /\ p x = true.
Proof. rewrite !list_elem_of_In. apply List.filter_In. Qed.

Lemma existsb_elem {A} (p : A -> bool) l : existsb p l = true <-> exists x, x ∈ l /\ p x = true.
Proof. rewrite existsb_exists. by setoid_rewrite list_elem_of_In. Qed.

Lemma forallb_elem {A} (p : A -> bool) l : forallb p l = true <-> forall x, x ∈ l -> p x = true.
Proof. rewrite forallb_forall. by setoid_rewrite list_elem_of_In. Qed.

Lemma bfilter_perm {A} (p : A -> bool) l k : l ≡ₚ k -> List.filter p l ≡ₚ List.filter p k.
Proof.
  induction 1 as [|x l k _ IH|x y l|l k m _ IH1 _ IH2]; simpl; [done| | |by rewrite IH1].
  - case_match; [by constructor|done].
  - repeat case_match; try done. constructor.
Qed.

#[export] Instance bfilter_proper {A} (p : A -> bool) :
  Proper ((≡ₚ) ==> (≡ₚ)) (List.filter p).
Proof. intros l k. apply bfilter_perm. Qed.

Lemma bfilter_length_split {A} (p : A -> bool) l :
  (length (List.filter p l) + length (List.filter (fun x => negb (p x)) l))%nat = length l.
Proof. induction l as [|x l IH]; simpl; [done|]. destruct (p x); simpl; lia. Qed.

Lemma bfilter_Forall {A} (P : A -> Prop) q l : Forall P l -> Forall P (List.filter q l).
Proof. rewrite !list.Forall_forall. intros Hl x [? _]%elem_of_bfilter. auto. Qed.

Lemma bfilter_length_le {A} (q : A -> bool) l : (length (List.filter q l) <= length l)%nat.
Proof. pose proof (bfilter_length_split q l). lia. Qed.

Lemma assoc_elem {V} k (l : list (string * V)) v : assoc k l = Some v -> (k, v) ∈ l.
Proof.
  induction l as [|[k' v'] l IH]; cbn; [done|].
  destruct (String.eqb_spec k k') as [->|]; [intros [= ->]; left|]. intros. right. auto.
Qed.

Lemma tail_Forall {A} (P : A -> Prop) l : Forall P l -> Forall P (tail l).
Proof. by destruct 1. Qed.

Lemma map_bfilter {A B} (f : A -> B) (p : A -> bool) (q : B -> bool) l :
  (forall x, x ∈ l -> p x = q (f x)) -> List.map f (List.filter p l) = List.filter q (List.map f l).
Proof.
  induction l as [|x l IH]; intros Hpq; [done|]. cbn. rewrite (Hpq x) by left.
  rewrite <- IH by (intros y Hy; apply Hpq; by right). by destruct (q (f x)).
Qed.

Lemma bfilter_NoDup {A} (p : A -> bool) l : NoDup l -> NoDup (List.filter p l).
Proof.
  induction 1 as [|x l Hx Hl IH]; [constructor|]. cbn. destruct (p x); [|done].
  constructor; [|done]. by intros [? _]%elem_of_bfilter.
Qed.

Lemma existsb_bfilter {A} (p q : A -> bool) l : existsb p (List.filter q l) = existsb (fun x => p x && q x) l.
Proof. induction l as [|x l IH]; [done|]. cbn. destruct (q x); cbn; rewrite IH, ?andb_true_r, ?andb_false_r; done. Qed.

Lemma existsb_ext_in {A} (p q : A -> bool) l : (forall x, p x = q x) -> existsb p l = existsb q l.
Proof. intros Hpq. induction l as [|x l IH]; [done|]. cbn. by rewrite Hpq, IH. Qed.

Lemma existsb_andb_const {A} (p : A -> bool) b l : existsb (fun x => p x && b) l = existsb p l && b.
Proof. induction l as [|x l IH]; [done|]. cbn. by rewrite IH, andb_orb_distrib_l. Qed.

Lemma elem_of_take {A} n (l : list A) x : x ∈ take n l -> x ∈ l.
Proof. intros Hx. rewrite <- (take_drop n l). apply elem_of_app. by left. Qed.

Lemma take_NoDup {A} n (l : list A) : NoDup l -> NoDup (take n l).
Proof. intros Hl. rewrite <- (take_drop n l) in Hl. by apply list.NoDup_app in Hl as (? & _). Qed.

Lemma lex_comparator {A} (f : A -> Z) (tie : A -> A -> Z) `{!Comparator tie} :
  Comparator (fun a b => if f a - f b =? 0 then tie a b else f a - f b).
Proof.
  constructor.
  - intros x y. pose proof (cmp_total x y).
    destruct (Z.eqb_spec (f x - f y) 0), (Z.eqb_spec (f y - f x) 0); lia.
  - intros x y z. pose proof (cmp_trans x y z).
    destruct (Z.eqb_spec (f x - f y) 0), (Z.eqb_spec (f y - f z) 0), (Z.eqb_spec (f x - f z) 0); lia.
Qed.

Lemma sorted_take_drop {A} (R : A -> A -> Prop) n l x y :
  StronglySorted R l -> x ∈ take n l -> y ∈ drop n l -> R x y.
Proof.
  intros Hs. revert n. induction Hs as [|z l Hl IH Hz]; intros [|n]; cbn; try (by intros ?%not_elem_of_nil).
  rewrite list.Forall_forall in Hz.
  intros [->|Hx]%elem_of_cons Hy; [|by eapply IH]. apply Hz.
  rewrite <- (take_drop n l). apply elem_of_app. by right.
Qed.

Lemma bfilter_all {A} (p : A -> bool) l : (forall x, x ∈ l -> p x = true) -> List.filter p l = l.
Proof.
  induction l as [|x l IH]; intros Hp; [done|]. cbn. rewrite (Hp x) by left. f_equal. apply IH. intros y Hy. apply Hp. by right.
Qed.

Lemma NoDup_incl_length {A} (l k : list A) : NoDup l -> (forall x, x ∈ l -> x ∈ k) -> (length l <= length k)%nat.
Proof. intros Hl Hs. by apply submseteq_length, NoDup_submseteq. Qed.

(** ** Comparators built from parts

    A comparison that is antisymmetric as well as transitive; lexicographic
    combinations of such comparisons are again. *)
Class StrictCmp {A} (c : A -> A -> Z) : Prop := {
  sc_anti : forall x y, c y x = - c x y;
  sc_trans : forall x y z, c x y <= 0 -> c y z <= 0 -> c x z <= 0
}.

Lemma strict_cmp_comparator {A} (c : A -> A -> Z) : StrictCmp c -> Comparator c.
Proof.
  intros [Ha Ht]. constructor; [|exact Ht]. intros x y. rewrite (Ha x y). lia.
Qed.

Lemma strict_cmp_lex {A} (c1 c2 : A -> A -> Z) :
  StrictCmp c1 -> StrictCmp c2 -> StrictCmp (fun x y => if c1 x y =? 0 then c2 x y else c1 x y).
Proof.
  intros [A1 T1] [A2 T2]. constructor.
  - intros x y. rewrite (A1 x y), (A2 x y). destruct (Z.eqb_spec (c1 x y) 0) as [E|E]; destruct (Z.eqb_spec (- c1 x y) 0); lia.
  - intros x y z. pose proof (T1 x y z). pose proof (T1 y z x). pose proof (T1 z x y). pose proof (T2 x y z).
    rewrite (A1 x z), (A1 x y), (A1 y z) in *.
    destruct (Z.eqb_spec (c1 x y) 0), (Z.eqb_spec (c1 y z) 0), (Z.eqb_spec (c1 x z) 0); lia.
Qed.

Lemma strict_cmp_map {A B} (f : A -> B) (c : B -> B -> Z) : StrictCmp c -> StrictCmp (fun x y => c (f x) (f y)).
Proof. intros [Ha Ht]. constructor; [intros x y; apply Ha|intros x y z; apply Ht]. Qed.

(** Numbers as [a !== b ? (a < b ? -1 : 1) : 0]. *)
Definition num_cmp (x y : Z) : Z := if x =? y then 0 else if x <? y then -1 else 1.

Lemma num_cmp_strict : StrictCmp num_cmp.
Proof.
  unfold num_cmp. constructor.
  - intros x y. destruct (Z.eqb_spec x y), (Z.eqb_spec y x), (Z.ltb_spec x y), (Z.ltb_spec y x); lia.
  - intros x y z. destruct (Z.eqb_spec x y), (Z.eqb_spec y z), (Z.eqb_spec x z), (Z.ltb_spec x y), (Z.ltb_spec y z), (Z.ltb_spec x z); lia.
Qed.

(** Lists element by element, a proper prefix first. *)
Fixpoint list_cmp {A} (c : A -> A -> Z) (l k : list A) : Z :=
  match l, k with
  | [], [] => 0
  | [], _ :: _ => -1
  | _ :: _, [] => 1
  | x :: l', y :: k' => if c x y =? 0 then list_cmp c l' k' else c x y
  end.

Lemma list_cmp_strict {A} (c : A -> A -> Z) : StrictCmp c -> StrictCmp (list_cmp c).
Proof.
  intros [Ha Ht]. constructor.
  - intros l. induction l as [|x l IH]; intros [|y k]; cbn; try done. rewrite (Ha x y), (IH k).
    destruct (Z.eqb_spec (c x y) 0), (Z.eqb_spec (- c x y) 0); lia.
  - intros l. induction l as [|x l IH]; intros [|y k] [|z m]; cbn; try lia.
    pose proof (Ht x y z). pose proof (Ht y z x). pose proof (Ht z x y). pose proof (IH k m).
    rewrite (Ha x z), (Ha x y), (Ha y z) in *.
    destruct (Z.eqb_spec (c x y) 0), (Z.eqb_spec (c y z) 0), (Z.eqb_spec (c x z) 0); lia.
Qed.

#[export] Hint Resolve js_sort_perm js_dedup_NoDup : kiosk.

Definition is_Some_b {A} (o : option A) : bool := match o with Some _ => true | None => false end.

(** ** Upserts: [INSERT … ON CONFLICT DO UPDATE] on the rows of a table *)

Definition upsert {A} (same : A -> bool) (update : A -> A) (insert : A) (l : list A) : list A :=
  if existsb same l then List.map (fun x => if same x then update x else x) l else l ++ [insert].

Lemma js_find_app {A} (p : A -> bool) l k :
  js_find p (l ++ k) = match js_find p l with Some x => Some x | None => js_find p k end.
Proof. unfold js_find. induction l as [|x l IH]; [done|]. cbn. by destruct (p x). Qed.

Lemma js_find_map {A} (p : A -> bool) (f : A -> A) l :
  (forall x, p (f x) = p x) -> js_find p (List.map f l) = option_map f (js_find p l).
Proof. unfold js_find. intros Hp. induction l as [|x l IH]; [done|]. cbn. rewrite Hp. by destruct (p x). Qed.

Lemma js_find_upsert {A} (same : A -> bool) (update : A -> A) (insert : A) l :
  (forall x, same x = true -> same (update x) = true) -> same insert = true ->
  js_find same (upsert same update insert l) = Some (match js_find same l with Some x => update x | None => insert end).
Proof.
  intros Hu Hi. unfold upsert. destruct (existsb same l) eqn:E.
  - rewrite js_find_map by (intros x; destruct (same x) eqn:Ex; [by apply Hu|done]).
    apply existsb_elem in E as (x & Hx & Hs). destruct (js_find_is_Some same l x Hx Hs) as [y Hy]. rewrite Hy. cbn.
    apply js_find_Some in Hy as [_ Hy]. by rewrite Hy.
  - rewrite js_find_app. replace (js_find same l) with (@None A); [cbn; by rewrite Hi|].
    symmetry. apply js_find_None. intros x Hx. apply not_true_is_false. intros Hs.
    assert (existsb same l = true) by (apply existsb_elem; eauto). congruence.
Qed.

(** An upsert of one row does not touch another. *)
Lemma js_find_upsert_other {A} (p same : A -> bool) (update : A -> A) (insert : A) l :
  (forall x, same x = true -> p x = false /\ p (update x) = false) -> p insert = false ->
  js_find p (upsert same update insert l) = js_find p l.
Proof.
  intros Hs Hi. unfold upsert. destruct (existsb same l).
  - unfold js_find. induction l as [|x l IH]; [done|]. cbn. destruct (same x) eqn:E; [|by rewrite IH].
    destruct (Hs x E) as [-> ->]. done.
  - rewrite js_find_app. destruct (js_find p l); [done|]. cbn. by rewrite Hi.
Qed.

Lemma upsert_keys_NoDup {A B} (key : A -> B) (same : A -> bool) (update : A -> A) (insert : A) l :
  (forall x, same x = true <-> key x = key insert) -> (forall x, key (update x) = key x) ->
  NoDup (List.map key l) -> NoDup (List.map key (upsert same update insert l)).
Proof.
  intros Hs Hu Hl. unfold upsert. destruct (existsb same l) eqn:E.
  - rewrite List.map_map. erewrite List.map_ext; [exact Hl|]. intros x. cbn. destruct (same x); [apply Hu|done].
  - rewrite List.map_app. apply list.NoDup_app. split; [done|]. split.
    + intros k (x & -> & Hx)%list_elem_of_fmap Hk. apply list_elem_of_singleton in Hk.
      assert (existsb same l = true) by (apply existsb_elem; exists x; split; [done|]; by apply Hs). congruence.
    + cbn. repeat constructor. by intros ?%elem_of_nil.
Qed.

(** Where a key belongs to one row, deleting rows keeps or removes what is found. *)
Lemma js_find_bfilter {A} (p q : A -> bool) l :
  (forall x y, x ∈ l -> y ∈ l -> p x = true -> p y = true -> x = y) ->
  js_find p (List.filter q l) = match js_find p l with Some x => if q x then Some x else None | None => None end.
Proof.
  intros Hu. destruct (js_find p l) as [x|] eqn:E.
  - apply js_find_Some in E as [Hx Hp]. destruct (q x) eqn:Eq.
    + destruct (js_find_is_Some p (List.filter q l) x) as [y Hy]; [by apply elem_of_bfilter|done|].
      rewrite Hy. apply js_find_Some in Hy as [[Hy _]%elem_of_bfilter Hpy]. f_equal. by apply Hu.
    + apply js_find_None. intros y [Hy Hq]%elem_of_bfilter. apply not_true_is_false. intros Hpy.
      rewrite (Hu x y Hx Hy Hp Hpy) in Eq. congruence.
  - apply js_find_None. intros y [Hy _]%elem_of_bfilter. by apply (proj1 (js_find_None p l) E).
Qed.

Lemma map_NoDup_inj {A B} (f : A -> B) l x y : NoDup (List.map f l) -> x ∈ l -> y ∈ l -> f x = f y -> x = y.
Proof.
  induction l as [|z l IH]; intros Hl Hx Hy E; [by apply elem_of_nil in Hx|].
  cbn in Hl. apply list.NoDup_cons in Hl as [Hn Hl].
  apply elem_of_cons in Hx as [-> | Hx], Hy as [-> | Hy]; [done| | |by apply IH].
  - destruct Hn. rewrite E. apply list_elem_of_fmap. eauto.
  - destruct Hn. rewrite <- E. apply list_elem_of_fmap. eauto.
Qed.

(** ** Sublists *)

Lemma bfilter_sublist {A} (p : A -> bool) l : sublist (List.filter p l) l.
Proof. induction l as [|x l IH]; cbn; [constructor|]. destruct (p x); by constructor. Qed.

Lemma sublist_elem {A} (l k : list A) x : sublist l k -> x ∈ l -> x ∈ k.
Proof. intros H. induction H; set_solver. Qed.

Lemma sublist_map {A B} (f : A -> B) l k : sublist l k -> sublist (List.map f l) (List.map f k).
Proof. induction 1; cbn; by constructor. Qed.

Lemma sublist_NoDup' {A} (l k : list A) : sublist l k -> NoDup k -> NoDup l.
Proof.
  induction 1 as [|x l k H IH|x l k H IH]; intros Hk; [done| |]; apply list.NoDup_cons in Hk as [Hx Hk]; [|by apply IH].
  apply list.NoDup_cons. split; [|by apply IH]. contradict Hx. by apply (sublist_elem l k).
Qed.

Lemma bfilter_comm {A} (p q : A -> bool) l : List.filter p (List.filter q l) = List.filter q (List.filter p l).
Proof.
  induction l as [|x l IH]; [done|]. cbn. destruct (q x) eqn:Eq, (p x) eqn:Ep; cbn; rewrite ?Eq, ?Ep; by rewrite IH.
Qed.

Lemma js_sort_id {A} (cmp : A -> A -> Z) l : StronglySorted (fun a b => cmp a b <= 0) l -> js_sort cmp l = l.
Proof.
  induction 1 as [|x l Hs IH Hall]; [done|]. change (js_sort cmp (x :: l)) with (sort_insert cmp x (js_sort cmp l)). rewrite IH. destruct l as [|y l]; [done|]. cbn. apply list.Forall_cons in Hall as [Hy _]. by rewrite (proj2 (Z.leb_le _ _) Hy).
Qed.

Lemma bfilter_none {A} (p : A -> bool) l : (forall x, x ∈ l -> p x = false) -> List.filter p l = [].
Proof. intros Hp. induction l as [|x l IH]; [done|]. cbn. rewrite (Hp x) by constructor. apply IH. intros y Hy. apply Hp. by constructor. Qed.

Lemma bfilter_bfilter {A} (p q : A -> bool) l : List.filter p (List.filter q l) = List.filter (fun x => q x && p x) l.
Proof. induction l as [|x l IH]; [done|]. cbn. destruct (q x); cbn; [destruct (p x)|]; by rewrite IH. Qed.

Lemma upsert_Forall {A} (P : A -> Prop) same update insert l : (forall x, same x = true -> P x -> P (update x)) -> P insert -> Forall P l -> Forall P (upsert same update insert l).
Proof.
  intros Hu Hi Hl. unfold upsert. destruct (existsb same l).
  - induction Hl as [|x l Hx Hl IH]; cbn; constructor; [destruct (same x) eqn:E; auto|done].
  - apply Forall_app. split; [done|]. by repeat constructor.
Qed.

Lemma upsert_length {A} (same : A -> bool) update insert l : (length (upsert same update insert l) <= S (length l))%nat.
Proof. unfold upsert. destruct (existsb same l); [rewrite length_map|rewrite length_app; cbn]; lia. Qed.

Lemma StronglySorted_sub {A} (R : A -> A -> Prop) l k : l `sublist_of` k -> StronglySorted R k -> StronglySorted R l.
Proof.
  induction 1 as [|x l k Hs IH|x l k Hs IH]; intros Hk; [constructor|inversion Hk as [|? ? Hk' Hx]; subst..].
  - constructor; [by apply IH|]. apply list.Forall_forall. intros y Hy. eapply (proj1 (list.Forall_forall _ _) Hx), elem_of_submseteq; [exact Hy|by apply sublist_submseteq].
  - by apply IH.
Qed.

Lemma StronglySorted_map {A B} (R : A -> A -> Prop) (S : B -> B -> Prop) (f : A -> B) l :
  (forall x y, x ∈ l -> y ∈ l -> R x y -> S (f x) (f y)) -> StronglySorted R l -> StronglySorted S (List.map f l).
Proof.
  intros Hf Hl. induction Hl as [|x l Hl IH Hx]; cbn; [constructor|]. constructor; [apply IH; intros; apply Hf; [by constructor..|done]|].
  apply list.Forall_forall. intros y (z & -> & Hz)%list_elem_of_fmap. apply Hf; [by constructor..|]. by apply (proj1 (list.Forall_forall _ _) Hx).
Qed.

Lemma StronglySorted_snoc {A} (R : A -> A -> Prop) l x : StronglySorted R l -> Forall (fun y => R y x) l -> StronglySorted R (l ++ [x]).
Proof.
  intros Hl Hx. induction Hl as [|y l Hl IH Hy]; cbn; [by repeat constructor|]. apply list.Forall_cons in Hx as [Hyx Hx]. constructor; [by apply IH|]. apply Forall_app. split; [done|by repeat constructor].
Qed.

Lemma StronglySorted_rev {A} (R : A -> A -> Prop) l : StronglySorted R l -> StronglySorted (fun x y => R y x) (rev l).
Proof.
  induction 1 as [|x l Hl IH Hx]; cbn; [constructor|]. apply StronglySorted_snoc; [done|]. apply list.Forall_forall. intros y Hy. apply (proj1 (list.Forall_forall _ _) Hx). apply list_elem_of_In, in_rev. by apply list_elem_of_In.
Qed.
