(* ===== verification/Int32.v ===== *)
(** The bit operators of JavaScript: each converts its operands to 32 bits
    ([int32], [uint32]) and wraps its result around. *)
From S2P Require Import Prelude.

(** ** 32-bit operators *)

Definition uint32 (x : Z) : Z := x `mod` 2 ^ 32.
Definition int32 (x : Z) : Z := let u := uint32 x in if u <? 2 ^ 31 then u else u - 2 ^ 32.

(** [a & b], [~a], [a << n], [a >>> n]. *)
Definition js_and (a b : Z) : Z := Z.land (int32 a) (int32 b).
(** [a | b]. *)
Definition js_or (a b : Z) : Z := Z.lor (int32 a) (int32 b).
Definition js_not (a : Z) : Z := Z.lnot (int32 a).
Definition js_shl (a n : Z) : Z := int32 (Z.shiftl a (Z.land n 31)).
Definition js_ushr (a n : Z) : Z := Z.shiftr (uint32 a) (Z.land n 31).

(** ** Arithmetic *)

Lemma uint32_small x : 0 <= x < 2 ^ 32 -> uint32 x = x.
Proof. intros Hx. unfold uint32. by apply Z.mod_small. Qed.

Lemma int32_uint32 x : uint32 (int32 x) = uint32 x.
Proof.
  unfold int32. assert (0 <= uint32 x < 2 ^ 32) by (unfold uint32; apply Z.mod_pos_bound; lia).
  destruct (_ <? _); [by apply uint32_small|]. unfold uint32 at 1. replace (uint32 x - 2 ^ 32) with (uint32 x + (-1) * 2 ^ 32) by lia.
  rewrite Z_mod_plus_full. by apply Z.mod_small.
Qed.

Lemma ushr_div v n : 0 <= v < 2 ^ 32 -> 0 <= n < 32 -> js_ushr v n = v `div` 2 ^ n.
Proof.
  intros Hv Hn. unfold js_ushr. rewrite uint32_small by done. replace (Z.land n 31) with n; [apply Z.shiftr_div_pow2; lia|].
  change 31 with (Z.ones 5). rewrite Z.land_ones, Z.mod_small by lia. done.
Qed.

Lemma uint32_and a b : uint32 (Z.land a b) = Z.land (uint32 a) (uint32 b).
Proof.
  unfold uint32. rewrite <- !Z.land_ones by lia. apply Z.bits_inj'. intros i Hi. rewrite !Z.land_spec.
  by destruct (Z.testbit a i), (Z.testbit b i), (Z.testbit (Z.ones 32) i).
Qed.

Lemma and_uint32 a b : 0 <= a < 2 ^ 32 -> 0 <= b < 2 ^ 32 -> js_ushr (js_and a b) 0 = Z.land a b.
Proof.
  intros Ha Hb. unfold js_ushr, js_and. change (Z.land 0 31) with 0. rewrite Z.shiftr_0_r, uint32_and, !int32_uint32, !uint32_small by done. done.
Qed.

(** A shift of an octet by less than 24 keeps the sign. *)
Lemma shl_octet o n : 0 <= o <= 255 -> n = 8 \/ n = 16 -> js_shl o n = o * 2 ^ n.
Proof.
  intros Ho Hn. unfold js_shl, int32. replace (Z.land n 31) with n by (by destruct Hn as [-> | ->]).
  rewrite Z.shiftl_mul_pow2 by lia. rewrite uint32_small by (destruct Hn as [-> | ->]; lia).
  destruct (Z.ltb_spec (o * 2 ^ n) (2 ^ 31)); [done|]. destruct Hn as [-> | ->]; lia.
Qed.

Lemma shl_octet_24 o : 0 <= o <= 255 -> js_ushr (js_shl o 24) 0 = o * 2 ^ 24.
Proof.
  intros Ho. unfold js_ushr, js_shl. change (Z.land 0 31) with 0. change (Z.land 24 31) with 24. rewrite Z.shiftr_0_r, int32_uint32. rewrite Z.shiftl_mul_pow2 by lia. apply uint32_small. lia.
Qed.

(** A mask of [k] low ones takes the remainder, on either side of the sign bit. *)
Lemma land_int32_ones v k : 0 <= v < 2 ^ 32 -> 0 <= k <= 32 -> Z.land (int32 v) (Z.ones k) = v `mod` 2 ^ k.
Proof.
  intros Hv Hk. rewrite Z.land_ones by lia. unfold int32. rewrite uint32_small by done. destruct (_ <? _); [done|].
  replace (2 ^ 32) with (2 ^ (32 - k) * 2 ^ k) by (rewrite <- Z.pow_add_r by lia; f_equal; lia).
  replace (v - 2 ^ (32 - k) * 2 ^ k) with (v + (- 2 ^ (32 - k)) * 2 ^ k) by lia. apply Z_mod_plus_full.
Qed.

Lemma and_255 v : 0 <= v < 2 ^ 32 -> js_and v 255 = v `mod` 2 ^ 8.
Proof. intros Hv. unfold js_and. change (int32 255) with (Z.ones 8). apply land_int32_ones; lia. Qed.

(** ** Reading and appending bits

    A number kept modulo 2^32 stands for any number with the same last bits. *)

Lemma uint32_testbit a b n : uint32 a = uint32 b -> 0 <= n < 32 -> Z.testbit a n = Z.testbit b n.
Proof. intros E Hn. rewrite <- (Z.mod_pow2_bits_low a 32 n), <- (Z.mod_pow2_bits_low b 32 n) by lia. unfold uint32 in E. by rewrite E. Qed.

Lemma testbit_uint32 a b : (forall n, 0 <= n < 32 -> Z.testbit a n = Z.testbit b n) -> uint32 a = uint32 b.
Proof.
  intros Hn. apply Z.bits_inj_iff'. intros n Hge. unfold uint32. destruct (Z.lt_ge_cases n 32) as [Hlt|Hhi].
  - rewrite !Z.mod_pow2_bits_low by lia. apply Hn. lia.
  - by rewrite !Z.mod_pow2_bits_high by lia.
Qed.

Lemma land_31 n : 0 <= n < 32 -> Z.land n 31 = n.
Proof. intros Hn. change 31 with (Z.ones 5). rewrite Z.land_ones, Z.mod_small by lia. done. Qed.

(** [N * 2 ^ k + d] has the bits of both. *)
Lemma shift_add N k d n : 0 <= k -> 0 <= d < 2 ^ k -> 0 <= n -> Z.testbit (N * 2 ^ k + d) n = Z.testbit (Z.shiftl N k) n || Z.testbit d n.
Proof.
  intros Hk Hd Hn. rewrite <- Z.shiftl_mul_pow2 by lia.
  assert (Hdis : Z.land (Z.shiftl N k) d = 0).
  { apply Z.bits_inj_iff'. intros m Hm. rewrite Z.land_spec, Z.bits_0, Z.shiftl_spec by lia. destruct (Z.lt_ge_cases m k) as [Hlt|Hge].
    - by rewrite Z.testbit_neg_r by lia.
    - rewrite <- (Z.mod_small d (2 ^ k)) by lia. by rewrite Z.mod_pow2_bits_high, andb_false_r by lia. }
  by rewrite Z.add_nocarry_lxor, Z.lxor_lor, Z.lor_spec by done.
Qed.

Lemma append_bits v N k d : uint32 v = uint32 N -> 0 <= k < 32 -> 0 <= d < 2 ^ k -> uint32 (js_or (js_shl v k) d) = uint32 (N * 2 ^ k + d).
Proof.
  intros Hv Hk Hd. apply testbit_uint32. intros n Hn. rewrite shift_add by lia. unfold js_or, js_shl. rewrite land_31 by done.
  rewrite Z.lor_spec, (uint32_testbit (int32 d) d n), (uint32_testbit (int32 (int32 _)) (Z.shiftl v k) n) by (rewrite ?int32_uint32; (done || lia)).
  rewrite !Z.shiftl_spec by lia. f_equal. destruct (Z.lt_ge_cases n k) as [Hlt|Hge]; [by rewrite !Z.testbit_neg_r by lia|].
  apply uint32_testbit; [done|lia].
Qed.

(** Reading [w] bits at [j], when they are among the last 32. *)
Lemma read_bits v N j w : uint32 v = uint32 N -> 0 <= j < 32 -> 0 <= w < 32 -> j + w <= 32 ->
  js_and (js_ushr v j) (Z.ones w) = N `div` 2 ^ j `mod` 2 ^ w.
Proof.
  intros Hv Hj Hw Hjw. unfold js_and, js_ushr. rewrite land_31, Hv by done. assert (Ho : int32 (Z.ones w) = Z.ones w).
  { unfold int32. rewrite Z.ones_equiv. assert (0 < 2 ^ w <= 2 ^ 31) by (split; [lia|apply Z.pow_le_mono_r; lia]). rewrite uint32_small by lia.
    by rewrite (proj2 (Z.ltb_lt _ _)) by lia. }
  rewrite Ho. rewrite land_int32_ones; [|split; [apply Z.shiftr_nonneg; unfold uint32; apply Z.mod_pos_bound; lia|]|lia].
  - apply Z.bits_inj_iff'. intros n Hn. destruct (Z.lt_ge_cases n w) as [Hlt|Hge]; [|by rewrite !Z.mod_pow2_bits_high by lia].
    unfold uint32. rewrite !Z.mod_pow2_bits_low, Z.shiftr_spec, Z.div_pow2_bits, Z.mod_pow2_bits_low by lia. done.
  - assert (0 <= uint32 N < 2 ^ 32) by (unfold uint32; apply Z.mod_pos_bound; lia). rewrite Z.shiftr_div_pow2 by lia.
    apply Z.div_lt_upper_bound; [lia|]. assert (0 < 2 ^ j) by lia. nia.
Qed.
