(* ===== verification/JsString.v ===== *)
(** The string operations of JavaScript the program uses.

    A string is a sequence of code units. The model covers strings whose code
    units are below 256 (Latin-1): on those, [toLowerCase], [trim] and the
    character classes below are exactly JavaScript's. *)
From S2P Require Import Prelude.

#[global] Arguments String.append : simpl nomatch.

(** ** Characters *)

Definition code (c : ascii) : Z := Z.of_N (N_of_ascii c).
Definition chr (n : Z) : ascii := ascii_of_N (Z.to_N n).
Definition in_range (lo hi : Z) (c : ascii) : bool := (lo <=? code c) && (code c <=? hi).

Definition is_digit (c : ascii) : bool := in_range 48 57 c.
Definition is_lower (c : ascii) : bool := in_range 97 122 c.
Definition is_upper (c : ascii) : bool := in_range 65 90 c.
Definition is_lower_hex (c : ascii) : bool := is_digit c || in_range 97 102 c.
Definition is_char (d c : ascii) : bool := Ascii.eqb c d.

(** White space and line terminators below 256. *)
Definition is_space (c : ascii) : bool := in_range 9 13 c || (code c =? 32) || (code c =? 160).

(** The double quote, which no literal below spells. *)
Definition quote_mark : string := String (chr 34) "".

Definition lower_char (c : ascii) : ascii :=
  if is_upper c || (in_range 192 222 c && negb (code c =? 215)) then chr (code c + 32) else c.

Lemma code_bounds c : 0 <= code c < 256.
Proof. unfold code. pose proof (N_ascii_bounded c). lia. Qed.

Lemma chr_code c : chr (code c) = c.
Proof. unfold chr, code. rewrite N2Z.id. apply ascii_N_embedding. Qed.

Lemma code_chr n : 0 <= n < 256 -> code (chr n) = n.
Proof. intros H. unfold code, chr. rewrite N_ascii_embedding; lia. Qed.

Lemma code_inj c d : code c = code d -> c = d.
Proof. intros H. by rewrite <- (chr_code c), H, chr_code. Qed.

(** A property of one character decided on all 256 of them. *)
Definition all_chars : list ascii := List.map (fun n => chr (Z.of_nat n)) (List.seq 0 256).

Lemma elem_of_all_chars c : c ∈ all_chars.
Proof.
  unfold all_chars. apply list_elem_of_In, List.in_map_iff. exists (Z.to_nat (code c)).
  pose proof (code_bounds c). split; [|apply List.in_seq; lia].
  rewrite Z2Nat.id by lia. apply chr_code.
Qed.

Lemma all_chars_forall (p : ascii -> bool) : forallb p all_chars = true -> forall c, p c = true.
Proof. intros H c. eapply forallb_elem; [exact H|apply elem_of_all_chars]. Qed.

(** ** Whole strings *)

Fixpoint str_map (f : ascii -> ascii) (s : string) : string :=
  match s with "" => "" | String c s' => String (f c) (str_map f s') end%string.

Definition toLowerCase (s : string) : string := str_map lower_char s.

(** [s.replace(/[^...]/g, "")]: keep the characters of a class. *)
Fixpoint str_filter (p : ascii -> bool) (s : string) : string :=
  match s with
  | "" => ""
  | String c s' => if p c then String c (str_filter p s') else str_filter p s'
  end%string.

Fixpoint str_forallb (p : ascii -> bool) (s : string) : bool :=
  match s with "" => true | String c s' => p c && str_forallb p s' end%string.

Fixpoint str_existsb (p : ascii -> bool) (s : string) : bool :=
  match s with "" => false | String c s' => p c || str_existsb p s' end%string.

Fixpoint trimStart (s : string) : string :=
  match s with "" => "" | String c s' => if is_space c then trimStart s' else s end%string.

(** [trimEnd]: a string of white space alone becomes empty. *)
Fixpoint trimEnd (s : string) : string :=
  match s with
  | "" => ""
  | String c s' => if str_forallb is_space s then "" else String c (trimEnd s')
  end%string.

Definition trim (s : string) : string := trimEnd (trimStart s).

Fixpoint startsWith (s p : string) {struct p} : bool :=
  match p, s with
  | ""%string, _ => true
  | String d p', String c s' => Ascii.eqb c d && startsWith s' p'
  | String _ _, ""%string => false
  end.

(** [s.slice(n)] and [s.slice(0, n)] for a natural number [n]. *)
Fixpoint str_drop (n : nat) (s : string) : string :=
  match n, s with
  | O, _ => s
  | S n', String _ s' => str_drop n' s'
  | S _, ""%string => ""%string
  end.

Fixpoint str_take (n : nat) (s : string) : string :=
  match n, s with
  | O, _ => ""%string
  | S n', String c s' => String c (str_take n' s')
  | S _, ""%string => ""%string
  end.

(** [s.slice(0, -n)]. *)
Definition str_drop_last (n : nat) (s : string) : string := str_take (String.length s - n) s.

Definition endsWith (s suffix : string) : bool :=
  (String.length suffix <=? String.length s)%nat &&
  String.eqb (str_drop (String.length s - String.length suffix) s) suffix.

(** [s.split(c)] for a one-character separator: never the empty array. *)
Fixpoint split_on (c : ascii) (s : string) : list string :=
  match s with
  | ""%string => [""%string]
  | String d s' =>
      if Ascii.eqb d c then ""%string :: split_on c s'
      else match split_on c s' with
           | w :: ws => String d w :: ws
           | [] => [String d ""%string]
           end
  end.

(** [parts.join(sep)]. *)
Fixpoint join (sep : string) (l : list string) : string :=
  match l with
  | [] => ""
  | [w] => w
  | w :: ws => w +:+ sep +:+ join sep ws
  end.

(** [s.indexOf(c)], -1 when absent. *)
Fixpoint indexOf_from (c : ascii) (s : string) (i : Z) : Z :=
  match s with
  | ""%string => -1
  | String d s' => if Ascii.eqb d c then i else indexOf_from c s' (i + 1)
  end.

Definition indexOf (c : ascii) (s : string) : Z := indexOf_from c s 0.

(** Comparison with [<]: by code unit, a proper prefix first. *)
Fixpoint str_ltb (a b : string) : bool :=
  match a, b with
  | _, ""%string => false
  | ""%string, String _ _ => true
  | String x a', String y b' =>
      (code x <? code y) || ((code x =? code y) && str_ltb a' b')
  end.

(** [Number(s)] of a string of decimal digits, read exactly. *)
Fixpoint digits_value_acc (acc : Z) (s : string) : Z :=
  match s with
  | ""%string => acc
  | String c s' => digits_value_acc (10 * acc + (code c - 48)) s'
  end.

Definition digits_value (s : string) : Z := digits_value_acc 0 s.

(** [String(n)]: the decimal digits of [n], found from the last one. A number
    has at most one more decimal digit than its binary logarithm. *)
Fixpoint decimal (fuel : nat) (n : Z) (acc : string) : string :=
  match fuel with
  | O => acc
  | S fuel' =>
      let acc' := String (chr (48 + n mod 10)) acc in
      if n / 10 =? 0 then acc' else decimal fuel' (n / 10) acc'
  end.

Definition string_of_int (n : Z) : string :=
  if n <? 0 then "-" +:+ decimal (S (Z.to_nat (Z.log2 (- n)))) (- n) ""
  else decimal (S (Z.to_nat (Z.log2 n))) n "".

(** [s.padStart(2, "0")]. *)
Definition padStart2 (s : string) : string :=
  match s with
  | ""%string => "00"
  | String c ""%string => String (chr 48) (String c "")
  | _ => s
  end%string.

(** ** Lemmas *)

Lemma str_app_assoc a b c : (a +:+ b) +:+ c = a +:+ (b +:+ c).
Proof. induction a as [|x a IH]; simpl; [done|]. by rewrite IH. Qed.

Lemma str_app_nil_r a : a +:+ "" = a.
Proof. induction a as [|x a IH]; simpl; [done|]. by rewrite IH. Qed.

Lemma str_length_app a b : String.length (a +:+ b) = (String.length a + String.length b)%nat.
Proof. induction a as [|x a IH]; simpl; [done|]. by rewrite IH. Qed.

Lemma str_app_inv_l a b c : a +:+ b = a +:+ c -> b = c.
Proof. induction a as [|x a IH]; simpl; [done|]. intros [= H]. by apply IH. Qed.

Lemma str_app_inv_len a b c d :
  String.length a = String.length b -> a +:+ c = b +:+ d -> a = b /\ c = d.
Proof.
  revert b; induction a as [|x a IH]; intros [|y b]; simpl; try discriminate; [done|].
  intros [= Hl] [= -> H]. destruct (IH b Hl H) as [-> ->]. done.
Qed.

Lemma str_drop_app a b : str_drop (String.length a) (a +:+ b) = b.
Proof. induction a as [|x a IH]; simpl; [by destruct b|done]. Qed.

Lemma str_take_app a b : str_take (String.length a) (a +:+ b) = a.
Proof. induction a as [|x a IH]; simpl; [by destruct b|by rewrite IH]. Qed.

Lemma str_take_drop n s : str_take n s +:+ str_drop n s = s.
Proof. revert s; induction n as [|n IH]; intros [|c s]; simpl; [done..|]. by rewrite IH. Qed.

Lemma str_take_length n s : String.length (str_take n s) = Nat.min n (String.length s).
Proof. revert s. induction n as [|n IH]; intros [|c s]; try done. cbn. by rewrite IH. Qed.

Lemma str_drop_last_app a b : str_drop_last (String.length b) (a +:+ b) = a.
Proof.
  unfold str_drop_last. rewrite str_length_app.
  replace (_ + _ - _)%nat with (String.length a) by lia. apply str_take_app.
Qed.

Lemma endsWith_iff s suf : endsWith s suf = true <-> exists p, s = p +:+ suf.
Proof.
  unfold endsWith. rewrite andb_true_iff, Nat.leb_le, String.eqb_eq. split.
  - intros [Hl Hd]. exists (str_take (String.length s - String.length suf) s).
    rewrite <- Hd at 2. by rewrite str_take_drop.
  - intros [p ->]. rewrite str_length_app. split; [lia|].
    replace (_ + _ - _)%nat with (String.length p) by lia. apply str_drop_app.
Qed.

Lemma startsWith_iff s p : startsWith s p = true <-> exists t, s = p +:+ t.
Proof.
  revert s; induction p as [|d p IH]; intros s; simpl.
  - split; [|by destruct s]. intros _. by exists s.
  - destruct s as [|c s]; [split; [done|intros [t Ht]; discriminate]|].
    simpl. destruct (Ascii.eqb_spec c d) as [->|Hne]; simpl.
    + rewrite IH. split; [intros [t ->]; by exists t|intros [t [= ->]]; by exists t].
    + split; [done|]. intros [t [= ? ?]]. done.
Qed.

Lemma str_map_app f a b : str_map f (a +:+ b) = str_map f a +:+ str_map f b.
Proof. induction a as [|x a IH]; simpl; [done|]. by rewrite IH. Qed.

Lemma str_length_map f s : String.length (str_map f s) = String.length s.
Proof. induction s as [|x s IH]; simpl; congruence. Qed.

Lemma lower_char_idemp c : lower_char (lower_char c) = lower_char c.
Proof.
  apply Ascii.eqb_eq. revert c. apply all_chars_forall. vm_compute. reflexivity.
Qed.

Lemma toLowerCase_idemp s : toLowerCase (toLowerCase s) = toLowerCase s.
Proof.
  unfold toLowerCase. induction s as [|c s IH]; simpl; [done|].
  by rewrite lower_char_idemp, IH.
Qed.

Lemma toLowerCase_app a b : toLowerCase (a +:+ b) = toLowerCase a +:+ toLowerCase b.
Proof. apply str_map_app. Qed.

Lemma str_forallb_app p a b : str_forallb p (a +:+ b) = str_forallb p a && str_forallb p b.
Proof. induction a as [|x a IH]; simpl; [done|]. by rewrite IH, andb_assoc. Qed.

Lemma str_forallb_impl (p q : ascii -> bool) s :
  (forall c, p c = true -> q c = true) -> str_forallb p s = true -> str_forallb q s = true.
Proof.
  intros Hpq. induction s as [|c s IH]; simpl; [done|].
  rewrite !andb_true_iff. intros [H1 H2]. auto.
Qed.

Lemma str_filter_forallb p s : str_forallb p (str_filter p s) = true.
Proof. induction s as [|c s IH]; simpl; [done|]. destruct (p c) eqn:E; simpl; [by rewrite E|done]. Qed.

Lemma str_filter_id p s : str_forallb p s = true -> str_filter p s = s.
Proof.
  induction s as [|c s IH]; simpl; [done|]. rewrite andb_true_iff. intros [-> H].
  by rewrite IH.
Qed.

Lemma str_map_id f p s :
  (forall c, p c = true -> f c = c) -> str_forallb p s = true -> str_map f s = s.
Proof.
  intros Hf. induction s as [|c s IH]; simpl; [done|]. rewrite andb_true_iff. intros [Hc H].
  by rewrite Hf, IH.
Qed.

Lemma str_existsb_forallb p s : str_existsb p s = negb (str_forallb (fun c => negb (p c)) s).
Proof.
  induction s as [|c s IH]; simpl; [done|]. rewrite IH. by destruct (p c).
Qed.

Lemma trim_id p s :
  (forall c, p c = true -> is_space c = false) -> str_forallb p s = true -> trim s = s.
Proof.
  intros Hp. unfold trim. destruct s as [|c s]; [done|]. simpl. rewrite andb_true_iff.
  intros [Hc H]. rewrite (Hp c Hc). simpl. rewrite (Hp c Hc). simpl. f_equal.
  clear c Hc. induction s as [|c s IH]; [done|]. simpl in H |- *.
  apply andb_true_iff in H as [Hc H]. rewrite (Hp c Hc). simpl. by rewrite IH.
Qed.

(** *** Splitting and joining *)

Definition has_char (c : ascii) (s : string) : bool := str_existsb (is_char c) s.

Lemma split_on_nonempty c s : split_on c s <> [].
Proof. destruct s as [|d s]; simpl; [done|]. repeat case_match; done. Qed.

Lemma split_on_none c s : has_char c s = false -> split_on c s = [s].
Proof.
  unfold has_char, is_char. induction s as [|d s IH]; simpl; [done|].
  destruct (Ascii.eqb d c); simpl; [done|]. intros H. by rewrite IH.
Qed.

Lemma split_on_app c w s :
  has_char c w = false -> split_on c (w +:+ String c s) = w :: split_on c s.
Proof.
  unfold has_char, is_char. induction w as [|d w IH]; simpl; [by rewrite Ascii.eqb_refl|].
  destruct (Ascii.eqb d c); simpl; [done|]. intros H. by rewrite IH.
Qed.

Lemma join_split_on c s : join (String c "") (split_on c s) = s.
Proof.
  induction s as [|d s IH]; simpl; [done|].
  destruct (Ascii.eqb_spec d c) as [->|Hne]; [|destruct (split_on c s) as [|w [|v ws]]; simpl in *; by rewrite <- IH].
  destruct (split_on c s) as [|w ws] eqn:E; [by apply split_on_nonempty in E|].
  simpl in *. by rewrite IH.
Qed.

Lemma split_on_parts c s : Forall (fun w => has_char c w = false) (split_on c s).
Proof.
  unfold has_char, is_char. induction s as [|d s IH]; simpl; [by repeat constructor|]. destruct (Ascii.eqb d c) eqn:E; [by constructor|].
  destruct (split_on c s) as [|w ws]; [constructor; [simpl; by rewrite E|done]|]. inversion IH; subst. constructor; [simpl; by rewrite E|done].
Qed.

Lemma split_on_join c l :
  l <> [] -> forallb (fun w => negb (has_char c w)) l = true ->
  split_on c (join (String c "") l) = l.
Proof.
  induction l as [|w ws IH]; [done|]. intros _. simpl. rewrite andb_true_iff, negb_true_iff.
  intros [Hw Hws]. destruct ws as [|v vs]; [by apply split_on_none|].
  rewrite (split_on_app c w _ Hw). by rewrite IH.
Qed.

(** *** Numerals *)

Lemma digits_value_acc_app acc a b :
  digits_value_acc acc (a +:+ b) = digits_value_acc (digits_value_acc acc a) b.
Proof. revert acc; induction a as [|c a IH]; intros acc; simpl; [done|]. apply IH. Qed.

Lemma digits_value_acc_shift acc s :
  digits_value_acc acc s = acc * 10 ^ Z.of_nat (String.length s) + digits_value s.
Proof.
  unfold digits_value. revert acc. induction s as [|c s IH]; intros acc; simpl digits_value_acc.
  - simpl. lia.
  - rewrite (IH (10 * acc + _)), (IH (10 * 0 + _)). cbn [String.length].
    rewrite Nat2Z.inj_succ, Z.pow_succ_r by lia. lia.
Qed.

Lemma decimal_value fuel n acc :
  0 <= n < 2 ^ Z.of_nat fuel ->
  digits_value (decimal fuel n acc) = n * 10 ^ Z.of_nat (String.length acc) + digits_value acc.
Proof.
  revert n acc. induction fuel as [|fuel IH]; intros n acc Hn.
  - assert (n = 0) as -> by (simpl in Hn; lia). simpl. lia.
  - cbn [decimal]. rewrite Nat2Z.inj_succ, Z.pow_succ_r in Hn by lia.
    pose proof (Z.mod_pos_bound n 10 ltac:(lia)). pose proof (Z.div_mod n 10 ltac:(lia)).
    assert (Hd : digits_value (String (chr (48 + n mod 10)) acc) =
                 (n mod 10) * 10 ^ Z.of_nat (String.length acc) + digits_value acc).
    { unfold digits_value at 1. cbn [digits_value_acc]. rewrite code_chr by lia.
      rewrite digits_value_acc_shift. lia. }
    destruct (Z.eqb_spec (n / 10) 0) as [Hz|Hz].
    + rewrite Hd. rewrite Hz in *. lia.
    + rewrite IH by lia. rewrite Hd. cbn [String.length].
      rewrite Nat2Z.inj_succ, Z.pow_succ_r by lia. nia.
Qed.

Lemma digits_value_string_of_int n : 0 <= n -> digits_value (string_of_int n) = n.
Proof.
  intros Hn. unfold string_of_int. destruct (Z.ltb_spec n 0); [lia|].
  rewrite decimal_value; [change (digits_value "") with 0; change (10 ^ _) with 1; lia|].
  split; [done|].
  rewrite Nat2Z.inj_succ, Z2Nat.id by apply Z.log2_nonneg.
  destruct (Z.eq_dec n 0) as [->|]; [done|]. apply Z.log2_spec. lia.
Qed.

Lemma string_of_int_inj m n : 0 <= m -> 0 <= n -> string_of_int m = string_of_int n -> m = n.
Proof.
  intros Hm Hn H. by rewrite <- (digits_value_string_of_int m Hm), H, digits_value_string_of_int.
Qed.

(** A decision over the integers of an interval. *)
Lemma Z_interval_forall (p : Z -> bool) (n : nat) :
  forallb (fun i => p (Z.of_nat i)) (List.seq 0 n) = true ->
  forall z, 0 <= z < Z.of_nat n -> p z = true.
Proof.
  intros H z Hz. rewrite forallb_forall in H. specialize (H (Z.to_nat z)).
  rewrite Z2Nat.id in H by lia. apply H, List.in_seq. lia.
Qed.

(** *** The order of strings *)

Lemma str_ltb_irrefl s : str_ltb s s = false.
Proof. induction s as [|c s IH]; simpl; [done|]. by rewrite Z.ltb_irrefl, Z.eqb_refl, IH. Qed.

Lemma str_ltb_trans a b c : str_ltb a b = true -> str_ltb b c = true -> str_ltb a c = true.
Proof.
  revert b c; induction a as [|x a IH]; intros [|y b] [|z c]; simpl; try done.
  rewrite !orb_true_iff, !andb_true_iff, !Z.ltb_lt, !Z.eqb_eq.
  intros [H1|[H1 H1']] [H2|[H2 H2']]; [left; lia|left; lia|left; lia|].
  right. split; [lia|]. by apply (IH b).
Qed.

Lemma str_ltb_total a b : str_ltb a b = false -> str_ltb b a = false -> a = b.
Proof.
  revert b; induction a as [|x a IH]; intros [|y b]; simpl; try done.
  intros H1 H2. apply orb_false_iff in H1 as [H1 H1'], H2 as [H2 H2'].
  apply Z.ltb_ge in H1, H2. assert (code x = code y) as E by lia.
  rewrite E, Z.eqb_refl in H1', H2'. simpl in H1', H2'.
  rewrite (code_inj _ _ E). f_equal. auto.
Qed.

#[export] Hint Rewrite str_app_assoc str_app_nil_r str_length_app toLowerCase_app : kiosk.

(** Strings by their character codes, as [<] compares them. *)
Definition by_code (a b : string) : Z := if String.eqb a b then 0 else if str_ltb a b then -1 else 1.

Lemma by_code_strict : StrictCmp by_code.
Proof.
  unfold by_code. constructor.
  - intros x y. rewrite (String.eqb_sym y x). destruct (String.eqb_spec x y) as [->|Hne]; [done|].
    destruct (str_ltb x y) eqn:E1, (str_ltb y x) eqn:E2; try done.
    + pose proof (str_ltb_trans _ _ _ E1 E2) as E. by rewrite str_ltb_irrefl in E.
    + exfalso. by apply Hne, str_ltb_total.
  - intros x y z. destruct (String.eqb_spec x y) as [->|H1]; [done|]. destruct (String.eqb_spec y z) as [->|H2]; [by destruct (String.eqb_spec x z)|].
    destruct (str_ltb x y) eqn:E1; [|lia]. destruct (str_ltb y z) eqn:E2; [|lia].
    rewrite (str_ltb_trans _ _ _ E1 E2). by destruct (String.eqb x z).
Qed.

(** *** Characters a text does not have *)

Lemma has_char_absent c p s : (forall d, p d = true -> is_char c d = false) -> str_forallb p s = true -> has_char c s = false.
Proof.
  intros Hp Hs. unfold has_char. rewrite str_existsb_forallb. apply negb_false_iff. revert Hs. apply str_forallb_impl.
  intros d Hd. by rewrite (Hp d Hd).
Qed.

Lemma indexOf_from_name c a b i : has_char c a = false -> indexOf_from c (a +:+ String c b) i = i + Z.of_nat (String.length a).
Proof.
  revert i. induction a as [|d a IH]; intros i; cbn [has_char str_existsb String.append indexOf_from String.length].
  - intros _. unfold is_char. rewrite Ascii.eqb_refl. lia.
  - intros [Hd Ha]%orb_false_iff. unfold is_char in *. rewrite Hd. rewrite IH by done. lia.
Qed.

Lemma has_char_app c a b : has_char c (a +:+ b) = has_char c a || has_char c b.
Proof. unfold has_char. induction a as [|d a IH]; [done|]. cbn. by rewrite IH, orb_assoc. Qed.

Lemma decimal_digits fuel : forall n acc, str_forallb is_digit acc = true -> str_forallb is_digit (decimal fuel n acc) = true.
Proof.
  induction fuel as [|fuel IH]; intros n acc Hacc; [done|]. cbn [decimal].
  assert (Hd : str_forallb is_digit (String (chr (48 + n `mod` 10)) acc) = true).
  { cbn [str_forallb]. rewrite Hacc, andb_true_r. apply (Z_interval_forall (fun d => is_digit (chr (48 + d))) 10); [vm_compute; reflexivity|div_lia]. }
  destruct (_ =? 0); auto.
Qed.

Lemma string_of_int_digits n : 0 <= n -> str_forallb is_digit (string_of_int n) = true.
Proof. intros Hn. unfold string_of_int. rewrite (proj2 (Z.ltb_ge _ _)) by lia. by apply decimal_digits. Qed.

Lemma int_has_no c n : is_digit c = false -> 0 <= n -> has_char c (string_of_int n) = false.
Proof.
  intros Hc Hn. apply (has_char_absent _ is_digit); [|by apply string_of_int_digits]. intros d Hd. unfold is_char.
  destruct (Ascii.eqb_spec d c); congruence.
Qed.

(** Texts joined by a character neither has on the left are the same texts. *)
Lemma str_sep_inj c a : forall b x y,
  has_char c a = false -> has_char c b = false -> a +:+ String c x = b +:+ String c y -> a = b /\ x = y.
Proof.
  unfold has_char. induction a as [|d a IH]; intros [|e b] x y Ha Hb E; cbn in *.
  - by injection E.
  - injection E as -> _. unfold is_char in Hb. by rewrite Ascii.eqb_refl in Hb.
  - injection E as -> _. unfold is_char in Ha. by rewrite Ascii.eqb_refl in Ha.
  - apply orb_false_iff in Ha as [_ Ha], Hb as [_ Hb]. injection E as -> E. destruct (IH b x y Ha Hb E) as [-> ->]. done.
Qed.
