(* ===== verification/Regex.v ===== *)
(** Regular expressions: the program validates most of its input with patterns
    of the form [/^...$/].

    A pattern is written with the constructors of [re]; [re_test] decides, by
    derivatives, whether it matches a whole string, and [re_test_iff] says
    that this is the language the pattern denotes. Backtracking does not
    matter here: a fully anchored [test] answers membership alone. *)
From S2P Require Import Prelude JsString.

Inductive re : Type :=
| RNone
| REps
| RClass (p : ascii -> bool)
| RCat (r1 r2 : re)
| RAlt (r1 r2 : re)
| RStar (r : re).

Inductive re_match : re -> string -> Prop :=
| match_eps : re_match REps ""
| match_class p c : p c = true -> re_match (RClass p) (String c "")
| match_cat r1 r2 s1 s2 : re_match r1 s1 -> re_match r2 s2 -> re_match (RCat r1 r2) (s1 +:+ s2)
| match_alt_l r1 r2 s : re_match r1 s -> re_match (RAlt r1 r2) s
| match_alt_r r1 r2 s : re_match r2 s -> re_match (RAlt r1 r2) s
| match_star_nil r : re_match (RStar r) ""
| match_star_cons r s1 s2 : re_match r s1 -> re_match (RStar r) s2 -> re_match (RStar r) (s1 +:+ s2).

(** The other forms of the syntax: a literal, [r?], [r+], [r{n}], [r{0,n}], [r{m,n}]. *)
Definition RChar (c : ascii) : re := RClass (is_char c).
Fixpoint RLit (s : string) : re :=
  match s with ""%string => REps | String c s' => RCat (RChar c) (RLit s') end.
Definition ROpt (r : re) : re := RAlt r REps.
Definition RPlus (r : re) : re := RCat r (RStar r).
Fixpoint RRep (n : nat) (r : re) : re :=
  match n with O => REps | S n' => RCat r (RRep n' r) end.
Fixpoint RUpto (n : nat) (r : re) : re :=
  match n with O => REps | S n' => ROpt (RCat r (RUpto n' r)) end.
Definition RBetween (m n : nat) (r : re) : re := RCat (RRep m r) (RUpto (n - m) r).

(** ** The matcher *)

Fixpoint nullable (r : re) : bool :=
  match r with
  | RNone | RClass _ => false
  | REps | RStar _ => true
  | RCat r1 r2 => nullable r1 && nullable r2
  | RAlt r1 r2 => nullable r1 || nullable r2
  end.

Definition cat (r1 r2 : re) : re :=
  match r1 with RNone => RNone | REps => r2 | _ => RCat r1 r2 end.

Definition alt (r1 r2 : re) : re :=
  match r1, r2 with RNone, _ => r2 | _, RNone => r1 | _, _ => RAlt r1 r2 end.

Fixpoint deriv (c : ascii) (r : re) : re :=
  match r with
  | RNone | REps => RNone
  | RClass p => if p c then REps else RNone
  | RCat r1 r2 =>
      if nullable r1 then alt (cat (deriv c r1) r2) (deriv c r2) else cat (deriv c r1) r2
  | RAlt r1 r2 => alt (deriv c r1) (deriv c r2)
  | RStar r1 => cat (deriv c r1) (RStar r1)
  end.

Fixpoint re_test (r : re) (s : string) : bool :=
  match s with ""%string => nullable r | String c s' => re_test (deriv c r) s' end.

(** ** Its correctness *)

Ltac re_invert H := inversion H; subst; clear H.

Lemma match_cat_iff r1 r2 s :
  re_match (RCat r1 r2) s <-> exists s1 s2, s = s1 +:+ s2 /\ re_match r1 s1 /\ re_match r2 s2.
Proof.
  split; [intros H; re_invert H; eauto 10|]. intros (s1 & s2 & -> & H1 & H2). by constructor.
Qed.

Lemma match_alt_iff r1 r2 s : re_match (RAlt r1 r2) s <-> re_match r1 s \/ re_match r2 s.
Proof. split; [intros H; re_invert H; auto|]. intros [H|H]; by constructor. Qed.

Lemma match_none s : ~ re_match RNone s.
Proof. inversion 1. Qed.

Lemma match_eps_iff s : re_match REps s <-> s = ""%string.
Proof. split; [by inversion 1|]. intros ->. constructor. Qed.

Lemma match_class_iff p s :
  re_match (RClass p) s <-> exists c, s = String c "" /\ p c = true.
Proof. split; [inversion 1; eauto|]. intros (c & -> & H). by constructor. Qed.

Lemma match_cat_smart r1 r2 s : re_match (cat r1 r2) s <-> re_match (RCat r1 r2) s.
Proof.
  destruct r1; simpl; try done; rewrite match_cat_iff.
  - split; [by intros ?%match_none|]. intros (s1 & s2 & _ & H & _). by apply match_none in H.
  - split; [intros H; exists ""%string, s; by repeat constructor|].
    intros (s1 & s2 & -> & H1%match_eps_iff & H2). by subst.
Qed.

Lemma match_alt_smart r1 r2 s : re_match (alt r1 r2) s <-> re_match (RAlt r1 r2) s.
Proof.
  rewrite match_alt_iff. pose proof (match_none s).
  destruct r1, r2; simpl; try rewrite match_alt_iff; tauto.
Qed.

Lemma nullable_iff r : nullable r = true <-> re_match r "".
Proof.
  induction r as [| |p|r1 IH1 r2 IH2|r1 IH1 r2 IH2|r IH]; simpl.
  - split; [done|by intros ?%match_none].
  - split; [constructor|done].
  - split; [done|]. intros H; re_invert H.
  - rewrite andb_true_iff, IH1, IH2, match_cat_iff. split.
    + intros [H1 H2]. by exists ""%string, ""%string.
    + intros (s1 & s2 & H & H1 & H2). destruct s1, s2; try discriminate. done.
  - by rewrite orb_true_iff, IH1, IH2, match_alt_iff.
  - split; [constructor|done].
Qed.

(** A nonempty match of a star starts with a nonempty match of its body. *)
Lemma match_star_cons_inv r c s :
  re_match (RStar r) (String c s) ->
  exists s1 s2, s = s1 +:+ s2 /\ re_match r (String c s1) /\ re_match (RStar r) s2.
Proof.
  remember (RStar r) as q eqn:Eq. remember (String c s) as t eqn:Et. intros H.
  revert r c s Eq Et. induction H as [| | | | | |r s1 s2 H1 _ H2 IH2]; intros q c0 s0 Eq Et; try discriminate.
  injection Eq as <-. destruct s1 as [|d s1]; simpl in Et.
  - subst. by apply IH2.
  - injection Et as -> <-. by exists s1, s2.
Qed.

Lemma deriv_iff c r s : re_match (deriv c r) s <-> re_match r (String c s).
Proof.
  revert s. induction r as [| |p|r1 IH1 r2 IH2|r1 IH1 r2 IH2|r IH]; intros s; simpl.
  - split; inversion 1.
  - split; inversion 1.
  - rewrite match_class_iff. destruct (p c) eqn:E.
    + rewrite match_eps_iff. split; [intros ->; eauto|]. by intros (d & [= -> ->] & _).
    + split; [by intros ?%match_none|]. intros (d & [= -> ->] & H). congruence.
  - assert (Hcat : re_match (cat (deriv c r1) r2) s <->
                   exists s1 s2, s = s1 +:+ s2 /\ re_match r1 (String c s1) /\ re_match r2 s2).
    { rewrite match_cat_smart, match_cat_iff. by setoid_rewrite IH1. }
    rewrite match_cat_iff.
    assert (Hsplit : (exists s1 s2, String c s = s1 +:+ s2 /\ re_match r1 s1 /\ re_match r2 s2) <->
                     (exists s1 s2, s = s1 +:+ s2 /\ re_match r1 (String c s1) /\ re_match r2 s2) \/
                     (nullable r1 = true /\ re_match r2 (String c s))).
    { rewrite nullable_iff. split.
      - intros ([|d s1] & s2 & He & H1 & H2); simpl in He; [subst; by right|].
        injection He as <- ->. left. eauto.
      - intros [(s1 & s2 & -> & H1 & H2)|[H1 H2]]; [by exists (String c s1), s2|].
        by exists ""%string, (String c s). }
    rewrite Hsplit. destruct (nullable r1).
    + rewrite match_alt_smart, match_alt_iff, Hcat, IH2. naive_solver.
    + rewrite Hcat. naive_solver.
  - by rewrite match_alt_smart, !match_alt_iff, IH1, IH2.
  - rewrite match_cat_smart, match_cat_iff. setoid_rewrite IH. split.
    + intros (s1 & s2 & -> & H1 & H2).
      change (String c (s1 +:+ s2)) with (String c s1 +:+ s2). by constructor.
    + intros H. apply match_star_cons_inv in H. naive_solver.
Qed.

Theorem re_test_iff r s : re_test r s = true <-> re_match r s.
Proof.
  revert r; induction s as [|c s IH]; intros r; simpl; [apply nullable_iff|].
  by rewrite IH, deriv_iff.
Qed.

(** ** What a match says of its characters and its length *)

Fixpoint re_within (p : ascii -> bool) (r : re) : bool :=
  match r with
  | RNone | REps => true
  | RClass q => forallb (fun c => implb (q c) (p c)) all_chars
  | RCat r1 r2 | RAlt r1 r2 => re_within p r1 && re_within p r2
  | RStar r1 => re_within p r1
  end.

Lemma re_within_sound p r s :
  re_within p r = true -> re_match r s -> str_forallb p s = true.
Proof.
  intros Hr H. induction H as [|q c Hc|r1 r2 s1 s2 _ IH1 _ IH2|r1 r2 s _ IH|r1 r2 s _ IH|r|r s1 s2 _ IH1 _ IH2];
    cbn [re_within] in Hr; bool_to_prop; rewrite ?str_forallb_app; auto.
  - pose proof (all_chars_forall _ Hr c) as Hc'. simpl in Hc'. rewrite Hc in Hc'.
    simpl in *. by rewrite Hc'.
  - by rewrite IH1, IH2.
  - by rewrite IH1, IH2.
Qed.

Lemma re_test_within p r s : re_within p r = true -> re_test r s = true -> str_forallb p s = true.
Proof. intros Hp H%re_test_iff. by eapply re_within_sound. Qed.

Fixpoint re_minlen (r : re) : nat :=
  match r with
  | RNone | REps | RStar _ => 0
  | RClass _ => 1
  | RCat r1 r2 => re_minlen r1 + re_minlen r2
  | RAlt r1 r2 => Nat.min (re_minlen r1) (re_minlen r2)
  end.

Lemma re_minlen_sound r s : re_match r s -> (re_minlen r <= String.length s)%nat.
Proof. induction 1; simpl; rewrite ?str_length_app; lia. Qed.

Fixpoint re_maxlen (r : re) : option nat :=
  match r with
  | RNone | REps => Some 0%nat
  | RClass _ => Some 1%nat
  | RCat r1 r2 => a ← re_maxlen r1; b ← re_maxlen r2; Some (a + b)%nat
  | RAlt r1 r2 => a ← re_maxlen r1; b ← re_maxlen r2; Some (Nat.max a b)
  | RStar _ => None
  end.

Lemma re_maxlen_sound r s n :
  re_match r s -> re_maxlen r = Some n -> (String.length s <= n)%nat.
Proof.
  intros H; revert n; induction H; intros n Hn; simpl in *; simplify_option_eq;
    rewrite ?str_length_app;
    repeat match goal with IH : forall m, Some _ = Some m -> _ |- _ => specialize (IH _ eq_refl) end;
    lia.
Qed.

(** Peel a match of a concatenation of classes into its characters. *)
Ltac re_peel :=
  repeat match goal with
  | H : re_test _ _ = true |- _ => apply re_test_iff in H
  | H : re_match (RCat _ _) _ |- _ =>
      apply match_cat_iff in H; let s1 := fresh "s" in let s2 := fresh "s" in
      let H1 := fresh "M" in let H2 := fresh "M" in destruct H as (s1 & s2 & -> & H1 & H2)
  | H : re_match (RAlt _ _) _ |- _ => apply match_alt_iff in H; destruct H as [H|H]
  | H : re_match (RClass _) _ |- _ =>
      apply match_class_iff in H; let c := fresh "c" in let Hc := fresh "C" in
      destruct H as (c & -> & Hc)
  | H : re_match (RChar _) _ |- _ => unfold RChar in H
  | H : re_match REps _ |- _ => apply match_eps_iff in H; subst
  end; simpl String.append in *.
