(* ===== verification/Scan.v ===== *)
(** Global replacements, matches and splits: [s.replace(/.../g, f)],
    [s.match(/.../g)] and [s.split(...)]. A pattern is a matcher, which reads a
    match at the start of a text, and gives what it stands for and the rest. The
    matchers of the program read at least one character ([consumes]), so as
    many steps as the text has characters are enough. *)
From S2P Require Import Prelude JsString Regex.

Definition matcher : Type := string -> option (string * string).

(** The longest start of a text of characters of a class, and the rest. *)
Fixpoint span (p : ascii -> bool) (s : string) : string * string :=
  match s with
  | ""%string => (""%string, ""%string)
  | String c t => if p c then let '(a, b) := span p t in (String c a, b) else (""%string, s)
  end.

(** What follows a given start. *)
Definition after (part s : string) : option string := if startsWith s part then Some (str_drop (String.length part) s) else None.

(** [s.indexOf(part)]. *)
Fixpoint str_index (part s : string) : option nat :=
  if startsWith s part then Some O else match s with ""%string => None | String _ t => S <$> str_index part t end.

(** [s.lastIndexOf(c)], plus one. *)
Fixpoint last_index (c : ascii) (s : string) : nat :=
  match s with
  | ""%string => O
  | String d t => match last_index c t with O => if is_char c d then 1%nat else O | S n => S (S n) end
  end.

Fixpoint replace_steps (n : nat) (m : matcher) (s : string) : string :=
  match n, s with
  | O, _ | _, ""%string => s
  | S n', String c t => match m s with Some (r, rest) => r +:+ replace_steps n' m rest | None => String c (replace_steps n' m t) end
  end.
Definition replace_all (m : matcher) (s : string) : string := replace_steps (String.length s) m s.

Fixpoint match_steps (n : nat) (m : matcher) (s : string) : list string :=
  match n, s with
  | O, _ | _, ""%string => []
  | S n', String _ t => match m s with Some (r, rest) => r :: match_steps n' m rest | None => match_steps n' m t end
  end.
Definition match_all (m : matcher) (s : string) : list string := match_steps (String.length s) m s.

Fixpoint split_steps (n : nat) (m : string -> option string) (s : string) : list string :=
  match n, s with
  | O, _ | _, ""%string => [s]
  | S n', String c t =>
      match m s with
      | Some rest => ""%string :: split_steps n' m rest
      | None => match split_steps n' m t with w :: ws => String c w :: ws | [] => [String c ""] end
      end
  end.
Definition split_all (m : string -> option string) (s : string) : list string := split_steps (String.length s) m s.

(** The end of a line: a line feed, or a carriage return and a line feed. *)
Definition CR : ascii := chr 13.
Definition LF_ : ascii := chr 10.
Definition eol (s : string) : option string :=
  match s with
  | String c t =>
      if is_char LF_ c then Some t
      else if is_char CR c then match t with String d u => if is_char LF_ d then Some u else None | _ => None end
      else None
  | _ => None
  end.
(** What [.] does not match, and where [^] and [$] match with the flag m. *)
Definition is_eol_char (c : ascii) : bool := is_char LF_ c || is_char CR c.
Definition at_eol (s : string) : bool := match s with ""%string => true | String c _ => is_eol_char c end.

(** ** A pattern at the start of a text *)

Fixpoint re_prefix (r : re) (stop : string -> bool) (s : string) : bool :=
  match r with
  | RNone => false
  | _ => (nullable r && stop s) || match s with ""%string => false | String c t => re_prefix (deriv c r) stop t end
  end.

Lemma re_prefix_iff stop s : forall r, re_prefix r stop s = true <-> exists a b, s = a +:+ b /\ re_match r a /\ stop b = true.
Proof.
  assert (Hstep : forall r s, re_prefix r stop s = (nullable r && stop s) || match s with ""%string => false | String c t => re_prefix (deriv c r) stop t end).
  { intros r [|c t]; destruct r; cbn; try done. by destruct t. }
  induction s as [|c s IH]; intros r; rewrite Hstep, orb_true_iff, andb_true_iff, nullable_iff.
  - split; [intros [[Hn Hs]|]; [|done]; by exists ""%string, ""%string|]. intros ([|d a] & [|e b] & E & Hm & Hs); try discriminate. by left.
  - rewrite IH. split.
    + intros [[Hn Hs]|(a & b & -> & Hm%deriv_iff & Hs)]; [by exists ""%string, (String c s)|by exists (String c a), b].
    + intros ([|d a] & b & E & Hm & Hs); cbn in E; [left; by subst|right]. injection E as <- ->. exists a, b. by rewrite deriv_iff.
Qed.

(** The first line whose start matches: how far into the text it starts. *)
Fixpoint line_matching (r : re) (stop : string -> bool) (at_start : bool) (s : string) : option nat :=
  if at_start && re_prefix r stop s then Some O
  else match s with ""%string => None | String c t => S <$> line_matching r stop (is_eol_char c) t end.

(** ** Enough steps *)

Definition consumes (m : matcher) : Prop := forall s r rest, m s = Some (r, rest) -> (String.length rest < String.length s)%nat.

Lemma replace_steps_enough m : consumes m -> forall n k s, (String.length s <= n)%nat -> (String.length s <= k)%nat -> replace_steps n m s = replace_steps k m s.
Proof.
  intros Hm. induction n as [|n IH]; intros k s Hn Hk.
  - destruct s; [by destruct k|cbn in Hn; lia].
  - destruct s as [|c t]; [by destruct k|]. destruct k as [|k]; [cbn in Hk; lia|]. cbn [replace_steps]. cbn in Hn, Hk. destruct (m (String c t)) as [[r rest]|] eqn:E; f_equal; apply IH; try lia.
    all: apply Hm in E; cbn in E; lia.
Qed.

Lemma replace_all_step m c t : consumes m ->
  replace_all m (String c t) = match m (String c t) with Some (r, rest) => r +:+ replace_all m rest | None => String c (replace_all m t) end.
Proof.
  intros Hm. unfold replace_all at 1. cbn [String.length replace_steps]. destruct (m (String c t)) as [[r rest]|] eqn:E; [|done]. f_equal. apply Hm in E. cbn in E. apply replace_steps_enough; [done|lia|lia].
Qed.

Lemma span_app p s : fst (span p s) +:+ snd (span p s) = s.
Proof. induction s as [|c s IH]; [done|]. cbn. destruct (p c); [|done]. destruct (span p s) as [a b]. cbn in *. by rewrite IH. Qed.

Lemma span_length p s : (String.length (snd (span p s)) <= String.length s)%nat.
Proof. rewrite <- (span_app p s) at 2. rewrite str_length_app. lia. Qed.

Lemma span_forallb p s : str_forallb p (fst (span p s)) = true.
Proof. induction s as [|c s IH]; [done|]. cbn. destruct (p c) eqn:E; [|done]. destruct (span p s) as [a b]. cbn in *. by rewrite E. Qed.

Lemma str_index_take part s n : str_index part s = Some n -> s = str_take n s +:+ str_drop n s /\ startsWith (str_drop n s) part = true /\ (n <= String.length s)%nat.
Proof.
  intros H. split; [by rewrite str_take_drop|]. revert n H. induction s as [|c s IH]; intros n.
  - cbn. destruct (startsWith "" part) eqn:E; [|done]. by intros [= <-].
  - cbn [str_index]. destruct (startsWith (String c s) part) eqn:E; [intros [= <-]; cbn [str_drop String.length]; split; [done|lia]|]. destruct (str_index part s) as [k|]; [|done]. cbn. intros [= <-]. destruct (IH k eq_refl). split; [done|lia].
Qed.
