(* ===== verification/Platform.v ===== *)
(** What the Workers runtime provides and the program only calls: the WHATWG
    URL parser and Web Crypto. Each is an interface, a class whose instance is
    an argument of the definitions that use it; [toy_url] and [toy_crypto] are
    instances to run the definitions with. *)
From S2P Require Import Prelude JsString.

(** The components of a parsed [URL] the program reads. *)
Record URL : Type := mkURL {
  url_href : string;
  url_origin : string;
  url_protocol : string;
  url_username : string;
  url_password : string;
  url_host : string;
  url_hostname : string;
  url_pathname : string;
  url_search : string;
  url_hash : string
}.

(** [new URL(s)] and [new URL(s, base)], [None] where it throws;
    [url.searchParams.get(name)]; [encodeURIComponent]. *)
Class UrlParser : Type := {
  parseURL : string -> option URL;
  resolveURL : string -> string -> option URL;
  searchParam : URL -> string -> option string;
  encodeURIComponent : string -> string
}.

(** The digests and keyed hashes of Web Crypto, on the strings the program
    passes: SHA-256 in hexadecimal, PBKDF2 of a password under a salt, and
    HMAC under a key. *)
Class WebCrypto : Type := {
  sha256Hex : string -> string;
  pbkdf2 : string -> list Z -> list Z;
  hmacSha256 : string -> list Z -> list Z
}.

(** [String.prototype.localeCompare], the collation of the runtime's locale, and
    the same with sensitivity base (no case, no accents). What a caller that
    sorts with it relies on is that it is a total preorder. *)
Class Collation : Type := {
  localeCompare : string -> string -> Z;
  localeCompareBase : string -> string -> Z
}.
Class LawfulCollation (C : Collation) : Prop := { localeCompare_order :: Comparator localeCompare }.

(** ** Instances that run *)

(** Collation by character codes. *)
Definition code_collation : Collation :=
  {| localeCompare := by_code; localeCompareBase := fun a b => by_code (toLowerCase a) (toLowerCase b) |}.

Lemma code_collation_lawful : LawfulCollation code_collation.
Proof. constructor. apply strict_cmp_comparator, by_code_strict. Qed.

(** Enough of a URL parser for addresses of the form [scheme://host/rest]. *)
Definition toy_parse (s : string) : option URL :=
  match split_on "/" s with
  | scheme :: ""%string :: host :: rest =>
      let name := toLowerCase host in
      if String.eqb name "" then None
      else Some (mkURL (scheme +:+ "//" +:+ name +:+ "/" +:+ join "/" rest) (scheme +:+ "//" +:+ name) scheme "" ""
                   name (default name (head (split_on ":" name))) ("/" +:+ join "/" rest) "" "")
  | _ => None
  end.

Definition toy_url : UrlParser :=
  {| parseURL := toy_parse;
     resolveURL := fun s base => if startsWith s "/" then toy_parse (base +:+ s) else toy_parse s; searchParam := fun _ _ => None; encodeURIComponent := fun s => s |}.

Definition toy_crypto : WebCrypto :=
  {| sha256Hex := fun s => "h" +:+ s; pbkdf2 := fun _ salt => salt; hmacSha256 := fun _ bytes => bytes |}.
