(* ===== verification/Db.v ===== *)
(** The database: the rows of the tables the modelled code reads and writes,
    and the queries of src/cloudflare-control/src/db.ts those components share.

    A table is the list of its rows in insertion order. A query is a function
    of the tables; a statement that writes returns the new database. A row
    keeps the columns the modelled code reads. *)
From S2P Require Import Prelude JsString.

Inductive UserRole : Type := super_admin | org_admin.
Inductive TenantStatus : Type := active | pending | rejected | suspended.
Inductive KioskMode : Type := portal | single_url.
Inductive LicensePlan : Type := education | evaluation | subscriber | commercial.
Inductive UpdateChannel : Type := stable | beta.
Inductive TenantUserRole : Type := tu_org_admin | tu_sub_admin | tu_operator | tu_assistant | tu_content_manager.

#[export] Instance UserRole_eq_dec : EqDecision UserRole.
Proof. solve_decision. Defined.
#[export] Instance TenantStatus_eq_dec : EqDecision TenantStatus.
Proof. solve_decision. Defined.
#[export] Instance KioskMode_eq_dec : EqDecision KioskMode.
Proof. solve_decision. Defined.
#[export] Instance LicensePlan_eq_dec : EqDecision LicensePlan.
Proof. solve_decision. Defined.
#[export] Instance UpdateChannel_eq_dec : EqDecision UpdateChannel.
Proof. solve_decision. Defined.

(** ** What a workstation says about its update (releases.ts) *)

Inductive UpdatePhase : Type :=
| live | idle | checking | downloading | ready | staged | installing | up_to_date | phase_error.
Inductive ReleaseKind : Type := feature | security.
Inductive SupportStatus : Type := supported | security_only | end_of_life.

#[export] Instance UpdatePhase_eq_dec : EqDecision UpdatePhase.
Proof. solve_decision. Defined.
#[export] Instance ReleaseKind_eq_dec : EqDecision ReleaseKind.
Proof. solve_decision. Defined.
#[export] Instance SupportStatus_eq_dec : EqDecision SupportStatus.
Proof. solve_decision. Defined.

Record UpdateReport : Type := mkUpdateReport {
  ur_phase : UpdatePhase;
  ur_version : option string;
  ur_progress : option Z;
  ur_detail : option string;
  ur_kind : option ReleaseKind;
  ur_since : option Z
}.

#[export] Instance UpdateReport_eq_dec : EqDecision UpdateReport.
Proof. solve_decision. Defined.

(** ** Rows *)

Record Tenant : Type := mkTenant {
  t_id : string;
  t_user_id : string;
  t_name : string;
  t_subdomain : string;
  t_chosen_subdomain : option string;
  t_status : TenantStatus;
  t_mode : KioskMode;
  t_default_url : string;
  t_custom_domain : option string;
  t_broadcast_url : option string;
  t_broadcast_epoch : Z;
  t_home_route : option string;
  t_online_workstations : Z;
  t_http_workstations : Z;
  t_update_channel : UpdateChannel;
  t_lan_sharing : Z;
  t_usage_sites : Z;
  t_printing_enabled : Z;
  t_home_reset : Z;
  t_workstation_limit : Z;
  t_license_plan : option LicensePlan;
  t_license_expires_at : option Z;
  t_trial_started_at : option Z;
  t_updated_at : Z
}.

Record TenantUser : Type := mkTenantUser {
  tu_tenant_id : string;
  tu_user_id : string;
  tu_role : TenantUserRole;
  (** The permissions column, parsed: [None] when it is not a JSON array of strings. *)
  tu_permissions : option (list string)
}.

Record SessionRow : Type := mkSessionRow {
  s_token : string;
  s_user_id : string;
  s_tenant_id : option string;
  s_role : UserRole;
  s_expires_at : Z;
  s_hashed : bool
}.

(** The session a request carries: what [getSession] gives. *)
Record Session : Type := mkSession {
  token : string;
  user_id : string;
  tenant_id : option string;
  role : UserRole;
  expires_at : Z
}.

Record LoginAttempt : Type := mkLoginAttempt {
  la_identifier : string;
  la_failed_count : Z;
  la_last_failed_at : Z;
  la_locked_until : Z
}.

Record ClientDevice : Type := mkClientDevice {
  cd_id : string;
  cd_tenant_id : string;
  cd_client_id : string;
  cd_client_num : Z;
  cd_ip : option string;
  cd_last_seen : Z;
  cd_is_locked : bool;
  cd_active_url : option string;
  cd_vnc_password : option string;
  cd_group_name : option string;
  cd_broadcast_url : option string;
  cd_broadcast_epoch : Z;
  cd_image_version : option string;
  cd_agent_version : option string;
  (** The six update_ columns, which are written together: NULL update_phase is [None]. *)
  cd_update : option UpdateReport;
  cd_created_at : Z;
  cd_updated_at : Z
}.

Record DeviceToken : Type := mkDeviceToken {
  dt_id : string;
  dt_token_hash : string;
  dt_tenant_id : string;
  dt_client_id : string;
  dt_created_at : Z;
  dt_last_used_at : Z;
  dt_revoked : bool
}.

Record WorkstationGroup : Type := mkWorkstationGroup {
  g_id : string;
  g_tenant_id : string;
  g_name : string
}.

Record UnlicensedRow : Type := mkUnlicensed {
  ul_tenant_id : string;
  ul_client_id : string;
  ul_since : Z
}.

Record PowerScheduleDbRow : Type := mkPowerRow {
  ps_id : string;
  ps_tenant_id : string;
  ps_group_id : option string;
  ps_days : Z;
  ps_off_minute : Z;
  ps_on_minute : option Z;
  ps_created_at : Z;
  ps_updated_at : Z
}.

Record ExamRow : Type := mkExamRow {
  e_id : string;
  e_tenant_id : string;
  e_title : string;
  e_group_name : option string;
  e_exam_url : string;
  (** The allowed_hosts column, parsed: [None] when it is not a JSON array. *)
  e_allowed_hosts : option (list jsval);
  e_starts_at : Z;
  e_ends_at : Z;
  e_ended_at : option Z;
  e_finalized_at : option Z;
  e_created_by : option string;
  e_ended_by : option string;
  e_created_at : Z
}.

Inductive ExamEvent : Type := start_online | start_offline | connect | disconnect.

#[export] Instance ExamEvent_eq_dec : EqDecision ExamEvent.
Proof. solve_decision. Defined.

Record ExamEventRow : Type := mkExamEvent {
  ee_exam_id : string;
  ee_client_id : string;
  ee_event : ExamEvent;
  ee_at : Z
}.

Record UsageDailyRow : Type := mkUsageDaily {
  ud_tenant_id : string;
  ud_client_id : string;
  ud_day : string;
  ud_on_seconds : Z;
  ud_active_seconds : Z;
  ud_sessions : Z
}.

Record UsageSiteRow : Type := mkUsageSite {
  us_tenant_id : string;
  us_day : string;
  us_domain : string;
  us_active_seconds : Z;
  us_visits : Z
}.

Record IssueRow : Type := mkIssue {
  i_id : string;
  i_tenant_id : string;
  i_client_id : string;
  i_severity : string;
  i_kind : string;
  i_details : string;
  i_occurred_at : Z;
  i_created_at : Z
}.

Record PrinterDbRow : Type := mkPrinterRow {
  p_id : string;
  p_tenant_id : string;
  p_name : string;
  p_uri : string;
  p_group_name : option string;
  p_position : Z;
  p_created_at : Z
}.

Record ReleaseRow : Type := mkReleaseRow {
  r_version : string;
  r_channel : option UpdateChannel;
  r_kind : ReleaseKind;
  r_base_version : option string;
  r_security_floor : string;
  r_size_bytes : Z;
  r_built_at : string;
  r_found_at : Z;
  r_classified_at : option Z;
  r_classified_by : option string;
  r_revoked_at : option Z;
  r_architectures : string
}.

Record MajorSupportRow : Type := mkMajorSupport {
  ms_major : Z;
  ms_status : SupportStatus;
  ms_end_of_life_at : option Z;
  ms_note : option string;
  ms_eol_reminder_days : option Z;
  ms_updated_at : Z;
  ms_updated_by : option string
}.

Record ReleaseMajorRow : Type := mkReleaseMajor {
  rm_major : Z;
  rm_open : bool;
  rm_updated_at : Z;
  rm_updated_by : option string
}.

Record MajorGrantRow : Type := mkMajorGrant {
  mg_tenant_id : string;
  mg_major : Z;
  mg_granted_by : option string;
  mg_granted_at : option Z;
  mg_confirmed_by : option string;
  mg_confirmed_at : option Z;
  mg_requested_by : option string;
  mg_requested_at : option Z;
  mg_pilot_group : option string;
  mg_pilot_by : option string;
  mg_pilot_at : option Z
}.

Record NotificationRow : Type := mkNotification {
  n_tenant_id : option string;
  n_kind : string;
  n_title : string;
  n_body : string;
  n_created_by : option string
}.

(** ** What workstations may reach, and what was used *)

(** tenant_whitelist, with a unique organization and domain. *)
Record WhitelistRow : Type := mkWhitelist { w_id : string; w_tenant_id : string; w_domain : string; w_created_at : Z }.

Record PortalSite : Type := mkPortalSite {
  card_id : string;
  card_tenant_id : string;
  card_title : string;
  card_url : string;
  card_domain : string;
  card_category : string;
  card_icon : option string;
  card_thumbnail_url : option string;
  card_order_index : Z;
  card_is_active : Z;
  card_created_at : Z;
  card_takedown_at : option Z;
  card_takedown_reason : option string
}.

Record BroadcastPreset : Type := mkPreset { bp_id : string; bp_tenant_id : string; bp_title : string; bp_url : string; bp_created_at : Z }.

Record BlocklistEntry : Type := mkBlocked { bl_domain : string; bl_reason : option string; bl_added_at : Z; bl_added_by : option string }.

Record PlatformDayRow : Type := mkPlatformDay {
  pd_day : string;
  pd_organizations : Z;
  pd_workstations : Z;
  pd_on_seconds : Z;
  pd_active_seconds : Z;
  pd_sessions : Z;
  pd_computed_at : Z
}.

Record PlatformSiteRow : Type := mkPlatformSite {
  pu_day : string;
  pu_domain : string;
  pu_organizations : Z;
  pu_active_seconds : Z;
  pu_visits : Z
}.

(** An entry of the audit log, less its random identifier and its time. *)
Record AuditRow : Type := mkAudit { au_tenant_id : option string; au_user_id : string; au_action : string; au_details : option string }.

(** The tables of the database (SCHEMA_SQL in db.ts) the model covers, each in
    the order its rows were inserted. *)
Record D1Database : Type := mkDb {
  tenants : list Tenant;
  tenant_users : list TenantUser;
  sessions : list SessionRow;
  login_attempts : list LoginAttempt;
  client_devices : list ClientDevice;
  device_tokens : list DeviceToken;
  workstation_groups : list WorkstationGroup;
  unlicensed_workstations : list UnlicensedRow;
  power_schedules : list PowerScheduleDbRow;
  exam_sessions : list ExamRow;
  exam_events : list ExamEventRow;
  usage_daily : list UsageDailyRow;
  usage_sites : list UsageSiteRow;
  workstation_issues : list IssueRow;
  printers : list PrinterDbRow;
  releases : list ReleaseRow;
  release_support : list MajorSupportRow;
  release_majors : list ReleaseMajorRow;
  major_upgrade_grants : list MajorGrantRow;
  notifications : list NotificationRow;
  tenant_whitelist : list WhitelistRow;
  portal_sites : list PortalSite;
  broadcast_presets : list BroadcastPreset;
  link_blocklist : list BlocklistEntry;
  platform_usage_daily : list PlatformDayRow;
  platform_usage_sites : list PlatformSiteRow
}.

(** One table rewritten, the others as they were. *)
Definition on_tenants (f : list Tenant -> list Tenant) (db : D1Database) : D1Database :=
  mkDb (f (tenants db)) (tenant_users db) (sessions db) (login_attempts db) (client_devices db) (device_tokens db) (workstation_groups db) (unlicensed_workstations db) (power_schedules db) (exam_sessions db) (exam_events db) (usage_daily db) (usage_sites db) (workstation_issues db) (printers db) (releases db) (release_support db) (release_majors db) (major_upgrade_grants db) (notifications db) (tenant_whitelist db) (portal_sites db) (broadcast_presets db) (link_blocklist db) (platform_usage_daily db) (platform_usage_sites db).

Definition on_tenant_users (f : list TenantUser -> list TenantUser) (db : D1Database) : D1Database :=
  mkDb (tenants db) (f (tenant_users db)) (sessions db) (login_attempts db) (client_devices db) (device_tokens db) (workstation_groups db) (unlicensed_workstations db) (power_schedules db) (exam_sessions db) (exam_events db) (usage_daily db) (usage_sites db) (workstation_issues db) (printers db) (releases db) (release_support db) (release_majors db) (major_upgrade_grants db) (notifications db) (tenant_whitelist db) (portal_sites db) (broadcast_presets db) (link_blocklist db) (platform_usage_daily db) (platform_usage_sites db).

Definition on_sessions (f : list SessionRow -> list SessionRow) (db : D1Database) : D1Database :=
  mkDb (tenants db) (tenant_users db) (f (sessions db)) (login_attempts db) (client_devices db) (device_tokens db) (workstation_groups db) (unlicensed_workstations db) (power_schedules db) (exam_sessions db) (exam_events db) (usage_daily db) (usage_sites db) (workstation_issues db) (printers db) (releases db) (release_support db) (release_majors db) (major_upgrade_grants db) (notifications db) (tenant_whitelist db) (portal_sites db) (broadcast_presets db) (link_blocklist db) (platform_usage_daily db) (platform_usage_sites db).

Definition on_login_attempts (f : list LoginAttempt -> list LoginAttempt) (db : D1Database) : D1Database :=
  mkDb (tenants db) (tenant_users db) (sessions db) (f (login_attempts db)) (client_devices db) (device_tokens db) (workstation_groups db) (unlicensed_workstations db) (power_schedules db) (exam_sessions db) (exam_events db) (usage_daily db) (usage_sites db) (workstation_issues db) (printers db) (releases db) (release_support db) (release_majors db) (major_upgrade_grants db) (notifications db) (tenant_whitelist db) (portal_sites db) (broadcast_presets db) (link_blocklist db) (platform_usage_daily db) (platform_usage_sites db).

Definition on_client_devices (f : list ClientDevice -> list ClientDevice) (db : D1Database) : D1Database :=
  mkDb (tenants db) (tenant_users db) (sessions db) (login_attempts db) (f (client_devices db)) (device_tokens db) (workstation_groups db) (unlicensed_workstations db) (power_schedules db) (exam_sessions db) (exam_events db) (usage_daily db) (usage_sites db) (workstation_issues db) (printers db) (releases db) (release_support db) (release_majors db) (major_upgrade_grants db) (notifications db) (tenant_whitelist db) (portal_sites db) (broadcast_presets db) (link_blocklist db) (platform_usage_daily db) (platform_usage_sites db).

Definition on_device_tokens (f : list DeviceToken -> list DeviceToken) (db : D1Database) : D1Database :=
  mkDb (tenants db) (tenant_users db) (sessions db) (login_attempts db) (client_devices db) (f (device_tokens db)) (workstation_groups db) (unlicensed_workstations db) (power_schedules db) (exam_sessions db) (exam_events db) (usage_daily db) (usage_sites db) (workstation_issues db) (printers db) (releases db) (release_support db) (release_majors db) (major_upgrade_grants db) (notifications db) (tenant_whitelist db) (portal_sites db) (broadcast_presets db) (link_blocklist db) (platform_usage_daily db) (platform_usage_sites db).

Definition on_workstation_groups (f : list WorkstationGroup -> list WorkstationGroup) (db : D1Database) : D1Database :=
  mkDb (tenants db) (tenant_users db) (sessions db) (login_attempts db) (client_devices db) (device_tokens db) (f (workstation_groups db)) (unlicensed_workstations db) (power_schedules db) (exam_sessions db) (exam_events db) (usage_daily db) (usage_sites db) (workstation_issues db) (printers db) (releases db) (release_support db) (release_majors db) (major_upgrade_grants db) (notifications db) (tenant_whitelist db) (portal_sites db) (broadcast_presets db) (link_blocklist db) (platform_usage_daily db) (platform_usage_sites db).

Definition on_unlicensed_workstations (f : list UnlicensedRow -> list UnlicensedRow) (db : D1Database) : D1Database :=
  mkDb (tenants db) (tenant_users db) (sessions db) (login_attempts db) (client_devices db) (device_tokens db) (workstation_groups db) (f (unlicensed_workstations db)) (power_schedules db) (exam_sessions db) (exam_events db) (usage_daily db) (usage_sites db) (workstation_issues db) (printers db) (releases db) (release_support db) (release_majors db) (major_upgrade_grants db) (notifications db) (tenant_whitelist db) (portal_sites db) (broadcast_presets db) (link_blocklist db) (platform_usage_daily db) (platform_usage_sites db).

Definition on_power_schedules (f : list PowerScheduleDbRow -> list PowerScheduleDbRow) (db : D1Database) : D1Database :=
  mkDb (tenants db) (tenant_users db) (sessions db) (login_attempts db) (client_devices db) (device_tokens db) (workstation_groups db) (unlicensed_workstations db) (f (power_schedules db)) (exam_sessions db) (exam_events db) (usage_daily db) (usage_sites db) (workstation_issues db) (printers db) (releases db) (release_support db) (release_majors db) (major_upgrade_grants db) (notifications db) (tenant_whitelist db) (portal_sites db) (broadcast_presets db) (link_blocklist db) (platform_usage_daily db) (platform_usage_sites db).

Definition on_exam_sessions (f : list ExamRow -> list ExamRow) (db : D1Database) : D1Database :=
  mkDb (tenants db) (tenant_users db) (sessions db) (login_attempts db) (client_devices db) (device_tokens db) (workstation_groups db) (unlicensed_workstations db) (power_schedules db) (f (exam_sessions db)) (exam_events db) (usage_daily db) (usage_sites db) (workstation_issues db) (printers db) (releases db) (release_support db) (release_majors db) (major_upgrade_grants db) (notifications db) (tenant_whitelist db) (portal_sites db) (broadcast_presets db) (link_blocklist db) (platform_usage_daily db) (platform_usage_sites db).

Definition on_exam_events (f : list ExamEventRow -> list ExamEventRow) (db : D1Database) : D1Database :=
  mkDb (tenants db) (tenant_users db) (sessions db) (login_attempts db) (client_devices db) (device_tokens db) (workstation_groups db) (unlicensed_workstations db) (power_schedules db) (exam_sessions db) (f (exam_events db)) (usage_daily db) (usage_sites db) (workstation_issues db) (printers db) (releases db) (release_support db) (release_majors db) (major_upgrade_grants db) (notifications db) (tenant_whitelist db) (portal_sites db) (broadcast_presets db) (link_blocklist db) (platform_usage_daily db) (platform_usage_sites db).

Definition on_usage_daily (f : list UsageDailyRow -> list UsageDailyRow) (db : D1Database) : D1Database :=
  mkDb (tenants db) (tenant_users db) (sessions db) (login_attempts db) (client_devices db) (device_tokens db) (workstation_groups db) (unlicensed_workstations db) (power_schedules db) (exam_sessions db) (exam_events db) (f (usage_daily db)) (usage_sites db) (workstation_issues db) (printers db) (releases db) (release_support db) (release_majors db) (major_upgrade_grants db) (notifications db) (tenant_whitelist db) (portal_sites db) (broadcast_presets db) (link_blocklist db) (platform_usage_daily db) (platform_usage_sites db).

Definition on_usage_sites (f : list UsageSiteRow -> list UsageSiteRow) (db : D1Database) : D1Database :=
  mkDb (tenants db) (tenant_users db) (sessions db) (login_attempts db) (client_devices db) (device_tokens db) (workstation_groups db) (unlicensed_workstations db) (power_schedules db) (exam_sessions db) (exam_events db) (usage_daily db) (f (usage_sites db)) (workstation_issues db) (printers db) (releases db) (release_support db) (release_majors db) (major_upgrade_grants db) (notifications db) (tenant_whitelist db) (portal_sites db) (broadcast_presets db) (link_blocklist db) (platform_usage_daily db) (platform_usage_sites db).

Definition on_workstation_issues (f : list IssueRow -> list IssueRow) (db : D1Database) : D1Database :=
  mkDb (tenants db) (tenant_users db) (sessions db) (login_attempts db) (client_devices db) (device_tokens db) (workstation_groups db) (unlicensed_workstations db) (power_schedules db) (exam_sessions db) (exam_events db) (usage_daily db) (usage_sites db) (f (workstation_issues db)) (printers db) (releases db) (release_support db) (release_majors db) (major_upgrade_grants db) (notifications db) (tenant_whitelist db) (portal_sites db) (broadcast_presets db) (link_blocklist db) (platform_usage_daily db) (platform_usage_sites db).

Definition on_printers (f : list PrinterDbRow -> list PrinterDbRow) (db : D1Database) : D1Database :=
  mkDb (tenants db) (tenant_users db) (sessions db) (login_attempts db) (client_devices db) (device_tokens db) (workstation_groups db) (unlicensed_workstations db) (power_schedules db) (exam_sessions db) (exam_events db) (usage_daily db) (usage_sites db) (workstation_issues db) (f (printers db)) (releases db) (release_support db) (release_majors db) (major_upgrade_grants db) (notifications db) (tenant_whitelist db) (portal_sites db) (broadcast_presets db) (link_blocklist db) (platform_usage_daily db) (platform_usage_sites db).

Definition on_releases (f : list ReleaseRow -> list ReleaseRow) (db : D1Database) : D1Database :=
  mkDb (tenants db) (tenant_users db) (sessions db) (login_attempts db) (client_devices db) (device_tokens db) (workstation_groups db) (unlicensed_workstations db) (power_schedules db) (exam_sessions db) (exam_events db) (usage_daily db) (usage_sites db) (workstation_issues db) (printers db) (f (releases db)) (release_support db) (release_majors db) (major_upgrade_grants db) (notifications db) (tenant_whitelist db) (portal_sites db) (broadcast_presets db) (link_blocklist db) (platform_usage_daily db) (platform_usage_sites db).

Definition on_release_support (f : list MajorSupportRow -> list MajorSupportRow) (db : D1Database) : D1Database :=
  mkDb (tenants db) (tenant_users db) (sessions db) (login_attempts db) (client_devices db) (device_tokens db) (workstation_groups db) (unlicensed_workstations db) (power_schedules db) (exam_sessions db) (exam_events db) (usage_daily db) (usage_sites db) (workstation_issues db) (printers db) (releases db) (f (release_support db)) (release_majors db) (major_upgrade_grants db) (notifications db) (tenant_whitelist db) (portal_sites db) (broadcast_presets db) (link_blocklist db) (platform_usage_daily db) (platform_usage_sites db).

Definition on_release_majors (f : list ReleaseMajorRow -> list ReleaseMajorRow) (db : D1Database) : D1Database :=
  mkDb (tenants db) (tenant_users db) (sessions db) (login_attempts db) (client_devices db) (device_tokens db) (workstation_groups db) (unlicensed_workstations db) (power_schedules db) (exam_sessions db) (exam_events db) (usage_daily db) (usage_sites db) (workstation_issues db) (printers db) (releases db) (release_support db) (f (release_majors db)) (major_upgrade_grants db) (notifications db) (tenant_whitelist db) (portal_sites db) (broadcast_presets db) (link_blocklist db) (platform_usage_daily db) (platform_usage_sites db).

Definition on_major_upgrade_grants (f : list MajorGrantRow -> list MajorGrantRow) (db : D1Database) : D1Database :=
  mkDb (tenants db) (tenant_users db) (sessions db) (login_attempts db) (client_devices db) (device_tokens db) (workstation_groups db) (unlicensed_workstations db) (power_schedules db) (exam_sessions db) (exam_events db) (usage_daily db) (usage_sites db) (workstation_issues db) (printers db) (releases db) (release_support db) (release_majors db) (f (major_upgrade_grants db)) (notifications db) (tenant_whitelist db) (portal_sites db) (broadcast_presets db) (link_blocklist db) (platform_usage_daily db) (platform_usage_sites db).

Definition on_notifications (f : list NotificationRow -> list NotificationRow) (db : D1Database) : D1Database :=
  mkDb (tenants db) (tenant_users db) (sessions db) (login_attempts db) (client_devices db) (device_tokens db) (workstation_groups db) (unlicensed_workstations db) (power_schedules db) (exam_sessions db) (exam_events db) (usage_daily db) (usage_sites db) (workstation_issues db) (printers db) (releases db) (release_support db) (release_majors db) (major_upgrade_grants db) (f (notifications db)) (tenant_whitelist db) (portal_sites db) (broadcast_presets db) (link_blocklist db) (platform_usage_daily db) (platform_usage_sites db).

Definition on_tenant_whitelist (f : list WhitelistRow -> list WhitelistRow) (db : D1Database) : D1Database :=
  mkDb (tenants db) (tenant_users db) (sessions db) (login_attempts db) (client_devices db) (device_tokens db) (workstation_groups db) (unlicensed_workstations db) (power_schedules db) (exam_sessions db) (exam_events db) (usage_daily db) (usage_sites db) (workstation_issues db) (printers db) (releases db) (release_support db) (release_majors db) (major_upgrade_grants db) (notifications db) (f (tenant_whitelist db)) (portal_sites db) (broadcast_presets db) (link_blocklist db) (platform_usage_daily db) (platform_usage_sites db).

Definition on_portal_sites (f : list PortalSite -> list PortalSite) (db : D1Database) : D1Database :=
  mkDb (tenants db) (tenant_users db) (sessions db) (login_attempts db) (client_devices db) (device_tokens db) (workstation_groups db) (unlicensed_workstations db) (power_schedules db) (exam_sessions db) (exam_events db) (usage_daily db) (usage_sites db) (workstation_issues db) (printers db) (releases db) (release_support db) (release_majors db) (major_upgrade_grants db) (notifications db) (tenant_whitelist db) (f (portal_sites db)) (broadcast_presets db) (link_blocklist db) (platform_usage_daily db) (platform_usage_sites db).

Definition on_broadcast_presets (f : list BroadcastPreset -> list BroadcastPreset) (db : D1Database) : D1Database :=
  mkDb (tenants db) (tenant_users db) (sessions db) (login_attempts db) (client_devices db) (device_tokens db) (workstation_groups db) (unlicensed_workstations db) (power_schedules db) (exam_sessions db) (exam_events db) (usage_daily db) (usage_sites db) (workstation_issues db) (printers db) (releases db) (release_support db) (release_majors db) (major_upgrade_grants db) (notifications db) (tenant_whitelist db) (portal_sites db) (f (broadcast_presets db)) (link_blocklist db) (platform_usage_daily db) (platform_usage_sites db).

Definition on_link_blocklist (f : list BlocklistEntry -> list BlocklistEntry) (db : D1Database) : D1Database :=
  mkDb (tenants db) (tenant_users db) (sessions db) (login_attempts db) (client_devices db) (device_tokens db) (workstation_groups db) (unlicensed_workstations db) (power_schedules db) (exam_sessions db) (exam_events db) (usage_daily db) (usage_sites db) (workstation_issues db) (printers db) (releases db) (release_support db) (release_majors db) (major_upgrade_grants db) (notifications db) (tenant_whitelist db) (portal_sites db) (broadcast_presets db) (f (link_blocklist db)) (platform_usage_daily db) (platform_usage_sites db).

Definition on_platform_usage_daily (f : list PlatformDayRow -> list PlatformDayRow) (db : D1Database) : D1Database :=
  mkDb (tenants db) (tenant_users db) (sessions db) (login_attempts db) (client_devices db) (device_tokens db) (workstation_groups db) (unlicensed_workstations db) (power_schedules db) (exam_sessions db) (exam_events db) (usage_daily db) (usage_sites db) (workstation_issues db) (printers db) (releases db) (release_support db) (release_majors db) (major_upgrade_grants db) (notifications db) (tenant_whitelist db) (portal_sites db) (broadcast_presets db) (link_blocklist db) (f (platform_usage_daily db)) (platform_usage_sites db).

Definition on_platform_usage_sites (f : list PlatformSiteRow -> list PlatformSiteRow) (db : D1Database) : D1Database :=
  mkDb (tenants db) (tenant_users db) (sessions db) (login_attempts db) (client_devices db) (device_tokens db) (workstation_groups db) (unlicensed_workstations db) (power_schedules db) (exam_sessions db) (exam_events db) (usage_daily db) (usage_sites db) (workstation_issues db) (printers db) (releases db) (release_support db) (release_majors db) (major_upgrade_grants db) (notifications db) (tenant_whitelist db) (portal_sites db) (broadcast_presets db) (link_blocklist db) (platform_usage_daily db) (f (platform_usage_sites db)).

Definition empty_db : D1Database :=
  mkDb [] [] [] [] [] [] [] [] [] [] [] [] [] [] [] [] [] [] [] [] [] [] [] [] [] [].

(** ** Organizations *)

Definition findTenantBySubdomain (db : D1Database) (subdomain : string) : option Tenant :=
  let s := toLowerCase subdomain in
  js_find (fun t => String.eqb (t_subdomain t) s || bool_decide (t_chosen_subdomain t = Some s)) (tenants db).

Definition findTenantByCustomDomain (db : D1Database) (domain : string) : option Tenant :=
  if String.eqb domain "" then None
  else js_find (fun t => bool_decide (t_custom_domain t = Some (toLowerCase domain))) (tenants db).

Definition findTenantById (db : D1Database) (id : string) : option Tenant :=
  js_find (fun t => String.eqb (t_id t) id) (tenants db).

(** [updateTenant(db, id, { broadcast_url, broadcast_epoch })] at [now] seconds. *)
Definition updateTenantBroadcast (db : D1Database) (id : string) (url : option string) (epoch now : Z) : D1Database :=
  on_tenants (List.map (fun t =>
    if String.eqb (t_id t) id then
      mkTenant (t_id t) (t_user_id t) (t_name t) (t_subdomain t) (t_chosen_subdomain t) (t_status t)
        (t_mode t) (t_default_url t) (t_custom_domain t) url epoch (t_home_route t)
        (t_online_workstations t) (t_http_workstations t) (t_update_channel t) (t_lan_sharing t)
        (t_usage_sites t) (t_printing_enabled t) (t_home_reset t) (t_workstation_limit t)
        (t_license_plan t) (t_license_expires_at t) (t_trial_started_at t) now
    else t)) db.

Definition setTenantOnlineCount (db : D1Database) (id : string) (online http : Z) : D1Database :=
  on_tenants (List.map (fun t =>
    if String.eqb (t_id t) id then
      mkTenant (t_id t) (t_user_id t) (t_name t) (t_subdomain t) (t_chosen_subdomain t) (t_status t)
        (t_mode t) (t_default_url t) (t_custom_domain t) (t_broadcast_url t) (t_broadcast_epoch t) (t_home_route t)
        (Z.max 0 online) (Z.max 0 http) (t_update_channel t) (t_lan_sharing t)
        (t_usage_sites t) (t_printing_enabled t) (t_home_reset t) (t_workstation_limit t)
        (t_license_plan t) (t_license_expires_at t) (t_trial_started_at t) (t_updated_at t)
    else t)) db.

(** The permissions a user holds in an organization: all for its owner and its
    administrators, else the list delegated to the user. *)
Definition getTenantUserPermissions (db : D1Database) (tenantId userId : string) : list string :=
  let owns := match findTenantById db tenantId with
              | Some t => String.eqb (t_user_id t) userId
              | None => false
              end in
  if owns then ["*"%string]
  else
    match js_find (fun r => String.eqb (tu_tenant_id r) tenantId && String.eqb (tu_user_id r) userId) (tenant_users db) with
    | None => []
    | Some r =>
        match tu_role r with
        | tu_org_admin => ["*"%string]
        | _ => default [] (tu_permissions r)
        end
    end.

(** ** Workstations *)

Definition in_tenant (tenantId : string) (c : ClientDevice) : bool := String.eqb (cd_tenant_id c) tenantId.

(** Record a broadcast, or a reset to the portal (no URL), for these workstations. *)
Definition set_broadcast (url : option string) (epoch : Z) (c : ClientDevice) : ClientDevice :=
  mkClientDevice (cd_id c) (cd_tenant_id c) (cd_client_id c) (cd_client_num c) (cd_ip c) (cd_last_seen c)
    (cd_is_locked c) (cd_active_url c) (cd_vnc_password c) (cd_group_name c) url epoch
    (cd_image_version c) (cd_agent_version c) (cd_update c) (cd_created_at c) (cd_updated_at c).

Definition setClientsBroadcast (db : D1Database) (tenantId : string) (clientIds : list string)
    (url : option string) (epoch : Z) : D1Database :=
  on_client_devices (List.map (fun c =>
    if in_tenant tenantId c && bool_decide (cd_client_id c ∈ clientIds) then set_broadcast url epoch c else c)) db.

(** The broadcasts recorded for one workstation each, by workstation. *)
Definition listDeviceBroadcasts (db : D1Database) (tenantId : string) : list (string * (option string * Z)) :=
  List.map (fun c => (cd_client_id c, (cd_broadcast_url c, cd_broadcast_epoch c)))
    (List.filter (fun c => in_tenant tenantId c && (0 <? cd_broadcast_epoch c)) (client_devices db)).

Record DeviceRegistryRow : Type := mkRegistryRow {
  dr_tenantId : string;
  dr_clientId : string;
  dr_clientNum : Z;
  dr_ip : string;
  dr_isLocked : bool;
  dr_activeUrl : option string;
  dr_vncPassword : option string;
  dr_lastSeen : Z;
  dr_imageVersion : option string;
  dr_agentVersion : option string;
  dr_update : option UpdateReport
}.

(** [COALESCE(a, b)]. *)
Definition coalesce {A} (a b : option A) : option A := match a with Some _ => a | None => b end.

Definition nonempty (s : string) : option string := if String.eqb s "" then None else Some s.

(** The primary key of a workstation's row: "<organization>:<workstation>". *)
Definition registry_id (tenantId clientId : string) : string := tenantId +:+ ":" +:+ clientId.

Definition registry_insert (now : Z) (r : DeviceRegistryRow) : ClientDevice :=
  mkClientDevice (registry_id (dr_tenantId r) (dr_clientId r)) (dr_tenantId r) (dr_clientId r) (dr_clientNum r)
    (nonempty (dr_ip r)) (dr_lastSeen r) (dr_isLocked r) (dr_activeUrl r) (dr_vncPassword r) None None 0
    (dr_imageVersion r) (dr_agentVersion r) (dr_update r) now now.

(** ON CONFLICT(id): what people set (group, broadcast) stays; a null keeps the stored value. *)
Definition registry_update (now : Z) (r : DeviceRegistryRow) (c : ClientDevice) : ClientDevice :=
  mkClientDevice (cd_id c) (cd_tenant_id c) (cd_client_id c) (dr_clientNum r)
    (nonempty (dr_ip r)) (dr_lastSeen r) (dr_isLocked r) (coalesce (dr_activeUrl r) (cd_active_url c))
    (coalesce (dr_vncPassword r) (cd_vnc_password c)) (cd_group_name c) (cd_broadcast_url c) (cd_broadcast_epoch c)
    (coalesce (dr_imageVersion r) (cd_image_version c)) (coalesce (dr_agentVersion r) (cd_agent_version c))
    (coalesce (dr_update r) (cd_update c)) (cd_created_at c) now.

Definition upsert_one (now : Z) (l : list ClientDevice) (r : DeviceRegistryRow) : list ClientDevice :=
  let id := registry_id (dr_tenantId r) (dr_clientId r) in
  if existsb (fun c => String.eqb (cd_id c) id) l
  then List.map (fun c => if String.eqb (cd_id c) id then registry_update now r c else c) l
  else l ++ [registry_insert now r].

Definition upsertDeviceRegistry (db : D1Database) (rows : list DeviceRegistryRow) (now : Z) : D1Database :=
  on_client_devices (fun l => foldl (upsert_one now) l rows) db.

(** Delete a group: its workstations are in no group from then on. False when it is not this organization's. *)
Definition clear_group (c : ClientDevice) : ClientDevice :=
  mkClientDevice (cd_id c) (cd_tenant_id c) (cd_client_id c) (cd_client_num c) (cd_ip c) (cd_last_seen c)
    (cd_is_locked c) (cd_active_url c) (cd_vnc_password c) None (cd_broadcast_url c) (cd_broadcast_epoch c)
    (cd_image_version c) (cd_agent_version c) (cd_update c) (cd_created_at c) (cd_updated_at c).

Definition deleteWorkstationGroup (db : D1Database) (tenantId groupId : string) : D1Database * bool :=
  match js_find (fun g => String.eqb (g_id g) groupId && String.eqb (g_tenant_id g) tenantId) (workstation_groups db) with
  | None => (db, false)
  | Some g =>
      let db1 := on_client_devices (List.map (fun c =>
        if in_tenant tenantId c && bool_decide (cd_group_name c = Some (g_name g)) then clear_group c else c)) db in
      (on_workstation_groups (List.filter (fun h => negb (String.eqb (g_id h) groupId && String.eqb (g_tenant_id h) tenantId))) db1, true)
  end.

Definition assign_group (groupName : option string) (now : Z) (c : ClientDevice) : ClientDevice :=
  mkClientDevice (cd_id c) (cd_tenant_id c) (cd_client_id c) (cd_client_num c) (cd_ip c) (cd_last_seen c)
    (cd_is_locked c) (cd_active_url c) (cd_vnc_password c) groupName (cd_broadcast_url c) (cd_broadcast_epoch c)
    (cd_image_version c) (cd_agent_version c) (cd_update c) (cd_created_at c) now.

Definition assignClientsToGroup (db : D1Database) (tenantId : string) (clientIds : list string)
    (groupName : option string) (now : Z) : D1Database :=
  on_client_devices (List.map (fun c =>
    if in_tenant tenantId c && bool_decide (cd_client_id c ∈ clientIds) then assign_group groupName now c else c)) db.

Definition deleteClientDevice (db : D1Database) (tenantId clientId : string) : D1Database :=
  on_client_devices (List.filter (fun c => negb (in_tenant tenantId c && String.eqb (cd_client_id c) clientId))) db.
