(* ===== verification/Escape.v ===== *)
(** src/cloudflare-control/src/escape.ts: escaping for HTML, and the canonical
    forms of an organization's subdomain, a custom domain and a web address.

    [URL] parsing is the platform's, so it is a parameter: an instance of
    [UrlParser]. *)
From S2P Require Import Prelude JsString Regex Platform.

(** ** HTML *)

(** HTML_ENTITIES: the five characters with a meaning in markup. *)
Definition html_entity (c : ascii) : option string :=
  if code c =? 38 then Some "&amp;"
  else if code c =? 60 then Some "&lt;"
  else if code c =? 62 then Some "&gt;"
  else if code c =? 34 then Some "&quot;"
  else if code c =? 39 then Some "&#39;"
  else None%string.

Fixpoint escapeHtml (s : string) : string :=
  match s with
  | ""%string => ""
  | String c s' => default (String c "") (html_entity c) +:+ escapeHtml s'
  end.

(** What a browser reads back: each of the five entities as its character. *)
Fixpoint entity_at (l : list (string * ascii)) (s : string) : option (ascii * nat) :=
  match l with
  | [] => None
  | (e, c) :: l' => if startsWith s e then Some (c, String.length e) else entity_at l' s
  end.

Definition html_entities : list (string * ascii) :=
  [("&amp;", chr 38); ("&lt;", chr 60); ("&gt;", chr 62); ("&quot;", chr 34); ("&#39;", chr 39)]%string.

Fixpoint unescapeHtml (fuel : nat) (s : string) : string :=
  match fuel, s with
  | O, _ | _, ""%string => ""
  | S fuel', String c s' =>
      match entity_at html_entities s with
      | Some (d, n) => String d (unescapeHtml fuel' (str_drop n s))
      | None => String c (unescapeHtml fuel' s')
      end
  end.

(** ** Subdomains *)

Definition is_slug_char (c : ascii) : bool := is_lower c || is_digit c || is_char "-" c.

Definition cleanSubdomain (raw : string) : string :=
  str_filter is_slug_char (trim (toLowerCase raw)).

(** ** Web addresses *)

Definition is_alpha (c : ascii) : bool := is_lower c || is_upper c.
Definition RAny : re := RClass (fun _ => true).
Definition RDigit : re := RClass is_digit.

(** [/^[a-zA-Z0-9.-]+:\d{1,5}(\/|\?|#|$)/], and whatever follows. *)
Definition HOST_PORT : re :=
  RCat (RPlus (RClass (fun c => is_alpha c || is_digit c || is_char "." c || is_char "-" c)))
 (RCat (RChar ":") (RCat (RBetween 1 5 RDigit)
   (ROpt (RCat (RClass (fun c => is_char "/" c || is_char "?" c || is_char "#" c)) (RStar RAny))))).

(** [/^[a-zA-Z][a-zA-Z0-9+.-]*:/], and whatever follows. *)
Definition HAS_SCHEME : re :=
  RCat (RClass is_alpha)
 (RCat (RStar (RClass (fun c => is_alpha c || is_digit c || is_char "+" c || is_char "." c || is_char "-" c)))
 (RCat (RChar ":") (RStar RAny))).

Definition safeHttpUrl `{UrlParser} (raw : string) : option string :=
  let candidate := trim raw in
  if String.eqb candidate "" then None
  else
    let looksLikeHostPort := re_test HOST_PORT candidate in
    let hasScheme := negb looksLikeHostPort && re_test HAS_SCHEME candidate in
    let toParse := if hasScheme then candidate else "https://" +:+ candidate in
    match parseURL toParse with
    | None => None
    | Some parsed =>
        if negb (String.eqb (url_protocol parsed) "http:") && negb (String.eqb (url_protocol parsed) "https:") then None
        else if String.eqb (url_hostname parsed) "" then None
        else Some (url_href parsed)
    end.

(** ** Custom domains *)

Definition MAX_DOMAIN_INPUT_LENGTH : nat := 2048.

(** One label: [[a-z0-9]([a-z0-9-]{0,61}[a-z0-9])?]. *)
Definition RLabel : re :=
  let edge := RClass (fun c => is_lower c || is_digit c) in
  RCat edge (ROpt (RCat (RUpto 61 (RClass is_slug_char)) edge)).

Definition domainPattern : re := RCat RLabel (RPlus (RCat (RChar ".") RLabel)).

(** [.replace(/^https?:\/\//, "")]. *)
Definition strip_http (s : string) : string :=
  if startsWith s "https://" then str_drop 8 s
  else if startsWith s "http://" then str_drop 7 s
  else s.

(** [.replace(/:\d+$/, "")]. *)
Fixpoint strip_port (s : string) : string :=
  match s with
  | ""%string => ""
  | String c s' =>
      if is_char ":" c && negb (String.eqb s' "") && str_forallb is_digit s' then ""
      else String c (strip_port s')
  end.

Definition cleanCustomDomain (raw : string) : option string :=
  let input := toLowerCase (trim raw) in
  if (MAX_DOMAIN_INPUT_LENGTH <? String.length input)%nat then None
  else
    let withoutScheme := strip_http input in
    let slash := indexOf "/" withoutScheme in
    let str := strip_port (if slash =? -1 then withoutScheme else str_take (Z.to_nat slash) withoutScheme) in
    if String.eqb str "" || (253 <? String.length str)%nat then None
    else if re_test domainPattern str then Some str else None.

(** ** Bare host names (normalizeDomain of db.ts) *)

(** [.replace(/^[a-z][a-z0-9+.-]*:\/\//, "")]: what follows the scheme, or none. *)
Fixpoint after_scheme (s : string) : option string :=
  match s with
  | ""%string => None
  | String c s' =>
      if is_lower c || is_digit c || is_char "+" c || is_char "." c || is_char "-" c then after_scheme s'
      else if startsWith s "://" then Some (str_drop 3 s) else None
  end.

Definition strip_scheme (s : string) : string :=
  match s with
  | String c s' => if is_lower c then default s (after_scheme s') else s
  | ""%string => s
  end.

(** [.replace(/^[^@/]*@/, "")]: what follows the first @ when no / comes before it. *)
Fixpoint after_userinfo (s : string) : option string :=
  match s with
  | ""%string => None
  | String c s' => if is_char "@" c then Some s' else if is_char "/" c then None else after_userinfo s'
  end.

Definition strip_userinfo (s : string) : string := default s (after_userinfo s).

(** [.split(c)[0]]. *)
Definition first_part (c : ascii) (s : string) : string := default ""%string (head (split_on c s)).

Definition normalizeDomain (raw : string) : string :=
  str_filter (fun c => is_slug_char c || is_char "." c)
    (first_part ":" (first_part "/" (strip_userinfo (strip_scheme (trim (toLowerCase raw)))))).

(** ** Properties *)

(** A character that may open a tag, close one, or end an attribute value. *)
Definition is_markup (c : ascii) : bool :=
  (code c =? 60) || (code c =? 62) || (code c =? 34) || (code c =? 39).

Lemma entity_no_markup c :
  str_forallb (fun d => negb (is_markup d)) (default (String c "") (html_entity c)) = true.
Proof. revert c. apply all_chars_forall. vm_compute. reflexivity. Qed.

Lemma escapeHtml_no_markup s : str_forallb (fun d => negb (is_markup d)) (escapeHtml s) = true.
Proof.
  induction s as [|c s IH]; [done|]. cbn [escapeHtml].
  by rewrite str_forallb_app, entity_no_markup, IH.
Qed.

Lemma html_entity_cases c :
  (exists e n, html_entity c = Some e /\ In (e, c) html_entities /\ n = String.length e) \/
  (html_entity c = None /\ c <> "&"%char).
Proof.
  unfold html_entity.
  assert (Hc : forall n, 0 <= n < 256 -> code c = n -> c = chr n).
  { intros n Hn <-. by rewrite chr_code. }
  repeat match goal with
  | |- context [if ?x =? ?n then _ else _] =>
      destruct (Z.eqb_spec x n) as [E|?]; [left; rewrite (Hc n) by (lia || done); do 2 eexists; split; [done|]; split; [vm_compute; tauto|done]|]
  end.
  right. split; [done|]. intros ->. done.
Qed.

Lemma entity_at_entity e c t :
  In (e, c) html_entities -> entity_at html_entities (e +:+ t) = Some (c, String.length e).
Proof. simpl. intuition; simplify_eq; reflexivity. Qed.

Lemma entity_at_other c t : c <> "&"%char -> entity_at html_entities (String c t) = None.
Proof. intros H%Ascii.eqb_neq. simpl. by rewrite H. Qed.

Lemma entity_pos e c : In (e, c) html_entities -> exists d e', e = String d e'.
Proof. simpl. intuition; simplify_eq; eauto. Qed.

Lemma unescape_escape s fuel :
  (String.length (escapeHtml s) <= fuel)%nat -> unescapeHtml fuel (escapeHtml s) = s.
Proof.
  revert fuel; induction s as [|c s IH]; intros fuel Hf; [by destruct fuel|].
  cbn [escapeHtml] in *.
  destruct (html_entity_cases c) as [(e & n & Hent & Hin & _)|[Hent Hc]];
    rewrite Hent in *; cbn [from_option id] in *.
  - destruct (entity_pos _ _ Hin) as (d & e' & Ee).
    rewrite str_length_app in Hf. destruct fuel as [|fuel]; [rewrite Ee in Hf; cbn [String.length] in Hf; lia|].
    pose proof (entity_at_entity e c (escapeHtml s) Hin) as He.
    pose proof (str_drop_app e (escapeHtml s)) as Hd.
    rewrite Ee in *. cbn [String.append String.length] in *. cbn [unescapeHtml].
    rewrite He. cbn [String.append] in Hd. rewrite Hd, IH; [done|lia].
  - cbn [String.append] in *. cbn [String.length] in Hf. destruct fuel as [|fuel]; [lia|]. cbn [unescapeHtml].
    rewrite (entity_at_other c _ Hc), IH; [done|lia].
Qed.

Lemma slug_char_lower c : is_slug_char c = true -> lower_char c = c.
Proof.
  intros H. apply Ascii.eqb_eq. revert H.
  pose proof (all_chars_forall (fun c => implb (is_slug_char c) (Ascii.eqb (lower_char c) c)) ltac:(vm_compute; reflexivity) c) as Hc.
  simpl in Hc. by destruct (is_slug_char c).
Qed.

Lemma slug_char_not_space c : is_slug_char c = true -> is_space c = false.
Proof.
  pose proof (all_chars_forall (fun c => implb (is_slug_char c) (negb (is_space c))) ltac:(vm_compute; reflexivity) c) as Hc.
  simpl in Hc. destruct (is_slug_char c); [|done]. by apply negb_true_iff in Hc.
Qed.

Lemma cleanSubdomain_chars raw : str_forallb is_slug_char (cleanSubdomain raw) = true.
Proof. apply str_filter_forallb. Qed.

Lemma cleanSubdomain_id s : str_forallb is_slug_char s = true -> cleanSubdomain s = s.
Proof.
  intros H. unfold cleanSubdomain, toLowerCase.
  rewrite (str_map_id _ _ s slug_char_lower H), (trim_id _ s slug_char_not_space H).
  by apply str_filter_id.
Qed.

(** The characters of a domain name in canonical form. *)
Definition is_domain_char (c : ascii) : bool := is_slug_char c || is_char "." c.

Lemma domain_char_facts c :
  is_domain_char c = true ->
  lower_char c = c /\ is_space c = false /\ is_char ":" c = false /\ is_char "/" c = false.
Proof.
  pose proof (all_chars_forall (fun c => implb (is_domain_char c)
    (Ascii.eqb (lower_char c) c && negb (is_space c) && negb (is_char ":" c) && negb (is_char "/" c)))
    ltac:(vm_compute; reflexivity) c) as Hc.
  cbv beta in Hc. intros H. rewrite H in Hc. cbn [implb] in Hc. bool_to_prop.
  apply Ascii.eqb_eq in H0. repeat split; done.
Qed.

Lemma indexOf_none c s i : str_forallb (fun d => negb (is_char c d)) s = true -> indexOf_from c s i = -1.
Proof.
  revert i; induction s as [|d s IH]; intros i; simpl; [done|]. unfold is_char at 1.
  destruct (Ascii.eqb d c); simpl; [done|]. apply IH.
Qed.

Lemma strip_port_id s : str_forallb (fun d => negb (is_char ":" d)) s = true -> strip_port s = s.
Proof.
  induction s as [|c s IH]; [done|]. cbn [str_forallb strip_port]. intros H. bool_to_prop.
  rewrite H. simpl. by rewrite IH.
Qed.

Lemma strip_http_id s : str_forallb (fun d => negb (is_char ":" d)) s = true -> strip_http s = s.
Proof.
  intros H. unfold strip_http.
  assert (Hp : forall p, has_char ":" p = true -> startsWith s p = false).
  { intros p Hp. destruct (startsWith s p) eqn:E; [|done].
    apply startsWith_iff in E as [t ->]. rewrite str_forallb_app in H. bool_to_prop.
    unfold has_char in Hp. rewrite str_existsb_forallb, H in Hp. done. }
  by rewrite !Hp.
Qed.

Lemma domain_chars_canonical s :
  str_forallb is_domain_char s = true ->
  toLowerCase (trim s) = s /\ strip_http s = s /\ indexOf "/" s = -1 /\ strip_port s = s.
Proof.
  intros H.
  assert (Hq : forall q : ascii -> bool, (forall c, is_domain_char c = true -> q c = true) -> str_forallb q s = true)
    by (intros q Hq; by eapply str_forallb_impl).
  rewrite (trim_id is_domain_char) by (done || (intros c Hc; by destruct (domain_char_facts c Hc) as (_ & ? & _))).
  repeat split.
  - apply (str_map_id _ is_domain_char); [|done]. intros c Hc. by destruct (domain_char_facts c Hc).
  - apply strip_http_id, Hq. intros c Hc. destruct (domain_char_facts c Hc) as (_ & _ & -> & _). done.
  - apply indexOf_none, Hq. intros c Hc. destruct (domain_char_facts c Hc) as (_ & _ & _ & ->). done.
  - apply strip_port_id, Hq. intros c Hc. destruct (domain_char_facts c Hc) as (_ & _ & -> & _). done.
Qed.

Lemma domainPattern_within s : re_test domainPattern s = true -> str_forallb is_domain_char s = true.
Proof. apply re_test_within. vm_compute. reflexivity. Qed.

(** Escaping for HTML is safe and loses nothing: the escaped text holds no
    character that could open a tag or end an attribute value, and reading its
    entities back gives the text itself. *)
Theorem escapeHtml_safe_roundtrip s :
  str_forallb (fun c => negb (is_markup c)) (escapeHtml s) = true /\
  unescapeHtml (String.length (escapeHtml s)) (escapeHtml s) = s.
Proof. split; [apply escapeHtml_no_markup|]. by apply unescape_escape. Qed.

(** A custom domain the code accepts is a dotted host name of at most 253
    characters in the canonical form: accepting it again gives it back. *)
Theorem cleanCustomDomain_canonical raw d :
  cleanCustomDomain raw = Some d ->
  re_match domainPattern d /\ (String.length d <= 253)%nat /\ cleanCustomDomain d = Some d.
Proof.
  unfold cleanCustomDomain at 1. intros H. destruct (_ <? _)%nat; [done|].
  set (str := strip_port _) in H. destruct (_ || _) eqn:E1 in H; [done|].
  destruct (re_test domainPattern str) eqn:E2; [|done]. injection H as <-.
  destruct (domain_chars_canonical str) as (Hl & Hs & Hi & Hp); [by apply domainPattern_within|].
  assert (Hlen : (String.length str <= 253)%nat)
    by (apply orb_false_iff in E1 as [_ E1]; by apply Nat.ltb_ge in E1).
  split; [by apply re_test_iff|]. split; [done|].
  unfold cleanCustomDomain. rewrite Hl, Hs, Hi, Z.eqb_refl, Hp, E1, E2.
  replace (_ <? _)%nat with false by (symmetry; apply Nat.ltb_ge; unfold MAX_DOMAIN_INPUT_LENGTH; lia).
  done.
Qed.

Lemma cleanCustomDomain_canonical_witness :
  re_match domainPattern "kiosk.example.com" /\ (String.length "kiosk.example.com" <= 253)%nat /\
  cleanCustomDomain "kiosk.example.com" = Some "kiosk.example.com"%string.
Proof.
  apply (cleanCustomDomain_canonical " HTTPS://Kiosk.Example.com:8443/login ").
  vm_compute. reflexivity.
Defined.
