(* ===== verification/Allowlist.v ===== *)
(** What an organization's workstations may reach, and what its pages may link
    to: the tables tenant_whitelist, portal_sites and broadcast_presets of
    src/cloudflare-control/src/db.ts with [buildEffectiveWhitelist], and
    link_rules.ts. UUIDs and the clock are arguments. *)
From S2P Require Import Prelude JsString Regex Platform Db Escape.

(** ** The allowlist *)

Definition DEFAULT_WHITELIST_DOMAINS : list string :=
  ["khanacademy.org"; "kastatic.org"; "kasandbox.org"; "scratch.mit.edu"; "ck12.org"; "geogebra.org"; "phet.colorado.edu"; "wikipedia.org"; "wikimedia.org";
   "cbse.gov.in"; "ncert.nic.in"]%string.

(** [INSERT OR IGNORE]: one row for an organization and a domain. *)
Definition insert_whitelist (row : WhitelistRow) (db : D1Database) : D1Database :=
  on_tenant_whitelist (fun l =>
    if existsb (fun r => String.eqb (w_tenant_id r) (w_tenant_id row) && String.eqb (w_domain r) (w_domain row)) l then l else l ++ [row]) db.

Definition seedDefaultWhitelist (db : D1Database) (tenantId : string) (uuid : nat -> string) (now : Z) : D1Database :=
  foldl (fun d e => insert_whitelist (mkWhitelist (uuid (fst e)) tenantId (snd e) now) d) db
    (List.combine (List.seq 0 (length DEFAULT_WHITELIST_DOMAINS)) DEFAULT_WHITELIST_DOMAINS).

Definition listWhitelistDomains (db : D1Database) (tenantId : string) : list string :=
  js_sort by_code (List.map w_domain (List.filter (fun r => String.eqb (w_tenant_id r) tenantId) (tenant_whitelist db))).

Definition addWhitelistDomain (db : D1Database) (tenantId rawDomain id : string) (now : Z) : js_result (D1Database * string) :=
  let domain := normalizeDomain rawDomain in
  if String.eqb domain "" || negb (has_char "." domain) then Throws ("Not a valid domain: " +:+ rawDomain)
  else Returns (insert_whitelist (mkWhitelist id tenantId domain now) db, domain).

Definition removeWhitelistDomain (db : D1Database) (tenantId rawDomain : string) : D1Database :=
  on_tenant_whitelist (List.filter (fun r => negb (String.eqb (w_tenant_id r) tenantId && String.eqb (w_domain r) (normalizeDomain rawDomain)))) db.

(** ** Cards of the User Portal *)

Definition listPortalSites (db : D1Database) (tenantId : string) : list PortalSite :=
  js_sort (fun a b => if card_order_index a =? card_order_index b then card_created_at a - card_created_at b else card_order_index a - card_order_index b)
    (List.filter (fun r => String.eqb (card_tenant_id r) tenantId && (card_is_active r =? 1)) (portal_sites db)).

Definition taken_down (tenantId url : string) (r : PortalSite) : bool :=
  String.eqb (card_tenant_id r) tenantId && String.eqb (card_url r) url && bool_decide (is_Some (card_takedown_at r)).

Definition findTakenDownPortalSite (db : D1Database) (tenantId url : string) : option PortalSite := js_find (taken_down tenantId url) (portal_sites db).

Definition set_takedown (active : Z) (at_ : option Z) (reason : option string) (r : PortalSite) : PortalSite :=
  mkPortalSite (card_id r) (card_tenant_id r) (card_title r) (card_url r) (card_domain r) (card_category r) (card_icon r) (card_thumbnail_url r)
    (card_order_index r) active (card_created_at r) at_ reason.

(** The cards the statement is about, and what it makes of one. *)
Definition takedown_hit (takedown : option (Z * string)) (tenantId url : string) (r : PortalSite) : bool :=
  match takedown with
  | Some _ => String.eqb (card_tenant_id r) tenantId && String.eqb (card_url r) url && (card_is_active r =? 1)
  | None => taken_down tenantId url r
  end.

Definition takedown_write (takedown : option (Z * string)) (r : PortalSite) : PortalSite :=
  match takedown with Some (at_, reason) => set_takedown 0 (Some at_) (Some reason) r | None => set_takedown 1 None None r end.

(** The database, and how many cards changed. *)
Definition setPortalSiteTakedown (db : D1Database) (tenantId url : string) (takedown : option (Z * string)) : D1Database * Z :=
  let hit := takedown_hit takedown tenantId url in
  (on_portal_sites (List.map (fun r => if hit r then takedown_write takedown r else r)) db, Z.of_nat (length (List.filter hit (portal_sites db)))).

(** [.replace(/^www\./, "")]. *)
Definition strip_www (s : string) : string := if startsWith s "www." then str_drop 4 s else s.

Definition GLOBE : string := "globe".

Definition next_order (db : D1Database) (tenantId : string) : Z :=
  match List.map card_order_index (List.filter (fun r => String.eqb (card_tenant_id r) tenantId) (portal_sites db)) with
  | [] => 0
  | x :: l => foldl Z.max x l + 1
  end.

Section Links.
Context `{UrlParser}.

Definition createPortalSite (db : D1Database) (tenantId title url : string) (category icon thumbnailUrl : option string) (id : string) (now : Z) : js_result (D1Database * PortalSite) :=
  match parseURL url with
  | None => Throws ("Invalid application URL: " +:+ url)
  | Some u =>
      let site := mkPortalSite id tenantId title url (strip_www (url_hostname u)) (default "General"%string (category ≫= nonempty)) (Some (default GLOBE (icon ≫= nonempty)))
                    (thumbnailUrl ≫= nonempty) (next_order db tenantId) 1 now None None in
      Returns (on_portal_sites (fun l => l ++ [site]) db, site)
  end.

Definition deletePortalSite (db : D1Database) (id tenantId : string) : D1Database :=
  on_portal_sites (List.filter (fun r => negb (String.eqb (card_id r) id && String.eqb (card_tenant_id r) tenantId))) db.

(** ** Broadcast shortcuts *)

Definition listBroadcastPresets (db : D1Database) (tenantId : string) : list BroadcastPreset :=
  js_sort (fun a b => bp_created_at a - bp_created_at b) (List.filter (fun r => String.eqb (bp_tenant_id r) tenantId) (broadcast_presets db)).

Definition createBroadcastPreset (db : D1Database) (tenantId title url id : string) (now : Z) : D1Database * BroadcastPreset :=
  let preset := mkPreset id tenantId title url now in (on_broadcast_presets (fun l => l ++ [preset]) db, preset).

Definition deleteBroadcastPreset (db : D1Database) (id tenantId : string) : D1Database :=
  on_broadcast_presets (List.filter (fun r => negb (String.eqb (bp_id r) id && String.eqb (bp_tenant_id r) tenantId))) db.

(** ** All of it together *)

(** [new URL(url).hostname.toLowerCase()], nothing where it does not parse. *)
Definition host_of (url : string) : string :=
  match parseURL url with Some u => toLowerCase (url_hostname u) | None => "" end.

(** [set.add], where there is something to add. *)
Definition add_host (set : list string) (host : string) : list string := if String.eqb host "" then set else set_add set host.

Definition buildEffectiveWhitelist (db : D1Database) (tenantId : string) : list string :=
  let tenant := findTenantById db tenantId in
  let set0 := js_dedup (listWhitelistDomains db tenantId ++ List.map card_domain (listPortalSites db tenantId)) in
  let set1 := foldl (fun s p => add_host s (host_of (bp_url p))) set0 (listBroadcastPresets db tenantId) in
  let set2 := match tenant with Some t => if String.eqb (t_default_url t) "" then set1 else add_host set1 (host_of (t_default_url t)) | None => set1 end in
  let set3 := match tenant ≫= t_custom_domain with Some d => add_host set2 (toLowerCase d) | None => set2 end in
  js_sort by_code set3.

(** ** Links a hosted page may carry *)

Definition URL_SHORTENERS : list string :=
  ["bit.ly"; "bit.do"; "buff.ly"; "cutt.ly"; "goo.gl"; "is.gd"; "ow.ly"; "rb.gy"; "rebrand.ly"; "s.id"; "shorturl.at"; "t.co"; "t.ly"; "tiny.cc"; "tinyurl.com"; "v.gd"]%string.

(** The label pattern of link_rules.ts, after its look-ahead for the length. *)
Definition BLOCKLIST_DOMAIN : re := RCat (RPlus (RCat RLabel (RChar "."))) (RBetween 2 63 (RClass is_lower)).
Definition BLOCKLIST_DOMAIN_PATTERN (s : string) : bool := (1 <=? String.length s)%nat && (String.length s <=? 253)%nat && re_test BLOCKLIST_DOMAIN s.

Definition listLinkBlocklist (db : D1Database) : list BlocklistEntry := js_sort (fun a b => by_code (bl_domain a) (bl_domain b)) (link_blocklist db).

Definition addBlockedDomain (db : D1Database) (domain : string) (reason : option string) (userId : string) (now : Z) : js_result D1Database :=
  if negb (BLOCKLIST_DOMAIN_PATTERN domain) then Throws (quote_mark +:+ domain +:+ quote_mark +:+ " is not a domain name")
  else Returns (on_link_blocklist (upsert (fun r => String.eqb (bl_domain r) domain) (fun r => mkBlocked (bl_domain r) reason now (Some userId)) (mkBlocked domain reason now (Some userId))) db).

Definition removeBlockedDomain (db : D1Database) (domain : string) : D1Database * bool :=
  (on_link_blocklist (List.filter (fun r => negb (String.eqb (bl_domain r) domain))) db, existsb (fun r => String.eqb (bl_domain r) domain) (link_blocklist db)).

Definition within_domain (host domain : string) : bool := String.eqb host domain || endsWith host ("." +:+ domain).

(** [.replace(/\.$/, "")]. *)
Definition strip_last_dot (s : string) : string := if endsWith s "." then str_drop_last 1 s else s.

(** [/^0x[0-9a-f]+$/i] of a host in lower case. *)
Definition HEX_HOST : re := RCat (RLit "0x") (RPlus (RClass is_lower_hex)).

Definition is_address (host : string) : bool :=
  (startsWith host "[" && endsWith host "]") || (negb (String.eqb host "") && str_forallb (fun c => is_digit c || is_char "." c) host) || re_test HEX_HOST host.

Definition hostedLinkProblem (url : string) (blocked : list string) : option string :=
  match parseURL url with
  | None => Some "The link is not a valid address"%string
  | Some u =>
      if negb (String.eqb (url_username u) "") || negb (String.eqb (url_password u) "") then Some "A link may not carry a user name or password"%string
      else
        let host := strip_last_dot (toLowerCase (url_hostname u)) in
        if is_address host then Some "Link to a site by its name, not by an IP address"%string
        else if existsb (within_domain host) URL_SHORTENERS then Some "Link shorteners hide where a link goes; use the full address instead"%string
        else match js_find (within_domain host) blocked with
             | Some hit => Some ("Links to " +:+ hit +:+ " are not allowed on pages Lab Kiosk hosts")
             | None => None
             end
  end.
End Links.

(** ** Properties *)

Section Reach.
Context `{UrlParser}.

Lemma elem_of_add_host set host h : h ∈ add_host set host <-> h ∈ set \/ (h = host /\ host <> ""%string).
Proof. unfold add_host. destruct (String.eqb_spec host "") as [-> |Hne]; [naive_solver|]. rewrite elem_of_set_add. naive_solver. Qed.

Lemma elem_of_add_presets l : forall set h, h ∈ foldl (fun s p => add_host s (host_of (bp_url p))) set l <-> h ∈ set \/ exists p, p ∈ l /\ h = host_of (bp_url p) /\ h <> ""%string.
Proof.
  induction l as [|p l IH]; intros set h; cbn [foldl].
  - split; [by left|]. intros [?|(p & Hp & _)]; [done|by apply elem_of_nil in Hp].
  - rewrite IH, elem_of_add_host. setoid_rewrite elem_of_cons. naive_solver.
Qed.

Lemma add_host_NoDup set host : NoDup set -> NoDup (add_host set host).
Proof. intros Hn. unfold add_host. destruct (String.eqb _ _); [done|]. by apply set_add_NoDup. Qed.

Lemma add_presets_NoDup l : forall set, NoDup set -> NoDup (foldl (fun s p => add_host s (host_of (bp_url p))) set l).
Proof. induction l as [|p l IH]; intros set Hn; [done|]. cbn. by apply IH, add_host_NoDup. Qed.

(** Where an organization's workstations may go. *)
Definition may_reach (db : D1Database) (tenantId h : string) : Prop :=
  (exists r, r ∈ tenant_whitelist db /\ w_tenant_id r = tenantId /\ w_domain r = h) \/
  (exists c, c ∈ portal_sites db /\ card_tenant_id c = tenantId /\ card_is_active c = 1 /\ card_domain c = h) \/
  (h <> ""%string /\ exists p, p ∈ broadcast_presets db /\ bp_tenant_id p = tenantId /\ host_of (bp_url p) = h) \/
  (h <> ""%string /\ exists t, findTenantById db tenantId = Some t /\
     ((t_default_url t <> ""%string /\ host_of (t_default_url t) = h) \/ (exists d, t_custom_domain t = Some d /\ toLowerCase d = h))).

Lemma elem_of_listed {A} (p : A -> bool) (cmp : A -> A -> Z) l x : x ∈ js_sort cmp (List.filter p l) <-> x ∈ l /\ p x = true.
Proof. by rewrite elem_of_js_sort, list_elem_of_In, List.filter_In, <- list_elem_of_In. Qed.

Lemma elem_of_sites db tenantId c : c ∈ listPortalSites db tenantId <-> c ∈ portal_sites db /\ card_tenant_id c = tenantId /\ card_is_active c = 1.
Proof. unfold listPortalSites. rewrite elem_of_listed, andb_true_iff, String.eqb_eq, Z.eqb_eq. done. Qed.

Lemma elem_of_presets db tenantId p : p ∈ listBroadcastPresets db tenantId <-> p ∈ broadcast_presets db /\ bp_tenant_id p = tenantId.
Proof. unfold listBroadcastPresets. rewrite elem_of_listed, String.eqb_eq. done. Qed.

Lemma elem_of_domains db tenantId h : h ∈ listWhitelistDomains db tenantId <-> exists r, r ∈ tenant_whitelist db /\ w_tenant_id r = tenantId /\ w_domain r = h.
Proof.
  unfold listWhitelistDomains. rewrite elem_of_js_sort, list_elem_of_fmap. split.
  - intros (r & -> & Hr). apply list_elem_of_In, List.filter_In in Hr as [Hr E%String.eqb_eq]. exists r. split; [by apply list_elem_of_In|done].
  - intros (r & Hr & E & <-). exists r. split; [done|]. apply list_elem_of_In, List.filter_In. split; [by apply list_elem_of_In|by apply String.eqb_eq].
Qed.

Lemma effective_elem db tenantId h : h ∈ buildEffectiveWhitelist db tenantId <-> may_reach db tenantId h.
Proof.
  unfold buildEffectiveWhitelist. rewrite elem_of_js_sort. set (set1 := foldl _ _ _). set (set2 := match findTenantById db tenantId with Some t => _ | None => _ end).
  assert (H1 : h ∈ set1 <-> (exists r, r ∈ tenant_whitelist db /\ w_tenant_id r = tenantId /\ w_domain r = h) \/
    (exists c, c ∈ portal_sites db /\ card_tenant_id c = tenantId /\ card_is_active c = 1 /\ card_domain c = h) \/
    (h <> ""%string /\ exists p, p ∈ broadcast_presets db /\ bp_tenant_id p = tenantId /\ host_of (bp_url p) = h)).
  { unfold set1. rewrite elem_of_add_presets, elem_of_js_dedup, elem_of_app, elem_of_domains, list_elem_of_fmap. setoid_rewrite elem_of_sites. setoid_rewrite elem_of_presets. naive_solver. }
  assert (H2 : h ∈ set2 <-> h ∈ set1 \/ exists t, findTenantById db tenantId = Some t /\ h <> ""%string /\ t_default_url t <> ""%string /\ host_of (t_default_url t) = h).
  { unfold set2. destruct (findTenantById db tenantId) as [t|]; [|naive_solver]. destruct (String.eqb_spec (t_default_url t) "") as [E|E]; [naive_solver|]. rewrite elem_of_add_host. naive_solver. }
  assert (H3 : h ∈ match findTenantById db tenantId ≫= t_custom_domain with Some d => add_host set2 (toLowerCase d) | None => set2 end <->
    h ∈ set2 \/ exists t d, findTenantById db tenantId = Some t /\ h <> ""%string /\ t_custom_domain t = Some d /\ toLowerCase d = h).
  { destruct (findTenantById db tenantId) as [t|]; cbn; [|naive_solver]. destruct (t_custom_domain t) as [d|] eqn:Ed; [|naive_solver]. rewrite elem_of_add_host. naive_solver. }
  rewrite H3, H2, H1. unfold may_reach. naive_solver.
Qed.

Lemma by_code_comparator : Comparator by_code.
Proof. apply strict_cmp_comparator, by_code_strict. Qed.

(** The allowlist is exactly what was allowed. An organization's
    workstations may reach a host exactly when it is on the organization's
    list, is the host of a card on its portal that is shown, of one of its
    broadcast shortcuts, of its single site, or is its custom domain; each
    host is listed once, in order; and nothing another organization does
    changes it. *)
Theorem effective_whitelist_exact db tenantId :
  (forall h, h ∈ buildEffectiveWhitelist db tenantId <-> may_reach db tenantId h) /\
  NoDup (buildEffectiveWhitelist db tenantId) /\ StronglySorted (fun a b => by_code a b <= 0) (buildEffectiveWhitelist db tenantId) /\
  (forall db', (forall r, w_tenant_id r = tenantId -> r ∈ tenant_whitelist db' <-> r ∈ tenant_whitelist db) ->
     (forall c, card_tenant_id c = tenantId -> c ∈ portal_sites db' <-> c ∈ portal_sites db) ->
     (forall p, bp_tenant_id p = tenantId -> p ∈ broadcast_presets db' <-> p ∈ broadcast_presets db) ->
     findTenantById db' tenantId = findTenantById db tenantId ->
     forall h, h ∈ buildEffectiveWhitelist db' tenantId <-> h ∈ buildEffectiveWhitelist db tenantId).
Proof.
  split_and!.
  - intros h. apply effective_elem.
  - unfold buildEffectiveWhitelist. rewrite js_sort_perm. set (set1 := foldl _ _ _). assert (H1 : NoDup set1) by (apply add_presets_NoDup, js_dedup_NoDup).
    set (set2 := match findTenantById db tenantId with Some t => _ | None => _ end). assert (H2 : NoDup set2) by (unfold set2; destruct (findTenantById _ _); [destruct (String.eqb _ _)|]; by try apply add_host_NoDup).
    destruct (findTenantById db tenantId ≫= t_custom_domain); by try apply add_host_NoDup.
  - apply js_sort_sorted, by_code_comparator.
  - intros db' Hw Hc Hp Ht h. rewrite !effective_elem. unfold may_reach. rewrite Ht. naive_solver.
Qed.

(** A domain and what is under it. *)
Definition under (host domain : string) : Prop := host = domain \/ exists sub, host = sub +:+ "." +:+ domain.

Lemma within_iff host domain : within_domain host domain = true <-> under host domain.
Proof. unfold within_domain, under. rewrite orb_true_iff, String.eqb_eq, endsWith_iff. done. Qed.

(** A hosted page links only to names it may. The check accepts a link
    exactly when it parses, carries no user name or password, names its host
    by a name, not an address, and the host is neither a link shortener nor on
    the platform's blocklist, nor under one that is. *)
Theorem hosted_links_exact url blocked : hostedLinkProblem url blocked = None <->
  exists u, parseURL url = Some u /\ url_username u = ""%string /\ url_password u = ""%string /\
    let host := strip_last_dot (toLowerCase (url_hostname u)) in
    is_address host = false /\ forall d, d ∈ URL_SHORTENERS ++ blocked -> ~ under host d.
Proof.
  unfold hostedLinkProblem. destruct (parseURL url) as [u|]; [|split; [done|by intros (? & ? & _)]]. destruct (String.eqb_spec (url_username u) "") as [E1|E1]; cbn [negb orb]; [|split; [done|by intros (? & [= <-] & ? & _)]].
  destruct (String.eqb_spec (url_password u) "") as [E2|E2]; cbn [negb]; [|split; [done|by intros (? & [= <-] & _ & ? & _)]]. set (host := strip_last_dot (toLowerCase (url_hostname u))).
  destruct (is_address host) eqn:Ea; [split; [done|]; intros (? & [= <-] & _ & _ & Hn & _); fold host in Hn; congruence|]. destruct (existsb (within_domain host) URL_SHORTENERS) eqn:Es.
  - apply existsb_exists in Es as (d & Hd & Hw). split; [done|]. intros (u' & [= <-] & _ & _ & _ & Hno). destruct (Hno d); [|by apply within_iff]. apply elem_of_app. left. by apply list_elem_of_In.
  - destruct (js_find (within_domain host) blocked) as [d|] eqn:Ef.
    + apply js_find_Some in Ef as [Hd Hw]. split; [done|]. intros (u' & [= <-] & _ & _ & _ & Hno). destruct (Hno d); [|by apply within_iff]. apply elem_of_app. by right.
    + split; [|done]. intros _. exists u. split_and!; try done. intros d [Hd|Hd]%elem_of_app Hu; apply within_iff in Hu.
      * assert (existsb (within_domain host) URL_SHORTENERS = true); [|congruence]. apply existsb_exists. exists d. split; [by apply list_elem_of_In|done].
      * destruct (js_find_is_Some (within_domain host) _ _ Hd Hu) as [x E]. rewrite Ef in E. discriminate.
Qed.
End Reach.
