(* ===== verification/Devices.v ===== *)
(** Workstation enrolment: the device tokens of db.ts (createDeviceToken,
    findDeviceByToken, revokeDeviceTokensForClient and the limit on enrolled
    workstations).

    Issuing a token is two statements, an INSERT that checks the limit itself
    and an UPDATE that revokes the workstation's older tokens. Requests run
    concurrently, so the limit is proved for every interleaving of the
    statements ([token_statements_limit]). *)
From S2P Require Import Prelude JsString Platform Db.

Definition valid_token (tenantId : string) (d : DeviceToken) : bool :=
  String.eqb (dt_tenant_id d) tenantId && negb (dt_revoked d).

(** [SELECT DISTINCT client_id FROM device_tokens WHERE tenant_id = ? AND revoked = 0]. *)
Definition enrolled (tenantId : string) (l : list DeviceToken) : list string :=
  js_dedup (List.map dt_client_id (List.filter (valid_token tenantId) l)).

Definition countEnrolledWorkstations (db : D1Database) (tenantId : string) : Z :=
  Z.of_nat (length (enrolled tenantId (device_tokens db))).

(** The INSERT: refused when the organization is at its limit and the
    workstation holds no valid token. *)
Definition insert_token (limit : Z) (row : DeviceToken) (l : list DeviceToken) : list DeviceToken :=
  if existsb (fun d => valid_token (dt_tenant_id row) d && String.eqb (dt_client_id d) (dt_client_id row)) l
     || (Z.of_nat (length (enrolled (dt_tenant_id row) l)) <? limit)
  then l ++ [row] else l.

Definition revoke (d : DeviceToken) : DeviceToken :=
  mkDeviceToken (dt_id d) (dt_token_hash d) (dt_tenant_id d) (dt_client_id d) (dt_created_at d) (dt_last_used_at d) true.

(** The UPDATE: every other token of the workstation is revoked. *)
Definition revoke_others (tenantId clientId id : string) (l : list DeviceToken) : list DeviceToken :=
  List.map (fun d =>
    if String.eqb (dt_tenant_id d) tenantId && String.eqb (dt_client_id d) clientId && negb (String.eqb (dt_id d) id)
    then revoke d else d) l.

Section Tokens.
Context `{WebCrypto}.

(** [token] and [id] are the random values drawn; [now] is in seconds. *)
Definition createDeviceToken (db : D1Database) (tenantId clientId : string) (limit : Z) (token id : string) (now : Z)
    : D1Database * option (string * DeviceToken) :=
  let row := mkDeviceToken id (sha256Hex token) tenantId clientId now now false in
  let inserted := insert_token limit row (device_tokens db) in
  if (length inserted =? length (device_tokens db))%nat then (db, None)
  else (on_device_tokens (fun _ => revoke_others tenantId clientId id inserted) db, Some (token, row)).

Definition findDeviceByToken (db : D1Database) (token : string) : option DeviceToken :=
  js_find (fun d => String.eqb (dt_token_hash d) (sha256Hex token) && negb (dt_revoked d)) (device_tokens db).

Definition touchDeviceToken (db : D1Database) (id : string) (now : Z) : D1Database :=
  on_device_tokens (List.map (fun d =>
    if String.eqb (dt_id d) id
    then mkDeviceToken (dt_id d) (dt_token_hash d) (dt_tenant_id d) (dt_client_id d) (dt_created_at d) now (dt_revoked d)
    else d)) db.

Definition revokeDeviceTokensForClient (db : D1Database) (tenantId clientId : string) : D1Database :=
  on_device_tokens (List.map (fun d =>
    if String.eqb (dt_tenant_id d) tenantId && String.eqb (dt_client_id d) clientId then revoke d else d)) db.
End Tokens.

(** ** The number of enrolled workstations *)

Lemma elem_of_enrolled t l c :
  c ∈ enrolled t l <-> exists d, d ∈ l /\ valid_token t d = true /\ dt_client_id d = c.
Proof.
  unfold enrolled. rewrite elem_of_js_dedup, list_elem_of_fmap.
  setoid_rewrite elem_of_bfilter. naive_solver.
Qed.

Lemma enrolled_NoDup t l : NoDup (enrolled t l).
Proof. apply js_dedup_NoDup. Qed.

Lemma enrolled_incl t l k :
  (forall c, c ∈ enrolled t l -> c ∈ enrolled t k) -> (length (enrolled t l) <= length (enrolled t k))%nat.
Proof. apply NoDup_incl_length, enrolled_NoDup. Qed.

Lemma enrolled_app t l d :
  enrolled t (l ++ [d]) = if valid_token t d then set_add (enrolled t l) (dt_client_id d) else enrolled t l.
Proof.
  unfold enrolled, js_dedup. rewrite List.filter_app, map_app, foldl_app. simpl.
  by destruct (valid_token t d).
Qed.

Lemma set_add_length {A} `{EqDecision A} (l : list A) x :
  (length (set_add l x) <= S (length l))%nat /\ (x ∈ l -> set_add l x = l).
Proof. unfold set_add. case_decide; [split; [lia|done]|]. rewrite length_app. simpl. split; [lia|done]. Qed.

Lemma insert_token_limit t limit row l :
  dt_tenant_id row = t ->
  (length (enrolled t (insert_token limit row l)) <= Nat.max (length (enrolled t l)) (Z.to_nat limit))%nat.
Proof.
  intros Ht. unfold insert_token. destruct (_ || _) eqn:E; [|lia].
  rewrite enrolled_app. destruct (valid_token t row) eqn:Hv; [|lia].
  subst t. destruct (set_add_length (enrolled (dt_tenant_id row) l) (dt_client_id row)) as [Hle Hin].
  bool_to_prop. destruct E as [E|E]; bool_to_prop; [|lia].
  rewrite Hin; [lia|]. apply existsb_elem in E as (d & Hd & E). bool_to_prop.
  apply elem_of_enrolled. by exists d.
Qed.

Lemma revoke_map_enrolled t (p : DeviceToken -> bool) l c :
  c ∈ enrolled t (List.map (fun d => if p d then revoke d else d) l) <->
  exists d, d ∈ l /\ valid_token t d = true /\ dt_client_id d = c /\ p d = false.
Proof.
  rewrite elem_of_enrolled. setoid_rewrite list_elem_of_fmap. split.
  - intros (d & (d' & -> & Hd') & Hv & <-). destruct (p d') eqn:Hp; [|by exists d'].
    unfold valid_token in Hv. simpl in Hv. by rewrite andb_false_r in Hv.
  - intros (d & Hd & Hv & <- & Hp). exists d. split; [|done]. exists d. by rewrite Hp.
Qed.

Lemma revoke_map_length t (p : DeviceToken -> bool) l :
  (length (enrolled t (List.map (fun d => if p d then revoke d else d) l)) <= length (enrolled t l))%nat.
Proof. apply enrolled_incl. intros c. rewrite revoke_map_enrolled, elem_of_enrolled. naive_solver. Qed.

Lemma insert_token_other t limit row l :
  dt_tenant_id row <> t -> enrolled t (insert_token limit row l) = enrolled t l.
Proof.
  intros Ht. unfold insert_token. destruct (_ || _); [|done]. rewrite enrolled_app.
  unfold valid_token. apply String.eqb_neq in Ht. by rewrite Ht.
Qed.

(** ** Concurrent requests *)

(** The statements requests send to the device_tokens table. Each is atomic;
    statements of different requests come in any order. *)
Inductive token_statement : Type :=
| StInsert (limit : Z) (row : DeviceToken)
| StRevokeOthers (tenantId clientId id : string)
| StRevokeClient (tenantId clientId : string).

Definition exec_statement (l : list DeviceToken) (s : token_statement) : list DeviceToken :=
  match s with
  | StInsert limit row => insert_token limit row l
  | StRevokeOthers t c id => revoke_others t c id l
  | StRevokeClient t c =>
      List.map (fun d => if String.eqb (dt_tenant_id d) t && String.eqb (dt_client_id d) c then revoke d else d) l
  end.

Lemma exec_statement_limit t L l s :
  (forall limit row, s = StInsert limit row -> dt_tenant_id row = t -> limit <= L) ->
  Z.of_nat (length (enrolled t l)) <= L -> Z.of_nat (length (enrolled t (exec_statement l s))) <= L.
Proof.
  intros Hs Hl. destruct s as [limit row|t' c id|t' c]; simpl.
  - destruct (decide (dt_tenant_id row = t)) as [E|E]; [|by rewrite insert_token_other].
    pose proof (insert_token_limit t limit row l E). specialize (Hs _ _ eq_refl E). lia.
  - pose proof (revoke_map_length t (fun d => String.eqb (dt_tenant_id d) t' && String.eqb (dt_client_id d) c
      && negb (String.eqb (dt_id d) id)) l). unfold revoke_others. lia.
  - pose proof (revoke_map_length t (fun d => String.eqb (dt_tenant_id d) t' && String.eqb (dt_client_id d) c) l). lia.
Qed.

(** However the statements of concurrent enrolments and removals
    interleave, an organization within its workstation limit stays within it:
    two workstations enrolling at once cannot both take the last place. *)
Theorem token_statements_limit t L stmts l :
  (forall limit row, StInsert limit row ∈ stmts -> dt_tenant_id row = t -> limit <= L) ->
  Z.of_nat (length (enrolled t l)) <= L ->
  Z.of_nat (length (enrolled t (foldl exec_statement l stmts))) <= L.
Proof.
  revert l; induction stmts as [|s stmts IH]; intros l Hs Hl; [done|]. simpl. apply IH.
  - intros limit row Hin. apply Hs. by right.
  - apply exec_statement_limit; [|done]. intros limit row ->. apply Hs. by left.
Qed.

Definition token_row (id client : string) : DeviceToken := mkDeviceToken id ("h" +:+ id) "org" client 0 0 false.

Lemma token_statements_limit_witness :
  let last_place := [StInsert 2 (token_row "a" "PC-01"); StInsert 2 (token_row "b" "PC-02");
                     StInsert 2 (token_row "c" "PC-03"); StRevokeOthers "org" "PC-02" "b"]%string in
  Z.of_nat (length (enrolled "org" (foldl exec_statement [] last_place))) <= 2 /\
  enrolled "org" (foldl exec_statement [] last_place) = ["PC-01"; "PC-02"]%string.
Proof.
  intros last_place. split; [|vm_compute; reflexivity].
  apply token_statements_limit; [|vm_compute; discriminate].
  intros limit row Hin _. unfold last_place in Hin.
  repeat (apply elem_of_cons in Hin as [Hin|Hin]; [simplify_eq; lia|]). by apply not_elem_of_nil in Hin.
Defined.

(** ** Issuing a token *)

Lemma insert_token_cases limit row l :
  let allowed := existsb (fun d => valid_token (dt_tenant_id row) d && String.eqb (dt_client_id d) (dt_client_id row)) l
                 || (Z.of_nat (length (enrolled (dt_tenant_id row) l)) <? limit) in
  insert_token limit row l = (if allowed then l ++ [row] else l) /\
  (allowed = false <->
   dt_client_id row ∉ enrolled (dt_tenant_id row) l /\
   limit <= Z.of_nat (length (enrolled (dt_tenant_id row) l))).
Proof.
  simpl. split; [done|]. rewrite orb_false_iff, Z.ltb_ge. apply and_iff_compat_r.
  rewrite elem_of_enrolled, <- not_true_iff_false, existsb_elem. apply not_iff_compat. split.
  - intros (d & Hd & E). bool_to_prop. by exists d.
  - intros (d & Hd & Hv & E). exists d. rewrite Hv, E, String.eqb_refl. done.
Qed.

(** The valid tokens of one workstation. *)
Definition valid_tokens_of (db : D1Database) (t c : string) : list DeviceToken :=
  List.filter (fun d => valid_token t d && String.eqb (dt_client_id d) c) (device_tokens db).

Lemma revoke_others_valid t c row l :
  (forall d, d ∈ l -> dt_id d <> dt_id row) -> dt_tenant_id row = t -> dt_client_id row = c -> dt_revoked row = false ->
  List.filter (fun d => valid_token t d && String.eqb (dt_client_id d) c) (revoke_others t c (dt_id row) (l ++ [row])) = [row].
Proof.
  intros Hid <- <- Hr. unfold revoke_others. rewrite map_app, List.filter_app. simpl.
  rewrite !String.eqb_refl. simpl. unfold valid_token. rewrite !String.eqb_refl, Hr. simpl.
  match goal with |- ?x ++ [row] = _ => replace x with (@nil DeviceToken); [done|] end. symmetry.
  induction l as [|d l IH]; [done|]. simpl.
  pose proof (Hid d ltac:(left)) as Hd. apply String.eqb_neq in Hd. rewrite Hd.
  rewrite IH by (intros e He; apply Hid; by right).
  destruct (String.eqb (dt_tenant_id d) _) eqn:E1, (String.eqb (dt_client_id d) _) eqn:E2; simpl;
    rewrite ?E1, ?E2, ?andb_false_r; done.
Qed.

Lemma revoke_others_other t c id row l t' c' :
  (t', c') <> (t, c) -> dt_tenant_id row = t -> dt_client_id row = c ->
  List.filter (fun d => valid_token t' d && String.eqb (dt_client_id d) c') (revoke_others t c id (l ++ [row])) =
  List.filter (fun d => valid_token t' d && String.eqb (dt_client_id d) c') l.
Proof.
  intros Hne Ht Hc.
  assert (Hkey : forall d, dt_tenant_id d = t -> dt_client_id d = c ->
    valid_token t' d && String.eqb (dt_client_id d) c' = false).
  { intros d <- <-. unfold valid_token.
    destruct (String.eqb_spec (dt_tenant_id d) t'), (String.eqb_spec (dt_client_id d) c');
      rewrite ?andb_false_r; try done. congruence. }
  unfold revoke_others. rewrite map_app, List.filter_app. simpl.
  match goal with |- context [if valid_token t' ?x && _ then _ else _] => rewrite (Hkey x) end.
  2,3: match goal with |- context [if ?b then _ else _] => by destruct b end.
  rewrite app_nil_r.
  induction l as [|d l IH]; [done|]. simpl. rewrite IH.
  destruct (String.eqb_spec (dt_tenant_id d) t) as [E1|E1], (String.eqb_spec (dt_client_id d) c) as [E2|E2]; simpl; try done.
  destruct (String.eqb (dt_id d) id); simpl; [done|].
  pose proof (Hkey (revoke d) E1 E2) as Hr. simpl in Hr. by rewrite Hr, (Hkey d E1 E2).
Qed.

(** Issuing a device token. It is refused exactly when the organization is
    at its limit and the workstation holds no valid token, and then nothing
    changes; otherwise the new token is the only valid one of that workstation
    and the tokens of every other workstation are as they were. *)
Theorem createDeviceToken_spec `{WebCrypto} db t c limit token id now :
  (forall d, d ∈ device_tokens db -> dt_id d <> id) ->
  let '(db', r) := createDeviceToken db t c limit token id now in
  (r = None <-> c ∉ enrolled t (device_tokens db) /\ limit <= countEnrolledWorkstations db t) /\
  (r = None -> db' = db) /\
  (forall tok dev, r = Some (tok, dev) ->
     tok = token /\ dt_token_hash dev = sha256Hex token /\
     valid_tokens_of db' t c = [dev] /\
     forall t' c', (t', c') <> (t, c) -> valid_tokens_of db' t' c' = valid_tokens_of db t' c').
Proof.
  intros Hid. unfold createDeviceToken, countEnrolledWorkstations.
  set (row := mkDeviceToken id (sha256Hex token) t c now now false).
  destruct (insert_token_cases limit row (device_tokens db)) as [-> Hallow].
  change (dt_tenant_id row) with t in *. change (dt_client_id row) with c in *. cbv zeta in Hallow.
  destruct (_ || _).
  - rewrite length_app. destruct (Nat.eqb_spec (length (device_tokens db) + length [row]) (length (device_tokens db))) as [E|E];
      [simpl in E; lia|].
    split; [split; [done|intros Hn; by apply Hallow in Hn]|]. split; [done|].
    intros tok dev [= <- <-]. split; [done|]. split; [done|].
    unfold valid_tokens_of. cbn [device_tokens on_device_tokens].
    split; [by apply (revoke_others_valid t c row)|]. intros t' c' Hne. by apply revoke_others_other.
  - rewrite Nat.eqb_refl. split; [split; [intros _; by apply Hallow|done]|]. done.
Qed.

Lemma createDeviceToken_spec_witness :
  let db := on_device_tokens (fun _ => [token_row "a" "PC-01"]) empty_db in
  (forall d, d ∈ device_tokens db -> dt_id d <> "n"%string) /\
  (let '(db', r) := @createDeviceToken toy_crypto db "org" "PC-02" 1 "secret" "n" 7 in
  (r = None <-> "PC-02"%string ∉ enrolled "org" (device_tokens db) /\ 1 <= countEnrolledWorkstations db "org") /\
  (r = None -> db' = db) /\
  (forall tok dev, r = Some (tok, dev) ->
     tok = "secret"%string /\ dt_token_hash dev = @sha256Hex toy_crypto "secret" /\
     valid_tokens_of db' "org" "PC-02" = [dev] /\
     forall t' c', (t', c') <> ("org", "PC-02")%string -> valid_tokens_of db' t' c' = valid_tokens_of db t' c')).
Proof.
  intros db. assert (Hid : forall d, d ∈ device_tokens db -> dt_id d <> "n"%string).
  { intros d Hd. apply list_elem_of_singleton in Hd as ->. done. }
  split; [done|]. exact (createDeviceToken_spec db "org" "PC-02" 1 "secret" "n" 7 Hid).
Defined.
