(* ===== verification/Guard.v ===== *)
(** src/cloudflare-control/src/guard.ts and demo.ts: who is asking, and which
    organization they are allowed to ask about.

    A guard returns [None] to let a request through, or the response that
    refuses it. The cache of verified device tokens is the state [requireDevice]
    threads; its entries are kept in insertion order, as a [Map] keeps them. *)
From S2P Require Import Prelude JsString Regex Platform Db Escape Devices.

(** ** Requests and refusals *)

Record Request : Type := mkRequest {
  req_method : string;
  (** Header names in lower case. *)
  req_headers : list (string * string);
  req_url : string
}.

Definition header (r : Request) (name : string) : option string := assoc name (req_headers r).

(** [jsonError(message, status)]. *)
Record Refusal : Type := mkRefusal { message : string; status : Z }.

Section Guard.
Context `{UrlParser} `{WebCrypto}.

(** ** The host of a request *)

Definition DEV_HOSTS : list string :=
  ["localhost"; "127.0.0.1"; "0.0.0.0"; "[::1]"; "host.docker.internal"; "host.containers.internal"]%string.

Definition hostname (request : Request) : string :=
  let from_url :=
    match parseURL (req_url request) with
    | Some u => toLowerCase (url_hostname u)
    | None => "localhost"%string
    end in
  match header request "host" with
  | None => from_url
  | Some h =>
      if String.eqb h "" then from_url
      else
        let closing := indexOf "]" h in
        if startsWith h "[" && negb (closing =? -1)
        then toLowerCase (str_take (Z.to_nat (closing + 1)) h)
        else toLowerCase (first_part ":" h)
  end.

Definition ROctet : re := RBetween 1 3 RDigit.
Definition RDot : re := RChar ".".

(** The loopback and RFC 1918 patterns of isDevHost. *)
Definition LOOPBACK : re := RCat (RLit "127.") (RCat ROctet (RCat RDot (RCat ROctet (RCat RDot ROctet)))).
Definition PRIVATE_192 : re := RCat (RLit "192.168.") (RCat ROctet (RCat RDot ROctet)).
Definition PRIVATE_10 : re := RCat (RLit "10.") (RCat ROctet (RCat RDot (RCat ROctet (RCat RDot ROctet)))).
Definition PRIVATE_172 : re :=
  RCat (RLit "172.")
 (RCat (RAlt (RCat (RChar "1") (RClass (in_range 54 57)))
       (RAlt (RCat (RChar "2") RDigit) (RCat (RChar "3") (RClass (in_range 48 49)))))
 (RCat RDot (RCat ROctet (RCat RDot ROctet)))).

Definition is_dev_name (host : string) : bool :=
  bool_decide (host ∈ DEV_HOSTS) || re_test LOOPBACK host || re_test PRIVATE_192 host
  || re_test PRIVATE_10 host || re_test PRIVATE_172 host.

Definition isDevHost (request : Request) : bool := is_dev_name (hostname request).

Definition IPV4_LITERAL : re := RCat ROctet (RRep 3 (RCat RDot ROctet)).

Definition isIpLiteral (host : string) : bool :=
  re_test IPV4_LITERAL host || has_char ":" host || startsWith host "[".

(** ** Names *)

Definition RESERVED_SLUGS : list string :=
  ["www"; "super"; "labkiosk"; "api"; "admin"; "portal"; "status"; "mail"; "app"; "kiosk"; "root";
   "releases"; "release"; "updates"; "update"; "ota"; "download"; "downloads"; "mirror";
   "cdn"; "static"; "assets"; "media"; "files"; "images"; "img";
   "docs"; "wiki"; "blog"; "help"; "support"; "billing";
   "dashboard"; "console"; "platform"; "system"; "internal";
   "dev"; "staging"; "stage"; "test"; "testing"; "beta"; "preview";
   "account"; "accounts"; "login"; "signin"; "signup"; "register"; "auth"; "sso"; "oauth";
   "security"; "official"; "team"; "staff";
   "abuse"; "postmaster"; "hostmaster"; "webmaster"; "noreply"; "no-reply";
   "smtp"; "imap"; "pop"; "pop3"; "webmail"; "ns1"; "ns2"; "autodiscover"; "autoconfig"; "mta-sts";
   "git"; "vpn"; "ftp"]%string.

(** The keys of DEMO_TENANTS (demo.ts). *)
Definition DEMO_SLUGS : list string := ["web-demo"; "local-demo"; "docker-demo"]%string.

Definition PLATFORM_SLUGS : list string := "demo"%string :: DEMO_SLUGS.

Definition isReservedSlug (slug : string) : bool :=
  bool_decide (slug ∈ RESERVED_SLUGS) || bool_decide (slug ∈ PLATFORM_SLUGS).

Definition defaultDemoSlug (onDevHost : bool) : string :=
  if onDevHost then "local-demo"%string else "web-demo"%string.

Definition isDemoSlug (slug : string) : bool := bool_decide (slug ∈ DEMO_SLUGS).

Definition isDemoTenant (tenant : option Tenant) (superAdminId : string) : bool :=
  match tenant with
  | Some t => isDemoSlug (t_subdomain t) && String.eqb (t_user_id t) superAdminId
  | None => false
  end.

(** [.replace(/^\./, "")]. *)
Definition strip_dot (s : string) : string := if startsWith s "." then str_drop 1 s else s.

Definition isHostUnder (host : string) (base : option string) : bool :=
  match base with
  | None => false
  | Some b =>
      if String.eqb b "" then false
      else
        let cleanHost := toLowerCase host in
        let cleanBase := toLowerCase (strip_dot b) in
        String.eqb cleanHost cleanBase || endsWith cleanHost ("." +:+ cleanBase)
  end.

Definition superAdminHost (SUPER_ADMIN_HOST DEFAULT_DOMAIN : option string) : js_result (option string) :=
  let host := toLowerCase (trim (default "" SUPER_ADMIN_HOST)) in
  if String.eqb host "" then Returns None
  else
    let base := toLowerCase (strip_dot (default "" DEFAULT_DOMAIN)) in
    if String.eqb base "" || String.eqb host base || negb (endsWith host ("." +:+ base))
       || has_char "." (str_drop_last (String.length base + 1) host)
    then Throws ("SUPER_ADMIN_HOST must be one name directly under DEFAULT_DOMAIN (e.g. super." +:+
                 (if String.eqb base "" then "labkiosk.org" else base) +:+ "), not " +:+ quote_mark +:+ host +:+ quote_mark)
    else Returns (Some host).

(** The organization slug carried by the host, or none. *)
Definition host_slug (host : string) (baseDomain : option string) : option string :=
  if isIpLiteral host then None
  else
    let candidate :=
      match baseDomain with
      | Some b =>
          if String.eqb b "" then
            (let parts := split_on "." host in
             if (length parts <=? 2)%nat then None else Some (cleanSubdomain (default "" (head parts))))
          else
            let suffix := "." +:+ toLowerCase (strip_dot b) in
            if negb (endsWith host suffix) then None
            else
              let prefix := str_drop_last (String.length suffix) host in
              if String.eqb prefix "" || has_char "." prefix then None else Some (cleanSubdomain prefix)
      | None =>
          let parts := split_on "." host in
          if (length parts <=? 2)%nat then None else Some (cleanSubdomain (default "" (head parts)))
      end in
    match candidate with
    | None => None
    | Some slug => if String.eqb slug "" || bool_decide (slug ∈ RESERVED_SLUGS) then None else Some slug
    end.

Definition hostSubdomain (request : Request) (baseDomain : option string) : option string :=
  host_slug (hostname request) baseDomain.
(** ** The organization a request acts on *)

Record TenantResolution : Type := mkResolution { r_tenant : option Tenant; r_denied : bool }.

(** Neither the base domain nor a name under it; an absent or empty base domain excludes nothing. *)
Definition off_base_domain (host : string) (baseDomain : option string) : bool :=
  match baseDomain with
  | None => true
  | Some b => String.eqb b "" || (negb (String.eqb host b) && negb (endsWith host ("." +:+ b)))
  end.

(** The approved custom domain the host is, on a request from elsewhere than a development host. *)
Definition custom_domain_tenant (db : D1Database) (request : Request) (baseDomain : option string) : option Tenant :=
  if negb (isDevHost request) && off_base_domain (hostname request) baseDomain
  then findTenantByCustomDomain db (hostname request) else None.

(** The organization named by [?tenant=] or else by [X-Tenant]. *)
Definition requested_tenant (request : Request) (url : URL) : string :=
  cleanSubdomain
    (match searchParam url "tenant" with
     | Some q => q
     | None => default "" (header request "x-tenant")
     end).

Definition mayOverride (request : Request) (session : option Session) (allowAnonymousOverride : bool) (candidate : Tenant) : bool :=
  isDevHost request || allowAnonymousOverride ||
  match session with
  | Some s => bool_decide (role s = super_admin) || bool_decide (tenant_id s = Some (t_id candidate))
  | None => false
  end.

Definition resolveTenant (db : D1Database) (request : Request) (url : URL) (session : option Session)
    (allowAnonymousOverride : bool) (baseDomain : option string) : TenantResolution :=
  match hostSubdomain request baseDomain with
  | Some slug => mkResolution (findTenantBySubdomain db slug) false
  | None =>
      match custom_domain_tenant db request baseDomain with
      | Some t => mkResolution (Some t) false
      | None =>
          let requested := requested_tenant request url in
          if negb (String.eqb requested "") then
            match findTenantBySubdomain db requested with
            | None => mkResolution None false
            | Some candidate =>
                if mayOverride request session allowAnonymousOverride candidate
                then mkResolution (Some candidate) false else mkResolution None true
            end
          else
            match session with
            | Some s =>
                match tenant_id s with
                | Some id => if String.eqb id "" then mkResolution None false else mkResolution (findTenantById db id) false
                | None => mkResolution None false
                end
            | None => mkResolution None false
            end
      end
  end.

(** ** Requests from other sites *)

Definition CROSS_SITE : Refusal := mkRefusal "Cross-site requests are not accepted" 403.

(** The three origins that count as this site. *)
Definition sameSite (request : Request) (originHost : string) (baseDomain : option string) : bool :=
  String.eqb originHost (hostname request)
  || (bool_decide (originHost ∈ DEV_HOSTS) && isDevHost request)
  || isHostUnder originHost baseDomain.

(** A parseable [Origin] is checked; any other is refused. *)
Definition check_origin (request : Request) (origin : string) (baseDomain : option string) : option Refusal :=
  match parseURL origin with
  | None => Some CROSS_SITE
  | Some u => if sameSite request (toLowerCase (url_hostname u)) baseDomain then None else Some CROSS_SITE
  end.

Definition rejectCrossSiteMutation (request : Request) (usedCookie : bool) (baseDomain : option string) : option Refusal :=
  if negb usedCookie then None
  else if negb (String.eqb (req_method request) "POST") && negb (String.eqb (req_method request) "DELETE") then None
  else
    match header request "origin" with
    | None => None
    | Some origin =>
        if String.eqb origin "" then None
        else if String.eqb origin "null" then Some CROSS_SITE
        else check_origin request origin baseDomain
    end.

Definition rejectCrossSiteSocket (request : Request) (baseDomain : option string) : option Refusal :=
  match header request "origin" with
  | None => Some CROSS_SITE
  | Some origin =>
      if String.eqb origin "" || String.eqb origin "null" then Some CROSS_SITE
      else check_origin request origin baseDomain
  end.

(** ** Who may act *)

Definition requireSuperAdmin (session : option Session) : option Refusal :=
  match session with
  | None => Some (mkRefusal "Authentication required" 401)
  | Some s => if bool_decide (role s = super_admin) then None
              else Some (mkRefusal "Super administrator access required" 403)
  end.

Definition requireTenantAdmin (session : option Session) (tenant : option Tenant) : option Refusal :=
  match session, tenant with
  | None, _ => Some (mkRefusal "Authentication required" 401)
  | Some _, None => Some (mkRefusal "No organization selected for this request" 400)
  | Some s, Some t =>
      if bool_decide (role s = super_admin) then
        if isDemoTenant tenant (user_id s) then None
        else Some (mkRefusal "Platform administrators cannot access individual organization consoles for privacy and security" 403)
      else if negb (bool_decide (tenant_id s = Some (t_id t))) then
        Some (mkRefusal "You do not have access to this organization" 403)
      else if bool_decide (t_status t = pending) || bool_decide (t_status t = rejected) then
        Some (mkRefusal "This organization has not been approved yet" 403)
      else None
  end.

Definition requireTenantPermission (db : D1Database) (session : option Session) (tenant : option Tenant)
    (permission : string) : option Refusal :=
  match requireTenantAdmin session tenant with
  | Some denied => Some denied
  | None =>
      match session, tenant with
      | Some s, Some t =>
          if bool_decide (role s = super_admin) then None
          else if String.eqb (t_user_id t) (user_id s) then None
          else
            let perms := getTenantUserPermissions db (t_id t) (user_id s) in
            if negb (bool_decide (permission ∈ perms)) && negb (bool_decide ("*"%string ∈ perms))
            then Some (mkRefusal ("You do not have permission to access " +:+ permission) 403)
            else None
      | _, _ => None
      end
  end.

(** ** Workstations

    [deviceTokenCache], a [Map]: its entries in insertion order, one per token. *)

Record CacheEntry : Type := mkCacheEntry { ce_device : DeviceToken; ce_until : Z }.

Definition DEVICE_TOKEN_CACHE_MS : Z := 60000.
Definition DEVICE_TOKEN_CACHE_LIMIT : Z := 20000.
Definition DEVICE_TOKEN_TOUCH_SECONDS : Z := 3600.

Definition forgetDeviceToken (tenantId clientId : string) (cache : list (string * CacheEntry)) : list (string * CacheEntry) :=
  List.filter (fun '(_, e) => negb (String.eqb (dt_tenant_id (ce_device e)) tenantId
                                     && String.eqb (dt_client_id (ce_device e)) clientId)) cache.

(** [Map.prototype.delete] and [set] on the entries. *)
Definition map_delete {V} (k : string) (l : list (string * V)) : list (string * V) :=
  List.filter (fun '(k', _) => negb (String.eqb k' k)) l.

Definition map_set {V} (k : string) (v : V) (l : list (string * V)) : list (string * V) :=
  if existsb (fun '(k', _) => String.eqb k' k) l
  then List.map (fun '(k', v') => if String.eqb k' k then (k', v) else (k', v')) l
  else l ++ [(k, v)].

Definition TOKEN_REQUIRED : Refusal := mkRefusal "Device token required" 401.
Definition TOKEN_INVALID : Refusal := mkRefusal "Invalid or revoked device token" 401.

(** The token of an Authorization header, or none. *)
Definition bearer (request : Request) : option string :=
  let auth := default "" (header request "authorization") in
  if negb (startsWith auth "Bearer ") then None
  else nonempty (trim (str_drop 7 auth)).

(** [now] is in milliseconds. *)
Definition requireDevice (request : Request) (db : D1Database) (now : Z) (cache : list (string * CacheEntry))
    : list (string * CacheEntry) * D1Database * (DeviceToken + Refusal) :=
  match bearer request with
  | None => (cache, db, inr TOKEN_REQUIRED)
  | Some token =>
      let lookup :=
        match findDeviceByToken db token with
        | None => (map_delete token cache, db, inr TOKEN_INVALID)
        | Some device =>
            if dt_revoked device then (map_delete token cache, db, inr TOKEN_INVALID)
            else
              let db' := if DEVICE_TOKEN_TOUCH_SECONDS <? now `div` 1000 - dt_last_used_at device
                         then touchDeviceToken db (dt_id device) (now `div` 1000) else db in
              let cache' := if DEVICE_TOKEN_CACHE_LIMIT <=? Z.of_nat (length cache) then tail cache else cache in
              (map_set token (mkCacheEntry device (now + DEVICE_TOKEN_CACHE_MS)) cache', db', inl device)
        end in
      match assoc token cache with
      | Some cached => if now <? ce_until cached then (cache, db, inl (ce_device cached)) else lookup
      | None => lookup
      end
  end.
End Guard.

(** ** Tenant isolation *)

(** What a session may do in an organization: the rule the guards implement. *)
Definition may_use (db : D1Database) (s : Session) (t : Tenant) (permission : string) : Prop :=
  match role s with
  | super_admin => t_subdomain t ∈ DEMO_SLUGS /\ t_user_id t = user_id s
  | org_admin =>
      tenant_id s = Some (t_id t) /\ t_status t <> pending /\ t_status t <> rejected /\
      (t_user_id t = user_id s \/ permission ∈ getTenantUserPermissions db (t_id t) (user_id s)
       \/ "*"%string ∈ getTenantUserPermissions db (t_id t) (user_id s))
  end.

Lemma requireTenantAdmin_iff session tenant :
  requireTenantAdmin session tenant = None <->
  exists s t, session = Some s /\ tenant = Some t /\
    match role s with
    | super_admin => t_subdomain t ∈ DEMO_SLUGS /\ t_user_id t = user_id s
    | org_admin => tenant_id s = Some (t_id t) /\ t_status t <> pending /\ t_status t <> rejected
    end.
Proof.
  unfold requireTenantAdmin, isDemoTenant, isDemoSlug. split.
  - intros H. destruct session as [s|]; [|done]. destruct tenant as [t|]; [|done].
    exists s, t. do 2 (split; [done|]). destruct (role s); cbn in H.
    + destruct (_ && _) eqn:E in H; [|done]. by bool_to_prop.
    + destruct (negb _) eqn:E1 in H; [done|]. destruct (_ || _) eqn:E2 in H; [done|].
      by bool_to_prop.
  - intros (s & t & -> & -> & H). destruct (role s).
    + destruct H as [H1 ->]. by rewrite String.eqb_refl, !bool_decide_eq_true_2.
    + destruct H as (H1 & H2 & H3). by rewrite (bool_decide_eq_true_2 _ H1), !bool_decide_eq_false_2.
Qed.

Lemma requireTenantPermission_iff db session tenant permission :
  requireTenantPermission db session tenant permission = None <->
  exists s t, session = Some s /\ tenant = Some t /\ may_use db s t permission.
Proof.
  unfold requireTenantPermission, may_use.
  destruct (requireTenantAdmin session tenant) as [r|] eqn:E.
  - split; [done|]. intros (s & t & -> & -> & H). exfalso.
    enough (requireTenantAdmin (Some s) (Some t) = None) by congruence.
    apply requireTenantAdmin_iff. exists s, t. do 2 (split; [done|]). destruct (role s); naive_solver.
  - apply requireTenantAdmin_iff in E as (s & t & -> & -> & H).
    transitivity (match role s with super_admin => t_subdomain t ∈ DEMO_SLUGS /\ t_user_id t = user_id s
      | org_admin => tenant_id s = Some (t_id t) /\ t_status t <> pending /\ t_status t <> rejected /\
         (t_user_id t = user_id s \/ permission ∈ getTenantUserPermissions db (t_id t) (user_id s)
          \/ "*"%string ∈ getTenantUserPermissions db (t_id t) (user_id s)) end); [|naive_solver].
    destruct (role s); cbn; [done|].
    destruct (String.eqb_spec (t_user_id t) (user_id s)); [naive_solver|].
    repeat case_bool_decide; cbn; naive_solver.
Qed.

Lemma findTenantBySubdomain_Some db s t :
  findTenantBySubdomain db s = Some t ->
  t ∈ tenants db /\ (t_subdomain t = toLowerCase s \/ t_chosen_subdomain t = Some (toLowerCase s)).
Proof.
  intros [Ht H]%js_find_Some. split; [done|]. bool_to_prop.
  destruct H as [H|H]; bool_to_prop; auto.
Qed.

Lemma findTenantById_Some db id t : findTenantById db id = Some t -> t ∈ tenants db /\ t_id t = id.
Proof. intros [Ht H]%js_find_Some. by bool_to_prop. Qed.

Lemma findTenantByCustomDomain_Some db d t :
  findTenantByCustomDomain db d = Some t -> t ∈ tenants db /\ t_custom_domain t = Some (toLowerCase d).
Proof.
  unfold findTenantByCustomDomain. destruct (String.eqb d ""); [done|].
  intros [Ht H]%js_find_Some. by bool_to_prop.
Qed.

Section Resolution.
Context `{UrlParser}.

(** The host names the organization: its slug under the base domain, or its custom domain. *)
Definition host_names (request : Request) (baseDomain : option string) (t : Tenant) : Prop :=
  (exists slug, hostSubdomain request baseDomain = Some slug /\
     (t_subdomain t = toLowerCase slug \/ t_chosen_subdomain t = Some (toLowerCase slug))) \/
  (isDevHost request = false /\ t_custom_domain t = Some (toLowerCase (hostname request))).

Lemma resolveTenant_sound db request url session anon base t :
  r_tenant (resolveTenant db request url session anon base) = Some t ->
  t ∈ tenants db /\
  (host_names request base t \/
   mayOverride request session anon t = true \/
   exists s, session = Some s /\ tenant_id s = Some (t_id t)).
Proof.
  unfold resolveTenant, host_names. intros Hr.
  destruct (hostSubdomain request base) as [slug|]; cbn in Hr.
  { apply findTenantBySubdomain_Some in Hr as [? ?]. naive_solver. }
  destruct (custom_domain_tenant db request base) as [u|] eqn:Ec; cbn in Hr.
  { injection Hr as ->. unfold custom_domain_tenant in Ec. destruct (_ && _) eqn:E in Ec; [|done].
    apply findTenantByCustomDomain_Some in Ec as [? ?]. bool_to_prop. naive_solver. }
  destruct (negb _) in Hr.
  - destruct (findTenantBySubdomain _ _) as [c|] eqn:Ef in Hr; [|done].
    destruct (mayOverride _ _ _ c) eqn:Em in Hr; [|done]. cbn in Hr. injection Hr as ->.
    apply findTenantBySubdomain_Some in Ef as [? _]. naive_solver.
  - destruct session as [s|]; [|done]. destruct (tenant_id s) as [id|] eqn:Es; [|done].
    destruct (String.eqb id ""); [done|]. apply findTenantById_Some in Hr as [? <-]. naive_solver.
Qed.

(** C1. Tenant isolation. Whatever the host, [?tenant=] and [X-Tenant] of a
    request say, a session that passes the permission guard for the
    organization the request resolves to acts on an organization of the
    database it may use: an administrator's own approved organization, as its
    owner or with that permission delegated; a platform administrator's own
    demo. Nobody else passes. *)
Theorem tenant_isolation db request url session anon base permission :
  requireTenantPermission db session (r_tenant (resolveTenant db request url session anon base)) permission = None <->
  exists s t, session = Some s /\ t ∈ tenants db /\
    r_tenant (resolveTenant db request url session anon base) = Some t /\ may_use db s t permission.
Proof.
  rewrite requireTenantPermission_iff. split.
  - intros (s & t & -> & Ht & Hm). exists s, t. pose proof (resolveTenant_sound _ _ _ _ _ _ _ Ht) as [? _]. done.
  - naive_solver.
Qed.

(** Naming an organization in the request is honoured only where trusted:
    away from a development host and from the routes open to everyone, a
    session that is neither the platform's nor the organization's own resolves
    an organization only when the host itself names it; a named organization
    it may not act on is reported as denied, never as found. *)
Theorem resolveTenant_override db request url session base :
  isDevHost request = false ->
  let r := resolveTenant db request url session false base in
  (forall t, r_tenant r = Some t ->
     (forall s, session = Some s -> role s <> super_admin /\ tenant_id s <> Some (t_id t)) ->
     host_names request base t) /\
  (r_denied r = true -> r_tenant r = None /\ exists c, findTenantBySubdomain db (requested_tenant request url) = Some c /\
     forall s, session = Some s -> role s <> super_admin /\ tenant_id s <> Some (t_id c)).
Proof.
  intros Hdev r. split.
  - intros t Ht Hs. apply resolveTenant_sound in Ht as [_ [?|[Hm|(s & -> & E)]]]; [done| |].
    + unfold mayOverride in Hm. rewrite Hdev in Hm. cbn [orb] in Hm.
      destruct session as [s|]; [|done]. destruct (Hs s eq_refl). bool_to_prop. destruct Hm; by bool_to_prop.
    + by destruct (Hs s eq_refl).
  - unfold r, resolveTenant. intros Hd.
    repeat (case_match; simplify_eq; cbn in *; try done).
    split; [done|]. eexists; split; [done|]. intros s ->. unfold mayOverride in *.
    rewrite Hdev in *. cbn [orb] in *. bool_to_prop. done.
Qed.
End Resolution.

Definition greenwood : Tenant :=
  mkTenant "t1" "u1" "Greenwood" "greenwood" None active portal "" None None 0 None 0 0 stable 0 0 0 0 30 None None None 0.

Definition visit (host : string) : Request := mkRequest "POST" [("host", host); ("x-tenant", "greenwood")]%string "".

Lemma resolveTenant_override_witness :
  let db := on_tenants (fun _ => [greenwood]) empty_db in
  let outsider := Some (mkSession "s" "u9" (Some "t9"%string) org_admin 0) in
  @isDevHost toy_url (visit "www.labkiosk.org") = false /\
  (forall u, @resolveTenant toy_url db (visit "www.labkiosk.org") u outsider false (Some "labkiosk.org"%string) = mkResolution None true) /\
  (forall u, @host_names toy_url (visit "greenwood.labkiosk.org") (Some "labkiosk.org"%string) greenwood /\
   r_tenant (@resolveTenant toy_url db (visit "greenwood.labkiosk.org") u outsider false (Some "labkiosk.org"%string)) = Some greenwood).
Proof.
  intros db outsider. split; [vm_compute; reflexivity|]. split; [intros u; vm_compute; reflexivity|].
  intros u. assert (Hr : r_tenant (@resolveTenant toy_url db (visit "greenwood.labkiosk.org") u outsider false
    (Some "labkiosk.org"%string)) = Some greenwood) by (vm_compute; reflexivity).
  split; [|done].
  refine (proj1 (@resolveTenant_override toy_url db _ u outsider _ _) greenwood Hr _); [vm_compute; reflexivity|].
  intros s [= <-]. done.
Defined.

(** ** Cross-site requests *)

(** [isHostUnder]: the base itself or a name that ends in a dot and the base. *)
Lemma isHostUnder_iff host base :
  isHostUnder host base = true <->
  exists b, base = Some b /\ b <> ""%string /\
    let clean := toLowerCase (strip_dot b) in
    toLowerCase host = clean \/ exists p, toLowerCase host = p +:+ "." +:+ clean.
Proof.
  unfold isHostUnder. destruct base as [b|]; [|naive_solver].
  destruct (String.eqb_spec b "") as [->|Hb]; [naive_solver|].
  rewrite orb_true_iff, String.eqb_eq, endsWith_iff. naive_solver.
Qed.

Section CrossSite.
Context `{UrlParser}.

(** The origins a cookie may come from. *)
Definition trusted_origin (request : Request) (origin : string) (base : option string) : Prop :=
  exists u, parseURL origin = Some u /\
    let host := toLowerCase (url_hostname u) in
    host = hostname request \/ (host ∈ DEV_HOSTS /\ isDevHost request = true) \/
    exists b, base = Some b /\ b <> ""%string /\
      (host = toLowerCase (strip_dot b) \/ exists p, host = p +:+ "." +:+ toLowerCase (strip_dot b)).

Lemma check_origin_iff request origin base :
  check_origin request origin base = None <-> trusted_origin request origin base.
Proof.
  unfold check_origin, trusted_origin, sameSite. destruct (parseURL origin) as [u|]; [|naive_solver].
  set (host := toLowerCase (url_hostname u)).
  assert (Hu : isHostUnder host base = true <-> exists b, base = Some b /\ b <> ""%string /\
      (host = toLowerCase (strip_dot b) \/ exists p, host = p +:+ "." +:+ toLowerCase (strip_dot b))).
  { rewrite isHostUnder_iff. unfold host at 1 2. by rewrite toLowerCase_idemp. }
  transitivity (String.eqb host (hostname request) || bool_decide (host ∈ DEV_HOSTS) && isDevHost request
    || isHostUnder host base = true); [destruct (_ || _ || _); naive_solver|].
  rewrite !orb_true_iff, andb_true_iff, String.eqb_eq, bool_decide_eq_true, Hu. unfold host. naive_solver.
Qed.

(** Cross-site requests. A browser's POST or DELETE with a session cookie
    passes exactly when its Origin is trusted: the same host, the platform's
    domain or a name under it (at a dot, so not a look-alike name), or a
    development host reached from a development host; a WebSocket handshake
    passes exactly then too, and never without an Origin. *)
Theorem cross_site_refused request origin base :
  header request "origin" = Some origin -> origin <> ""%string -> origin <> "null"%string ->
  (req_method request = "POST"%string \/ req_method request = "DELETE"%string ->
   rejectCrossSiteMutation request true base = None <-> trusted_origin request origin base) /\
  (rejectCrossSiteSocket request base = None <-> trusted_origin request origin base).
Proof.
  intros Ho He Hn. apply String.eqb_neq in He, Hn.
  unfold rejectCrossSiteMutation, rejectCrossSiteSocket. rewrite Ho, He, Hn. cbn [orb negb].
  split; [intros Hm|apply check_origin_iff].
  replace (_ && _) with false; [apply check_origin_iff|].
  destruct Hm as [-> | ->]; done.
Qed.
End CrossSite.

Lemma cross_site_refused_witness :
  let post from := mkRequest "POST" [("host", "greenwood.labkiosk.org"); ("origin", from)]%string "" in
  (@rejectCrossSiteSocket toy_url (post "https://evil-labkiosk.org/"%string) (Some "labkiosk.org"%string) = None <->
   @trusted_origin toy_url (post "https://evil-labkiosk.org/"%string) "https://evil-labkiosk.org/" (Some "labkiosk.org"%string)) /\
  @rejectCrossSiteMutation toy_url (post "https://evil-labkiosk.org/"%string) true (Some "labkiosk.org"%string) = Some CROSS_SITE /\
  @rejectCrossSiteMutation toy_url (post "https://super.labkiosk.org/"%string) true (Some "labkiosk.org"%string) = None.
Proof.
  intros post. split; [|split; vm_compute; reflexivity].
  apply (@cross_site_refused toy_url (post "https://evil-labkiosk.org/"%string) "https://evil-labkiosk.org/"); done.
Defined.

(** ** The slug of a host *)

Section Slugs.
Context `{UrlParser}.

Lemma domain_name_clean s :
  str_forallb is_domain_char s = true -> toLowerCase s = s /\ has_char ":" s = false.
Proof.
  intros Hs. split.
  - apply (str_map_id _ is_domain_char); [|done]. intros c Hc. by destruct (domain_char_facts c Hc).
  - unfold has_char. rewrite str_existsb_forallb. apply negb_false_iff.
    revert Hs. apply str_forallb_impl. intros c Hc. by destruct (domain_char_facts c Hc) as (_ & _ & -> & _).
Qed.

Lemma hostname_of_header request name port :
  str_forallb is_domain_char name = true -> name <> ""%string ->
  header request "host" = Some (name +:+ port) -> port = ""%string \/ startsWith port ":" = true ->
  hostname request = name.
Proof.
  intros Hn Hne Hh Hp. destruct (domain_name_clean name Hn) as [Hl Hc].
  unfold hostname. rewrite Hh. destruct name as [|c name]; [done|].
  cbn [String.append String.eqb]. replace (startsWith _ "[") with false.
  2: { cbn [str_forallb] in Hn. bool_to_prop. destruct (Ascii.eqb_spec c "[") as [->|Hb]; [done|].
       unfold startsWith. apply Ascii.eqb_neq in Hb. by rewrite Hb. }
  cbn [andb]. change (String c (name +:+ port)) with (String c name +:+ port). unfold first_part.
  destruct Hp as [->|Hp]; [|apply startsWith_iff in Hp as [rest ->]].
  - by rewrite str_app_nil_r, split_on_none.
  - cbn [String.append]. change (String c (name +:+ ?x)) with (String c name +:+ x). by rewrite split_on_app.
Qed.

Lemma host_slug_sound host b slug :
  b <> ""%string -> host_slug host (Some b) = Some slug ->
  exists prefix, host = prefix +:+ "." +:+ toLowerCase (strip_dot b) /\ prefix <> ""%string /\
    has_char "." prefix = false /\ slug = cleanSubdomain prefix /\ slug <> ""%string /\ slug ∉ RESERVED_SLUGS.
Proof.
  intros Hb. unfold host_slug. apply String.eqb_neq in Hb. rewrite Hb.
  destruct (isIpLiteral host); [done|]. cbv zeta.
  destruct (endsWith host _) eqn:E; cbn [negb]; [|done]. apply endsWith_iff in E as [prefix ->].
  rewrite str_drop_last_app. destruct (String.eqb prefix "" || _) eqn:E1; [done|].
  destruct (String.eqb (cleanSubdomain prefix) "" || _) eqn:E2; [done|]. intros [= <-]. bool_to_prop. by exists prefix.
Qed.

Lemma host_slug_complete slug b :
  str_forallb is_slug_char slug = true -> slug <> ""%string -> slug ∉ RESERVED_SLUGS ->
  b <> ""%string -> startsWith b "." = false -> toLowerCase b = b -> isIpLiteral (slug +:+ "." +:+ b) = false ->
  host_slug (slug +:+ "." +:+ b) (Some b) = Some slug.
Proof.
  intros Hs Hne Hr Hb Hd Hl Hip. unfold host_slug. apply String.eqb_neq in Hb. rewrite Hip, Hb.
  unfold strip_dot. rewrite Hd, Hl. cbv zeta.
  replace (endsWith _ _) with true by (symmetry; apply endsWith_iff; by exists slug).
  cbn [negb]. rewrite str_drop_last_app.
  assert (Hdot : has_char "." slug = false).
  { unfold has_char. rewrite str_existsb_forallb. apply negb_false_iff. revert Hs. apply str_forallb_impl.
    intros c Hc. destruct (is_char "." c) eqn:E; [|done]. apply Ascii.eqb_eq in E as ->. done. }
  apply String.eqb_neq in Hne. rewrite Hne, Hdot, cleanSubdomain_id by done. cbn [orb].
  by rewrite Hne, bool_decide_eq_false_2.
Qed.

(** The address of an organization is its slug under the base domain. A
    request to [slug.base], with a port or not, finds that slug; and a host
    that finds a slug is one label under the base domain whose slug characters
    spell it, never a reserved name. *)
Theorem hostSubdomain_roundtrip request base :
  base <> ""%string -> str_forallb is_domain_char base = true -> startsWith base "." = false ->
  (forall slug port,
     str_forallb is_slug_char slug = true -> slug <> ""%string -> slug ∉ RESERVED_SLUGS ->
     isIpLiteral (slug +:+ "." +:+ base) = false ->
     header request "host" = Some (slug +:+ "." +:+ base +:+ port) -> port = ""%string \/ startsWith port ":" = true ->
     hostSubdomain request (Some base) = Some slug) /\
  (forall slug, hostSubdomain request (Some base) = Some slug ->
     exists label, hostname request = label +:+ "." +:+ base /\ has_char "." label = false /\
       slug = cleanSubdomain label /\ slug <> ""%string /\ slug ∉ RESERVED_SLUGS).
Proof.
  intros Hb Hc Hd. destruct (domain_name_clean base Hc) as [Hl _]. unfold hostSubdomain. split.
  - intros slug port Hs Hne Hr Hip Hh Hp. rewrite (hostname_of_header request (slug +:+ "." +:+ base) port).
    + by apply host_slug_complete.
    + rewrite !str_forallb_app, Hc. cbn [str_forallb andb is_domain_char]. rewrite andb_true_r.
      revert Hs. apply str_forallb_impl. intros c Hx. unfold is_domain_char. by rewrite Hx.
    + by destruct slug.
    + by rewrite Hh, !str_app_assoc.
    + done.
  - intros slug Hs. apply host_slug_sound in Hs as (label & E & _ & Hrest); [|done].
    exists label. unfold strip_dot in E. by rewrite Hd, Hl in E.
Qed.
End Slugs.

Lemma hostSubdomain_roundtrip_witness :
  let at_host h := mkRequest "GET" [("host", h)]%string "" in
  @hostSubdomain toy_url (at_host "greenwood.labkiosk.org:8443"%string) (Some "labkiosk.org"%string) = Some "greenwood"%string.
Proof.
  intros at_host.
  apply (proj1 (@hostSubdomain_roundtrip toy_url (at_host "greenwood.labkiosk.org:8443"%string) "labkiosk.org"
    ltac:(done) ltac:(done) ltac:(done)) "greenwood"%string ":8443"%string); try done; [|by right].
  by apply (bool_decide_eq_false_1 ("greenwood"%string ∈ RESERVED_SLUGS)).
Defined.

(** A host label is cleaned, not compared: characters outside the slug alphabet are dropped. *)
Example host_label_alias :
  @hostSubdomain toy_url (mkRequest "GET" [("host", "green_wood.labkiosk.org")]%string "") (Some "labkiosk.org"%string)
  = Some "greenwood"%string.
Proof. vm_compute. reflexivity. Qed.

(** ** Cached device tokens

    An isolate's cache over time: requests at their times, each against the
    database as it then is (other isolates write it), and removals. *)

Section TokenCache.
Context `{WebCrypto}.

Inductive cache_event : Type :=
| EvRequest (request : Request) (db : D1Database) (now : Z)
| EvForget (tenantId clientId : string).

Definition cache_step (cache : list (string * CacheEntry)) (ev : cache_event) : list (string * CacheEntry) :=
  match ev with
  | EvRequest request db now => (requireDevice request db now cache).1.1
  | EvForget t c => forgetDeviceToken t c cache
  end.

Definition run_cache (evs : list cache_event) : list (string * CacheEntry) := foldl cache_step [] evs.

(** The token was valid in the database some request of the run looked it up in. *)
Definition looked_up (evs : list cache_event) (tok : string) (e : CacheEntry) : Prop :=
  exists request db, EvRequest request db (ce_until e - DEVICE_TOKEN_CACHE_MS) ∈ evs /\
    findDeviceByToken db tok = Some (ce_device e).

Definition cache_inv (evs : list cache_event) (cache : list (string * CacheEntry)) : Prop :=
  Z.of_nat (length cache) <= DEVICE_TOKEN_CACHE_LIMIT /\ Forall (fun '(tok, e) => looked_up evs tok e) cache.

Lemma map_set_length {V} k (v : V) l : (length (map_set k v l) <= S (length l))%nat.
Proof. unfold map_set. case_match; rewrite ?length_map, ?length_app; simpl; lia. Qed.

Lemma map_set_Forall {V} (P : string * V -> Prop) k v l : Forall P l -> P (k, v) -> Forall P (map_set k v l).
Proof.
  intros Hl Hk. unfold map_set. case_match; [|by apply Forall_app_2; [|constructor]].
  apply Forall_map. revert Hl. apply Forall_impl. intros [k' v'] Hp. cbn.
  destruct (String.eqb_spec k' k) as [->|]; done.
Qed.

Lemma findDeviceByToken_Some db tok d :
  findDeviceByToken db tok = Some d -> d ∈ device_tokens db /\ dt_token_hash d = sha256Hex tok /\ dt_revoked d = false.
Proof. intros [Hd Hp]%js_find_Some. by bool_to_prop. Qed.

(** What a request does to the cache, and where the device it is given comes from. *)
Lemma requireDevice_step request db now cache cache' db' r :
  requireDevice request db now cache = (cache', db', r) ->
  (exists tok d, bearer request = Some tok /\ findDeviceByToken db tok = Some d /\ r = inl d /\
     cache' = map_set tok (mkCacheEntry d (now + DEVICE_TOKEN_CACHE_MS))
       (if DEVICE_TOKEN_CACHE_LIMIT <=? Z.of_nat (length cache) then tail cache else cache)) \/
  (exists tok e, bearer request = Some tok /\ (tok, e) ∈ cache /\ now < ce_until e /\
     r = inl (ce_device e) /\ cache' = cache) \/
  (exists why, r = inr why /\ (cache' = cache \/ exists tok, cache' = map_delete tok cache)).
Proof.
  unfold requireDevice. intros Hr. destruct (bearer request) as [tok|]; [|naive_solver].
  assert (Hlook : forall d, findDeviceByToken db tok = Some d -> dt_revoked d = false)
    by (intros d Hd; by apply findDeviceByToken_Some in Hd as (_ & _ & ?)).
  destruct (assoc tok cache) as [e|] eqn:Ea; [destruct (Z.ltb_spec now (ce_until e))|].
  - apply assoc_elem in Ea. naive_solver.
  - destruct (findDeviceByToken db tok) as [d|] eqn:Ef; [rewrite (Hlook d eq_refl) in Hr|]; naive_solver.
  - destruct (findDeviceByToken db tok) as [d|] eqn:Ef; [rewrite (Hlook d eq_refl) in Hr|]; naive_solver.
Qed.

Lemma looked_up_mono evs ev tok e : looked_up evs tok e -> looked_up (evs ++ [ev]) tok e.
Proof. intros (q & db & ? & ?). exists q, db. split; [|done]. apply elem_of_app. by left. Qed.

Lemma cache_step_inv evs ev cache :
  cache_inv evs cache -> cache_inv (evs ++ [ev]) (cache_step cache ev).
Proof.
  intros [Hlen Hall].
  assert (Hall' : Forall (fun '(tok, e) => looked_up (evs ++ [ev]) tok e) cache).
  { revert Hall. apply Forall_impl. intros [tok e]. apply looked_up_mono. }
  destruct ev as [request db now|t c]; cbn [cache_step].
  - destruct (requireDevice request db now cache) as [[cache' db'] r] eqn:Er. cbn.
    apply requireDevice_step in Er as [(tok & d & _ & Hd & _ & ->)|[(tok & e & _ & _ & _ & _ & ->)|(why & _ & [->|[tok ->]])]].
    + split.
      * match goal with |- context [map_set ?k ?v ?l] => pose proof (map_set_length k v l) end.
        destruct (Z.leb_spec DEVICE_TOKEN_CACHE_LIMIT (Z.of_nat (length cache))); [|unfold DEVICE_TOKEN_CACHE_LIMIT in *; lia].
        destruct cache as [|x cache]; cbn [tail length] in *; unfold DEVICE_TOKEN_CACHE_LIMIT in *; lia.
      * apply map_set_Forall; [case_match; [by apply tail_Forall|done]|].
        exists request, db. cbn. replace (now + _ - _) with now by lia. split; [|done].
        apply elem_of_app. right. by left.
    + done.
    + done.
    + split; [|by apply bfilter_Forall]. pose proof (bfilter_length_le (fun '(k', _) => negb (String.eqb k' tok)) cache).
      unfold map_delete. lia.
  - split; [|by apply bfilter_Forall].
    match goal with |- context [forgetDeviceToken t c cache] => unfold forgetDeviceToken end.
    match goal with |- context [List.filter ?q cache] => pose proof (bfilter_length_le q cache) end. lia.
Qed.

Lemma run_cache_inv evs : cache_inv evs (run_cache evs).
Proof.
  induction evs as [|ev evs IH] using rev_ind; [split; [done|constructor]|].
  unfold run_cache. rewrite foldl_app. by apply cache_step_inv.
Qed.

(** The cache of verified device tokens. At any point of any run it holds
    at most 20,000 entries, and a request it lets through carries a token that
    a request of this isolate found valid in the database less than 60 seconds
    before, for that very workstation: a revoked token lives on for at most a
    minute in an isolate that did not hear of the revocation. *)
Theorem requireDevice_staleness evs request db now cache' db' d :
  requireDevice request db now (run_cache evs) = (cache', db', inl d) ->
  Z.of_nat (length cache') <= DEVICE_TOKEN_CACHE_LIMIT /\
  exists tok request' db0 at_ms, bearer request = Some tok /\
    EvRequest request' db0 at_ms ∈ evs ++ [EvRequest request db now] /\
    now - DEVICE_TOKEN_CACHE_MS < at_ms /\
    findDeviceByToken db0 tok = Some d.
Proof.
  intros Hr. pose proof (run_cache_inv (evs ++ [EvRequest request db now])) as Hinv.
  assert (Hc : run_cache (evs ++ [EvRequest request db now]) = cache').
  { unfold run_cache in *. rewrite foldl_app. cbn. by rewrite Hr. }
  rewrite Hc in Hinv. split; [apply Hinv|].
  apply requireDevice_step in Hr as [(tok & d' & Hb & Hd & [= ->] & _)|[(tok & e & Hb & He & Hlt & [= ->] & _)|(why & [=] & _)]].
  - exists tok, request, db, now. repeat split; [done| |unfold DEVICE_TOKEN_CACHE_MS; lia|done].
    apply elem_of_app. right. by left.
  - destruct (run_cache_inv evs) as [_ Hall]. rewrite list.Forall_forall in Hall.
    destruct (Hall _ He) as (q & db0 & Hin & Hf). exists tok, q, db0, (ce_until e - DEVICE_TOKEN_CACHE_MS).
    repeat split; [done| |lia|done]. apply elem_of_app. by left.
Qed.
End TokenCache.

Lemma requireDevice_staleness_witness :
  let db := on_device_tokens (fun _ => [token_row "a" "PC-01"]) empty_db in
  let beat := mkRequest "POST" [("authorization", "Bearer a")]%string "" in
  let evs := [EvRequest beat db 5000] in
  Z.of_nat (length (@run_cache toy_crypto evs)) <= DEVICE_TOKEN_CACHE_LIMIT /\
  exists tok request' db0 at_ms, bearer beat = Some tok /\
    EvRequest request' db0 at_ms ∈ evs ++ [EvRequest beat empty_db 64999] /\
    64999 - DEVICE_TOKEN_CACHE_MS < at_ms /\
    @findDeviceByToken toy_crypto db0 tok = Some (token_row "a" "PC-01").
Proof.
  intros db beat evs.
  apply (@requireDevice_staleness toy_crypto evs beat empty_db 64999 (@run_cache toy_crypto evs) empty_db).
  vm_compute. reflexivity.
Defined.
