(* ===== verification/Plans.v ===== *)
(** Plans and licences: src/cloudflare-control/src/license.ts, plans.ts and
    plan_sync.ts (and createNotification of notifications.ts, which the last
    one calls).

    An organization may have more workstations enrolled than its plan covers.
    The rows of unlicensed_workstations say which of them show a notice instead
    of the portal; rebalanceLicences moves that line when the limit changes and
    moveLicenceTo when an administrator asks for it. *)
From S2P Require Import Prelude JsString Platform Db Devices.

(** ** license.ts *)

Definition LICENSE_REMINDER_DAYS : Z := 30.
Definition DAY : Z := 86400.

Record LicenseState : Type := mkLicenseState {
  lst_plan : option LicensePlan;
  lst_expiresAt : option Z;
  lst_expired : bool;
  lst_endingSoon : bool
}.

Definition licenseState (tenant : Tenant) (now : Z) : LicenseState :=
  let expired := match t_license_expires_at tenant with Some e => e <=? now | None => false end in
  let endingSoon := match t_license_expires_at tenant with
                    | Some e => negb expired && (e - now <=? LICENSE_REMINDER_DAYS * DAY)
                    | None => false
                    end in
  mkLicenseState (t_license_plan tenant) (t_license_expires_at tenant) expired endingSoon.

(** ** plans.ts: what a plan covers *)

(** PRICING, in rupees before GST. *)
Definition P_monthly : Z := 1999.
Definition P_yearly : Z := 19990.
Definition P_extraMonthly : Z := 39.
Definition P_extraYearly : Z := 390.
Definition P_gstPercent : Z := 18.
Definition P_includedWorkstations : Z := 45.
Definition P_salesAbove : Z := 200.
Definition P_freeWorkstations : Z := 5.

Inductive PlanKind : Type := pk_free | pk_trial | pk_subscription | pk_education | pk_custom.

#[export] Instance PlanKind_eq_dec : EqDecision PlanKind.
Proof. solve_decision. Defined.

Definition KIND_OF (p : LicensePlan) : PlanKind :=
  match p with
  | evaluation => pk_trial
  | subscriber => pk_subscription
  | education => pk_education
  | commercial => pk_custom
  end.

Definition PLAN_LABELS (k : PlanKind) : string :=
  match k with
  | pk_free => "Free"
  | pk_trial => "Trial"
  | pk_subscription => "Subscription"
  | pk_education => "Education"
  | pk_custom => "Custom"
  end.

Record Entitlement : Type := mkEntitlement {
  en_kind : PlanKind;
  en_label : string;
  en_limit : Z;
  en_expiresAt : option Z;
  en_lapsed : bool;
  en_lapsedFrom : option PlanKind;
  en_endingSoon : bool
}.

Definition entitlement (tenant : Tenant) (now : Z) : Entitlement :=
  let state := licenseState tenant now in
  let stored := if t_workstation_limit tenant =? 0 then P_freeWorkstations else t_workstation_limit tenant in
  match lst_plan state with
  | None => mkEntitlement pk_free (PLAN_LABELS pk_free) stored None false None false
  | Some p =>
      let kind := KIND_OF p in
      if lst_expired state
      then mkEntitlement pk_free (PLAN_LABELS pk_free) (Z.min stored P_freeWorkstations) (lst_expiresAt state) true (Some kind) false
      else mkEntitlement kind (PLAN_LABELS kind) stored (lst_expiresAt state) false None (lst_endingSoon state)
  end.

(** The reason a trial is refused, or none. *)
Definition trialRefusal (tenant : Tenant) (now : Z) : option string :=
  if negb (default 0 (t_trial_started_at tenant) =? 0) then Some "This organization has already had its free trial"%string
  else if negb (bool_decide (en_kind (entitlement tenant now) = pk_free))
       then Some "The trial is for organizations on the Free plan"%string
  else None.

(** ** plans.ts: prices, in paise *)

Inductive BillingPeriod : Type := month | year.

Record Quote : Type := mkQuote {
  q_period : BillingPeriod;
  q_extraWorkstations : Z;
  q_workstations : Z;
  q_base : Z;
  q_extras : Z;
  q_subtotal : Z;
  q_gst : Z;
  q_total : Z
}.

Definition MAX_ONLINE_EXTRA : Z := P_salesAbove - P_includedWorkstations.

(** [Math.round(n / d)] of a quotient of integers, d > 0: half goes up. *)
Definition round_div (n d : Z) : Z := (2 * n + d) `div` (2 * d).

Definition quote (period : BillingPeriod) (extraWorkstations : Z) : Quote :=
  let base := (match period with month => P_monthly | year => P_yearly end) * 100 in
  let extras := extraWorkstations * (match period with month => P_extraMonthly | year => P_extraYearly end) * 100 in
  let subtotal := base + extras in
  let gst := round_div (subtotal * P_gstPercent) 100 in
  mkQuote period extraWorkstations (P_includedWorkstations + extraWorkstations) base extras subtotal gst (subtotal + gst).

Definition parseQuoteInput (body : jsval) : js_result Quote :=
  period ← match js_get body "period" with
           | JsStr "month" => Returns month
           | JsStr "year" => Returns year
           | _ => Throws "Choose monthly or yearly"
           end;
  extra ← match js_get body "extraWorkstations" with
          | JsUndefined => Returns 0
          | JsInt z => if z <? 0 then Throws "Extra workstations must be a whole number, 0 or more" else Returns z
          | _ => Throws "Extra workstations must be a whole number, 0 or more"
          end;
  _ ← throw_if (MAX_ONLINE_EXTRA <? extra)
        ("For more than " +:+ string_of_int P_salesAbove +:+ " workstations, contact sales");
  Returns (quote period extra).

(** ** plans.ts: licensed places *)

Record EnrolledWorkstation : Type := mkEnrolled {
  ew_clientId : string;
  ew_lastSeen : Z;
  ew_licensed : bool;
  ew_since : option Z
}.

(** [MAX] of a column, none when there are no rows. *)
Definition sql_max (l : list Z) : option Z :=
  match l with [] => None | x :: l' => Some (foldl Z.max x l') end.

Definition is_unlicensed_row (tenantId clientId : string) (u : UnlicensedRow) : bool :=
  String.eqb (ul_tenant_id u) tenantId && String.eqb (ul_client_id u) clientId.

(** [COALESCE(MAX(c.last_seen), 0)] over the workstation's rows. *)
Definition last_seen (db : D1Database) (tenantId clientId : string) : Z :=
  default 0 (sql_max (List.map cd_last_seen
    (List.filter (fun d => in_tenant tenantId d && String.eqb (cd_client_id d) clientId) (client_devices db)))).

(** One row per enrolled workstation: unlicensed_workstations has one row per
    workstation at most (its primary key). *)
Definition listEnrolledWorkstations (db : D1Database) (tenantId : string) : list EnrolledWorkstation :=
  List.map (fun c =>
    let since := option_map ul_since (js_find (is_unlicensed_row tenantId c) (unlicensed_workstations db)) in
    mkEnrolled c (last_seen db tenantId c) (bool_decide (since = None)) since)
  (enrolled tenantId (device_tokens db)).

Definition listUnlicensed (db : D1Database) (tenantId : string) : list (string * Z) :=
  List.map (fun u => (ul_client_id u, ul_since u))
    (List.filter (fun u => String.eqb (ul_tenant_id u) tenantId) (unlicensed_workstations db)).

Record Rebalance : Type := mkRebalance { rb_unlicensed : list string; rb_relicensed : list string }.

(** [INSERT OR IGNORE INTO unlicensed_workstations] and the [DELETE]s. *)
Definition insert_unlicensed (tenantId : string) (now : Z) (l : list UnlicensedRow) (clientId : string) : list UnlicensedRow :=
  if existsb (is_unlicensed_row tenantId clientId) l then l else l ++ [mkUnlicensed tenantId clientId now].

Definition delete_unlicensed (tenantId : string) (l : list UnlicensedRow) (clientId : string) : list UnlicensedRow :=
  List.filter (fun u => negb (is_unlicensed_row tenantId clientId u)) l.

Definition delete_not_enrolled (tenantId : string) (tokens : list DeviceToken) (l : list UnlicensedRow) : list UnlicensedRow :=
  List.filter (fun u => negb (String.eqb (ul_tenant_id u) tenantId
                              && negb (bool_decide (ul_client_id u ∈ enrolled tenantId tokens)))) l.

Section Licences.
Context `{Collation}.

(** Seen longest ago first, and seen most recently first. *)
Definition by_oldest (a b : EnrolledWorkstation) : Z :=
  if ew_lastSeen a - ew_lastSeen b =? 0 then localeCompare (ew_clientId a) (ew_clientId b) else ew_lastSeen a - ew_lastSeen b.
Definition by_newest (a b : EnrolledWorkstation) : Z :=
  if ew_lastSeen b - ew_lastSeen a =? 0 then localeCompare (ew_clientId a) (ew_clientId b) else ew_lastSeen b - ew_lastSeen a.

Definition rebalanceLicences (db : D1Database) (tenantId : string) (limit nowSeconds : Z) : D1Database * Rebalance :=
  let db1 := on_unlicensed_workstations (delete_not_enrolled tenantId (device_tokens db)) db in
  let all := listEnrolledWorkstations db1 tenantId in
  let licensed := js_sort by_oldest (List.filter ew_licensed all) in
  let waiting := js_sort by_newest (List.filter (fun w => negb (ew_licensed w)) all) in
  let n := Z.of_nat (length licensed) in
  let result :=
    if limit <? n then mkRebalance (List.map ew_clientId (take (Z.to_nat (n - limit)) licensed)) []
    else if (n <? limit) && negb (length waiting =? 0)%nat
         then mkRebalance [] (List.map ew_clientId (take (Z.to_nat (limit - n)) waiting))
    else mkRebalance [] [] in
  (on_unlicensed_workstations (fun l =>
     foldl (delete_unlicensed tenantId) (foldl (insert_unlicensed tenantId nowSeconds) l (rb_unlicensed result)) (rb_relicensed result)) db1,
   result).

Inductive Moved : Type :=
| Displaced (displaced : option string)
| MoveError (error : string) (status : Z).

Definition moveLicenceTo (db : D1Database) (tenantId clientId : string) (limit nowSeconds : Z) : D1Database * Moved :=
  let all := listEnrolledWorkstations db tenantId in
  match js_find (fun w => String.eqb (ew_clientId w) clientId) all with
  | None => (db, MoveError "That workstation is not enrolled" 404)
  | Some target =>
      if ew_licensed target then (db, MoveError "That workstation is already licensed" 409)
      else
        let licensed := js_sort by_oldest (List.filter ew_licensed all) in
        let freed l := delete_unlicensed tenantId l clientId in
        if limit <=? Z.of_nat (length licensed) then
          match licensed with
          | [] => (db, MoveError "The plan licenses no workstation" 409)
          | w :: _ =>
              (on_unlicensed_workstations (fun l => insert_unlicensed tenantId nowSeconds (freed l) (ew_clientId w)) db,
               Displaced (Some (ew_clientId w)))
          end
        else (on_unlicensed_workstations freed db, Displaced None)
  end.

(** ** notifications.ts and plan_sync.ts *)

Definition NOTIFICATION_TITLE : nat := 120.
Definition NOTIFICATION_BODY : nat := 2000.

Definition createNotification (db : D1Database) (tenantId : option string) (kind title body : string)
    (createdBy : option string) : js_result D1Database :=
  let title := str_take NOTIFICATION_TITLE (trim title) in
  let body := str_take NOTIFICATION_BODY (trim body) in
  if String.eqb title "" || String.eqb body "" then Throws "A notification needs a title and a message"
  else Returns (on_notifications (fun l => l ++ [mkNotification tenantId kind title body createdBy]) db).

Definition over_limit_body (name : string) (plan : Entitlement) (n : Z) : string :=
  let one := n =? 1 in
  name +:+ " is on the " +:+ en_label plan +:+ " plan, which covers " +:+ string_of_int (en_limit plan)
  +:+ " workstation" +:+ (if en_limit plan =? 1 then "" else "s") +:+ ". "
  +:+ string_of_int n +:+ " " +:+ (if one then "workstation" else "workstations") +:+ " seen least recently now "
  +:+ (if one then "shows" else "show") +:+ " a licence notice instead of your portal. "
  +:+ "Choose which workstations keep their licence, or change the plan, under Plan.".

(** The database, what changed, and whether the organization's hub is told. *)
Definition syncLicences (db : D1Database) (tenantId : string) (nowMs : Z) : js_result (D1Database * Rebalance * bool) :=
  match findTenantById db tenantId with
  | None => Returns (db, mkRebalance [] [], false)
  | Some tenant =>
      let plan := entitlement tenant (nowMs `div` 1000) in
      let '(db1, result) := rebalanceLicences db tenantId (en_limit plan) (nowMs `div` 1000) in
      if (length (rb_unlicensed result) =? 0)%nat && (length (rb_relicensed result) =? 0)%nat
      then Returns (db1, result, false)
      else
        let db2 := setClientsBroadcast db1 tenantId (rb_relicensed result) None nowMs in
        let n := Z.of_nat (length (rb_unlicensed result)) in
        db3 ← (if n =? 0 then Returns db2
               else createNotification db2 (Some tenantId) "license" "Workstations over the plan's limit"
                      (over_limit_body (t_name tenant) plan n) None);
        Returns (db3, result, true)
  end.

Definition moveLicence (db : D1Database) (tenantId clientId : string) (nowMs : Z) : D1Database * Moved * bool :=
  match findTenantById db tenantId with
  | None => (db, MoveError "Organization not found" 404, false)
  | Some tenant =>
      let plan := entitlement tenant (nowMs `div` 1000) in
      let '(db1, moved) := moveLicenceTo db tenantId clientId (en_limit plan) (nowMs `div` 1000) in
      match moved with
      | MoveError _ _ => (db1, moved, false)
      | Displaced _ => (setClientsBroadcast db1 tenantId [clientId] None nowMs, moved, true)
      end
  end.
End Licences.

(** ** Who is licensed *)

(** The enrolled workstations that are licensed. *)
Definition licensed_ids (db : D1Database) (t : string) : list string :=
  List.filter (fun c => negb (existsb (is_unlicensed_row t c) (unlicensed_workstations db))) (enrolled t (device_tokens db)).

Lemma is_unlicensed_row_iff t c u : is_unlicensed_row t c u = true <-> ul_tenant_id u = t /\ ul_client_id u = c.
Proof. unfold is_unlicensed_row. by rewrite andb_true_iff, !String.eqb_eq. Qed.

Lemma find_existsb {A} (p : A -> bool) l : bool_decide (option_map (fun _ => tt) (js_find p l) = None) = negb (existsb p l).
Proof. induction l as [|x l IH]; [done|]. cbn. unfold js_find. cbn. by destruct (p x). Qed.

Lemma ew_licensed_spec db t w :
  w ∈ listEnrolledWorkstations db t ->
  ew_licensed w = negb (existsb (is_unlicensed_row t (ew_clientId w)) (unlicensed_workstations db)).
Proof.
  unfold listEnrolledWorkstations. intros (c & -> & _)%list_elem_of_fmap. cbn.
  rewrite <- find_existsb. by destruct (js_find _ _).
Qed.

Lemma listEnrolled_ids db t : List.map ew_clientId (listEnrolledWorkstations db t) = enrolled t (device_tokens db).
Proof. unfold listEnrolledWorkstations. rewrite map_map. cbn. apply map_id. Qed.

Lemma licensed_list db t :
  List.map ew_clientId (List.filter ew_licensed (listEnrolledWorkstations db t)) = licensed_ids db t.
Proof.
  unfold licensed_ids. rewrite <- listEnrolled_ids. apply map_bfilter. apply ew_licensed_spec.
Qed.

Lemma waiting_list db t :
  List.map ew_clientId (List.filter (fun w => negb (ew_licensed w)) (listEnrolledWorkstations db t)) =
  List.filter (fun c => existsb (is_unlicensed_row t c) (unlicensed_workstations db)) (enrolled t (device_tokens db)).
Proof.
  rewrite <- listEnrolled_ids. apply map_bfilter. intros w Hw. rewrite (ew_licensed_spec db t w Hw). apply negb_involutive.
Qed.

Lemma licensed_ids_NoDup db t : NoDup (licensed_ids db t).
Proof. apply bfilter_NoDup, enrolled_NoDup. Qed.

Lemma elem_of_licensed_ids db t c :
  c ∈ licensed_ids db t <->
  c ∈ enrolled t (device_tokens db) /\ existsb (is_unlicensed_row t c) (unlicensed_workstations db) = false.
Proof. unfold licensed_ids. by rewrite elem_of_bfilter, negb_true_iff. Qed.

(** What the three statements do to one organization's workstations. *)
Lemma existsb_insert t' now l c t d :
  existsb (is_unlicensed_row t d) (insert_unlicensed t' now l c)
  = existsb (is_unlicensed_row t d) l || (bool_decide (t' = t) && bool_decide (c = d)).
Proof.
  assert (Hnew : is_unlicensed_row t d (mkUnlicensed t' c now) = bool_decide (t' = t) && bool_decide (c = d)).
  { apply eq_true_iff_eq. rewrite is_unlicensed_row_iff, andb_true_iff, !bool_decide_eq_true. done. }
  unfold insert_unlicensed. destruct (existsb (is_unlicensed_row t' c) l) eqn:E.
  - destruct (decide (t' = t)) as [->|Ht]; [|by rewrite (bool_decide_eq_false_2 _ Ht), orb_false_r].
    destruct (decide (c = d)) as [->|Hc]; [by rewrite E|by rewrite (bool_decide_eq_false_2 _ Hc), andb_false_r, orb_false_r].
  - rewrite existsb_app. cbn. by rewrite Hnew, orb_false_r.
Qed.

Lemma existsb_inserts t' now cs l t d :
  existsb (is_unlicensed_row t d) (foldl (insert_unlicensed t' now) l cs)
  = existsb (is_unlicensed_row t d) l || (bool_decide (t' = t) && bool_decide (d ∈ cs)).
Proof.
  revert l; induction cs as [|c cs IH]; intros l; cbn [foldl].
  - rewrite (bool_decide_eq_false_2 (d ∈ [])) by set_solver. by rewrite andb_false_r, orb_false_r.
  - rewrite IH, existsb_insert, <- orb_assoc. f_equal.
    destruct (decide (t' = t)) as [Ht|Ht]; [|by rewrite (bool_decide_eq_false_2 _ Ht)].
    rewrite (bool_decide_eq_true_2 _ Ht). cbn [andb]. rewrite <- bool_decide_or. apply bool_decide_ext. set_solver.
Qed.

Lemma existsb_deletes t' cs l t d :
  existsb (is_unlicensed_row t d) (foldl (delete_unlicensed t') l cs)
  = existsb (is_unlicensed_row t d) l && negb (bool_decide (t' = t) && bool_decide (d ∈ cs)).
Proof.
  revert l; induction cs as [|c cs IH]; intros l; cbn [foldl].
  - rewrite (bool_decide_eq_false_2 (d ∈ [])) by set_solver. by rewrite andb_false_r, andb_true_r.
  - rewrite IH. unfold delete_unlicensed. rewrite existsb_bfilter.
    assert (Hrow : forall u, is_unlicensed_row t d u && negb (is_unlicensed_row t' c u)
                   = is_unlicensed_row t d u && negb (bool_decide (t' = t) && bool_decide (c = d))).
    { intros u. destruct (is_unlicensed_row t d u) eqn:Eu; [|done]. cbn. f_equal.
      apply is_unlicensed_row_iff in Eu as [Et Ed]. apply eq_true_iff_eq.
      rewrite is_unlicensed_row_iff, andb_true_iff, !bool_decide_eq_true. naive_solver. }
    rewrite (existsb_ext_in _ _ _ Hrow).
    rewrite existsb_andb_const.
    rewrite <- andb_assoc. f_equal. rewrite <- negb_orb. f_equal.
    destruct (decide (t' = t)) as [Ht|Ht]; [|by rewrite (bool_decide_eq_false_2 _ Ht)].
    rewrite (bool_decide_eq_true_2 _ Ht). cbn [andb]. rewrite <- bool_decide_or. apply bool_decide_ext. set_solver.
Qed.

Lemma existsb_not_enrolled t' tokens l t d :
  existsb (is_unlicensed_row t d) (delete_not_enrolled t' tokens l)
  = existsb (is_unlicensed_row t d) l && negb (bool_decide (t' = t) && negb (bool_decide (d ∈ enrolled t' tokens))).
Proof.
  unfold delete_not_enrolled. rewrite existsb_bfilter.
  induction l as [|u l IH]; [done|]. cbn [existsb]. rewrite IH, andb_orb_distrib_l. f_equal.
  destruct (is_unlicensed_row t d u) eqn:Eu; [|done]. cbn. apply is_unlicensed_row_iff in Eu as [-> ->].
  f_equal. f_equal. apply eq_true_iff_eq. rewrite String.eqb_eq, bool_decide_eq_true. naive_solver.
Qed.

Lemma existsb_inserts_same t now cs l d :
  existsb (is_unlicensed_row t d) (foldl (insert_unlicensed t now) l cs)
  = existsb (is_unlicensed_row t d) l || bool_decide (d ∈ cs).
Proof. by rewrite existsb_inserts, bool_decide_eq_true_2. Qed.

Lemma existsb_deletes_same t cs l d :
  existsb (is_unlicensed_row t d) (foldl (delete_unlicensed t) l cs)
  = existsb (is_unlicensed_row t d) l && negb (bool_decide (d ∈ cs)).
Proof. by rewrite existsb_deletes, (bool_decide_eq_true_2 (t = t)). Qed.

Section LicenceProofs.
Context `{!Collation}.

Notation oldest_first db t := (List.map ew_clientId (js_sort by_oldest (List.filter ew_licensed (listEnrolledWorkstations db t)))).
Notation newest_first db t :=
  (List.map ew_clientId (js_sort by_newest (List.filter (fun w => negb (ew_licensed w)) (listEnrolledWorkstations db t)))).

(** The database after the workstations that are no longer enrolled left the list. *)
Definition pruned (db : D1Database) (t : string) : D1Database :=
  on_unlicensed_workstations (delete_not_enrolled t (device_tokens db)) db.

Lemma licensed_ids_pruned db t t' : licensed_ids (pruned db t) t' = licensed_ids db t'.
Proof.
  unfold licensed_ids, pruned. cbn. apply List.filter_ext_in. intros c Hc%list_elem_of_In. f_equal.
  rewrite existsb_not_enrolled. destruct (decide (t = t')) as [->|Ht].
  - by rewrite (bool_decide_eq_true_2 _ Hc), andb_false_r, andb_true_r.
  - by rewrite (bool_decide_eq_false_2 _ Ht), andb_true_r.
Qed.

Lemma rebalance_result db t limit now :
  let n := Z.of_nat (length (licensed_ids db t)) in
  (rebalanceLicences db t limit now).2 =
  mkRebalance (take (Z.to_nat (n - limit)) (oldest_first (pruned db t) t))
              (take (Z.to_nat (limit - n)) (newest_first (pruned db t) t)).
Proof.
  cbv zeta. rewrite <- (licensed_ids_pruned db t t), <- licensed_list, length_map.
  unfold rebalanceLicences. cbn [snd]. fold (pruned db t). rewrite !js_sort_length.
  set (n := Z.of_nat _). destruct (Z.ltb_spec limit n).
  - replace (Z.to_nat (limit - n)) with 0%nat by lia. by rewrite firstn_map.
  - replace (Z.to_nat (n - limit)) with 0%nat by lia. cbn [take].
    destruct (Z.ltb_spec n limit); cbn [andb].
    + match goal with |- context [(?a =? 0)%nat] => destruct (Nat.eqb_spec a 0) as [E|E] end; cbn [negb].
      * rewrite <- (js_sort_length by_newest) in E. destruct (js_sort _ _); [|done]. by rewrite firstn_nil.
      * by rewrite !firstn_map.
    + by replace (Z.to_nat (limit - n)) with 0%nat by lia.
Qed.

Lemma oldest_first_perm db t : oldest_first db t ≡ₚ licensed_ids db t.
Proof. rewrite <- licensed_list. apply Permutation_map, js_sort_perm. Qed.

Lemma newest_first_perm db t :
  newest_first db t ≡ₚ
  List.filter (fun c => existsb (is_unlicensed_row t c) (unlicensed_workstations db)) (enrolled t (device_tokens db)).
Proof. rewrite <- waiting_list. apply Permutation_map, js_sort_perm. Qed.

Lemma rebalance_db db t limit now :
  let r := (rebalanceLicences db t limit now).2 in
  (rebalanceLicences db t limit now).1 =
  on_unlicensed_workstations (fun l => foldl (delete_unlicensed t) (foldl (insert_unlicensed t now) l (rb_unlicensed r)) (rb_relicensed r)) (pruned db t).
Proof. done. Qed.

Lemma rebalance_members db t limit now c :
  let '(db', r) := rebalanceLicences db t limit now in
  (c ∈ rb_unlicensed r -> c ∈ licensed_ids db t) /\
  (c ∈ rb_relicensed r -> c ∈ enrolled t (device_tokens db) /\ c ∉ licensed_ids db t) /\
  (c ∈ licensed_ids db' t <-> c ∈ licensed_ids db t /\ c ∉ rb_unlicensed r \/ c ∈ rb_relicensed r).
Proof.
  destruct (rebalanceLicences db t limit now) as [db' r] eqn:E.
  pose proof (rebalance_db db t limit now) as Hdb. pose proof (rebalance_result db t limit now) as Hr.
  rewrite E in Hdb, Hr. cbn [fst snd] in Hdb, Hr.
  assert (Hu : c ∈ rb_unlicensed r -> c ∈ licensed_ids db t).
  { rewrite Hr. cbn [rb_unlicensed]. intros Hc%elem_of_take. by rewrite oldest_first_perm, licensed_ids_pruned in Hc. }
  assert (Hre : c ∈ rb_relicensed r -> c ∈ enrolled t (device_tokens db) /\ c ∉ licensed_ids db t).
  { rewrite Hr. cbn [rb_relicensed]. intros Hc%elem_of_take. rewrite newest_first_perm, elem_of_bfilter in Hc. cbn in Hc.
    destruct Hc as [Hen Hun]. split; [done|]. rewrite <- (licensed_ids_pruned db t), elem_of_licensed_ids. cbn.
    rewrite Hun. naive_solver. }
  split; [done|]. split; [done|]. rewrite Hdb, !elem_of_licensed_ids. cbn.
  rewrite existsb_deletes_same, existsb_inserts_same, existsb_not_enrolled, (bool_decide_eq_true_2 (t = t)) by done.
  rewrite !elem_of_licensed_ids in Hre. rewrite andb_false_iff, negb_false_iff, orb_false_iff, bool_decide_eq_true, bool_decide_eq_false.
  cbn [andb]. rewrite negb_involutive, andb_false_iff, bool_decide_eq_false. clear Hu Hdb Hr E. naive_solver.
Qed.

Lemma oldest_first_NoDup db t : NoDup (oldest_first db t).
Proof. rewrite oldest_first_perm. apply licensed_ids_NoDup. Qed.

Lemma newest_first_NoDup db t : NoDup (newest_first db t).
Proof. rewrite newest_first_perm. apply bfilter_NoDup, enrolled_NoDup. Qed.

(** Licences taken away and given back account for every change. *)
Lemma rebalance_perm db t limit now :
  let '(db', r) := rebalanceLicences db t limit now in
  rb_unlicensed r ++ licensed_ids db' t ≡ₚ licensed_ids db t ++ rb_relicensed r.
Proof.
  pose proof (rebalance_members db t limit now) as Hm. pose proof (rebalance_result db t limit now) as Hr.
  destruct (rebalanceLicences db t limit now) as [db' r]. cbn [snd] in Hr.
  assert (NoDup (rb_unlicensed r) /\ NoDup (rb_relicensed r)) as [Hn1 Hn2].
  { rewrite Hr. split; apply take_NoDup; [apply oldest_first_NoDup|apply newest_first_NoDup]. }
  assert (Hdisj : forall c, c ∈ rb_unlicensed r -> c ∈ rb_relicensed r -> False) by (intros c ? ?; destruct (Hm c); naive_solver).
  apply NoDup_Permutation.
  - apply list.NoDup_app. split_and!; [done| |apply licensed_ids_NoDup]. intros c Hc Hl. destruct (Hm c); naive_solver.
  - apply list.NoDup_app. split_and!; [apply licensed_ids_NoDup| |done]. intros c Hc Hl. destruct (Hm c); naive_solver.
  - intros c. rewrite !elem_of_app. destruct (Hm c) as (H1 & H2 & H3). rewrite H3.
    destruct (decide (c ∈ rb_unlicensed r)); naive_solver.
Qed.

Lemma rebalance_lengths db t limit now :
  0 <= limit ->
  let '(db', r) := rebalanceLicences db t limit now in
  Z.of_nat (length (licensed_ids db' t)) = Z.min limit (countEnrolledWorkstations db t).
Proof.
  intros Hl. pose proof (rebalance_perm db t limit now) as Hp. pose proof (rebalance_result db t limit now) as Hr.
  destruct (rebalanceLicences db t limit now) as [db' r]. cbn [snd] in Hr.
  apply Permutation_length in Hp. rewrite !length_app in Hp. rewrite Hr in Hp. cbn [rb_unlicensed rb_relicensed] in Hp.
  rewrite !length_take, oldest_first_perm, newest_first_perm, licensed_ids_pruned in Hp.
  assert (Hsum : (length (licensed_ids db t) + length (List.filter (fun c => existsb (is_unlicensed_row t c)
     (unlicensed_workstations (pruned db t))) (enrolled t (device_tokens (pruned db t)))) = length (enrolled t (device_tokens db)))%nat).
  { rewrite <- (licensed_ids_pruned db t t). unfold licensed_ids.
    pose proof (bfilter_length_split (fun c => existsb (is_unlicensed_row t c) (unlicensed_workstations (pruned db t)))
      (enrolled t (device_tokens db))) as Hs. rewrite Nat.add_comm. exact Hs. }
  unfold countEnrolledWorkstations. lia.
Qed.

Lemma rebalance_other db t limit now t' :
  t' <> t -> licensed_ids (rebalanceLicences db t limit now).1 t' = licensed_ids db t'.
Proof.
  intros Ht. rewrite rebalance_db, <- (licensed_ids_pruned db t t'). unfold licensed_ids. cbn.
  apply List.filter_ext. intros c. f_equal.
  rewrite existsb_deletes, existsb_inserts, (bool_decide_eq_false_2 (t = t')) by done.
  by rewrite orb_false_r, andb_true_r.
Qed.
End LicenceProofs.

(** ** Who loses a licence, and who gets one back *)

Section Fairness.
Context `{C : Collation} `{!LawfulCollation C}.

#[local] Instance by_client : Comparator (fun a b => localeCompare (ew_clientId a) (ew_clientId b)).
Proof.
  constructor; intros; [apply cmp_total|]. by eapply (cmp_trans (cmp := localeCompare)).
Qed.

#[local] Instance by_oldest_order : Comparator by_oldest.
Proof. exact (lex_comparator ew_lastSeen (fun a b => localeCompare (ew_clientId a) (ew_clientId b))). Qed.

#[local] Instance by_newest_order : Comparator by_newest.
Proof.
  pose proof (lex_comparator (fun w => - ew_lastSeen w) (fun a b => localeCompare (ew_clientId a) (ew_clientId b))) as [Ht Htr].
  assert (Heq : forall a b, by_newest a b = (if - ew_lastSeen a - - ew_lastSeen b =? 0
    then localeCompare (ew_clientId a) (ew_clientId b) else - ew_lastSeen a - - ew_lastSeen b)).
  { intros a b. unfold by_newest. by replace (ew_lastSeen b - ew_lastSeen a) with (- ew_lastSeen a - - ew_lastSeen b) by lia. }
  constructor; intros; rewrite ?Heq in *; eauto.
Qed.

Lemma listEnrolled_lastSeen db t w : w ∈ listEnrolledWorkstations db t -> ew_lastSeen w = last_seen db t (ew_clientId w).
Proof. unfold listEnrolledWorkstations. by intros (c & -> & _)%list_elem_of_fmap. Qed.

(** Of a sorted list of enrolled workstations, those taken come before those left. *)
Lemma taken_before_left cmp (p : EnrolledWorkstation -> bool) db t n v w :
  Comparator cmp ->
  let l := List.map ew_clientId (js_sort cmp (List.filter p (listEnrolledWorkstations db t))) in
  v ∈ take n l -> w ∈ l -> w ∉ take n l ->
  exists a b, ew_clientId a = v /\ ew_clientId b = w /\ ew_lastSeen a = last_seen db t v /\
    ew_lastSeen b = last_seen db t w /\ cmp a b <= 0.
Proof.
  intros Hcmp l Hv Hw Hnw. unfold l in *. rewrite firstn_map in Hv, Hnw.
  apply list_elem_of_fmap in Hv as (a & -> & Ha), Hw as (b & -> & Hb).
  assert (Hlist : forall x, x ∈ js_sort cmp (List.filter p (listEnrolledWorkstations db t)) ->
    ew_lastSeen x = last_seen db t (ew_clientId x)).
  { intros x. rewrite elem_of_js_sort, elem_of_bfilter. intros [Hx _]. by apply listEnrolled_lastSeen. }
  exists a, b. split_and!; [done|done|by apply Hlist, elem_of_take in Ha || (apply Hlist; by eapply elem_of_take)|by apply Hlist|].
  rewrite <- (take_drop n (js_sort _ _)) in Hb. apply elem_of_app in Hb as [Hb|Hb].
  - exfalso. apply Hnw, list_elem_of_fmap. by exists b.
  - by eapply (sorted_take_drop (fun a b => cmp a b <= 0)); [apply js_sort_sorted| |].
Qed.

(** Licences fit the plan. After a rebalance exactly as many enrolled
    workstations are licensed as the limit allows, or all of them; the
    workstations that lost their licence were seen no later than any that kept
    it, those that got one back were seen no earlier than any still waiting,
    nobody changes places (only one of the two happens), and no other
    organization is touched. *)
Theorem rebalanceLicences_fits db t limit now :
  0 <= limit ->
  let '(db', r) := rebalanceLicences db t limit now in
  Z.of_nat (length (licensed_ids db' t)) = Z.min limit (countEnrolledWorkstations db t) /\
  rb_unlicensed r ++ licensed_ids db' t ≡ₚ licensed_ids db t ++ rb_relicensed r /\
  (rb_unlicensed r = [] \/ rb_relicensed r = []) /\
  (forall v w, v ∈ rb_unlicensed r -> w ∈ licensed_ids db' t -> last_seen db t v <= last_seen db t w) /\
  (forall v w, v ∈ rb_relicensed r -> w ∈ enrolled t (device_tokens db) -> w ∉ licensed_ids db' t ->
     last_seen db t w <= last_seen db t v) /\
  (forall t', t' <> t -> licensed_ids db' t' = licensed_ids db t').
Proof.
  intros Hl. pose proof (rebalance_lengths db t limit now Hl) as Hlen. pose proof (rebalance_perm db t limit now) as Hperm.
  pose proof (rebalance_members db t limit now) as Hm. pose proof (rebalance_result db t limit now) as Hr.
  pose proof (rebalance_other db t limit now) as Ho.
  destruct (rebalanceLicences db t limit now) as [db' r]. cbn [fst snd] in *.
  split; [done|]. split; [done|].
  assert (Hone : rb_unlicensed r = [] \/ rb_relicensed r = []).
  { rewrite Hr. cbn. set (n := Z.of_nat _). destruct (Z.le_ge_cases n limit).
    - left. by replace (Z.to_nat (n - limit)) with 0%nat by lia.
    - right. by replace (Z.to_nat (limit - n)) with 0%nat by lia. }
  split; [done|]. split; [|split; [|intros t' Ht'; by apply Ho]].
  - intros v w Hv Hw. apply Hm in Hw as [[Hw Hnw]|Hw]; [|destruct Hone as [E|E]; rewrite E in *; by apply not_elem_of_nil in Hv || by apply not_elem_of_nil in Hw].
    rewrite Hr in Hv, Hnw. cbn [rb_unlicensed] in Hv, Hnw.
    destruct (taken_before_left by_oldest ew_licensed (pruned db t) t _ v w _ Hv) as (a & b & _ & _ & Ea & Eb & Hc); [|done|].
    { rewrite oldest_first_perm, licensed_ids_pruned. done. }
    change (last_seen (pruned db t) t) with (last_seen db t) in *. unfold by_oldest in Hc.
    destruct (Z.eqb_spec (ew_lastSeen a - ew_lastSeen b) 0); lia.
  - intros v w Hv He Hw.
    destruct (Hm w) as (_ & _ & Hiff). rewrite Hr in Hv. cbn [rb_relicensed] in Hv.
    destruct (taken_before_left by_newest (fun w => negb (ew_licensed w)) (pruned db t) t _ v w _ Hv) as (a & b & _ & _ & Ea & Eb & Hc).
    { rewrite newest_first_perm, elem_of_bfilter. split; [done|].
      destruct (existsb _ _) eqn:Ex; [done|]. exfalso. apply Hw, Hiff. left.
      rewrite <- (licensed_ids_pruned db t), elem_of_licensed_ids. split; [done|].
      destruct Hone as [->|E]; [by apply not_elem_of_nil|]. rewrite Hr in E. cbn [rb_relicensed] in E. rewrite E in Hv. by apply not_elem_of_nil in Hv. }
    { intros Hin. apply Hw, Hiff. right. by rewrite Hr. }
    change (last_seen (pruned db t) t) with (last_seen db t) in *. unfold by_newest in Hc.
    destruct (Z.eqb_spec (ew_lastSeen b - ew_lastSeen a) 0); lia.
Qed.
End Fairness.

Definition seen_row (c : string) (at_ : Z) : ClientDevice :=
  mkClientDevice ("org:" +:+ c) "org" c 1 None at_ false None None None None 0 None None None 0 0.

(** Three workstations, the first of them seen last. *)
Definition lab : D1Database :=
  on_client_devices (fun _ => [seen_row "PC-01" 300; seen_row "PC-02" 100; seen_row "PC-03" 200])
    (on_device_tokens (fun _ => [token_row "a" "PC-01"; token_row "b" "PC-02"; token_row "c" "PC-03"]) empty_db).

Lemma rebalanceLicences_fits_witness :
  let '(db', r) := @rebalanceLicences code_collation lab "org" 2 1000 in
  r = mkRebalance ["PC-02"%string] [] /\ licensed_ids db' "org" = ["PC-01"; "PC-03"]%string /\
  Z.of_nat (length (licensed_ids db' "org")) = Z.min 2 (countEnrolledWorkstations lab "org").
Proof.
  pose proof (@rebalanceLicences_fits code_collation code_collation_lawful lab "org" 2 1000 ltac:(lia)) as Hf.
  destruct (@rebalanceLicences code_collation lab "org" 2 1000) as [db' r] eqn:E.
  vm_compute in E. injection E as <- <-. split; [reflexivity|]. split; [vm_compute; reflexivity|]. apply Hf.
Defined.

Section Stable.
Context `{!Collation}.

Lemma rebalance_rows_enrolled db t limit now u :
  u ∈ unlicensed_workstations (rebalanceLicences db t limit now).1 -> ul_tenant_id u = t ->
  ul_client_id u ∈ enrolled t (device_tokens db).
Proof.
  intros Hu Ht.
  assert (Hex : existsb (is_unlicensed_row t (ul_client_id u)) (unlicensed_workstations (rebalanceLicences db t limit now).1) = true).
  { apply existsb_elem. exists u. split; [done|]. by apply is_unlicensed_row_iff. }
  pose proof (rebalance_members db t limit now (ul_client_id u)) as Hm. rewrite rebalance_db in Hex.
  destruct (rebalanceLicences db t limit now) as [db' r]. cbn in Hex.
  rewrite existsb_deletes_same, existsb_inserts_same, existsb_not_enrolled, (bool_decide_eq_true_2 (t = t)) in Hex by done.
  cbn [andb] in Hex. rewrite negb_involutive in Hex.
  apply andb_true_iff in Hex as [Hex _]. apply orb_true_iff in Hex as [Hex|Hex]; [by bool_to_prop|].
  apply bool_decide_eq_true in Hex.
  destruct Hm as (Hm & _). apply Hm in Hex. by apply elem_of_licensed_ids in Hex as [? _].
Qed.

Lemma on_unlicensed_id f db : f (unlicensed_workstations db) = unlicensed_workstations db -> on_unlicensed_workstations f db = db.
Proof. intros Hf. unfold on_unlicensed_workstations. rewrite Hf. by destruct db. Qed.

(** Licences are sticky: rebalancing a second time under the same limit
    changes nothing, so a workstation that shows the notice does not swap
    places with another. *)
Theorem rebalanceLicences_idempotent db t limit now now' :
  0 <= limit ->
  let db' := (rebalanceLicences db t limit now).1 in
  rebalanceLicences db' t limit now' = (db', mkRebalance [] []).
Proof.
  intros Hl db'.
  assert (Hlen : Z.of_nat (length (licensed_ids db' t)) = Z.min limit (countEnrolledWorkstations db t)).
  { pose proof (rebalance_lengths db t limit now Hl) as Hlen. unfold db'. by destruct (rebalanceLicences _ _ _ _). }
  assert (Htok : device_tokens db' = device_tokens db) by done.
  assert (Hpr : pruned db' t = db').
  { apply on_unlicensed_id, bfilter_all. intros u Hu. destruct (String.eqb_spec (ul_tenant_id u) t) as [Ht|Ht]; [|done].
    cbn [andb]. rewrite Htok, bool_decide_eq_true_2; [done|]. by eapply rebalance_rows_enrolled. }
  clearbody db'.
  assert (Hres : (rebalanceLicences db' t limit now').2 = mkRebalance [] []).
  { rewrite rebalance_result, Hpr. cbv zeta. unfold countEnrolledWorkstations in Hlen.
    set (n := Z.of_nat (length (licensed_ids db' t))) in *. replace (Z.to_nat (n - limit)) with 0%nat by lia.
    cbn [take]. f_equal. destruct (Z.eq_dec n limit) as [->|Hne]; [by replace (Z.to_nat (limit - limit)) with 0%nat by lia|].
    match goal with |- take _ ?l = _ => enough (l = []) as -> by apply firstn_nil end.
    assert (Hz : List.filter (fun c => existsb (is_unlicensed_row t c) (unlicensed_workstations db')) (enrolled t (device_tokens db')) = []).
    { apply length_zero_iff_nil.
      pose proof (bfilter_length_split (fun c => existsb (is_unlicensed_row t c) (unlicensed_workstations db')) (enrolled t (device_tokens db'))) as Hs.
      unfold n, licensed_ids in Hlen, Hne. rewrite Htok in *. lia. }
    apply Permutation_nil. by rewrite newest_first_perm, Hz. }
  pose proof (rebalance_db db' t limit now') as Hdb. cbv zeta in Hdb. rewrite Hres in Hdb.
  destruct (rebalanceLicences db' t limit now') as [d2 r2]. cbn [fst snd] in *. subst r2. f_equal. rewrite Hdb. cbn [rb_unlicensed rb_relicensed foldl].
  rewrite on_unlicensed_id; done.
Qed.
End Stable.

Lemma rebalanceLicences_idempotent_witness :
  let db' := (@rebalanceLicences code_collation lab "org" 2 1000).1 in
  db' <> lab /\ @rebalanceLicences code_collation db' "org" 2 2000 = (db', mkRebalance [] []).
Proof.
  intros db'. split; [vm_compute; discriminate|].
  apply (@rebalanceLicences_idempotent code_collation lab "org" 2 1000 2000). lia.
Defined.

(** ** Moving a licence *)

Section Moving.
Context `{C : Collation} `{!LawfulCollation C}.

Lemma existsb_delete t l c d :
  existsb (is_unlicensed_row t d) (delete_unlicensed t l c) = existsb (is_unlicensed_row t d) l && negb (bool_decide (d = c)).
Proof.
  pose proof (existsb_deletes_same t [c] l d) as E. cbn [foldl] in E. rewrite E. do 2 f_equal.
  apply bool_decide_ext. set_solver.
Qed.

Lemma moved_members db t c f d :
  c ∈ enrolled t (device_tokens db) -> c ∉ licensed_ids db t ->
  (forall l, existsb (is_unlicensed_row t d) (f l) = existsb (is_unlicensed_row t d) (delete_unlicensed t l c)) ->
  d ∈ licensed_ids (on_unlicensed_workstations f db) t <-> d = c \/ d ∈ licensed_ids db t.
Proof.
  intros He Hn Hf. rewrite !elem_of_licensed_ids. cbn. rewrite Hf, existsb_delete.
  rewrite andb_false_iff, negb_false_iff, bool_decide_eq_true. naive_solver.
Qed.

Lemma find_enrolled db t c :
  match js_find (fun w => String.eqb (ew_clientId w) c) (listEnrolledWorkstations db t) with
  | None => c ∉ enrolled t (device_tokens db)
  | Some w => c ∈ enrolled t (device_tokens db) /\ (ew_licensed w = true <-> c ∈ licensed_ids db t)
  end.
Proof.
  destruct (js_find _ _) as [w|] eqn:E.
  - apply js_find_Some in E as [Hw Hc]. bool_to_prop. subst c.
    assert (He : ew_clientId w ∈ enrolled t (device_tokens db)).
    { rewrite <- listEnrolled_ids. apply list_elem_of_fmap. by exists w. }
    split; [done|]. rewrite (ew_licensed_spec db t w Hw), elem_of_licensed_ids, negb_true_iff. naive_solver.
  - rewrite <- listEnrolled_ids. intros (w & -> & Hw)%list_elem_of_fmap.
    rewrite js_find_None in E. apply E in Hw. by rewrite String.eqb_refl in Hw.
Qed.

Lemma oldest_head db t w ws :
  js_sort by_oldest (List.filter ew_licensed (listEnrolledWorkstations db t)) = w :: ws ->
  ew_clientId w ∈ licensed_ids db t /\
  forall d, d ∈ licensed_ids db t -> last_seen db t (ew_clientId w) <= last_seen db t d.
Proof.
  intros E. pose proof (oldest_first_perm db t) as Hp. rewrite E in Hp.
  split; [rewrite <- Hp; left|]. intros d Hd.
  destruct (decide (d = ew_clientId w)) as [->|Hne]; [lia|].
  destruct (taken_before_left by_oldest ew_licensed db t 1 (ew_clientId w) d) as (a & b & _ & _ & Ea & Eb & Hc).
  - apply by_oldest_order.
  - rewrite E. left.
  - by rewrite oldest_first_perm.
  - rewrite E. cbn. by intros ?%list_elem_of_singleton.
  - unfold by_oldest in Hc. destruct (Z.eqb_spec (ew_lastSeen a - ew_lastSeen b) 0); lia.
Qed.

(** Moving a licence to a workstation. It is refused, and changes nothing,
    when the workstation is not enrolled, is licensed already, or the plan
    licenses none; otherwise the workstation is licensed, either in a free
    place or in that of the licensed workstation seen least recently, and the
    licences in use never exceed the limit because of it. *)
Theorem moveLicenceTo_spec db t c limit now :
  let '(db', m) := moveLicenceTo db t c limit now in
  let n := Z.of_nat (length (licensed_ids db t)) in
  match m with
  | MoveError _ status =>
      db' = db /\
      (status = 404 /\ c ∉ enrolled t (device_tokens db) \/
       status = 409 /\ (c ∈ licensed_ids db t \/ (n = 0 /\ limit <= 0)))
  | Displaced None => n < limit /\ licensed_ids db' t ≡ₚ c :: licensed_ids db t
  | Displaced (Some v) =>
      limit <= n /\ v ∈ licensed_ids db t /\ v :: licensed_ids db' t ≡ₚ c :: licensed_ids db t /\
      forall d, d ∈ licensed_ids db t -> last_seen db t v <= last_seen db t d
  end.
Proof.
  unfold moveLicenceTo. pose proof (find_enrolled db t c) as Hfind.
  destruct (js_find _ _) as [target|]; [|naive_solver]. destruct Hfind as [He Hlic].
  destruct (ew_licensed target); [naive_solver|].
  assert (Hn : c ∉ licensed_ids db t) by naive_solver. clear Hlic.
  pose proof (oldest_first_perm db t) as Hp. apply Permutation_length in Hp. rewrite length_map in Hp. rewrite Hp.
  destruct (Z.leb_spec limit (Z.of_nat (length (licensed_ids db t)))) as [Hle|Hlt].
  - destruct (js_sort _ _) as [|w ws] eqn:E; [cbn in Hp; rewrite <- Hp; naive_solver lia|].
    destruct (oldest_head db t w ws E) as [Hw Hold]. split_and!; [done|done| |done].
    apply NoDup_Permutation.
    + constructor; [|apply licensed_ids_NoDup]. rewrite elem_of_licensed_ids. cbn.
      rewrite existsb_insert, !bool_decide_eq_true_2, orb_true_r by done. naive_solver.
    + constructor; [done|apply licensed_ids_NoDup].
    + intros d. rewrite !elem_of_cons, !elem_of_licensed_ids. cbn. rewrite existsb_insert, existsb_delete.
      rewrite (bool_decide_eq_true_2 (t = t)) by done. cbn [andb].
      rewrite orb_false_iff, andb_false_iff, negb_false_iff, bool_decide_eq_true, bool_decide_eq_false.
      apply elem_of_licensed_ids in Hw. assert (ew_clientId w <> c) by (intros Ew; apply Hn, elem_of_licensed_ids; by rewrite <- Ew).
      destruct (decide (d = ew_clientId w)); naive_solver.
  - split; [done|]. apply NoDup_Permutation; [apply licensed_ids_NoDup|constructor; [done|apply licensed_ids_NoDup]|].
    intros d. rewrite elem_of_cons. by apply moved_members.
Qed.
End Moving.

Lemma moveLicenceTo_spec_witness :
  let db := (@rebalanceLicences code_collation lab "org" 2 1000).1 in
  let '(db', m) := @moveLicenceTo code_collation db "org" "PC-02" 2 2000 in
  m = Displaced (Some "PC-03"%string) /\ "PC-03"%string :: licensed_ids db' "org" ≡ₚ "PC-02"%string :: licensed_ids db "org".
Proof.
  intros db. pose proof (@moveLicenceTo_spec code_collation code_collation_lawful db "org" "PC-02" 2 2000) as Hs.
  destruct (@moveLicenceTo code_collation db "org" "PC-02" 2 2000) as [db' m] eqn:E.
  assert (Em : m = Displaced (Some "PC-03"%string)) by (vm_compute in E; by injection E as _ <-).
  split; [done|]. rewrite Em in Hs. apply Hs.
Defined.

(** ** What a plan covers *)

(** A plan that ends never gives more: as time passes an organization's
    limit only falls, it falls exactly when the end date is reached, and from
    then on the plan counts as Free with at most the Free workstations. *)
Theorem entitlement_lapse tenant now later :
  now <= later ->
  en_limit (entitlement tenant later) <= en_limit (entitlement tenant now) /\
  (en_lapsed (entitlement tenant now) = true <->
     exists p e, t_license_plan tenant = Some p /\ t_license_expires_at tenant = Some e /\ e <= now) /\
  (en_lapsed (entitlement tenant now) = true ->
     en_lapsed (entitlement tenant later) = true /\
     en_kind (entitlement tenant now) = pk_free /\ en_limit (entitlement tenant now) <= P_freeWorkstations).
Proof.
  intros Hle. unfold entitlement, licenseState. cbn [lst_plan lst_expired lst_expiresAt lst_endingSoon].
  destruct (t_license_plan tenant) as [p|], (t_license_expires_at tenant) as [e|]; cbn;
    try (split; [lia|]; split; [split; [done|naive_solver]|done]).
  destruct (Z.leb_spec e now), (Z.leb_spec e later); cbn; try lia; (split; [lia|]); (split; [split|]).
  all: try (intros (? & ? & ? & [= <-] & ?); lia || done).
  all: intros; first [discriminate | by exists p, e | split_and!; done || lia].
Qed.

Lemma entitlement_lapse_witness :
  let trial := mkTenant "t1" "u1" "Greenwood" "greenwood" None active portal "" None None 0 None 0 0 stable 0 0 0 0 45
                 (Some evaluation) (Some 1000) (Some 1) 0 in
  en_limit (entitlement trial 1000) <= en_limit (entitlement trial 999) /\
  en_limit (entitlement trial 999) = 45 /\ en_limit (entitlement trial 1000) = 5.
Proof. intros trial. split; [apply (entitlement_lapse trial 999 1000); lia|]. split; reflexivity. Defined.

(** Prices. A quote the code accepts is for 45 to 200 workstations, its
    tax is exactly 18% of the subtotal (no paisa is rounded), and one more
    workstation always costs 118% of the price of an extra one. *)
Theorem parseQuoteInput_exact body q :
  parseQuoteInput body = Returns q ->
  0 <= q_extraWorkstations q <= MAX_ONLINE_EXTRA /\
  q_workstations q = P_includedWorkstations + q_extraWorkstations q /\ q_workstations q <= P_salesAbove /\
  q_gst q * 100 = q_subtotal q * P_gstPercent /\ q_total q = q_subtotal q + q_gst q /\
  let extra := match q_period q with month => P_extraMonthly | year => P_extraYearly end in
  q_total (quote (q_period q) (q_extraWorkstations q + 1)) = q_total q + extra * (100 + P_gstPercent).
Proof.
  unfold parseQuoteInput. intros H. invert_returns.
  assert (Ha0 : 0 <= a0).
  { destruct (js_get body "extraWorkstations"); try done; [by injection E0 as <-|].
    destruct (Z.ltb_spec z 0); [done|]. by injection E0 as <-. }
  clear E E0. apply Z.ltb_ge in E1. subst q.
  unfold quote, MAX_ONLINE_EXTRA, round_div, P_salesAbove, P_includedWorkstations, P_gstPercent, P_monthly, P_yearly,
    P_extraMonthly, P_extraYearly in *. cbn [q_extraWorkstations q_workstations q_gst q_subtotal q_total q_period].
  split; [lia|]. split; [lia|]. split; [lia|].
  assert (Hdiv : forall k, (2 * (k * 100 * 18) + 100) `div` (2 * 100) = k * 18) by (intros k; change (2 * 100) with 200; div_lia).
  destruct a; cbn;
    match goal with |- context [(2 * ((?x * 100 + a0 * ?y * 100) * 18) + 100) `div` _] =>
      replace (x * 100 + a0 * y * 100) with ((x + a0 * y) * 100) by lia;
      replace (x * 100 + (a0 + 1) * y * 100) with ((x + (a0 + 1) * y) * 100) by lia end;
    rewrite !Hdiv; lia.
Qed.

Lemma parseQuoteInput_exact_witness :
  let body := JsObj [("period"%string, JsStr "year"); ("extraWorkstations"%string, JsInt 155)] in
  parseQuoteInput body = Returns (quote year 155) /\ q_gst (quote year 155) * 100 = q_subtotal (quote year 155) * P_gstPercent.
Proof.
  intros body. assert (E : parseQuoteInput body = Returns (quote year 155)) by (vm_compute; reflexivity).
  split; [done|]. exact (proj1 (proj2 (proj2 (proj2 (parseQuoteInput_exact body _ E))))).
Defined.
