(* ===== verification/Calendar.v ===== *)
(** [Date], as far as src/cloudflare-control/src/usage.ts and
    monthly_summary.ts use it: the UTC calendar of a moment in milliseconds,
    its text and the moment a text names. The functions are those of the
    language's definition ([DayFromYear], [YearFromTime], ...), on whole days
    since 1970. Every date of the code is between the years 0 and 9999. *)
From S2P Require Import Prelude JsString.

Definition MS_PER_DAY : Z := 86400000.

Definition DayFromYear (y : Z) : Z := 365 * (y - 1970) + (y - 1969) / 4 - (y - 1901) / 100 + (y - 1601) / 400.
Definition InLeapYear (y : Z) : bool := DayFromYear (y + 1) - DayFromYear y =? 366.

(** The largest [y] whose first day is not after [day]; 146097 days are 400 years. *)
Definition YearFromDay (day : Z) : Z :=
  let y := 1970 + day * 400 / 146097 in
  if DayFromYear (y + 1) <=? day then y + 1 else if day <? DayFromYear y then y - 1 else y.

(** The days of a year before a month; months are numbered from 0. *)
Definition month_start (leap : bool) (month : Z) : Z :=
  let l := if leap then 1 else 0 in
  if month <=? 0 then 0 else if month =? 1 then 31 else if month =? 2 then 59 + l else if month =? 3 then 90 + l
  else if month =? 4 then 120 + l else if month =? 5 then 151 + l else if month =? 6 then 181 + l else if month =? 7 then 212 + l
  else if month =? 8 then 243 + l else if month =? 9 then 273 + l else if month =? 10 then 304 + l else if month =? 11 then 334 + l else 365 + l.

Definition month_of (leap : bool) (dayInYear : Z) : Z :=
  let before m := dayInYear <? month_start leap m in
  if before 1 then 0 else if before 2 then 1 else if before 3 then 2 else if before 4 then 3 else if before 5 then 4 else if before 6 then 5
  else if before 7 then 6 else if before 8 then 7 else if before 9 then 8 else if before 10 then 9 else if before 11 then 10 else 11.

(** A date, its month from 1. *)
Record Civil : Type := mkCivil { c_year : Z; c_month : Z; c_date : Z }.

Definition civil (day : Z) : Civil :=
  let y := YearFromDay day in
  let leap := InLeapYear y in
  let inYear := day - DayFromYear y in
  let m := month_of leap inYear in
  mkCivil y (m + 1) (inYear - month_start leap m + 1).

(** [MakeDay], for a month from 1 to 12. *)
Definition MakeDay (c : Civil) : Z := DayFromYear (c_year c) + month_start (InLeapYear (c_year c)) (c_month c - 1) + c_date c - 1.

Definition utc_day_number (ms : Z) : Z := ms / MS_PER_DAY.

(** Two and four digits, with zeros in front. *)
Definition two (n : Z) : string := String (chr (48 + n / 10 mod 10)) (String (chr (48 + n mod 10)) "").
Definition four (n : Z) : string := two (n / 100) +:+ two (n mod 100).

(** [toISOString().slice(0, 10)]. *)
Definition date_text (c : Civil) : string := four (c_year c) +:+ "-" +:+ two (c_month c) +:+ "-" +:+ two (c_date c).

(** [Date.parse(`${day}T00:00:00Z`)] of a text of the form of a date; NaN where
    there is no such month, or no month has such a day. *)
Definition read_date (s : string) : Civil :=
  mkCivil (digits_value (str_take 4 s)) (digits_value (str_take 2 (str_drop 5 s))) (digits_value (str_take 2 (str_drop 8 s))).
Definition date_ms (s : string) : option Z :=
  let c := read_date s in
  if (1 <=? c_month c) && (c_month c <=? 12) && (1 <=? c_date c) && (c_date c <=? 31) then Some (MakeDay c * MS_PER_DAY) else None.

(** ** Lemmas *)

(** Arithmetic with quotients by constants. *)
Ltac divided := unfold DayFromYear in *; Z.div_mod_to_equations; lia.

Lemma year_length y : 365 <= DayFromYear (y + 1) - DayFromYear y <= 366.
Proof. divided. Qed.

Lemma leap_length y : DayFromYear (y + 1) = DayFromYear y + (if InLeapYear y then 366 else 365).
Proof. unfold InLeapYear. pose proof (year_length y). destruct (Z.eqb_spec (DayFromYear (y + 1) - DayFromYear y) 366); lia. Qed.

Lemma year_of_day day : DayFromYear (YearFromDay day) <= day < DayFromYear (YearFromDay day + 1).
Proof.
  unfold YearFromDay. cbv zeta. destruct (Z.leb_spec (DayFromYear (1970 + day * 400 / 146097 + 1)) day) as [H|H];
    [|destruct (Z.ltb_spec day (DayFromYear (1970 + day * 400 / 146097))) as [H'|H']; [|lia]].
  - split; [done|]. divided.
  - split; [divided|]. by replace (_ - 1 + 1) with (1970 + day * 400 / 146097) by lia.
Qed.

Lemma DayFromYear_mono a b : a <= b -> DayFromYear a <= DayFromYear b.
Proof. divided. Qed.

Lemma year_unique y day : DayFromYear y <= day < DayFromYear (y + 1) -> YearFromDay day = y.
Proof.
  intros Hy. pose proof (year_of_day day) as Hd. destruct (Z.lt_trichotomy (YearFromDay day) y) as [H|[H|H]]; [|done|].
  - pose proof (DayFromYear_mono (YearFromDay day + 1) y ltac:(lia)). lia.
  - pose proof (DayFromYear_mono (y + 1) (YearFromDay day) ltac:(lia)). lia.
Qed.

(** *** Dates *)

Definition month_length (leap : bool) (month : Z) : Z := month_start leap month - month_start leap (month - 1).

Definition valid (c : Civil) : Prop := 1 <= c_month c <= 12 /\ 1 <= c_date c <= month_length (InLeapYear (c_year c)) (c_month c).

(** Replace the starts of given months by their value. *)
Ltac months :=
  repeat match goal with
  | |- context [month_start ?l ?m] => let v := eval vm_compute in (month_start l m) in change (month_start l m) with v
  | H : context [month_start ?l ?m] |- _ => let v := eval vm_compute in (month_start l m) in change (month_start l m) with v in H
  end; lia.

(** The days of a year fall in one month each. *)
Lemma month_of_spec leap d : 0 <= d < month_start leap 12 -> 0 <= month_of leap d <= 11 /\ month_start leap (month_of leap d) <= d < month_start leap (month_of leap d + 1).
Proof.
  intros Hd. unfold month_of. cbv beta zeta. repeat match goal with |- context [Z.ltb d ?m] => destruct (Z.ltb_spec d m) end;
    (split; [lia|]); destruct leap; months.
Qed.

Lemma month_start_mono leap a b : 0 <= a -> a <= b -> b <= 12 -> month_start leap a <= month_start leap b.
Proof.
  intros Ha Hab Hb. pose proof (Z_interval_forall (fun i => forallb (fun j => (j <? i) || ((month_start false i <=? month_start false j) && (month_start true i <=? month_start true j))) (List.map Z.of_nat (List.seq 0 13))) 13 eq_refl a ltac:(lia)) as Hc.
  rewrite forallb_forall in Hc. specialize (Hc b ltac:(apply in_map_iff; exists (Z.to_nat b); split; [lia|apply List.in_seq; lia])). destruct leap; lia.
Qed.

Lemma month_unique leap d m : 0 <= m <= 11 -> month_start leap m <= d < month_start leap (m + 1) -> month_of leap d = m.
Proof.
  intros Hm Hd. pose proof (month_start_mono leap 0 m ltac:(lia) ltac:(lia) ltac:(lia)) as H0. pose proof (month_start_mono leap (m + 1) 12 ltac:(lia) ltac:(lia) ltac:(lia)) as H1. cbn [month_start] in H0.
  destruct (month_of_spec leap d) as [Hr Hs]; [cbn in H0; lia|]. destruct (Z.lt_trichotomy (month_of leap d) m) as [H|[H|H]]; [|done|].
  - pose proof (month_start_mono leap (month_of leap d + 1) m ltac:(lia) ltac:(lia) ltac:(lia)). lia.
  - pose proof (month_start_mono leap (m + 1) (month_of leap d) ltac:(lia) ltac:(lia) ltac:(lia)). lia.
Qed.

Lemma year_end leap : month_start leap 12 = if leap then 366 else 365.
Proof. by destruct leap. Qed.

Lemma in_year day : 0 <= day - DayFromYear (YearFromDay day) < month_start (InLeapYear (YearFromDay day)) 12.
Proof. pose proof (year_of_day day). pose proof (leap_length (YearFromDay day)). rewrite year_end. lia. Qed.

Lemma civil_valid day : valid (civil day).
Proof.
  destruct (month_of_spec _ _ (in_year day)) as [Hm Hs]. unfold valid, civil, month_length. cbn [c_year c_month c_date]. rewrite Z.add_simpl_r. lia.
Qed.

Lemma MakeDay_civil day : MakeDay (civil day) = day.
Proof. unfold MakeDay, civil. cbn [c_year c_month c_date]. rewrite Z.add_simpl_r. lia. Qed.

Lemma civil_MakeDay c : valid c -> civil (MakeDay c) = c.
Proof.
  destruct c as [y m d]. unfold valid, month_length. cbn. intros [Hm Hd]. set (leap := InLeapYear y) in *.
  pose proof (month_start_mono leap 0 (m - 1) ltac:(lia) ltac:(lia) ltac:(lia)) as H0. pose proof (month_start_mono leap m 12 ltac:(lia) ltac:(lia) ltac:(lia)) as H1. cbn [month_start] in H0. rewrite year_end in H1.
  assert (Hy : YearFromDay (MakeDay (mkCivil y m d)) = y).
  { apply year_unique. rewrite leap_length. fold leap. unfold MakeDay. cbn. fold leap. cbn in H0. destruct leap; lia. }
  unfold civil. rewrite Hy. fold leap. unfold MakeDay. cbn [c_year c_month c_date]. fold leap.
  replace (DayFromYear y + month_start leap (m - 1) + d - 1 - DayFromYear y) with (month_start leap (m - 1) + d - 1) by lia.
  rewrite (month_unique leap (month_start leap (m - 1) + d - 1) (m - 1)); [f_equal; lia|lia|]. replace (m - 1 + 1) with m by lia. lia.
Qed.

(** *** Their order *)

Definition stamp (c : Civil) : Z := c_year c * 10000 + c_month c * 100 + c_date c.

Lemma month_length_bounds leap m : 1 <= m <= 12 -> 28 <= month_length leap m <= 31.
Proof.
  intros Hm. pose proof (Z_interval_forall (fun i => (i =? 0) || forallb (fun l => (28 <=? month_length l i) && (month_length l i <=? 31)) [true; false]) 13 eq_refl m ltac:(lia)) as Hc. cbn [forallb] in Hc. destruct leap; lia.
Qed.

Lemma civil_bounds day : 1 <= c_month (civil day) <= 12 /\ 1 <= c_date (civil day) <= 31.
Proof. destruct (civil_valid day) as [Hm Hd]. pose proof (month_length_bounds (InLeapYear (c_year (civil day))) _ Hm). lia. Qed.

Lemma stamp_mono a b : a < b -> stamp (civil a) < stamp (civil b).
Proof.
  intros Hab. pose proof (civil_bounds a) as Ha. pose proof (civil_bounds b) as Hb. pose proof (year_of_day a) as Ya. pose proof (year_of_day b) as Yb. unfold stamp.
  destruct (Z.lt_trichotomy (YearFromDay a) (YearFromDay b)) as [Hy|[Hy|Hy]].
  - change (c_year (civil a)) with (YearFromDay a). change (c_year (civil b)) with (YearFromDay b). lia.
  - destruct (month_of_spec _ _ (in_year a)) as [Ma Da]. destruct (month_of_spec _ _ (in_year b)) as [Mb Db]. unfold civil in *. cbn [c_year c_month c_date] in *. rewrite Hy in *.
    set (leap := InLeapYear (YearFromDay b)) in *. set (x := a - DayFromYear (YearFromDay b)) in *. set (y := b - DayFromYear (YearFromDay b)) in *.
    destruct (Z.lt_trichotomy (month_of leap x) (month_of leap y)) as [Hm|[Hm|Hm]]; [lia|rewrite Hm in *; lia|].
    pose proof (month_start_mono leap (month_of leap y + 1) (month_of leap x) ltac:(lia) ltac:(lia) ltac:(lia)). lia.
  - pose proof (DayFromYear_mono (YearFromDay b + 1) (YearFromDay a) ltac:(lia)). lia.
Qed.

(** *** Their text *)

Lemma two_order a b s t : 0 <= a <= 99 -> 0 <= b <= 99 -> str_ltb (two a +:+ s) (two b +:+ t) = (a <? b) || ((a =? b) && str_ltb s t).
Proof.
  intros Ha Hb. unfold two. cbn [String.append str_ltb]. rewrite !code_chr by (Z.div_mod_to_equations; lia). generalize (str_ltb s t). intros r. Z.div_mod_to_equations. destruct r; lia.
Qed.

Lemma two_value n : 0 <= n <= 99 -> digits_value (two n) = n.
Proof. intros Hn. unfold two, digits_value. cbn [digits_value_acc]. rewrite !code_chr by (Z.div_mod_to_equations; lia). Z.div_mod_to_equations. lia. Qed.

Lemma four_value n : 0 <= n <= 9999 -> digits_value (four n) = n.
Proof. intros Hn. unfold four, two, digits_value. cbn [String.append digits_value_acc]. rewrite !code_chr by (Z.div_mod_to_equations; lia). Z.div_mod_to_equations. lia. Qed.

Definition in_text (c : Civil) : Prop := 0 <= c_year c <= 9999 /\ 0 <= c_month c <= 99 /\ 0 <= c_date c <= 99.

Lemma date_text_order a b : in_text a -> in_text b -> str_ltb (date_text a) (date_text b) = (stamp a <? stamp b).
Proof.
  intros (Ya & Ma & Da) (Yb & Mb & Db). unfold date_text, four, stamp. rewrite !str_app_assoc, !two_order by (Z.div_mod_to_equations; lia).
  cbn [String.append str_ltb]. rewrite Z.ltb_irrefl, Z.eqb_refl. cbn [orb andb]. rewrite two_order by lia. cbn [String.append str_ltb]. rewrite Z.ltb_irrefl, Z.eqb_refl. cbn [orb andb].
  rewrite <- (str_app_nil_r (two (c_date a))), <- (str_app_nil_r (two (c_date b))), two_order by lia. cbn [str_ltb]. Z.div_mod_to_equations. lia.
Qed.

Lemma read_date_text c : in_text c -> read_date (date_text c) = c.
Proof.
  destruct c as [y m d]. intros (Hy & Hm & Hd). cbn in Hy, Hm, Hd. unfold read_date, date_text. cbn [c_year c_month c_date].
  change (str_take 4 (four y +:+ "-" +:+ two m +:+ "-" +:+ two d)) with (four y). change (str_take 2 (str_drop 5 (four y +:+ "-" +:+ two m +:+ "-" +:+ two d))) with (two m).
  change (str_take 2 (str_drop 8 (four y +:+ "-" +:+ two m +:+ "-" +:+ two d))) with (two d). by rewrite four_value, !two_value by lia.
Qed.

(** *** The days whose text has a year of four digits *)

Definition text_day (day : Z) : Prop := DayFromYear 0 <= day < DayFromYear 10000.

Lemma text_day_in_text day : text_day day -> in_text (civil day).
Proof.
  intros [Hl Hh]. pose proof (civil_bounds day). pose proof (year_of_day day) as Hy. unfold in_text. split; [|lia]. change (c_year (civil day)) with (YearFromDay day). split.
  - destruct (Z.le_gt_cases 0 (YearFromDay day)); [done|]. pose proof (DayFromYear_mono (YearFromDay day + 1) 0 ltac:(lia)). lia.
  - destruct (Z.le_gt_cases (YearFromDay day) 9999); [done|]. pose proof (DayFromYear_mono 10000 (YearFromDay day) ltac:(lia)). lia.
Qed.

Lemma text_order a b : text_day a -> text_day b -> str_ltb (date_text (civil a)) (date_text (civil b)) = (a <? b).
Proof.
  intros Ha%text_day_in_text Hb%text_day_in_text. rewrite date_text_order by done. destruct (Z.lt_trichotomy a b) as [H|[-> |H]].
  - pose proof (stamp_mono a b H). lia.
  - lia.
  - pose proof (stamp_mono b a H). lia.
Qed.

Lemma date_ms_text day : text_day day -> date_ms (date_text (civil day)) = Some (day * MS_PER_DAY).
Proof.
  intros Ht. pose proof (civil_bounds day) as Hb. unfold date_ms. rewrite read_date_text by by apply text_day_in_text. cbv zeta. rewrite MakeDay_civil. by rewrite (proj2 (andb_true_iff _ _)) by lia.
Qed.

(** The text of a date names the day it was read as. *)
Lemma date_ms_whole s ms : date_ms s = Some ms -> ms mod MS_PER_DAY = 0.
Proof. unfold date_ms. cbv zeta. destruct (_ && _); [|done]. intros [= <-]. by rewrite Z.mod_mul. Qed.
