(* ===== verification/Content.v ===== *)
(** The routes of src/cloudflare-control/src/index.ts that change what an
    organization's workstations may reach and what its pages link to: the
    allowlist, the cards of the User Portal, broadcast shortcuts, the
    platform's blocklist and the takedown of a card.

    A route is a function of the state: the database, the audit log and the
    organizations whose hub was told of a change ([notifyConfigChanged]). It
    answers [None], or the refusal. The fields of a body are given as text,
    empty where absent. The mail a takedown sends is left out. *)
From S2P Require Import Prelude JsString Regex Platform Db Escape Allowlist Guard Plans.

Record Content : Type := mkContent { ct_db : D1Database; ct_audit : list AuditRow; ct_told : list string }.

Definition on_content (f : D1Database -> D1Database) (c : Content) : Content := mkContent (f (ct_db c)) (ct_audit c) (ct_told c).
Definition audited (entry : AuditRow) (c : Content) : Content := mkContent (ct_db c) (ct_audit c ++ [entry]) (ct_told c).
Definition notifyConfigChanged (tenantId : string) (c : Content) : Content := mkContent (ct_db c) (ct_audit c) (ct_told c ++ [tenantId]).

(** [x || undefined]. *)
Definition or_undefined (s : string) : option string := nonempty s.

Definition TAKEN_DOWN : Refusal := mkRefusal "Lab Kiosk took a card with this link down. Write to legal@labkiosk.org to contest it." 403.

Section Routes.
Context `{UrlParser}.

(** Who asks, about which organization, at what time, with what UUID to draw. *)
Context (session : option Session) (tenant : option Tenant) (now : Z) (uuid : string).

Definition permitted (permission : string) (c : Content) (run : Session -> Tenant -> Content * option Refusal) : Content * option Refusal :=
  match requireTenantPermission (ct_db c) session tenant permission with
  | Some denied => (c, Some denied)
  | None => match session, tenant with Some s, Some t => run s t | _, _ => (c, Some (mkRefusal "Authentication required" 401)) end
  end.

(** POST /api/portal-sites. *)
Definition post_portal_site (rawTitle rawUrl rawCategory rawIcon rawThumbnail : string) (c : Content) : Content * option Refusal :=
  permitted "portal" c (fun s t =>
    let title := str_take 120 (trim rawTitle) in
    if String.eqb title "" then (c, Some (mkRefusal "An application title is required" 400))
    else
      match safeHttpUrl rawUrl with
      | None => (c, Some (mkRefusal "Application URL must be a valid http(s) address" 400))
      | Some targetUrl =>
          let thumbnailUrl := if String.eqb rawThumbnail "" then None else safeHttpUrl rawThumbnail in
          if negb (String.eqb rawThumbnail "") && bool_decide (thumbnailUrl = None) then (c, Some (mkRefusal "Thumbnail URL must be a valid http(s) address" 400))
          else
            let blocked := List.map bl_domain (listLinkBlocklist (ct_db c)) in
            let linkProblem := match hostedLinkProblem targetUrl blocked with
                               | Some p => Some p
                               | None => thumbnailUrl ≫= fun u => hostedLinkProblem u blocked
                               end in
            match linkProblem, findTakenDownPortalSite (ct_db c) (t_id t) targetUrl with
            | Some p, _ => (c, Some (mkRefusal p 400))
            | None, Some _ => (c, Some TAKEN_DOWN)
            | None, None =>
                match createPortalSite (ct_db c) (t_id t) title targetUrl (or_undefined (str_take 60 (trim rawCategory))) (or_undefined (str_take 8 (trim rawIcon))) thumbnailUrl uuid now with
                | Throws _ => (c, Some (mkRefusal "Could not add this application" 400))
                | Returns (db, _) =>
                    (notifyConfigChanged (t_id t) (audited (mkAudit (Some (t_id t)) (user_id s) "portal.add" (Some (title +:+ " -> " +:+ targetUrl))) (on_content (fun _ => db) c)), None)
                end
            end
      end).

(** DELETE /api/portal-sites/:id. *)
Definition delete_portal_site (id : string) (c : Content) : Content * option Refusal :=
  permitted "portal" c (fun s t =>
    (notifyConfigChanged (t_id t) (audited (mkAudit (Some (t_id t)) (user_id s) "portal.remove" (Some ("site=" +:+ id))) (on_content (fun db => deletePortalSite db id (t_id t)) c)), None)).

(** POST /api/broadcast-presets. *)
Definition post_broadcast_preset (rawTitle rawUrl : string) (c : Content) : Content * option Refusal :=
  permitted "broadcast" c (fun s t =>
    let title := str_take 80 (trim rawTitle) in
    let url := trim rawUrl in
    if String.eqb title "" || String.eqb url "" then (c, Some (mkRefusal "Title and URL are required" 400))
    else
      match safeHttpUrl url with
      | None => (c, Some (mkRefusal "URL must be a valid http(s) address" 400))
      | Some validatedUrl =>
          (notifyConfigChanged (t_id t) (audited (mkAudit (Some (t_id t)) (user_id s) "broadcast_presets.create" (Some ("title=" +:+ title +:+ " url=" +:+ validatedUrl)))
             (on_content (fun db => fst (createBroadcastPreset db (t_id t) title validatedUrl uuid now)) c)), None)
      end).

(** DELETE /api/broadcast-presets/:id. *)
Definition delete_broadcast_preset (presetId : string) (c : Content) : Content * option Refusal :=
  permitted "broadcast" c (fun s t =>
    if String.eqb presetId "" then (c, Some (mkRefusal "Preset ID required" 400))
    else
      (notifyConfigChanged (t_id t) (audited (mkAudit (Some (t_id t)) (user_id s) "broadcast_presets.delete" (Some ("id=" +:+ presetId)))
         (on_content (fun db => deleteBroadcastPreset db presetId (t_id t)) c)), None)).

(** POST /api/whitelist. *)
Definition post_whitelist (action domain : string) (c : Content) : Content * option Refusal :=
  permitted "whitelist" c (fun s t =>
    if String.eqb action "add" then
      let candidate := normalizeDomain domain in
      if String.eqb candidate "" || negb (has_char "." candidate) then (c, Some (mkRefusal "Enter a domain name such as scratch.mit.edu" 400))
      else
        match addWhitelistDomain (ct_db c) (t_id t) candidate uuid now with
        | Throws _ => (c, Some (mkRefusal "Could not update the allowed sites list" 400))
        | Returns (db, added) => (notifyConfigChanged (t_id t) (audited (mkAudit (Some (t_id t)) (user_id s) "whitelist.add" (Some added)) (on_content (fun _ => db) c)), None)
        end
    else if String.eqb action "remove" then
      (notifyConfigChanged (t_id t) (audited (mkAudit (Some (t_id t)) (user_id s) "whitelist.remove" (nonempty domain)) (on_content (fun db => removeWhitelistDomain db (t_id t) domain) c)), None)
    else (c, Some (mkRefusal "Action must be either 'add' or 'remove'" 400))).

(** POST /api/super/link-blocklist, and its /remove. *)
Definition post_link_blocklist (remove : bool) (rawDomain rawReason : string) (c : Content) : Content * option Refusal :=
  match requireSuperAdmin session, session with
  | Some denied, _ => (c, Some denied)
  | None, None => (c, Some (mkRefusal "Authentication required" 401))
  | None, Some s =>
      let domain := strip_last_dot (toLowerCase (trim rawDomain)) in
      if negb (BLOCKLIST_DOMAIN_PATTERN domain) then (c, Some (mkRefusal "A domain name such as example.com is required" 400))
      else if remove then
        let '(db, removed) := removeBlockedDomain (ct_db c) domain in
        if negb removed then (c, Some (mkRefusal "That domain is not on the blocklist" 404))
        else (audited (mkAudit None (user_id s) "content.unblock" (Some domain)) (on_content (fun _ => db) c), None)
      else
        match addBlockedDomain (ct_db c) domain (nonempty (str_take 300 (trim rawReason))) (user_id s) now with
        | Throws _ => (c, Some (mkRefusal "A domain name such as example.com is required" 400))
        | Returns db => (audited (mkAudit None (user_id s) "content.block" (Some domain)) (on_content (fun _ => db) c), None)
        end
  end.

Definition takedown_what (changed : Z) (cardUrl : string) : string := "User Portal card" +:+ (if changed =? 1 then "" else "s") +:+ " linking to " +:+ cardUrl.

Definition NEWLINE : string := String (chr 10) "".

Definition takedown_body (takedown : bool) (what reason : string) : string :=
  if takedown then "Lab Kiosk took down your " +:+ what +:+ " under the Terms of Service and the Content Policy: " +:+ reason +:+ NEWLINE +:+ NEWLINE +:+ "To contest it, write to legal@labkiosk.org."
  else "Lab Kiosk restored your " +:+ what +:+ ". It is shown again.".

(** POST /api/super/tenants/content for a card. [reason]: with its line ends
    made one and trimmed. *)
Definition post_card_takedown (tenantId : string) (takedown : bool) (rawUrl rawReason : string) (c : Content) : Content * option Refusal :=
  match requireSuperAdmin session, session with
  | Some denied, _ => (c, Some denied)
  | None, None => (c, Some (mkRefusal "Authentication required" 401))
  | None, Some s =>
      match findTenantById (ct_db c) tenantId with
      | None => (c, Some (mkRefusal "Organization not found" 404))
      | Some target =>
          let reason := str_take 2000 (trim rawReason) in
          if takedown && String.eqb reason "" then (c, Some (mkRefusal "Give the reason; the organization is told it" 400))
          else
            match safeHttpUrl rawUrl with
            | None => (c, Some (mkRefusal "The card's link (an http or https address) is required" 400))
            | Some cardUrl =>
                let '(db, changed) := setPortalSiteTakedown (ct_db c) (t_id target) cardUrl (if takedown then Some (now, reason) else None) in
                if changed =? 0 then
                  (c, Some (mkRefusal (if takedown then "No active card of this organization links there" else "No card linking there is taken down") 404))
                else
                  let what := takedown_what changed cardUrl in
                  let c1 := audited (mkAudit (Some (t_id target)) (user_id s) (if takedown then "content.takedown" else "content.restore")
                              (Some ("card " +:+ cardUrl +:+ (if String.eqb reason "" then "" else " reason=" +:+ str_take 200 reason))))
                              (notifyConfigChanged (t_id target) (on_content (fun _ => db) c)) in
                  match createNotification (ct_db c1) (Some (t_id target)) "content" ((if takedown then "Lab Kiosk took down your " else "Lab Kiosk restored your ") +:+ what)
                          (takedown_body takedown what reason) (Some (user_id s)) with
                  | Throws _ => (c1, Some (mkRefusal "Internal error" 500))
                  | Returns db' => (on_content (fun _ => db') c1, None)
                  end
            end
      end
  end.
End Routes.

(** ** Properties *)

Lemma filter_of_filter {A} (p q : A -> bool) l : (forall x, p x = true -> q x = true) -> List.filter p (List.filter q l) = List.filter p l.
Proof. intros Hpq. induction l as [|x l IH]; [done|]. cbn. destruct (q x) eqn:Eq; cbn; rewrite IH; [done|]. destruct (p x) eqn:Ep; [|done]. by rewrite (Hpq x Ep) in Eq. Qed.

Lemma filter_of_map {A} (p : A -> bool) (f : A -> A) l : (forall x, p (f x) = p x) -> (forall x, p x = true -> f x = x) -> List.filter p (List.map f l) = List.filter p l.
Proof. intros Hp Hf. induction l as [|x l IH]; [done|]. cbn. rewrite Hp, IH. destruct (p x) eqn:E; [by rewrite Hf|done]. Qed.

Lemma filter_and {A} (p q : A -> bool) l : List.filter (fun x => p x && q x) l = List.filter q (List.filter p l).
Proof. induction l as [|x l IH]; [done|]. cbn. destruct (p x); cbn; [destruct (q x)|]; by rewrite IH. Qed.

(** The rows of one organization. *)
Definition rows_of {A} (key : A -> string) (t : string) (l : list A) : list A := List.filter (fun r => String.eqb (key r) t) l.

Lemma rows_of_snoc {A} (key : A -> string) t l x : key x <> t -> rows_of key t (l ++ [x]) = rows_of key t l.
Proof. intros Hne. unfold rows_of. rewrite List.filter_app. cbn. rewrite (proj2 (String.eqb_neq _ _) Hne). apply app_nil_r. Qed.

Lemma rows_of_delete {A} (key : A -> string) t t' (q : A -> bool) l : t' <> t -> rows_of key t (List.filter (fun r => negb (q r && String.eqb (key r) t')) l) = rows_of key t l.
Proof. intros Hne. apply filter_of_filter. intros x ->%String.eqb_eq. rewrite (proj2 (String.eqb_neq t t')) by congruence. by rewrite andb_false_r. Qed.

Section Told.
Context `{UrlParser}.

Definition same_for (t : string) (db db' : D1Database) : Prop :=
  rows_of w_tenant_id t (tenant_whitelist db') = rows_of w_tenant_id t (tenant_whitelist db) /\
  rows_of card_tenant_id t (portal_sites db') = rows_of card_tenant_id t (portal_sites db) /\
  rows_of bp_tenant_id t (broadcast_presets db') = rows_of bp_tenant_id t (broadcast_presets db) /\
  tenants db' = tenants db.

Lemma same_for_refl t db : same_for t db db.
Proof. done. Qed.

(** The allowlist is a function of the organization's own rows. *)
Lemma effective_same t db db' : same_for t db db' -> buildEffectiveWhitelist db' t = buildEffectiveWhitelist db t.
Proof.
  unfold same_for, rows_of. intros (Hw & Hc & Hp & Ht). unfold buildEffectiveWhitelist, listWhitelistDomains, listPortalSites, listBroadcastPresets, findTenantById. rewrite Ht, Hw, Hp.
  rewrite (filter_and (fun r => String.eqb (card_tenant_id r) t)), Hc. by rewrite <- filter_and.
Qed.

(** A route: any of them, whoever asks. *)
Inductive content_step (c : Content) : Content -> Prop :=
| card_posted session tenant now uuid title url category icon thumbnail : content_step c (fst (post_portal_site session tenant now uuid title url category icon thumbnail c))
| card_deleted session tenant id : content_step c (fst (delete_portal_site session tenant id c))
| preset_posted session tenant now uuid title url : content_step c (fst (post_broadcast_preset session tenant now uuid title url c))
| preset_deleted session tenant id : content_step c (fst (delete_broadcast_preset session tenant id c))
| whitelist_posted session tenant now uuid action domain : content_step c (fst (post_whitelist session tenant now uuid action domain c))
| blocklist_posted session now remove domain reason : content_step c (fst (post_link_blocklist session now remove domain reason c))
| card_judged session now tenantId takedown url reason : content_step c (fst (post_card_takedown session now tenantId takedown url reason c)).

(** What a route changes of the allowlists is of organizations it tells. *)
Definition tells (c c' : Content) : Prop := exists told, ct_told c' = ct_told c ++ told /\ forall t, t ∉ told -> same_for t (ct_db c) (ct_db c').

Lemma tells_refl c : tells c c.
Proof. exists []. split; [by rewrite app_nil_r|done]. Qed.

Lemma tells_permitted session tenant permission c run : (forall s t, tells c (fst (run s t))) -> tells c (fst (permitted session tenant permission c run)).
Proof. intros Hr. unfold permitted. destruct (requireTenantPermission _ _ _ _); [apply tells_refl|]. destruct session, tenant; first [apply Hr|apply tells_refl]. Qed.

Lemma tells_one c t entry f : (forall t', t' <> t -> same_for t' (ct_db c) (f (ct_db c))) -> tells c (notifyConfigChanged t (audited entry (on_content f c))).
Proof. intros Hf. exists [t]. split; [done|]. intros t' Hn. apply Hf. intros ->. apply Hn. constructor. Qed.

Lemma same_insert_whitelist row db t : t <> w_tenant_id row -> same_for t db (insert_whitelist row db).
Proof. intros Hne. unfold same_for, insert_whitelist. cbn. split_and!; try done. destruct (existsb _ _); [done|]. by apply rows_of_snoc. Qed.

Lemma tells_takedown c target cardUrl td t : t <> target -> same_for t (ct_db c) (fst (setPortalSiteTakedown (ct_db c) target cardUrl td)).
Proof.
  intros Hne. unfold same_for, setPortalSiteTakedown. cbn. split_and!; try done. apply filter_of_map.
  - intros r. destruct (takedown_hit _ _ _ _); [|done]. by destruct td as [[at_ reason]|].
  - intros r Hr%String.eqb_eq. assert (E : String.eqb (card_tenant_id r) target = false) by (apply String.eqb_neq; congruence). unfold takedown_hit, taken_down. rewrite E. by destruct td as [[at_ reason]|].
Qed.

Lemma content_tells c c' : content_step c c' -> tells c c'.
Proof.
  intros [session tenant now uuid title url category icon thumbnail|session tenant id|session tenant now uuid title url|session tenant id|session tenant now uuid action domain|session now remove domain reason|session now tenantId takedown url reason].
  - apply tells_permitted. intros s t. cbv zeta. destruct (String.eqb (str_take 120 (trim title)) ""); [apply tells_refl|]. destruct (safeHttpUrl url) as [u|]; [|apply tells_refl]. destruct (_ && _); [apply tells_refl|].
    destruct (match hostedLinkProblem u _ with Some p => Some p | None => _ end); [apply tells_refl|]. destruct (findTakenDownPortalSite _ _ _); [apply tells_refl|]. unfold createPortalSite. destruct (parseURL u); [|apply tells_refl].
    cbn [fst]. apply tells_one. intros t' Hne. unfold same_for. cbn. split_and!; try done. apply rows_of_snoc. cbn. congruence.
  - apply tells_permitted. intros s t. apply tells_one. intros t' Hne. unfold same_for. cbn. split_and!; try done. by apply rows_of_delete.
  - apply tells_permitted. intros s t. cbv zeta. destruct (_ || _); [apply tells_refl|]. destruct (safeHttpUrl _) as [u|]; [|apply tells_refl]. apply tells_one. intros t' Hne. unfold same_for. cbn. split_and!; try done. apply rows_of_snoc. cbn. congruence.
  - apply tells_permitted. intros s t. destruct (String.eqb id ""); [apply tells_refl|]. apply tells_one. intros t' Hne. unfold same_for. cbn. split_and!; try done. by apply rows_of_delete.
  - apply tells_permitted. intros s t. destruct (String.eqb action "add").
    + cbv zeta. destruct (_ || _); [apply tells_refl|]. unfold addWhitelistDomain. destruct (_ || _); [apply tells_refl|]. apply tells_one. intros t' Hne. by apply same_insert_whitelist.
    + destruct (String.eqb action "remove"); [|apply tells_refl]. apply tells_one. intros t' Hne. unfold same_for. cbn. split_and!; try done. unfold rows_of. apply filter_of_filter. intros r ->%String.eqb_eq. by rewrite (proj2 (String.eqb_neq t' (t_id t)) Hne).
  - unfold post_link_blocklist. destruct (requireSuperAdmin session); [apply tells_refl|]. destruct session as [s|]; [|apply tells_refl]. destruct (negb _); [apply tells_refl|].
    destruct remove; cbn [removeBlockedDomain].
    + destruct (negb _); [apply tells_refl|]. exists []. split; [by rewrite app_nil_r|done].
    + unfold addBlockedDomain. destruct (negb _); [apply tells_refl|]. exists []. split; [by rewrite app_nil_r|done].
  - unfold post_card_takedown. destruct (requireSuperAdmin session); [apply tells_refl|]. destruct session as [s|]; [|apply tells_refl]. destruct (findTenantById _ _) as [target|]; [|apply tells_refl].
    destruct (_ && _); [apply tells_refl|]. destruct (safeHttpUrl url) as [u|]; [|apply tells_refl]. set (td := if takedown then _ else _). pose proof (tells_takedown c (t_id target) u td) as Ht.
    destruct (setPortalSiteTakedown (ct_db c) (t_id target) u td) as [db changed]. cbn [fst] in Ht. destruct (changed =? 0); [apply tells_refl|]. unfold createNotification. destruct (_ || _); exists [t_id target]; (split; [done|]); intros t Hn; apply Ht; intros ->; apply Hn; constructor.
Qed.

(** Every change of an allowlist is passed on. Whatever a route does to the
    allowlist, the cards, the shortcuts, the blocklist or a card taken down,
    and whoever asks, an organization whose allowlist comes out different is
    one whose hub is told of it in the same request. *)
Theorem allowlist_changes_are_told c c' t : content_step c c' ->
  exists told, ct_told c' = ct_told c ++ told /\ (buildEffectiveWhitelist (ct_db c') t <> buildEffectiveWhitelist (ct_db c) t -> t ∈ told).
Proof.
  intros (told & E & Hs)%content_tells. exists told. split; [done|]. intros Hne. destruct (decide (t ∈ told)) as [|Hn]; [done|]. destruct Hne. by apply effective_same, Hs.
Qed.
End Told.

(** ** Cards *)

Section Cards.
Context `{UrlParser}.

(** Any sequence of these routes, with other writes that leave the cards alone in between. *)
Inductive content_run : Content -> Prop :=
| content_start c : portal_sites (ct_db c) = [] -> content_run c
| content_next c c' : content_run c -> content_step c c' -> content_run c'
| content_other c c' : content_run c -> portal_sites (ct_db c') = portal_sites (ct_db c) -> content_run c'.

(** A link that passed the checks, against the blocklist of the time. *)
Definition checked (url : string) : Prop := (exists raw, safeHttpUrl raw = Some url) /\ exists blocked, hostedLinkProblem url blocked = None.

Record card_ok (r : PortalSite) : Prop := {
  ck_title : (1 <= String.length (card_title r) <= 120)%nat;
  ck_url : checked (card_url r);
  ck_thumbnail u : card_thumbnail_url r = Some u -> checked u;
  ck_domain : exists p, parseURL (card_url r) = Some p /\ card_domain r = strip_www (url_hostname p);
  ck_state : (card_is_active r = 1 /\ card_takedown_at r = None) \/ (card_is_active r = 0 /\ is_Some (card_takedown_at r) /\ is_Some (card_takedown_reason r))
}.

(** The cards of an organization with one link are all shown or all taken down. *)
Definition together (l : list PortalSite) : Prop :=
  forall a b, a ∈ l -> b ∈ l -> card_tenant_id a = card_tenant_id b -> card_url a = card_url b -> card_is_active a = card_is_active b.

Definition cards_ok (l : list PortalSite) : Prop := (forall r, r ∈ l -> card_ok r) /\ together l.

Lemma cards_sub l l' : (forall r, r ∈ l' -> r ∈ l) -> cards_ok l -> cards_ok l'.
Proof. intros Hs [Ho Ht]. split; [auto|]. intros a b Ha Hb. apply Ht; auto. Qed.

Lemma cards_add l r : card_ok r -> card_is_active r = 1 -> js_find (taken_down (card_tenant_id r) (card_url r)) l = None -> cards_ok l -> cards_ok (l ++ [r]).
Proof.
  intros Hr Hact Hf [Ho Ht]. assert (Hnew : forall x, x ∈ l -> card_tenant_id x = card_tenant_id r -> card_url x = card_url r -> card_is_active x = 1).
  { intros x Hx Et Eu. destruct (ck_state x (Ho x Hx)) as [[? _]|(_ & Htd & _)]; [done|]. destruct (js_find_is_Some (taken_down (card_tenant_id r) (card_url r)) l x Hx) as [y E]; [|congruence].
    unfold taken_down. rewrite Et, Eu, !String.eqb_refl. by apply bool_decide_eq_true. }
  split.
  - intros x [Hx|Hx]%elem_of_app; [by apply Ho|]. by apply list_elem_of_singleton in Hx as ->.
  - intros a b [Ha|Ha]%elem_of_app [Hb|Hb]%elem_of_app Et Eu; [by apply Ht|apply list_elem_of_singleton in Hb as ->|apply list_elem_of_singleton in Ha as ->|apply list_elem_of_singleton in Ha, Hb; congruence].
    + rewrite Hact. by apply Hnew.
    + rewrite Hact. symmetry. by apply Hnew.
Qed.

Lemma takedown_hit_iff td tenant url r : card_ok r ->
  takedown_hit td tenant url r = true <-> card_tenant_id r = tenant /\ card_url r = url /\ card_is_active r = (match td with Some _ => 1 | None => 0 end).
Proof.
  intros Hr. unfold takedown_hit, taken_down. destruct (ck_state r Hr) as [[Ea Et]|(Ea & Et & _)]; rewrite Ea; destruct td;
    rewrite !andb_true_iff, !String.eqb_eq, ?bool_decide_eq_true, ?Z.eqb_eq; try rewrite Et; split; intros Hx; destruct_and? Hx; split_and?; try done.
Qed.

Lemma takedown_write_same td r : card_tenant_id (takedown_write td r) = card_tenant_id r /\ card_url (takedown_write td r) = card_url r /\
  card_is_active (takedown_write td r) = match td with Some _ => 0 | None => 1 end.
Proof. by destruct td as [[? ?]|]. Qed.

Lemma cards_takedown db tenant url td : cards_ok (portal_sites db) -> cards_ok (portal_sites (fst (setPortalSiteTakedown db tenant url td))).
Proof.
  intros [Ho Ht]. cbn [fst setPortalSiteTakedown portal_sites on_portal_sites]. set (hit := takedown_hit td tenant url).
  assert (Hhit : forall a b, a ∈ portal_sites db -> b ∈ portal_sites db -> card_tenant_id a = card_tenant_id b -> card_url a = card_url b -> hit a = hit b).
  { intros a b Ha Hb Et Eu. apply eq_true_iff_eq. unfold hit. rewrite !takedown_hit_iff by auto. by rewrite Et, Eu, (Ht a b). }
  assert (Hid : forall r, card_tenant_id (if hit r then takedown_write td r else r) = card_tenant_id r /\ card_url (if hit r then takedown_write td r else r) = card_url r).
  { intros r. destruct (takedown_write_same td r) as (? & ? & _). by destruct (hit r). }
  split.
  - intros x (r & -> & Hr)%list_elem_of_fmap. destruct (Ho r Hr) as [k1 k2 k3 k4 k5]. destruct (hit r); [|done]. destruct td as [[at_ reason]|]; split; cbn; try done; [right; split_and!; by try eexists|by left].
  - intros x y (a & -> & Ha)%list_elem_of_fmap (b & -> & Hb)%list_elem_of_fmap Et Eu. destruct (Hid a) as [Ea1 Ea2], (Hid b) as [Eb1 Eb2]. rewrite Ea1, Eb1 in Et. rewrite Ea2, Eb2 in Eu.
    rewrite (Hhit a b) by done. destruct (hit b); [|by apply Ht]. destruct (takedown_write_same td a) as (_ & _ & ->), (takedown_write_same td b) as (_ & _ & ->). done.
Qed.

Lemma permitted_cards session tenant permission c run : cards_ok (portal_sites (ct_db c)) -> (forall s t, cards_ok (portal_sites (ct_db (fst (run s t))))) ->
  cards_ok (portal_sites (ct_db (fst (permitted session tenant permission c run)))).
Proof. intros Hc Hr. unfold permitted. destruct (requireTenantPermission _ _ _ _); [done|]. destruct session, tenant; first [apply Hr|done]. Qed.

Lemma post_card_ok session tenant now uuid title url category icon thumbnail c : cards_ok (portal_sites (ct_db c)) ->
  cards_ok (portal_sites (ct_db (fst (post_portal_site session tenant now uuid title url category icon thumbnail c)))).
Proof.
  intros Hc. apply permitted_cards; [done|]. intros s t. cbv zeta. set (name := str_take 120 (trim title)). destruct (String.eqb_spec name "") as [|Hname]; [done|]. destruct (safeHttpUrl url) as [u|] eqn:Eu; [|done].
  set (th := if String.eqb thumbnail "" then None else safeHttpUrl thumbnail). destruct (_ && _); [done|]. set (blocked := List.map bl_domain _).
  destruct (hostedLinkProblem u blocked) eqn:El; [done|]. destruct (th ≫= fun x => hostedLinkProblem x blocked) eqn:Eth; [done|]. destruct (findTakenDownPortalSite _ _ _) eqn:Ef; [done|].
  unfold createPortalSite. destruct (parseURL u) as [p|] eqn:Ep; [|done]. cbn [fst ct_db notifyConfigChanged audited on_content portal_sites on_portal_sites]. apply cards_add; [|done|done|done]. split; cbn.
  - assert (Hlen : (String.length name <= 120)%nat) by (unfold name; rewrite str_take_length; apply Nat.le_min_l). change (1 <= String.length name <= 120)%nat. clearbody name. destruct name; [done|]. cbn in *. lia.
  - split; [by exists url|by exists blocked].
  - intros v. destruct th as [w|] eqn:Ew; [|done]. cbn in *. unfold nonempty. destruct (String.eqb w ""); [done|]. intros [= <-]. unfold th in Ew. destruct (String.eqb thumbnail ""); [done|]. split; [by exists thumbnail|by exists blocked].
  - by exists p.
  - by left.
Qed.

Lemma step_cards c c' : content_step c c' -> cards_ok (portal_sites (ct_db c)) -> cards_ok (portal_sites (ct_db c')).
Proof.
  intros Hs Hc. destruct Hs as [session tenant now uuid title url category icon thumbnail|session tenant id|session tenant now uuid title url|session tenant id|session tenant now uuid action domain|session now remove domain reason|session now tenantId takedown url reason].
  - by apply post_card_ok.
  - apply permitted_cards; [done|]. intros s t. cbn. eapply cards_sub, Hc. intros r Hr. apply list_elem_of_In, List.filter_In in Hr as [Hr _]. by apply list_elem_of_In.
  - apply permitted_cards; [done|]. intros s t. cbv zeta. destruct (_ || _); [done|]. by destruct (safeHttpUrl _).
  - apply permitted_cards; [done|]. intros s t. by destruct (String.eqb id "").
  - apply permitted_cards; [done|]. intros s t. cbv zeta. destruct (String.eqb action "add"); [destruct (_ || _); [done|]; unfold addWhitelistDomain; by destruct (_ || _)|by destruct (String.eqb action "remove")].
  - unfold post_link_blocklist. destruct (requireSuperAdmin session); [done|]. destruct session; [|done]. destruct (negb _); [done|]. destruct remove; cbn [removeBlockedDomain]; [by destruct (negb _)|]. unfold addBlockedDomain. by destruct (negb _).
  - unfold post_card_takedown. destruct (requireSuperAdmin session); [done|]. destruct session as [s|]; [|done]. destruct (findTenantById _ _) as [target|]; [|done]. destruct (_ && _); [done|]. destruct (safeHttpUrl url) as [u|]; [|done].
    set (td := if takedown then _ else _). pose proof (cards_takedown (ct_db c) (t_id target) u td Hc) as Ht. destruct (setPortalSiteTakedown (ct_db c) (t_id target) u td) as [db changed]. cbn [fst] in Ht.
    destruct (changed =? 0); [done|]. unfold createNotification. by destruct (_ || _).
Qed.

(** The cards of the portals are what the rules allow. Whatever the
    organizations and the platform do, in any order, every card has a title of
    at most 120 characters and links, as does its picture, to an address that
    passed the checks when it was added; it opens the host it is listed under;
    and the cards of an organization with one link are either all shown or all
    taken down, each with its time and reason. So no card with a link that was
    taken down is shown while one is. *)
Theorem portal_cards_allowed c : content_run c -> cards_ok (portal_sites (ct_db c)).
Proof.
  induction 1 as [c Hc|c c' _ IH Hs|c c' _ IH E]; [rewrite Hc; split; [|intros ? ? Hin]; by intros ? ?%elem_of_nil || by apply elem_of_nil in Hin|by apply (step_cards c)|by rewrite E].
Qed.
End Cards.

(** ** Runs *)

#[local] Existing Instance toy_url.

Definition greenwood_org : Tenant := mkTenant "t1" "u1" "Greenwood" "greenwood" None active portal "" None None 0 None 0 0 stable 0 0 0 0 30 None None None 0.
Definition owner_session : Session := mkSession "k" "u1" (Some "t1"%string) org_admin 1000000.
Definition platform_session : Session := mkSession "p" "root" None super_admin 1000000.
Definition demo_content : Content := mkContent (on_tenants (fun _ => [greenwood_org]) empty_db) [] [].

Definition demo_add (uuid : string) (c : Content) : Content := fst (post_portal_site (Some owner_session) (Some greenwood_org) 100 uuid "Maths" "https://maths.example/a" "" "" "" c).
Definition demo_takedown (c : Content) : Content := fst (post_card_takedown (Some platform_session) 200 "t1" true "https://maths.example/a" "Reported" c).

Lemma allowlist_changes_are_told_witness :
  let c' := demo_add "c1" demo_content in
  buildEffectiveWhitelist (ct_db c') "t1" = ["maths.example"%string] /\
  exists told, ct_told c' = ct_told demo_content ++ told /\ (buildEffectiveWhitelist (ct_db c') "t1" <> buildEffectiveWhitelist (ct_db demo_content) "t1" -> "t1"%string ∈ told).
Proof. intros c'. split; [vm_compute; reflexivity|]. apply (allowlist_changes_are_told demo_content c' "t1"). apply card_posted. Defined.

Lemma portal_cards_allowed_witness :
  let c := demo_takedown (demo_add "c1" demo_content) in
  List.map card_is_active (portal_sites (ct_db c)) = [0] /\ buildEffectiveWhitelist (ct_db c) "t1" = [] /\ cards_ok (portal_sites (ct_db c)).
Proof.
  intros c. split; [vm_compute; reflexivity|]. split; [vm_compute; reflexivity|]. apply (portal_cards_allowed c). eapply content_next; [eapply content_next; [apply (content_start demo_content); reflexivity|apply card_posted]|apply card_judged].
Defined.

(** A card taken down cannot be added again, but it can be deleted by its
    organization, and added again then. *)
Example takedown_evaded :
  let down := demo_takedown (demo_add "c1" demo_content) in
  let gone := fst (delete_portal_site (Some owner_session) (Some greenwood_org) "c1" down) in
  snd (post_portal_site (Some owner_session) (Some greenwood_org) 300 "c2" "Maths" "https://maths.example/a" "" "" "" down) = Some TAKEN_DOWN /\
  List.map card_is_active (portal_sites (ct_db (demo_add "c2" gone))) = [1] /\ buildEffectiveWhitelist (ct_db (demo_add "c2" gone)) "t1" = ["maths.example"%string].
Proof. vm_compute. split_and!; reflexivity. Qed.
