(* ===== verification/Usage.v ===== *)
(** src/cloudflare-control/src/usage.ts: the counts a workstation reports, the
    counters they are added to, the pages that read them back, how long they
    are kept, and the platform's totals; with the routes of index.ts that reach
    them. Days are the text of a date (Calendar.v); times are in milliseconds. *)
From S2P Require Import Prelude JsString Regex Platform Db Escape Allowlist Guard Plans Content Calendar.

Definition USAGE_RETENTION_DAYS : Z := 400.
Definition USAGE_REPORT_MAX_AGE_DAYS : Z := 7.
Definition PLATFORM_ROLLUP_DAYS : Z := USAGE_REPORT_MAX_AGE_DAYS + 1.
Definition PLATFORM_SITE_MIN_ORGANIZATIONS : Z := 3.
Definition MAX_DAY_SECONDS : Z := 25 * 3600 + 600.
Definition MAX_DAYS_PER_REPORT : Z := USAGE_REPORT_MAX_AGE_DAYS + 2.
Definition MAX_SITES_PER_DAY : Z := 100.
Definition MAX_REPORT_DAYS : Z := 366.

Definition DAY_PATTERN : re := RCat (RRep 4 RDigit) (RCat (RChar "-") (RCat (RRep 2 RDigit) (RCat (RChar "-") (RRep 2 RDigit)))).
Definition HOSTNAME_BODY : re :=
  RCat (RPlus (RCat RLabel (RChar "."))) (RCat (RClass is_lower) (RCat (RUpto 61 (RClass is_slug_char)) (RClass (fun c => is_lower c || is_digit c)))).
Definition HOSTNAME_PATTERN (s : string) : bool := (1 <=? String.length s)%nat && (String.length s <=? 253)%nat && re_test HOSTNAME_BODY s.

Record UsageSite : Type := mkSiteUse { su_domain : string; su_seconds : Z; su_visits : Z }.
Record UsageDay : Type := mkDayUse { du_day : string; du_onSeconds : Z; du_activeSeconds : Z; du_sessions : Z; du_sites : list UsageSite }.

Definition whole (value : jsval) (field : string) (max : Z) : js_result Z :=
  match as_integer value with
  | Some z => if (z <? 0) || (max <? z) then Throws (field +:+ " must be a whole number from 0 to " +:+ string_of_int max) else Returns z
  | None => Throws (field +:+ " must be a whole number from 0 to " +:+ string_of_int max)
  end.

Definition utcDay (ms : Z) : string := date_text (civil (utc_day_number ms)).
Definition dayMs (day : string) : option Z := date_ms day.

(** ** A report *)

(** The moment of a day's text: none where it is no date. *)
Definition day_at (day : string) : option Z :=
  match (if re_test DAY_PATTERN day then dayMs day else None) with
  | Some at_ => if String.eqb (utcDay at_) day then Some at_ else None
  | None => None
  end.

(** [sites.set(domain, ...)]: a site met before keeps its place. *)
Definition site_add (activeSeconds : Z) (domain : string) (seconds visits : Z) : list UsageSite -> list UsageSite :=
  upsert (fun s => String.eqb (su_domain s) domain)
    (fun s => mkSiteUse domain (Z.min activeSeconds (su_seconds s + seconds)) (su_visits s + visits)) (mkSiteUse domain seconds visits).

Definition parse_site (where_ : string) (activeSeconds : Z) (site : jsval) (sites : list UsageSite) : js_result (list UsageSite) :=
  if negb (is_plain_object site) then Throws (where_ +:+ " must be an object")
  else
    match js_get site "domain" with
    | JsStr text =>
        reported ← whole (js_get site "seconds") (where_ +:+ ".seconds") MAX_DAY_SECONDS;
        visits ← whole (js_get site "visits") (where_ +:+ ".visits") 100000;
        let domain := strip_last_dot (toLowerCase text) in
        Returns (if HOSTNAME_PATTERN domain then site_add activeSeconds domain (Z.min activeSeconds reported) visits sites else sites)
    | _ => Throws (where_ +:+ ".domain must be text")
    end.

Fixpoint parse_sites (day : string) (index : nat) (activeSeconds : Z) (l : list jsval) (sites : list UsageSite) : js_result (list UsageSite) :=
  match l with
  | [] => Returns sites
  | site :: rest =>
      sites' ← parse_site (day +:+ ".sites[" +:+ string_of_int (Z.of_nat index) +:+ "]") activeSeconds site sites;
      parse_sites day (S index) activeSeconds rest sites'
  end.

Definition parse_day (earliest latest : Z) (seen : list string) (index : nat) (entry : jsval) : js_result UsageDay :=
  let where_ := "days[" +:+ string_of_int (Z.of_nat index) +:+ "]" in
  if negb (is_plain_object entry) then Throws (where_ +:+ " must be an object")
  else
    let day := default ""%string (as_string (js_get entry "day")) in
    match day_at day with
    | None => Throws (where_ +:+ ".day is not a YYYY-MM-DD date")
    | Some at_ =>
        _ ← throw_if ((at_ <? earliest) || (latest <? at_)) (where_ +:+ ".day is outside the days a report may cover");
        _ ← throw_if (bool_decide (day ∈ seen)) (where_ +:+ ".day is listed twice");
        onSeconds ← whole (js_get entry "onSeconds") (where_ +:+ ".onSeconds") MAX_DAY_SECONDS;
        reported ← whole (js_get entry "activeSeconds") (where_ +:+ ".activeSeconds") MAX_DAY_SECONDS;
        let activeSeconds := Z.min onSeconds reported in
        sessions ← whole (js_get entry "sessions") (where_ +:+ ".sessions") 100000;
        let rawSites := js_get entry "sites" in
        match (if is_nullish rawSites then JsArr [] else rawSites) with
        | JsArr l =>
            _ ← throw_if (MAX_SITES_PER_DAY <? Z.of_nat (length l)) (where_ +:+ ".sites must list at most 100 sites");
            sites ← parse_sites where_ 0 activeSeconds l [];
            Returns (mkDayUse day onSeconds activeSeconds sessions sites)
        | _ => Throws (where_ +:+ ".sites must list at most 100 sites")
        end
    end.

Fixpoint parse_days (earliest latest : Z) (seen : list string) (index : nat) (l : list jsval) : js_result (list UsageDay) :=
  match l with
  | [] => Returns []
  | entry :: rest =>
      d ← parse_day earliest latest seen index entry;
      ds ← parse_days earliest latest (seen ++ [du_day d]) (S index) rest;
      Returns (d :: ds)
  end.

(** Midnight of the day of [now], which [dayMs(utcDay(now))] is. *)
Definition midnight (now : Z) : Z := default 0 (dayMs (utcDay now)).

Definition parseUsageReport (input : jsval) (now : Z) : js_result (list UsageDay) :=
  if negb (is_plain_object input) then Throws "The usage report must be a JSON object"
  else
    match js_get input "days" with
    | JsArr days =>
        _ ← throw_if ((Z.of_nat (length days) =? 0) || (MAX_DAYS_PER_REPORT <? Z.of_nat (length days))) "days must list 1 to 9 days";
        parse_days (midnight now - (USAGE_REPORT_MAX_AGE_DAYS + 1) * MS_PER_DAY) (midnight now + MS_PER_DAY) [] 0 days
    | _ => Throws "days must list 1 to 9 days"
    end.

(** ** The counters *)

Definition daily_key (tenantId clientId day : string) (r : UsageDailyRow) : bool :=
  String.eqb (ud_tenant_id r) tenantId && String.eqb (ud_client_id r) clientId && String.eqb (ud_day r) day.
Definition site_key (tenantId day domain : string) (r : UsageSiteRow) : bool :=
  String.eqb (us_tenant_id r) tenantId && String.eqb (us_day r) day && String.eqb (us_domain r) domain.

Definition add_daily (d : UsageDay) (r : UsageDailyRow) : UsageDailyRow :=
  mkUsageDaily (ud_tenant_id r) (ud_client_id r) (ud_day r) (Z.min MAX_DAY_SECONDS (ud_on_seconds r + du_onSeconds d))
    (Z.min MAX_DAY_SECONDS (ud_active_seconds r + du_activeSeconds d)) (ud_sessions r + du_sessions d).
Definition record_daily (tenantId clientId : string) (d : UsageDay) : list UsageDailyRow -> list UsageDailyRow :=
  upsert (daily_key tenantId clientId (du_day d)) (add_daily d) (mkUsageDaily tenantId clientId (du_day d) (du_onSeconds d) (du_activeSeconds d) (du_sessions d)).

Definition add_site (s : UsageSite) (r : UsageSiteRow) : UsageSiteRow :=
  mkUsageSite (us_tenant_id r) (us_day r) (us_domain r) (us_active_seconds r + su_seconds s) (us_visits r + su_visits s).
Definition record_site (tenantId day : string) (rows : list UsageSiteRow) (s : UsageSite) : list UsageSiteRow :=
  if (su_seconds s =? 0) && (su_visits s =? 0) then rows
  else upsert (site_key tenantId day (su_domain s)) (add_site s) (mkUsageSite tenantId day (su_domain s) (su_seconds s) (su_visits s)) rows.

Definition record_day (tenantId clientId : string) (recordSites : bool) (db : D1Database) (d : UsageDay) : D1Database :=
  let db := on_usage_daily (record_daily tenantId clientId d) db in
  if recordSites then on_usage_sites (fun rows => foldl (record_site tenantId (du_day d)) rows (du_sites d)) db else db.

(** One batch. *)
Definition recordUsage (db : D1Database) (tenantId clientId : string) (days : list UsageDay) (recordSites : bool) : D1Database :=
  foldl (record_day tenantId clientId recordSites) db days.

(** POST /api/devices/usage; a body that is no JSON throws. *)
Definition handleUsageReport `{WebCrypto} (request : Request) (body : js_result jsval) (now : Z) (cache : list (string * CacheEntry)) (db : D1Database)
    : list (string * CacheEntry) * D1Database * option Refusal :=
  let '(cache, db, auth) := requireDevice request db now cache in
  match auth with
  | inr refused => (cache, db, Some refused)
  | inl device =>
      match (input ← body; parseUsageReport input now) with
      | Throws e => (cache, db, Some (mkRefusal ("Usage report refused: " +:+ (if String.eqb e "" then "unreadable" else e)) 400))
      | Returns days =>
          match findTenantById db (dt_tenant_id device) with
          | None => (cache, db, Some (mkRefusal "This organization no longer exists" 401))
          | Some tenant => (cache, recordUsage db (t_id tenant) (dt_client_id device) days (negb (t_usage_sites tenant =? 0)), None)
          end
      end
  end.

(** ** Reading them back *)

Record Period : Type := mkPeriod { from_day : string; to_day : string }.

Definition reportPeriod (days now : Z) : Period :=
  let to_ := utcDay (now + MS_PER_DAY) in
  mkPeriod (utcDay (default 0 (dayMs to_) - days * MS_PER_DAY)) to_.

Definition between (p : Period) (day : string) : bool := negb (str_ltb day (from_day p)) && negb (str_ltb (to_day p) day).

Fixpoint total {A} (f : A -> Z) (l : list A) : Z := match l with [] => 0 | x :: l' => f x + total f l' end.

(** [GROUP BY]: the rows of each key. *)
Definition group_rows {A} (key : A -> string) (l : list A) : list (string * list A) :=
  List.map (fun k => (k, List.filter (fun x => String.eqb (key x) k) l)) (remove_dups (List.map key l)).

(** [COUNT(DISTINCT ...)]. *)
Definition count_distinct {A} (f : A -> string) (l : list A) : Z := Z.of_nat (length (remove_dups (List.map f l))).

Definition max_text (l : list string) : string := foldr (fun a b => if str_ltb a b then b else a) ""%string l.

(** Highest first, then by name. *)
Definition by_count {A} (count : A -> Z) (name : A -> string) (a b : A) : Z := if count a =? count b then by_code (name a) (name b) else count b - count a.

Record DaySummary : Type := mkDaySummary { ds_day : string; ds_workstations : Z; ds_onSeconds : Z; ds_activeSeconds : Z; ds_sessions : Z }.
Record WorkstationSummary : Type :=
  mkWorkstationSummary { ws_clientId : string; ws_groupName : option string; ws_daysOn : Z; ws_onSeconds : Z; ws_activeSeconds : Z; ws_sessions : Z; ws_lastDay : string }.
Record SiteSummary : Type := mkSiteSummary { ss_domain : string; ss_activeSeconds : Z; ss_visits : Z }.
Record UsageSummary : Type := mkUsageSummary { um_period : Period; um_days : list DaySummary; um_workstations : list WorkstationSummary; um_sites : list SiteSummary; um_recordSites : bool }.

Definition usageSummary (db : D1Database) (tenantId : string) (period : Period) (recordSites : bool) : UsageSummary :=
  let rows := List.filter (fun r => String.eqb (ud_tenant_id r) tenantId && between period (ud_day r)) (usage_daily db) in
  let sites := List.filter (fun r => String.eqb (us_tenant_id r) tenantId && between period (us_day r)) (usage_sites db) in
  let group_of clientId := js_find (fun d => String.eqb (cd_tenant_id d) tenantId && String.eqb (cd_client_id d) clientId) (client_devices db) ≫= cd_group_name in
  mkUsageSummary period
    (js_sort (fun a b => by_code (ds_day a) (ds_day b))
       (List.map (fun '(day, l) => mkDaySummary day (Z.of_nat (length l)) (total ud_on_seconds l) (total ud_active_seconds l) (total ud_sessions l)) (group_rows ud_day rows)))
    (take 500 (js_sort (by_count ws_activeSeconds ws_clientId)
       (List.map (fun '(clientId, l) => mkWorkstationSummary clientId (group_of clientId) (Z.of_nat (length l)) (total ud_on_seconds l) (total ud_active_seconds l) (total ud_sessions l)
                    (max_text (List.map ud_day l))) (group_rows ud_client_id rows))))
    (take 100 (js_sort (fun a b => if ss_activeSeconds a =? ss_activeSeconds b then by_count ss_visits ss_domain a b else ss_activeSeconds b - ss_activeSeconds a)
       (List.map (fun '(domain, l) => mkSiteSummary domain (total us_active_seconds l) (total us_visits l)) (group_rows us_domain sites))))
    recordSites.

Definition deleteUsageSites (db : D1Database) (tenantId : string) : D1Database * Z :=
  let gone r := String.eqb (us_tenant_id r) tenantId in
  (on_usage_sites (List.filter (fun r => negb (gone r))) db, Z.of_nat (length (List.filter gone (usage_sites db)))).

Definition purgeOldUsage (db : D1Database) (now : Z) : D1Database * Z :=
  let cutoff := utcDay (now - USAGE_RETENTION_DAYS * MS_PER_DAY) in
  (on_usage_sites (List.filter (fun r => negb (str_ltb (us_day r) cutoff))) (on_usage_daily (List.filter (fun r => negb (str_ltb (ud_day r) cutoff))) db),
   Z.of_nat (length (List.filter (fun r => str_ltb (ud_day r) cutoff) (usage_daily db))) + Z.of_nat (length (List.filter (fun r => str_ltb (us_day r) cutoff) (usage_sites db)))).

(** ** The platform's totals *)

Definition notDemo (db : D1Database) (tenantId : string) : bool :=
  negb (existsb (fun t => String.eqb (t_id t) tenantId && bool_decide (t_subdomain t ∈ DEMO_SLUGS)) (tenants db)).

Definition platform_day (computedAt : Z) (e : string * list UsageDailyRow) : PlatformDayRow :=
  mkPlatformDay (fst e) (count_distinct ud_tenant_id (snd e)) (Z.of_nat (length (snd e))) (total ud_on_seconds (snd e)) (total ud_active_seconds (snd e)) (total ud_sessions (snd e)) computedAt.

Definition platform_site (day : string) (e : string * list UsageSiteRow) : PlatformSiteRow :=
  mkPlatformSite day (fst e) (count_distinct us_tenant_id (snd e)) (total us_active_seconds (snd e)) (total us_visits (snd e)).

Definition platform_sites (rows : list UsageSiteRow) : list PlatformSiteRow :=
  List.filter (fun r => PLATFORM_SITE_MIN_ORGANIZATIONS <=? pu_organizations r)
    (List.concat (List.map (fun '(day, l) => List.map (platform_site day) (group_rows us_domain l)) (group_rows us_day rows))).

(** One batch. *)
Definition rollUpPlatformUsage (db : D1Database) (now : Z) : D1Database :=
  let from := utcDay (now - PLATFORM_ROLLUP_DAYS * MS_PER_DAY) in
  let daily := List.filter (fun r => negb (str_ltb (ud_day r) from) && notDemo db (ud_tenant_id r)) (usage_daily db) in
  let sites := List.filter (fun r => negb (str_ltb (us_day r) from) && notDemo db (us_tenant_id r)) (usage_sites db) in
  on_platform_usage_sites (fun rows => List.filter (fun r => str_ltb (pu_day r) from) rows ++ platform_sites sites)
    (on_platform_usage_daily (fun rows => List.filter (fun r => str_ltb (pd_day r) from) rows ++ List.map (platform_day (now `div` 1000)) (group_rows ud_day daily)) db).

Record PlatformDay : Type := mkPlatformDayTotal { pf_day : string; pf_organizations : Z; pf_workstations : Z; pf_onSeconds : Z; pf_activeSeconds : Z; pf_sessions : Z }.
Record PlatformSite : Type := mkPlatformSiteTotal { pt_domain : string; pt_organizations : Z; pt_activeSeconds : Z; pt_visits : Z }.
Record PlatformUsage : Type := mkPlatformUsage { pf_period : Period; pf_days : list PlatformDay; pf_sites : list PlatformSite }.

Definition platformUsage (db : D1Database) (period : Period) : PlatformUsage :=
  mkPlatformUsage period
    (List.map (fun r => mkPlatformDayTotal (pd_day r) (pd_organizations r) (pd_workstations r) (pd_on_seconds r) (pd_active_seconds r) (pd_sessions r))
       (js_sort (fun a b => by_code (pd_day a) (pd_day b)) (List.filter (fun r => between period (pd_day r)) (platform_usage_daily db))))
    (take 50 (js_sort (by_count pt_activeSeconds pt_domain)
       (List.map (fun '(domain, l) => mkPlatformSiteTotal domain (foldr (fun r n => Z.max (pu_organizations r) n) 0 l) (total pu_active_seconds l) (total pu_visits l))
          (group_rows pu_domain (List.filter (fun r => between period (pu_day r)) (platform_usage_sites db)))))).

(** ** The routes of the Reports page *)

Definition set_usage_sites (on : bool) (now : Z) (t : Tenant) : Tenant :=
  mkTenant (t_id t) (t_user_id t) (t_name t) (t_subdomain t) (t_chosen_subdomain t) (t_status t) (t_mode t) (t_default_url t) (t_custom_domain t) (t_broadcast_url t)
    (t_broadcast_epoch t) (t_home_route t) (t_online_workstations t) (t_http_workstations t) (t_update_channel t) (t_lan_sharing t) (if on then 1 else 0)
    (t_printing_enabled t) (t_home_reset t) (t_workstation_limit t) (t_license_plan t) (t_license_expires_at t) (t_trial_started_at t) now.

Section Routes.
Context (session : option Session) (tenant : option Tenant).

(** POST /api/usage/settings; the body is [None] where it is no JSON. *)
Definition post_usage_settings (body : option jsval) (now : Z) (c : Content) : Content * option Refusal :=
  permitted session tenant "settings" c (fun s t =>
    match body with
    | None => (c, Some (mkRefusal "The request body must be JSON" 400))
    | Some input =>
        match js_get input "recordSites" with
        | JsBool on =>
            if Bool.eqb (negb (t_usage_sites t =? 0)) on then (c, None)
            else (notifyConfigChanged (t_id t) (audited (mkAudit (Some (t_id t)) (user_id s) "settings.usage_sites" (Some (if on then "on" else "off")%string))
                    (on_content (on_tenants (List.map (fun x => if String.eqb (t_id x) (t_id t) then set_usage_sites on now x else x))) c)), None)
        | _ => (c, Some (mkRefusal "recordSites is true or false" 400))
        end
    end).

(** POST /api/usage/sites/delete. *)
Definition post_delete_sites (c : Content) : Content * option Refusal :=
  permitted session tenant "settings" c (fun s t =>
    let '(db, deleted) := deleteUsageSites (ct_db c) (t_id t) in
    (audited (mkAudit (Some (t_id t)) (user_id s) "usage.delete_sites" (Some ("rows=" +:+ string_of_int deleted))) (on_content (fun _ => db) c), None)).

(** GET /api/usage?days=N, the number read; [None] where it is no whole number. *)
Definition get_usage (days : option Z) (now : Z) (c : Content) : UsageSummary + Refusal :=
  match requireTenantPermission (ct_db c) session tenant "settings", tenant, days with
  | Some denied, _, _ => inr denied
  | None, Some t, Some n =>
      if (n <? 1) || (MAX_REPORT_DAYS <? n) then inr (mkRefusal "days is a whole number from 1 to 366" 400)
      else inl (usageSummary (ct_db c) (t_id t) (reportPeriod n now) (negb (t_usage_sites t =? 0)))
  | None, _, _ => inr (mkRefusal "days is a whole number from 1 to 366" 400)
  end.
End Routes.

(** ** What a report may say *)

(** [now] is of the years 1 to 9998, so that every day a report may cover has a
    text of ten characters. *)
Definition dated (now : Z) : Prop := DayFromYear 1 <= utc_day_number now < DayFromYear 9999.

Lemma dated_near now k : dated now -> -366 < k < 366 -> text_day (utc_day_number now + k).
Proof.
  unfold dated, text_day. intros Hd Hk. change (DayFromYear 0) with (DayFromYear 1 - 366). change (DayFromYear 10000) with (DayFromYear 9999 + 365). lia.
Qed.

Lemma utc_day_shift now k : utc_day_number (now + k * MS_PER_DAY) = utc_day_number now + k.
Proof. unfold utc_day_number. by rewrite Z.div_add. Qed.

Lemma midnight_now now : dated now -> midnight now = utc_day_number now * MS_PER_DAY.
Proof.
  intros Hd. unfold midnight, dayMs, utcDay. rewrite date_ms_text; [done|]. pose proof (dated_near now 0 Hd ltac:(lia)) as H. by rewrite Z.add_0_r in H.
Qed.

(** A site of a report, and a day of one. *)
Definition site_ok (activeSeconds : Z) (s : UsageSite) : Prop := HOSTNAME_PATTERN (su_domain s) = true /\ 0 <= su_seconds s <= activeSeconds /\ 0 <= su_visits s.
Definition sites_ok (activeSeconds : Z) (l : list UsageSite) : Prop := NoDup (List.map su_domain l) /\ Forall (site_ok activeSeconds) l.
Definition day_ok (now : Z) (d : UsageDay) : Prop :=
  (exists n, du_day d = date_text (civil n) /\ utc_day_number now - 8 <= n <= utc_day_number now + 1) /\
  0 <= du_activeSeconds d <= du_onSeconds d /\ du_onSeconds d <= MAX_DAY_SECONDS /\ 0 <= du_sessions d <= 100000 /\
  Z.of_nat (length (du_sites d)) <= MAX_SITES_PER_DAY /\ sites_ok (du_activeSeconds d) (du_sites d).

Lemma whole_returns v field max z : whole v field max = Returns z -> 0 <= z <= max.
Proof. unfold whole. destruct (as_integer v) as [n|]; [|done]. destruct ((n <? 0) || (max <? n)) eqn:E; [done|]. intros [= <-]. lia. Qed.

Lemma parse_site_ok where_ active site l l' : parse_site where_ active site l = Returns l' -> 0 <= active -> sites_ok active l ->
  sites_ok active l' /\ (length l' <= S (length l))%nat.
Proof.
  unfold parse_site. destruct (negb _); [done|]. destruct (js_get site "domain") as [| | | | |text| |]; try done. intros H Ha [Hn Hf]. invert_returns. subst l'. apply whole_returns in E, E0.
  cbv zeta. set (domain := strip_last_dot (toLowerCase text)). destruct (HOSTNAME_PATTERN domain) eqn:Ed; [|split; [by split|lia]].
  split; [split|apply upsert_length].
  - unfold site_add. revert Hn. unfold upsert. destruct (existsb _ l) eqn:Ex.
    + rewrite List.map_map. erewrite List.map_ext; [done|]. intros s. cbn. destruct (String.eqb_spec (su_domain s) domain); by cbn.
    + intros Hn. rewrite List.map_app. apply list.NoDup_app. split_and!; [done| |apply NoDup_singleton]. intros k (s & -> & Hs)%list_elem_of_fmap Hk%list_elem_of_singleton.
      assert (existsb (fun s => String.eqb (su_domain s) domain) l = true) by (apply existsb_elem; exists s; split; [done|by apply String.eqb_eq]). congruence.
  - apply upsert_Forall; [|unfold site_ok; cbn; split_and!; [done|lia..]|done]. intros s Hs (? & ? & ?). unfold site_ok. cbn. split_and!; [done|lia..].
Qed.

Lemma parse_sites_ok where_ active raw : forall i l l', parse_sites where_ i active raw l = Returns l' -> 0 <= active -> sites_ok active l ->
  sites_ok active l' /\ (length l' <= length raw + length l)%nat.
Proof.
  induction raw as [|site raw IH]; intros i l l' H Ha Hl; cbn in H; [invert_returns; subst; split; [done|cbn; lia]|]. invert_returns. apply parse_site_ok in E as [Hs Hlen]; [|done..].
  apply IH in H as [? ?]; [|done..]. split; [done|cbn; lia].
Qed.

Lemma day_at_text day at_ : day_at day = Some at_ -> day = date_text (civil (at_ / MS_PER_DAY)) /\ at_ = at_ / MS_PER_DAY * MS_PER_DAY.
Proof.
  unfold day_at. destruct (if re_test DAY_PATTERN day then dayMs day else None) as [ms|] eqn:E; [|done]. destruct (re_test DAY_PATTERN day); [|done]. destruct (String.eqb_spec (utcDay ms) day) as [Hu|]; [|done].
  intros [= <-]. apply date_ms_whole in E. split; [done|]. pose proof (Z.div_mod ms MS_PER_DAY ltac:(done)). lia.
Qed.

Lemma parse_day_ok now seen i entry d : dated now ->
  parse_day (midnight now - (USAGE_REPORT_MAX_AGE_DAYS + 1) * MS_PER_DAY) (midnight now + MS_PER_DAY) seen i entry = Returns d -> day_ok now d /\ du_day d ∉ seen.
Proof.
  intros Hd. unfold parse_day. cbv zeta. destruct (negb _); [done|]. set (day := default ""%string _). destruct (day_at day) as [at_|] eqn:Ea; [|done]. apply day_at_text in Ea as [Hday Hat]. intros H. invert_returns.
  apply whole_returns in E1, E2, E3. rewrite midnight_now in E by done. destruct (if is_nullish _ then _ else _) as [| | | | | |l|] eqn:El; try done. invert_returns. subst d. apply Z.ltb_ge in E4.
  apply parse_sites_ok in E5 as [Hs Hlen]; [|lia|split; constructor]. cbn in Hlen. apply bool_decide_eq_false in E0. split; [|done]. unfold day_ok. cbn [du_day du_onSeconds du_activeSeconds du_sessions du_sites]. split_and!; try lia; try done.
  exists (at_ / MS_PER_DAY). split; [done|]. unfold USAGE_REPORT_MAX_AGE_DAYS, MS_PER_DAY in *. lia.
Qed.

Lemma parse_days_ok now raw : forall seen i ds, dated now ->
  parse_days (midnight now - (USAGE_REPORT_MAX_AGE_DAYS + 1) * MS_PER_DAY) (midnight now + MS_PER_DAY) seen i raw = Returns ds ->
  Forall (day_ok now) ds /\ NoDup (List.map du_day ds) /\ (forall x, x ∈ List.map du_day ds -> x ∉ seen) /\ length ds = length raw.
Proof.
  induction raw as [|entry raw IH]; intros seen i ds Hd H; cbn in H; [invert_returns; subst; split_and!; [constructor|constructor|by intros x ?%elem_of_nil|done]|]. invert_returns. subst ds.
  apply parse_day_ok in E as [Hok Hnew]; [|done]. apply IH in E0 as (Hf & Hn & Hx & Hl); [|done]. split_and!; [by constructor| | |cbn; lia].
  - cbn. constructor; [|done]. intros Hin. apply Hx in Hin. apply Hin. apply elem_of_app. right. by constructor.
  - intros x. cbn. intros [->|Hin]%elem_of_cons; [done|]. apply Hx in Hin. set_solver.
Qed.

Lemma parseUsageReport_ok input now ds : dated now -> parseUsageReport input now = Returns ds ->
  1 <= Z.of_nat (length ds) <= MAX_DAYS_PER_REPORT /\ NoDup (List.map du_day ds) /\ Forall (day_ok now) ds.
Proof.
  intros Hd. unfold parseUsageReport. destruct (negb _); [done|]. destruct (js_get input "days") as [| | | | | |raw|]; try done. intros H. invert_returns. apply parse_days_ok in H as (Hf & Hn & _ & Hl); [|done].
  split_and!; [lia..|done|done].
Qed.

(** ** The counters are the sums of what was reported *)

(** A report that was accepted, from a workstation of an organization that
    records sites or not. *)
Record Report : Type := mkReport { rp_tenant : string; rp_client : string; rp_days : list UsageDay; rp_sites : bool }.

Definition record_report (db : D1Database) (r : Report) : D1Database := recordUsage db (rp_tenant r) (rp_client r) (rp_days r) (rp_sites r).
Definition record_all (db : D1Database) (l : list Report) : D1Database := foldl record_report db l.

(** The specification: what was reported of one workstation's day, and of one
    site on one day by the whole organization. *)
Definition of_day (tenantId clientId day : string) (r : Report) : list UsageDay :=
  if String.eqb (rp_tenant r) tenantId && String.eqb (rp_client r) clientId then List.filter (fun d => String.eqb (du_day d) day) (rp_days r) else [].
Definition of_site (tenantId day domain : string) (r : Report) : list UsageSite :=
  if String.eqb (rp_tenant r) tenantId && rp_sites r
  then List.concat (List.map (fun d => if String.eqb (du_day d) day
                                       then List.filter (fun s => String.eqb (su_domain s) domain && negb ((su_seconds s =? 0) && (su_visits s =? 0))) (du_sites d) else []) (rp_days r))
  else [].

Definition day_total (tenantId clientId day : string) (l : list UsageDay) : option UsageDailyRow :=
  match l with
  | [] => None
  | _ => Some (mkUsageDaily tenantId clientId day (Z.min MAX_DAY_SECONDS (total du_onSeconds l)) (Z.min MAX_DAY_SECONDS (total du_activeSeconds l)) (total du_sessions l))
  end.
Definition site_total (tenantId day domain : string) (l : list UsageSite) : option UsageSiteRow :=
  match l with
  | [] => None
  | _ => Some (mkUsageSite tenantId day domain (total su_seconds l) (total su_visits l))
  end.

Lemma total_app {A} (f : A -> Z) l k : total f (l ++ k) = total f l + total f k.
Proof. induction l as [|x l IH]; cbn; lia. Qed.

Lemma total_nonneg {A} (f : A -> Z) l : Forall (fun x => 0 <= f x) l -> 0 <= total f l.
Proof. induction 1; cbn; lia. Qed.

Lemma total_perm {A} (f : A -> Z) l k : l ≡ₚ k -> total f l = total f k.
Proof. induction 1; cbn; lia. Qed.

Definition counted (d : UsageDay) : Prop := 0 <= du_activeSeconds d <= du_onSeconds d /\ du_onSeconds d <= MAX_DAY_SECONDS /\ 0 <= du_sessions d.

Lemma counted_total l : Forall counted l -> 0 <= total du_activeSeconds l <= total du_onSeconds l.
Proof. induction 1 as [|d l Hd Hl IH]; cbn; [lia|]. unfold counted in Hd. lia. Qed.

(** Saturating once at the end is the same as saturating every time. *)
Lemma day_total_snoc t c day l d : Forall counted l -> counted d ->
  Some (match day_total t c day l with Some r => add_daily d r | None => mkUsageDaily t c day (du_onSeconds d) (du_activeSeconds d) (du_sessions d) end) = day_total t c day (l ++ [d]).
Proof.
  intros Hl Hd. pose proof (counted_total l Hl). unfold counted in Hd. destruct l as [|d0 l]; cbn [app day_total].
  - cbn. f_equal. f_equal; lia.
  - unfold add_daily. cbn [ud_tenant_id ud_client_id ud_day ud_on_seconds ud_active_seconds ud_sessions].
    assert (Ht : forall f : UsageDay -> Z, total f (d0 :: l ++ [d]) = total f (d0 :: l) + f d) by (intros f; rewrite app_comm_cons, total_app; cbn; lia). rewrite !Ht. f_equal. f_equal; lia.
Qed.

Lemma site_total_snoc t day domain l s :
  Some (match site_total t day domain l with Some r => add_site s r | None => mkUsageSite t day domain (su_seconds s) (su_visits s) end) = site_total t day domain (l ++ [s]).
Proof.
  destruct l as [|s0 l]; cbn [app site_total]; [cbn; f_equal; f_equal; lia|]. unfold add_site. cbn [us_tenant_id us_day us_domain us_active_seconds us_visits].
  assert (Ht : forall f : UsageSite -> Z, total f (s0 :: l ++ [s]) = total f (s0 :: l) + f s) by (intros f; rewrite app_comm_cons, total_app; cbn; lia). by rewrite !Ht.
Qed.

Lemma find_record_daily t c d t' c' day rows : js_find (daily_key t' c' day) (record_daily t c d rows) =
  if String.eqb t t' && String.eqb c c' && String.eqb (du_day d) day
  then Some (match js_find (daily_key t' c' day) rows with Some r => add_daily d r | None => mkUsageDaily t' c' day (du_onSeconds d) (du_activeSeconds d) (du_sessions d) end)
  else js_find (daily_key t' c' day) rows.
Proof.
  unfold record_daily. destruct (String.eqb t t' && String.eqb c c' && String.eqb (du_day d) day) eqn:E.
  - apply andb_true_iff in E as [[->%String.eqb_eq ->%String.eqb_eq]%andb_true_iff <-%String.eqb_eq]. apply js_find_upsert; [done|]. unfold daily_key. cbn. by rewrite !String.eqb_refl.
  - apply js_find_upsert_other; [|exact E]. intros r Hr. assert (Hf : daily_key t' c' day r = false); [|by split]. unfold daily_key in *.
    apply andb_true_iff in Hr as [[->%String.eqb_eq ->%String.eqb_eq]%andb_true_iff ->%String.eqb_eq]. exact E.
Qed.

Lemma find_record_site t day s t' day' domain rows : js_find (site_key t' day' domain) (record_site t day rows s) =
  if String.eqb t t' && String.eqb day day' && (String.eqb (su_domain s) domain && negb ((su_seconds s =? 0) && (su_visits s =? 0)))
  then Some (match js_find (site_key t' day' domain) rows with Some r => add_site s r | None => mkUsageSite t' day' domain (su_seconds s) (su_visits s) end)
  else js_find (site_key t' day' domain) rows.
Proof.
  unfold record_site. destruct ((su_seconds s =? 0) && (su_visits s =? 0)); [by rewrite !andb_false_r|]. rewrite andb_true_r.
  destruct (String.eqb t t' && String.eqb day day' && String.eqb (su_domain s) domain) eqn:E.
  - apply andb_true_iff in E as [[->%String.eqb_eq ->%String.eqb_eq]%andb_true_iff <-%String.eqb_eq]. apply js_find_upsert; [done|]. unfold site_key. cbn. by rewrite !String.eqb_refl.
  - apply js_find_upsert_other; [|exact E]. intros r Hr. assert (Hf : site_key t' day' domain r = false); [|by split]. unfold site_key in *.
    apply andb_true_iff in Hr as [[->%String.eqb_eq ->%String.eqb_eq]%andb_true_iff ->%String.eqb_eq]. exact E.
Qed.

Lemma recordUsage_daily t c b days : forall db, usage_daily (recordUsage db t c days b) = foldl (fun rows d => record_daily t c d rows) (usage_daily db) days.
Proof. unfold recordUsage. induction days as [|d days IH]; intros db; [done|]. cbn [foldl]. rewrite IH. unfold record_day. by destruct b. Qed.

Lemma recordUsage_sites t c b days : forall db,
  usage_sites (recordUsage db t c days b) = if b then foldl (fun rows d => foldl (record_site t (du_day d)) rows (du_sites d)) (usage_sites db) days else usage_sites db.
Proof. unfold recordUsage. induction days as [|d days IH]; intros db; [by destruct b|]. cbn [foldl]. rewrite IH. unfold record_day. by destruct b. Qed.

Lemma find_daily_days t c t' c' day days : forall rows past, Forall counted past -> Forall counted days ->
  js_find (daily_key t' c' day) rows = day_total t' c' day past ->
  js_find (daily_key t' c' day) (foldl (fun rows d => record_daily t c d rows) rows days) = day_total t' c' day (past ++ of_day t' c' day (mkReport t c days false)).
Proof.
  unfold of_day. cbn [rp_tenant rp_client rp_days]. induction days as [|d days IH]; intros rows past Hpast Hdays Hr; cbn [foldl List.filter].
  - by destruct (_ && _); rewrite app_nil_r.
  - apply list.Forall_cons in Hdays as [Hd Hdays]. pose proof (find_record_daily t c d t' c' day rows) as Hf. destruct (String.eqb t t' && String.eqb c c') eqn:E; cbn [andb] in Hf.
    + destruct (String.eqb (du_day d) day) eqn:Ed.
      * rewrite cons_middle, app_assoc. apply IH; [by apply Forall_app; split; [|constructor]|done|]. by rewrite Hf, Hr, day_total_snoc.
      * apply IH; [done..|]. by rewrite Hf.
    + apply IH; [done..|]. by rewrite Hf.
Qed.

Lemma find_sites_of t day t' day' domain sites : forall rows past, js_find (site_key t' day' domain) rows = site_total t' day' domain past ->
  js_find (site_key t' day' domain) (foldl (record_site t day) rows sites) =
    site_total t' day' domain (past ++ if String.eqb t t' && String.eqb day day'
                                       then List.filter (fun s => String.eqb (su_domain s) domain && negb ((su_seconds s =? 0) && (su_visits s =? 0))) sites else []).
Proof.
  induction sites as [|s sites IH]; intros rows past Hr; cbn [foldl List.filter]; [by destruct (_ && _); rewrite app_nil_r|].
  pose proof (find_record_site t day s t' day' domain rows) as Hf. destruct (String.eqb t t' && String.eqb day day'); cbn [andb] in Hf; [|apply IH; by rewrite Hf].
  destruct (String.eqb (su_domain s) domain && negb ((su_seconds s =? 0) && (su_visits s =? 0))) eqn:E.
  - rewrite cons_middle, app_assoc. apply IH. by rewrite Hf, Hr, site_total_snoc.
  - apply IH. by rewrite Hf.
Qed.

Lemma find_sites_days t c t' day domain days : forall rows past, js_find (site_key t' day domain) rows = site_total t' day domain past ->
  js_find (site_key t' day domain) (foldl (fun rows d => foldl (record_site t (du_day d)) rows (du_sites d)) rows days) =
    site_total t' day domain (past ++ of_site t' day domain (mkReport t c days true)).
Proof.
  unfold of_site. cbn [rp_tenant rp_days rp_sites]. rewrite andb_true_r. induction days as [|d days IH]; intros rows past Hr; cbn [foldl List.map List.concat]; [by destruct (String.eqb t t'); rewrite app_nil_r|].
  rewrite (IH _ _ (find_sites_of t (du_day d) t' day domain (du_sites d) rows past Hr)). destruct (String.eqb t t'); cbn [andb]; [by rewrite app_assoc|by rewrite !app_nil_r].
Qed.

Lemma of_day_counted t c day r : Forall counted (rp_days r) -> Forall counted (of_day t c day r).
Proof. intros Hr. unfold of_day. destruct (_ && _); [|constructor]. apply list.Forall_forall. intros d [Hd _]%elem_of_bfilter. by apply (proj1 (list.Forall_forall _ _) Hr). Qed.

Lemma find_daily_all t c day l : forall db past, Forall counted past -> Forall (fun r => Forall counted (rp_days r)) l ->
  js_find (daily_key t c day) (usage_daily db) = day_total t c day past ->
  js_find (daily_key t c day) (usage_daily (record_all db l)) = day_total t c day (past ++ List.concat (List.map (of_day t c day) l)).
Proof.
  induction l as [|r l IH]; intros db past Hp Hl Hd; cbn [record_all foldl List.map List.concat]; [by rewrite app_nil_r|]. apply list.Forall_cons in Hl as [Hr Hl].
  rewrite app_assoc. apply IH; [apply Forall_app; split; [done|by apply of_day_counted]|done|]. unfold record_report. rewrite recordUsage_daily. destruct r as [t' c' days b]. by apply (find_daily_days t' c').
Qed.

Lemma find_sites_all t day domain l : forall db past, js_find (site_key t day domain) (usage_sites db) = site_total t day domain past ->
  js_find (site_key t day domain) (usage_sites (record_all db l)) = site_total t day domain (past ++ List.concat (List.map (of_site t day domain) l)).
Proof.
  induction l as [|r l IH]; intros db past Hd; cbn [record_all foldl List.map List.concat]; [by rewrite app_nil_r|]. rewrite app_assoc. apply IH. unfold record_report. rewrite recordUsage_sites.
  destruct r as [t' c' days [|]]; cbn [rp_tenant rp_client rp_days rp_sites]; [by apply (find_sites_days t' c')|]. unfold of_site. cbn. by rewrite andb_false_r, app_nil_r.
Qed.

Lemma concat_map_perm {A B} (f : A -> list B) l k : l ≡ₚ k -> List.concat (List.map f l) ≡ₚ List.concat (List.map f k).
Proof. induction 1; cbn; [done|by f_equiv|rewrite !app_assoc; f_equiv; apply Permutation_app_comm|by etransitivity]. Qed.

Lemma day_total_perm t c day l k : l ≡ₚ k -> day_total t c day l = day_total t c day k.
Proof.
  intros Hp. pose proof (fun f => total_perm f l k Hp) as Ht. destruct l as [|x l]; [apply Permutation_nil_l in Hp as <-; done|]. destruct k as [|y k]; [by apply Permutation_nil_r in Hp|]. unfold day_total. by rewrite !Ht.
Qed.

Lemma site_total_perm t day domain l k : l ≡ₚ k -> site_total t day domain l = site_total t day domain k.
Proof.
  intros Hp. pose proof (fun f => total_perm f l k Hp) as Ht. destruct l as [|x l]; [apply Permutation_nil_l in Hp as <-; done|]. destruct k as [|y k]; [by apply Permutation_nil_r in Hp|]. unfold site_total. by rewrite !Ht.
Qed.

(** A report a workstation sent, and was accepted. *)
Definition accepted (r : Report) : Prop := exists input now, dated now /\ parseUsageReport input now = Returns (rp_days r).

Lemma accepted_counted r : accepted r -> Forall counted (rp_days r).
Proof.
  intros (input & now & Hd & Hp). apply parseUsageReport_ok in Hp as (_ & _ & Hf); [|done]. revert Hf. apply Forall_impl. intros d (_ & ? & ? & ? & _). unfold counted. lia.
Qed.

(** C36. Whatever reports workstations send, and in whatever order they arrive,
    the counters of a workstation's day are the sums of what it reported of
    that day, no more than the longest day's seconds, with the time in use no
    more than the time on; and the counters of a site are the sums of what the
    organization's workstations reported while it recorded sites. *)
Theorem usage_counts_every_report db l k tenantId clientId day domain :
  usage_daily db = [] -> usage_sites db = [] -> Forall accepted l -> l ≡ₚ k ->
  js_find (daily_key tenantId clientId day) (usage_daily (record_all db k)) = day_total tenantId clientId day (List.concat (List.map (of_day tenantId clientId day) l)) /\
  js_find (site_key tenantId day domain) (usage_sites (record_all db k)) = site_total tenantId day domain (List.concat (List.map (of_site tenantId day domain) l)) /\
  (forall r, js_find (daily_key tenantId clientId day) (usage_daily (record_all db k)) = Some r -> 0 <= ud_active_seconds r <= ud_on_seconds r /\ ud_on_seconds r <= MAX_DAY_SECONDS).
Proof.
  intros Hd Hs Hl Hp. assert (Hc : Forall (fun r => Forall counted (rp_days r)) k) by (rewrite <- Hp; revert Hl; apply Forall_impl; apply accepted_counted).
  assert (Hday : js_find (daily_key tenantId clientId day) (usage_daily (record_all db k)) = day_total tenantId clientId day (List.concat (List.map (of_day tenantId clientId day) l))).
  { rewrite (find_daily_all _ _ _ k db [] (list.Forall_nil_2 _) Hc); [|by rewrite Hd]. apply day_total_perm. cbn [app]. by apply concat_map_perm. }
  split_and!; [done| |].
  - rewrite (find_sites_all _ _ _ k db []) by by rewrite Hs. apply site_total_perm. cbn [app]. by apply concat_map_perm.
  - intros r. rewrite Hday. assert (Hl' : Forall counted (List.concat (List.map (of_day tenantId clientId day) l))).
    { apply List.Forall_concat, List.Forall_map. revert Hl. apply Forall_impl. intros r0 Hr0. by apply of_day_counted, accepted_counted. }
    revert Hl'. generalize (List.concat (List.map (of_day tenantId clientId day) l)). intros ds Hds. pose proof (counted_total _ Hds). destruct ds as [|d ds]; [done|]. unfold day_total. intros [= <-]. cbn [ud_active_seconds ud_on_seconds total] in *. unfold MAX_DAY_SECONDS. lia.
Qed.

(** ** The platform's totals *)

Lemma elem_of_group_rows {A} (key : A -> string) l k rows : (k, rows) ∈ group_rows key l <-> k ∈ List.map key l /\ rows = List.filter (fun x => String.eqb (key x) k) l.
Proof.
  unfold group_rows. rewrite list_elem_of_fmap. split.
  - intros (k' & [= -> ->] & Hk). rewrite elem_of_remove_dups in Hk. done.
  - intros [Hk ->]. exists k. by rewrite elem_of_remove_dups.
Qed.

(** What the organizations that are not demos counted of a site on a day. *)
Definition seen_on (db : D1Database) (day domain : string) : list UsageSiteRow :=
  List.filter (fun r => notDemo db (us_tenant_id r) && String.eqb (us_day r) day && String.eqb (us_domain r) domain) (usage_sites db).
Definition used_on (db : D1Database) (day : string) : list UsageDailyRow :=
  List.filter (fun r => notDemo db (ud_tenant_id r) && String.eqb (ud_day r) day) (usage_daily db).

Definition rollup_from (now : Z) : string := utcDay (now - PLATFORM_ROLLUP_DAYS * MS_PER_DAY).

Lemma elem_of_platform_sites rows r : r ∈ platform_sites rows <->
  (exists x, x ∈ rows /\ us_day x = pu_day r /\ us_domain x = pu_domain r) /\
  (let l := List.filter (fun x => String.eqb (us_day x) (pu_day r) && String.eqb (us_domain x) (pu_domain r)) rows in
   r = platform_site (pu_day r) (pu_domain r, l) /\ PLATFORM_SITE_MIN_ORGANIZATIONS <= count_distinct us_tenant_id l).
Proof.
  unfold platform_sites. rewrite elem_of_bfilter, Z.leb_le. cbv zeta. split.
  - intros [Hin Hmin]. apply list_elem_of_In, in_concat in Hin as (l & Hl%list_elem_of_In & Hr%list_elem_of_In). apply list_elem_of_fmap in Hl as ([day dl] & -> & [Hd ->]%elem_of_group_rows).
    apply list_elem_of_fmap in Hr as ([domain sl] & -> & [Hs ->]%elem_of_group_rows). cbn [pu_day pu_domain platform_site fst snd] in *. rewrite bfilter_bfilter in *. split; [|done].
    apply list_elem_of_fmap in Hs as (x & -> & [Hx Hxd%String.eqb_eq]%elem_of_bfilter). by exists x.
  - intros [(x & Hx & Hxd & Hxs) [Hr Hmin]]. split; [|rewrite Hr; exact Hmin]. apply list_elem_of_In, in_concat. eexists. split.
    + apply list_elem_of_In, list_elem_of_fmap. exists (pu_day r, List.filter (fun x => String.eqb (us_day x) (pu_day r)) rows). split; [done|]. apply elem_of_group_rows. split; [|done]. apply list_elem_of_fmap. by exists x.
    + apply list_elem_of_In, list_elem_of_fmap. exists (pu_domain r, List.filter (fun x => String.eqb (us_day x) (pu_day r) && String.eqb (us_domain x) (pu_domain r)) rows). split; [done|].
      apply elem_of_group_rows. rewrite bfilter_bfilter. split; [|done]. apply list_elem_of_fmap. exists x. split; [done|]. apply elem_of_bfilter. split; [done|]. by apply String.eqb_eq.
Qed.

Lemma rollup_sites db now r : let from := rollup_from now in r ∈ platform_usage_sites (rollUpPlatformUsage db now) <->
  (r ∈ platform_usage_sites db /\ str_ltb (pu_day r) from = true) \/
  (str_ltb (pu_day r) from = false /\ r = platform_site (pu_day r) (pu_domain r, seen_on db (pu_day r) (pu_domain r)) /\
   PLATFORM_SITE_MIN_ORGANIZATIONS <= count_distinct us_tenant_id (seen_on db (pu_day r) (pu_domain r))).
Proof.
  cbv zeta. unfold rollUpPlatformUsage. cbv zeta. fold (rollup_from now). cbn [platform_usage_sites on_platform_usage_sites on_platform_usage_daily]. rewrite elem_of_app, elem_of_bfilter, elem_of_platform_sites. cbv zeta.
  set (kept := fun x => negb (str_ltb (us_day x) (rollup_from now)) && notDemo db (us_tenant_id x)). rewrite bfilter_bfilter.
  assert (Hsame : str_ltb (pu_day r) (rollup_from now) = false ->
    List.filter (fun x => kept x && (String.eqb (us_day x) (pu_day r) && String.eqb (us_domain x) (pu_domain r))) (usage_sites db) = seen_on db (pu_day r) (pu_domain r)).
  { intros Hr. unfold seen_on. apply filter_ext. intros x. unfold kept. destruct (String.eqb_spec (us_day x) (pu_day r)) as [E|E]; [|by rewrite !andb_false_r]. rewrite E, Hr. by destruct (notDemo _ _), (String.eqb _ _). }
  f_equiv. split.
  - intros [(x & [Hx Hk]%elem_of_bfilter & Hd & Hs) Hr]. apply andb_true_iff in Hk as [Hk _]. apply negb_true_iff in Hk. rewrite Hd in Hk. rewrite (Hsame Hk) in Hr. done.
  - intros (Hk & Hr & Hmin). rewrite (Hsame Hk). split; [|done]. destruct (seen_on db (pu_day r) (pu_domain r)) as [|x l] eqn:El; [by cbn in Hmin|].
    assert (Hx : x ∈ seen_on db (pu_day r) (pu_domain r)) by (rewrite El; by constructor). apply elem_of_bfilter in Hx as [Hx Hp]. apply andb_true_iff in Hp as [[Hn Hd]%andb_true_iff Hs]. apply String.eqb_eq in Hd, Hs.
    exists x. split; [|done]. apply elem_of_bfilter. split; [done|]. unfold kept. by rewrite Hd, Hk, Hn.
Qed.

Lemma rollup_days db now r : let from := rollup_from now in r ∈ platform_usage_daily (rollUpPlatformUsage db now) <->
  (r ∈ platform_usage_daily db /\ str_ltb (pd_day r) from = true) \/
  (str_ltb (pd_day r) from = false /\ used_on db (pd_day r) <> [] /\ r = platform_day (now `div` 1000) (pd_day r, used_on db (pd_day r))).
Proof.
  cbv zeta. unfold rollUpPlatformUsage. cbv zeta. fold (rollup_from now). cbn [platform_usage_daily on_platform_usage_sites on_platform_usage_daily]. rewrite elem_of_app, elem_of_bfilter, list_elem_of_fmap.
  set (kept := fun x => negb (str_ltb (ud_day x) (rollup_from now)) && notDemo db (ud_tenant_id x)).
  assert (Hsame : forall day, str_ltb day (rollup_from now) = false -> List.filter (fun x => String.eqb (ud_day x) day) (List.filter kept (usage_daily db)) = used_on db day).
  { intros day Hr. rewrite bfilter_bfilter. unfold used_on. apply filter_ext. intros x. unfold kept. destruct (String.eqb_spec (ud_day x) day) as [E|E]; [|by rewrite !andb_false_r]. rewrite E, Hr. done. }
  f_equiv. split.
  - intros ([day l] & -> & [Hd ->]%elem_of_group_rows). apply list_elem_of_fmap in Hd as (x & -> & Hx). pose proof Hx as [_ Hk]%elem_of_bfilter. apply andb_true_iff in Hk as [Hk _]. apply negb_true_iff in Hk.
    cbn [pd_day platform_day fst]. rewrite (Hsame _ Hk). split_and!; [done| |done]. rewrite <- (Hsame _ Hk). intros E. assert (Hin : x ∈ List.filter (fun y => String.eqb (ud_day y) (ud_day x)) (List.filter kept (usage_daily db))) by (apply elem_of_bfilter; split; [done|apply String.eqb_refl]).
    rewrite E in Hin. by apply elem_of_nil in Hin.
  - intros (Hk & Hne & Hr). exists (pd_day r, used_on db (pd_day r)). split; [done|]. apply elem_of_group_rows. rewrite (Hsame _ Hk). split; [|done].
    destruct (used_on db (pd_day r)) as [|x l] eqn:El; [done|]. assert (Hx : x ∈ used_on db (pd_day r)) by (rewrite El; by constructor). apply elem_of_bfilter in Hx as [Hx Hp]. apply andb_true_iff in Hp as [Hn Hd]. apply String.eqb_eq in Hd.
    apply list_elem_of_fmap. exists x. split; [done|]. apply elem_of_bfilter. split; [done|]. unfold kept. by rewrite Hd, Hk, Hn.
Qed.

(** Rebuilding the platform's totals: a site is listed on a day exactly when
    at least three organizations that are not demos visited it, with their
    number and sums; a day's totals count every such organization and
    workstation; older days stay; and every day a report of that moment may list
    is rebuilt. *)
Theorem platform_totals_exact db now : dated now ->
  let db' := rollUpPlatformUsage db now in
  let from := rollup_from now in
  (forall r, r ∈ platform_usage_sites db' <->
    (r ∈ platform_usage_sites db /\ str_ltb (pu_day r) from = true) \/
    (str_ltb (pu_day r) from = false /\ r = platform_site (pu_day r) (pu_domain r, seen_on db (pu_day r) (pu_domain r)) /\ 3 <= count_distinct us_tenant_id (seen_on db (pu_day r) (pu_domain r)))) /\
  (forall r, r ∈ platform_usage_daily db' <->
    (r ∈ platform_usage_daily db /\ str_ltb (pd_day r) from = true) \/
    (str_ltb (pd_day r) from = false /\ used_on db (pd_day r) <> [] /\ r = platform_day (now `div` 1000) (pd_day r, used_on db (pd_day r)))) /\
  (forall input days d, parseUsageReport input now = Returns days -> d ∈ days -> str_ltb (du_day d) from = false).
Proof.
  intros Hd db' from. split; [intros r; apply rollup_sites|]. split; [intros r; apply rollup_days|]. intros input days d Hp Hin. apply parseUsageReport_ok in Hp as (_ & _ & Hf); [|done].
  apply (proj1 (list.Forall_forall _ _) Hf) in Hin as [(n & -> & Hn) _]. unfold from, rollup_from, utcDay. replace (now - PLATFORM_ROLLUP_DAYS * MS_PER_DAY) with (now + (-8) * MS_PER_DAY) by (unfold PLATFORM_ROLLUP_DAYS, USAGE_REPORT_MAX_AGE_DAYS; lia).
  rewrite utc_day_shift, text_order; [lia| |apply dated_near; [done|lia]]. replace n with (utc_day_number now + (n - utc_day_number now)) by lia. apply dated_near; [done|lia].
Qed.

(** Usage is kept for 400 days: what is deleted is exactly what is older. *)
Lemma purge_keeps_400_days db now n r : dated now -> text_day n -> text_day (utc_day_number now - 400) -> ud_day r = date_text (civil n) ->
  r ∈ usage_daily (fst (purgeOldUsage db now)) <-> r ∈ usage_daily db /\ utc_day_number now - 400 <= n.
Proof.
  intros Hd Hn Hc Hr. unfold purgeOldUsage. cbn [fst usage_daily on_usage_sites on_usage_daily]. rewrite elem_of_bfilter, Hr. unfold utcDay.
  replace (now - USAGE_RETENTION_DAYS * MS_PER_DAY) with (now + (-400) * MS_PER_DAY) by (unfold USAGE_RETENTION_DAYS; lia). rewrite utc_day_shift. change (utc_day_number now + -400) with (utc_day_number now - 400). rewrite text_order by done.
  f_equiv. rewrite negb_true_iff, Z.ltb_ge. done.
Qed.

(** ** The route a workstation reports to *)

Section Reporting.
Context `{WebCrypto}.

(** C37. A report counts whole or not at all. One that is refused changes
    nothing past the check of its token. One that is accepted is counted for
    the workstation of the token, in its organization; it lists one to nine
    different days from eight days ago to tomorrow (the comparison leaves a day
    more than the seven its comment and the documentation speak of), each with
    no more seconds in use than on, no more on than the longest day has, and at
    most 100 different host names, none used longer than the workstation was. *)
Theorem usage_report_whole request body now cache db : dated now ->
  let '(_, db1, auth) := requireDevice request db now cache in
  let '(_, db2, answer) := handleUsageReport request body now cache db in
  match answer with
  | Some _ => db2 = db1
  | None =>
      exists device input days tenant, auth = inl device /\ body = Returns input /\ findTenantById db1 (dt_tenant_id device) = Some tenant /\
        parseUsageReport input now = Returns days /\ db2 = recordUsage db1 (t_id tenant) (dt_client_id device) days (negb (t_usage_sites tenant =? 0)) /\
        1 <= Z.of_nat (length days) <= 9 /\ NoDup (List.map du_day days) /\ Forall (day_ok now) days
  end.
Proof.
  intros Hd. unfold handleUsageReport. destruct (requireDevice request db now cache) as [[cache1 db1] [device|refused]]; [|done].
  destruct body as [input|e]; [|done]. change (Returns input ≫= fun input => parseUsageReport input now) with (parseUsageReport input now).
  destruct (parseUsageReport input now) as [days|e] eqn:Ep; [|done]. destruct (findTenantById db1 (dt_tenant_id device)) as [tenant|] eqn:Et; [|done].
  exists device, input, days, tenant. apply parseUsageReport_ok in Ep as Hok; [|done]. by destruct Hok as (? & ? & ?).
Qed.
End Reporting.

(** ** Witnesses *)

(** 10 November 2026, at 23:59 UTC. *)
Definition late_evening : Z := 20767 * MS_PER_DAY + 86340000.

Definition day_entry (day : string) (sites : list jsval) : jsval :=
  JsObj [("day", JsStr day); ("onSeconds", JsInt 3600); ("activeSeconds", JsInt 4000); ("sessions", JsInt 2); ("sites", JsArr sites)]%string.
Definition site_entry (domain : string) : jsval := JsObj [("domain", JsStr domain); ("seconds", JsInt 600); ("visits", JsInt 1)]%string.
Definition demo_report (day : string) : jsval := JsObj [("days", JsArr [day_entry day [site_entry "Maths.Example."; site_entry "10.0.0.1"; site_entry "maths.example"]])]%string.

Definition counted_day (day : string) : UsageDay := mkDayUse day 3600 3600 2 [mkSiteUse "maths.example" 1200 2].

Lemma late_evening_dated : dated late_evening.
Proof. split; vm_compute; [discriminate|reflexivity]. Qed.

Example demo_report_parsed : utcDay late_evening = "2026-11-10"%string /\ parseUsageReport (demo_report "2026-11-02") late_evening = Returns [counted_day "2026-11-02"] /\
  parseUsageReport (demo_report "2026-02-30") late_evening = Throws "days[0].day is not a YYYY-MM-DD date" /\
  parseUsageReport (demo_report "2026-11-01") late_evening = Throws "days[0].day is outside the days a report may cover".
Proof. vm_compute. done. Qed.

Definition recording : Tenant := set_usage_sites true 0 greenwood_org.
Definition usage_db : D1Database := on_device_tokens (fun _ => [mkDeviceToken "a" ("h" +:+ "a") "t1" "PC-01" 0 0 false]) (on_tenants (fun _ => [recording]) empty_db).
Definition usage_request : Request := mkRequest "POST" [("authorization", "Bearer a")]%string "".

Lemma usage_report_whole_witness :
  let '(_, db2, answer) := @handleUsageReport toy_crypto usage_request (Returns (demo_report "2026-11-02")) late_evening [] usage_db in
  answer = None /\ usage_sites db2 = [mkUsageSite "t1" "2026-11-02" "maths.example" 1200 2] /\
  exists days, parseUsageReport (demo_report "2026-11-02") late_evening = Returns days /\ Forall (day_ok late_evening) days.
Proof.
  pose proof (@usage_report_whole toy_crypto usage_request (Returns (demo_report "2026-11-02")) late_evening [] usage_db late_evening_dated) as Hw.
  destruct (requireDevice usage_request usage_db late_evening []) as [[cache db1] auth] eqn:Er.
  destruct (handleUsageReport _ _ _ _ _) as [[cache2 db2] answer] eqn:Eh. vm_compute in Eh. injection Eh as <- <- <-. split; [reflexivity|]. split; [reflexivity|].
  destruct Hw as (device & input & days & tenant & _ & [= <-] & _ & Hp & _ & _ & _ & Hf). exists days. split; [exact Hp|exact Hf].
Defined.

(** The oldest day a report may hold is eight days ago, where seven is documented. *)
Example eight_days_accepted :
  match parseUsageReport (demo_report "2026-11-02") late_evening, parseUsageReport (demo_report "2026-11-01") late_evening with
  | Returns _, Throws e => e = "days[0].day is outside the days a report may cover"%string /\ utcDay (late_evening - 8 * MS_PER_DAY) = "2026-11-02"%string /\ USAGE_REPORT_MAX_AGE_DAYS = 7
  | _, _ => False
  end.
Proof. vm_compute. split_and!; reflexivity. Qed.

Definition org_report (tenantId : string) : Report := mkReport tenantId "PC-01" [counted_day "2026-11-02"] true.

Lemma org_report_accepted tenantId : accepted (org_report tenantId).
Proof. exists (demo_report "2026-11-02"), late_evening. split; [apply late_evening_dated|vm_compute; reflexivity]. Qed.

Lemma usage_counts_every_report_witness :
  let db := record_all empty_db [org_report "t1"; org_report "t2"; org_report "t1"] in
  js_find (daily_key "t1" "PC-01" "2026-11-02") (usage_daily db) = Some (mkUsageDaily "t1" "PC-01" "2026-11-02" 7200 7200 4) /\
  js_find (site_key "t1" "2026-11-02" "maths.example") (usage_sites db) = Some (mkUsageSite "t1" "2026-11-02" "maths.example" 2400 4).
Proof.
  intros db. pose proof (usage_counts_every_report empty_db [org_report "t1"; org_report "t1"; org_report "t2"] [org_report "t1"; org_report "t2"; org_report "t1"] "t1" "PC-01" "2026-11-02" "maths.example"
    eq_refl eq_refl) as Hw. destruct Hw as (Hd & Hs & _).
  - repeat constructor; apply org_report_accepted.
  - constructor. constructor.
  - split; [etransitivity; [exact Hd|vm_compute; reflexivity]|etransitivity; [exact Hs|vm_compute; reflexivity]].
Defined.

Definition three_orgs : D1Database := record_all empty_db [org_report "t1"; org_report "t2"; org_report "t3"].

Lemma platform_totals_exact_witness :
  mkPlatformSite "2026-11-02" "maths.example" 3 3600 6 ∈ platform_usage_sites (rollUpPlatformUsage three_orgs late_evening) /\
  str_ltb "2026-11-02" (rollup_from late_evening) = false.
Proof.
  pose proof (platform_totals_exact three_orgs late_evening late_evening_dated) as Hw. cbv zeta in Hw. destruct Hw as (Hs & _ & Hr). split.
  - apply Hs. right. split; [vm_compute; reflexivity|]. split; [vm_compute; reflexivity|vm_compute; discriminate].
  - apply (Hr (demo_report "2026-11-02") [counted_day "2026-11-02"] (counted_day "2026-11-02")); [vm_compute; reflexivity|constructor].
Defined.

(** Two organizations are too few. *)
Example two_organizations_hidden :
  platform_usage_sites (rollUpPlatformUsage (record_all empty_db [org_report "t1"; org_report "t2"]) late_evening) = [] /\
  List.map pd_organizations (platform_usage_daily (rollUpPlatformUsage (record_all empty_db [org_report "t1"; org_report "t2"]) late_evening)) = [2].
Proof. vm_compute. done. Qed.

(** A report of the oldest day, accepted after the last rebuild before midnight,
    is never in the platform's totals: six minutes later that day is no longer
    rebuilt. *)
Example oldest_day_never_rolled_up :
  let reported := record_all empty_db [org_report "t1"] in
  let at_midnight := late_evening + 360000 in
  parseUsageReport (demo_report "2026-11-02") late_evening = Returns [counted_day "2026-11-02"] /\
  platform_usage_daily (rollUpPlatformUsage reported at_midnight) = [] /\
  List.map pd_day (platform_usage_daily (rollUpPlatformUsage reported late_evening)) = ["2026-11-02"%string].
Proof. vm_compute. done. Qed.
