(* ===== verification/Exams.v ===== *)
(** src/cloudflare-control/src/exams.ts: exam windows, during which an
    organization's workstations, or one group of them, are held on an exam site.

    [exam_step] puts the operations together as the routes of /api/exams and the
    hourly purge call them; time only moves forward. What an exam is for, that no
    workstation is ever in two at once, is proved of every reachable state. *)
From S2P Require Import Prelude JsString Regex Platform Db Escape.

(** ** Data *)

Definition EXAM_TITLE : Z := 120.
Definition EXAM_EXTRA_HOSTS : Z := 20.
Definition EXAM_MIN_MINUTES : Z := 5.
Definition EXAM_MAX_MINUTES : Z := 600.
Definition EXAM_AHEAD_DAYS : Z := 90.
Definition EXAM_OPEN : Z := 50.
Definition EXAM_RETENTION_DAYS : Z := 90.
Definition START_GRACE_SECONDS : Z := 120.

(** [/^(?=.{1,253}$)(?:label\.)+[a-z]{2,63}$/]. *)
Definition HOST_BODY : re := RCat (RPlus (RCat RLabel (RChar "."))) (RBetween 2 63 (RClass is_lower)).
Definition HOST_PATTERN (h : string) : bool := (String.length h <=? 253)%nat && re_test HOST_BODY h.

Inductive ExamPhase : Type := scheduled | running | ended.

#[export] Instance ExamPhase_eq_dec : EqDecision ExamPhase.
Proof. solve_decision. Defined.

Record ExamWindow : Type := mkExamWindow {
  x_id : string;
  x_title : string;
  x_groupName : option string;
  x_url : string;
  x_hosts : list string;
  x_startsAt : Z;
  x_endsAt : Z;
  x_cancelled : bool
}.

Record ExamInput : Type := mkExamInput {
  xi_title : string;
  xi_groupName : option string;
  xi_url : string;
  xi_hosts : list string;
  xi_startsAt : Z;
  xi_endsAt : Z
}.

(** ** One exam *)

Definition examEnd (row : ExamRow) : Z :=
  match e_ended_at row with None => e_ends_at row | Some z => Z.min z (e_ends_at row) end.

Definition examPhase (row : ExamRow) (nowSeconds : Z) : ExamPhase :=
  if examEnd row <=? nowSeconds then ended
  else if e_starts_at row <=? nowSeconds then running else scheduled.

Definition parseHosts (raw : option (list jsval)) : list string :=
  match raw with
  | None => []
  | Some l => List.filter HOST_PATTERN (omap as_string l)
  end.

Definition examWindow (row : ExamRow) : ExamWindow :=
  mkExamWindow (e_id row) (e_title row) (e_group_name row) (e_exam_url row) (parseHosts (e_allowed_hosts row))
    (e_starts_at row) (examEnd row)
    (match e_ended_at row with Some z => z <? e_starts_at row | None => false end).

Definition examEpoch (startsAt : Z) : Z := startsAt * 1000 + 999.

Definition examCovers (examGroup groupName : option string) : bool :=
  bool_decide (examGroup = None) || bool_decide (examGroup = groupName).

(** ** Validation *)

Definition NOT_A_LIST : string := "Other sites are a list of domain names".

Fixpoint parse_extra_hosts (ownHost : string) (extra : list string) (l : list jsval) : js_result (list string) :=
  match l with
  | [] => Returns extra
  | JsStr raw :: l' =>
      let host := normalizeDomain raw in
      if String.eqb host "" then parse_extra_hosts ownHost extra l'
      else if negb (HOST_PATTERN host) then Throws (quote_mark +:+ str_take 80 raw +:+ quote_mark +:+ " is not a domain name")
      else if negb (String.eqb host ownHost) && negb (bool_decide (host ∈ extra))
           then parse_extra_hosts ownHost (extra ++ [host]) l'
      else parse_extra_hosts ownHost extra l'
  | _ :: _ => Throws NOT_A_LIST
  end.

Definition parse_start (v : jsval) (nowSeconds : Z) : js_result Z :=
  if is_nullish v then Returns nowSeconds
  else
    match as_integer v with
    | None => Throws "The start is a time in seconds"
    | Some z =>
        _ ← throw_if (z <? nowSeconds - START_GRACE_SECONDS) "The start time has already passed";
        _ ← throw_if (nowSeconds + EXAM_AHEAD_DAYS * 86400 <? z)
              ("An exam can be scheduled at most " +:+ string_of_int EXAM_AHEAD_DAYS +:+ " days ahead");
        Returns (Z.max z nowSeconds)
    end.

Definition parse_minutes (v : jsval) : js_result Z :=
  let bad := Throws ("The length is " +:+ string_of_int EXAM_MIN_MINUTES +:+ " to " +:+ string_of_int EXAM_MAX_MINUTES +:+ " minutes") in
  match as_integer v with
  | Some z => if (z <? EXAM_MIN_MINUTES) || (EXAM_MAX_MINUTES <? z) then bad else Returns z
  | None => bad
  end.

Definition parse_exam_group (v : jsval) (groups : list string) : js_result (option string) :=
  if is_absent v then Returns None
  else
    match as_string v with
    | Some g => if bool_decide (g ∈ groups) then Returns (Some g) else Throws "Workstation group not found"
    | None => Throws "Workstation group not found"
    end.

(** [{ ok: false, error }] is [Throws error]. *)
Definition parseExamInput `{UrlParser} (body : jsval) (groups : list string) (nowSeconds : Z) : js_result ExamInput :=
  _ ← throw_if (negb (is_object body)) "The request body must be an object";
  let title := match js_get body "title" with JsStr s => trim s | _ => ""%string end in
  _ ← throw_if (String.eqb title "") "Give the exam a name";
  _ ← throw_if (EXAM_TITLE <? Z.of_nat (String.length title)) ("The name is at most " +:+ string_of_int EXAM_TITLE +:+ " characters");
  url ← match safeHttpUrl (match js_get body "url" with JsStr s => trim s | _ => ""%string end) with
        | Some u => Returns u
        | None => Throws "The exam address must be a full http(s) address, such as https://exam.example.org/test"
        end;
  ownHost ← match parseURL url with
            | Some u => Returns (toLowerCase (url_hostname u))
            | None => Throws "TypeError: Invalid URL"
            end;
  _ ← throw_if (negb (HOST_PATTERN ownHost)) "The exam address must be on a named site, not an IP address";
  rawHosts ← match js_get body "hosts" with
             | JsUndefined | JsNull => Returns []
             | JsArr l => Returns l
             | _ => Throws NOT_A_LIST
             end;
  extra ← parse_extra_hosts ownHost [] rawHosts;
  _ ← throw_if (EXAM_EXTRA_HOSTS <? Z.of_nat (length extra)) ("At most " +:+ string_of_int EXAM_EXTRA_HOSTS +:+ " other sites");
  groupName ← parse_exam_group (js_get body "groupName") groups;
  startsAt ← parse_start (js_get body "startsAt") nowSeconds;
  minutes ← parse_minutes (js_get body "durationMinutes");
  Returns (mkExamInput title groupName url (ownHost :: extra) startsAt (startsAt + minutes * 60)).

(** ** The exams of an organization *)

Definition openExams (db : D1Database) (tenantId : string) (nowSeconds : Z) : list ExamRow :=
  List.filter (fun e => String.eqb (e_tenant_id e) tenantId && (nowSeconds <? e_ends_at e)
    && match e_ended_at e with None => true | Some z => nowSeconds <? z end) (exam_sessions db).

Inductive Created : Type :=
| CreatedExam (id : string)
| CreateError (error : string) (status : Z).

(** Two scopes share a workstation: one of them is everyone, or they are the same group. *)
Definition scopes_meet (a b : option string) : bool :=
  bool_decide (a = None) || bool_decide (b = None) || bool_decide (a = b).

Definition clashes (input : ExamInput) (e : ExamRow) : bool :=
  (e_starts_at e <? xi_endsAt input) && (xi_startsAt input <? examEnd e) && scopes_meet (e_group_name e) (xi_groupName input).

(** The checks of createExam on the exams it read: the reason to refuse, or none. *)
Definition create_refusal (open : list ExamRow) (input : ExamInput) : option Created :=
  if EXAM_OPEN <=? Z.of_nat (length open)
  then Some (CreateError ("At most " +:+ string_of_int EXAM_OPEN +:+ " exams can be scheduled at once") 409)
  else
    match js_find (clashes input) open with
    | Some c =>
        let where_ := match e_group_name c with
                      | Some g => if String.eqb g "" then "all workstations"%string else "the " +:+ g +:+ " group"
                      | None => "all workstations"%string
                      end in
        Some (CreateError ("This overlaps " +:+ quote_mark +:+ e_title c +:+ quote_mark +:+ " on " +:+ where_
                           +:+ ". Pick another time or group.") 409)
    | None => None
    end.

Definition new_exam (tenantId : string) (input : ExamInput) (userId : option string) (id : string) (nowSeconds : Z) : ExamRow :=
  mkExamRow id tenantId (xi_title input) (xi_groupName input) (xi_url input) (Some (List.map JsStr (xi_hosts input)))
    (xi_startsAt input) (xi_endsAt input) None None userId None nowSeconds.

(** [id] is the random identifier drawn. *)
Definition createExam (db : D1Database) (tenantId : string) (input : ExamInput) (userId : option string) (id : string)
    (nowSeconds : Z) : D1Database * Created :=
  match create_refusal (openExams db tenantId nowSeconds) input with
  | Some refusal => (db, refusal)
  | None => (on_exam_sessions (fun l => l ++ [new_exam tenantId input userId id nowSeconds]) db, CreatedExam id)
  end.

Definition findExam (db : D1Database) (tenantId id : string) : option ExamRow :=
  js_find (fun e => String.eqb (e_tenant_id e) tenantId && String.eqb (e_id e) id) (exam_sessions db).

Definition listExams (db : D1Database) (tenantId : string) : list ExamRow :=
  take 200 (js_sort (fun a b => e_starts_at b - e_starts_at a)
    (List.filter (fun e => String.eqb (e_tenant_id e) tenantId) (exam_sessions db))).

Definition hubExams (db : D1Database) (tenantId : string) (nowSeconds : Z) : list ExamWindow :=
  List.map examWindow (js_sort (fun a b => e_starts_at a - e_starts_at b)
    (List.filter (fun e => String.eqb (e_tenant_id e) tenantId && (nowSeconds - 86400 <? examEnd e)) (exam_sessions db))).

Definition set_ended (nowSeconds : Z) (userId : option string) (e : ExamRow) : ExamRow :=
  mkExamRow (e_id e) (e_tenant_id e) (e_title e) (e_group_name e) (e_exam_url e) (e_allowed_hosts e) (e_starts_at e)
    (e_ends_at e) (Some nowSeconds) (e_finalized_at e) (e_created_by e) userId (e_created_at e).

Inductive Ended : Type :=
| EndedExam (exam : ExamRow)
| EndError (error : string) (status : Z).

Definition endExam (db : D1Database) (tenantId id : string) (userId : option string) (nowSeconds : Z) : D1Database * Ended :=
  match findExam db tenantId id with
  | None => (db, EndError "Exam not found" 404)
  | Some exam =>
      if bool_decide (examPhase exam nowSeconds = ended) then (db, EndError "This exam has already ended" 409)
      else
        (on_exam_sessions (List.map (fun e =>
           if String.eqb (e_id e) id && bool_decide (e_ended_at e = None) then set_ended nowSeconds userId e else e)) db,
         EndedExam (set_ended nowSeconds userId exam))
  end.

(** [ORDER BY client_id]: by character codes. *)
Definition examClients (db : D1Database) (tenantId : string) (groupName : option string) : list (string * option string) :=
  js_sort (fun a b => by_code a.1 b.1)
    (List.map (fun c => (cd_client_id c, cd_group_name c))
      (List.filter (fun c => in_tenant tenantId c
         && match groupName with None => true | Some g => bool_decide (cd_group_name c = Some g) end) (client_devices db))).

(** [for (let i = 0; i < l.length; i += n) ... l.slice(i, i + n)]; the loop ends
    after at most [length l] rounds since n > 0. *)
Fixpoint chunks {A} (fuel n : nat) (l : list A) : list (list A) :=
  match fuel, l with
  | O, _ | _, [] => []
  | S fuel', _ => take n l :: chunks fuel' n (drop n l)
  end.

Definition set_finalized (at_ : Z) (e : ExamRow) : ExamRow :=
  mkExamRow (e_id e) (e_tenant_id e) (e_title e) (e_group_name e) (e_exam_url e) (e_allowed_hosts e) (e_starts_at e)
    (e_ends_at e) (e_ended_at e) (Some at_) (e_created_by e) (e_ended_by e) (e_created_at e).

Definition finishExam (db : D1Database) (exam : ExamWindow) (nowMs : Z) : D1Database * bool :=
  let atMs := Z.max nowMs (examEpoch (x_startsAt exam) + 1) in
  let hit e := String.eqb (e_id e) (x_id exam) && bool_decide (e_finalized_at e = None) in
  if negb (existsb hit (exam_sessions db)) then (db, false)
  else
    let db1 := on_exam_sessions (List.map (fun e => if hit e then set_finalized (atMs `div` 1000) e else e)) db in
    if x_cancelled exam then (db1, true)
    else
      match js_find (fun e => String.eqb (e_id e) (x_id exam)) (exam_sessions db1) with
      | None => (db1, false)
      | Some row =>
          match x_groupName exam with
          | None => (updateTenantBroadcast db1 (e_tenant_id row) None atMs (nowMs `div` 1000), true)
          | Some g =>
              let clients := List.map fst (examClients db1 (e_tenant_id row) (Some g)) in
              (foldl (fun d ids => setClientsBroadcast d (e_tenant_id row) ids None atMs) db1 (chunks (length clients) 90 clients), true)
          end
      end.

Definition recordExamEvents (db : D1Database) (examId : string) (events : list (string * ExamEvent * Z)) : D1Database :=
  on_exam_events (fun l => l ++ List.map (fun '(c, e, at_) => mkExamEvent examId c e at_) events) db.

Definition purgeOldExams (db : D1Database) (nowSeconds : Z) : D1Database * Z :=
  let cutoff := nowSeconds - EXAM_RETENTION_DAYS * 86400 in
  let old e := examEnd e <? cutoff in
  let ids := List.map e_id (List.filter old (exam_sessions db)) in
  let db1 := on_exam_events (List.filter (fun v => negb (bool_decide (ee_exam_id v ∈ ids)))) db in
  (on_exam_sessions (List.filter (fun e => negb (old e))) db1, Z.of_nat (length (List.filter old (exam_sessions db)))).

(** ** The board and the report *)

Record ExamWorkstation : Type := mkExamWorkstation {
  xw_clientId : string;
  xw_groupName : option string;
  xw_onlineAtStart : option bool;
  xw_disconnections : Z;
  xw_offlineSeconds : Z
}.

(** The variables of the loop over one workstation's events. *)
Record Tally : Type := mkTally {
  ty_online : bool;
  ty_offlineSince : Z;
  ty_offlineSeconds : Z;
  ty_disconnections : Z
}.

Definition tally_event (y : Tally) (e : ExamEvent * Z) : Tally :=
  let '(event, at_) := e in
  if bool_decide (event = connect) && negb (ty_online y)
  then mkTally true (ty_offlineSince y) (ty_offlineSeconds y + Z.max 0 (at_ - ty_offlineSince y)) (ty_disconnections y)
  else if bool_decide (event = disconnect) && ty_online y
  then mkTally false at_ (ty_offlineSeconds y) (ty_disconnections y + 1)
  else y.

Definition is_snapshot (e : ExamEvent * Z) : bool :=
  bool_decide (e.1 = start_online) || bool_decide (e.1 = start_offline).

Definition exam_workstation (w : ExamWindow) (nowSeconds : Z) (clientId : string) (groupName : option string)
    (events : list (ExamEvent * Z)) : ExamWorkstation :=
  let started := (x_startsAt w <=? nowSeconds) && negb (x_cancelled w) in
  let until := Z.min (x_endsAt w) nowSeconds in
  let onlineAtStart := option_map (fun e => bool_decide (e.1 = start_online)) (js_find is_snapshot events) in
  let y := foldl tally_event (mkTally (bool_decide (onlineAtStart = Some true)) (x_startsAt w) 0 0) events in
  let total := if started && negb (ty_online y) then ty_offlineSeconds y + Z.max 0 (until - ty_offlineSince y) else ty_offlineSeconds y in
  mkExamWorkstation clientId groupName onlineAtStart (ty_disconnections y) (if started then total else 0).

(** The events of an exam in the order they happened ([ORDER BY at, id]). *)
Definition exam_log (db : D1Database) (examId : string) : list ExamEventRow :=
  js_sort (fun a b => ee_at a - ee_at b) (List.filter (fun v => String.eqb (ee_exam_id v) examId) (exam_events db)).

Definition log_of (log : list ExamEventRow) (clientId : string) : list (ExamEvent * Z) :=
  List.map (fun v => (ee_event v, ee_at v)) (List.filter (fun v => String.eqb (ee_client_id v) clientId) log).

(** The workstations on the board: those the exam covers, then those only its events name. *)
Definition board_groups (clients : list (string * option string)) (examGroup : option string) (log : list ExamEventRow)
    : list (string * option string) :=
  foldl (fun acc v => if existsb (fun '(c, _) => String.eqb c (ee_client_id v)) acc then acc else acc ++ [(ee_client_id v, examGroup)])
    (foldl (fun acc '(c, g) => if existsb (fun '(c', _) => String.eqb c' c) acc
              then List.map (fun '(c', g') => if String.eqb c' c then (c', g) else (c', g')) acc
              else acc ++ [(c, g)]) [] clients) log.

Definition examWorkstations `{Collation} (db : D1Database) (exam : ExamRow) (nowSeconds : Z) : list ExamWorkstation :=
  let w := examWindow exam in
  let log := exam_log db (e_id exam) in
  let groups := board_groups (examClients db (e_tenant_id exam) (e_group_name exam)) (e_group_name exam) log in
  List.map (fun '(c, g) => exam_workstation w nowSeconds c g (log_of log c))
    (js_sort (fun a b => localeCompare a.1 b.1) groups).

(** A cell of the report. *)
Definition csv_formula_start (c : ascii) : bool :=
  is_char "=" c || is_char "+" c || is_char "-" c || is_char "@" c || (code c =? 9) || (code c =? 13).

Fixpoint double_quotes (s : string) : string :=
  match s with
  | ""%string => ""
  | String c s' => if code c =? 34 then String c (String c (double_quotes s')) else String c (double_quotes s')
  end.

Definition csvField (value : string) : string :=
  let safe := match value with
              | String c _ => if csv_formula_start c then String (chr 39) value else value
              | ""%string => value
              end in
  quote_mark +:+ double_quotes safe +:+ quote_mark.

(** ** Broadcasts during an exam *)

Definition running_exams (db : D1Database) (tenantId : string) (nowSeconds : Z) : list ExamRow :=
  List.filter (fun e => e_starts_at e <=? nowSeconds) (openExams db tenantId nowSeconds).

Definition blocking_text (exam : ExamRow) : string :=
  let where_ := match e_group_name exam with
                | Some g => if String.eqb g "" then "all workstations"%string else "the " +:+ g +:+ " group"
                | None => "all workstations"%string
                end in
  quote_mark +:+ e_title exam +:+ quote_mark +:+ " is running on " +:+ where_
  +:+ ". End it on the Exams page first, or send to workstations outside it.".

(** The first of the rows whose group an exam runs on. *)
Fixpoint blocked_row (running : list ExamRow) (rows : list ClientDevice) : option string :=
  match rows with
  | [] => None
  | row :: rows' =>
      match js_find (fun e => bool_decide (e_group_name e = cd_group_name row)) running with
      | Some exam => Some (cd_client_id row +:+ " is in " +:+ quote_mark +:+ e_title exam +:+ quote_mark
                           +:+ ", which is running. End the exam on the Exams page first, or leave it out.")
      | None => blocked_row running rows'
      end
  end.

Definition examBlockingBroadcast (db : D1Database) (tenantId : string) (targets : list string) (nowSeconds : Z) : option string :=
  match running_exams db tenantId nowSeconds with
  | [] => None
  | (first :: _) as running =>
      let everyone := js_find (fun e => bool_decide (e_group_name e = None)) running in
      if bool_decide (is_Some everyone) || bool_decide ("all"%string ∈ targets)
      then Some (blocking_text (default first everyone))
      else
        let named := List.filter (fun t => negb (String.eqb t "all")) targets in
        if (length named =? 0)%nat then None
        else blocked_row running
               (List.filter (fun c => in_tenant tenantId c && bool_decide (cd_client_id c ∈ named)) (client_devices db))
  end.

(** ** No workstation is in two exams at once *)

Lemma examPhase_running row x : examPhase row x = running <-> e_starts_at row <= x < examEnd row.
Proof.
  unfold examPhase. destruct (Z.leb_spec (examEnd row) x), (Z.leb_spec (e_starts_at row) x); split; (done || lia).
Qed.

Lemma scopes_meet_covers a b g : examCovers a g = true -> examCovers b g = true -> scopes_meet a b = true.
Proof.
  unfold examCovers, scopes_meet. rewrite !orb_true_iff, !bool_decide_eq_true. naive_solver.
Qed.

(** Two exams of one organization that share a workstation never run at once. *)
Definition compatible (a b : ExamRow) : Prop :=
  e_tenant_id a = e_tenant_id b -> scopes_meet (e_group_name a) (e_group_name b) = true ->
  forall x, ~ (examPhase a x = running /\ examPhase b x = running).

(** The window of [a] lies in that of [a'], and nothing else about it that matters differs. *)
Definition narrows (a' a : ExamRow) : Prop :=
  e_tenant_id a' = e_tenant_id a /\ e_group_name a' = e_group_name a /\
  forall x, examPhase a' x = running -> examPhase a x = running.

Lemma compatible_narrows a a' b b' : narrows a' a -> narrows b' b -> compatible a b -> compatible a' b'.
Proof.
  intros (T1 & G1 & W1) (T2 & G2 & W2) Hc. unfold compatible. rewrite T1, T2, G1, G2. intros Ht Hs x [H1 H2].
  apply (Hc Ht Hs x). auto.
Qed.

Definition exams_disjoint (l : list ExamRow) : Prop := ForallOrdPairs compatible l.

Lemma disjoint_map f l : (forall e, narrows (f e) e) -> exams_disjoint l -> exams_disjoint (List.map f l).
Proof.
  intros Hf. induction 1 as [|e l He Hl IH]; cbn; constructor; [|done].
  apply Forall_map. revert He. apply Forall_impl. intros e' Hc. by eapply compatible_narrows.
Qed.

Lemma disjoint_filter p l : exams_disjoint l -> exams_disjoint (List.filter p l).
Proof.
  induction 1 as [|e l He Hl IH]; cbn; [constructor|]. destruct (p e); [|done].
  constructor; [|done]. rewrite list.Forall_forall in He |- *. intros e' [? _]%elem_of_bfilter. auto.
Qed.

Lemma disjoint_snoc l e : exams_disjoint l -> (forall e', e' ∈ l -> compatible e' e) -> exams_disjoint (l ++ [e]).
Proof.
  intros Hl He. induction Hl as [|a l Ha Hl IH]; cbn; [repeat constructor|].
  constructor; [|apply IH; intros e' Hin; apply He; by right].
  apply Forall_app. split; [done|]. constructor; [|constructor]. apply He. by left.
Qed.

Lemma narrows_refl e : narrows e e.
Proof. done. Qed.

Lemma narrows_set_ended now u e : e_ended_at e = None -> narrows (set_ended now u e) e.
Proof.
  intros Hn. split; [done|]. split; [done|]. intros x. rewrite !examPhase_running. unfold examEnd. rewrite Hn. cbn. lia.
Qed.

Lemma narrows_set_finalized z e : narrows (set_finalized z e) e.
Proof. done. Qed.

Lemma openExams_iff db t now e :
  e ∈ openExams db t now <-> e ∈ exam_sessions db /\ e_tenant_id e = t /\ now < examEnd e.
Proof.
  unfold openExams, examEnd. rewrite elem_of_bfilter, !andb_true_iff, String.eqb_eq, Z.ltb_lt.
  destruct (e_ended_at e) as [z|]; [rewrite Z.ltb_lt, Z.min_glb_lt_iff|]; naive_solver.
Qed.

Section Reach.
Context `{UrlParser}.

(** One operation at its time: a schedule request, an early end (and the finish
    the route does with it), the hub's finish at the end, the hourly purge. *)
Inductive exam_step : D1Database * Z -> D1Database * Z -> Prop :=
| step_create db clock now t body groups input user id db' created :
    clock <= now -> parseExamInput body groups now = Returns input ->
    createExam db t input user id now = (db', created) -> exam_step (db, clock) (db', now)
| step_end db clock now t id user db' r :
    clock <= now -> endExam db t id user now = (db', r) -> exam_step (db, clock) (db', now)
| step_finish db clock now exam nowMs db' done :
    clock <= now -> finishExam db exam nowMs = (db', done) -> exam_step (db, clock) (db', now)
| step_purge db clock now db' n :
    clock <= now -> purgeOldExams db now = (db', n) -> exam_step (db, clock) (db', now).

Inductive exam_reachable : D1Database * Z -> Prop :=
| exam_init db clock : exam_sessions db = [] -> exam_reachable (db, clock)
| exam_next s s' : exam_reachable s -> exam_step s s' -> exam_reachable s'.

Lemma parse_start_bounds v now z : parse_start v now = Returns z -> now <= z <= now + EXAM_AHEAD_DAYS * 86400.
Proof.
  unfold parse_start. destruct (is_nullish v); [intros [= <-]; unfold EXAM_AHEAD_DAYS; lia|].
  destruct (as_integer v); [|done]. intros H'. invert_returns. unfold EXAM_AHEAD_DAYS in *. bool_to_prop. lia.
Qed.

Lemma parseExamInput_start body groups now input :
  parseExamInput body groups now = Returns input -> now <= xi_startsAt input.
Proof. unfold parseExamInput. intros Hp. invert_returns. subst input. cbn. by eapply parse_start_bounds. Qed.

Lemma createExam_disjoint db t input user id now :
  now <= xi_startsAt input -> exams_disjoint (exam_sessions db) ->
  exams_disjoint (exam_sessions (createExam db t input user id now).1).
Proof.
  intros Hs Hd. unfold createExam, create_refusal. destruct (_ <=? _); [done|].
  destruct (js_find _ _) eqn:Ef; [done|]. cbn. apply disjoint_snoc; [done|].
  intros e He Ht Hm x [H1 H2]. apply examPhase_running in H1, H2. cbn in H2. unfold examEnd in H2. cbn in H2.
  rewrite js_find_None in Ef.
  assert (Hopen : e ∈ openExams db t now) by (apply openExams_iff; split_and!; [done|done|lia]).
  apply Ef in Hopen. unfold clashes in Hopen. cbn in Hm. rewrite Hm in Hopen.
  rewrite andb_true_r, andb_false_iff, !Z.ltb_ge in Hopen. lia.
Qed.

Lemma endExam_disjoint db t id user now :
  exams_disjoint (exam_sessions db) -> exams_disjoint (exam_sessions (endExam db t id user now).1).
Proof.
  intros Hd. unfold endExam. destruct (findExam _ _ _) as [exam|]; [|done].
  destruct (bool_decide _); [done|]. cbn. apply disjoint_map; [|done]. intros e.
  destruct (_ && _) eqn:E; [|done]. bool_to_prop. by apply narrows_set_ended.
Qed.

Lemma chunked_broadcast_sessions t l db at_ :
  exam_sessions (foldl (fun d ids => setClientsBroadcast d t ids None at_) db l) = exam_sessions db.
Proof. revert db; induction l as [|ids l IH]; intros db; [done|]. cbn [foldl]. by rewrite IH. Qed.

Lemma finishExam_sessions db exam nowMs :
  exam_sessions (finishExam db exam nowMs).1 = exam_sessions db \/
  exists f, exam_sessions (finishExam db exam nowMs).1 = List.map f (exam_sessions db) /\ forall e, narrows (f e) e.
Proof.
  unfold finishExam. destruct (negb _); [by left|]. right.
  eexists (fun e => if String.eqb (e_id e) (x_id exam) && bool_decide (e_finalized_at e = None) then set_finalized _ e else e).
  split; [|intros e; destruct (_ && _); done].
  destruct (x_cancelled exam); [done|]. destruct (js_find _ _) as [row|]; [|done].
  destruct (x_groupName exam); [|done]. cbn [fst]. by rewrite chunked_broadcast_sessions.
Qed.

Lemma exam_reachable_disjoint s : exam_reachable s -> exams_disjoint (exam_sessions s.1).
Proof.
  induction 1 as [db clock Hnil|s s' _ IH Hs]; [cbn; rewrite Hnil; constructor|].
  destruct Hs as [db clock now t body groups input user id db' c Hle Hp E|db clock now t id user db' r Hle E
    |db clock now exam nowMs db' d Hle E|db clock now db' n Hle E]; cbn [fst] in *.
  - rewrite <- (f_equal fst E : _ = db'). apply createExam_disjoint; [|done]. by eapply parseExamInput_start.
  - rewrite <- (f_equal fst E : _ = db'). by apply endExam_disjoint.
  - rewrite <- (f_equal fst E : _ = db').
    destruct (finishExam_sessions db exam nowMs) as [->|(f & -> & Hf)]; [done|by apply disjoint_map].
  - injection E as <- _. cbn. by apply disjoint_filter.
Qed.

Lemma disjoint_at_most_one l t g x :
  exams_disjoint l ->
  (length (List.filter (fun e => String.eqb (e_tenant_id e) t && examCovers (e_group_name e) g
     && bool_decide (examPhase e x = running)) l) <= 1)%nat.
Proof.
  induction 1 as [|e l He Hl IH]; cbn [List.filter length]; [lia|].
  destruct (_ && _ && _) eqn:E; [|done]. cbn [length].
  match goal with |- (S (length ?k) <= 1)%nat => enough (k = []) as -> by (cbn; lia) end.
  destruct (List.filter _ l) as [|e' k] eqn:Ek; [done|]. exfalso.
  assert (He' : e' ∈ e' :: k) by left. rewrite <- Ek, elem_of_bfilter in He'. destruct He' as [Hin E'].
  rewrite list.Forall_forall in He. bool_to_prop.
  eapply (He _ Hin); [congruence|by eapply scopes_meet_covers|done].
Qed.

(** C9. No workstation is ever in two exams. In every state the exam
    operations reach, at every moment, at most one running exam of an
    organization covers a given workstation, whichever group it is in, when
    each schedule request is handled before the next one starts. *)
Theorem exams_never_overlap s t g x :
  exam_reachable s ->
  (length (List.filter (fun e => String.eqb (e_tenant_id e) t && examCovers (e_group_name e) g
     && bool_decide (examPhase e x = running)) (exam_sessions s.1)) <= 1)%nat.
Proof. intros Hr. by apply disjoint_at_most_one, exam_reachable_disjoint. Qed.
End Reach.

Definition exam_body (group : jsval) (start : Z) : jsval :=
  JsObj [("title", JsStr "Maths"); ("url", JsStr "https://exam.example.org/test"); ("groupName", group);
         ("startsAt", JsInt start); ("durationMinutes", JsInt 60)]%string.

Definition maths (group : option string) (start : Z) : ExamInput :=
  mkExamInput "Maths" group "https://exam.example.org/test" ["exam.example.org"%string] start (start + 3600).

Lemma exams_never_overlap_witness :
  let db1 := (createExam empty_db "org" (maths None 1000) None "x1" 1000).1 in
  let db2 := (createExam db1 "org" (maths (Some "Lab") 4600) None "x2" 1000).1 in
  (length (exam_sessions db2) = 2)%nat /\
  (length (List.filter (fun e => String.eqb (e_tenant_id e) "org" && examCovers (e_group_name e) (Some "Lab"%string)
     && bool_decide (examPhase e 4600 = running)) (exam_sessions db2)) <= 1)%nat.
Proof.
  intros db1 db2. split; [vm_compute; reflexivity|].
  apply (@exams_never_overlap toy_url (db2, 1000) "org" (Some "Lab"%string) 4600).
  eapply exam_next; [eapply exam_next; [by apply (exam_init empty_db 1000)|]|].
  - eapply (step_create _ _ 1000 "org" (exam_body JsNull 1000) [] (maths None 1000) None "x1" db1 (CreatedExam "x1")); [lia|vm_compute; reflexivity|vm_compute; reflexivity].
  - eapply (step_create _ _ 1000 "org" (exam_body (JsStr "Lab") 4600) ["Lab"%string] (maths (Some "Lab"%string) 4600) None "x2" db2 (CreatedExam "x2")); [lia|vm_compute; reflexivity|vm_compute; reflexivity].
Defined.

(** The check and the insert are separate statements, so two schedule
    requests handled at the same time may each read the exams before the
    other's insert; both are then accepted although they cover the same
    workstations at the same time. *)
Theorem createExam_race :
  exists a b : ExamInput,
    let open := openExams empty_db "org" 1000 in
    create_refusal open a = None /\ create_refusal open b = None /\
    let db := on_exam_sessions (fun l => l ++ [new_exam "org" a None "x1" 1000] ++ [new_exam "org" b None "x2" 1000]) empty_db in
    (length (List.filter (fun e => examCovers (e_group_name e) None && bool_decide (examPhase e 1000 = running))
       (exam_sessions db)) = 2)%nat /\
    (createExam (createExam empty_db "org" a None "x1" 1000).1 "org" b None "x2" 1000).2 <> CreatedExam "x2".
Proof. exists (maths None 1000), (maths None 1000). vm_compute. split_and!; (reflexivity || discriminate). Qed.

(** ** Time offline

    The reference: a workstation is online at a second when the last connection
    or disconnection up to it left it so. *)

Definition status_event (online : bool) (e : ExamEvent * Z) : bool :=
  match e.1 with connect => true | disconnect => false | _ => online end.

Definition online_at (atStart : bool) (events : list (ExamEvent * Z)) (second : Z) : bool :=
  foldl status_event atStart (List.filter (fun e => e.2 <=? second) events).

Definition seconds_between (t u : Z) : list Z := List.map (fun i => t + Z.of_nat i) (List.seq 0 (Z.to_nat (u - t))).

(** The seconds of [t, u) at which the workstation was offline, counted one by one. *)
Definition offline_count (f : Z -> bool) (t u : Z) : Z :=
  Z.of_nat (length (List.filter (fun s => negb (f s)) (seconds_between t u))).

Lemma seconds_split t m u : t <= m <= u -> seconds_between t u = seconds_between t m ++ seconds_between m u.
Proof.
  intros Hm. unfold seconds_between.
  replace (Z.to_nat (u - t)) with (Z.to_nat (m - t) + Z.to_nat (u - m))%nat by lia.
  rewrite List.seq_app, map_app. f_equal. cbn [Nat.add].
  set (k := Z.to_nat (m - t)). replace m with (t + Z.of_nat k) by lia. generalize (Z.to_nat (u - (t + Z.of_nat k))).
  intros n. apply list_eq. intros i. rewrite !list_lookup_fmap. destruct (decide (i < n)%nat).
  - rewrite !lookup_seq_lt by done. cbn. f_equal. lia.
  - rewrite !lookup_seq_ge by lia. done.
Qed.

Lemma elem_of_seconds t u s : s ∈ seconds_between t u <-> t <= s < u.
Proof.
  unfold seconds_between. rewrite list_elem_of_In, in_map_iff. setoid_rewrite in_seq. split.
  - intros (i & <- & Hi). lia.
  - intros Hs. exists (Z.to_nat (s - t)). lia.
Qed.

Lemma offline_split f t m u : t <= m <= u -> offline_count f t u = offline_count f t m + offline_count f m u.
Proof. intros Hm. unfold offline_count. rewrite (seconds_split t m u Hm), List.filter_app, length_app. lia. Qed.

Lemma offline_ext f g t u : (forall s, t <= s < u -> f s = g s) -> offline_count f t u = offline_count g t u.
Proof.
  intros Hfg. unfold offline_count. do 2 f_equal. apply List.filter_ext_in. intros s Hs.
  rewrite Hfg; [done|]. apply elem_of_seconds. by apply list_elem_of_In.
Qed.

Lemma offline_const b t u : t <= u -> offline_count (fun _ => b) t u = if b then 0 else u - t.
Proof.
  intros Hle. unfold offline_count. destruct b; cbn [negb].
  - by induction (seconds_between t u).
  - rewrite bfilter_all by done. unfold seconds_between. rewrite length_map, length_seq. lia.
Qed.

Lemma online_at_cons init e rest s :
  (forall e', e' ∈ rest -> e.2 <= e'.2) ->
  online_at init (e :: rest) s = if e.2 <=? s then online_at (status_event init e) rest s else init.
Proof.
  intros Hr. unfold online_at. cbn [List.filter]. destruct (Z.leb_spec e.2 s) as [Hs|Hs]; [done|].
  enough (List.filter (fun e => e.2 <=? s) rest = []) as -> by done.
  destruct (List.filter _ rest) as [|e' l] eqn:E; [done|]. exfalso.
  assert (Hin : e' ∈ e' :: l) by left. rewrite <- E, elem_of_bfilter in Hin. destruct Hin as [Hin Hle].
  apply Hr in Hin. apply Z.leb_le in Hle. lia.
Qed.

(** Offline seconds once the loop is over and the open period, if any, is closed at [u]. *)
Definition tally_total (y : Tally) (u : Z) : Z :=
  ty_offlineSeconds y + if ty_online y then 0 else Z.max 0 (u - ty_offlineSince y).

Lemma tally_online y e : ty_online (tally_event y e) = status_event (ty_online y) e.
Proof. by destruct e as [[] a], y as [[] ? ? ?]. Qed.

Lemma tally_since y e :
  (ty_online y = false -> ty_offlineSince y <= e.2) ->
  ty_online (tally_event y e) = false -> ty_offlineSince (tally_event y e) <= e.2.
Proof.
  destruct e as [ev a], y as [on since off disc]. unfold tally_event. cbn. intros Hy.
  repeat case_bool_decide; subst; destruct on; cbn; (done || lia || auto).
Qed.

Lemma tally_counts events : forall y t u,
  t <= u -> StronglySorted (fun a b : ExamEvent * Z => a.2 <= b.2) events -> (forall e, e ∈ events -> t <= e.2 <= u) ->
  (ty_online y = false -> ty_offlineSince y <= t) ->
  tally_total (foldl tally_event y events) u =
  ty_offlineSeconds y + (if ty_online y then 0 else t - ty_offlineSince y) + offline_count (online_at (ty_online y) events) t u.
Proof.
  induction events as [|e rest IH]; intros y t u Htu Hs Hb Hy.
  - cbn [foldl]. unfold tally_total. unfold online_at. cbn. rewrite offline_const by done.
    destruct (ty_online y); [lia|]. specialize (Hy eq_refl). lia.
  - inversion Hs as [|? ? Hs' He]; subst. rewrite list.Forall_forall in He.
    assert (Hbe : t <= e.2 <= u) by (apply Hb; left).
    rewrite (offline_split _ t e.2 u Hbe).
    rewrite (offline_ext (online_at (ty_online y) (e :: rest)) (fun _ => ty_online y) t e.2), offline_const by
      (lia || (intros s Hs1; rewrite online_at_cons by done; destruct (Z.leb_spec e.2 s); [lia|done])).
    rewrite (offline_ext (online_at (ty_online y) (e :: rest)) (online_at (status_event (ty_online y) e) rest) e.2 u) by
      (intros s Hs1; rewrite online_at_cons by done; destruct (Z.leb_spec e.2 s); [done|lia]).
    cbn [foldl].
    assert (Hrest : forall e', e' ∈ rest -> e.2 <= e'.2 <= u)
      by (intros e' Hin; split; [by apply He|]; apply Hb; by right).
    rewrite (IH (tally_event y e) e.2 u) by (done || lia || (apply tally_since; intros Hon; specialize (Hy Hon); lia)).
    rewrite tally_online. generalize (offline_count (online_at (status_event (ty_online y) e) rest) e.2 u). intros k.
    destruct e as [ev a], y as [on since off disc]. unfold tally_event, status_event in *.
    repeat case_bool_decide; subst; destruct on; cbn in *; try done; try specialize (Hy eq_refl); try lia; destruct ev; (done || lia).
Qed.

(** The report's minutes offline are the time the workstation was
    offline: the total the code accumulates over the events is the number of
    seconds, from the exam's start to its end or to now, at which the last
    connection or disconnection (or the check at the start) left the
    workstation offline. *)
Theorem exam_workstation_offline w now c g events :
  x_cancelled w = false -> x_startsAt w <= now -> x_startsAt w <= x_endsAt w ->
  StronglySorted (fun a b : ExamEvent * Z => a.2 <= b.2) events ->
  (forall e, e ∈ events -> x_startsAt w <= e.2 <= Z.min (x_endsAt w) now) ->
  let atStart := bool_decide (option_map (fun e => bool_decide (e.1 = start_online)) (js_find is_snapshot events) = Some true) in
  xw_offlineSeconds (exam_workstation w now c g events) =
  offline_count (online_at atStart events) (x_startsAt w) (Z.min (x_endsAt w) now).
Proof.
  intros Hc Hn He Hs Hb atStart. unfold exam_workstation. cbn [xw_offlineSeconds].
  rewrite Hc, (proj2 (Z.leb_le _ _) Hn). cbn [andb negb]. fold atStart.
  pose proof (tally_counts events (mkTally atStart (x_startsAt w) 0 0) (x_startsAt w) (Z.min (x_endsAt w) now)
    ltac:(lia) Hs Hb ltac:(cbn; lia)) as Ht. unfold tally_total in Ht. cbn [ty_offlineSeconds ty_online ty_offlineSince] in Ht.
  destruct (ty_online (foldl _ _ _)); cbn [negb]; destruct atStart; lia.
Qed.

Lemma exam_workstation_offline_witness :
  let w := mkExamWindow "x" "Maths" None "" [] 1000 4600 false in
  let events := [(start_online, 1000); (disconnect, 1010); (connect, 1040); (disconnect, 4590)] in
  xw_offlineSeconds (exam_workstation w 5000 "PC-01" None events) = offline_count (online_at true events) 1000 4600 /\
  xw_offlineSeconds (exam_workstation w 5000 "PC-01" None events) = 40.
Proof.
  intros w events. split; [|vm_compute; reflexivity].
  apply (exam_workstation_offline w 5000 "PC-01"%string None events); [reflexivity|cbn; lia|cbn; lia| |].
  - repeat constructor; cbn; lia.
  - intros e He. unfold events in He. repeat (apply elem_of_cons in He as [He|He]; [rewrite He; cbn; lia|]). by apply not_elem_of_nil in He.
Defined.

(** ** Broadcasts during an exam *)

Lemma running_exams_iff db t now e :
  e ∈ running_exams db t now <-> e ∈ exam_sessions db /\ e_tenant_id e = t /\ examPhase e now = running.
Proof.
  unfold running_exams. rewrite elem_of_bfilter, openExams_iff, Z.leb_le, examPhase_running. naive_solver.
Qed.

Lemma blocked_row_iff running rows :
  blocked_row running rows <> None <->
  exists row e, row ∈ rows /\ e ∈ running /\ e_group_name e = cd_group_name row.
Proof.
  induction rows as [|row rows IH]; cbn; [split; [done|]; intros (? & ? & Hin & _); by apply not_elem_of_nil in Hin|].
  destruct (js_find _ running) as [e|] eqn:E.
  - apply js_find_Some in E as [He E]. bool_to_prop. split; [|done]. intros _. exists row, e. split_and!; [left|done|done].
  - rewrite js_find_None in E. rewrite IH. split.
    + intros (r & e & ? & ? & ?). exists r, e. split_and!; [by right|done|done].
    + intros (r & e & [->|Hin]%elem_of_cons & He & Hg); [|by exists r, e].
      apply E in He. by rewrite bool_decide_eq_true_2 in He.
Qed.

(** A broadcast is refused exactly when it would reach a workstation in a
    running exam: it is addressed to everyone while an exam runs, or an exam
    for everyone runs, or one of the named workstations of the organization is
    in the group of a running exam. *)
Theorem examBlockingBroadcast_iff db t targets now :
  examBlockingBroadcast db t targets now <> None <->
  exists e, e ∈ exam_sessions db /\ e_tenant_id e = t /\ examPhase e now = running /\
    (e_group_name e = None \/ "all"%string ∈ targets \/
     exists c, c ∈ client_devices db /\ cd_tenant_id c = t /\ cd_client_id c ∈ targets /\ cd_client_id c <> "all"%string /\
       cd_group_name c = e_group_name e).
Proof.
  transitivity (exists e, e ∈ running_exams db t now /\
    (e_group_name e = None \/ "all"%string ∈ targets \/
     exists c, c ∈ client_devices db /\ cd_tenant_id c = t /\ cd_client_id c ∈ targets /\ cd_client_id c <> "all"%string /\
       cd_group_name c = e_group_name e)); [|setoid_rewrite running_exams_iff; naive_solver].
  unfold examBlockingBroadcast. destruct (running_exams db t now) as [|first l] eqn:Er.
  { split; [done|]. intros (e & He & _). by apply not_elem_of_nil in He. }
  destruct (_ || _) eqn:E.
  - split; [|done]. intros _. apply orb_true_iff in E as [E|E]; bool_to_prop.
    + destruct E as [e E]. apply js_find_Some in E as [He E]. bool_to_prop. exists e. split; [done|]. by left.
    + exists first. split; [left|]. by right; left.
  - apply orb_false_iff in E as [E1 E2]. bool_to_prop.
    assert (Hno : forall e, e ∈ first :: l -> e_group_name e <> None).
    { intros e He Hg. apply E1. destruct (js_find_is_Some (fun e => bool_decide (e_group_name e = None)) (first :: l) e He) as [y ->]; [|done].
      by apply bool_decide_eq_true. }
    transitivity (exists row e, row ∈ List.filter (fun c => in_tenant t c && bool_decide (cd_client_id c ∈ List.filter (fun x => negb (String.eqb x "all")) targets)) (client_devices db)
       /\ e ∈ first :: l /\ e_group_name e = cd_group_name row).
    + destruct (Nat.eqb_spec (length (List.filter (fun x => negb (String.eqb x "all")) targets)) 0) as [E0|E0]; [|apply blocked_row_iff].
      apply length_zero_iff_nil in E0. rewrite E0. split; [done|]. intros (r & e & Hr & _).
      apply elem_of_bfilter in Hr as [_ Hr]. bool_to_prop. by apply not_elem_of_nil in H0.
    + setoid_rewrite elem_of_bfilter. setoid_rewrite andb_true_iff. setoid_rewrite bool_decide_eq_true. setoid_rewrite elem_of_bfilter.
      unfold in_tenant. setoid_rewrite String.eqb_eq. setoid_rewrite negb_true_iff. setoid_rewrite String.eqb_neq. split.
      * intros (r & e & (Hr & Ht & Hin & Hne) & He & Hg). exists e. split; [done|]. right. right. by exists r.
      * intros (e & He & [Hg|[Ha|(c & ? & ? & ? & ? & ?)]]); [by apply Hno in He|done|]. exists c, e. split_and!; done.
Qed.

(** ** Sending the workstations back *)

Lemma chunks_concat {A} fuel n (l : list A) : (0 < n)%nat -> (length l <= fuel)%nat -> concat (chunks fuel n l) = l.
Proof.
  intros Hn. revert l; induction fuel as [|fuel IH]; intros l Hl; [by destruct l; cbn in *; [|lia]|].
  destruct l as [|x l]; [done|]. cbn [chunks concat]. rewrite IH, take_drop; [done|].
  rewrite length_drop. cbn [length] in *. lia.
Qed.

Lemma chunked_broadcast t ls db at_ :
  client_devices (foldl (fun d ids => setClientsBroadcast d t ids None at_) db ls) =
  List.map (fun c => if in_tenant t c && bool_decide (cd_client_id c ∈ concat ls) then set_broadcast None at_ c else c) (client_devices db).
Proof.
  revert db; induction ls as [|ids ls IH]; intros db; cbn [foldl concat].
  - rewrite <- (map_id (client_devices db)) at 1. apply map_ext. intros c. by rewrite (bool_decide_eq_false_2 (_ ∈ [])), andb_false_r by apply not_elem_of_nil.
  - rewrite IH. cbn [setClientsBroadcast on_client_devices client_devices]. rewrite map_map. apply map_ext. intros c.
    destruct (in_tenant t c) eqn:Et; cbn [andb]; [|by rewrite Et].
    destruct (decide (cd_client_id c ∈ ids)) as [Hi|Hi].
    + rewrite (bool_decide_eq_true_2 _ Hi), (bool_decide_eq_true_2 (_ ∈ ids ++ _)) by (apply elem_of_app; by left).
      change (in_tenant t (set_broadcast None at_ c)) with (in_tenant t c). rewrite Et. cbn [andb]. by destruct (bool_decide _).
    + rewrite (bool_decide_eq_false_2 _ Hi), Et. cbn [andb].
      rewrite (bool_decide_ext (cd_client_id c ∈ ids ++ concat ls) (cd_client_id c ∈ concat ls)); [done|].
      rewrite elem_of_app. naive_solver.
Qed.

Lemma finishExam_finalizes db exam nowMs db' b :
  finishExam db exam nowMs = (db', b) ->
  existsb (fun e => String.eqb (e_id e) (x_id exam) && bool_decide (e_finalized_at e = None)) (exam_sessions db') = false.
Proof.
  unfold finishExam. destruct (existsb _ (exam_sessions db)) eqn:E; cbn [negb]; [|by intros [= <- _]].
  set (hit := fun e => _) in *. 
  set (f := fun e : ExamRow => if hit e then set_finalized (Z.max nowMs (examEpoch (x_startsAt exam) + 1) `div` 1000) e else e).
  assert (Hall : existsb hit (List.map f (exam_sessions db)) = false).
  { apply not_true_iff_false. rewrite existsb_elem. intros (e & (e0 & -> & _)%list_elem_of_fmap & He).
    unfold f in He. destruct (hit e0) eqn:E0; [|congruence]. unfold hit in He. cbn [set_finalized e_finalized_at] in He.
    by rewrite (bool_decide_eq_false_2 (Some _ = None)), andb_false_r in He. }
  set (db1 := on_exam_sessions _ db). assert (H1 : exam_sessions db1 = List.map f (exam_sessions db)) by done.
  destruct (x_cancelled exam); [intros [= <- _]; by rewrite H1|].
  destruct (js_find _ _) as [row|]; [|intros [= <- _]; by rewrite H1].
  destruct (x_groupName exam); intros [= <- _]; [rewrite chunked_broadcast_sessions|]; cbn [updateTenantBroadcast on_tenants exam_sessions]; by rewrite H1.
Qed.

(** An exam is finished once. Whoever finishes it first, a second finish
    changes nothing and says so; and the first one leaves every workstation of
    the exam's group with a reset newer than the exam's own broadcast, so it
    returns to its portal. *)
Theorem finishExam_once db exam nowMs nowMs' g :
  x_groupName exam = Some g -> x_cancelled exam = false ->
  let '(db', finished) := finishExam db exam nowMs in
  finishExam db' exam nowMs' = (db', false) /\
  (finished = true -> exists row, row ∈ exam_sessions db' /\ e_id row = x_id exam /\
     forall c, c ∈ client_devices db' -> cd_tenant_id c = e_tenant_id row -> cd_group_name c = Some g ->
       cd_broadcast_url c = None /\ examEpoch (x_startsAt exam) < cd_broadcast_epoch c).
Proof.
  intros Hg Hc. destruct (finishExam db exam nowMs) as [db' b] eqn:E. split.
  { apply finishExam_finalizes in E. unfold finishExam. by rewrite E. }
  intros ->. unfold finishExam in E. destruct (existsb _ (exam_sessions db)); cbn [negb] in E; [|done].
  rewrite Hc, Hg in E. set (db1 := on_exam_sessions _ db) in E. cbv zeta in E.
  set (at_ := Z.max nowMs (examEpoch (x_startsAt exam) + 1)) in *.
  destruct (js_find _ (exam_sessions db1)) as [row|] eqn:Er; [|done]. injection E as <-.
  apply js_find_Some in Er as [Hrow Hid]. bool_to_prop. exists row. rewrite chunked_broadcast_sessions. split_and!; [done|done|].
  intros c Hin Ht Hgr. rewrite chunked_broadcast in Hin. apply list_elem_of_fmap in Hin as (c0 & -> & Hin).
  rewrite chunks_concat in * by (lia || done).
  assert (Hids : cd_tenant_id c0 = e_tenant_id row -> cd_group_name c0 = Some g ->
    cd_client_id c0 ∈ List.map fst (examClients db1 (e_tenant_id row) (Some g))).
  { intros Ht0 Hg0. apply list_elem_of_fmap. exists (cd_client_id c0, cd_group_name c0). split; [done|].
    unfold examClients. rewrite elem_of_js_sort. apply list_elem_of_fmap. exists c0. split; [done|].
    apply elem_of_bfilter. split; [done|]. unfold in_tenant. rewrite Ht0, String.eqb_refl. cbn. by apply bool_decide_eq_true. }
  destruct (in_tenant (e_tenant_id row) c0 && _) eqn:Eb; [split; [done|cbn [set_broadcast cd_broadcast_epoch]; unfold at_; lia]|]. exfalso.
  rewrite (bool_decide_eq_true_2 _ (Hids Ht Hgr)) in Eb. unfold in_tenant in Eb. by rewrite Ht, String.eqb_refl in Eb.
Qed.

Lemma finishExam_once_witness :
  let db := on_client_devices (fun _ => [mkClientDevice "org:PC-01" "org" "PC-01" 1 None 0 false None None (Some "Lab"%string) None 0 None None None 0 0])
              (createExam empty_db "org" (maths (Some "Lab"%string) 1000) None "x1" 1000).1 in
  let w := mkExamWindow "x1" "Maths" (Some "Lab"%string) "" [] 1000 4600 false in
  let '(db', finished) := finishExam db w 4600000 in
  finished = true /\ finishExam db' w 4600001 = (db', false).
Proof.
  intros db w. pose proof (finishExam_once db w 4600000 4600001 "Lab" eq_refl eq_refl) as Hf.
  destruct (finishExam db w 4600000) as [db' finished] eqn:E.
  split; [vm_compute in E; by injection E as _ <-|]. apply Hf.
Defined.

(** ** A validated exam *)

Lemma parse_extra_hosts_ok own l : forall extra hosts,
  parse_extra_hosts own extra l = Returns hosts ->
  NoDup (own :: extra) -> Forall (fun h => HOST_PATTERN h = true) extra ->
  NoDup (own :: hosts) /\ Forall (fun h => HOST_PATTERN h = true) hosts.
Proof.
  induction l as [|v l IH]; intros extra hosts Hp Hn Hf; cbn in Hp; [injection Hp as <-; done|].
  destruct v; try done. destruct (String.eqb _ "") in Hp; [by eapply IH|].
  destruct (HOST_PATTERN (normalizeDomain s)) eqn:Eh; cbn [negb] in Hp; [|done].
  destruct (negb _ && negb _) eqn:En; [|by eapply IH]. bool_to_prop.
  apply (IH _ _ Hp); [|apply Forall_app; by repeat constructor].
  apply list.NoDup_cons in Hn as [Hn1 Hn2]. apply list.NoDup_cons. rewrite elem_of_app, list_elem_of_singleton. split; [naive_solver|].
  apply list.NoDup_app. split_and!; [done| |apply NoDup_singleton]. intros x Hx ->%list_elem_of_singleton. done.
Qed.

(** A validated exam is well formed: a name of 1 to 120 characters, a
    window of 5 to 600 minutes that starts now or within 90 days, the exam's
    own site first among at most 21 distinct domain names, and a group that
    exists or none. *)
Theorem parseExamInput_valid `{UrlParser} body groups now input :
  parseExamInput body groups now = Returns input ->
  1 <= Z.of_nat (String.length (xi_title input)) <= EXAM_TITLE /\
  now <= xi_startsAt input <= now + EXAM_AHEAD_DAYS * 86400 /\
  EXAM_MIN_MINUTES * 60 <= xi_endsAt input - xi_startsAt input <= EXAM_MAX_MINUTES * 60 /\
  (exists u own, parseURL (xi_url input) = Some u /\ own = toLowerCase (url_hostname u) /\ head (xi_hosts input) = Some own) /\
  NoDup (xi_hosts input) /\ Forall (fun h => HOST_PATTERN h = true) (xi_hosts input) /\
  Z.of_nat (length (xi_hosts input)) <= EXAM_EXTRA_HOSTS + 1 /\
  (forall g, xi_groupName input = Some g -> g ∈ groups).
Proof.
  unfold parseExamInput. intros Hp. invert_returns. bool_to_prop. subst input. cbn [xi_title xi_groupName xi_url xi_hosts xi_startsAt xi_endsAt].
  destruct (parse_extra_hosts_ok _ _ _ _ E6 (NoDup_singleton _) (Forall_nil_2 _)) as [Hnd Hall].
  split. { match goal with Hne : ?t <> ""%string |- _ => destruct t; [done|] end. cbn [String.length] in *. lia. }
  split; [by eapply parse_start_bounds|].
  split.
  { unfold parse_minutes in E10. destruct (as_integer _); [|done]. destruct (_ || _) eqn:Em in E10; [done|]. injection E10 as <-.
    bool_to_prop. unfold EXAM_MIN_MINUTES, EXAM_MAX_MINUTES in *. lia. }
  split. { destruct (parseURL _) as [u|]; [|done]. injection E3 as <-. by exists u, (toLowerCase (url_hostname u)). }
  split; [done|]. split; [by constructor|]. split; [cbn [length]; lia|].
  intros g ->. unfold parse_exam_group in E8. destruct (is_absent _); [done|]. destruct (as_string _); [|done].
  case_bool_decide; [|done]. by injection E8 as ->.
Qed.

Lemma parseExamInput_valid_witness :
  @parseExamInput toy_url (exam_body (JsStr "Lab") 4600) ["Lab"%string] 1000 = Returns (maths (Some "Lab"%string) 4600) /\
  NoDup (xi_hosts (maths (Some "Lab"%string) 4600)) /\ (forall g, xi_groupName (maths (Some "Lab"%string) 4600) = Some g -> g ∈ ["Lab"%string]).
Proof.
  assert (E : @parseExamInput toy_url (exam_body (JsStr "Lab") 4600) ["Lab"%string] 1000 = Returns (maths (Some "Lab"%string) 4600))
    by (vm_compute; reflexivity).
  split; [exact E|]. destruct (@parseExamInput_valid toy_url _ _ _ _ E) as (_ & _ & _ & _ & H1 & _ & _ & H2). split; [exact H1|exact H2].
Defined.
