(* ===== verification/Releases.v ===== *)
(** src/cloudflare-control/src/releases.ts: over-the-air releases, which of
    them an organization is offered and which one a workstation fetches next.

    The version of an offer is always a release version ([offeredReleases_valid]),
    so the functions on offers read its key directly; on any other string
    [versionKey] throws, as in the code. Reading the bucket (syncReleases) is
    modelled by its statements on the tables only. *)
From S2P Require Import Prelude JsString Regex Db Escape.

(** ** Versions *)

Definition DEFAULT_ARCHITECTURE : string := "amd64".

(** [/^[0-9]{1,4}\.[0-9]{1,4}\.[0-9]{1,4}(?:-[0-9A-Za-z.]{1,32})?$/]. *)
Definition RELEASE_VERSION_PATTERN : re :=
  let number := RBetween 1 4 RDigit in
  RCat number (RCat (RChar ".") (RCat number (RCat (RChar ".") (RCat number
    (ROpt (RCat (RChar "-") (RBetween 1 32 (RClass (fun c => is_digit c || is_alpha c || is_char "." c))))))))).

(** [/^[a-z0-9]{2,16}$/]. *)
Definition ARCHITECTURE_PATTERN : re := RBetween 2 16 (RClass (fun c => is_lower c || is_digit c)).

(** [Number(digits)]: the nearest double, ties to even. *)
Definition to_double (n : Z) : Z :=
  if n <? 2 ^ 53 then n
  else
    let unit_ := 2 ^ (Z.log2 n - 52) in
    let q := n `div` unit_ in
    let r := n `mod` unit_ in
    (if (2 * r <? unit_) || ((2 * r =? unit_) && Z.even q) then q else q + 1) * unit_.

Definition js_digits (s : string) : Z := to_double (digits_value s).

Record VersionKey : Type := mkKey { core : list Z; pre : option (list (Z * Z * string)) }.

Definition pre_part (version part : string) : js_result (Z * Z * string) :=
  if String.eqb part "" then Throws (quote_mark +:+ version +:+ quote_mark +:+ " has an empty pre-release identifier")
  else Returns (if str_forallb is_digit part then (0, js_digits part, ""%string) else (1, 0, part)).

Definition versionKey (version : string) : js_result VersionKey :=
  _ ← throw_if (negb (re_test RELEASE_VERSION_PATTERN version)) (quote_mark +:+ version +:+ quote_mark +:+ " is not a release version");
  let dash := indexOf "-" version in
  let numbers s := List.map js_digits (split_on "." s) in
  if dash <? 0 then Returns (mkKey (numbers version) None)
  else
    parts ← result_map (pre_part version) (split_on "." (str_drop (Z.to_nat (dash + 1)) version));
    Returns (mkKey (numbers (str_take (Z.to_nat dash) version)) (Some parts)).

Definition core_at (k : VersionKey) (i : nat) : Z := List.nth i (core k) 0.

Definition cmp_core (i : nat) (a b : VersionKey) : Z := num_cmp (core_at a i) (core_at b i).

(** One pre-release identifier: its type, its number, its text. *)
Definition cmp_part (a b : Z * Z * string) : Z :=
  let '(ta, na, sa) := a in
  let '(tb, nb, sb) := b in
  if num_cmp ta tb =? 0 then (if num_cmp na nb =? 0 then by_code sa sb else num_cmp na nb) else num_cmp ta tb.

Definition cmp_pre (a b : option (list (Z * Z * string))) : Z :=
  match a, b with
  | None, None => 0
  | Some _, None => -1
  | None, Some _ => 1
  | Some l, Some k => list_cmp cmp_part l k
  end.

Definition compare_keys (a b : VersionKey) : Z :=
  if cmp_core 0 a b =? 0 then
    if cmp_core 1 a b =? 0 then
      if cmp_core 2 a b =? 0 then cmp_pre (pre a) (pre b) else cmp_core 2 a b
    else cmp_core 1 a b
  else cmp_core 0 a b.

Definition compareVersions (a b : string) : js_result Z :=
  ka ← versionKey a; kb ← versionKey b; Returns (compare_keys ka kb).

Definition isReleaseVersion (value : string) : bool :=
  match versionKey value with Returns _ => true | Throws _ => false end.

(** The key of a version that is known to be one. *)
Definition key_of (version : string) : VersionKey :=
  match versionKey version with Returns k => k | Throws _ => mkKey [] None end.

Definition cmp_versions (a b : string) : Z := compare_keys (key_of a) (key_of b).

Definition releaseLine (version : string) : string :=
  string_of_int (core_at (key_of version) 0) +:+ "." +:+ string_of_int (core_at (key_of version) 1).

Definition releaseMajor (version : string) : Z := core_at (key_of version) 0.

(** ** Support of a major *)

Definition MAX_RELEASE_MAJOR : Z := 9999.

Definition isReleaseMajor (major : Z) : bool := (0 <=? major) && (major <=? MAX_RELEASE_MAJOR).

Definition effectiveSupportStatus (row : option MajorSupportRow) (now : Z) : SupportStatus :=
  match row with
  | None => supported
  | Some r =>
      match ms_end_of_life_at r with
      | Some eol => if negb (eol =? 0) && (eol <=? now) then end_of_life else ms_status r
      | None => ms_status r
      end
  end.

(** [Map.prototype.get] on the rows of a table keyed by major. *)
Definition listMajorSupport (db : D1Database) (major : Z) : option MajorSupportRow :=
  js_find (fun r => ms_major r =? major) (release_support db).

Definition setMajorSupport (db : D1Database) (major : Z) (status : SupportStatus) (endOfLifeAt : option Z)
    (note : option string) (userId : string) (now : Z) : js_result D1Database :=
  _ ← throw_if (negb (isReleaseMajor major)) (string_of_int major +:+ " is not a major release");
  Returns (on_release_support (fun l =>
    if existsb (fun r => ms_major r =? major) l
    then List.map (fun r =>
      if ms_major r =? major
      then mkMajorSupport major status endOfLifeAt note
             (if bool_decide (ms_end_of_life_at r = endOfLifeAt) then ms_eol_reminder_days r else None) now (Some userId)
      else r) l
    else l ++ [mkMajorSupport major status endOfLifeAt note None now (Some userId)]) db).

(** ** Majors that must be opened *)

Definition listReleaseMajors (db : D1Database) (major : Z) : option bool :=
  option_map rm_open (js_find (fun r => rm_major r =? major) (release_majors db)).

Definition setReleaseMajorOpen (db : D1Database) (major : Z) (open : bool) (userId : string) (now : Z) : D1Database :=
  on_release_majors (fun l =>
    if existsb (fun r => rm_major r =? major) l
    then List.map (fun r => if rm_major r =? major then mkReleaseMajor major open now (Some userId) else r) l
    else l ++ [mkReleaseMajor major open now (Some userId)]) db.

Definition grant_of (tenantId : string) (major : Z) (g : MajorGrantRow) : bool :=
  String.eqb (mg_tenant_id g) tenantId && (mg_major g =? major).

Definition listMajorGrants (db : D1Database) (tenantId : string) (major : Z) : option MajorGrantRow :=
  js_find (grant_of tenantId major) (major_upgrade_grants db).

Definition no_grant (tenantId : string) (major : Z) : MajorGrantRow :=
  mkMajorGrant tenantId major None None None None None None None None None.

(** INSERT ... ON CONFLICT(tenant_id, major) DO UPDATE: [set] writes its columns on the row or on an empty one. *)
Definition upsert_grant (tenantId : string) (major : Z) (set : MajorGrantRow -> MajorGrantRow) (db : D1Database) : D1Database :=
  on_major_upgrade_grants (fun l =>
    if existsb (grant_of tenantId major) l
    then List.map (fun g => if grant_of tenantId major g then set g else g) l
    else l ++ [set (no_grant tenantId major)]) db.

Definition setMajorGrant (db : D1Database) (tenantId : string) (major : Z) (granted : bool) (userId : string) (now : Z) : D1Database :=
  if granted
  then upsert_grant tenantId major (fun g =>
         mkMajorGrant (mg_tenant_id g) (mg_major g) (Some userId) (Some now) (mg_confirmed_by g) (mg_confirmed_at g)
           (mg_requested_by g) (mg_requested_at g) (mg_pilot_group g) (mg_pilot_by g) (mg_pilot_at g)) db
  else on_major_upgrade_grants (List.filter (fun g => negb (grant_of tenantId major g))) db.

Definition confirmMajor (db : D1Database) (tenantId : string) (major : Z) (userId : string) (now : Z) : D1Database :=
  upsert_grant tenantId major (fun g =>
    mkMajorGrant (mg_tenant_id g) (mg_major g) (mg_granted_by g) (mg_granted_at g) (Some userId) (Some now)
      (mg_requested_by g) (mg_requested_at g) (mg_pilot_group g) (mg_pilot_by g) (mg_pilot_at g)) db.

Definition requestMajor (db : D1Database) (tenantId : string) (major : Z) (userId : string) (now : Z) : D1Database :=
  upsert_grant tenantId major (fun g =>
    mkMajorGrant (mg_tenant_id g) (mg_major g) (mg_granted_by g) (mg_granted_at g) (mg_confirmed_by g) (mg_confirmed_at g)
      (Some userId) (Some now) (mg_pilot_group g) (mg_pilot_by g) (mg_pilot_at g)) db.

Definition declineMajorRequest (db : D1Database) (tenantId : string) (major : Z) : D1Database * bool :=
  let hit g := grant_of tenantId major g && bool_decide (mg_requested_at g <> None)
               && bool_decide (mg_granted_at g = None) && bool_decide (mg_confirmed_at g = None) in
  (on_major_upgrade_grants (List.filter (fun g => negb (hit g))) db, existsb hit (major_upgrade_grants db)).

Definition setMajorPilot (db : D1Database) (tenantId : string) (major : Z) (group : option string) (userId : string) (now : Z) : D1Database :=
  upsert_grant tenantId major (fun g =>
    mkMajorGrant (mg_tenant_id g) (mg_major g) (mg_granted_by g) (mg_granted_at g) (mg_confirmed_by g) (mg_confirmed_at g)
      (mg_requested_by g) (mg_requested_at g) group (option_map (fun _ => userId) group) (option_map (fun _ => now) group)) db.

Definition hasMajorPilot (db : D1Database) (tenantId : string) : bool :=
  existsb (fun g => String.eqb (mg_tenant_id g) tenantId && bool_decide (mg_pilot_group g <> None)
    && bool_decide (mg_confirmed_at g = None)) (major_upgrade_grants db).

Definition clear_pilot (g : MajorGrantRow) : MajorGrantRow :=
  mkMajorGrant (mg_tenant_id g) (mg_major g) (mg_granted_by g) (mg_granted_at g) (mg_confirmed_by g) (mg_confirmed_at g)
    (mg_requested_by g) (mg_requested_at g) None None None.

Definition endOrphanedMajorPilots (db : D1Database) (tenantId : string) : D1Database * Z :=
  let names := List.map g_name (List.filter (fun g => String.eqb (g_tenant_id g) tenantId) (workstation_groups db)) in
  let orphaned g := String.eqb (mg_tenant_id g) tenantId
    && match mg_pilot_group g with Some p => negb (bool_decide (p ∈ names)) | None => false end in
  (on_major_upgrade_grants (List.map (fun g => if orphaned g then clear_pilot g else g)) db,
   Z.of_nat (length (List.filter orphaned (major_upgrade_grants db)))).

Definition workstationGroupsIn (db : D1Database) (tenantId : string) (groups : list string) : list (string * string) :=
  omap (fun c => match cd_group_name c with
                 | Some g => if in_tenant tenantId c && bool_decide (g ∈ groups) then Some (cd_client_id c, g) else None
                 | None => None
                 end) (client_devices db).

Inductive MajorAccess : Type := ma_free | ma_closed | ma_requested | ma_available | ma_pilot | ma_confirmed.

#[export] Instance MajorAccess_eq_dec : EqDecision MajorAccess.
Proof. solve_decision. Defined.

(** A nullable number or text that is truthy. *)
Definition truthy_num (o : option Z) : bool := match o with Some z => negb (z =? 0) | None => false end.
Definition truthy_str (o : option string) : bool := match o with Some s => negb (String.eqb s "") | None => false end.

Definition majorAccess (open : option bool) (grant : option MajorGrantRow) : MajorAccess :=
  match open with
  | None => ma_free
  | Some o =>
      if negb o && negb (truthy_num (grant ≫= mg_granted_at))
      then if truthy_num (grant ≫= mg_requested_at) then ma_requested else ma_closed
      else if truthy_num (grant ≫= mg_confirmed_at) then ma_confirmed
      else if truthy_str (grant ≫= mg_pilot_group) then ma_pilot else ma_available
  end.

Definition majorGated (access : MajorAccess) : bool :=
  negb (bool_decide (access = ma_free)) && negb (bool_decide (access = ma_confirmed)).

(** ** The releases table *)

(** The distinct strings of a list in [Array.prototype.sort()] order. *)
Definition releaseArchitectures (column : string) : list string :=
  let listed := List.filter (re_test ARCHITECTURE_PATTERN) (List.map trim (split_on "," column)) in
  let others := js_sort by_code (js_dedup (List.filter (fun a => negb (String.eqb a DEFAULT_ARCHITECTURE)) listed)) in
  DEFAULT_ARCHITECTURE :: others.

Record ReleaseSummary : Type := mkSummary {
  sm_version : string;
  sm_channel : option UpdateChannel;
  sm_kind : ReleaseKind;
  sm_baseVersion : option string;
  sm_securityFloor : string;
  sm_sizeBytes : Z;
  sm_builtAt : string;
  sm_foundAt : Z;
  sm_classifiedAt : option Z;
  sm_revokedAt : option Z;
  sm_architectures : list string
}.

Definition summarize (row : ReleaseRow) : ReleaseSummary :=
  mkSummary (r_version row) (r_channel row) (r_kind row) (r_base_version row) (r_security_floor row) (r_size_bytes row)
    (r_built_at row) (r_found_at row) (r_classified_at row) (r_revoked_at row) (releaseArchitectures (r_architectures row)).

Definition listReleases (db : D1Database) : list ReleaseSummary :=
  List.map summarize (js_sort (fun a b => cmp_versions (r_version b) (r_version a))
    (List.filter (fun row => isReleaseVersion (r_version row)) (releases db))).

Definition findRelease (db : D1Database) (version : string) : option ReleaseRow :=
  js_find (fun r => String.eqb (r_version r) version) (releases db).

(** The INSERT OR IGNORE of syncReleases for one new folder, unclassified, and
    the row that closes a major above every one recorded. [majors] are the
    majors recorded before it. *)
Definition record_release (db : D1Database) (row : ReleaseRow) (majors : list Z) (now : Z) : D1Database :=
  let db1 := on_releases (fun l => if existsb (fun r => String.eqb (r_version r) (r_version row)) l then l else l ++ [row]) db in
  let major := releaseMajor (r_version row) in
  if negb (length majors =? 0)%nat && forallb (fun m => m <? major) majors
  then on_release_majors (fun l => if existsb (fun r => rm_major r =? major) l then l else l ++ [mkReleaseMajor major false now None]) db1
  else db1.

Definition classifyRelease (db : D1Database) (version : string) (channel : option UpdateChannel) (userId : string) (now : Z)
    : D1Database * bool :=
  let hit r := String.eqb (r_version r) version && bool_decide (r_revoked_at r = None) in
  (on_releases (List.map (fun r =>
     if hit r
     then mkReleaseRow (r_version r) channel (r_kind r) (r_base_version r) (r_security_floor r) (r_size_bytes r) (r_built_at r)
            (r_found_at r) (option_map (fun _ => now) channel) (option_map (fun _ => userId) channel) (r_revoked_at r) (r_architectures r)
     else r)) db, existsb hit (releases db)).

Definition stableFeatureReleases (db : D1Database) : list string :=
  js_sort cmp_versions (List.filter isReleaseVersion (List.map r_version
    (List.filter (fun r => bool_decide (r_revoked_at r = None) && bool_decide (r_channel r = Some stable)
       && bool_decide (r_kind r = feature)) (releases db)))).

Definition revokeRelease (db : D1Database) (version : string) (now : Z) : D1Database * bool :=
  let hit r := String.eqb (r_version r) version && bool_decide (r_revoked_at r = None) in
  (on_releases (List.map (fun r =>
     if hit r
     then mkReleaseRow (r_version r) None (r_kind r) (r_base_version r) (r_security_floor r) (r_size_bytes r) (r_built_at r)
            (r_found_at r) (r_classified_at r) (r_classified_by r) (Some now) (r_architectures r)
     else r)) db, existsb hit (releases db)).

(** ** Offers *)

Record ReleaseOffer : Type := mkOffer {
  ro_version : string;
  ro_kind : ReleaseKind;
  ro_sizeBytes : Z;
  ro_classifiedAt : Z;
  (** Absent means supported. *)
  ro_support : SupportStatus;
  ro_gated : bool;
  ro_pilotGroup : option string;
  ro_lineOnly : bool;
  ro_approved : bool
}.

Definition offer_channels (channel : option UpdateChannel) : list UpdateChannel :=
  match channel with Some beta => [stable; beta] | _ => [stable] end.

Definition in_channels (channels : list UpdateChannel) (r : ReleaseRow) : bool :=
  match r_channel r with Some c => bool_decide (c ∈ channels) | None => false end.

(** The rows the query and the filter keep. *)
Definition offered_rows (db : D1Database) (channels : list UpdateChannel) (architecture : string) : list ReleaseRow :=
  List.filter (fun r => isReleaseVersion (r_version r) && bool_decide (architecture ∈ releaseArchitectures (r_architectures r)))
    (List.filter (fun r => bool_decide (r_revoked_at r = None) && (bool_decide (r_kind r = security) || in_channels channels r))
      (releases db)).

Definition offer_of (db : D1Database) (tenantId : option string) (now : Z) (lines : list string) (r : ReleaseRow) : ReleaseOffer :=
  let major := releaseMajor (r_version r) in
  let grant := match tenantId with
               | Some t => if String.eqb t "" then None else listMajorGrants db t major
               | None => None
               end in
  let access := majorAccess (listReleaseMajors db major) grant in
  mkOffer (r_version r) (r_kind r) (r_size_bytes r)
    (match r_kind r with security => r_found_at r | feature => default 0 (r_classified_at r) end)
    (effectiveSupportStatus (listMajorSupport db major) now)
    (majorGated access)
    (if bool_decide (access = ma_pilot) then grant ≫= mg_pilot_group else None)
    (bool_decide (r_kind r = security) && negb (bool_decide (releaseLine (r_version r) ∈ lines)))
    (bool_decide (access = ma_confirmed) || bool_decide (access = ma_pilot)).

Definition offeredReleases (db : D1Database) (channel : option UpdateChannel) (tenantId : option string) (now : Z)
    (architecture : string) : list ReleaseOffer :=
  let channels := offer_channels channel in
  let rows := offered_rows db channels architecture in
  let lines := List.map (fun r => releaseLine (r_version r))
    (List.filter (fun r => negb (bool_decide (r_kind r = security)) && in_channels channels r) rows) in
  js_sort (fun a b => cmp_versions (ro_version b) (ro_version a)) (List.map (offer_of db tenantId now lines) rows).

(** ** What a workstation may take *)

(** The first filter of eligibleReleases: [major] and [line] of the image it runs. *)
Definition is_supported_for (major : Z) (line : option string) (r : ReleaseOffer) : bool :=
  if bool_decide (ro_support r = end_of_life) then false
  else if ro_lineOnly r && negb (bool_decide (Some (releaseLine (ro_version r)) = line)) then false
  else negb (bool_decide (ro_support r = security_only)
             && (negb (bool_decide (ro_kind r = security)) || negb (releaseMajor (ro_version r) =? major))).

(** The second one: a gated major above its own only through the pilot of its group. *)
Definition is_allowed_for (major : Z) (group : option string) (r : ReleaseOffer) : bool :=
  negb (ro_gated r && (major <? releaseMajor (ro_version r))
        && negb (truthy_str (ro_pilotGroup r) && bool_decide (group <> None) && bool_decide (ro_pilotGroup r = group))).

(** [Math.min(...l)] of a nonempty list. *)
Definition list_min (l : list Z) (d : Z) : Z := match l with [] => d | x :: l' => foldl Z.min x l' end.

Definition eligibleReleases (releases : list ReleaseOffer) (running group : option string) : list ReleaseOffer :=
  match running with
  | Some v =>
      if isReleaseVersion v then
        let major := releaseMajor v in
        let supported := List.filter (is_supported_for major (Some (releaseLine v))) releases in
        let allowed := List.filter (is_allowed_for major group) supported in
        let newerInMajor := existsb (fun r => (releaseMajor (ro_version r) =? major) && (0 <? cmp_versions (ro_version r) v)) allowed in
        let higher := List.filter (fun m => major <? m) (List.map (fun r => releaseMajor (ro_version r)) supported) in
        let nextMajor := if newerInMajor || (length higher =? 0)%nat then major else list_min higher major in
        List.filter (fun r => releaseMajor (ro_version r) <=? nextMajor) allowed
      else List.filter (is_allowed_for (-1) group) (List.filter (is_supported_for (-1) None) releases)
  | None => List.filter (is_allowed_for (-1) group) (List.filter (is_supported_for (-1) None) releases)
  end.

Definition newestOffered (releases : list ReleaseOffer) (group : option string) : option ReleaseOffer :=
  head (eligibleReleases releases None group).

Definition releaseOfMajorOffered (db : D1Database) (channel : option UpdateChannel) (major now : Z) : bool :=
  existsb (fun r => releaseMajor (ro_version r) =? major) (offeredReleases db channel None now DEFAULT_ARCHITECTURE).

Definition offeredRelease (db : D1Database) (channel : option UpdateChannel) (tenantId : string) (now : Z) : option ReleaseOffer :=
  newestOffered (offeredReleases db channel (Some tenantId) now DEFAULT_ARCHITECTURE) None.

Definition securityReleaseFor (releases : list ReleaseOffer) (running group : option string) : option ReleaseOffer :=
  match running with
  | Some v =>
      if isReleaseVersion v
      then js_find (fun r => bool_decide (ro_kind r = security) && String.eqb (releaseLine (ro_version r)) (releaseLine v)
                             && (0 <? cmp_versions (ro_version r) v)) (eligibleReleases releases running group)
      else None
  | None => None
  end.

Definition installsByItself (release : ReleaseOffer) (running : option string) : bool :=
  match running with
  | Some v =>
      if negb (isReleaseVersion v) || (cmp_versions (ro_version release) v <=? 0) then false
      else
        match ro_kind release with
        | security => String.eqb (releaseLine (ro_version release)) (releaseLine v)
        | feature =>
            let major := releaseMajor (ro_version release) in
            if major =? releaseMajor v then true else (releaseMajor v <? major) && ro_approved release
        end
  | None => false
  end.

Record WorkstationOffer : Type := mkWorkstationOffer { wo_release : option ReleaseOffer; wo_security : option ReleaseOffer }.

Definition workstationOffer (releases : list ReleaseOffer) (running group : option string) : WorkstationOffer :=
  mkWorkstationOffer (head (eligibleReleases releases running group)) (securityReleaseFor releases running group).

Definition updateTargetFor (releases : list ReleaseOffer) (running group : option string) : option ReleaseOffer :=
  match running with
  | Some v =>
      if isReleaseVersion v
      then
        let o := workstationOffer releases running group in
        let target := match wo_security o with Some s => Some s | None => wo_release o end in
        match target with
        | Some t => if 0 <? cmp_versions (ro_version t) v then Some t else None
        | None => None
        end
      else None
  | None => None
  end.

(** ** Security releases not yet everywhere *)

Record PendingSecurityRelease : Type := mkPending { ps_version : string; ps_offeredAt : Z; ps_workstations : Z }.

Definition count_pending (pending : list PendingSecurityRelease) (s : ReleaseOffer) : list PendingSecurityRelease :=
  if existsb (fun p => String.eqb (ps_version p) (ro_version s)) pending
  then List.map (fun p => if String.eqb (ps_version p) (ro_version s)
                          then mkPending (ps_version p) (ps_offeredAt p) (ps_workstations p + 1) else p) pending
  else pending ++ [mkPending (ro_version s) (ro_classifiedAt s) 1].

(** [devices]: the image and the group of each workstation. *)
Definition securityReleasesPending (releases : list ReleaseOffer) (devices : list (option string * option string))
    : list PendingSecurityRelease :=
  js_sort (fun a b => cmp_versions (ps_version b) (ps_version a))
    (foldl (fun pending '(image, group) =>
       match securityReleaseFor releases image group with
       | Some s => count_pending pending s
       | None => pending
       end) [] devices).

Definition sameUpdateReport (a b : option UpdateReport) : bool := bool_decide (a = b).

(** ** The order of versions *)

Lemma cmp_part_strict : StrictCmp cmp_part.
Proof.
  assert (Hs : StrictCmp (fun a b : Z * Z * string =>
    if num_cmp a.1.1 b.1.1 =? 0 then (if num_cmp a.1.2 b.1.2 =? 0 then by_code a.2 b.2 else num_cmp a.1.2 b.1.2) else num_cmp a.1.1 b.1.1)).
  { apply strict_cmp_lex; [apply (strict_cmp_map (fun a => a.1.1)), num_cmp_strict|].
    apply strict_cmp_lex; [apply (strict_cmp_map (fun a => a.1.2)), num_cmp_strict|].
    apply (strict_cmp_map snd), by_code_strict. }
  destruct Hs as [Ha Ht]. constructor.
  - intros [[t1 n1] s1] [[t2 n2] s2]. apply (Ha (t1, n1, s1) (t2, n2, s2)).
  - intros [[t1 n1] s1] [[t2 n2] s2] [[t3 n3] s3]. apply (Ht (t1, n1, s1) (t2, n2, s2) (t3, n3, s3)).
Qed.

Lemma cmp_pre_strict : StrictCmp cmp_pre.
Proof.
  destruct (list_cmp_strict cmp_part cmp_part_strict) as [Ha Ht]. constructor.
  - intros [l|] [k|]; cbn; (apply Ha || lia).
  - intros [l|] [k|] [m|]; cbn; (apply Ht || lia).
Qed.

Lemma compare_keys_strict : StrictCmp compare_keys.
Proof.
  assert (Hc : forall i, StrictCmp (cmp_core i)) by (intros i; apply (strict_cmp_map (fun k => core_at k i)), num_cmp_strict).
  unfold compare_keys. do 3 (apply strict_cmp_lex; [apply Hc|]). apply (strict_cmp_map pre), cmp_pre_strict.
Qed.

Lemma cmp_versions_strict : StrictCmp cmp_versions.
Proof. apply (strict_cmp_map key_of), compare_keys_strict. Qed.

Lemma compareVersions_valid a b :
  isReleaseVersion a = true -> isReleaseVersion b = true -> compareVersions a b = Returns (cmp_versions a b).
Proof.
  unfold isReleaseVersion, compareVersions, cmp_versions, key_of.
  destruct (versionKey a), (versionKey b); done.
Qed.

Lemma num_cmp_0 x y : num_cmp x y = 0 -> x = y.
Proof. unfold num_cmp. destruct (Z.eqb_spec x y); [done|]. by destruct (x <? y). Qed.

Lemma num_cmp_le x y : num_cmp x y <= 0 <-> x <= y.
Proof. unfold num_cmp. destruct (Z.eqb_spec x y), (Z.ltb_spec x y); lia. Qed.

(** A newer version is not of a lower major. *)
Lemma newer_major a b : 0 <= cmp_versions a b -> releaseMajor b <= releaseMajor a.
Proof.
  unfold cmp_versions, compare_keys, releaseMajor, cmp_core.
  pose proof (num_cmp_le (core_at (key_of b) 0) (core_at (key_of a) 0)) as Hle.
  rewrite (sc_anti (StrictCmp := num_cmp_strict) (core_at (key_of a) 0)) in Hle.
  destruct (Z.eqb_spec (num_cmp (core_at (key_of a) 0) (core_at (key_of b) 0)) 0); lia.
Qed.

(** Versions are ordered. On release versions compareVersions never
    throws; it is antisymmetric and transitive, so sorting and taking the first
    is taking the newest; and versions that compare equal are of the same line,
    so they are never of different majors. *)
Theorem compareVersions_order :
  (forall a b, isReleaseVersion a = true -> isReleaseVersion b = true ->
     compareVersions a b = Returns (cmp_versions a b)) /\
  (forall a b, cmp_versions b a = - cmp_versions a b) /\
  (forall a b c, cmp_versions a b <= 0 -> cmp_versions b c <= 0 -> cmp_versions a c <= 0) /\
  (forall a b, cmp_versions a b = 0 -> releaseLine a = releaseLine b /\ releaseMajor a = releaseMajor b).
Proof.
  split; [exact compareVersions_valid|]. destruct cmp_versions_strict as [Ha Ht]. split; [exact Ha|]. split; [exact Ht|].
  intros a b. unfold cmp_versions, compare_keys, releaseLine, releaseMajor.
  destruct (Z.eqb_spec (cmp_core 0 (key_of a) (key_of b)) 0) as [E0|E0]; [|done].
  destruct (Z.eqb_spec (cmp_core 1 (key_of a) (key_of b)) 0) as [E1|E1]; [|done]. intros _.
  apply num_cmp_0 in E0, E1. by rewrite E0, E1.
Qed.

Example version_examples :
  List.map (fun '(a, b) => compareVersions a b)
    [("2.6.0-rc1", "2.6.0"); ("2.6.0", "2.6.1"); ("10.0.0", "9.9.9"); ("1.0.0-2", "1.0.0-10"); ("1.0.0-2", "1.0.0-a")]%string
  = [Returns (-1); Returns (-1); Returns 1; Returns (-1); Returns (-1)] /\
  isReleaseVersion "1.0.0-a..b" = false /\ isReleaseVersion "1.0" = false.
Proof. vm_compute. split_and!; reflexivity. Qed.

(** Numeric identifiers past 2^53 are compared as doubles: these two differ and compare equal. *)
Example long_numbers_collide :
  compareVersions "1.0.0-9007199254740992" "1.0.0-9007199254740993" = Returns 0.
Proof. vm_compute. reflexivity. Qed.

(** ** What a workstation is moved to *)

Lemma list_min_spec l d x : x ∈ l -> list_min l d <= x.
Proof.
  destruct l as [|y l]; [by intros ?%not_elem_of_nil|]. cbn.
  assert (Hf : forall l y, foldl Z.min y l <= y /\ forall z, z ∈ l -> foldl Z.min y l <= z).
  { clear. induction l as [|w l IH]; intros y; cbn; [split; [lia|]; intros z Hz; by apply not_elem_of_nil in Hz|].
    destruct (IH (Z.min y w)) as [H1 H2]. split; [lia|]. intros z [->|Hz]%elem_of_cons; [lia|auto]. }
  destruct (Hf l y) as [H1 H2]. intros [->|Hx]%elem_of_cons; auto.
Qed.

Lemma elem_of_eligible releases v group r :
  isReleaseVersion v = true -> r ∈ eligibleReleases releases (Some v) group ->
  r ∈ releases /\ is_supported_for (releaseMajor v) (Some (releaseLine v)) r = true /\
  is_allowed_for (releaseMajor v) group r = true /\
  (releaseMajor v < releaseMajor (ro_version r) ->
     (forall r', r' ∈ releases -> is_supported_for (releaseMajor v) (Some (releaseLine v)) r' = true ->
        is_allowed_for (releaseMajor v) group r' = true -> releaseMajor (ro_version r') = releaseMajor v ->
        cmp_versions (ro_version r') v <= 0) /\
     (forall r', r' ∈ releases -> is_supported_for (releaseMajor v) (Some (releaseLine v)) r' = true ->
        releaseMajor v < releaseMajor (ro_version r') -> releaseMajor (ro_version r) <= releaseMajor (ro_version r'))).
Proof.
  intros Hv. unfold eligibleReleases. rewrite Hv.
  rewrite !elem_of_bfilter. intros [[[Hr Hs] Ha] Hn]. do 3 (split; [done|]). intros Hm. apply Z.leb_le in Hn.
  destruct (existsb _ _) eqn:Ex; cbn [orb] in Hn; [lia|].
  match type of Hn with context [if ?b then _ else _] => destruct b eqn:El end; [lia|].
  split.
  - intros r' Hr' Hs' Ha' Hm'. rewrite <- not_true_iff_false, existsb_elem in Ex.
    destruct (Z.le_gt_cases (cmp_versions (ro_version r') v) 0) as [|Hgt]; [done|]. exfalso. apply Ex. exists r'.
    rewrite !elem_of_bfilter, Hm', Z.eqb_refl. split; [done|]. by apply Z.ltb_lt.
  - intros r' Hr' Hs' Hm'. etransitivity; [exact Hn|]. apply list_min_spec, elem_of_bfilter.
    split; [|by apply Z.ltb_lt]. apply list_elem_of_fmap. exists r'. split; [done|]. by apply elem_of_bfilter.
Qed.

Lemma updateTarget_eligible releases v group r :
  updateTargetFor releases (Some v) group = Some r ->
  isReleaseVersion v = true /\ r ∈ eligibleReleases releases (Some v) group /\ 0 < cmp_versions (ro_version r) v.
Proof.
  unfold updateTargetFor, workstationOffer, securityReleaseFor. destruct (isReleaseVersion v); [|done].
  cbn [wo_security wo_release]. intros Ht.
  destruct (js_find _ _) as [s|] eqn:Es.
  - destruct (Z.ltb_spec 0 (cmp_versions (ro_version s) v)); [|done]. injection Ht as <-. apply js_find_Some in Es as [? _]. done.
  - destruct (eligibleReleases releases (Some v) group) as [|x l]; [done|]. cbn in Ht.
    destruct (Z.ltb_spec 0 (cmp_versions (ro_version x) v)); [|done]. injection Ht as <-. split_and!; [done|left|done].
Qed.

(** C4. What a workstation is moved to is safe. The release it fetches is one
    its organization is offered and strictly newer than what it runs; it is not
    of an end-of-life major, of a security-only major only as a security
    release of the major it runs, of a closed major above its own only through
    the pilot of its own group, and of a line-only security release only on its
    own line. It changes major only from the newest release of its own major it
    may take, and only to the next major that has a supported release. *)
Theorem updateTargetFor_safe releases v group r :
  updateTargetFor releases (Some v) group = Some r ->
  r ∈ releases /\ 0 < cmp_versions (ro_version r) v /\ releaseMajor v <= releaseMajor (ro_version r) /\
  ro_support r <> end_of_life /\
  (ro_support r = security_only -> ro_kind r = security /\ releaseMajor (ro_version r) = releaseMajor v) /\
  (ro_lineOnly r = true -> releaseLine (ro_version r) = releaseLine v) /\
  (ro_gated r = true -> releaseMajor v < releaseMajor (ro_version r) -> group <> None /\ ro_pilotGroup r = group) /\
  (releaseMajor v < releaseMajor (ro_version r) ->
     (forall r', r' ∈ releases -> is_supported_for (releaseMajor v) (Some (releaseLine v)) r' = true ->
        is_allowed_for (releaseMajor v) group r' = true -> releaseMajor (ro_version r') = releaseMajor v ->
        cmp_versions (ro_version r') v <= 0) /\
     (forall r', r' ∈ releases -> is_supported_for (releaseMajor v) (Some (releaseLine v)) r' = true ->
        releaseMajor v < releaseMajor (ro_version r') -> releaseMajor (ro_version r) <= releaseMajor (ro_version r'))).
Proof.
  intros (Hv & Hr & Hc)%updateTarget_eligible. apply elem_of_eligible in Hr as (Hin & Hs & Ha & Hnext); [|done].
  split; [done|]. split; [done|]. split; [apply newer_major; lia|].
  unfold is_supported_for in Hs. case_bool_decide as He; [done|].
  destruct (ro_lineOnly r && _) eqn:El; [done|]. apply negb_true_iff, andb_false_iff in Hs.
  split; [done|]. split.
  { intros Hso. destruct Hs as [Hs|Hs]; [by rewrite bool_decide_eq_true_2 in Hs|]. by bool_to_prop. }
  split. { intros Hl. rewrite Hl in El. cbn in El. bool_to_prop. congruence. }
  split; [|exact Hnext].
  intros Hg Hm. unfold is_allowed_for in Ha. rewrite Hg, (proj2 (Z.ltb_lt _ _) Hm) in Ha. cbn in Ha.
  rewrite negb_involutive in Ha. by bool_to_prop.
Qed.

Definition an_offer (v : string) (k : ReleaseKind) (gated : bool) : ReleaseOffer :=
  mkOffer v k 1 1 supported gated None false false.

Lemma updateTargetFor_safe_witness :
  let offers := [an_offer "3.0.0" feature false; an_offer "2.0.0" feature true; an_offer "1.5.0" feature false;
                 an_offer "1.4.2" security false]%string in
  updateTargetFor offers (Some "1.4.0"%string) None = Some (an_offer "1.4.2" security false) /\
  0 < cmp_versions "1.4.2" "1.4.0" /\
  updateTargetFor offers (Some "1.4.2"%string) None = Some (an_offer "1.5.0" feature false) /\
  updateTargetFor offers (Some "1.5.0"%string) None = None.
Proof.
  intros offers.
  assert (E : updateTargetFor offers (Some "1.4.0"%string) None = Some (an_offer "1.4.2" security false)) by (vm_compute; reflexivity).
  split; [exact E|]. split; [exact (proj1 (proj2 (updateTargetFor_safe offers _ None _ E)))|]. split; vm_compute; reflexivity.
Defined.

(** Newest first, as offeredReleases gives them. *)
Definition newest_first_offers (l : list ReleaseOffer) : Prop :=
  StronglySorted (fun a b => cmp_versions (ro_version b) (ro_version a) <= 0) l.

Lemma bfilter_sorted {A} (R : A -> A -> Prop) (p : A -> bool) l : StronglySorted R l -> StronglySorted R (List.filter p l).
Proof.
  induction 1 as [|x l Hl IH Hx]; cbn; [constructor|]. destruct (p x); [|done]. constructor; [done|].
  by apply bfilter_Forall.
Qed.

Lemma eligible_sorted releases v group :
  newest_first_offers releases -> newest_first_offers (eligibleReleases releases v group).
Proof.
  intros Hs. unfold newest_first_offers, eligibleReleases.
  destruct v as [v|]; [destruct (isReleaseVersion v)|]; cbv zeta; by repeat apply bfilter_sorted.
Qed.

(** A workstation is never stuck behind what it may take: when some
    release it may take is newer than what it runs, it has a target, and the
    target is a security release of its line whenever there is a newer one it
    may take, and otherwise at least as new as every release it may take. *)
Theorem updateTargetFor_progress releases v group r :
  newest_first_offers releases -> isReleaseVersion v = true ->
  r ∈ eligibleReleases releases (Some v) group -> 0 < cmp_versions (ro_version r) v ->
  exists t, updateTargetFor releases (Some v) group = Some t /\
    (ro_kind r = security /\ releaseLine (ro_version r) = releaseLine v ->
       ro_kind t = security /\ releaseLine (ro_version t) = releaseLine v) /\
    (securityReleaseFor releases (Some v) group = None -> cmp_versions (ro_version r) (ro_version t) <= 0).
Proof.
  intros Hs Hv Hr Hc. pose proof (eligible_sorted releases (Some v) group Hs) as Hsort.
  unfold updateTargetFor, workstationOffer, securityReleaseFor. rewrite Hv. cbn [wo_security wo_release].
  destruct (js_find _ (eligibleReleases releases (Some v) group)) as [s|] eqn:Es.
  - apply js_find_Some in Es as [_ Es]. bool_to_prop. exists s.
    rewrite (proj2 (Z.ltb_lt _ _)) by done. split_and!; done.
  - destruct (eligibleReleases releases (Some v) group) as [|x l] eqn:El; [by apply not_elem_of_nil in Hr|]. cbn [head].
    assert (Hx : cmp_versions (ro_version r) (ro_version x) <= 0).
    { inversion Hsort as [|? ? _ Hall]; subst. rewrite list.Forall_forall in Hall.
      apply elem_of_cons in Hr as [->|Hr]; [|by apply Hall].
      pose proof (sc_anti (StrictCmp := cmp_versions_strict) (ro_version x) (ro_version x)). lia. }
    assert (Hxv : 0 < cmp_versions (ro_version x) v).
    { destruct cmp_versions_strict as [Ha Ht]. destruct (Z.lt_ge_cases 0 (cmp_versions (ro_version x) v)) as [|Hle]; [done|].
      pose proof (Ht _ _ _ Hx Hle). lia. }
    exists x. rewrite (proj2 (Z.ltb_lt _ _) Hxv). split_and!; [done| |done].
    intros [Hk Hl]. exfalso. rewrite js_find_None in Es. apply Es in Hr.
    by rewrite (bool_decide_eq_true_2 _ Hk), Hl, String.eqb_refl, (proj2 (Z.ltb_lt _ _) Hc) in Hr.
Qed.

Lemma updateTargetFor_progress_witness :
  let offers := [an_offer "1.5.0" feature false; an_offer "1.4.2" security false]%string in
  exists t, updateTargetFor offers (Some "1.4.0"%string) None = Some t /\
    (ro_kind (an_offer "1.4.2" security false) = security /\ releaseLine "1.4.2" = releaseLine "1.4.0" ->
       ro_kind t = security /\ releaseLine (ro_version t) = releaseLine "1.4.0").
Proof.
  intros offers.
  destruct (updateTargetFor_progress offers "1.4.0" None (an_offer "1.4.2" security false)) as (t & H1 & H2 & _).
  - repeat constructor; vm_compute; discriminate.
  - vm_compute. reflexivity.
  - unfold offers. vm_compute. right. left.
  - vm_compute. reflexivity.
  - exists t. split; [exact H1|exact H2].
Defined.

(** ** What an organization is offered *)

Lemma elem_of_offered db channel tenant now arch o :
  o ∈ offeredReleases db channel tenant now arch ->
  exists lines r, o = offer_of db tenant now lines r /\ r ∈ releases db /\ r_revoked_at r = None /\ isReleaseVersion (r_version r) = true /\
    (r_kind r = security \/ in_channels (offer_channels channel) r = true) /\ arch ∈ releaseArchitectures (r_architectures r).
Proof.
  unfold offeredReleases. rewrite elem_of_js_sort. intros (r & -> & Hr)%list_elem_of_fmap.
  unfold offered_rows in Hr. rewrite !elem_of_bfilter in Hr. destruct Hr as [[Hr E1] E2].
  apply andb_true_iff in E1 as [Er Ek], E2 as [Ev Ea]. apply orb_true_iff in Ek. rewrite bool_decide_eq_true in Ek. bool_to_prop.
  eexists _, r. split_and!; done.
Qed.

Lemma offeredReleases_valid db channel tenant now arch o :
  o ∈ offeredReleases db channel tenant now arch -> isReleaseVersion (ro_version o) = true.
Proof. by intros (lines & r & -> & _ & _ & Hv & _)%elem_of_offered. Qed.

Lemma offeredReleases_newest_first db channel tenant now arch : newest_first_offers (offeredReleases db channel tenant now arch).
Proof.
  apply js_sort_sorted, strict_cmp_comparator. destruct cmp_versions_strict as [Ha Ht]. constructor.
  - intros x y. apply Ha.
  - intros x y z H1 H2. by eapply Ht.
Qed.

(** A major that has a row is confirmed or piloted only on an opened or granted major; else it is closed. *)
Lemma majorAccess_gate o grant :
  (exists g, grant = Some g /\ (o = true \/ truthy_num (mg_granted_at g) = true) /\
     (majorAccess (Some o) grant = ma_confirmed /\ truthy_num (mg_confirmed_at g) = true \/
      majorAccess (Some o) grant = ma_pilot /\ truthy_str (mg_pilot_group g) = true)) \/
  (majorAccess (Some o) grant = ma_closed \/ majorAccess (Some o) grant = ma_requested \/ majorAccess (Some o) grant = ma_available).
Proof.
  destruct grant as [g|]; [|destruct o; cbn; auto]. unfold majorAccess.
  change (Some g ≫= mg_granted_at) with (mg_granted_at g). change (Some g ≫= mg_requested_at) with (mg_requested_at g).
  change (Some g ≫= mg_confirmed_at) with (mg_confirmed_at g). change (Some g ≫= mg_pilot_group) with (mg_pilot_group g).
  destruct (negb o && negb _) eqn:Eo; [destruct (truthy_num (mg_requested_at g)); auto|].
  assert (Hopen : o = true \/ truthy_num (mg_granted_at g) = true) by (apply andb_false_iff in Eo as [Eo|Eo]; apply negb_false_iff in Eo; auto).
  destruct (truthy_num (mg_confirmed_at g)) eqn:Ec; [left; exists g; auto|].
  destruct (truthy_str (mg_pilot_group g)) eqn:Ep; [left; exists g|]; auto 10.
Qed.

(** A major that has to be opened reaches nobody by itself. When a
    workstation of an organization is moved to such a major from a lower one,
    the platform has opened it or granted it to that organization, and the
    organization's administrator has confirmed it or is trying it on the very
    group the workstation is in. *)
Theorem closed_major_needs_approval db channel t now arch v group r o :
  updateTargetFor (offeredReleases db channel (Some t) now arch) (Some v) group = Some r ->
  listReleaseMajors db (releaseMajor (ro_version r)) = Some o -> releaseMajor v < releaseMajor (ro_version r) ->
  exists g, listMajorGrants db t (releaseMajor (ro_version r)) = Some g /\
    (o = true \/ truthy_num (mg_granted_at g) = true) /\
    (truthy_num (mg_confirmed_at g) = true \/ exists p, mg_pilot_group g = Some p /\ group = Some p).
Proof.
  intros (Hv & Hr & _)%updateTarget_eligible Hmaj Hlt. apply elem_of_eligible in Hr as (Hin & _ & Ha & _); [|done].
  apply elem_of_offered in Hin as (lines & row & -> & _). unfold offer_of in *. cbn [ro_version] in *.
  rewrite Hmaj in Ha. set (major := releaseMajor (r_version row)) in *.
  unfold is_allowed_for in Ha. cbn [ro_gated ro_version ro_pilotGroup] in Ha. fold major in Ha.
  rewrite (proj2 (Z.ltb_lt _ _) Hlt), andb_true_r in Ha.
  set (grant := if String.eqb t "" then None else listMajorGrants db t major) in *.
  destruct (majorAccess_gate o grant) as [(g & Hg & Hopen & Hc)|Hclosed].
  - assert (Hgrant : listMajorGrants db t major = Some g) by (unfold grant in Hg; by destruct (String.eqb t "")).
    exists g. split; [done|]. split; [done|]. destruct Hc as [[_ Hc]|[Ep Hp]]; [by left|]. right.
    rewrite Ep, Hg in Ha. change (Some g ≫= mg_pilot_group) with (mg_pilot_group g) in Ha.
    change (majorGated ma_pilot) with true in Ha. rewrite (bool_decide_eq_true_2 (ma_pilot = ma_pilot)), Hp in Ha by done.
    cbn [andb] in Ha. rewrite negb_involutive in Ha. bool_to_prop.
    destruct (mg_pilot_group g) as [p|]; [|done]. by exists p.
  - exfalso. destruct Hclosed as [E|[E|E]]; rewrite E in Ha; done.
Qed.

(** ** Revoked releases *)

(** The statements that write the releases table. *)
Inductive release_statement : Type :=
| StClassify (version : string) (channel : option UpdateChannel) (userId : string) (now : Z)
| StRevoke (version : string) (now : Z)
| StRecord (row : ReleaseRow) (majors : list Z) (now : Z).

Definition exec_release (db : D1Database) (s : release_statement) : D1Database :=
  match s with
  | StClassify v c u now => (classifyRelease db v c u now).1
  | StRevoke v now => (revokeRelease db v now).1
  | StRecord row majors now => record_release db row majors now
  end.

Definition withdrawn (v : string) (db : D1Database) : Prop :=
  v ∈ List.map r_version (releases db) /\ forall r, r ∈ releases db -> r_version r = v -> r_revoked_at r <> None.

Lemma record_release_rows db row majors now :
  releases (record_release db row majors now) =
  if existsb (fun r => String.eqb (r_version r) (r_version row)) (releases db) then releases db else releases db ++ [row].
Proof. unfold record_release. by destruct (_ && _). Qed.

Lemma withdrawn_step v db s : withdrawn v db -> withdrawn v (exec_release db s).
Proof.
  intros [Hv Hall].
  assert (Hmap : forall f, (forall r, r_version (f r) = r_version r) -> (forall r, r_revoked_at r <> None -> r_revoked_at (f r) <> None) ->
    withdrawn v (on_releases (List.map f) db)).
  { intros f Hf1 Hf2. split; cbn.
    - rewrite map_map. by rewrite (map_ext _ r_version Hf1).
    - intros r (r0 & -> & Hr0)%list_elem_of_fmap. rewrite Hf1. auto. }
  destruct s as [v' c u now|v' now|row majors now]; cbn.
  - apply Hmap; intros r; destruct (_ && _); done.
  - apply Hmap; intros r; destruct (_ && _); done.
  - unfold withdrawn. rewrite record_release_rows. destruct (existsb _ _) eqn:E; [done|]. split.
    + rewrite map_app. apply elem_of_app. by left.
    + intros r [Hr|Hr%list_elem_of_singleton]%elem_of_app Hrv; [by apply Hall|]. exfalso. subst.
      apply list_elem_of_fmap in Hv as (r0 & Ev & Hr0). rewrite <- not_true_iff_false, existsb_elem in E. apply E. exists r0.
      split; [done|]. by rewrite Ev, String.eqb_refl.
Qed.

(** Revoking is for good. Whatever is recorded, classified or revoked
    afterwards, in any order, a revoked release is never offered again, to any
    organization, on any channel, for any architecture. *)
Theorem revoked_never_offered db v now stmts :
  v ∈ List.map r_version (releases db) ->
  let db' := foldl exec_release (revokeRelease db v now).1 stmts in
  forall channel tenant later arch o, o ∈ offeredReleases db' channel tenant later arch -> ro_version o <> v.
Proof.
  intros Hv db'. assert (Hw : withdrawn v db').
  { unfold db'. clear db'. assert (Hw0 : withdrawn v (revokeRelease db v now).1).
    { split; cbn.
      - rewrite map_map. erewrite map_ext; [exact Hv|]. intros r. by destruct (_ && _).
      - intros r (r0 & -> & Hr0)%list_elem_of_fmap. destruct (String.eqb_spec (r_version r0) v); cbn; [|done].
        by case_bool_decide. }
    revert Hw0. generalize (revokeRelease db v now).1. induction stmts as [|s stmts IH]; intros d Hd; [done|].
    cbn [foldl]. apply IH. by apply withdrawn_step. }
  clearbody db'. intros channel tenant later arch o (lines & r & -> & Hr & Hn & _)%elem_of_offered. cbn. intros Ev.
  destruct Hw as [_ Hall]. by apply (Hall r Hr Ev).
Qed.

Lemma revoked_never_offered_witness :
  let row := mkReleaseRow "1.4.0" (Some stable) feature None "1.0.0" 5 "" 1 (Some 2) None None "" in
  let db := on_releases (fun _ => [row]) empty_db in
  length (offeredReleases db (Some stable) None 10 "amd64") = 1%nat /\
  forall o, o ∈ offeredReleases (foldl exec_release (revokeRelease db "1.4.0" 5).1
    [StClassify "1.4.0" (Some stable) "u" 6; StRecord row [] 7]) (Some stable) None 10 "amd64" -> ro_version o <> "1.4.0"%string.
Proof.
  intros row db. split; [vm_compute; reflexivity|]. intros o.
  apply (revoked_never_offered db "1.4.0" 5 [StClassify "1.4.0" (Some stable) "u" 6; StRecord row [] 7]). vm_compute. left.
Defined.

(** A workstation of the pilot group, and one outside it. *)
Lemma closed_major_needs_approval_witness :
  let row v := mkReleaseRow v (Some stable) feature None "1.0.0" 5 "" 1 (Some 2) None None "" in
  let db0 := on_release_majors (fun _ => [mkReleaseMajor 2 false 1 None]) (on_releases (fun _ => [row "1.5.0"; row "2.0.0"]%string) empty_db) in
  let db := setMajorPilot (setMajorGrant db0 "org" 2 true "super" 5) "org" 2 (Some "Lab"%string) "admin" 6 in
  let offers := offeredReleases db (Some stable) (Some "org"%string) 10 "amd64" in
  option_map ro_version (updateTargetFor offers (Some "1.5.0"%string) (Some "Lab"%string)) = Some "2.0.0"%string /\
  updateTargetFor offers (Some "1.5.0"%string) None = None /\
  exists g, listMajorGrants db "org" 2 = Some g /\ (false = true \/ truthy_num (mg_granted_at g) = true) /\
    (truthy_num (mg_confirmed_at g) = true \/ exists p, mg_pilot_group g = Some p /\ Some "Lab"%string = Some p).
Proof.
  intros row db0 db offers. split; [vm_compute; reflexivity|]. split; [vm_compute; reflexivity|].
  apply (closed_major_needs_approval db (Some stable) "org" 10 "amd64" "1.5.0" (Some "Lab"%string)
    (mkOffer "2.0.0" feature 5 2 supported true (Some "Lab"%string) false true)); vm_compute; reflexivity.
Defined.
