(* ===== verification/Power.v ===== *)
(** src/cloudflare-control/src/power.ts: power schedules, the week each
    workstation follows, and the reports of workstations that cannot wake.

    [post_power_schedule] is the body of POST /api/power-schedules (index.ts)
    after its permission check. Day masks are small (1 to 127, as the table
    CHECKs), so the 32-bit conversions of [&] and [|] do nothing. *)
From S2P Require Import Prelude JsString Regex Platform Db Escape.

Definition DAY_NAMES : list string :=
  ["Sunday"; "Monday"; "Tuesday"; "Wednesday"; "Thursday"; "Friday"; "Saturday"]%string.
Definition MAX_POWER_SCHEDULES : Z := 50.
Definition MIN_ON_OFF_GAP_MINUTES : Z := 15.
Definition POWER_WARNING_MINUTES : Z := 5.
Definition MAX_REPORT_DETAIL : nat := 300.

(** [/^([01][0-9]|2[0-3]):([0-5][0-9])$/]. *)
Definition RHour : re := RAlt (RCat (RClass (in_range 48 49)) RDigit) (RCat (RChar "2") (RClass (in_range 48 51))).
Definition RMinute : re := RCat (RClass (in_range 48 53)) RDigit.
Definition TIME_PATTERN : re := RCat RHour (RCat (RChar ":") RMinute).

(** [/^[0-9a-f]{2}(?::[0-9a-f]{2}){5}$/]. *)
Definition RHexByte : re := RRep 2 (RClass is_lower_hex).
Definition MAC_PATTERN : re := RCat RHexByte (RRep 5 (RCat (RChar ":") RHexByte)).

(** ** Times and days *)

Definition parseClockTime (value : jsval) (field : string) : js_result Z :=
  match value with
  | JsStr s =>
      if re_test TIME_PATTERN s then Returns (digits_value (str_take 2 s) * 60 + digits_value (str_drop 3 s))
      else Throws (field +:+ " is a time from 00:00 to 23:59")
  | _ => Throws (field +:+ " is a time from 00:00 to 23:59")
  end.

Definition formatClockTime (minutes : Z) : string :=
  padStart2 (string_of_int (minutes `div` 60)) +:+ ":" +:+ padStart2 (string_of_int (minutes `mod` 60)).

Definition BAD_DAYS : string := "days lists one to seven days, 0 (Sunday) to 6 (Saturday)".

Definition day_name (day : Z) : string := List.nth (Z.to_nat day) DAY_NAMES ""%string.

Fixpoint days_loop (mask : Z) (l : list jsval) : js_result Z :=
  match l with
  | [] => Returns mask
  | v :: l' =>
      match as_integer v with
      | None => Throws BAD_DAYS
      | Some day =>
          if (day <? 0) || (6 <? day) then Throws BAD_DAYS
          else if negb (Z.land mask (Z.shiftl 1 day) =? 0) then Throws (day_name day +:+ " is listed twice")
          else days_loop (Z.lor mask (Z.shiftl 1 day)) l'
      end
  end.

Definition daysToMask (value : jsval) : js_result Z :=
  match value with
  | JsArr l => if (length l =? 0)%nat || (7 <? length l)%nat then Throws BAD_DAYS else days_loop 0 l
  | _ => Throws BAD_DAYS
  end.

Definition maskToDays (mask : Z) : list Z :=
  List.filter (fun day => negb (Z.land mask (Z.shiftl 1 day) =? 0)) [0; 1; 2; 3; 4; 5; 6].

Definition dayList (mask : Z) : string := join ", " (List.map day_name (maskToDays mask)).

(** ** A schedule from the console *)

Record PowerScheduleInput : Type := mkPowerInput {
  pi_groupId : option string;
  pi_days : Z;
  pi_offMinute : Z;
  pi_onMinute : option Z
}.

Definition parse_on (v : jsval) (offMinute : Z) : js_result (option Z) :=
  if is_absent v then Returns None
  else
    onMinute ← parseClockTime v "The switch-on time";
    let gap := Z.abs (onMinute - offMinute) in
    _ ← throw_if (Z.min gap (1440 - gap) <? MIN_ON_OFF_GAP_MINUTES)
          ("Switch-on and switch-off are at least " +:+ string_of_int MIN_ON_OFF_GAP_MINUTES
           +:+ " minutes apart: a workstation warns for " +:+ string_of_int POWER_WARNING_MINUTES +:+ " minutes before it shuts down");
    Returns (Some onMinute).

Definition parse_group_id (v : jsval) : js_result (option string) :=
  if is_absent v then Returns None
  else
    match as_string v with
    | Some s => if (64 <? String.length s)%nat then Throws "groupId names a workstation group" else Returns (Some s)
    | None => Throws "groupId names a workstation group"
    end.

Definition parsePowerScheduleInput (input : jsval) : js_result PowerScheduleInput :=
  _ ← throw_if (negb (is_plain_object input)) "The schedule must be a JSON object";
  days ← daysToMask (js_get input "days");
  offMinute ← parseClockTime (js_get input "off") "The switch-off time";
  onMinute ← parse_on (js_get input "on") offMinute;
  groupId ← parse_group_id (js_get input "groupId");
  Returns (mkPowerInput groupId days offMinute onMinute).

(** ** Schedules as the console sees them *)

Record PowerSchedule : Type := mkPowerSchedule {
  pw_id : string;
  pw_groupId : option string;
  pw_groupName : option string;
  pw_days : list Z;
  pw_off : string;
  pw_on : option string;
  pw_updatedAt : Z
}.

Fixpoint conflict_with (existing : list PowerSchedule) (candidate : PowerScheduleInput) (selfId : option string) : option string :=
  match existing with
  | [] => None
  | other :: rest =>
      if bool_decide (Some (pw_id other) = selfId) || negb (bool_decide (pw_groupId other = pi_groupId candidate))
      then conflict_with rest candidate selfId
      else
        let shared := Z.land (pi_days candidate) (foldl (fun mask day => Z.lor mask (Z.shiftl 1 day)) 0 (pw_days other)) in
        if negb (shared =? 0) then
          let who := match pi_groupId candidate with
                     | Some g => if String.eqb g "" then "every workstation"%string else trim ("the group " +:+ default ""%string (pw_groupName other))
                     | None => "every workstation"%string
                     end in
          Some ("Another schedule for " +:+ who +:+ " already covers " +:+ dayList shared
                +:+ ". One schedule per day for the same workstations: change that one, or pick other days.")
        else conflict_with rest candidate selfId
  end.

Definition powerScheduleConflict (existing : list PowerSchedule) (candidate : PowerScheduleInput) (selfId : option string) : option string :=
  conflict_with existing candidate selfId.

(** The group a row's LEFT JOIN finds. *)
Definition row_group_name (db : D1Database) (row : PowerScheduleDbRow) : option string :=
  match ps_group_id row with
  | None => None
  | Some id => option_map g_name (js_find (fun g => String.eqb (g_id g) id && String.eqb (g_tenant_id g) (ps_tenant_id row)) (workstation_groups db))
  end.

(** [row.group_id ? ... : null]: the empty text is not a group. *)
Definition real_group (row : PowerScheduleDbRow) : bool :=
  match ps_group_id row with Some id => negb (String.eqb id "") | None => false end.

Definition scheduleOf (db : D1Database) (row : PowerScheduleDbRow) : PowerSchedule :=
  mkPowerSchedule (ps_id row) (ps_group_id row) (if real_group row then row_group_name db row else None)
    (maskToDays (ps_days row)) (formatClockTime (ps_off_minute row)) (option_map formatClockTime (ps_on_minute row))
    (ps_updated_at row * 1000).

Definition schedules_of (db : D1Database) (tenantId : string) : list PowerScheduleDbRow :=
  List.filter (fun s => String.eqb (ps_tenant_id s) tenantId) (power_schedules db).

Definition b2z (b : bool) : Z := if b then 1 else 0.

(** [ORDER BY s.group_id IS NOT NULL, g.name COLLATE NOCASE, s.off_minute, s.id]; NULL comes first. *)
Definition sql_order (db : D1Database) (a b : PowerScheduleDbRow) : Z :=
  let name r := option_map toLowerCase (row_group_name db r) in
  let c1 := num_cmp (b2z (bool_decide (is_Some (ps_group_id a)))) (b2z (bool_decide (is_Some (ps_group_id b)))) in
  let c2 := match name a, name b with
            | None, None => 0 | None, Some _ => -1 | Some _, None => 1 | Some x, Some y => by_code x y end in
  let c3 := num_cmp (ps_off_minute a) (ps_off_minute b) in
  if c1 =? 0 then if c2 =? 0 then if c3 =? 0 then by_code (ps_id a) (ps_id b) else c3 else c2 else c1.

Definition first_day (s : PowerSchedule) : Z :=
  match List.map (fun day => (day + 6) `mod` 7) (pw_days s) with [] => 7 | d :: l => foldl Z.min d l end.

Definition listPowerSchedules `{Collation} (db : D1Database) (tenantId : string) : list PowerSchedule :=
  js_sort (fun a b =>
    let c1 := b2z (bool_decide (is_Some (pw_groupId a))) - b2z (bool_decide (is_Some (pw_groupId b))) in
    let c2 := localeCompareBase (default ""%string (pw_groupName a)) (default ""%string (pw_groupName b)) in
    if c1 =? 0 then if c2 =? 0 then first_day a - first_day b else c2 else c1)
  (List.map (scheduleOf db) (js_sort (sql_order db) (schedules_of db tenantId))).

(** ** Writes *)

Definition write_schedule (input : PowerScheduleInput) (now : Z) (s : PowerScheduleDbRow) : PowerScheduleDbRow :=
  mkPowerRow (ps_id s) (ps_tenant_id s) (pi_groupId input) (pi_days input) (pi_offMinute input) (pi_onMinute input) (ps_created_at s) now.

Definition is_schedule (tenantId id : string) (s : PowerScheduleDbRow) : bool :=
  String.eqb (ps_id s) id && String.eqb (ps_tenant_id s) tenantId.

(** [newId] is the random identifier drawn for a new schedule. *)
Definition savePowerSchedule (db : D1Database) (tenantId : string) (input : PowerScheduleInput) (now : Z) (id : option string)
    (newId : string) : D1Database * option string :=
  match id with
  | Some i =>
      (on_power_schedules (List.map (fun s => if is_schedule tenantId i s then write_schedule input now s else s)) db,
       if existsb (is_schedule tenantId i) (power_schedules db) then Some i else None)
  | None =>
      (on_power_schedules (fun l => l ++ [mkPowerRow newId tenantId (pi_groupId input) (pi_days input) (pi_offMinute input) (pi_onMinute input) now now]) db,
       Some newId)
  end.

Definition deletePowerSchedule (db : D1Database) (tenantId id : string) : D1Database * bool :=
  (on_power_schedules (List.filter (fun s => negb (is_schedule tenantId id s))) db, existsb (is_schedule tenantId id) (power_schedules db)).

Definition hasGroupPowerSchedules (db : D1Database) (tenantId : string) : bool :=
  existsb (fun s => bool_decide (is_Some (ps_group_id s))) (schedules_of db tenantId).

Definition groupPowerScheduleCount (db : D1Database) (tenantId groupId : string) : Z :=
  Z.of_nat (length (List.filter (fun s => bool_decide (ps_group_id s = Some groupId)) (schedules_of db tenantId))).

Definition deleteGroupPowerSchedules (db : D1Database) (tenantId groupId : string) : D1Database :=
  on_power_schedules (List.filter (fun s => negb (String.eqb (ps_tenant_id s) tenantId && bool_decide (ps_group_id s = Some groupId)))) db.

(** POST /api/power-schedules after its permission check. *)
Definition post_power_schedule `{Collation} (db : D1Database) (tenantId : string) (body : jsval) (now : Z) (newId : string)
    : js_result (D1Database * string) :=
  let body := match body with JsNull => JsObj [] | b => b end in
  input ← parsePowerScheduleInput body;
  let id := match js_get body "id" with JsStr s => if String.eqb s "" then None else Some s | _ => None end in
  let existing := listPowerSchedules db tenantId in
  let groups := List.filter (fun g => String.eqb (g_tenant_id g) tenantId) (workstation_groups db) in
  _ ← throw_if (match pi_groupId input with
                | Some gid => negb (String.eqb gid "") && negb (existsb (fun g => String.eqb (g_id g) gid) groups)
                | None => false
                end) "Workstation group not found";
  _ ← throw_if (match id with Some i => negb (existsb (fun s => String.eqb (pw_id s) i) existing) | None => false end)
        "Power schedule not found";
  _ ← throw_if (match id with None => MAX_POWER_SCHEDULES <=? Z.of_nat (length existing) | Some _ => false end)
        ("An organization keeps at most " +:+ string_of_int MAX_POWER_SCHEDULES +:+ " power schedules");
  _ ← match powerScheduleConflict existing input id with Some c => Throws c | None => Returns tt end;
  match savePowerSchedule db tenantId input now id newId with
  | (db', Some saved) => Returns (db', saved)
  | (_, None) => Throws "Power schedule not found"
  end.

(** ** The week of a workstation *)

Record PowerRule : Type := mkPowerRule {
  pr_groupName : option string;
  pr_orphaned : bool;
  pr_days : Z;
  pr_off : Z;
  pr_on : option Z
}.

Definition rule_of (db : D1Database) (row : PowerScheduleDbRow) : PowerRule :=
  let name := if real_group row then row_group_name db row else None in
  mkPowerRule name (real_group row && match name with Some n => String.eqb n "" | None => true end)
    (ps_days row) (ps_off_minute row) (ps_on_minute row).

(** The rules, and each grouped workstation's group when a rule is for one. *)
Definition loadPowerRules (db : D1Database) (tenantId : string) : list PowerRule * list (string * string) :=
  let rules := List.map (rule_of db) (schedules_of db tenantId) in
  (rules,
   if existsb (fun r => match pr_groupName r with Some n => negb (String.eqb n "") | None => false end) rules
   then omap (fun c => if in_tenant tenantId c then option_map (fun g => (cd_client_id c, g)) (cd_group_name c) else None) (client_devices db)
   else []).

Record PowerDay : Type := mkPowerDay { pd_off : Z; pd_on : option Z }.

Definition rule_for (groupName : option string) (day : Z) (r : PowerRule) : bool :=
  negb (pr_orphaned r) && bool_decide (pr_groupName r = groupName) && negb (Z.land (pr_days r) (Z.shiftl 1 day) =? 0).

Definition power_day (rules : list PowerRule) (groupName : option string) (day : Z) : option PowerDay :=
  let own := match groupName with
             | Some g => if String.eqb g "" then None else js_find (rule_for groupName day) rules
             | None => None
             end in
  let rule := match own with Some r => Some r | None => js_find (rule_for None day) rules end in
  option_map (fun r => mkPowerDay (pr_off r) (pr_on r)) rule.

Definition effectivePower (rules : list PowerRule) (groupName : option string) : option (list (option PowerDay)) :=
  let week := List.map (power_day rules groupName) [0; 1; 2; 3; 4; 5; 6] in
  if existsb (fun d => bool_decide (is_Some d)) week then Some week else None.

(** ** Waking *)

(** The value of a lower-case hexadecimal digit. *)
Definition hex_digit (c : ascii) : Z := if is_digit c then code c - 48 else code c - 87.

Definition isWakeableMac (value : string) : bool :=
  if negb (re_test MAC_PATTERN value) then false
  else if String.eqb value "00:00:00:00:00:00" then false
  else
    match value with
    | String a (String b _) => Z.land (16 * hex_digit a + hex_digit b) 1 =? 0
    | _ => false
    end.

(** ** Reports of a workstation that cannot set its alarm *)

Inductive WakeAlarmProblem : Type := no_rtc | failed.

Record PowerReport : Type := mkPowerReport { rp_problem : WakeAlarmProblem; rp_wakeAt : string; rp_detail : string }.

(** [/^\d{4}-\d{2}-\d{2} ([01]\d|2[0-3]):[0-5]\d$/]. *)
Definition WAKE_AT : re :=
  RCat (RRep 4 RDigit) (RCat (RChar "-") (RCat (RRep 2 RDigit) (RCat (RChar "-") (RCat (RRep 2 RDigit)
    (RCat (RChar " ") (RCat RHour (RCat (RChar ":") RMinute))))))).

Definition is_control (c : ascii) : bool := in_range 0 31 c || (code c =? 127).

(** [.replace(/p+/g, " ")]: each run of [p] as one space. *)
Fixpoint collapse (p : ascii -> bool) (inRun : bool) (s : string) : string :=
  match s with
  | ""%string => ""
  | String c s' => if p c then (if inRun then collapse p true s' else String " " (collapse p true s')) else String c (collapse p false s')
  end.

(** [.replace(/\s{2,}/g, " ")]: runs of two or more; a single space stays as it is. *)
Fixpoint collapse_spaces (s : string) : string :=
  match s with
  | ""%string => ""
  | String c s' =>
      match s' with
      | String d _ =>
          if is_space c && is_space d
          then match collapse_spaces s' with
               | String _ t => String " " t
               | ""%string => " "
               end
          else String c (collapse_spaces s')
      | ""%string => String c ""
      end
  end.

Definition parsePowerReport (input : jsval) : js_result PowerReport :=
  _ ← throw_if (negb (is_plain_object input)) "The power report must be a JSON object";
  problem ← match js_get input "problem" with
            | JsStr "no-rtc" => Returns no_rtc
            | JsStr "failed" => Returns failed
            | _ => Throws "problem is one of no-rtc, failed"
            end;
  wakeAt ← match js_get input "wakeAt" with
           | JsStr s => if re_test WAKE_AT s then Returns s else Throws "wakeAt is YYYY-MM-DD HH:MM"
           | _ => Throws "wakeAt is YYYY-MM-DD HH:MM"
           end;
  raw ← match js_get input "detail" with
        | JsUndefined => Returns ""%string
        | JsStr s => Returns s
        | _ => Throws "detail must be text"
        end;
  Returns (mkPowerReport problem wakeAt (str_take MAX_REPORT_DETAIL (trim (collapse_spaces (collapse is_control false raw))))).

Definition describePowerReport (report : PowerReport) : string :=
  let fallback := "Use Wake on the Workstations page, which needs Wake-on-LAN in its firmware settings, or switch it on by hand."%string in
  match rp_problem report with
  | no_rtc => "It has no hardware clock that can switch it on, so it did not switch itself on for " +:+ rp_wakeAt report +:+ ". " +:+ fallback
  | failed =>
      "Setting its hardware clock to switch it on at " +:+ rp_wakeAt report +:+ " failed"
      +:+ (if String.eqb (rp_detail report) "" then "" else ": " +:+ rp_detail report) +:+ ". " +:+ fallback
  end.

Definition problem_text (p : WakeAlarmProblem) : string := match p with no_rtc => "no-rtc" | failed => "failed" end.

Inductive Recorded : Type := recorded | duplicate | unknown_workstation.

Definition recordPowerReport `{WebCrypto} (db : D1Database) (tenantId clientId : string) (report : PowerReport) (now : Z)
    : D1Database * Recorded :=
  if negb (existsb (fun c => in_tenant tenantId c && String.eqb (cd_client_id c) clientId) (client_devices db))
  then (db, unknown_workstation)
  else
    let day := now `div` 86400 in
    let id := "wake-" +:+ str_take 32 (sha256Hex (tenantId +:+ ":" +:+ clientId +:+ ":" +:+ problem_text (rp_problem report) +:+ ":" +:+ string_of_int day)) in
    if existsb (fun i => String.eqb (i_id i) id) (workstation_issues db) then (db, duplicate)
    else (on_workstation_issues (fun l => l ++ [mkIssue id tenantId clientId "warning" "wake_alarm" (describePowerReport report) now now]) db, recorded).

(** ** Round trips *)

Lemma pad_two a b :
  0 <= a <= 9 -> 0 <= b <= 9 -> padStart2 (string_of_int (10 * a + b)) = String (chr (48 + a)) (String (chr (48 + b)) "").
Proof.
  intros Ha Hb.
  pose proof (Z_interval_forall (fun n => String.eqb (padStart2 (string_of_int n))
    (String (chr (48 + n `div` 10)) (String (chr (48 + n `mod` 10)) ""))) 100 ltac:(vm_compute; reflexivity) (10 * a + b) ltac:(lia)) as Hn.
  apply String.eqb_eq in Hn. rewrite Hn. do 3 f_equal; [|f_equal; f_equal]; div_lia.
Qed.

Lemma digit_code c : is_digit c = true -> exists d, 0 <= d <= 9 /\ c = chr (48 + d) /\ code c = 48 + d.
Proof.
  unfold is_digit, in_range. intros H. bool_to_prop. exists (code c - 48). split; [lia|].
  replace (48 + (code c - 48)) with (code c) by lia. by rewrite chr_code.
Qed.

Lemma in_range_code lo hi c : 48 <= lo -> hi <= 57 -> in_range lo hi c = true -> exists d, lo - 48 <= d <= hi - 48 /\ 0 <= d <= 9 /\ c = chr (48 + d) /\ code c = 48 + d.
Proof.
  unfold in_range. intros Hlo Hhi H. bool_to_prop. exists (code c - 48). split; [lia|]. split; [lia|].
  replace (48 + (code c - 48)) with (code c) by lia. by rewrite chr_code.
Qed.

(** A clock time is two digits, a colon and two digits, hours below 24 and minutes below 60. *)
Lemma time_pattern_digits s :
  re_match TIME_PATTERN s <->
  exists a b c d, 0 <= a <= 9 /\ 0 <= b <= 9 /\ 0 <= c <= 5 /\ 0 <= d <= 9 /\ 10 * a + b < 24 /\
    s = String (chr (48 + a)) (String (chr (48 + b)) (String ":" (String (chr (48 + c)) (String (chr (48 + d)) "")))).
Proof.
  unfold TIME_PATTERN, RHour, RMinute, RChar, RDigit. split.
  - intros H. rewrite match_cat_iff in H. destruct H as (h & r & -> & Hh & Hr).
    rewrite match_cat_iff in Hr. destruct Hr as (col & m & -> & Hcol & Hm).
    apply match_class_iff in Hcol as (x & -> & Hx). apply Ascii.eqb_eq in Hx as ->.
    rewrite match_cat_iff in Hm. destruct Hm as (m1 & m2 & -> & (x1 & -> & H1)%match_class_iff & (x2 & -> & H2)%match_class_iff).
    apply in_range_code in H1 as (c & Hc & _ & -> & _); [|lia|lia]. apply digit_code in H2 as (d & Hd & -> & _).
    rewrite match_alt_iff, !match_cat_iff in Hh.
    destruct Hh as [(h1 & h2 & -> & (y1 & -> & G1)%match_class_iff & (y2 & -> & G2)%match_class_iff)
                   |(h1 & h2 & -> & (y1 & -> & G1)%match_class_iff & (y2 & -> & G2)%match_class_iff)].
    + apply in_range_code in G1 as (a & Ha & _ & -> & _); [|lia|lia]. apply digit_code in G2 as (b & Hb & -> & _).
      exists a, b, c, d. split_and!; (lia || done).
    + apply Ascii.eqb_eq in G1 as ->. apply in_range_code in G2 as (b & Hb & _ & -> & _); [|lia|lia].
      exists 2, b, c, d. split_and!; (lia || done).
  - intros (a & b & c & d & Ha & Hb & Hc & Hd & Hlt & ->).
    assert (Hcl : forall lo hi x, 0 <= x <= 9 -> lo <= 48 + x <= hi -> in_range lo hi (chr (48 + x)) = true).
    { intros lo hi x H0 H1. unfold in_range. rewrite code_chr by lia. apply andb_true_iff. rewrite !Z.leb_le. lia. }
    apply match_cat_iff. exists (String (chr (48 + a)) (String (chr (48 + b)) "")), (String ":" (String (chr (48 + c)) (String (chr (48 + d)) ""))).
    split; [done|]. split.
    + apply match_alt_iff. rewrite !match_cat_iff.
      assert (a < 2 \/ a = 2 /\ b <= 3) as [Ha2|[-> Hb3]] by lia; [left|right];
        [exists (String (chr (48 + a)) ""), (String (chr (48 + b)) "")|exists (String (chr (48 + 2)) ""), (String (chr (48 + b)) "")];
        (split; [done|]); rewrite !match_class_iff; split; eexists; (split; [done|]); (done || apply Hcl; lia).
    + apply match_cat_iff. exists ":"%string, (String (chr (48 + c)) (String (chr (48 + d)) "")). split; [done|]. split.
      * apply match_class_iff. by exists ":"%char.
      * apply match_cat_iff. exists (String (chr (48 + c)) ""), (String (chr (48 + d)) ""). split; [done|].
        rewrite !match_class_iff. split; eexists; (split; [done|]); apply Hcl; lia.
Qed.

Lemma formatClockTime_digits a b c d :
  0 <= a <= 9 -> 0 <= b <= 9 -> 0 <= c <= 5 -> 0 <= d <= 9 ->
  formatClockTime ((10 * a + b) * 60 + (10 * c + d)) =
  String (chr (48 + a)) (String (chr (48 + b)) (String ":" (String (chr (48 + c)) (String (chr (48 + d)) "")))).
Proof.
  intros Ha Hb Hc Hd. unfold formatClockTime.
  replace (((10 * a + b) * 60 + (10 * c + d)) `div` 60) with (10 * a + b) by div_lia.
  replace (((10 * a + b) * 60 + (10 * c + d)) `mod` 60) with (10 * c + d) by div_lia.
  by rewrite !pad_two by lia.
Qed.

Lemma parse_digits a b c d field :
  0 <= a <= 9 -> 0 <= b <= 9 -> 0 <= c <= 5 -> 0 <= d <= 9 -> 10 * a + b < 24 ->
  parseClockTime (JsStr (String (chr (48 + a)) (String (chr (48 + b)) (String ":" (String (chr (48 + c)) (String (chr (48 + d)) "")))))) field
  = Returns ((10 * a + b) * 60 + (10 * c + d)).
Proof.
  intros Ha Hb Hc Hd Hlt. unfold parseClockTime.
  replace (re_test TIME_PATTERN _) with true by (symmetry; apply re_test_iff, time_pattern_digits; by exists a, b, c, d).
  cbn [str_take str_drop]. unfold digits_value. cbn [digits_value_acc]. rewrite !code_chr by lia. f_equal. lia.
Qed.

(** Clock times round trip: every minute of the day is written in a form
    that is read back as that minute, and every time that is accepted is the
    written form of the minute it is read as. *)
Theorem clock_time_roundtrip field :
  (forall m, 0 <= m < 1440 -> parseClockTime (JsStr (formatClockTime m)) field = Returns m) /\
  (forall v m, parseClockTime v field = Returns m -> 0 <= m < 1440 /\ v = JsStr (formatClockTime m)).
Proof.
  split.
  - intros m Hm. pose proof (Z.div_mod m 60) as Hdm.
    set (h := m `div` 60) in *. set (k := m `mod` 60) in *. assert (0 <= h < 24 /\ 0 <= k < 60) as [Hh Hk] by (unfold h, k; div_lia).
    replace m with ((10 * (h `div` 10) + h `mod` 10) * 60 + (10 * (k `div` 10) + k `mod` 10)) by (clear -Hdm; clearbody h k; div_lia).
    rewrite formatClockTime_digits by (clearbody h k; div_lia). apply parse_digits; clearbody h k; div_lia.
  - intros v m Hp. destruct v as [| | | | |s| |]; try done. unfold parseClockTime in Hp.
    destruct (re_test TIME_PATTERN s) eqn:E; [|done]. apply re_test_iff, time_pattern_digits in E as (a & b & c & d & Ha & Hb & Hc & Hd & Hlt & ->).
    pose proof (parse_digits a b c d field Ha Hb Hc Hd Hlt) as Hq. unfold parseClockTime in Hq.
    destruct (re_test TIME_PATTERN _); [|done]. rewrite Hq in Hp. injection Hp as <-.
    rewrite formatClockTime_digits by lia. split; [lia|done].
Qed.

(** ** Days of the week *)

Lemma day_bit mask day : 0 <= day -> negb (Z.land mask (Z.shiftl 1 day) =? 0) = Z.testbit mask day.
Proof.
  intros Hd. rewrite Z.shiftl_1_l. destruct (Z.testbit mask day) eqn:E.
  - apply negb_true_iff, Z.eqb_neq. intros Hz. assert (Hb : Z.testbit (Z.land mask (2 ^ day)) day = false) by by rewrite Hz, Z.bits_0.
    rewrite Z.land_spec, E, Z.pow2_bits_true in Hb by done. done.
  - apply negb_false_iff, Z.eqb_eq, Z.bits_inj'. intros n Hn. rewrite Z.land_spec, Z.bits_0.
    destruct (Z.eq_dec n day) as [->|Hne]; [by rewrite E|]. rewrite Z.pow2_bits_false by lia. apply andb_false_r.
Qed.

Lemma elem_of_maskToDays mask day : day ∈ maskToDays mask <-> 0 <= day <= 6 /\ Z.testbit mask day = true.
Proof.
  unfold maskToDays. rewrite elem_of_bfilter. split.
  - intros [Hin Hb]. assert (Hd : 0 <= day <= 6) by (rewrite !elem_of_cons, elem_of_nil in Hin; lia).
    split; [done|]. by rewrite day_bit in Hb by lia.
  - intros [Hd Hb]. rewrite day_bit by lia. split; [|done]. rewrite !elem_of_cons. lia.
Qed.

Lemma fold_days_bit l mask day :
  (forall d, d ∈ l -> 0 <= d) -> 0 <= day ->
  Z.testbit (foldl (fun m d => Z.lor m (Z.shiftl 1 d)) mask l) day = Z.testbit mask day || bool_decide (day ∈ l).
Proof.
  revert mask. induction l as [|d l IH]; intros mask Hl Hd; cbn [foldl].
  - by rewrite (bool_decide_eq_false_2 (day ∈ [])), orb_false_r by apply not_elem_of_nil.
  - rewrite IH by (try done; intros x Hx; apply Hl; by right). rewrite Z.lor_spec, Z.shiftl_1_l, <- orb_assoc. f_equal.
    assert (Hd0 : 0 <= d) by (apply Hl; left).
    destruct (decide (day = d)) as [->|Hne].
    + rewrite Z.pow2_bits_true by done. rewrite (bool_decide_eq_true_2 (d ∈ d :: l)); [done|left].
    + rewrite Z.pow2_bits_false by lia. cbn. apply bool_decide_ext. rewrite elem_of_cons. naive_solver.
Qed.

Lemma days_loop_ok l : forall mask m, 0 <= mask ->
  days_loop mask l = Returns m ->
  exists days, l = List.map JsInt days /\ (forall d, d ∈ days -> 0 <= d <= 6 /\ Z.testbit mask d = false) /\ NoDup days /\
    m = foldl (fun k d => Z.lor k (Z.shiftl 1 d)) mask days.
Proof.
  induction l as [|v l IH]; intros mask m Hm0 H; cbn in H.
  - injection H as <-. exists []. split_and!; [done| |constructor|done]. intros d Hd. by apply not_elem_of_nil in Hd.
  - destruct v as [| | |d| | | |]; try done. cbn [as_integer] in H.
    destruct (_ || _) eqn:Er in H; [done|]. destruct (negb _) eqn:Eb in H; [done|].
    apply orb_false_iff in Er as [E1 E2]. apply Z.ltb_ge in E1, E2. rewrite day_bit in Eb by lia.
    apply IH in H as (days & -> & Hdays & Hnd & ->); [|apply Z.lor_nonneg; rewrite Z.shiftl_1_l; lia].
    exists (d :: days). split_and!; [done| | |done].
    + intros x [->|Hx]%elem_of_cons; [split; [lia|done]|]. apply Hdays in Hx as [Hx Hbit]. rewrite Z.lor_spec in Hbit.
      apply orb_false_iff in Hbit as [? _]. done.
    + constructor; [|done]. intros Hin. apply Hdays in Hin as [_ Hbit]. rewrite Z.lor_spec, Z.shiftl_1_l, Z.pow2_bits_true in Hbit by lia.
      by rewrite orb_true_r in Hbit.
Qed.

Lemma daysToMask_spec v mask :
  daysToMask v = Returns mask ->
  exists days, v = JsArr (List.map JsInt days) /\ NoDup days /\ days <> [] /\ maskToDays mask ≡ₚ days /\ 1 <= mask <= 127.
Proof.
  unfold daysToMask. destruct v as [| | | | | |l|]; try done. destruct (_ || _) eqn:El; [done|]. intros H.
  apply days_loop_ok in H as (days & -> & Hd & Hnd & ->); [|lia]. exists days.
  assert (Hbit : forall n, 0 <= n -> Z.testbit (foldl (fun k d => Z.lor k (Z.shiftl 1 d)) 0 days) n = bool_decide (n ∈ days)).
  { intros n Hn. rewrite fold_days_bit by (try done; intros x Hx; by apply Hd). by rewrite Z.bits_0. }
  assert (Hne : days <> []) by (intros ->; done).
  split_and!; [done|done|done| | |].
  - apply NoDup_Permutation; [|done|].
    + apply bfilter_NoDup. by apply (bool_decide_unpack (NoDup [0; 1; 2; 3; 4; 5; 6])).
    + intros d. rewrite elem_of_maskToDays. split.
      * intros [Hr Hb]. rewrite Hbit in Hb by lia. by bool_to_prop.
      * intros Hin. destruct (Hd d Hin). split; [done|]. rewrite Hbit by lia. by apply bool_decide_eq_true.
  - destruct days as [|d days']; [done|]. assert (Hin : d ∈ d :: days') by left. destruct (Hd d Hin) as [Hdr _].
    destruct (Z.le_gt_cases 1 (foldl (fun k d => Z.lor k (Z.shiftl 1 d)) 0 (d :: days'))) as [|Hlt]; [done|]. exfalso.
    set (m := foldl _ _ _) in *. assert (0 <= m).
    { unfold m. assert (Hnn : forall l k, 0 <= k -> (forall x, x ∈ l -> 0 <= x) -> 0 <= foldl (fun k d => Z.lor k (Z.shiftl 1 d)) k l).
      { clear. induction l as [|x l IH]; intros k Hk Hl; [done|]. cbn. apply IH; [|intros y Hy; apply Hl; by right].
        apply Z.lor_nonneg. split; [done|]. rewrite Z.shiftl_1_l. apply Z.pow_nonneg. lia. }
      apply Hnn; [lia|]. intros x Hx. by apply Hd. }
    assert (m = 0) by lia. specialize (Hbit d ltac:(lia)). rewrite H0, Z.bits_0, bool_decide_eq_true_2 in Hbit by done. done.
  - set (m := foldl _ _ _) in *. destruct (Z.le_gt_cases m 127) as [|Hgt]; [done|]. exfalso.
    assert (Hl : 7 <= Z.log2 m) by (apply Z.log2_le_pow2; lia).
    pose proof (Z.bit_log2 m ltac:(lia)) as Hb. rewrite Hbit in Hb by lia. bool_to_prop. apply Hd in Hb. lia.
Qed.

(** Days round trip: a list of days that is accepted has no day twice and
    becomes the mask with exactly those bits, and reading the mask back lists
    the same days in order of the week. *)
Theorem days_roundtrip v mask :
  daysToMask v = Returns mask ->
  exists days, v = JsArr (List.map JsInt days) /\ NoDup days /\ days <> [] /\ maskToDays mask ≡ₚ days /\ 1 <= mask <= 127.
Proof. apply daysToMask_spec. Qed.

Lemma days_roundtrip_witness :
  let v := JsArr [JsInt 5; JsInt 1; JsInt 3] in
  daysToMask v = Returns 42 /\ exists days, v = JsArr (List.map JsInt days) /\ maskToDays 42 ≡ₚ days.
Proof.
  intros v. assert (E : daysToMask v = Returns 42) by (vm_compute; reflexivity). split; [exact E|].
  destruct (days_roundtrip v 42 E) as (days & H1 & _ & _ & H2 & _). exists days. split; [exact H1|exact H2].
Defined.

(** ** One schedule per day *)

Lemma mask_fold_land cand mask :
  0 <= cand <= 127 -> Z.land cand (foldl (fun m day => Z.lor m (Z.shiftl 1 day)) 0 (maskToDays mask)) = Z.land cand mask.
Proof.
  intros Hc. apply Z.bits_inj'. intros n Hn. rewrite !Z.land_spec.
  rewrite fold_days_bit by (try done; intros d Hd; by apply elem_of_maskToDays in Hd as [? _]; lia).
  rewrite Z.bits_0. cbn [orb]. destruct (Z.le_gt_cases n 6) as [Hle|Hgt].
  - f_equal. apply eq_true_iff_eq. rewrite bool_decide_eq_true, elem_of_maskToDays. split; [by intros [_ ?]|done].
  - replace (Z.testbit cand n) with false; [done|]. symmetry. apply Z.testbit_false; [done|].
    rewrite Z.div_small; [done|]. split; [lia|]. assert (2 ^ 7 <= 2 ^ n) by (apply Z.pow_le_mono_r; lia). lia.
Qed.

Lemma conflict_none existing cand self :
  conflict_with existing cand self = None ->
  forall other, other ∈ existing -> Some (pw_id other) <> self -> pw_groupId other = pi_groupId cand ->
  Z.land (pi_days cand) (foldl (fun mask day => Z.lor mask (Z.shiftl 1 day)) 0 (pw_days other)) = 0.
Proof.
  induction existing as [|x l IH]; intros H other Hin Hs Hg; [by apply not_elem_of_nil in Hin|]. cbn in H.
  apply elem_of_cons in Hin as [->|Hin].
  - rewrite (bool_decide_eq_false_2 _ Hs), (bool_decide_eq_true_2 _ Hg) in H. cbn [orb negb] in H.
    destruct (negb _) eqn:E in H; [done|]. by bool_to_prop.
  - destruct (_ || _) in H; [by apply IH|]. destruct (negb _) in H; [done|by apply IH].
Qed.

(** Distinct schedules of an organization for the same workstations share no day. *)
Definition one_per_day (l : list PowerScheduleDbRow) : Prop :=
  NoDup (List.map ps_id l) /\
  (forall s, s ∈ l -> 0 <= ps_days s <= 127 /\ ps_group_id s <> Some ""%string) /\
  (forall a b, a ∈ l -> b ∈ l -> ps_id a <> ps_id b -> ps_tenant_id a = ps_tenant_id b -> ps_group_id a = ps_group_id b ->
     Z.land (ps_days a) (ps_days b) = 0).

Lemma one_per_day_filter p l : one_per_day l -> one_per_day (List.filter p l).
Proof.
  intros (Hn & Hb & Hp). split; [|split].
  - clear -Hn. induction l as [|x l IH]; [constructor|]. cbn in *. apply list.NoDup_cons in Hn as [Hx Hn].
    destruct (p x); [|by apply IH]. cbn. apply list.NoDup_cons. split; [|by apply IH].
    intros (y & Ey & Hy)%list_elem_of_fmap. apply elem_of_bfilter in Hy as [Hy _]. apply Hx, list_elem_of_fmap. by exists y.
  - intros s [Hs _]%elem_of_bfilter. by apply Hb.
  - intros a b [Ha _]%elem_of_bfilter [Hb' _]%elem_of_bfilter. by apply Hp.
Qed.

Lemma parse_input_ok body input :
  parsePowerScheduleInput body = Returns input -> 0 <= pi_days input <= 127 /\ pi_groupId input <> Some ""%string.
Proof.
  unfold parsePowerScheduleInput. intros H. invert_returns. subst input. cbn. split.
  - apply daysToMask_spec in E0 as (? & _ & _ & _ & _ & ?). lia.
  - unfold parse_group_id in E3. destruct (js_get body "groupId") as [| | | | |s| |]; cbn [is_absent as_string] in E3; try congruence.
    destruct (String.eqb s "") eqn:Es; [congruence|]. apply String.eqb_neq in Es.
    destruct (64 <? String.length s)%nat; [done|]. injection E3 as <-. congruence.
Qed.

Section Schedules.
Context `{Collation}.

Lemma elem_of_listPowerSchedules db t s :
  s ∈ listPowerSchedules db t <-> exists row, row ∈ power_schedules db /\ ps_tenant_id row = t /\ s = scheduleOf db row.
Proof.
  unfold listPowerSchedules, schedules_of. rewrite elem_of_js_sort, list_elem_of_fmap.
  setoid_rewrite elem_of_js_sort. setoid_rewrite elem_of_bfilter. setoid_rewrite String.eqb_eq. naive_solver.
Qed.

(** A row that agrees with the input is compatible with every other row. *)
Lemma accepted_compatible db t body input self new :
  one_per_day (power_schedules db) -> parsePowerScheduleInput body = Returns input ->
  powerScheduleConflict (listPowerSchedules db t) input self = None ->
  ps_tenant_id new = t -> ps_group_id new = pi_groupId input -> ps_days new = pi_days input ->
  forall b, b ∈ power_schedules db -> Some (ps_id b) <> self -> ps_tenant_id b = t -> ps_group_id b = ps_group_id new ->
  Z.land (ps_days new) (ps_days b) = 0.
Proof.
  intros (_ & Hb & _) Hp Hc Ht Hg Hd b Hin Hs Htb Hgb. destruct (parse_input_ok _ _ Hp) as [Hr _].
  rewrite Hd, <- (mask_fold_land (pi_days input) (ps_days b) Hr).
  apply (conflict_none _ _ _ Hc (scheduleOf db b)); [|done|cbn; congruence].
  apply elem_of_listPowerSchedules. by exists b.
Qed.

Lemma post_one_per_day db t body now newId db' id :
  one_per_day (power_schedules db) -> newId ∉ List.map ps_id (power_schedules db) ->
  post_power_schedule db t body now newId = Returns (db', id) -> one_per_day (power_schedules db').
Proof.
  intros Hinv Hnew Hpost. unfold post_power_schedule in Hpost. set (b := match body with JsNull => _ | _ => _ end) in Hpost.
  invert_returns. rename a into input. set (self := match js_get b "id" with JsStr s => _ | _ => _ end) in *.
  destruct (powerScheduleConflict _ _ _) eqn:Ec; [done|].
  destruct (parse_input_ok _ _ E) as [Hr Hg0]. pose proof Hinv as (Hn & Hb & Hp).
  destruct self as [i|] eqn:Es; cbn [savePowerSchedule] in Hpost.
  - destruct (existsb _ _) in Hpost; [|done]. injection Hpost as <- _. cbn.
    set (f := fun s => if is_schedule t i s then write_schedule input now s else s).
    assert (Hid : forall s, ps_id (f s) = ps_id s) by (intros s; unfold f; by destruct (is_schedule t i s)).
    split; [|split].
    + rewrite map_map. by rewrite (map_ext _ _ Hid).
    + intros s (s0 & -> & Hs0)%list_elem_of_fmap. unfold f. destruct (is_schedule t i s0); [done|by apply Hb].
    + intros x y (x0 & -> & Hx)%list_elem_of_fmap (y0 & -> & Hy)%list_elem_of_fmap. rewrite !Hid. intros Hne.
      assert (Hupd : forall s, is_schedule t i s = true -> ps_id s = i /\ ps_tenant_id s = t).
      { intros s Hs. unfold is_schedule in Hs. by bool_to_prop. }
      unfold f. destruct (is_schedule t i x0) eqn:Ex, (is_schedule t i y0) eqn:Ey.
      * destruct (Hupd _ Ex), (Hupd _ Ey). congruence.
      * destruct (Hupd _ Ex) as [Ix Tx]. intros Ht Hg. cbn in Ht, Hg. eapply (accepted_compatible db t); try done; cbn; congruence.
      * destruct (Hupd _ Ey) as [Iy Ty]. intros Ht Hg. cbn in Ht, Hg. rewrite Z.land_comm.
        eapply (accepted_compatible db t); try done; cbn; congruence.
      * by apply Hp.
  - injection Hpost as <- _. cbn. split; [|split].
    + rewrite map_app. cbn. apply list.NoDup_app. split_and!; [done| |apply NoDup_singleton].
      intros x Hx ->%list_elem_of_singleton. done.
    + intros s [Hs|Hs%list_elem_of_singleton]%elem_of_app; [by apply Hb|]. by subst s.
    + intros x y [Hx|Hx%list_elem_of_singleton]%elem_of_app [Hy|Hy%list_elem_of_singleton]%elem_of_app Hne Ht Hg; subst.
      * by apply Hp.
      * rewrite Z.land_comm. by eapply (accepted_compatible db t).
      * eapply (accepted_compatible db t); try done.
      * done.
Qed.

(** The states the console reaches: schedules saved and deleted, groups deleted. *)
Inductive power_reachable : D1Database -> Prop :=
| power_init db : power_schedules db = [] -> power_reachable db
| power_post db t body now newId db' id :
    power_reachable db -> newId ∉ List.map ps_id (power_schedules db) ->
    post_power_schedule db t body now newId = Returns (db', id) -> power_reachable db'
| power_delete db t id : power_reachable db -> power_reachable (deletePowerSchedule db t id).1
| power_group_delete db t groupId : power_reachable db ->
    power_reachable (deleteGroupPowerSchedules (deleteWorkstationGroup db t groupId).1 t groupId).

Lemma deleteWorkstationGroup_schedules db t g : power_schedules (deleteWorkstationGroup db t g).1 = power_schedules db.
Proof. unfold deleteWorkstationGroup. by destruct (js_find _ _). Qed.

Lemma power_reachable_one_per_day db : power_reachable db -> one_per_day (power_schedules db).
Proof.
  induction 1 as [db Hnil|db t body now newId db' id _ IH Hnew Hpost|db t id _ IH|db t g _ IH].
  - rewrite Hnil. split; [apply NoDup_nil_2|]. split; intros s; [|intros b]; by intros Hs%not_elem_of_nil.
  - by eapply post_one_per_day.
  - by apply one_per_day_filter.
  - cbn. rewrite deleteWorkstationGroup_schedules. by apply one_per_day_filter.
Qed.

(** Group names are unique in an organization (the table's index), and so are group ids. *)
Definition groups_unique (db : D1Database) : Prop :=
  forall g h, g ∈ workstation_groups db -> h ∈ workstation_groups db ->
    (g_id g = g_id h \/ (g_tenant_id g = g_tenant_id h /\ g_name g = g_name h)) -> g = h.

Lemma same_group_name db a b :
  groups_unique db -> ps_tenant_id a = ps_tenant_id b -> ps_group_id a <> Some ""%string -> ps_group_id b <> Some ""%string ->
  pr_orphaned (rule_of db a) = false -> pr_orphaned (rule_of db b) = false ->
  pr_groupName (rule_of db a) = pr_groupName (rule_of db b) -> ps_group_id a = ps_group_id b.
Proof.
  intros Hu Ht Ha Hb. unfold rule_of, real_group, row_group_name. cbn.
  destruct (ps_group_id a) as [i|], (ps_group_id b) as [j|]; cbn; try done.
  - rewrite (proj2 (String.eqb_neq i "")), (proj2 (String.eqb_neq j "")) by congruence. cbn.
    destruct (js_find _ _) as [g|] eqn:Eg; [|done]. destruct (js_find (fun g => String.eqb (g_id g) j && _) _) as [h|] eqn:Eh; [|done]. cbn.
    intros _ _ [= En]. apply js_find_Some in Eg as [Hg Eg], Eh as [Hh Eh]. bool_to_prop. subst.
    f_equal. apply (f_equal g_id). apply Hu; try done. right. split; congruence.
  - rewrite (proj2 (String.eqb_neq i "")) by congruence. cbn. by destruct (js_find _ _).
  - rewrite (proj2 (String.eqb_neq j "")) by congruence. cbn. by destruct (js_find _ _).
Qed.

Lemma find_perm_unique {A} (p : A -> bool) l k :
  (forall x y, x ∈ l -> y ∈ l -> p x = true -> p y = true -> x = y) -> l ≡ₚ k -> js_find p l = js_find p k.
Proof.
  intros Hu Hp. destruct (js_find p l) as [x|] eqn:E1, (js_find p k) as [y|] eqn:E2; [|exfalso|exfalso|done].
  - apply js_find_Some in E1 as [Hx Px], E2 as [Hy Py]. f_equal. apply Hu; try done. by rewrite Hp.
  - apply js_find_Some in E1 as [Hx Px]. rewrite Hp in Hx. rewrite js_find_None in E2. apply E2 in Hx. congruence.
  - apply js_find_Some in E2 as [Hy Py]. rewrite <- Hp in Hy. rewrite js_find_None in E1. apply E1 in Hy. congruence.
Qed.

(** At most one of an organization's rules is for a given group on a given day. *)
Lemma rule_unique db t g day x y :
  one_per_day (power_schedules db) -> groups_unique db -> 0 <= day ->
  x ∈ (loadPowerRules db t).1 -> y ∈ (loadPowerRules db t).1 -> rule_for g day x = true -> rule_for g day y = true -> x = y.
Proof.
  intros (Hn & Hb & Hp) Hu Hd. cbn. intros (a & -> & Ha)%list_elem_of_fmap (b & -> & Hb')%list_elem_of_fmap Px Py.
  apply elem_of_bfilter in Ha as [Ha Ta], Hb' as [Hb' Tb]. unfold rule_for in *. bool_to_prop. subst.
  rename H1 into Gx, H2 into Gy.
  assert (Hg : ps_group_id a = ps_group_id b).
  { apply (same_group_name db a b Hu); [congruence|by destruct (Hb a Ha)|by destruct (Hb b Hb')|done|done|congruence]. }
  destruct (decide (ps_id a = ps_id b)) as [Hid|Hid].
  - f_equal. clear -Hn Ha Hb' Hid. induction (power_schedules db) as [|s l IH]; [by apply not_elem_of_nil in Ha|].
    cbn in Hn. apply list.NoDup_cons in Hn as [Hs Hn].
    assert (Hout : forall r, r ∈ l -> ps_id r <> ps_id s) by (intros r Hr E; apply Hs; rewrite <- E; apply list_elem_of_fmap; by exists r).
    apply elem_of_cons in Ha as [->|Ha], Hb' as [->|Hb']; [done| | |by apply IH].
    + symmetry in Hid. by apply Hout in Hid.
    + by apply Hout in Hid.
  - exfalso. pose proof (Hp a b Ha Hb' Hid ltac:(congruence) Hg) as Hz.
    assert (Z.testbit (Z.land (ps_days a) (ps_days b)) day = true) as Hbit.
    { rewrite Z.land_spec, <- !day_bit by done. apply andb_true_iff. rewrite !negb_true_iff, !Z.eqb_neq. done. }
    by rewrite Hz, Z.bits_0 in Hbit.
Qed.

(** Every workstation has one schedule a day. In every state the console
    reaches, at most one rule of an organization applies to a group (or to
    everyone) on a day, so the week a workstation is sent does not depend on
    the order in which the database returns the schedules. *)
Theorem effectivePower_order_independent db t g rules :
  power_reachable db -> groups_unique db -> rules ≡ₚ (loadPowerRules db t).1 ->
  effectivePower rules g = effectivePower (loadPowerRules db t).1 g.
Proof.
  intros Hr%power_reachable_one_per_day Hu Hperm. unfold effectivePower.
  enough (Hday : forall day, day ∈ [0; 1; 2; 3; 4; 5; 6] -> power_day rules g day = power_day (loadPowerRules db t).1 g day).
  { rewrite (map_ext_in (power_day rules g) (power_day (loadPowerRules db t).1 g) [0; 1; 2; 3; 4; 5; 6]); [done|].
    intros day Hday'. apply Hday. by apply list_elem_of_In. }
  intros day Hd. assert (0 <= day) by (rewrite !elem_of_cons, elem_of_nil in Hd; lia). unfold power_day.
  assert (Hf : forall h, js_find (rule_for h day) rules = js_find (rule_for h day) (loadPowerRules db t).1).
  { intros h. symmetry. apply find_perm_unique; [|by symmetry]. intros x y Hx Hy. by eapply rule_unique. }
  destruct g as [g|]; [destruct (String.eqb g "")|]; by rewrite !Hf.
Qed.
End Schedules.

Definition schedule_body (days : list Z) (off : string) (group : jsval) : jsval :=
  JsObj [("days"%string, JsArr (List.map JsInt days)); ("off"%string, JsStr off); ("on"%string, JsStr "07:30"); ("groupId"%string, group)].

Lemma effectivePower_order_independent_witness :
  let db0 := on_workstation_groups (fun _ => [mkWorkstationGroup "g1" "org" "Lab"]) empty_db in
  let rows := [mkPowerRow "s1" "org" None 62 1080 (Some 450) 1 1; mkPowerRow "s2" "org" (Some "g1"%string) 2 960 (Some 450) 2 2] in
  let db := on_power_schedules (fun _ => rows) db0 in
  let rules := rev (loadPowerRules db "org").1 in
  rules <> (loadPowerRules db "org").1 /\
  effectivePower rules (Some "Lab"%string) = effectivePower (loadPowerRules db "org").1 (Some "Lab"%string).
Proof.
  intros db0 rows db rules. split; [vm_compute; discriminate|].
  apply (@effectivePower_order_independent code_collation db "org" (Some "Lab"%string) rules).
  - eapply (power_post (on_power_schedules (fun _ => take 1 rows) db0) "org" (schedule_body [1] "16:00" (JsStr "g1")) 2 "s2").
    + eapply (power_post db0 "org" (schedule_body [1; 2; 3; 4; 5] "18:00" JsNull) 1 "s1").
      * by apply power_init.
      * cbn. by intros ?%not_elem_of_nil.
      * vm_compute. reflexivity.
    + cbn. by intros ?%list_elem_of_singleton.
    + vm_compute. reflexivity.
  - intros g h Hg Hh _. cbn in Hg, Hh. apply list_elem_of_singleton in Hg as ->, Hh as ->. done.
  - symmetry. apply Permutation_rev.
Defined.

(** A schedule that is accepted leaves time between the two switches: its
    times are minutes of the day, at least fifteen minutes apart whichever way
    round the clock, its days are some days of the week, and the day it is
    for or the group it names is kept as given. *)
Theorem parsePowerScheduleInput_valid body input :
  parsePowerScheduleInput body = Returns input ->
  0 <= pi_offMinute input < 1440 /\ 1 <= pi_days input <= 127 /\
  (forall on_, pi_onMinute input = Some on_ ->
     0 <= on_ < 1440 /\ MIN_ON_OFF_GAP_MINUTES <= (on_ - pi_offMinute input) `mod` 1440 /\
     MIN_ON_OFF_GAP_MINUTES <= (pi_offMinute input - on_) `mod` 1440) /\
  (forall g, pi_groupId input = Some g -> js_get body "groupId" = JsStr g /\ g <> ""%string /\ (String.length g <= 64)%nat).
Proof.
  unfold parsePowerScheduleInput. intros H. invert_returns. subst input. cbn [pi_offMinute pi_days pi_onMinute pi_groupId].
  assert (Hclock : forall v f m, parseClockTime v f = Returns m -> 0 <= m < 1440).
  { intros v f m Hm. destruct v as [| | | | |s| |]; try done. unfold parseClockTime in Hm.
    destruct (re_test TIME_PATTERN s) eqn:Et; [|done]. apply re_test_iff, time_pattern_digits in Et as (a & b & c & d & ? & ? & ? & ? & ? & ->).
    cbn [str_take str_drop] in Hm. unfold digits_value in Hm. cbn [digits_value_acc] in Hm. rewrite !code_chr in Hm by lia.
    injection Hm as <-. lia. }
  pose proof (Hclock _ _ _ E1) as Hoff. split; [done|].
  split; [apply daysToMask_spec in E0 as (? & _ & _ & _ & _ & ?); done|]. split.
  - intros on_ ->. unfold parse_on in E2. destruct (is_absent _); [done|]. invert_returns. simplify_eq.
    pose proof (Hclock _ _ _ E4) as Hon. split; [done|]. bool_to_prop. unfold MIN_ON_OFF_GAP_MINUTES in *. clear -Hoff Hon E5. div_lia.
  - intros g ->. unfold parse_group_id in E3. destruct (js_get body "groupId") as [| | | | |s| |]; cbn [is_absent as_string] in E3; try congruence.
    destruct (String.eqb s "") eqn:Es; [congruence|]. apply String.eqb_neq in Es.
    destruct (64 <? String.length s)%nat eqn:El; [done|]. injection E3 as <-. apply Nat.ltb_ge in El. done.
Qed.

Lemma parsePowerScheduleInput_valid_witness :
  parsePowerScheduleInput (schedule_body [1] "16:00" (JsStr "g1")) = Returns (mkPowerInput (Some "g1"%string) 2 960 (Some 450)) /\
  MIN_ON_OFF_GAP_MINUTES <= (450 - 960) `mod` 1440.
Proof.
  assert (E : parsePowerScheduleInput (schedule_body [1] "16:00" (JsStr "g1")) = Returns (mkPowerInput (Some "g1"%string) 2 960 (Some 450)))
    by (vm_compute; reflexivity).
  split; [exact E|]. destruct (parsePowerScheduleInput_valid _ _ E) as (_ & _ & H & _). apply (H 450 eq_refl).
Defined.
