(* ===== verification/Auth.v ===== *)
(** src/cloudflare-control/src/auth.ts: hexadecimal, password hashes, constant
    time comparison, enrollment keys and cookies.

    Random bytes are arguments. *)
From S2P Require Import Prelude JsString Regex Platform Escape Power.

(** ** Hexadecimal *)

Definition hex_char (d : Z) : ascii := if d <? 10 then chr (48 + d) else chr (87 + d).

(** [b.toString(16).padStart(2, "0")] of a byte. *)
Definition hex_byte (b : Z) : string := String (hex_char (b `div` 16)) (String (hex_char (b `mod` 16)) "").

Fixpoint bufferToHex (bytes : list Z) : string :=
  match bytes with [] => ""%string | b :: l => hex_byte b +:+ bufferToHex l end.

(** [parseInt(text, 16)] of two characters, stored as a byte: white space and
    a sign are allowed in front, what is not a digit ends the number, and NaN
    is stored as 0. *)
Definition hex_value (c : ascii) : option Z :=
  if is_lower_hex c then Some (hex_digit c) else if in_range 65 70 c then Some (code c - 55) else None.

Definition parse_hex_byte (a b : ascii) : Z :=
  if is_space a || is_char "+" a then default 0 (hex_value b)
  else if is_char "-" a then (- default 0 (hex_value b)) `mod` 256
  else
    match hex_value a, hex_value b with
    | Some x, Some y => 16 * x + y
    | Some x, None => x
    | None, _ => 0
    end.

(** The odd last character of a text is written past the end of the buffer. *)
Fixpoint hexToBuffer (hex : string) : list Z :=
  match hex with
  | String a (String b rest) => parse_hex_byte a b :: hexToBuffer rest
  | _ => []
  end.

Definition is_byte (b : Z) : Prop := 0 <= b < 256.

(** ** Comparison *)

Fixpoint diff_loop (diff : Z) (a b : string) : Z :=
  match a, b with
  | String x a', String y b' => diff_loop (Z.lor diff (Z.lxor (code x) (code y))) a' b'
  | _, _ => diff
  end.

Definition timingSafeEqual (a b : string) : bool :=
  if negb (String.length a =? String.length b)%nat then false else diff_loop 0 a b =? 0.

(** ** Passwords *)

Definition PEPPERED_HASH_PREFIX : string := "p1$".
Definition MIN_PEPPER_LENGTH : nat := 32.
Definition LOCAL_DEVELOPMENT_PEPPER : string := "labkiosk-local-development-pepper-not-for-production".

Definition passwordPepper (PASSWORD_PEPPER ALLOW_LOCAL_DB : option string) : js_result string :=
  let pepper := default ""%string PASSWORD_PEPPER in
  if (MIN_PEPPER_LENGTH <=? String.length pepper)%nat then Returns pepper
  else if String.eqb pepper "" && bool_decide (ALLOW_LOCAL_DB = Some "1"%string) then Returns LOCAL_DEVELOPMENT_PEPPER
  else Throws "PASSWORD_PEPPER must be set as a Wrangler secret of at least 32 characters".

(** [/^[0-9a-f]{64}$/]. *)
Definition BARE_HASH : re := RRep 64 (RClass is_lower_hex).

Section Passwords.
Context `{WebCrypto}.

Definition pepperBytes (pepper : string) (bytes : list Z) : string := PEPPERED_HASH_PREFIX +:+ bufferToHex (hmacSha256 pepper bytes).

(** [salt]: the salt given, or the one drawn. *)
Definition hashPassword (password pepper : string) (salt : list Z) : string * string :=
  (pepperBytes pepper (pbkdf2 password salt), bufferToHex salt).

Definition verifyPassword (password storedHashHex storedSaltHex pepper : string) : bool :=
  let derived := pbkdf2 password (hexToBuffer storedSaltHex) in
  if startsWith storedHashHex PEPPERED_HASH_PREFIX
  then timingSafeEqual (pepperBytes pepper derived) storedHashHex
  else timingSafeEqual (bufferToHex derived) storedHashHex.

Definition pepperLegacyHash (storedHashHex pepper : string) : option string :=
  if startsWith storedHashHex PEPPERED_HASH_PREFIX || negb (re_test BARE_HASH storedHashHex) then None
  else Some (pepperBytes pepper (hexToBuffer storedHashHex)).
End Passwords.

(** ** Enrollment keys *)

Definition ENROLLMENT_KEY_ALPHABET : string := "ABCDEFGHJKMNPQRSTVWXYZ23456789".
Definition ENROLLMENT_KEY_LENGTH : nat := 20.
Definition N_KEY : Z := 30.

Definition key_code (c : ascii) : Z := indexOf c ENROLLMENT_KEY_ALPHABET.
Definition key_char (n : Z) : ascii := default " "%char (String.get (Z.to_nat n) ENROLLMENT_KEY_ALPHABET).

Definition addend (factor code_ : Z) : Z := (factor * code_) `div` N_KEY + (factor * code_) `mod` N_KEY.

(** The loop, from the last character to the first. *)
Fixpoint luhn_loop (factor sum : Z) (l : list ascii) : js_result Z :=
  match l with
  | [] => Returns sum
  | c :: l' =>
      if key_code c <? 0 then Throws "Not an enrollment key character"
      else luhn_loop (if factor =? 2 then 1 else 2) (sum + addend factor (key_code c)) l'
  end.

Definition enrollmentKeyCheckCharacter (payload : string) : js_result ascii :=
  sum ← luhn_loop 2 0 (rev (String.list_ascii_of_string payload));
  Returns (key_char ((N_KEY - sum `mod` N_KEY) `mod` N_KEY)).

Definition is_key_char (c : ascii) : bool := has_char c ENROLLMENT_KEY_ALPHABET.

(** The characters of a key, hyphens aside. *)
Definition key_flat (key : string) : string := join "" (split_on "-" key).

Definition isEnrollmentKey (key : string) : bool :=
  let groups := split_on "-" key in
  if negb (length groups =? 4)%nat || existsb (fun g => negb (String.length g =? 5)%nat) groups then false
  else
    let flat := key_flat key in
    if negb (str_forallb is_key_char flat) then false
    else
      match enrollmentKeyCheckCharacter (str_drop_last 1 flat) with
      | Returns c => bool_decide (str_drop (String.length flat - 1) flat = String c "")
      | Throws _ => false
      end.

(** [bytes]: the nineteen random bytes drawn. *)
Definition generateEnrollmentKey (bytes : list Z) : js_result string :=
  let payload := String.string_of_list_ascii (List.map (fun b => key_char (b `mod` N_KEY)) bytes) in
  check ← enrollmentKeyCheckCharacter payload;
  let chars := payload +:+ String check "" in
  Returns (join "-" (List.map (fun i => str_take 5 (str_drop i chars)) [0; 5; 10; 15]%nat)).

(** ** Password policy and cookies *)

Definition validatePasswordStrength (password : string) : option string :=
  if (String.length password <? 12)%nat then Some "Password must be at least 12 characters long"%string
  else if (200 <? String.length password)%nat then Some "Password must be 200 characters or fewer"%string
  else if negb (str_existsb is_alpha password) || negb (str_existsb is_digit password)
       then Some "Password must contain both letters and numbers"%string
  else None.

(** [/^[^\s@]+@[^\s@]+\.[^\s@]{2,}$/]. *)
Definition EMAIL : re :=
  let part := RClass (fun c => negb (is_space c) && negb (is_char "@" c)) in
  RCat (RPlus part) (RCat (RChar "@") (RCat (RPlus part) (RCat (RChar ".") (RCat part (RPlus part))))).

Definition isPlausibleEmail (value : string) : bool :=
  let email := trim value in (String.length email <=? 254)%nat && re_test EMAIL email.

(** ** Hexadecimal round trip *)

Lemma hex_digit_char d : 0 <= d < 16 -> is_lower_hex (hex_char d) = true /\ hex_digit (hex_char d) = d.
Proof.
  intros Hd. pose proof (Z_interval_forall (fun d => is_lower_hex (hex_char d) && (hex_digit (hex_char d) =? d)) 16
    ltac:(vm_compute; reflexivity) d ltac:(lia)) as Hp. cbv beta in Hp. bool_to_prop. done.
Qed.

Lemma lower_hex_not_special c : is_lower_hex c = true -> is_space c || is_char "+" c = false /\ is_char "-" c = false.
Proof.
  pose proof (all_chars_forall (fun c => implb (is_lower_hex c) (negb (is_space c || is_char "+" c) && negb (is_char "-" c)))
    ltac:(vm_compute; reflexivity) c) as Hc. cbv beta in Hc. intros H. rewrite H in Hc. cbn [implb] in Hc.
  apply andb_prop in Hc as [H1 H2]. by destruct (is_space c || is_char "+" c), (is_char "-" c).
Qed.

Lemma parse_hex_byte_lower a b :
  is_lower_hex a = true -> is_lower_hex b = true -> parse_hex_byte a b = 16 * hex_digit a + hex_digit b.
Proof.
  intros Ha Hb. destruct (lower_hex_not_special a Ha) as [H1 H2]. unfold parse_hex_byte, hex_value. by rewrite H1, H2, Ha, Hb.
Qed.

Lemma parse_hex_byte_of b : is_byte b -> parse_hex_byte (hex_char (b `div` 16)) (hex_char (b `mod` 16)) = b.
Proof.
  intros Hb. unfold is_byte in Hb.
  destruct (hex_digit_char (b `div` 16)) as [H1 H2]; [div_lia|]. destruct (hex_digit_char (b `mod` 16)) as [H3 H4]; [div_lia|].
  rewrite parse_hex_byte_lower, H2, H4 by done. div_lia.
Qed.

Lemma hex_to_from bytes : Forall is_byte bytes -> hexToBuffer (bufferToHex bytes) = bytes.
Proof.
  induction 1 as [|b l Hb _ IH]; [done|]. cbn [bufferToHex]. unfold hex_byte. cbn [String.append hexToBuffer].
  by rewrite parse_hex_byte_of, IH.
Qed.

Lemma lower_hex_char c : is_lower_hex c = true -> 0 <= hex_digit c < 16 /\ hex_char (hex_digit c) = c.
Proof.
  pose proof (all_chars_forall (fun c => implb (is_lower_hex c)
    ((0 <=? hex_digit c) && (hex_digit c <? 16) && Ascii.eqb (hex_char (hex_digit c)) c)) ltac:(vm_compute; reflexivity) c) as Hc.
  cbv beta in Hc. intros H. rewrite H in Hc. cbn [implb] in Hc. bool_to_prop. apply Ascii.eqb_eq in H1. split; [lia|done].
Qed.

Lemma hex_from_to n : forall hex,
  (String.length hex <= n)%nat -> Nat.Even (String.length hex) -> str_forallb is_lower_hex hex = true ->
  bufferToHex (hexToBuffer hex) = hex.
Proof.
  induction n as [|n IH]; intros [|a [|b hex]] Hn Heven Hl; cbn [String.length str_forallb] in *; try done; try lia.
  - destruct Heven as [k Hk]. lia.
  - apply andb_prop in Hl as [Ha Hl]. apply andb_prop in Hl as [Hb Hl].
    cbn [hexToBuffer bufferToHex]. rewrite parse_hex_byte_lower by done.
    destruct (lower_hex_char a Ha) as [Ra Hca], (lower_hex_char b Hb) as [Rb Hcb].
    rewrite IH; [|lia|destruct Heven as [k Hk]; exists (k - 1)%nat; lia|done]. unfold hex_byte. cbn [String.append].
    replace ((16 * hex_digit a + hex_digit b) `div` 16) with (hex_digit a) by div_lia.
    replace ((16 * hex_digit a + hex_digit b) `mod` 16) with (hex_digit b) by div_lia. by rewrite Hca, Hcb.
Qed.

(** What is read is always bytes. *)
Lemma hexToBuffer_bytes n : forall hex, (String.length hex <= n)%nat -> Forall is_byte (hexToBuffer hex).
Proof.
  induction n as [|n IH]; intros [|a [|b hex]] Hn; cbn [String.length hexToBuffer] in *; try (constructor; fail); try lia.
  constructor; [|apply IH; lia].
  assert (Hv : forall c v, hex_value c = Some v -> 0 <= v < 16).
  { intros c v. unfold hex_value. destruct (is_lower_hex c) eqn:E; [intros [= <-]; apply lower_hex_char, E|].
    unfold in_range. destruct (Z.leb_spec 65 (code c)), (Z.leb_spec (code c) 70); cbn; try done. intros [= <-]. lia. }
  unfold is_byte, parse_hex_byte. pose proof (Hv a) as Hva. pose proof (Hv b) as Hvb.
  destruct (is_space a || is_char "+" a); [|destruct (is_char "-" a)]; destruct (hex_value b) as [y|];
    try destruct (hex_value a) as [x|]; cbn [default id];
    repeat match goal with H : forall v, Some _ = Some v -> _ |- _ => specialize (H _ eq_refl) end; try div_lia.
Qed.

(** Hexadecimal round trips. Bytes written out and read back are the same
    bytes; text of pairs of lower-case hexadecimal digits read and written out
    is the same text; and whatever the text, what is read is bytes. *)
Theorem hex_roundtrip :
  (forall bytes, Forall is_byte bytes -> hexToBuffer (bufferToHex bytes) = bytes) /\
  (forall hex, Nat.Even (String.length hex) -> str_forallb is_lower_hex hex = true -> bufferToHex (hexToBuffer hex) = hex) /\
  (forall hex, Forall is_byte (hexToBuffer hex)).
Proof.
  split; [apply hex_to_from|]. split; [intros hex; by apply (hex_from_to (String.length hex))|].
  intros hex. by apply (hexToBuffer_bytes (String.length hex)).
Qed.

(** ** Comparison is equality *)

Lemma diff_loop_zero a : forall b diff,
  String.length a = String.length b -> 0 <= diff -> diff_loop diff a b = 0 <-> diff = 0 /\ a = b.
Proof.
  induction a as [|x a IH]; intros [|y b] diff Hl Hd; cbn [diff_loop String.length] in *; try done; [naive_solver|].
  pose proof (code_bounds x). pose proof (code_bounds y).
  rewrite IH; [|lia|apply Z.lor_nonneg; split; [done|apply Z.lxor_nonneg; lia]].
  rewrite Z.lor_eq_0_iff, Z.lxor_eq_0_iff. split.
  - intros [[-> Hc] ->]. apply code_inj in Hc as ->. done.
  - intros [-> [= -> ->]]. done.
Qed.

Lemma timingSafeEqual_iff a b : timingSafeEqual a b = true <-> a = b.
Proof.
  unfold timingSafeEqual. destruct (Nat.eqb_spec (String.length a) (String.length b)) as [Hl|Hl]; cbn [negb].
  - rewrite Z.eqb_eq, diff_loop_zero by done. naive_solver.
  - split; [done|]. by intros ->.
Qed.

(** ** Passwords *)

Lemma str_length_hex bytes : String.length (bufferToHex bytes) = (2 * length bytes)%nat.
Proof. induction bytes as [|b l IH]; [done|]. cbn [bufferToHex]. rewrite str_length_app, IH. cbn. lia. Qed.

Lemma startsWith_app p t : startsWith (p +:+ t) p = true.
Proof. apply startsWith_iff. by exists t. Qed.

Lemma hex_not_peppered h : re_test BARE_HASH h = true -> startsWith h PEPPERED_HASH_PREFIX = false.
Proof.
  intros Hh. destruct (startsWith h PEPPERED_HASH_PREFIX) eqn:E; [|done]. apply startsWith_iff in E as [t ->].
  apply (re_test_within is_lower_hex) in Hh; [|vm_compute; reflexivity]. done.
Qed.

Section PasswordProofs.
Context `{WebCrypto}.

(** Web Crypto returns bytes. *)
Hypothesis pbkdf2_bytes : forall password salt, Forall is_byte (pbkdf2 password salt).
Hypothesis hmac_bytes : forall pepper bytes, Forall is_byte (hmacSha256 pepper bytes).

Lemma bufferToHex_inj a b : Forall is_byte a -> Forall is_byte b -> bufferToHex a = bufferToHex b -> a = b.
Proof. intros Ha Hb E. apply hex_to_from in Ha, Hb. congruence. Qed.

(** Passwords. A stored hash accepts a password exactly when their keyed
    hashes agree, so it accepts the password it was made from; and wrapping an
    old hash in the pepper keeps accepting the password it accepted, and is
    done once. *)
Theorem password_hashes password pepper salt :
  Forall is_byte salt ->
  let '(hash, saltHex) := hashPassword password pepper salt in
  (forall candidate, verifyPassword candidate hash saltHex pepper = true <->
     hmacSha256 pepper (pbkdf2 candidate salt) = hmacSha256 pepper (pbkdf2 password salt)) /\
  (forall old wrapped, verifyPassword password old saltHex pepper = true -> pepperLegacyHash old pepper = Some wrapped ->
     verifyPassword password wrapped saltHex pepper = true /\ pepperLegacyHash wrapped pepper = None).
Proof.
  intros Hs. unfold hashPassword. split.
  - intros candidate. unfold verifyPassword. rewrite hex_to_from by done. unfold pepperBytes.
    rewrite startsWith_app, timingSafeEqual_iff. split; [|by intros ->].
    intros E%str_app_inv_l. by apply bufferToHex_inj in E.
  - intros old wrapped Hv Hw. unfold pepperLegacyHash in Hw. destruct (startsWith old PEPPERED_HASH_PREFIX) eqn:Ep; [done|].
    destruct (re_test BARE_HASH old); [|done]. cbn [orb negb] in Hw. injection Hw as <-.
    unfold verifyPassword in *. rewrite hex_to_from in * by done. rewrite Ep in Hv. apply timingSafeEqual_iff in Hv as <-.
    rewrite hex_to_from by done. unfold pepperLegacyHash, pepperBytes. rewrite startsWith_app. split; [by apply timingSafeEqual_iff|done].
Qed.
End PasswordProofs.

(** A crypto that returns bytes. *)
Definition bytes_crypto : WebCrypto :=
  {| sha256Hex := fun s => s; pbkdf2 := fun _ salt => List.map (fun b => b `mod` 256) salt; hmacSha256 := fun _ l => List.map (fun b => b `mod` 256) l |}.

Lemma mod_bytes l : Forall is_byte (List.map (fun b => b `mod` 256) l).
Proof. induction l as [|b l IH]; constructor; [unfold is_byte; div_lia|done]. Qed.

Lemma bytes_crypto_pbkdf2 password salt : Forall is_byte (@pbkdf2 bytes_crypto password salt).
Proof. apply mod_bytes. Qed.

Lemma bytes_crypto_hmac pepper l : Forall is_byte (@hmacSha256 bytes_crypto pepper l).
Proof. apply mod_bytes. Qed.

Lemma password_hashes_witness :
  Forall is_byte [1; 255] /\
  let '(hash, saltHex) := @hashPassword bytes_crypto "correct horse" "pepper" [1; 255] in
  (hash, saltHex) = ("p1$01ff", "01ff")%string /\ @verifyPassword bytes_crypto "correct horse" hash saltHex "pepper" = true.
Proof.
  assert (Hs : Forall is_byte [1; 255]) by (repeat constructor; unfold is_byte; lia).
  split; [exact Hs|]. split; [vm_compute; reflexivity|].
  apply (proj1 (@password_hashes bytes_crypto bytes_crypto_pbkdf2 bytes_crypto_hmac "correct horse" "pepper" [1; 255] Hs)). reflexivity.
Defined.

(** ** The check character *)

(** What the loop adds up, from the last character. *)
Fixpoint luhn_sum (factor : Z) (l : list ascii) : Z :=
  match l with [] => 0 | c :: l' => addend factor (key_code c) + luhn_sum (3 - factor) l' end.

Lemma key_char_facts c : is_key_char c = true -> 0 <= key_code c < N_KEY /\ key_char (key_code c) = c.
Proof.
  pose proof (all_chars_forall (fun c => implb (is_key_char c)
    ((0 <=? key_code c) && (key_code c <? N_KEY) && Ascii.eqb (key_char (key_code c)) c)) ltac:(vm_compute; reflexivity) c) as Hc.
  cbv beta in Hc. intros H. rewrite H in Hc. cbn [implb] in Hc. bool_to_prop. apply Ascii.eqb_eq in H1. split; [lia|done].
Qed.

Lemma key_code_char n : 0 <= n < N_KEY -> key_code (key_char n) = n /\ is_key_char (key_char n) = true.
Proof.
  intros Hn. pose proof (Z_interval_forall (fun n => (key_code (key_char n) =? n) && is_key_char (key_char n)) 30
    ltac:(vm_compute; reflexivity) n Hn) as Hp. cbv beta in Hp. bool_to_prop. done.
Qed.

Lemma luhn_loop_sum l : forall factor sum, factor = 1 \/ factor = 2 -> Forall (fun c => is_key_char c = true) l ->
  luhn_loop factor sum l = Returns (sum + luhn_sum factor l).
Proof.
  induction l as [|c l IH]; intros factor sum Hf Hl; cbn [luhn_loop luhn_sum]; [f_equal; lia|].
  inversion Hl as [|? ? Hc Hl']; subst. destruct (key_char_facts c Hc) as [Hr _].
  destruct (Z.ltb_spec (key_code c) 0); [lia|].
  replace (if factor =? 2 then 1 else 2) with (3 - factor) by (destruct (Z.eqb_spec factor 2); lia).
  rewrite IH by (done || lia). f_equal. lia.
Qed.

(** The factor after [n] characters. *)
Fixpoint factor_after (n : nat) (factor : Z) : Z := match n with O => factor | S n' => factor_after n' (3 - factor) end.

Lemma factor_after_range n : forall factor, factor = 1 \/ factor = 2 -> factor_after n factor = 1 \/ factor_after n factor = 2.
Proof. induction n as [|n IH]; intros factor Hf; [done|]. cbn. apply IH. lia. Qed.

Lemma luhn_sum_app x : forall y factor, luhn_sum factor (x ++ y) = luhn_sum factor x + luhn_sum (factor_after (length x) factor) y.
Proof. induction x as [|c x IH]; intros y factor; cbn; [lia|]. rewrite IH. lia. Qed.

Lemma addend_inj factor a b :
  factor = 1 \/ factor = 2 -> 0 <= a < N_KEY -> 0 <= b < N_KEY ->
  (addend factor a - addend factor b) `mod` N_KEY = 0 -> a = b.
Proof. unfold addend, N_KEY. intros [-> | ->] Ha Hb; div_lia. Qed.

(** Swapping two neighbours keeps the sum only when they are equal or the
    alphabet's ends; there are 900 pairs to look at. *)
Definition swap_ok (factor a b : Z) : bool :=
  implb ((addend factor b + (addend (3 - factor) a + 0) - (addend factor a + (addend (3 - factor) b + 0))) `mod` N_KEY =? 0)
    ((a =? b) || ((a =? 0) && (b =? 29)) || ((a =? 29) && (b =? 0))).

Lemma swap_collides factor a b :
  factor = 1 \/ factor = 2 -> 0 <= a < N_KEY -> 0 <= b < N_KEY ->
  (addend factor b + (addend (3 - factor) a + 0) - (addend factor a + (addend (3 - factor) b + 0))) `mod` N_KEY = 0 ->
  a = b \/ (a = 0 /\ b = 29) \/ (a = 29 /\ b = 0).
Proof.
  intros Hf Ha Hb Hs. assert (Hok : swap_ok factor a b = true).
  { apply (Z_interval_forall (swap_ok factor a) 30); [|exact Hb].
    apply (Z_interval_forall (fun a => forallb (swap_ok factor a) (List.map Z.of_nat (List.seq 0 30))) 30); [|exact Ha].
    destruct Hf as [-> | ->]; vm_compute; reflexivity. }
  unfold swap_ok in Hok. rewrite Hs in Hok. cbn [Z.eqb implb] in Hok.
  destruct (Z.eqb_spec a b), (Z.eqb_spec a 0), (Z.eqb_spec b 29), (Z.eqb_spec a 29), (Z.eqb_spec b 0); cbn in Hok; try done; lia.
Qed.

Lemma chars_app a b : String.list_ascii_of_string (a +:+ b) = String.list_ascii_of_string a ++ String.list_ascii_of_string b.
Proof. induction a as [|c a IH]; [done|]. cbn. by rewrite IH. Qed.

Lemma str_forallb_chars p s : str_forallb p s = true -> Forall (fun c => p c = true) (String.list_ascii_of_string s).
Proof. induction s as [|c s IH]; cbn; intros H; constructor; bool_to_prop; auto. Qed.

(** The characters of a valid key add up to a multiple of the alphabet's size. *)
Lemma valid_key_sum key :
  isEnrollmentKey key = true ->
  let l := rev (String.list_ascii_of_string (key_flat key)) in
  Forall (fun c => is_key_char c = true) l /\ (luhn_sum 1 l) `mod` N_KEY = 0.
Proof.
  unfold isEnrollmentKey. destruct (_ || _); [done|]. destruct (str_forallb is_key_char (key_flat key)) eqn:Ef; [|done]. cbn [negb].
  set (flat := key_flat key) in *. set (l := rev _). intros H.
  assert (Hl : Forall (fun c => is_key_char c = true) l) by (apply Forall_rev, str_forallb_chars, Ef). split; [done|].
  unfold enrollmentKeyCheckCharacter in H. set (payload := str_drop_last 1 flat) in *.
  assert (Hpay : exists check, flat = payload +:+ check /\ check = str_drop (String.length flat - 1) flat).
  { eexists. split; [|done]. unfold payload, str_drop_last. by rewrite str_take_drop. }
  destruct Hpay as (check & Hflat & Hcheck).
  assert (Hp : Forall (fun c => is_key_char c = true) (rev (String.list_ascii_of_string payload))).
  { apply Forall_rev. unfold l in Hl. rewrite Hflat, chars_app, rev_app_distr in Hl. apply Forall_app in Hl as [_ Hl].
    rewrite <- rev_involutive. by apply Forall_rev. }
  rewrite luhn_loop_sum in H by (auto; done). cbn [mbind js_result_bind] in H. apply bool_decide_eq_true in H.
  rewrite <- Hcheck in H. unfold l. rewrite Hflat, H, chars_app, rev_app_distr. cbn [String.list_ascii_of_string rev app luhn_sum].
  set (s := luhn_sum 2 _) in *. change (3 - 1) with 2. fold s. change (0 + s) with s in *.
  destruct (key_code_char ((N_KEY - s `mod` N_KEY) `mod` N_KEY)) as [-> _]; [unfold N_KEY; div_lia|].
  unfold addend, N_KEY in *. clearbody s. clear. div_lia.
Qed.

(** Two valid keys that agree but for a middle part: the middles add up alike. *)
Lemma middle_sums k1 k2 p s m1 m2 :
  isEnrollmentKey k1 = true -> isEnrollmentKey k2 = true -> String.length m1 = String.length m2 ->
  key_flat k1 = p +:+ m1 +:+ s -> key_flat k2 = p +:+ m2 +:+ s ->
  exists factor, (factor = 1 \/ factor = 2) /\
    Forall (fun c => is_key_char c = true) (rev (String.list_ascii_of_string m1)) /\
    Forall (fun c => is_key_char c = true) (rev (String.list_ascii_of_string m2)) /\
    (luhn_sum factor (rev (String.list_ascii_of_string m1)) - luhn_sum factor (rev (String.list_ascii_of_string m2))) `mod` N_KEY = 0.
Proof.
  intros H1 H2 Hlen E1 E2. apply valid_key_sum in H1 as [F1 S1], H2 as [F2 S2]. rewrite E1 in *. rewrite E2 in *.
  rewrite !chars_app, !rev_app_distr in *. apply Forall_app in F1 as [F1 _], F2 as [F2 _]. apply Forall_app in F1 as [_ F1], F2 as [_ F2].
  rewrite !luhn_sum_app in S1, S2. exists (factor_after (length (rev (String.list_ascii_of_string s))) 1).
  split; [apply factor_after_range; auto|]. split; [done|]. split; [done|].
  assert (Hl : length (rev (String.list_ascii_of_string m1)) = length (rev (String.list_ascii_of_string m2))).
  { rewrite !length_rev. clear -Hlen. revert m2 Hlen. induction m1 as [|a m1 IH]; intros [|b m2] Hlen; cbn in *; try done. f_equal. apply IH. lia. }
  rewrite length_app, <- Hl in S2. rewrite length_app in S1.
  revert S1 S2. unfold N_KEY. clear. intros S1 S2. div_lia.
Qed.

(** The check character catches mistakes. Of two keys of the issued shape
    that differ in one character at most one is valid, wherever the character
    is; of two that differ by swapping two neighbours at most one is valid too,
    unless the two are A and 9, the first and the last of the alphabet, whose
    swap is not caught. *)
Theorem enrollment_key_detects k1 k2 p s :
  isEnrollmentKey k1 = true -> isEnrollmentKey k2 = true ->
  (forall a b, key_flat k1 = p +:+ String a s -> key_flat k2 = p +:+ String b s -> a = b) /\
  (forall a b, key_flat k1 = p +:+ String a (String b s) -> key_flat k2 = p +:+ String b (String a s) ->
     a = b \/ (a = "A"%char /\ b = "9"%char) \/ (a = "9"%char /\ b = "A"%char)).
Proof.
  intros H1 H2. split.
  - intros a b E1 E2. destruct (middle_sums k1 k2 p s (String a "") (String b "") H1 H2 eq_refl E1 E2) as (f & Hf & F1 & F2 & Hs).
    cbn in F1, F2, Hs. inversion F1 as [|? ? Ha _]; subst. inversion F2 as [|? ? Hb _]; subst.
    destruct (key_char_facts a Ha) as [Ra Ia], (key_char_facts b Hb) as [Rb Ib]. rewrite !Z.add_0_r in Hs.
    rewrite <- Ia, <- Ib. f_equal. by apply (addend_inj f).
  - intros a b E1 E2. destruct (middle_sums k1 k2 p s (String a (String b "")) (String b (String a "")) H1 H2 eq_refl E1 E2) as (f & Hf & F1 & _ & Hs).
    cbn in F1, Hs. inversion F1 as [|? ? Hb F1']; subst. inversion F1' as [|? ? Ha _]; subst.
    destruct (key_char_facts a Ha) as [Ra Ia], (key_char_facts b Hb) as [Rb Ib].
    assert (key_code a = key_code b \/ (key_code a = 0 /\ key_code b = 29) \/ (key_code a = 29 /\ key_code b = 0)) as Hcase.
    { apply (swap_collides f); done || lia. }
    rewrite <- Ia, <- Ib. destruct Hcase as [-> |[[-> ->]|[-> ->]]]; [by left| |]; right; [left|right]; split; vm_compute; reflexivity.
Qed.

(** *** Keys that are issued *)

Lemma key_chars_no_hyphen s : str_forallb is_key_char s = true -> has_char "-" s = false.
Proof.
  intros H. unfold has_char. rewrite str_existsb_forallb. apply negb_false_iff. revert H. apply str_forallb_impl. intros c Hc.
  pose proof (all_chars_forall (fun c => implb (is_key_char c) (negb (is_char "-" c))) ltac:(vm_compute; reflexivity) c) as Hi.
  cbv beta in Hi. by rewrite Hc in Hi.
Qed.

Lemma str_forallb_of_list p l : Forall (fun c => p c = true) l -> str_forallb p (String.string_of_list_ascii l) = true.
Proof. induction 1 as [|c l Hc _ IH]; [done|]. cbn. by rewrite Hc. Qed.

Lemma str_length_of_list l : String.length (String.string_of_list_ascii l) = length l.
Proof. induction l as [|c l IH]; [done|]. cbn. by rewrite IH. Qed.

Lemma check_character payload :
  str_forallb is_key_char payload = true ->
  exists c, enrollmentKeyCheckCharacter payload = Returns c /\ is_key_char c = true.
Proof.
  intros H. unfold enrollmentKeyCheckCharacter. rewrite luhn_loop_sum; [|by right|apply Forall_rev, str_forallb_chars, H].
  eexists. split; [reflexivity|]. apply key_code_char. unfold N_KEY. div_lia.
Qed.

(** Twenty characters of the alphabet in four groups of five. *)
Lemma groups_of_twenty chars :
  String.length chars = 20%nat -> str_forallb is_key_char chars = true ->
  let groups := List.map (fun i => str_take 5 (str_drop i chars)) [0; 5; 10; 15]%nat in
  split_on "-" (join "-" groups) = groups /\ Forall (fun g => String.length g = 5%nat) groups /\ join "" groups = chars.
Proof.
  intros Hl Hk groups. do 20 (destruct chars as [|? chars]; [done|]). destruct chars; [|done].
  subst groups. cbn [str_forallb] in Hk. bool_to_prop. cbn [List.map str_drop str_take].
  split; [|split; [repeat constructor|reflexivity]].
  apply (split_on_join "-"); [done|]. cbn [forallb]. rewrite !key_chars_no_hyphen; [reflexivity|..]; cbn [str_forallb];
    repeat match goal with H : is_key_char _ = true |- _ => rewrite H; clear H end; reflexivity.
Qed.

(** A key that is issued, whatever the nineteen random bytes, is one the
    program accepts. *)
Theorem generateEnrollmentKey_valid bytes :
  Forall is_byte bytes -> length bytes = (ENROLLMENT_KEY_LENGTH - 1)%nat ->
  exists key, generateEnrollmentKey bytes = Returns key /\ isEnrollmentKey key = true /\ String.length (key_flat key) = ENROLLMENT_KEY_LENGTH.
Proof.
  intros Hb Hlen. unfold generateEnrollmentKey. set (payload := String.string_of_list_ascii _).
  assert (Hp : str_forallb is_key_char payload = true).
  { apply str_forallb_of_list, list.Forall_forall. intros c (b & -> & _)%list_elem_of_fmap. apply key_code_char. unfold N_KEY. div_lia. }
  assert (Hpl : String.length payload = 19%nat) by (unfold payload; by rewrite str_length_of_list, length_map).
  destruct (check_character payload Hp) as (check & Hc & Hkc). rewrite Hc. cbn [mbind js_result_bind]. eexists. split; [reflexivity|].
  set (chars := payload +:+ String check "").
  destruct (groups_of_twenty chars) as (Hsplit & Hfive & Hjoin).
  { unfold chars. by rewrite str_length_app, Hpl. }
  { unfold chars. rewrite str_forallb_app, Hp. cbn [str_forallb andb]. by rewrite Hkc. }
  unfold isEnrollmentKey, key_flat. rewrite Hsplit, Hjoin. split; [|unfold chars; by rewrite str_length_app, Hpl].
  replace (existsb _ _) with false.
  2: { symmetry. apply not_true_is_false. intros (g & Hg & Hn)%existsb_elem. rewrite list.Forall_forall in Hfive. by rewrite (Hfive g Hg) in Hn. }
  cbn [length List.map Nat.eqb negb orb]. unfold chars at 1. rewrite str_forallb_app, Hp. cbn [str_forallb andb]. rewrite Hkc. cbn [andb negb].
  unfold chars. change 1%nat with (String.length (String check "")) at 1. rewrite str_drop_last_app, Hc.
  rewrite str_length_app. cbn [String.length]. rewrite Nat.add_sub, str_drop_app. by apply bool_decide_eq_true.
Qed.

Definition demo_bytes : list Z := [0; 1; 2; 3; 4; 5; 6; 7; 8; 9; 10; 100; 200; 255; 29; 30; 31; 59; 60].

Lemma generateEnrollmentKey_valid_witness :
  Forall is_byte demo_bytes /\
  exists key, generateEnrollmentKey demo_bytes = Returns key /\ isEnrollmentKey key = true /\ String.length (key_flat key) = ENROLLMENT_KEY_LENGTH.
Proof.
  assert (Hb : Forall is_byte demo_bytes) by (unfold demo_bytes; repeat constructor; unfold is_byte; lia).
  split; [exact Hb|]. apply (generateEnrollmentKey_valid demo_bytes Hb). reflexivity.
Defined.

(** Two issued keys that differ by the one swap that is not caught. *)
Lemma enrollment_key_detects_witness :
  isEnrollmentKey "ABCDE-FGHJK-MNPQR-STA9C" = true /\ isEnrollmentKey "ABCDE-FGHJK-MNPQR-ST9AC" = true /\
  ("A"%char = "9"%char \/ ("A"%char = "A"%char /\ "9"%char = "9"%char) \/ ("A"%char = "9"%char /\ "9"%char = "A"%char)).
Proof.
  split; [vm_compute; reflexivity|]. split; [vm_compute; reflexivity|].
  apply (proj2 (enrollment_key_detects "ABCDE-FGHJK-MNPQR-STA9C" "ABCDE-FGHJK-MNPQR-ST9AC" "ABCDEFGHJKMNPQRST" "C"
    ltac:(vm_compute; reflexivity) ltac:(vm_compute; reflexivity))); vm_compute; reflexivity.
Defined.
