(* ===== verification/Throttle.v ===== *)
(** The throttles of src/cloudflare-control/src/db.ts ("Login throttling"):
    failed sign-ins that lock an account for longer and longer, and fixed
    windows that limit how often an address may do something. Both keep their
    counts in the login_attempts table, and the hourly job drops old rows.

    [sign_in] is the part of POST /api/auth/login (index.ts) from the lockout
    check to the cleared count, run without a pause; [guessing] takes it statement
    by statement. The clock is an argument: the route reads it once to check the
    lock and again, after the password was hashed, to record a failure. *)
From S2P Require Import Prelude JsString Platform Db Auth.

Definition LOCKOUT_THRESHOLD : Z := 5.
Definition LOCKOUT_BASE_SECONDS : Z := 30.
Definition LOCKOUT_MAX_SECONDS : Z := 15 * 60.

Definition has_identifier (identifier : string) (r : LoginAttempt) : bool := String.eqb (la_identifier r) identifier.

Definition attempt_of (db : D1Database) (identifier : string) : option LoginAttempt :=
  js_find (has_identifier identifier) (login_attempts db).

Definition getLockoutRemaining (db : D1Database) (identifier : string) (now : Z) : Z :=
  match attempt_of db identifier with
  | None => 0
  | Some row => if la_locked_until row <=? now then 0 else la_locked_until row - now
  end.

(** A failure is counted in two statements: the count is read, and the row with
    the next one is written. The clock is read before the first. *)
Definition failed_count (db : D1Database) (identifier : string) : Z := match attempt_of db identifier with Some r => la_failed_count r | None => 0 end.

Definition write_failure (db : D1Database) (identifier : string) (existing now : Z) : D1Database :=
  let failed := existing + 1 in
  let over := Z.max 0 (failed - LOCKOUT_THRESHOLD) in
  let lockedUntil := if 0 <? over then now + Z.min (LOCKOUT_BASE_SECONDS * 2 ^ (over - 1)) LOCKOUT_MAX_SECONDS else 0 in
  on_login_attempts (upsert (has_identifier identifier)
    (fun r => mkLoginAttempt (la_identifier r) failed now lockedUntil)
    (mkLoginAttempt identifier failed now lockedUntil)) db.

Definition recordLoginFailure (db : D1Database) (identifier : string) (now : Z) : D1Database := write_failure db identifier (failed_count db identifier) now.

Definition clearLoginFailures (db : D1Database) (identifier : string) : D1Database :=
  on_login_attempts (List.filter (fun r => negb (has_identifier identifier r))) db.

Definition rateLimitWait (db : D1Database) (key : string) (limit windowSeconds now : Z) : Z :=
  match attempt_of db key with
  | None => 0
  | Some row =>
      if windowSeconds <=? now - la_last_failed_at row then 0
      else if la_failed_count row <? limit then 0
      else Z.max 1 (la_last_failed_at row + windowSeconds - now)
  end.

Definition recordRateLimitHit (db : D1Database) (key : string) (windowSeconds now : Z) : D1Database :=
  on_login_attempts (upsert (has_identifier key)
    (fun r =>
       mkLoginAttempt (la_identifier r)
         (if now - la_last_failed_at r <? windowSeconds then la_failed_count r + 1 else 1)
         (if now - la_last_failed_at r <? windowSeconds then la_last_failed_at r else now)
         (la_locked_until r))
    (mkLoginAttempt key 1 now 0)) db.

(** [olderThanSeconds]'s default. *)
Definition STALE_SECONDS : Z := 24 * 3600.

Definition purgeStaleLoginAttempts (db : D1Database) (olderThanSeconds now : Z) : D1Database :=
  on_login_attempts (List.filter (fun r =>
    negb ((la_locked_until r <=? now) && (la_last_failed_at r <=? now - olderThanSeconds)))) db.

(** ** Signing in *)

Inductive SignIn : Type :=
| Locked (seconds : Z)
| Refused
| Accepted.

Section SignIn.
Context `{WebCrypto}.

(** [user]: the hash and salt of the account with this address, if any
    ([findUserByEmail]). *)
Definition sign_in (db : D1Database) (email password : string) (user : option (string * string)) (pepper : string)
    (now later : Z) : D1Database * SignIn :=
  let identifier := trim (toLowerCase email) in
  let lockedFor := getLockoutRemaining db identifier now in
  if 0 <? lockedFor then (db, Locked lockedFor)
  else
    let zeros := String.string_of_list_ascii (List.repeat "0"%char 64) in
    let isValid :=
      match user with
      | Some (hash, salt) => verifyPassword password hash salt pepper
      | None => verifyPassword password (PEPPERED_HASH_PREFIX +:+ zeros) zeros pepper
      end in
    if negb (bool_decide (is_Some user)) || negb isValid then (recordLoginFailure db identifier later, Refused)
    else (clearLoginFailures db identifier, Accepted).
End SignIn.

(** ** Rows by identifier *)

Definition one_row_each (db : D1Database) : Prop := NoDup (List.map la_identifier (login_attempts db)).

Lemma has_identifier_iff id r : has_identifier id r = true <-> la_identifier r = id.
Proof. unfold has_identifier. by rewrite String.eqb_eq. Qed.

Lemma attempt_of_upsert db id update insert other :
  (forall r, la_identifier (update r) = la_identifier r) -> la_identifier insert = id ->
  attempt_of (on_login_attempts (upsert (has_identifier id) update insert) db) other =
  if String.eqb other id then Some (match attempt_of db id with Some r => update r | None => insert end) else attempt_of db other.
Proof.
  intros Hu Hi. unfold attempt_of. cbn [login_attempts on_login_attempts]. destruct (String.eqb_spec other id) as [-> |Hne].
  - rewrite js_find_upsert; [done| |by apply has_identifier_iff]. intros r. rewrite !has_identifier_iff. by rewrite Hu.
  - apply js_find_upsert_other.
    + intros r Hr%has_identifier_iff. unfold has_identifier. rewrite Hu, Hr. destruct (String.eqb_spec id other); [congruence|done].
    + unfold has_identifier. rewrite Hi. destruct (String.eqb_spec id other); [congruence|done].
Qed.

Lemma attempt_of_filter db q id :
  one_row_each db ->
  attempt_of (on_login_attempts (List.filter q) db) id =
  match attempt_of db id with Some r => if q r then Some r else None | None => None end.
Proof.
  intros Hu. unfold attempt_of. cbn [login_attempts on_login_attempts]. apply js_find_bfilter.
  intros x y Hx Hy Ex%has_identifier_iff Ey%has_identifier_iff. apply (map_NoDup_inj la_identifier _ _ _ Hu); congruence.
Qed.

Lemma one_row_upsert db id update insert :
  (forall r, la_identifier (update r) = la_identifier r) -> la_identifier insert = id ->
  one_row_each db -> one_row_each (on_login_attempts (upsert (has_identifier id) update insert) db).
Proof.
  intros Hu Hi. unfold one_row_each. cbn [login_attempts on_login_attempts]. apply upsert_keys_NoDup; [|done].
  intros r. by rewrite has_identifier_iff, Hi.
Qed.

Lemma one_row_filter db q : one_row_each db -> one_row_each (on_login_attempts (List.filter q) db).
Proof.
  unfold one_row_each. cbn [login_attempts on_login_attempts]. intros H. induction (login_attempts db) as [|r l IH]; [done|].
  cbn in *. apply list.NoDup_cons in H as [Hn Hl]. destruct (q r); [|by apply IH]. cbn. apply list.NoDup_cons. split; [|by apply IH].
  contradict Hn. apply list_elem_of_fmap in Hn as (x & -> & [Hx _]%elem_of_bfilter). apply list_elem_of_fmap. eauto.
Qed.

(** ** What may happen to the table *)

(** The writes of every caller, with the time each was made at. *)
Inductive write : Type :=
| Fail (identifier : string)
| Clear (identifier : string)
| Hit (key : string) (windowSeconds : Z)
| Purge.

Definition apply_write (db : D1Database) (w : write) (now : Z) : D1Database :=
  match w with
  | Fail id => recordLoginFailure db id now
  | Clear id => clearLoginFailures db id
  | Hit key window => recordRateLimitHit db key window now
  | Purge => purgeStaleLoginAttempts db STALE_SECONDS now
  end.

Definition writes_row (w : write) (id : string) : bool :=
  match w with Fail i | Clear i | Hit i _ => String.eqb i id | Purge => false end.

Lemma one_row_write db w now : one_row_each db -> one_row_each (apply_write db w now).
Proof. destruct w; cbn [apply_write]; intros H; [apply one_row_upsert|apply one_row_filter|apply one_row_upsert|apply one_row_filter]; done. Qed.

(** A write for another identifier leaves a row alone; the hourly job drops it once it is stale. *)
Lemma attempt_of_write db w now id :
  one_row_each db -> writes_row w id = false ->
  attempt_of (apply_write db w now) id = attempt_of db id \/
  exists r, attempt_of db id = Some r /\ attempt_of (apply_write db w now) id = None /\
    la_locked_until r <= now /\ la_last_failed_at r <= now - STALE_SECONDS.
Proof.
  intros Hu Hw. destruct w as [i|i|i window|]; cbn [writes_row apply_write] in *.
  - left. unfold recordLoginFailure, write_failure. rewrite attempt_of_upsert by done. by rewrite String.eqb_sym, Hw.
  - left. unfold clearLoginFailures. rewrite attempt_of_filter by done. destruct (attempt_of db id) as [r|] eqn:E; [|done].
    apply js_find_Some in E as [_ E%has_identifier_iff]. unfold has_identifier. by rewrite E, String.eqb_sym, Hw.
  - left. unfold recordRateLimitHit. rewrite attempt_of_upsert by done. by rewrite String.eqb_sym, Hw.
  - unfold purgeStaleLoginAttempts. rewrite attempt_of_filter by done. destruct (attempt_of db id) as [r|]; [|by left].
    destruct (Z.leb_spec (la_locked_until r) now), (Z.leb_spec (la_last_failed_at r) (now - STALE_SECONDS)); cbn [andb negb]; eauto.
    right. exists r. done.
Qed.

(** ** Guessing passwords *)

Section Guessing.
Context `{WebCrypto}.

(** Where the attempt in hand is: there is none, its address was not locked at a
    time, or its password was wrong and the count has been read. *)
Inductive Attempt : Type := Idle | Passed (checked : Z) | Counted (existing now : Z).

(** Everything that may happen while someone guesses at the account [who], one
    attempt after another, and never signs in: the statements of the attempts, with
    any addresses that name the account and any passwords, and between any two of
    them whatever is written for others or by the hourly job. The list holds the
    times of the wrong passwords, newest first. *)
Inductive guessing (who : string) : list Z -> Z -> D1Database -> Attempt -> Prop :=
| guess_start db now :
    one_row_each db -> attempt_of db who = None -> guessing who [] now db Idle
| guess_check ts now db t :
    guessing who ts now db Idle -> now <= t -> getLockoutRemaining db who t <= 0 -> guessing who ts t db (Passed t)
| guess_locked ts now db t :
    guessing who ts now db Idle -> now <= t -> 0 < getLockoutRemaining db who t -> guessing who ts t db Idle
| guess_wrong ts now db checked t :
    guessing who ts now db (Passed checked) -> now <= t -> guessing who ts t db (Counted (failed_count db who) t)
| guess_counted ts now db existing recorded t :
    guessing who ts now db (Counted existing recorded) -> now <= t ->
    guessing who (recorded :: ts) t (write_failure db who existing recorded) Idle
| guess_other ts now db a w t :
    guessing who ts now db a -> now <= t -> writes_row w who = false ->
    guessing who ts t (apply_write db w t) a.

(** A sign-in that runs without a pause is such an attempt. *)
Lemma sign_in_guesses who ts now db email password user pepper checked recorded db' :
  guessing who ts now db Idle -> now <= checked -> checked <= recorded -> trim (toLowerCase email) = who ->
  sign_in db email password user pepper checked recorded = (db', Refused) -> guessing who (recorded :: ts) recorded db' Idle.
Proof.
  intros Hg Hc Hr <- Hin. unfold sign_in in Hin. destruct (Z.ltb_spec 0 (getLockoutRemaining db (trim (toLowerCase email)) checked)) as [Hl|Hl]; [done|].
  destruct (_ || _); [|done]. injection Hin as <-. apply (guess_counted _ _ recorded); [|lia]. apply (guess_wrong _ _ checked _ checked); [|done]. by apply (guess_check _ _ now).
Qed.

Definition lock_seconds (count : Z) : Z :=
  if count <=? LOCKOUT_THRESHOLD then 0 else Z.min (LOCKOUT_BASE_SECONDS * 2 ^ (count - 6)) LOCKOUT_MAX_SECONDS.

Lemma lock_seconds_bounds count : 0 <= lock_seconds count <= 900 /\ (11 <= count -> lock_seconds count = 900).
Proof.
  unfold lock_seconds, LOCKOUT_THRESHOLD, LOCKOUT_BASE_SECONDS, LOCKOUT_MAX_SECONDS. destruct (Z.leb_spec count 5); [lia|].
  pose proof (Z.pow_nonneg 2 (count - 6)). split; [lia|]. intros Hc. pose proof (Z.pow_le_mono_r 2 5 (count - 6)). lia.
Qed.

(** The row a failure leaves. *)
Lemma write_failure_row db who existing now :
  attempt_of (write_failure db who existing now) who =
  let count := existing + 1 in Some (mkLoginAttempt who count now (if count <=? LOCKOUT_THRESHOLD then 0 else now + lock_seconds count)).
Proof.
  unfold write_failure. rewrite attempt_of_upsert by done. rewrite String.eqb_refl. cbv zeta.
  set (count := _ + 1). f_equal.
  assert (E : (if 0 <? Z.max 0 (count - LOCKOUT_THRESHOLD) then now + Z.min (LOCKOUT_BASE_SECONDS * 2 ^ (Z.max 0 (count - LOCKOUT_THRESHOLD) - 1)) LOCKOUT_MAX_SECONDS else 0) =
              (if count <=? LOCKOUT_THRESHOLD then 0 else now + lock_seconds count)).
  { unfold lock_seconds, LOCKOUT_THRESHOLD. destruct (Z.leb_spec count 5), (Z.ltb_spec 0 (Z.max 0 (count - 5))); try lia.
    replace (Z.max 0 (count - 5) - 1) with (count - 6) by lia. done. }
  rewrite E. destruct (attempt_of db who) as [r|] eqn:Er; [|done].
  apply js_find_Some in Er as [_ ->%has_identifier_iff]. done.
Qed.

(** How long [n] wrong passwords take at least, the last count being [c]. *)
Definition Q (c : Z) : Z := Z.max 0 (900 * (c - 11)).

Definition guess_state (who : string) (ts : list Z) (now : Z) (db : D1Database) : Prop :=
  match ts with
  | [] => attempt_of db who = None
  | t :: _ =>
      t <= now /\
      match attempt_of db who with
      | Some r => exists c, 1 <= c /\ r = mkLoginAttempt who c t (if c <=? LOCKOUT_THRESHOLD then 0 else t + lock_seconds c) /\
                    900 * (Z.of_nat (length ts) - c) + Q c <= t - List.last ts 0
      | None => t + STALE_SECONDS <= now /\ 900 * (Z.of_nat (length ts) - 11) <= t - List.last ts 0
      end
  end.

Lemma last_indep {A} (x : A) l d e : List.last (x :: l) d = List.last (x :: l) e.
Proof. revert x. induction l as [|y l IH]; intros x; [done|]. apply IH. Qed.

Lemma last_cons_cons {A} (x y : A) l d : List.last (x :: y :: l) d = List.last (y :: l) d.
Proof. done. Qed.

Definition slow (ts : list Z) : Prop := forall last rest, ts = last :: rest -> 900 * (Z.of_nat (length ts) - 11) <= last - List.last ts 0.

Lemma guess_slow who ts now db : guess_state who ts now db -> slow ts.
Proof.
  intros Hs last rest E. unfold guess_state in Hs. rewrite E in *. destruct Hs as [_ Hs]. destruct (attempt_of db who) as [r|]; [|lia]. destruct Hs as (c & Hc & _ & Hq). unfold Q in Hq. lia.
Qed.

(** What the attempt in hand knows: when the account was not locked, or that the
    row it is about to write keeps the bound. *)
Definition attempt_state (who : string) (ts : list Z) (now : Z) (db : D1Database) (a : Attempt) : Prop :=
  match a with
  | Idle => guess_state who ts now db
  | Passed checked => guess_state who ts now db /\ checked <= now /\ forall r, attempt_of db who = Some r -> la_locked_until r <= checked
  | Counted existing recorded => slow ts /\ recorded <= now /\ 0 <= existing /\
      900 * (Z.of_nat (length ts) - existing) + Q (existing + 1) <= recorded - List.last ts recorded
  end.

Lemma passed_counted who ts now checked t db :
  attempt_state who ts now db (Passed checked) -> now <= t -> attempt_state who ts t db (Counted (failed_count db who) t).
Proof.
  intros (Hs & Hc & Hlock) Ht. split; [by eapply guess_slow|]. unfold attempt_state, failed_count, guess_state in *. split; [lia|]. destruct ts as [|t0 ts]; [rewrite Hs; unfold Q; cbn; lia|].
  change (List.last (t0 :: ts) t) with (List.last (t0 :: ts) 0) at 1 || rewrite (last_indep t0 ts t 0). destruct Hs as [Hn Hs]. destruct (attempt_of db who) as [r|].
  - destruct Hs as (c & Hc1 & -> & Hq). specialize (Hlock _ eq_refl). cbn [la_failed_count la_locked_until length] in *. destruct (lock_seconds_bounds c) as [Hb H11]. unfold Q, LOCKOUT_THRESHOLD in *. destruct (Z.leb_spec c 5); lia.
  - cbn [length] in *. unfold Q, STALE_SECONDS in *. lia.
Qed.

Lemma counted_idle who ts now existing recorded t db :
  attempt_state who ts now db (Counted existing recorded) -> now <= t -> attempt_state who (recorded :: ts) t (write_failure db who existing recorded) Idle.
Proof.
  intros (_ & Hr & He & Hq) Ht. unfold attempt_state, guess_state. rewrite write_failure_row. split; [lia|]. exists (existing + 1). split; [lia|]. split; [done|].
  destruct ts as [|t0 ts]; [cbn in *; lia|]. rewrite last_cons_cons, (last_indep t0 ts 0 recorded). cbn [length] in *. lia.
Qed.

Lemma guess_state_other who ts now t db w :
  one_row_each db -> guess_state who ts now db -> now <= t -> writes_row w who = false -> guess_state who ts t (apply_write db w t).
Proof.
  intros Hu Hs Ht Hw. unfold guess_state in *.
  destruct (attempt_of_write db w t who Hu Hw) as [-> |(r & Hr & -> & H1 & H2)].
  - destruct ts as [|t0 ts]; [done|]. destruct Hs as [Hn Hs]. split; [lia|]. destruct (attempt_of db who); [done|]. lia.
  - destruct ts as [|t0 ts]; [done|]. rewrite Hr in Hs. destruct Hs as (Hn & c & Hc & -> & Hq). cbn in H2. unfold Q in Hq. lia.
Qed.

Lemma attempt_state_other who ts now t db w a :
  one_row_each db -> attempt_state who ts now db a -> now <= t -> writes_row w who = false -> attempt_state who ts t (apply_write db w t) a.
Proof.
  intros Hu Hs Ht Hw. destruct a as [|checked|existing recorded]; cbn [attempt_state] in *; [by apply (guess_state_other _ _ now)| |destruct Hs as (? & ? & ? & ?); split_and!; [done|lia|done..]].
  destruct Hs as (Hs & Hc & Hlock). split; [by apply (guess_state_other _ _ now)|]. split; [lia|]. intros r Hr.
  destruct (attempt_of_write db w t who Hu Hw) as [E|(r' & _ & E & _)]; rewrite E in Hr; [by apply Hlock|done].
Qed.

Lemma guessing_state who ts now db a : guessing who ts now db a -> one_row_each db /\ attempt_state who ts now db a.
Proof.
  assert (Hlater : forall ts now t d, guess_state who ts now d -> now <= t -> guess_state who ts t d).
  { intros [|t0 l] n t d; [done|]. intros [Hn Hs] Ht. split; [lia|]. destruct (attempt_of d who); [done|lia]. }
  induction 1 as [db now Hu Hn|ts now db t _ [Hu Hs] Ht Hl|ts now db t _ [Hu Hs] Ht Hl|ts now db checked t _ [Hu Hs] Ht|ts now db existing recorded t _ [Hu Hs] Ht|ts now db a w t _ [Hu Hs] Ht Hw].
  - done.
  - split; [done|]. cbn. split; [by apply (Hlater _ now)|]. split; [lia|]. intros r Hr. unfold getLockoutRemaining in Hl. rewrite Hr in Hl. destruct (Z.leb_spec (la_locked_until r) t); lia.
  - split; [done|]. by apply (Hlater _ now).
  - split; [done|]. by apply (passed_counted _ _ now checked).
  - split; [by apply one_row_upsert|]. by apply (counted_idle _ _ now).
  - split; [by apply one_row_write|]. by apply (attempt_state_other _ _ now).
Qed.

(** C38. The lockout slows guessing down, for whoever guesses one password after
    another. As long as none of them signs in, and each attempt on an account
    begins when the one before it has been counted, at most eleven wrong
    passwords are looked at before each further one costs fifteen minutes: of [n]
    wrong passwords the last comes at least 900 (n - 11) seconds after the first,
    whatever the hourly job and requests for other accounts write between any two
    statements. A sign-in that runs without a pause and is refused is such an
    attempt. Attempts that overlap are not slowed: they pass the check together
    and count as one. *)
Theorem guessing_is_slow who ts now db a : guessing who ts now db a ->
  (forall last rest, ts = last :: rest -> 900 * (Z.of_nat (length ts) - 11) <= last - List.last ts 0) /\
  (forall email password user pepper checked recorded db', a = Idle -> now <= checked -> checked <= recorded -> trim (toLowerCase email) = who ->
     sign_in db email password user pepper checked recorded = (db', Refused) -> guessing who (recorded :: ts) recorded db' Idle).
Proof.
  intros Hg. split; [|by intros email password user pepper checked recorded db' ->; apply sign_in_guesses].
  apply guessing_state in Hg as [_ Hs]. destruct a; cbn [attempt_state] in Hs; [exact (guess_slow _ _ _ _ Hs)|exact (guess_slow _ _ _ _ (proj1 Hs))|exact (proj1 Hs)].
Qed.
End Guessing.

Definition demo_guess_1 : D1Database := fst (@sign_in toy_crypto empty_db "A@b.org" "x" None "pepper" 100 105).
Definition demo_guess_2 : D1Database := fst (@sign_in toy_crypto demo_guess_1 " a@b.org" "y" None "pepper" 106 107).

Lemma guessing_is_slow_witness :
  guessing "a@b.org" [107; 105] 107 demo_guess_2 Idle /\ 900 * (2 - 11) <= 107 - 105.
Proof.
  assert (H1 : guessing "a@b.org" [105] 105 demo_guess_1 Idle).
  { apply (@sign_in_guesses toy_crypto "a@b.org" [] 0 empty_db "A@b.org" "x" None "pepper" 100 105); [constructor; [constructor|reflexivity]|lia|lia|reflexivity|vm_compute; reflexivity]. }
  assert (Hg : guessing "a@b.org" [107; 105] 107 demo_guess_2 Idle).
  { apply (proj2 (@guessing_is_slow toy_crypto "a@b.org" [105] 105 demo_guess_1 Idle H1) " a@b.org" "y" None "pepper" 106 107); [reflexivity|lia|lia|reflexivity|vm_compute; reflexivity]. }
  split; [exact Hg|]. exact (proj1 (@guessing_is_slow toy_crypto "a@b.org" [107; 105] 107 _ Idle Hg) 107 [105] eq_refl).
Defined.

(** Wrong passwords that are all checked, and all read the count, before the first
    is counted: none is refused, and a hundred of them leave a count of one. *)
Definition overlapping (n : nat) : D1Database :=
  let existing := failed_count empty_db "a@b.org" in foldl (fun db _ => write_failure db "a@b.org" existing 100) empty_db (List.repeat tt n).
Example guesses_overlap :
  getLockoutRemaining empty_db "a@b.org" 100 = 0 /\ attempt_of (overlapping 100) "a@b.org" = Some (mkLoginAttempt "a@b.org" 1 100 0) /\ getLockoutRemaining (overlapping 100) "a@b.org" 101 = 0.
Proof. vm_compute. split_and!; reflexivity. Qed.

(** And an attempt that counts late, from a count it read early, ends a lock. *)
Example late_count_unlocks :
  let locked := foldl (fun db t => recordLoginFailure db "a@b.org" t) empty_db (List.map Z.of_nat (List.seq 100 12)) in
  getLockoutRemaining locked "a@b.org" 200 = 811 /\ getLockoutRemaining (write_failure locked "a@b.org" 0 100) "a@b.org" 200 = 0.
Proof. vm_compute. split_and!; reflexivity. Qed.

(** ** Fixed windows *)

(** A caller that acts only when it need not wait, and counts each act, while
    others write what they write. The list holds the times, newest first. *)
Inductive hitting (key : string) (limit window : Z) : list Z -> Z -> D1Database -> Prop :=
| hit_start db now :
    one_row_each db -> attempt_of db key = None -> hitting key limit window [] now db
| hit_once ts now db t :
    hitting key limit window ts now db -> now <= t -> rateLimitWait db key limit window t = 0 ->
    hitting key limit window (t :: ts) t (recordRateLimitHit db key window t)
| hit_other ts now db w t :
    hitting key limit window ts now db -> now <= t -> writes_row w key = false ->
    hitting key limit window ts t (apply_write db w t).

Definition hit_state (key : string) (limit window : Z) (ts : list Z) (now : Z) (db : D1Database) : Prop :=
  match ts with
  | [] => attempt_of db key = None
  | _ :: _ =>
      (** [w] windows were opened before the current one, which began at [start]. *)
      exists w start count,
        0 <= w /\ List.last ts 0 + w * window <= start <= now /\ 1 <= count <= limit /\
        Z.of_nat (length ts) <= w * limit + count /\ start <= List.hd 0 ts <= now /\
        match attempt_of db key with
        | Some r => r = mkLoginAttempt key count start 0
        | None => start + window <= now
        end
  end.

Lemma recordRateLimitHit_row db key window now :
  attempt_of (recordRateLimitHit db key window now) key =
  Some (match attempt_of db key with
        | Some r => if now - la_last_failed_at r <? window then mkLoginAttempt key (la_failed_count r + 1) (la_last_failed_at r) (la_locked_until r)
                    else mkLoginAttempt key 1 now (la_locked_until r)
        | None => mkLoginAttempt key 1 now 0
        end).
Proof.
  unfold recordRateLimitHit. rewrite attempt_of_upsert by done. rewrite String.eqb_refl. f_equal.
  destruct (attempt_of db key) as [r|] eqn:E; [|done]. apply js_find_Some in E as [_ E%has_identifier_iff]. rewrite E. by destruct (_ <? _).
Qed.

Lemma hit_state_hit key limit window ts now t db :
  1 <= limit -> 0 < window -> hit_state key limit window ts now db -> now <= t -> rateLimitWait db key limit window t = 0 ->
  hit_state key limit window (t :: ts) t (recordRateLimitHit db key window t).
Proof.
  intros Hlim Hwin Hs Ht Hwait. unfold hit_state in *. rewrite recordRateLimitHit_row. unfold rateLimitWait in Hwait.
  destruct ts as [|t0 ts].
  - rewrite Hs. exists 0, t, 1. cbn. split_and!; done || lia.
  - destruct Hs as (w & start & count & Hw & Hstart & Hcount & Hlen & Hlast & Hrow).
    rewrite last_cons_cons. cbn [length List.hd] in *.
    destruct (attempt_of db key) as [r|]; [subst r; cbn [la_failed_count la_last_failed_at la_locked_until] in *|].
    + destruct (Z.leb_spec window (t - start)).
      * rewrite (proj2 (Z.ltb_ge _ _)) by lia. exists (w + 1), t, 1. split_and!; try lia; done.
      * rewrite (proj2 (Z.ltb_lt _ _)) by lia. destruct (Z.ltb_spec count limit); [|lia].
        exists w, start, (count + 1). split_and!; try lia; done.
    + exists (w + 1), t, 1. split_and!; try lia; done.
Qed.

Lemma hit_state_other key limit window ts now t db w :
  window <= STALE_SECONDS -> one_row_each db -> hit_state key limit window ts now db -> now <= t -> writes_row w key = false ->
  hit_state key limit window ts t (apply_write db w t).
Proof.
  intros Hwin Hu Hs Ht Hw. unfold hit_state in *. destruct ts as [|t0 ts].
  - destruct (attempt_of_write db w t key Hu Hw) as [-> |(r & Hr & _)]; [done|congruence].
  - destruct Hs as (n & start & count & Hn & Hstart & Hcount & Hlen & Hlast & Hrow).
    exists n, start, count. split_and!; try lia.
    destruct (attempt_of_write db w t key Hu Hw) as [-> |(r & Hr & -> & H1 & H2)]; [destruct (attempt_of db key); [done|lia]|].
    rewrite Hr in Hrow. subst r. cbn in H2. lia.
Qed.

Lemma hitting_state key limit window ts now db :
  1 <= limit -> 0 < window <= STALE_SECONDS -> hitting key limit window ts now db -> one_row_each db /\ hit_state key limit window ts now db.
Proof.
  intros Hl Hw. induction 1 as [db now Hu Hn|ts now db t _ [Hu Hs] Ht Hwait|ts now db w t _ [Hu Hs] Ht Hww].
  - done.
  - split; [by apply (one_row_write db (Hit _ _))|]. apply (hit_state_hit _ _ _ _ now); done || lia.
  - split; [by apply one_row_write|]. apply (hit_state_other _ _ _ _ now); done || lia.
Qed.

(** The rate limit. A caller that asks first acts at most [limit] times per
    window: of [n] acts within [T] seconds, [n] is at most [limit] times the
    windows that fit in [T], and one more. When it is told to wait, the wait is
    between one second and the window, and after it the caller may act. *)
Theorem rate_limit_holds key limit window ts now db :
  1 <= limit -> 0 < window <= STALE_SECONDS -> hitting key limit window ts now db ->
  Z.of_nat (length ts) <= limit * ((List.hd 0 ts - List.last ts 0) `div` window + 1) /\
  (forall t, now <= t -> let wait := rateLimitWait db key limit window t in
     0 <= wait <= window /\ rateLimitWait db key limit window (t + wait) = 0).
Proof.
  intros Hl Hw Hh. apply hitting_state in Hh as [_ Hs]; [|done|done]. unfold hit_state in Hs. destruct ts as [|t0 ts].
  - cbn. split; [rewrite Z.div_0_l by lia; lia|]. intros t Ht. unfold rateLimitWait. rewrite Hs. lia.
  - destruct Hs as (n & start & count & Hn & Hstart & Hcount & Hlen & Hlast & Hrow). cbn [List.hd] in *. split.
    + assert (n <= (t0 - List.last (t0 :: ts) 0) `div` window) by (apply Z.div_le_lower_bound; lia). nia.
    + intros t Ht. unfold rateLimitWait. destruct (attempt_of db key) as [r|]; [subst r; cbn [la_failed_count la_last_failed_at]|lia].
      destruct (Z.leb_spec window (t - start)); [cbv zeta; rewrite Z.add_0_r, (proj2 (Z.leb_le _ _)) by lia; lia|].
      destruct (Z.ltb_spec count limit).
      * cbv zeta. rewrite Z.add_0_r. destruct (Z.leb_spec window (t - start)); lia.
      * cbv zeta. rewrite (proj2 (Z.leb_le _ _)) by lia. lia.
Qed.

Lemma rate_limit_holds_witness :
  hitting "enroll:10.0.0.1" 2 900 [20; 10] 20 (recordRateLimitHit (recordRateLimitHit empty_db "enroll:10.0.0.1" 900 10) "enroll:10.0.0.1" 900 20) /\
  2 <= 2 * ((20 - 10) `div` 900 + 1).
Proof.
  assert (Hh : hitting "enroll:10.0.0.1" 2 900 [20; 10] 20 (recordRateLimitHit (recordRateLimitHit empty_db "enroll:10.0.0.1" 900 10) "enroll:10.0.0.1" 900 20)).
  { apply (hit_once _ _ _ [10] 10); [|lia|reflexivity]. apply (hit_once _ _ _ [] 0); [|lia|reflexivity]. constructor; [constructor|reflexivity]. }
  split; [exact Hh|]. exact (proj1 (rate_limit_holds "enroll:10.0.0.1" 2 900 [20; 10] 20 _ ltac:(lia) ltac:(unfold STALE_SECONDS; lia) Hh)).
Defined.
