(* ===== verification/Sessions.v ===== *)
(** The sessions of src/cloudflare-control/src/db.ts: each is stored under the
    hash of the browser's token, and rows from before that still hold the token
    itself until they are used or the hourly job rewrites them.

    [SessionStore] is what the rest of the program relies on: a map from tokens
    to sessions. The table implements it, old rows included. SHA-256 is assumed
    collision free on the tokens of interest only ([issued]: those the program
    issued and those anyone presents), since no hash is on all texts. *)
From S2P Require Import Prelude JsString Platform Db.

Definition UNIQUE_FAILED : string := "D1_ERROR: UNIQUE constraint failed: sessions.token".

Section Sessions.
Context `{WebCrypto}.

Definition sessionKey (token : string) : string := sha256Hex ("session:" +:+ token).

(** [SESSION_MATCH], bound to the key and the token. *)
Definition SESSION_MATCH (token : string) (r : SessionRow) : bool :=
  (String.eqb (s_token r) (sessionKey token) && s_hashed r) || (String.eqb (s_token r) token && negb (s_hashed r)).

(** [session.tenant_id || null]. *)
Definition or_null (s : option string) : option string := match s with Some ""%string => None | _ => s end.

(** token is the primary key: an insert that repeats one fails. *)
Definition createSession (db : D1Database) (session : Session) : js_result D1Database :=
  let key := sessionKey (token session) in
  if existsb (fun r => String.eqb (s_token r) key) (sessions db) then Throws UNIQUE_FAILED
  else Returns (on_sessions (fun l => l ++ [mkSessionRow key (user_id session) (or_null (tenant_id session)) (role session) (expires_at session) true]) db).

Definition deleteSessionsForUser (db : D1Database) (userId : string) (keepToken : option string) : D1Database :=
  match or_null keepToken with
  | Some keep => on_sessions (List.filter (fun r => negb (String.eqb (s_user_id r) userId && negb (SESSION_MATCH keep r)))) db
  | None => on_sessions (List.filter (fun r => negb (String.eqb (s_user_id r) userId))) db
  end.

Definition is_legacy (token : string) (r : SessionRow) : bool := String.eqb (s_token r) token && negb (s_hashed r).

(** [UPDATE sessions SET token = key, hashed = 1 WHERE token = ? AND hashed = 0]. *)
Definition hash_row (token : string) (r : SessionRow) : SessionRow :=
  if is_legacy token r
  then mkSessionRow (sessionKey token) (s_user_id r) (s_tenant_id r) (s_role r) (s_expires_at r) true else r.

Definition hash_session (token : string) (db : D1Database) : js_result D1Database :=
  if existsb (is_legacy token) (sessions db) &&
     existsb (fun r => String.eqb (s_token r) (sessionKey token) && negb (is_legacy token r)) (sessions db)
  then Throws UNIQUE_FAILED
  else Returns (on_sessions (List.map (hash_row token)) db).

Definition getSession (db : D1Database) (token : string) (now : Z) : js_result (D1Database * option Session) :=
  match js_find (fun r => SESSION_MATCH token r && (now <? s_expires_at r)) (sessions db) with
  | None => Returns (db, None)
  | Some row =>
      db' ← (if negb (s_hashed row) then hash_session token db else Returns db);
      Returns (db', Some (mkSession token (s_user_id row) (s_tenant_id row) (s_role row) (s_expires_at row)))
  end.

Definition deleteSession (db : D1Database) (token : string) : D1Database :=
  on_sessions (List.filter (fun r => negb (SESSION_MATCH token r))) db.

(** [db.batch]: one transaction. *)
Fixpoint hash_sessions (tokens : list string) (db : D1Database) : js_result D1Database :=
  match tokens with
  | [] => Returns db
  | t :: l => db' ← hash_session t db; hash_sessions l db'
  end.

Definition hashLegacySessions (db : D1Database) (limit : nat) : js_result (D1Database * nat) :=
  let results := take limit (List.map s_token (List.filter (fun r => negb (s_hashed r)) (sessions db))) in
  if (length results =? 0)%nat then Returns (db, 0%nat)
  else db' ← hash_sessions results db; Returns (db', length results).

Definition deleteExpiredSessions (db : D1Database) (userId : option string) (now : Z) : D1Database :=
  match or_null userId with
  | Some u => on_sessions (List.filter (fun r => negb (String.eqb (s_user_id r) u && (s_expires_at r <=? now)))) db
  | None => on_sessions (List.filter (fun r => negb (s_expires_at r <=? now))) db
  end.
End Sessions.

(** ** The interface *)

(** Where a session is live: what [getSession] may give at [now]. *)
Definition live_at (now : Z) (s : option Session) : option Session :=
  match s with Some x => if now <? expires_at x then Some x else None | None => None end.

Class SessionStore (St : Type) : Type := {
  store_create : St -> Session -> js_result St;
  store_delete : St -> string -> St;
  store_get : St -> string -> Z -> js_result (St * option Session);
  (** What the store holds for a token, expired or not, and when it is consistent. *)
  store_find : St -> string -> option Session;
  store_ok : St -> Prop;
  (** A token the store has no trace of. *)
  store_fresh : St -> string -> Prop
}.

(** A store is a map: creating binds a token, deleting unbinds it, reading gives
    what is bound while it lives; nothing else changes. *)
Class LawfulStore (St : Type) `{SessionStore St} (issued : string -> Prop) : Prop := {
  law_create s x :
    store_ok s -> issued (token x) -> store_fresh s (token x) -> tenant_id x <> Some ""%string ->
    exists s', store_create s x = Returns s' /\ store_ok s' /\
      forall u, issued u -> store_find s' u = if String.eqb u (token x) then Some x else store_find s u;
  law_delete s t :
    store_ok s -> issued t ->
    store_ok (store_delete s t) /\
    (forall u, issued u -> store_find (store_delete s t) u = if String.eqb u t then None else store_find s u) /\
    (forall u, store_fresh s u -> store_fresh (store_delete s t) u);
  law_get s t now :
    store_ok s -> issued t ->
    exists s', store_get s t now = Returns (s', live_at now (store_find s t)) /\ store_ok s' /\
      (forall u, issued u -> store_find s' u = store_find s u) /\
      (forall u, issued u -> store_fresh s u -> store_fresh s' u);
  law_found s t x :
    store_ok s -> store_find s t = Some x -> token x = t /\ tenant_id x <> Some ""%string;
  law_fresh s t : issued t -> store_fresh s t -> store_find s t = None
}.

(** ** The table implements it *)

Section Refinement.
Context `{WebCrypto} (issued : string -> Prop).

(** No two tokens of interest have the same hash. *)
Hypothesis sessionKey_inj : forall t u, issued t -> issued u -> sessionKey t = sessionKey u -> t = u.

(** The key a row is, or will be, stored under. *)
Definition row_key (r : SessionRow) : string := if s_hashed r then s_token r else sessionKey (s_token r).

Definition row_session (t : string) (r : SessionRow) : Session :=
  mkSession t (s_user_id r) (s_tenant_id r) (s_role r) (s_expires_at r).

Definition session_of (db : D1Database) (t : string) : option Session :=
  option_map (row_session t) (js_find (SESSION_MATCH t) (sessions db)).

(** A row of a consistent table: an old one holds an issued token, which is not
    the key of another. *)
Definition legit (r : SessionRow) : Prop :=
  (s_hashed r = true \/ issued (s_token r) /\ forall u, issued u -> s_token r <> sessionKey u) /\
  s_tenant_id r <> Some ""%string.

Definition sessions_ok (db : D1Database) : Prop := NoDup (List.map row_key (sessions db)) /\ Forall legit (sessions db).

Definition fresh_token (db : D1Database) (t : string) : Prop :=
  Forall (fun r => SESSION_MATCH t r = false /\ s_token r <> sessionKey t) (sessions db).

Lemma match_iff t r : issued t -> legit r -> SESSION_MATCH t r = true <-> row_key r = sessionKey t.
Proof.
  intros Ht [Hl _]. unfold SESSION_MATCH, row_key. destruct (s_hashed r).
  - rewrite andb_true_r, andb_false_r, orb_false_r. apply String.eqb_eq.
  - rewrite andb_false_r, andb_true_r. cbn [orb]. rewrite String.eqb_eq. destruct Hl as [?|[Hi _]]; [done|].
    split; [by intros ->|by apply sessionKey_inj].
Qed.

Lemma match_one db t x y :
  sessions_ok db -> issued t -> x ∈ sessions db -> y ∈ sessions db -> SESSION_MATCH t x = true -> SESSION_MATCH t y = true -> x = y.
Proof.
  intros [Hn Hl] Ht Hx Hy Mx My. rewrite list.Forall_forall in Hl.
  apply match_iff in Mx; [|done|by apply Hl]. apply match_iff in My; [|done|by apply Hl].
  apply (map_NoDup_inj row_key _ _ _ Hn Hx Hy). congruence.
Qed.

(** A row that two tokens match is one token's. *)
Lemma match_same t u r : issued t -> issued u -> legit r -> SESSION_MATCH t r = true -> SESSION_MATCH u r = String.eqb u t.
Proof.
  intros Ht Hu Hr Mt. apply match_iff in Mt; [|done|done]. destruct (String.eqb_spec u t) as [-> |Hne].
  - by apply match_iff.
  - apply not_true_is_false. intros Mu%match_iff; [|done|done]. apply Hne, sessionKey_inj; congruence.
Qed.

(** *** Deleting rows *)

Lemma sessions_ok_filter db q : sessions_ok db -> sessions_ok (on_sessions (List.filter q) db).
Proof.
  intros [Hn Hl]. split; cbn [sessions on_sessions]; [|by apply bfilter_Forall].
  clear Hl. induction (sessions db) as [|r l IH]; [done|]. cbn in *. apply list.NoDup_cons in Hn as [Hr Hn].
  destruct (q r); [|by apply IH]. cbn. apply list.NoDup_cons. split; [|by apply IH].
  contradict Hr. apply list_elem_of_fmap in Hr as (x & -> & [Hx _]%elem_of_bfilter). apply list_elem_of_fmap. eauto.
Qed.

Lemma session_of_filter db q u :
  sessions_ok db -> issued u ->
  session_of (on_sessions (List.filter q) db) u =
  match js_find (SESSION_MATCH u) (sessions db) with
  | Some r => if q r then Some (row_session u r) else None
  | None => None
  end.
Proof.
  intros Hok Hu. unfold session_of. cbn [sessions on_sessions].
  rewrite js_find_bfilter by (intros x y Hx Hy Mx My; by apply (match_one db u)).
  destruct (js_find _ _) as [r|]; [|done]. by destruct (q r).
Qed.

Lemma found_row db u r : sessions_ok db -> js_find (SESSION_MATCH u) (sessions db) = Some r -> legit r /\ SESSION_MATCH u r = true.
Proof. intros [_ Hl] [Hr Hm]%js_find_Some. rewrite list.Forall_forall in Hl. auto. Qed.

Lemma deleteSession_spec db t u :
  sessions_ok db -> issued t -> issued u -> session_of (deleteSession db t) u = if String.eqb u t then None else session_of db u.
Proof.
  intros Hok Ht Hu. unfold deleteSession. rewrite session_of_filter by done. unfold session_of.
  destruct (js_find _ _) as [r|] eqn:E; [|by destruct (String.eqb u t)]. apply found_row in E as [Hr Hm]; [|done].
  rewrite (match_same u t r) by done. rewrite String.eqb_sym. by destruct (String.eqb u t).
Qed.

(** *** Hashing an old row *)

Lemma hash_row_key t r : row_key (hash_row t r) = row_key r.
Proof.
  unfold hash_row, is_legacy, row_key. destruct (String.eqb_spec (s_token r) t) as [<- |]; [|done].
  destruct (s_hashed r) eqn:E; cbn; by rewrite ?E.
Qed.

Lemma hash_row_legit t r : legit r -> legit (hash_row t r).
Proof. intros [H1 H2]. unfold hash_row. destruct (is_legacy t r); [|done]. split; [by left|done]. Qed.

Lemma hash_row_session t u r : row_session u (hash_row t r) = row_session u r.
Proof. unfold hash_row. by destruct (is_legacy t r). Qed.

Lemma hash_row_match t u r : issued u -> legit r -> SESSION_MATCH u (hash_row t r) = SESSION_MATCH u r.
Proof.
  intros Hu Hr. apply eq_bool_prop_intro. rewrite !Is_true_true, !match_iff by (done || by apply hash_row_legit). by rewrite hash_row_key.
Qed.

Lemma js_find_hash t u l :
  issued u -> Forall legit l -> js_find (SESSION_MATCH u) (List.map (hash_row t) l) = option_map (hash_row t) (js_find (SESSION_MATCH u) l).
Proof.
  intros Hu. unfold js_find. induction 1 as [|r l Hr _ IH]; [done|]. cbn. rewrite hash_row_match by done. by destruct (SESSION_MATCH u r).
Qed.

Lemma hash_session_spec db t :
  sessions_ok db -> issued t ->
  exists db', hash_session t db = Returns db' /\ db' = on_sessions (List.map (hash_row t)) db /\ sessions_ok db' /\
    (forall u, issued u -> session_of db' u = session_of db u).
Proof.
  intros [Hn Hl] Ht. unfold hash_session. destruct (_ && _) eqn:E.
  - exfalso. apply andb_prop in E as [E1 E2]. apply existsb_elem in E1 as (x & Hx & Ex), E2 as (y & Hy & Ey).
    apply andb_prop in Ex as [Ex%String.eqb_eq Hhx], Ey as [Ey%String.eqb_eq Hny]. rewrite list.Forall_forall in Hl.
    assert (x = y) as <-; [|unfold is_legacy in Hny; by rewrite Ex, String.eqb_refl, Hhx in Hny].
    apply (map_NoDup_inj row_key _ _ _ Hn Hx Hy). unfold row_key. destruct (s_hashed x); [done|]. destruct (s_hashed y) eqn:Eh; [congruence|].
    destruct (Hl y Hy) as [[?|[_ Hk]] _]; [congruence|]. by destruct (Hk t Ht).
  - eexists. split; [reflexivity|]. split; [done|]. split; [split; cbn [sessions on_sessions]|].
    + rewrite List.map_map. erewrite List.map_ext; [exact Hn|]. intros r. apply hash_row_key.
    + apply List.Forall_map. revert Hl. apply Forall_impl. intros r. apply hash_row_legit.
    + intros u Hu. unfold session_of. cbn [sessions on_sessions]. rewrite js_find_hash by done.
      destruct (js_find _ _); cbn [option_map]; [|done]. by rewrite hash_row_session.
Qed.

Lemma fresh_hash db t u :
  issued t -> issued u -> Forall legit (sessions db) -> fresh_token db u -> fresh_token (on_sessions (List.map (hash_row t)) db) u.
Proof.
  intros Ht Hu Hl Hf. unfold fresh_token in *. cbn [sessions on_sessions]. apply List.Forall_map.
  rewrite list.Forall_forall in *. intros r Hr. destruct (Hf r Hr) as [Hm Hk]. rewrite hash_row_match by auto. split; [done|].
  unfold hash_row. destruct (is_legacy t r) eqn:E; [|done]. cbn. intros Ek. apply andb_prop in E as [E%String.eqb_eq Eh].
  apply sessionKey_inj in Ek as ->; [|done|done]. unfold SESSION_MATCH in Hm. rewrite E, String.eqb_refl, Eh in Hm.
  by rewrite orb_true_r in Hm.
Qed.

(** *** The hourly job *)

Definition legacy_rows (db : D1Database) : list SessionRow := List.filter (fun r => negb (s_hashed r)) (sessions db).

Lemma legacy_after t db :
  legacy_rows (on_sessions (List.map (hash_row t)) db) = List.filter (fun r => negb (String.eqb (s_token r) t)) (legacy_rows db).
Proof.
  unfold legacy_rows. cbn [sessions on_sessions]. induction (sessions db) as [|r l IH]; [done|]. cbn [List.map List.filter].
  unfold hash_row at 1 2, is_legacy. destruct (s_hashed r) eqn:Eh; cbn [negb]; rewrite ?andb_false_r, ?andb_true_r, ?Eh; [done|].
  cbn [List.filter]. destruct (String.eqb (s_token r) t); cbn [s_hashed negb]; rewrite ?Eh; cbn [negb]; by rewrite IH.
Qed.

Lemma legacy_tokens_NoDup db : sessions_ok db -> NoDup (List.map s_token (legacy_rows db)).
Proof.
  intros Hok. apply (sessions_ok_filter _ (fun r => negb (s_hashed r))) in Hok as [Hn _]. cbn [sessions on_sessions] in Hn.
  fold (legacy_rows db) in Hn. assert (Hh : Forall (fun r => s_hashed r = false) (legacy_rows db)).
  { apply list.Forall_forall. intros r [_ Hr]%elem_of_bfilter. by apply negb_true_iff. }
  rewrite (List.map_ext_Forall _ (fun r => sessionKey (s_token r))) in Hn.
  - rewrite <- (List.map_map s_token sessionKey) in Hn. by apply NoDup_fmap_1 in Hn.
  - revert Hh. apply Forall_impl. unfold row_key. by intros r ->.
Qed.

Lemma hash_sessions_spec rows : forall db rest,
  sessions_ok db -> legacy_rows db = rows ++ rest ->
  exists db', hash_sessions (List.map s_token rows) db = Returns db' /\ sessions_ok db' /\
    (forall u, issued u -> session_of db' u = session_of db u) /\ legacy_rows db' = rest.
Proof.
  induction rows as [|r rows IH]; intros db rest Hok Hrows; [exists db; done|]. cbn [List.map hash_sessions].
  assert (Hr : r ∈ legacy_rows db) by (rewrite Hrows; constructor). apply elem_of_bfilter in Hr as [Hr Hh].
  assert (Hi : issued (s_token r)).
  { destruct Hok as [_ Hl]. rewrite list.Forall_forall in Hl. destruct (Hl r Hr) as [[E|[Hi _]] _]; [by rewrite E in Hh|done]. }
  destruct (hash_session_spec db (s_token r) Hok Hi) as (db1 & -> & -> & Hok1 & Hsame). cbn [mbind js_result_bind].
  destruct (IH _ rest Hok1) as (db' & -> & Hok' & Hsame' & Hrest).
  - pose proof (legacy_tokens_NoDup db Hok) as Hnd. rewrite legacy_after, Hrows in *. cbn [app List.map List.filter] in *.
    apply list.NoDup_cons in Hnd as [Hn _]. rewrite String.eqb_refl. cbn [negb]. apply bfilter_all. intros x Hx.
    apply negb_true_iff, String.eqb_neq. intros E. destruct Hn. rewrite <- E. apply list_elem_of_fmap. eauto.
  - exists db'. split; [done|]. split; [done|]. split; [|done]. intros u Hu. rewrite Hsame' by done. by apply Hsame.
Qed.

(** Session housekeeping touches only what it means to. Signing a user out
    removes that user's sessions, except the one kept, and no one else's;
    dropping expired sessions removes those that expired; and rewriting old
    rows under their hash, up to [limit] of them, changes no session: every
    token finds what it found. *)
Theorem session_housekeeping db u :
  sessions_ok db -> issued u ->
  (forall userId keep, (forall k, keep = Some k -> issued k /\ k <> ""%string) ->
     session_of (deleteSessionsForUser db userId keep) u =
     match session_of db u with
     | Some s => if String.eqb (user_id s) userId && negb (bool_decide (keep = Some u)) then None else Some s
     | None => None
     end) /\
  (forall who now, session_of (deleteExpiredSessions db who now) u =
     match session_of db u with
     | Some s => if (expires_at s <=? now) && match or_null who with Some w => String.eqb (user_id s) w | None => true end then None else Some s
     | None => None
     end) /\
  (forall limit, exists db', hashLegacySessions db limit = Returns (db', Nat.min limit (length (legacy_rows db))) /\
     sessions_ok db' /\ session_of db' u = session_of db u /\ legacy_rows db' = drop limit (legacy_rows db)).
Proof.
  intros Hok Hu. split; [|split].
  - intros userId keep Hkeep. unfold deleteSessionsForUser. destruct keep as [k|].
    + destruct (Hkeep k eq_refl) as [Hk Hne]. replace (or_null (Some k)) with (Some k) by (by destruct k).
      rewrite session_of_filter by done. unfold session_of. destruct (js_find _ _) as [r|] eqn:E; [|done].
      apply found_row in E as [Hr Hm]; [|done]. rewrite (match_same u k r) by done. cbn [option_map row_session user_id].
      destruct (String.eqb (s_user_id r) userId); cbn [andb negb]; [|done].
      case_bool_decide as E; destruct (String.eqb_spec k u) as [|Hn]; cbn [negb]; try done; [by injection E|by subst].
    + cbn [or_null]. rewrite session_of_filter by done. unfold session_of. destruct (js_find _ _) as [r|]; [|done].
      cbn [option_map row_session user_id]. rewrite (bool_decide_eq_false_2 (None = Some u)) by done. rewrite andb_true_r. by destruct (String.eqb _ _).
  - intros who now. unfold deleteExpiredSessions. destruct (or_null who) as [w|]; rewrite session_of_filter by done; unfold session_of;
      (destruct (js_find _ _) as [r|]; [|done]); cbn [option_map row_session user_id expires_at].
    + rewrite andb_comm. by destruct (_ && _).
    + rewrite andb_true_r. by destruct (_ <=? _).
  - intros limit. unfold hashLegacySessions. fold (legacy_rows db). rewrite length_take, length_map.
    destruct (Nat.min limit (length (legacy_rows db)) =? 0)%nat eqn:E.
    + apply Nat.eqb_eq in E. rewrite E. exists db. split_and!; try done. destruct limit as [|n]; [done|].
      destruct (legacy_rows db); [done|]. cbn in E. lia.
    + replace (take limit (List.map s_token (legacy_rows db))) with (List.map s_token (take limit (legacy_rows db))) by apply fmap_take.
      destruct (hash_sessions_spec (take limit (legacy_rows db)) db (drop limit (legacy_rows db)) Hok) as (db' & -> & Hok' & Hsame & Hrest);
        [by rewrite take_drop|]. cbn [mbind js_result_bind]. exists db'. split_and!; try done. by apply Hsame.
Qed.

(** *** The interface discharged *)

#[export] Instance d1_sessions : SessionStore D1Database := {|
  store_create := createSession;
  store_delete := deleteSession;
  store_get := getSession;
  store_find := session_of;
  store_ok := sessions_ok;
  store_fresh := fresh_token
|}.

Lemma getSession_spec db t now :
  sessions_ok db -> issued t ->
  exists db', getSession db t now = Returns (db', live_at now (session_of db t)) /\ (db' = db \/ db' = on_sessions (List.map (hash_row t)) db) /\
    sessions_ok db' /\ (forall u, issued u -> session_of db' u = session_of db u).
Proof.
  intros Hok Ht. unfold getSession.
  assert (E : js_find (fun r => SESSION_MATCH t r && (now <? s_expires_at r)) (sessions db) =
              match js_find (SESSION_MATCH t) (sessions db) with Some r => if now <? s_expires_at r then Some r else None | None => None end).
  { rewrite <- (js_find_bfilter (SESSION_MATCH t) (fun r => now <? s_expires_at r)) by (intros x y Hx Hy; by apply (match_one db t)).
    unfold js_find. clear. induction (sessions db) as [|r l IH]; [done|]. cbn. destruct (now <? s_expires_at r); cbn.
    - rewrite andb_true_r. by destruct (SESSION_MATCH t r).
    - by rewrite andb_false_r. }
  rewrite E. unfold live_at, session_of at 1. destruct (js_find (SESSION_MATCH t) (sessions db)) as [r|]; cbn [option_map row_session expires_at].
  - destruct (now <? s_expires_at r).
    + destruct (s_hashed r); cbn [negb].
      * exists db. split_and!; [done|by left|done|done].
      * destruct (hash_session_spec db t Hok Ht) as (db' & -> & -> & Hok' & Hsame). cbn [mbind js_result_bind]. eexists. split_and!; eauto.
    + exists db. split_and!; [done|by left|done|done].
  - exists db. split_and!; [done|by left|done|done].
Qed.

Lemma createSession_spec db x :
  sessions_ok db -> issued (token x) -> fresh_token db (token x) -> tenant_id x <> Some ""%string ->
  exists db', createSession db x = Returns db' /\ sessions_ok db' /\
    (forall u, issued u -> session_of db' u = if String.eqb u (token x) then Some x else session_of db u).
Proof.
  intros [Hn Hl] Hi Hf Ht. unfold createSession. destruct (existsb _ _) eqn:E.
  { exfalso. apply existsb_elem in E as (r & Hr & E%String.eqb_eq). unfold fresh_token in Hf. rewrite list.Forall_forall in Hf. by destruct (Hf r Hr). }
  replace (or_null (tenant_id x)) with (tenant_id x) by (destruct (tenant_id x) as [[]|]; done).
  set (row := mkSessionRow _ _ _ _ _ _). assert (Hrow : legit row) by (split; [by left|done]).
  eexists. split; [reflexivity|]. split; [split; cbn [sessions on_sessions]|].
  - rewrite List.map_app. apply list.NoDup_app. split; [done|]. split; [|cbn; repeat constructor; by intros ?%elem_of_nil].
    intros k (r & -> & Hr)%list_elem_of_fmap Hk%list_elem_of_singleton. unfold fresh_token in Hf. rewrite list.Forall_forall in Hf, Hl.
    destruct (Hf r Hr) as [Hm _]. by rewrite (proj2 (match_iff (token x) r Hi (Hl r Hr))) in Hm.
  - apply Forall_app. split; [done|]. by repeat constructor.
  - intros u Hu. unfold session_of. cbn [sessions on_sessions]. rewrite js_find_app.
    assert (Hrm : SESSION_MATCH u row = String.eqb u (token x)).
    { apply match_same; try done. by apply match_iff. }
    destruct (String.eqb_spec u (token x)) as [-> |Hne].
    + replace (js_find (SESSION_MATCH (token x)) (sessions db)) with (@None SessionRow).
      * cbn. rewrite Hrm. cbn. unfold row_session, row. cbn. by destruct x.
      * symmetry. apply js_find_None. intros r Hr. unfold fresh_token in Hf. rewrite list.Forall_forall in Hf. by apply Hf.
    + destruct (js_find (SESSION_MATCH u) (sessions db)); [done|]. cbn. by rewrite Hrm.
Qed.

#[export] Instance d1_sessions_lawful : LawfulStore D1Database issued.
Proof.
  constructor; cbn [store_create store_delete store_get store_find store_ok store_fresh d1_sessions].
  - apply createSession_spec.
  - intros db t Hok Ht. split; [by apply sessions_ok_filter|]. split; [intros u Hu; by apply deleteSession_spec|].
    intros u Hf. by apply bfilter_Forall.
  - intros db t now Hok Ht. destruct (getSession_spec db t now Hok Ht) as (db' & -> & Hdb & Hok' & Hsame). exists db'. split_and!; [done|done|done|].
    intros u Hu Hf. destruct Hdb as [-> | ->]; [done|]. apply fresh_hash; try done. apply Hok.
  - intros db t x Hok. unfold session_of. destruct (js_find _ _) as [r|] eqn:E; cbn; [|done]. intros [= <-]. split; [done|].
    apply found_row in E as [[_ Hr] _]; done.
  - intros db t _ Hf. unfold session_of. replace (js_find _ _) with (@None SessionRow); [done|]. symmetry. apply js_find_None.
    intros r Hr. unfold fresh_token in Hf. rewrite list.Forall_forall in Hf. by apply Hf.
Qed.

(** C8. The sessions table is a map from tokens to sessions, whichever way its
    rows are stored. A session that is created is what its token gets until the
    moment it expires, and nothing after; no other text, the stored key among
    them, gets anything it did not get before. A session that is deleted is
    gone and every other stays. Reading a session, which may rewrite its row,
    changes what no token gets. *)
Theorem sessions_are_a_map db now :
  sessions_ok db ->
  (forall x, issued (token x) -> fresh_token db (token x) -> tenant_id x <> Some ""%string ->
     exists db', createSession db x = Returns db' /\ sessions_ok db' /\
       forall u, issued u -> exists db'', getSession db' u now =
         Returns (db'', live_at now (if String.eqb u (token x) then Some x else session_of db u))) /\
  (forall t, issued t ->
     forall u, issued u -> exists db'', getSession (deleteSession db t) u now =
       Returns (db'', if String.eqb u t then None else live_at now (session_of db u))) /\
  (forall t, issued t ->
     exists db', getSession db t now = Returns (db', live_at now (session_of db t)) /\ sessions_ok db' /\
       forall u, issued u -> session_of db' u = session_of db u).
Proof.
  intros Hok. split; [|split].
  - intros x Hx Hf Ht. destruct (createSession_spec db x Hok Hx Hf Ht) as (db' & -> & Hok' & Hfind). exists db'. split; [done|]. split; [done|].
    intros u Hu. destruct (getSession_spec db' u now Hok' Hu) as (db'' & -> & _). exists db''. by rewrite Hfind.
  - intros t Ht u Hu. destruct (getSession_spec (deleteSession db t) u now (sessions_ok_filter db _ Hok) Hu) as (db'' & -> & _).
    exists db''. rewrite deleteSession_spec by done. by destruct (String.eqb u t).
  - intros t Ht. destruct (getSession_spec db t now Hok Ht) as (db' & -> & _ & Hok' & Hsame). exists db'. done.
Qed.
End Refinement.

(** ** A table with an old row *)

Definition demo_sessions : D1Database :=
  on_sessions (fun _ => [mkSessionRow "old" "u1" None org_admin 2000 false;
                         mkSessionRow "hsession:new" "u2" (Some "t1"%string) org_admin 3000 true]) empty_db.

(** The tokens of interest; [toy_crypto]'s digest repeats the text. *)
Definition demo_issued (t : string) : Prop := startsWith t "h" = false.

Lemma toy_key_inj t u : demo_issued t -> demo_issued u -> @sessionKey toy_crypto t = @sessionKey toy_crypto u -> t = u.
Proof. intros _ _. unfold sessionKey. cbn. congruence. Qed.

Lemma demo_sessions_ok : sessions_ok (H := toy_crypto) demo_issued demo_sessions.
Proof.
  split.
  - apply (bool_decide_eq_true_1 _). vm_compute. reflexivity.
  - constructor; [|constructor; [split; [by left|done]|constructor]]. split; [right|done]. split; [done|].
    intros u _ E. unfold sessionKey in E. cbn in E. congruence.
Qed.

Lemma sessions_are_a_map_witness :
  exists db', getSession (H := toy_crypto) demo_sessions "old" 1000 = Returns (db', Some (mkSession "old" "u1" None org_admin 2000)) /\
    getSession (H := toy_crypto) demo_sessions "new" 3000 = Returns (demo_sessions, None).
Proof.
  destruct (proj2 (proj2 (sessions_are_a_map (H := toy_crypto) demo_issued toy_key_inj demo_sessions 1000 demo_sessions_ok)) "old"%string eq_refl) as (db' & Hget & _).
  exists db'. split; [rewrite Hget; vm_compute; reflexivity|vm_compute; reflexivity].
Defined.

Lemma session_housekeeping_witness :
  session_of (H := toy_crypto) (deleteSessionsForUser (H := toy_crypto) demo_sessions "u1" None) "old" = None /\
  exists db', hashLegacySessions (H := toy_crypto) demo_sessions 500 = Returns (db', 1%nat) /\
    session_of (H := toy_crypto) db' "old" = Some (mkSession "old" "u1" None org_admin 2000).
Proof.
  destruct (session_housekeeping (H := toy_crypto) demo_issued toy_key_inj demo_sessions "old" demo_sessions_ok eq_refl) as (H1 & _ & H3).
  split; [rewrite (H1 "u1"%string None) by done; vm_compute; reflexivity|].
  destruct (H3 500%nat) as (db' & Hh & _ & Hs & _). exists db'. split; [exact Hh|]. rewrite Hs. vm_compute. reflexivity.
Defined.
