(* ===== verification/Handoff.v ===== *)
(** src/cloudflare-control/src/session_handoff.ts: session cookies, and handing
    a sign-in from one host to another with a sealed code.

    AES-GCM under the key derived from the pepper, UTF-8 and JSON are interfaces
    ([Sealing]) with the laws the code relies on ([LawfulSealing]); base64 is
    modelled. The handler is written against [SessionStore], the interface of
    the sessions table. Random bytes and the clock are arguments; the handler
    reads the clock three times. *)
From S2P Require Import Prelude JsString Regex Platform Escape Db Auth Sessions.

Definition SESSION_COOKIE_SECURE : string := "__Host-labkiosk_session".
Definition SESSION_COOKIE_PLAIN : string := "labkiosk_session".
Definition SESSION_SECONDS : Z := 7 * 24 * 3600.
Definition SUPER_ADMIN_SESSION_SECONDS : Z := 12 * 3600.
Definition HANDOFF_SECONDS : Z := 60.
Definition HANDOFF_PATH : string := "/api/auth/handoff".

Definition sessionCookieName (secure : bool) : string := if secure then SESSION_COOKIE_SECURE else SESSION_COOKIE_PLAIN.

Definition sessionSecondsFor (r : UserRole) : Z := match r with super_admin => SUPER_ADMIN_SESSION_SECONDS | org_admin => SESSION_SECONDS end.

Definition createSessionCookie (token : string) (secure : bool) (maxAgeSeconds : Z) : string :=
  join "; " ([sessionCookieName secure +:+ "=" +:+ token; "Path=/"; "Max-Age=" +:+ string_of_int maxAgeSeconds; "HttpOnly"; "SameSite=Lax"]%string
    ++ if secure then ["Secure"%string] else []).

(** [s.replace(/^\./, "")]. *)
Definition strip_dot (s : string) : string := match s with String c t => if is_char "." c then t else s | _ => s end.

Definition clearSessionCookies (secure : bool) (legacyDomain : option string) : list string :=
  let base name := [name +:+ "="; "Path=/"; "Max-Age=0"; "HttpOnly"; "SameSite=Lax"]%string in
  let cleared := base (sessionCookieName secure) ::
    match or_null legacyDomain with
    | Some d => [base SESSION_COOKIE_PLAIN ++ ["Domain=." +:+ strip_dot d]]
    | None => []
    end in
  List.map (fun parts => join "; " (if secure then parts ++ ["Secure"%string] else parts)) cleared.

(** ** Base64 *)

Definition B64_ALPHABET : string := "ABCDEFGHIJKLMNOPQRSTUVWXYZabcdefghijklmnopqrstuvwxyz0123456789+/".
Definition b64_char (n : Z) : ascii := default " "%char (String.get (Z.to_nat n) B64_ALPHABET).
Definition b64_value (c : ascii) : Z := indexOf c B64_ALPHABET.

(** [btoa(String.fromCharCode(...bytes))]: the characters, then the padding. *)
Fixpoint b64_body (bytes : list Z) : string :=
  match bytes with
  | a :: b :: c :: rest =>
      String (b64_char (a `div` 4)) (String (b64_char ((a `mod` 4) * 16 + b `div` 16))
        (String (b64_char ((b `mod` 16) * 4 + c `div` 64)) (String (b64_char (c `mod` 64)) (b64_body rest))))
  | [a; b] =>
      String (b64_char (a `div` 4)) (String (b64_char ((a `mod` 4) * 16 + b `div` 16)) (String (b64_char ((b `mod` 16) * 4)) ""))
  | [a] => String (b64_char (a `div` 4)) (String (b64_char ((a `mod` 4) * 16)) "")
  | [] => ""
  end.

Definition repeat_char (c : ascii) (n : nat) : string := String.string_of_list_ascii (List.repeat c n).

Definition btoa (bytes : list Z) : string := b64_body bytes +:+ repeat_char "=" ((3 - length bytes mod 3) mod 3).

(** [atob] of text without white space: padding is removed where the length is
    a multiple of four, and left over bits are dropped. *)
Fixpoint b64_groups (values : list Z) : option (list Z) :=
  match values with
  | [] => Some []
  | [_] => None
  | [w; x] => Some [w * 4 + x `div` 16]
  | [w; x; y] => Some [w * 4 + x `div` 16; (x `mod` 16) * 16 + y `div` 4]
  | w :: x :: y :: z :: rest =>
      option_map (fun l => (w * 4 + x `div` 16) :: ((x `mod` 16) * 16 + y `div` 4) :: ((y `mod` 4) * 64 + z) :: l) (b64_groups rest)
  end.

Definition strip_padding (s : string) : string :=
  if negb (String.length s mod 4 =? 0)%nat then s
  else if endsWith s "==" then str_drop_last 2 s
  else if endsWith s "=" then str_drop_last 1 s
  else s.

Definition atob (s : string) : option (list Z) :=
  let data := String.list_ascii_of_string (strip_padding s) in
  if existsb (fun c => b64_value c <? 0) data then None else b64_groups (List.map b64_value data).

Definition to_url (c : ascii) : ascii := if is_char "+" c then "-"%char else if is_char "/" c then "_"%char else c.
Definition from_url (c : ascii) : ascii := if is_char "-" c then "+"%char else if is_char "_" c then "/"%char else c.

(** [s.replace(/=+$/, "")]. *)
Fixpoint strip_equals (s : string) : string :=
  match s with
  | ""%string => ""
  | String c t => match strip_equals t with ""%string => if is_char "=" c then "" else String c "" | t' => String c t' end
  end.

Definition base64url (bytes : list Z) : string := strip_equals (str_map to_url (btoa bytes)).

Definition is_b64url (c : ascii) : bool := is_alpha c || is_digit c || is_char "_" c || is_char "-" c.

Definition fromBase64url (value : string) : option (list Z) :=
  if String.eqb value "" || negb (str_forallb is_b64url value) || (512 <? String.length value)%nat then None
  else atob (str_map from_url value +:+ repeat_char "=" ((4 - String.length value mod 4) mod 4)).

(** ** Sealing *)

Class Sealing : Type := {
  handoffKey : string -> list Z;
  gcm_encrypt : list Z -> list Z -> list Z -> list Z;
  gcm_decrypt : list Z -> list Z -> list Z -> option (list Z);
  utf8_encode : string -> list Z;
  utf8_decode : list Z -> string;
  json_stringify : jsval -> string;
  json_parse : string -> option jsval
}.

Definition HandoffClaims (t h : string) (e : Z) : jsval := JsObj [("t", JsStr t); ("h", JsStr h); ("e", JsInt e)]%string.

(** AES-GCM opens what it sealed and adds a tag of sixteen bytes; UTF-8 and
    JSON give back what they were given. *)
Class LawfulSealing (S : Sealing) : Prop := {
  gcm_roundtrip k iv p : gcm_decrypt k iv (gcm_encrypt k iv p) = Some p;
  gcm_tag k iv p : length (gcm_encrypt k iv p) = (length p + 16)%nat;
  gcm_bytes k iv p : Forall is_byte p -> Forall is_byte (gcm_encrypt k iv p);
  utf8_bytes s : Forall is_byte (utf8_encode s);
  utf8_roundtrip s : utf8_decode (utf8_encode s) = s;
  json_roundtrip t h e : 0 <= e -> json_parse (json_stringify (HandoffClaims t h e)) = Some (HandoffClaims t h e)
}.

Section Codes.
Context `{Sealing}.

(** [iv]: the twelve random bytes drawn. *)
Definition sealHandoff (pepper token host : string) (iv : list Z) (now : Z) : string :=
  let claims := HandoffClaims token (toLowerCase host) (now + HANDOFF_SECONDS) in
  let sealed := gcm_encrypt (handoffKey pepper) iv (utf8_encode (json_stringify claims)) in
  base64url (iv ++ sealed).

Definition claims_fields (claims : jsval) (host : string) (now : Z) : option string :=
  match js_get claims "t", js_get claims "h", js_get claims "e" with
  | JsStr t, JsStr h, JsInt e | JsStr t, JsStr h, JsFrac e =>
      if negb (String.eqb h (toLowerCase host)) || (e <? now) then None else Some t
  | _, _, _ => None
  end.

(** Reading a field of [null] throws. *)
Definition openHandoff (pepper code host : string) (now : Z) : js_result (option string) :=
  match fromBase64url code with
  | None => Returns None
  | Some bytes =>
      if (length bytes <? 12 + 16)%nat then Returns None
      else
        match gcm_decrypt (handoffKey pepper) (take 12 bytes) (drop 12 bytes) with
        | None => Returns None
        | Some plain =>
            match json_parse (utf8_decode plain) with
            | None => Returns None
            | Some JsNull => Throws "Cannot read properties of null"
            | Some claims => Returns (claims_fields claims host now)
            end
        end
  end.
End Codes.

(** ** Where a sign-in goes *)

Record SignInDestination : Type := mkDestination { sd_redirect : string; sd_cookieHere : bool }.

Section Destination.
Context `{Sealing} `{UrlParser}.

(** [here]: the request's URL; [host_header]: its Host header. *)
Definition signInDestination (DEFAULT_DOMAIN : option string) (here : URL) (host_header : option string)
    (token redirect pepper : string) (iv : list Z) (now : Z) : js_result SignInDestination :=
  let hereHost := toLowerCase (default (url_host here) (or_null host_header)) in
  match resolveURL redirect (url_protocol here +:+ "//" +:+ hereHost) with
  | None => Returns (mkDestination "/" true)
  | Some target =>
      if String.eqb (toLowerCase (url_host target)) hereHost then Returns (mkDestination redirect true)
      else
        let base := toLowerCase (strip_dot (default ""%string DEFAULT_DOMAIN)) in
        if negb (String.eqb (url_protocol target) "https:") || String.eqb base "" ||
           negb (String.eqb (url_hostname target) base || endsWith (url_hostname target) ("." +:+ base))
        then Throws ("Refusing to hand a session to " +:+ url_host target)
        else
          let code := sealHandoff pepper token (url_host target) iv now in
          let next := url_pathname target +:+ url_search target in
          Returns (mkDestination
            (url_protocol target +:+ "//" +:+ url_host target +:+ HANDOFF_PATH +:+ "?code=" +:+ encodeURIComponent code
               +:+ "&next=" +:+ encodeURIComponent next) false)
  end.
End Destination.

Definition safeNext (raw : option string) : string :=
  let next := default ""%string raw in
  if startsWith next "/" && negb (startsWith next "//") && negb (startsWith next "/\") then next else "/admin".

(** ** The handler *)

(** A redirect: its Location and its Set-Cookie headers. *)
Record Redirect : Type := mkRedirect { rd_location : string; rd_set_cookie : list string }.

Definition EXPIRED : Redirect := mkRedirect "/?signin=expired" [].

Section Handler.
Context `{Sealing} {St : Type} `{SessionStore St}.

(** Up to the session the code stands for. *)
Definition handoff_session (db : St) (pepper : string) (host_header : option string) (url_host_ : string) (code : option string)
    (t_open t_get : Z) : js_result (St * option (string * Session)) :=
  let host := toLowerCase (default url_host_ (or_null host_header)) in
  opened ← openHandoff pepper (default ""%string code) host t_open;
  match or_null opened with
  | None => Returns (db, None)
  | Some token =>
      '(db1, session) ← store_get db token t_get;
      Returns (db1, option_map (pair token) session)
  end.

(** The session replaced by a new one, and its cookie. *)
Definition handoff_swap (db : St) (token : string) (session : Session) (next : option string) (secure : bool)
    (legacyDomain : option string) (random : list Z) (t_age : Z) : js_result (St * Redirect) :=
  let db2 := store_delete db token in
  let fresh := bufferToHex random in
  db3 ← store_create db2 (mkSession fresh (user_id session) (tenant_id session) (role session) (expires_at session));
  let maxAge := Z.max 0 (expires_at session - t_age) in
  Returns (db3, mkRedirect (safeNext next) (createSessionCookie fresh secure maxAge :: tail (clearSessionCookies secure legacyDomain))).

Definition handleSessionHandoff (db : St) (pepper : string) (host_header : option string) (url_host_ : string)
    (code next : option string) (secure : bool) (legacyDomain : option string) (random : list Z) (t_open t_get t_age : Z) :
    js_result (St * Redirect) :=
  '(db1, found) ← handoff_session db pepper host_header url_host_ code t_open t_get;
  match found with
  | None => Returns (db1, EXPIRED)
  | Some (token, session) => handoff_swap db1 token session next secure legacyDomain random t_age
  end.
End Handler.

(** ** Base64 round trip *)

Lemma b64_value_char n : 0 <= n < 64 -> b64_value (b64_char n) = n.
Proof.
  intros Hn. pose proof (Z_interval_forall (fun n => b64_value (b64_char n) =? n) 64 ltac:(vm_compute; reflexivity) n ltac:(lia)) as Hp.
  by apply Z.eqb_eq.
Qed.

Definition is_b64 (c : ascii) : bool := has_char c B64_ALPHABET.

Lemma b64_char_in n : 0 <= n < 64 -> is_b64 (b64_char n) = true.
Proof.
  intros Hn. apply (Z_interval_forall (fun n => is_b64 (b64_char n)) 64); [vm_compute; reflexivity|lia].
Qed.

(** The six-bit groups of the bytes. *)
Fixpoint sextets (bytes : list Z) : list Z :=
  match bytes with
  | a :: b :: c :: rest => a `div` 4 :: (a `mod` 4) * 16 + b `div` 16 :: (b `mod` 16) * 4 + c `div` 64 :: c `mod` 64 :: sextets rest
  | [a; b] => [a `div` 4; (a `mod` 4) * 16 + b `div` 16; (b `mod` 16) * 4]
  | [a] => [a `div` 4; (a `mod` 4) * 16]
  | [] => []
  end.

(** Induction on three bytes at a time. *)
Lemma triple_ind {A} (P : list A -> Prop) :
  P [] -> (forall a, P [a]) -> (forall a b, P [a; b]) -> (forall a b c l, P l -> P (a :: b :: c :: l)) -> forall l, P l.
Proof.
  intros H0 H1 H2 H3. assert (H : forall n l, (length l <= n)%nat -> P l); [|intros l; by apply (H (length l))].
  induction n as [|n IH]; intros [|a [|b [|c l]]] Hl; auto; cbn in Hl; try lia. apply H3, IH. lia.
Qed.

Lemma sextets_range bytes : Forall is_byte bytes -> Forall (fun v => 0 <= v < 64) (sextets bytes).
Proof.
  induction bytes as [|a|a b|a b c l IH] using triple_ind; intros Hb; cbn [sextets]; repeat (apply Forall_cons_iff in Hb as [? Hb]);
    repeat (apply Forall_cons_iff; split); try apply Forall_nil; try (by apply IH); unfold is_byte in *; div_lia.
Qed.

Lemma b64_body_sextets bytes : b64_body bytes = String.string_of_list_ascii (List.map b64_char (sextets bytes)).
Proof. induction bytes as [|a|a b|a b c l IH] using triple_ind; cbn [b64_body sextets List.map String.string_of_list_ascii]; try done. by rewrite IH. Qed.

Lemma b64_groups_sextets bytes : Forall is_byte bytes -> b64_groups (sextets bytes) = Some bytes.
Proof.
  induction bytes as [|a|a b|a b c l IH] using triple_ind; intros Hb; cbn [sextets b64_groups]; [done|..];
    repeat (apply Forall_cons_iff in Hb as [? Hb]); unfold is_byte in *; [| |rewrite IH by done; cbn [option_map]];
    repeat f_equal; div_lia.
Qed.

Lemma sextets_length bytes : (3 * length (sextets bytes) = 4 * length bytes + (3 - length bytes mod 3) mod 3)%nat.
Proof.
  induction bytes as [|a|a b|a b c l IH] using triple_ind; try reflexivity. cbn [sextets length].
  replace (S (S (S (length l))) mod 3)%nat with (length l mod 3)%nat; [lia|].
  replace (S (S (S (length l)))) with (length l + 1 * 3)%nat by lia. by rewrite Nat.Div0.mod_add.
Qed.

Lemma b64_body_length bytes : String.length (b64_body bytes) = length (sextets bytes).
Proof. by rewrite b64_body_sextets, str_length_of_list, length_map. Qed.

Lemma b64_body_chars bytes : Forall is_byte bytes -> str_forallb is_b64 (b64_body bytes) = true.
Proof.
  intros Hb. rewrite b64_body_sextets. apply str_forallb_of_list. apply List.Forall_map.
  generalize (sextets_range bytes Hb). apply Forall_impl. intros v. apply b64_char_in.
Qed.

Lemma padding_length bytes :
  ((4 - String.length (b64_body bytes) mod 4) mod 4 = (3 - length bytes mod 3) mod 3)%nat /\
  ((String.length (b64_body bytes) + (3 - length bytes mod 3) mod 3) mod 4 = 0)%nat.
Proof.
  rewrite b64_body_length. pose proof (sextets_length bytes) as Hs. set (m := length (sextets bytes)) in *. set (n := length bytes) in *.
  pose proof (Nat.div_mod_eq n 3). pose proof (Nat.mod_upper_bound n 3 ltac:(lia)). pose proof (Nat.div_mod_eq m 4). pose proof (Nat.mod_upper_bound m 4 ltac:(lia)).
  assert (Hr : (n mod 3 = 0 \/ n mod 3 = 1 \/ n mod 3 = 2)%nat) by lia.
  assert (Hq : exists k, (m = 4 * (n / 3) + k /\ k <= 3 /\ k = match n mod 3 with 0 => 0 | 1 => 2 | _ => 3 end)%nat).
  { destruct Hr as [E|[E|E]]; rewrite E in *; cbn in Hs; eexists; (split; [|split; [|reflexivity]]); lia. }
  destruct Hq as (k & Hm & Hk & Ek). rewrite Hm, (Nat.mul_comm 4), <- Nat.add_assoc, !(Nat.add_comm (_ * 4)), !Nat.Div0.mod_add.
  destruct Hr as [E|[E|E]]; rewrite E in *; subst k; cbn; done.
Qed.

Lemma padding_le n : ((3 - n mod 3) mod 3 <= 2)%nat.
Proof. pose proof (Nat.mod_upper_bound (3 - n mod 3) 3). lia. Qed.

Lemma strip_equals_app b k :
  str_forallb (fun c => negb (is_char "=" c)) b = true -> strip_equals (b +:+ repeat_char "=" k) = b.
Proof.
  assert (Hk : strip_equals (repeat_char "=" k) = ""%string).
  { induction k as [|k IH]; [done|]. cbn. change (String.string_of_list_ascii (List.repeat "="%char k)) with (repeat_char "=" k). by rewrite IH. }
  induction b as [|c b IH]; intros Hb; [done|]. cbn [str_forallb] in Hb. apply andb_prop in Hb as [Hc Hb].
  cbn [String.append strip_equals]. rewrite IH by done. destruct b; [|done]. by destruct (is_char "=" c).
Qed.

Lemma b64_char_facts c : is_b64 c = true ->
  negb (is_char "=" (to_url c)) = true /\ is_b64url (to_url c) = true /\ from_url (to_url c) = c /\ negb (is_char "=" c) = true /\ (b64_value c <? 0) = false.
Proof.
  pose proof (all_chars_forall (fun c => implb (is_b64 c) (negb (is_char "=" (to_url c)) && is_b64url (to_url c) && Ascii.eqb (from_url (to_url c)) c
    && negb (is_char "=" c) && negb (b64_value c <? 0))) ltac:(vm_compute; reflexivity) c) as Hc. cbv beta in Hc.
  intros H. rewrite H in Hc. cbn [implb] in Hc. repeat (apply andb_prop in Hc as [Hc ?]). repeat split; try done; [by apply Ascii.eqb_eq|by apply negb_true_iff].
Qed.

Lemma str_forallb_map p f s : str_forallb p (str_map f s) = str_forallb (fun c => p (f c)) s.
Proof. induction s as [|c s IH]; [done|]. cbn. by rewrite IH. Qed.

Lemma str_map_inverse f g p s :
  (forall c, p c = true -> g (f c) = c) -> str_forallb p s = true -> str_map g (str_map f s) = s.
Proof. intros Hfg. induction s as [|c s IH]; [done|]. cbn. intros [Hc Hs]%andb_prop. by rewrite Hfg, IH. Qed.

Lemma repeat_char_map f c k : f c = c -> str_map f (repeat_char c k) = repeat_char c k.
Proof. intros Hf. unfold repeat_char. induction k as [|k IH]; [done|]. cbn. by rewrite Hf, IH. Qed.

Lemma base64url_body bytes : Forall is_byte bytes -> base64url bytes = str_map to_url (b64_body bytes).
Proof.
  intros Hb. unfold base64url, btoa. rewrite str_map_app, repeat_char_map by done. apply strip_equals_app.
  rewrite str_forallb_map. generalize (b64_body_chars bytes Hb). apply str_forallb_impl. intros c Hc. by destruct (b64_char_facts c Hc) as (? & ? & ? & ? & ?).
Qed.

Lemma endsWith_no_equals b suf :
  str_forallb (fun c => negb (is_char "=" c)) b = true -> endsWith b (suf +:+ "=") = false.
Proof.
  intros Hb. apply not_true_is_false. intros [p ->]%endsWith_iff. rewrite !str_forallb_app in Hb. cbn in Hb.
  by rewrite !andb_false_r in Hb.
Qed.

Lemma strip_padding_app b k :
  (k <= 2)%nat -> ((String.length b + k) mod 4 = 0)%nat -> str_forallb (fun c => negb (is_char "=" c)) b = true ->
  strip_padding (b +:+ repeat_char "=" k) = b.
Proof.
  intros Hk Hl Hb. unfold strip_padding. rewrite str_length_app.
  replace (String.length (repeat_char "=" k)) with k by (unfold repeat_char; by rewrite str_length_of_list, List.repeat_length).
  rewrite Hl. cbn [Nat.eqb negb]. destruct k as [|[|[|k]]]; [| | |lia]; unfold repeat_char; cbn [List.repeat String.string_of_list_ascii].
  - pose proof (endsWith_no_equals b "=" Hb) as H2. pose proof (endsWith_no_equals b "" Hb) as H1. cbn [String.append] in H1, H2.
    by rewrite str_app_nil_r, H2, H1.
  - destruct (endsWith (b +:+ "=") "==") eqn:E.
    + exfalso. apply endsWith_iff in E as [p E]. assert (E' : b +:+ "=" = (p +:+ "=") +:+ "=") by (rewrite str_app_assoc; exact E).
      apply str_app_inv_len in E' as [-> _]; [|apply (f_equal String.length) in E'; rewrite !str_length_app in *; cbn in *; lia]. rewrite str_forallb_app in Hb. cbn in Hb. by rewrite andb_false_r in Hb.
    + rewrite (proj2 (endsWith_iff _ _)) by eauto. apply (str_drop_last_app b "=").
  - rewrite (proj2 (endsWith_iff _ _)) by eauto. apply (str_drop_last_app b "==").
Qed.

Lemma atob_btoa bytes : Forall is_byte bytes -> atob (btoa bytes) = Some bytes.
Proof.
  intros Hb. unfold atob, btoa. pose proof (padding_length bytes) as [_ Hp]. rewrite strip_padding_app.
  - rewrite b64_body_sextets, String.list_ascii_of_string_of_list_ascii.
    pose proof (sextets_range bytes Hb) as Hr. rewrite list.Forall_forall in Hr.
    replace (existsb _ _) with false.
    + rewrite List.map_map. rewrite (List.map_ext_in _ id); [rewrite List.map_id; by apply b64_groups_sextets|].
      intros v Hv. apply b64_value_char, Hr. by apply list_elem_of_In.
    + symmetry. apply not_true_is_false. intros (c & (v & -> & Hv)%list_elem_of_fmap & Hc)%existsb_elem.
      rewrite b64_value_char in Hc by auto. apply Hr in Hv. lia.
  - apply padding_le.
  - done.
  - generalize (b64_body_chars bytes Hb). apply str_forallb_impl. intros c Hc. by destruct (b64_char_facts c Hc) as (? & ? & ? & ? & ?).
Qed.

Lemma base64url_roundtrip bytes :
  Forall is_byte bytes -> (0 < length bytes <= 384)%nat -> fromBase64url (base64url bytes) = Some bytes.
Proof.
  intros Hb Hl. pose proof (b64_body_chars bytes Hb) as Hc. pose proof (sextets_length bytes) as Hs. rewrite <- b64_body_length in Hs.
  unfold fromBase64url. rewrite base64url_body by done. rewrite str_forallb_map, str_length_map.
  replace (String.eqb _ "") with false.
  2: { symmetry. apply String.eqb_neq. intros E. apply (f_equal String.length) in E. rewrite str_length_map in E. cbn in E. lia. }
  replace (str_forallb (fun c => is_b64url (to_url c)) (b64_body bytes)) with true.
  2: { symmetry. revert Hc. apply str_forallb_impl. intros c Hc. by destruct (b64_char_facts c Hc) as (? & ? & ? & ? & ?). }
  rewrite (proj2 (Nat.ltb_ge _ _)) by (pose proof (padding_le (length bytes)); lia). cbn [orb negb].
  rewrite (str_map_inverse to_url from_url is_b64) by (done || (intros c Hcc; by destruct (b64_char_facts c Hcc) as (? & ? & ? & ? & ?))).
  rewrite (proj1 (padding_length bytes)). by apply atob_btoa.
Qed.

(** ** Codes *)

Section Sealed.
Context `{LawfulSealing}.

(** The code of a token, and the room it has: a code is at most 512 characters. *)
Definition fits (token host : string) (e : Z) : Prop :=
  (length (utf8_encode (json_stringify (HandoffClaims token (toLowerCase host) e))) <= 384 - 28)%nat.

Lemma openHandoff_sealed pepper token host iv now host' now' :
  Forall is_byte iv -> length iv = 12%nat -> 0 <= now -> fits token host (now + HANDOFF_SECONDS) ->
  openHandoff pepper (sealHandoff pepper token host iv now) host' now' =
  Returns (if String.eqb (toLowerCase host) (toLowerCase host') && (now' <=? now + HANDOFF_SECONDS) then Some token else None).
Proof.
  intros Hiv Hl Hn Hfit. unfold openHandoff, sealHandoff, fits in *. set (plain := utf8_encode _) in *.
  rewrite base64url_roundtrip.
  - rewrite length_app, gcm_tag, Hl, (proj2 (Nat.ltb_ge _ _)) by lia. rewrite take_app_length', drop_app_length', gcm_roundtrip by done.
    unfold plain. rewrite utf8_roundtrip, json_roundtrip by (unfold HANDOFF_SECONDS; lia). unfold HandoffClaims at 1.
    cbn [js_get assoc claims_fields String.eqb Ascii.eqb Bool.eqb]. f_equal. unfold claims_fields, HandoffClaims. cbn -[HANDOFF_SECONDS].
    destruct (String.eqb (toLowerCase host) (toLowerCase host')); cbn; [|done].
    destruct (Z.ltb_spec (now + HANDOFF_SECONDS) now'), (Z.leb_spec now' (now + HANDOFF_SECONDS)); done || lia.
  - apply Forall_app. split; [done|]. apply gcm_bytes, utf8_bytes.
  - rewrite length_app, gcm_tag. lia.
Qed.
End Sealed.

(** ** The handler *)

Definition served_host (host_header : option string) (url_host_ : string) : string := toLowerCase (default url_host_ (or_null host_header)).

Section Once.
Context `{LawfulSealing} {St : Type} `{LawfulStore St issued}.

Lemma or_null_token (t : string) : t <> ""%string -> or_null (Some t) = Some t.
Proof. by destruct t. Qed.

(** What a code that stands for [t] leads to. *)
Lemma handoff_session_of db pepper hh uh code t t_open t_get :
  store_ok db -> issued t -> t <> ""%string -> openHandoff pepper code (served_host hh uh) t_open = Returns (Some t) ->
  exists db1, handoff_session db pepper hh uh (Some code) t_open t_get =
    Returns (db1, option_map (pair t) (live_at t_get (store_find db t))) /\ store_ok db1 /\
    (forall u, issued u -> store_find db1 u = store_find db u) /\ (forall u, issued u -> store_fresh db u -> store_fresh db1 u).
Proof.
  intros Hok Ht Hne Hopen. unfold handoff_session. fold (served_host hh uh). cbn [default from_option id]. rewrite Hopen. cbn [mbind js_result_bind].
  rewrite or_null_token by done. destruct (law_get db t t_get Hok Ht) as (db1 & -> & Hok1 & Hsame & Hfresh). exists db1. done.
Qed.

Definition renamed (fresh : string) (x : Session) : Session :=
  mkSession fresh (user_id x) (tenant_id x) (role x) (expires_at x).

Lemma handoff_swap_spec db x next secure legacy random t_age :
  let fresh := bufferToHex random in
  store_ok db -> issued (token x) -> issued fresh -> store_fresh db fresh -> store_find db (token x) = Some x ->
  exists db', handoff_swap db (token x) x next secure legacy random t_age =
      Returns (db', mkRedirect (safeNext next)
        (createSessionCookie fresh secure (Z.max 0 (expires_at x - t_age)) :: tail (clearSessionCookies secure legacy))) /\
    store_ok db' /\ store_find db' fresh = Some (renamed fresh x) /\ store_find db' (token x) = None /\
    forall u, issued u -> u <> fresh -> u <> token x -> store_find db' u = store_find db u.
Proof.
  intros fresh Hok Ht Hi Hf Hfind. unfold handoff_swap. fold fresh. cbv zeta.
  destruct (law_delete db (token x) Hok Ht) as (Hok2 & Hdel & Hfresh). destruct (law_found db (token x) x Hok Hfind) as [_ Htenant].
  destruct (law_create (store_delete db (token x)) (renamed fresh x) Hok2 Hi (Hfresh _ Hf) Htenant) as (db' & Hc & Hok' & Hcreate).
  unfold renamed in Hc. rewrite Hc. cbn [mbind js_result_bind]. exists db'. split; [done|]. split; [done|].
  assert (fresh <> token x) by (intros E; rewrite <- E, (law_fresh db fresh Hi Hf) in Hfind; done).
  split; [|split].
  - rewrite Hcreate by done. cbn. by rewrite String.eqb_refl.
  - rewrite Hcreate by done. cbn [token renamed]. rewrite (proj2 (String.eqb_neq _ _)) by congruence. rewrite Hdel by done. by rewrite String.eqb_refl.
  - intros u Hu Hu1 Hu2. rewrite Hcreate by done. cbn [token renamed]. rewrite (proj2 (String.eqb_neq _ _)) by done.
    rewrite Hdel by done. by rewrite (proj2 (String.eqb_neq _ _)).
Qed.

(** C5. A handoff code hands over one session, once. Used on the host it was
    made for, within a minute and while the session lives, it replaces the
    session by one with a new token, whose cookie it sets, and no other session
    changes. Used again, at any time, it opens nothing: the browser lands on
    the sign-in page without a cookie and the store is as it was. So does a
    code used on another host or after its minute. *)
Theorem handoff_once pepper host iv sealed_at db x hh uh :
  let code := Some (sealHandoff pepper (token x) host iv sealed_at) in
  Forall is_byte iv -> length iv = 12%nat -> 0 <= sealed_at -> fits (token x) host (sealed_at + HANDOFF_SECONDS) ->
  store_ok db -> issued (token x) -> token x <> ""%string -> store_find db (token x) = Some x ->
  (forall next secure legacy random t_open t_get t_age,
     let fresh := bufferToHex random in
     served_host hh uh = toLowerCase host -> t_open <= sealed_at + HANDOFF_SECONDS -> t_get < expires_at x ->
     issued fresh -> store_fresh db fresh ->
     exists db', handleSessionHandoff db pepper hh uh code next secure legacy random t_open t_get t_age =
         Returns (db', mkRedirect (safeNext next)
           (createSessionCookie fresh secure (Z.max 0 (expires_at x - t_age)) :: tail (clearSessionCookies secure legacy))) /\
       store_find db' fresh = Some (renamed fresh x) /\ store_find db' (token x) = None /\
       (forall u, issued u -> u <> fresh -> u <> token x -> store_find db' u = store_find db u) /\
       forall hh2 uh2 next2 secure2 legacy2 random2 t_open2 t_get2 t_age2,
         exists db'', handleSessionHandoff db' pepper hh2 uh2 code next2 secure2 legacy2 random2 t_open2 t_get2 t_age2 = Returns (db'', EXPIRED) /\
           forall u, issued u -> store_find db'' u = store_find db' u) /\
  (forall next secure legacy random t_open t_get t_age,
     served_host hh uh <> toLowerCase host \/ sealed_at + HANDOFF_SECONDS < t_open ->
     handleSessionHandoff db pepper hh uh code next secure legacy random t_open t_get t_age = Returns (db, EXPIRED)).
Proof.
  intros code Hiv Hl Hn Hfit Hok Ht Hne Hfind. subst code.
  assert (Hopen : forall hh uh t, openHandoff pepper (sealHandoff pepper (token x) host iv sealed_at) (served_host hh uh) t =
    Returns (if String.eqb (toLowerCase host) (served_host hh uh) && (t <=? sealed_at + HANDOFF_SECONDS) then Some (token x) else None)).
  { intros h u t. rewrite openHandoff_sealed by done. unfold served_host. by rewrite toLowerCase_idemp. }
  split.
  - intros next secure legacy random t_open t_get t_age fresh Hhost Hto Htg Hi Hf.
    destruct (handoff_session_of db pepper hh uh (sealHandoff pepper (token x) host iv sealed_at) (token x) t_open t_get Hok Ht Hne) as (db1 & Hs & Hok1 & Hsame & Hfr).
    { rewrite Hopen, Hhost, String.eqb_refl, (proj2 (Z.leb_le _ _)) by done. done. }
    unfold handleSessionHandoff at 1. rewrite Hs, Hfind. cbn [mbind js_result_bind live_at]. rewrite (proj2 (Z.ltb_lt _ _)) by done. cbn [option_map].
    destruct (handoff_swap_spec db1 x next secure legacy random t_age Hok1 Ht Hi (Hfr _ Hi Hf)) as (db' & Hr & Hok' & Hnew & Hold & Hrest);
      [by rewrite Hsame|]. rewrite Hr. exists db'. split; [done|]. split; [done|]. split; [done|].
    split; [intros u Hu Hu1 Hu2; rewrite Hrest by done; by apply Hsame|].
    intros hh2 uh2 next2 secure2 legacy2 random2 t_open2 t_get2 t_age2. unfold handleSessionHandoff.
    destruct (String.eqb (toLowerCase host) (served_host hh2 uh2) && (t_open2 <=? sealed_at + HANDOFF_SECONDS)) eqn:E.
    + destruct (handoff_session_of db' pepper hh2 uh2 (sealHandoff pepper (token x) host iv sealed_at) (token x) t_open2 t_get2 Hok' Ht Hne) as (db'' & Hs2 & _ & Hsame2 & _);
        [by rewrite Hopen, E|]. rewrite Hs2, Hold. cbn [live_at option_map mbind js_result_bind]. exists db''. done.
    + exists db'. unfold handoff_session. fold (served_host hh2 uh2). cbn [default from_option id]. rewrite Hopen, E. done.
  - intros next secure legacy random t_open t_get t_age Hbad. unfold handleSessionHandoff, handoff_session. fold (served_host hh uh). cbn [default from_option id].
    rewrite Hopen. replace (_ && _) with false; [done|]. symmetry. apply andb_false_iff.
    destruct Hbad as [Hb|Hb]; [left; apply String.eqb_neq; congruence|right; apply Z.leb_gt; lia].
Qed.
End Once.

(** *** Instances to run it with *)

(** Text as hexadecimal, fields between dots. *)
Definition toy_stringify (v : jsval) : string :=
  match v with
  | JsObj [(_, JsStr t); (_, JsStr h); (_, JsInt e)] =>
      join "." [bufferToHex (List.map code (String.list_ascii_of_string t)); bufferToHex (List.map code (String.list_ascii_of_string h)); string_of_int e]
  | _ => ""
  end.

Definition toy_json_parse (s : string) : option jsval :=
  let text x := String.string_of_list_ascii (List.map chr (hexToBuffer x)) in
  match split_on "." s with
  | [t; h; e] => Some (HandoffClaims (text t) (text h) (digits_value e))
  | _ => None
  end.

Definition toy_sealing : Sealing := {|
  handoffKey := fun _ => [];
  gcm_encrypt := fun _ _ p => p ++ List.repeat 0 16;
  gcm_decrypt := fun _ _ c => Some (take (length c - 16) c);
  utf8_encode := fun s => List.map code (String.list_ascii_of_string s);
  utf8_decode := fun l => String.string_of_list_ascii (List.map chr l);
  json_stringify := toy_stringify;
  json_parse := toy_json_parse
|}.

Lemma codes_are_bytes l : Forall is_byte (List.map code l).
Proof. induction l as [|c l IH]; constructor; [apply code_bounds|done]. Qed.

Lemma chars_of_codes s : String.string_of_list_ascii (List.map chr (List.map code (String.list_ascii_of_string s))) = s.
Proof. rewrite List.map_map. rewrite (List.map_ext _ id) by (intros c; apply chr_code). by rewrite List.map_id, String.string_of_list_ascii_of_string. Qed.

Lemma hex_no_dot bytes : Forall is_byte bytes -> has_char "." (bufferToHex bytes) = false.
Proof.
  unfold has_char. induction 1 as [|b l Hb _ IH]; [done|]. unfold is_byte in Hb. cbn [bufferToHex]. unfold hex_byte. cbn [String.append str_existsb].
  assert (Hd : forall d, 0 <= d < 16 -> is_char "." (hex_char d) = false).
  { intros d Hd. apply negb_true_iff, (Z_interval_forall (fun d => negb (is_char "." (hex_char d))) 16); [vm_compute; reflexivity|lia]. }
  rewrite !Hd by div_lia. done.
Qed.

Lemma toy_sealing_lawful : LawfulSealing toy_sealing.
Proof.
  constructor; cbn [gcm_encrypt gcm_decrypt utf8_encode utf8_decode json_stringify json_parse toy_sealing].
  - intros k iv p. f_equal. apply take_app_length'. rewrite length_app, List.repeat_length. lia.
  - intros k iv p. by rewrite length_app, List.repeat_length.
  - intros k iv p Hp. apply Forall_app. split; [done|]. apply list.Forall_forall. intros x Hx%list_elem_of_In%List.repeat_spec. subst. unfold is_byte. lia.
  - intros s. apply codes_are_bytes.
  - apply chars_of_codes.
  - intros t h e He. unfold toy_json_parse, toy_stringify, HandoffClaims at 1.
    rewrite (split_on_join "."); [|done|cbn [forallb]; by rewrite !hex_no_dot, int_has_no by (done || apply codes_are_bytes)].
    rewrite !hex_to_from by apply codes_are_bytes. by rewrite !chars_of_codes, digits_value_string_of_int.
Qed.

Definition demo_session : Session := mkSession "new" "u2" (Some "t1"%string) org_admin 3000.

(** The token "new" of [demo_sessions] handed to another host, and the code used twice. *)
Lemma handoff_once_witness :
  exists db', handleSessionHandoff (H := toy_sealing) (H0 := d1_sessions (H := toy_crypto) demo_issued) demo_sessions "pepper" (Some "Lab.Example.org"%string) "x"
      (Some (sealHandoff (H := toy_sealing) "pepper" "new" "lab.example.org" (List.repeat 7 12) 1000)) (Some "/admin?tab=2"%string) true None [1; 2] 1060 1061 1062
    = Returns (db', mkRedirect "/admin?tab=2" ["__Host-labkiosk_session=0102; Path=/; Max-Age=1938; HttpOnly; SameSite=Lax; Secure"%string]) /\
  session_of (H := toy_crypto) db' "new" = None.
Proof.
  assert (Hb : Forall is_byte (List.repeat 7 12)) by (repeat constructor; unfold is_byte; lia).
  pose proof (proj1 (handoff_once (H := toy_sealing_lawful) (H1 := d1_sessions_lawful (H := toy_crypto) demo_issued toy_key_inj)
    "pepper" "lab.example.org" (List.repeat 7 12) 1000 demo_sessions demo_session (Some "Lab.Example.org"%string) "x"
    Hb eq_refl ltac:(lia) ltac:(unfold fits; vm_compute; lia) demo_sessions_ok eq_refl ltac:(done) ltac:(vm_compute; reflexivity))
    (Some "/admin?tab=2"%string) true None [1; 2] 1060 1061 1062 ltac:(vm_compute; reflexivity) ltac:(unfold HANDOFF_SECONDS; lia) ltac:(cbn; lia) ltac:(vm_compute; reflexivity)
    ltac:(repeat constructor; vm_compute; congruence)) as (db' & Hrun & _ & Hgone & _).
  exists db'. split; [|exact Hgone]. refine (eq_trans Hrun _). reflexivity.
Defined.

(** A session goes only to the platform's own hosts. When a sign-in sends
    the browser elsewhere with a code, the address is https, on the platform's
    domain or under it, and the code opens on that host alone; otherwise the
    cookie is set here, on the host that was asked. And the path a handoff
    continues to is always on the same host. *)
Theorem signInDestination_safe `{Sl : LawfulSealing} `{UrlParser} DEFAULT_DOMAIN here hh token redirect pepper iv now d :
  Forall is_byte iv -> length iv = 12%nat -> 0 <= now -> 
  (forall target, resolveURL redirect (url_protocol here +:+ "//" +:+ served_host hh (url_host here)) = Some target -> fits token (url_host target) (now + HANDOFF_SECONDS)) ->
  signInDestination DEFAULT_DOMAIN here hh token redirect pepper iv now = Returns d ->
  (if sd_cookieHere d then sd_redirect d = "/"%string \/
     exists target, resolveURL redirect (url_protocol here +:+ "//" +:+ served_host hh (url_host here)) = Some target /\
       sd_redirect d = redirect /\ toLowerCase (url_host target) = served_host hh (url_host here)
   else exists target code base, base = toLowerCase (strip_dot (default ""%string DEFAULT_DOMAIN)) /\ base <> ""%string /\
     (url_hostname target = base \/ exists label, url_hostname target = label +:+ "." +:+ base) /\
     sd_redirect d = "https://" +:+ url_host target +:+ HANDOFF_PATH +:+ "?code=" +:+ encodeURIComponent code
                       +:+ "&next=" +:+ encodeURIComponent (url_pathname target +:+ url_search target) /\
     forall host t, openHandoff pepper code host t = Returns (Some token) -> toLowerCase host = toLowerCase (url_host target)) /\
  (forall raw, exists rest, safeNext raw = "/" +:+ rest /\ startsWith rest "/" = false /\ startsWith rest "\" = false).
Proof.
  intros Hiv Hl Hn Hfit Hd. split.
  - unfold signInDestination in Hd. fold (served_host hh (url_host here)) in Hd.
    destruct (resolveURL _ _) as [target|]; [|injection Hd as <-; by left]. specialize (Hfit target eq_refl).
    destruct (String.eqb_spec (toLowerCase (url_host target)) (served_host hh (url_host here))) as [E|E]; [injection Hd as <-; right; by exists target|].
    destruct (String.eqb_spec (url_protocol target) "https:") as [Ep|]; [|done]. destruct (String.eqb_spec (toLowerCase (strip_dot (default "" DEFAULT_DOMAIN))) "") as [|Hne]; [done|].
    cbn [negb orb] in Hd. destruct (_ || _) eqn:Eh in Hd; [|done]. cbn [negb] in Hd. injection Hd as <-. cbn [sd_cookieHere sd_redirect].
    eexists target, _, _. split; [reflexivity|]. split; [done|]. split.
    { apply orb_prop in Eh as [Eh|Eh]; [left; by apply String.eqb_eq|right; by apply endsWith_iff]. }
    split; [by rewrite Ep|]. intros host t. rewrite openHandoff_sealed by done.
    destruct (String.eqb_spec (toLowerCase (url_host target)) (toLowerCase host)); [done|]. cbn. congruence.
  - intros raw. unfold safeNext. set (next := default ""%string raw). destruct (startsWith next "/") eqn:E1; [|by exists "admin"%string].
    destruct (startsWith next "//") eqn:E2; [by exists "admin"%string|]. destruct (startsWith next "/\") eqn:E3; [by exists "admin"%string|]. cbn [andb negb].
    apply startsWith_iff in E1 as [rest E]. rewrite E in *. by exists rest.
Qed.

Definition demo_here : URL := default (mkURL "" "" "" "" "" "" "" "" "" "") (toy_parse "https://labkiosk.org/").

Lemma signInDestination_safe_witness :
  signInDestination (H := toy_sealing) (H0 := toy_url) (Some "labkiosk.org"%string) demo_here None "tok" "https://oak.labkiosk.org/admin" "pepper" (List.repeat 7 12) 1000 =
    Returns (mkDestination ("https://oak.labkiosk.org/api/auth/handoff?code=" +:+ sealHandoff (H := toy_sealing) "pepper" "tok" "oak.labkiosk.org" (List.repeat 7 12) 1000 +:+ "&next=/admin") false) /\
  exists target code, url_host target = "oak.labkiosk.org"%string /\
    forall host t, openHandoff (H := toy_sealing) "pepper" code host t = Returns (Some "tok"%string) -> toLowerCase host = toLowerCase (url_host target).
Proof.
  set (d := mkDestination ("https://oak.labkiosk.org/api/auth/handoff?code=" +:+ sealHandoff (H := toy_sealing) "pepper" "tok" "oak.labkiosk.org" (List.repeat 7 12) 1000 +:+ "&next=/admin") false).
  assert (Hd : signInDestination (H := toy_sealing) (H0 := toy_url) (Some "labkiosk.org"%string) demo_here None "tok" "https://oak.labkiosk.org/admin" "pepper" (List.repeat 7 12) 1000 = Returns d)
    by (vm_compute; reflexivity).
  assert (Hb : Forall is_byte (List.repeat 7 12)) by (repeat constructor; unfold is_byte; lia).
  assert (Hfit : forall target, @resolveURL toy_url "https://oak.labkiosk.org/admin" (url_protocol demo_here +:+ "//" +:+ served_host None (url_host demo_here)) = Some target ->
    fits (S0 := toy_sealing) "tok" (url_host target) (1000 + HANDOFF_SECONDS)).
  { intros target E. vm_compute in E. injection E as <-. unfold fits. vm_compute. lia. }
  split; [exact Hd|].
  destruct (proj1 (signInDestination_safe (Sl := toy_sealing_lawful) (H := toy_url) (Some "labkiosk.org"%string) demo_here None "tok" "https://oak.labkiosk.org/admin" "pepper"
    (List.repeat 7 12) 1000 d Hb eq_refl ltac:(lia) Hfit Hd)) as (target & code & base & -> & _ & Hname & Hred & Hopen).
  exists (default demo_here (toy_parse "https://oak.labkiosk.org/admin")), (sealHandoff (H := toy_sealing) "pepper" "tok" "oak.labkiosk.org" (List.repeat 7 12) 1000).
  split; [reflexivity|]. intros host t Ho.
  rewrite (openHandoff_sealed (H := toy_sealing_lawful)) in Ho; [|exact Hb|reflexivity|lia|unfold fits; vm_compute; lia].
  destruct (String.eqb_spec (toLowerCase "oak.labkiosk.org") (toLowerCase host)) as [E|E]; [symmetry; exact E|cbn in Ho; congruence].
Defined.

(** Two requests with the same code that both read the session before either
    replaces it: both are given a session. *)
Example handoff_interleaved :
  let H := toy_sealing in let store := d1_sessions (H := toy_crypto) demo_issued in
  let code := Some (sealHandoff (H := H) "pepper" "new" "lab.example.org" (List.repeat 7 12) 1000) in
  match handoff_session (H := H) (H0 := store) demo_sessions "pepper" (Some "lab.example.org"%string) "x" code 1001 1001 with
  | Returns (db1, Some (t1, x1)) =>
      match handoff_session (H := H) (H0 := store) db1 "pepper" (Some "lab.example.org"%string) "x" code 1001 1001 with
      | Returns (db2, Some (t2, x2)) =>
          match handoff_swap (H0 := store) db2 t1 x1 None true None [1] 1002 with
          | Returns (db3, _) =>
              match handoff_swap (H0 := store) db3 t2 x2 None true None [2] 1002 with
              | Returns (db4, _) => bool_decide (is_Some (store_find (SessionStore := store) db4 "01")) && bool_decide (is_Some (store_find (SessionStore := store) db4 "02"))
              | _ => false
              end
          | _ => false
          end
      | _ => false
      end
  | _ => false
  end = true.
Proof. vm_compute. reflexivity. Qed.
