(* ===== verification/Billing.v ===== *)
(** src/cloudflare-control/src/billing.ts: payment links of Razorpay, the
    signatures that say one was paid, and the subscription a payment extends.

    What Razorpay answers is an argument ([Reply]). The state is the database,
    the table of payments and, for the routes of PlanRoutes.v, the table of
    education applications, the stored certificates, the audit log and the
    organizations whose hub was told. *)
From S2P Require Import Prelude JsString Regex Platform Db Guard Plans Calendar Auth Handoff.

Definition LINK_HOURS : Z := 24.

Inductive PaymentStatus : Type := pay_created | pay_paid.
#[export] Instance PaymentStatus_eq_dec : EqDecision PaymentStatus.
Proof. solve_decision. Defined.

Record Payment : Type := mkPayment {
  py_id : string;
  py_tenant_id : string;
  py_link_id : option string;
  py_short_url : option string;
  py_period : BillingPeriod;
  py_extra_workstations : Z;
  py_subtotal_paise : Z;
  py_gst_paise : Z;
  py_total_paise : Z;
  py_status : PaymentStatus;
  py_razorpay_payment_id : option string;
  py_created_by : option string;
  py_created_at : Z;
  py_paid_at : option Z;
  py_period_ends_at : option Z
}.

Inductive EducationStatus : Type := app_verifying | app_pending | app_approved | app_rejected.
#[export] Instance EducationStatus_eq_dec : EqDecision EducationStatus.
Proof. solve_decision. Defined.

Record EducationApplication : Type := mkApplication {
  ea_id : string;
  ea_tenant_id : string;
  ea_institution : string;
  ea_board : string;
  ea_affiliation_number : string;
  ea_website : string;
  ea_email : string;
  ea_code_hash : option string;
  ea_code_expires_at : option Z;
  ea_code_attempts : Z;
  ea_email_verified_at : option Z;
  ea_certificate_key : option string;
  ea_certificate_name : string;
  ea_certificate_type : string;
  ea_certificate_size : Z;
  ea_status : EducationStatus;
  ea_decision_reason : option string;
  ea_created_by : option string;
  ea_created_at : Z;
  ea_submitted_at : option Z;
  ea_decided_at : option Z;
  ea_decided_by : option string
}.

(** A stored certificate: its bytes and its type. *)
Record Certificate : Type := mkCertificate { cf_bytes : list Z; cf_type : string }.

Record PlanState : Type := mkPlanState {
  ps_db : D1Database;
  payments : list Payment;
  education_applications : list EducationApplication;
  certificates : list (string * Certificate);
  ps_audit : list AuditRow;
  ps_told : list string
}.

Definition on_ps_db (f : D1Database -> D1Database) (s : PlanState) : PlanState := mkPlanState (f (ps_db s)) (payments s) (education_applications s) (certificates s) (ps_audit s) (ps_told s).
Definition on_payments (f : list Payment -> list Payment) (s : PlanState) : PlanState := mkPlanState (ps_db s) (f (payments s)) (education_applications s) (certificates s) (ps_audit s) (ps_told s).
Definition on_applications (f : list EducationApplication -> list EducationApplication) (s : PlanState) : PlanState := mkPlanState (ps_db s) (payments s) (f (education_applications s)) (certificates s) (ps_audit s) (ps_told s).
Definition on_certificates (f : list (string * Certificate) -> list (string * Certificate)) (s : PlanState) : PlanState := mkPlanState (ps_db s) (payments s) (education_applications s) (f (certificates s)) (ps_audit s) (ps_told s).
Definition ps_audited (entry : AuditRow) (s : PlanState) : PlanState := mkPlanState (ps_db s) (payments s) (education_applications s) (certificates s) (ps_audit s ++ [entry]) (ps_told s).
Definition ps_notify (tenantId : string) (s : PlanState) : PlanState := mkPlanState (ps_db s) (payments s) (education_applications s) (certificates s) (ps_audit s) (ps_told s ++ [tenantId]).

(** ** The environment *)

Record BillingEnv : Type := mkBillingEnv {
  RAZORPAY_KEY_ID : string;
  RAZORPAY_KEY_SECRET : string;
  RAZORPAY_WEBHOOK_SECRET : string;
  RAZORPAY_RELAY_URL : string;
  RAZORPAY_RELAY_SECRET : string
}.

Definition billingEnabled (env : BillingEnv) : bool := negb (String.eqb (RAZORPAY_KEY_ID env) "") && negb (String.eqb (RAZORPAY_KEY_SECRET env) "").

Fixpoint strip_slashes (s : string) : string :=
  match s with
  | ""%string => ""%string
  | String c t => match strip_slashes t with ""%string => if is_char "/" c then ""%string else String c "" | t' => String c t' end
  end.

(** An https address: a host, and a path with no query. *)
Definition RELAY_URL : re :=
  let plain := fun c => negb (is_char "?" c) && negb (is_char "#" c) in
  RCat (RLit "https://") (RCat (RPlus (RClass (fun c => plain c && negb (is_char "/" c)))) (ROpt (RCat (RChar "/") (RStar (RClass plain))))).

Inductive Route : Type := Direct | RelayedBy (url secret : string).

Definition razorpayRoute (env : BillingEnv) : js_result Route :=
  let url := strip_slashes (trim (RAZORPAY_RELAY_URL env)) in
  let secret := trim (RAZORPAY_RELAY_SECRET env) in
  if String.eqb url "" && String.eqb secret "" then Returns Direct
  else if String.eqb url "" || String.eqb secret "" then Throws "Set both RAZORPAY_RELAY_URL and RAZORPAY_RELAY_SECRET, or neither"
  else if negb (re_test RELAY_URL url) then Throws "RAZORPAY_RELAY_URL must be an https address with no query"
  else if (String.length secret <? 32)%nat then Throws "RAZORPAY_RELAY_SECRET must be at least 32 characters"
  else Returns (RelayedBy url secret).

(** ** Signatures *)

(** [TextEncoder]: characters past 127 take two bytes. *)
Fixpoint utf8 (s : string) : list Z :=
  match s with
  | ""%string => []
  | String c t => (if code c <? 128 then [code c] else [192 + code c / 64; 128 + code c mod 64]) ++ utf8 t
  end.

Section Signatures.
Context `{WebCrypto}.

Definition hmacHex (secret message : string) : string := bufferToHex (hmacSha256 secret (utf8 message)).

(** What the redirect back carries. *)
Record ReturnRef : Type := mkReturn { rr_linkId : string; rr_referenceId : string; rr_status : string; rr_paymentId : string; rr_signature : string }.

Definition return_message (p : ReturnRef) : string := rr_linkId p +:+ "|" +:+ rr_referenceId p +:+ "|" +:+ rr_status p +:+ "|" +:+ rr_paymentId p.

Definition verifyReturnSignature (secret : string) (p : ReturnRef) : bool :=
  if String.eqb (rr_signature p) "" then false else timingSafeEqual (hmacHex secret (return_message p)) (toLowerCase (rr_signature p)).

Definition verifyWebhookSignature (secret body signature : string) : bool :=
  if String.eqb signature "" then false else timingSafeEqual (hmacHex secret body) (toLowerCase signature).
End Signatures.

(** ** Periods and amounts *)

Definition SECONDS_PER_DAY : Z := 86400.

(** One month or one year later at the same time of day: the same day of the
    month, or the last where the month has no such day. *)
Definition periodEnd (from : Z) (period : BillingPeriod) : Z :=
  let d := civil (from / SECONDS_PER_DAY) in
  let months := match period with month => 1 | year => 12 end in
  let total := c_year d * 12 + (c_month d - 1) + months in
  let y := total / 12 in
  let m := total mod 12 + 1 in
  let lastDay := month_length (InLeapYear y) m in
  MakeDay (mkCivil y m (Z.min (c_date d) lastDay)) * SECONDS_PER_DAY + from mod SECONDS_PER_DAY.

Definition licenseDate (seconds : Z) : string := date_text (civil (seconds / SECONDS_PER_DAY)).

(** [toLocaleString("en-IN")]: the last three digits, then pairs. *)
Fixpoint pair_groups (digits : nat) (s : string) : string :=
  match s with
  | ""%string => ""%string
  | String c t => String c (match t with ""%string => "" | _ => if (Nat.even digits && (4 <=? digits)%nat)%bool then "," +:+ pair_groups (pred digits) t else pair_groups (pred digits) t end)
  end.
Definition en_IN (n : Z) : string := let s := string_of_int n in pair_groups (String.length s) s.

(** The sign of the rupee, U+20B9, is no character of the model's strings: it is
    an argument. *)
Definition rupees (sign : string) (paise : Z) : string :=
  let rest := paise mod 100 in
  sign +:+ en_IN (paise / 100) +:+ (if rest =? 0 then "" else "." +:+ two rest).

Example en_IN_examples : List.map en_IN [0; 999; 1000; 99999; 100000; 12345678] = ["0"; "999"; "1,000"; "99,999"; "1,00,000"; "1,23,45,678"]%string.
Proof. reflexivity. Qed.

(** ** Payment links *)

(** What a call to Razorpay gives: nothing, or a status, a body where it is
    JSON, and the headers [server] and [cf-ray]. *)
Inductive Reply : Type :=
| Unreachable
| Answered (status : Z) (body : option jsval) (server ray : option string).

Definition NEVER_REACHED_ORIGIN : list Z := [522; 525; 526].

(** A request that did not reach Razorpay is sent once more. *)
Definition fetchRazorpay (first second : Reply) : Reply :=
  match first with
  | Answered status _ _ _ => if bool_decide (status ∈ NEVER_REACHED_ORIGIN) then second else first
  | Unreachable => Unreachable
  end.

Definition describeHttpFailure (status : Z) (server ray : option string) : string :=
  let details := List.filter (fun s => negb (String.eqb s "")) [from_option (fun s => "server " +:+ s) ""%string (server ≫= nonempty); from_option (fun r => "ray " +:+ r) ""%string (ray ≫= nonempty)] in
  "HTTP " +:+ string_of_int status +:+ match details with [] => ""%string | _ => " (" +:+ join ", " details +:+ ")" end.

Definition findPayment (s : PlanState) (id : string) : option Payment := js_find (fun p => String.eqb (py_id p) id) (payments s).

Definition listPayments (s : PlanState) (tenantId : string) : list Payment :=
  take 50 (js_sort (fun a b => default 0 (py_paid_at b) - default 0 (py_paid_at a))
             (rev (List.filter (fun p => String.eqb (py_tenant_id p) tenantId && bool_decide (py_status p = pay_paid)) (payments s)))).

(** The statements. *)
Definition insert_payment (row : Payment) (s : PlanState) : js_result PlanState :=
  if existsb (fun p => String.eqb (py_id p) (py_id row)) (payments s) then Throws "UNIQUE constraint failed: payments.id" else Returns (on_payments (fun l => l ++ [row]) s).
Definition delete_created (id : string) : PlanState -> PlanState :=
  on_payments (List.filter (fun p => negb (String.eqb (py_id p) id && bool_decide (py_status p = pay_created)))).

Definition with_link (linkId shortUrl : string) (p : Payment) : Payment :=
  mkPayment (py_id p) (py_tenant_id p) (Some linkId) (Some shortUrl) (py_period p) (py_extra_workstations p) (py_subtotal_paise p) (py_gst_paise p) (py_total_paise p) (py_status p)
    (py_razorpay_payment_id p) (py_created_by p) (py_created_at p) (py_paid_at p) (py_period_ends_at p).
Definition set_link (id linkId shortUrl : string) (s : PlanState) : js_result PlanState :=
  if existsb (fun p => negb (String.eqb (py_id p) id) && bool_decide (py_link_id p = Some linkId)) (payments s) then Throws "UNIQUE constraint failed: payments.link_id"
  else Returns (on_payments (List.map (fun p => if String.eqb (py_id p) id then with_link linkId shortUrl p else p)) s).

Record LinkInput : Type := mkLinkInput {
  li_tenantId : string;
  li_organization : string;
  li_userId : string;
  li_email : string;
  li_name : string;
  li_quote : Quote;
  li_callbackUrl : string;
  li_nowSeconds : Z
}.

Definition new_payment (id : string) (input : LinkInput) : Payment :=
  let q := li_quote input in
  mkPayment id (li_tenantId input) None None (q_period q) (q_extraWorkstations q) (q_subtotal q) (q_gst q) (q_total q) pay_created None (Some (li_userId input)) (li_nowSeconds input) None None.

(** What is asked of Razorpay: the body, and the request that carries it,
    straight or through the relay, which is signed. [stringify] is
    [JSON.stringify]. *)
Record HttpRequest : Type := mkHttpRequest { hq_url : string; hq_method : string; hq_headers : list (string * string); hq_body : string }.

Definition payment_body (id : string) (input : LinkInput) : jsval :=
  let q := li_quote input in
  let description := str_take 2048 ("Lab Kiosk subscription, " +:+ (match q_period q with month => "1 month" | year => "1 year" end) +:+ ", " +:+ string_of_int (q_workstations q)
    +:+ " workstations, for " +:+ li_organization input) in
  JsObj
   [("amount", JsInt (q_total q)); ("currency", JsStr "INR"); ("reference_id", JsStr id); ("description", JsStr description);
    ("customer", JsObj [("name", JsStr (str_take 100 (li_name input))); ("email", JsStr (li_email input))]);
    ("notify", JsObj [("sms", JsBool false); ("email", JsBool false)]); ("reminder_enable", JsBool false); ("expire_by", JsInt (li_nowSeconds input + LINK_HOURS * 3600));
    ("callback_url", JsStr (li_callbackUrl input)); ("callback_method", JsStr "get");
    ("notes", JsObj [("tenant_id", JsStr (li_tenantId input)); ("period", JsStr (match q_period q with month => "month" | year => "year" end));
                     ("workstations", JsStr (string_of_int (q_workstations q)))])]%string.

Section Requests.
Context `{WebCrypto}.
Variable stringify : jsval -> string.

Definition RAZORPAY_ORIGIN : string := "https://api.razorpay.com".
Definition LF : string := String (chr 10) "".
Definition relay_message (timestamp method path body : string) : string := timestamp +:+ LF +:+ method +:+ LF +:+ path +:+ LF +:+ body.

Definition sendToRazorpay (env : BillingEnv) (path method : string) (headers : list (string * string)) (body : string) (now : Z) : js_result HttpRequest :=
  route ← razorpayRoute env;
  match route with
  | Direct => Returns (mkHttpRequest (RAZORPAY_ORIGIN +:+ path) method headers body)
  | RelayedBy url secret =>
      let timestamp := string_of_int now in
      Returns (mkHttpRequest (url +:+ path) method (headers ++ [("X-Relay-Timestamp", timestamp); ("X-Relay-Signature", hmacHex secret (relay_message timestamp method path body))]%string) body)
  end.

Definition PAYMENT_LINKS : string := "/v1/payment_links".
Definition link_request (env : BillingEnv) (id : string) (input : LinkInput) (now : Z) : js_result HttpRequest :=
  sendToRazorpay env PAYMENT_LINKS "POST"
    [("Authorization", "Basic " +:+ btoa (List.map code (String.list_ascii_of_string (RAZORPAY_KEY_ID env +:+ ":" +:+ RAZORPAY_KEY_SECRET env)))); ("Content-Type", "application/json")]%string
    (stringify (payment_body id input)) now.
End Requests.

(** The identifier is [lk] and a UUID without its dashes, an argument. *)
Definition createPaymentLink (env : BillingEnv) (id : string) (input : LinkInput) (first second : Reply) (s : PlanState) : PlanState * js_result Payment :=
  if negb (billingEnabled env) then (s, Throws "Online payment is not set up")
  else
    match razorpayRoute env with
    | Throws e => (s, Throws e)
    | Returns _ =>
        match insert_payment (new_payment id input) s with
        | Throws e => (s, Throws e)
        | Returns s1 =>
            match fetchRazorpay first second with
            | Unreachable => (delete_created id s1, Throws "Razorpay could not be reached. Try again in a few minutes.")
            | Answered status body server ray =>
                let data := default (JsObj []) body in
                let ok := (200 <=? status) && (status <=? 299) in
                if is_nullish data then
                  (if ok then s1 else delete_created id s1, Throws ("Cannot read properties of null (reading '" +:+ (if ok then "id" else "error") +:+ "')"))
                else
                match (if ok then Some tt else None), js_get data "id", js_get data "short_url" with
                | Some _, JsStr linkId, JsStr shortUrl =>
                    match set_link id linkId shortUrl s1 with
                    | Throws e => (s1, Throws e)
                    | Returns s2 => (s2, match findPayment s2 id with Some p => Returns p | None => Throws "not found" end)
                    end
                | _, _, _ =>
                    let why := match js_get (js_get data "error") "description" with JsStr d => d | _ => describeHttpFailure status server ray end in
                    (delete_created id s1, Throws ("Razorpay did not create the payment link: " +:+ why))
                end
            end
        end
    end.

(** ** A payment *)

Record PaidRef : Type := mkPaid { pr_referenceId : string; pr_linkId : string; pr_paymentId : string }.

Definition with_paid (paymentId : string) (now : Z) (p : Payment) : Payment :=
  mkPayment (py_id p) (py_tenant_id p) (py_link_id p) (py_short_url p) (py_period p) (py_extra_workstations p) (py_subtotal_paise p) (py_gst_paise p) (py_total_paise p) pay_paid
    (Some paymentId) (py_created_by p) (py_created_at p) (Some now) (py_period_ends_at p).
Definition with_end (ends : Z) (p : Payment) : Payment :=
  mkPayment (py_id p) (py_tenant_id p) (py_link_id p) (py_short_url p) (py_period p) (py_extra_workstations p) (py_subtotal_paise p) (py_gst_paise p) (py_total_paise p) (py_status p)
    (py_razorpay_payment_id p) (py_created_by p) (py_created_at p) (py_paid_at p) (Some ends).

Definition claims (id : string) (p : Payment) : bool := String.eqb (py_id p) id && bool_decide (py_status p = pay_created).

(** The statement that marks the row, and whether it changed one. *)
Definition claim (ref : PaidRef) (id : string) (now : Z) (s : PlanState) : PlanState * bool :=
  (on_payments (List.map (fun p => if claims id p then with_paid (str_take 64 (pr_paymentId ref)) now p else p)) s, existsb (claims id) (payments s)).

Definition set_license (plan : LicensePlan) (ends limit : Z) (trial : option Z) (now : Z) (t : Tenant) : Tenant :=
  mkTenant (t_id t) (t_user_id t) (t_name t) (t_subdomain t) (t_chosen_subdomain t) (t_status t) (t_mode t) (t_default_url t) (t_custom_domain t) (t_broadcast_url t)
    (t_broadcast_epoch t) (t_home_route t) (t_online_workstations t) (t_http_workstations t) (t_update_channel t) (t_lan_sharing t) (t_usage_sites t) (t_printing_enabled t)
    (t_home_reset t) limit (Some plan) (Some ends) trial now.

(** [updateTenant(db, id, { license_plan, license_expires_at, workstation_limit })],
    and [trial_started_at] where given. *)
Definition updateLicense (id : string) (plan : LicensePlan) (ends limit : Z) (trial : option Z) (now : Z) : D1Database -> D1Database :=
  on_tenants (List.map (fun t => if String.eqb (t_id t) id then set_license plan ends limit (match trial with Some x => Some x | None => t_trial_started_at t end) now t else t)).

(** When the period a payment of [now] pays for starts. *)
Definition paid_from (tenant : Tenant) (now : Z) : Z :=
  let plan := entitlement tenant now in
  if bool_decide (en_kind plan = pk_subscription) then match en_expiresAt plan with Some e => if now <? e then e else now | None => now end else now.

Definition set_end (id : string) (ends : Z) : PlanState -> PlanState := on_payments (List.map (fun p => if String.eqb (py_id p) id then with_end ends p else p)).

(** What follows the claim, for the organization read after it. *)
Definition extend (payment : Payment) (tenant : Tenant) (now : Z) (s : PlanState) : PlanState :=
  let ends := periodEnd (paid_from tenant now) (py_period payment) in
  set_end (py_id payment) ends (on_ps_db (updateLicense (t_id tenant) subscriber ends (P_includedWorkstations + py_extra_workstations payment) None now) s).

Definition recordPayment (ref : PaidRef) (now : Z) (s : PlanState) : PlanState * option Payment :=
  match findPayment s (pr_referenceId ref) with
  | None => (s, None)
  | Some payment =>
      if negb (bool_decide (py_link_id payment = Some (pr_linkId ref))) then (s, None)
      else
        let '(s1, changed) := claim ref (py_id payment) now s in
        if negb changed then (s1, None)
        else
          match findTenantById (ps_db s1) (py_tenant_id payment) with
          | None => (s1, None)
          | Some tenant => let s2 := extend payment tenant now s1 in (s2, findPayment s2 (py_id payment))
          end
  end.

(** The parts of a [payment_link.paid] event. *)
Definition paidLinkFromWebhook (body : jsval) : option PaidRef :=
  if negb (is_object body) then None
  else
    match js_get body "event" with
    | JsStr event =>
        if negb (String.eqb event "payment_link.paid") then None
        else
          let link := js_get (js_get (js_get body "payload") "payment_link") "entity" in
          let payment := js_get (js_get (js_get body "payload") "payment") "entity" in
          match js_get link "id", js_get link "reference_id", js_get link "status" with
          | JsStr id, JsStr reference, JsStr status =>
              if String.eqb status "paid" then Some (mkPaid reference id (match js_get payment "id" with JsStr p => p | _ => ""%string end)) else None
          | _, _, _ => None
          end
    | _ => None
    end.

(** ** The end of a period *)

Lemma month_start_leap m : 0 <= m <= 12 -> month_start true m = month_start false m + (if 2 <=? m then 1 else 0).
Proof. intros Hm. pose proof (Z_interval_forall (fun i => month_start true i =? month_start false i + (if 2 <=? i then 1 else 0)) 13 eq_refl m ltac:(lia)) as Hc. cbv beta in Hc. destruct (2 <=? m); lia. Qed.

(** The first day of a month, months counted from the year 0. *)
Definition first_of (months : Z) : Z := MakeDay (mkCivil (months / 12) (months mod 12 + 1) 1).
Definition length_of (months : Z) : Z := month_length (InLeapYear (months / 12)) (months mod 12 + 1).

Lemma first_of_next n : first_of (n + 1) = first_of n + length_of n.
Proof.
  unfold first_of, length_of, MakeDay, month_length. cbn [c_year c_month c_date]. rewrite !Z.add_simpl_r. pose proof (Z.mod_pos_bound n 12 ltac:(lia)) as Hb. destruct (Z.eq_dec (n mod 12) 11) as [E|E].
  - replace ((n + 1) / 12) with (n / 12 + 1) by (Z.div_mod_to_equations; lia). replace ((n + 1) mod 12) with 0 by (Z.div_mod_to_equations; lia). rewrite E, leap_length. change (11 + 1) with 12. rewrite year_end. change (month_start _ 0) with 0. lia.
  - replace ((n + 1) / 12) with (n / 12) by (Z.div_mod_to_equations; lia). replace ((n + 1) mod 12) with (n mod 12 + 1) by (Z.div_mod_to_equations; lia). lia.
Qed.

Lemma length_of_bounds n : 28 <= length_of n <= 31.
Proof. apply month_length_bounds. pose proof (Z.mod_pos_bound n 12 ltac:(lia)). lia. Qed.

(** Twelve months are a year, or a day more across the end of a February. *)
Lemma first_of_year n : first_of n + 365 <= first_of (n + 12) <= first_of n + 366 /\ length_of (n + 12) <= length_of n + 1 /\ (length_of n <= length_of (n + 12) + 1) /\
  (length_of (n + 12) < length_of n -> first_of (n + 12) = first_of n + 366).
Proof.
  unfold first_of, length_of, MakeDay, month_length. cbn [c_year c_month c_date]. rewrite !Z.add_simpl_r. replace ((n + 12) / 12) with (n / 12 + 1) by (Z.div_mod_to_equations; lia).
  replace ((n + 12) mod 12) with (n mod 12) by (Z.div_mod_to_equations; lia). pose proof (Z.mod_pos_bound n 12 ltac:(lia)) as Hb. rewrite leap_length.
  pose proof (month_start_leap (n mod 12) ltac:(lia)) as H0. pose proof (month_start_leap (n mod 12 + 1) ltac:(lia)) as H1. destruct (Z.leb_spec 2 (n mod 12)), (Z.leb_spec 2 (n mod 12 + 1)); destruct (InLeapYear (n / 12)), (InLeapYear (n / 12 + 1)); lia.
Qed.

(** The months a period adds, and the day it ends on. *)
Definition months_of (day : Z) : Z := c_year (civil day) * 12 + (c_month (civil day) - 1).
Definition period_months (period : BillingPeriod) : Z := match period with month => 1 | year => 12 end.

Lemma day_in_month day : day = first_of (months_of day) + c_date (civil day) - 1 /\ 1 <= c_date (civil day) <= length_of (months_of day).
Proof.
  destruct (civil_valid day) as [Hm Hd]. unfold first_of, length_of, months_of. replace ((c_year (civil day) * 12 + (c_month (civil day) - 1)) / 12) with (c_year (civil day)) by (Z.div_mod_to_equations; lia).
  replace ((c_year (civil day) * 12 + (c_month (civil day) - 1)) mod 12 + 1) with (c_month (civil day)) by (Z.div_mod_to_equations; lia). split; [|done]. pose proof (MakeDay_civil day) as H. unfold MakeDay in *. cbn [c_year c_month c_date]. lia.
Qed.

Lemma periodEnd_day from period : let day := from / SECONDS_PER_DAY in let n := months_of day + period_months period in
  periodEnd from period / SECONDS_PER_DAY = first_of n + Z.min (c_date (civil day)) (length_of n) - 1 /\ periodEnd from period mod SECONDS_PER_DAY = from mod SECONDS_PER_DAY.
Proof.
  cbv zeta. unfold periodEnd. cbv zeta. pose proof (Z.mod_pos_bound from SECONDS_PER_DAY ltac:(done)) as Hb. change (match period with month => 1 | year => 12 end) with (period_months period).
  fold (months_of (from / SECONDS_PER_DAY)). set (n := months_of (from / SECONDS_PER_DAY) + period_months period). fold (length_of n). rewrite Z.div_add_l by done. rewrite (Z.div_small _ _ Hb). split.
  - unfold first_of, MakeDay. cbn [c_year c_month c_date]. lia.
  - rewrite Z.add_comm, Z.mod_add by done. by apply Z.mod_small.
Qed.

Lemma periodEnd_bounds from period : from + 28 * SECONDS_PER_DAY <= periodEnd from period <= from + (match period with month => 31 | year => 366 end) * SECONDS_PER_DAY.
Proof.
  pose proof (periodEnd_day from period) as [Hd Hm]. pose proof (day_in_month (from / SECONDS_PER_DAY)) as [Hday Hin]. set (day := from / SECONDS_PER_DAY) in *. set (n := months_of day) in *.
  pose proof (length_of_bounds n). pose proof (length_of_bounds (n + period_months period)). pose proof (first_of_next n). pose proof (first_of_year n) as (? & ? & ? & Hshort).
  pose proof (Z.div_mod from SECONDS_PER_DAY ltac:(done)) as Hf. pose proof (Z.div_mod (periodEnd from period) SECONDS_PER_DAY ltac:(done)) as He. fold day in Hf. rewrite Hd, Hm in He. clearbody day.
  assert (28 <= first_of (n + period_months period) + Z.min (c_date (civil day)) (length_of (n + period_months period)) - 1 - day <= match period with month => 31 | year => 366 end).
  { destruct period; cbn [period_months] in *; lia. }
  set (later := first_of _ + _ - 1) in *. clearbody later. unfold SECONDS_PER_DAY in *. destruct period; lia.
Qed.

(** ** A payment extends a plan once *)

Definition ids (s : PlanState) : list string := List.map py_id (payments s).
Definition is_paid (s : PlanState) (id : string) : Prop := exists p, p ∈ payments s /\ py_id p = id /\ py_status p = pay_paid.

Lemma updateLicense_find db id plan ends limit now t' :
  findTenantById (updateLicense id plan ends limit None now db) t' = (fun x => if String.eqb (t_id x) id then set_license plan ends limit (t_trial_started_at x) now x else x) <$> findTenantById db t'.
Proof.
  unfold findTenantById, updateLicense. cbn [tenants on_tenants]. rewrite js_find_map; [done|]. intros x. by destruct (String.eqb (t_id x) id).
Qed.

Lemma claim_spec ref id now s : let '(s', changed) := claim ref id now s in
  ps_db s' = ps_db s /\ ids s' = ids s /\ (changed = true <-> exists p, p ∈ payments s /\ py_id p = id /\ py_status p = pay_created) /\
  (changed = true -> is_paid s' id) /\ (forall x, is_paid s x -> is_paid s' x).
Proof.
  unfold claim, ids, is_paid. cbn [on_payments payments ps_db]. set (f := fun p => if claims id p then with_paid (str_take 64 (pr_paymentId ref)) now p else p).
  assert (Hc : forall p, claims id p = true <-> py_id p = id /\ py_status p = pay_created) by (intros p; unfold claims; by rewrite andb_true_iff, String.eqb_eq, bool_decide_eq_true).
  assert (Hid : forall p, py_id (f p) = py_id p) by (intros p; unfold f; by destruct (claims id p)). split_and!; [done| | | |].
  - rewrite List.map_map. by apply List.map_ext.
  - rewrite existsb_elem. split; intros (p & Hp & H); exists p; split; [done|by apply Hc|done|by apply Hc].
  - intros (p & Hp & H)%existsb_elem. exists (f p). split; [by apply list_elem_of_fmap_2|]. rewrite Hid. unfold f. rewrite H. apply Hc in H. by destruct H.
  - intros x (p & Hp & <- & Hs). exists (f p). split; [by apply list_elem_of_fmap_2|]. split; [apply Hid|]. unfold f. destruct (claims id p) eqn:E; [|done]. by apply Hc in E as [_ E].
Qed.

Lemma extend_spec payment tenant now s : let s' := extend payment tenant now s in
  ids s' = ids s /\ (forall x, is_paid s x -> is_paid s' x) /\
  payments s' = List.map (fun p => if String.eqb (py_id p) (py_id payment) then with_end (periodEnd (paid_from tenant now) (py_period payment)) p else p) (payments s).
Proof.
  unfold extend, set_end, ids, is_paid. cbn [on_payments payments on_ps_db]. split_and!; [| |done].
  - rewrite List.map_map. apply List.map_ext. intros p. by destruct (String.eqb _ _).
  - intros x (p & Hp & <- & Hs). eexists. split; [apply list_elem_of_fmap_2; exact Hp|]. by destruct (String.eqb _ _).
Qed.

(** A request that records a payment, between its statements: before it reads
    the payment, before it claims it, before it reads the organization, before
    it writes the plan, and done. *)
Inductive Recording : Type :=
| Reading (ref : PaidRef) (now : Z)
| Claiming (payment : Payment) (ref : PaidRef) (now : Z)
| Claimed (payment : Payment) (now : Z)
| Extending (payment : Payment) (tenant : Tenant) (now : Z)
| Recorded.

(** The payment a request claimed and has not yet extended a plan for. *)
Definition holding (r : Recording) : list string :=
  match r with Claimed p _ => [py_id p] | Extending p _ _ => [py_id p] | _ => [] end.

(** The state, the requests under way, and the payments that extended a plan. *)
Record Counter : Type := mkCounter { k_state : PlanState; k_requests : list Recording; k_extended : list string }.

Definition step_of (r : Recording) (s : PlanState) : PlanState * Recording * list string :=
  match r with
  | Reading ref now =>
      match findPayment s (pr_referenceId ref) with
      | Some payment => if bool_decide (py_link_id payment = Some (pr_linkId ref)) then (s, Claiming payment ref now, []) else (s, Recorded, [])
      | None => (s, Recorded, [])
      end
  | Claiming payment ref now => let '(s1, changed) := claim ref (py_id payment) now s in (s1, if changed then Claimed payment now else Recorded, [])
  | Claimed payment now => (s, match findTenantById (ps_db s) (py_tenant_id payment) with Some tenant => Extending payment tenant now | None => Recorded end, [])
  | Extending payment tenant now => (extend payment tenant now s, Recorded, [py_id payment])
  | Recorded => (s, Recorded, [])
  end.

(** A request arrives; a request under way takes its next step; or another
    request runs a statement of [createPaymentLink], or changes another table. *)
Inductive counter_step (k : Counter) : Counter -> Prop :=
| k_arrives ref now : counter_step k (mkCounter (k_state k) (k_requests k ++ [Reading ref now]) (k_extended k))
| k_moves before r after s' r' extended : k_requests k = before ++ r :: after -> step_of r (k_state k) = (s', r', extended) ->
    counter_step k (mkCounter s' (before ++ r' :: after) (k_extended k ++ extended))
| k_inserts row s' : py_status row = pay_created -> insert_payment row (k_state k) = Returns s' -> counter_step k (mkCounter s' (k_requests k) (k_extended k))
| k_deletes id : counter_step k (mkCounter (delete_created id (k_state k)) (k_requests k) (k_extended k))
| k_links id linkId shortUrl s' : set_link id linkId shortUrl (k_state k) = Returns s' -> counter_step k (mkCounter s' (k_requests k) (k_extended k))
| k_elsewhere s' : payments s' = payments (k_state k) -> counter_step k (mkCounter s' (k_requests k) (k_extended k)).

Inductive counter_run : Counter -> Prop :=
| k_start s : payments s = [] -> counter_run (mkCounter s [] [])
| k_next k k' : counter_run k -> counter_step k k' -> counter_run k'.

Definition held (k : Counter) : list string := k_extended k ++ List.concat (List.map holding (k_requests k)).

(** What every run keeps: a payment's identifier is one row's, a payment claimed
    is held by one request or was extended for, and it is paid. *)
Record counter_inv (k : Counter) : Prop := {
  ci_ids : NoDup (ids (k_state k));
  ci_held : NoDup (held k);
  ci_paid : forall id, id ∈ held k -> is_paid (k_state k) id
}.

Lemma is_paid_fresh s id : NoDup (ids s) -> (exists p, p ∈ payments s /\ py_id p = id /\ py_status p = pay_created) -> ~ is_paid s id.
Proof.
  intros Hn (p & Hp & <- & Hs) (q & Hq & E & Hs'). assert (q = p) as -> by (by eapply (map_NoDup_inj py_id)). congruence.
Qed.

Lemma counter_inv_same k s' requests : counter_inv k -> ids s' = ids (k_state k) -> (forall id, is_paid (k_state k) id -> is_paid s' id) ->
  List.concat (List.map holding requests) = List.concat (List.map holding (k_requests k)) -> counter_inv (mkCounter s' requests (k_extended k)).
Proof.
  intros [Hi Hh Hp] Hids Hpaid Hreq. constructor; unfold held in *; cbn [k_state k_requests k_extended]; rewrite ?Hids, ?Hreq; [done|done|]. intros id Hid. by apply Hpaid, Hp.
Qed.

Lemma submseteq_NoDup' {A} (l k : list A) : l ⊆+ k -> NoDup k -> NoDup l.
Proof. intros [k' Hk]%submseteq_Permutation Hn. rewrite Hk in Hn. by apply list.NoDup_app in Hn as [? _]. Qed.

(** The identifiers held change by none, or by one that was not paid. *)
Lemma counter_inv_change k s' requests extended new : counter_inv k -> NoDup (ids s') -> (forall id, is_paid (k_state k) id -> is_paid s' id) ->
  NoDup new -> (forall id, id ∈ new -> ~ is_paid (k_state k) id /\ is_paid s' id) -> held (mkCounter s' requests extended) ⊆+ new ++ held k -> counter_inv (mkCounter s' requests extended).
Proof.
  intros [Hi Hh Hp] Hids Hmono Hnew Hfresh Hsub. constructor; [done| |].
  - eapply submseteq_NoDup'; [exact Hsub|]. apply list.NoDup_app. split_and!; [done| |done]. intros id Hid Hin. by apply (proj1 (Hfresh id Hid)), Hp.
  - intros id Hid. pose proof (elem_of_submseteq _ _ _ Hid Hsub) as Hin. apply elem_of_app in Hin as [Hin|Hin]; [by apply Hfresh|]. by apply Hmono, Hp.
Qed.

Lemma held_moves k before r after s' r' extended : k_requests k = before ++ r :: after -> extended ++ holding r' ⊆+ holding r ->
  held (mkCounter s' (before ++ r' :: after) (k_extended k ++ extended)) ⊆+ held k.
Proof.
  intros Hr Hsub. unfold held. cbn [k_requests k_extended]. rewrite Hr, !List.map_app, !List.concat_app. cbn [List.map List.concat].
  set (a := List.concat (List.map holding before)). set (b := List.concat (List.map holding after)).
  trans (k_extended k ++ a ++ (extended ++ holding r') ++ b); [|by apply submseteq_skips_l, submseteq_skips_l, submseteq_skips_r]. apply Permutation_submseteq. rewrite <- !app_assoc. f_equiv. rewrite (Permutation_app_swap_app extended). done.
Qed.

Lemma step_of_inv k before r after s' r' extended : counter_inv k -> k_requests k = before ++ r :: after -> step_of r (k_state k) = (s', r', extended) ->
  counter_inv (mkCounter s' (before ++ r' :: after) (k_extended k ++ extended)).
Proof.
  intros Hk Hr Hstep. assert (Hquiet : forall s'' r'' e, ids s'' = ids (k_state k) -> (forall id, is_paid (k_state k) id -> is_paid s'' id) -> e ++ holding r'' ⊆+ holding r ->
    counter_inv (mkCounter s'' (before ++ r'' :: after) (k_extended k ++ e))).
  { intros s'' r'' e Hids Hmono Hsub. apply (counter_inv_change k _ _ _ []); [done|rewrite Hids; apply Hk|done|constructor|by intros id ?%elem_of_nil|]. cbn [app]. by eapply held_moves. }
  destruct r as [ref now|payment ref now|payment now|payment tenant now|]; cbn [step_of holding] in *.
  - destruct (findPayment _ _) as [p|]; [case_bool_decide|]; injection Hstep as <- <- <-; by apply Hquiet.
  - pose proof (claim_spec ref (py_id payment) now (k_state k)) as Hc. destruct (claim ref (py_id payment) now (k_state k)) as [s1 changed]. destruct Hc as (_ & Hids & Hch & Hpaid & Hmono).
    destruct changed; injection Hstep as <- <- <-; [|by apply Hquiet]. apply (counter_inv_change k _ _ _ [py_id payment]); [done|rewrite Hids; apply Hk|done|apply NoDup_singleton| |].
    + intros id ->%list_elem_of_singleton. split; [|by apply Hpaid]. apply is_paid_fresh; [apply Hk|by apply Hch].
    + unfold held. cbn [k_requests k_extended]. rewrite Hr, app_nil_r, !List.map_app, !List.concat_app. cbn [List.map List.concat holding app].
      apply Permutation_submseteq. rewrite <- Permutation_middle. by rewrite <- Permutation_middle.
  - injection Hstep as <- <- <-. apply Hquiet; [done..|]. destruct (findTenantById _ _); cbn; [done|apply submseteq_nil_l].
  - injection Hstep as <- <- <-. destruct (extend_spec payment tenant now (k_state k)) as (Hids & Hmono & _). by apply Hquiet.
  - injection Hstep as <- <- <-. by apply Hquiet.
Qed.

Lemma counter_step_inv k k' : counter_inv k -> counter_step k k' -> counter_inv k'.
Proof.
  intros Hk Hs. pose proof (counter_inv_change k) as Hchange. destruct Hs as [ref now|before r after s' r' extended Hr Hstep|row s' Hrow Hins|id|id linkId shortUrl s' Hset|s' Hpay].
  - apply counter_inv_same; [done..|]. rewrite List.map_app, List.concat_app. cbn. by rewrite !app_nil_r.
  - by eapply step_of_inv.
  - unfold insert_payment in Hins. destruct (existsb _ _) eqn:E; [done|]. injection Hins as <-. apply (Hchange _ _ _ []); [done| | |constructor|by intros id ?%elem_of_nil|done].
    + unfold ids. cbn [on_payments payments]. rewrite List.map_app. apply list.NoDup_app. split_and!; [apply Hk| |apply NoDup_singleton]. intros id (p & -> & Hp)%list_elem_of_fmap Hid%list_elem_of_singleton.
      apply not_true_iff_false in E. apply E, existsb_elem. exists p. split; [done|]. by apply String.eqb_eq.
    + intros id (p & Hp & ? & ?). exists p. split; [cbn; apply elem_of_app; by left|done].
  - apply (Hchange _ _ _ []); [done| | |constructor|by intros x ?%elem_of_nil|done].
    + unfold ids, delete_created. cbn [on_payments payments]. eapply sublist_NoDup'; [apply sublist_map, bfilter_sublist|apply Hk].
    + intros x (p & Hp & ? & Hst). exists p. split; [|done]. cbn. apply elem_of_bfilter. split; [done|]. rewrite Hst. by rewrite bool_decide_eq_false_2, andb_false_r.
  - unfold set_link in Hset. destruct (existsb _ _); [done|]. injection Hset as <-. apply counter_inv_same; [done| | |done].
    + unfold ids. cbn [on_payments payments]. rewrite List.map_map. apply List.map_ext. intros p. by destruct (String.eqb _ _).
    + intros x (p & Hp & <- & Hst). eexists. split; [apply list_elem_of_fmap_2; exact Hp|]. by destruct (String.eqb _ _).
  - apply counter_inv_same; [done| | |done]; unfold ids, is_paid; rewrite Hpay; done.
Qed.

(** C11. Whatever requests record payments at the same time, and however their
    statements interleave, each payment extends a plan at most once, only after
    it was marked paid; and it stays paid. *)
Theorem payment_extends_once k : counter_run k -> NoDup (k_extended k) /\ (forall id, id ∈ k_extended k -> is_paid (k_state k) id).
Proof.
  intros Hrun. assert (Hinv : counter_inv k).
  { induction Hrun as [s Hs|k k' Hrun IH Hstep]; [|by eapply counter_step_inv]. constructor; unfold ids, held; cbn; [rewrite Hs; constructor|constructor|by intros id ?%elem_of_nil]. }
  destruct Hinv as [_ Hh Hp]. unfold held in *. split; [by apply list.NoDup_app in Hh as [? _]|]. intros id Hid. apply Hp, elem_of_app. by left.
Qed.

(** *** What it extends *)

Lemma findPayment_in s id p : findPayment s id = Some p -> p ∈ payments s /\ py_id p = id.
Proof. intros H. apply js_find_Some in H as [? H%String.eqb_eq]. done. Qed.

Lemma findPayment_map s id f : (forall p, py_id (f p) = py_id p) -> findPayment (on_payments (List.map f) s) id = f <$> findPayment s id.
Proof. intros Hf. unfold findPayment. cbn [payments on_payments]. rewrite js_find_map; [done|]. intros p. by rewrite Hf. Qed.

Lemma findPayment_on_db s id f : findPayment (on_ps_db f s) id = findPayment s id.
Proof. done. Qed.

Lemma on_payments_same s f : (forall p, p ∈ payments s -> f p = p) -> on_payments (List.map f) s = s.
Proof. intros Hf. destruct s as [a l b c d e]. unfold on_payments. cbn [payments] in *. f_equal. induction l as [|p l IH]; [done|]. cbn. rewrite Hf by constructor. f_equal. apply IH. intros q Hq. apply Hf. by constructor. Qed.

Lemma paid_from_after tenant now : now <= paid_from tenant now.
Proof. unfold paid_from. cbv zeta. case_bool_decide; [|lia]. destruct (en_expiresAt _); [destruct (Z.ltb_spec now z)|]; lia. Qed.

Lemma paid_from_end tenant now e : en_kind (entitlement tenant now) = pk_subscription -> en_expiresAt (entitlement tenant now) = Some e -> e <= paid_from tenant now.
Proof. intros Hk He. unfold paid_from. cbv zeta. rewrite bool_decide_eq_true_2 by done. rewrite He. destruct (Z.ltb_spec now e); lia. Qed.

Lemma recordPayment_cases ref now s : NoDup (ids s) -> (exists s', recordPayment ref now s = (s', None) /\ ps_db s' = ps_db s) \/
  exists row tenant, findPayment s (pr_referenceId ref) = Some row /\ py_link_id row = Some (pr_linkId ref) /\ py_status row = pay_created /\
    findTenantById (ps_db s) (py_tenant_id row) = Some tenant /\
    recordPayment ref now s = (extend row tenant now (fst (claim ref (py_id row) now s)), Some (with_end (periodEnd (paid_from tenant now) (py_period row)) (with_paid (str_take 64 (pr_paymentId ref)) now row))).
Proof.
  intros Hn. unfold recordPayment. destruct (findPayment s (pr_referenceId ref)) as [row|] eqn:Ef; [|left; eauto]. case_bool_decide as Hl; cbn [negb]; [|left; eauto].
  pose proof (claim_spec ref (py_id row) now s) as Hc. destruct (claim ref (py_id row) now s) as [s1 changed] eqn:Ec. destruct Hc as (Hdb & _ & Hch & _ & _). destruct changed; cbn [negb]; [|left; eauto].
  rewrite Hdb. destruct (findTenantById (ps_db s) (py_tenant_id row)) as [tenant|] eqn:Et; [|left; eauto]. right. exists row, tenant. apply findPayment_in in Ef as [Hin Hid].
  destruct (proj1 Hch eq_refl) as (q & Hq & Eq & Hst). assert (q = row) as -> by (by eapply (map_NoDup_inj py_id)). split_and!; try done. rewrite Ec. cbn [fst]. f_equal.
  pose proof (f_equal fst Ec) as Hs1. unfold claim in Hs1. cbn [fst] in Hs1. subst s1. unfold extend, set_end. cbv zeta. rewrite findPayment_map by (intros p; by destruct (String.eqb _ _)).
  rewrite findPayment_on_db, findPayment_map by (intros p; by destruct (claims _ _)).
  assert (Hfind : findPayment s (py_id row) = Some row) by (rewrite Hid; destruct (js_find_is_Some (fun p => String.eqb (py_id p) (pr_referenceId ref)) (payments s) row Hin) as [p Hp]; [by apply String.eqb_eq|]; unfold findPayment; rewrite Hp; apply js_find_Some in Hp as [Hp Hpi%String.eqb_eq]; f_equal; eapply (map_NoDup_inj py_id); [done..|congruence]).
  rewrite Hfind. cbn [fmap option_fmap option_map]. assert (Hcl : claims (py_id row) row = true) by (unfold claims; by rewrite String.eqb_refl, Hst, bool_decide_eq_true_2). rewrite Hcl. cbn [py_id with_paid]. by rewrite String.eqb_refl.
Qed.

Lemma recordPayment_again ref now s s' p ref' now' : NoDup (ids s) -> recordPayment ref now s = (s', Some p) -> pr_referenceId ref' = pr_referenceId ref -> recordPayment ref' now' s' = (s', None).
Proof.
  intros Hn Hr Href. destruct (recordPayment_cases ref now s Hn) as [(s0 & E & _)|(row & tenant & Ef & Hl & Hst & Et & E)]; rewrite E in Hr; [by simplify_eq|]. clear E.
  apply findPayment_in in Ef as [Hin Hid]. pose proof (claim_spec ref (py_id row) now s) as Hc. destruct (claim ref (py_id row) now s) as [sc changed] eqn:Ec. destruct Hc as (_ & Hids & Hch & Hp & _). cbn [fst] in Hr. injection Hr as <- _.
  destruct (extend_spec row tenant now sc) as (Hids' & Hmono & _). assert (Hpaid : is_paid (extend row tenant now sc) (pr_referenceId ref)) by (apply Hmono; rewrite <- Hid; apply Hp, Hch; by exists row).
  assert (Hn' : NoDup (ids (extend row tenant now sc))) by (rewrite Hids'; by rewrite Hids).
  unfold recordPayment. rewrite Href. destruct (findPayment _ (pr_referenceId ref)) as [q|] eqn:Eq; [|done]. destruct (negb (bool_decide (py_link_id q = Some (pr_linkId ref')))); [done|].
  apply findPayment_in in Eq as [Hq Hqid]. assert (Hno : forall x, x ∈ payments (extend row tenant now sc) -> claims (py_id q) x = false).
  { intros x Hx. destruct (claims (py_id q) x) eqn:Ecl; [|done]. unfold claims in Ecl. apply andb_true_iff in Ecl as [Ex%String.eqb_eq Es%bool_decide_eq_true]. destruct (is_paid_fresh _ (pr_referenceId ref) Hn'); [|done]. exists x. split_and!; [done|congruence|done]. }
  unfold claim. rewrite (on_payments_same (extend row tenant now sc)) by (intros x Hx; cbv beta; by rewrite (Hno x Hx)). replace (existsb (claims (py_id q)) (payments (extend row tenant now sc))) with false; [done|].
  symmetry. apply not_true_iff_false. intros (x & Hx & Hcl)%existsb_elem. by rewrite (Hno x Hx) in Hcl.
Qed.

(** A payment that is recorded was ours and not yet paid; the plan of its
    organization becomes a subscription for the workstations paid for, one
    period on from now, or from the end of the subscription still in force, so
    it is never shortened; no other organization changes; recording it again
    changes nothing. A call that records no payment changes no plan. *)
Theorem payment_extends_the_plan ref now s : NoDup (ids s) ->
  let '(s', recorded) := recordPayment ref now s in
  match recorded with
  | None => ps_db s' = ps_db s
  | Some p =>
      exists row tenant, findPayment s (pr_referenceId ref) = Some row /\ py_link_id row = Some (pr_linkId ref) /\ py_status row = pay_created /\
        findTenantById (ps_db s) (py_tenant_id row) = Some tenant /\
        (let ends := periodEnd (paid_from tenant now) (py_period row) in
         p = with_end ends (with_paid (str_take 64 (pr_paymentId ref)) now row) /\
         findTenantById (ps_db s') (t_id tenant) = Some (set_license subscriber ends (P_includedWorkstations + py_extra_workstations row) (t_trial_started_at tenant) now tenant) /\
         now + 28 * SECONDS_PER_DAY <= ends /\
         (forall e, en_kind (entitlement tenant now) = pk_subscription -> en_expiresAt (entitlement tenant now) = Some e -> e + 28 * SECONDS_PER_DAY <= ends)) /\
        (forall t, t <> t_id tenant -> findTenantById (ps_db s') t = findTenantById (ps_db s) t) /\
        (forall ref' now', pr_referenceId ref' = pr_referenceId ref -> recordPayment ref' now' s' = (s', None))
  end.
Proof.
  intros Hn. destruct (recordPayment_cases ref now s Hn) as [(s0 & E & Hdb)|(row & tenant & Ef & Hl & Hst & Et & E)]; rewrite E; [done|].
  exists row, tenant. pose proof (claim_spec ref (py_id row) now s) as Hc. destruct (claim ref (py_id row) now s) as [s1 changed] eqn:Ec. destruct Hc as (Hdb & _). cbn [fst].
  assert (Htid : t_id tenant = py_tenant_id row) by (by apply js_find_Some in Et as [_ H%String.eqb_eq]).
  assert (Hdb' : forall t, findTenantById (ps_db (extend row tenant now s1)) t =
    (fun x => if String.eqb (t_id x) (t_id tenant) then set_license subscriber (periodEnd (paid_from tenant now) (py_period row)) (P_includedWorkstations + py_extra_workstations row) (t_trial_started_at x) now x else x) <$> findTenantById (ps_db s) t).
  { intros t. rewrite <- Hdb. apply updateLicense_find. }
  pose proof (periodEnd_bounds (paid_from tenant now) (py_period row)) as Hb. pose proof (paid_from_after tenant now). cbv zeta. split_and!; try done.
  - rewrite Hdb', Htid, Et. cbn [fmap option_fmap option_map]. by rewrite Htid, String.eqb_refl.
  - lia.
  - intros e Hk He. pose proof (paid_from_end tenant now e Hk He). lia.
  - intros t Ht. rewrite Hdb'. destruct (findTenantById (ps_db s) t) as [x|] eqn:Ex; [|done]. cbn. apply js_find_Some in Ex as [_ Ex%String.eqb_eq]. by rewrite (proj2 (String.eqb_neq _ _)) by congruence.
  - intros ref' now' Href. eapply recordPayment_again; [exact Hn| |exact Href]. exact E.
Qed.

(** ** Runs *)

(** The [i]-th request under way takes its next step. *)
Definition move (i : nat) (k : Counter) : Counter :=
  match k_requests k !! i with
  | None => k
  | Some r => let '(s', r', extended) := step_of r (k_state k) in mkCounter s' (take i (k_requests k) ++ r' :: drop (S i) (k_requests k)) (k_extended k ++ extended)
  end.

Lemma move_run i k : counter_run k -> counter_run (move i k).
Proof.
  intros Hk. unfold move. destruct (k_requests k !! i) as [r|] eqn:E; [|done]. destruct (step_of r (k_state k)) as [[s' r'] extended] eqn:Es.
  eapply k_next; [exact Hk|]. eapply k_moves; [|exact Es]. symmetry. by apply take_drop_middle.
Qed.

Lemma moves_run l : forall k, counter_run k -> counter_run (foldl (fun k i => move i k) k l).
Proof. induction l as [|i l IH]; intros k Hk; [done|]. cbn. by apply IH, move_run. Qed.

Definition demo_payment (id link : string) : Payment := mkPayment id "t1" (Some link) None month 0 49900 8982 58882 pay_created None None 1700000000 None None.
Definition demo_ref (id link : string) : PaidRef := mkPaid id link "pay_1".
Definition demo_billing : PlanState := mkPlanState (on_tenants (fun _ => [greenwood]) empty_db) [] [] [] [] [].
Definition with_requests (rows : list Payment) (requests : list Recording) : Counter := mkCounter (on_payments (fun _ => rows) demo_billing) requests [].

Lemma with_requests_run rows refs : NoDup (List.map py_id rows) -> Forall (fun p => py_status p = pay_created) rows ->
  counter_run (with_requests rows (List.map (fun r => Reading r 1700000000) refs)).
Proof.
  intros Hn Hc. unfold with_requests. induction refs as [|r refs IH] using rev_ind; [|rewrite List.map_app; by eapply k_next; [exact IH|apply k_arrives]].
  induction rows as [|p rows IH] using rev_ind; [by apply (k_start demo_billing)|]. rewrite List.map_app in Hn. apply list.NoDup_app in Hn as (Hn & Hd & _). apply Forall_app in Hc as [Hc Hp].
  inversion Hp as [|?? Hp1 _]; subst. eapply k_next; [apply IH; done|]. apply (k_inserts (mkCounter (on_payments (fun _ => rows) demo_billing) [] []) p); [done|]. unfold insert_payment. cbn [k_state payments on_payments]. destruct (existsb _ rows) eqn:E; [|done].
  apply existsb_elem in E as (q & Hq & Eq%String.eqb_eq). destruct (Hd (py_id q)); [by apply list_elem_of_fmap_2|]. rewrite Eq. constructor.
Qed.

(** The redirect and the webhook of one payment, one step after the other. *)
Definition both_ways : Counter :=
  foldl (fun k i => move i k) (with_requests [demo_payment "lk1" "plink_1"] (List.map (fun r => Reading r 1700000000) [demo_ref "lk1" "plink_1"; demo_ref "lk1" "plink_1"])) [0; 1; 0; 1; 0; 1; 0; 1; 0; 1]%nat.

Lemma payment_extends_once_witness : k_extended both_ways = ["lk1"%string] /\ NoDup (k_extended both_ways).
Proof.
  split; [vm_compute; reflexivity|]. apply (payment_extends_once both_ways). apply moves_run, with_requests_run; [apply NoDup_singleton|repeat constructor].
Defined.

Lemma payment_extends_the_plan_witness :
  let s := on_payments (fun _ => [demo_payment "lk1" "plink_1"]) demo_billing in
  py_period_ends_at <$> snd (recordPayment (demo_ref "lk1" "plink_1") 1706659200 s) = Some (Some 1709164800) /\
  (forall ref' now', pr_referenceId ref' = "lk1"%string -> recordPayment ref' now' (fst (recordPayment (demo_ref "lk1" "plink_1") 1706659200 s)) = (fst (recordPayment (demo_ref "lk1" "plink_1") 1706659200 s), None)).
Proof.
  cbv zeta. set (s := on_payments _ demo_billing). split; [vm_compute; reflexivity|]. pose proof (payment_extends_the_plan (demo_ref "lk1" "plink_1") 1706659200 s ltac:(apply NoDup_singleton)) as Hp.
  destruct (recordPayment (demo_ref "lk1" "plink_1") 1706659200 s) as [s' [p|]] eqn:E; [|vm_compute in E; discriminate E]. destruct Hp as (row & tenant & _ & _ & _ & _ & _ & _ & Hagain). exact Hagain.
Defined.

(** Two different payments of one organization that are recorded at the same
    time: both requests read the organization before either writes it, and both
    extend it from the same moment, so two months are paid for and one is given. *)
Definition two_payments : Counter :=
  foldl (fun k i => move i k) (with_requests [demo_payment "lk1" "plink_1"; demo_payment "lk2" "plink_2"] (List.map (fun r => Reading r 1700000000) [demo_ref "lk1" "plink_1"; demo_ref "lk2" "plink_2"])) [0; 1; 0; 1; 0; 1; 0; 1]%nat.

Example two_payments_one_month :
  k_extended two_payments = ["lk1"; "lk2"]%string /\ List.map t_license_expires_at (tenants (ps_db (k_state two_payments))) = [Some 1702592000] /\
  List.map t_license_expires_at (tenants (ps_db (fst (recordPayment (demo_ref "lk2" "plink_2") 1700000000 (fst (recordPayment (demo_ref "lk1" "plink_1") 1700000000
    (on_payments (fun _ => [demo_payment "lk1" "plink_1"; demo_payment "lk2" "plink_2"]) demo_billing))))))) = [Some 1705270400].
Proof. vm_compute. split_and!; reflexivity. Qed.
