(* ===== verification/RazorpayRelay.v ===== *)
(** src/cloudflare-control/relay/razorpay: the relay outside Cloudflare that
    calls to Razorpay go through, and what the control plane and it agree on.
    What Razorpay answers is an argument; what is forwarded is in the result. *)
From S2P Require Import Prelude JsString Regex Platform Escape Db Guard Plans Auth Handoff Billing.

(** [text.slice(text.indexOf(part))], and all of it where the part is absent. *)
Fixpoint from_part (part text : string) : option string :=
  if startsWith text part then Some text else match text with ""%string => None | String _ rest => from_part part rest end.

(** The path of a request: what comes before [/v1/] is the function's own. *)
Definition relayed_path (path : string) : string := default path (from_part "/v1/" path).

Definition upcase_char (c : ascii) : ascii := if is_lower c then chr (code c - 32) else c.

Definition ALLOWED : list (string * string) := [("POST", "/v1/payment_links")]%string.
Definition MAX_SKEW_SECONDS : Z := 300.
Definition MAX_BODY_BYTES : Z := 64 * 1024.

Record RelayInput : Type := mkRelayInput {
  ri_method : string;
  ri_path : string;
  ri_timestamp : option string;
  ri_signature : option string;
  ri_authorization : option string;
  ri_body : string;
  ri_secret : option string;
  ri_nowSeconds : Z
}.

Inductive Upstream : Type := NotReached | Served (status : Z) (contentType : option string) (body : string).

(** What is answered: an error of the relay, or Razorpay's answer. *)
Inductive RelayAnswer : Type := Refused (status : Z) (error : string) | Passed (status : Z) (contentType body : string).

Definition TIMESTAMP : re := RBetween 1 12 RDigit.
Definition BASIC : re := RCat (RLit "Basic ") (RPlus (RClass (fun c => is_alpha c || is_digit c || is_char "+" c || is_char "/" c || is_char "=" c))).
Definition HEX_TEXT : re := RPlus (RClass is_lower_hex).

Section Handler.
Context `{WebCrypto}.

Definition relaySignature (secret timestamp method path body : string) : string := bufferToHex (hmacSha256 secret (utf8 (relay_message timestamp method path body))).

Definition sameHex (a b : string) : bool :=
  if negb (String.length a =? String.length b)%nat || negb (re_test HEX_TEXT b) then false else bool_decide (hexToBuffer a = hexToBuffer b).

(** The request that is forwarded, where one is, and the answer. *)
Definition handleRelay (input : RelayInput) (upstream : Upstream) : option HttpRequest * RelayAnswer :=
  let secret := default ""%string (trim <$> ri_secret input) in
  if (String.length secret <? 32)%nat then (None, Refused 503 "The relay is not configured")
  else
    let method := str_map upcase_char (ri_method input) in
    let path := ri_path input in
    if negb (existsb (fun a => String.eqb (fst a) method && String.eqb (snd a) path) ALLOWED) then (None, Refused 404 "Not a call this relay forwards")
    else
      let body := ri_body input in
      if MAX_BODY_BYTES <? Z.of_nat (length (utf8 body)) then (None, Refused 413 "The request body is too large")
      else
        let timestamp := default ""%string (ri_timestamp input) in
        let signature := toLowerCase (default ""%string (ri_signature input)) in
        if negb (re_test TIMESTAMP timestamp) || (MAX_SKEW_SECONDS <? Z.abs (ri_nowSeconds input - digits_value timestamp)) then
          (None, Refused 401 "The request is not signed, or its time is more than five minutes off")
        else if negb (sameHex (relaySignature secret timestamp method path body) signature) then (None, Refused 401 "The signature does not match")
        else
          let authorization := default ""%string (ri_authorization input) in
          if negb (re_test BASIC authorization) then (None, Refused 400 "Razorpay authorization is missing")
          else
            (Some (mkHttpRequest (RAZORPAY_ORIGIN +:+ path) method [("authorization", authorization); ("content-type", "application/json"); ("accept", "application/json")]%string body),
             match upstream with
             | NotReached => Refused 502 "Razorpay could not be reached from the relay"
             | Served status contentType answer => Passed status (default "application/json"%string (contentType ≫= nonempty)) answer
             end).

(** The request as the relay receives it: [base] is the path of the relay's own
    address. *)
Definition received (r : HttpRequest) (base : string) (secret : option string) (now : Z) : RelayInput :=
  mkRelayInput (hq_method r) (relayed_path (base +:+ PAYMENT_LINKS)) (assoc "X-Relay-Timestamp" (hq_headers r)) (assoc "X-Relay-Signature" (hq_headers r)) (assoc "Authorization" (hq_headers r)) (hq_body r) secret now.

(** ** What the two agree on *)

Hypothesis hmac_bytes : forall secret message, Forall is_byte (hmacSha256 secret message).
Hypothesis hmac_some : forall secret message, hmacSha256 secret message <> [].

Lemma bufferToHex_lower bytes : Forall is_byte bytes -> str_forallb is_lower_hex (bufferToHex bytes) = true.
Proof.
  induction 1 as [|b l Hb _ IH]; [done|]. cbn [bufferToHex]. unfold hex_byte, is_byte in *. rewrite str_forallb_app, IH, andb_true_r. cbn [str_forallb String.append].
  destruct (hex_digit_char (b `div` 16)) as [-> _]; [div_lia|]. destruct (hex_digit_char (b `mod` 16)) as [-> _]; [div_lia|]. done.
Qed.

Lemma star_class p s : str_forallb p s = true -> re_match (RStar (RClass p)) s.
Proof.
  induction s as [|c s IH]; [constructor|]. cbn. intros [Hc Hs]%andb_true_iff. change (String c s) with (String c "" +:+ s). constructor; [by constructor|auto].
Qed.

Lemma plus_class p s : s <> ""%string -> str_forallb p s = true -> re_test (RPlus (RClass p)) s = true.
Proof.
  intros Hs Hp. apply re_test_iff. destruct s as [|c s]; [done|]. cbn in Hp. apply andb_true_iff in Hp as [Hc Hp]. change (String c s) with (String c "" +:+ s). constructor; [by constructor|by apply star_class].
Qed.

Lemma lower_hex_lower s : str_forallb is_lower_hex s = true -> toLowerCase s = s.
Proof.
  apply str_map_id. intros c. pose proof (all_chars_forall (fun c => implb (is_lower_hex c) (Ascii.eqb (lower_char c) c)) ltac:(vm_compute; reflexivity) c) as Hc. cbv beta in Hc.
  intros E. rewrite E in Hc. by apply Ascii.eqb_eq.
Qed.

(** Text that compares as the same hexadecimal is the same text. *)
Lemma sameHex_iff a b : Forall is_byte a -> a <> [] -> sameHex (bufferToHex a) b = true <-> b = bufferToHex a.
Proof.
  intros Ha Hne. unfold sameHex. pose proof (bufferToHex_lower a Ha) as Hl. split.
  - destruct (Nat.eqb_spec (String.length (bufferToHex a)) (String.length b)) as [El|]; [|done]. cbn [negb orb]. destruct (re_test HEX_TEXT b) eqn:Eb; [|done]. cbn [negb]. intros Hd%bool_decide_eq_true.
    assert (Hb : str_forallb is_lower_hex b = true) by (eapply re_test_within; [|exact Eb]; vm_compute; reflexivity). rewrite hex_to_from in Hd by done. rewrite Hd. symmetry.
    apply (hex_from_to (String.length b)); [done| |done]. rewrite <- El, str_length_hex. by exists (length a).
  - intros ->. rewrite Nat.eqb_refl. unfold HEX_TEXT. rewrite plus_class; [by rewrite bool_decide_eq_true_2| |done]. destruct a; [done|]. cbn. done.
Qed.

Lemma decimal_length k : forall fuel n acc, 0 <= n < 10 ^ Z.of_nat (S k) -> (0 < fuel)%nat ->
  (String.length acc < String.length (decimal fuel n acc) <= S k + String.length acc)%nat.
Proof.
  induction k as [|k IH]; intros [|fuel] n acc Hn Hf; [lia| |lia|]; cbn [decimal]; destruct (Z.eqb_spec (n / 10) 0) as [Hz|Hz]; cbn [String.length]; try lia.
  - exfalso. apply Hz, Z.div_small. exact Hn.
  - destruct fuel as [|fuel]; [cbn [decimal String.length]; lia|]. rewrite (Nat2Z.inj_succ (S k)), Z.pow_succ_r in Hn by lia.
    pose proof (IH (S fuel) (n / 10) (String (chr (48 + n mod 10)) acc)) as H'. cbn [String.length] in H'. assert (0 <= n / 10 < 10 ^ Z.of_nat (S k)) by (split; [apply Z.div_pos; lia|apply Z.div_lt_upper_bound; lia]). lia.
Qed.

Lemma upto_class p n : forall s, (String.length s <= n)%nat -> str_forallb p s = true -> re_match (RUpto n (RClass p)) s.
Proof.
  induction n as [|n IH]; intros [|c s] Hl Hp; cbn [RUpto String.length] in *; try lia; [constructor|apply match_alt_r; constructor|]. apply match_alt_l. cbn in Hp. apply andb_true_iff in Hp as [Hc Hp].
  change (String c s) with (String c "" +:+ s). constructor; [by constructor|]. apply IH; [lia|done].
Qed.

Lemma timestamp_test now : 0 <= now < 10 ^ 12 -> re_test TIMESTAMP (string_of_int now) = true.
Proof.
  intros Hn. apply re_test_iff. pose proof (string_of_int_digits now ltac:(lia)) as Hd. assert (Hl : (0 < String.length (string_of_int now) <= 12)%nat).
  { unfold string_of_int. rewrite (proj2 (Z.ltb_ge _ _)) by lia. pose proof (decimal_length 11 (S (Z.to_nat (Z.log2 now))) now "" Hn ltac:(lia)) as H'. cbn [String.length] in H'. lia. }
  destruct (string_of_int now) as [|c s]; [cbn in Hl; lia|]. cbn in Hd, Hl. apply andb_true_iff in Hd as [Hc Hs]. unfold TIMESTAMP, RBetween. change (String c s) with (String c "" +:+ s). constructor; [|apply upto_class; [lia|done]].
  cbn [RRep]. rewrite <- (str_app_nil_r (String c "")). by repeat constructor.
Qed.

Lemma string_bytes s : Forall is_byte (List.map code (String.list_ascii_of_string s)).
Proof. apply List.Forall_map, List.Forall_forall. intros c _. apply code_bounds. Qed.

Lemma basic_test bytes : Forall is_byte bytes -> bytes <> [] -> re_test BASIC ("Basic " +:+ btoa bytes) = true.
Proof.
  intros Hb Hne. apply re_test_iff. constructor; [apply re_test_iff; vm_compute; reflexivity|]. apply re_test_iff, plus_class.
  - unfold btoa. destruct bytes as [|a [|b [|c l]]]; done.
  - unfold btoa. rewrite str_forallb_app. apply andb_true_iff. split.
    + generalize (b64_body_chars bytes Hb). apply str_forallb_impl. intros c Hc. pose proof (all_chars_forall (fun c => implb (is_b64 c) (is_alpha c || is_digit c || is_char "+" c || is_char "/" c || is_char "=" c)) ltac:(vm_compute; reflexivity) c) as H'. cbv beta in H'. by rewrite Hc in H'.
    + unfold repeat_char. apply str_forallb_of_list, List.Forall_forall. by intros c ->%List.repeat_spec.
Qed.

Lemma from_part_app part base rest : (forall a b, base = a +:+ b -> b <> ""%string -> startsWith (b +:+ part +:+ rest) part = false) ->
  from_part part (base +:+ part +:+ rest) = Some (part +:+ rest).
Proof.
  induction base as [|c base IH]; intros Hno.
  - assert (Hs : forall s, startsWith s part = true -> from_part part s = Some s) by (intros s Hs; destruct s; cbn [from_part]; by rewrite Hs). apply Hs, startsWith_app.
  - cbn [String.append from_part]. pose proof (Hno ""%string (String c base) eq_refl ltac:(done)) as H0. cbn [String.append] in H0. rewrite H0. apply IH. intros a b -> Hb. by apply (Hno (String c a) b).
Qed.

Definition forwarded (authorization body : string) : HttpRequest :=
  mkHttpRequest (RAZORPAY_ORIGIN +:+ PAYMENT_LINKS) "POST" [("authorization", authorization); ("content-type", "application/json"); ("accept", "application/json")]%string body.

(** What the relay forwards: nothing but a signed call to Razorpay's payment
    links. *)
Lemma relay_sound input up request answer : handleRelay input up = (Some request, answer) ->
  let secret := default ""%string (trim <$> ri_secret input) in
  exists timestamp authorization, ri_timestamp input = Some timestamp /\ ri_authorization input = Some authorization /\ ri_path input = PAYMENT_LINKS /\
    Z.abs (ri_nowSeconds input - digits_value timestamp) <= MAX_SKEW_SECONDS /\ (32 <= String.length secret)%nat /\
    toLowerCase (default ""%string (ri_signature input)) = hmacHex secret (relay_message timestamp "POST" PAYMENT_LINKS (ri_body input)) /\
    request = forwarded authorization (ri_body input).
Proof.
  unfold handleRelay. cbv zeta. set (secret := default _ _). destruct (Nat.ltb_spec (String.length secret) 32); [done|]. destruct (existsb _ _) eqn:Ea; [|done]. cbn [negb]. cbn [existsb ALLOWED fst snd] in Ea. rewrite orb_false_r in Ea.
  apply andb_true_iff in Ea as [Em%String.eqb_eq Ep%String.eqb_eq]. rewrite <- Em, <- Ep. destruct (_ <? _); [done|]. destruct (ri_timestamp input) as [ts|]; cbn [default id]; [|change (re_test TIMESTAMP "") with false; done]. cbn [default id].
  destruct (re_test TIMESTAMP ts); [|done]. cbn [negb orb]. destruct (Z.ltb_spec MAX_SKEW_SECONDS (Z.abs (ri_nowSeconds input - digits_value ts))); [done|].
  destruct (sameHex _ _) eqn:Es; [|done]. cbn [negb]. apply sameHex_iff in Es; [|apply hmac_bytes|apply hmac_some]. destruct (ri_authorization input) as [au|]; cbn [default id]; [|change (re_test BASIC "") with false; done]. cbn [default id].
  destruct (re_test BASIC au); [|done]. cbn [negb]. intros [= <- _]. exists ts, au. by split_and!.
Qed.

Lemma from_part_None part s : from_part part s = None -> forall a b, s = a +:+ b -> startsWith b part = false.
Proof.
  revert s. assert (Hs : forall s, from_part part s = None -> startsWith s part = false) by (intros [|c s]; cbn [from_part]; by destruct (startsWith _ part)). intros s H' a. revert s H'.
  induction a as [|c a IH]; intros s Hn b ->; [by apply Hs|]. cbn [String.append from_part] in Hn. destruct (startsWith _ part); [done|]. by apply (IH (a +:+ b)).
Qed.

Lemma relayed_path_of base : from_part "/v1/" (base +:+ "/v1") = None -> relayed_path (base +:+ PAYMENT_LINKS) = PAYMENT_LINKS.
Proof.
  intros Hn. unfold relayed_path. change PAYMENT_LINKS with ("/v1/" +:+ "payment_links"). rewrite from_part_app; [done|]. intros a b -> Hb.
  pose proof (from_part_None _ _ Hn a (b +:+ "/v1") (str_app_assoc _ _ _)) as Hs. etrans; [|exact Hs]. destruct b as [|c1 [|c2 [|c3 [|c4 b]]]]; done.
Qed.

Lemma razorpayRoute_secret env url secret : razorpayRoute env = Returns (RelayedBy url secret) -> secret = trim (RAZORPAY_RELAY_SECRET env) /\ (32 <= String.length secret)%nat.
Proof.
  unfold razorpayRoute. cbv zeta. destruct (_ && _); [done|]. destruct (_ || _); [done|]. destruct (negb _); [done|]. destruct (Nat.ltb_spec (String.length (trim (RAZORPAY_RELAY_SECRET env))) 32); [done|]. by intros [= <- <-].
Qed.

Lemma relay_complete stringify env id input now r url secret relaySecret base relayNow up :
  link_request stringify env id input now = Returns r -> razorpayRoute env = Returns (RelayedBy url secret) -> trim relaySecret = secret ->
  0 <= now < 10 ^ 12 -> Z.abs (relayNow - now) <= MAX_SKEW_SECONDS -> Z.of_nat (length (utf8 (hq_body r))) <= MAX_BODY_BYTES -> from_part "/v1/" (base +:+ "/v1") = None ->
  exists authorization, assoc "Authorization" (hq_headers r) = Some authorization /\
    fst (handleRelay (received r base (Some relaySecret) relayNow) up) =
      Some (forwarded authorization (hq_body r)).
Proof.
  intros Hr Hroute Htrim Hnow Hskew Hbody Hbase. pose proof (razorpayRoute_secret env url secret Hroute) as [_ Hlen]. unfold link_request, sendToRazorpay in Hr. rewrite Hroute in Hr. cbn [mbind js_result_bind] in Hr. apply Returns_inj in Hr as <-.
  set (authorization := ("Basic " +:+ btoa (List.map code (String.list_ascii_of_string (RAZORPAY_KEY_ID env +:+ ":" +:+ RAZORPAY_KEY_SECRET env))))%string). exists authorization. split; [reflexivity|]. cbn [hq_body] in *. set (body := stringify (payment_body id input)) in *. unfold received. cbn [hq_method hq_headers hq_body].
  set (sg := hmacHex secret (relay_message (string_of_int now) "POST" PAYMENT_LINKS body)). change (assoc "X-Relay-Timestamp" _) with (Some (string_of_int now)). change (assoc "X-Relay-Signature" _) with (Some sg). change (assoc "Authorization" _) with (Some authorization).
  unfold handleRelay. cbn [ri_secret ri_method ri_path ri_body ri_timestamp ri_signature ri_authorization ri_nowSeconds fmap option_fmap option_map default Datatypes.id]. cbv zeta. rewrite Htrim, relayed_path_of by done.
  rewrite (proj2 (Nat.ltb_ge _ _) Hlen). change (str_map upcase_char "POST") with "POST"%string. change (existsb _ ALLOWED) with true. cbn [negb]. rewrite (proj2 (Z.ltb_ge _ _) Hbody), timestamp_test by done. cbn [negb orb].
  rewrite digits_value_string_of_int by lia. rewrite (proj2 (Z.ltb_ge _ _) Hskew). assert (Hsame : sameHex (relaySignature secret (string_of_int now) "POST" PAYMENT_LINKS body) (toLowerCase sg) = true).
  { unfold relaySignature. apply sameHex_iff; [apply hmac_bytes|apply hmac_some|]. apply lower_hex_lower, bufferToHex_lower, hmac_bytes. }
  rewrite Hsame. cbn [negb]. unfold authorization. rewrite basic_test; [done|apply string_bytes|]. by destruct (RAZORPAY_KEY_ID env).
Qed.

(** The relay forwards nothing but calls to Razorpay's payment links signed
    under the secret it shares with the control plane, over the time, within
    five minutes of its own, the method, the path and the body it forwards,
    unchanged and to Razorpay alone; and every call the control plane makes
    through it, with clocks that agree within five minutes, is forwarded with
    the authorization and the body the control plane sent. *)
Theorem relay_forwards_signed_calls : 
  (forall input up request answer, handleRelay input up = (Some request, answer) ->
    let secret := default ""%string (trim <$> ri_secret input) in
    exists timestamp authorization, ri_timestamp input = Some timestamp /\ ri_authorization input = Some authorization /\ ri_path input = PAYMENT_LINKS /\
      Z.abs (ri_nowSeconds input - digits_value timestamp) <= MAX_SKEW_SECONDS /\ (32 <= String.length secret)%nat /\
      toLowerCase (default ""%string (ri_signature input)) = hmacHex secret (relay_message timestamp "POST" PAYMENT_LINKS (ri_body input)) /\
      request = forwarded authorization (ri_body input)) /\
  (forall stringify env id input now r url secret relaySecret base relayNow up,
    link_request stringify env id input now = Returns r -> razorpayRoute env = Returns (RelayedBy url secret) -> trim relaySecret = secret ->
    0 <= now < 10 ^ 12 -> Z.abs (relayNow - now) <= MAX_SKEW_SECONDS -> Z.of_nat (length (utf8 (hq_body r))) <= MAX_BODY_BYTES -> from_part "/v1/" (base +:+ "/v1") = None ->
    exists authorization, assoc "Authorization" (hq_headers r) = Some authorization /\
      fst (handleRelay (received r base (Some relaySecret) relayNow) up) =
        Some (forwarded authorization (hq_body r))).
Proof. split; [exact relay_sound|exact relay_complete]. Qed.
End Handler.

(** A keyed hash that is some bytes, and a set-up of both sides. *)
Definition relay_crypto : WebCrypto := {| sha256Hex := fun s => s; pbkdf2 := fun _ salt => salt; hmacSha256 := fun _ l => 7 :: List.map (fun b => b `mod` 256) l |}.
Definition demo_secret : string := "0123456789abcdef0123456789abcdef".
Definition demo_env : BillingEnv := mkBillingEnv "rzp_key" "rzp_secret" "hook" "https://relay.example.app/relay/" (demo_secret +:+ " ").
Definition demo_link : LinkInput := mkLinkInput "org" "Organization" "owner" "o@org.example" "Owner" (quote month 5) "https://org.example/api/billing/return" 1700000000.
Definition demo_request : HttpRequest :=
  match link_request (H := relay_crypto) (fun _ => "{}"%string) demo_env "lk1" demo_link 1700000000 with Returns r => r | Throws _ => mkHttpRequest "" "" [] "" end.

Lemma relay_forwards_signed_calls_witness :
  hq_url demo_request = "https://relay.example.app/relay/v1/payment_links"%string /\
  fst (handleRelay (H := relay_crypto) (received demo_request "/relay" (Some (demo_secret +:+ LF)) 1700000250) NotReached) = Some (forwarded ("Basic " +:+ "cnpwX2tleTpyenBfc2VjcmV0") "{}").
Proof.
  assert (Hb : forall secret message, Forall is_byte (hmacSha256 (WebCrypto := relay_crypto) secret message)) by (intros; constructor; [unfold is_byte; lia|apply mod_bytes]).
  split; [vm_compute; reflexivity|].
  destruct (proj2 (relay_forwards_signed_calls (H := relay_crypto) Hb (fun _ _ E => ltac:(discriminate E))) (fun _ => "{}"%string) demo_env "lk1"%string demo_link 1700000000 demo_request "https://relay.example.app/relay"%string demo_secret
    (demo_secret +:+ LF) "/relay"%string 1700000250 NotReached) as (authorization & Ha & Hf);
    [vm_compute; reflexivity|vm_compute; reflexivity|vm_compute; reflexivity|lia|vm_compute; discriminate|vm_compute; discriminate|vm_compute; reflexivity|].
  rewrite Hf. vm_compute in Ha. injection Ha as <-. reflexivity.
Defined.
