(* ===== verification/LanSharing.v ===== *)
(** src/cloudflare-control/src/lan_sharing.ts: which workstations are at one
    site, who waits for whom to fetch a release, and whom it is copied from.

    Addresses are handled with 32-bit operators (Int32.v). The random keys [lanPeers] orders by are an argument. *)
From S2P Require Import Prelude Int32 JsString Regex Db.

Definition LAN_SEEDS_PER_SITE : nat := 2.
Definition LAN_SEED_START_MS : Z := 5 * 60000.
Definition LAN_HOLD_MAX_MS : Z := 60 * 60000.
Definition LAN_SHARE_SECONDS : Z := 48 * 60 * 60.
Definition MAX_LAN_PEERS : nat := 8.
Definition MIN_PREFIX : Z := 16.
Definition MAX_PREFIX : Z := 30.

Record LanReport : Type := mkLan { lan_address : string; lan_prefix : Z }.

Record SiteMember : Type := mkMember {
  m_clientId : string;
  m_ip : string;
  m_lan : option LanReport;
  m_update : option UpdateReport;
  m_nudgedAt : option Z;
  m_nudgedVersion : option string
}.

(** ** Addresses *)

(** [\d{1,3}] that [String(Number(text))] gives back, at most 255. *)
Definition octet (s : string) : option Z :=
  if negb (str_forallb is_digit s) || String.eqb s "" || (3 <? String.length s)%nat then None
  else
    let o := digits_value s in
    if (255 <? o) || negb (String.eqb (string_of_int o) s) then None else Some o.

Definition ipv4Number (address : string) : option Z :=
  match split_on "." address with
  | [a; b; c; d] =>
      match octet a, octet b, octet c, octet d with
      | Some o0, Some o1, Some o2, Some o3 => Some (js_ushr (js_shl o0 24) 0 + js_shl o1 16 + js_shl o2 8 + o3)
      | _, _, _, _ => None
      end
  | _ => None
  end.

Definition ipv4Text (value : Z) : string :=
  join "." (List.map string_of_int [js_ushr value 24; js_and (js_ushr value 16) 255; js_and (js_ushr value 8) 255; js_and value 255]).

Definition mask (prefix : Z) : Z := if prefix =? 0 then 0 else js_ushr (js_shl (2 ^ 32 - 1) (32 - prefix)) 0.

(** 0xac1 is 2753 and 0xc0a8 is 49320. *)
Definition isPrivateIpv4 (value : Z) : bool :=
  (js_ushr value 24 =? 10) || (js_ushr value 20 =? 2753) || (js_ushr value 16 =? 49320).

Definition normalizeLanReport (raw : jsval) : option LanReport :=
  if negb (is_plain_object raw) then None
  else
    let address := match js_get raw "address" with JsStr s => s | _ => ""%string end in
    match ipv4Number address with
    | None => None
    | Some value =>
        if negb (isPrivateIpv4 value) then None
        else
          match as_integer (js_get raw "prefix") with
          | None => None
          | Some prefix =>
              if (prefix <? MIN_PREFIX) || (MAX_PREFIX <? prefix) then None
              else
                let host := js_and value (js_not (mask prefix)) in
                if (host =? 0) || (host =? js_ushr (js_not (mask prefix)) 0) then None
                else Some (mkLan address prefix)
          end
    end.

#[export] Instance LanReport_eq_dec : EqDecision LanReport.
Proof. solve_decision. Defined.

Definition sameLanReport (a b : option LanReport) : bool :=
  match a, b with
  | Some x, Some y => String.eqb (lan_address x) (lan_address y) && (lan_prefix x =? lan_prefix y)
  | None, None => true
  | _, _ => false
  end.

(** ** Sites *)

(** [s.split("::")]. *)
Fixpoint split_double (c : ascii) (s : string) : list string :=
  match s with
  | ""%string => [""%string]
  | String a ""%string => [s]
  | String a ((String b rest) as t) =>
      if is_char c a && is_char c b then ""%string :: split_double c rest
      else match split_double c t with w :: ws => String a w :: ws | [] => [String a ""] end
  end.

Definition is_hex_colon (c : ascii) : bool := is_lower_hex (lower_char c) || is_char ":" c.

(** [/^[0-9a-f]{1,4}$/]. *)
Definition is_group (g : string) : bool :=
  str_forallb is_lower_hex g && negb (String.eqb g "") && (String.length g <=? 4)%nat.

(** [g.replace(/^0+(?=.)/, "")]. *)
Fixpoint strip_zeros (g : string) : string :=
  match g with
  | String c ((String _ _) as t) => if is_char "0" c then strip_zeros t else g
  | _ => g
  end.

Definition parts (half : string) : list string := if String.eqb half "" then [] else split_on ":" half.

Definition egressKey (ip : string) : option string :=
  if bool_decide (is_Some (ipv4Number ip)) then Some ip
  else if negb (str_forallb is_hex_colon ip) || (String.length ip <? 2)%nat || (39 <? String.length ip)%nat || negb (has_char ":" ip) then None
  else
    let halves := split_double ":" (toLowerCase ip) in
    if (2 <? length halves)%nat then None
    else
      let two := (length halves =? 2)%nat in
      let head := parts (List.nth 0 halves ""%string) in
      let tail := if two then parts (List.nth 1 halves ""%string) else [] in
      let missing := 8 - Z.of_nat (length head) - Z.of_nat (length tail) in
      if (if two then missing <? 1 else negb (missing =? 0)) then None
      else
        let groups := head ++ List.repeat "0"%string (if two then Z.to_nat missing else 0%nat) ++ tail in
        if negb (length groups =? 8)%nat || existsb (fun g => negb (is_group g)) groups then None
        else Some (join ":" (List.map strip_zeros (take 4 groups)) +:+ "::/64").

Definition siteKey (ip : string) (lan : option LanReport) : option string :=
  match lan with
  | None => None
  | Some l =>
      match egressKey ip, ipv4Number (lan_address l) with
      | Some egress, Some value =>
          if String.eqb egress "" then None
          else Some (egress +:+ "|" +:+ ipv4Text (js_ushr (js_and value (mask (lan_prefix l))) 0) +:+ "/" +:+ string_of_int (lan_prefix l))
      | _, _ => None
      end
  end.

(** ** Who fetches, who waits, who serves *)

(** [nowMs / 1000 - since < LAN_SHARE_SECONDS], in milliseconds. *)
Definition holds (member : SiteMember) (version : string) (nowMs : Z) : bool :=
  match m_update member with
  | None => false
  | Some update =>
      if (negb (bool_decide (ur_phase update = ready)) && negb (bool_decide (ur_phase update = staged))) ||
         negb (bool_decide (ur_version update = Some version))
      then false
      else match ur_since update with None => true | Some since => nowMs - 1000 * since <? 1000 * LAN_SHARE_SECONDS end
  end.

Definition seeding (member : SiteMember) (version : string) (nowMs : Z) : bool :=
  let phase := option_map ur_phase (m_update member) in
  if bool_decide (phase = Some downloading) then
    match m_update member with Some u => bool_decide (ur_version u = Some version) | None => false end
  else if bool_decide (phase = Some phase_error) || holds member version nowMs then false
  else
    bool_decide (m_nudgedVersion member = Some version) &&
    match m_nudgedAt member with Some t => nowMs - t <? LAN_SEED_START_MS | None => false end.

Inductive Decide : Type := go | hold.

#[export] Instance Decide_eq_dec : EqDecision Decide.
Proof. solve_decision. Defined.

Definition at_site (member : SiteMember) (site : string) (o : SiteMember) : bool :=
  negb (String.eqb (m_clientId o) (m_clientId member)) && bool_decide (siteKey (m_ip o) (m_lan o) = Some site).

Definition lanDecision (member : SiteMember) (version : string) (others : list SiteMember) (heldSince : option Z) (nowMs : Z) : Decide :=
  match siteKey (m_ip member) (m_lan member) with
  | None => go
  | Some site =>
      let neighbours := List.filter (at_site member site) others in
      if existsb (fun o => holds o version nowMs) neighbours then go
      else if (length (List.filter (fun o => seeding o version nowMs) neighbours) <? LAN_SEEDS_PER_SITE)%nat then go
      else match heldSince with
           | Some t => if LAN_HOLD_MAX_MS <=? nowMs - t then go else hold
           | None => hold
           end
  end.

(** [order]: one random key for each peer. *)
Definition lanPeers (member : SiteMember) (version : string) (others : list SiteMember) (order : list Z) (nowMs : Z) : list string :=
  match siteKey (m_ip member) (m_lan member) with
  | None => []
  | Some site =>
      let peers := List.map (fun o => match m_lan o with Some l => lan_address l | None => ""%string end)
        (List.filter (fun o => at_site member site o && holds o version nowMs) others) in
      let keyed := List.combine peers order in
      List.map fst (take MAX_LAN_PEERS (js_sort (fun a b => snd a - snd b) keyed))
  end.

(** ** Arithmetic of the 32-bit operators *)

(** ** Masks *)

Lemma mask_value p : MIN_PREFIX <= p <= MAX_PREFIX ->
  mask p = 2 ^ 32 - 2 ^ (32 - p) /\ js_not (mask p) = Z.ones (32 - p) /\ int32 (Z.ones (32 - p)) = Z.ones (32 - p) /\ js_ushr (js_not (mask p)) 0 = 2 ^ (32 - p) - 1.
Proof.
  unfold MIN_PREFIX, MAX_PREFIX. intros Hp.
  pose proof (Z_interval_forall (fun p => implb ((16 <=? p) && (p <=? 30)) ((mask p =? 2 ^ 32 - 2 ^ (32 - p)) && (js_not (mask p) =? Z.ones (32 - p))
    && (int32 (Z.ones (32 - p)) =? Z.ones (32 - p)) && (js_ushr (js_not (mask p)) 0 =? 2 ^ (32 - p) - 1))) 31 ltac:(vm_compute; reflexivity) p ltac:(lia)) as H.
  cbv beta in H. rewrite (proj2 (Z.leb_le 16 p)), (proj2 (Z.leb_le p 30)) in H by lia. cbn [andb implb] in H. bool_to_prop. split_and!; lia.
Qed.

Lemma host_part v p : 0 <= v < 2 ^ 32 -> MIN_PREFIX <= p <= MAX_PREFIX -> js_and v (js_not (mask p)) = v `mod` 2 ^ (32 - p).
Proof.
  intros Hv Hp. destruct (mask_value p Hp) as (_ & -> & Hi & _). unfold js_and. rewrite Hi. unfold MIN_PREFIX, MAX_PREFIX in Hp. apply land_int32_ones; lia.
Qed.

Lemma network_part v p : 0 <= v < 2 ^ 32 -> MIN_PREFIX <= p <= MAX_PREFIX -> js_ushr (js_and v (mask p)) 0 = v `div` 2 ^ (32 - p) * 2 ^ (32 - p).
Proof.
  intros Hv Hp. destruct (mask_value p Hp) as (Hm & _). unfold MIN_PREFIX, MAX_PREFIX in Hp.
  assert (Hk : 2 ^ (32 - p) <= 2 ^ 32) by (apply Z.pow_le_mono_r; lia). pose proof (Z.pow_pos_nonneg 2 (32 - p)).
  rewrite and_uint32 by (rewrite ?Hm; lia).
  replace (mask p) with (Z.shiftl (Z.ones p) (32 - p)).
  2: { rewrite Hm, Z.shiftl_mul_pow2, Z.ones_equiv by lia. replace (2 ^ 32) with (2 ^ p * 2 ^ (32 - p)); [lia|]. rewrite <- Z.pow_add_r by lia. f_equal. lia. }
  rewrite <- Z.shiftr_div_pow2, <- Z.shiftl_mul_pow2 by lia. apply Z.bits_inj'. intros i Hi. rewrite Z.land_spec, !Z.shiftl_spec by lia.
  destruct (Z.ltb_spec i (32 - p)); [rewrite !(Z.testbit_neg_r _ (i - (32 - p))) by lia; apply andb_false_r|].
  rewrite Z.shiftr_spec by lia. replace (i - (32 - p) + (32 - p)) with i by lia.
  destruct (Z.ltb_spec i 32); [rewrite Z.ones_spec_low by lia; apply andb_true_r|].
  rewrite Z.ones_spec_high by lia. rewrite andb_false_r. symmetry. rewrite <- (Z.mod_small v (2 ^ 32)) by done. apply Z.mod_pow2_bits_high. lia.
Qed.

(** ** Addresses round trip *)

Lemma digits_value_nonneg s : forall acc, str_forallb is_digit s = true -> 0 <= acc -> 0 <= digits_value_acc acc s.
Proof.
  induction s as [|c s IH]; intros acc Hs Ha; [done|]. cbn [str_forallb digits_value_acc] in *. apply andb_prop in Hs as [Hc Hs].
  apply IH; [done|]. unfold is_digit, in_range in Hc. bool_to_prop. lia.
Qed.

Lemma octet_spec s o : octet s = Some o -> 0 <= o <= 255 /\ s = string_of_int o.
Proof.
  unfold octet. destruct (str_forallb is_digit s) eqn:Ed; [|done]. cbn [negb orb]. destruct (String.eqb s "" || _); [done|]. cbv zeta.
  destruct (Z.ltb_spec 255 (digits_value s)); [done|]. destruct (String.eqb_spec (string_of_int (digits_value s)) s) as [E|]; [|done].
  cbn [orb negb]. intros E'. injection E' as <-. split; [|done]. split; [by apply digits_value_nonneg|done].
Qed.

Lemma octet_int o : 0 <= o <= 255 -> octet (string_of_int o) = Some o.
Proof.
  intros Ho. pose proof (Z_interval_forall (fun o => match octet (string_of_int o) with Some x => x =? o | None => false end) 256 ltac:(vm_compute; reflexivity) o ltac:(lia)) as H.
  cbv beta in H. destruct (octet (string_of_int o)) as [x|]; [|done]. by apply Z.eqb_eq in H as ->.
Qed.

Lemma ipv4Text_octets a b c d :
  0 <= a <= 255 -> 0 <= b <= 255 -> 0 <= c <= 255 -> 0 <= d <= 255 ->
  ipv4Text (a * 2 ^ 24 + b * 2 ^ 16 + c * 2 ^ 8 + d) = join "." (List.map string_of_int [a; b; c; d]).
Proof.
  intros Ha Hb Hc Hd. unfold ipv4Text. set (v := a * 2 ^ 24 + b * 2 ^ 16 + c * 2 ^ 8 + d). assert (Hv : 0 <= v < 2 ^ 32) by lia.
  rewrite !ushr_div, !and_255 by (done || lia || (split; [apply Z.div_pos; lia|apply Z.div_lt_upper_bound; lia])).
  f_equal. cbn [List.map]. repeat f_equal; unfold v; div_lia.
Qed.

Lemma ipv4Number_spec address v :
  ipv4Number address = Some v ->
  0 <= v < 2 ^ 32 /\ ipv4Text v = address.
Proof.
  unfold ipv4Number. pose proof (join_split_on "." address) as Hj. destruct (split_on "." address) as [|a [|b [|c [|d [|]]]]]; try done.
  destruct (octet a) as [o0|] eqn:E0; [|done]. destruct (octet b) as [o1|] eqn:E1; [|done]. destruct (octet c) as [o2|] eqn:E2; [|done]. destruct (octet d) as [o3|] eqn:E3; [|done].
  apply octet_spec in E0 as [H0 ->], E1 as [H1 ->], E2 as [H2 ->], E3 as [H3 ->]. rewrite shl_octet_24, !shl_octet by auto. intros [= <-].
  split; [lia|]. rewrite ipv4Text_octets by done. exact Hj.
Qed.

Lemma ipv4_split v : 0 <= v < 2 ^ 32 -> exists a b c d, 0 <= a <= 255 /\ 0 <= b <= 255 /\ 0 <= c <= 255 /\ 0 <= d <= 255 /\ v = a * 2 ^ 24 + b * 2 ^ 16 + c * 2 ^ 8 + d.
Proof.
  intros Hv. exists (v `div` 2 ^ 24), ((v `div` 2 ^ 16) `mod` 2 ^ 8), ((v `div` 2 ^ 8) `mod` 2 ^ 8), (v `mod` 2 ^ 8). split_and!; div_lia.
Qed.

Lemma ipv4Number_text v : 0 <= v < 2 ^ 32 -> ipv4Number (ipv4Text v) = Some v.
Proof.
  intros Hv. destruct (ipv4_split v Hv) as (a & b & c & d & Ha & Hb & Hc & Hd & ->). rewrite ipv4Text_octets by done. unfold ipv4Number.
  rewrite (split_on_join "."); [|done|cbn [List.map forallb]; by rewrite !int_has_no by (done || lia)].
  cbn [List.map]. rewrite !octet_int by done. rewrite shl_octet_24, !shl_octet by auto. done.
Qed.

Lemma ipv4Text_has_no x v : 0 <= v < 2 ^ 32 -> is_digit x = false -> is_char x "." = false -> has_char x (ipv4Text v) = false.
Proof.
  intros Hv Hx Hdot. destruct (ipv4_split v Hv) as (a & b & c & d & Ha & Hb & Hc & Hd & ->). rewrite ipv4Text_octets by done. cbn [List.map join].
  assert (Hd' : has_char x "." = false) by (unfold has_char; cbn [str_existsb]; by rewrite Hdot).
  by rewrite !has_char_app, !int_has_no, !Hd' by (done || lia).
Qed.

(** ** Sites are subnets *)

Lemma strip_zeros_chars p g : str_forallb p g = true -> str_forallb p (strip_zeros g) = true.
Proof.
  induction g as [|c [|d g] IH]; intros Hg; cbn [strip_zeros]; try done. destruct (is_char "0" c); [|done].
  apply IH. cbn [str_forallb] in *. by apply andb_prop in Hg as [_ Hg].
Qed.

Lemma join_has_no c sep l : has_char c sep = false -> Forall (fun g => has_char c g = false) l -> has_char c (join sep l) = false.
Proof.
  intros Hs. induction 1 as [|g l Hg Hl IH]; [done|]. cbn [join]. destruct l as [|h l]; [done|]. by rewrite !has_char_app, Hg, Hs, IH.
Qed.

Lemma egressKey_no_bar ip e : egressKey ip = Some e -> has_char "|" e = false.
Proof.
  unfold egressKey. case_bool_decide as E4.
  - intros [= <-]. destruct E4 as [v E4]. apply ipv4Number_spec in E4 as [Hv <-]. by apply ipv4Text_has_no.
  - match goal with |- context [if ?b then None else _] => destruct b; [done|] end.
    cbv zeta. set (halves := split_double _ _). destruct (2 <? length halves)%nat; [done|].
    match goal with |- (if ?b then None else _) = _ -> _ => destruct b; [done|] end. set (groups := parts _ ++ _).
    destruct (negb (length groups =? 8)%nat || _) eqn:Eg; [done|]. apply orb_false_iff in Eg as [_ Eg]. intros [= <-].
    rewrite has_char_app. replace (has_char "|" "::/64") with false by reflexivity. rewrite orb_false_r.
    apply join_has_no; [done|]. apply List.Forall_map, Forall_take, list.Forall_forall. intros g Hg.
    apply (has_char_absent _ is_lower_hex).
    + intros d Hd. pose proof (all_chars_forall (fun d => implb (is_lower_hex d) (negb (is_char "|" d))) ltac:(vm_compute; reflexivity) d) as Hi.
      cbv beta in Hi. rewrite Hd in Hi. by apply negb_true_iff in Hi.
    + apply strip_zeros_chars. apply not_true_iff_false in Eg. destruct (is_group g) eqn:Ei.
      * unfold is_group in Ei. apply andb_prop in Ei as [Ei _]. by apply andb_prop in Ei as [Ei _].
      * destruct Eg. apply existsb_elem. exists g. by rewrite Ei.
Qed.

(** A site is a place. Two workstations are at the same site exactly when
    the public side they reach the platform from is the same, their prefixes
    are, and their private addresses lie in the same subnet; no two sites share
    a key. Only private addresses of hosts are accepted: never a public one, a
    subnet's own address or its broadcast address. *)
Theorem lan_sites_are_subnets :
  (forall raw l, normalizeLanReport raw = Some l ->
     exists v, ipv4Number (lan_address l) = Some v /\ MIN_PREFIX <= lan_prefix l <= MAX_PREFIX /\
       (10 * 2 ^ 24 <= v < 11 * 2 ^ 24 \/ 172 * 2 ^ 24 + 16 * 2 ^ 16 <= v < 172 * 2 ^ 24 + 32 * 2 ^ 16 \/
        192 * 2 ^ 24 + 168 * 2 ^ 16 <= v < 192 * 2 ^ 24 + 169 * 2 ^ 16) /\
       0 < v `mod` 2 ^ (32 - lan_prefix l) < 2 ^ (32 - lan_prefix l) - 1) /\
  (forall ip1 ip2 l1 l2 e1 e2 v1 v2,
     egressKey ip1 = Some e1 -> egressKey ip2 = Some e2 -> ipv4Number (lan_address l1) = Some v1 -> ipv4Number (lan_address l2) = Some v2 ->
     MIN_PREFIX <= lan_prefix l1 <= MAX_PREFIX -> MIN_PREFIX <= lan_prefix l2 <= MAX_PREFIX -> e1 <> ""%string -> e2 <> ""%string ->
     siteKey ip1 (Some l1) = siteKey ip2 (Some l2) <->
     e1 = e2 /\ lan_prefix l1 = lan_prefix l2 /\ v1 `div` 2 ^ (32 - lan_prefix l1) = v2 `div` 2 ^ (32 - lan_prefix l1)).
Proof.
  split.
  - intros raw l. unfold normalizeLanReport. destruct (negb _); [done|]. cbv zeta.
    destruct (ipv4Number _) as [v|] eqn:Ev; [|done]. destruct (isPrivateIpv4 v) eqn:Ep; [|done]. cbn [negb].
    destruct (as_integer _) as [p|]; [|done]. destruct (Z.ltb_spec p MIN_PREFIX), (Z.ltb_spec MAX_PREFIX p); try done. cbn [orb].
    pose proof (ipv4Number_spec _ _ Ev) as [Hv _]. assert (Hp : MIN_PREFIX <= p <= MAX_PREFIX) by lia.
    destruct (mask_value p Hp) as (_ & _ & _ & Hb). rewrite Hb, host_part by done.
    destruct (Z.eqb_spec (v `mod` 2 ^ (32 - p)) 0), (Z.eqb_spec (v `mod` 2 ^ (32 - p)) (2 ^ (32 - p) - 1)); try done. cbn [orb]. intros [= <-]. cbn [lan_address lan_prefix].
    exists v. split; [done|]. split; [done|]. split.
    + unfold isPrivateIpv4 in Ep. rewrite !ushr_div in Ep by lia. clear -Ep Hv. apply orb_prop in Ep as [Ep|Ep]; [apply orb_prop in Ep as [Ep|Ep]|]; apply Z.eqb_eq in Ep; div_lia.
    + pose proof (Z.mod_pos_bound v (2 ^ (32 - p))). unfold MIN_PREFIX, MAX_PREFIX in Hp. assert (0 < 2 ^ (32 - p)) by (apply Z.pow_pos_nonneg; lia). lia.
  - intros ip1 ip2 l1 l2 e1 e2 v1 v2 He1 He2 Hv1 Hv2 Hp1 Hp2 Hn1 Hn2. unfold siteKey. rewrite He1, He2, Hv1, Hv2.
    rewrite (proj2 (String.eqb_neq e1 "")), (proj2 (String.eqb_neq e2 "")) by done.
    pose proof (ipv4Number_spec _ _ Hv1) as [R1 _]. pose proof (ipv4Number_spec _ _ Hv2) as [R2 _]. rewrite !network_part by done.
    pose proof (egressKey_no_bar _ _ He1) as B1. pose proof (egressKey_no_bar _ _ He2) as B2. unfold MIN_PREFIX, MAX_PREFIX in *.
    set (k1 := 32 - lan_prefix l1). set (k2 := 32 - lan_prefix l2).
    assert (P1 : 0 < 2 ^ k1) by (apply Z.pow_pos_nonneg; unfold k1; lia). assert (P2 : 0 < 2 ^ k2) by (apply Z.pow_pos_nonneg; unfold k2; lia).
    assert (N1 : 0 <= v1 `div` 2 ^ k1 * 2 ^ k1 < 2 ^ 32) by (split; [apply Z.mul_nonneg_nonneg; [apply Z.div_pos|]; lia|pose proof (Z.mul_div_le v1 (2 ^ k1) P1); lia]).
    assert (N2 : 0 <= v2 `div` 2 ^ k2 * 2 ^ k2 < 2 ^ 32) by (split; [apply Z.mul_nonneg_nonneg; [apply Z.div_pos|]; lia|pose proof (Z.mul_div_le v2 (2 ^ k2) P2); lia]).
    split.
    + intros E%(inj Some). destruct (str_sep_inj "|" e1 e2 _ _ B1 B2 E) as [-> E2]. clear E.
      destruct (str_sep_inj "/" _ _ _ _ (ipv4Text_has_no "/" _ N1 eq_refl eq_refl) (ipv4Text_has_no "/" _ N2 eq_refl eq_refl) E2) as [Et E].
      apply string_of_int_inj in E; [|lia|lia]. split; [done|]. split; [done|]. apply (f_equal ipv4Number) in Et.
      rewrite !ipv4Number_text in Et by done. injection Et as Et. unfold k1, k2 in *. rewrite <- E in Et. apply Z.mul_reg_r in Et; [done|lia].
    + intros (-> & Hp & Hd). unfold k1, k2 in *. rewrite <- Hp, Hd. done.
Qed.

(** ** Waiting and copying *)

(** What a seed is doing: it reports downloading the release, or was told of it
    less than five minutes ago and has neither failed nor finished. *)
Definition is_seed (o : SiteMember) (version : string) (nowMs : Z) : Prop :=
  (exists u, m_update o = Some u /\ ur_phase u = downloading /\ ur_version u = Some version) \/
  (m_nudgedVersion o = Some version /\ exists t, m_nudgedAt o = Some t /\ nowMs < t + LAN_SEED_START_MS).

Lemma seeding_is_seed o version nowMs : seeding o version nowMs = true -> is_seed o version nowMs.
Proof.
  unfold seeding, is_seed. case_bool_decide as Ed.
  - destruct (m_update o) as [u|]; [|done]. intros Hv%bool_decide_eq_true. left. exists u. cbn in Ed. injection Ed as Ed. done.
  - match goal with |- (if ?b then _ else _) = _ -> _ => destruct b; [done|] end. intros [Hv%bool_decide_eq_true Ht]%andb_prop. right. split; [done|].
    destruct (m_nudgedAt o) as [t|]; [|done]. exists t. split; [done|]. apply Z.ltb_lt in Ht. lia.
Qed.

Lemma two_of {A} (l : list A) : (2 <= length l)%nat -> exists x y rest, l = x :: y :: rest.
Proof. destruct l as [|x [|y rest]]; cbn; try lia. eauto. Qed.

Lemma peers_nonempty {A} (peers : list A) (order : list Z) (cmp : A * Z -> A * Z -> Z) :
  (length peers <= length order)%nat ->
  List.map fst (take MAX_LAN_PEERS (js_sort cmp (List.combine peers order))) = [] <-> peers = [].
Proof.
  intros Hl. split; [|by intros ->]. intros H. apply map_eq_nil in H.
  assert (Hlen : length (js_sort cmp (List.combine peers order)) = length peers) by (rewrite js_sort_length, List.length_combine; lia).
  destruct (js_sort cmp (List.combine peers order)) as [|x l] eqn:E; [by destruct peers|done].
Qed.

(** Nobody waits for nothing. A workstation is made to wait only while two
    others at its site are fetching the release or were told to within five
    minutes, while no one there holds it, and for less than an hour. The
    addresses it may copy from are those of others at its site that hold the
    release verified, at most eight, and there is one as soon as someone does. *)
Theorem lan_waits_for_seeds member version others heldSince nowMs order :
  (length others <= length order)%nat ->
  (lanDecision member version others heldSince nowMs = hold ->
     exists site s1 s2, siteKey (m_ip member) (m_lan member) = Some site /\ sublist [s1; s2] others /\
       Forall (fun s => m_clientId s <> m_clientId member /\ siteKey (m_ip s) (m_lan s) = Some site /\ is_seed s version nowMs) [s1; s2] /\
       (forall o, o ∈ others -> m_clientId o <> m_clientId member -> siteKey (m_ip o) (m_lan o) = Some site -> holds o version nowMs = false) /\
       (forall t, heldSince = Some t -> nowMs < t + LAN_HOLD_MAX_MS)) /\
  (forall a, a ∈ lanPeers member version others order nowMs ->
     exists o l, o ∈ others /\ m_clientId o <> m_clientId member /\ siteKey (m_ip o) (m_lan o) = siteKey (m_ip member) (m_lan member) /\
       holds o version nowMs = true /\ m_lan o = Some l /\ lan_address l = a) /\
  (length (lanPeers member version others order nowMs) <= MAX_LAN_PEERS)%nat /\
  (forall site o, siteKey (m_ip member) (m_lan member) = Some site -> o ∈ others -> m_clientId o <> m_clientId member ->
     siteKey (m_ip o) (m_lan o) = Some site -> holds o version nowMs = true -> lanPeers member version others order nowMs <> []).
Proof.
  intros Hlen. assert (Hsite : forall site o, at_site member site o = true <-> m_clientId o <> m_clientId member /\ siteKey (m_ip o) (m_lan o) = Some site).
  { intros site o. unfold at_site. rewrite andb_true_iff, negb_true_iff, String.eqb_neq, bool_decide_eq_true. done. }
  split; [|split; [|split]].
  - unfold lanDecision. destruct (siteKey (m_ip member) (m_lan member)) as [site|]; [|done].
    destruct (existsb _ _) eqn:Eh; [done|]. destruct (_ <? _)%nat eqn:Es; [done|]. intros Hheld. apply Nat.ltb_ge in Es.
    destruct (two_of _ Es) as (s1 & s2 & rest & E). exists site, s1, s2. split; [done|]. split; [|split; [|split]].
    + transitivity (List.filter (fun o => seeding o version nowMs) (List.filter (at_site member site) others)).
      * rewrite E. repeat constructor. apply sublist_nil_l.
      * transitivity (List.filter (at_site member site) others); apply bfilter_sublist.
    + apply list.Forall_forall. intros s Hs. assert (Hin : s ∈ List.filter (fun o => seeding o version nowMs) (List.filter (at_site member site) others))
        by (rewrite E; set_solver). apply elem_of_bfilter in Hin as [[_ Hin%Hsite]%elem_of_bfilter Hseed]. destruct Hin. split; [done|]. split; [done|]. by apply seeding_is_seed.
    + intros o Ho Hne Hk. apply not_true_iff_false. intros Hh. apply not_true_iff_false in Eh. apply Eh, existsb_elem. exists o. split; [|done].
      apply elem_of_bfilter. split; [done|]. by apply Hsite.
    + intros t ->. destruct (Z.leb_spec LAN_HOLD_MAX_MS (nowMs - t)); [done|lia].
  - intros a. unfold lanPeers. destruct (siteKey (m_ip member) (m_lan member)) as [site|]; [|by intros ?%elem_of_nil].
    intros ([x k] & -> & Hx)%list_elem_of_fmap. apply elem_of_take, elem_of_js_sort, list_elem_of_In, List.in_combine_l, list_elem_of_In in Hx.
    apply list_elem_of_fmap in Hx as (o & -> & [Ho [Hat%Hsite Hh]%andb_prop]%elem_of_bfilter). destruct Hat as [Hne Hk].
    destruct (m_lan o) as [l|] eqn:El; [|done]. exists o, l. rewrite El. done.
  - unfold lanPeers. destruct (siteKey _ _); [|cbn; lia]. rewrite length_map, length_take. lia.
  - intros site o Hk Ho Hne Hok Hh. unfold lanPeers. rewrite Hk. rewrite peers_nonempty.
    + intros E%map_eq_nil. assert (Hin : o ∈ List.filter (fun o => at_site member site o && holds o version nowMs) others)
        by (apply elem_of_bfilter; split; [done|]; apply andb_true_iff; split; [by apply Hsite|done]). rewrite E in Hin. by apply elem_of_nil in Hin.
    + rewrite length_map. etrans; [apply bfilter_length_le|done].
Qed.

Definition demo_lan (id address : string) (u : option UpdateReport) : SiteMember :=
  mkMember id "203.0.113.7" (Some (mkLan address 24)) u None None.
Definition demo_fetching : UpdateReport := mkUpdateReport downloading (Some "2.0.0"%string) None None None None.
Definition demo_ready : UpdateReport := mkUpdateReport ready (Some "2.0.0"%string) None None None (Some 100).

Lemma lan_waits_for_seeds_witness :
  lanDecision (demo_lan "A" "10.0.0.2" None) "2.0.0" [demo_lan "B" "10.0.0.3" (Some demo_fetching); demo_lan "C" "10.0.0.4" (Some demo_fetching)] (Some 0) 1000 = hold /\
  lanPeers (demo_lan "A" "10.0.0.2" None) "2.0.0" [demo_lan "D" "10.0.0.5" (Some demo_ready)] [0] 1000 <> [].
Proof.
  split; [vm_compute; reflexivity|].
  apply (proj2 (proj2 (proj2 (lan_waits_for_seeds (demo_lan "A" "10.0.0.2" None) "2.0.0" [demo_lan "D" "10.0.0.5" (Some demo_ready)] None 1000 [0] ltac:(cbn; lia))))
    "203.0.113.7|10.0.0.0/24"%string (demo_lan "D" "10.0.0.5" (Some demo_ready))); [vm_compute; reflexivity|set_solver|done|vm_compute; reflexivity|vm_compute; reflexivity].
Defined.
