(* ===== verification/HubStore.v ===== *)
(** The tables an organization's hub keeps for itself
    (src/cloudflare-control/src/org_hub.ts): the queue of commands waiting for
    workstations and which workstation has received which, the workstations
    that were removed, the Remote Control seats, and the hub's own notes; and
    the hub's pure decisions about releases and screen frames.

    UUIDs are arguments and never repeat. A payload is the record the hub
    itself wrote, not its JSON text. What the hub keeps in memory and on its
    sockets is not here. *)
From S2P Require Import Prelude JsString Regex Db Escape Auth Releases Power Exams.

Definition COMMAND_TTL_SECONDS : Z := 60.
Definition MAX_FRAME_BYTES : nat := 256 * 1024.

(** [/^[A-Z0-9][A-Z0-9_-]{0,63}$/]. *)
Definition CLIENT_ID_PATTERN : re :=
  let alnum c := is_upper c || is_digit c in
  RCat (RClass alnum) (RUpto 63 (RClass (fun c => alnum c || is_char "_" c || is_char "-" c))).

Inductive CommandAction : Type :=
| lock | unlock | navigate | reload | reboot | shutdown | clear_session | mute
| release_available | install_update | wake.

Record Payload : Type := mkPayload {
  pl_url : option string;
  pl_message : option string;
  pl_epoch : option Z;
  pl_version : option string;
  pl_macs : option (list string);
  pl_portal : bool
}.

Record CommandRow : Type := mkCommand {
  c_id : string;
  c_target : string;
  c_action : CommandAction;
  c_payload : Payload;
  c_created_at : Z;
  c_expires_at : Z
}.

Record QueuedCommand : Type := mkQueued {
  q_id : string;
  q_target : string;
  q_action : CommandAction;
  q_url : option string;
  q_message : option string;
  q_epoch : option Z;
  q_version : option string;
  q_macs : option (list string);
  q_timestamp : Z
}.

Record SeatRow : Type := mkSeat { rs_client_id : string; rs_user_id : string; rs_ends_at : Z }.
Record SiteRow : Type := mkSite { ls_client_id : string; ls_site : string; ls_seen_at : Z }.

(** The hub's SQLite, each table in the order its rows were inserted. *)
Record HubStorage : Type := mkStorage {
  commands : list CommandRow;
  deliveries : list (string * string);
  revoked : list (string * Z);
  meta : list (string * string);
  remote_seats : list SeatRow;
  last_sites : list SiteRow
}.

Definition empty_storage : HubStorage := mkStorage [] [] [] [] [] [].

Definition on_commands (f : list CommandRow -> list CommandRow) (s : HubStorage) : HubStorage :=
  mkStorage (f (commands s)) (deliveries s) (revoked s) (meta s) (remote_seats s) (last_sites s).
Definition on_deliveries (f : list (string * string) -> list (string * string)) (s : HubStorage) : HubStorage :=
  mkStorage (commands s) (f (deliveries s)) (revoked s) (meta s) (remote_seats s) (last_sites s).
Definition on_revoked (f : list (string * Z) -> list (string * Z)) (s : HubStorage) : HubStorage :=
  mkStorage (commands s) (deliveries s) (f (revoked s)) (meta s) (remote_seats s) (last_sites s).
Definition on_meta (f : list (string * string) -> list (string * string)) (s : HubStorage) : HubStorage :=
  mkStorage (commands s) (deliveries s) (revoked s) (f (meta s)) (remote_seats s) (last_sites s).
Definition on_remote_seats (f : list SeatRow -> list SeatRow) (s : HubStorage) : HubStorage :=
  mkStorage (commands s) (deliveries s) (revoked s) (meta s) (f (remote_seats s)) (last_sites s).
Definition on_last_sites (f : list SiteRow -> list SiteRow) (s : HubStorage) : HubStorage :=
  mkStorage (commands s) (deliveries s) (revoked s) (meta s) (remote_seats s) (f (last_sites s)).

(** ** Notes and the organization *)

Definition readMeta (s : HubStorage) (key : string) : option string := assoc key (meta s).

(** [INSERT OR REPLACE]. *)
Definition writeMeta (key value : string) (s : HubStorage) : HubStorage :=
  on_meta (fun l => List.filter (fun kv => negb (String.eqb (fst kv) key)) l ++ [(key, value)]) s.

(** The organization a hub serves is its note [tenantId]. *)
Definition bind (tenantId : string) (s : HubStorage) : HubStorage * bool :=
  if String.eqb tenantId "" then (s, false)
  else match readMeta s "tenantId" with
       | Some t => (s, String.eqb t tenantId)
       | None => (writeMeta "tenantId" tenantId s, true)
       end.

(** ** Removed workstations *)

Definition isRevoked (s : HubStorage) (clientId : string) : bool := existsb (fun r => String.eqb (fst r) clientId) (revoked s).

(** The tables' part of [removeDevice]. *)
Definition removeDevice_tables (clientId : string) (now : Z) (s : HubStorage) : HubStorage :=
  if negb (re_test CLIENT_ID_PATTERN clientId) then s
  else on_last_sites (List.filter (fun r => negb (String.eqb (ls_client_id r) clientId)))
         (on_revoked (fun l => List.filter (fun r => negb (String.eqb (fst r) clientId)) l ++ [(clientId, now)]) s).

Definition deviceEnrolled (clientId : string) (s : HubStorage) : HubStorage :=
  if negb (re_test CLIENT_ID_PATTERN clientId) then s
  else on_revoked (List.filter (fun r => negb (String.eqb (fst r) clientId))) s.

(** ** Commands *)

Record EnqueueInput : Type := mkEnqueue {
  en_targets : list string;
  en_action : CommandAction;
  en_url : option string;
  en_message : option string;
  en_epoch : option Z;
  en_version : option string;
  en_macs : list string;
  en_portal : bool
}.

Definition payload_of (input : EnqueueInput) : Payload :=
  mkPayload (en_url input) (en_message input) (en_epoch input)
    (match en_version input with Some ""%string => None | v => v end)
    (match en_macs input with [] => None | l => Some l end) (en_portal input).

(** The rows [enqueue] inserts, one for each target; [ids] are the UUIDs drawn. *)
Definition enqueue_rows (input : EnqueueInput) (ids : list string) (now : Z) (s : HubStorage) : HubStorage :=
  let targets := List.filter (fun t => negb (String.eqb t "")) (en_targets input) in
  on_commands (fun l => l ++ List.map (fun p =>
    mkCommand (fst p) (snd p) (en_action input) (payload_of input) now (now + COMMAND_TTL_SECONDS)) (List.combine ids targets)) s.

Definition delivered (s : HubStorage) (commandId clientId : string) : bool :=
  existsb (fun d => String.eqb (fst d) commandId && String.eqb (snd d) clientId) (deliveries s).

(** The WHERE clause: addressed to it, not expired, not yet delivered to it. *)
Definition is_pending (s : HubStorage) (clientId : string) (now : Z) (c : CommandRow) : bool :=
  (String.eqb (c_target c) "all" || String.eqb (c_target c) clientId) && (now <? c_expires_at c) && negb (delivered s (c_id c) clientId).

Definition queued (portalUrl : string) (row : CommandRow) : QueuedCommand :=
  let p := c_payload row in
  mkQueued (c_id row) (c_target row) (c_action row) (if pl_portal p then Some portalUrl else pl_url p) (pl_message p) (pl_epoch p)
    (pl_version p) (option_map (List.filter isWakeableMac) (pl_macs p)) (c_created_at row).

(** A command for one workstation is retired, one for all is marked delivered to it. *)
Definition mark_delivered (clientId : string) (s : HubStorage) (row : CommandRow) : HubStorage :=
  if String.eqb (c_target row) clientId then on_commands (List.filter (fun c => negb (String.eqb (c_id c) (c_id row)))) s
  else if delivered s (c_id row) clientId then s else on_deliveries (fun l => l ++ [(c_id row, clientId)]) s.

Definition pendingFor (clientId portalUrl : string) (now : Z) (s : HubStorage) : HubStorage * list QueuedCommand :=
  let rows := js_sort (fun a b => c_created_at a - c_created_at b) (List.filter (is_pending s clientId now) (commands s)) in
  (foldl (mark_delivered clientId) s rows, List.map (queued portalUrl) rows).

Definition purgeExpiredCommands (now : Z) (s : HubStorage) : HubStorage :=
  let expired := List.map c_id (List.filter (fun c => c_expires_at c <=? now) (commands s)) in
  on_commands (List.filter (fun c => negb (c_expires_at c <=? now)))
    (on_deliveries (List.filter (fun d => negb (bool_decide (fst d ∈ expired)))) s).

(** ** Remote Control seats *)

Definition remoteSeatHolders (except : string) (now : Z) (s : HubStorage) : HubStorage * list string :=
  let s' := on_remote_seats (List.filter (fun r => negb (rs_ends_at r <=? now))) s in
  (s', List.map rs_client_id (List.filter (fun r => negb (String.eqb (rs_client_id r) except)) (remote_seats s'))).

Definition holdRemoteSeat (clientId userId : string) (endsAt : Z) (s : HubStorage) : HubStorage :=
  if negb (re_test CLIENT_ID_PATTERN clientId) || String.eqb userId "" || (endsAt <=? 0) then s
  else on_remote_seats (upsert (fun r => String.eqb (rs_client_id r) clientId) (fun r => mkSeat (rs_client_id r) userId endsAt)
         (mkSeat clientId userId endsAt)) s.

Definition releaseRemoteSeat (clientId : string) (s : HubStorage) : HubStorage :=
  on_remote_seats (List.filter (fun r => negb (String.eqb (rs_client_id r) clientId))) s.

Definition releaseAllRemoteSeats (s : HubStorage) : HubStorage * list string :=
  (on_remote_seats (fun _ => []) s, List.map rs_client_id (remote_seats s)).

Inductive RemoteOpen : Type :=
| RemoteOk
| SeatsInUse (seats : Z) (holders : list string)
| NotConnected.

(** The route /remote-open. [connected]: whether [remoteOpen] reached the
    workstation's socket, which it does only for a well-formed request. *)
Definition remoteOpen (clientId session : string) (connected : bool) : bool :=
  re_test CLIENT_ID_PATTERN clientId && re_test BARE_HASH session && connected.

Definition remote_open (clientId session userId : string) (seats : option Z) (endsAt : Z) (connected : bool) (now : Z) (s : HubStorage) :
    HubStorage * RemoteOpen :=
  let '(s1, refused) :=
    match seats with
    | Some n =>
        if 0 <? n then
          let '(s', holders) := remoteSeatHolders clientId now s in
          (s', if n <=? Z.of_nat (length holders) then Some (SeatsInUse n holders) else None)
        else (s, None)
    | None => (s, None)
    end in
  match refused with
  | Some r => (s1, r)
  | None => if remoteOpen clientId session connected then (holdRemoteSeat clientId userId endsAt s1, RemoteOk) else (s1, NotConnected)
  end.

(** ** Frames and releases *)

Definition acceptableFrame (value : jsval) : option string :=
  match value with
  | JsStr s =>
      if negb (startsWith s "data:image/jpeg;base64,") && negb (startsWith s "data:image/png;base64,") then None
      else if (MAX_FRAME_BYTES <? String.length s)%nat then None
      else Some s
  | _ => None
  end.

Definition releaseNudgeTarget (releases : list ReleaseOffer) (update : option UpdateReport) (imageVersion group : option string) : option ReleaseOffer :=
  match update with
  | None => None
  | Some u =>
      if bool_decide (ur_phase u = live) then None
      else
        match imageVersion with
        | None => None
        | Some image =>
            if String.eqb image "" || negb (isReleaseVersion image) then None
            else
              match updateTargetFor releases (Some image) group with
              | None => None
              | Some target =>
                  if bool_decide (ur_phase u = checking) || bool_decide (ur_phase u = downloading) || bool_decide (ur_phase u = installing) then None
                  else
                    let holding := bool_decide (ur_phase u = ready) || bool_decide (ur_phase u = staged) in
                    if holding && bool_decide (ur_version u = Some (ro_version target)) then
                      let stageable := bool_decide (ur_phase u = ready) && bool_decide (ur_kind u = Some (ro_kind target)) && installsByItself target (Some image) in
                      if stageable then Some target else None
                    else if holding && bool_decide (ur_kind u = None) &&
                            bool_decide (ur_version u = option_map ro_version (newestOffered releases group)) then None
                    else Some target
              end
        end
  end.

(** What a console sees of a workstation. *)
Inductive Transport : Type := websocket | over_http.

Record LiveStatus : Type := mkLive {
  l_clientId : string;
  l_clientNum : Z;
  l_activeUrl : string;
  l_isLocked : bool;
  l_ip : string;
  l_vncPassword : option string;
  l_online : bool;
  l_lastSeen : Z;
  l_transport : Transport;
  l_thumbnail : option string;
  l_imageVersion : option string;
  l_agentVersion : option string;
  l_update : option UpdateReport;
  l_updateWaitingSince : option Z
}.

Definition installTargetFor (releases : list ReleaseOffer) (status : option LiveStatus) (group : option string) : option ReleaseOffer :=
  let newest := newestOffered releases group in
  let otherwise := match updateTargetFor releases (status ≫= l_imageVersion) group with Some t => Some t | None => newest end in
  match status ≫= l_update, newest with
  | Some u, Some n =>
      if bool_decide (ur_kind u = None) && bool_decide (ur_phase u = ready) && bool_decide (ur_version u = Some (ro_version n)) then Some n else otherwise
  | _, _ => otherwise
  end.

Definition installRefusal (status : option LiveStatus) (version : string) : option string :=
  match status with
  | None => Some "Offline"%string
  | Some st =>
      if negb (l_online st) then Some "Offline"%string
      else
        match l_update st with
        | None => Some "Its software is too old to update over the air; reinstall it from a current ISO"%string
        | Some u =>
            let this := bool_decide (ur_version u = Some version) in
            if bool_decide (ur_phase u = live) then Some "Live session (a USB stick or network boot); update it by re-flashing the stick or the boot server"%string
            else if bool_decide (ur_phase u = installing) then Some "Already installing"%string
            else if bool_decide (l_imageVersion st = Some version) then Some "Already up to date"%string
            else if bool_decide (ur_phase u = staged) && this then Some "Installs at its next restart; restart it to install now"%string
            else if bool_decide (ur_phase u = downloading) || bool_decide (ur_phase u = checking) then Some "Still downloading"%string
            else if bool_decide (ur_phase u = ready) && this then None
            else if bool_decide (ur_phase u = phase_error) then Some "Its last download failed"%string
            else Some "Has not downloaded this release yet"%string
        end
  end.

(** ** What a delivery does to the tables *)

Lemma delivered_iff s id client : delivered s id client = true <-> (id, client) ∈ deliveries s.
Proof.
  unfold delivered. rewrite existsb_elem. split.
  - intros ([a b] & Hd & [Ha%String.eqb_eq Hb%String.eqb_eq]%andb_prop). cbn in *. by subst.
  - intros Hd. exists (id, client). cbn. by rewrite !String.eqb_refl.
Qed.

Definition retired (client : string) (rows : list CommandRow) (c : CommandRow) : bool :=
  existsb (fun r => String.eqb (c_target r) client && String.eqb (c_id c) (c_id r)) rows.

Lemma foldl_mark_commands client rows : forall s,
  commands (foldl (mark_delivered client) s rows) = List.filter (fun c => negb (retired client rows c)) (commands s).
Proof.
  induction rows as [|r rows IH]; intros s; cbn [foldl].
  - symmetry. by apply bfilter_all.
  - rewrite IH. unfold mark_delivered. cbn [retired existsb]. destruct (String.eqb (c_target r) client) eqn:E; cbn [andb].
    + cbn [commands on_commands]. induction (commands s) as [|c l IHl]; [done|]. cbn [List.filter].
      destruct (String.eqb (c_id c) (c_id r)) eqn:Ec; cbn [negb orb]; [done|]. cbn [List.filter]. fold (retired client rows c).
      destruct (retired client rows c); cbn [negb]; by rewrite IHl.
    + by destruct (delivered s (c_id r) client).
Qed.

Lemma foldl_mark_deliveries client rows : forall s d,
  d ∈ deliveries (foldl (mark_delivered client) s rows) <->
  d ∈ deliveries s \/ exists r, r ∈ rows /\ c_target r <> client /\ d = (c_id r, client).
Proof.
  induction rows as [|r rows IH]; intros s d; cbn [foldl].
  - split; [by left|]. intros [?|(r & ?%elem_of_nil & _)]; done.
  - rewrite IH. assert (Hm : d ∈ deliveries (mark_delivered client s r) <-> d ∈ deliveries s \/ (c_target r <> client /\ d = (c_id r, client))).
    { unfold mark_delivered. destruct (String.eqb_spec (c_target r) client) as [E|E]; [cbn; naive_solver|].
      destruct (delivered s (c_id r) client) eqn:Ed; [apply delivered_iff in Ed; naive_solver|].
      cbn [deliveries on_deliveries]. rewrite elem_of_app, list_elem_of_singleton. naive_solver. }
    rewrite Hm. set_solver.
Qed.

(** ** Runs of the queue *)

Definition addressed (c : CommandRow) (client : string) : Prop := c_target c = "all"%string \/ c_target c = client.

Definition new_rows (input : EnqueueInput) (ids : list string) (now : Z) : list CommandRow := commands (enqueue_rows input ids now empty_storage).

(** Any sequence of queueing, deliveries and clean-ups, as time passes, with
    whatever else the hub writes in between. [all] holds every command ever
    queued, [log] every delivery: the workstation, the command and when. *)
Inductive queue_run : list CommandRow -> list (string * string * Z) -> Z -> HubStorage -> Prop :=
| run_start now s : commands s = [] -> deliveries s = [] -> queue_run [] [] now s
| run_enqueue all log now s input ids t :
    queue_run all log now s -> now <= t -> NoDup ids -> (forall id, id ∈ ids -> id ∉ List.map c_id all) ->
    queue_run (all ++ new_rows input ids t) log t (enqueue_rows input ids t s)
| run_deliver all log now s client portalUrl t :
    queue_run all log now s -> now <= t -> client <> "all"%string ->
    queue_run all (log ++ List.map (fun q => (client, q_id q, t)) (snd (pendingFor client portalUrl t s))) t (fst (pendingFor client portalUrl t s))
| run_purge all log now s t :
    queue_run all log now s -> now <= t -> queue_run all log t (purgeExpiredCommands t s)
| run_other all log now s s' t :
    queue_run all log now s -> now <= t -> commands s' = commands s -> deliveries s' = deliveries s -> queue_run all log t s'.

Record queue_inv (all : list CommandRow) (log : list (string * string * Z)) (now : Z) (s : HubStorage) : Prop := {
  inv_ids : NoDup (List.map c_id all);
  inv_rows : sublist (commands s) all;
  inv_times : forall c, c ∈ all -> c_created_at c <= now /\ c_expires_at c = c_created_at c + COMMAND_TTL_SECONDS;
  inv_once : NoDup (List.map fst log);
  inv_log : forall client id t, (client, id, t) ∈ log -> exists c, c ∈ all /\ c_id c = id /\ addressed c client /\ c_created_at c <= t < c_expires_at c;
  inv_done : forall client id t c, (client, id, t) ∈ log -> c ∈ commands s -> c_id c = id -> c_target c <> client /\ (id, client) ∈ deliveries s;
  inv_deliveries : forall id client, (id, client) ∈ deliveries s -> exists t, (client, id, t) ∈ log;
  inv_kept : forall c client, c ∈ all -> addressed c client -> client <> "all"%string ->
    (exists t, (client, c_id c, t) ∈ log) \/ c ∈ commands s \/ c_expires_at c <= now
}.

Lemma new_rows_spec input ids t c :
  c ∈ new_rows input ids t -> c_id c ∈ ids /\ c_created_at c = t /\ c_expires_at c = t + COMMAND_TTL_SECONDS.
Proof.
  unfold new_rows. cbn [commands enqueue_rows on_commands empty_storage app].
  intros ([i tg] & -> & Hin)%list_elem_of_fmap. cbn. split; [|done]. apply list_elem_of_In. apply list_elem_of_In in Hin. by apply List.in_combine_l in Hin.
Qed.

Lemma combine_fst_NoDup {A B} (l : list A) : forall (k : list B), NoDup l -> NoDup (List.map fst (List.combine l k)).
Proof.
  induction l as [|x l IH]; intros [|y k] Hl; cbn; try constructor; apply list.NoDup_cons in Hl as [Hx Hl]; [|by apply IH].
  intros ([a b] & E & Hin)%list_elem_of_fmap. cbn in E. subst. apply Hx. apply list_elem_of_In in Hin. apply list_elem_of_In. by apply List.in_combine_l in Hin.
Qed.

Lemma new_rows_ids input ids t : NoDup ids -> NoDup (List.map c_id (new_rows input ids t)).
Proof.
  intros H. unfold new_rows. cbn [commands enqueue_rows on_commands empty_storage app]. rewrite List.map_map. cbn [c_id]. by apply combine_fst_NoDup.
Qed.

Lemma enqueue_commands input ids t s : commands (enqueue_rows input ids t s) = commands s ++ new_rows input ids t.
Proof. done. Qed.

Lemma inv_enqueue all log now s input ids t :
  queue_inv all log now s -> now <= t -> NoDup ids -> (forall id, id ∈ ids -> id ∉ List.map c_id all) ->
  queue_inv (all ++ new_rows input ids t) log t (enqueue_rows input ids t s).
Proof.
  intros [H1 H2 H3 H4 H5 H6 H7 H8] Ht Hids Hfresh. constructor.
  - rewrite List.map_app. apply list.NoDup_app. split; [done|]. split; [|by apply new_rows_ids].
    intros id Hid (c & -> & Hc)%list_elem_of_fmap. apply new_rows_spec in Hc as [Hc _]. by apply (Hfresh _ Hc).
  - rewrite enqueue_commands. by apply sublist_app.
  - intros c [Hc|Hc]%elem_of_app; [specialize (H3 c Hc); lia|]. apply new_rows_spec in Hc as (_ & Ec & Ee). lia.
  - done.
  - intros client id t' Hl. destruct (H5 _ _ _ Hl) as (c & Hc & Hrest). exists c. split; [set_solver|done].
  - intros client id t' c Hl Hc Eid. rewrite enqueue_commands in Hc. apply elem_of_app in Hc as [Hc|Hc]; [by apply (H6 client id t' c)|].
    destruct (H5 _ _ _ Hl) as (c' & Hc' & E' & _). apply new_rows_spec in Hc as [Hc _]. destruct (Hfresh _ Hc). rewrite Eid, <- E'.
    apply list_elem_of_fmap. eauto.
  - done.
  - intros c client [Hc|Hc]%elem_of_app Ha Hne; [destruct (H8 c client Hc Ha Hne) as [?|[?|?]]; [by left|right; left; rewrite enqueue_commands; set_solver|right; right; lia]|].
    right. left. rewrite enqueue_commands. set_solver.
Qed.

Definition pending_rows (client : string) (t : Z) (s : HubStorage) : list CommandRow :=
  js_sort (fun a b => c_created_at a - c_created_at b) (List.filter (is_pending s client t) (commands s)).

Lemma pendingFor_log client portalUrl t s :
  List.map (fun q => (client, q_id q, t)) (snd (pendingFor client portalUrl t s)) = List.map (fun c => (client, c_id c, t)) (pending_rows client t s).
Proof. unfold pendingFor, pending_rows. cbn [snd]. by rewrite List.map_map. Qed.

Lemma elem_of_pending client t s c :
  c ∈ pending_rows client t s <-> c ∈ commands s /\ addressed c client /\ t < c_expires_at c /\ (c_id c, client) ∉ deliveries s.
Proof.
  unfold pending_rows. rewrite elem_of_js_sort, elem_of_bfilter. unfold is_pending, addressed.
  rewrite !andb_true_iff, orb_true_iff, !String.eqb_eq, Z.ltb_lt, negb_true_iff, <- not_true_iff_false, delivered_iff. tauto.
Qed.

Lemma command_ids_NoDup all log now s : queue_inv all log now s -> NoDup (List.map c_id (commands s)).
Proof. intros [H1 H2 _ _ _ _ _ _]. apply (sublist_NoDup' _ (List.map c_id all)); [by apply sublist_map|done]. Qed.

Lemma pending_ids_NoDup all log now s client t : queue_inv all log now s -> NoDup (List.map c_id (pending_rows client t s)).
Proof.
  intros Hinv. unfold pending_rows.
  assert (Hp : List.map c_id (js_sort (fun a b => c_created_at a - c_created_at b) (List.filter (is_pending s client t) (commands s)))
               ≡ₚ List.map c_id (List.filter (is_pending s client t) (commands s))) by apply fmap_Permutation, js_sort_perm.
  rewrite Hp. apply (sublist_NoDup' _ (List.map c_id (commands s))); [apply sublist_map, bfilter_sublist|by apply (command_ids_NoDup all log now)].
Qed.

Lemma inv_deliver all log now s client portalUrl t :
  queue_inv all log now s -> now <= t -> client <> "all"%string ->
  queue_inv all (log ++ List.map (fun q => (client, q_id q, t)) (snd (pendingFor client portalUrl t s))) t (fst (pendingFor client portalUrl t s)).
Proof.
  intros Hinv Ht Hne. rewrite pendingFor_log. pose proof (pending_ids_NoDup all log now s client t Hinv) as Hnd. destruct Hinv as [H1 H2 H3 H4 H5 H6 H7 H8].
  unfold pendingFor. cbn [fst]. fold (pending_rows client t s). set (rows := pending_rows client t s) in *.
  assert (Hlog : forall cl id t', (cl, id, t') ∈ log ++ List.map (fun c => (client, c_id c, t)) rows <->
    (cl, id, t') ∈ log \/ (cl = client /\ t' = t /\ exists c, c ∈ rows /\ c_id c = id)).
  { intros cl id t'. rewrite elem_of_app, list_elem_of_fmap. naive_solver. }
  assert (Hcmd : forall c, c ∈ commands (foldl (mark_delivered client) s rows) <-> c ∈ commands s /\ retired client rows c = false).
  { intros c. rewrite foldl_mark_commands, elem_of_bfilter, negb_true_iff. done. }
  constructor.
  - done.
  - rewrite foldl_mark_commands. etrans; [apply bfilter_sublist|done].
  - intros c Hc. specialize (H3 c Hc). lia.
  - rewrite List.map_app. apply list.NoDup_app. split; [done|]. rewrite List.map_map. cbn [fst]. split.
    + intros [cl id] ([[cl' id'] t'] & [= <- <-] & Hl)%list_elem_of_fmap (c & [= -> ->] & Hc)%list_elem_of_fmap.
      apply elem_of_pending in Hc as (Hc & _ & _ & Hd). by destruct (H6 _ _ _ c Hl Hc eq_refl).
    + rewrite <- (List.map_map c_id (fun id => (client, id))). apply NoDup_fmap_2; [|done]. intros ? ? [= E]. done.
  - intros cl id t' [Hl|(-> & -> & c & Hc & <-)]%Hlog; [by apply H5|]. apply elem_of_pending in Hc as (Hc & Ha & He & _).
    exists c. assert (c ∈ all) by (by apply (sublist_elem (commands s))). specialize (H3 c). split_and!; try done; naive_solver lia.
  - intros cl id t' c Hl [Hc Hr]%Hcmd Eid. apply Hlog in Hl as [Hl|(-> & -> & c' & Hc' & E)].
    + destruct (H6 _ _ _ c Hl Hc Eid) as [Ht1 Hd]. split; [done|]. apply foldl_mark_deliveries. by left.
    + assert (c = c') as ->.
      { apply elem_of_pending in Hc' as (Hc' & _). apply (map_NoDup_inj c_id (commands s)); try done; [|congruence].
        apply (sublist_NoDup' _ (List.map c_id all)); [by apply sublist_map|done]. }
      assert (Htgt : c_target c' <> client).
      { intros Etg. apply not_true_iff_false in Hr. apply Hr. unfold retired. apply existsb_elem. exists c'. by rewrite Etg, !String.eqb_refl. }
      split; [done|]. apply foldl_mark_deliveries. right. exists c'. by rewrite E.
  - intros id cl Hd%foldl_mark_deliveries. destruct Hd as [Hd|(c & Hc & _ & [= -> ->])].
    + destruct (H7 _ _ Hd) as [t' Hl]. exists t'. apply Hlog. by left.
    + exists t. apply Hlog. right. eauto.
  - intros c cl Hc Ha Hcl. destruct (H8 c cl Hc Ha Hcl) as [[t' Hl]|[Hin|He]]; [left; exists t'; apply Hlog; by left| |right; right; lia].
    destruct (retired client rows c) eqn:Er; [|right; left; by apply Hcmd].
    apply existsb_elem in Er as (r & Hr & [Et%String.eqb_eq Ei%String.eqb_eq]%andb_prop). left. exists t. apply Hlog. right.
    assert (r = c) as ->.
    { pose proof Hr as (Hrc & _)%elem_of_pending. apply (map_NoDup_inj c_id (commands s)); try done.
      apply (sublist_NoDup' _ (List.map c_id all)); [by apply sublist_map|done]. }
    split_and!; [|done|by exists c]. destruct Ha as [Ha|Ha]; congruence.
Qed.

Lemma inv_purge all log now s t : queue_inv all log now s -> now <= t -> queue_inv all log t (purgeExpiredCommands t s).
Proof.
  intros Hinv Ht. pose proof (command_ids_NoDup _ _ _ _ Hinv) as Hnd. destruct Hinv as [H1 H2 H3 H4 H5 H6 H7 H8].
  unfold purgeExpiredCommands. set (expired := List.map c_id _).
  constructor; cbn [commands deliveries on_commands on_deliveries].
  - done.
  - etrans; [apply bfilter_sublist|done].
  - intros c Hc. specialize (H3 c Hc). lia.
  - done.
  - done.
  - intros cl id t' c Hl [Hc He]%elem_of_bfilter Eid. destruct (H6 cl id t' c Hl Hc Eid) as [Htg Hd]. split; [done|].
    apply elem_of_bfilter. split; [done|]. apply negb_true_iff, bool_decide_eq_false. cbn [fst]. subst id.
    intros (c' & E & [Hc' He']%elem_of_bfilter)%list_elem_of_fmap. rewrite (map_NoDup_inj c_id (commands s) c c' Hnd Hc Hc' E) in He. by rewrite He' in He.
  - intros id cl [Hd _]%elem_of_bfilter. by apply H7.
  - intros c cl Hc Ha Hne. destruct (H8 c cl Hc Ha Hne) as [?|[Hin|?]]; [by left| |right; right; lia].
    destruct (Z.leb_spec (c_expires_at c) t); [right; right; lia|]. right. left. apply elem_of_bfilter. split; [done|].
    destruct (Z.leb_spec (c_expires_at c) t); [lia|done].
Qed.

Lemma queue_run_inv all log now s : queue_run all log now s -> queue_inv all log now s.
Proof.
  induction 1 as [now s Hc Hd|all log now s input ids t _ IH Ht Hn Hf|all log now s client p t _ IH Ht Hne|all log now s t _ IH Ht|all log now s s' t _ IH Ht Hc Hd].
  - constructor; try rewrite Hc; try rewrite Hd; try (by intros; set_solver); try constructor.
  - by apply (inv_enqueue _ _ now).
  - by apply (inv_deliver _ _ now).
  - by apply (inv_purge _ _ now).
  - destruct IH as [H1 H2 H3 H4 H5 H6 H7 H8]. constructor; try rewrite Hc; try rewrite Hd; try done.
    + intros c Hin. specialize (H3 c Hin). lia.
    + intros c cl Hin Ha Hn. destruct (H8 c cl Hin Ha Hn) as [?|[?|?]]; [by left|by right; left|right; right; lia].
Qed.

Lemma by_time_comparator : Comparator (fun a b => c_created_at a - c_created_at b).
Proof. constructor; intros; lia. Qed.

(** The command queue delivers each command once. However queueing,
    deliveries and clean-ups are interleaved, no workstation is given the same
    command twice; it is given only commands addressed to it or to everyone,
    and only within their minute; and whenever it asks, it has been given, or
    is given now in the order they were queued, every command addressed to it
    that has not expired. *)
Theorem commands_delivered_once all log now s :
  queue_run all log now s ->
  NoDup (List.map fst log) /\
  (forall client id t, (client, id, t) ∈ log ->
     exists c, c ∈ all /\ c_id c = id /\ (c_target c = "all"%string \/ c_target c = client) /\ c_created_at c <= t < c_created_at c + COMMAND_TTL_SECONDS) /\
  (forall client portalUrl t c, now <= t -> client <> "all"%string -> c ∈ all -> c_target c = "all"%string \/ c_target c = client -> t < c_expires_at c ->
     (exists t', (client, c_id c, t') ∈ log) \/ queued portalUrl c ∈ snd (pendingFor client portalUrl t s)) /\
  (forall client portalUrl t q, q ∈ snd (pendingFor client portalUrl t s) ->
     exists c, c ∈ all /\ q = queued portalUrl c /\ (c_target c = "all"%string \/ c_target c = client) /\ t < c_expires_at c /\ forall t', (client, c_id c, t') ∉ log) /\
  (forall client portalUrl t, StronglySorted (fun a b => q_timestamp a <= q_timestamp b) (snd (pendingFor client portalUrl t s))).
Proof.
  intros [H1 H2 H3 H4 H5 H6 H7 H8]%queue_run_inv. split; [done|]. split_and!.
  - intros client id t Hl. destruct (H5 _ _ _ Hl) as (c & Hc & Hid & Ha & Hr). exists c. destruct (H3 c Hc) as [_ <-]. done.
  - intros client portalUrl t c Ht Hne Hc Ha He. destruct (H8 c client Hc Ha Hne) as [?|[Hin|?]]; [by left| |lia].
    destruct (decide ((c_id c, client) ∈ deliveries s)) as [Hd|Hd]; [left; by apply H7|]. right.
    unfold pendingFor. cbn [snd]. apply list_elem_of_fmap. exists c. split; [done|]. by apply elem_of_pending.
  - intros client portalUrl t q (c & -> & Hc)%list_elem_of_fmap. apply elem_of_pending in Hc as (Hc & Ha & He & Hd). exists c. split_and!; try done; [by apply (sublist_elem (commands s))|].
    intros t' Hl. by destruct (H6 _ _ _ c Hl Hc eq_refl).
  - intros client portalUrl t. unfold pendingFor. cbn [snd]. fold (pending_rows client t s).
    assert (Hs : StronglySorted (fun a b => c_created_at a - c_created_at b <= 0) (pending_rows client t s)).
    { apply js_sort_sorted, by_time_comparator. }
    induction Hs as [|c l Hs IH Hall]; cbn; constructor; [done|]. apply List.Forall_map. revert Hall. apply Forall_impl. cbn. intros c' Hc'. lia.
Qed.

Definition demo_lock : EnqueueInput := mkEnqueue ["all"; "PC-1"]%string lock None None None None [] false.
Definition demo_queue : HubStorage := enqueue_rows demo_lock ["u1"; "u2"]%string 100 empty_storage.

Lemma commands_delivered_once_witness :
  queue_run (new_rows demo_lock ["u1"; "u2"]%string 100) [("PC-1", "u1", 110); ("PC-1", "u2", 110)]%string 110 (fst (pendingFor "PC-1" "https://p" 110 demo_queue)) /\
  NoDup (List.map fst [("PC-1", "u1", 110); ("PC-1", "u2", 110)]%string) /\
  snd (pendingFor "PC-1" "https://p" 120 (fst (pendingFor "PC-1" "https://p" 110 demo_queue))) = [].
Proof.
  assert (Hr : queue_run (new_rows demo_lock ["u1"; "u2"]%string 100) [("PC-1", "u1", 110); ("PC-1", "u2", 110)]%string 110 (fst (pendingFor "PC-1" "https://p" 110 demo_queue))).
  { apply (run_deliver _ [] 100 demo_queue "PC-1" "https://p" 110); [|lia|done].
    apply (run_enqueue [] [] 0 empty_storage demo_lock ["u1"; "u2"]%string 100); [by constructor|lia| |intros id _; apply not_elem_of_nil].
    apply (bool_decide_eq_true_1 _). vm_compute. reflexivity. }
  split; [exact Hr|]. split; [exact (proj1 (commands_delivered_once _ _ _ _ Hr))|vm_compute; reflexivity].
Defined.

(** ** Remote Control seats *)

Definition seats_ok (s : HubStorage) : Prop := NoDup (List.map rs_client_id (remote_seats s)).

(** The seats that count at a moment. *)
Definition seats_held (s : HubStorage) (now : Z) : list SeatRow := List.filter (fun r => now <? rs_ends_at r) (remote_seats s).

Lemma seats_ok_filter q s : seats_ok s -> seats_ok (on_remote_seats (List.filter q) s).
Proof. unfold seats_ok. cbn [remote_seats on_remote_seats]. apply sublist_NoDup', sublist_map, bfilter_sublist. Qed.

Lemma holdRemoteSeat_ok clientId userId endsAt s : seats_ok s -> seats_ok (holdRemoteSeat clientId userId endsAt s).
Proof.
  intros H. unfold holdRemoteSeat. destruct (_ || _); [done|]. unfold seats_ok. cbn [remote_seats on_remote_seats].
  apply upsert_keys_NoDup; [|done|done]. intros r. cbn. apply String.eqb_eq.
Qed.

Lemma upsert_others_length {A} (same : A -> bool) (update : A -> A) (insert : A) l :
  (forall x, same x = true -> same (update x) = true) -> same insert = true ->
  List.filter (fun x => negb (same x)) (upsert same update insert l) = List.filter (fun x => negb (same x)) l.
Proof.
  intros Hu Hi. unfold upsert. destruct (existsb same l).
  - induction l as [|x l IH]; [done|]. cbn. destruct (same x) eqn:E; [rewrite (Hu x E)|rewrite E]; cbn; by rewrite IH.
  - rewrite List.filter_app. cbn. rewrite Hi. cbn. apply app_nil_r.
Qed.

(** With one row each, a workstation's own row adds at most one. *)
Lemma one_own_row (clientId : string) (l : list SeatRow) :
  NoDup (List.map rs_client_id l) -> (length l <= S (length (List.filter (fun r => negb (String.eqb (rs_client_id r) clientId)) l)))%nat.
Proof.
  induction l as [|r l IH]; [cbn; lia|]. cbn [List.map List.filter length]. intros [Hr Hl]%list.NoDup_cons.
  destruct (String.eqb_spec (rs_client_id r) clientId) as [E|E]; cbn [negb length]; [|specialize (IH Hl); lia].
  rewrite bfilter_all; [lia|]. intros x Hx. apply negb_true_iff, String.eqb_neq. intros Ex. apply Hr. rewrite E, <- Ex. apply list_elem_of_fmap. eauto.
Qed.

(** Remote Control never takes more seats than there are. A request that is
    granted leaves at most [n] seats held, the new one among them; one is
    refused for lack of seats only when [n] other workstations hold one; and a
    session that replaces a workstation's own is not counted twice. Seats end
    with their session: by its notice, or by its time limit when the notice is
    lost. *)
Theorem remote_seats_bounded s clientId session userId n endsAt connected now :
  seats_ok s -> 0 < n ->
  let '(s', outcome) := remote_open clientId session userId (Some n) endsAt connected now s in
  seats_ok s' /\
  match outcome with
  | RemoteOk => Z.of_nat (length (seats_held s' now)) <= n /\
      (userId <> ""%string -> 0 < endsAt -> exists r, r ∈ remote_seats s' /\ rs_client_id r = clientId /\ rs_user_id r = userId /\ rs_ends_at r = endsAt)
  | SeatsInUse m holders => m = n /\ n <= Z.of_nat (length holders) /\ NoDup holders /\
      (forall h, h ∈ holders -> h <> clientId /\ exists r, r ∈ seats_held s now /\ rs_client_id r = h) /\ seats_held s' now = seats_held s now
  | NotConnected => seats_held s' now = seats_held s now
  end /\
  (forall t, seats_held (releaseRemoteSeat clientId s') t = List.filter (fun r => negb (String.eqb (rs_client_id r) clientId)) (seats_held s' t)) /\
  (forall r t, r ∈ seats_held s' t -> t < rs_ends_at r).
Proof.
  intros Hok Hn. unfold remote_open. rewrite (proj2 (Z.ltb_lt 0 n)) by done. unfold remoteSeatHolders.
  set (s1 := on_remote_seats _ s). assert (Hok1 : seats_ok s1) by by apply seats_ok_filter.
  assert (Hs1 : remote_seats s1 = seats_held s now).
  { unfold s1, seats_held. cbn [remote_seats on_remote_seats]. apply List.filter_ext. intros r. destruct (Z.leb_spec (rs_ends_at r) now), (Z.ltb_spec now (rs_ends_at r)); done || lia. }
  assert (Hsame : seats_held s1 now = seats_held s now).
  { unfold seats_held at 1. rewrite Hs1. apply bfilter_all. intros r [_ Hr]%elem_of_bfilter. done. }
  set (holders := List.map rs_client_id _). set (others := List.filter _ (remote_seats s1)) in holders.
  assert (Hrel : forall s2 t, seats_held (releaseRemoteSeat clientId s2) t = List.filter (fun r => negb (String.eqb (rs_client_id r) clientId)) (seats_held s2 t)).
  { intros s2 t. unfold seats_held, releaseRemoteSeat. cbn [remote_seats on_remote_seats]. apply bfilter_comm. }
  assert (Hend : forall s2 r t, r ∈ seats_held s2 t -> t < rs_ends_at r) by (intros s2 r t [_ Hr%Z.ltb_lt]%elem_of_bfilter; done).
  destruct (Z.leb_spec n (Z.of_nat (length holders))) as [Hfull|Hroom].
  { split; [done|]. split; [|by eauto]. split_and!; try done.
    - unfold holders, others. eapply sublist_NoDup'; [apply sublist_map, bfilter_sublist|exact Hok1].
    - intros h (r & -> & [Hr Hne]%elem_of_bfilter)%list_elem_of_fmap. apply negb_true_iff, String.eqb_neq in Hne. split; [done|]. exists r. by rewrite <- Hs1. }
  destruct (remoteOpen clientId session connected) eqn:Eo; [|split; [done|]; split; [done|by eauto]].
  assert (Hpat : re_test CLIENT_ID_PATTERN clientId = true) by (unfold remoteOpen in Eo; by apply andb_prop in Eo as [[Eo _]%andb_prop _]).
  split; [by apply holdRemoteSeat_ok|]. split; [|by eauto].
  set (s2 := holdRemoteSeat clientId userId endsAt s1). split.
  - assert (Hlen : (length (seats_held s2 now) <= length (remote_seats s2))%nat) by apply bfilter_length_le.
    pose proof (one_own_row clientId (remote_seats s2) (holdRemoteSeat_ok clientId userId endsAt s1 Hok1)) as Hown.
    assert (Hoth : List.filter (fun r => negb (String.eqb (rs_client_id r) clientId)) (remote_seats s2) = others).
    { unfold s2, holdRemoteSeat. destruct (_ || _); [done|]. cbn [remote_seats on_remote_seats].
      apply (upsert_others_length (fun r => String.eqb (rs_client_id r) clientId)); [done|cbn; apply String.eqb_refl]. }
    rewrite Hoth in Hown. unfold holders in Hroom. rewrite length_map in Hroom. lia.
  - intros Hu He. unfold s2, holdRemoteSeat. rewrite Hpat, (proj2 (String.eqb_neq userId "")), (proj2 (Z.leb_gt endsAt 0)) by done. cbn [negb orb].
    assert (Hf : js_find (fun r => String.eqb (rs_client_id r) clientId) (upsert (fun r => String.eqb (rs_client_id r) clientId)
      (fun r => mkSeat (rs_client_id r) userId endsAt) (mkSeat clientId userId endsAt) (remote_seats s1)) = Some (mkSeat clientId userId endsAt)).
    { rewrite js_find_upsert; [|done|cbn; apply String.eqb_refl]. f_equal. destruct (js_find _ _) as [r|] eqn:E; [|done].
      apply js_find_Some in E as [_ E%String.eqb_eq]. by rewrite E. }
    apply js_find_Some in Hf as [Hf _]. cbn [remote_seats on_remote_seats]. eexists. split; [exact Hf|done].
Qed.

Definition demo_seats : HubStorage := on_remote_seats (fun _ => [mkSeat "PC-1" "u" 500; mkSeat "PC-2" "u" 50]%string) empty_storage.

Lemma remote_seats_bounded_witness :
  snd (remote_open "PC-3" "" "u" (Some 1) 900 true 100 demo_seats) = SeatsInUse 1 ["PC-1"%string] /\
  let '(s', outcome) := remote_open "PC-3" "" "u" (Some 1) 900 true 100 demo_seats in seats_ok s'.
Proof.
  split; [vm_compute; reflexivity|].
  pose proof (remote_seats_bounded demo_seats "PC-3" "" "u" 1 900 true 100
    ltac:(apply (bool_decide_eq_true_1 _); vm_compute; reflexivity) ltac:(lia)) as H.
  destruct (remote_open "PC-3" "" "u" (Some 1) 900 true 100 demo_seats) as [s' outcome]. exact (proj1 H).
Defined.

(** ** Reminders and installs *)

(** A workstation is reminded of a release only when that is the release
    meant for it and it is not already fetching or installing one; if it holds
    that very release it is reminded only to stage it, where it may install by
    itself. An idle one, or one whose attempt failed, is always reminded. An
    administrator's install is sent exactly to a workstation that is online,
    holds that release verified and runs another. *)
Theorem reminders_and_installs releases group :
  (forall update image r, releaseNudgeTarget releases update image group = Some r ->
     exists u v, update = Some u /\ image = Some v /\ updateTargetFor releases (Some v) group = Some r /\
       ur_phase u ∉ [live; checking; downloading; installing] /\
       (ur_version u = Some (ro_version r) -> ur_phase u <> staged /\ (ur_phase u = ready -> ur_kind u = Some (ro_kind r) /\ installsByItself r (Some v) = true))) /\
  (forall u v r, ur_phase u ∈ [idle; up_to_date; phase_error] -> v <> ""%string -> isReleaseVersion v = true ->
     updateTargetFor releases (Some v) group = Some r -> releaseNudgeTarget releases (Some u) (Some v) group = Some r) /\
  (forall status version, installRefusal status version = None <->
     exists st u, status = Some st /\ l_online st = true /\ l_update st = Some u /\ ur_phase u = ready /\ ur_version u = Some version /\ l_imageVersion st <> Some version).
Proof.
  split; [|split].
  - intros [u|] image r; [|done]. unfold releaseNudgeTarget. destruct image as [v|]; [|by destruct (bool_decide _)].
    destruct (String.eqb v "" || negb (isReleaseVersion v)); [by destruct (bool_decide _)|].
    destruct (updateTargetFor releases (Some v) group) as [t|] eqn:Et; [|by destruct (bool_decide _)].
    destruct u as [phase version progress detail kind since]. cbn [ur_phase ur_version ur_kind]. intros H.
    assert (Hr : t = r /\ phase ∉ [live; checking; downloading; installing] /\
      (version = Some (ro_version t) -> phase <> staged /\ (phase = ready -> kind = Some (ro_kind t) /\ installsByItself t (Some v) = true))).
    { revert H. repeat case_bool_decide; subst; cbn [orb andb]; try done; try congruence;
        repeat match goal with |- (if ?b then _ else _) = _ -> _ => destruct b eqn:? end; try done; intros [= <-]; split_and!; try done; try set_solver; naive_solver. }
    destruct Hr as (<- & Hr). by exists (mkUpdateReport phase version progress detail kind since), v.
  - intros [phase version progress detail kind since] v r Hp Hv Hrel Ht. unfold releaseNudgeTarget. cbn [ur_phase ur_version ur_kind] in *.
    rewrite (proj2 (String.eqb_neq v "")) by done. rewrite Hrel, Ht. cbn [orb negb].
    rewrite !elem_of_cons, elem_of_nil in Hp. destruct Hp as [-> |[-> |[-> |[]]]]; reflexivity.
  - intros [st|] version; [|split; [done|intros (st & u & ? & _); done]]. unfold installRefusal. split.
    + destruct (l_online st) eqn:Eo; [|done]. destruct (l_update st) as [u|] eqn:Eu; [|done]. cbn [negb].
      repeat case_bool_decide; cbn [andb orb]; try done; intros _; exists st, u; done.
    + intros (st' & u & [= <-] & Ho & Hu & Hp & Hv & Hi). rewrite Ho, Hu, Hp, Hv. cbn [negb].
      rewrite (bool_decide_eq_false_2 (l_imageVersion st = Some version)) by done. by rewrite (bool_decide_eq_true_2 (Some version = Some version)).
Qed.
