(* ===== verification/HubConfig.v ===== *)
(** What a workstation is told: src/cloudflare-control/src/portal_url.ts, the
    printers of printing.ts, and the configuration the hub builds for each
    workstation (loadConfig, configFor and examFor of org_hub.ts).

    The allowlist of the organization ([buildEffectiveWhitelist] of db.ts) is an
    argument of [loadConfig]. A JavaScript Map is the list of its entries; the
    rows it is built from have one entry for each key. *)
From S2P Require Import Prelude JsString Platform Db Escape Allowlist Guard Plans Exams Releases Power.

(** ** Portal addresses *)

Record PortalContext : Type := mkPortalContext {
  pc_origin : string;
  pc_urlOrigin : string;
  pc_isHttps : bool;
  pc_isDev : bool;
  pc_host : string;
  pc_hostSlug : option string;
  pc_baseDomain : string
}.

(** [s.replace(/:?$/, ":")]. *)
Definition end_colon (s : string) : string := if endsWith s ":" then s else s +:+ ":".

Section Portal.
Context `{UrlParser}.

(** [or_else a b]: [a || b] of strings. *)
Definition or_else (a : option string) (b : string) : string :=
  match a with Some s => if String.eqb s "" then b else s | None => b end.

Definition effectiveOrigin (request : Request) (url : URL) : string :=
  match header request "host" with
  | Some host =>
      if negb (String.eqb host "") && isDevHost request
      then end_colon (or_else (header request "x-forwarded-proto") (or_else (Some (url_protocol url)) "http:")) +:+ "//" +:+ host
      else url_origin url
  | None => url_origin url
  end.

(** [text.includes(part)]. *)
Fixpoint str_includes (part text : string) : bool :=
  startsWith text part || match text with ""%string => false | String _ rest => str_includes part rest end.

Definition HTTPS_VISITOR : string := quote_mark +:+ "scheme" +:+ quote_mark +:+ ":" +:+ quote_mark +:+ "https" +:+ quote_mark.

Definition requestIsHttps (request : Request) (url : URL) : bool :=
  String.eqb (url_protocol url) "https:" || bool_decide (header request "x-forwarded-proto" = Some "https"%string) ||
  match header request "cf-visitor" with Some v => str_includes HTTPS_VISITOR v | None => false end.

Definition strip_leading_dot (s : string) : string := match s with String c t => if is_char "." c then t else s | _ => s end.

Definition portalContextFrom (request : Request) (url : URL) (DEFAULT_DOMAIN : option string) : PortalContext :=
  mkPortalContext (effectiveOrigin request url) (url_origin url) (requestIsHttps request url) (isDevHost request) (hostname request)
    (hostSubdomain request DEFAULT_DOMAIN) (toLowerCase (strip_leading_dot (default ""%string DEFAULT_DOMAIN))).

Definition isPortalContext (value : jsval) : bool :=
  let is_str v := match v with JsStr _ => true | _ => false end in
  let is_bool v := match v with JsBool _ => true | _ => false end in
  is_object value && is_str (js_get value "origin") && is_str (js_get value "urlOrigin") && is_bool (js_get value "isHttps") &&
  is_bool (js_get value "isDev") && is_str (js_get value "host") &&
  (match js_get value "hostSlug" with JsNull | JsStr _ => true | _ => false end) && is_str (js_get value "baseDomain").

Definition homePath (tenant : Tenant) : string :=
  match t_home_route tenant with Some r => if startsWith r "/" then r else "/" | None => "/" end.

Definition named_portal (tenant : Tenant) (ctx : PortalContext) : string :=
  pc_origin ctx +:+ (if String.eqb (homePath tenant) "/" then "" else homePath tenant) +:+ "?tenant=" +:+ encodeURIComponent (t_subdomain tenant).

Definition portalUrlFromContext (tenant : Tenant) (ctx : PortalContext) : string :=
  let named := named_portal tenant ctx in
  let custom := match t_custom_domain tenant with Some d => if String.eqb d "" then None else Some d | None => None end in
  if bool_decide (t_mode tenant = single_url) then or_else (safeHttpUrl (t_default_url tenant)) named
  else if negb (pc_isHttps ctx) || pc_isDev ctx then named
  else if bool_decide (pc_hostSlug ctx = Some (t_subdomain tenant)) ||
          match custom with Some d => String.eqb (pc_host ctx) (toLowerCase d) | None => false end
       then pc_urlOrigin ctx +:+ homePath tenant
  else
    match custom with
    | Some d => "https://" +:+ d +:+ homePath tenant
    | None =>
        if negb (String.eqb (pc_baseDomain ctx) "") &&
           (String.eqb (pc_host ctx) (pc_baseDomain ctx) || endsWith (pc_host ctx) ("." +:+ pc_baseDomain ctx))
        then "https://" +:+ t_subdomain tenant +:+ "." +:+ pc_baseDomain ctx +:+ homePath tenant
        else named
    end.
End Portal.

(** ** Printers *)

Record Printer : Type := mkPrinter { pt_id : string; pt_name : string; pt_uri : string; pt_groupName : option string }.

Record WorkstationPrinting : Type := mkPrinting { wp_enabled : bool; wp_printers : list (string * string * string) }.

Definition listPrinters (db : D1Database) (tenantId : string) : list Printer :=
  List.map (fun r => mkPrinter (p_id r) (p_name r) (p_uri r) (p_group_name r))
    (js_sort (fun a b => if p_position a =? p_position b then p_created_at a - p_created_at b else p_position a - p_position b)
      (List.filter (fun r => String.eqb (p_tenant_id r) tenantId) (printers db))).

Definition printingFor (enabled : bool) (l : list Printer) (groupName : option string) : WorkstationPrinting :=
  if negb enabled then mkPrinting false []
  else mkPrinting true (List.map (fun p => (pt_id p, pt_name p, pt_uri p))
         (List.filter (fun p => bool_decide (pt_groupName p = None) || (bool_decide (is_Some groupName) && bool_decide (pt_groupName p = groupName))) l)).

(** ** The organization's configuration *)

Record HubConfig : Type := mkHubConfig {
  hc_tenant : Tenant;
  hc_whitelist : list string;
  hc_deviceBroadcasts : list (string * (option string * Z));
  hc_releases : list ReleaseOffer;
  hc_pilotGroups : list (string * string);
  hc_rules : list PowerRule;
  hc_groupOf : list (string * string);
  hc_printers : list Printer;
  hc_printerGroups : list (string * string);
  hc_exams : list ExamWindow;
  hc_examGroups : list (string * string);
  hc_unlicensed : list (string * Z);
  hc_loadedAt : Z
}.

Definition CONFIG_TTL_MS : Z := 5 * 60000.

(** [xs.flatMap((x) => (x.group ? [x.group] : []))], without repetitions. *)
Definition group_names {A} (group : A -> option string) (l : list A) : list string :=
  js_dedup (omap (fun x => match group x with Some g => nonempty g | None => None end) l).

(** A forced load, or one past its time: the configuration read from the database. *)
Definition read_config (db : D1Database) (tenantId : string) (whitelist : list string) (nowMs : Z) : option HubConfig :=
  match findTenantById db tenantId with
  | None => None
  | Some tenant =>
      let releases := offeredReleases db (Some (t_update_channel tenant)) (Some (t_id tenant)) (nowMs `div` 1000) DEFAULT_ARCHITECTURE in
      let '(rules, groupOf) := loadPowerRules db (t_id tenant) in
      let printers_ := if t_printing_enabled tenant =? 1 then listPrinters db (t_id tenant) else [] in
      let exams := hubExams db (t_id tenant) (nowMs `div` 1000) in
      Some (mkHubConfig tenant whitelist (listDeviceBroadcasts db (t_id tenant)) releases
        (workstationGroupsIn db (t_id tenant) (group_names ro_pilotGroup releases)) rules groupOf printers_
        (workstationGroupsIn db (t_id tenant) (group_names pt_groupName printers_)) exams
        (workstationGroupsIn db (t_id tenant) (group_names x_groupName exams)) (listUnlicensed db (t_id tenant)) nowMs)
  end.

Definition loadConfig (cached : option HubConfig) (force : bool) (db : D1Database) (tenantId : string) (whitelist : list string) (nowMs : Z) :
    option HubConfig :=
  match cached with
  | Some c => if negb force && (nowMs - hc_loadedAt c <? CONFIG_TTL_MS) then Some c else read_config db tenantId whitelist nowMs
  | None => read_config db tenantId whitelist nowMs
  end.

(** ** What one workstation is told *)

Record WorkstationConfig : Type := mkWorkstationConfig {
  wc_whitelist : list string;
  wc_mode : KioskMode;
  wc_targetUrl : string;
  wc_broadcastUrl : string;
  wc_broadcastEpoch : Z;
  wc_lanSharing : bool;
  wc_usageSites : bool;
  wc_power : option (list (option PowerDay));
  wc_printing : WorkstationPrinting;
  wc_homeReset : bool;
  wc_portalUrl : string
}.

Definition examFor (config : HubConfig) (clientId : string) (nowSeconds : Z) : option ExamWindow :=
  js_find (fun e => negb (x_cancelled e) && (x_startsAt e <=? nowSeconds) && (nowSeconds <? x_endsAt e)
                    && examCovers (x_groupName e) (assoc clientId (hc_examGroups config))) (hc_exams config).

Section Config.
Context `{UrlParser}.

Definition allow_host (whitelist : list string) (url : string) : list string :=
  let host := host_of url in
  if String.eqb url "" || String.eqb host "" then whitelist else set_add whitelist host.

(** The newer of the organization's broadcast and the workstation's own; a reset has no URL. *)
Definition winner (config : HubConfig) (clientId : string) : option string * Z :=
  let own := default (None, 0) (assoc clientId (hc_deviceBroadcasts config)) in
  let organizationEpoch := t_broadcast_epoch (hc_tenant config) in
  if organizationEpoch <? snd own then own else (t_broadcast_url (hc_tenant config), organizationEpoch).

Definition active_broadcast (config : HubConfig) (clientId : string) : option (string * Z) :=
  let '(url, epoch) := winner config clientId in
  match url with
  | Some u => if String.eqb u "" then None
              else match safeHttpUrl u with Some v => if String.eqb v "" then None else Some (v, epoch) | None => None end
  | None => None
  end.

Definition notice_url (tenant : Tenant) (portal : PortalContext) : string :=
  pc_origin portal +:+ "/licence-needed?tenant=" +:+ encodeURIComponent (t_subdomain tenant).

Definition configFor (config : HubConfig) (clientId : string) (portal : PortalContext) (nowSeconds : Z) : WorkstationConfig :=
  let tenant := hc_tenant config in
  let own := default (None, 0) (assoc clientId (hc_deviceBroadcasts config)) in
  let organizationEpoch := t_broadcast_epoch tenant in
  let active := active_broadcast config clientId in
  let portalUrl := portalUrlFromContext tenant portal in
  let whitelist := js_sort by_code (allow_host (allow_host (hc_whitelist config) (match active with Some (u, _) => u | None => "" end)) portalUrl) in
  let power := effectivePower (hc_rules config) (assoc clientId (hc_groupOf config)) in
  match assoc clientId (hc_unlicensed config) with
  | Some unlicensedSince =>
      let notice := notice_url tenant portal in
      let noticeHost := host_of notice in
      mkWorkstationConfig (if String.eqb noticeHost "" then [] else [noticeHost]) (t_mode tenant) notice notice
        (Z.max (Z.max (unlicensedSince * 1000) organizationEpoch) (snd own) + 1)
        (t_lan_sharing tenant =? 1) (negb (t_usage_sites tenant =? 0)) power (mkPrinting false []) false portalUrl
  | None =>
      match examFor config clientId nowSeconds with
      | Some exam =>
          mkWorkstationConfig (js_sort by_code (x_hosts exam)) (t_mode tenant) (x_url exam) (x_url exam) (examEpoch (x_startsAt exam))
            (t_lan_sharing tenant =? 1) (negb (t_usage_sites tenant =? 0)) power (mkPrinting false []) false portalUrl
      | None =>
          mkWorkstationConfig whitelist (t_mode tenant) (match active with Some (u, _) => u | None => portalUrl end)
            (match active with Some (u, _) => u | None => "" end) (match active with Some (_, e) => e | None => 0 end)
            (t_lan_sharing tenant =? 1) (negb (t_usage_sites tenant =? 0)) power
            (printingFor (t_printing_enabled tenant =? 1) (hc_printers config) (assoc clientId (hc_printerGroups config)))
            (negb (t_home_reset tenant =? 0)) portalUrl
      end
  end.
End Config.

(** ** Allowlists *)

Lemma elem_of_allow_host `{UrlParser} l url h :
  h ∈ allow_host l url <-> h ∈ l \/ (h = host_of url /\ h <> ""%string /\ url <> ""%string).
Proof.
  unfold allow_host. destruct (String.eqb_spec url "") as [->|Hu]; [cbn [orb]; naive_solver|].
  destruct (String.eqb_spec (host_of url) "") as [E|E]; cbn [orb]; [naive_solver|]. rewrite elem_of_set_add. naive_solver.
Qed.

(** Workstation [clientId] sits exam [e] now: it is one of the organization's, not
    cancelled, has begun and is not over, and is for everyone or for its group. *)
Definition sits (config : HubConfig) (clientId : string) (now : Z) (e : ExamWindow) : Prop :=
  e ∈ hc_exams config /\ x_cancelled e = false /\ x_startsAt e <= now < x_endsAt e /\ (x_groupName e = None \/ x_groupName e = assoc clientId (hc_examGroups config)).

Lemma examFor_test config clientId now e : e ∈ hc_exams config ->
  negb (x_cancelled e) && (x_startsAt e <=? now) && (now <? x_endsAt e) && examCovers (x_groupName e) (assoc clientId (hc_examGroups config)) = true <-> sits config clientId now e.
Proof. intros Hin. unfold sits, examCovers. rewrite !andb_true_iff, negb_true_iff, Z.leb_le, Z.ltb_lt, orb_true_iff, !bool_decide_eq_true. tauto. Qed.

Lemma examFor_Some config clientId now e : examFor config clientId now = Some e -> sits config clientId now e.
Proof. intros [Hin Hp]%js_find_Some. by apply examFor_test. Qed.

Lemma examFor_None config clientId now e : examFor config clientId now = None -> ~ sits config clientId now e.
Proof. intros Hn Hs. unfold examFor in Hn. rewrite js_find_None in Hn. pose proof (proj1 Hs) as Hin. specialize (Hn e Hin). cbn beta in Hn. apply examFor_test in Hs; [|done]. congruence. Qed.

Definition confined_to (hosts : list string) (c : WorkstationConfig) : Prop :=
  (forall h, h ∈ wc_whitelist c -> h ∈ hosts) /\ wc_printing c = mkPrinting false [] /\ wc_homeReset c = false /\ wc_targetUrl c = wc_broadcastUrl c.

(** C27. A workstation is told one thing at a time. One the plan does not cover
    is confined to the licence notice, with an epoch newer than any broadcast
    it may have followed. Whenever an exam of the configuration is running that is
    for everyone or for the workstation's group, it is confined to such an exam:
    it reaches exactly the exam's sites and cannot print, whatever else the
    organization allows. When there is none, and only then, it may reach the
    organization's allowlist, the host of the broadcast it follows and its
    portal's, and nothing else; it follows the newer of the two broadcasts, or is
    at its portal; and it is told only of printers for everyone or for its group. *)
Theorem configFor_confines `{UrlParser} config clientId portal now :
  let c := configFor config clientId portal now in
  let tenant := hc_tenant config in
  let own := default (None, 0) (assoc clientId (hc_deviceBroadcasts config)) in
  (forall since, assoc clientId (hc_unlicensed config) = Some since ->
     confined_to [host_of (notice_url tenant portal)] c /\ wc_targetUrl c = notice_url tenant portal /\
     t_broadcast_epoch tenant < wc_broadcastEpoch c /\ snd own < wc_broadcastEpoch c /\ since * 1000 < wc_broadcastEpoch c) /\
  (assoc clientId (hc_unlicensed config) = None -> (exists e, sits config clientId now e) ->
     exists e, sits config clientId now e /\ confined_to (x_hosts e) c /\ wc_whitelist c ≡ₚ x_hosts e /\ wc_targetUrl c = x_url e /\ wc_broadcastEpoch c = examEpoch (x_startsAt e)) /\
  (assoc clientId (hc_unlicensed config) = None -> (forall e, ~ sits config clientId now e) ->
     (forall h, h ∈ wc_whitelist c <-> h ∈ hc_whitelist config \/
        (h <> ""%string /\ ((wc_broadcastUrl c <> ""%string /\ h = host_of (wc_broadcastUrl c)) \/ (wc_portalUrl c <> ""%string /\ h = host_of (wc_portalUrl c))))) /\
     (if bool_decide (wc_broadcastUrl c = ""%string) then wc_targetUrl c = wc_portalUrl c /\ wc_broadcastEpoch c = 0
      else wc_targetUrl c = wc_broadcastUrl c /\ wc_broadcastEpoch c = Z.max (t_broadcast_epoch tenant) (snd own) /\
           exists u, (if t_broadcast_epoch tenant <? snd own then fst own else t_broadcast_url tenant) = Some u /\ safeHttpUrl u = Some (wc_broadcastUrl c)) /\
     (forall id name uri, (id, name, uri) ∈ wp_printers (wc_printing c) -> t_printing_enabled tenant = 1 /\
        exists p, p ∈ hc_printers config /\ (id, name, uri) = (pt_id p, pt_name p, pt_uri p) /\
          (pt_groupName p = None \/ pt_groupName p = assoc clientId (hc_printerGroups config)))).
Proof.
  cbv zeta. unfold configFor. destruct (assoc clientId (hc_unlicensed config)) as [since|]; (split; [|split]); try done.
  - intros ? [= <-]. cbn [wc_targetUrl wc_broadcastEpoch]. split_and!; try done; try lia. unfold confined_to. cbn [wc_whitelist wc_printing wc_homeReset wc_targetUrl wc_broadcastUrl].
    split_and!; try done. intros h Hh. destruct (String.eqb _ ""); [by apply elem_of_nil in Hh|done].
  - intros _ [e0 He0]. destruct (examFor config clientId now) as [e|] eqn:Ee.
    + apply examFor_Some in Ee. exists e. split; [done|]. cbn [wc_whitelist wc_targetUrl wc_broadcastEpoch]. split_and!; try done; [|apply js_sort_perm].
      unfold confined_to. cbn [wc_whitelist wc_printing wc_homeReset wc_targetUrl wc_broadcastUrl]. split_and!; try done. intros h Hh. by apply elem_of_js_sort in Hh.
    + by destruct (examFor_None config clientId now e0 Ee).
  - intros _ Hno. destruct (examFor config clientId now) as [e|] eqn:Ee.
    + by apply examFor_Some, Hno in Ee.
    + cbn [wc_whitelist wc_broadcastUrl wc_portalUrl wc_targetUrl wc_broadcastEpoch wc_printing]. split; [|split].
      * intros h. rewrite elem_of_js_sort, !elem_of_allow_host. destruct (active_broadcast config clientId) as [[u e]|]; naive_solver.
      * unfold active_broadcast, winner. set (own := default (None, 0) _).
        destruct (Z.ltb_spec (t_broadcast_epoch (hc_tenant config)) (snd own)) as [Hlt|Hge].
        -- destruct own as [[u|] e] eqn:Eo; cbn [fst snd] in *; [|by rewrite bool_decide_eq_true_2]. destruct (String.eqb u ""); [by rewrite bool_decide_eq_true_2|].
           destruct (safeHttpUrl u) as [v|] eqn:Ev; [|by rewrite bool_decide_eq_true_2]. destruct (String.eqb_spec v ""); [by rewrite bool_decide_eq_true_2|].
           rewrite bool_decide_eq_false_2 by done. split_and!; [done|lia|by exists u].
        -- cbn [fst]. destruct (t_broadcast_url (hc_tenant config)) as [u|]; [|by rewrite bool_decide_eq_true_2]. destruct (String.eqb u ""); [by rewrite bool_decide_eq_true_2|].
           destruct (safeHttpUrl u) as [v|] eqn:Ev; [|by rewrite bool_decide_eq_true_2]. destruct (String.eqb_spec v ""); [by rewrite bool_decide_eq_true_2|].
           rewrite bool_decide_eq_false_2 by done. split_and!; [done|lia|by exists u].
      * intros id name uri. unfold printingFor. destruct (Z.eqb_spec (t_printing_enabled (hc_tenant config)) 1) as [Hp|Hp]; cbn [negb wp_printers]; [|by intros ?%elem_of_nil].
        intros (p & E & [Hin Hg]%elem_of_bfilter)%list_elem_of_fmap. split; [done|]. exists p. split_and!; try done.
        apply orb_true_iff in Hg as [Hg%bool_decide_eq_true|[_ Hg%bool_decide_eq_true]%andb_true_iff]; auto.
Qed.

#[local] Existing Instance toy_url.

(** Two workstations while one group sits its exam. *)
Definition exam_config : HubConfig :=
  mkHubConfig (mkTenant "t1" "u1" "Greenwood" "greenwood" None active portal "" None None 0 None 0 0 stable 0 0 0 0 30 None None None 0)
    ["play.example"%string] [] [] [] [] [] [] [] [mkExamWindow "x1" "Maths" (Some "Lab"%string) "https://exam.example/" ["exam.example"%string] 100 200 false] [("PC-01", "Lab"); ("PC-02", "Hall")]%string [] 0.
Definition exam_portal : PortalContext := mkPortalContext "https://t.example" "https://t.example" true false "t.example" None "example".

Lemma configFor_confines_witness :
  (exists e, sits exam_config "PC-01" 150 e /\ wc_whitelist (configFor exam_config "PC-01" exam_portal 150) ≡ₚ x_hosts e /\ x_hosts e = ["exam.example"%string]) /\
  ("play.example"%string ∈ wc_whitelist (configFor exam_config "PC-02" exam_portal 150)) /\ "play.example"%string ∈ wc_whitelist (configFor exam_config "PC-01" exam_portal 200).
Proof.
  assert (Hone : forall id now e, sits exam_config id now e -> x_hosts e = ["exam.example"%string] /\ id = "PC-01"%string /\ now < 200).
  { intros id now e (Hin%list_elem_of_singleton & _ & Ht & Hg). subst e. cbn in Ht, Hg. split; [reflexivity|]. split; [|lia]. destruct Hg as [Hg|Hg]; [discriminate|]. destruct (String.eqb_spec id "PC-01"); [done|]. destruct (String.eqb id "PC-02"); discriminate. }
  assert (Hs : exists e, sits exam_config "PC-01" 150 e) by (eexists; split; [constructor|]; split; [reflexivity|]; split; [cbn; lia|right; reflexivity]).
  split; [|split].
  - destruct (proj1 (proj2 (configFor_confines exam_config "PC-01" exam_portal 150)) eq_refl Hs) as (e & He & _ & Hp & _). exists e. split; [exact He|]. split; [exact Hp|]. apply (Hone _ _ _ He).
  - apply (proj2 (proj2 (configFor_confines exam_config "PC-02" exam_portal 150)) eq_refl); [intros e He; by apply Hone in He as (_ & ? & _)|]. left. constructor.
  - apply (proj2 (proj2 (configFor_confines exam_config "PC-01" exam_portal 200)) eq_refl); [intros e He; apply Hone in He as (_ & _ & ?); lia|]. left. constructor.
Defined.
