(* ===== verification/Printing.v ===== *)
(** src/cloudflare-control/src/printing.ts: which printers an organization may
    list, and how the list is saved. What a workstation is told of it is in
    HubConfig.v. The random bytes of new identifiers are an argument, one list
    for each printer. *)
From S2P Require Import Prelude JsString Regex Platform Db Escape Allowlist Power Auth Releases Exams Guard Content HubConfig.

Definition MAX_PRINTERS : nat := 20.
Definition MAX_PRINTER_NAME_LENGTH : nat := 64.
Definition MAX_PRINTER_URI_LENGTH : nat := 255.
Definition PRINTER_ID_PATTERN : re := RRep 16 (RClass is_lower_hex).

(** ** Addresses *)

Definition is_hex (c : ascii) : bool := is_lower_hex (lower_char c).
Definition is_host_char (c : ascii) : bool := is_lower (lower_char c) || is_digit c || is_char "." c || is_char "-" c.
Definition is_path_char (c : ascii) : bool := is_host_char c || is_char "_" c || is_char "~" c || is_char "/" c.

Fixpoint str_span (p : ascii -> bool) (s : string) : string * string :=
  match s with
  | ""%string => (""%string, ""%string)
  | String c t => if p c then let '(a, b) := str_span p t in (String c a, b) else (""%string, s)
  end.

(** [(?:[A-Za-z0-9._~\/-]|%[0-9A-Fa-f]{2})*$]. *)
Fixpoint plain_path (s : string) : bool :=
  match s with
  | ""%string => true
  | String c t =>
      if is_path_char c then plain_path t
      else match t with
           | String d (String e u) => is_char "%" c && is_hex d && is_hex e && plain_path u
           | _ => false
           end
  end.

Record UriShape : Type := mkShape { sh_scheme : string; sh_host : string; sh_port : option string; sh_path : string }.

(** What follows the host: an optional port and path, nothing more. *)
Definition shape_rest (scheme host rest : string) : option UriShape :=
  let port_path :=
    match rest with
    | String c t => if is_char ":" c then let '(d, r) := str_span is_digit t in
                                          if String.eqb d "" || (5 <? String.length d)%nat then None else Some (Some d, r)
                    else Some (None, rest)
    | ""%string => Some (None, rest)
    end in
  match port_path with
  | None => None
  | Some (port, path) => if String.eqb path "" || (startsWith path "/" && plain_path path) then Some (mkShape scheme host port path) else None
  end.

(** [URI_SHAPE.exec(uri)]: no two parts of the pattern can share a character,
    so each part is as long as it can be. *)
Definition uri_shape (uri : string) : option UriShape :=
  let '(scheme, after) := str_span (fun c => is_lower (lower_char c)) uri in
  if negb (bool_decide (toLowerCase scheme ∈ ["ipp"; "ipps"]%string)) || negb (startsWith after "://") then None
  else
    match str_drop 3 after with
    | String c t =>
        if is_char "[" c then
          let '(inner, rest) := str_span (fun d => is_hex d || is_char ":" d) t in
          match rest with
          | String d rest' => if is_char "]" d && negb (String.eqb inner "") then shape_rest scheme ("[" +:+ inner +:+ "]") rest' else None
          | ""%string => None
          end
        else
          let '(host, rest) := str_span is_host_char (String c t) in
          if String.eqb host "" then None else shape_rest scheme host rest
    | ""%string => None
    end.

Definition IPV4_SHAPE : re := let digits := RPlus RDigit in RCat digits (RRep 3 (RCat (RChar ".") digits)).

(** [/^(0|[1-9][0-9]{0,2})$/]. *)
Definition OCTET : re := RAlt (RChar "0") (RCat (RClass (in_range 49 57)) (RUpto 2 RDigit)).

(** Whether an IPv4 address is on a private network, where it is one. *)
Definition private_ipv4 (host : string) : option bool :=
  let octets := List.map (fun part => if re_test OCTET part then digits_value part else -1) (split_on "." host) in
  match octets with
  | [a; b; c; d] =>
      if existsb (fun n => negb ((0 <=? n) && (n <=? 255))) octets then None
      else Some ((a =? 10) || ((a =? 172) && (16 <=? b) && (b <=? 31)) || ((a =? 192) && (b =? 168)) || ((a =? 169) && (b =? 254)))
  | _ => None
  end.

(** [/^f[cd][0-9a-f]{0,2}:[0-9a-f:]*$/]. *)
Definition UNIQUE_LOCAL : re :=
  RCat (RChar "f") (RCat (RClass (in_range 99 100)) (RCat (RUpto 2 (RClass is_lower_hex)) (RCat (RChar ":") (RStar (RClass (fun c => is_lower_hex c || is_char ":" c)))))).

Section Printing.
Context `{UrlParser}.

Definition isUniqueLocalIpv6 (bracketed : string) : bool :=
  let address := toLowerCase (str_drop_last 1 (str_drop 1 bracketed)) in
  if negb (re_test UNIQUE_LOCAL address) then false
  else match parseURL ("http://[" +:+ address +:+ "]/") with Some u => startsWith (url_hostname u) "[f" | None => false end.

Definition is_letter_in (name : string) : bool := str_existsb is_lower name.

Definition host_problem (host : string) : option string :=
  if startsWith host "[" then (if isUniqueLocalIpv6 host then None else Some "An IPv6 printer address must be a unique local address (fc00::/7)"%string)
  else if re_test IPV4_SHAPE host then
    match private_ipv4 host with
    | None => Some "That is not an IPv4 address"%string
    | Some false => Some "A printer's IP address must be on a private network (10.x, 172.16-31.x, 192.168.x or 169.254.x)"%string
    | Some true => None
    end
  else
    let name := strip_last_dot host in
    if (253 <? String.length name)%nat || negb (forallb (re_test RLabel) (split_on "." name)) then Some "That is not a host name"%string
    else if negb (is_letter_in name) then Some "That is not a host name"%string
    else if String.eqb name "localhost" || endsWith name ".localhost" then Some "A printer cannot be on the workstation itself"%string
    else None.

Definition SHAPE_REFUSAL : string :=
  "A printer address is ipp:// or ipps:// followed by the printer's host name or private address and an optional port and path, such as ipp://printer.example.org/ipp/print".

Definition printerUriProblem (raw : jsval) : option string :=
  match raw with
  | JsStr s =>
      let uri := trim s in
      if String.eqb uri "" then Some "Every printer needs an address"%string
      else if (MAX_PRINTER_URI_LENGTH <? String.length uri)%nat then Some "A printer address is at most 255 characters"%string
      else
        match uri_shape uri with
        | None => Some SHAPE_REFUSAL
        | Some shape =>
            if match sh_port shape with Some p => negb ((1 <=? digits_value p) && (digits_value p <=? 65535)) | None => false end then Some "A printer's port is from 1 to 65535"%string
            else host_problem (toLowerCase (sh_host shape))
        end
  | _ => Some "Every printer needs an address"%string
  end.

(** The scheme in lower case, the rest as it was. [indexOf] is -1 where there is
    no colon, and [slice(0, -1)] leaves out the last character. *)
Definition normalizePrinterUri (uri : string) : string :=
  let trimmed := trim uri in
  let colon := indexOf ":" trimmed in
  if colon =? -1 then toLowerCase (str_drop_last 1 trimmed) +:+ str_drop (String.length trimmed - 1) trimmed
  else toLowerCase (str_take (Z.to_nat colon) trimmed) +:+ str_drop (Z.to_nat colon) trimmed.

(** ** Names *)

(** Two more, U+2028 and U+2029, are not characters of the model. *)
Definition control_character (c : ascii) : bool := in_range 0 31 c || in_range 127 159 c.

Definition printerNameProblem (raw : jsval) : option string :=
  match raw with
  | JsStr s =>
      let name := trim s in
      if String.eqb name "" then Some "Every printer needs a name"%string
      else if (MAX_PRINTER_NAME_LENGTH <? String.length name)%nat then Some "A printer's name is at most 64 characters"%string
      else if str_existsb control_character name then Some "A printer's name cannot contain control characters"%string
      else None
  | _ => Some "Every printer needs a name"%string
  end.

Definition newPrinterId (bytes : list Z) : string := bufferToHex bytes.

(** ** Saving the settings *)

Inductive PrintingSettingsResult : Type :=
| PrintingOk (enabled : bool) (printers : list Printer)
| PrintingRefused (status : Z) (error : string).

Definition text_of (v : jsval) : string := match v with JsStr s => s | _ => ""%string end.

(** The state of the loop: the printers so far, the names and the identifiers taken. *)
Record PrinterList : Type := mkPrinterList { pl_out : list Printer; pl_names : list string; pl_ids : list string }.

Definition parse_printer (groups existingIds : list string) (index : nat) (random : list Z) (item : jsval) (st : PrinterList) : PrinterList + Z * string :=
  let where_ := "Printer " +:+ string_of_int (Z.of_nat index + 1) +:+ ": " in
  if negb (is_object item) then inr (400, where_ +:+ "not an object")
  else
    match printerNameProblem (js_get item "name"), printerUriProblem (js_get item "uri") with
    | Some p, _ => inr (400, where_ +:+ p)
    | None, Some p => inr (400, where_ +:+ p)
    | None, None =>
        let name := trim (text_of (js_get item "name")) in
        if bool_decide (toLowerCase name ∈ pl_names st) then inr (400, where_ +:+ "another printer already has the name " +:+ name)
        else
          let group : option string + Z * string :=
            let g := js_get item "groupName" in
            if is_absent g then inl None
            else match g with
                 | JsStr s => if bool_decide (s ∈ groups) then inl (Some s) else inr (404, where_ +:+ "workstation group not found")
                 | _ => inr (400, where_ +:+ "groupName is a group's name or null")
                 end in
          match group with
          | inr e => inr e
          | inl groupName =>
              let id := match js_get item "id" with
                        | JsStr s => if re_test PRINTER_ID_PATTERN s && bool_decide (s ∈ existingIds) && negb (bool_decide (s ∈ pl_ids st)) then s else newPrinterId random
                        | _ => newPrinterId random
                        end in
              inl (mkPrinterList (pl_out st ++ [mkPrinter id name (normalizePrinterUri (text_of (js_get item "uri"))) groupName]) (pl_names st ++ [toLowerCase name]) (pl_ids st ++ [id]))
          end
    end.

Fixpoint parse_printers (groups existingIds : list string) (random : nat -> list Z) (index : nat) (items : list jsval) (st : PrinterList) : PrinterList + Z * string :=
  match items with
  | [] => inl st
  | item :: rest =>
      match parse_printer groups existingIds index (random index) item st with
      | inr e => inr e
      | inl st' => parse_printers groups existingIds random (S index) rest st'
      end
  end.

Definition parsePrintingSettings (body : jsval) (groups existingIds : list string) (random : nat -> list Z) : PrintingSettingsResult :=
  if negb (is_object body) then PrintingRefused 400 "The request body must be an object"
  else
    match js_get body "enabled", js_get body "printers" with
    | JsBool enabled, JsArr printers =>
        if (MAX_PRINTERS <? length printers)%nat then PrintingRefused 400 "At most 20 printers"
        else match parse_printers groups existingIds random 0 printers (mkPrinterList [] [] []) with
             | inr (status, error) => PrintingRefused status error
             | inl st => PrintingOk enabled (pl_out st)
             end
    | JsBool _, _ => PrintingRefused 400 "printers is a list"
    | _, _ => PrintingRefused 400 "enabled is true or false"
    end.

Definition set_printing (enabled : bool) (now : Z) (t : Tenant) : Tenant :=
  mkTenant (t_id t) (t_user_id t) (t_name t) (t_subdomain t) (t_chosen_subdomain t) (t_status t) (t_mode t) (t_default_url t) (t_custom_domain t) (t_broadcast_url t)
    (t_broadcast_epoch t) (t_home_route t) (t_online_workstations t) (t_http_workstations t) (t_update_channel t) (t_lan_sharing t) (t_usage_sites t)
    (if enabled then 1 else 0) (t_home_reset t) (t_workstation_limit t) (t_license_plan t) (t_license_expires_at t) (t_trial_started_at t) now.

Fixpoint printer_rows (tenantId : string) (position now : Z) (l : list Printer) : list PrinterDbRow :=
  match l with
  | [] => []
  | p :: l' => mkPrinterRow (pt_id p) tenantId (pt_name p) (pt_uri p) (pt_groupName p) position now :: printer_rows tenantId (position + 1) now l'
  end.

(** One batch: a printer listed twice under one identifier breaks the key of the
    table, and nothing of the batch is kept. *)
Definition savePrintingSettings (db : D1Database) (tenantId : string) (enabled : bool) (l : list Printer) (now : Z) : js_result D1Database :=
  _ ← throw_if (negb (bool_decide (NoDup (List.map pt_id l)))) "UNIQUE constraint failed: printers.tenant_id, printers.id";
  Returns (on_printers (fun rows => List.filter (fun r => negb (String.eqb (p_tenant_id r) tenantId)) rows ++ printer_rows tenantId 0 now l)
    (on_tenants (List.map (fun t => if String.eqb (t_id t) tenantId then set_printing enabled now t else t)) db)).

Definition hasGroupPrinters (db : D1Database) (tenantId : string) : bool :=
  existsb (fun p => String.eqb (p_tenant_id p) tenantId && bool_decide (is_Some (p_group_name p)) &&
    existsb (fun t => String.eqb (t_id t) (p_tenant_id p) && (t_printing_enabled t =? 1)) (tenants db)) (printers db).

(** The names of the organization's groups ([listWorkstationGroups]). *)
Definition own_groups (db : D1Database) (tenantId : string) : list string :=
  js_sort by_code (List.map g_name (List.filter (fun g => String.eqb (g_tenant_id g) tenantId) (workstation_groups db))).

Definition printing_details (enabled : bool) (l : list Printer) : string :=
  (if enabled then "on" else "off") +:+ " printers=" +:+ str_take 400 (String.concat ", " (List.map pt_name l)).

(** POST /api/settings/printing; the body is [None] where it is no JSON. A
    database that throws is an answer of its own. *)
Definition post_printing (session : option Session) (tenant : option Tenant) (body : option jsval) (random : nat -> list Z) (now : Z) (c : Content) : Content * PrintingSettingsResult :=
  match requireTenantPermission (ct_db c) session tenant "settings", session, tenant, body with
  | Some denied, _, _, _ => (c, PrintingRefused (status denied) (message denied))
  | None, Some s, Some t, Some input =>
      match parsePrintingSettings input (own_groups (ct_db c) (t_id t)) (List.map pt_id (listPrinters (ct_db c) (t_id t))) random with
      | PrintingRefused code error => (c, PrintingRefused code error)
      | PrintingOk enabled l =>
          match savePrintingSettings (ct_db c) (t_id t) enabled l now with
          | Throws e => (c, PrintingRefused 500 e)
          | Returns db =>
              (notifyConfigChanged (t_id t) (audited (mkAudit (Some (t_id t)) (user_id s) "settings.printing" (Some (printing_details enabled l))) (on_content (fun _ => db) c)), PrintingOk enabled l)
          end
      end
  | None, _, _, _ => (c, PrintingRefused 400 "The request body must be JSON")
  end.
End Printing.

(** ** Properties *)

Lemma printer_rows_sorted t now l : forall pos,
  StronglySorted (fun a b => (if p_position a =? p_position b then p_created_at a - p_created_at b else p_position a - p_position b) <= 0) (printer_rows t pos now l) /\
  Forall (fun r => pos <= p_position r /\ p_created_at r = now) (printer_rows t pos now l).
Proof.
  induction l as [|p l IH]; intros pos; cbn; [split; constructor|]. destruct (IH (pos + 1)) as [Hs Hf]. split.
  - constructor; [done|]. revert Hf. apply Forall_impl. cbn. intros r [Hp ->]. destruct (Z.eqb_spec pos (p_position r)); lia.
  - constructor; [cbn; lia|]. revert Hf. apply Forall_impl. intros r [? ?]. lia.
Qed.

Lemma printer_rows_back t now l : forall pos, List.map (fun r => mkPrinter (p_id r) (p_name r) (p_uri r) (p_group_name r)) (printer_rows t pos now l) = l.
Proof. induction l as [|[i n u g] l IH]; intros pos; [done|]. cbn. by rewrite IH. Qed.

Lemma printer_rows_of t t' now l : forall pos, List.filter (fun r => String.eqb (p_tenant_id r) t') (printer_rows t pos now l) = if String.eqb t t' then printer_rows t pos now l else [].
Proof. induction l as [|p l IH]; intros pos; cbn; [by destruct (String.eqb t t')|]. rewrite IH. by destruct (String.eqb t t'). Qed.

Definition saved (db : D1Database) (t : string) (en : bool) (l : list Printer) (now : Z) : D1Database :=
  on_printers (fun rows => List.filter (fun r => negb (String.eqb (p_tenant_id r) t)) rows ++ printer_rows t 0 now l)
    (on_tenants (List.map (fun x => if String.eqb (t_id x) t then set_printing en now x else x)) db).

Lemma save_saved db t en l now db' : savePrintingSettings db t en l now = Returns db' -> db' = saved db t en l now /\ NoDup (List.map pt_id l).
Proof. unfold savePrintingSettings. intros Hs. invert_returns. apply negb_false_iff, bool_decide_eq_true in E. by subst. Qed.

Lemma listPrinters_saved db t en l now t' : listPrinters (saved db t en l now) t' = if String.eqb t t' then l else listPrinters db t'.
Proof.
  unfold listPrinters, saved. cbn [printers on_printers on_tenants]. rewrite List.filter_app, printer_rows_of. destruct (String.eqb_spec t t') as [<- |Hne].
  - rewrite (bfilter_none _ (List.filter _ _)).
    + cbn [app]. rewrite js_sort_id by apply printer_rows_sorted. apply printer_rows_back.
    + intros r Hr. apply list_elem_of_In, List.filter_In in Hr as [_ Hr]. by apply negb_true_iff in Hr.
  - rewrite app_nil_r. f_equal. f_equal. induction (printers db) as [|r rows IH]; [done|]. cbn. destruct (String.eqb_spec (p_tenant_id r) t) as [E|E]; cbn; [|by rewrite IH].
    rewrite IH. by rewrite (proj2 (String.eqb_neq (p_tenant_id r) t')) by congruence.
Qed.

Lemma find_saved db t en l now t' : findTenantById (saved db t en l now) t' = (fun x => if String.eqb t t' then set_printing en now x else x) <$> findTenantById db t'.
Proof.
  unfold findTenantById, saved, js_find. cbn [tenants on_printers on_tenants]. induction (tenants db) as [|x rows IH]; [done|]. cbn [List.map List.find].
  assert (Hid : forall y : Tenant, t_id (set_printing en now y) = t_id y) by done. destruct (String.eqb_spec (t_id x) t) as [E|E]; [rewrite Hid|];
    (destruct (String.eqb_spec (t_id x) t') as [E'|E']; [cbn [fmap option_fmap option_map]|exact IH]).
  - by rewrite (proj2 (String.eqb_eq t t')) by congruence.
  - by rewrite (proj2 (String.eqb_neq t t')) by congruence.
Qed.

(** ** What is accepted *)

(** An address, from its parts. *)
Definition uri_text (scheme host : string) (port : option string) (path : string) : string :=
  scheme +:+ "://" +:+ host +:+ (match port with Some p => ":" +:+ p | None => ""%string end) +:+ path.

Lemma str_span_app p s : let '(a, b) := str_span p s in s = a +:+ b /\ str_forallb p a = true.
Proof. induction s as [|c t IH]; cbn; [done|]. destruct (p c) eqn:E; [|done]. destruct (str_span p t) as [a b]. destruct IH as [-> Ha]. cbn. by rewrite E, Ha. Qed.

Lemma is_char_eq c d : is_char c d = true -> d = c.
Proof. apply Ascii.eqb_eq. Qed.

Lemma shape_rest_text scheme host rest sh : shape_rest scheme host rest = Some sh ->
  sh_scheme sh = scheme /\ sh_host sh = host /\ (match sh_port sh with Some p => ":" +:+ p | None => ""%string end) +:+ sh_path sh = rest.
Proof.
  unfold shape_rest. destruct rest as [|c t]; [cbn; by intros [= <-]|]. destruct (is_char ":" c) eqn:Ec.
  - apply is_char_eq in Ec as ->. pose proof (str_span_app is_digit t) as Hs. destruct (str_span is_digit t) as [d r]. destruct Hs as [-> _]. destruct (String.eqb d "" || _); [done|].
    destruct (String.eqb r "" || _); [|done]. by intros [= <-].
  - destruct (String.eqb (String c t) "" || _); [|done]. by intros [= <-].
Qed.

Lemma uri_shape_text uri sh : uri_shape uri = Some sh ->
  uri = uri_text (sh_scheme sh) (sh_host sh) (sh_port sh) (sh_path sh) /\ toLowerCase (sh_scheme sh) ∈ ["ipp"; "ipps"]%string /\ has_char ":" (sh_scheme sh) = false.
Proof.
  unfold uri_shape. pose proof (str_span_app (fun c => is_lower (lower_char c)) uri) as Hs. destruct (str_span _ uri) as [scheme after]. destruct Hs as [-> Hlet].
  destruct (bool_decide_reflect (toLowerCase scheme ∈ ["ipp"; "ipps"]%string)) as [Hipp|]; [|done]. destruct (startsWith after "://") eqn:Ea; [|done]. cbn [negb orb]. apply startsWith_iff in Ea as [t ->].
  change (str_drop 3 ("://" +:+ t)) with t. intros Hsh. assert (Hcolon : has_char ":" scheme = false).
  { eapply has_char_absent; [|exact Hlet]. intros d Hd. destruct (is_char ":" d) eqn:E; [|done]. apply is_char_eq in E as ->. discriminate Hd. }
  destruct t as [|c t]; [done|]. destruct (is_char "[" c) eqn:Ec.
  - apply is_char_eq in Ec as ->. pose proof (str_span_app (fun d => is_hex d || is_char ":" d) t) as Hs. destruct (str_span _ t) as [inner rest]. destruct Hs as [-> _]. destruct rest as [|d rest]; [done|].
    destruct (is_char "]" d) eqn:Ed; [|done]. apply is_char_eq in Ed as ->. destruct (negb _); [|done]. apply shape_rest_text in Hsh as (-> & -> & <-). split; [|done]. unfold uri_text. cbn [String.append]. by rewrite !str_app_assoc.
  - pose proof (str_span_app is_host_char (String c t)) as Hs. destruct (str_span _ (String c t)) as [host rest]. destruct Hs as [Hct _]. destruct (String.eqb host ""); [done|]. apply shape_rest_text in Hsh as (-> & -> & <-).
    split; [|done]. unfold uri_text. by rewrite Hct.
Qed.

Definition in_octet (n : Z) : Prop := 0 <= n <= 255.

(** Where a printer may be: on a private IPv4 network, at a unique local IPv6
    address, or at a host name that is not the workstation's own. *)
Definition printer_host (host : string) : Prop :=
  (exists a b c d, List.map digits_value (split_on "." host) = [a; b; c; d] /\ Forall in_octet [a; b; c; d] /\
     (a = 10 \/ (a = 172 /\ 16 <= b <= 31) \/ (a = 192 /\ b = 168) \/ (a = 169 /\ b = 254))) \/
  (startsWith host "[" = true /\ re_test UNIQUE_LOCAL (toLowerCase (str_drop_last 1 (str_drop 1 host))) = true) \/
  (Forall (fun label => re_test RLabel label = true) (split_on "." (strip_last_dot host)) /\ is_letter_in (strip_last_dot host) = true /\
   (String.length (strip_last_dot host) <= 253)%nat /\ strip_last_dot host <> "localhost"%string /\ endsWith (strip_last_dot host) ".localhost" = false).

Definition printer_uri (uri : string) : Prop :=
  (String.length uri <= MAX_PRINTER_URI_LENGTH)%nat /\
  exists scheme host port path, uri = uri_text scheme host port path /\ scheme ∈ ["ipp"; "ipps"]%string /\ printer_host (toLowerCase host) /\
    (forall p, port = Some p -> 1 <= digits_value p <= 65535).

Definition printer_ok (groups existing : list string) (random : nat -> list Z) (p : Printer) : Prop :=
  pt_name p <> ""%string /\ (String.length (pt_name p) <= MAX_PRINTER_NAME_LENGTH)%nat /\ str_existsb control_character (pt_name p) = false /\
  (forall g, pt_groupName p = Some g -> g ∈ groups) /\ (pt_id p ∈ existing \/ exists i, pt_id p = newPrinterId (random i)) /\ printer_uri (pt_uri p).

Lemma private_ipv4_sound host : private_ipv4 host = Some true ->
  exists a b c d, List.map digits_value (split_on "." host) = [a; b; c; d] /\ Forall in_octet [a; b; c; d] /\
     (a = 10 \/ (a = 172 /\ 16 <= b <= 31) \/ (a = 192 /\ b = 168) \/ (a = 169 /\ b = 254)).
Proof.
  unfold private_ipv4. destruct (split_on "." host) as [|w [|x [|y [|z [|? ?]]]]]; cbn [List.map]; try discriminate.
  set (octet := fun part => if re_test OCTET part then digits_value part else -1).
  assert (Ho : forall part, 0 <= octet part -> octet part = digits_value part) by (intros part; unfold octet; destruct (re_test OCTET part); lia).
  fold (octet w) (octet x) (octet y) (octet z). destruct (existsb _ _) eqn:Eo; [done|]. intros [= Hp]. exists (octet w), (octet x), (octet y), (octet z).
  assert (Hall : Forall in_octet [octet w; octet x; octet y; octet z]).
  { apply list.Forall_forall. intros n Hn. apply list_elem_of_In in Hn. destruct (decide (in_octet n)) as [|Hno]; [done|]. exfalso. apply not_true_iff_false in Eo. apply Eo. apply existsb_exists. exists n. split; [done|]. unfold in_octet in Hno. lia. }
  split; [|split; [done|lia]]. repeat (apply list.Forall_cons in Hall as [? Hall]). unfold in_octet in *. by rewrite !Ho by lia.
Qed.

Section Accepted.
Context `{UrlParser}.

Lemma host_problem_sound host : host_problem host = None -> printer_host host.
Proof.
  unfold host_problem, printer_host. destruct (startsWith host "[") eqn:Eb.
  - unfold isUniqueLocalIpv6. destruct (re_test UNIQUE_LOCAL _) eqn:Eu; [|done]. intros _. right. by left.
  - destruct (re_test IPV4_SHAPE host).
    + destruct (private_ipv4 host) as [[|]|] eqn:Ep; [|done..]. intros _. left. by apply private_ipv4_sound.
    + cbv zeta. destruct ((253 <? String.length (strip_last_dot host))%nat) eqn:El; [done|]. destruct (forallb _ _) eqn:Ef; [|done]. destruct (is_letter_in _) eqn:Ei; [|done].
      destruct (String.eqb_spec (strip_last_dot host) "localhost"); [done|]. destruct (endsWith _ ".localhost") eqn:Ee; [done|]. intros _. right. right.
      split_and!; [|done|apply Nat.ltb_ge in El; lia|done|done]. apply list.Forall_forall. intros label Hl. apply list_elem_of_In in Hl. by apply (proj1 (forallb_forall _ _) Ef).
Qed.

Lemma normalize_text scheme rest s : trim s = scheme +:+ String ":" rest -> has_char ":" scheme = false -> normalizePrinterUri s = toLowerCase scheme +:+ String ":" rest.
Proof.
  intros Ht Hc. unfold normalizePrinterUri. rewrite Ht. cbv zeta. unfold indexOf. rewrite indexOf_from_name by done. destruct (Z.eqb_spec (0 + Z.of_nat (String.length scheme)) (-1)); [lia|].
  rewrite Z.add_0_l, Nat2Z.id. by rewrite str_take_app, str_drop_app.
Qed.

Lemma printerUriProblem_sound raw : printerUriProblem raw = None -> printer_uri (normalizePrinterUri (text_of raw)).
Proof.
  unfold printerUriProblem. destruct raw as [| | | | |s| |]; try done. cbv zeta. destruct (String.eqb (trim s) ""); [done|]. destruct ((MAX_PRINTER_URI_LENGTH <? _)%nat) eqn:El; [done|].
  destruct (uri_shape (trim s)) as [sh|] eqn:Es; [|done]. apply uri_shape_text in Es as (Ht & Hipp & Hc). apply Nat.ltb_ge in El.
  destruct (match sh_port sh with Some p => _ | None => false end) eqn:Ep; [done|]. intros Hh%host_problem_sound. cbn [text_of].
  pose proof Ht as Hn. unfold uri_text in Hn. cbn [String.append] in Hn. apply normalize_text in Hn; [|done]. unfold printer_uri. split.
  - rewrite Ht in El. rewrite Hn. unfold uri_text in El. cbn [String.append] in El. rewrite str_length_app in El |- *. unfold toLowerCase. by rewrite str_length_map.
  - exists (toLowerCase (sh_scheme sh)), (sh_host sh), (sh_port sh), (sh_path sh). split_and!; [exact Hn|done|done|]. intros p Hp. rewrite Hp in Ep. lia.
Qed.

Lemma printerNameProblem_sound raw : printerNameProblem raw = None ->
  trim (text_of raw) <> ""%string /\ (String.length (trim (text_of raw)) <= MAX_PRINTER_NAME_LENGTH)%nat /\ str_existsb control_character (trim (text_of raw)) = false.
Proof.
  unfold printerNameProblem. destruct raw as [| | | | |s| |]; try done. cbv zeta. cbn [text_of]. destruct (String.eqb_spec (trim s) ""); [done|]. destruct ((MAX_PRINTER_NAME_LENGTH <? _)%nat) eqn:El; [done|].
  destruct (str_existsb control_character (trim s)) eqn:Ec; [done|]. intros _. apply Nat.ltb_ge in El. done.
Qed.

(** The state of the loop, as far as it got. *)
Definition list_ok (groups existing : list string) (random : nat -> list Z) (st : PrinterList) : Prop :=
  pl_names st = List.map (fun p => toLowerCase (pt_name p)) (pl_out st) /\ NoDup (pl_names st) /\ Forall (printer_ok groups existing random) (pl_out st).

Lemma parse_printer_ok groups existing random i item st st' :
  parse_printer groups existing i (random i) item st = inl st' -> list_ok groups existing random st -> list_ok groups existing random st' /\ length (pl_out st') = S (length (pl_out st)).
Proof.
  unfold parse_printer. cbv zeta. destruct (negb (is_object item)); [done|]. destruct (printerNameProblem (js_get item "name")) eqn:En; [done|]. destruct (printerUriProblem (js_get item "uri")) eqn:Eu; [done|].
  apply printerNameProblem_sound in En. apply printerUriProblem_sound in Eu. case_bool_decide as Hname; [done|]. set (name := trim (text_of (js_get item "name"))) in *.
  destruct (if is_absent (js_get item "groupName") then _ else _) as [g|] eqn:Eg; [|done]. intros [= <-] (Hnames & Hnd & Hall). unfold list_ok. cbn [pl_names pl_out]. split; [|rewrite length_app; cbn; lia].
  split_and!; [by rewrite map_app, Hnames|apply list.NoDup_app; split_and!; [done|intros x Hx ->%list_elem_of_singleton; done|apply NoDup_singleton]|].
  apply Forall_app. split; [done|]. constructor; [|constructor]. destruct En as (? & ? & ?). unfold printer_ok. cbn [pt_id pt_name pt_uri pt_groupName]. split_and!; try done.
  - intros g' ->. destruct (is_absent _); [done|]. destruct (js_get item "groupName"); try done. by case_bool_decide; simplify_eq.
  - destruct (js_get item "id") as [| | | | |s| |]; try (right; by exists i). destruct (re_test PRINTER_ID_PATTERN s); [|right; by exists i]. case_bool_decide as Hs; [|right; by exists i]. cbn. destruct (negb _); [by left|right; by exists i].
Qed.

Lemma parse_printers_ok groups existing random items : forall i st st',
  parse_printers groups existing random i items st = inl st' -> list_ok groups existing random st -> list_ok groups existing random st' /\ length (pl_out st') = (length (pl_out st) + length items)%nat.
Proof.
  induction items as [|item items IH]; intros i st st'; cbn; [intros [= <-] ?; split; [done|lia]|].
  destruct (parse_printer groups existing i (random i) item st) as [st1|] eqn:E; [|done]. intros Hp Hok. apply parse_printer_ok in E as [Hok1 Hl1]; [|done]. apply IH in Hp as [? Hl]; [|done]. split; [done|lia].
Qed.

Lemma parsePrintingSettings_ok body groups existing random en l : parsePrintingSettings body groups existing random = PrintingOk en l ->
  js_get body "enabled" = JsBool en /\ (length l <= MAX_PRINTERS)%nat /\ NoDup (List.map (fun p => toLowerCase (pt_name p)) l) /\ Forall (printer_ok groups existing random) l.
Proof.
  unfold parsePrintingSettings. destruct (negb (is_object body)); [done|]. destruct (js_get body "enabled") as [| |b| | | | |]; try done. destruct (js_get body "printers") as [| | | | | |items|]; try done.
  destruct ((MAX_PRINTERS <? length items)%nat) eqn:El; [done|]. apply Nat.ltb_ge in El. destruct (parse_printers _ _ _ _ _ _) as [st|[? ?]] eqn:Ep; [|done]. intros [= <- <-].
  apply parse_printers_ok in Ep as [(Hn & Hd & Ha) Hl]; [|split_and!; constructor]. cbn in Hl. split_and!; [done|lia|by rewrite <- Hn|done].
Qed.

(** Saving Settings, Printing keeps exactly the printers it answers with, in
    their order, and the switch, for that organization and no other, and tells
    its hub; what it refuses changes nothing. There are at most twenty printers,
    under different names however written, each for every workstation or for a
    group of the organization, each with a name of 1 to 64 characters and an
    [ipp:] or [ipps:] address of at most 255, to a private IPv4 address, a
    unique local IPv6 address or a host name that is not the workstation's own. *)
Theorem printing_settings_saved session t body random now c : let '(c', answer) := post_printing session (Some t) body random now c in
  match answer with
  | PrintingRefused _ _ => c' = c
  | PrintingOk en l =>
      (length l <= MAX_PRINTERS)%nat /\ NoDup (List.map (fun p => toLowerCase (pt_name p)) l) /\ NoDup (List.map pt_id l) /\
      Forall (printer_ok (own_groups (ct_db c) (t_id t)) (List.map pt_id (listPrinters (ct_db c) (t_id t))) random) l /\
      ct_told c' = ct_told c ++ [t_id t] /\
      (forall tenantId, listPrinters (ct_db c') tenantId = if String.eqb (t_id t) tenantId then l else listPrinters (ct_db c) tenantId) /\
      (forall tenantId, findTenantById (ct_db c') tenantId = (fun x => if String.eqb (t_id t) tenantId then set_printing en now x else x) <$> findTenantById (ct_db c) tenantId)
  end.
Proof.
  unfold post_printing. destruct (requireTenantPermission _ _ _ _); [done|]. destruct session as [s|]; [|done]. destruct body as [input|]; [|done].
  destruct (parsePrintingSettings _ _ _ _) as [en l|] eqn:Ep; [|done]. destruct (savePrintingSettings _ _ _ _ _) as [db|] eqn:Es; [|done].
  apply parsePrintingSettings_ok in Ep as (_ & ? & ? & ?). apply save_saved in Es as [-> ?]. split_and!; try done.
  - intros tenantId. apply listPrinters_saved.
  - intros tenantId. apply find_saved.
Qed.
End Accepted.

(** ** An example *)

#[local] Existing Instance toy_url.

Definition printer_entry (name uri : string) : jsval := JsObj [("name", JsStr name); ("uri", JsStr uri)]%string.
Definition printing_body (l : list jsval) : option jsval := Some (JsObj [("enabled", JsBool true); ("printers", JsArr l)]%string).
Definition post_demo (l : list jsval) : Content * PrintingSettingsResult :=
  post_printing (Some owner_session) (Some greenwood_org) (printing_body l) (fun i => repeat (Z.of_nat i) 8) 100 demo_content.

Example printers_saved :
  snd (post_demo [printer_entry " Office " "IPP://192.168.1.20:631/ipp/print"; printer_entry "Lab" "ipps://printer.example.org"]) =
    PrintingOk true [mkPrinter "0000000000000000" "Office" "ipp://192.168.1.20:631/ipp/print" None; mkPrinter "0101010101010101" "Lab" "ipps://printer.example.org" None] /\
  snd (post_demo [printer_entry "Office" "ipp://8.8.8.8/"]) =
    PrintingRefused 400 "Printer 1: A printer's IP address must be on a private network (10.x, 172.16-31.x, 192.168.x or 169.254.x)" /\
  snd (post_demo [printer_entry "Office" "ipp://10.0.0.1"; printer_entry "OFFICE" "ipp://10.0.0.2"]) =
    PrintingRefused 400 "Printer 2: another printer already has the name OFFICE" /\
  snd (post_demo [printer_entry "Office" "ipp://localhost/x"]) = PrintingRefused 400 "Printer 1: A printer cannot be on the workstation itself".
Proof. vm_compute. done. Qed.
