(* ===== verification/HubStatus.v ===== *)
(** What a workstation reports of itself, and how the hub keeps it:
    normalizeStatus, the attachments, statusOf, httpStatus, updateFieldsOf,
    updateFieldsChanged and registryRow of src/cloudflare-control/src/org_hub.ts,
    and normalizeUpdateReport of releases.ts.

    A report is untrusted: each field is validated on its own, and one that is
    unusable keeps what was known. The field [activeUrl] is given as the text
    [String] makes of it. [Number] is modelled exactly on its literals; a literal
    with more digits than a double holds is read without rounding. *)
From S2P Require Import Prelude JsString Regex Platform Db Escape Releases LanSharing HubStore HubConfig.

(** ** Number(value) *)

(** A finite number: an integer, or a fraction with its floor. *)
Inductive jsnum : Type := NInt (z : Z) | NFrac (floor : Z).

Fixpoint span_digits (s : string) : string * string :=
  match s with
  | String c t => if is_digit c then let '(d, rest) := span_digits t in (String c d, rest) else (""%string, s)
  | _ => (""%string, s)
  end.

Definition read_sign (s : string) : bool * string :=
  match s with
  | String c t => if is_char "-" c then (true, t) else if is_char "+" c then (false, t) else (false, s)
  | _ => (false, s)
  end.

(** What follows the digits of a decimal literal. *)
Definition read_exponent (s : string) : option Z :=
  match s with
  | ""%string => Some 0
  | String c t =>
      if is_char "e" (lower_char c) then
        let '(neg, body) := read_sign t in
        let '(d, rest) := span_digits body in
        if String.eqb d "" || negb (String.eqb rest "") then None else Some (if neg then - digits_value d else digits_value d)
      else None
  end.

(** [n * 10 ^ k], where a double is still finite. *)
Definition scaled (n k : Z) : option jsnum :=
  let big := 2 ^ 1024 - 2 ^ 970 in
  if 0 <=? k then (if big <=? Z.abs n * 10 ^ k then None else Some (NInt (n * 10 ^ k)))
  else
    let d := 10 ^ (- k) in
    if big * d <=? Z.abs n then None else Some (if n `mod` d =? 0 then NInt (n `div` d) else NFrac (n `div` d)).

Definition decimal_literal (s : string) : option jsnum :=
  let '(neg, body) := read_sign s in
  let '(i, r1) := span_digits body in
  let '(f, r2) := match r1 with String c r => if is_char "." c then span_digits r else (""%string, r1) | _ => (""%string, r1) end in
  if String.eqb (i +:+ f) "" then None
  else
    match read_exponent r2 with
    | Some e => scaled (if neg then - digits_value (i +:+ f) else digits_value (i +:+ f)) (e - Z.of_nat (String.length f))
    | None => None
    end.

Definition radix_digit (radix : Z) (c : ascii) : option Z :=
  let d := if is_digit c then code c - 48 else if is_lower (lower_char c) then code (lower_char c) - 87 else radix in
  if d <? radix then Some d else None.

Fixpoint radix_value (radix acc : Z) (s : string) : option Z :=
  match s with
  | ""%string => Some acc
  | String c t => match radix_digit radix c with Some d => radix_value radix (acc * radix + d) t | None => None end
  end.

Definition string_number (raw : string) : option jsnum :=
  let s := trim raw in
  let literal radix t := if String.eqb t "" then None else match radix_value radix 0 t with Some n => scaled n 0 | None => None end in
  match s with
  | ""%string => Some (NInt 0)
  | String z (String x t) =>
      if is_char "0" z && is_char "x" (lower_char x) then literal 16 t
      else if is_char "0" z && is_char "o" (lower_char x) then literal 8 t
      else if is_char "0" z && is_char "b" (lower_char x) then literal 2 t
      else decimal_literal s
  | _ => decimal_literal s
  end.

(** [Number(v)], [None] when it is not finite. *)
Fixpoint to_number (v : jsval) : option jsnum :=
  match v with
  | JsNull => Some (NInt 0)
  | JsBool b => Some (NInt (if b then 1 else 0))
  | JsInt z => Some (NInt z)
  | JsFrac f => Some (NFrac f)
  | JsStr s => string_number s
  | JsArr [] => Some (NInt 0)
  | JsArr [x] => match x with JsUndefined => Some (NInt 0) | JsBool _ => None | _ => to_number x end
  | _ => None
  end.

Example to_number_runs :
  List.map to_number [JsStr " 42 "; JsStr "0x1f"; JsStr "1.5e1"; JsStr "-2.5"; JsStr "7px"; JsStr "1e999"; JsArr [JsStr "8"]] =
  [Some (NInt 42); Some (NInt 31); Some (NInt 15); Some (NFrac (-3)); None; None; Some (NInt 8)].
Proof. vm_compute. reflexivity. Qed.

(** ** Update reports *)

Definition UPDATE_PHASES : list (string * UpdatePhase) :=
  [("live", live); ("idle", idle); ("checking", checking); ("downloading", downloading); ("ready", ready); ("staged", staged);
   ("installing", installing); ("up-to-date", up_to_date); ("error", phase_error)]%string.

Definition version_of (v : jsval) : option string :=
  match v with JsStr s => if isReleaseVersion s then Some s else None | _ => None end.

(** [typeof v === "string" && v.trim()], trimmed and cut. *)
Definition trimmed_text (max : nat) (v : jsval) : option string :=
  match v with JsStr s => option_map (str_take max) (nonempty (trim s)) | _ => None end.

Definition report_progress (v : jsval) : option Z :=
  if is_nullish v then None
  else match to_number v with Some (NInt z) | Some (NFrac z) => Some (Z.max 0 (Z.min 100 z)) | None => None end.

Definition MAX_SAFE_INTEGER : Z := 2 ^ 53 - 1.

Definition normalizeUpdateReport (raw : jsval) : option UpdateReport :=
  if negb (is_plain_object raw) then None
  else
    match match js_get raw "phase" with JsStr s => assoc s UPDATE_PHASES | _ => None end with
    | None => None
    | Some phase =>
        Some (mkUpdateReport phase (version_of (js_get raw "version")) (report_progress (js_get raw "progress"))
          (trimmed_text 300 (js_get raw "detail"))
          (match js_get raw "kind" with JsStr s => if String.eqb s "feature" then Some feature else if String.eqb s "security" then Some security else None | _ => None end)
          (match js_get raw "since" with JsInt z => if (0 <? z) && (z <=? MAX_SAFE_INTEGER) then Some z else None | _ => None end))
    end.

(** ** Reported status *)

Definition MAX_VNC_PASSWORD_LENGTH : nat := 64.
Definition AGENT_VERSION : re := RCat (RClass (fun c => is_digit c || is_alpha c || is_char "." c || is_char "+" c || is_char "-" c))
  (RUpto 31 (RClass (fun c => is_digit c || is_alpha c || is_char "." c || is_char "+" c || is_char "-" c))).

(** The fields of a report the hub reads. *)
Record StatusPayload : Type := mkStatusPayload {
  sp_clientNum : jsval;
  sp_activeUrl : string;
  sp_isLocked : jsval;
  sp_vncPassword : jsval;
  sp_imageVersion : jsval;
  sp_agentVersion : jsval;
  sp_update : jsval;
  sp_lan : jsval
}.

Record Status : Type := mkReported {
  s_clientNum : Z;
  s_activeUrl : string;
  s_isLocked : bool;
  s_vncPassword : option string;
  s_imageVersion : option string;
  s_agentVersion : option string;
  s_update : option UpdateReport;
  s_lan : option LanReport
}.

#[export] Instance Status_eq_dec : EqDecision Status.
Proof. solve_decision. Defined.

Section Status.
Context `{UrlParser}.

Definition normalizeStatus (payload : StatusPayload) (previous : option Status) : Status :=
  mkReported
    (match to_number (sp_clientNum payload) with
     | Some (NInt n) => if (0 <? n) && (n <? 100000) then n else default 1 (s_clientNum <$> previous)
     | _ => default 1 (s_clientNum <$> previous)
     end)
    (or_else (safeHttpUrl (sp_activeUrl payload)) (or_else (s_activeUrl <$> previous) ""))
    (match sp_isLocked payload with JsBool b => b | _ => default false (s_isLocked <$> previous) end)
    (coalesce (trimmed_text MAX_VNC_PASSWORD_LENGTH (sp_vncPassword payload)) (previous ≫= s_vncPassword))
    (coalesce (version_of (sp_imageVersion payload)) (previous ≫= s_imageVersion))
    (match sp_agentVersion payload with
     | JsStr s => if re_test AGENT_VERSION s then Some s else previous ≫= s_agentVersion
     | _ => previous ≫= s_agentVersion
     end)
    (match sp_update payload with JsUndefined => previous ≫= s_update | u => coalesce (normalizeUpdateReport u) (previous ≫= s_update) end)
    (match sp_lan payload with JsUndefined => previous ≫= s_lan | l => normalizeLanReport l end).
End Status.

Definition updateFieldsChanged (a b : Status) : bool :=
  negb (bool_decide (s_imageVersion a = s_imageVersion b)) || negb (bool_decide (s_agentVersion a = s_agentVersion b)) ||
  negb (sameUpdateReport (s_update a) (s_update b)) || negb (sameLanReport (s_lan a) (s_lan b)).

(** Whether a report says anything new. *)
Definition status_changed (a b : Status) : bool :=
  negb (String.eqb (s_activeUrl a) (s_activeUrl b)) || negb (bool_decide (s_isLocked a = s_isLocked b)) || negb (s_clientNum a =? s_clientNum b) ||
  negb (bool_decide (s_vncPassword a = s_vncPassword b)) || updateFieldsChanged a b.

(** ** Well-formed reports *)

Definition lan_ok (l : LanReport) : Prop :=
  MIN_PREFIX <= lan_prefix l <= MAX_PREFIX /\ exists v, ipv4Number (lan_address l) = Some v /\ isPrivateIpv4 v = true.

Definition report_ok (u : UpdateReport) : Prop :=
  (forall v, ur_version u = Some v -> isReleaseVersion v = true) /\ (forall p, ur_progress u = Some p -> 0 <= p <= 100) /\
  (forall d, ur_detail u = Some d -> (1 <= String.length d <= 300)%nat) /\ (forall n, ur_since u = Some n -> 0 < n).

Record status_ok `{UrlParser} (s : Status) : Prop := {
  so_num : 1 <= s_clientNum s < 100000;
  so_url : s_activeUrl s = ""%string \/ exists raw, safeHttpUrl raw = Some (s_activeUrl s);
  so_vnc p : s_vncPassword s = Some p -> (1 <= String.length p <= MAX_VNC_PASSWORD_LENGTH)%nat;
  so_image v : s_imageVersion s = Some v -> isReleaseVersion v = true;
  so_agent v : s_agentVersion s = Some v -> re_test AGENT_VERSION v = true;
  so_update u : s_update s = Some u -> report_ok u;
  so_lan l : s_lan s = Some l -> lan_ok l
}.

Lemma or_else_cases a b : a = Some (or_else a b) \/ or_else a b = b.
Proof. destruct a as [s|]; [|by right]. cbn. destruct (String.eqb s ""); [by right|by left]. Qed.

Lemma version_of_ok v s : version_of v = Some s -> isReleaseVersion s = true.
Proof. destruct v; cbn; try done. destruct (isReleaseVersion s0) eqn:E; [|done]. by intros [= <-]. Qed.

Lemma trimmed_text_ok max v t : (0 < max)%nat -> trimmed_text max v = Some t -> (1 <= String.length t <= max)%nat.
Proof.
  intros Hm. destruct v; cbn [trimmed_text]; try done. unfold nonempty. destruct (String.eqb_spec (trim s) ""); [done|].
  intros [= <-]. rewrite str_take_length. destruct (trim s); [done|]. cbn [String.length]. lia.
Qed.

Lemma normalizeUpdateReport_ok raw u : normalizeUpdateReport raw = Some u -> report_ok u.
Proof.
  unfold normalizeUpdateReport. destruct (negb _); [done|]. destruct (match js_get raw "phase" with JsStr s => _ | _ => _ end); [|done].
  intros [= <-]. split_and!; cbn [ur_version ur_progress ur_detail ur_since].
  - intros v. apply version_of_ok.
  - intros p. unfold report_progress. destruct (is_nullish _); [done|]. destruct (to_number _) as [[z|z]|]; [intros [= <-]; lia..|done].
  - intros d. apply trimmed_text_ok. lia.
  - intros n. destruct (js_get raw "since"); try done. destruct (Z.ltb_spec 0 z); [|done]. destruct (z <=? _); [|done]. intros [= <-]. done.
Qed.

Lemma normalizeLanReport_ok raw l : normalizeLanReport raw = Some l -> lan_ok l.
Proof.
  unfold normalizeLanReport. destruct (negb _); [done|]. destruct (ipv4Number _) as [v|] eqn:Ev; [|done].
  destruct (isPrivateIpv4 v) eqn:Ep; [|done]. cbn [negb]. destruct (as_integer _) as [p|]; [|done].
  destruct (Z.ltb_spec p MIN_PREFIX); [done|]. destruct (Z.ltb_spec MAX_PREFIX p); [done|]. cbn [orb]. destruct (_ || _); [done|].
  intros [= <-]. split; [done|]. eauto.
Qed.

Lemma normalizeStatus_ok `{UrlParser} payload previous : (forall p, previous = Some p -> status_ok p) -> status_ok (normalizeStatus payload previous).
Proof.
  intros Hp. assert (Hprev : forall A (f : Status -> option A) (Q : A -> Prop), (forall p, status_ok p -> forall a, f p = Some a -> Q a) -> forall a, (previous ≫= f) = Some a -> Q a).
  { intros A f Q Hf a. destruct previous as [p|]; [|done]. cbn. apply Hf, Hp. done. }
  split; cbn [s_clientNum s_activeUrl s_vncPassword s_imageVersion s_agentVersion s_update s_lan normalizeStatus].
  - assert (Hd : 1 <= default 1 (s_clientNum <$> previous) < 100000) by (destruct previous as [p|]; cbn; [apply (so_num p), Hp|lia]; done).
    destruct (to_number _) as [[n|n]|]; [|done..]. destruct (Z.ltb_spec 0 n), (Z.ltb_spec n 100000); cbn [andb]; try done. lia.
  - destruct (or_else_cases (safeHttpUrl (sp_activeUrl payload)) (or_else (s_activeUrl <$> previous) "")) as [E| ->]; [right; eauto|].
    destruct previous as [p|]; [|by left]. destruct (or_else_cases (s_activeUrl <$> Some p) "") as [E| ->]; [|by left]. apply (inj Some) in E. rewrite <- E. by apply so_url, Hp.
  - intros v. destruct (trimmed_text _ _) as [t|] eqn:E; cbn [coalesce]; [|by apply (Hprev _ s_vncPassword _ so_vnc)]. intros [= <-]. apply trimmed_text_ok in E; [done|]. unfold MAX_VNC_PASSWORD_LENGTH. lia.
  - intros v. destruct (version_of _) eqn:E; cbn [coalesce]; [|by apply (Hprev _ s_imageVersion _ so_image)]. intros [= <-]. by apply version_of_ok in E.
  - intros v. destruct (sp_agentVersion payload); try by apply (Hprev _ s_agentVersion _ so_agent). destruct (re_test AGENT_VERSION s) eqn:E; [by intros [= <-]|by apply (Hprev _ s_agentVersion _ so_agent)].
  - intros u. assert (Hc : coalesce (normalizeUpdateReport (sp_update payload)) (previous ≫= s_update) = Some u -> report_ok u).
    { destruct (normalizeUpdateReport _) eqn:E; cbn [coalesce]; [|by apply (Hprev _ s_update _ so_update)]. intros [= <-]. by apply normalizeUpdateReport_ok in E. }
    destruct (sp_update payload); try done.
  - intros l. destruct (sp_lan payload); try (apply normalizeLanReport_ok). by apply (Hprev _ s_lan _ so_lan).
Qed.
