(* ===== verification/HubExams.v ===== *)
(** How an organization's hub starts and ends exams (examTick, enqueue, noteExamEvent
    and scheduleExamAlarm of src/cloudflare-control/src/org_hub.ts).

    The alarm may fire any number of times; the hub notes each exam's phase in
    its own tables and acts when it changes. Which workstations are connected or
    online ([liveClients]) are arguments, and so are the UUIDs of the commands
    queued; the configuration sent to connected workstations is HubConfig.v's.
    Keys of notes are compared exactly: no key differs from [exam:] in case. *)
From S2P Require Import Prelude JsString Platform Db Exams HubStore HubConfig.

Definition exam_key (id : string) : string := "exam:" +:+ id.

(** What a tick does to one exam. *)
Inductive ExamStep : Type := Started | Finished.

#[export] Instance ExamStep_eq_dec : EqDecision ExamStep.
Proof. solve_decision. Defined.

Definition start_events (db : D1Database) (tenantId : string) (exam : ExamWindow) (online : string -> bool) (now : Z) : list (string * ExamEvent * Z) :=
  List.map (fun c => (fst c, if online (fst c) then start_online else start_offline, now)) (examClients db tenantId (x_groupName exam)).

(** One round of the loop; the step taken, if the exam's sessions are to be cleared. *)
Definition exam_step (tenantId : string) (nowMs : Z) (online : string -> bool) (exam : ExamWindow) (st : HubStorage * D1Database) :
    HubStorage * D1Database * option ExamStep :=
  let '(s, db) := st in
  let now := nowMs `div` 1000 in
  let key := exam_key (x_id exam) in
  let seen := readMeta s key in
  if x_endsAt exam <=? now then
    if bool_decide (seen = Some "ended"%string) then (s, db, None)
    else
      let s' := writeMeta key "ended" s in
      if x_cancelled exam then (s', db, None) else (s', fst (finishExam db exam nowMs), Some Finished)
  else if (x_startsAt exam <=? now) && negb (bool_decide (seen = Some "running"%string)) then
    (writeMeta key "running" s, recordExamEvents db (x_id exam) (start_events db tenantId exam online now), Some Started)
  else (s, db, None).

Fixpoint exam_steps (tenantId : string) (nowMs : Z) (online : string -> bool) (exams : list ExamWindow) (st : HubStorage * D1Database) :
    HubStorage * D1Database * list (ExamWindow * ExamStep) :=
  match exams with
  | [] => (st, [])
  | e :: l =>
      let '(s1, db1, step) := exam_step tenantId nowMs online e st in
      let '(st2, cleared) := exam_steps tenantId nowMs online l (s1, db1) in
      (st2, match step with Some p => (e, p) :: cleared | None => cleared end)
  end.

(** Notes about exams the configuration no longer has. *)
Definition forget_exams (exams : list ExamWindow) (s : HubStorage) : HubStorage :=
  let kept := List.map (fun e => exam_key (x_id e)) exams in
  on_meta (List.filter (fun kv => negb (startsWith (fst kv) "exam:" && negb (bool_decide (fst kv ∈ kept))))) s.

(** The sockets a command goes to; [sockets]: the connected workstations, each
    with its portal context. *)
Definition addressed (targets : list string) (sockets : list (string * PortalContext)) : list (string * PortalContext) :=
  if bool_decide ("all"%string ∈ targets) then sockets
  else mjoin (List.map (fun t => List.filter (fun ws => String.eqb (fst ws) t) sockets) targets).

Section Hub.
Context `{UrlParser}.

(** Each connected workstation is sent what is pending for it. *)
Definition deliver (config : option HubConfig) (now : Z) (st : HubStorage * list (string * list QueuedCommand)) (ws : string * PortalContext) :
    HubStorage * list (string * list QueuedCommand) :=
  match config with
  | None => st
  | Some c =>
      let '(s', sent) := pendingFor (fst ws) (wc_portalUrl (configFor c (fst ws) (snd ws) now)) now (fst st) in
      (s', match sent with [] => snd st | _ => snd st ++ [(fst ws, sent)] end)
  end.

(** The tables and what is sent; the live status a lock changes is not in the
    tables. [config]: what loadConfig returns, forced or not. *)
Definition enqueue (config : option HubConfig) (sockets : list (string * PortalContext)) (input : EnqueueInput) (ids : list string) (now : Z)
    (s : HubStorage) : HubStorage * list (string * list QueuedCommand) :=
  match List.filter (fun t => negb (String.eqb t "")) (en_targets input) with
  | [] => (s, [])
  | targets => foldl (deliver config now) (enqueue_rows input ids now s, []) (addressed targets sockets)
  end.

(** Whose browser sessions are cleared. *)
Definition clear_targets (db : D1Database) (tenantId : string) (exam : ExamWindow) : list string :=
  match x_groupName exam with None => ["all"%string] | Some g => List.map fst (examClients db tenantId (Some g)) end.

Definition clear_session_for (db : D1Database) (tenantId : string) (config : option HubConfig) (sockets : list (string * PortalContext)) (now : Z)
    (s : HubStorage) (p : ExamWindow * list string) : HubStorage :=
  match clear_targets db tenantId (fst p) with
  | [] => s
  | targets => fst (enqueue config sockets (mkEnqueue targets clear_session None None None None [] false) (snd p) now s)
  end.

(** A tick that found the configuration [config]; [reloaded] is the one
    configChanged reads and sends, and [ids] the UUIDs of the commands queued for
    each exam whose sessions are cleared. *)
Definition examTick (tenantId : string) (config : HubConfig) (reloaded : option HubConfig) (sockets : list (string * PortalContext)) (nowMs : Z)
    (online : string -> bool) (ids : list (list string)) (st : HubStorage * D1Database) : HubStorage * D1Database * list (ExamWindow * ExamStep) :=
  let '(s1, db1, cleared) := exam_steps tenantId nowMs online (hc_exams config) st in
  let s2 := forget_exams (hc_exams config) s1 in
  (foldl (clear_session_for db1 tenantId reloaded sockets (nowMs `div` 1000)) s2 (List.combine (List.map fst cleared) ids), db1, cleared).

(** When the alarm is due for the next start or end, if any. *)
Definition next_exam_time (exams : list ExamWindow) (now : Z) : option Z :=
  foldl (fun a b => Some (match a with Some x => Z.min x b | None => b end)) None
    (List.filter (fun t => now <? t) (mjoin (List.map (fun e => if x_cancelled e then [x_endsAt e] else [x_startsAt e; x_endsAt e]) exams))).

Definition noteExamEvent (db : D1Database) (config : option HubConfig) (event : ExamEvent) (clientId : string) (nowMs : Z) : D1Database :=
  match config with
  | None => db
  | Some c =>
      match examFor c clientId (nowMs `div` 1000) with
      | Some exam => recordExamEvents db (x_id exam) [(clientId, event, nowMs `div` 1000)]
      | None => db
      end
  end.

(** ** Notes *)

Lemma assoc_app {A} k (l m : list (string * A)) : assoc k (l ++ m) = match assoc k l with Some v => Some v | None => assoc k m end.
Proof. induction l as [|[k' v] l IH]; [done|]. cbn. by destruct (String.eqb k k'). Qed.

Lemma assoc_filter_keep {A} k (q : string * A -> bool) l : (forall v, q (k, v) = true) -> assoc k (List.filter q l) = assoc k l.
Proof.
  intros Hq. induction l as [|[k' v] l IH]; [done|]. cbn [List.filter assoc]. destruct (String.eqb_spec k k') as [<- |Hne].
  - rewrite Hq. cbn [assoc]. by rewrite String.eqb_refl.
  - destruct (q (k', v)); [cbn [assoc]; by rewrite (proj2 (String.eqb_neq k k'))|done].
Qed.

Lemma assoc_filter_drop {A} k (q : string * A -> bool) l : (forall v, q (k, v) = false) -> assoc k (List.filter q l) = None.
Proof.
  intros Hq. induction l as [|[k' v] l IH]; [done|]. cbn [List.filter]. destruct (q (k', v)) eqn:E; [|done]. cbn [assoc].
  destruct (String.eqb_spec k k') as [<- |]; [by rewrite Hq in E|done].
Qed.

Lemma readMeta_write s key value k : readMeta (writeMeta key value s) k = if String.eqb k key then Some value else readMeta s k.
Proof.
  unfold readMeta, writeMeta. cbn [meta on_meta]. rewrite assoc_app. destruct (String.eqb_spec k key) as [-> |Hne].
  - rewrite assoc_filter_drop by (intros v; cbn; by rewrite String.eqb_refl). cbn. by rewrite String.eqb_refl.
  - rewrite assoc_filter_keep by (intros v; cbn; by rewrite (proj2 (String.eqb_neq k key))). destruct (assoc k (meta s)); [done|].
    cbn. by rewrite (proj2 (String.eqb_neq k key)).
Qed.

Lemma exam_key_inj a b : exam_key a = exam_key b -> a = b.
Proof. apply str_app_inv_l. Qed.

Lemma readMeta_forget exams s e : e ∈ exams -> readMeta (forget_exams exams s) (exam_key (x_id e)) = readMeta s (exam_key (x_id e)).
Proof.
  intros He. unfold readMeta, forget_exams. cbn [meta on_meta]. apply assoc_filter_keep. intros v. cbn [fst].
  rewrite bool_decide_eq_true_2; [by rewrite andb_false_r|]. apply list_elem_of_fmap. eauto.
Qed.

(** Queueing and delivering commands leaves the notes alone. *)
Lemma meta_mark_delivered clientId rows : forall s, meta (foldl (mark_delivered clientId) s rows) = meta s.
Proof.
  induction rows as [|r l IH]; intros s; [done|]. cbn [foldl]. rewrite IH. unfold mark_delivered.
  destruct (String.eqb (c_target r) clientId); [done|]. by destruct (delivered s (c_id r) clientId).
Qed.

Lemma meta_deliver config now l : forall st, meta (fst (foldl (deliver config now) st l)) = meta (fst st).
Proof.
  induction l as [|ws l IH]; intros st; [done|]. cbn [foldl]. rewrite IH. unfold deliver. destruct config as [c|]; [|done].
  unfold pendingFor. cbn [fst]. apply meta_mark_delivered.
Qed.

Lemma meta_enqueue config sockets input ids now s : meta (fst (enqueue config sockets input ids now s)) = meta s.
Proof. unfold enqueue. destruct (List.filter _ (en_targets input)); [done|]. by rewrite meta_deliver. Qed.

Lemma readMeta_clear db tenantId config sockets now l :
  forall s k, readMeta (foldl (clear_session_for db tenantId config sockets now) s l) k = readMeta s k.
Proof.
  induction l as [|p l IH]; intros s k; [done|]. cbn [foldl]. rewrite IH. unfold clear_session_for, readMeta.
  destruct (clear_targets db tenantId p.1); [done|]. by rewrite meta_enqueue.
Qed.

(** ** One exam, tick by tick *)

(** The time of a tick against an exam's window: over, or running. *)
Definition over (t : ExamWindow * Z) : bool := x_endsAt (fst t) <=? snd t.
Definition running (t : ExamWindow * Z) : bool := (x_startsAt (fst t) <=? snd t) && negb (over t).

(** What the loop does to the note of an exam that was not cancelled. *)
Definition next_phase (t : ExamWindow * Z) (seen : option string) : option string * option ExamStep :=
  if over t then (Some "ended"%string, if bool_decide (seen = Some "ended"%string) then None else Some Finished)
  else if running t then (Some "running"%string, if bool_decide (seen = Some "running"%string) then None else Some Started)
  else (seen, None).

Definition steps_for (id : string) (cleared : list (ExamWindow * ExamStep)) : list ExamStep :=
  List.map snd (List.filter (fun p => String.eqb (x_id (fst p)) id) cleared).

Lemma exam_step_own tenantId nowMs online e s db s' db' step :
  x_cancelled e = false -> exam_step tenantId nowMs online e (s, db) = (s', db', step) ->
  (readMeta s' (exam_key (x_id e)), step) = next_phase (e, nowMs `div` 1000) (readMeta s (exam_key (x_id e))).
Proof.
  intros Hc. unfold exam_step, next_phase, running, over. cbn [fst snd]. rewrite Hc. destruct (x_endsAt e <=? nowMs `div` 1000); cbn [negb].
  - case_bool_decide as E; intros [= <- <- <-]; [by rewrite E|]. by rewrite readMeta_write, String.eqb_refl.
  - rewrite andb_true_r. destruct (x_startsAt e <=? nowMs `div` 1000); cbn [andb]; [|by intros [= <- <- <-]].
    case_bool_decide as E; cbn [negb]; intros [= <- <- <-]; [by rewrite E|]. by rewrite readMeta_write, String.eqb_refl.
Qed.

Lemma exam_step_other tenantId nowMs online e s db s' db' step id :
  x_id e <> id -> exam_step tenantId nowMs online e (s, db) = (s', db', step) -> readMeta s' (exam_key id) = readMeta s (exam_key id).
Proof.
  intros Hne. assert (Hk : forall v, readMeta (writeMeta (exam_key (x_id e)) v s) (exam_key id) = readMeta s (exam_key id)).
  { intros v. rewrite readMeta_write, (proj2 (String.eqb_neq _ _)); [done|]. intros E%exam_key_inj. congruence. }
  unfold exam_step. repeat match goal with |- context [if ?b then _ else _] => destruct b end; intros [= <- <- <-]; auto.
Qed.

Lemma exam_steps_absent tenantId nowMs online id l : forall s db s' db' cleared,
  id ∉ List.map x_id l -> exam_steps tenantId nowMs online l (s, db) = (s', db', cleared) ->
  readMeta s' (exam_key id) = readMeta s (exam_key id) /\ steps_for id cleared = [].
Proof.
  induction l as [|e l IH]; intros s db s' db' cleared Hid; cbn [exam_steps]; [by intros [= <- <- <-]|].
  cbn [List.map] in Hid. apply not_elem_of_cons in Hid as [Hne Hid].
  destruct (exam_step tenantId nowMs online e (s, db)) as [[s1 db1] step] eqn:E1. destruct (exam_steps tenantId nowMs online l (s1, db1)) as [[s2 db2] rest] eqn:E2.
  intros [= <- <- <-]. destruct (IH _ _ _ _ _ Hid E2) as [-> Hr]. split; [by apply (exam_step_other _ _ _ _ _ _ _ _ _ _ (not_eq_sym Hne) E1)|].
  destruct step as [p|]; [|done]. unfold steps_for. cbn [List.filter fst]. rewrite (proj2 (String.eqb_neq (x_id e) id)) by congruence. exact Hr.
Qed.

Lemma exam_steps_present tenantId nowMs online e l : forall s db s' db' cleared,
  NoDup (List.map x_id l) -> e ∈ l -> x_cancelled e = false -> exam_steps tenantId nowMs online l (s, db) = (s', db', cleared) ->
  readMeta s' (exam_key (x_id e)) = fst (next_phase (e, nowMs `div` 1000) (readMeta s (exam_key (x_id e)))) /\
  steps_for (x_id e) cleared = match snd (next_phase (e, nowMs `div` 1000) (readMeta s (exam_key (x_id e)))) with Some p => [p] | None => [] end.
Proof.
  induction l as [|f l IH]; intros s db s' db' cleared Hnd He Hc; [by apply elem_of_nil in He|]. cbn [exam_steps List.map] in *.
  apply list.NoDup_cons in Hnd as [Hf Hnd].
  destruct (exam_step tenantId nowMs online f (s, db)) as [[s1 db1] step] eqn:E1. destruct (exam_steps tenantId nowMs online l (s1, db1)) as [[s2 db2] rest] eqn:E2.
  intros [= <- <- <-]. apply elem_of_cons in He as [-> |He].
  - destruct (exam_steps_absent _ _ _ _ _ _ _ _ _ _ Hf E2) as [-> Hr]. pose proof (exam_step_own _ _ _ _ _ _ _ _ _ Hc E1) as Hown.
    rewrite <- Hown. cbn [fst snd]. split; [done|]. destruct step as [p|]; [|done]. unfold steps_for in *. cbn [List.filter fst].
    rewrite String.eqb_refl. cbn [List.map snd]. by rewrite Hr.
  - assert (Hne : x_id f <> x_id e) by (intros E; apply Hf; rewrite E; apply list_elem_of_fmap; eauto).
    destruct (IH _ _ _ _ _ Hnd He Hc E2) as [H1 H2]. rewrite (exam_step_other _ _ _ _ _ _ _ _ _ _ Hne E1) in H1, H2. split; [done|].
    destruct step as [p|]; [|done]. unfold steps_for in *. cbn [List.filter fst]. by rewrite (proj2 (String.eqb_neq (x_id f) (x_id e))).
Qed.

(** Any number of ticks while exam [id] is in the configuration and not
    cancelled, with whatever the hub writes about other things in between. The
    first list holds, for each tick, the exam's window as the configuration had
    it and the time; the second what was done to the exam. *)
Inductive exam_run (id : string) : list (ExamWindow * Z) -> list ExamStep -> HubStorage -> Prop :=
| er_start s : readMeta s (exam_key id) = None -> exam_run id [] [] s
| er_tick ticks log s db tenantId config reloaded sockets nowMs online ids e s' db' cleared :
    exam_run id ticks log s -> examTick tenantId config reloaded sockets nowMs online ids (s, db) = (s', db', cleared) ->
    NoDup (List.map x_id (hc_exams config)) -> e ∈ hc_exams config -> x_id e = id -> x_cancelled e = false ->
    exam_run id (ticks ++ [(e, nowMs `div` 1000)]) (log ++ steps_for id cleared) s'
| er_other ticks log s s' :
    exam_run id ticks log s -> readMeta s' (exam_key id) = readMeta s (exam_key id) -> exam_run id ticks log s'.

Lemma examTick_phase tenantId config reloaded sockets nowMs online ids s db s' db' cleared e :
  examTick tenantId config reloaded sockets nowMs online ids (s, db) = (s', db', cleared) ->
  NoDup (List.map x_id (hc_exams config)) -> e ∈ hc_exams config -> x_cancelled e = false ->
  readMeta s' (exam_key (x_id e)) = fst (next_phase (e, nowMs `div` 1000) (readMeta s (exam_key (x_id e)))) /\
  steps_for (x_id e) cleared = match snd (next_phase (e, nowMs `div` 1000) (readMeta s (exam_key (x_id e)))) with Some p => [p] | None => [] end.
Proof.
  unfold examTick. destruct (exam_steps tenantId nowMs online (hc_exams config) (s, db)) as [[s1 db1] steps] eqn:E. intros [= <- <- <-] Hnd He Hc.
  rewrite readMeta_clear, readMeta_forget by done. by apply (exam_steps_present _ _ _ _ _ _ _ _ _ _ Hnd He Hc E).
Qed.

(** Once over, an exam stays over: time goes on, and an end is only ever moved forward. *)
Definition stays_over (ticks : list (ExamWindow * Z)) : Prop := StronglySorted (fun a b => over a = true -> over b = true) ticks.

Lemma stays_over_app ticks t : stays_over (ticks ++ [t]) -> stays_over ticks /\ (over t = false -> existsb over ticks = false).
Proof.
  unfold stays_over. intros Hs. split.
  - clear -Hs. induction ticks as [|x l IH]; [constructor|]. cbn in Hs. apply StronglySorted_inv in Hs as [Hs Hx]. constructor; [by apply IH|].
    by apply Forall_app in Hx as [Hx _].
  - intros Ht. apply not_true_is_false. intros (x & Hx & Ho)%existsb_elem.
    induction ticks as [|y l IH]; [by apply elem_of_nil in Hx|]. cbn in Hs. apply StronglySorted_inv in Hs as [Hs Hy]. apply elem_of_cons in Hx as [-> |Hx]; [|by apply IH].
    rewrite list.Forall_forall in Hy. rewrite (Hy t) in Ht; [done| |done]. apply elem_of_app. right. constructor.
Qed.

Definition expected_log (ticks : list (ExamWindow * Z)) : list ExamStep :=
  (if existsb running ticks then [Started] else []) ++ (if existsb over ticks then [Finished] else []).

Definition expected_phase (ticks : list (ExamWindow * Z)) : option string :=
  if existsb over ticks then Some "ended"%string else if existsb running ticks then Some "running"%string else None.

Lemma exam_run_spec id ticks log s :
  exam_run id ticks log s -> stays_over ticks -> readMeta s (exam_key id) = expected_phase ticks /\ log = expected_log ticks.
Proof.
  induction 1 as [s Hs|ticks log s db tenantId config reloaded sockets nowMs online ids e s' db' cleared _ IH Htick Hnd He <- Hc|ticks log s s' _ IH Hsame]; intros Hover.
  - done.
  - destruct (stays_over_app _ _ Hover) as [Hprev Hnot]. destruct (IH Hprev) as [Hphase ->].
    destruct (examTick_phase _ _ _ _ _ _ _ _ _ _ _ _ _ Htick Hnd He Hc) as [-> ->]. rewrite Hphase. set (t := (e, nowMs `div` 1000)) in *.
    unfold next_phase, expected_log, expected_phase. rewrite !List.existsb_app. cbn [existsb]. rewrite !orb_false_r.
    destruct (over t) eqn:Eo; [|rewrite (Hnot eq_refl)]; (assert (Er : running t = running t) by done); unfold running in Er at 2; rewrite Eo in Er.
    + rewrite Er, andb_false_r, orb_false_r, orb_true_r. destruct (existsb over ticks); cbn [fst snd]; [by rewrite app_nil_r|].
      destruct (existsb running ticks); done.
    + destruct (running t); cbn [fst snd]; [|rewrite !orb_false_r; by rewrite app_nil_r]. rewrite orb_true_r. by destruct (existsb running ticks).
  - rewrite Hsame. by apply IH.
Qed.

(** Exams start and end once. However often the alarm fires, as long as the
    exam stays in the configuration, it is started once, at the first tick
    within its window (its workstations' online state recorded, their sessions
    cleared), and finished once, at the first tick after its end, never the
    other way round; an exam no tick fell within is only finished. *)
Theorem exam_starts_and_ends_once id ticks log s :
  exam_run id ticks log s -> stays_over ticks ->
  log = (if existsb running ticks then [Started] else []) ++ (if existsb over ticks then [Finished] else []).
Proof. intros Hr Ho. by destruct (exam_run_spec id ticks log s Hr Ho) as [_ ->]. Qed.

End Hub.

#[local] Existing Instance toy_url.

Lemma exam_starts_and_ends_once_witness :
  let e := mkExamWindow "x1" "Maths" None "https://exam.example/" ["exam.example"%string] 100 200 false in
  let c := mkHubConfig (mkTenant "t1" "u1" "Greenwood" "greenwood" None active portal "" None None 0 None 0 0 stable 0 0 0 0 30 None None None 0)
             [] [] [] [] [] [] [] [] [e] [] [] 0 in
  exists s, exam_run "x1" [(e, 50); (e, 150); (e, 160); (e, 250); (e, 260)] [Started; Finished] s /\
    [Started; Finished] = (if existsb running [(e, 50); (e, 150); (e, 160); (e, 250); (e, 260)] then [Started] else []) ++
                          (if existsb over [(e, 50); (e, 150); (e, 160); (e, 250); (e, 260)] then [Finished] else []).
Proof.
  intros e c. set (db := empty_db).
  set (tick := fun now st => fst (examTick "t1" c (Some c) [] (now * 1000) (fun _ => true) [["u1"%string]] st)).
  set (st1 := tick 50 (empty_storage, db)). set (st2 := tick 150 st1). set (st3 := tick 160 st2). set (st4 := tick 250 st3). set (st5 := tick 260 st4).
  assert (Hr : exam_run "x1" [(e, 50); (e, 150); (e, 160); (e, 250); (e, 260)] [Started; Finished] (fst st5)).
  { pose proof (er_start "x1" empty_storage eq_refl) as H0.
    assert (Hin : e ∈ hc_exams c) by constructor. assert (Hnd : NoDup (List.map x_id (hc_exams c))) by (apply NoDup_singleton).
    pose proof (er_tick "x1" _ _ _ db "t1" c (Some c) [] 50000 (fun _ => true) [["u1"%string]] e (fst st1) (snd st1) [] H0 eq_refl Hnd Hin eq_refl eq_refl) as H1.
    pose proof (er_tick "x1" _ _ _ (snd st1) "t1" c (Some c) [] 150000 (fun _ => true) [["u1"%string]] e (fst st2) (snd st2) [(e, Started)] H1 eq_refl Hnd Hin eq_refl eq_refl) as H2.
    pose proof (er_tick "x1" _ _ _ (snd st2) "t1" c (Some c) [] 160000 (fun _ => true) [["u1"%string]] e (fst st3) (snd st3) [] H2 eq_refl Hnd Hin eq_refl eq_refl) as H3.
    pose proof (er_tick "x1" _ _ _ (snd st3) "t1" c (Some c) [] 250000 (fun _ => true) [["u1"%string]] e (fst st4) (snd st4) [(e, Finished)] H3 eq_refl Hnd Hin eq_refl eq_refl) as H4.
    exact (er_tick "x1" _ _ _ (snd st4) "t1" c (Some c) [] 260000 (fun _ => true) [["u1"%string]] e (fst st5) (snd st5) [] H4 eq_refl Hnd Hin eq_refl eq_refl). }
  exists (fst st5). split; [exact Hr|]. apply (exam_starts_and_ends_once "x1" _ _ _ Hr). unfold stays_over. repeat constructor; vm_compute; congruence.
Defined.
