(* ===== verification/HubLive.v ===== *)
(** An organization's hub at work: the class OrgHub of
    src/cloudflare-control/src/org_hub.ts, over the tables of HubStore.v, the
    configuration of HubConfig.v and the reports of HubStatus.v.

    The state is what the Durable Object keeps in three places: its SQLite, its
    sockets with their attachments and the alarm, which survive hibernation; and
    its maps in memory, which do not. The D1 database is part of the state too.
    Each method is a function of the state; what it sends is appended to
    [sent], and a socket the runtime no longer delivers to takes what is sent
    without a trace, as [sendRaw] does. [asked] and
    [handed] are records kept for the proofs: which commands were asked for, and
    which workstation was given which, and when. A handler runs at one moment, [now] in
    milliseconds, and alone. UUIDs are [uuid 0], [uuid 1] and so on. Data points for metrics
    ([recordEvent]) change nothing here and are left out; the organization and
    the counts the hub last wrote are read from its notes, where they are kept. *)
From S2P Require Import Prelude JsString Regex Platform Db Escape Allowlist Releases LanSharing Power Exams HubStore HubConfig HubStatus HubExams.

Definition SOCKET_STALE_MS : Z := 75000.
Definition HTTP_HEARTBEAT_ATTENDED_SECONDS : Z := 3.
Definition HTTP_HEARTBEAT_IDLE_SECONDS : Z := 15.
Definition HTTP_ATTENTION_MS : Z := 60000.
Definition HTTP_ONLINE_MS : Z := (2 * HTTP_HEARTBEAT_IDLE_SECONDS + 6) * 1000.
Definition FLUSH_DELAY_MS : Z := 20000.
Definition CONSOLE_SWEEP_MS : Z := 30000.
Definition REGISTRY_REFRESH_MS : Z := 5 * 60000.
Definition POLL_WATCH_LEASE_MS : Z := 10000.
Definition MAX_WATCHED : nat := 500.
Definition RELEASE_NUDGE_MS : Z := 10 * 60000.
Definition RELEASE_NUDGE_AFTER_ERROR_MS : Z := 60 * 60000.
Definition CLOSE_REPLACED : Z := 4000.
Definition CLOSE_REMOVED : Z := 4001.
Definition CLOSE_INACTIVE : Z := 4003.
Definition CLOSE_STALE : Z := 4008.
Definition RESERVED_CODES : list Z := [1005; 1006; 1015].
Definition LAST_AGENT_WITHOUT_WAKE : string := "3.2.0".
Definition MAX_WAKE_MACS_PER_COMMAND : nat := 64.

(** ** State *)

Record DeviceAttachment : Type := mkDevice {
  da_clientId : string;
  da_status : Status;
  da_ip : string;
  da_portal : PortalContext;
  da_connectedAt : Z;
  da_nudgedAt : option Z;
  da_nudgedVersion : option string;
  da_lanHeldSince : option Z;
  da_streaming : bool;
  da_dirty : bool;
  da_writtenAt : Z
}.

Record ConsoleAttachment : Type := mkConsole { ca_userId : string; ca_watch : list string }.

Inductive Attachment : Type := ADevice (a : DeviceAttachment) | AConsole (c : ConsoleAttachment).

(** A socket the runtime lists, with its attachment and when it last answered a ping by itself. *)
Record Ws : Type := mkWs { ws_id : nat; ws_attachment : Attachment; ws_pinged : option Z }.

Record HttpClient : Type := mkHttp {
  ht_status : Status;
  ht_ip : string;
  ht_portal : PortalContext;
  ht_lastSeen : Z;
  ht_nudgedAt : option Z;
  ht_nudgedVersion : option string;
  ht_dirty : bool;
  ht_writtenAt : Z
}.

Inductive Message : Type :=
| MPong
| MConfig (update : WorkstationConfig) (commands : option (list QueuedCommand))
| MCommands (commands : list QueuedCommand)
| MFrames (on : bool)
| MFrame (clientId thumbnail : string)
| MStatus (client : LiveStatus)
| MRemoved (clientId : string)
| MSnapshot (clients : list (string * LiveStatus)).

(** What leaves the hub: messages and closes on its sockets, and of its answers to
    the Worker those that carry commands or screens (to a heartbeat, to /live). *)
Inductive Effect : Type :=
| Sent (ws : nat) (m : Message)
| Closed (ws : nat) (code : Z)
| AnsweredHeartbeat (clientId : string) (commands : list QueuedCommand)
| AnsweredLive (clients : list (string * LiveStatus)).

(** What hibernation forgets. A Map is the list of its entries in order. *)
Record Memory : Type := mkMemory {
  config : option HubConfig;
  http : list (string * HttpClient);
  frames : list (string * string);
  lastMessage : list (string * Z);
  pollWatch : list (string * Z);
  attendedUntil : Z;
  departed : list nat
}.

(** A command the hub was asked for, for one target, and the second it was: one
    UUID is drawn for each, in this order. *)
Record Asked : Type := mkAsked { ak_target : string; ak_input : EnqueueInput; ak_at : Z }.

(** [asked], [handed] and [sent] are the history: the commands asked for, those
    given (to whom, which, in which second), and everything sent. *)
Record Hub : Type := mkHub {
  store : HubStorage;
  sockets : list Ws;
  alarm_at : option Z;
  memory : Memory;
  d1 : D1Database;
  asked : list Asked;
  handed : list (string * string * Z);
  sent : list Effect
}.

Definition drawn (h : Hub) : nat := length (asked h).

Definition on_store (f : HubStorage -> HubStorage) (h : Hub) : Hub := mkHub (f (store h)) (sockets h) (alarm_at h) (memory h) (d1 h) (asked h) (handed h) (sent h).
Definition on_sockets (f : list Ws -> list Ws) (h : Hub) : Hub := mkHub (store h) (f (sockets h)) (alarm_at h) (memory h) (d1 h) (asked h) (handed h) (sent h).
Definition setAlarm (at_ : Z) (h : Hub) : Hub := mkHub (store h) (sockets h) (Some at_) (memory h) (d1 h) (asked h) (handed h) (sent h).
Definition on_memory (f : Memory -> Memory) (h : Hub) : Hub := mkHub (store h) (sockets h) (alarm_at h) (f (memory h)) (d1 h) (asked h) (handed h) (sent h).
Definition on_d1 (f : D1Database -> D1Database) (h : Hub) : Hub := mkHub (store h) (sockets h) (alarm_at h) (memory h) (f (d1 h)) (asked h) (handed h) (sent h).
Definition draw (l : list Asked) (h : Hub) : Hub := mkHub (store h) (sockets h) (alarm_at h) (memory h) (d1 h) (asked h ++ l) (handed h) (sent h).
Definition emit (e : Effect) (h : Hub) : Hub := mkHub (store h) (sockets h) (alarm_at h) (memory h) (d1 h) (asked h) (handed h) (sent h ++ [e]).

Definition hand_out (l : list (string * string * Z)) (h : Hub) : Hub := mkHub (store h) (sockets h) (alarm_at h) (memory h) (d1 h) (asked h) (handed h ++ l) (sent h).

(** The commands in what leaves the hub. *)
Definition carried (e : Effect) : list QueuedCommand :=
  match e with Sent _ (MCommands l) | Sent _ (MConfig _ (Some l)) | AnsweredHeartbeat _ l => l | _ => [] end.

Definition set_config (c : option HubConfig) (m : Memory) : Memory := mkMemory c (http m) (frames m) (lastMessage m) (pollWatch m) (attendedUntil m) (departed m).
Definition on_http (f : list (string * HttpClient) -> list (string * HttpClient)) (m : Memory) : Memory :=
  mkMemory (config m) (f (http m)) (frames m) (lastMessage m) (pollWatch m) (attendedUntil m) (departed m).
Definition on_frames (f : list (string * string) -> list (string * string)) (m : Memory) : Memory :=
  mkMemory (config m) (http m) (f (frames m)) (lastMessage m) (pollWatch m) (attendedUntil m) (departed m).
Definition on_lastMessage (f : list (string * Z) -> list (string * Z)) (m : Memory) : Memory :=
  mkMemory (config m) (http m) (frames m) (f (lastMessage m)) (pollWatch m) (attendedUntil m) (departed m).
Definition on_pollWatch (f : list (string * Z) -> list (string * Z)) (m : Memory) : Memory :=
  mkMemory (config m) (http m) (frames m) (lastMessage m) (f (pollWatch m)) (attendedUntil m) (departed m).
Definition set_attended (until : Z) (m : Memory) : Memory := mkMemory (config m) (http m) (frames m) (lastMessage m) (pollWatch m) until (departed m).
Definition add_departed (ws : nat) (m : Memory) : Memory := mkMemory (config m) (http m) (frames m) (lastMessage m) (pollWatch m) (attendedUntil m) (departed m ++ [ws]).

(** The screens in a message: whose, and the frame. *)
Definition thumbnail_in (e : string * LiveStatus) : option (string * string) := option_map (pair (fst e)) (l_thumbnail (snd e)).
Definition screens (m : Message) : list (string * string) :=
  match m with
  | MFrame clientId f => [(clientId, f)]
  | MStatus s => option_list (option_map (pair (l_clientId s)) (l_thumbnail s))
  | MSnapshot l => omap thumbnail_in l
  | _ => []
  end.

(** [map.set(k, v)] and [map.delete(k)]. *)
Definition map_set {A} (k : string) (v : A) : list (string * A) -> list (string * A) := upsert (fun e => String.eqb (fst e) k) (fun _ => (k, v)) (k, v).
Definition map_delete {A} (k : string) : list (string * A) -> list (string * A) := List.filter (fun e => negb (String.eqb (fst e) k)).

Definition tenantId (h : Hub) : string := default ""%string (readMeta (store h) "tenantId").

(** ** Sockets *)

Definition device_of (ws : Ws) : option DeviceAttachment := match ws_attachment ws with ADevice a => Some a | _ => None end.
Definition console_of (ws : Ws) : option ConsoleAttachment := match ws_attachment ws with AConsole c => Some c | _ => None end.

Definition socket (id : nat) (h : Hub) : option Ws := js_find (fun ws => (ws_id ws =? id)%nat) (sockets h).

(** The workstations' sockets, and one workstation's: [getWebSockets("device")]
    and [getWebSockets("device:<id>")]. *)
Definition devices (h : Hub) : list nat := List.map ws_id (List.filter (fun ws => match device_of ws with Some _ => true | None => false end) (sockets h)).
Definition is_of (clientId : string) (ws : Ws) : bool := match device_of ws with Some a => String.eqb (da_clientId a) clientId | None => false end.
Definition device_sockets (clientId : string) (h : Hub) : list nat := List.map ws_id (List.filter (is_of clientId) (sockets h)).
Definition consoles (h : Hub) : list Ws := List.filter (fun ws => match console_of ws with Some _ => true | None => false end) (sockets h).

Definition deviceAttachment (id : nat) (h : Hub) : option DeviceAttachment := socket id h ≫= device_of.

Definition serializeAttachment (id : nat) (a : Attachment) : Hub -> Hub :=
  on_sockets (List.map (fun ws => if (ws_id ws =? id)%nat then mkWs (ws_id ws) a (ws_pinged ws) else ws)).

(** Sends commands: what leaves is recorded for the workstation it leaves to, the
    one on the other end of the socket or the one that is answered. *)
Definition recipient (e : Effect) (h : Hub) : option string :=
  match e with Sent ws _ => option_map da_clientId (deviceAttachment ws h) | AnsweredHeartbeat clientId _ => Some clientId | _ => None end.
Definition given_by (e : Effect) (now : Z) (h : Hub) : list (string * string * Z) :=
  match recipient e h with Some clientId => List.map (fun q => (clientId, q_id q, now `div` 1000)) (carried e) | None => [] end.
Definition give (e : Effect) (now : Z) (h : Hub) : Hub := emit e (hand_out (given_by e now h) h).

(** [for (const ws of this.ctx.getWebSockets("device"))]: the sockets listed when
    the loop starts, each attachment read when its turn comes. *)
Definition for_devices (ids : list nat) (f : nat -> DeviceAttachment -> Hub -> Hub) (h : Hub) : Hub :=
  foldl (fun h' id => match deviceAttachment id h' with Some a => f id a h' | None => h' end) h ids.

Definition notifyConsoles (m : Message) (h : Hub) : Hub := foldl (fun h' ws => emit (Sent (ws_id ws) m) h') h (consoles h).

Definition lastSeenOf (ws : Ws) (a : DeviceAttachment) (h : Hub) : Z :=
  Z.max (da_connectedAt a) (Z.max (default 0 (ws_pinged ws)) (default 0 (assoc (da_clientId a) (lastMessage (memory h))))).

(** No later than [delayMs] from now. *)
Definition ensureAlarm (delayMs now : Z) (h : Hub) : Hub :=
  match alarm_at h with
  | Some current => if now + delayMs <? current then setAlarm (now + delayMs) h else h
  | None => setAlarm (now + delayMs) h
  end.

(** ** Live status *)

Definition statusOf (a : DeviceAttachment) (lastSeen : Z) (online : bool) : LiveStatus :=
  let s := da_status a in
  mkLive (da_clientId a) (s_clientNum s) (s_activeUrl s) (s_isLocked s) (da_ip a) (s_vncPassword s) online lastSeen websocket None
    (s_imageVersion s) (s_agentVersion s) (s_update s) (da_lanHeldSince a).

Definition httpStatus (clientId : string) (c : HttpClient) (now : Z) : LiveStatus :=
  let s := ht_status c in
  mkLive clientId (s_clientNum s) (s_activeUrl s) (s_isLocked s) (ht_ip c) (s_vncPassword s) (now - ht_lastSeen c <? HTTP_ONLINE_MS) (ht_lastSeen c) over_http None
    (s_imageVersion s) (s_agentVersion s) (s_update s) None.

Definition offline (s : LiveStatus) : LiveStatus :=
  mkLive (l_clientId s) (l_clientNum s) (l_activeUrl s) (l_isLocked s) (l_ip s) (l_vncPassword s) false (l_lastSeen s) (l_transport s) (l_thumbnail s)
    (l_imageVersion s) (l_agentVersion s) (l_update s) (l_updateWaitingSince s).

Definition with_thumbnail (frame : string) (s : LiveStatus) : LiveStatus :=
  mkLive (l_clientId s) (l_clientNum s) (l_activeUrl s) (l_isLocked s) (l_ip s) (l_vncPassword s) (l_online s) (l_lastSeen s) (l_transport s) (Some frame)
    (l_imageVersion s) (l_agentVersion s) (l_update s) (l_updateWaitingSince s).

Definition list_socket (h : Hub) (now : Z) (clients : list (string * LiveStatus)) (ws : Ws) : list (string * LiveStatus) :=
  match device_of ws with
  | Some a =>
      if isRevoked (store h) (da_clientId a) then clients
      else map_set (da_clientId a) (statusOf a (lastSeenOf ws a h) (now - lastSeenOf ws a h <? SOCKET_STALE_MS)) clients
  | None => clients
  end.

Definition list_http (now : Z) (clients : list (string * LiveStatus)) (e : string * HttpClient) : list (string * LiveStatus) :=
  match assoc (fst e) clients with Some _ => clients | None => map_set (fst e) (httpStatus (fst e) (snd e) now) clients end.

Definition show_frame (clients : list (string * LiveStatus)) (e : string * string) : list (string * LiveStatus) :=
  match assoc (fst e) clients with
  | Some s => if l_online s then map_set (fst e) (with_thumbnail (snd e) s) clients else clients
  | None => clients
  end.

Definition liveClients (withFrames : bool) (now : Z) (h : Hub) : list (string * LiveStatus) :=
  let listed := foldl (list_http now) (foldl (list_socket h now) [] (sockets h)) (http (memory h)) in
  if withFrames then foldl show_frame listed (frames (memory h)) else listed.

(** ** Write-back to D1 *)

Definition registryRow (h : Hub) (clientId ip : string) (s : Status) (lastSeenMs : Z) : DeviceRegistryRow :=
  mkRegistryRow (tenantId h) clientId (s_clientNum s) ip (s_isLocked s) (nonempty (s_activeUrl s)) (s_vncPassword s) (lastSeenMs `div` 1000)
    (s_imageVersion s) (s_agentVersion s) (s_update s).

Definition writeRegistry (rows : list DeviceRegistryRow) (now : Z) (h : Hub) : Hub :=
  let wanted := List.filter (fun r => negb (isRevoked (store h) (dr_clientId r))) rows in
  on_d1 (fun db => match wanted with [] => db | _ => upsertDeviceRegistry db wanted (now `div` 1000) end) h.

(** ** Consoles *)

Definition relayFrame (clientId frame : string) (h : Hub) : Hub :=
  foldl (fun h' ws => match console_of ws with Some c => if bool_decide (clientId ∈ ca_watch c) then emit (Sent (ws_id ws) (MFrame clientId frame)) h' else h' | None => h' end)
    (on_memory (on_frames (map_set clientId frame)) h) (consoles h).

(** The screens someone looks at, and the leases still running. *)
Definition watchedIds (excluding : option nat) (now : Z) (h : Hub) : Hub * list string :=
  let watchers := List.filter (fun ws => negb (bool_decide (Some (ws_id ws) = excluding))) (consoles h) in
  let leases := List.filter (fun e => now <? snd e) (pollWatch (memory h)) in
  (on_memory (on_pollWatch (fun _ => leases)) h,
   mjoin (List.map (fun ws => match console_of ws with Some c => ca_watch c | None => [] end) watchers) ++ List.map fst leases).

Definition set_streaming (want : bool) (a : DeviceAttachment) : DeviceAttachment :=
  mkDevice (da_clientId a) (da_status a) (da_ip a) (da_portal a) (da_connectedAt a) (da_nudgedAt a) (da_nudgedVersion a) (da_lanHeldSince a) want (da_dirty a) (da_writtenAt a).

Definition stream_device (watched : list string) (id : nat) (a : DeviceAttachment) (h : Hub) : Hub :=
  let want := bool_decide (da_clientId a ∈ watched) in
  let h1 := if Bool.eqb (da_streaming a) want then h else emit (Sent id (MFrames want)) (serializeAttachment id (ADevice (set_streaming want a)) h) in
  if want then h1 else on_memory (on_frames (map_delete (da_clientId a))) h1.

Definition updateStreaming (closingConsole : option nat) (now : Z) (h : Hub) : Hub :=
  let '(h1, watched) := watchedIds closingConsole now h in
  for_devices (devices h1) (stream_device watched) h1.

(** [raw]: the identifiers as text, when an array was sent. *)
Definition watch_list (raw : option (list string)) : list string :=
  match raw with Some l => take MAX_WATCHED (js_dedup (List.filter (re_test CLIENT_ID_PATTERN) l)) | None => [] end.

Definition setConsoleWatch (id : nat) (c : ConsoleAttachment) (raw : option (list string)) (now : Z) (h : Hub) : Hub :=
  let watch := watch_list raw in
  let h1 := serializeAttachment id (AConsole (mkConsole (ca_userId c) watch)) h in
  let show h' clientId :=
    if bool_decide (clientId ∈ ca_watch c) then h'
    else match assoc clientId (frames (memory h')) with Some f => emit (Sent id (MFrame clientId f)) h' | None => h' end in
  updateStreaming None now (foldl show h1 watch).

Definition leasePollWatch (raw : option (list string)) (now : Z) (h : Hub) : Hub :=
  match raw with
  | None => h
  | Some l =>
      let lease w clientId := if re_test CLIENT_ID_PATTERN clientId then map_set clientId (now + POLL_WATCH_LEASE_MS) w else w in
      ensureAlarm (POLL_WATCH_LEASE_MS + 1000) now
        (updateStreaming None now (on_memory (on_pollWatch (fun w => foldl lease w (take MAX_WATCHED l))) h))
  end.

Definition acceptConsole (id : nat) (userId : string) (now : Z) (h : Hub) : Hub :=
  let h1 := on_sockets (fun l => l ++ [mkWs id (AConsole (mkConsole userId [])) None]) h in
  ensureAlarm CONSOLE_SWEEP_MS now (emit (Sent id (MSnapshot (liveClients false now h1))) h1).

(** The route /live. *)
Definition handle_live (watch : option (list string)) (now : Z) (h : Hub) : Hub * list (string * LiveStatus) :=
  let h1 := leasePollWatch watch now (on_memory (set_attended (now + HTTP_ATTENTION_MS)) h) in
  (h1, liveClients true now h1).

Section Hub.
Context `{UrlParser} (uuid : nat -> string).

(** ** Configuration and commands *)

Definition load (force : bool) (now : Z) (h : Hub) : Hub * option HubConfig :=
  let c := loadConfig (config (memory h)) force (d1 h) (tenantId h) (buildEffectiveWhitelist (d1 h) (tenantId h)) now in
  (on_memory (set_config c) h, c).

Definition refusalFor (clientId : string) (now : Z) (h : Hub) : Hub * option (Z * string) :=
  if isRevoked (store h) clientId then (h, Some (401, "This workstation has been removed"%string))
  else
    let '(h1, c) := load false now h in
    (h1, match c with
         | Some c' => if bool_decide (t_status (hc_tenant c') = active) then None else Some (403, "This organization is not active"%string)
         | None => Some (403, "This organization is not active"%string)
         end).

(** What is pending for a workstation, marked delivered. *)
Definition take_pending (clientId portalUrl : string) (now : Z) (h : Hub) : Hub * list QueuedCommand :=
  let '(s, l) := pendingFor clientId portalUrl (now `div` 1000) (store h) in
  (on_store (fun _ => s) h, l).

Definition deliver_to (c : option HubConfig) (now : Z) (id : nat) (a : DeviceAttachment) (h : Hub) : Hub :=
  match c with
  | None => h
  | Some c' =>
      let '(h1, l) := take_pending (da_clientId a) (wc_portalUrl (configFor c' (da_clientId a) (da_portal a) (now `div` 1000))) now h in
      match l with [] => h1 | _ => give (Sent id (MCommands l)) now h1 end
  end.

Definition set_locked (locked : bool) (s : Status) : Status :=
  mkReported (s_clientNum s) (s_activeUrl s) locked (s_vncPassword s) (s_imageVersion s) (s_agentVersion s) (s_update s) (s_lan s).

Definition set_status (s : Status) (dirty : bool) (a : DeviceAttachment) : DeviceAttachment :=
  mkDevice (da_clientId a) s (da_ip a) (da_portal a) (da_connectedAt a) (da_nudgedAt a) (da_nudgedVersion a) (da_lanHeldSince a) (da_streaming a) dirty (da_writtenAt a).

Definition lock_device (locked : bool) (now : Z) (id : nat) (a : DeviceAttachment) (h : Hub) : Hub :=
  if Bool.eqb (s_isLocked (da_status a)) locked then h
  else
    let updated := set_status (set_locked locked (da_status a)) true a in
    notifyConsoles (MStatus (statusOf updated now true)) (serializeAttachment id (ADevice updated) h).

Definition set_http_status (s : Status) (c : HttpClient) : HttpClient :=
  mkHttp s (ht_ip c) (ht_portal c) (ht_lastSeen c) (ht_nudgedAt c) (ht_nudgedVersion c) (ht_dirty c) (ht_writtenAt c).

Definition lock_http (targets : list string) (locked : bool) : list (string * HttpClient) -> list (string * HttpClient) :=
  List.map (fun e => if bool_decide ("all"%string ∈ targets) || bool_decide (fst e ∈ targets)
                     then (fst e, set_http_status (set_locked locked (ht_status (snd e))) (snd e)) else e).

Definition lock_action (action : CommandAction) : option bool := match action with lock => Some true | unlock => Some false | _ => None end.

(** [reload]: the organization's broadcast changed with this command. *)
Definition enqueue_live (input : EnqueueInput) (reload_config : bool) (now : Z) (h : Hub) : Hub :=
  match List.filter (fun t => negb (String.eqb t "")) (en_targets input) with
  | [] => h
  | targets =>
      let h0 := if reload_config then fst (load true now h) else h in
      let ids := List.map uuid (List.seq (drawn h0) (length targets)) in
      let h1 := draw (List.map (fun t => mkAsked t input (now `div` 1000)) targets) (on_store (enqueue_rows input ids (now `div` 1000)) h0) in
      let sockets_ := if bool_decide ("all"%string ∈ targets) then devices h1 else mjoin (List.map (fun t => device_sockets t h1) targets) in
      let '(h2, c) := load false now h1 in
      let h3 := for_devices sockets_ (deliver_to c now) h2 in
      let h4 :=
        match lock_action (en_action input) with
        | Some locked => on_memory (on_http (lock_http targets locked)) (for_devices sockets_ (lock_device locked now) h3)
        | None => h3
        end in
      ensureAlarm FLUSH_DELAY_MS now h4
  end.

(** The route /enqueue. *)
Definition handle_enqueue (input : EnqueueInput) (reload_config : bool) (now : Z) (h : Hub) : Hub :=
  enqueue_live input reload_config now (on_memory (set_attended (now + HTTP_ATTENTION_MS)) h).

Definition release_command (targets : list string) (version : option string) : EnqueueInput :=
  mkEnqueue targets release_available None None None version [] false.

(** ** Reminders of a release *)

(** The release to remind a workstation of now, and the key its reminder is throttled by. *)
Definition releaseNudgeDue (s : Status) (nudgedAt : option Z) (nudgedVersion : option string) (clientId : string) (now : Z) (h : Hub) : option (ReleaseOffer * string) :=
  match config (memory h) with
  | None => None
  | Some c =>
      match releaseNudgeTarget (hc_releases c) (s_update s) (s_imageVersion s) (assoc clientId (hc_pilotGroups c)) with
      | None => None
      | Some target =>
          let holding := match s_update s with Some u => bool_decide (ur_phase u = ready) && bool_decide (ur_version u = Some (ro_version target)) | None => false end in
          let key := if holding then ro_version target +:+ ":stage" else ro_version target in
          let wait := match s_update s with Some u => if bool_decide (ur_phase u = phase_error) then RELEASE_NUDGE_AFTER_ERROR_MS else RELEASE_NUDGE_MS | None => RELEASE_NUDGE_MS end in
          match nudgedAt with
          | Some t => if bool_decide (nudgedVersion = Some key) && (now - t <? wait) then None else Some (target, key)
          | None => Some (target, key)
          end
      end
  end.

Definition set_nudge (nudgedAt : option Z) (nudgedVersion : option string) (lanHeldSince : option Z) (a : DeviceAttachment) : DeviceAttachment :=
  mkDevice (da_clientId a) (da_status a) (da_ip a) (da_portal a) (da_connectedAt a) nudgedAt nudgedVersion lanHeldSince (da_streaming a) (da_dirty a) (da_writtenAt a).

Definition tellOfRelease (id : nat) (a : DeviceAttachment) (key version : string) (now : Z) (h : Hub) : Hub :=
  enqueue_live (release_command [da_clientId a] (Some version)) false now (serializeAttachment id (ADevice (set_nudge (Some now) (Some key) None a)) h).

Definition member_of (a : DeviceAttachment) : SiteMember :=
  mkMember (da_clientId a) (da_ip a) (s_lan (da_status a)) (s_update (da_status a)) (da_nudgedAt a) (da_nudgedVersion a).

Definition siteMembers (now : Z) (h : Hub) : list SiteMember :=
  omap (fun ws => a ← device_of ws; if now - lastSeenOf ws a h <? SOCKET_STALE_MS then Some (member_of a) else None) (sockets h).

Definition lan_shared (h : Hub) : bool := match config (memory h) with Some c => t_lan_sharing (hc_tenant c) =? 1 | None => false end.

(** Whether it waits for the seeds at its site. *)
Definition waitForSite (id : nat) (a : DeviceAttachment) (version : string) (now : Z) (h : Hub) : Hub * bool :=
  if negb (lan_shared h) then (h, false)
  else if bool_decide (lanDecision (member_of a) version (siteMembers now h) (da_lanHeldSince a) now = go) then (h, false)
  else
    let h1 :=
      match da_lanHeldSince a with
      | Some _ => h
      | None =>
          let waiting := set_nudge (da_nudgedAt a) (da_nudgedVersion a) (Some now) a in
          notifyConsoles (MStatus (statusOf waiting now true)) (serializeAttachment id (ADevice waiting) h)
      end in
    (ensureAlarm LAN_HOLD_MAX_MS now h1, true).

Definition nudgeSocket (now : Z) (id : nat) (a : DeviceAttachment) (h : Hub) : Hub :=
  match releaseNudgeDue (da_status a) (da_nudgedAt a) (da_nudgedVersion a) (da_clientId a) now h with
  | None =>
      match da_lanHeldSince a with
      | Some _ => serializeAttachment id (ADevice (set_nudge (da_nudgedAt a) (da_nudgedVersion a) None a)) h
      | None => h
      end
  | Some (release, key) =>
      if String.eqb key (ro_version release) then
        let '(h1, waits) := waitForSite id a (ro_version release) now h in
        if waits then h1 else tellOfRelease id a key (ro_version release) now h1
      else tellOfRelease id a key (ro_version release) now h
  end.

Definition set_http_nudge (now : Z) (key : string) (c : HttpClient) : HttpClient :=
  mkHttp (ht_status c) (ht_ip c) (ht_portal c) (ht_lastSeen c) (Some now) (Some key) (ht_dirty c) (ht_writtenAt c).

Definition nudgeHttp (now : Z) (clientId : string) (h : Hub) : Hub :=
  match assoc clientId (http (memory h)) with
  | None => h
  | Some c =>
      match releaseNudgeDue (ht_status c) (ht_nudgedAt c) (ht_nudgedVersion c) clientId now h with
      | None => h
      | Some (release, key) =>
          enqueue_live (release_command [clientId] (Some (ro_version release))) false now
            (on_memory (on_http (map_set clientId (set_http_nudge now key c))) h)
      end
  end.

Definition nudge_at_site (site changed : string) (now : Z) (id : nat) (a : DeviceAttachment) (h : Hub) : Hub :=
  if negb (String.eqb (da_clientId a) changed) && bool_decide (is_Some (da_lanHeldSince a)) && bool_decide (siteKey (da_ip a) (s_lan (da_status a)) = Some site)
  then nudgeSocket now id a h else h.

Definition nudgeSite (site : option string) (changed : string) (except : option nat) (now : Z) (h : Hub) : Hub :=
  match site with
  | Some s =>
      if String.eqb s "" || negb (lan_shared h) then h
      else for_devices (List.filter (fun id => negb (bool_decide (Some id = except))) (devices h)) (nudge_at_site s changed now) h
  | None => h
  end.

(** From the alarm: whoever waited long enough. *)
Definition nudgeWaiting (now : Z) (h : Hub) : Hub :=
  for_devices (devices h) (fun id a h' =>
    match da_lanHeldSince a with Some t => if LAN_HOLD_MAX_MS <=? now - t then nudgeSocket now id a h' else h' | None => h' end) h.

Definition nextWaitEnd (h : Hub) : option Z :=
  foldl (fun next ws => match device_of ws ≫= da_lanHeldSince with
                        | Some since => Some (match next with Some n => Z.min n (since + LAN_HOLD_MAX_MS) | None => since + LAN_HOLD_MAX_MS end)
                        | None => next end) None (sockets h).

(** ** Changes of the organization, and exams *)

Definition sendConfig (c : HubConfig) (now : Z) (id : nat) (a : DeviceAttachment) (h : Hub) : Hub :=
  emit (Sent id (MConfig (configFor c (da_clientId a) (da_portal a) (now `div` 1000)) None)) h.

Definition close_sockets (ids : list nat) (code : Z) (h : Hub) : Hub := foldl (fun h' id => emit (Closed id code) h') h ids.

Definition configChanged (now : Z) (h : Hub) : Hub :=
  let '(h1, c) := load true now h in
  let ids := devices h1 in
  match c with
  | Some c' =>
      if bool_decide (t_status (hc_tenant c') = active) then
        let h2 := for_devices ids (sendConfig c' now) h1 in
        let h3 := for_devices ids (nudgeSocket now) h2 in
        foldl (fun h' e => nudgeHttp now (fst e) h') h3 (http (memory h3))
      else close_sockets ids CLOSE_INACTIVE h1
  | None => close_sockets ids CLOSE_INACTIVE h1
  end.

Definition note_event (event : ExamEvent) (clientId : string) (now : Z) (h : Hub) : Hub :=
  let '(h1, c) := match config (memory h) with Some c => (h, Some c) | None => load false now h end in
  on_d1 (fun db => noteExamEvent db c event clientId now) h1.

Definition scheduleExamAlarm (now : Z) (h : Hub) : Hub :=
  match next_exam_time (match config (memory h) with Some c => hc_exams c | None => [] end) (now `div` 1000) with
  | Some next => ensureAlarm (next * 1000 - now) now h
  | None => h
  end.

Definition online_now (now : Z) (h : Hub) (clientId : string) : bool :=
  match assoc clientId (liveClients false now h) with Some s => l_online s | None => false end.

Definition clear_exam_sessions (now : Z) (h : Hub) (exam : ExamWindow) : Hub :=
  match clear_targets (d1 h) (tenantId h) exam with
  | [] => h
  | targets => enqueue_live (mkEnqueue targets clear_session None None None None [] false) false now h
  end.

Definition exam_tick (now : Z) (h : Hub) : Hub :=
  let '(h1, c) := load false now h in
  match c with
  | None => h1
  | Some c' =>
      let '(s, db, cleared) := exam_steps (tenantId h1) now (online_now now h1) (hc_exams c') (store h1, d1 h1) in
      let h2 := on_store (fun _ => forget_exams (hc_exams c') s) (on_d1 (fun _ => db) h1) in
      let h3 := match cleared with [] => h2 | _ => foldl (clear_exam_sessions now) (configChanged now h2) (List.map fst cleared) end in
      scheduleExamAlarm now h3
  end.

(** The route /exams-changed. *)
Definition handle_exams_changed (now : Z) (h : Hub) : Hub := exam_tick now (fst (load true now h)).

(** ** Workstations *)

Definition rememberSite (clientId ip : string) (lan : option LanReport) (now : Z) (h : Hub) : Hub :=
  match siteKey ip lan with
  | Some site =>
      on_store (on_last_sites (upsert (fun r => String.eqb (ls_client_id r) clientId) (fun r => mkSite (ls_client_id r) site (now `div` 1000))
        (mkSite clientId site (now `div` 1000)))) h
  | None => h
  end.

Definition unknown_status : Status := mkReported 1 "" false None None None None None.

(** What a workstation that was on the HTTP heartbeat had said. *)
Definition carried_status (previous : option HttpClient) : Status :=
  match previous with
  | Some c => mkReported (s_clientNum (ht_status c)) (s_activeUrl (ht_status c)) (s_isLocked (ht_status c)) (s_vncPassword (ht_status c)) None None None None
  | None => unknown_status
  end.

Definition acceptDevice (id : nat) (clientId ip : string) (portal : PortalContext) (now : Z) (h : Hub) : Hub :=
  let h1 := close_sockets (device_sockets clientId h) CLOSE_REPLACED h in
  let a := mkDevice clientId (carried_status (assoc clientId (http (memory h1)))) ip portal now None None None false false now in
  let h2 := on_memory (fun m => on_lastMessage (map_set clientId now) (on_http (map_delete clientId) m)) (on_sockets (fun l => l ++ [mkWs id (ADevice a) None]) h1) in
  let h3 := writeRegistry [registryRow h2 clientId ip (da_status a) now] now h2 in
  let '(h4, c) := load false now h3 in
  let h5 :=
    match c with
    | Some c' =>
        let wc := configFor c' clientId portal (now `div` 1000) in
        let '(h', l) := take_pending clientId (wc_portalUrl wc) now h4 in give (Sent id (MConfig wc (Some l))) now h'
    | None => h4
    end in
  let h6 := notifyConsoles (MStatus (statusOf a now true)) (updateStreaming None now h5) in
  ensureAlarm FLUSH_DELAY_MS now (note_event connect clientId now h6).

(** The upgrade of a workstation's request. *)
Definition upgrade_device (id : nat) (clientId ip : string) (portal : PortalContext) (now : Z) (h : Hub) : Hub * option (Z * string) :=
  if negb (re_test CLIENT_ID_PATTERN clientId) then (h, Some (400, "Missing workstation identity"%string))
  else
    let '(h1, refusal) := refusalFor clientId now h in
    match refusal with Some r => (h1, Some r) | None => (acceptDevice id clientId ip portal now h1, None) end.

Definition httpHeartbeatSeconds (now : Z) (h : Hub) : Z :=
  if (now <? attendedUntil (memory h)) || negb (length (consoles h) =? 0)%nat then HTTP_HEARTBEAT_ATTENDED_SECONDS else HTTP_HEARTBEAT_IDLE_SECONDS.

Inductive HeartbeatReply : Type :=
| HeartbeatOk (commands : list QueuedCommand) (update : WorkstationConfig) (heartbeatSeconds : Z) (frames_wanted : bool)
| HeartbeatRefused (status : Z) (message : string).

(** The client as this heartbeat leaves it, and whether it says anything new. *)
Definition heartbeat_client (previous : option HttpClient) (status : Status) (ip : string) (portal : PortalContext) (now : Z) : HttpClient * bool :=
  match previous with
  | None => (mkHttp status ip portal now None None false now, true)
  | Some p =>
      let changed := status_changed (ht_status p) status || negb (String.eqb (ht_ip p) ip) in
      (mkHttp status ip portal now (ht_nudgedAt p) (ht_nudgedVersion p) (ht_dirty p || changed || (REGISTRY_REFRESH_MS <? now - ht_writtenAt p)) (ht_writtenAt p), changed)
  end.

(** From the reported state to the registry, the exams and the consoles. *)
Definition heartbeat_state (clientId ip : string) (portal : PortalContext) (payload : StatusPayload) (thumbnail : jsval) (now : Z) (h : Hub) : Hub :=
  let previous := assoc clientId (http (memory h)) in
  let status := normalizeStatus payload (ht_status <$> previous) in
  let '(client, changed) := heartbeat_client previous status ip portal now in
  let h1 := on_memory (on_http (map_set clientId client)) h in
  let h2 := match acceptableFrame thumbnail with Some f => relayFrame clientId f h1 | None => h1 end in
  let h3 := match previous with None => note_event connect clientId now (writeRegistry [registryRow h2 clientId ip status now] now h2) | Some _ => h2 end in
  let h4 := if changed then rememberSite clientId ip (s_lan status) now (notifyConsoles (MStatus (httpStatus clientId client now)) h3) else h3 in
  if ht_dirty client then ensureAlarm FLUSH_DELAY_MS now h4 else h4.

Definition handleHeartbeat (clientId ip : string) (portal : PortalContext) (payload : StatusPayload) (thumbnail : jsval) (now : Z) (h : Hub) : Hub * HeartbeatReply :=
  if negb (re_test CLIENT_ID_PATTERN clientId) then (h, HeartbeatRefused 400 "Missing workstation identity")
  else
    let '(h1, refusal) := refusalFor clientId now h in
    match refusal with
    | Some (status, message) => (h1, HeartbeatRefused status message)
    | None =>
        let h2 := nudgeHttp now clientId (heartbeat_state clientId ip portal payload thumbnail now h1) in
        let '(h3, c) := load false now h2 in
        match c with
        | None => (h3, HeartbeatRefused 500 "The organization hub could not complete this request")
        | Some c' =>
            let wc := configFor c' clientId portal (now `div` 1000) in
            let '(h4, l) := take_pending clientId (wc_portalUrl wc) now h3 in
            let '(h5, watched) := watchedIds None now h4 in
            (give (AnsweredHeartbeat clientId l) now h5, HeartbeatOk l wc (httpHeartbeatSeconds now h5) (bool_decide (clientId ∈ watched)))
        end
    end.

(** A message, parsed: [HIgnored] is one that is not text or not JSON, [HOther]
    one of no known type. *)
Inductive HubMessage : Type :=
| HIgnored
| HOther
| HPing
| HStatus (payload : StatusPayload)
| HFrame (thumbnail : jsval)
| HWatch (clientIds : option (list string)).

(** A workstation's new status. *)
Definition status_message (id : nat) (a : DeviceAttachment) (payload : StatusPayload) (now : Z) (h : Hub) : Hub :=
  let next := normalizeStatus payload (Some (da_status a)) in
  if negb (status_changed next (da_status a)) then h
  else
    let updated := set_status next true a in
    let h1 := ensureAlarm FLUSH_DELAY_MS now (notifyConsoles (MStatus (statusOf updated now true)) (serializeAttachment id (ADevice updated) h)) in
    let h2 := nudgeSocket now id updated h1 in
    rememberSite (da_clientId a) (da_ip a) (s_lan next) now (nudgeSite (siteKey (da_ip a) (s_lan next)) (da_clientId a) None now h2).

Definition webSocketMessage (id : nat) (m : HubMessage) (now : Z) (h : Hub) : Hub :=
  match m, socket id h with
  | HIgnored, _ | _, None => h
  | _, Some ws =>
      match ws_attachment ws with
      | AConsole c => match m with HWatch ids => setConsoleWatch id c ids now h | _ => h end
      | ADevice a =>
          let h1 := on_memory (on_lastMessage (map_set (da_clientId a) now)) h in
          match m with
          | HPing => emit (Sent id MPong) h1
          | HStatus payload => status_message id a payload now h1
          | HFrame thumbnail => match acceptableFrame thumbnail with Some f => relayFrame (da_clientId a) f h1 | None => h1 end
          | _ => h1
          end
      end
  end.

Definition socketGone (id : nat) (now : Z) (h : Hub) : Hub :=
  if bool_decide (id ∈ departed (memory h)) then h
  else
    let h1 := on_memory (add_departed id) h in
    match socket id h1 with
    | None => h1
    | Some ws =>
        match ws_attachment ws with
        | AConsole _ => updateStreaming (Some id) now h1
        | ADevice a =>
            let clientId := da_clientId a in
            if existsb (fun other => negb (other =? id)%nat) (device_sockets clientId h1) then h1
            else
              let revoked_ := isRevoked (store h1) clientId in
              let h2 := on_memory (fun m => on_lastMessage (map_delete clientId) (on_frames (map_delete clientId) m)) h1 in
              let h3 := if revoked_ then h2 else writeRegistry [registryRow h2 clientId (da_ip a) (da_status a) now] now h2 in
              let h4 := notifyConsoles (if revoked_ then MRemoved clientId else MStatus (offline (statusOf a now true))) h3 in
              let h5 := if revoked_ then h4 else note_event disconnect clientId now h4 in
              nudgeSite (siteKey (da_ip a) (s_lan (da_status a))) clientId (Some id) now (ensureAlarm FLUSH_DELAY_MS now h5)
        end
    end.

Definition webSocketClose (id : nat) (code : Z) (now : Z) (h : Hub) : Hub :=
  emit (Closed id (if bool_decide (code ∈ RESERVED_CODES) then 1000 else code)) (socketGone id now h).

Definition webSocketError (id : nat) (now : Z) (h : Hub) : Hub := socketGone id now h.

Definition removeDevice (clientId : string) (now : Z) (h : Hub) : Hub :=
  if negb (re_test CLIENT_ID_PATTERN clientId) then h
  else
    let h1 := close_sockets (device_sockets clientId h) CLOSE_REMOVED (on_store (removeDevice_tables clientId (now `div` 1000)) h) in
    let h2 := on_memory (fun m => on_lastMessage (map_delete clientId) (on_frames (map_delete clientId) (on_http (map_delete clientId) m))) h1 in
    notifyConsoles (MRemoved clientId) h2.

(** ** The alarm *)

Definition set_written (now : Z) (a : DeviceAttachment) : DeviceAttachment :=
  mkDevice (da_clientId a) (da_status a) (da_ip a) (da_portal a) (da_connectedAt a) (da_nudgedAt a) (da_nudgedVersion a) (da_lanHeldSince a) (da_streaming a) false now.

Definition flush_device (now : Z) (st : Hub * list DeviceRegistryRow) (id : nat) : Hub * list DeviceRegistryRow :=
  let '(h, rows) := st in
  match socket id h with
  | Some ws =>
      match device_of ws with
      | Some a =>
          if da_dirty a || (REGISTRY_REFRESH_MS <? now - da_writtenAt a)
          then (serializeAttachment id (ADevice (set_written now a)) h, rows ++ [registryRow h (da_clientId a) (da_ip a) (da_status a) (lastSeenOf ws a h)])
          else st
      | None => st
      end
  | None => st
  end.

Definition set_http_written (now : Z) (c : HttpClient) : HttpClient :=
  mkHttp (ht_status c) (ht_ip c) (ht_portal c) (ht_lastSeen c) (ht_nudgedAt c) (ht_nudgedVersion c) false now.

(** An agent that stopped heartbeating is forgotten once it is written back. *)
Definition forget_http (now : Z) (clientId : string) (c : HttpClient) (h : Hub) : Hub :=
  let h1 := on_memory (fun m => on_frames (map_delete clientId) (on_http (map_delete clientId) m)) h in
  note_event disconnect clientId now (notifyConsoles (MStatus (offline (httpStatus clientId c now))) h1).

Definition flush_http (now : Z) (st : Hub * list DeviceRegistryRow) (clientId : string) : Hub * list DeviceRegistryRow :=
  let '(h, rows) := st in
  match assoc clientId (http (memory h)) with
  | None => st
  | Some c =>
      let '(h1, rows1, c1) :=
        if ht_dirty c
        then (on_memory (on_http (map_set clientId (set_http_written now c))) h, rows ++ [registryRow h clientId (ht_ip c) (ht_status c) (ht_lastSeen c)], set_http_written now c)
        else (h, rows, c) in
      (if HTTP_ONLINE_MS <? now - ht_lastSeen c1 then forget_http now clientId c1 h1 else h1, rows1)
  end.

Definition flushed_count (key : string) (h : Hub) : Z := match readMeta (store h) key with Some t => digits_value t | None => -1 end.

Definition is_online (e : string * LiveStatus) : bool := l_online (snd e).
Definition over_http_now (e : string * LiveStatus) : bool := match l_transport (snd e) with over_http => true | websocket => false end.

Definition write_counts (now : Z) (h : Hub) : Hub :=
  let live := List.filter is_online (liveClients false now h) in
  let online := Z.of_nat (length live) in
  let http_ := Z.of_nat (length (List.filter over_http_now live)) in
  if (online =? flushed_count "flushedOnline" h) && (http_ =? flushed_count "flushedHttp" h) then h
  else on_store (fun s => writeMeta "flushedHttp" (string_of_int http_) (writeMeta "flushedOnline" (string_of_int online) s))
         (on_d1 (fun db => setTenantOnlineCount db (tenantId h) online http_) h).

Definition flush (now : Z) (h : Hub) : Hub :=
  let st1 := foldl (flush_device now) (h, []) (devices h) in
  let '(h2, rows) := foldl (flush_http now) st1 (List.map fst (http (memory (fst st1)))) in
  write_counts now (writeRegistry rows now h2).

Definition sweep_one (now : Z) (h : Hub) (id : nat) : Hub :=
  match socket id h with
  | Some ws =>
      match device_of ws with
      | Some a => if SOCKET_STALE_MS <? now - lastSeenOf ws a h then socketGone id now (emit (Closed id CLOSE_STALE) h) else h
      | None => h
      end
  | None => h
  end.

Definition sweepStale (now : Z) (h : Hub) : Hub := foldl (sweep_one now) h (devices h).

Definition is_dirty (ws : Ws) : bool := match device_of ws with Some a => da_dirty a | None => false end.

(** The runtime has taken the alarm that fired. *)
Definition alarm (now : Z) (h : Hub) : Hub :=
  match readMeta (store h) "tenantId" with
  | None => h
  | Some _ =>
      let h1 := nudgeWaiting now (on_store (purgeExpiredCommands (now `div` 1000)) (flush now (updateStreaming None now (sweepStale now (exam_tick now h))))) in
      let busy := negb (length (consoles h1) =? 0)%nat || negb (length (http (memory h1)) =? 0)%nat || negb (length (pollWatch (memory h1)) =? 0)%nat || existsb is_dirty (sockets h1) in
      let pending_ := negb (length (commands (store h1)) =? 0)%nat in
      let h2 :=
        if busy || pending_ then setAlarm (now + (if (length (consoles h1) =? 0)%nat then FLUSH_DELAY_MS else CONSOLE_SWEEP_MS)) h1
        else match nextWaitEnd h1 with Some t => setAlarm t h1 | None => h1 end in
      scheduleExamAlarm now h2
  end.

(** ** Updates *)

Definition lanPeersFor (clientId version : string) (order : list Z) (now : Z) (h : Hub) : Hub * list string :=
  let '(h1, c) := load false now h in
  if negb (lan_shared h1) || negb (isReleaseVersion version) then (h1, [])
  else
    match head (omap (fun id => deviceAttachment id h1) (device_sockets clientId h1)) with
    | None => (h1, [])
    | Some self => (h1, lanPeers (member_of self) version (siteMembers now h1) order now)
    end.

(** The identifiers a console sent, as text. *)
Definition client_ids (raw : list string) : list string := List.filter (re_test CLIENT_ID_PATTERN) (js_dedup raw).

Definition check_one (c : option HubConfig) (now : Z) (st : Hub * list string) (clientId : string) : Hub * list string :=
  let '(h, direct) := st in
  match head (device_sockets clientId h) with
  | None => (h, direct ++ [clientId])
  | Some id =>
      match deviceAttachment id h, c with
      | Some a, Some c' =>
          match updateTargetFor (hc_releases c') (s_imageVersion (da_status a)) (assoc clientId (hc_pilotGroups c')) with
          | None => (h, direct ++ [clientId])
          | Some target =>
              let '(h1, waits) := waitForSite id a (ro_version target) now h in
              if waits then (h1, direct)
              else match deviceAttachment id h1 with
                   | Some a' => (tellOfRelease id a' (ro_version target) (ro_version target) now h1, direct)
                   | None => (h1, direct)
                   end
          end
      | _, _ => (h, direct ++ [clientId])
      end
  end.

Definition checkUpdate (raw : list string) (fallbackVersion : option string) (now : Z) (h : Hub) : Hub * list string :=
  let ids := client_ids raw in
  let '(h1, c) := load true now h in
  let '(h2, direct) := foldl (check_one c now) (h1, []) ids in
  (match direct with [] => h2 | _ => enqueue_live (release_command direct fallbackVersion) false now h2 end, ids).

Inductive InstallChoice : Type := Skip (reason : string) | Install (version : string).

Definition install_choice (c : option HubConfig) (live : list (string * LiveStatus)) (clientId : string) : InstallChoice :=
  let releases := match c with Some c' => hc_releases c' | None => [] end in
  let group := match c with Some c' => assoc clientId (hc_pilotGroups c') | None => None end in
  match installTargetFor releases (assoc clientId live) group with
  | None => Skip "No release is offered to this organization"
  | Some target => match installRefusal (assoc clientId live) (ro_version target) with Some r => Skip r | None => Install (ro_version target) end
  end.

(** [map.set(k, [...(map.get(k) ?? []), ...vs])]. *)
Definition map_push {A} (k : string) (vs : list A) (m : list (string * list A)) : list (string * list A) := map_set k (default [] (assoc k m) ++ vs) m.

Definition by_version (choices : list (string * InstallChoice)) : list (string * list string) :=
  foldl (fun m e => match snd e with Install v => map_push v [fst e] m | Skip _ => m end) [] choices.

Record InstallReply : Type := mkInstallReply { ir_sent : list string; ir_skipped : list (string * string); ir_versions : list string }.

Definition installUpdate (raw : list string) (now : Z) (h : Hub) : Hub * InstallReply :=
  let ids := client_ids raw in
  let '(h1, c) := load true now h in
  let live := liveClients false now h1 in
  let choices := List.map (fun id => (id, install_choice c live id)) ids in
  let m := by_version choices in
  (foldl (fun h' e => enqueue_live (mkEnqueue (snd e) install_update None None None (Some (fst e)) [] false) false now h') h1 m,
   mkInstallReply (mjoin (List.map snd m)) (omap (fun e => match snd e with Skip r => Some (fst e, r) | Install _ => None end) choices) (List.map fst m)).

(** ** Wake-on-LAN *)

Record AwakeMember : Type := mkAwake { aw_clientId : string; aw_site : option string; aw_agentVersion : option string; aw_socket : bool }.

Definition awake_members (now : Z) (h : Hub) : list AwakeMember :=
  omap (fun ws => a ← device_of ws;
    if now - lastSeenOf ws a h <? SOCKET_STALE_MS
    then Some (mkAwake (da_clientId a) (siteKey (da_ip a) (s_lan (da_status a))) (s_agentVersion (da_status a)) true) else None) (sockets h) ++
  omap (fun e => let c := snd e in
    if now - ht_lastSeen c <? HTTP_ONLINE_MS
    then Some (mkAwake (fst e) (siteKey (ht_ip c) (s_lan (ht_status c))) (s_agentVersion (ht_status c)) false) else None) (http (memory h)).

Definition canWake (agentVersion : option string) : bool :=
  match agentVersion with Some v => isReleaseVersion v && (0 <? cmp_versions v LAST_AGENT_WITHOUT_WAKE) | None => false end.

Inductive WakeChoice : Type := WakeSkip (reason : string) | WakeVia (peer : string).

Definition wake_choice (awake : list AwakeMember) (sites : list SiteRow) (clientId : string) (macs : list string) : WakeChoice :=
  if existsb (fun w => String.eqb (aw_clientId w) clientId) awake then WakeSkip "It is already on"
  else
    match macs, js_find (fun r => String.eqb (ls_client_id r) clientId) sites with
    | [], _ => WakeSkip "It has reported no wired network adapter, which Wake-on-LAN needs"
    | _, None => WakeSkip "Its local network is not known yet: it is learnt while the workstation is on, on an installed disk"
    | _, Some row =>
        if String.eqb (ls_site row) "" then WakeSkip "Its local network is not known yet: it is learnt while the workstation is on, on an installed disk"
        else
          let there := List.filter (fun w => bool_decide (aw_site w = Some (ls_site row))) awake in
          let able := List.filter (fun w => canWake (aw_agentVersion w)) there in
          match able with
          | [] => WakeSkip (match there with
                            | [] => "No workstation of this organization is on at its site to send the wake signal"
                            | _ => "The workstations that are on at its site run an agent too old to send the wake signal; update them" end)
          | w :: _ => WakeVia (aw_clientId (default w (js_find aw_socket able)))
          end
    end.

(** The workstations to wake, each with the addresses that can be woken. *)
Definition wake_targets (raw : list (string * list string)) : list (string * list string) :=
  List.map (fun t => (fst t, List.filter isWakeableMac (snd t))) (List.filter (fun t => re_test CLIENT_ID_PATTERN (fst t)) raw).

Definition by_peer (choices : list (string * list string * WakeChoice)) : list (string * list string) :=
  foldl (fun m e => match snd e with WakeVia peer => map_push peer (snd (fst e)) m | WakeSkip _ => m end) [] choices.

Definition wake_commands (m : list (string * list string)) : list (string * list string) :=
  mjoin (List.map (fun e => List.map (fun part => (fst e, part)) (let unique := js_dedup (snd e) in chunks (length unique) MAX_WAKE_MACS_PER_COMMAND unique)) m).

Record WakeReply : Type := mkWakeReply { wr_sent : list (string * string); wr_skipped : list (string * string) }.

(** What becomes of each workstation to wake. *)
Definition wake_plan (raw : list (string * list string)) (now : Z) (h : Hub) : list (string * list string * WakeChoice) :=
  let awake := awake_members now h in
  List.map (fun t => (t, wake_choice awake (last_sites (store h)) (fst t) (snd t))) (wake_targets raw).

Definition wake_live (raw : list (string * list string)) (now : Z) (h : Hub) : Hub * WakeReply :=
  let choices := wake_plan raw now h in
  (foldl (fun h' e => enqueue_live (mkEnqueue [fst e] wake None None None None (snd e) false) false now h') h (wake_commands (by_peer choices)),
   mkWakeReply (omap (fun e => match snd e with WakeVia p => Some (fst (fst e), p) | WakeSkip _ => None end) choices)
               (omap (fun e => match snd e with WakeSkip r => Some (fst (fst e), r) | WakeVia _ => None end) choices)).
End Hub.
