(* ===== verification/HubRuns.v ===== *)
(** The hub over time: what holds of an organization's hub whatever happens to
    it, in any order: connections, messages, requests, alarms, hibernation.

    Most of what the hub does is [calm]: the alarm stays or comes sooner, what
    was read from reports stays well formed, removed workstations stay out of
    the registry, the queue is used by its rules, frames go only to who watches,
    and new work leaves the alarm set. [calm] is a preorder, so each handler is
    calm because its parts are. *)
From S2P Require Import Prelude JsString Regex Platform Db Escape Allowlist Releases LanSharing Power Exams HubStore HubConfig HubStatus HubExams HubLive.

Definition streams (ws : Ws) : bool := match device_of ws with Some a => da_streaming a | None => false end.

(** A workstation's socket, and since when it waits for its site. *)
Definition held (h : Hub) (w : nat * Z) : Prop := exists ws a, ws ∈ sockets h /\ ws_id ws = fst w /\ device_of ws = Some a /\ da_lanHeldSince a = Some (snd w).

(** What the alarm is needed for: a console is open, a lease runs, a screen is
    sent, a change is not written back, a command waits. *)
Definition busy (h : Hub) : Prop :=
  consoles h <> [] \/ pollWatch (memory h) <> [] \/ (exists ws, ws ∈ sockets h /\ (is_dirty ws = true \/ streams ws = true)) \/
  commands (store h) <> [] \/ (exists e, e ∈ http (memory h) /\ ht_dirty (snd e) = true).

Definition within (d now : Z) (h : Hub) : Prop := exists a, alarm_at h = Some a /\ a <= now + d.

(** The console on a socket watches a workstation's screen. *)
Definition watches (h : Hub) (id : nat) (clientId : string) : Prop :=
  exists ws c, ws ∈ sockets h /\ ws_id ws = id /\ console_of ws = Some c /\ clientId ∈ ca_watch c.

(** The same socket, but for what its workstation reported and was told. *)
Definition like (ws ws' : Ws) : Prop :=
  ws_id ws' = ws_id ws /\ ws_pinged ws' = ws_pinged ws /\
  match ws_attachment ws, ws_attachment ws' with
  | AConsole c, AConsole c' => c' = c
  | ADevice a, ADevice a' => da_clientId a' = da_clientId a /\ da_streaming a' = da_streaming a
  | _, _ => False
  end.

#[export] Instance like_preorder : PreOrder like.
Proof.
  split.
  - intros ws. unfold like. by destruct (ws_attachment ws).
  - intros [i1 x1 p1] [i2 x2 p2] [i3 x3 p3]. unfold like. cbn. intros (-> & -> & H1) (-> & -> & H2). split_and!; [done..|].
    destruct x1, x2, x3; try done; intuition congruence.
Qed.

Lemma like_consoles l l' : Forall2 like l l' ->
  List.filter (fun ws => match console_of ws with Some _ => true | None => false end) l' = List.filter (fun ws => match console_of ws with Some _ => true | None => false end) l.
Proof.
  induction 1 as [|[i x p] [i' x' p'] l l' (Hi & Hp & Hx) _ IH]; [done|]. cbn in *. unfold console_of in *. cbn in *.
  destruct x, x'; try done. subst. by rewrite IH.
Qed.

Lemma like_elem l l' ws' : Forall2 like l l' -> ws' ∈ l' -> exists ws, ws ∈ l /\ like ws ws'.
Proof. intros Hf Hin. apply list_elem_of_lookup_1 in Hin as [i Hi]. destruct (Forall2_lookup_r _ _ _ _ _ Hf Hi) as (ws & Hw & Hl). exists ws. split; [by apply list_elem_of_lookup_2 with i|done]. Qed.

Lemma like_ids l l' : Forall2 like l l' -> List.map ws_id l' = List.map ws_id l.
Proof. induction 1 as [|ws ws' l l' (Hi & _) _ IH]; [done|]. cbn. by rewrite Hi, IH. Qed.

Lemma like_streams ws ws' : like ws ws' -> streams ws' = streams ws.
Proof. intros (_ & _ & Hx). unfold streams, device_of. destruct (ws_attachment ws), (ws_attachment ws'); try done. by destruct Hx. Qed.

Section Runs.
Context `{UrlParser} (uuid : nat -> string) `{!Inj (=) (=) uuid}.

(** ** The relations *)

Record good (h : Hub) : Prop := {
  g_ids : NoDup (List.map ws_id (sockets h));
  g_device ws a : ws ∈ sockets h -> device_of ws = Some a -> status_ok (da_status a) /\ re_test CLIENT_ID_PATTERN (da_clientId a) = true;
  g_http id c : (id, c) ∈ http (memory h) -> status_ok (ht_status c) /\ re_test CLIENT_ID_PATTERN id = true /\ isRevoked (store h) id = false
}.

(** The row of a command asked for: its own UUID, its target, what was asked, and a minute to live. *)
Definition asked_row (i : nat) (r : Asked) : CommandRow :=
  mkCommand (uuid i) (ak_target r) (en_action (ak_input r)) (payload_of (ak_input r)) (ak_at r) (ak_at r + COMMAND_TTL_SECONDS).

(** Everything the hub has sent that holds commands. *)
Definition carried_all (h : Hub) : list QueuedCommand := mjoin (List.map carried (sent h)).

(** A message with neither a screen nor a command, or what is no message. *)
Definition plain (e : Effect) : Prop :=
  match e with
  | Sent _ (MFrame _ _) | Sent _ (MCommands _) | Sent _ (MConfig _ (Some _)) | AnsweredHeartbeat _ _ => False
  | Sent _ (MStatus s) => l_thumbnail s = None
  | Sent _ (MSnapshot l) => Forall (fun e => l_thumbnail (snd e) = None) l
  | _ => True
  end.

Lemma plain_carried e : plain e -> carried e = [].
Proof. by destruct e as [? [| ? []| | | | | |]| | |]. Qed.

(** A screen in something sent on a socket. *)
Definition shows (out : list Effect) (ws : nat) (clientId f : string) : Prop := exists m, Sent ws m ∈ out /\ (clientId, f) ∈ screens m.

Lemma shows_app o1 o2 ws c f : shows (o1 ++ o2) ws c f -> shows o1 ws c f \/ shows o2 ws c f.
Proof. intros (m & [Hin|Hin]%elem_of_app & Hs); [left|right]; by exists m. Qed.

Lemma shows_nil ws c f : ~ shows [] ws c f.
Proof. by intros (m & ?%elem_of_nil & _). Qed.

Lemma plain_shows out ws c f : Forall plain out -> ~ shows out ws c f.
Proof.
  intros Hp (m & Hin & Hs). rewrite list.Forall_forall in Hp. apply Hp in Hin. destruct m as [|? []| | | |s| |l]; cbn in *; try done; try (by apply elem_of_nil in Hs).
  - rewrite Hin in Hs. by apply elem_of_nil in Hs.
  - apply list_elem_of_omap in Hs as (e & He & Hx). rewrite list.Forall_forall in Hin. unfold thumbnail_in in Hx. by rewrite Hin in Hx.
Qed.

Lemma carried_plain h h' out : sent h' = sent h ++ out -> Forall plain out -> carried_all h' = carried_all h.
Proof.
  unfold carried_all. intros -> Hp. rewrite map_app, join_app. assert (mjoin (List.map carried out) = []) as ->; [|by rewrite app_nil_r].
  induction Hp as [|e l He _ IH]; [done|]. cbn. by rewrite plain_carried.
Qed.

(** The commands ever queued are those ever asked for, in order; those given are
    those in what was sent, and each is one that was queued. *)
Definition fresh (all : list CommandRow) (h : Hub) : Prop :=
  all = imap asked_row (asked h) /\ List.map (fun x => snd (fst x)) (handed h) = List.map q_id (carried_all h) /\
  Forall (fun q => exists portalUrl c, c ∈ all /\ q = queued portalUrl c) (carried_all h).

Lemma asked_ids h : List.map c_id (imap asked_row (asked h)) = List.map uuid (List.seq 0 (drawn h)).
Proof.
  unfold drawn. assert (E : forall l n, List.map c_id (imap (fun i => asked_row (n + i)) l) = List.map uuid (List.seq n (length l))); [|exact (E (asked h) 0%nat)].
  induction l as [|r l IH]; intros n; [done|]. rewrite imap_cons. cbn. rewrite Nat.add_0_r. f_equal. rewrite <- IH. f_equal. apply imap_ext. intros i x _. cbn. by rewrite Nat.add_succ_r.
Qed.

Definition queue_follows (now : Z) (h h' : Hub) : Prop :=
  forall all t, t <= now `div` 1000 -> queue_run all (handed h) t (store h) -> fresh all h ->
  exists all', queue_run all' (handed h') (now `div` 1000) (store h') /\ fresh all' h'.

Definition frames_to_watchers (h h' : Hub) : Prop :=
  exists out, sent h' = sent h ++ out /\ forall id clientId f, shows out id clientId f -> watches h id clientId.

Definition registry_keeps_out (db db' : D1Database) (s : HubStorage) : Prop :=
  forall c', c' ∈ client_devices db' ->
  (exists c, c ∈ client_devices db /\ cd_tenant_id c = cd_tenant_id c' /\ cd_client_id c = cd_client_id c') \/ isRevoked s (cd_client_id c') = false.

Record facts (now : Z) (h h' : Hub) : Prop := {
  cf_good : good h';
  cf_alarm a : alarm_at h = Some a -> exists a', alarm_at h' = Some a' /\ a' <= a;
  cf_like : Forall2 like (sockets h) (sockets h');
  cf_poll : pollWatch (memory h') = pollWatch (memory h);
  cf_revoked : revoked (store h') = revoked (store h);
  cf_bound : readMeta (store h') "tenantId" = readMeta (store h) "tenantId";
  cf_queue : queue_follows now h h';
  cf_frames : frames_to_watchers h h';
  cf_registry : registry_keeps_out (d1 h) (d1 h') (store h)
}.

Definition idle (now : Z) (h h' : Hub) : Prop := busy h' -> busy h \/ within CONSOLE_SWEEP_MS now h'.
Definition waits (now : Z) (h h' : Hub) : Prop := forall w, held h' w -> held h w \/ (snd w = now /\ within LAN_HOLD_MAX_MS now h').

Definition mild (now : Z) (h h' : Hub) : Prop := good h -> facts now h h'.
Definition calm (now : Z) (h h' : Hub) : Prop := good h -> facts now h h' /\ idle now h h' /\ waits now h h'.

Lemma watches_like h h' id clientId : Forall2 like (sockets h) (sockets h') -> watches h' id clientId -> watches h id clientId.
Proof.
  intros Hl (ws' & c & Hin & Hid & Hc & Hw). destruct (like_elem _ _ _ Hl Hin) as (ws & Hws & (Hi & _ & Hx)). exists ws, c. split_and!; [done|congruence| |done].
  unfold console_of in *. destruct (ws_attachment ws), (ws_attachment ws'); try done. congruence.
Qed.

Lemma facts_trans now h1 h2 h3 : facts now h1 h2 -> facts now h2 h3 -> facts now h1 h3.
Proof.
  intros [G1 A1 L1 P1 R1 B1 Q1 (o1 & E1 & W1) D1] [G2 A2 L2 P2 R2 B2 Q2 (o2 & E2 & W2) D2]. split; try congruence.
  - intros a Ha. destruct (A1 a Ha) as (a' & Ha' & ?). destruct (A2 a' Ha') as (a'' & ? & ?). exists a''. split; [done|lia].
  - by etrans.
  - intros all t Ht Hr Hf. destruct (Q1 all t Ht Hr Hf) as (all' & Hr' & Hf'). apply (Q2 all' (now `div` 1000)); [lia|done..].
  - exists (o1 ++ o2). split; [rewrite E2, E1; by rewrite app_assoc|]. intros id cl f [Hin|Hin]%shows_app; [by eapply W1|]. apply (watches_like h1 h2); [done|]. by eapply W2.
  - intros c3 Hc3. destruct (D2 c3 Hc3) as [(c2 & Hc2 & Ht2 & Hi2)|Hn]; [|right; unfold isRevoked in *; by rewrite <- R1].
    destruct (D1 c2 Hc2) as [(c1 & Hc1 & Ht1 & Hi1)|Hn]; [left; exists c1; split_and!; [done|congruence..]|right; by rewrite <- Hi2].
Qed.

Lemma within_later d now h h' : (forall a, alarm_at h = Some a -> exists a', alarm_at h' = Some a' /\ a' <= a) -> within d now h -> within d now h'.
Proof. intros Ha (a & E & Hle). destruct (Ha a E) as (a' & E' & ?). exists a'. split; [done|lia]. Qed.

Lemma mild_trans now h1 h2 h3 : mild now h1 h2 -> mild now h2 h3 -> mild now h1 h3.
Proof. intros H12 H23 G. specialize (H12 G). specialize (H23 (cf_good _ _ _ H12)). by eapply facts_trans. Qed.

Lemma calm_trans now h1 h2 h3 : calm now h1 h2 -> calm now h2 h3 -> calm now h1 h3.
Proof.
  intros H12 H23 G. destruct (H12 G) as (F12 & I12 & W12). destruct (H23 (cf_good _ _ _ F12)) as (F23 & I23 & W23). split_and!.
  - by eapply facts_trans.
  - intros Hb. destruct (I23 Hb) as [Hb2|?]; [|by right]. destruct (I12 Hb2) as [?|Hw]; [by left|right]. eapply within_later, Hw. apply (cf_alarm _ _ _ F23).
  - intros s Hs. destruct (W23 s Hs) as [Hs2|?]; [|by right]. destruct (W12 s Hs2) as [?|[-> Hw]]; [by left|right; split; [done|]]. eapply within_later, Hw. apply (cf_alarm _ _ _ F23).
Qed.

Lemma calm_mild now h h' : calm now h h' -> mild now h h'.
Proof. intros Hc G. by apply Hc. Qed.

(** ** Parts *)

Lemma frames_none h h' : sent h' = sent h -> frames_to_watchers h h'.
Proof. intros E. exists []. split; [by rewrite app_nil_r|]. by intros ? ? ? ?%shows_nil. Qed.

Lemma registry_same db db' s : client_devices db' = client_devices db -> registry_keeps_out db db' s.
Proof. intros E c Hc. rewrite E in Hc. left. by exists c. Qed.

Lemma queue_same now h h' : commands (store h') = commands (store h) -> deliveries (store h') = deliveries (store h) -> handed h' = handed h -> asked h' = asked h -> carried_all h' = carried_all h -> queue_follows now h h'.
Proof.
  intros Hc Hd Hh Hn Hl all t Ht Hr Hf. exists all. split; [|unfold fresh in *; by rewrite Hn, Hh, Hl].
  rewrite Hh. by apply (run_other all (handed h) t (store h)).
Qed.

(** A change that leaves the tables, the sockets, the alarm, the leases and the HTTP clients alone. *)
Lemma calm_aside now h h' :
  store h' = store h -> sockets h' = sockets h -> alarm_at h' = alarm_at h -> http (memory h') = http (memory h) -> pollWatch (memory h') = pollWatch (memory h) ->
  handed h' = handed h -> asked h' = asked h -> carried_all h' = carried_all h -> frames_to_watchers h h' -> registry_keeps_out (d1 h) (d1 h') (store h) -> calm now h h'.
Proof.
  intros Es Ew Ea Eh Ep Eq En Ec Hf Hr G. split_and!.
  - split; try (by rewrite ?Es, ?Ep); try done.
    + destruct G as [G1 G2 G3]. split; rewrite ?Ew, ?Eh, ?Es; done.
    + intros a. rewrite Ea. eauto with lia.
    + by rewrite Ew.
    + apply queue_same; rewrite ?Es; done.
  - unfold idle, busy, consoles. rewrite Es, Ew, Eh, Ep. tauto.
  - intros s. unfold held. rewrite Ew. tauto.
Qed.

Lemma calm_refl now h : calm now h h.
Proof. apply calm_aside; try done; [by apply frames_none|by apply registry_same]. Qed.

Lemma calm_emit now e h h' : plain e -> calm now h h' -> calm now h (emit e h').
Proof.
  intros He Hc. apply (calm_trans _ _ h'); [done|]. apply calm_aside; try done; [by apply (carried_plain _ _ [e]); [|repeat constructor]| |by apply registry_same].
  exists [e]. split; [done|]. intros id c f Hin. exfalso. by eapply plain_shows, Hin; repeat constructor.
Qed.

Lemma calm_emit_frame now id c f h h' : watches h' id c -> calm now h h' -> calm now h (emit (Sent id (MFrame c f)) h').
Proof.
  intros Hw Hc. apply (calm_trans _ _ h'); [done|]. apply calm_aside; try done; [unfold carried_all; cbn [sent emit]; rewrite map_app, join_app; by rewrite app_nil_r| |by apply registry_same].
  exists [Sent id (MFrame c f)]. split; [done|]. by intros id' c' f' (m & [= -> ->]%list_elem_of_singleton & [= -> ->]%list_elem_of_singleton).
Qed.

Lemma calm_d1 now f h h' : registry_keeps_out (d1 h') (f (d1 h')) (store h') -> calm now h h' -> calm now h (on_d1 f h').
Proof. intros Hf Hc. apply (calm_trans _ _ h'); [done|]. apply calm_aside; try done. by apply frames_none. Qed.

Lemma calm_memory now f h h' : (forall m, http (f m) = http m) -> (forall m, pollWatch (f m) = pollWatch m) -> calm now h h' -> calm now h (on_memory f h').
Proof. intros Hh Hp Hc. apply (calm_trans _ _ h'); [done|]. apply calm_aside; try done; [apply Hh|apply Hp|by apply frames_none|by apply registry_same]. Qed.

(** Each entry comes from one of the same workstation. *)
Lemma calm_http now f h h' :
  (forall e', e' ∈ f (http (memory h')) -> exists e, e ∈ http (memory h') /\ fst e' = fst e /\ (status_ok (ht_status (snd e)) -> status_ok (ht_status (snd e'))) /\ (ht_dirty (snd e') = true -> ht_dirty (snd e) = true)) ->
  calm now h h' -> calm now h (on_memory (on_http f) h').
Proof.
  intros Hf Hc. apply (calm_trans _ _ h'); [done|]. clear Hc h. intros [G1 G2 G3]. split_and!.
  - split; try done.
    + split; try done. intros id c Hin. cbn in Hin. destruct (Hf _ Hin) as ([id0 c0] & He & Hid & Hs & _). cbn in *. subst id0. destruct (G3 id c0 He) as (? & ? & ?). auto.
    + eauto with lia.
    + by apply queue_same.
    + by apply frames_none.
    + by apply registry_same.
  - intros [?|[?|[?|[?|(e' & Hin & Hd)]]]]; left; unfold busy; [by left|by right; left|by right; right; left|by right; right; right; left|].
    right; right; right; right. cbn in Hin. destruct (Hf _ Hin) as (e & He & _ & _ & Hdirty). eauto.
  - intros s Hs. by left.
Qed.

(** A change of the tables that queues nothing and keeps who was removed. *)
Lemma calm_store now f h h' :
  commands (f (store h')) = commands (store h') -> deliveries (f (store h')) = deliveries (store h') -> revoked (f (store h')) = revoked (store h') ->
  readMeta (f (store h')) "tenantId" = readMeta (store h') "tenantId" -> calm now h h' -> calm now h (on_store f h').
Proof.
  intros Ec Ed Er Em Hc. apply (calm_trans _ _ h'); [done|]. clear Hc h. intros [G1 G2 G3]. split_and!.
  - split; try done.
    + split; try done. intros id c Hin. unfold isRevoked. cbn [store on_store]. rewrite Er. by apply G3.
    + eauto with lia.
    + by apply queue_same.
    + by apply frames_none.
    + by apply registry_same.
  - unfold idle, busy. cbn [store on_store]. rewrite Ec. by left.
  - intros s Hs. by left.
Qed.

Lemma ensureAlarm_fields d now h : let h' := ensureAlarm d now h in
  store h' = store h /\ sockets h' = sockets h /\ memory h' = memory h /\ d1 h' = d1 h /\ asked h' = asked h /\ handed h' = handed h /\ sent h' = sent h /\
  within d now h' /\ (forall a, alarm_at h = Some a -> exists a', alarm_at h' = Some a' /\ a' <= a).
Proof.
  cbn. unfold ensureAlarm, within. destruct (alarm_at h) as [cur|] eqn:E.
  - destruct (Z.ltb_spec (now + d) cur); cbn [setAlarm store sockets memory d1 asked handed sent alarm_at]; split_and!; try done.
    + exists (now + d). split; [done|lia].
    + intros a [= <-]. exists (now + d). split; [done|lia].
    + exists cur. split; [done|lia].
    + intros a Ha. exists a. split; [congruence|lia].
  - cbn [setAlarm store sockets memory d1 asked handed sent alarm_at]. split_and!; try done. exists (now + d). split; [done|lia].
Qed.

Lemma mild_alarm now d h h' : mild now h h' -> mild now h (ensureAlarm d now h').
Proof.
  intros Hm. apply (mild_trans _ _ h'); [done|]. destruct (ensureAlarm_fields d now h') as (Es & Ew & Em & Ed & En & Eh & Ese & _ & Ha).
  intros [G1 G2 G3]. split; rewrite ?Es, ?Em, ?Ed, ?Ew; try done.
  - split; rewrite ?Es, ?Em, ?Ew; done.
  - apply queue_same; rewrite ?Es; try done. unfold carried_all. by rewrite Ese.
  - by apply frames_none.
  - by apply registry_same.
Qed.

(** With the alarm set for the next half minute, nothing else is needed. *)
Lemma calm_alarm now d h h' : mild now h h' -> (good h -> waits now h h') -> d <= CONSOLE_SWEEP_MS -> calm now h (ensureAlarm d now h').
Proof.
  intros Hm Hw Hd G. destruct (ensureAlarm_fields d now h') as (Es & Ew & Em & Ed & En & Eh & Ese & (a & Ha & Hle) & Hal). split_and!.
  - by apply (mild_alarm now d h h').
  - intros _. right. exists a. split; [done|lia].
  - intros s Hs. assert (Hs' : held h' s) by (unfold held in *; by rewrite Ew in Hs). destruct (Hw G s Hs') as [?|[-> Hwi]]; [by left|right; split; [done|]].
    by apply (within_later _ _ h').
Qed.

Lemma calm_ensure now d h h' : calm now h h' -> calm now h (ensureAlarm d now h').
Proof.
  intros Hc. apply (calm_trans _ _ h'); [done|]. clear Hc h. destruct (ensureAlarm_fields d now h') as (Es & Ew & Em & Ed & En & Eh & Ese & _ & Hal). intros G. split_and!.
  - apply (mild_alarm now d h' h'); [|done]. apply calm_mild, calm_refl.
  - unfold idle, busy, consoles. rewrite Es, Ew, Em. by left.
  - intros s. unfold held. rewrite Ew. by left.
Qed.

(** ** Attachments *)

Lemma socket_elem id h ws : socket id h = Some ws -> ws ∈ sockets h /\ ws_id ws = id.
Proof. intros [Hin Hi]%js_find_Some. split; [done|]. by apply Nat.eqb_eq. Qed.

Lemma deviceAttachment_elem id h a : deviceAttachment id h = Some a -> exists ws, ws ∈ sockets h /\ ws_id ws = id /\ device_of ws = Some a.
Proof. unfold deviceAttachment. destruct (socket id h) as [ws|] eqn:E; [|done]. intros Hd. apply socket_elem in E as [? ?]. by exists ws. Qed.

(** What the loops may do to a workstation's attachment. *)
Record kept (a a' : DeviceAttachment) : Prop := {
  k_client : da_clientId a' = da_clientId a;
  k_streaming : da_streaming a' = da_streaming a;
  k_status : status_ok (da_status a) -> status_ok (da_status a')
}.

Lemma mild_serialize now id a a' h : deviceAttachment id h = Some a -> kept a a' -> mild now h (serializeAttachment id (ADevice a') h).
Proof.
  intros Ha [Kc Ks Ko] G. destruct (deviceAttachment_elem _ _ _ Ha) as (ws0 & Hin0 & Hid0 & Hd0). destruct G as [G1 G2 G3].
  assert (Huniq : forall ws, ws ∈ sockets h -> ws_id ws = id -> ws = ws0) by (intros ws Hin Hid; apply (map_NoDup_inj _ _ _ _ G1 Hin Hin0); congruence).
  assert (Hl : Forall2 like (sockets h) (sockets (serializeAttachment id (ADevice a') h))).
  { cbn. assert (Hsub : forall ws, ws ∈ sockets h -> ws ∈ sockets h) by done. revert Hsub. generalize (sockets h) at 1 3 4. intros l. induction l as [|ws l IH]; intros Hsub; cbn; constructor.
    - destruct (Nat.eqb_spec (ws_id ws) id) as [E|E]; [|done]. assert (ws = ws0) as -> by (apply Huniq; [apply Hsub; constructor|done]).
      unfold like, device_of in *. cbn. destruct (ws_attachment ws0); [|done]. injection Hd0 as ->. done.
    - apply IH. intros x Hx. apply Hsub. by constructor. }
  split; try done.
  - split; [by rewrite (like_ids _ _ Hl)| |done]. intros ws b Hin Hd. cbn in Hin. apply list_elem_of_fmap in Hin as (ws1 & -> & Hin).
    destruct (Nat.eqb_spec (ws_id ws1) id) as [E|E]; [|by apply (G2 ws1)]. cbn in Hd. injection Hd as <-. destruct (G2 ws0 a Hin0 Hd0) as [? ?]. rewrite Kc. auto.
  - eauto with lia.
  - by apply queue_same.
  - by apply frames_none.
  - by apply registry_same.
Qed.

Lemma serialize_held id a' h w : held (serializeAttachment id (ADevice a') h) w -> (fst w <> id /\ held h w) \/ (fst w = id /\ da_lanHeldSince a' = Some (snd w)).
Proof.
  intros (ws & b & Hin & Hi & Hd & Hs). cbn in Hin. apply list_elem_of_fmap in Hin as (ws1 & -> & Hin). destruct (Nat.eqb_spec (ws_id ws1) id) as [E|E]; [right; cbn in Hd, Hi; split; congruence|left]. split; [congruence|by exists ws1, b].
Qed.

Lemma attached_held id a h s : deviceAttachment id h = Some a -> da_lanHeldSince a = Some s -> held h (id, s).
Proof. intros Ha Hs. destruct (deviceAttachment_elem _ _ _ Ha) as (ws & ? & ? & ?). by exists ws, a. Qed.

Lemma serialize_busy id a a' h : deviceAttachment id h = Some a -> da_streaming a' = da_streaming a -> (da_dirty a' = true -> da_dirty a = true) ->
  busy (serializeAttachment id (ADevice a') h) -> busy h.
Proof.
  intros Ha Hst Hdi. destruct (deviceAttachment_elem _ _ _ Ha) as (ws0 & Hin0 & Hid0 & Hd0).
  assert (Hc : consoles (serializeAttachment id (ADevice a') h) <> [] -> consoles h <> []).
  { unfold consoles. cbn. intros Hne E. apply Hne. clear -E. induction (sockets h) as [|ws l IH]; [done|]. cbn in *.
    destruct (ws_id ws =? id)%nat; cbn; destruct (console_of ws); try done; by apply IH. }
  intros [?|[?|[(ws & Hin & Hx)|[?|?]]]]; [by left; apply Hc|by right; left| |by right; right; right; left|by right; right; right; right].
  right; right; left. cbn in Hin. apply list_elem_of_fmap in Hin as (ws1 & -> & Hin). destruct (ws_id ws1 =? id)%nat; [|by exists ws1].
  exists ws0. split; [done|]. unfold is_dirty, streams in *. rewrite Hd0. cbn in Hx. rewrite Hst in Hx. destruct Hx as [Hx|Hx]; [left; by apply Hdi|by right].
Qed.

Lemma calm_serialize now id a a' h h' : deviceAttachment id h' = Some a -> kept a a' -> (da_dirty a' = true -> da_dirty a = true) ->
  (forall s, da_lanHeldSince a' = Some s -> da_lanHeldSince a = Some s) -> calm now h h' -> calm now h (serializeAttachment id (ADevice a') h').
Proof.
  intros Ha K Hd Hh Hc. apply (calm_trans _ _ h'); [done|]. intros G. split_and!.
  - by apply (mild_serialize now id a a').
  - intros Hb. left. revert Hb. apply (serialize_busy id a a'); [done|apply K|done].
  - intros [i s] Hs. left. destruct (serialize_held id a' h' _ Hs) as [[_ ?]|[Hi Hs']]; [done|]. apply Hh in Hs'. cbn in *. subst i. by apply (attached_held id a).
Qed.

(** Reading back what was written. *)
Lemma serialized id a a' h : deviceAttachment id h = Some a -> deviceAttachment id (serializeAttachment id (ADevice a') h) = Some a'.
Proof.
  unfold deviceAttachment, socket. cbn [sockets serializeAttachment on_sockets]. intros Ha. rewrite js_find_map by (intros ws; destruct (ws_id ws =? id)%nat eqn:E; cbn; congruence).
  destruct (js_find _ (sockets h)) as [ws|] eqn:E; [|done]. apply js_find_Some in E as [_ E]. cbn. by rewrite E.
Qed.

(** ** Loops *)

Lemma calm_foldl {A} now (f : Hub -> A -> Hub) l h h' : (forall h x, calm now h (f h x)) -> calm now h h' -> calm now h (foldl f h' l).
Proof. intros Hf. revert h'. induction l as [|x l IH]; intros h' Hc; [done|]. cbn. apply IH. by apply (calm_trans _ _ h'). Qed.

Lemma calm_for_devices now f ids h h' : (forall id a h, deviceAttachment id h = Some a -> calm now h (f id a h)) -> calm now h h' -> calm now h (for_devices ids f h').
Proof. intros Hf. apply calm_foldl. intros h0 id. destruct (deviceAttachment id h0) as [a|] eqn:E; [by apply Hf|apply calm_refl]. Qed.

Lemma calm_notify now m h h' : (forall id, plain (Sent id m)) -> calm now h h' -> calm now h (notifyConsoles m h').
Proof. intros Hm. apply calm_foldl. intros h0 ws. apply calm_emit; [done|apply calm_refl]. Qed.

Lemma notify_sockets m h : sockets (notifyConsoles m h) = sockets h.
Proof. unfold notifyConsoles. generalize (consoles h). intros l. revert h. induction l as [|ws l IH]; intros h; [done|]. cbn. by rewrite IH. Qed.

Lemma calm_close now ids code h h' : calm now h h' -> calm now h (close_sockets ids code h').
Proof. apply calm_foldl. intros h0 id. apply calm_emit; [done|apply calm_refl]. Qed.

(** ** Configuration, registry, queue *)

Lemma calm_load now force h h' : calm now h h' -> calm now h (fst (load force now h')).
Proof. by apply calm_memory. Qed.

Lemma upsert_elem now rows : forall l c', c' ∈ foldl (upsert_one now) l rows ->
  (exists c, c ∈ l /\ cd_tenant_id c = cd_tenant_id c' /\ cd_client_id c = cd_client_id c') \/ (exists r, r ∈ rows /\ dr_clientId r = cd_client_id c').
Proof.
  induction rows as [|r rows IH]; intros l c' Hin; [left; eauto|]. cbn in Hin. destruct (IH _ _ Hin) as [(c & Hc & Ht & Hi)|(r' & Hr & Hi)].
  - unfold upsert_one in Hc. destruct (existsb _ l).
    + apply list_elem_of_fmap in Hc as (c0 & -> & Hc0). left. exists c0. destruct (String.eqb _ _); [|done]. done.
    + apply elem_of_app in Hc as [Hc|Hc]; [left; eauto|]. apply list_elem_of_singleton in Hc as ->. right. exists r. split; [by constructor|]. done.
  - right. exists r'. split; [by constructor|done].
Qed.

Lemma calm_writeRegistry now rows h h' : calm now h h' -> calm now h (writeRegistry rows now h').
Proof.
  apply calm_d1. intros c' Hc'. destruct (List.filter _ rows) as [|r l] eqn:E; [left; by exists c'|].
  destruct (upsert_elem _ _ _ _ Hc') as [?|(r' & Hr & Hi)]; [by left|right]. rewrite <- E in Hr. apply list_elem_of_In, List.filter_In in Hr as [_ Hr]. rewrite <- Hi. by apply negb_true_iff in Hr.
Qed.

Lemma calm_note now event clientId h h' : calm now h h' -> calm now h (note_event event clientId now h').
Proof.
  intros Hc. unfold note_event.
  assert (Hk : forall c h1, calm now h h1 -> calm now h (on_d1 (fun db => noteExamEvent db c event clientId now) h1)).
  { intros c h1. apply calm_d1. unfold noteExamEvent. destruct c as [c|]; [|by apply registry_same]. destruct (examFor _ _ _); by apply registry_same. }
  destruct (config (memory h')) as [c|]; [by apply Hk|]. apply Hk. by apply (calm_load now false).
Qed.

Lemma mark_keeps client rows : forall s, let s' := foldl (mark_delivered client) s rows in
  revoked s' = revoked s /\ meta s' = meta s /\ last_sites s' = last_sites s.
Proof.
  induction rows as [|r rows IH]; intros s; [done|]. cbn. destruct (IH (mark_delivered client s r)) as (-> & -> & ->).
  unfold mark_delivered. destruct (String.eqb _ _); [done|]. by destruct (delivered _ _ _).
Qed.

Lemma client_not_all clientId : re_test CLIENT_ID_PATTERN clientId = true -> clientId <> "all"%string.
Proof. intros Hp ->. vm_compute in Hp. discriminate. Qed.

(** What is pending, marked and sent to the workstation it is for. *)
Lemma calm_give now clientId portalUrl e h h' : re_test CLIENT_ID_PATTERN clientId = true -> recipient e h' = Some clientId ->
  carried e = snd (take_pending clientId portalUrl now h') -> (forall ws m, e = Sent ws m -> screens m = []) ->
  calm now h h' -> calm now h (give e now (fst (take_pending clientId portalUrl now h'))).
Proof.
  intros Hp Hto Hl He Hc. apply (calm_trans _ _ h'); [done|]. clear Hc h. unfold take_pending in *. destruct (pendingFor clientId portalUrl (now `div` 1000) (store h')) as [s l] eqn:E. cbn [fst snd] in *.
  set (rows := pending_rows clientId (now `div` 1000) (store h')). assert (Es : s = foldl (mark_delivered clientId) (store h') rows) by (by injection E).
  destruct (mark_keeps clientId rows (store h')) as (Er & Em & _). rewrite <- Es in Er, Em. unfold give, given_by. change (recipient e (on_store (fun _ => s) h')) with (recipient e h'). rewrite Hto, Hl. intros [G1 G2 G3]. split_and!.
  - split; try done.
    + split; try done. intros id c Hin. unfold isRevoked. cbn. rewrite Er. by apply G3.
    + eauto with lia.
    + cbn. unfold readMeta. by rewrite Em.
    + intros all t Ht Hr (Hf & Hs & Hq). exists all. assert (Hcar : carried_all (emit e (hand_out (List.map (fun q => (clientId, q_id q, now `div` 1000)) l) (on_store (fun _ => s) h'))) = carried_all h' ++ l).
      { unfold carried_all. cbn [sent emit hand_out on_store]. rewrite map_app, join_app. cbn. by rewrite app_nil_r, Hl. }
      split; [|split_and!; [done| |]].
      * cbn [handed hand_out store on_store emit]. replace s with (fst (pendingFor clientId portalUrl (now `div` 1000) (store h'))) by (by rewrite E).
        replace l with (snd (pendingFor clientId portalUrl (now `div` 1000) (store h'))) by (by rewrite E). apply (run_deliver all (handed h') t (store h')); [done|done|by apply client_not_all].
      * rewrite Hcar, map_app, <- Hs. cbn [handed hand_out on_store emit]. by rewrite map_app, List.map_map.
      * rewrite Hcar. apply list.Forall_app. split; [done|]. apply list.Forall_forall. intros q Hin. destruct (commands_delivered_once all _ _ _ Hr) as (_ & _ & _ & Hg & _).
        destruct (Hg clientId portalUrl (now `div` 1000) q) as (c & Hc & -> & _); [by rewrite E|]. by exists portalUrl, c.
    + exists [e]. split; [done|]. intros ws id f (m & Hm%list_elem_of_singleton & Hs). rewrite (He ws m) in Hs by done. by apply elem_of_nil in Hs.
    + by apply registry_same.
  - intros [?|[?|[?|[Hcm|?]]]]; left; unfold busy; [by left|by right; left|by right; right; left| |by right; right; right; right].
    right; right; right; left. cbn in Hcm. rewrite Es, foldl_mark_commands in Hcm. intros E0. by rewrite E0 in Hcm.
  - intros s0 Hs. by left.
Qed.

Lemma take_none clientId portalUrl now h : snd (take_pending clientId portalUrl now h) = [] -> fst (take_pending clientId portalUrl now h) = h.
Proof.
  unfold take_pending, pendingFor. cbv zeta. cbn [fst snd]. destruct (js_sort _ _); [|done]. intros _. by destruct h.
Qed.

Lemma good_client h id a : good h -> deviceAttachment id h = Some a -> re_test CLIENT_ID_PATTERN (da_clientId a) = true /\ status_ok (da_status a).
Proof. intros G Ha. destruct (deviceAttachment_elem _ _ _ Ha) as (ws & Hin & _ & Hd). by destruct (g_device _ G ws a Hin Hd). Qed.

(** Whatever needs the attachment to be well formed may assume it. *)
Lemma calm_given now h h' : (good h -> calm now h h') -> calm now h h'.
Proof. intros Hc G. by apply (Hc G). Qed.

Lemma calm_deliver now c id a h : deviceAttachment id h = Some a -> calm now h (deliver_to c now id a h).
Proof.
  intros Ha. apply calm_given. intros G. destruct (good_client h id a G Ha) as [Hp _]. unfold deliver_to. destruct c as [c|]; [|apply calm_refl].
  set (p := wc_portalUrl _). pose proof (fun e Ht Hl Hf => calm_give now (da_clientId a) p e h h Hp Ht Hl Hf (calm_refl now h)) as Hc. pose proof (take_none (da_clientId a) p now h) as Hn.
  destruct (take_pending (da_clientId a) p now h) as [h1 l]. cbn [fst snd] in *. destruct l; [rewrite Hn by done; apply calm_refl|]. apply Hc; [cbn; by rewrite Ha|done|by intros ? ? [= _ <-]].
Qed.

(** ** Queueing commands *)

(** [calm], but for the work it leaves; the alarm is still to be set. *)
Definition gentle (now : Z) (h h' : Hub) : Prop := good h -> facts now h h' /\ waits now h h'.

Lemma calm_gentle now h h' : calm now h h' -> gentle now h h'.
Proof. intros Hc G. by destruct (Hc G) as (? & _ & ?). Qed.

Lemma gentle_trans now h1 h2 h3 : gentle now h1 h2 -> gentle now h2 h3 -> gentle now h1 h3.
Proof.
  intros H12 H23 G. destruct (H12 G) as (F12 & W12). destruct (H23 (cf_good _ _ _ F12)) as (F23 & W23). split.
  - by eapply facts_trans.
  - intros s Hs. destruct (W23 s Hs) as [Hs2|?]; [|by right]. destruct (W12 s Hs2) as [?|[-> Hw]]; [by left|right; split; [done|]]. eapply within_later, Hw. apply (cf_alarm _ _ _ F23).
Qed.

Lemma gentle_calm now h1 h2 h3 : gentle now h1 h2 -> calm now h2 h3 -> gentle now h1 h3.
Proof. intros Hg Hc. by eapply gentle_trans, calm_gentle. Qed.

Lemma gentle_alarm now d h h' : gentle now h h' -> d <= CONSOLE_SWEEP_MS -> calm now h (ensureAlarm d now h').
Proof. intros Hg Hd. apply calm_alarm; [intros G; by apply Hg|intros G; by apply Hg|done]. Qed.

Lemma gentle_foldl {A} now (f : Hub -> A -> Hub) l h h' : (forall h x, gentle now h (f h x)) -> gentle now h h' -> gentle now h (foldl f h' l).
Proof. intros Hf. revert h'. induction l as [|x l IH]; intros h' Hc; [done|]. cbn. apply IH. by apply (gentle_trans _ _ h'). Qed.

Lemma gentle_for_devices now f ids h h' : (forall id a h, deviceAttachment id h = Some a -> gentle now h (f id a h)) -> gentle now h h' -> gentle now h (for_devices ids f h').
Proof. intros Hf. apply gentle_foldl. intros h0 id. destruct (deviceAttachment id h0) as [a|] eqn:E; [by apply Hf|apply calm_gentle, calm_refl]. Qed.

Lemma set_locked_ok locked s : status_ok s -> status_ok (set_locked locked s).
Proof. intros [? ? ? ? ? ? ?]. by split. Qed.

Lemma gentle_serialize now id a a' h : deviceAttachment id h = Some a -> kept a a' -> (forall s, da_lanHeldSince a' = Some s -> da_lanHeldSince a = Some s) ->
  gentle now h (serializeAttachment id (ADevice a') h).
Proof.
  intros Ha K Hh G. split; [by apply (mild_serialize now id a a')|]. intros [i s] Hs. left. destruct (serialize_held id a' h _ Hs) as [[_ ?]|[Hi Hs']]; [done|].
  apply Hh in Hs'. cbn in *. subst i. by apply (attached_held id a).
Qed.

Lemma gentle_lock now locked id a h : deviceAttachment id h = Some a -> gentle now h (lock_device locked now id a h).
Proof.
  intros Ha. unfold lock_device. destruct (Bool.eqb _ _); [apply calm_gentle, calm_refl|]. eapply gentle_calm; [|apply calm_notify; [done|apply calm_refl]].
  apply (gentle_serialize now id a); [done| |done]. split; [done|done|]. apply set_locked_ok.
Qed.

Lemma seq_NoDup a n : NoDup (List.map uuid (List.seq a n)).
Proof. apply NoDup_fmap_2; [done|]. apply NoDup_ListNoDup, List.seq_NoDup. Qed.

Lemma new_rows_asked input t n : let targets := List.filter (fun x => negb (String.eqb x "")) (en_targets input) in
  new_rows input (List.map uuid (List.seq n (length targets))) t = imap (fun i => asked_row (n + i)) (List.map (fun x => mkAsked x input t) targets).
Proof.
  cbv zeta. unfold new_rows. cbn [commands enqueue_rows on_commands empty_storage app]. generalize (List.filter (fun x => negb (String.eqb x "")) (en_targets input)). intros l. revert n. induction l as [|x l IH]; intros n; [done|].
  cbn [length List.seq List.map List.combine]. rewrite imap_cons. f_equal; [unfold asked_row; cbn; by rewrite Nat.add_0_r|]. rewrite IH. apply imap_ext. intros i y _. cbn. by rewrite Nat.add_succ_r.
Qed.

Lemma gentle_rows now input h : let targets := List.filter (fun x => negb (String.eqb x "")) (en_targets input) in let ids := List.map uuid (List.seq (drawn h) (length targets)) in
  gentle now h (draw (List.map (fun t => mkAsked t input (now `div` 1000)) targets) (on_store (enqueue_rows input ids (now `div` 1000)) h)).
Proof.
  intros targets ids [G1 G2 G3]. split; [|intros s Hs; by left]. split; try done.
  - eauto with lia.
  - intros all t Ht Hr (Hf & Hs & Hq). exists (all ++ new_rows input ids (now `div` 1000)). split.
    + apply (run_enqueue all (handed h) t (store h)); [done|done|apply seq_NoDup|]. intros id Hid Hall. rewrite Hf, asked_ids in Hall. apply list_elem_of_fmap in Hall as (i & -> & Hi).
      apply list_elem_of_fmap in Hid as (j & E & Hj). apply (inj uuid) in E as ->. apply list_elem_of_In, List.in_seq in Hj. apply list_elem_of_In, List.in_seq in Hi. lia.
    + split_and!; [|done|eapply list.Forall_impl; [exact Hq|]; intros q (p & c & Hc & ->); exists p, c; split; [apply elem_of_app; by left|done]]. cbn [asked draw on_store]. rewrite imap_app, <- Hf. f_equal. unfold ids, targets. by rewrite new_rows_asked.
  - by apply frames_none.
  - by apply registry_same.
Qed.

Lemma lock_http_from targets locked l e' : e' ∈ lock_http targets locked l ->
  exists e, e ∈ l /\ fst e' = fst e /\ (status_ok (ht_status (snd e)) -> status_ok (ht_status (snd e'))) /\ (ht_dirty (snd e') = true -> ht_dirty (snd e) = true).
Proof.
  intros (e & -> & Hin)%list_elem_of_fmap. exists e. destruct (_ || _); [|done]. split_and!; [done|done| |done]. apply set_locked_ok.
Qed.

Lemma calm_enqueue now input reload h h' : calm now h h' -> calm now h (enqueue_live uuid input reload now h').
Proof.
  intros Hc. apply (calm_trans _ _ h'); [done|]. unfold enqueue_live. destruct (List.filter _ (en_targets input)) as [|t0 targets_] eqn:Et; [apply calm_refl|].
  set (targets := t0 :: targets_). set (h0 := if reload then _ else _). set (h1 := draw _ _).
  assert (H1 : gentle now h' h1).
  { apply (gentle_trans _ _ h0); [|pose proof (gentle_rows now input h0) as Hg; by rewrite Et in Hg]. apply calm_gentle. unfold h0. destruct reload; [apply (calm_load now true)|]; apply calm_refl. }
  pose proof (calm_load now false h1 h1 (calm_refl now h1)) as H2. set (ids := if bool_decide _ then _ else _). destruct (load false now h1) as [h2 c]. cbn [fst] in H2.
  assert (H3 : gentle now h' (for_devices ids (deliver_to c now) h2)).
  { apply (gentle_calm _ _ h2); [by apply (gentle_calm _ _ h1)|]. apply calm_for_devices; [|apply calm_refl]. intros id a h3. apply calm_deliver. }
  apply gentle_alarm; [|unfold FLUSH_DELAY_MS, CONSOLE_SWEEP_MS; lia]. destruct (lock_action _) as [locked|]; [|done].
  eapply gentle_calm; [|apply calm_http; [|apply calm_refl]; intros e'; apply lock_http_from].
  apply gentle_for_devices; [|done]. intros id a h3. apply gentle_lock.
Qed.

(** ** Reminders *)

Lemma kept_nudge n v s a : kept a (set_nudge n v s a).
Proof. by split. Qed.

Lemma calm_tell now id a key version h : deviceAttachment id h = Some a -> calm now h (tellOfRelease uuid id a key version now h).
Proof. intros Ha. apply calm_enqueue. apply (calm_serialize now id a); [done|apply kept_nudge|done|done|apply calm_refl]. Qed.

Lemma wait_false id a version now h : snd (waitForSite id a version now h) = false -> fst (waitForSite id a version now h) = h.
Proof. unfold waitForSite. destruct (negb _); [done|]. by case_bool_decide. Qed.

Lemma calm_wait now id a version h : deviceAttachment id h = Some a -> calm now h (fst (waitForSite id a version now h)).
Proof.
  intros Ha. unfold waitForSite. destruct (negb _); [apply calm_refl|]. case_bool_decide; [apply calm_refl|]. cbn [fst].
  destruct (da_lanHeldSince a) as [t|] eqn:Eh; [apply calm_ensure, calm_refl|]. set (a' := set_nudge _ _ _ a). set (h1 := serializeAttachment id (ADevice a') h). set (h2 := notifyConsoles _ h1).
  pose proof (calm_notify now (MStatus (statusOf a' now true)) h1 h1 ltac:(done) (calm_refl now h1)) as H12. fold h2 in H12.
  destruct (ensureAlarm_fields LAN_HOLD_MAX_MS now h2) as (Es & Ew & Em & _ & _ & _ & _ & Hwi & Hal). intros G.
  pose proof (mild_serialize now id a a' h Ha (kept_nudge _ _ _ a) G) as F1. destruct (H12 (cf_good _ _ _ F1)) as (F2 & I2 & W2). fold h1 in F1. split_and!.
  - pose proof (mild_alarm now LAN_HOLD_MAX_MS h h2 (fun _ => facts_trans _ _ _ _ F1 F2) G) as F. exact F.
  - intros Hb. assert (Hb2 : busy h2) by (unfold busy, consoles in *; by rewrite Es, Ew, Em in Hb).
    destruct (I2 Hb2) as [Hb1|Hw]; [left|right; by apply (within_later _ _ h2)]. by apply (serialize_busy id a a' h).
  - intros s Hs. assert (Hs2 : held h2 s) by (unfold held in *; by rewrite Ew in Hs). destruct (W2 s Hs2) as [Hs1|[-> _]]; [|by right].
    destruct (serialize_held id a' h s Hs1) as [[_ ?]|[_ E]]; [by left|right]. cbn in E. split; [congruence|done].
Qed.

Lemma calm_nudge now id a h : deviceAttachment id h = Some a -> calm now h (nudgeSocket uuid now id a h).
Proof.
  intros Ha. unfold nudgeSocket. destruct (releaseNudgeDue _ _ _ _ _ _) as [[release key]|].
  - destruct (String.eqb _ _); [|by apply calm_tell]. pose proof (calm_wait now id a (ro_version release) h Ha) as Hw. pose proof (wait_false id a (ro_version release) now h) as Hf.
    destruct (waitForSite id a (ro_version release) now h) as [h1 w]. cbn [fst snd] in *. destruct w; [done|]. rewrite Hf by done. by apply calm_tell.
  - destruct (da_lanHeldSince a); [|apply calm_refl]. apply (calm_serialize now id a); [done|apply kept_nudge|done|done|apply calm_refl].
Qed.

Lemma map_set_elem {A} k (v : A) l e : e ∈ map_set k v l -> e ∈ l \/ e = (k, v).
Proof.
  unfold map_set, upsert. destruct (existsb _ l).
  - intros (x & -> & Hx)%list_elem_of_fmap. destruct (String.eqb _ _); [by right|by left].
  - intros [?|?%list_elem_of_singleton]%elem_of_app; [by left|by right].
Qed.


(** An entry replaced by one of the same workstation. *)
Lemma calm_map_set now id (c c' : HttpClient) h h' : assoc id (http (memory h')) = Some c -> (status_ok (ht_status c) -> status_ok (ht_status c')) -> (ht_dirty c' = true -> ht_dirty c = true) ->
  calm now h h' -> calm now h (on_memory (on_http (map_set id c')) h').
Proof.
  intros Ea Hs Hd. apply calm_http. intros e' [?| ->]%map_set_elem; [by exists e'|]. exists (id, c). by split; [apply assoc_elem|].
Qed.

Lemma calm_nudgeHttp now clientId h h' : calm now h h' -> calm now h (nudgeHttp uuid now clientId h').
Proof.
  intros Hc. unfold nudgeHttp. destruct (assoc clientId (http (memory h'))) as [c|] eqn:E; [|done]. destruct (releaseNudgeDue _ _ _ _ _ _) as [[release key]|]; [|done].
  apply calm_enqueue. by apply (calm_map_set now clientId c).
Qed.

Lemma calm_nudgeSite now site changed except h h' : calm now h h' -> calm now h (nudgeSite uuid site changed except now h').
Proof.
  intros Hc. unfold nudgeSite. destruct site as [s|]; [|done]. destruct (_ || _); [done|]. apply calm_for_devices; [|done].
  intros id a h0 Ha. unfold nudge_at_site. destruct (_ && _ && _); [by apply calm_nudge|apply calm_refl].
Qed.

Lemma calm_nudgeWaiting now h h' : calm now h h' -> calm now h (nudgeWaiting uuid now h').
Proof.
  apply calm_for_devices. intros id a h0 Ha. destruct (da_lanHeldSince a); [|apply calm_refl]. destruct (_ <=? _); [by apply calm_nudge|apply calm_refl].
Qed.

(** ** Configuration and exams *)

Lemma calm_configChanged now h h' : calm now h h' -> calm now h (configChanged uuid now h').
Proof.
  intros Hc. unfold configChanged. pose proof (calm_load now true h h' Hc) as H1. destruct (load true now h') as [h1 c]. cbn [fst] in H1.
  destruct c as [c|]; [|by apply calm_close]. case_bool_decide; [|by apply calm_close].
  apply calm_foldl; [intros h0 e; apply calm_nudgeHttp, calm_refl|]. apply calm_for_devices; [intros id a h0; apply calm_nudge|].
  apply calm_for_devices; [|done]. intros id a h0 _. apply calm_emit; [done|apply calm_refl].
Qed.

Lemma setClientsBroadcast_keeps tenant ls epoch s : forall db,
  registry_keeps_out db (foldl (fun d ids => setClientsBroadcast d tenant ids None epoch) db ls) s.
Proof.
  induction ls as [|ids ls IH]; intros db; [by apply registry_same|]. intros c' Hc'. destruct (IH _ c' Hc') as [(c & Hc & Ht & Hi)|?]; [left|by right].
  apply list_elem_of_fmap in Hc as (c0 & -> & Hc0). exists c0. destruct (_ && _); [by split_and!|by split_and!].
Qed.

Lemma finishExam_keeps db exam nowMs s : registry_keeps_out db (fst (finishExam db exam nowMs)) s.
Proof.
  unfold finishExam. destruct (negb _); [by apply registry_same|]. destruct (x_cancelled exam); [by apply registry_same|].
  destruct (js_find _ _) as [row|]; [|by apply registry_same]. destruct (x_groupName exam); [|by apply registry_same]. cbn [fst].
  apply (setClientsBroadcast_keeps _ _ _ s (on_exam_sessions _ db)).
Qed.

Definition tables_keep (s s' : HubStorage) : Prop :=
  commands s' = commands s /\ deliveries s' = deliveries s /\ revoked s' = revoked s /\ readMeta s' "tenantId" = readMeta s "tenantId".

Lemma tables_keep_trans s1 s2 s3 : tables_keep s1 s2 -> tables_keep s2 s3 -> tables_keep s1 s3.
Proof. unfold tables_keep. intuition congruence. Qed.

Lemma tables_keep_meta key value s : key <> "tenantId"%string -> tables_keep s (writeMeta key value s).
Proof. intros Hk. split_and!; [done..|]. rewrite readMeta_write. by rewrite (proj2 (String.eqb_neq _ _)). Qed.

Lemma exam_key_not id : exam_key id <> "tenantId"%string.
Proof. unfold exam_key. cbn. congruence. Qed.

Lemma registry_trans db1 db2 db3 s : registry_keeps_out db1 db2 s -> registry_keeps_out db2 db3 s -> registry_keeps_out db1 db3 s.
Proof.
  intros H12 H23 c3 H3. destruct (H23 c3 H3) as [(c2 & H2 & Ht & Hi)|?]; [|by right]. destruct (H12 c2 H2) as [(c1 & ? & ? & ?)|?]; [left; exists c1; split_and!; congruence|right; congruence].
Qed.

Lemma exam_step_keeps tenant now online e s db s0 : let '(s1, db1, _) := exam_step tenant now online e (s, db) in tables_keep s s1 /\ registry_keeps_out db db1 s0.
Proof.
  unfold exam_step. destruct (_ <=? _).
  - case_bool_decide; [by split; [|apply registry_same]|]. destruct (x_cancelled e); split; try (apply tables_keep_meta, exam_key_not); [by apply registry_same|apply finishExam_keeps].
  - destruct (_ && _); [|by split; [|apply registry_same]]. split; [apply tables_keep_meta, exam_key_not|by apply registry_same].
Qed.

Lemma exam_steps_keep tenant now online s0 es : forall s db, let '(s1, db1, _) := exam_steps tenant now online es (s, db) in tables_keep s s1 /\ registry_keeps_out db db1 s0.
Proof.
  induction es as [|e es IH]; intros s db; [by split; [|apply registry_same]|]. cbn [exam_steps]. pose proof (exam_step_keeps tenant now online e s db s0) as H1.
  destruct (exam_step tenant now online e (s, db)) as [[s1 db1] step]. destruct H1 as [K1 R1]. specialize (IH s1 db1). destruct (exam_steps tenant now online es (s1, db1)) as [[s2 db2] cl].
  destruct IH as [K2 R2]. split; [by eapply tables_keep_trans|by eapply registry_trans].
Qed.

Lemma forget_exams_keeps es s : tables_keep s (forget_exams es s).
Proof. split_and!; [done..|]. unfold readMeta, forget_exams. cbn [meta on_meta]. apply assoc_filter_keep. intros v. done. Qed.

Lemma calm_scheduleExam now h h' : calm now h h' -> calm now h (scheduleExamAlarm now h').
Proof. intros Hc. unfold scheduleExamAlarm. destruct (next_exam_time _ _); [by apply calm_ensure|done]. Qed.

Lemma calm_exam_tick now h h' : calm now h h' -> calm now h (exam_tick uuid now h').
Proof.
  intros Hc. unfold exam_tick. pose proof (calm_load now false h h' Hc) as H1. destruct (load false now h') as [h1 c]. cbn [fst] in H1. destruct c as [c|]; [|done].
  pose proof (exam_steps_keep (tenantId h1) now (online_now now h1) (store h1) (hc_exams c) (store h1) (d1 h1)) as Hk.
  destruct (exam_steps _ _ _ _ _) as [[s db] cleared]. destruct Hk as [K R]. apply calm_scheduleExam.
  assert (H2 : calm now h (on_store (fun _ => forget_exams (hc_exams c) s) (on_d1 (fun _ => db) h1))).
  { destruct (tables_keep_trans _ _ _ K (forget_exams_keeps (hc_exams c) s)) as (? & ? & ? & ?). apply calm_store; try done. by apply calm_d1. }
  destruct cleared as [|p cleared]; [done|]. apply calm_foldl; [|by apply calm_configChanged].
  intros h0 e. unfold clear_exam_sessions. destruct (clear_targets _ _ _); [apply calm_refl|]. apply calm_enqueue, calm_refl.
Qed.

(** ** Reports *)

Lemma calm_rememberSite now clientId ip lan h h' : calm now h h' -> calm now h (rememberSite clientId ip lan now h').
Proof. intros Hc. unfold rememberSite. destruct (siteKey ip lan); [by apply calm_store|done]. Qed.

Lemma calm_relayFrame now clientId f h h' : calm now h h' -> calm now h (relayFrame clientId f h').
Proof.
  intros Hc. unfold relayFrame. set (h1 := on_memory _ h').
  assert (Hw : forall ws c, ws ∈ consoles h1 -> console_of ws = Some c -> clientId ∈ ca_watch c -> watches h1 (ws_id ws) clientId).
  { intros ws c Hin Ec Hw. exists ws, c. split_and!; try done. apply list_elem_of_In, List.filter_In in Hin as [Hin _]. by apply list_elem_of_In. }
  assert (H1 : calm now h h1) by (by apply calm_memory).
  cut (forall l hi, (forall ws, ws ∈ l -> ws ∈ consoles h1) -> sockets hi = sockets h1 -> calm now h hi ->
    calm now h (foldl (fun h2 ws => match console_of ws with Some c => if bool_decide (clientId ∈ ca_watch c) then emit (Sent (ws_id ws) (MFrame clientId f)) h2 else h2 | None => h2 end) hi l)).
  { intros Hl. by apply Hl. }
  intros l. induction l as [|ws l IH]; intros hi Hsub Hs Hhi; [done|]. cbn [foldl]. assert (Hl : forall x, x ∈ l -> x ∈ consoles h1) by (intros x Hx; apply Hsub; by constructor).
  destruct (console_of ws) as [c|] eqn:Ec; [|by apply IH]. case_bool_decide as Hin; [|by apply IH]. apply IH; [done|done|]. apply calm_emit_frame; [|done].
  unfold watches in *. rewrite Hs. apply (Hw ws c); [apply Hsub; constructor|done|done].
Qed.

(** The entry of a workstation that heartbeats. *)
Lemma gentle_http_set now id c' h : re_test CLIENT_ID_PATTERN id = true -> isRevoked (store h) id = false -> (good h -> status_ok (ht_status c')) ->
  gentle now h (on_memory (on_http (map_set id c')) h).
Proof.
  intros Hp Hr Hs G. specialize (Hs G). destruct G as [G1 G2 G3]. split; [|intros s; by left]. split; try done.
  - split; try done. intros id0 c0 Hin. cbn in Hin. apply map_set_elem in Hin as [Hin|[= -> ->]]; [by apply G3|done].
  - eauto with lia.
  - by apply queue_same.
  - by apply frames_none.
  - by apply registry_same.
Qed.

Lemma calm_http_set now id c' h : re_test CLIENT_ID_PATTERN id = true -> isRevoked (store h) id = false -> (good h -> status_ok (ht_status c')) -> ht_dirty c' = false ->
  calm now h (on_memory (on_http (map_set id c')) h).
Proof.
  intros Hp Hr Hs Hd G. destruct (gentle_http_set now id c' h Hp Hr Hs G) as [F W]. split_and!; [done| |done].
  intros [?|[?|[?|[?|(e & Hin & He)]]]]; left; unfold busy; [by left|by right; left|by right; right; left|by right; right; right; left|].
  right; right; right; right. cbn in Hin. apply map_set_elem in Hin as [Hin| ->]; [by exists e|]. cbn in He. congruence.
Qed.

Lemma calm_heartbeat_state now clientId ip portal payload thumbnail h : re_test CLIENT_ID_PATTERN clientId = true -> isRevoked (store h) clientId = false ->
  calm now h (heartbeat_state clientId ip portal payload thumbnail now h).
Proof.
  intros Hp Hr. unfold heartbeat_state. set (previous := assoc clientId (http (memory h))). set (status := normalizeStatus payload _).
  assert (Hok : good h -> status_ok status).
  { intros G. apply normalizeStatus_ok. intros p Hpr. apply fmap_Some in Hpr as (c & Hc & ->). apply assoc_elem in Hc. by apply (g_http _ G) in Hc as [? _]. }
  destruct (heartbeat_client previous status ip portal now) as [client changed] eqn:Ec.
  assert (Hst : ht_status client = status) by (unfold heartbeat_client in Ec; destruct previous; by injection Ec as <- _). rewrite <- Hst in Hok.
  set (h1 := on_memory _ h). set (h2 := match acceptableFrame thumbnail with Some f => _ | None => _ end). set (h3 := match previous with None => _ | Some _ => _ end). set (h4 := if changed then _ else _).
  assert (H14 : calm now h1 h4).
  { assert (H2 : calm now h1 h2) by (unfold h2; destruct (acceptableFrame _); [apply calm_relayFrame|]; apply calm_refl).
    assert (H3 : calm now h1 h3) by (unfold h3; destruct previous; [done|]; by apply calm_note, calm_writeRegistry).
    unfold h4. destruct changed; [|done]. apply calm_rememberSite. by apply calm_notify. }
  destruct (ht_dirty client) eqn:Ed.
  - apply gentle_alarm; [|unfold FLUSH_DELAY_MS, CONSOLE_SWEEP_MS; lia]. eapply gentle_calm; [|exact H14]. by apply gentle_http_set.
  - eapply calm_trans; [|exact H14]. by apply calm_http_set.
Qed.

Lemma calm_refusal now clientId h h' : calm now h h' -> calm now h (fst (refusalFor clientId now h')).
Proof. intros Hc. unfold refusalFor. destruct (isRevoked _ _); [done|]. by apply (calm_load now false). Qed.

Lemma refusal_none clientId now h : snd (refusalFor clientId now h) = None -> isRevoked (store h) clientId = false /\ store (fst (refusalFor clientId now h)) = store h.
Proof. unfold refusalFor. destruct (isRevoked (store h) clientId) eqn:E; [done|]. cbn. done. Qed.

Lemma calm_status now id a payload h : deviceAttachment id h = Some a -> calm now h (status_message uuid id a payload now h).
Proof.
  intros Ha. unfold status_message. destruct (negb _); [apply calm_refl|]. apply calm_given. intros G. destruct (good_client h id a G Ha) as [_ Hok].
  set (next := normalizeStatus payload _). set (updated := set_status next true a). set (h0 := serializeAttachment id (ADevice updated) h).
  assert (K : kept a updated). { split; [done|done|]. intros _. apply normalizeStatus_ok. by intros p [= <-]. }
  assert (H0 : gentle now h h0) by (by apply (gentle_serialize now id a)).
  assert (Hn : calm now h0 (notifyConsoles (MStatus (statusOf updated now true)) h0)) by (apply calm_notify; [done|apply calm_refl]).
  assert (H1 : calm now h (ensureAlarm FLUSH_DELAY_MS now (notifyConsoles (MStatus (statusOf updated now true)) h0))).
  { apply gentle_alarm; [by eapply gentle_calm|]. unfold FLUSH_DELAY_MS, CONSOLE_SWEEP_MS. lia. }
  set (h1 := ensureAlarm _ _ _) in *. apply calm_rememberSite, calm_nudgeSite. eapply calm_trans; [exact H1|]. apply calm_nudge.
  unfold h1, deviceAttachment, socket. destruct (ensureAlarm_fields FLUSH_DELAY_MS now (notifyConsoles (MStatus (statusOf updated now true)) h0)) as (_ & -> & _).
  rewrite notify_sockets. apply (serialized id a updated h Ha).
Qed.

(** ** Departures *)

Lemma device_attached id h ws a : good h -> socket id h = Some ws -> device_of ws = Some a -> deviceAttachment id h = Some a.
Proof. intros _ Hs Hd. unfold deviceAttachment. by rewrite Hs. Qed.

(** A workstation's socket, or one handled already. *)
Lemma calm_gone now id h h' : (forall ws c, socket id h' = Some ws -> ws_attachment ws <> AConsole c) -> calm now h h' -> calm now h (socketGone uuid id now h').
Proof.
  intros Hd Hc. unfold socketGone. case_bool_decide; [done|]. set (h1 := on_memory (add_departed id) h').
  assert (H1 : calm now h h1) by (by apply calm_memory). change (socket id h1) with (socket id h'). destruct (socket id h') as [ws|]; [|done].
  destruct (ws_attachment ws) as [a|c] eqn:Ea; [|by destruct (Hd ws c)]. destruct (existsb _ _); [done|]. apply calm_nudgeSite.
  set (m := if isRevoked _ _ then MRemoved _ else MStatus _). assert (Hm : forall id, plain (Sent id m)) by (unfold m; by destruct (isRevoked _ _)).
  apply calm_ensure. destruct (isRevoked (store h1) (da_clientId a)); [|apply calm_note]; (apply calm_notify; [done|]); [|apply calm_writeRegistry]; by apply calm_memory.
Qed.

Lemma calm_sweep now h h' : calm now h h' -> calm now h (sweepStale uuid now h').
Proof.
  apply calm_foldl. intros h0 id. unfold sweep_one. destruct (socket id h0) as [ws|] eqn:Es; [|apply calm_refl]. destruct (device_of ws) as [a|] eqn:Ed; [|apply calm_refl].
  destruct (_ <? _); [|apply calm_refl]. apply calm_gone; [|apply calm_emit; [done|apply calm_refl]].
  intros ws' c. change (socket id (emit _ h0)) with (socket id h0). rewrite Es. intros [= <-] E. unfold device_of in Ed. by rewrite E in Ed.
Qed.

(** ** Write-back *)

Lemma calm_fold_fst {A B} now (f : Hub * B -> A -> Hub * B) l h st : (forall st x, calm now (fst st) (fst (f st x))) -> calm now h (fst st) -> calm now h (fst (foldl f st l)).
Proof. intros Hf. revert st. induction l as [|x l IH]; intros st Hc; [done|]. cbn. apply IH. by apply (calm_trans _ _ (fst st)). Qed.

Lemma calm_flush_device now st id : calm now (fst st) (fst (flush_device now st id)).
Proof.
  destruct st as [h rows]. unfold flush_device. destruct (socket id h) as [ws|] eqn:Es; [|apply calm_refl]. destruct (device_of ws) as [a|] eqn:Ed; [|apply calm_refl].
  destruct (_ || _); [|apply calm_refl]. cbn [fst]. apply (calm_serialize now id a); [unfold deviceAttachment; by rewrite Es|done|done|done|apply calm_refl].
Qed.

Lemma map_delete_elem {A} k (l : list (string * A)) e : e ∈ map_delete k l -> e ∈ l /\ fst e <> k.
Proof. intros Hin. apply list_elem_of_In, List.filter_In in Hin as [Hin Hk]. split; [by apply list_elem_of_In|]. by apply negb_true_iff, String.eqb_neq in Hk. Qed.

Lemma calm_http_delete now k h h' : calm now h h' -> calm now h (on_memory (on_http (map_delete k)) h').
Proof. apply calm_http. intros e' [Hin _]%map_delete_elem. by exists e'. Qed.

Lemma calm_flush_http now st id : calm now (fst st) (fst (flush_http now st id)).
Proof.
  destruct st as [h rows]. unfold flush_http. destruct (assoc id (http (memory h))) as [c|] eqn:Ea; [|apply calm_refl].
  assert (Hk : forall h1 c1, calm now h h1 -> calm now h (if HTTP_ONLINE_MS <? now - ht_lastSeen c1 then forget_http now id c1 h1 else h1)).
  { intros h1 c1 H1. destruct (_ <? _); [|done]. apply calm_note, calm_notify; [done|].
    change (calm now h (on_memory (on_frames (map_delete id)) (on_memory (on_http (map_delete id)) h1))). apply calm_memory; [done|done|]. by apply calm_http_delete. }
  destruct (ht_dirty c); cbn [fst]; apply Hk; [|apply calm_refl]. by apply (calm_map_set now id c); [..|apply calm_refl].
Qed.

Lemma calm_counts now h h' : calm now h h' -> calm now h (write_counts now h').
Proof.
  intros Hc. unfold write_counts. destruct (_ && _); [done|].
  set (v1 := string_of_int _). set (v2 := string_of_int _). set (h1 := on_d1 _ h').
  destruct (tables_keep_trans _ _ _ (tables_keep_meta "flushedOnline" v2 (store h1) ltac:(done)) (tables_keep_meta "flushedHttp" v1 _ ltac:(done))) as (? & ? & ? & ?).
  apply calm_store; try done. apply calm_d1; [|done]. by apply registry_same.
Qed.

Lemma calm_flush now h h' : calm now h h' -> calm now h (flush now h').
Proof.
  intros Hc. unfold flush. set (st1 := foldl (flush_device now) (h', []) (devices h')).
  assert (H1 : calm now h (fst st1)) by (apply calm_fold_fst; [apply calm_flush_device|done]).
  pose proof (calm_fold_fst now (flush_http now) (List.map fst (http (memory (fst st1)))) h st1 (calm_flush_http now) H1) as H2.
  destruct (foldl (flush_http now) st1 _) as [h2 rows]. apply calm_counts. by apply calm_writeRegistry.
Qed.

Lemma purge_commands now s : commands (purgeExpiredCommands now s) <> [] -> commands s <> [].
Proof. cbn. intros Hne E. by rewrite E in Hne. Qed.

Lemma calm_purge now h h' : calm now h h' -> calm now h (on_store (purgeExpiredCommands (now `div` 1000)) h').
Proof.
  intros Hc. apply (calm_trans _ _ h'); [done|]. clear Hc h. intros [G1 G2 G3]. split_and!.
  - split; try done.
    + eauto with lia.
    + intros all t Ht Hr Hf. exists all. split; [|done]. by apply (run_purge all (handed h') t (store h')).
    + by apply frames_none.
    + by apply registry_same.
  - intros [?|[?|[?|[Hn|?]]]]; left; unfold busy; [by left|by right; left|by right; right; left| |by right; right; right; right].
    right; right; right; left. by apply purge_commands in Hn.
  - intros s Hs. by left.
Qed.

(** ** Updates and waking *)

Lemma calm_check_one now c st clientId : calm now (fst st) (fst (check_one uuid c now st clientId)).
Proof.
  destruct st as [h direct]. unfold check_one. destruct (head _) as [id|]; [|apply calm_refl]. destruct (deviceAttachment id h) as [a|] eqn:Ea; [|apply calm_refl].
  destruct c as [c|]; [|apply calm_refl]. destruct (updateTargetFor _ _ _) as [target|]; [|apply calm_refl]. pose proof (calm_wait now id a (ro_version target) h Ea) as Hw. pose proof (wait_false id a (ro_version target) now h) as Hf.
  destruct (waitForSite id a (ro_version target) now h) as [h1 w]. cbn [fst snd] in *. destruct w; [done|]. rewrite Hf, Ea by done. by apply calm_tell.
Qed.

Lemma calm_checkUpdate now raw v h h' : calm now h h' -> calm now h (fst (checkUpdate uuid raw v now h')).
Proof.
  intros Hc. unfold checkUpdate. pose proof (calm_load now true h h' Hc) as H1. destruct (load true now h') as [h1 c]. cbn [fst] in H1.
  pose proof (calm_fold_fst now (check_one uuid c now) (client_ids raw) h (h1, []) (calm_check_one now c) H1) as H2. destruct (foldl (check_one uuid c now) (h1, []) _) as [h2 direct].
  cbn [fst] in *. destruct direct; [done|]. by apply calm_enqueue.
Qed.

Lemma calm_installUpdate now raw h h' : calm now h h' -> calm now h (fst (installUpdate uuid raw now h')).
Proof.
  intros Hc. unfold installUpdate. pose proof (calm_load now true h h' Hc) as H1. destruct (load true now h') as [h1 c]. cbn [fst] in *.
  apply calm_foldl; [|done]. intros h0 e. apply calm_enqueue, calm_refl.
Qed.

Lemma calm_wake now raw h h' : calm now h h' -> calm now h (fst (wake_live uuid raw now h')).
Proof. intros Hc. apply calm_foldl; [|done]. intros h0 e. apply calm_enqueue, calm_refl. Qed.

Lemma calm_lanPeers now clientId v order h h' : calm now h h' -> calm now h (fst (lanPeersFor clientId v order now h')).
Proof.
  intros Hc. unfold lanPeersFor. pose proof (calm_load now false h h' Hc) as H1. destruct (load false now h') as [h1 c]. cbn [fst] in H1.
  destruct (_ || _); [done|]. by destruct (head _).
Qed.
End Runs.
