(* ===== verification/HubSafety.v ===== *)
(** What holds of an organization's hub in every run: the events of the runtime
    and the requests of the Worker as steps, in any order, and the theorems
    about them. *)
From S2P Require Import Prelude JsString Regex Platform Db Escape Allowlist Releases LanSharing Power Exams HubStore HubConfig HubStatus HubExams HubLive HubRuns.

Lemma map_ext_on {A B} (f g : A -> B) l : (forall x, x ∈ l -> f x = g x) -> List.map f l = List.map g l.
Proof. intros Hf. apply List.map_ext_in. intros x Hx. by apply Hf, list_elem_of_In. Qed.

Lemma map_id_on {A} (f : A -> A) l : (forall x, x ∈ l -> f x = x) -> List.map f l = l.
Proof. intros Hf. rewrite (map_ext_on f id) by done. apply List.map_id. Qed.

(** ** Events *)

Inductive HubRequest : Type :=
| RDevice (id : nat) (clientId ip : string) (portal : PortalContext)
| RConsole (id : nat) (userId : string)
| RHeartbeat (clientId ip : string) (portal : PortalContext) (payload : StatusPayload) (thumbnail : jsval)
| REnqueue (input : EnqueueInput) (reload_config : bool)
| RLive (watch : option (list string))
| RConfigChanged
| RExamsChanged
| RRemove (clientId : string)
| REnrolled (clientId : string)
| RRemoteOpen (clientId session userId : string) (seats : option Z) (endsAt : Z) (connected : bool)
| RRemoteEnded (clientId : string)
| RRemoteRevoke
| RInstall (ids : list string)
| RCheck (ids : list string) (version : option string)
| RPeers (clientId version : string) (order : list Z)
| RWake (targets : list (string * list string)).

(** Hibernation: the maps in memory are gone. *)
Definition hibernate (h : Hub) : Hub := on_memory (fun _ => mkMemory None [] [] [] [] 0 []) h.

(** The runtime no longer lists a socket once its close was handled. *)
Definition drop_socket (id : nat) : Hub -> Hub := on_sockets (List.filter (fun ws => negb (ws_id ws =? id)%nat)).

Definition take_alarm (h : Hub) : Hub := mkHub (store h) (sockets h) None (memory h) (d1 h) (asked h) (handed h) (sent h).

(** The runtime answered a ping. *)
Definition pinged (id : nat) (now : Z) : Hub -> Hub :=
  on_sockets (List.map (fun ws => if (ws_id ws =? id)%nat then mkWs (ws_id ws) (ws_attachment ws) (Some now) else ws)).

Section Hub.
Context `{UrlParser} (uuid : nat -> string).

(** The routes of [fetch], past [bind]. *)
Definition handle (r : HubRequest) (now : Z) (h : Hub) : Hub :=
  match r with
  | RDevice id clientId ip ctx => fst (upgrade_device id clientId ip ctx now h)
  | RConsole id userId => if String.eqb userId "" then h else acceptConsole id userId now h
  | RHeartbeat clientId ip ctx payload thumbnail => fst (handleHeartbeat uuid clientId ip ctx payload thumbnail now h)
  | REnqueue input reload_config => handle_enqueue uuid input reload_config now h
  | RLive watch => let '(h', clients) := handle_live watch now h in emit (AnsweredLive clients) h'
  | RConfigChanged => configChanged uuid now h
  | RExamsChanged => handle_exams_changed uuid now h
  | RRemove clientId => removeDevice clientId now h
  | REnrolled clientId => on_store (deviceEnrolled clientId) h
  | RRemoteOpen clientId session userId seats endsAt connected => on_store (fun s => fst (remote_open clientId session userId seats endsAt connected (now `div` 1000) s)) h
  | RRemoteEnded clientId => on_store (releaseRemoteSeat clientId) h
  | RRemoteRevoke => on_store (fun s => fst (releaseAllRemoteSeats s)) h
  | RInstall ids => fst (installUpdate uuid ids now h)
  | RCheck ids version => fst (checkUpdate uuid ids version now h)
  | RPeers clientId version order => fst (lanPeersFor clientId version order now h)
  | RWake targets => fst (wake_live uuid targets now h)
  end.

(** A new socket has a new identity. *)
Definition new_identity (r : HubRequest) (h : Hub) : Prop :=
  match r with RDevice id _ _ _ | RConsole id _ => id ∉ List.map ws_id (sockets h) | _ => True end.

Inductive hub_step (now : Z) (h : Hub) : Hub -> Prop :=
| step_request tenant s r : bind tenant (store h) = (s, true) -> new_identity r h -> hub_step now h (handle r now (on_store (fun _ => s) h))
| step_message id m : hub_step now h (webSocketMessage uuid id m now h)
| step_close id code : hub_step now h (drop_socket id (webSocketClose uuid id code now h))
| step_error id : hub_step now h (drop_socket id (webSocketError uuid id now h))
| step_alarm t : alarm_at h = Some t -> t <= now -> hub_step now h (alarm uuid now (take_alarm h))
| step_ping id : hub_step now h (pinged id now h)
| step_sleep : hub_step now h (hibernate h).

Definition new_hub (tenant : string) (db : D1Database) : Hub :=
  mkHub (fst (bind tenant empty_storage)) [] None (mkMemory None [] [] [] [] 0 []) db [] [] [].

(** A run begins with the hub bound to the organization first asking for it;
    whoever else writes to the database may do so between steps. *)
Inductive hub_run : Z -> Hub -> Prop :=
| hub_start tenant db now : tenant <> ""%string -> hub_run now (new_hub tenant db)
| hub_next t h now h' : hub_run t h -> t <= now -> hub_step now h h' -> hub_run now h'
| hub_database t h db : hub_run t h -> hub_run t (on_d1 (fun _ => db) h).

(** ** Steps that change who is connected or watched *)

Context `{!Inj (=) (=) uuid}.

Record tame_facts (now : Z) (h h' : Hub) : Prop := {
  tm_good : good h';
  tm_alarm a : alarm_at h = Some a -> exists a', alarm_at h' = Some a' /\ a' <= a;
  tm_bound : readMeta (store h') "tenantId" = readMeta (store h) "tenantId";
  tm_revoked : revoked (store h') = revoked (store h);
  tm_queue : queue_follows uuid now h h';
  tm_watch id clientId : watches h' id clientId <-> watches h id clientId;
  tm_frames : frames_to_watchers h h';
  tm_registry : registry_keeps_out (d1 h) (d1 h') (store h);
  tm_waits : waits now h h'
}.

(** As [calm], without the sockets being the same; [soft]: the alarm is still to be set. *)
Definition soft (now : Z) (h h' : Hub) : Prop := good h -> tame_facts now h h'.
Definition tame (now : Z) (h h' : Hub) : Prop := good h -> tame_facts now h h' /\ idle now h h'.

Lemma watches_like' h h' id clientId : Forall2 like (sockets h) (sockets h') -> watches h id clientId -> watches h' id clientId.
Proof.
  intros Hl (ws & c & Hin & Hid & Hc & Hw). apply list_elem_of_lookup_1 in Hin as [i Hi]. destruct (Forall2_lookup_l _ _ _ _ _ Hl Hi) as (ws' & Hw' & (Hi' & _ & Hx)).
  exists ws', c. split_and!; [by apply list_elem_of_lookup_2 with i|congruence| |done]. unfold console_of in *. destruct (ws_attachment ws), (ws_attachment ws'); try done. congruence.
Qed.

Lemma calm_soft now h h' : calm uuid now h h' -> soft now h h'.
Proof.
  intros Hc G. destruct (Hc G) as ([Fg Fa Fl Fp Fr Fb Fq (out & Eo & Wo) Fd] & _ & W). split; try done.
  - intros id cl. split; [by apply watches_like|by apply watches_like'].
  - by exists out.
Qed.

Lemma calm_tame now h h' : calm uuid now h h' -> tame now h h'.
Proof. intros Hc G. split; [by apply calm_soft|]. by apply Hc. Qed.

Lemma soft_trans now h1 h2 h3 : soft now h1 h2 -> soft now h2 h3 -> soft now h1 h3.
Proof.
  intros H12 H23 G. destruct (H12 G) as [G1 A1 B1 R1 Q1 W1 (o1 & E1 & F1) D1 T1]. destruct (H23 G1) as [G2 A2 B2 R2 Q2 W2 (o2 & E2 & F2) D2 T2]. split; try congruence; try done.
  - intros a Ha. destruct (A1 a Ha) as (a' & Ha' & ?). destruct (A2 a' Ha') as (a'' & ? & ?). exists a''. split; [done|lia].
  - intros all t Ht Hr Hf. destruct (Q1 all t Ht Hr Hf) as (all' & Hr' & Hf'). apply (Q2 all' (now `div` 1000)); [lia|done..].
  - intros id cl. by rewrite W2, W1.
  - exists (o1 ++ o2). split; [rewrite E2, E1; by rewrite app_assoc|]. intros id cl f [Hin|Hin]%shows_app; [by apply (F1 id cl f)|by apply W1, (F2 id cl f)].
  - intros c3 Hc3. destruct (D2 c3 Hc3) as [(c2 & Hc2 & Ht2 & Hi2)|Hn]; [|right; unfold isRevoked in *; by rewrite <- R1].
    destruct (D1 c2 Hc2) as [(c1 & Hc1 & Ht1 & Hi1)|Hn]; [left; exists c1; split_and!; [done|congruence..]|right; by rewrite <- Hi2].
  - intros s Hs. destruct (T2 s Hs) as [Hs2|?]; [|by right]. destruct (T1 s Hs2) as [?|[-> Hw]]; [by left|right; split; [done|]]. by apply (within_later _ _ h2).
Qed.

Lemma tame_trans now h1 h2 h3 : tame now h1 h2 -> tame now h2 h3 -> tame now h1 h3.
Proof.
  intros H12 H23 G. destruct (H12 G) as (F12 & I12). destruct (H23 (tm_good _ _ _ F12)) as (F23 & I23). split.
  - apply (soft_trans now h1 h2 h3); [intros _; done|intros _; done|done].
  - intros Hb. destruct (I23 Hb) as [Hb2|?]; [|by right]. destruct (I12 Hb2) as [?|Hw]; [by left|right]. eapply within_later, Hw. apply (tm_alarm _ _ _ F23).
Qed.

Lemma soft_alarm now d h h' : soft now h h' -> d <= CONSOLE_SWEEP_MS -> tame now h (ensureAlarm d now h').
Proof.
  intros Hs Hd G. destruct (ensureAlarm_fields d now h') as (_ & _ & _ & _ & _ & _ & _ & (a & Ha & Hle) & _). split.
  - apply (soft_trans now h h'); [done| |done]. apply calm_soft, calm_ensure, calm_refl.
  - intros _. right. exists a. split; [done|lia].
Qed.

(** ** Who is asked for frames *)

Definition streamed (watched : list string) (ws : Ws) : Ws :=
  match ws_attachment ws with
  | ADevice a => mkWs (ws_id ws) (ADevice (set_streaming (bool_decide (da_clientId a ∈ watched)) a)) (ws_pinged ws)
  | AConsole _ => ws
  end.

(** Nothing but the sockets, the frames kept and what is sent. *)
Definition streams_only (h h' : Hub) : Prop :=
  store h' = store h /\ alarm_at h' = alarm_at h /\ d1 h' = d1 h /\ asked h' = asked h /\ handed h' = handed h /\
  http (memory h') = http (memory h) /\ pollWatch (memory h') = pollWatch (memory h) /\
  exists out, sent h' = sent h ++ out /\ Forall plain out.

Lemma streams_only_refl h : streams_only h h.
Proof. split_and!; try done. exists []. split; [by rewrite app_nil_r|constructor]. Qed.

Lemma streams_only_trans h1 h2 h3 : streams_only h1 h2 -> streams_only h2 h3 -> streams_only h1 h3.
Proof.
  intros (? & ? & ? & ? & ? & ? & ? & o1 & E1 & N1) (? & ? & ? & ? & ? & ? & ? & o2 & E2 & N2). split_and!; try congruence.
  exists (o1 ++ o2). split; [rewrite E2, E1; by rewrite app_assoc|]. by apply list.Forall_app.
Qed.

Lemma stream_device_spec watched id a h : NoDup (List.map ws_id (sockets h)) -> deviceAttachment id h = Some a ->
  streams_only h (stream_device watched id a h) /\
  sockets (stream_device watched id a h) = List.map (fun ws => if (ws_id ws =? id)%nat then streamed watched ws else ws) (sockets h).
Proof.
  intros Hnd Ha. unfold stream_device. set (want := bool_decide (da_clientId a ∈ watched)). set (h1 := if Bool.eqb _ _ then _ else _).
  assert (Hs : streams_only h h1 /\ sockets h1 = List.map (fun ws => if (ws_id ws =? id)%nat then streamed watched ws else ws) (sockets h)).
  { destruct (deviceAttachment_elem _ _ _ Ha) as (ws0 & Hin0 & Hid0 & Hd0). assert (Hws : forall ws, ws ∈ sockets h -> (ws_id ws =? id)%nat = true -> ws_attachment ws = ADevice a).
    { intros ws Hin E%Nat.eqb_eq. assert (ws = ws0) as -> by (apply (map_NoDup_inj ws_id (sockets h)); [done..|congruence]). unfold device_of in Hd0. destruct (ws_attachment ws0); [|done]. by injection Hd0 as ->. }
    unfold h1. destruct (Bool.eqb (da_streaming a) want) eqn:Ew.
    - split; [apply streams_only_refl|]. apply eqb_prop in Ew. symmetry. apply map_id_on. intros ws Hin.
      destruct (ws_id ws =? id)%nat eqn:E; [|done]. specialize (Hws ws Hin E). unfold streamed. rewrite Hws. fold want. rewrite <- Ew. destruct ws as [i x p], a. cbn in *. subst x. done.
    - split; [split_and!; try done; exists [Sent id (MFrames want)]; split; [done|by repeat constructor]|]. cbn [sockets emit serializeAttachment on_sockets].
      apply map_ext_on. intros ws Hin. destruct (ws_id ws =? id)%nat eqn:E; [|done]. unfold streamed. by rewrite (Hws ws Hin E). }
  destruct want; [done|]. destruct Hs as [Ho Hsk]. split; [|done]. eapply streams_only_trans; [exact Ho|]. split_and!; try done. exists []. split; [by rewrite app_nil_r|constructor].
Qed.

Lemma streamed_id watched ws : ws_id (streamed watched ws) = ws_id ws.
Proof. unfold streamed. by destruct (ws_attachment ws). Qed.

Lemma streamed_twice watched ws : streamed watched (streamed watched ws) = streamed watched ws.
Proof. destruct ws as [i [a|c] p]; done. Qed.

Lemma stream_loop watched ids : forall h, NoDup (List.map ws_id (sockets h)) ->
  streams_only h (for_devices ids (stream_device watched) h) /\
  sockets (for_devices ids (stream_device watched) h) = List.map (fun ws => if bool_decide (ws_id ws ∈ ids) then streamed watched ws else ws) (sockets h).
Proof.
  induction ids as [|id ids IH]; intros h Hnd; cbn [for_devices foldl].
  - split; [apply streams_only_refl|]. symmetry. apply map_id_on. intros ws _. by rewrite bool_decide_false by apply not_elem_of_nil.
  - set (h1 := match deviceAttachment id h with Some a => _ | None => _ end).
    assert (H1 : streams_only h h1 /\ sockets h1 = List.map (fun ws => if (ws_id ws =? id)%nat then streamed watched ws else ws) (sockets h)).
    { unfold h1. destruct (deviceAttachment id h) as [a|] eqn:Ea; [by apply stream_device_spec|]. split; [apply streams_only_refl|].
      symmetry. apply map_id_on. intros ws Hin. destruct (ws_id ws =? id)%nat eqn:E; [|done]. unfold deviceAttachment, socket in Ea. destruct (js_find_is_Some (fun ws => (ws_id ws =? id)%nat) (sockets h) ws Hin E) as [ws1 Hf].
      rewrite Hf in Ea. apply js_find_Some in Hf as [Hin1 E1]. apply Nat.eqb_eq in E, E1. assert (ws1 = ws) as -> by (apply (map_NoDup_inj ws_id (sockets h)); [done..|congruence]).
      unfold streamed. cbn in Ea. unfold device_of in Ea. by destruct (ws_attachment ws). }
    destruct H1 as [Ho Hs]. destruct (IH h1) as [Ho2 Hs2].
    { rewrite Hs, List.map_map. rewrite (map_ext_on _ ws_id); [done|]. intros ws _. destruct (ws_id ws =? id)%nat; [apply streamed_id|done]. }
    split; [by eapply streams_only_trans|]. fold (for_devices ids (stream_device watched) h1). rewrite Hs2, Hs, List.map_map. apply map_ext_on. intros ws _. destruct (Nat.eqb_spec (ws_id ws) id) as [E|E].
    + rewrite streamed_id, streamed_twice. rewrite (bool_decide_true (ws_id ws ∈ id :: ids)) by (rewrite E; constructor). by destruct (bool_decide _).
    + rewrite (bool_decide_ext (ws_id ws ∈ ids) (ws_id ws ∈ id :: ids)); [done|]. rewrite elem_of_cons. tauto.
Qed.

Lemma updateStreaming_spec closing now h : NoDup (List.map ws_id (sockets h)) ->
  let h' := updateStreaming closing now h in let watched := snd (watchedIds closing now h) in
  sockets h' = List.map (streamed watched) (sockets h) /\ store h' = store h /\ alarm_at h' = alarm_at h /\ d1 h' = d1 h /\ asked h' = asked h /\ handed h' = handed h /\
  http (memory h') = http (memory h) /\ pollWatch (memory h') = List.filter (fun e => now <? snd e) (pollWatch (memory h)) /\
  exists out, sent h' = sent h ++ out /\ Forall plain out.
Proof.
  intros Hnd. unfold updateStreaming. destruct (watchedIds closing now h) as [h1 watched] eqn:Ew. cbn [snd].
  assert (E1 : h1 = on_memory (on_pollWatch (fun _ => List.filter (fun e => now <? snd e) (pollWatch (memory h)))) h) by (by injection Ew as <- _).
  destruct (stream_loop watched (devices h1) h1) as [(? & ? & ? & ? & ? & ? & ? & ?) Hs]; [by rewrite E1|]. split_and!; try (rewrite E1 in *; done).
  rewrite Hs, E1. cbn [sockets on_memory]. apply map_ext_on. intros ws Hin. case_bool_decide as Hd; [done|]. unfold streamed. destruct (ws_attachment ws) as [a|c] eqn:Ea; [|done].
  exfalso. apply Hd. apply list_elem_of_fmap. exists ws. split; [done|]. apply list_elem_of_In, List.filter_In. split; [by apply list_elem_of_In|]. unfold device_of. by rewrite Ea.
Qed.

Lemma streamed_elem watched l ws' : ws' ∈ List.map (streamed watched) l -> exists ws, ws ∈ l /\ ws_id ws' = ws_id ws /\
  match ws_attachment ws, ws_attachment ws' with
  | AConsole c, AConsole c' => c' = c
  | ADevice a, ADevice a' => a' = set_streaming (bool_decide (da_clientId a ∈ watched)) a
  | _, _ => False
  end.
Proof. intros (ws & -> & Hin)%list_elem_of_fmap. exists ws. split; [done|]. unfold streamed. by destruct (ws_attachment ws) eqn:E; rewrite ?E. Qed.

Lemma streamed_consoles watched l : List.filter (fun ws => match console_of ws with Some _ => true | None => false end) (List.map (streamed watched) l) =
  List.filter (fun ws => match console_of ws with Some _ => true | None => false end) l.
Proof. induction l as [|[i [a|c] p] l IH]; [done| |]; cbn; by rewrite IH. Qed.

(** A screen is asked for only when a console watches it or a lease runs. *)
Lemma watched_cause closing now h clientId : clientId ∈ snd (watchedIds closing now h) -> consoles h <> [] \/ List.filter (fun e => now <? snd e) (pollWatch (memory h)) <> [].
Proof.
  cbn. intros [Hin|Hin]%elem_of_app.
  - left. intros E. rewrite E in Hin. by apply elem_of_nil in Hin.
  - right. intros E. rewrite E in Hin. by apply elem_of_nil in Hin.
Qed.

Lemma watches_streamed h h' id cl : (exists watched, sockets h' = List.map (streamed watched) (sockets h)) -> watches h' id cl <-> watches h id cl.
Proof.
  intros [watched Es]. split; intros (ws & c & Hin & Hid & Hc & Hw).
  - rewrite Es in Hin. destruct (streamed_elem _ _ _ Hin) as (ws0 & Hws & Hi & Hx). exists ws0, c. split_and!; [done|congruence| |done]. unfold console_of in *. destruct (ws_attachment ws0), (ws_attachment ws); try done. congruence.
  - exists (streamed watched ws), c. rewrite Es, streamed_id. split_and!; [by apply list_elem_of_fmap; eauto|done| |done]. unfold console_of, streamed in *. destruct (ws_attachment ws) eqn:E; [done|]. by rewrite E.
Qed.

Lemma updateStreaming_tame closing now h : tame now h (updateStreaming closing now h).
Proof.
  intros [G1 G2 G3]. destruct (updateStreaming_spec closing now h G1) as (Es & Est & Ea & Ed & En & Eh & Eht & Ep & out & Eo & No). set (h' := updateStreaming closing now h) in *. split; [split|].
  - split; [|rewrite Es|rewrite Eht, Est; done].
    + rewrite Es, List.map_map. rewrite (map_ext_on _ ws_id); [done|]. intros ws _. apply streamed_id.
    + intros ws' a' Hin Hd. destruct (streamed_elem _ _ _ Hin) as (ws & Hws & _ & Hx). unfold device_of in *. destruct (ws_attachment ws) as [a|c] eqn:E1, (ws_attachment ws'); try done.
      injection Hd as ->. subst a'. apply (G2 ws a Hws). unfold device_of. by rewrite E1.
  - intros a. rewrite Ea. eauto with lia.
  - by rewrite Est.
  - by rewrite Est.
  - apply queue_same; rewrite ?Est; try done. by apply (carried_plain _ _ out).
  - intros id cl. apply watches_streamed. by exists (snd (watchedIds closing now h)).
  - exists out. split; [done|]. intros id cl f Hin. by destruct (plain_shows out id cl f No).
  - rewrite Ed. by apply registry_same.
  - intros s (ws' & a' & Hin & Hi & Hd & Hs). left. rewrite Es in Hin. destruct (streamed_elem _ _ _ Hin) as (ws & Hws & Hi0 & Hx). unfold device_of in *.
    destruct (ws_attachment ws) as [a|c] eqn:E1, (ws_attachment ws'); try done. injection Hd as ->. subst a'. exists ws, a. unfold device_of. rewrite E1. split_and!; [done|congruence|done..].
  - intros [Hb|[Hb|[(ws' & Hin & Hx)|[Hb|Hb]]]]; left; unfold busy.
    + left. unfold consoles in *. by rewrite Es, streamed_consoles in Hb.
    + right; left. rewrite Ep in Hb. intros E. by rewrite E in Hb.
    + rewrite Es in Hin. destruct (streamed_elem _ _ _ Hin) as (ws & Hws & _ & Hat). unfold is_dirty, streams, device_of in Hx. destruct (ws_attachment ws) as [a|c] eqn:E1, (ws_attachment ws') as [a'|c']; try done; [|by destruct Hx].
      subst a'. cbn in Hx. destruct Hx as [Hx|Hx]; [right; right; left; exists ws; unfold is_dirty, device_of; rewrite E1; auto|]. apply bool_decide_eq_true, watched_cause in Hx as [?|Hx]; [by left|right; left]. intros E. by rewrite E in Hx.
    + right; right; right; left. by rewrite Est in Hb.
    + right; right; right; right. by rewrite Eht in Hb.
Qed.

(** ** Handlers *)

Lemma tame_soft now h h' : tame now h h' -> soft now h h'.
Proof. intros Ht G. by apply Ht. Qed.

Lemma tame_refl now h : tame now h h.
Proof. apply calm_tame, calm_refl. Qed.

Lemma tame_calm now h1 h2 h3 : tame now h1 h2 -> calm uuid now h2 h3 -> tame now h1 h3.
Proof. intros Ht Hc. by eapply tame_trans, calm_tame. Qed.

Lemma soft_poll now f h : soft now h (on_memory (on_pollWatch f) h).
Proof.
  intros [G1 G2 G3]. split; try done.
  - eauto with lia.
  - by apply queue_same.
  - by apply frames_none.
  - by apply registry_same.
  - intros s. by left.
Qed.

Lemma tame_lease now raw h : tame now h (leasePollWatch raw now h).
Proof.
  unfold leasePollWatch. destruct raw as [l|]; [|apply tame_refl]. apply soft_alarm; [|unfold POLL_WATCH_LEASE_MS, CONSOLE_SWEEP_MS; lia].
  eapply soft_trans; [apply soft_poll|]. apply tame_soft, updateStreaming_tame.
Qed.

(** One more socket, of a workstation that has said nothing yet or of a console that watches nothing. *)
Lemma watches_snoc h l ws id cl : sockets l = sockets h ++ [ws] -> (forall c, console_of ws = Some c -> ca_watch c = []) -> watches l id cl <-> watches h id cl.
Proof.
  intros E Hn. split; intros (ws0 & c & Hin & Hid & Hc & Hw).
  - rewrite E in Hin. apply elem_of_app in Hin as [Hin|Hin]; [by exists ws0, c|]. apply list_elem_of_singleton in Hin as ->. rewrite (Hn c Hc) in Hw. by apply elem_of_nil in Hw.
  - exists ws0, c. split_and!; try done. rewrite E. apply elem_of_app. by left.
Qed.

Lemma NoDup_ids_snoc l ws : NoDup (List.map ws_id l) -> ws_id ws ∉ List.map ws_id l -> NoDup (List.map ws_id (l ++ [ws])).
Proof. intros Hl Hn. rewrite map_app. apply list.NoDup_app. split_and!; [done| |apply NoDup_singleton]. intros x Hx Hin%list_elem_of_singleton. by subst. Qed.

Lemma soft_join now ws h : ws_id ws ∉ List.map ws_id (sockets h) -> (forall c, console_of ws = Some c -> ca_watch c = []) ->
  (forall a, device_of ws = Some a -> status_ok (da_status a) /\ re_test CLIENT_ID_PATTERN (da_clientId a) = true /\ da_lanHeldSince a = None) ->
  soft now h (on_sockets (fun l => l ++ [ws]) h).
Proof.
  intros Hid Hc Hd [G1 G2 G3]. split; try done.
  - split; [by apply NoDup_ids_snoc| |done]. intros ws0 a Hin Ha. cbn in Hin. apply elem_of_app in Hin as [Hin|Hin]; [by apply (G2 ws0)|]. apply list_elem_of_singleton in Hin as ->. by destruct (Hd a Ha) as (? & ? & _).
  - eauto with lia.
  - by apply queue_same.
  - intros id cl. by apply (watches_snoc h _ ws).
  - by apply frames_none.
  - by apply registry_same.
  - intros s (ws0 & a & Hin & Hi & Ha & Hs). left. cbn in Hin. apply elem_of_app in Hin as [Hin|Hin]; [by exists ws0, a|]. apply list_elem_of_singleton in Hin as ->. destruct (Hd a Ha) as (_ & _ & ?). congruence.
Qed.

Lemma bare_set k s l : l_thumbnail s = None -> Forall (fun e => l_thumbnail (snd e) = None) l -> Forall (fun e => l_thumbnail (snd e) = None) (map_set k s l).
Proof. rewrite !list.Forall_forall. intros Hs Hl e [He| ->]%map_set_elem; [by apply Hl|done]. Qed.

(** Without frames, the live list has no screen. *)
Lemma bare_list now h : Forall (fun e => l_thumbnail (snd e) = None) (liveClients false now h).
Proof.
  unfold liveClients. assert (Hs : forall ws l, Forall (fun e : string * LiveStatus => l_thumbnail (snd e) = None) l -> Forall (fun e => l_thumbnail (snd e) = None) (foldl (list_socket h now) l ws)).
  { induction ws as [|w ws IH]; intros l Hl; [done|]. cbn. apply IH. unfold list_socket. destruct (device_of w); [|done]. destruct (isRevoked _ _); [done|]. by apply bare_set. }
  generalize (http (memory h)). intros cs. generalize (Hs (sockets h) [] (List.Forall_nil _)). generalize (foldl (list_socket h now) [] (sockets h)). induction cs as [|c cs IH]; intros l Hl; [done|]. cbn. apply IH.
  unfold list_http. destruct (assoc _ _); [done|]. by apply bare_set.
Qed.

Lemma tame_console now id userId h : id ∉ List.map ws_id (sockets h) -> tame now h (acceptConsole id userId now h).
Proof.
  intros Hid. unfold acceptConsole. apply soft_alarm; [|unfold CONSOLE_SWEEP_MS; lia]. eapply soft_trans; [|apply calm_soft, calm_emit; [apply bare_list|apply calm_refl]].
  apply soft_join; [done|by intros c [= <-]|done].
Qed.

Lemma carried_ok c : (forall p, c = Some p -> status_ok (ht_status p)) -> status_ok (carried_status c).
Proof.
  intros Hc. destruct c as [p|]; cbn.
  - destruct (Hc p eq_refl) as [? ? ? ? ? ? ?]. by split.
  - split; cbn; try done. by left.
Qed.

Lemma tame_join now id a h : id ∉ List.map ws_id (sockets h) -> (good h -> status_ok (da_status a)) -> re_test CLIENT_ID_PATTERN (da_clientId a) = true -> da_lanHeldSince a = None ->
  da_streaming a = false -> da_dirty a = false -> tame now h (on_sockets (fun l => l ++ [mkWs id (ADevice a) None]) h).
Proof.
  intros Hid Hok Hp Hh Hst Hdi G. split.
  - apply soft_join; [done|done| |done]. intros b [= <-]. auto.
  - intros [Hb|[?|[(ws & Hin & Hx)|[?|?]]]]; left; unfold busy; [|by right; left| |by right; right; right; left|by right; right; right; right].
    + left. unfold consoles in *. cbn in Hb. rewrite List.filter_app in Hb. cbn in Hb. by rewrite app_nil_r in Hb.
    + right; right; left. cbn in Hin. apply elem_of_app in Hin as [Hin|Hin]; [by exists ws|]. apply list_elem_of_singleton in Hin as ->. unfold is_dirty, streams in Hx. cbn in Hx. rewrite Hst, Hdi in Hx. by destruct Hx.
Qed.

Lemma close_sockets_same ids code h : sockets (close_sockets ids code h) = sockets h.
Proof. unfold close_sockets. revert h. induction ids as [|id ids IH]; intros h; [done|]. cbn. by rewrite IH. Qed.

Lemma attached_new h h' id a p : id ∉ List.map ws_id (sockets h) -> sockets h' = sockets h ++ [mkWs id (ADevice a) p] -> deviceAttachment id h' = Some a.
Proof.
  unfold deviceAttachment, socket. intros Hid ->. induction (sockets h) as [|ws l IH]; cbn in *; [by rewrite Nat.eqb_refl|]. apply not_elem_of_cons in Hid as [Hne Hid].
  rewrite (proj2 (Nat.eqb_neq (ws_id ws) id)) by done. by apply IH.
Qed.

Lemma tame_device now id clientId ip ctx h : id ∉ List.map ws_id (sockets h) -> re_test CLIENT_ID_PATTERN clientId = true -> tame now h (acceptDevice id clientId ip ctx now h).
Proof.
  intros Hid Hp. unfold acceptDevice. set (h1 := close_sockets _ _ h). assert (H1 : calm uuid now h h1) by apply calm_close, calm_refl.
  set (a := mkDevice _ _ _ _ _ _ _ _ _ _ _). set (j := on_sockets _ h1).
  assert (Hj : tame now h1 j). { apply tame_join; try done; [unfold h1; by rewrite close_sockets_same|]. intros G. apply carried_ok. intros p E%assoc_elem. by apply (g_http _ G) in E as [? _]. }
  set (h2 := on_memory _ j). assert (H2 : calm uuid now j h2).
  { change h2 with (on_memory (on_lastMessage (map_set clientId now)) (on_memory (on_http (map_delete clientId)) j)). apply calm_memory; [done|done|]. apply calm_http_delete, calm_refl. }
  set (h3 := writeRegistry _ now h2). pose proof (calm_load uuid now false j h3 (calm_writeRegistry uuid now _ j h2 H2)) as H4.
  assert (Ha : deviceAttachment id (fst (load false now h3)) = Some a) by (apply (attached_new h1 _ _ _ None); [by unfold h1; rewrite close_sockets_same|done]). destruct (load false now h3) as [h4 c]. cbn [fst] in H4, Ha.
  set (h5 := match c with Some c' => _ | None => _ end).
  assert (H5 : calm uuid now j h5).
  { unfold h5. destruct c as [c|]; [|done]. set (wc := configFor c clientId ctx (now `div` 1000)). pose proof (fun e => calm_give uuid now clientId (wc_portalUrl wc) e j h4 Hp) as Ht.
    destruct (take_pending clientId (wc_portalUrl wc) now h4) as [h6 l]. cbn [fst snd] in Ht. apply Ht; [cbn; by rewrite Ha|done|by intros ? ? [= _ <-]|done]. }
  eapply tame_trans; [apply calm_tame, H1|]. eapply tame_trans; [exact Hj|]. eapply tame_trans; [apply calm_tame, H5|]. eapply tame_trans; [apply (updateStreaming_tame None)|].
  apply calm_tame, calm_ensure, calm_note, calm_notify; [done|apply calm_refl].
Qed.

(** ** Steps *)

Record event_facts (now : Z) (h h' : Hub) : Prop := {
  ev_good : good h';
  ev_alarm a : alarm_at h = Some a -> exists a', alarm_at h' = Some a' /\ a' <= a;
  ev_bound : readMeta (store h') "tenantId" = readMeta (store h) "tenantId";
  ev_queue : queue_follows uuid now h h';
  ev_waits : waits now h h';
  ev_idle : idle now h h';
  ev_frames : exists out, sent h' = sent h ++ out /\ forall id clientId f, shows out id clientId f -> watches h id clientId \/ watches h' id clientId;
  ev_registry : registry_keeps_out (d1 h) (d1 h') (store h);
  ev_removed id : isRevoked (store h) id = true -> isRevoked (store h') id = true \/ store h' = deviceEnrolled id (store h)
}.

Definition event (now : Z) (h h' : Hub) : Prop := good h -> event_facts now h h'.

Lemma removed_same h h' : revoked (store h') = revoked (store h) ->
  forall id, isRevoked (store h) id = true -> isRevoked (store h') id = true \/ store h' = deviceEnrolled id (store h).
Proof. intros E id Hi. left. unfold isRevoked. by rewrite E. Qed.

Lemma tame_event now h h' : tame now h h' -> event now h h'.
Proof.
  intros Ht G. destruct (Ht G) as ([? ? ? ? ? ? (out & ? & Hf) ? ?] & ?). split; try done; [|by apply removed_same]. exists out. split; [done|]. intros id cl f Hin. left. by apply (Hf id cl f).
Qed.

Lemma event_watch now id c raw h ws : socket id h = Some ws -> ws_attachment ws = AConsole c -> event now h (setConsoleWatch id c raw now h).
Proof.
  intros Hs Ha G. destruct (socket_elem _ _ _ Hs) as [Hin Hid]. unfold setConsoleWatch. set (watch := watch_list raw). set (c' := mkConsole (ca_userId c) watch). set (h1 := serializeAttachment id (AConsole c') h).
  assert (Hws : forall x, x ∈ sockets h -> (ws_id x =? id)%nat = true -> x = ws) by (intros x Hx E%Nat.eqb_eq; apply (map_NoDup_inj ws_id (sockets h)); [apply G|done..|congruence]).
  assert (G1 : good h1).
  { destruct G as [N D T]. split; [|intros x a Hx Hd|done].
    - cbn. rewrite List.map_map. rewrite (map_ext_on _ ws_id); [done|]. intros x _. by destruct (ws_id x =? id)%nat.
    - cbn in Hx. apply list_elem_of_fmap in Hx as (x0 & -> & Hx0). destruct (ws_id x0 =? id)%nat; [done|by apply (D x0)]. }
  assert (Hw1 : forall cl, cl ∈ watch -> watches h1 id cl).
  { intros cl Hcl. exists (mkWs id (AConsole c') (ws_pinged ws)), c'. split_and!; try done. cbn. apply list_elem_of_fmap. exists ws. split; [|done]. subst id. by rewrite Nat.eqb_refl. }
  set (show := fun h' clientId => _). assert (Hc : calm uuid now h1 (foldl show h1 watch)).
  { cut (forall l hi, (forall cl, cl ∈ l -> cl ∈ watch) -> sockets hi = sockets h1 -> calm uuid now h1 hi -> calm uuid now h1 (foldl show hi l)); [intros Hl; apply Hl; try done; apply calm_refl|].
    intros l. induction l as [|cl l IH]; intros hi Hsub Hsk Hhi; [done|]. cbn [foldl]. assert (Hl : forall x, x ∈ l -> x ∈ watch) by (intros x Hx; apply Hsub; by constructor).
    unfold show at 2. case_bool_decide; [by apply IH|]. destruct (assoc cl _) as [f|]; [|by apply IH]. apply IH; [done|done|]. apply calm_emit_frame; [|done].
    unfold watches. rewrite Hsk. apply Hw1, Hsub. constructor. }
  destruct (tame_trans now h1 _ _ (calm_tame _ _ _ Hc) (updateStreaming_tame None now (foldl show h1 watch)) G1) as ([g al bo re qu wa (out & Eo & Fo) rg wt] & _). split; try done.
  - intros s Hs3. destruct (wt s Hs3) as [(x & a & Hx & Hi & Hd & Hh)|?]; [left|by right]. cbn in Hx. apply list_elem_of_fmap in Hx as (x0 & -> & Hx0). destruct (ws_id x0 =? id)%nat; [done|by exists x0, a].
  - intros _. left. left. intros E. assert (Hcon : ws ∈ consoles h); [|rewrite E in Hcon; by apply elem_of_nil in Hcon]. apply list_elem_of_In, List.filter_In. split; [by apply list_elem_of_In|]. unfold console_of. by rewrite Ha.
  - exists out. split; [done|]. intros i cl f Hin'. right. apply wa. by apply (Fo i cl f).
  - by apply removed_same.
Qed.

Lemma drop_good id h : good h -> good (drop_socket id h).
Proof.
  intros [N D T]. split; [|intros ws a Hin Hd|done].
  - cbn. apply (sublist_NoDup' _ (List.map ws_id (sockets h))); [|done]. apply sublist_map, bfilter_sublist.
  - cbn in Hin. apply list_elem_of_In, List.filter_In in Hin as [Hin _]. apply (D ws); [by apply list_elem_of_In|done].
Qed.

Lemma drop_elem id h ws : ws ∈ sockets (drop_socket id h) -> ws ∈ sockets h.
Proof. cbn. intros Hin. apply list_elem_of_In, List.filter_In in Hin as [Hin _]. by apply list_elem_of_In. Qed.

Lemma drop_busy id h : busy (drop_socket id h) -> busy h.
Proof.
  intros [Hc|[?|[(ws & Hin & Hx)|[?|?]]]]; [|by right; left| |by right; right; right; left|by right; right; right; right].
  - left. intros E. apply Hc. unfold consoles in *. cbn. assert (Hall : forall ws, ws ∈ sockets h -> console_of ws = None).
    { intros ws Hin. destruct (console_of ws) eqn:Ec; [|done]. assert (ws ∈ []); [|by apply elem_of_nil in H0]. rewrite <- E. apply list_elem_of_In, List.filter_In. split; [by apply list_elem_of_In|]. by rewrite Ec. }
    induction (sockets h) as [|ws l IH]; [done|]. cbn. assert (IHl : List.filter (fun w => match console_of w with Some _ => true | None => false end) (List.filter (fun w => negb (ws_id w =? id)%nat) l) = []).
    { apply IH; [|intros x Hx; apply Hall; by constructor]. cbn in E. destruct (console_of ws); [done|exact E]. }
    destruct (negb _); [cbn; rewrite (Hall ws) by constructor; exact IHl|exact IHl].
  - right; right; left. exists ws. split; [by apply drop_elem in Hin|done].
Qed.

Lemma event_drop now id h h' : tame now h h' -> event now h (drop_socket id h').
Proof.
  intros Ht G. destruct (Ht G) as ([? ? ? ? ? ? (out & ? & Hf) ? Hw] & Hi). split; try done.
  - by apply drop_good.
  - intros s (ws & a & Hin & Hi' & Hd & Hs). apply drop_elem in Hin. destruct (Hw s) as [?|[-> ?]]; [by exists ws, a|by left|by right].
  - intros Hb. apply drop_busy in Hb. by destruct (Hi Hb); [left|right].
  - exists out. split; [done|]. intros i cl f Hin. left. by apply (Hf i cl f).
  - by apply removed_same.
Qed.

Lemma tame_gone now id h : tame now h (socketGone uuid id now h).
Proof.
  destruct (socket id h) as [ws|] eqn:Es; [destruct (ws_attachment ws) as [a|c] eqn:Ea|].
  - apply calm_tame, calm_gone; [done| |apply calm_refl]. intros ws' c E. rewrite Es in E. injection E as <-. congruence.
  - unfold socketGone. case_bool_decide; [apply tame_refl|]. change (socket id (on_memory (add_departed id) h)) with (socket id h). rewrite Es, Ea.
    eapply tame_trans; [|apply updateStreaming_tame]. apply calm_tame, calm_memory; [done..|apply calm_refl].
  - apply calm_tame, calm_gone; [done| |apply calm_refl]. intros ws c E. congruence.
Qed.

(** A calm sequel. *)
Lemma event_then_calm now h h1 h2 : event now h h1 -> (forall id, isRevoked (store h) id = true -> isRevoked (store h1) id = true) -> calm uuid now h1 h2 -> event now h h2.
Proof.
  intros He Hrev Hc G. destruct (He G) as [g1 a1 b1 q1 w1 i1 (o1 & e1 & f1) r1 _]. destruct (calm_tame _ _ _ Hc g1) as ([g2 a2 b2 v2 q2 t2 (o2 & e2 & f2) r2 w2] & i2). split; try congruence.
  - intros a Ha. destruct (a1 a Ha) as (a' & Ha' & ?). destruct (a2 a' Ha') as (a'' & ? & ?). exists a''. split; [done|lia].
  - intros all t Ht Hr Hf. destruct (q1 all t Ht Hr Hf) as (all' & Hr' & Hf'). apply (q2 all' (now `div` 1000)); [lia|done..].
  - intros s Hs. destruct (w2 s Hs) as [Hs2|?]; [|by right]. destruct (w1 s Hs2) as [?|[-> Hw]]; [by left|right; split; [done|]]. by apply (within_later _ _ h1).
  - intros Hb. destruct (i2 Hb) as [Hb2|?]; [|by right]. destruct (i1 Hb2) as [?|Hw]; [by left|right]. by apply (within_later _ _ h1).
  - exists (o1 ++ o2). split; [rewrite e2, e1; by rewrite app_assoc|]. intros id cl f [Hin|Hin]%shows_app.
    + destruct (f1 id cl f Hin) as [?|?]; [by left|right]. by apply t2.
    + right. apply t2. by apply (f2 id cl f).
  - intros c3 Hc3. destruct (r2 c3 Hc3) as [(c2 & Hc2 & Ht2 & Hi2)|Hn].
    + destruct (r1 c2 Hc2) as [(c1 & Hc1 & Ht1 & Hi1)|Hn]; [left; exists c1; split_and!; [done|congruence..]|right; by rewrite <- Hi2].
    + right. destruct (isRevoked (store h) (cd_client_id c3)) eqn:E; [|done]. by rewrite (Hrev _ E) in Hn.
  - intros id Hi. left. unfold isRevoked in *. rewrite v2. by apply Hrev.
Qed.

Lemma poll_shrinks now h : tame now h (on_memory (on_pollWatch (fun _ => List.filter (fun e => now <? snd e) (pollWatch (memory h)))) h).
Proof.
  intros G. split; [by apply soft_poll|]. intros [?|[Hb|[?|[?|?]]]]; left; unfold busy; [by left| |by right; right; left|by right; right; right; left|by right; right; right; right].
  right; left. cbn in Hb. intros E. by rewrite E in Hb.
Qed.

Lemma event_message now id m h : event now h (webSocketMessage uuid id m now h).
Proof.
  unfold webSocketMessage. destruct (socket id h) as [ws|] eqn:Es; [|destruct m; apply tame_event, tame_refl].
  destruct (ws_attachment ws) as [a|c] eqn:Ea; [|destruct m; try (apply tame_event, tame_refl); by eapply event_watch].
  set (h1 := on_memory _ h). assert (H1 : calm uuid now h h1) by (apply calm_memory; [done..|apply calm_refl]).
  assert (Ha : deviceAttachment id h1 = Some a) by (unfold deviceAttachment; change (socket id h1) with (socket id h); rewrite Es; cbn; unfold device_of; by rewrite Ea).
  apply tame_event, calm_tame. destruct m; try done; [apply calm_refl|by apply calm_emit| |].
  - eapply calm_trans; [exact H1|]. by apply calm_status.
  - destruct (acceptableFrame _); [by apply calm_relayFrame|done].
Qed.

Lemma event_heartbeat now clientId ip ctx payload thumbnail h : event now h (fst (handleHeartbeat uuid clientId ip ctx payload thumbnail now h)).
Proof.
  apply tame_event. unfold handleHeartbeat. destruct (re_test CLIENT_ID_PATTERN clientId) eqn:Hp; [|apply tame_refl]. cbn [negb].
  pose proof (calm_refusal uuid now clientId h h (calm_refl uuid now h)) as H1. pose proof (refusal_none clientId now h) as Hr. destruct (refusalFor clientId now h) as [h1 [[status message]|]]; cbn [fst snd] in *; [by apply calm_tame|].
  destruct (Hr eq_refl) as [Hrev Hst]. assert (H2 : calm uuid now h (nudgeHttp uuid now clientId (heartbeat_state clientId ip ctx payload thumbnail now h1))).
  { apply calm_nudgeHttp; [done|]. eapply calm_trans; [exact H1|]. apply calm_heartbeat_state; [done|]. by rewrite Hst. }
  pose proof (calm_load uuid now false _ _ H2) as H3. destruct (load false now _) as [h3 [c|]]; cbn [fst] in *; [|by apply calm_tame].
  pose proof (fun l Hl => calm_give uuid now clientId (wc_portalUrl (configFor c clientId ctx (now `div` 1000))) (AnsweredHeartbeat clientId l) h h3 Hp eq_refl Hl (fun _ _ => ltac:(done)) H3) as H4. destruct (take_pending _ _ _ h3) as [h4 l]. cbn [fst snd] in H4.
  specialize (H4 l eq_refl). cbn [watchedIds fst]. eapply tame_trans; [apply calm_tame, H4|]. apply (poll_shrinks now (give (AnsweredHeartbeat clientId l) now h4)).
Qed.

Lemma existsb_filter_false {A} (p q : A -> bool) l : existsb p l = false -> existsb p (List.filter q l) = false.
Proof. induction l as [|x l IH]; [done|]. cbn. intros [Hx Hl]%orb_false_iff. destruct (q x); cbn; [rewrite Hx|]; by apply IH. Qed.

(** What removal writes, before the sockets are closed and the consoles told. *)
Lemma event_forget now clientId h : re_test CLIENT_ID_PATTERN clientId = true ->
  let h' := on_memory (fun m => on_lastMessage (map_delete clientId) (on_frames (map_delete clientId) (on_http (map_delete clientId) m))) (on_store (removeDevice_tables clientId (now `div` 1000)) h) in
  event now h h' /\ (forall id, isRevoked (store h) id = true -> isRevoked (store h') id = true).
Proof.
  intros Hp h'. assert (Er : revoked (store h') = List.filter (fun r => negb (String.eqb (fst r) clientId)) (revoked (store h)) ++ [(clientId, now `div` 1000)] /\
    commands (store h') = commands (store h) /\ deliveries (store h') = deliveries (store h) /\ meta (store h') = meta (store h)) by (cbn; unfold removeDevice_tables; by rewrite Hp).
  destruct Er as (Er & Ec & Edl & Eme). assert (Hrev : forall id, isRevoked (store h') id = isRevoked (store h) id || String.eqb clientId id).
  { intros id. unfold isRevoked. rewrite Er, existsb_app. cbn. rewrite orb_false_r. destruct (String.eqb_spec clientId id) as [<- |Hne]; [by rewrite !orb_true_r|]. rewrite !orb_false_r.
    clear -Hne. induction (revoked (store h)) as [|[k t] l IH]; [done|]. cbn. destruct (String.eqb_spec k clientId) as [-> |]; cbn; rewrite IH; [|done]. by rewrite (proj2 (String.eqb_neq clientId id)) by done. }
  split; [|intros id E; by rewrite Hrev, E]. intros [G1 G2 G3]. split.
  - split; try done. intros id c Hin. cbn in Hin. apply map_delete_elem in Hin as [Hin Hne]. destruct (G3 id c Hin) as (? & ? & Hn). split_and!; try done. rewrite Hrev, Hn. cbn in *. by apply String.eqb_neq.
  - eauto with lia.
  - unfold readMeta. by rewrite Eme.
  - by apply queue_same.
  - intros s. by left.
  - unfold idle, busy. rewrite Ec. intros [?|[?|[?|[?|(e & He & Hd)]]]]; left; [by left|by right; left|by right; right; left|by right; right; right; left|].
    right; right; right; right. cbn in He. apply map_delete_elem in He as [He _]. by exists e.
  - exists []. split; [by rewrite app_nil_r|]. by intros ? ? ? ?%shows_nil.
  - by apply registry_same.
  - intros id E. left. by rewrite Hrev, E.
Qed.

Lemma close_memory ids code f h : on_memory f (close_sockets ids code h) = close_sockets ids code (on_memory f h).
Proof. unfold close_sockets. revert h. induction ids as [|id ids IH]; intros h; [done|]. cbn [foldl]. by rewrite IH. Qed.

Lemma event_remove now clientId h : event now h (removeDevice clientId now h).
Proof.
  unfold removeDevice. destruct (re_test CLIENT_ID_PATTERN clientId) eqn:Hp; [|apply tame_event, tame_refl]. cbn [negb]. cbv zeta. rewrite close_memory.
  destruct (event_forget now clientId h Hp) as [He Hr]. apply (event_then_calm now h _ _ He Hr). apply calm_notify; [done|]. apply calm_close, calm_refl.
Qed.

Lemma calm_event now h h' : calm uuid now h h' -> event now h h'.
Proof. intros Hc. by apply tame_event, calm_tame. Qed.

Lemma event_enrolled now clientId h : event now h (on_store (deviceEnrolled clientId) h).
Proof.
  unfold deviceEnrolled. destruct (re_test CLIENT_ID_PATTERN clientId) eqn:Hp; [|by apply calm_event, calm_store; [..|apply calm_refl]]. cbn [negb]. intros [G1 G2 G3]. split.
  - split; try done. intros id c Hin. destruct (G3 id c Hin) as (? & ? & Hn). split_and!; try done. by apply existsb_filter_false.
  - eauto with lia.
  - done.
  - by apply queue_same.
  - intros s. by left.
  - by left.
  - exists []. split; [by rewrite app_nil_r|]. by intros ? ? ? ?%shows_nil.
  - by apply registry_same.
  - intros id E. destruct (String.eqb_spec id clientId) as [-> |Hne]; [right; cbn; unfold deviceEnrolled; by rewrite Hp|left]. unfold isRevoked in *. apply existsb_exists in E as (r & Hin & Er).
    apply existsb_exists. exists r. split; [|done]. cbn. apply List.filter_In. split; [done|]. apply String.eqb_eq in Er. rewrite Er. by apply negb_true_iff, String.eqb_neq.
Qed.

Lemma event_seats now f h : (forall s, exists l, f s = on_remote_seats (fun _ => l) s) -> event now h (on_store f h).
Proof. intros Hf. destruct (Hf (store h)) as [l E]. apply calm_event, calm_store; try (rewrite E; done). apply calm_refl. Qed.

Lemma remote_open_seats clientId session userId seats endsAt connected now s :
  exists l, fst (remote_open clientId session userId seats endsAt connected now s) = on_remote_seats (fun _ => l) s.
Proof.
  assert (Hid : exists l, s = on_remote_seats (fun _ => l) s) by (exists (remote_seats s); by destruct s). unfold remote_open, remoteSeatHolders, holdRemoteSeat.
  repeat case_match; simplify_eq/=; first [done|by eexists].
Qed.

Lemma event_pinged now id h : event now h (pinged id now h).
Proof.
  set (f := fun ws => if (ws_id ws =? id)%nat then mkWs (ws_id ws) (ws_attachment ws) (Some now) else ws).
  assert (Hf : forall ws, ws_id (f ws) = ws_id ws /\ ws_attachment (f ws) = ws_attachment ws) by (intros ws; unfold f; by destruct (ws_id ws =? id)%nat).
  assert (Hs : sockets (pinged id now h) = List.map f (sockets h)) by done. assert (Hin : forall ws', ws' ∈ sockets (pinged id now h) -> exists ws, ws ∈ sockets h /\ ws_id ws' = ws_id ws /\ ws_attachment ws' = ws_attachment ws).
  { intros ws' (ws & -> & Hin)%list_elem_of_fmap. exists ws. destruct (Hf ws). done. }
  intros [G1 G2 G3]. split; try done.
  - split; [|intros ws' a Hx Hd|done].
    + rewrite Hs, List.map_map. rewrite (map_ext_on _ ws_id); [done|]. intros ws _. apply Hf.
    + destruct (Hin ws' Hx) as (ws & Hw & _ & E). apply (G2 ws a Hw). unfold device_of in *. by rewrite <- E.
  - eauto with lia.
  - by apply queue_same.
  - intros s (ws' & a & Hx & Hi & Hd & Hh). left. destruct (Hin ws' Hx) as (ws & Hw & Ei & E). exists ws, a. split_and!; try done; [congruence|]. unfold device_of in *. by rewrite <- E.
  - intros [Hb|[?|[(ws' & Hx & Hw)|[?|?]]]]; left; unfold busy; [|by right; left| |by right; right; right; left|by right; right; right; right].
    + left. unfold consoles in *. rewrite Hs in Hb. intros E. apply Hb. clear -E. induction (sockets h) as [|ws l IH]; [done|]. cbn in *. unfold f at 1 3. destruct (ws_id ws =? id)%nat; cbn; destruct (ws_attachment ws) eqn:Ea; unfold console_of in *; cbn in *; rewrite ?Ea in *; try done; by apply IH.
    + right; right; left. destruct (Hin ws' Hx) as (ws & Hws & _ & E). exists ws. split; [done|]. unfold is_dirty, streams, device_of in *. by rewrite <- E.
  - exists []. split; [by rewrite app_nil_r|]. by intros ? ? ? ?%shows_nil.
  - by apply registry_same.
  - by apply removed_same.
Qed.

Lemma event_hibernate now h : event now h (hibernate h).
Proof.
  intros [G1 G2 G3]. split; try done.
  - split; try done. intros id c Hin. by apply elem_of_nil in Hin.
  - eauto with lia.
  - by apply queue_same.
  - intros s. by left.
  - intros [?|[?|[?|[?|(e & He & _)]]]]; [by left; left|done|by left; right; right; left|by left; right; right; right; left|by apply elem_of_nil in He].
  - exists []. split; [by rewrite app_nil_r|]. by intros ? ? ? ?%shows_nil.
  - by apply registry_same.
  - by apply removed_same.
Qed.

Lemma event_upgrade now id clientId ip ctx h : id ∉ List.map ws_id (sockets h) -> event now h (fst (upgrade_device id clientId ip ctx now h)).
Proof.
  intros Hid. apply tame_event. unfold upgrade_device. destruct (re_test CLIENT_ID_PATTERN clientId) eqn:Hp; [|apply tame_refl]. cbn [negb].
  pose proof (calm_refusal uuid now clientId h h (calm_refl uuid now h)) as H1. assert (Hs : sockets (fst (refusalFor clientId now h)) = sockets h) by (unfold refusalFor; by destruct (isRevoked _ _)).
  destruct (refusalFor clientId now h) as [h1 [r|]]; cbn [fst] in *; [by apply calm_tame|]. eapply tame_trans; [by apply calm_tame|]. apply tame_device; [|done]. by rewrite Hs.
Qed.

Lemma event_handle now r h : new_identity r h -> event now h (handle r now h).
Proof.
  pose proof (calm_refl uuid now h) as Hr. assert (Ha : forall t, calm uuid now h (on_memory (set_attended t) h)) by (intros t; by apply calm_memory).
  destruct r; cbn [handle new_identity]; intros Hid.
  - by apply event_upgrade.
  - destruct (String.eqb userId ""); [by apply calm_event|]. by apply tame_event, tame_console.
  - apply event_heartbeat.
  - apply calm_event. by apply calm_enqueue.
  - apply tame_event. cbn. eapply tame_calm; [eapply tame_trans; [apply calm_tame, Ha|]; apply tame_lease|]. apply calm_emit; [done|apply calm_refl].
  - apply calm_event. by apply calm_configChanged.
  - apply calm_event. apply calm_exam_tick; [done|]. by apply calm_load.
  - apply event_remove.
  - apply event_enrolled.
  - apply event_seats. intros s. apply remote_open_seats.
  - by apply event_seats; intros s; eexists.
  - by apply event_seats; intros s; eexists.
  - apply calm_event. by apply calm_installUpdate.
  - apply calm_event. by apply calm_checkUpdate.
  - apply calm_event. by apply calm_lanPeers.
  - apply calm_event. by apply calm_wake.
Qed.

(** ** The alarm *)

(** Who has waited for its site as long as it may. *)
Definition overdue (now : Z) (h : Hub) (w : nat * Z) : Prop := held h w /\ LAN_HOLD_MAX_MS <= now - snd w.

Lemma calm_overdue now h h' w : calm uuid now h h' -> good h -> overdue now h' w -> overdue now h w.
Proof. intros Hc G [Hh Hl]. destruct (Hc G) as (_ & _ & W). destruct (W w Hh) as [?|[E _]]; [done|]. unfold LAN_HOLD_MAX_MS in Hl. lia. Qed.

Lemma held_attached h id s : good h -> held h (id, s) -> exists a, deviceAttachment id h = Some a /\ da_lanHeldSince a = Some s.
Proof.
  intros G (ws & a & Hin & Hi & Hd & Hs). cbn in Hi, Hs. exists a. split; [|done]. unfold deviceAttachment, socket.
  destruct (js_find_is_Some (fun x => (ws_id x =? id)%nat) (sockets h) ws Hin) as [ws1 Hf]; [by apply Nat.eqb_eq|]. rewrite Hf. apply js_find_Some in Hf as [Hin1 E%Nat.eqb_eq].
  assert (ws1 = ws) as -> by (apply (map_NoDup_inj ws_id (sockets h)); [apply G|done..|congruence]). done.
Qed.

(** Waiting ends when its time is up, whatever the neighbours do. *)
Lemma wait_over id a version now h t : da_lanHeldSince a = Some t -> LAN_HOLD_MAX_MS <= now - t -> waitForSite id a version now h = (h, false).
Proof.
  intros Ht Hl. unfold waitForSite. destruct (negb (lan_shared h)); [done|]. rewrite bool_decide_true; [done|]. unfold lanDecision. rewrite Ht. destruct (siteKey _ _); [|done]. destruct (existsb _ _); [done|].
  destruct (_ <? _)%nat; [done|]. by rewrite (proj2 (Z.leb_le _ _) Hl).
Qed.

Lemma nudge_ends now id a h t s : good h -> deviceAttachment id h = Some a -> da_lanHeldSince a = Some t -> LAN_HOLD_MAX_MS <= now - t -> ~ overdue now (nudgeSocket uuid now id a h) (id, s).
Proof.
  intros G Ha Ht Hl. unfold nudgeSocket. assert (Hfree : forall n v x, ~ held (serializeAttachment id (ADevice (set_nudge n v None a)) h) (id, x)).
  { intros n v x [[Hn _]|[_ E]]%serialize_held; done. }
  assert (Htell : forall key version, ~ overdue now (tellOfRelease uuid id a key version now h) (id, s)).
  { intros key version Ho. unfold tellOfRelease in Ho. set (h1 := serializeAttachment _ _ h) in Ho. assert (H1 : calm uuid now h h1) by (apply (calm_serialize uuid now id a); [done|apply kept_nudge|done|done|apply calm_refl]).
    apply (calm_overdue now h1) in Ho as [Hh _]; [by apply Hfree in Hh|apply calm_enqueue; [done|apply calm_refl]|]. apply (cf_good _ _ _ _ (proj1 (H1 G))). }
  destruct (releaseNudgeDue _ _ _ _ _ _) as [[release key]|].
  - destruct (String.eqb _ _); [|apply Htell]. rewrite (wait_over id a (ro_version release) now h t) by done. apply Htell.
  - rewrite Ht. by intros [Hh _]; apply Hfree in Hh.
Qed.

Lemma nudgeWaiting_ends now h w : good h -> ~ overdue now (nudgeWaiting uuid now h) w.
Proof.
  intros G. unfold nudgeWaiting. set (f := fun id a h' => _).
  assert (Hf : forall id a h, deviceAttachment id h = Some a -> calm uuid now h (f id a h)).
  { intros id a h0 Ha. unfold f. destruct (da_lanHeldSince a); [|apply calm_refl]. destruct (_ <=? _); [by apply calm_nudge|apply calm_refl]. }
  assert (Hall : forall ids hi, good hi -> (forall v, overdue now hi v -> fst v ∈ ids) -> ~ overdue now (for_devices ids f hi) w).
  { induction ids as [|id ids IH]; intros hi Gi Hi; [intros Ho; by apply Hi, elem_of_nil in Ho|]. cbn [for_devices foldl]. set (h1 := match deviceAttachment id hi with Some a => _ | None => _ end).
    assert (H1 : calm uuid now hi h1) by (unfold h1; destruct (deviceAttachment id hi) eqn:E; [by apply Hf|apply calm_refl]). apply (IH h1); [apply (cf_good _ _ _ _ (proj1 (H1 Gi)))|].
    intros [i s] Hv. pose proof (calm_overdue now hi h1 (i, s) H1 Gi Hv) as Hv0. specialize (Hi _ Hv0). cbn in *. apply elem_of_cons in Hi as [-> |?]; [exfalso|done]. destruct Hv0 as [Hh Hl].
    destruct (held_attached hi id s Gi Hh) as (a & Ha & Hs). unfold h1 in Hv. rewrite Ha in Hv. unfold f in Hv. rewrite Hs in Hv. cbn in Hl. rewrite (proj2 (Z.leb_le _ _) Hl) in Hv. revert Hv. by apply (nudge_ends now id a hi s). }
  apply Hall; [done|]. intros v [(ws & a & Hin & Hi & Hd & _) _]. apply list_elem_of_fmap. exists ws. split; [done|]. apply list_elem_of_In, List.filter_In. split; [by apply list_elem_of_In|]. by rewrite Hd.
Qed.

Lemma nextWaitEnd_bound h w : held h w -> exists n, nextWaitEnd h = Some n /\ n <= snd w + LAN_HOLD_MAX_MS.
Proof.
  intros (ws & a & Hin & _ & Hd & Hs). unfold nextWaitEnd. set (step := fun next ws => _).
  assert (Hle : forall l acc, match acc with Some n => exists m, foldl step acc l = Some m /\ m <= n | None => True end).
  { induction l as [|x l IH]; intros acc; destruct acc as [n|]; try done; [exists n; split; [done|lia]|]. cbn [foldl]. unfold step at 2. destruct (device_of x ≫= da_lanHeldSince) as [s|]; [|apply (IH (Some n))].
    destruct (IH (Some (Z.min n (s + LAN_HOLD_MAX_MS)))) as (m & ? & ?). exists m. split; [done|lia]. }
  assert (Hall : forall l acc, ws ∈ l -> exists m, foldl step acc l = Some m /\ m <= snd w + LAN_HOLD_MAX_MS); [|by apply Hall].
  induction l as [|x l IH]; intros acc Hx; [by apply elem_of_nil in Hx|]. cbn [foldl]. apply elem_of_cons in Hx as [<- |Hx]; [|by apply IH]. unfold step at 2. rewrite Hd. cbn. rewrite Hs.
  set (n := match acc with Some n => Z.min n _ | None => _ end). destruct (Hle l (Some n)) as (m & ? & ?). exists m. split; [done|]. unfold n in *. destruct acc; lia.
Qed.

(** A screen is sent only while a console is open or a lease runs. *)
Definition streams_needed (h : Hub) : Prop := forall ws, ws ∈ sockets h -> streams ws = true -> consoles h <> [] \/ pollWatch (memory h) <> [].

Lemma updateStreaming_needed closing now h : good h -> streams_needed (updateStreaming closing now h).
Proof.
  intros G ws' Hin Hs. destruct (updateStreaming_spec closing now h (g_ids _ G)) as (Es & _ & _ & _ & _ & _ & _ & Ep & _). unfold consoles. rewrite Es in *. rewrite Ep, streamed_consoles.
  destruct (streamed_elem _ _ _ Hin) as (ws & _ & _ & Hx). unfold streams, device_of in Hs. destruct (ws_attachment ws) as [a|c], (ws_attachment ws') as [a'|c']; try done. subst a'. cbn in Hs.
  apply bool_decide_eq_true in Hs. by apply (watched_cause closing now h (da_clientId a)).
Qed.

Lemma calm_needed now h h' : calm uuid now h h' -> good h -> streams_needed h -> streams_needed h'.
Proof.
  intros Hc G Hn ws' Hin Hs. destruct (proj1 (Hc G)) as [_ _ Hl Hp _ _ _ _ _]. destruct (like_elem _ _ _ Hl Hin) as (ws & Hws & Hlk). rewrite (like_streams _ _ Hlk) in Hs.
  unfold consoles. rewrite (like_consoles _ _ Hl), Hp. by apply (Hn ws).
Qed.

(** What the alarm's work comes to, before it is set again. *)
Definition alarm_work (now : Z) (h : Hub) : Hub :=
  nudgeWaiting uuid now (on_store (purgeExpiredCommands (now `div` 1000)) (flush now (updateStreaming None now (sweepStale uuid now (exam_tick uuid now h))))).

Lemma alarm_work_tame now h : good h -> tame_facts now h (alarm_work now h) /\ streams_needed (alarm_work now h) /\ forall w, ~ overdue now (alarm_work now h) w.
Proof.
  intros G. unfold alarm_work. set (h1 := sweepStale _ _ _). set (h2 := updateStreaming None now h1). set (h3 := on_store _ _).
  assert (H1 : tame now h h1) by (apply calm_tame, calm_sweep, calm_exam_tick; [done|done|apply calm_refl]). pose proof (tm_good _ _ _ (proj1 (H1 G))) as G1.
  assert (H2 : tame now h h2) by (eapply tame_trans; [exact H1|apply updateStreaming_tame]). pose proof (tm_good _ _ _ (proj1 (H2 G))) as G2.
  assert (H3 : calm uuid now h2 h3) by (apply calm_purge, calm_flush, calm_refl). pose proof (cf_good _ _ _ _ (proj1 (H3 G2))) as G3.
  assert (H4 : calm uuid now h2 (nudgeWaiting uuid now h3)) by (by apply calm_nudgeWaiting).
  split_and!.
  - apply (tame_trans now h h2 _ H2 (calm_tame _ _ _ H4) G).
  - apply (calm_needed now h2); [done|done|]. by apply updateStreaming_needed.
  - intros w. by apply nudgeWaiting_ends.
Qed.

Record alarm_facts (now : Z) (h h' : Hub) : Prop := {
  al_good : good h';
  al_bound : readMeta (store h') "tenantId" = readMeta (store h) "tenantId";
  al_queue : queue_follows uuid now h h';
  al_frames : frames_to_watchers h h';
  al_registry : registry_keeps_out (d1 h) (d1 h') (store h);
  al_removed : revoked (store h') = revoked (store h);
  al_busy : busy h' -> within CONSOLE_SWEEP_MS now h';
  al_held w : held h' w -> exists a, alarm_at h' = Some a /\ (a <= now + CONSOLE_SWEEP_MS \/ a <= snd w + LAN_HOLD_MAX_MS);
  al_overdue w : ~ overdue now h' w
}.

Definition same_but_alarm (h h' : Hub) : Prop :=
  store h' = store h /\ sockets h' = sockets h /\ memory h' = memory h /\ d1 h' = d1 h /\ asked h' = asked h /\ handed h' = handed h /\ sent h' = sent h.

Lemma schedule_same now h : same_but_alarm h (scheduleExamAlarm now h) /\ (forall a, alarm_at h = Some a -> exists a', alarm_at (scheduleExamAlarm now h) = Some a' /\ a' <= a).
Proof.
  unfold scheduleExamAlarm. destruct (next_exam_time _ _) as [t|]; [|split; [done|eauto with lia]].
  destruct (ensureAlarm_fields (t * 1000 - now) now h) as (? & ? & ? & ? & ? & ? & ? & _ & ?). done.
Qed.

(** Nothing is left to do unless the alarm is set for it. *)
Definition set_again (now : Z) (h : Hub) : Hub :=
  let busy := negb (length (consoles h) =? 0)%nat || negb (length (http (memory h)) =? 0)%nat || negb (length (pollWatch (memory h)) =? 0)%nat || existsb is_dirty (sockets h) in
  let pending_ := negb (length (commands (store h)) =? 0)%nat in
  if busy || pending_ then setAlarm (now + (if (length (consoles h) =? 0)%nat then FLUSH_DELAY_MS else CONSOLE_SWEEP_MS)) h
  else match nextWaitEnd h with Some t => setAlarm t h | None => h end.

Lemma length_zero {A} (l : list A) : negb (length l =? 0)%nat = false -> l = [].
Proof. by destruct l. Qed.

Lemma set_again_spec now h : streams_needed h ->
  same_but_alarm h (set_again now h) /\ (busy h -> within CONSOLE_SWEEP_MS now (set_again now h)) /\
  (forall w, held h w -> exists a, alarm_at (set_again now h) = Some a /\ (a <= now + CONSOLE_SWEEP_MS \/ a <= snd w + LAN_HOLD_MAX_MS)).
Proof.
  intros Hn. unfold set_again. set (b := _ || existsb is_dirty (sockets h)). set (p := negb _). destruct (b || p) eqn:E.
  - set (d := if (length (consoles h) =? 0)%nat then FLUSH_DELAY_MS else CONSOLE_SWEEP_MS). assert (Hd : d <= CONSOLE_SWEEP_MS) by (unfold d; by destruct (_ =? _)%nat). split_and!; [done| |].
    + intros _. exists (now + d). split; [done|lia].
    + intros w _. exists (now + d). split; [done|lia].
  - apply orb_false_iff in E as [Eb Ep]. unfold b in Eb. apply orb_false_iff in Eb as [[[Ec Eh]%orb_false_iff Ew]%orb_false_iff Ed]. apply length_zero in Ec, Eh, Ew, Ep.
    assert (Hidle : ~ busy h).
    { intros [?|[?|[(ws & Hin & [Hx|Hx])|[?|(e & He & _)]]]]; try done.
      - assert (existsb is_dirty (sockets h) = true) by (apply existsb_exists; exists ws; split; [by apply list_elem_of_In|done]). congruence.
      - by destruct (Hn ws Hin Hx).
      - rewrite Eh in He. by apply elem_of_nil in He. }
    split_and!; [by destruct (nextWaitEnd h)|done|]. intros w Hw. destruct (nextWaitEnd_bound h w Hw) as (n & -> & Hle). exists n. split; [done|by right].
Qed.

Lemma event_alarm now h : good h -> is_Some (readMeta (store h) "tenantId") -> alarm_facts now h (alarm uuid now (take_alarm h)).
Proof.
  intros G [t Et]. unfold alarm. change (readMeta (store (take_alarm h)) "tenantId") with (readMeta (store h) "tenantId"). rewrite Et. cbv zeta. fold (alarm_work now (take_alarm h)). set (h1 := alarm_work now (take_alarm h)). fold (set_again now h1). set (h2 := set_again now h1).
  destruct (alarm_work_tame now (take_alarm h)) as ([g _ bo rv qu _ fr re _] & Hn & Hov); [by destruct G as [? ? ?]|]. fold h1 in g, bo, rv, qu, fr, re, Hn, Hov.
  destruct (set_again_spec now h1 Hn) as ((Es & Ew & Em & Ed & En & Eh & Ese) & Hb & Hw). fold h2 in Es, Ew, Em, Ed, En, Eh, Ese, Hb, Hw.
  destruct (schedule_same now h2) as ((Es' & Ew' & Em' & Ed' & En' & Eh' & Ese') & Hal). set (h3 := scheduleExamAlarm now h2) in *.
  assert (E : store h3 = store h1 /\ sockets h3 = sockets h1 /\ memory h3 = memory h1 /\ d1 h3 = d1 h1 /\ asked h3 = asked h1 /\ handed h3 = handed h1 /\ sent h3 = sent h1) by (split_and!; congruence).
  clear Es Ew Em Ed En Eh Ese Es' Ew' Em' Ed' En' Eh' Ese'. destruct E as (Es & Ew & Em & Ed & En & Eh & Ese). split.
  - destruct g as [g1 g2 g3]. split; rewrite ?Ew, ?Em, ?Es; done.
  - by rewrite Es.
  - intros all t0 Ht Hr Hf. destruct (qu all t0 Ht Hr Hf) as (all' & Hr' & Hf'). exists all'. unfold fresh, carried_all in *. by rewrite Es, Eh, En, Ese.
  - destruct fr as (out & Eo & Fo). exists out. by rewrite Ese.
  - by rewrite Ed.
  - by rewrite Es.
  - intros Hb3. apply (within_later _ _ h2); [done|]. apply Hb. unfold busy, consoles in *. by rewrite Es, Ew, Em in Hb3.
  - intros w Hw3. destruct (Hw w) as (a & Ha & Hle); [unfold held in *; by rewrite Ew in Hw3|]. destruct (Hal a Ha) as (a' & ? & ?). exists a'. split; [done|lia].
  - intros w [Hh Hl]. apply (Hov w). split; [|done]. unfold held in *. by rewrite Ew in Hh.
Qed.

(** ** Every run *)

Record hub_inv (t : Z) (h : Hub) : Prop := {
  hi_good : good h;
  hi_bound : is_Some (readMeta (store h) "tenantId");
  hi_busy : busy h -> within CONSOLE_SWEEP_MS t h;
  hi_held w : held h w -> exists a, alarm_at h = Some a /\ (a <= t + CONSOLE_SWEEP_MS \/ a <= snd w + LAN_HOLD_MAX_MS);
  hi_queue : exists all, queue_run all (handed h) (t `div` 1000) (store h) /\ fresh uuid all h
}.

Lemma seconds_mono t now : t <= now -> t `div` 1000 <= now `div` 1000.
Proof. intros Hle. apply Z.div_le_mono; lia. Qed.

Lemma event_inv t now h h' : hub_inv t h -> t <= now -> event_facts now h h' -> hub_inv now h'.
Proof.
  intros [G B Bu He (all & Hr & Hf)] Ht [g al bo qu wa id _ _ _]. split; [done|by rewrite bo| | |].
  - intros Hb. destruct (id Hb) as [Hb0|?]; [|done]. destruct (Bu Hb0) as (a & Ha & Hle). destruct (al a Ha) as (a' & Ha' & ?). exists a'. split; [done|lia].
  - intros w Hw. destruct (wa w Hw) as [Hw0|[E (a & Ha & Hle)]]; [|exists a; split; [done|right; lia]]. destruct (He w Hw0) as (a & Ha & Hle). destruct (al a Ha) as (a' & Ha' & ?). exists a'. split; [done|lia].
  - apply (qu all (t `div` 1000)); [by apply seconds_mono|done..].
Qed.

Lemma alarm_inv t now h h' : hub_inv t h -> t <= now -> alarm_facts now h h' -> hub_inv now h'.
Proof.
  intros [G B Bu He (all & Hr & Hf)] Ht [g bo qu _ _ _ bu he _]. split; [done|by rewrite bo|done|done|]. apply (qu all (t `div` 1000)); [by apply seconds_mono|done..].
Qed.

Lemma bound_again tenant s s' : is_Some (readMeta s "tenantId") -> bind tenant s = (s', true) -> s' = s.
Proof. intros [t Et]. unfold bind. rewrite Et. destruct (String.eqb tenant ""); [done|]. by intros [= <- _]. Qed.

Lemma step_facts t now h h' : hub_inv t h -> hub_step now h h' -> event_facts now h h' \/ alarm_facts now h h'.
Proof.
  intros [G B _ _ _] [tenant s r Hb Hn|id m|id code|id|t' Ha Hle|id|].
  - left. apply bound_again in Hb as ->; [|done]. replace (on_store (fun _ => store h) h) with h by (by destruct h). by apply event_handle.
  - left. by apply event_message.
  - left. apply event_drop; [|done]. unfold webSocketClose. eapply tame_calm; [apply tame_gone|]. apply calm_emit; [done|apply calm_refl].
  - left. apply event_drop; [|done]. apply tame_gone.
  - right. by apply event_alarm.
  - left. by apply event_pinged.
  - left. by apply event_hibernate.
Qed.

Lemma run_inv t h : hub_run t h -> hub_inv t h.
Proof.
  induction 1 as [tenant db now Hne|t h now h' _ IH Ht Hs|t h db _ [G B Bu He Q]].
  - assert (Hb : fst (bind tenant empty_storage) = writeMeta "tenantId" tenant empty_storage) by (unfold bind; by rewrite (proj2 (String.eqb_neq _ _) Hne)). split.
    + split; [constructor|intros ws a Hin; by apply elem_of_nil in Hin..|intros id c Hin; by apply elem_of_nil in Hin].
    + unfold new_hub. cbn. rewrite Hb. by eexists.
    + intros [?|[?|[(ws & Hin & _)|[Hc|(e & He & _)]]]]; try done; [by apply elem_of_nil in Hin|cbn in Hc; by rewrite Hb in Hc|by apply elem_of_nil in He].
    + intros w (ws & a & Hin & _). by apply elem_of_nil in Hin.
    + exists []. split; [constructor; cbn; by rewrite Hb|done].
  - destruct (step_facts t now h h' IH Hs) as [?|?]; [by apply (event_inv t now h)|by apply (alarm_inv t now h)].
  - split; try done. destruct G as [? ? ?]. by split.
Qed.
End Hub.
