(* ===== verification/HubPromises.v ===== *)
(** What an organization's hub promises its Worker, its workstations and its
    consoles, in every run of it (HubSafety.v): each command once, the alarm
    whenever something is left to do, reports within their bounds, removed
    workstations kept out, screens shown only to who watches them, and
    workstations woken through a neighbour. *)
From S2P Require Import Prelude JsString Regex Platform Db Escape Allowlist Releases LanSharing Power Exams HubStore HubConfig HubStatus HubExams HubLive HubRuns HubSafety.

(** ** The live list *)

Lemma map_set_keys {A} k (v : A) l : NoDup (List.map fst l) -> NoDup (List.map fst (map_set k v l)).
Proof.
  intros Hn. unfold map_set, upsert. destruct (existsb _ l) eqn:E.
  - rewrite List.map_map. rewrite (map_ext_on _ fst); [done|]. intros e _. by destruct (String.eqb_spec (fst e) k).
  - rewrite map_app. apply list.NoDup_app. split_and!; [done| |apply NoDup_singleton]. intros x (e & -> & Hin)%list_elem_of_fmap Hx%list_elem_of_singleton. cbn in Hx.
    assert (existsb (fun e => String.eqb (fst e) k) l = true); [|congruence]. apply existsb_exists. exists e. split; [by apply list_elem_of_In|]. by apply String.eqb_eq.
Qed.

Lemma assoc_in {A} k (v : A) l : NoDup (List.map fst l) -> (k, v) ∈ l -> assoc k l = Some v.
Proof.
  induction l as [|[k' v'] l IH]; intros Hn Hin; [by apply elem_of_nil in Hin|]. cbn in *. apply list.NoDup_cons in Hn as [Hk Hn]. apply elem_of_cons in Hin as [[= -> ->]|Hin]; [by rewrite String.eqb_refl|].
  destruct (String.eqb_spec k k') as [-> |]; [|by apply IH]. destruct Hk. apply list_elem_of_fmap. by exists (k', v).
Qed.

Lemma map_set_in {A} k (v : A) l e : e ∈ map_set k v l <-> e = (k, v) \/ (e ∈ l /\ fst e <> k).
Proof.
  unfold map_set, upsert. destruct (existsb _ l) eqn:E.
  - rewrite list_elem_of_fmap. split.
    + intros (x & -> & Hx). destruct (String.eqb_spec (fst x) k); [by left|by right].
    + intros [-> |[He Hne]]; [|exists e; by rewrite (proj2 (String.eqb_neq (fst e) k) Hne)]. apply existsb_exists in E as (x & Hx & Ex). exists x. rewrite Ex. split; [done|by apply list_elem_of_In].
  - rewrite elem_of_app, list_elem_of_singleton. split; [intros [He| ->]; [right; split; [done|]|by left]|intros [-> |[? _]]; [by right|by left]].
    intros Hk. assert (existsb (fun x => String.eqb (fst x) k) l = true); [|congruence]. apply existsb_exists. exists e. split; [by apply list_elem_of_In|by apply String.eqb_eq].
Qed.

Section Live.
Context `{UrlParser}.

(** A workstation as the consoles see it. *)
Record live_ok (h : Hub) (e : string * LiveStatus) : Prop := {
  lo_id : re_test CLIENT_ID_PATTERN (fst e) = true;
  lo_client : l_clientId (snd e) = fst e;
  lo_here : isRevoked (store h) (fst e) = false;
  lo_num : 1 <= l_clientNum (snd e) < 100000;
  lo_url : l_activeUrl (snd e) = ""%string \/ exists raw, safeHttpUrl raw = Some (l_activeUrl (snd e));
  lo_image v : l_imageVersion (snd e) = Some v -> isReleaseVersion v = true;
  lo_agent v : l_agentVersion (snd e) = Some v -> re_test AGENT_VERSION v = true;
  lo_update u : l_update (snd e) = Some u -> report_ok u
}.

Definition listing_ok (h : Hub) (l : list (string * LiveStatus)) : Prop := NoDup (List.map fst l) /\ forall e, e ∈ l -> live_ok h e.

Lemma listing_set h k s l : live_ok h (k, s) -> listing_ok h l -> listing_ok h (map_set k s l).
Proof. intros Hs [Hn Hl]. split; [by apply map_set_keys|]. intros e [?| ->]%map_set_elem; [by apply Hl|done]. Qed.

Lemma listing_fold {A} h (f : list (string * LiveStatus) -> A -> list (string * LiveStatus)) xs : forall l,
  (forall l x, x ∈ xs -> listing_ok h l -> listing_ok h (f l x)) -> listing_ok h l -> listing_ok h (foldl f l xs).
Proof.
  induction xs as [|x xs IH]; intros l Hf Hl; [done|]. cbn. apply IH; [|apply Hf; [constructor|done]]. intros l' y Hy. apply Hf. by constructor.
Qed.

Lemma liveClients_ok withFrames now h : good h -> listing_ok h (liveClients withFrames now h).
Proof.
  intros G. unfold liveClients. set (listed := foldl (list_http now) _ _).
  assert (Hl : listing_ok h listed).
  { apply listing_fold; [|apply listing_fold].
    - intros l [id c] Hin Hl. unfold list_http. cbn [fst snd]. destruct (assoc id l); [done|]. apply listing_set; [|done]. destruct (g_http _ G id c Hin) as ([? ? ? ? ? ? ?] & ? & ?). by split.
    - intros l ws Hin Hl. unfold list_socket. destruct (device_of ws) as [a|] eqn:Ed; [|done]. destruct (isRevoked (store h) (da_clientId a)) eqn:Er; [done|].
      apply listing_set; [|done]. destruct (g_device _ G ws a Hin Ed) as ([? ? ? ? ? ? ?] & ?). by split.
    - split; [constructor|]. intros e He. by apply elem_of_nil in He. }
  destruct withFrames; [|done]. apply listing_fold; [|done]. intros l [id f] _ Hk. unfold show_frame. cbn [fst snd]. destruct (assoc id l) as [s|] eqn:Ea; [|done]. destruct (l_online s); [|done].
  apply listing_set; [|done]. apply assoc_elem in Ea. destruct (proj2 Hk _ Ea) as [? ? ? ? ? ? ? ?]. by split.
Qed.

(** ** Screens in the live list *)

Lemma attached h ws a : good h -> ws ∈ sockets h -> device_of ws = Some a -> deviceAttachment (ws_id ws) h = Some a /\ ws_id ws ∈ devices h.
Proof.
  intros G Hin Hd. split.
  - unfold deviceAttachment, socket. destruct (js_find_is_Some (fun x => (ws_id x =? ws_id ws)%nat) (sockets h) ws Hin) as [ws1 Hf]; [by apply Nat.eqb_eq|]. rewrite Hf.
    apply js_find_Some in Hf as [Hin1 E%Nat.eqb_eq]. assert (ws1 = ws) as -> by (apply (map_NoDup_inj ws_id (sockets h)); [apply G|done..]). done.
  - apply list_elem_of_fmap. exists ws. split; [done|]. apply list_elem_of_In, List.filter_In. split; [by apply list_elem_of_In|]. by rewrite Hd.
Qed.

Lemma show_frames xs : forall l, NoDup (List.map fst l) -> Forall (fun e : string * LiveStatus => l_thumbnail (snd e) = None) l ->
  let r := foldl show_frame l xs in NoDup (List.map fst r) /\
  forall id s, (id, s) ∈ r -> (forall f, l_thumbnail s = Some f -> l_online s = true /\ (id, f) ∈ xs) /\ (forall f, (id, f) ∈ xs -> l_online s = true -> l_thumbnail s <> None).
Proof.
  induction xs as [|[k f] xs IH] using rev_ind; intros l Hn Hb; cbn zeta.
  - split; [done|]. rewrite list.Forall_forall in Hb. intros id s Hin. specialize (Hb _ Hin). cbn in Hb. split; [intros f; congruence|by intros f ?%elem_of_nil].
  - rewrite foldl_app. cbn [foldl]. destruct (IH l Hn Hb) as [Hr Hi]. set (r := foldl show_frame l xs) in *. unfold show_frame. cbn [fst snd]. destruct (assoc k r) as [s0|] eqn:Ea; [destruct (l_online s0) eqn:Eo|].
    + split; [by apply map_set_keys|]. intros id s [[= -> ->]|[Hin Hne]]%map_set_in; cbn [fst] in *.
      * split; [intros f' [= <-]; split; [done|apply elem_of_app; right; by apply list_elem_of_singleton]|done].
      * destruct (Hi id s Hin) as [H1 H2]. split; [intros f' Hf; destruct (H1 f' Hf); split; [done|apply elem_of_app; by left]|]. intros f' [Hf|[= ->]%list_elem_of_singleton]%elem_of_app; [by apply (H2 f')|done].
    + split; [done|]. intros id s Hin. destruct (Hi id s Hin) as [H1 H2]. split; [intros f' Hf; destruct (H1 f' Hf); split; [done|apply elem_of_app; by left]|].
      intros f' [Hf|[= -> ->]%list_elem_of_singleton]%elem_of_app; [by apply (H2 f')|]. rewrite (assoc_in k s r) in Ea by done. congruence.
    + split; [done|]. intros id s Hin. destruct (Hi id s Hin) as [H1 H2]. split; [intros f' Hf; destruct (H1 f' Hf); split; [done|apply elem_of_app; by left]|].
      intros f' [Hf|[= -> ->]%list_elem_of_singleton]%elem_of_app; [by apply (H2 f')|]. by rewrite (assoc_in k s r) in Ea by done.
Qed.

Lemma live_screens now h id s : good h -> (id, s) ∈ liveClients true now h ->
  (forall f, l_thumbnail s = Some f -> l_online s = true /\ (id, f) ∈ frames (memory h)) /\ (forall f, (id, f) ∈ frames (memory h) -> l_online s = true -> l_thumbnail s <> None).
Proof. intros G. apply (show_frames (frames (memory h)) (liveClients false now h)); [apply (liveClients_ok false now h G)|apply bare_list]. Qed.

Lemma stream_attached watched id id' h h' a : sockets h' = List.map (fun ws => if (ws_id ws =? id)%nat then streamed watched ws else ws) (sockets h) ->
  deviceAttachment id' h = Some a -> exists b, deviceAttachment id' h' = Some b /\ da_clientId b = da_clientId a.
Proof.
  intros Hs. unfold deviceAttachment, socket. rewrite Hs, js_find_map by (intros ws; destruct (ws_id ws =? id)%nat; [by rewrite streamed_id|done]). destruct (js_find _ (sockets h)) as [ws|]; [|done]. cbn.
  destruct (ws_id ws =? id)%nat; [|by exists a]. unfold device_of, streamed. destruct (ws_attachment ws) as [c|]; [|done]. intros [= ->]. by eexists.
Qed.

(** A workstation nobody watches has no frame left once streaming is settled. *)
Lemma stream_drops watched ids : forall h e, NoDup (List.map ws_id (sockets h)) -> e ∈ frames (memory (for_devices ids (stream_device watched) h)) ->
  e ∈ frames (memory h) /\ forall id a, id ∈ ids -> deviceAttachment id h = Some a -> fst e = da_clientId a -> da_clientId a ∈ watched.
Proof.
  induction ids as [|id ids IH]; intros h e Hnd He; [split; [done|by intros ? ? ?%elem_of_nil]|]. cbn [for_devices foldl] in He. fold (for_devices ids (stream_device watched)) in He. destruct (deviceAttachment id h) as [a|] eqn:Ea.
  - destruct (stream_device_spec watched id a h Hnd Ea) as [_ Hs]. destruct (IH (stream_device watched id a h) e) as [H1 H2]; [|exact He|].
    { rewrite Hs, List.map_map. rewrite (map_ext_on _ ws_id); [done|]. intros ws _. destruct (ws_id ws =? id)%nat; [apply streamed_id|done]. }
    assert (H1' : e ∈ frames (memory h) /\ (fst e = da_clientId a -> da_clientId a ∈ watched)).
    { unfold stream_device in H1. case_bool_decide; [split; [by destruct (Bool.eqb _ _)|done]|]. cbn in H1. destruct (Bool.eqb _ _); apply map_delete_elem in H1 as [? ?]; by split. }
    split; [apply H1'|]. intros id' a' [-> |Hin]%elem_of_cons Ha' Heq; [rewrite Ea in Ha'; injection Ha' as <-; by apply H1'|].
    destruct (stream_attached watched id id' h _ a' Hs Ha') as (b & Hb & Eb). rewrite <- Eb. apply (H2 id' b Hin Hb). congruence.
  - destruct (IH h e Hnd He) as [H1 H2]. split; [done|]. intros id' a' [-> |Hin]%elem_of_cons Ha'; [congruence|by apply (H2 id')].
Qed.

(** Once a poll has said which screens it wants, a connected workstation's frame is
    kept only where a console watches it or it was wanted, now or lately. *)
Lemma lease_drops l now h id f : good h -> (id, f) ∈ frames (memory (leasePollWatch (Some l) now h)) -> device_sockets id h <> [] ->
  (exists ws, watches h ws id) \/ id ∈ l \/ exists until, (id, until) ∈ pollWatch (memory h) /\ now < until.
Proof.
  intros G Hf Hd. cbn [leasePollWatch] in Hf. rewrite (proj1 (proj2 (proj2 (ensureAlarm_fields _ _ _)))) in Hf. set (lease := fun w clientId => _) in Hf. set (h1 := on_memory _ h) in Hf. unfold updateStreaming in Hf. destruct (watchedIds None now h1) as [h2 watched] eqn:Ew.
  assert (E2 : sockets h2 = sockets h) by (by injection Ew as <- _). assert (Hw : watched = snd (watchedIds None now h1)) by (by rewrite Ew). destruct (device_sockets id h) as [|n ns] eqn:Es; [done|]. assert (Hn : n ∈ device_sockets id h) by (rewrite Es; constructor).
  apply list_elem_of_fmap in Hn as (ws & -> & [Hin Hof]%elem_of_bfilter). unfold is_of in Hof. destruct (device_of ws) as [a|] eqn:Ea; [|done]. apply String.eqb_eq in Hof. destruct (attached h ws a G Hin Ea) as [Hat Hids].
  destruct (stream_drops watched (devices h2) h2 (id, f)) as [_ Hx]; [rewrite E2; apply G|done|]. specialize (Hx (ws_id ws) a). unfold devices, deviceAttachment, socket in *. rewrite E2 in Hx. specialize (Hx Hids Hat (eq_sym Hof)). rewrite Hof in Hx. clear Hf.
  rewrite Hw in Hx. cbn in Hx. apply elem_of_app in Hx as [Hx|Hx].
  - left. apply list_elem_of_join in Hx as (lw & Hl & Hm). apply list_elem_of_fmap in Hm as (w & -> & [Hc _]%elem_of_bfilter). apply elem_of_bfilter in Hc as [Hc _]. destruct (console_of w) as [c|] eqn:Ec; [|by apply elem_of_nil in Hl]. exists (ws_id w), w, c. done.
  - right. apply list_elem_of_fmap in Hx as ([k u] & -> & [Hk Hlt%Z.ltb_lt]%elem_of_bfilter). cbn in *. assert (Hall : forall l0 m, (k, u) ∈ foldl lease m l0 -> k ∈ l0 \/ (k, u) ∈ m).
    { induction l0 as [|x l0 IH]; intros m Hi; [by right|]. cbn in Hi. apply IH in Hi as [Hi|Hi]; [left; by constructor|]. unfold lease in Hi. destruct (re_test _ x); [|by right]. apply map_set_elem in Hi as [Hi|[= -> ->]]; [by right|left; constructor]. }
    apply Hall in Hk as [Hk|Hk]; [left|right; by exists u]. eapply elem_of_submseteq; [exact Hk|]. apply sublist_submseteq, sublist_take.
Qed.
End Live.

(** ** Runs *)

Section Promises.
Context `{UrlParser} (uuid : nat -> string) `{!Inj (=) (=) uuid}.

(** What is sent for a command that was asked for. *)
Record carries (portalUrl id : string) (r : Asked) (q : QueuedCommand) : Prop := {
  cy_id : q_id q = id;
  cy_target : q_target q = ak_target r;
  cy_action : q_action q = en_action (ak_input r);
  cy_url : q_url q = if en_portal (ak_input r) then Some portalUrl else en_url (ak_input r);
  cy_message : q_message q = en_message (ak_input r);
  cy_epoch : q_epoch q = en_epoch (ak_input r);
  cy_version v : q_version q = Some v <-> en_version (ak_input r) = Some v /\ v <> ""%string;
  cy_macs : q_macs q = match en_macs (ak_input r) with [] => None | l => Some (List.filter isWakeableMac l) end;
  cy_at : q_timestamp q = ak_at r
}.

Lemma queued_carries portalUrl i r : carries portalUrl (uuid i) r (queued portalUrl (asked_row uuid i r)).
Proof.
  split; try done; cbn.
  - intros v. destruct (en_version (ak_input r)) as [[|c w]|]; [by split; [|intros [[= <-] ?]]|split; [by intros [= <-]|by intros [? _]]|by split; [|intros []]].
  - by destruct (en_macs (ak_input r)).
Qed.

Lemma asked_for_devices (f : nat -> DeviceAttachment -> Hub -> Hub) ids : (forall id a h, asked (f id a h) = asked h) -> forall h, asked (for_devices ids f h) = asked h.
Proof.
  intros Hf. induction ids as [|id ids IH]; intros h; [done|]. cbn [for_devices foldl]. fold (for_devices ids f (match deviceAttachment id h with Some a => f id a h | None => h end)).
  rewrite IH. by destruct (deviceAttachment id h).
Qed.

Lemma asked_deliver c now id a h : asked (deliver_to c now id a h) = asked h.
Proof. unfold deliver_to, take_pending. destruct c as [c|]; [|done]. destruct (pendingFor _ _ _ _) as [s l]. by destruct l. Qed.

Lemma asked_lock locked now id a h : asked (lock_device locked now id a h) = asked h.
Proof.
  unfold lock_device. destruct (Bool.eqb _ _); [done|]. unfold notifyConsoles. generalize (consoles (serializeAttachment id (ADevice (set_status (set_locked locked (da_status a)) true a)) h)). intros l.
  assert (E : forall h0, asked (foldl (fun h' ws => emit (Sent (ws_id ws) (MStatus (statusOf (set_status (set_locked locked (da_status a)) true a) now true))) h') h0 l) = asked h0); [|by rewrite E].
  induction l as [|ws l IH]; intros h0; [done|]. cbn. by rewrite IH.
Qed.

Lemma asked_enqueue input reload_config now h : asked (handle_enqueue uuid input reload_config now h) =
  asked h ++ List.map (fun t => mkAsked t input (now `div` 1000)) (List.filter (fun t => negb (String.eqb t "")) (en_targets input)).
Proof.
  unfold handle_enqueue, enqueue_live. destruct (List.filter _ _) as [|t0 ts]; [by rewrite app_nil_r|]. cbv zeta. destruct (load false now _) as [h2 c] eqn:E2. apply (f_equal (fun x => asked (fst x))) in E2. cbn [fst] in E2.
  rewrite (proj1 (proj2 (proj2 (proj2 (proj2 (ensureAlarm_fields _ _ _)))))). transitivity (asked h2); [|rewrite <- E2; cbn; by destruct reload_config].
  assert (Hd : forall ids, asked (for_devices ids (deliver_to c now) h2) = asked h2) by (intros ids; apply asked_for_devices; intros; apply asked_deliver).
  destruct (lock_action _) as [locked|]; [|apply Hd]. etransitivity; [apply (asked_for_devices (lock_device locked now)); intros; apply asked_lock|apply Hd].
Qed.

(** C6. Each command once, over everything the hub does. Whatever happens to a
    hub in whatever order (connections, messages, heartbeats, requests, the
    alarm, hibernation), a request of the Worker for a command is one command for
    each of its targets; no workstation is given a command twice, whether over its
    socket or in a heartbeat's answer; every command sent is one that was asked
    for, with what was asked; a workstation is given only commands addressed to
    it or to everyone, within the minute after they were asked for; and every
    command addressed to it that is not a minute old has been given to it or is
    among those it is given when it next asks, which are no others. *)
Theorem hub_commands_once t h : hub_run uuid t h ->
  (forall input reload_config now, asked (handle uuid (REnqueue input reload_config) now h) =
     asked h ++ List.map (fun x => mkAsked x input (now `div` 1000)) (List.filter (fun x => negb (String.eqb x "")) (en_targets input))) /\
  NoDup (List.map fst (handed h)) /\
  (List.map (fun x => snd (fst x)) (handed h) = List.map q_id (carried_all h) /\
   forall q, q ∈ carried_all h -> exists i r portalUrl, asked h !! i = Some r /\ carries portalUrl (uuid i) r q) /\
  (forall client id s, (client, id, s) ∈ handed h ->
     exists i r, asked h !! i = Some r /\ id = uuid i /\ (ak_target r = "all"%string \/ ak_target r = client) /\ ak_at r <= s < ak_at r + 60) /\
  (forall client portalUrl now, t `div` 1000 <= now -> client <> "all"%string -> let next := snd (pendingFor client portalUrl now (store h)) in
     (forall i r, asked h !! i = Some r -> ak_target r = "all"%string \/ ak_target r = client -> now < ak_at r + 60 ->
        (exists s, (client, uuid i, s) ∈ handed h) \/ exists q, q ∈ next /\ carries portalUrl (uuid i) r q) /\
     (forall q, q ∈ next -> exists i r, asked h !! i = Some r /\ carries portalUrl (uuid i) r q /\ (ak_target r = "all"%string \/ ak_target r = client) /\ now < ak_at r + 60 /\
        forall s, (client, uuid i, s) ∉ handed h)).
Proof.
  intros [_ _ _ _ (all & Hr & -> & Hs & Hq)]%run_inv; [|done]. destruct (commands_delivered_once _ (handed h) _ _ Hr) as (Hn & Hl & Hp & Hg & _).
  assert (Hrow : forall c, c ∈ imap (asked_row uuid) (asked h) -> exists i r, asked h !! i = Some r /\ c = asked_row uuid i r) by (intros c (i & r & -> & Hi)%elem_of_lookup_imap; by exists i, r).
  split; [intros input reload_config now; apply asked_enqueue|]. split; [done|]. split; [split; [done|]|split].
  - rewrite list.Forall_forall in Hq. intros q Hin. destruct (Hq q Hin) as (p & c & (i & r & Hi & ->)%Hrow & ->). exists i, r, p. split; [done|apply queued_carries].
  - intros client id s Hin. destruct (Hl _ _ _ Hin) as (c & (i & r & Hi & ->)%Hrow & <- & Ha & Ht). by exists i, r.
  - intros client portalUrl now Ht Hne next. split.
    + intros i r Hi Ha Hnow. destruct (Hp client portalUrl now (asked_row uuid i r) Ht Hne) as [?|?]; [apply elem_of_lookup_imap; by exists i, r|done|done|by left|right]. eexists. split; [done|apply queued_carries].
    + intros q Hin. destruct (Hg client portalUrl now q Hin) as (c & (i & r & Hi & ->)%Hrow & -> & Ha & Hnow & Hno). exists i, r. split_and!; try done. apply queued_carries.
Qed.

(** C7. The hub keeps time. In every run, whenever a console is open, a screen
    is being sent or leased, a change is not yet written back or a command
    waits, the alarm is set for no later than half a minute from the last
    thing that happened; a workstation that waits for its site has it set, at
    the latest, for then or for when its wait is over. And when the alarm
    fires, no workstation still waits that has waited as long as it may. *)
Theorem hub_keeps_time t h : hub_run uuid t h ->
  (busy h -> exists a, alarm_at h = Some a /\ a <= t + CONSOLE_SWEEP_MS) /\
  (forall id since, held h (id, since) -> exists a, alarm_at h = Some a /\ (a <= t + CONSOLE_SWEEP_MS \/ a <= since + LAN_HOLD_MAX_MS)) /\
  (forall now a, t <= now -> alarm_at h = Some a -> a <= now ->
     let h' := alarm uuid now (take_alarm h) in
     hub_run uuid now h' /\ forall id since, held h' (id, since) -> now - since < LAN_HOLD_MAX_MS).
Proof.
  intros Hr. destruct (run_inv uuid t h Hr) as [G B Bu He _]. split_and!; [done|by intros id since ?%He|].
  intros now a Ht Ha Hle. cbv zeta. split; [eapply hub_next; [exact Hr|done|by eapply step_alarm]|]. intros id since Hh.
  pose proof (al_overdue _ _ _ _ (event_alarm uuid now h G B) (id, since)) as Hno. destruct (Z_lt_le_dec (now - since) LAN_HOLD_MAX_MS); [done|]. by destruct Hno.
Qed.

(** C39. What the consoles are shown is well formed. Whatever workstations
    report, every workstation in the live list, in any run, has the identity it
    is listed under, once; has not been removed; and carries a number from 1 to
    99999, a web address that passed the check or none, versions of the
    accepted forms, and an update report within its bounds. *)
Theorem hub_listing_ok t h withFrames now : hub_run uuid t h -> listing_ok h (liveClients withFrames now h).
Proof. intros [G _ _ _ _]%run_inv; [|done]. by apply liveClients_ok. Qed.

(** C26. A removed workstation stays out. In any run, a workstation the hub has
    removed is not in the live list; its connections and heartbeats are refused
    with 401; no step of the hub puts it back in the registry; and it stays
    removed until it is enrolled again. *)
Theorem hub_removed_stays_out t h clientId : hub_run uuid t h -> isRevoked (store h) clientId = true ->
  (forall withFrames now s, (clientId, s) ∉ liveClients withFrames now h) /\
  (forall id ip portal now, re_test CLIENT_ID_PATTERN clientId = true -> upgrade_device id clientId ip portal now h = (h, Some (401, "This workstation has been removed"%string))) /\
  (forall ip portal payload thumbnail now, re_test CLIENT_ID_PATTERN clientId = true ->
     handleHeartbeat uuid clientId ip portal payload thumbnail now h = (h, HeartbeatRefused 401 "This workstation has been removed")) /\
  (forall now h', hub_step uuid now h h' ->
     (forall c', c' ∈ client_devices (d1 h') -> cd_client_id c' = clientId -> exists c, c ∈ client_devices (d1 h) /\ cd_tenant_id c = cd_tenant_id c' /\ cd_client_id c = clientId) /\
     (isRevoked (store h') clientId = true \/ store h' = deviceEnrolled clientId (store h))).
Proof.
  intros Hrun Hr. pose proof (run_inv uuid t h Hrun) as I. split_and!.
  - intros withFrames now s Hin. destruct (proj2 (liveClients_ok withFrames now h (hi_good _ _ _ I)) _ Hin) as [_ _ Hn _ _ _ _ _]. cbn in Hn. congruence.
  - intros id ip portal now Hp. unfold upgrade_device, refusalFor. by rewrite Hp, Hr.
  - intros ip portal payload thumbnail now Hp. unfold handleHeartbeat, refusalFor. by rewrite Hp, Hr.
  - intros now h' Hs. assert (Hk : registry_keeps_out (d1 h) (d1 h') (store h) -> forall c', c' ∈ client_devices (d1 h') -> cd_client_id c' = clientId ->
      exists c, c ∈ client_devices (d1 h) /\ cd_tenant_id c = cd_tenant_id c' /\ cd_client_id c = clientId).
    { intros Hk c' Hc E. destruct (Hk c' Hc) as [(c & ? & ? & ?)|Hn]; [exists c; split_and!; [done|done|congruence]|]. rewrite E in Hn. congruence. }
    destruct (step_facts uuid t now h h' I Hs) as [[_ _ _ _ _ _ _ Hreg Hrem]|[_ _ _ _ Hreg Hrem _ _ _]].
    + split; [by apply Hk|by apply Hrem].
    + split; [by apply Hk|]. left. unfold isRevoked. by rewrite Hrem.
Qed.

(** C28. Who is shown a screen. In any run, of everything a step of the hub
    sends on its sockets, only messages to a console that watches the workstation
    hold a frame of its screen. The one other way out is the answer to a console
    that polls: it has the frame the hub holds of each workstation that is online,
    and of no other; and where the poll says which screens it wants, a connected
    workstation is among those only if it is one of them, was wanted by a poll
    whose lease still runs, or is watched by a console. A poll that names none may
    be shown a screen nobody watches. *)
Theorem hub_frames_watched t h : hub_run uuid t h ->
  (forall now h', hub_step uuid now h h' ->
     exists out, sent h' = sent h ++ out /\ forall ws clientId f, shows out ws clientId f -> watches h ws clientId \/ watches h' ws clientId) /\
  (forall watch now, let h' := handle uuid (RLive watch) now h in exists out clients, sent h' = sent h ++ out ++ [AnsweredLive clients] /\ forall id s, (id, s) ∈ clients ->
     (forall f, l_thumbnail s = Some f -> l_online s = true /\ (id, f) ∈ frames (memory h')) /\
     (forall f, (id, f) ∈ frames (memory h') -> l_online s = true -> l_thumbnail s <> None) /\
     (forall wanted, watch = Some wanted -> l_thumbnail s <> None -> device_sockets id h <> [] ->
        (exists ws, watches h ws id) \/ id ∈ wanted \/ exists until, (id, until) ∈ pollWatch (memory h) /\ now < until)).
Proof.
  intros Hrun. pose proof (run_inv uuid t h Hrun) as I. split.
  - intros now h' Hs. destruct (step_facts uuid t now h h' I Hs) as [[_ _ _ _ _ _ Hf _ _]|[_ _ _ (out & E & Hf) _ _ _ _ _]]; [done|]. exists out. split; [done|]. intros ws clientId f Hin. left. by apply (Hf ws clientId f).
  - intros watch now h'. set (h0 := on_memory (set_attended (now + HTTP_ATTENTION_MS)) h). set (h1 := leasePollWatch watch now h0). assert (G0 : good h0) by (by destruct (hi_good _ _ _ I)).
    destruct (tame_lease uuid now watch h0 G0) as [[G1 _ _ _ _ _ (out & Eo & _) _ _] _]. fold h1 in G1, Eo. exists out, (liveClients true now h1). split; [cbn; fold h0 h1; rewrite Eo; by rewrite <- app_assoc|].
    intros id s Hin. destruct (live_screens now h1 id s G1 Hin) as [H1 H2]. split_and!; [done|done|]. intros wanted -> Ht Hd. destruct (l_thumbnail s) as [f|] eqn:Ef; [|done]. destruct (H1 f eq_refl) as [_ Hf]. by apply (lease_drops wanted now h0 id f G0).
Qed.

Lemma load_forced cached db tenant whitelist now : loadConfig cached true db tenant whitelist now = read_config db tenant whitelist now.
Proof. by destruct cached. Qed.

Lemma send_config_loop c now ids : forall h,
  let h' := for_devices ids (sendConfig c now) h in sockets h' = sockets h /\
  exists out, sent h' = sent h ++ out /\ forall id a, id ∈ ids -> deviceAttachment id h = Some a -> Sent id (MConfig (configFor c (da_clientId a) (da_portal a) (now `div` 1000)) None) ∈ out.
Proof.
  induction ids as [|id ids IH]; intros h; cbn [for_devices foldl]; [split; [done|]; exists []; split; [by rewrite app_nil_r|]; by intros ? ? ?%elem_of_nil|].
  set (h1 := match deviceAttachment id h with Some a => _ | None => _ end). destruct (IH h1) as (Hs & out & Eo & Hout). fold (for_devices ids (sendConfig c now) h1).
  assert (H1 : sockets h1 = sockets h) by (unfold h1; by destruct (deviceAttachment id h)). split; [by rewrite Hs|].
  exists ((match deviceAttachment id h with Some a => [Sent id (MConfig (configFor c (da_clientId a) (da_portal a) (now `div` 1000)) None)] | None => [] end) ++ out). split.
  - rewrite Eo. unfold h1. destruct (deviceAttachment id h); cbn; [by rewrite <- app_assoc|done].
  - intros i a [-> |Hi]%elem_of_cons Ha; apply elem_of_app; [left; rewrite Ha; constructor|right]. apply Hout; [done|]. unfold deviceAttachment, socket in *. by rewrite H1.
Qed.

Lemma close_loop ids code : forall h, exists out, sent (close_sockets ids code h) = sent h ++ out /\ forall id, id ∈ ids -> Closed id code ∈ out.
Proof.
  unfold close_sockets. induction ids as [|id ids IH]; intros h; cbn [foldl]; [exists []; split; [by rewrite app_nil_r|]; by intros ? ?%elem_of_nil|].
  destruct (IH (emit (Closed id code) h)) as (out & Eo & Hout). exists (Closed id code :: out). split; [rewrite Eo; cbn; by rewrite <- app_assoc|].
  intros i [-> |Hi]%elem_of_cons; [constructor|constructor; by apply Hout].
Qed.

(** A change reaches every workstation at once. When the Worker says the
    organization changed, the hub reads it again, the allowlist included, and
    in the same step sends every connected workstation what it is told from
    then on; if the organization is gone or not active, it closes every
    workstation's connection instead. *)
Theorem hub_change_reaches_everyone t h now ws a : hub_run uuid t h -> ws ∈ sockets h -> device_of ws = Some a ->
  exists out, sent (configChanged uuid now h) = sent h ++ out /\
  match read_config (d1 h) (tenantId h) (buildEffectiveWhitelist (d1 h) (tenantId h)) now with
  | Some c =>
      if bool_decide (t_status (hc_tenant c) = active)
      then Sent (ws_id ws) (MConfig (configFor c (da_clientId a) (da_portal a) (now `div` 1000)) None) ∈ out
      else Closed (ws_id ws) CLOSE_INACTIVE ∈ out
  | None => Closed (ws_id ws) CLOSE_INACTIVE ∈ out
  end.
Proof.
  intros Hrun Hin Hd. pose proof (hi_good _ _ _ (run_inv uuid t h Hrun)) as G. destruct (attached h ws a G Hin Hd) as [Ha Hids].
  unfold configChanged, load. rewrite load_forced. set (rc := read_config _ _ _ _). set (h1 := on_memory (set_config rc) h). change (devices h1) with (devices h).
  assert (Hclose : exists out, sent (close_sockets (devices h) CLOSE_INACTIVE h1) = sent h ++ out /\ Closed (ws_id ws) CLOSE_INACTIVE ∈ out).
  { destruct (close_loop (devices h) CLOSE_INACTIVE h1) as (out & Eo & Hout). exists out. split; [done|by apply Hout]. }
  destruct rc as [c|] eqn:Ec; [|done]. case_bool_decide as Hact; [|done].
  destruct (send_config_loop c now (devices h) h1) as (Hs & out & Eo & Hout). set (h2 := for_devices (devices h) (sendConfig c now) h1) in *.
  assert (H12 : calm uuid now h h2).
  { unfold h2. apply calm_for_devices; [|apply calm_memory; [done..|apply calm_refl]]. intros id b h0 Hb. apply calm_emit; [done|apply calm_refl]. }
  assert (H23 : calm uuid now h2 (foldl (fun h' e => nudgeHttp uuid now (fst e) h') (for_devices (devices h) (nudgeSocket uuid now) h2) (http (memory (for_devices (devices h) (nudgeSocket uuid now) h2))))).
  { apply calm_foldl; [intros h0 e; apply calm_nudgeHttp; [done|apply calm_refl]|]. apply calm_for_devices; [|apply calm_refl]. intros id b h0 Hb. by apply calm_nudge. }
  destruct (cf_frames _ _ _ _ (proj1 (H23 (cf_good _ _ _ _ (proj1 (H12 G)))))) as (out2 & Eo2 & _). exists (out ++ out2). split; [rewrite Eo2, Eo; cbn; by rewrite <- app_assoc|].
  apply elem_of_app. left. by apply Hout.
Qed.
End Promises.

(** ** Waking *)

Definition gathered {A} (k : string) (x : A) (m : list (string * list A)) : Prop := exists l, (k, l) ∈ m /\ x ∈ l.

Lemma map_push_spec {A} k (vs : list A) m p x : NoDup (List.map fst m) -> gathered p x (map_push k vs m) <-> gathered p x m \/ (p = k /\ x ∈ vs).
Proof.
  intros Hn. unfold gathered, map_push. split.
  - intros (l & [[= -> ->]|[Hl Hne]]%map_set_in & Hx); [|left; by exists l]. apply elem_of_app in Hx as [Hx|Hx]; [left|by right].
    destruct (assoc k m) as [l|] eqn:E; [|by apply elem_of_nil in Hx]. apply assoc_elem in E. by exists l.
  - intros [(l & Hl & Hx)|[-> Hx]].
    + destruct (decide (p = k)) as [-> |Hne]; [|exists l; split; [|done]; apply map_set_in; by right]. rewrite (assoc_in k l m) by done. eexists. split; [apply map_set_in; by left|]. apply elem_of_app. by left.
    + eexists. split; [apply map_set_in; by left|]. apply elem_of_app. by right.
Qed.

Lemma by_peer_spec choices p x : gathered p x (by_peer choices) <-> exists e, e ∈ choices /\ snd e = WakeVia p /\ x ∈ snd (fst e).
Proof.
  unfold by_peer. assert (Hall : forall m, NoDup (List.map fst m) -> gathered p x (foldl (fun m e => match snd e with WakeVia peer => map_push peer (snd (fst e)) m | WakeSkip _ => m end) m choices) <->
    gathered p x m \/ exists e, e ∈ choices /\ snd e = WakeVia p /\ x ∈ snd (fst e)).
  { induction choices as [|e choices IH]; intros m Hm; cbn [foldl]; [split; [by left|intros [?|(e & He & _)]; [done|by apply elem_of_nil in He]]|].
    rewrite IH by (destruct (snd e); [done|by apply map_set_keys]). setoid_rewrite elem_of_cons. destruct (snd e) as [r|peer] eqn:Ee.
    - split; [intros [?|(e' & ? & ? & ?)]; [by left|right; exists e'; auto]|intros [?|(e' & [-> |?] & ? & ?)]; [by left|congruence|right; by exists e']].
    - rewrite map_push_spec by done. split; [intros [[?|[-> ?]]|(e' & ? & ? & ?)]; [by left|right; exists e; auto|right; exists e'; auto]|].
      intros [?|(e' & [-> |?] & E & ?)]; [by left; left|left; right; split; [congruence|done]|right; by exists e']. }
  rewrite Hall by constructor. split; [intros [(l & Hl & _)|?]; [by apply elem_of_nil in Hl|done]|by right].
Qed.

Lemma chunks_parts {A} fuel n (l part : list A) : (0 < n)%nat -> part ∈ chunks fuel n l -> (0 < length part <= n)%nat /\ sublist part l.
Proof.
  intros Hn. revert l. induction fuel as [|fuel IH]; intros [|x l] Hin; cbn in Hin; try (by apply elem_of_nil in Hin). apply elem_of_cons in Hin as [-> |Hin].
  - split; [rewrite length_take; cbn; lia|apply sublist_take].
  - destruct (IH _ Hin) as [? Hs]. split; [done|]. etrans; [exact Hs|]. apply sublist_drop.
Qed.

Lemma wake_commands_spec m p part : (p, part) ∈ wake_commands m -> (0 < length part <= MAX_WAKE_MACS_PER_COMMAND)%nat /\ NoDup part /\ forall x, x ∈ part -> gathered p x m.
Proof.
  unfold wake_commands. intros (l & Hin & (e & -> & He)%list_elem_of_fmap)%list_elem_of_join. apply list_elem_of_fmap in Hin as (part' & [= -> ->] & Hp). apply chunks_parts in Hp as [Hl Hs]; [|apply Nat.lt_0_succ].
  split; [done|]. split; [apply (sublist_NoDup' _ _ Hs), js_dedup_NoDup|]. intros x Hx. exists (snd e). split; [by destruct e|]. apply elem_of_js_dedup. eapply elem_of_submseteq; [exact Hx|]. by apply sublist_submseteq.
Qed.

Lemma wake_commands_all m p x : gathered p x m -> exists part, (p, part) ∈ wake_commands m /\ x ∈ part.
Proof.
  intros (l & Hl & Hx). apply elem_of_js_dedup in Hx. rewrite <- (chunks_concat (length (js_dedup l)) MAX_WAKE_MACS_PER_COMMAND (js_dedup l)) in Hx by (done || apply Nat.lt_0_succ).
  apply list_elem_of_In, List.in_concat in Hx as (part & Hp & Hx). exists part. split; [|by apply list_elem_of_In]. unfold wake_commands. apply list_elem_of_join.
  eexists. split; [|apply list_elem_of_fmap; exists (p, l); split; [reflexivity|done]]. cbn. apply list_elem_of_fmap. exists part. split; [done|by apply list_elem_of_In].
Qed.
Definition at_site_able (site : string) (w : AwakeMember) : Prop := aw_site w = Some site /\ canWake (aw_agentVersion w) = true.

(** Through whom a workstation is woken. *)
Lemma wake_choice_via awake sites id macs peer : wake_choice awake sites id macs = WakeVia peer ->
  (forall w, w ∈ awake -> aw_clientId w <> id) /\ macs <> [] /\
  exists w row, w ∈ awake /\ aw_clientId w = peer /\ row ∈ sites /\ ls_client_id row = id /\ at_site_able (ls_site row) w /\
    (aw_socket w = true \/ forall w', w' ∈ awake -> at_site_able (ls_site row) w' -> aw_socket w' = false).
Proof.
  unfold wake_choice. destruct (existsb _ awake) eqn:Eo; [done|]. destruct macs as [|mac macs]; [done|]. destruct (js_find _ sites) as [row|] eqn:Er; [|done]. destruct (String.eqb _ _); [done|].
  set (there := List.filter (fun w => bool_decide (aw_site w = Some (ls_site row))) awake). set (able := List.filter (fun w => canWake (aw_agentVersion w)) there).
  assert (Hable : forall w, w ∈ able <-> w ∈ awake /\ at_site_able (ls_site row) w).
  { intros w. unfold able, there, at_site_able. rewrite !list_elem_of_In, !List.filter_In, bool_decide_eq_true. tauto. }
  destruct able as [|w0 able0]; [done|]. intros [= <-]. apply js_find_Some in Er as [Hrow Eid%String.eqb_eq]. split_and!; [|done|].
  - intros w Hw E. assert (existsb (fun w => String.eqb (aw_clientId w) id) awake = true); [|congruence]. apply existsb_exists. exists w. split; [by apply list_elem_of_In|by apply String.eqb_eq].
  - set (w := default w0 (js_find aw_socket (w0 :: able0))). assert (Hw : w ∈ w0 :: able0 /\ (aw_socket w = true \/ forall w', w' ∈ w0 :: able0 -> aw_socket w' = false)).
    { unfold w. destruct (js_find aw_socket (w0 :: able0)) as [w1|] eqn:Ef; cbn [default]; [apply js_find_Some in Ef as [? ?]; auto|]. split; [constructor|right]. intros w' Hw'.
      destruct (aw_socket w') eqn:E; [|done]. destruct (js_find_is_Some aw_socket _ w' Hw' E) as [? Hf]. congruence. }
    destruct Hw as [Hw Hsock]. apply Hable in Hw as [Hin Hat]. exists w, row. split_and!; try done. destruct Hsock as [?|Hs]; [by left|right]. intros w' ? ?. apply Hs, Hable. done.
Qed.

(** Workstations are woken through a neighbour. Each workstation asked for
    is answered: it will be woken, or the reason it will not. One that is woken
    was off, and its signal is sent by a workstation that is on at the site
    where it was last seen, with an agent new enough, and over a socket if there
    is such a one. Every address that can be woken, of a workstation with such a
    neighbour, is in a command to it; and each command holds at most 64
    addresses, none twice, of workstations that neighbour wakes. *)
Theorem hub_wakes_through_neighbours `{UrlParser} uuid raw now h :
  let reply := snd (wake_live uuid raw now h) in let sent_to := wake_commands (by_peer (wake_plan raw now h)) in
  (forall t, t ∈ wake_targets raw -> (exists r, (fst t, r) ∈ wr_skipped reply) \/
     exists peer, (fst t, peer) ∈ wr_sent reply /\ forall mac, mac ∈ snd t -> exists part, (peer, part) ∈ sent_to /\ mac ∈ part) /\
  (forall id peer, (id, peer) ∈ wr_sent reply -> (forall w, w ∈ awake_members now h -> aw_clientId w <> id) /\
     exists w row, w ∈ awake_members now h /\ aw_clientId w = peer /\ row ∈ last_sites (store h) /\ ls_client_id row = id /\ at_site_able (ls_site row) w /\
       (aw_socket w = true \/ forall w', w' ∈ awake_members now h -> at_site_able (ls_site row) w' -> aw_socket w' = false)) /\
  (forall peer part, (peer, part) ∈ sent_to -> (0 < length part <= 64)%nat /\ NoDup part /\
     forall mac, mac ∈ part -> exists t, t ∈ wake_targets raw /\ mac ∈ snd t /\ (fst t, peer) ∈ wr_sent reply).
Proof.
  intros reply sent_to. assert (Hplan : forall e, e ∈ wake_plan raw now h <-> fst e ∈ wake_targets raw /\ snd e = wake_choice (awake_members now h) (last_sites (store h)) (fst (fst e)) (snd (fst e))).
  { intros [t c]. unfold wake_plan. rewrite list_elem_of_fmap. split; [by intros (t' & [= -> ->] & ?)|]. intros [Ht Hc]. cbn in *. exists t. by subst. }
  assert (Hsent : forall id peer, (id, peer) ∈ wr_sent reply <-> exists e, e ∈ wake_plan raw now h /\ fst (fst e) = id /\ snd e = WakeVia peer).
  { intros id peer. cbn. rewrite list_elem_of_omap. split; intros (e & He & Hx); exists e; (split; [done|]); destruct (snd e); naive_solver. }
  split_and!.
  - intros t Ht. set (c := wake_choice (awake_members now h) (last_sites (store h)) (fst t) (snd t)). assert (He : (t, c) ∈ wake_plan raw now h) by (by apply Hplan).
    destruct c as [r|peer] eqn:Ec; [left; exists r; cbn; apply list_elem_of_omap; by exists (t, WakeSkip r)|right]. exists peer. split; [apply Hsent; by exists (t, WakeVia peer)|].
    intros mac Hm. apply wake_commands_all, by_peer_spec. by exists (t, WakeVia peer).
  - intros id peer ((t & c) & [Ht Hc]%Hplan & <- & E)%Hsent. cbn [fst snd] in *. rewrite E in Hc. symmetry in Hc. by apply wake_choice_via in Hc as (? & _ & ?).
  - intros peer part Hp. destruct (wake_commands_spec _ _ _ Hp) as (Hl & Hn & Hx). split_and!; [apply Hl|apply Hl|done|]. intros mac Hm. apply Hx in Hm as (e & He & Hs & Hmac)%by_peer_spec.
    exists (fst e). split_and!; [by apply Hplan in He as [? _]|done|]. apply Hsent. by exists e.
Qed.

(** ** A run *)

#[local] Existing Instance toy_url.

Fixpoint unary (n : nat) : string := match n with O => ""%string | S n' => String "u" (unary n') end.

#[local] Instance unary_inj : Inj (=) (=) unary.
Proof. intros n. induction n as [|n IH]; intros [|m] E; try done. f_equal. apply IH. by injection E. Qed.

Definition demo_context : PortalContext := mkPortalContext "https://t.example" "https://t.example" true false "t.example" None "example".
Definition demo_org : D1Database :=
  on_tenants (fun _ => [mkTenant "t1" "u1" "Greenwood" "greenwood" None active portal "" None None 0 None 0 0 stable 0 0 0 0 30 None None None 0]) empty_db.
Definition demo_lock_all : EnqueueInput := mkEnqueue ["all"%string] lock None None None None [] false.

(** A console opens, a workstation connects, the console watches it, a frame
    comes, everyone is locked, and the workstation is removed. *)
Definition demo_events : list (Z * HubRequest + Z * nat * HubMessage) :=
  [inl (1000, RConsole 1 "u1"); inl (2000, RDevice 2 "PC-01" "10.0.0.2" demo_context); inr (3000, 1%nat, HWatch (Some ["PC-01"%string]));
   inl (5000, REnqueue demo_lock_all false); inr (6000, 2%nat, HFrame (JsStr "data:image/jpeg;base64,AAAA"))].

Definition demo_step (h : Hub) (e : Z * HubRequest + Z * nat * HubMessage) : Hub :=
  match e with
  | inl (now, r) => handle unary r now (on_store (fun _ => store h) h)
  | inr (now, id, m) => webSocketMessage unary id m now h
  end.

Definition demo_hub : Hub := foldl demo_step (new_hub "t1" demo_org) demo_events.
Definition demo_removed : Hub := demo_step demo_hub (inl (7000, RRemove "PC-01")).

Lemma demo_asks t now r h : hub_run unary t h -> bool_decide (t <= now) = true -> bind "t1" (store h) = (store h, true) -> new_identity r h -> hub_run unary now (demo_step h (inl (now, r))).
Proof. intros Hr Ht Hb Hn. eapply hub_next; [exact Hr|by apply bool_decide_eq_true in Ht|]. by apply (step_request _ now h "t1"). Qed.

Lemma demo_hears t now id m h : hub_run unary t h -> bool_decide (t <= now) = true -> hub_run unary now (demo_step h (inr (now, id, m))).
Proof. intros Hr Ht. eapply hub_next; [exact Hr|by apply bool_decide_eq_true in Ht|]. apply step_message. Qed.

Lemma demo_hub_run : hub_run unary 6000 demo_hub.
Proof.
  unfold demo_hub, demo_events. cbn [foldl]. apply (demo_hears 5000); [|done]. apply (demo_asks 3000); [|done|vm_compute; reflexivity|done]. apply (demo_hears 2000); [|done].
  apply (demo_asks 1000); [|done|vm_compute; reflexivity|apply (bool_decide_eq_true_1 _); vm_compute; reflexivity].
  apply (demo_asks 0); [|done|vm_compute; reflexivity|apply (bool_decide_eq_true_1 _); vm_compute; reflexivity]. by apply hub_start.
Qed.

Lemma demo_removed_run : hub_run unary 7000 demo_removed.
Proof. apply (demo_asks 6000); [apply demo_hub_run|done|vm_compute; reflexivity|done]. Qed.

Lemma hub_commands_once_witness :
  handed demo_hub = [("PC-01", "", 5)]%string /\ asked demo_hub = [mkAsked "all" demo_lock_all 5] /\ NoDup (List.map fst (handed demo_hub)).
Proof. split; [vm_compute; reflexivity|]. split; [vm_compute; reflexivity|]. exact (proj1 (proj2 (hub_commands_once unary 6000 demo_hub demo_hub_run))). Defined.

Lemma hub_keeps_time_witness : alarm_at demo_hub = Some 22000 /\ exists a, alarm_at demo_hub = Some a /\ a <= 6000 + CONSOLE_SWEEP_MS.
Proof.
  split; [vm_compute; reflexivity|]. apply (proj1 (hub_keeps_time unary 6000 demo_hub demo_hub_run)). left. vm_compute. discriminate.
Defined.

Lemma hub_listing_ok_witness : List.map fst (liveClients true 6000 demo_hub) = ["PC-01"%string] /\ listing_ok demo_hub (liveClients true 6000 demo_hub).
Proof. split; [vm_compute; reflexivity|]. exact (hub_listing_ok unary 6000 demo_hub true 6000 demo_hub_run). Defined.

Lemma hub_removed_stays_out_witness :
  isRevoked (store demo_removed) "PC-01" = true /\ forall s, ("PC-01"%string, s) ∉ liveClients true 8000 demo_removed.
Proof.
  assert (Hr : isRevoked (store demo_removed) "PC-01" = true) by (vm_compute; reflexivity). split; [exact Hr|].
  exact (proj1 (hub_removed_stays_out unary 7000 demo_removed "PC-01" demo_removed_run Hr) true 8000).
Defined.

Lemma hub_change_reaches_everyone_witness :
  exists ws a, ws ∈ sockets demo_hub /\ device_of ws = Some a /\ exists out, sent (configChanged unary 8000 demo_hub) = sent demo_hub ++ out /\ out <> [].
Proof.
  set (ws := default (mkWs 0 (AConsole (mkConsole "" [])) None) (sockets demo_hub !! 1%nat)). set (a := default (mkDevice "" unknown_status "" demo_context 0 None None None false false 0) (device_of ws)).
  assert (Hin : ws ∈ sockets demo_hub) by (apply (list_elem_of_lookup_2 _ 1); vm_compute; reflexivity). assert (Hd : device_of ws = Some a) by (vm_compute; reflexivity).
  exists ws, a. split; [exact Hin|]. split; [exact Hd|]. destruct (hub_change_reaches_everyone unary 6000 demo_hub 8000 ws a demo_hub_run Hin Hd) as (out & Eo & Ho).
  exists out. split; [exact Eo|]. intros ->. revert Ho. destruct (read_config _ _ _ _) as [c|]; [destruct (bool_decide _)|]; apply not_elem_of_nil.
Defined.

Lemma hub_frames_watched_witness :
  let h := webSocketMessage unary 2 (HFrame (JsStr "data:image/jpeg;base64,BBBB")) 6500 demo_hub in
  exists out, sent h = sent demo_hub ++ out /\ forall ws clientId f, shows out ws clientId f -> watches demo_hub ws clientId \/ watches h ws clientId.
Proof.
  intros h. apply (proj1 (hub_frames_watched unary 6000 demo_hub demo_hub_run) 6500 h). apply step_message.
Defined.

(** A workstation that is connected, no console, and no poll that asked for its
    screen: a frame it sends is in the answer to the next poll all the same. *)
Definition unwatched_events : list (Z * HubRequest + Z * nat * HubMessage) :=
  [inl (2000, RDevice 2 "PC-01" "10.0.0.2" demo_context); inr (6000, 2%nat, HFrame (JsStr "data:image/jpeg;base64,AAAA")); inl (7000, RLive None)].
Example unwatched_screen_polled :
  match rev (sent (foldl demo_step (new_hub "t1" demo_org) unwatched_events)) with
  | AnsweredLive clients :: _ => List.map (fun e => (fst e, l_thumbnail (snd e))) clients = [("PC-01", Some "data:image/jpeg;base64,AAAA")]%string
  | _ => False
  end.
Proof. vm_compute. reflexivity. Qed.

(** ** A first heartbeat *)

Definition demo_payload : StatusPayload := mkStatusPayload (JsInt 7) "" (JsBool false) JsUndefined JsUndefined JsUndefined JsUndefined JsUndefined.

(** A workstation on the HTTP heartbeat is online from its first heartbeat on,
    but that heartbeat sets no alarm, as the first contact over a socket does:
    its row counts as written, so nothing is left to do. The organization's
    count of online workstations is not written, and that it went silent is
    not noticed, until something else sets the alarm. *)
Example first_heartbeat_sets_no_alarm :
  let '(h1, reply) := handleHeartbeat unary "PC-01" "10.0.0.2" demo_context demo_payload JsUndefined 1000 (new_hub "t1" demo_org) in
  let h2 := fst (upgrade_device 2 "PC-01" "10.0.0.2" demo_context 1000 (new_hub "t1" demo_org)) in
  List.map (fun e => l_online (snd e)) (liveClients false 1000 h1) = [true] /\ alarm_at h1 = None /\
  alarm_at (fst (handleHeartbeat unary "PC-01" "10.0.0.2" demo_context demo_payload JsUndefined 4000 h1)) = None /\
  List.map (fun e => l_online (snd e)) (liveClients false 1000 h2) = [true] /\ alarm_at h2 = Some 21000.
Proof. vm_compute. split_and!; reflexivity. Qed.
