(* ===== verification/Cbor.v ===== *)
(** The CBOR decoder of src/cloudflare-control/src/webauthn.ts (RFC 8949 as far
    as passkeys use it), and that it decodes exactly the encodings of the
    grammar, written here as a relation between byte strings and values.

    A [Uint8Array] is the list of its bytes, a [Map] the list of its entries in
    insertion order. The recursion of the source is bounded by its own check of
    the depth, which is the structural argument here; no other fuel is needed. *)
From S2P Require Import Prelude JsString Platform Auth.

(** [new TextDecoder("utf-8", { fatal: true }).decode(bytes)], [None] where it throws. *)
Class TextDecoder : Type := { utf8_fatal : list Z -> option string }.

(** [typeof key === "number" || typeof key === "string"]. *)
Inductive CborKey : Type := KNum (n : Z) | KText (s : string).

#[export] Instance CborKey_eq_dec : EqDecision CborKey.
Proof. solve_decision. Defined.

Inductive CborValue : Type :=
| CNum (n : Z)
| CText (s : string)
| CBool (b : bool)
| CNull
| CBytes (bytes : list Z)
| CArray (items : list CborValue)
| CMap (entries : list (CborKey * CborValue)).

Definition key_of (v : CborValue) : option CborKey :=
  match v with CNum n => Some (KNum n) | CText s => Some (KText s) | _ => None end.

(** [map.get(key)]; [None] is [undefined]. *)
Fixpoint map_get (k : CborKey) (m : list (CborKey * CborValue)) : option CborValue :=
  match m with
  | [] => None
  | (k', v) :: m' => if bool_decide (k = k') then Some v else map_get k m'
  end.

(** [bytes[i]], read only where [need] has passed. *)
Definition byte_at (bytes : list Z) (i : nat) : Z := nth i bytes 0.

(** [bytes.slice(pos, pos + count)]. *)
Definition bytes_slice (bytes : list Z) (pos : nat) (count : Z) : list Z := take (Z.to_nat count) (drop pos bytes).

Definition need (bytes : list Z) (pos : nat) (count : Z) : js_result unit :=
  throw_if (Z.of_nat (length bytes) <? Z.of_nat pos + count) "The passkey's data ends early.".

Definition be16 (bytes : list Z) (pos : nat) : Z := byte_at bytes pos * 0x100 + byte_at bytes (pos + 1).
Definition be32 (bytes : list Z) (pos : nat) : Z :=
  byte_at bytes pos * 0x1000000 + byte_at bytes (pos + 1) * 0x10000 + byte_at bytes (pos + 2) * 0x100 + byte_at bytes (pos + 3).

(** The first byte and the argument it announces, [(arg, pos)] after it. *)
Definition decode_arg (bytes : list Z) (info : Z) (pos : nat) : js_result (Z * nat) :=
  if info <? 24 then Returns (info, pos)
  else if info =? 24 then _ ← need bytes pos 1; Returns (byte_at bytes pos, (pos + 1)%nat)
  else if info =? 25 then _ ← need bytes pos 2; Returns (be16 bytes pos, (pos + 2)%nat)
  else if info =? 26 then _ ← need bytes pos 4; Returns (be32 bytes pos, (pos + 4)%nat)
  else if info =? 27 then
    _ ← need bytes pos 8;
    let high := be32 bytes pos in
    _ ← throw_if (0x200000 <=? high) "The passkey's data holds a number too large to read.";
    Returns (high * 0x100000000 + be32 bytes (pos + 4), (pos + 8)%nat)
  else Throws "The passkey's data uses an encoding this server does not accept.".

Section Decoder.
Context `{TextDecoder}.

(** The loop of an array. *)
Fixpoint decode_items (item : nat -> js_result (CborValue * nat)) (n : nat) (pos : nat) : js_result (list CborValue * nat) :=
  match n with
  | O => Returns ([], pos)
  | S n' =>
      '(v, next) ← item pos;
      '(vs, e) ← decode_items item n' next;
      Returns (v :: vs, e)
  end.

(** The loop of a map; [map]: the entries so far. *)
Fixpoint decode_entries (item : nat -> js_result (CborValue * nat)) (n : nat) (pos : nat) (map : list (CborKey * CborValue)) :
    js_result (list (CborKey * CborValue) * nat) :=
  match n with
  | O => Returns (map, pos)
  | S n' =>
      '(kv, afterKey) ← item pos;
      match key_of kv with
      | None => Throws "The passkey's data has a map key this server does not accept."
      | Some key =>
          _ ← throw_if (bool_decide (key ∈ List.map fst map)) "The passkey's data repeats a map key.";
          '(v, afterValue) ← item afterKey;
          decode_entries item n' afterValue (map ++ [(key, v)])
      end
  end.

(** What follows the head; [item] reads the items inside it. *)
Definition decode_body (item : nat -> js_result (CborValue * nat)) (bytes : list Z) (major info arg : Z) (pos : nat) : js_result (CborValue * nat) :=
  if major =? 0 then Returns (CNum arg, pos)
  else if major =? 1 then Returns (CNum (-1 - arg), pos)
  else if major =? 2 then _ ← need bytes pos arg; Returns (CBytes (bytes_slice bytes pos arg), (pos + Z.to_nat arg)%nat)
  else if major =? 3 then
    _ ← need bytes pos arg;
    match utf8_fatal (bytes_slice bytes pos arg) with
    | Some text => Returns (CText text, (pos + Z.to_nat arg)%nat)
    | None => Throws "The passkey's data holds text that is not UTF-8."
    end
  else if major =? 4 then
    _ ← need bytes pos arg;
    '(items, e) ← decode_items item (Z.to_nat arg) pos;
    Returns (CArray items, e)
  else if major =? 5 then
    _ ← need bytes pos (arg * 2);
    '(map, e) ← decode_entries item (Z.to_nat arg) pos [];
    Returns (CMap map, e)
  else if major =? 7 then
    if info =? 20 then Returns (CBool false, pos)
    else if info =? 21 then Returns (CBool true, pos)
    else if info =? 22 then Returns (CNull, pos)
    else Throws "The passkey's data holds a value this server does not accept."
  else Throws "The passkey's data uses a tag this server does not accept.".

(** [levels]: how many levels may still nest, 17 - depth. *)
Fixpoint decodeItem (levels : nat) (bytes : list Z) (start : nat) : js_result (CborValue * nat) :=
  match levels with
  | O => Throws "The passkey's data nests too deeply."
  | S deeper =>
      _ ← need bytes start 1;
      let major := Z.shiftr (byte_at bytes start) 5 in
      let info := Z.land (byte_at bytes start) 31 in
      '(arg, pos) ← decode_arg bytes info (start + 1);
      decode_body (decodeItem deeper bytes) bytes major info arg pos
  end.

Definition MAX_LEVELS : nat := 17.

(** The item at the start of [bytes], and how many bytes it took. *)
Definition decodeCbor (bytes : list Z) : js_result (CborValue * nat) := decodeItem MAX_LEVELS bytes 0.

(** ** The grammar *)

(** The value of big-endian bytes. *)
Definition be_value (l : list Z) : Z := foldl (fun n b => n * 256 + b) 0 l.

(** The widths of arguments, by the additional information that announces them. *)
Definition ARGS : list (Z * nat) := [(24, 1%nat); (25, 2%nat); (26, 4%nat); (27, 8%nat)].

(** The head of an item: its first byte, with the major type and the
    additional information, and the bytes of its argument. *)
Inductive cbor_head (major : Z) : Z -> list Z -> Z -> Prop :=
| head_small info : 0 <= info < 24 -> cbor_head major info [major * 32 + info] info
| head_wide info arg :
    Forall is_byte arg -> (info, length arg) ∈ ARGS -> be_value arg < 2 ^ 53 ->
    cbor_head major info (major * 32 + info :: arg) (be_value arg).

(** [bs] is the concatenation of encodings, one of each element of [vs]. *)
Definition seq_of {A} (P : list Z -> A -> Prop) (bs : list Z) (vs : list A) : Prop :=
  exists parts, bs = concat parts /\ Forall2 P parts vs.

Definition entry_of (P : list Z -> CborValue -> Prop) (bs : list Z) (kv : CborKey * CborValue) : Prop :=
  exists k kbs vbs, bs = kbs ++ vbs /\ P kbs k /\ key_of k = Some (fst kv) /\ P vbs (snd kv).

(** What follows the head. *)
Definition cbor_body (P : list Z -> CborValue -> Prop) (major info arg : Z) (body : list Z) (v : CborValue) : Prop :=
  (major = 0 /\ body = [] /\ v = CNum arg) \/
  (major = 1 /\ body = [] /\ v = CNum (-1 - arg)) \/
  (major = 2 /\ Z.of_nat (length body) = arg /\ v = CBytes body) \/
  (major = 3 /\ Z.of_nat (length body) = arg /\ exists s, utf8_fatal body = Some s /\ v = CText s) \/
  (major = 4 /\ exists vs, Z.of_nat (length vs) = arg /\ seq_of P body vs /\ v = CArray vs) \/
  (major = 5 /\ exists kvs, Z.of_nat (length kvs) = arg /\ seq_of (entry_of P) body kvs /\ NoDup (List.map fst kvs) /\ v = CMap kvs) \/
  (major = 7 /\ body = [] /\ (info, v) ∈ [(20, CBool false); (21, CBool true); (22, CNull)]).

(** [bs] encodes [v] with at most [levels] levels of nesting. *)
Fixpoint cbor_item (levels : nat) (bs : list Z) (v : CborValue) : Prop :=
  match levels with
  | O => False
  | S deeper => exists major info arg hd body, bs = hd ++ body /\ cbor_head major info hd arg /\ cbor_body (cbor_item deeper) major info arg body v
  end.

(** ** The decoder decodes the grammar *)

(** *** Sequences *)

Lemma seq_of_nil {A} (P : list Z -> A -> Prop) body : seq_of P body [] <-> body = [].
Proof.
  split.
  - intros (parts & -> & Hf). apply Forall2_nil_inv_r in Hf. by subst.
  - intros ->. by exists [].
Qed.

Lemma seq_of_cons {A} (P : list Z -> A -> Prop) body v vs :
  seq_of P body (v :: vs) <-> exists b1 b2, body = b1 ++ b2 /\ P b1 v /\ seq_of P b2 vs.
Proof.
  split.
  - intros (parts & -> & Hf). apply Forall2_cons_inv_r in Hf as (b1 & parts' & HP & Hf & ->). exists b1, (concat parts').
    split_and!; [done|done|by exists parts'].
  - intros (b1 & b2 & -> & HP & parts & -> & Hf). exists (b1 :: parts). split; [done|by constructor].
Qed.

Lemma NoDup_snoc {A} (l : list A) x : NoDup l -> x ∉ l -> NoDup (l ++ [x]).
Proof.
  intros Hl Hx. apply list.NoDup_app. split_and!; [done| |apply NoDup_singleton]. intros y Hy Hyx. apply list_elem_of_singleton in Hyx as ->. done.
Qed.

(** Every element takes at least [k] bytes. *)
Lemma seq_of_length {A} (P : list Z -> A -> Prop) k : (forall b v, P b v -> (k <= length b)%nat) ->
  forall vs body, seq_of P body vs -> (k * length vs <= length body)%nat.
Proof.
  intros Hk. induction vs as [|v vs IH]; intros body Hs; [cbn; lia|]. apply seq_of_cons in Hs as (b1 & b2 & -> & HP & Hs).
  apply Hk in HP. apply IH in Hs. rewrite length_app. cbn [length]. lia.
Qed.

Lemma cbor_item_nonempty d bs v : cbor_item d bs v -> (1 <= length bs)%nat.
Proof.
  destruct d as [|d]; [done|]. intros (major & info & arg & hd & body & -> & Hh & _). destruct Hh; cbn; lia.
Qed.

Section Bytes.
Variable bytes : list Z.
Hypothesis bytes_ok : Forall is_byte bytes.

(** [f] reads, at a position, what [P] says may stand there. *)
Definition reads {A} (P : list Z -> A -> Prop) (f : nat -> js_result (A * nat)) : Prop :=
  forall pos v e, f pos = Returns (v, e) <-> exists item rest, drop pos bytes = item ++ rest /\ e = (pos + length item)%nat /\ P item v.

Lemma need_returns pos count u : 0 <= count ->
  need bytes pos count = Returns u -> exists arg rest, drop pos bytes = arg ++ rest /\ Z.of_nat (length arg) = count.
Proof.
  intros Hc Hn. apply throw_if_returns, Z.ltb_ge in Hn. exists (take (Z.to_nat count) (drop pos bytes)), (drop (Z.to_nat count) (drop pos bytes)).
  split; [by rewrite take_drop|]. rewrite length_take, length_drop. lia.
Qed.

Lemma need_ok pos count : (pos <= length bytes)%nat -> count <= Z.of_nat (length (drop pos bytes)) -> need bytes pos count = Returns tt.
Proof.
  intros Hpos Hl. unfold need. replace (_ <? _) with false; [done|]. symmetry. apply Z.ltb_ge. rewrite length_drop in Hl. lia.
Qed.

Lemma drop_le pos (a b : list Z) : a <> [] -> drop pos bytes = a ++ b -> (pos + length a <= length bytes)%nat.
Proof.
  intros Ha Hd. assert (length (drop pos bytes) = length (a ++ b)) as Hlen by by rewrite Hd. rewrite length_drop, length_app in Hlen.
  destruct a; [done|]. cbn [length] in *. lia.
Qed.

Lemma byte_at_drop pos l k : drop pos bytes = l -> byte_at bytes (pos + k) = nth k l 0.
Proof. intros <-. unfold byte_at. by rewrite List.nth_skipn. Qed.

Lemma drop_after pos (a b : list Z) : drop pos bytes = a ++ b -> drop (pos + length a) bytes = b.
Proof. intros Hd. rewrite <- drop_drop, Hd. apply drop_app_length. Qed.

Lemma drop_bytes pos a b : drop pos bytes = a ++ b -> Forall is_byte a.
Proof. intros Hd. apply (Forall_drop _ pos) in bytes_ok. rewrite Hd in bytes_ok. by apply Forall_app in bytes_ok as [? _]. Qed.

(** *** Heads *)

Lemma be_value_range arg : Forall is_byte arg -> 0 <= be_value arg < 256 ^ Z.of_nat (length arg).
Proof.
  unfold be_value. induction arg as [|b arg IH] using rev_ind; intros Ha; [cbn; lia|].
  apply Forall_app in Ha as [Ha Hb]. apply Forall_cons_iff in Hb as [Hb _]. specialize (IH Ha). unfold is_byte in Hb.
  rewrite foldl_app, length_app. cbn [foldl length]. rewrite Nat2Z.inj_add, Z.pow_add_r by lia. change (256 ^ Z.of_nat 1) with 256. lia.
Qed.

(** The bytes of an argument of each width, read by index. *)
Lemma decode_arg_wide info pos arg rest : (info, length arg) ∈ ARGS -> drop pos bytes = arg ++ rest -> (pos <= length bytes)%nat ->
  decode_arg bytes info pos = if be_value arg <? 2 ^ 53 then Returns (be_value arg, (pos + length arg)%nat)
                              else Throws "The passkey's data holds a number too large to read.".
Proof.
  intros Hi Hd Hpos. pose proof (drop_bytes _ _ _ Hd) as Hb. pose proof (byte_at_drop _ _ 0 Hd) as H0. rewrite Nat.add_0_r in H0.
  assert (Hn : forall n, n <= Z.of_nat (length arg) -> need bytes pos n = Returns tt).
  { intros n Hn. apply need_ok; [done|]. rewrite Hd, length_app. lia. }
  pose proof (be_value_range arg Hb) as Hr.
  unfold ARGS in Hi. repeat (apply elem_of_cons in Hi as [[= -> Hl]|Hi]); [..|by apply elem_of_nil in Hi].
  all: repeat (destruct arg as [|? arg]; try discriminate Hl); clear Hl; unfold decode_arg, be32, be16;
    cbn [Z.ltb Z.eqb Z.compare Pos.compare Pos.compare_cont Pos.eqb]; rewrite Hn by (cbn [length]; lia); cbn [mbind js_result_bind length].
  all: cbn [length] in Hr.
  1-3: rewrite (proj2 (Z.ltb_lt _ _)) by (eapply Z.lt_le_trans; [apply Hr|vm_compute; discriminate]).
  all: rewrite ?H0, ?(byte_at_drop _ _ _ Hd), <- ?Nat.add_assoc, ?(byte_at_drop _ _ _ Hd); cbn [app nth Nat.add]; unfold be_value; cbn [foldl].
  1-3: f_equal; f_equal; lia.
  repeat match goal with H : Forall _ (_ :: _) |- _ => apply Forall_cons_iff in H as [? H] end. unfold is_byte in *.
  unfold throw_if. destruct (Z.leb_spec 0x200000 (z * 0x1000000 + z0 * 0x10000 + z1 * 0x100 + z2)) as [Hhi|Hlo]; cbn [mbind js_result_bind].
  - rewrite (proj2 (Z.ltb_ge _ _)) by lia. done.
  - rewrite (proj2 (Z.ltb_lt _ _)) by lia. f_equal. f_equal. lia.
Qed.

Lemma split_byte b : is_byte b -> b = Z.shiftr b 5 * 32 + Z.land b 31 /\ 0 <= Z.land b 31 < 32 /\ 0 <= Z.shiftr b 5.
Proof.
  intros Hb. rewrite Z.shiftr_div_pow2 by lia. change 31 with (Z.ones 5). rewrite Z.land_ones by lia.
  change (2 ^ 5) with 32. unfold is_byte in Hb. div_lia.
Qed.

Lemma join_byte major info : 0 <= info < 32 -> Z.shiftr (major * 32 + info) 5 = major /\ Z.land (major * 32 + info) 31 = info.
Proof.
  intros Hi. rewrite Z.shiftr_div_pow2 by lia. change 31 with (Z.ones 5). rewrite Z.land_ones by lia. change (2 ^ 5) with 32. div_lia.
Qed.

Lemma ARGS_of info pos arg e : 24 <= info -> decode_arg bytes info pos = Returns (arg, e) ->
  exists n, (info, n) ∈ ARGS /\ need bytes pos (Z.of_nat n) = Returns tt.
Proof.
  intros Hi. unfold decode_arg, ARGS. rewrite (proj2 (Z.ltb_ge _ _)) by lia.
  repeat match goal with |- context [?x =? ?n] => destruct (Z.eqb_spec x n) as [-> |_] end; intros E; try discriminate;
    invert_returns; [exists 1%nat|exists 2%nat|exists 4%nat|exists 8%nat]; (split; [|done]); repeat constructor.
Qed.

Lemma head_sound start arg pos : need bytes start 1 = Returns tt ->
  decode_arg bytes (Z.land (byte_at bytes start) 31) (start + 1) = Returns (arg, pos) ->
  exists hd rest, drop start bytes = hd ++ rest /\ pos = (start + length hd)%nat /\ hd <> [] /\
    cbor_head (Z.shiftr (byte_at bytes start) 5) (Z.land (byte_at bytes start) 31) hd arg.
Proof.
  intros Hn Hargs. apply need_returns in Hn as (hd & rest & Hd & Hl); [|lia]. destruct hd as [|b [|? ?]]; cbn [length] in Hl; try lia. clear Hl.
  pose proof (byte_at_drop _ _ 0 Hd) as Hb. rewrite Nat.add_0_r in Hb. cbn [app nth] in Hb. rewrite Hb in *.
  pose proof (drop_bytes _ _ _ Hd) as Hbb. apply Forall_cons_iff in Hbb as [Hbb _]. destruct (split_byte b Hbb) as (Hsplit & Hinfo & _).
  pose proof (drop_after _ _ _ Hd) as Hd1. cbn [length] in Hd1. assert (Hle : (start + 1 <= length bytes)%nat) by (by apply (drop_le _ [b] rest)).
  destruct (Z.ltb_spec (Z.land b 31) 24) as [Hs|Hw].
  - unfold decode_arg in Hargs. rewrite (proj2 (Z.ltb_lt _ _)) in Hargs by done. injection Hargs as <- <-.
    exists [b], rest. split_and!; [done|done|done|]. rewrite Hsplit at 3. constructor. lia.
  - destruct (ARGS_of _ _ _ _ Hw Hargs) as (n & Hn & Hneed). apply need_returns in Hneed as (l & rest' & Hd2 & Hl); [|lia]. apply Nat2Z.inj in Hl. subst n.
    rewrite (decode_arg_wide _ _ _ _ Hn Hd2 Hle) in Hargs. destruct (Z.ltb_spec (be_value l) (2 ^ 53)) as [Hlt|]; [|discriminate].
    injection Hargs as <- <-. exists (b :: l), rest'. split_and!; [|cbn [length]; lia|done|].
    + rewrite Hd. cbn. f_equal. by rewrite <- Hd1, Hd2.
    + rewrite Hsplit at 3. constructor; [by apply (drop_bytes _ _ _ Hd2)|done|done].
Qed.

Lemma head_complete start major info hd arg rest : drop start bytes = hd ++ rest -> cbor_head major info hd arg ->
  need bytes start 1 = Returns tt /\ Z.shiftr (byte_at bytes start) 5 = major /\ Z.land (byte_at bytes start) 31 = info /\
  decode_arg bytes info (start + 1) = Returns (arg, (start + length hd)%nat) /\ 0 <= arg /\ (start + length hd <= length bytes)%nat.
Proof.
  intros Hd Hh. pose proof (byte_at_drop _ _ 0 Hd) as Hb. rewrite Nat.add_0_r in Hb.
  assert (Hle : hd <> [] -> (start + length hd <= length bytes)%nat) by (intros; by apply (drop_le _ hd rest)).
  assert (Hneed : hd <> [] -> need bytes start 1 = Returns tt).
  { intros Hne. specialize (Hle Hne). destruct hd; [done|]. cbn [length] in Hle. apply need_ok; [lia|]. rewrite Hd. cbn [length app]. lia. }
  destruct Hh as [info Hi|info arg Ha Hi Hv]; cbn [app nth] in Hb; rewrite Hb.
  - destruct (join_byte major info ltac:(lia)) as [-> ->]. split_and!; [by apply Hneed|done|done| |lia|by apply Hle].
    unfold decode_arg. by rewrite (proj2 (Z.ltb_lt _ _)) by lia.
  - assert (Hir : 24 <= info < 32).
    { unfold ARGS in Hi. repeat (apply elem_of_cons in Hi as [[= -> _]|Hi]); [lia..|by apply elem_of_nil in Hi]. }
    destruct (join_byte major info ltac:(lia)) as [-> ->]. specialize (Hle ltac:(done)). cbn [length] in Hle. pose proof (be_value_range arg Ha).
    split_and!; [by apply Hneed|done|done| |lia|cbn [length]; lia].
    rewrite (decode_arg_wide _ _ arg rest Hi); [|apply (drop_after start [major * 32 + info]); exact Hd|lia].
    rewrite (proj2 (Z.ltb_lt _ _)) by done. cbn [length]. by rewrite <- Nat.add_assoc.
Qed.

(** *** Loops *)

Lemma reads_items {P f} : reads P f -> forall n pos vs e,
  decode_items f n pos = Returns (vs, e) <->
  exists body rest, drop pos bytes = body ++ rest /\ e = (pos + length body)%nat /\ length vs = n /\ seq_of P body vs.
Proof.
  intros Hf. induction n as [|n IH]; intros pos vs e; cbn [decode_items].
  - split.
    + intros [= <- <-]. exists [], (drop pos bytes). split_and!; [done|cbn; lia|done|by apply seq_of_nil].
    + intros (body & rest & Hd & -> & Hl & Hs). destruct vs; [|done]. apply seq_of_nil in Hs as ->. by rewrite Nat.add_0_r.
  - split.
    + intros E. apply bind_returns in E as ([v next] & Ev & E). apply bind_returns in E as ([vs' e'] & Evs & [= <- <-]).
      apply Hf in Ev as (b1 & r1 & Hd1 & -> & HP). apply IH in Evs as (b2 & r2 & Hd2 & -> & <- & Hs).
      rewrite (drop_after _ _ _ Hd1) in Hd2. subst r1. exists (b1 ++ b2), r2. rewrite <- app_assoc, length_app.
      split_and!; [done|lia|done|]. apply seq_of_cons. eauto.
    + intros (body & rest & Hd & -> & Hl & Hs). destruct vs as [|v vs]; [done|]. apply seq_of_cons in Hs as (b1 & b2 & -> & HP & Hs).
      rewrite <- app_assoc in Hd. rewrite (proj2 (Hf pos v _)) by eauto. cbn [mbind js_result_bind].
      rewrite (proj2 (IH _ vs (pos + length b1 + length b2)%nat)); [cbn; rewrite length_app; by rewrite Nat.add_assoc|].
      exists b2, rest. split_and!; [by apply (drop_after _ _ _ Hd)|done|by injection Hl|done].
Qed.

Lemma reads_entries {P f} : reads P f -> forall n pos acc m e, NoDup (List.map fst acc) ->
  decode_entries f n pos acc = Returns (m, e) <->
  exists kvs body rest, m = acc ++ kvs /\ drop pos bytes = body ++ rest /\ e = (pos + length body)%nat /\ length kvs = n /\
    seq_of (entry_of P) body kvs /\ NoDup (List.map fst m).
Proof.
  intros Hf. induction n as [|n IH]; intros pos acc m e Hnd; cbn [decode_entries].
  - split.
    + intros [= <- <-]. exists [], [], (drop pos bytes). rewrite app_nil_r. split_and!; [done|done|cbn; lia|done|by apply seq_of_nil|done].
    + intros (kvs & body & rest & -> & Hd & -> & Hl & Hs & _). destruct kvs; [|done]. apply seq_of_nil in Hs as ->.
      by rewrite app_nil_r, Nat.add_0_r.
  - split.
    + intros E. apply bind_returns in E as ([kv k_end] & Ek & E). apply Hf in Ek as (b1 & r1 & Hd1 & -> & HP1).
      destruct (key_of kv) as [k|] eqn:Ekey; [|discriminate]. apply bind_returns in E as ([] & Enew%throw_if_returns & E).
      apply bool_decide_eq_false in Enew. apply bind_returns in E as ([v v_end] & Ev & E). apply Hf in Ev as (b2 & r2 & Hd2 & -> & HP2).
      rewrite (drop_after _ _ _ Hd1) in Hd2. subst r1.
      apply IH in E as (kvs & b3 & r3 & -> & Hd3 & -> & <- & Hs & Hnd').
      2: { rewrite List.map_app. by apply NoDup_snoc. }
      rewrite app_assoc in Hd1. rewrite <- Nat.add_assoc, <- length_app, (drop_after _ _ _ Hd1) in Hd3. subst r2.
      exists ((k, v) :: kvs), ((b1 ++ b2) ++ b3), r3. rewrite <- app_assoc in Hnd' |- *. rewrite (length_app (b1 ++ b2)), (length_app b1).
      split_and!; [done|by rewrite Hd1, app_assoc|lia|done| |done].
      apply seq_of_cons. exists (b1 ++ b2), b3. split_and!; [done| |done]. exists kv, b1, b2. done.
    + intros (kvs & body & rest & -> & Hd & -> & Hl & Hs & Hndm). destruct kvs as [|[k v] kvs]; [done|].
      apply seq_of_cons in Hs as (be & b3 & -> & (kv & b1 & b2 & -> & HP1 & Ekey & HP2) & Hs). cbn [fst snd] in *.
      rewrite <- !app_assoc in Hd. rewrite (proj2 (Hf pos kv _)) by eauto. cbn [mbind js_result_bind]. rewrite Ekey.
      assert (Hnew : k ∉ List.map fst acc).
      { rewrite List.map_app in Hndm. cbn [List.map fst] in Hndm. apply list.NoDup_app in Hndm as (_ & Hdis & _). intros Hin. apply (Hdis _ Hin). constructor. }
      rewrite bool_decide_eq_false_2 by done. cbn [throw_if mbind js_result_bind].
      pose proof (drop_after _ _ _ Hd) as Hd2. rewrite (proj2 (Hf _ v _)) by eauto. cbn [mbind js_result_bind].
      apply IH. { rewrite List.map_app. by apply NoDup_snoc. }
      exists kvs, b3, rest. rewrite !length_app, <- !app_assoc. split_and!; [done|by apply (drop_after _ _ _ Hd2)|lia|by injection Hl|done|done].
Qed.

(** *** Items *)

Lemma slice_of pos body rest : drop pos bytes = body ++ rest -> bytes_slice bytes pos (Z.of_nat (length body)) = body.
Proof. intros Hd. unfold bytes_slice. rewrite Nat2Z.id, Hd. apply take_app_length. Qed.

Ltac on_major := repeat match goal with |- context [?x =? ?n] => destruct (Z.eqb_spec x n) as [-> |?] end.

Lemma body_sound {P f} major info arg pos v e : reads P f -> 0 <= arg -> decode_body f bytes major info arg pos = Returns (v, e) ->
  exists body rest, drop pos bytes = body ++ rest /\ e = (pos + length body)%nat /\ cbor_body P major info arg body v.
Proof.
  intros Hf Ha. unfold decode_body, cbor_body. on_major; intros E; try discriminate.
  1, 2, 7, 8, 9: injection E as <- <-; exists [], (drop pos bytes); rewrite Nat.add_0_r; (split_and!; [done|done|]).
  1, 2: tauto.
  1-3: repeat right; split_and!; [done|done|repeat constructor].
  all: apply bind_returns in E as ([] & Hn & E); apply need_returns in Hn as (body & rest & Hd & Hl); [|lia].
  - injection E as <- <-. exists body, rest. rewrite <- Hl, (slice_of _ _ _ Hd), Nat2Z.id. split_and!; [done|done|]. tauto.
  - rewrite <- Hl, (slice_of _ _ _ Hd), Nat2Z.id in E. destruct (utf8_fatal body) as [t|] eqn:Et; [|discriminate]. injection E as <- <-.
    exists body, rest. split_and!; [done|done|]. do 3 right. left. eauto.
  - apply bind_returns in E as ([vs e'] & E & [= <- <-]). apply (reads_items Hf) in E as (b & r & Hd' & -> & Hlen & Hs).
    exists b, r. split_and!; [done|done|]. do 4 right. left. split; [done|]. exists vs. split_and!; [lia|done|done].
  - apply bind_returns in E as ([m e'] & E & [= <- <-]). apply (reads_entries Hf) in E as (kvs & b & r & -> & Hd' & -> & Hlen & Hs & Hnd); [|constructor].
    exists b, r. split_and!; [done|done|]. do 5 right. left. split; [done|]. exists kvs. split_and!; [lia|done|done|done].
Qed.

Lemma entry_of_length {P} b kv : (forall b v, P b v -> (1 <= length b)%nat) -> entry_of P b kv -> (2 <= length b)%nat.
Proof. intros HP (k & kb & vb & -> & Hk & _ & Hv). apply HP in Hk, Hv. rewrite length_app. lia. Qed.

Lemma body_complete {P f} major info arg pos body rest v : reads P f -> (forall b v, P b v -> (1 <= length b)%nat) -> (pos <= length bytes)%nat ->
  drop pos bytes = body ++ rest -> cbor_body P major info arg body v -> decode_body f bytes major info arg pos = Returns (v, (pos + length body)%nat).
Proof.
  intros Hf HP Hpos Hd Hb. assert (Hn : forall n, n <= Z.of_nat (length body) -> need bytes pos n = Returns tt).
  { intros n Hn. apply need_ok; [done|]. rewrite Hd, length_app. lia. }
  unfold decode_body. destruct Hb as [(-> & -> & ->)|[(-> & -> & ->)|[(-> & <- & ->)|[(-> & <- & s & Hs & ->)|[(-> & vs & <- & Hs & ->)|[(-> & kvs & <- & Hs & Hnd & ->)|(-> & -> & Hi)]]]]]];
    cbn [Z.eqb Pos.eqb].
  - by rewrite Nat.add_0_r.
  - by rewrite Nat.add_0_r.
  - rewrite Hn by lia. cbn [mbind js_result_bind]. by rewrite (slice_of _ _ _ Hd), Nat2Z.id.
  - rewrite Hn by lia. cbn [mbind js_result_bind]. by rewrite (slice_of _ _ _ Hd), Hs, Nat2Z.id.
  - pose proof (seq_of_length P 1 HP _ _ Hs). rewrite Hn by lia. cbn [mbind js_result_bind]. rewrite Nat2Z.id.
    rewrite (proj2 (reads_items Hf (length vs) pos vs (pos + length body)%nat)); [done|]. exists body, rest. done.
  - pose proof (seq_of_length (entry_of P) 2 (fun b kv => entry_of_length b kv HP) _ _ Hs). rewrite Hn by lia. cbn [mbind js_result_bind]. rewrite Nat2Z.id.
    rewrite (proj2 (reads_entries Hf (length kvs) pos [] kvs (pos + length body)%nat (NoDup_nil_2))); [done|]. exists kvs, body, rest. done.
  - rewrite Nat.add_0_r. repeat (apply elem_of_cons in Hi as [[= -> ->]|Hi]; [done|]). by apply elem_of_nil in Hi.
Qed.

Lemma reads_item levels : reads (cbor_item levels) (decodeItem levels bytes).
Proof.
  induction levels as [|d IH]; intros pos v e; cbn [decodeItem cbor_item]; [split; [done|by intros (? & ? & _ & _ & [])]|]. split.
  - intros E. apply bind_returns in E as ([] & Hn & E). apply bind_returns in E as ([arg p] & Ha & E).
    destruct (head_sound _ _ _ Hn Ha) as (hd & rest & Hd & -> & Hne & Hh). destruct (head_complete _ _ _ _ _ _ Hd Hh) as (_ & _ & _ & _ & Harg & _).
    apply (body_sound _ _ _ _ _ _ IH Harg) in E as (body & rest' & Hd' & -> & Hb). rewrite (drop_after _ _ _ Hd) in Hd'. subst rest.
    exists (hd ++ body), rest'. rewrite <- app_assoc, length_app. split_and!; [done|lia|]. eauto 10.
  - intros (item & rest & Hd & -> & major & info & arg & hd & body & -> & Hh & Hb). rewrite <- app_assoc in Hd.
    destruct (head_complete _ _ _ _ _ _ Hd Hh) as (-> & -> & -> & -> & _ & Hle). cbn [mbind js_result_bind].
    rewrite (body_complete _ _ _ _ body rest v IH (cbor_item_nonempty d) Hle (drop_after _ _ _ Hd) Hb), length_app. by rewrite Nat.add_assoc.
Qed.

End Bytes.

(** C40. The decoder decodes the grammar, no more and no less: it returns a value
    and a length exactly when that many bytes at the start of its input encode
    the value, within the nesting it allows, whatever follows them. So an
    encoding has one value, no encoding is the beginning of another, and
    repeated keys, indefinite lengths, tags, floats, numbers beyond 2^53 and
    data that ends early are refused wherever they are nested. *)
Theorem decodeCbor_grammar bytes v n : Forall is_byte bytes ->
  decodeCbor bytes = Returns (v, n) <-> exists item rest, bytes = item ++ rest /\ length item = n /\ cbor_item MAX_LEVELS item v.
Proof.
  intros Hb. unfold decodeCbor. rewrite (reads_item bytes Hb MAX_LEVELS 0%nat v n). rewrite drop_0. cbn [Nat.add].
  split; intros (item & rest & H1 & H2 & H3); exists item, rest; done.
Qed.

End Decoder.

(** Text of ASCII characters only. *)
Definition ascii_decoder : TextDecoder :=
  {| utf8_fatal := fun l => if forallb (fun b => (0 <=? b) && (b <? 128)) l then Some (String.string_of_list_ascii (List.map chr l)) else None |}.

(** [{1: 2, "a": [-7, h'ff00', true, null]}], then two bytes more. *)
Lemma decodeCbor_grammar_witness :
  let bytes := [0xa2; 1; 2; 0x61; 97; 0x84; 0x38; 6; 0x42; 255; 0; 0xf5; 0xf6; 9; 9] in
  let v := CMap [(KNum 1, CNum 2); (KText "a", CArray [CNum (-7); CBytes [255; 0]; CBool true; CNull])] in
  exists item rest, bytes = item ++ rest /\ length item = 13%nat /\ @cbor_item ascii_decoder MAX_LEVELS item v.
Proof.
  intros bytes v. apply (@decodeCbor_grammar ascii_decoder bytes v 13).
  - repeat (constructor; [unfold is_byte; lia|]). constructor.
  - vm_compute. reflexivity.
Defined.
