(* ===== verification/WebAuthn.v ===== *)
(** Passkeys: src/cloudflare-control/src/webauthn.ts.

    The authenticator data, COSE keys and DER signatures are read by index as in
    the source; SHA-256, JSON, the import of a key and the check of a signature
    are the runtime's, an interface ([PasskeyCrypto]). The theorems give, for
    each format, exactly which bytes are accepted and what they mean, and for a
    sign-in what was proved when it is accepted. *)
From S2P Require Import Prelude JsString Regex Platform Escape Db Auth Sessions Handoff Cbor.

Definition COSE_ES256 : Z := -7.
Definition COSE_RS256 : Z := -257.

Definition FLAG_USER_PRESENT : Z := 0x01.
Definition FLAG_ATTESTED_CREDENTIAL : Z := 0x40.
Definition FLAG_EXTENSIONS : Z := 0x80.
Definition MAX_ENCODED_LENGTH : nat := Z.to_nat (16 * 1024).

(** [flags & mask] as a condition. *)
Definition flag_set (flags mask : Z) : bool := negb (Z.land flags mask =? 0).

(** [toBase64url] is [base64url] of session_handoff.ts again. *)
Definition toBase64url (bytes : list Z) : string := base64url bytes.

Definition passkey_bytes (value : jsval) (what : string) : js_result (list Z) :=
  match value with
  | JsStr s =>
      if String.eqb s "" || negb (str_forallb is_b64url s) || (MAX_ENCODED_LENGTH <? String.length s)%nat then
        Throws ("The passkey's " +:+ what +:+ " is missing or malformed.")
      else
        match atob (str_map from_url s +:+ repeat_char "=" ((4 - String.length s mod 4) mod 4)) with
        | Some bytes => Returns bytes
        | None => Throws ("The passkey's " +:+ what +:+ " is malformed.")
        end
  | _ => Throws ("The passkey's " +:+ what +:+ " is missing or malformed.")
  end.

(** ** Authenticator data *)

Record AuthenticatorData : Type := mkAuthData {
  ad_rpIdHash : list Z;
  ad_flags : Z;
  ad_signCount : Z;
  ad_credential : option (list Z * list (CborKey * CborValue))
}.

Section Passkeys.
Context `{TextDecoder}.

(** The credential's id and key, and the position after them. *)
Definition parse_credential (data : list Z) : js_result (list Z * list (CborKey * CborValue) * nat) :=
  _ ← throw_if (length data <? 55)%nat "The passkey's credential data is too short.";
  let idLength := be16 data 53 in
  _ ← throw_if ((idLength <? 16) || (1023 <? idLength) || (Z.of_nat (length data) <? 55 + idLength)) "The passkey's credential id is malformed.";
  let pos := (55 + Z.to_nat idLength)%nat in
  '(value, len) ← decodeCbor (drop pos data);
  match value with
  | CMap key => Returns (bytes_slice data 55 idLength, key, (pos + len)%nat)
  | _ => Throws "The passkey's public key is malformed."
  end.

Definition parseAuthenticatorData (data : list Z) : js_result AuthenticatorData :=
  _ ← throw_if (length data <? 37)%nat "The passkey's authenticator data is too short.";
  let flags := byte_at data 32 in
  '(credential, pos) ←
    (if flag_set flags FLAG_ATTESTED_CREDENTIAL then '(id, key, pos) ← parse_credential data; Returns (Some (id, key), pos)
     else Returns (None, 37%nat));
  pos' ←
    (if flag_set flags FLAG_EXTENSIONS then
       '(value, len) ← decodeCbor (drop pos data);
       match value with CMap _ => Returns (pos + len)%nat | _ => Throws "The passkey's extensions are malformed." end
     else Returns pos);
  _ ← throw_if (negb (pos' =? length data)%nat) "The passkey's authenticator data has bytes left over.";
  Returns (mkAuthData (take 32 data) flags (be32 data 33) credential).

(** ** Keys *)

(** The members of a JSON Web Key the code writes. *)
Inductive JsonWebKey : Type :=
| JwkEC (x y : string)
| JwkRSA (n e : string).

Record StoredPasskeyKey : Type := mkStoredKey { sk_alg : Z; sk_jwk : JsonWebKey }.

Definition bytesOf (key : list (CborKey * CborValue)) (label : Z) : js_result (list Z) :=
  match map_get (KNum label) key with
  | Some (CBytes bytes) => Returns bytes
  | _ => Throws "The passkey's public key is incomplete."
  end.

(** [key.get(label) === n]. *)
Definition holds_number (key : list (CborKey * CborValue)) (label n : Z) : bool :=
  match map_get (KNum label) key with Some (CNum m) => m =? n | _ => false end.

Definition coseToJwk (key : list (CborKey * CborValue)) : js_result StoredPasskeyKey :=
  if holds_number key 3 COSE_ES256 then
    x ← bytesOf key (-2);
    y ← bytesOf key (-3);
    _ ← throw_if (negb (holds_number key 1 2) || negb (holds_number key (-1) 1) || negb (length x =? 32)%nat || negb (length y =? 32)%nat)
          "The passkey's ES256 key is not a P-256 key.";
    Returns (mkStoredKey COSE_ES256 (JwkEC (toBase64url x) (toBase64url y)))
  else if holds_number key 3 COSE_RS256 then
    n ← bytesOf key (-1);
    e ← bytesOf key (-2);
    _ ← throw_if (negb (holds_number key 1 3) || (length n <? 256)%nat || (512 <? length n)%nat || (length e =? 0)%nat || (4 <? length e)%nat)
          "The passkey's RS256 key is not a 2048-bit or larger RSA key.";
    Returns (mkStoredKey COSE_RS256 (JwkRSA (toBase64url n) (toBase64url e)))
  else Throws "This passkey uses an algorithm this server does not accept (ES256 or RS256 only).".

End Passkeys.

(** ** Signatures *)

Definition bad_signature {A} : js_result A := Throws "The passkey's signature is malformed.".

(** [while (int.length > 1 && int[0] === 0) int = int.subarray(1)]. *)
Fixpoint strip_zeros (int : list Z) : list Z :=
  match int with
  | 0 :: (_ :: _) as rest => strip_zeros rest
  | _ => int
  end.

(** One round of the loop: the integer at [pos], [size] bytes wide, and the
    position after it. [der[pos++]] beyond the end is [undefined]. *)
Definition der_integer (der : list Z) (size pos : nat) : js_result (list Z * nat) :=
  match der !! pos, der !! (pos + 1)%nat with
  | Some 0x02, Some n =>
      if (n =? 0) || (Z.of_nat size + 1 <? n) || (Z.of_nat (length der) <? Z.of_nat (pos + 2) + n) then bad_signature
      else
        let int := strip_zeros (bytes_slice der (pos + 2) n) in
        if (size <? length int)%nat then bad_signature
        else Returns (replicate (size - length int) 0 ++ int, (pos + 2 + Z.to_nat n)%nat)
  | _, _ => bad_signature
  end.

(** The length announced after the first byte, and the position after it;
    [NaN] is [None]. *)
Definition der_length (der : list Z) : js_result (option Z * nat) :=
  match der !! 1%nat with
  | Some 0x81 => Returns (der !! 2%nat, 3%nat)
  | Some length_ => if flag_set length_ 0x80 then bad_signature else Returns (Some length_, 2%nat)
  | None => Returns (None, 2%nat)
  end.

Definition derToRawEcdsa (der : list Z) (size : nat) : js_result (list Z) :=
  match der !! 0%nat with
  | Some 0x30 =>
      '(length_, pos) ← der_length der;
      if negb (bool_decide (option_map (fun n => Z.of_nat pos + n) length_ = Some (Z.of_nat (length der)))) then bad_signature
      else
        '(r, pos1) ← der_integer der size pos;
        '(s, pos2) ← der_integer der size pos1;
        if negb (pos2 =? length der)%nat then bad_signature else Returns (r ++ s)
  | _ => bad_signature
  end.

(** ** Ceremonies *)

Record RelyingParty : Type := mkRp { rp_rpId : string; rp_origin : string }.

(** [:port] at the end of a host removed. *)
Definition passkeyRelyingParty (DEFAULT_DOMAIN : option string) (host_header : option string) (url_host_ url_protocol_ : string) : RelyingParty :=
  let host := toLowerCase (default url_host_ (or_null host_header)) in
  let name := strip_port host in
  let base := toLowerCase (strip_dot (default "" DEFAULT_DOMAIN)) in
  let rpId := if negb (String.eqb base "") && (String.eqb name base || endsWith name ("." +:+ base)) then base else name in
  mkRp rpId (url_protocol_ +:+ "//" +:+ host).

Definition newPasskeyChallenge (random : list Z) : string := toBase64url random.

(** SHA-256 of bytes; UTF-8; JSON of UTF-8 bytes, [None] where either throws;
    whether a key imports, and whether a signature verifies under it. *)
Class PasskeyCrypto : Type := {
  sha256 : list Z -> list Z;
  encode_utf8 : string -> list Z;
  json_of_bytes : list Z -> option jsval;
  importKey : StoredPasskeyKey -> bool;
  crypto_verify : StoredPasskeyKey -> list Z -> list Z -> bool
}.

Fixpoint equal_loop (diff : Z) (a b : list Z) : Z :=
  match a, b with
  | x :: a', y :: b' => equal_loop (Z.lor diff (Z.lxor x y)) a' b'
  | _, _ => diff
  end.

Definition equalBytes (a b : list Z) : bool := if negb (length a =? length b)%nat then false else equal_loop 0 a b =? 0.

Section Ceremonies.
Context `{TextDecoder} `{PasskeyCrypto}.

(** A field that must be this string. *)
Definition is_text (v : jsval) (s : string) : bool := match v with JsStr t => String.eqb t s | _ => false end.

Definition checkClientData (clientDataJSON : list Z) (type_ challenge origin : string) : js_result unit :=
  match json_of_bytes clientDataJSON with
  | None => Throws "The passkey's client data is not JSON."
  | Some data =>
      _ ← throw_if (negb (is_object data)) "The passkey's client data is not JSON.";
      _ ← throw_if (negb (is_text (js_get data "type") type_)) "The passkey answered a different kind of request.";
      _ ← throw_if (negb (is_text (js_get data "challenge") challenge)) "The passkey answered an older request. Try again.";
      _ ← throw_if (negb (is_text (js_get data "origin") origin)) "The passkey was used on a different site.";
      throw_if (match js_get data "crossOrigin" with JsBool true => true | _ => false end) "The passkey was used from inside another site."
  end.

Definition checkAuthenticatorData (data : AuthenticatorData) (rpId : string) : js_result unit :=
  _ ← throw_if (negb (equalBytes (ad_rpIdHash data) (sha256 (encode_utf8 rpId)))) "The passkey belongs to a different site.";
  throw_if (negb (flag_set (ad_flags data) FLAG_USER_PRESENT)) "The passkey did not confirm someone was present.".

(** The CryptoKey is what importing this very key gives. *)
Definition importPasskeyKey (key : StoredPasskeyKey) : js_result StoredPasskeyKey :=
  _ ← throw_if (negb ((sk_alg key =? COSE_ES256) || (sk_alg key =? COSE_RS256))) "This passkey uses an algorithm this server does not accept.";
  _ ← throw_if (negb (importKey key)) "The passkey's public key could not be read.";
  Returns key.

Record RegisteredPasskey : Type := mkRegistered { rg_key : StoredPasskeyKey; rg_credentialId : string; rg_signCount : Z }.

(** [response]: the object the browser sent. *)
Definition verifyPasskeyRegistration (response : jsval) (expected : RelyingParty) (challenge : string) : js_result RegisteredPasskey :=
  clientData ← passkey_bytes (js_get response "clientDataJSON") "client data";
  _ ← checkClientData clientData "webauthn.create" challenge (rp_origin expected);
  attested ← passkey_bytes (js_get response "attestationObject") "attestation";
  '(attestation, _) ← decodeCbor attested;
  match (match attestation with CMap m => map_get (KText "authData") m | _ => None end) with
  | Some (CBytes authData) =>
      data ← parseAuthenticatorData authData;
      _ ← checkAuthenticatorData data (rp_rpId expected);
      match ad_credential data with
      | None => Throws "The passkey did not include its public key."
      | Some (id, publicKey) =>
          key ← coseToJwk publicKey;
          _ ← importPasskeyKey key;
          Returns (mkRegistered key (toBase64url id) (ad_signCount data))
      end
  | _ => Throws "The passkey's attestation is malformed."
  end.

Definition verifyPasskeyAssertion (response : jsval) (expected : RelyingParty) (challenge : string) (stored : StoredPasskeyKey) (storedCount : Z) :
    js_result Z :=
  clientData ← passkey_bytes (js_get response "clientDataJSON") "client data";
  _ ← checkClientData clientData "webauthn.get" challenge (rp_origin expected);
  authData ← passkey_bytes (js_get response "authenticatorData") "authenticator data";
  data ← parseAuthenticatorData authData;
  _ ← checkAuthenticatorData data (rp_rpId expected);
  let signed := authData ++ sha256 clientData in
  signature ← passkey_bytes (js_get response "signature") "signature";
  key ← importPasskeyKey stored;
  ok ← (if sk_alg stored =? COSE_ES256 then raw ← derToRawEcdsa signature 32; Returns (crypto_verify key raw signed)
        else Returns (crypto_verify key signature signed));
  _ ← throw_if (negb ok) "The passkey's signature does not match.";
  _ ← throw_if (((0 <? storedCount) || (0 <? ad_signCount data)) && (ad_signCount data <=? storedCount))
        "This passkey's counter went backwards, so it may have been copied. Use another way to sign in.";
  Returns (ad_signCount data).

End Ceremonies.

(** ** What authenticator data is accepted *)

(** An attested credential: the authenticator's model, the length of the id,
    the id and the public key. *)
Definition credential_part (part : list Z) (id : list Z) (key : list (CborKey * CborValue)) `{TextDecoder} : Prop :=
  exists aaguid len kbs, part = aaguid ++ len ++ id ++ kbs /\ length aaguid = 16%nat /\ length len = 2%nat /\
    be_value len = Z.of_nat (length id) /\ 16 <= Z.of_nat (length id) <= 1023 /\ cbor_item MAX_LEVELS kbs (CMap key).

(** The layout of section 6.1 of WebAuthn Level 2. *)
Definition auth_layout `{TextDecoder} (data : list Z) (p : AuthenticatorData) : Prop :=
  exists count cred ext, data = ad_rpIdHash p ++ [ad_flags p] ++ count ++ cred ++ ext /\ length (ad_rpIdHash p) = 32%nat /\
    length count = 4%nat /\ be_value count = ad_signCount p /\
    (if Z.testbit (ad_flags p) 6 then exists id key, ad_credential p = Some (id, key) /\ credential_part cred id key
     else cred = [] /\ ad_credential p = None) /\
    (if Z.testbit (ad_flags p) 7 then exists m, cbor_item MAX_LEVELS ext (CMap m) else ext = []).

Lemma flag_set_bit flags k : is_byte flags -> 0 <= k < 8 -> flag_set flags (2 ^ k) = Z.testbit flags k.
Proof.
  intros Hf Hk. assert (Hall : forallb (fun k => forallb (fun f => Bool.eqb (flag_set f (2 ^ k)) (Z.testbit f k)) (List.map Z.of_nat (List.seq 0 256)))
    (List.map Z.of_nat (List.seq 0 8)) = true) by (vm_compute; reflexivity).
  rewrite forallb_forall in Hall. specialize (Hall k). rewrite forallb_forall in Hall. apply eqb_prop, Hall; apply in_map_iff.
  - exists (Z.to_nat k). rewrite in_seq. lia.
  - exists (Z.to_nat flags). rewrite in_seq. unfold is_byte in Hf. lia.
Qed.

Lemma split_length {A} (l : list A) n : (n <= length l)%nat -> exists a b, l = a ++ b /\ length a = n.
Proof. intros Hn. exists (take n l), (drop n l). rewrite take_drop, length_take. split; [done|lia]. Qed.

Lemma be32_value data pos l rest : drop pos data = l ++ rest -> length l = 4%nat -> be32 data pos = be_value l.
Proof.
  intros Hd Hl. do 5 (destruct l as [|? l]; try discriminate Hl). unfold be32. pose proof (byte_at_drop _ _ _ 0 Hd) as H0. rewrite Nat.add_0_r in H0.
  rewrite H0, !(byte_at_drop _ _ _ _ Hd). unfold be_value. cbn. lia.
Qed.

Lemma be16_value data pos l rest : drop pos data = l ++ rest -> length l = 2%nat -> be16 data pos = be_value l.
Proof.
  intros Hd Hl. do 3 (destruct l as [|? l]; try discriminate Hl). unfold be16. pose proof (byte_at_drop _ _ _ 0 Hd) as H0. rewrite Nat.add_0_r in H0.
  rewrite H0, !(byte_at_drop _ _ _ _ Hd). unfold be_value. cbn. lia.
Qed.

Section AuthData.
Context `{TextDecoder}.
Variable data : list Z.
Hypothesis data_ok : Forall is_byte data.

Lemma drop_ok n : Forall is_byte (drop n data).
Proof. by apply Forall_drop. Qed.

(** A map that stands at [pos], read as [parseAuthenticatorData] reads it. *)
Lemma cbor_map_at pos (v : CborValue) n : decodeCbor (drop pos data) = Returns (v, n) <->
  exists item rest, drop pos data = item ++ rest /\ length item = n /\ cbor_item MAX_LEVELS item v.
Proof.
  unfold decodeCbor. rewrite (reads_item _ (drop_ok pos) MAX_LEVELS 0%nat v n). rewrite drop_0. cbn [Nat.add].
  split; intros (item & rest & H1 & H2 & H3); exists item, rest; done.
Qed.

Lemma parse_credential_iff id key pos : parse_credential data = Returns (id, key, pos) <->
  exists part rest, drop 37 data = part ++ rest /\ pos = (37 + length part)%nat /\ credential_part part id key.
Proof.
  unfold parse_credential. split.
  - intros E. invert_returns. apply Nat.ltb_ge in E0. bool_to_prop.
    destruct (split_length (drop 37 data) 16) as (aaguid & r1 & Hd & L1); [rewrite length_drop; lia|]. pose proof (drop_after _ _ _ _ Hd) as D1.
    rewrite L1 in D1. destruct (split_length r1 2) as (len & r2 & -> & L2); [rewrite <- D1, length_drop; lia|].
    pose proof (drop_after _ _ _ _ D1) as D2. rewrite L2 in D2. cbn [Nat.add] in D1, D2. rewrite (be16_value _ _ _ _ D1 L2) in *. set (n := be_value len) in *.
    destruct (split_length r2 (Z.to_nat n)) as (id' & r3 & -> & L3); [rewrite <- D2, length_drop; lia|].
    pose proof (drop_after _ _ _ _ D2) as D3. rewrite L3 in D3. destruct a1 as [v m]. apply cbor_map_at in E2 as (kbs & rest & Hk & <- & Hc).
    destruct v; try discriminate. injection E as <- <- <-. exists (aaguid ++ len ++ id' ++ kbs), rest.
    rewrite D3 in Hk. subst r3. rewrite !length_app, L1, L2, L3. split_and!; [by rewrite Hd, <- !app_assoc|lia|].
    exists aaguid, len, kbs. unfold bytes_slice. rewrite D2, <- L3, take_app_length. fold n. split_and!; try done; lia.
  - intros (part & rest & Hd & -> & aaguid & len & kbs & -> & L1 & L2 & L3 & Hr & Hc).
    assert (Hlen : (37 + length (aaguid ++ len ++ id ++ kbs) <= length data)%nat).
    { apply (drop_le _ _ _ rest); [|done]. destruct aaguid; [discriminate L1|done]. }
    rewrite !length_app in *. rewrite <- !app_assoc in Hd. pose proof (drop_after _ _ _ _ Hd) as D1. rewrite L1 in *. cbn [Nat.add] in D1.
    pose proof (drop_after _ _ _ _ D1) as D2. rewrite L2 in *. cbn [Nat.add] in D2. pose proof (drop_after _ _ _ _ D2) as D3.
    rewrite (proj2 (Nat.ltb_ge _ _)) by lia. rewrite (be16_value _ _ _ _ D1 L2), L3, Nat2Z.id. cbn [throw_if mbind js_result_bind].
    rewrite (proj2 (Z.ltb_ge _ 16)), (proj2 (Z.ltb_ge 1023 _)), (proj2 (Z.ltb_ge (Z.of_nat (length data)) _)) by lia.
    cbn [orb throw_if mbind js_result_bind]. rewrite (proj2 (cbor_map_at (55 + length id) (CMap key) (length kbs))).
    + cbn [mbind js_result_bind]. unfold bytes_slice. rewrite Nat2Z.id, D2, take_app_length. by do 2 f_equal.
    + rewrite D3. exists kbs, rest. done.
Qed.

Lemma parse_optional_credential flags cred pos : is_byte flags ->
  (if flag_set flags FLAG_ATTESTED_CREDENTIAL then '(id, key, pos) ← parse_credential data; Returns (Some (id, key), pos) else Returns (None, 37%nat)) = Returns (cred, pos) <->
  exists part rest, drop 37 data = part ++ rest /\ pos = (37 + length part)%nat /\
    if Z.testbit flags 6 then exists id key, cred = Some (id, key) /\ credential_part part id key else part = [] /\ cred = None.
Proof.
  intros Hf. change FLAG_ATTESTED_CREDENTIAL with (2 ^ 6). rewrite (flag_set_bit flags 6 Hf) by lia. destruct (Z.testbit flags 6).
  - split.
    + intros E. apply bind_returns in E as ([[id key] p] & E & [= <- <-]). apply parse_credential_iff in E as (part & rest & Hd & -> & Hc). eauto 10.
    + intros (part & rest & Hd & -> & id & key & -> & Hc). rewrite (proj2 (parse_credential_iff id key (37 + length part)%nat)); [done|eauto].
  - split.
    + intros [= <- <-]. exists [], (drop 37 data). done.
    + intros (part & rest & Hd & -> & -> & ->). done.
Qed.

Lemma parse_optional_extensions flags pos pos' : is_byte flags ->
  (if flag_set flags FLAG_EXTENSIONS then
     '(value, len) ← decodeCbor (drop pos data); match value with CMap _ => Returns (pos + len)%nat | _ => Throws "The passkey's extensions are malformed." end
   else Returns pos) = Returns pos' <->
  exists part rest, drop pos data = part ++ rest /\ pos' = (pos + length part)%nat /\
    if Z.testbit flags 7 then exists m, cbor_item MAX_LEVELS part (CMap m) else part = [].
Proof.
  intros Hf. change FLAG_EXTENSIONS with (2 ^ 7). rewrite (flag_set_bit flags 7 Hf) by lia. destruct (Z.testbit flags 7).
  - split.
    + intros E. apply bind_returns in E as ([v n] & E & Ev). apply cbor_map_at in E as (item & rest & Hd & <- & Hc). destruct v; try discriminate.
      injection Ev as <-. eauto 10.
    + intros (part & rest & Hd & -> & m & Hc). rewrite (proj2 (cbor_map_at pos (CMap m) (length part))); [done|eauto].
  - split.
    + intros [= <-]. exists [], (drop pos data). split_and!; [done|cbn; lia|done].
    + intros (part & rest & Hd & -> & ->). by rewrite Nat.add_0_r.
Qed.

Lemma parse_layout p : parseAuthenticatorData data = Returns p <-> auth_layout data p.
Proof.
  unfold parseAuthenticatorData, auth_layout. split.
  - intros E. apply bind_returns in E as ([] & Hl%throw_if_returns%Nat.ltb_ge & E).
    destruct (split_length data 32) as (rp & r1 & Hd & L1); [lia|]. destruct r1 as [|flags r1]; [rewrite Hd, app_nil_r in Hl; lia|].
    destruct (split_length r1 4) as (count & r2 & -> & L2); [rewrite Hd, length_app in Hl; cbn [length] in Hl; lia|].
    assert (Hflags : byte_at data 32 = flags) by (unfold byte_at; rewrite Hd, <- L1; apply nth_middle).
    assert (D1 : drop 33 data = count ++ r2) by (rewrite Hd; change (flags :: count ++ r2) with ([flags] ++ count ++ r2);
      rewrite app_assoc; apply (drop_app_length' _ _ 33); rewrite length_app, L1; done).
    pose proof (drop_after _ _ _ _ D1) as D2. rewrite L2 in D2. cbn [Nat.add] in D2.
    assert (Hfb : is_byte flags) by (rewrite Hd in data_ok; apply Forall_app in data_ok as [_ Hb]; by apply Forall_cons_iff in Hb as [? _]).
    rewrite Hflags in E. apply bind_returns in E as ([cred pos] & Ec & E). apply (parse_optional_credential _ _ _ Hfb) in Ec as (cp & rc & Hdc & -> & Hc).
    apply bind_returns in E as (pos' & Ee & E). apply (parse_optional_extensions _ _ _ Hfb) in Ee as (ep & re & Hde & -> & He).
    apply bind_returns in E as ([] & Hend%throw_if_returns & [= <-]). apply negb_false_iff, Nat.eqb_eq in Hend.
    rewrite (drop_after _ _ _ _ Hdc) in Hde. subst rc. rewrite D2 in Hdc. subst r2.
    assert (re = []) as ->. { apply nil_length_inv. assert (Hlen := f_equal length Hd). rewrite !length_app in Hlen. cbn [length] in Hlen. rewrite !length_app in Hlen. lia. }
    rewrite app_nil_r in *. exists count, cp, ep. cbn [ad_rpIdHash ad_flags ad_signCount ad_credential].
    split_and!; [|by rewrite Hd, <- L1, take_app_length|done|by rewrite (be32_value _ _ _ _ D1 L2)|done|done].
    rewrite Hd at 1. by rewrite Hd, <- L1, take_app_length.
  - intros (count & cp & ep & Hd & L1 & L2 & Hv & Hc & He). destruct p as [rp flags sc cred]. cbn [ad_rpIdHash ad_flags ad_signCount ad_credential] in *.
    assert (Hlen := f_equal length Hd). rewrite !length_app in Hlen. cbn [length] in Hlen.
    rewrite (proj2 (Nat.ltb_ge _ _)) by lia. cbn [throw_if mbind js_result_bind].
    assert (Hflags : byte_at data 32 = flags) by (unfold byte_at; rewrite Hd, <- L1; apply nth_middle). rewrite Hflags.
    assert (D1 : drop 33 data = count ++ cp ++ ep) by (rewrite Hd, app_assoc; apply (drop_app_length' _ _ 33); rewrite length_app, L1; done).
    pose proof (drop_after _ _ _ _ D1) as D2. rewrite L2 in D2. cbn [Nat.add] in D2. pose proof (drop_after _ _ _ _ D2) as D3.
    assert (Hfb : is_byte flags) by (rewrite Hd in data_ok; apply Forall_app in data_ok as [_ Hb]; by apply Forall_cons_iff in Hb as [? _]).
    rewrite (proj2 (parse_optional_credential flags cred (37 + length cp)%nat Hfb)) by eauto. cbn [mbind js_result_bind].
    rewrite (proj2 (parse_optional_extensions flags (37 + length cp) (37 + length cp + length ep)%nat Hfb)).
    2: { exists ep, []. rewrite app_nil_r. done. }
    cbn [mbind js_result_bind]. rewrite (proj2 (Nat.eqb_eq _ _)) by lia. cbn [negb throw_if mbind js_result_bind].
    rewrite (be32_value _ _ _ _ D1 L2), Hv. rewrite Hd at 1. by rewrite <- L1, take_app_length.
Qed.

End AuthData.

(** ** What signatures are accepted *)

Lemma be_value_acc l : forall n, foldl (fun n b => n * 256 + b) n l = n * 256 ^ Z.of_nat (length l) + be_value l.
Proof.
  unfold be_value. induction l as [|b l IH]; intros n; cbn [foldl length]; [cbn; lia|].
  rewrite IH, (IH (0 * 256 + b)), Nat2Z.inj_succ, Z.pow_succ_r by lia. lia.
Qed.

Lemma be_value_cons b l : be_value (b :: l) = b * 256 ^ Z.of_nat (length l) + be_value l.
Proof. unfold be_value at 1. cbn [foldl]. apply be_value_acc. Qed.

Lemma be_value_zeros k l : be_value (replicate k 0 ++ l) = be_value l.
Proof. induction k as [|k IH]; [done|]. cbn [replicate app]. by rewrite be_value_cons, IH. Qed.

(** As many bytes, with the same value, are the same bytes. *)
Lemma be_value_inj l : forall k, Forall is_byte l -> Forall is_byte k -> length l = length k -> be_value l = be_value k -> l = k.
Proof.
  induction l as [|b l IH]; intros [|c k] Hl Hk Hlen Hv; try discriminate; [done|]. injection Hlen as Hlen.
  apply Forall_cons_iff in Hl as [Hb Hl]. apply Forall_cons_iff in Hk as [Hc Hk]. rewrite !be_value_cons, Hlen in Hv.
  pose proof (be_value_range l Hl) as R1. pose proof (be_value_range k Hk) as R2. rewrite Hlen in R1. set (m := 256 ^ Z.of_nat (length k)) in *.
  assert (b = c) as -> by nia. f_equal. apply IH; try done. lia.
Qed.

Lemma strip_zeros_spec l : l <> [] -> exists k, l = replicate k 0 ++ strip_zeros l /\ (length (strip_zeros l) = 1%nat \/ exists b t, strip_zeros l = b :: t /\ b <> 0).
Proof.
  induction l as [|b l IH]; [done|]. intros _. destruct l as [|c l].
  - exists 0%nat. destruct b; (split; [done|by left]).
  - destruct (Z.eq_dec b 0) as [-> |Hb].
    + destruct IH as (k & Hk & Hs); [done|]. exists (S k). change (strip_zeros (0 :: c :: l)) with (strip_zeros (c :: l)).
      split; [cbn [replicate app]; by f_equal|done].
    + exists 0%nat. assert (strip_zeros (b :: c :: l) = b :: c :: l) as -> by (by destruct b). split; [done|]. right. eauto.
Qed.

(** A DER integer of at most 33 bytes, and the same number in [size] bytes. *)
Definition der_int (size : nat) (bs half : list Z) : Prop :=
  exists content, bs = 0x02 :: Z.of_nat (length content) :: content /\ (1 <= length content <= size + 1)%nat /\
    Forall is_byte half /\ length half = size /\ be_value half = be_value content.

(** A DER sequence of two integers, its length in the short form or in the
    long form of one byte. *)
Definition der_signature (size : nat) (der raw : list Z) : Prop :=
  exists len r s hr hs, der = 0x30 :: len ++ r ++ s /\ der_int size r hr /\ der_int size s hs /\ raw = hr ++ hs /\
    let n := Z.of_nat (length (r ++ s)) in (len = [n] /\ n < 128) \/ len = [0x81; n].

Section Der.
Variable der : list Z.
Hypothesis der_ok : Forall is_byte der.

Lemma lookup_drop_head (pos : nat) b : der !! pos = Some b <-> exists rest, drop pos der = b :: rest.
Proof.
  split.
  - intros E. exists (drop (S pos) der). by apply drop_S.
  - intros (rest & Hd). pose proof (f_equal head Hd) as Hh. rewrite head_lookup, lookup_drop, Nat.add_0_r in Hh. done.
Qed.

Lemma der_integer_iff (size pos : nat) half e : (0 < size)%nat -> der_integer der size pos = Returns (half, e) <->
  exists bs rest, drop pos der = bs ++ rest /\ e = (pos + length bs)%nat /\ der_int size bs half.
Proof.
  intros Hsize. unfold der_integer. split.
  - destruct (der !! pos) as [t|] eqn:Et; [|done]. intros E.
    assert (t = 2) as -> by (destruct t as [|[p|[p|p|]|]|p]; done). cbv beta iota in E. destruct (der !! (pos + 1)%nat) as [n|] eqn:En; [|done].
    apply lookup_drop_head in Et as (r1 & Hd1). apply lookup_drop_head in En as (r2 & Hd2).
    pose proof (drop_after _ pos [2] r1 Hd1) as Hr1. cbn [length] in Hr1. rewrite Hd2 in Hr1. subst r1.
    destruct ((n =? 0) || _ || _) eqn:Eb; [done|]. bool_to_prop.
    assert (Hn : is_byte n) by (apply (Forall_drop _ (pos + 1)) in der_ok; rewrite Hd2 in der_ok; by apply Forall_cons_iff in der_ok as [? _]). unfold is_byte in Hn.
    pose proof (drop_after _ (pos + 1) [n] r2 Hd2) as Hr2. cbn [length] in Hr2. rewrite <- Nat.add_assoc in Hr2. cbn [Nat.add] in Hr2.
    destruct (split_length r2 (Z.to_nat n)) as (content & r3 & -> & Lc); [rewrite <- Hr2, length_drop; lia|].
    assert (Hs : bytes_slice der (pos + 2) n = content) by (unfold bytes_slice; rewrite Hr2, <- Lc; apply take_app_length). rewrite Hs in E.
    destruct (Nat.ltb_spec size (length (strip_zeros content))) as [|Hle]; [done|]. injection E as <- <-.
    destruct (strip_zeros_spec content) as (k & Hk & _); [by destruct content; cbn in Lc; [lia|]|].
    assert (Hcb : Forall is_byte content) by (apply (Forall_drop _ (pos + 2)) in der_ok; rewrite Hr2 in der_ok; by apply Forall_app in der_ok as [? _]).
    exists (2 :: n :: content), r3. split_and!; [done|cbn [length]; lia|]. exists content. split_and!; [by rewrite Lc, Z2Nat.id by lia|lia|lia| | |].
    + apply Forall_app. split; [apply Forall_replicate; unfold is_byte; lia|]. rewrite Hk in Hcb. by apply Forall_app in Hcb as [_ ?].
    + rewrite length_app, length_replicate. lia.
    + rewrite be_value_zeros. rewrite Hk at 2. by rewrite be_value_zeros.
  - intros (bs & rest & Hd & -> & content & -> & Hl & Hhb & Hhl & Hv). cbn [app] in Hd.
    assert (Hlen : (pos + length (0x02%Z :: Z.of_nat (length content) :: content) <= length der)%nat) by (by apply (drop_le _ _ _ rest)).
    rewrite (proj2 (lookup_drop_head pos 2)) by eauto. pose proof (drop_after _ pos [2] _ Hd) as Hd2. cbn [length] in Hd2, Hlen.
    rewrite (proj2 (lookup_drop_head _ _)) by eauto. pose proof (drop_after _ _ [_] _ Hd2) as Hd3. cbn [length] in Hd3. rewrite <- Nat.add_assoc in Hd3. cbn [Nat.add] in Hd3.
    rewrite (proj2 (Z.eqb_neq _ _)), (proj2 (Z.ltb_ge _ (Z.of_nat (length content)))), (proj2 (Z.ltb_ge (Z.of_nat (length der)) _)) by lia. cbn [orb].
    rewrite (slice_of _ _ _ _ Hd3). destruct (strip_zeros_spec content) as (k & Hk & Hs); [by destruct content; cbn in Hl; [lia|]|].
    assert (Hcb : Forall is_byte content) by (apply (Forall_drop _ (pos + 2)) in der_ok; rewrite Hd3 in der_ok; by apply Forall_app in der_ok as [? _]).
    set (int := strip_zeros content) in *. assert (Hib : Forall is_byte int) by (rewrite Hk in Hcb; by apply Forall_app in Hcb as [_ ?]).
    assert (Hvi : be_value int = be_value half) by (rewrite Hv, Hk; by rewrite be_value_zeros).
    assert (Hsz : (length int <= size)%nat).
    { destruct Hs as [Hone|(b & t & Hb & Hnz)]; [lia|]. apply Nat.nlt_ge. intros Hgt.
      pose proof (be_value_range half Hhb) as R. rewrite Hhl in R. rewrite <- Hvi, Hb, be_value_cons in R. rewrite Hb in Hib.
      apply Forall_cons_iff in Hib as [Hbb Hib]. pose proof (be_value_range t Hib) as Rt. unfold is_byte in Hbb. rewrite Hb in Hgt. cbn [length] in Hgt.
      assert (256 ^ Z.of_nat size <= 256 ^ Z.of_nat (length t)) by (apply Z.pow_le_mono_r; lia). nia. }
    rewrite (proj2 (Nat.ltb_ge _ _)) by done. f_equal. f_equal; [|cbn [length]; lia]. symmetry. apply be_value_inj; try done.
    + apply Forall_app. split; [apply Forall_replicate; unfold is_byte; lia|done].
    + rewrite length_app, length_replicate. lia.
    + by rewrite be_value_zeros.
Qed.

(** The announced length, and that it is what is left. *)
Lemma der_length_iff pos : (exists n, der_length der = Returns (Some n, pos) /\ Z.of_nat pos + n = Z.of_nat (length der)) /\ der !! 0%nat = Some 0x30 <->
  exists len body, der = 0x30 :: len ++ body /\ pos = (1 + length len)%nat /\
    let n := Z.of_nat (length body) in (len = [n] /\ n < 128) \/ len = [0x81; n].
Proof.
  unfold der_length. split.
  - intros ((n & E & Hn) & Ht). destruct der as [|t [|l rest]] eqn:Ed; cbn [lookup list_lookup] in *; [done|..]; injection Ht as ->.
    { injection E; discriminate. }
    destruct (Z.eq_dec l 0x81) as [-> |Hl].
    + cbv beta iota in E. destruct rest as [|m rest]; injection E as E <-; [discriminate|]. subst m.
      cbn [length] in Hn. exists [0x81; n], rest. split_and!; [done|done|]. right. do 2 f_equal. lia.
    + assert (E' : (if flag_set l 128 then bad_signature else Returns (Some l, 2%nat)) = Returns (Some n, pos)).
      { destruct l as [|p|p]; try exact E. do 8 (destruct p as [p|p|]; try exact E). done. }
      clear E. assert (Hlb : is_byte l) by (by apply Forall_cons_iff in der_ok as [_ [? _]%Forall_cons_iff]).
      destruct (flag_set l 128) eqn:Ef; [done|]. injection E' as -> <-. change 128 with (2 ^ 7) in Ef. rewrite flag_set_bit in Ef by (done || lia).
      exists [n], rest. split_and!; [done|done|]. left. cbn [length] in Hn. unfold is_byte in Hlb. split; [f_equal; lia|].
      apply Z.lt_nge. intros Hge. assert (128 <= n) as Hge' by lia. apply not_true_iff_false in Ef. apply Ef. rewrite Z.testbit_true by lia. div_lia.
  - intros (len & body & -> & -> & Hlen). cbv zeta in Hlen. destruct Hlen as [[-> Hlt]| ->]; cbn [app lookup list_lookup length].
    + assert (Hf : flag_set (Z.of_nat (length body)) 128 = false).
      { change 128 with (2 ^ 7). rewrite flag_set_bit by (unfold is_byte; lia). rewrite Z.testbit_false by lia. div_lia. }
      split; [|done]. exists (Z.of_nat (length body)). split; [|lia].
      set (m := Z.of_nat (length body)) in *. assert (m <> 0x81) as Hm by lia. clearbody m.
      rewrite Hf. destruct m as [|p|p]; try done. do 8 (destruct p as [p|p|]; try done).
    + split; [|done]. eexists. split; [done|]. lia.
Qed.

Lemma derToRaw_iff (size : nat) raw : (0 < size)%nat -> derToRawEcdsa der size = Returns raw <-> der_signature size der raw.
Proof.
  intros Hs. unfold derToRawEcdsa, der_signature. split.
  - destruct (der !! 0%nat) as [t|] eqn:Et; [|done]. intros E. destruct (Z.eq_dec t 0x30) as [-> |Ht].
    2: { destruct t as [|p|p]; try done. do 6 (destruct p as [p|p|]; try done). }
    cbv beta iota in E. apply bind_returns in E as ([n pos] & El & E). case_bool_decide as Eb; [|done]. cbn [negb] in E.
    destruct n as [n|]; [|done]. injection Eb as Eb. destruct (proj1 (der_length_iff pos)) as (len & body & Hd & Hpos & Hlen); [by eauto|].
    apply bind_returns in E as ([r p1] & Er & E). apply bind_returns in E as ([s p2] & Es & E).
    destruct (Nat.eqb_spec p2 (length der)) as [Hend|]; [|done]. injection E as <-.
    apply der_integer_iff in Er as (br & rr & Hdr & -> & Hr); [|done]. apply der_integer_iff in Es as (bs & rs & Hds & -> & Hss); [|done].
    rewrite (drop_after _ _ _ _ Hdr) in Hds. subst rr.
    assert (Hbody : drop pos der = body) by (rewrite Hd, Hpos; cbn [Nat.add drop]; apply drop_app_length). rewrite Hbody in Hdr.
    assert (rs = []) as ->. { apply nil_length_inv. assert (Hl := f_equal length Hd). rewrite Hdr in Hl. cbn [length] in Hl. rewrite !length_app in Hl. lia. }
    rewrite app_nil_r in Hdr. subst body. exists len, br, bs, r, s. done.
  - intros (len & r & s & hr & hs & Hd & Hr & Hss & -> & Hlen).
    destruct (proj2 (der_length_iff (1 + length len)%nat)) as ((n & El & Hn) & E0); [exists len, (r ++ s); done|].
    rewrite E0, El. cbn [mbind js_result_bind option_map]. rewrite bool_decide_eq_true_2 by (by f_equal). cbn [negb].
    assert (Hb : drop (1 + length len) der = r ++ s) by (rewrite Hd; cbn [Nat.add drop]; apply drop_app_length).
    rewrite (proj2 (der_integer_iff size (1 + length len) hr _ Hs)) by eauto. cbn [mbind js_result_bind].
    rewrite (proj2 (der_integer_iff size _ hs (1 + length len + length r + length s)%nat Hs)).
    2: { exists s, []. rewrite app_nil_r. split_and!; [by apply (drop_after _ _ _ _ Hb)|done|done]. }
    cbn [mbind js_result_bind]. rewrite (proj2 (Nat.eqb_eq _ _)); [done|]. rewrite Hd. cbn [length]. rewrite !length_app. lia.
Qed.

End Der.

(** ** What a sign-in proves *)

Lemma b64_value_range c : b64_value c <? 0 = false -> 0 <= b64_value c < 64.
Proof.
  intros Hc. apply Z.ltb_ge in Hc. split; [done|].
  assert (Hall : forallb (fun c => b64_value c <? 64) all_chars = true) by (vm_compute; reflexivity).
  apply Z.ltb_lt, (all_chars_forall _ Hall).
Qed.

Lemma b64_groups_bytes : forall n l bytes, (length l <= n)%nat -> Forall (fun v => 0 <= v < 64) l -> b64_groups l = Some bytes -> Forall is_byte bytes.
Proof.
  induction n as [|n IH]; intros l bytes Hn Hl E; [by destruct l; [injection E as <-; constructor|cbn in Hn; lia]|].
  destruct l as [|w [|x [|y [|z rest]]]]; cbn [b64_groups] in E; try discriminate.
  - injection E as <-. constructor.
  - injection E as <-. repeat (apply Forall_cons_iff in Hl as [? Hl]). repeat constructor; div_lia.
  - injection E as <-. repeat (apply Forall_cons_iff in Hl as [? Hl]). repeat constructor; div_lia.
  - destruct (b64_groups rest) as [k|] eqn:Ek; [|discriminate]. injection E as <-. do 4 (apply Forall_cons_iff in Hl as [? Hl]).
    repeat (constructor; [unfold is_byte; div_lia|]). apply (IH rest); [cbn in Hn; lia|done|done].
Qed.

Lemma atob_bytes s bytes : atob s = Some bytes -> Forall is_byte bytes.
Proof.
  unfold atob. destruct (existsb _ _) eqn:Ee; [done|]. apply (b64_groups_bytes _ _ _ (le_n _)). apply list.Forall_forall. intros v Hv.
  apply list_elem_of_fmap in Hv as (c & -> & Hc). apply b64_value_range. apply not_true_is_false. intros E. rewrite <- not_true_iff_false in Ee. apply Ee.
  apply existsb_elem. eauto.
Qed.

Lemma passkey_bytes_ok v what bytes : passkey_bytes v what = Returns bytes -> Forall is_byte bytes.
Proof.
  unfold passkey_bytes. destruct v; try done. destruct (_ || _ || _); [done|]. destruct (atob _) as [l|] eqn:E; [|done]. intros [= <-]. by apply atob_bytes in E.
Qed.

Lemma equal_loop_zero a : forall b diff, length a = length b -> equal_loop diff a b = 0 <-> diff = 0 /\ a = b.
Proof.
  induction a as [|x a IH]; intros [|y b] diff Hl; try discriminate; cbn [equal_loop]; [naive_solver|]. injection Hl as Hl.
  rewrite IH by done. rewrite Z.lor_eq_0_iff, Z.lxor_eq_0_iff. naive_solver.
Qed.

Lemma equalBytes_iff a b : equalBytes a b = true <-> a = b.
Proof.
  unfold equalBytes. destruct (Nat.eqb_spec (length a) (length b)) as [Hl|Hl]; cbn [negb].
  - rewrite Z.eqb_eq, equal_loop_zero by done. naive_solver.
  - split; [done|]. by intros ->.
Qed.

Lemma is_text_iff v s : is_text v s = true <-> v = JsStr s.
Proof. destruct v; cbn [is_text]; try (split; done). rewrite String.eqb_eq. naive_solver. Qed.

Lemma bind_tt (m n : js_result unit) : (_ ← m; n) = Returns tt <-> m = Returns tt /\ n = Returns tt.
Proof. destruct m as [[]|]; unfold mbind; cbn; naive_solver. Qed.

Section Proved.
Context `{TextDecoder} `{PasskeyCrypto}.

(** What the browser vouches for. *)
Definition client_said (clientData : list Z) (type_ challenge origin : string) : Prop :=
  exists data, json_of_bytes clientData = Some data /\ is_object data = true /\ js_get data "type" = JsStr type_ /\
    js_get data "challenge" = JsStr challenge /\ js_get data "origin" = JsStr origin /\ js_get data "crossOrigin" <> JsBool true.

Lemma checkClientData_iff clientData type_ challenge origin :
  checkClientData clientData type_ challenge origin = Returns tt <-> client_said clientData type_ challenge origin.
Proof.
  unfold checkClientData, client_said. destruct (json_of_bytes clientData) as [d|]; [|naive_solver].
  rewrite !bind_tt, !throw_if_returns, !negb_false_iff, !is_text_iff.
  assert (Hx : match js_get d "crossOrigin" with JsBool true => true | _ => false end = false <-> js_get d "crossOrigin" <> JsBool true).
  { destruct (js_get d "crossOrigin") as [| |[]| | | | |]; naive_solver. }
  rewrite Hx. naive_solver.
Qed.

(** What the authenticator vouches for: the site, and that someone was there. *)
Definition authenticator_said (authData : list Z) (rpId : string) (p : AuthenticatorData) : Prop :=
  auth_layout authData p /\ ad_rpIdHash p = sha256 (encode_utf8 rpId) /\ Z.testbit (ad_flags p) 0 = true.

Lemma layout_facts data p : Forall is_byte data -> auth_layout data p -> is_byte (ad_flags p) /\ 0 <= ad_signCount p.
Proof.
  intros Hb (count & cred & ext & -> & _ & _ & <- & _). apply Forall_app in Hb as [_ Hb]. apply Forall_app in Hb as [Hf Hb].
  apply Forall_app in Hb as [Hc _]. apply Forall_cons_iff in Hf as [Hf _]. split; [done|]. by apply be_value_range.
Qed.

Lemma checkAuthenticatorData_iff authData p rpId : Forall is_byte authData ->
  parseAuthenticatorData authData = Returns p /\ checkAuthenticatorData p rpId = Returns tt <-> authenticator_said authData rpId p.
Proof.
  intros Hb. rewrite (parse_layout _ Hb). unfold authenticator_said, checkAuthenticatorData.
  rewrite bind_tt, !throw_if_returns, !negb_false_iff, equalBytes_iff. change FLAG_USER_PRESENT with (2 ^ 0).
  split; intros (Hl & ? & Hf); (split_and!; [done|done|]); destruct (layout_facts _ _ Hb Hl) as [Hfb _]; rewrite flag_set_bit in * by (done || lia); done.
Qed.

(** The signature of the stored key over what both said. *)
Definition signed_by (stored : StoredPasskeyKey) (signature signed : list Z) : Prop :=
  importKey stored = true /\
  ((sk_alg stored = COSE_ES256 /\ exists raw, der_signature 32 signature raw /\ crypto_verify stored raw signed = true) \/
   (sk_alg stored = COSE_RS256 /\ crypto_verify stored signature signed = true)).

Lemma signed_by_iff stored signature signed : Forall is_byte signature ->
  (exists key ok, importPasskeyKey stored = Returns key /\
    (if sk_alg stored =? COSE_ES256 then raw ← derToRawEcdsa signature 32; Returns (crypto_verify key raw signed)
     else Returns (crypto_verify key signature signed)) = Returns ok /\ ok = true) <-> signed_by stored signature signed.
Proof.
  intros Hb. unfold importPasskeyKey, signed_by. split.
  - intros (key & ok & Hi & Hv & ->). invert_returns. subst key. apply negb_false_iff in E, E0. split; [done|].
    destruct (Z.eqb_spec (sk_alg stored) COSE_ES256) as [Ha|Ha].
    + left. split; [done|]. apply bind_returns in Hv as (raw & Hd & [= Hv]). exists raw. by apply derToRaw_iff in Hd; [|done|lia].
    + right. cbn [orb] in E. apply Z.eqb_eq in E. split; [done|]. by injection Hv.
  - intros (Hi & Hv). rewrite Hi. exists stored, true. cbn [negb throw_if].
    destruct Hv as [(Ha & raw & Hd & Hv)|(Ha & Hv)]; rewrite Ha; change (COSE_ES256 =? COSE_ES256) with true; change (COSE_RS256 =? COSE_ES256) with false;
      change (COSE_RS256 =? COSE_RS256) with true; cbn [orb negb throw_if mbind js_result_bind]; (split_and!; [done| |done]).
    + rewrite (proj2 (derToRaw_iff signature Hb 32 raw ltac:(lia))) by done. cbn. by rewrite Hv.
    + by rewrite Hv.
Qed.

(** C24. A passkey sign-in is accepted exactly when it proves what it should:
    the browser reports this ceremony, the challenge handed out and this origin,
    not from inside another site; the authenticator's data is well formed, made
    for this relying party with someone present; the stored key, one of the two
    accepted kinds, signed that data followed by the hash of what the browser
    reported, with a DER signature for ES256; and the counter moved forward, or
    the authenticator does not count. *)
Theorem passkey_assertion_accepted response expected challenge stored storedCount count :
  verifyPasskeyAssertion response expected challenge stored storedCount = Returns count <->
  exists clientData authData signature p,
    passkey_bytes (js_get response "clientDataJSON") "client data" = Returns clientData /\
    passkey_bytes (js_get response "authenticatorData") "authenticator data" = Returns authData /\
    passkey_bytes (js_get response "signature") "signature" = Returns signature /\
    client_said clientData "webauthn.get" challenge (rp_origin expected) /\
    authenticator_said authData (rp_rpId expected) p /\
    signed_by stored signature (authData ++ sha256 clientData) /\
    count = ad_signCount p /\ (storedCount < count \/ (count = 0 /\ storedCount <= 0)).
Proof.
  unfold verifyPasskeyAssertion. split.
  - intros E. apply bind_returns in E as (cd & Ecd & E). apply bind_returns in E as ([] & Hc%checkClientData_iff & E).
    apply bind_returns in E as (ad & Ead & E). apply bind_returns in E as (p & Ep & E). apply bind_returns in E as ([] & Hp & E).
    apply bind_returns in E as (sg & Esg & E). apply bind_returns in E as (key & Ek & E). apply bind_returns in E as (ok & Eok & E).
    apply bind_returns in E as ([] & Hok%throw_if_returns%negb_false_iff & E). apply bind_returns in E as ([] & Hcount%throw_if_returns & [= <-]).
    pose proof (passkey_bytes_ok _ _ _ Ead) as Hadb. destruct (proj1 (checkAuthenticatorData_iff ad p (rp_rpId expected) Hadb)) as (Hl & Hrest); [done|].
    destruct (layout_facts _ _ Hadb Hl) as [_ Hpos]. exists cd, ad, sg, p. split_and!; try done.
    + apply signed_by_iff; [by apply (passkey_bytes_ok _ _ _ Esg)|]. eauto.
    + bool_to_prop. destruct Hcount as [Hc0|Hc0]; bool_to_prop; lia.
  - intros (cd & ad & sg & p & Ecd & Ead & Esg & Hc & Hp & Hs & -> & Hcount). pose proof (passkey_bytes_ok _ _ _ Ead) as Hadb.
    rewrite Ecd. cbn [mbind js_result_bind]. rewrite (proj2 (checkClientData_iff _ _ _ _) Hc). cbn [mbind js_result_bind]. rewrite Ead. cbn [mbind js_result_bind].
    destruct (proj2 (checkAuthenticatorData_iff _ _ _ Hadb) Hp) as [-> Hchk]. cbn [mbind js_result_bind]. rewrite Hchk. cbn [mbind js_result_bind]. rewrite Esg. cbn [mbind js_result_bind].
    apply signed_by_iff in Hs as (key & ok & -> & Hok & ->); [|by apply (passkey_bytes_ok _ _ _ Esg)]. cbn [mbind js_result_bind]. rewrite Hok.
    cbn [mbind js_result_bind negb throw_if].
    replace (_ && _) with false; [done|]. symmetry. apply andb_false_iff. destruct Hcount as [|[-> ?]]; [right; by apply Z.leb_gt|left].
    apply orb_false_iff. split; apply Z.ltb_ge; lia.
Qed.

End Proved.

(** ** A ceremony that runs *)

Definition toy_passkeys : PasskeyCrypto := {|
  sha256 := fun _ => replicate 32 7;
  encode_utf8 := fun s => List.map code (String.list_ascii_of_string s);
  json_of_bytes := fun l => match l with
    | [123] => Some (JsObj [("type", JsStr "webauthn.get"); ("challenge", JsStr "c1"); ("origin", JsStr "https://labkiosk.org")]%string)
    | _ => None end;
  importKey := fun _ => true;
  crypto_verify := fun _ raw _ => (length raw =? 64)%nat
|}.

Definition demo_answer (count : Z) : jsval :=
  JsObj [("clientDataJSON", JsStr (toBase64url [123])); ("authenticatorData", JsStr (toBase64url (replicate 32 7 ++ [1; 0; 0; 0; count])));
         ("signature", JsStr (toBase64url [0x30; 8; 2; 2; 0; 200; 2; 2; 1; 5]))]%string.

Example passkey_runs :
  let verify answer stored := @verifyPasskeyAssertion ascii_decoder toy_passkeys answer (mkRp "labkiosk.org" "https://labkiosk.org") "c1" (mkStoredKey COSE_ES256 (JwkEC "x" "y")) stored in
  verify (demo_answer 6) 5 = Returns 6 /\ verify (demo_answer 0) 0 = Returns 0 /\
  verify (demo_answer 5) 5 = Throws "This passkey's counter went backwards, so it may have been copied. Use another way to sign in.".
Proof. vm_compute. done. Qed.
