(* ===== verification/Totp.v ===== *)
(** Authenticator apps: base 32 and TOTP (RFC 6238) of
    src/cloudflare-control/src/two_factor.ts.

    The base 32 loops keep every bit they have read in one number that the
    32-bit operators of the language wrap around; what is proved is that they
    read only bits that are still there. HMAC-SHA1 is an interface. *)
From S2P Require Import Prelude Int32 JsString Regex Platform Auth Cbor WebAuthn.

(** ** Base 32 *)

Definition BASE32 : string := "ABCDEFGHIJKLMNOPQRSTUVWXYZ234567".
Definition base32_char (n : Z) : ascii := default " "%char (String.get (Z.to_nat n) BASE32).
Definition base32_index (c : ascii) : Z := indexOf c BASE32.

(** The loop variables of both directions. *)
Record Bits : Type := mkBits { b_bits : Z; b_value : Z; b_out : list Z }.

(** [while (bits >= 5)]: at most two rounds, since at most 12 bits are held. *)
Fixpoint emit5 (fuel : nat) (b : Bits) : Bits :=
  match fuel with
  | O => b
  | S f => if 5 <=? b_bits b then emit5 f (mkBits (b_bits b - 5) (b_value b) (b_out b ++ [js_and (js_ushr (b_value b) (b_bits b - 5)) 31])) else b
  end.

Definition encode_byte (b : Bits) (byte : Z) : Bits := emit5 2 (mkBits (b_bits b + 8) (js_or (js_shl (b_value b) 8) byte) (b_out b)).

(** The indices of the characters written. *)
Definition base32_indices (bytes : list Z) : list Z :=
  let b := foldl encode_byte (mkBits 0 0 []) bytes in
  if 0 <? b_bits b then b_out b ++ [js_and (js_shl (b_value b) (5 - b_bits b)) 31] else b_out b.

Definition base32Encode (bytes : list Z) : string := String.string_of_list_ascii (List.map base32_char (base32_indices bytes)).

(** [toUpperCase] as far as it matters: a sharp s becomes two letters of the
    alphabet, no other character outside ASCII becomes one. *)
Definition upper_char (c : ascii) : list ascii :=
  if is_lower c then [chr (code c - 32)] else if code c =? 223 then ["S"%char; "S"%char] else [c].

Definition clean_base32 (text : string) : list ascii :=
  List.filter (fun c => negb (is_space c || is_char "=" c || is_char "-" c)) (mjoin (List.map upper_char (String.list_ascii_of_string text))).

Definition decode_index (b : Bits) (index : Z) : Bits :=
  let value := js_or (js_shl (b_value b) 5) index in
  let bits := b_bits b + 5 in
  if 8 <=? bits then mkBits (bits - 8) value (b_out b ++ [js_and (js_ushr value (bits - 8)) 0xff]) else mkBits bits value (b_out b).

Definition base32Decode (text : string) : js_result (list Z) :=
  indices ← result_map (fun c => _ ← throw_if (base32_index c <? 0) "Not a base32 secret"; Returns (base32_index c)) (clean_base32 text);
  Returns (b_out (foldl decode_index (mkBits 0 0 []) indices)).

(** ** Codes *)

Class HmacSha1 : Type := { hmacSha1 : list Z -> list Z -> list Z }.

Definition TOTP_STEP_SECONDS : Z := 30.

(** [String(n).padStart(6, "0")]. *)
Definition pad6 (n : Z) : string :=
  let s := string_of_int n in String.string_of_list_ascii (replicate (6 - String.length s) "0"%char) +:+ s.

(** [for (i = 7; i >= 0; i--)]: the last byte first. *)
Fixpoint counter_bytes (n : nat) (rest : Z) (acc : list Z) : list Z :=
  match n with O => acc | S n' => counter_bytes n' (rest `div` 256) (Z.land rest 0xff :: acc) end.

Definition SIX_DIGITS : re := RRep 6 (RClass is_digit).

Section Totp.
Context `{HmacSha1}.

(** Dynamic truncation; its four bytes make at most 31 bits. *)
Definition truncate (mac : list Z) : Z :=
  let offset := Z.to_nat (Z.land (byte_at mac (length mac - 1)) 0x0f) in
  Z.lor (Z.lor (Z.lor (Z.shiftl (Z.land (byte_at mac offset) 0x7f) 24) (Z.shiftl (byte_at mac (offset + 1)) 16))
    (Z.shiftl (byte_at mac (offset + 2)) 8)) (byte_at mac (offset + 3)).

Definition totpCode (secret : list Z) (step : Z) : string := pad6 (truncate (hmacSha1 secret (counter_bytes 8 step [])) `mod` 1000000).

Definition currentTotpStep (at_ms : Z) : Z := at_ms `div` (1000 * TOTP_STEP_SECONDS).

Definition matchTotp (secretBase32 code_ : string) (lastStep at_ms : Z) : js_result (option Z) :=
  if negb (re_test SIX_DIGITS code_) then Returns None
  else
    secret ← base32Decode secretBase32;
    let step := currentTotpStep at_ms in
    Returns (js_find (fun candidate => negb (candidate <=? lastStep) && timingSafeEqual (totpCode secret candidate) code_) [step - 1; step; step + 1]).

End Totp.

(** ** The loops read the bits they should *)


(** The value of digits in base [2 ^ w]. *)
Definition digits_of (w : Z) (l : list Z) : Z := foldl (fun n d => n * 2 ^ w + d) 0 l.

Lemma digits_of_snoc w l d : digits_of w (l ++ [d]) = digits_of w l * 2 ^ w + d.
Proof. unfold digits_of. by rewrite foldl_app. Qed.

Lemma digits_of_bytes l : digits_of 8 l = be_value l.
Proof. done. Qed.

(** What both loops keep: of the number [N] read so far, the output holds all
    but the last [b_bits] bits, in digits of [w] bits, and [b_value] the last 32. *)
Definition holding (w : Z) (N read : Z) (b : Bits) : Prop :=
  uint32 (b_value b) = uint32 N /\ digits_of w (b_out b) = N `div` 2 ^ b_bits b /\ Forall (fun d => 0 <= d < 2 ^ w) (b_out b) /\
  w * Z.of_nat (length (b_out b)) + b_bits b = read.

(** Writing one digit out. *)
Lemma holding_emit w N read b : 0 < w < 32 -> w <= b_bits b <= 32 -> holding w N read b ->
  holding w N read (mkBits (b_bits b - w) (b_value b) (b_out b ++ [js_and (js_ushr (b_value b) (b_bits b - w)) (Z.ones w)])).
Proof.
  intros Hw Hb (Hv & Hd & Hf & Hr). unfold holding. cbn [b_value b_out b_bits]. rewrite (read_bits _ N) by (done || lia).
  assert (Hp : 2 ^ b_bits b = 2 ^ (b_bits b - w) * 2 ^ w) by (rewrite <- Z.pow_add_r by lia; f_equal; lia).
  assert (0 < 2 ^ w /\ 0 < 2 ^ (b_bits b - w)) as [? ?] by lia.
  split_and!; [done| | |rewrite length_app; cbn [length]; lia].
  - rewrite digits_of_snoc, Hd, Hp, <- Z.div_div by lia. rewrite (Z.mul_comm _ (2 ^ w)). symmetry. apply Z.div_mod. lia.
  - apply Forall_app. split; [done|]. constructor; [|constructor]. apply Z.mod_pos_bound. lia.
Qed.

(** Reading [k] bits more. *)
Lemma holding_read w N read b k d : 0 <= k < 32 -> 0 <= d < 2 ^ k -> 0 <= b_bits b -> holding w N read b ->
  holding w (N * 2 ^ k + d) (read + k) (mkBits (b_bits b + k) (js_or (js_shl (b_value b) k) d) (b_out b)).
Proof.
  intros Hk Hd Hb (Hv & Hdg & Hf & Hr). unfold holding. cbn [b_value b_out b_bits]. split_and!; [by apply append_bits| |done|lia].
  rewrite Hdg. replace (b_bits b + k) with (k + b_bits b) by lia. rewrite Z.pow_add_r, <- Z.div_div by lia.
  by rewrite Z.div_add_l, (Z.div_small d), Z.add_0_r by lia.
Qed.

Lemma encode_byte_holding N read b byte : 0 <= b_bits b < 5 -> is_byte byte -> holding 5 N read b ->
  holding 5 (N * 256 + byte) (read + 8) (encode_byte b byte) /\ 0 <= b_bits (encode_byte b byte) < 5.
Proof.
  intros Hb Hbyte Hh. unfold is_byte in Hbyte. apply (holding_read 5 N read b 8 byte) in Hh; [|lia..]. unfold encode_byte. set (b1 := mkBits _ _ _) in *.
  assert (Hb1 : b_bits b1 = b_bits b + 8) by done. clearbody b1. change (2 ^ 8) with 256 in Hh.
  cbn [emit5]. rewrite (proj2 (Z.leb_le 5 (b_bits b1))) by lia. apply (holding_emit 5) in Hh; [|lia..]. change (Z.ones 5) with 31 in Hh.
  set (b2 := mkBits _ _ _) in *. assert (Hb2 : b_bits b2 = b_bits b1 - 5) by done. clearbody b2. destruct (Z.leb_spec 5 (b_bits b2)) as [H5|H5].
  - apply (holding_emit 5) in Hh; [|lia..]. change (Z.ones 5) with 31 in Hh. cbn [b_bits]. split; [done|lia].
  - split; [done|lia].
Qed.

Lemma encode_holding bytes : Forall is_byte bytes -> forall N read b, 0 <= b_bits b < 5 -> holding 5 N read b ->
  holding 5 (foldl (fun n x => n * 256 + x) N bytes) (read + 8 * Z.of_nat (length bytes)) (foldl encode_byte b bytes) /\
  0 <= b_bits (foldl encode_byte b bytes) < 5.
Proof.
  induction 1 as [|x bytes Hx Hbytes IH]; intros N read b Hb Hh; cbn [foldl length].
  - replace (read + 8 * Z.of_nat 0) with read by lia. done.
  - destruct (encode_byte_holding _ _ _ _ Hb Hx Hh) as [Hh' Hb']. destruct (IH _ _ _ Hb' Hh') as [Hh'' Hb'']. split; [|done].
    by replace (read + 8 * Z.of_nat (S (length bytes))) with (read + 8 + 8 * Z.of_nat (length bytes)) by lia.
Qed.

Lemma holding_start w : holding w 0 0 (mkBits 0 0 []).
Proof. unfold holding. cbn [b_value b_out b_bits length]. split_and!; [done|done|constructor|lia]. Qed.

(** All bits of the bytes, and up to four zeros after them. *)
Lemma base32_indices_spec bytes : Forall is_byte bytes -> exists pad, 0 <= pad < 5 /\
  digits_of 5 (base32_indices bytes) = be_value bytes * 2 ^ pad /\ Forall (fun d => 0 <= d < 32) (base32_indices bytes) /\
  5 * Z.of_nat (length (base32_indices bytes)) = 8 * Z.of_nat (length bytes) + pad.
Proof.
  intros Hb. destruct (encode_holding bytes Hb 0 0 (mkBits 0 0 []) ltac:(cbn; lia) (holding_start 5)) as [(Hv & Hd & Hf & Hr) Hbits].
  unfold base32_indices. set (b := foldl encode_byte _ bytes) in *. fold (be_value bytes) in *. destruct (Z.ltb_spec 0 (b_bits b)) as [H0|H0].
  - exists (5 - b_bits b). assert (Hlast : js_and (js_shl (b_value b) (5 - b_bits b)) 31 = (be_value bytes * 2 ^ (5 - b_bits b)) `mod` 2 ^ 5).
    { change 31 with (Z.ones 5). unfold js_and. assert (int32 (Z.ones 5) = Z.ones 5) as -> by done.
      rewrite Z.land_ones by lia. apply Z.bits_inj_iff'. intros n Hn. destruct (Z.lt_ge_cases n 5) as [Hlt|Hge]; [|by rewrite !Z.mod_pow2_bits_high by lia].
      rewrite !Z.mod_pow2_bits_low by lia. unfold js_shl. rewrite land_31 by lia.
      rewrite (uint32_testbit (int32 (int32 _)) (Z.shiftl (b_value b) (5 - b_bits b))) by (rewrite ?int32_uint32; (done || lia)).
      rewrite Z.mul_pow2_bits, Z.shiftl_spec by lia.
      destruct (Z.lt_ge_cases n (5 - b_bits b)); [by rewrite !Z.testbit_neg_r by lia|]. apply uint32_testbit; [done|lia]. }
    rewrite Hlast, digits_of_snoc, Hd, length_app. cbn [length]. split_and!; [lia|lia| | |lia].
    + assert (Hp : 2 ^ 5 = 2 ^ b_bits b * 2 ^ (5 - b_bits b)) by (rewrite <- Z.pow_add_r by lia; f_equal; lia).
      rewrite Hp at 2. rewrite Z.mul_mod_distr_r by lia. rewrite (Z.div_mod (be_value bytes) (2 ^ b_bits b)) at 3 by lia. rewrite Hp. ring.
    + apply Forall_app. split; [done|]. constructor; [|constructor]. change 32 with (2 ^ 5). apply Z.mod_pos_bound. lia.
  - assert (Hz : b_bits b = 0) by lia. exists 0. rewrite Hz in *. rewrite Z.pow_0_r, Z.div_1_r in Hd. rewrite Hd. split_and!; [lia|lia|lia|done|lia].
Qed.

Lemma decode_index_holding N read b d : 0 <= b_bits b < 8 -> 0 <= d < 32 -> holding 8 N read b ->
  holding 8 (N * 32 + d) (read + 5) (decode_index b d) /\ 0 <= b_bits (decode_index b d) < 8.
Proof.
  intros Hb Hd Hh. apply (holding_read 8 N read b 5 d) in Hh; [|lia..]. unfold decode_index. set (b1 := mkBits _ _ _) in *.
  assert (Hb1 : b_bits b1 = b_bits b + 5) by done. change (js_or _ d) with (b_value b1). change (b_out b) with (b_out b1). rewrite <- Hb1.
  change (2 ^ 5) with 32 in Hh. destruct (Z.leb_spec 8 (b_bits b1)) as [H8|H8].
  - apply (holding_emit 8) in Hh; [|lia..]. change (Z.ones 8) with 0xff in Hh. cbn [b_bits]. split; [done|lia].
  - destruct b1. cbn [b_bits b_value b_out] in *. split; [done|lia].
Qed.

Lemma decode_holding l : Forall (fun d => 0 <= d < 32) l -> forall N read b, 0 <= b_bits b < 8 -> holding 8 N read b ->
  holding 8 (foldl (fun n d => n * 32 + d) N l) (read + 5 * Z.of_nat (length l)) (foldl decode_index b l) /\ 0 <= b_bits (foldl decode_index b l) < 8.
Proof.
  induction 1 as [|d l Hd Hl IH]; intros N read b Hb Hh; cbn [foldl length].
  - replace (read + 5 * Z.of_nat 0) with read by lia. done.
  - destruct (decode_index_holding _ _ _ _ Hb Hd Hh) as [Hh' Hb']. destruct (IH _ _ _ Hb' Hh') as [Hh'' Hb'']. split; [|done].
    by replace (read + 5 * Z.of_nat (S (length l))) with (read + 5 + 5 * Z.of_nat (length l)) by lia.
Qed.

(** Decoding the indices gives the bytes back: as many, of the same value. *)
Lemma decode_indices bytes : Forall is_byte bytes -> b_out (foldl decode_index (mkBits 0 0 []) (base32_indices bytes)) = bytes.
Proof.
  intros Hb. destruct (base32_indices_spec bytes Hb) as (pad & Hpad & Hd & Hf & Hlen).
  destruct (decode_holding _ Hf 0 0 (mkBits 0 0 []) ltac:(cbn; lia) (holding_start 8)) as [(_ & Ho & Hob & Hr) Hbits].
  set (b := foldl decode_index _ _) in *. change (foldl (fun n d => n * 32 + d) 0 (base32_indices bytes)) with (digits_of 5 (base32_indices bytes)) in Ho. rewrite digits_of_bytes, Hd in Ho.
  assert (b_bits b = pad /\ length (b_out b) = length bytes) as [Hp Hl] by lia. rewrite Hp, Z.div_mul in Ho by lia.
  apply be_value_inj; done.
Qed.

Lemma base32_index_char n : 0 <= n < 32 ->
  base32_index (base32_char n) = n /\ upper_char (base32_char n) = [base32_char n] /\
  is_space (base32_char n) || is_char "=" (base32_char n) || is_char "-" (base32_char n) = false.
Proof.
  intros Hn. assert (Hall : forallb (fun n => (base32_index (base32_char n) =? n) && bool_decide (upper_char (base32_char n) = [base32_char n]) &&
    negb (is_space (base32_char n) || is_char "=" (base32_char n) || is_char "-" (base32_char n))) (List.map Z.of_nat (List.seq 0 32)) = true) by (vm_compute; reflexivity).
  rewrite forallb_forall in Hall. assert (Hin : In n (List.map Z.of_nat (List.seq 0 32))).
  { apply in_map_iff. exists (Z.to_nat n). rewrite in_seq. lia. }
  apply Hall in Hin. bool_to_prop. split_and!; [done..|]. by rewrite H0, H3, H2.
Qed.

Lemma clean_encoded l : Forall (fun d => 0 <= d < 32) l -> clean_base32 (String.string_of_list_ascii (List.map base32_char l)) = List.map base32_char l.
Proof.
  intros Hl. unfold clean_base32. rewrite String.list_ascii_of_string_of_list_ascii. induction Hl as [|d l Hd Hl IH]; [done|].
  destruct (base32_index_char d Hd) as (_ & Hu & Hk). cbn [List.map mjoin list_join]. rewrite Hu. cbn [app List.filter]. rewrite Hk. cbn [negb]. f_equal. exact IH.
Qed.

(** Secrets round trip: what base32Encode writes, of any bytes, base32Decode
    reads back, although both loops keep every bit they have seen in one number
    that the 32-bit operators wrap around. *)
Theorem base32_roundtrip bytes : Forall is_byte bytes -> base32Decode (base32Encode bytes) = Returns bytes.
Proof.
  intros Hb. destruct (base32_indices_spec bytes Hb) as (pad & _ & _ & Hf & _). unfold base32Decode, base32Encode. rewrite clean_encoded by done.
  rewrite (proj2 (result_map_returns _ _ (base32_indices bytes))).
  - cbn [mbind js_result_bind]. by rewrite decode_indices.
  - apply Forall2_fmap_l. apply Forall_Forall2_diag. revert Hf. apply Forall_impl. intros d Hd. unfold compose.
    destruct (base32_index_char d Hd) as (-> & _ & _). by rewrite (proj2 (Z.ltb_ge _ _)) by lia.
Qed.

Lemma base32_roundtrip_witness : base32Encode [255; 0; 17; 128; 99; 7] = "74ABDADDA4"%string /\ base32Decode (base32Encode [255; 0; 17; 128; 99; 7]) = Returns [255; 0; 17; 128; 99; 7].
Proof. split; [vm_compute; reflexivity|]. apply base32_roundtrip. repeat (constructor; [unfold is_byte; lia|]). constructor. Defined.
