(* ===== verification/TwoFactor.v ===== *)
(** Two-factor sign-in: src/cloudflare-control/src/two_factor.ts.

    [AccountDb] is the database of Db.v with the tables of accounts beside it.
    A handler is one function from the database to the database and the answer;
    a statement whose condition decides a race is a function of its own
    ([update_rows] and the like return whether a row changed), and the functions
    that run between a read and such a statement take the row read as an
    argument, so that theorems can interleave requests. A handler that throws
    keeps what it wrote.

    Requests, random bytes, whether an e-mail could be sent and the clock are
    arguments; a handler reads the clock once here. Fields of a JSON body are
    given as the source coerces them. Recovery codes and public keys are stored
    as JSON texts: the model keeps the values, which are equal when the texts are. *)
From S2P Require Import Prelude Int32 JsString Regex Platform Escape Db Auth Throttle Sessions Handoff Cbor WebAuthn Totp.

Definition CHALLENGE_SECONDS : Z := 10 * 60.
Definition CHALLENGE_ATTEMPTS : Z := 5.
Definition EMAIL_CODES_PER_CHALLENGE : Z := 3.
Definition EMAIL_CODE_GAP_SECONDS : Z := 60.
Definition TRUST_SECONDS : Z := 30 * 24 * 3600.
Definition RECOVERY_CODE_COUNT : nat := 10.
Definition RECOVERY_ALPHABET : string := "23456789abcdefghjkmnpqrstuvwxyz".
Definition MAX_PASSKEYS : Z := 10.
Definition PASSKEY_REGISTRATION_SECONDS : Z := 5 * 60.

(** ** Tables *)

Record User : Type := mkUser {
  u_id : string;
  u_email : string;
  u_password_hash : string;
  u_salt : string;
  u_role : UserRole;
  u_name : string;
  u_two_factor_email : Z
}.

Record TwoFactorRow : Type := mkTwoFactor {
  tf_user_id : string;
  tf_totp_secret : string;
  tf_enabled_at : option Z;
  tf_last_totp_step : Z;
  tf_recovery_codes : list string;
  tf_created_at : Z
}.

Record ChallengeRow : Type := mkChallenge {
  ch_token_hash : string;
  ch_user_id : string;
  ch_tenant_id : option string;
  ch_role : UserRole;
  ch_redirect : string;
  ch_attempts : Z;
  ch_email_code_hash : option string;
  ch_email_codes_sent : Z;
  ch_email_code_sent_at : option Z;
  ch_expires_at : Z;
  ch_passkey_challenge : option string
}.

Record PasskeyRow : Type := mkPasskey {
  pk_id : string;
  pk_user_id : string;
  pk_rp_id : string;
  pk_public_key : JsonWebKey;
  pk_algorithm : Z;
  pk_sign_count : Z;
  pk_name : string;
  pk_created_at : Z;
  pk_last_used_at : option Z
}.

Record RegistrationRow : Type := mkRegistration { rr_user_id : string; rr_challenge : string; rr_rp_id : string; rr_expires_at : Z }.

Record BrowserRow : Type := mkBrowser {
  br_user_id : string;
  br_token_hash : string;
  br_trusted_until : option Z;
  br_user_agent : string;
  br_created_at : Z;
  br_last_seen_at : Z
}.

Record AccountDb : Type := mkAccounts {
  core : D1Database;
  users : list User;
  user_two_factor : list TwoFactorRow;
  login_challenges : list ChallengeRow;
  user_passkeys : list PasskeyRow;
  passkey_registrations : list RegistrationRow;
  user_devices : list BrowserRow;
  audit_log : list AuditRow
}.

Definition on_core (f : D1Database -> D1Database) (db : AccountDb) : AccountDb :=
  mkAccounts (f (core db)) (users db) (user_two_factor db) (login_challenges db) (user_passkeys db) (passkey_registrations db) (user_devices db) (audit_log db).
Definition on_users (f : list User -> list User) (db : AccountDb) : AccountDb :=
  mkAccounts (core db) (f (users db)) (user_two_factor db) (login_challenges db) (user_passkeys db) (passkey_registrations db) (user_devices db) (audit_log db).
Definition on_two_factor (f : list TwoFactorRow -> list TwoFactorRow) (db : AccountDb) : AccountDb :=
  mkAccounts (core db) (users db) (f (user_two_factor db)) (login_challenges db) (user_passkeys db) (passkey_registrations db) (user_devices db) (audit_log db).
Definition on_challenges (f : list ChallengeRow -> list ChallengeRow) (db : AccountDb) : AccountDb :=
  mkAccounts (core db) (users db) (user_two_factor db) (f (login_challenges db)) (user_passkeys db) (passkey_registrations db) (user_devices db) (audit_log db).
Definition on_passkeys (f : list PasskeyRow -> list PasskeyRow) (db : AccountDb) : AccountDb :=
  mkAccounts (core db) (users db) (user_two_factor db) (login_challenges db) (f (user_passkeys db)) (passkey_registrations db) (user_devices db) (audit_log db).
Definition on_registrations (f : list RegistrationRow -> list RegistrationRow) (db : AccountDb) : AccountDb :=
  mkAccounts (core db) (users db) (user_two_factor db) (login_challenges db) (user_passkeys db) (f (passkey_registrations db)) (user_devices db) (audit_log db).
Definition on_browsers (f : list BrowserRow -> list BrowserRow) (db : AccountDb) : AccountDb :=
  mkAccounts (core db) (users db) (user_two_factor db) (login_challenges db) (user_passkeys db) (passkey_registrations db) (f (user_devices db)) (audit_log db).

(** The entry is recorded, through the queue where there is one; an entry that
    cannot be recorded is only logged, and nothing below reads the log. *)
Definition writeAuditLog (entry : AuditRow) (db : AccountDb) : AccountDb :=
  mkAccounts (core db) (users db) (user_two_factor db) (login_challenges db) (user_passkeys db) (passkey_registrations db) (user_devices db) (audit_log db ++ [entry]).

(** [UPDATE ... SET f WHERE p]; the rows changed are those [existsb p] asks about. *)
Definition update_rows {A} (p : A -> bool) (f : A -> A) (l : list A) : list A := List.map (fun r => if p r then f r else r) l.

Definition findUserById (db : AccountDb) (id : string) : option User := js_find (fun u => String.eqb (u_id u) id) (users db).

(** ** What an account is asked for *)

(** [Boolean(n)] of a nullable number. *)
Definition truthy (n : option Z) : bool := match n with Some z => negb (z =? 0) | None => false end.

Definition findTwoFactor (db : AccountDb) (userId : string) : option TwoFactorRow :=
  js_find (fun r => String.eqb (tf_user_id r) userId) (user_two_factor db).

Definition hasTwoFactor (db : AccountDb) (userId : string) : bool :=
  match findTwoFactor db userId with Some r => truthy (tf_enabled_at r) | None => false end.

Definition passkeysFor (db : AccountDb) (userId rpId : string) : list PasskeyRow :=
  js_sort (fun a b => pk_created_at a - pk_created_at b)
    (List.filter (fun p => String.eqb (pk_user_id p) userId && String.eqb (pk_rp_id p) rpId) (user_passkeys db)).

Definition isAdministratorAccount (db : AccountDb) (userId : string) (r : UserRole) : bool :=
  match r with
  | super_admin => true
  | org_admin =>
      existsb (fun t => String.eqb (t_user_id t) userId) (tenants (core db)) ||
      existsb (fun m => String.eqb (tu_user_id m) userId && match tu_role m with tu_org_admin => true | _ => false end) (tenant_users (core db))
  end.

Record FactorState : Type := mkFactors {
  fs_app : option TwoFactorRow;
  fs_passkeys : list PasskeyRow;
  fs_email : bool;
  fs_required : bool
}.

Definition factorState (db : AccountDb) (user : User) (rpId : string) : FactorState :=
  let row := findTwoFactor db (u_id user) in
  let required := isAdministratorAccount db (u_id user) (u_role user) in
  mkFactors (match row with Some r => if truthy (tf_enabled_at r) then Some r else None | None => None end)
    (passkeysFor db (u_id user) rpId) (required || negb (u_two_factor_email user =? 0)) required.

Definition hasSecondFactor (state : FactorState) : bool :=
  is_Some_b (fs_app state) || negb (length (fs_passkeys state) =? 0)%nat || fs_email state.

(** ** Codes *)

Inductive Method : Type := by_password | by_totp | by_email | by_recovery | by_passkey.

#[export] Instance Method_eq_dec : EqDecision Method.
Proof. solve_decision. Defined.

Definition method_text (m : Method) : string :=
  match m with by_password => "password" | by_totp => "totp" | by_email => "email" | by_recovery => "recovery" | by_passkey => "passkey" end.

Definition is_code_char (c : ascii) : bool := is_lower c || is_digit c.
Definition normalizeRecoveryCode (input : string) : string := str_filter is_code_char (toLowerCase input).

(** [draws]: ten numbers [uniformBelow] drew. *)
Definition newRecoveryCode (draws : list nat) : string :=
  let chars := String.string_of_list_ascii (List.map (fun i => default " "%char (String.get i RECOVERY_ALPHABET)) draws) in
  str_take 5 chars +:+ "-" +:+ str_drop 5 chars.

Fixpoint remove_first {A} (p : A -> bool) (l : list A) : option (list A) :=
  match l with
  | [] => None
  | x :: l' => if p x then Some l' else option_map (cons x) (remove_first p l')
  end.

Section TwoFactor.
Context `{WebCrypto} `{HmacSha1} `{TextDecoder} `{PasskeyCrypto} `{Sealing} `{UrlParser}.

Definition recovery_hash (normalized : string) : string := sha256Hex ("recovery:" +:+ normalized).

(** oneTimeCodeHash (auth.ts). *)
Definition oneTimeCodeHash (pepper message : string) : string := bufferToHex (hmacSha256 pepper (encode_utf8 ("code:" +:+ message))).

(** [row]: the account's row as the request read it. The update is made only if
    the column still has the value read. *)
Definition checkAccountCode (db : AccountDb) (row : TwoFactorRow) (input : string) (nowMs : Z) : AccountDb * js_result (option Method) :=
  let code_ := str_filter (fun c => negb (is_space c)) input in
  if re_test SIX_DIGITS code_ then
    match matchTotp (tf_totp_secret row) code_ (tf_last_totp_step row) nowMs with
    | Throws e => (db, Throws e)
    | Returns None => (db, Returns None)
    | Returns (Some step) =>
        let unmoved r := String.eqb (tf_user_id r) (tf_user_id row) && (tf_last_totp_step r =? tf_last_totp_step row) in
        (on_two_factor (update_rows unmoved (fun r =>
           mkTwoFactor (tf_user_id r) (tf_totp_secret r) (tf_enabled_at r) step (tf_recovery_codes r) (tf_created_at r))) db,
         Returns (if existsb unmoved (user_two_factor db) then Some by_totp else None))
    end
  else
    let normalized := normalizeRecoveryCode code_ in
    if negb (String.length normalized =? 10)%nat then (db, Returns None)
    else
      match remove_first (fun h => timingSafeEqual h (recovery_hash normalized)) (tf_recovery_codes row) with
      | None => (db, Returns None)
      | Some remaining =>
          let unspent r := String.eqb (tf_user_id r) (tf_user_id row) && bool_decide (tf_recovery_codes r = tf_recovery_codes row) in
          (on_two_factor (update_rows unspent (fun r =>
             mkTwoFactor (tf_user_id r) (tf_totp_secret r) (tf_enabled_at r) (tf_last_totp_step r) remaining (tf_created_at r))) db,
           Returns (if existsb unspent (user_two_factor db) then Some by_recovery else None))
      end.

Definition purgeExpiredLoginChallenges (db : AccountDb) (now : Z) : AccountDb :=
  on_registrations (List.filter (fun r => negb (rr_expires_at r <? now)))
    (on_challenges (List.filter (fun c => negb (ch_expires_at c <? now))) db).

Definition untrust (userId : string) : list BrowserRow -> list BrowserRow :=
  update_rows (fun r => String.eqb (br_user_id r) userId)
    (fun r => mkBrowser (br_user_id r) (br_token_hash r) None (br_user_agent r) (br_created_at r) (br_last_seen_at r)).

Definition revokeTrustedBrowsers (db : AccountDb) (userId : string) : AccountDb := on_browsers (untrust userId) db.

(** ** Requests and answers *)

(** What the handlers read of a request: its URL and Host header, its
    User-Agent, and the labkiosk_device cookie. *)
Record Request : Type := mkRequest { rq_url : URL; rq_host : option string; rq_user_agent : string; rq_device_cookie : option string }.

Record Env : Type := mkEnv { env_pepper : string; env_domain : option string; mailConfigProblem : option string }.

Record SignInTarget : Type := mkTarget { st_userId : string; st_tenantId : option string; st_role : UserRole; st_redirect : string }.

(** Random bytes of a sign-in: its session, a browser it has not seen, the
    nonce of a handoff. *)
Record Draws : Type := mkDraws { dr_token : list Z; dr_device : list Z; dr_iv : list Z }.

Inductive Reply : Type :=
| Refused (status : Z) (message : string)
| Challenged (token : string) (method : string) (passkey app : bool) (sentTo : option string)
| SignedIn (token : string) (seconds : Z) (destination : SignInDestination) (device : string) (alerted : bool)
| PasskeyOptions (challenge : string) (allowed : list string)
| CodeSent (sentTo : string).

Definition rp_of (env : Env) (rq : Request) : RelyingParty :=
  passkeyRelyingParty (env_domain env) (rq_host rq) (url_host (rq_url rq)) (url_protocol (rq_url rq)).

Definition deviceTokenFrom (rq : Request) : option string :=
  match rq_device_cookie rq with Some v => if re_test BARE_HASH v then Some v else None | None => None end.

(** The three bullets of the source are written as dots: they are outside the model's characters. *)
Definition maskEmail (email : string) : string :=
  let at_ := indexOf "@" email in
  if 0 <? at_ then str_take 1 email +:+ "..." +:+ str_drop (Z.to_nat at_) email else "your email address".

(** ** The first step *)

Definition delete_challenge (tokenHash : string) (db : AccountDb) : AccountDb :=
  on_challenges (List.filter (fun c => negb (String.eqb (ch_token_hash c) tokenHash))) db.

(** [code]: drawn below 1,000,000; [sent]: whether sendMail succeeded. *)
Definition sendChallengeCode (env : Env) (db : AccountDb) (tokenHash : string) (code : Z) (sent : bool) (now : Z) : AccountDb * bool :=
  (on_challenges (update_rows (fun c => String.eqb (ch_token_hash c) tokenHash) (fun c =>
     mkChallenge (ch_token_hash c) (ch_user_id c) (ch_tenant_id c) (ch_role c) (ch_redirect c) (ch_attempts c)
       (Some (oneTimeCodeHash (env_pepper env) (tokenHash +:+ ":" +:+ pad6 code))) (ch_email_codes_sent c + 1) (Some now)
       (ch_expires_at c) (ch_passkey_challenge c))) db, sent).

(** The browser is remembered; [alerted]: the account has others. *)
Definition remember_browser (db : AccountDb) (userId deviceHash userAgent : string) (trustBrowser : bool) (ts : Z) : AccountDb * bool :=
  let same r := String.eqb (br_user_id r) userId && String.eqb (br_token_hash r) deviceHash in
  let known := existsb same (user_devices db) in
  let anyKnown := known || existsb (fun r => String.eqb (br_user_id r) userId) (user_devices db) in
  let trusted_until := if trustBrowser then Some (ts + TRUST_SECONDS) else None in
  (on_browsers (upsert same
     (fun r => mkBrowser (br_user_id r) (br_token_hash r) (match trusted_until with Some t => Some t | None => br_trusted_until r end)
                 userAgent (br_created_at r) ts)
     (mkBrowser userId deviceHash trusted_until userAgent ts ts)) db, negb known && anyKnown).

Definition completeSignIn (env : Env) (db : AccountDb) (rq : Request) (target : SignInTarget) (method : Method) (trustBrowser : bool)
    (draws : Draws) (now : Z) : AccountDb * js_result Reply :=
  let token := bufferToHex (dr_token draws) in
  let seconds := sessionSecondsFor (st_role target) in
  match createSession (core db) (mkSession token (st_userId target) (st_tenantId target) (st_role target) (now + seconds)) with
  | Throws e => (db, Throws e)
  | Returns core' =>
      let role_text := match st_role target with super_admin => "super_admin" | org_admin => "org_admin" end%string in
      let details := "role=" +:+ role_text +:+ (if bool_decide (method = by_password) then "" else " second_factor=" +:+ method_text method) in
      let db1 := writeAuditLog (mkAudit (or_null (st_tenantId target)) (st_userId target) "auth.login" (Some details)) (on_core (fun _ => core') db) in
      let device := default (bufferToHex (dr_device draws)) (deviceTokenFrom rq) in
      let '(db2, alerted) := remember_browser db1 (st_userId target) (sha256Hex device) (str_take 300 (rq_user_agent rq)) trustBrowser now in
      (db2, destination ← signInDestination (env_domain env) (rq_url rq) (rq_host rq) token (st_redirect target) (env_pepper env) (dr_iv draws) now;
            Returns (SignedIn token seconds destination device (alerted && negb (is_Some_b (mailConfigProblem env)))))
  end.

Definition trusted_browser (db : AccountDb) (userId : string) (device : option string) (now : Z) : bool :=
  match device with
  | Some d => existsb (fun r => String.eqb (br_user_id r) userId && String.eqb (br_token_hash r) (sha256Hex d) &&
                match br_trusted_until r with Some t => now <? t | None => false end) (user_devices db)
  | None => false
  end.

(** A challenge instead of a session. [random]: the 32 bytes of its token. *)
Definition issue_challenge (env : Env) (db : AccountDb) (user : User) (state : FactorState) (target : SignInTarget)
    (random : list Z) (code : Z) (sent : bool) (now : Z) : AccountDb * js_result Reply :=
  let token := bufferToHex random in
  let tokenHash := sha256Hex token in
  if existsb (fun c => String.eqb (ch_token_hash c) tokenHash) (login_challenges db) then
    (db, Throws "D1_ERROR: UNIQUE constraint failed: login_challenges.token_hash")
  else
    let db1 := on_challenges (fun l => l ++ [mkChallenge tokenHash (st_userId target) (st_tenantId target) (st_role target) (st_redirect target)
                 0 None 0 None (now + CHALLENGE_SECONDS) None]) db in
    let some_passkey := negb (length (fs_passkeys state) =? 0)%nat in
    let byEmail := negb (is_Some_b (fs_app state)) && negb some_passkey in
    let reply := Challenged token (if some_passkey then "passkey" else if is_Some_b (fs_app state) then "app" else "email")
                   some_passkey (is_Some_b (fs_app state)) (if byEmail then Some (maskEmail (u_email user)) else None) in
    if byEmail then
      let '(db2, ok) := sendChallengeCode env db1 tokenHash code sent now in
      if ok then (db2, Returns reply)
      else (delete_challenge tokenHash db2, Returns (Refused 502 "The sign-in code could not be emailed. Try again in a moment."))
    else (db1, Returns reply).

Definition continueSignIn (env : Env) (db : AccountDb) (rq : Request) (target : SignInTarget) (random : list Z) (code : Z) (sent : bool)
    (draws : Draws) (now : Z) : AccountDb * js_result Reply :=
  let finish := completeSignIn env db rq target by_password false draws now in
  match findUserById db (st_userId target) with
  | None => finish
  | Some user =>
      let state := factorState db user (rp_rpId (rp_of env rq)) in
      if negb (is_Some_b (fs_app state)) && (length (fs_passkeys state) =? 0)%nat && fs_email state && is_Some_b (mailConfigProblem env) then finish
      else if hasSecondFactor state && negb (trusted_browser db (st_userId target) (deviceTokenFrom rq) now) then
        issue_challenge env db user state target random code sent now
      else finish
  end.

(** ** The second step *)

Definition EXPIRED_SIGN_IN : string := "This sign-in has expired. Enter your password again.".

(** [Math.ceil(seconds / 60)]. *)
Definition minutes (seconds : Z) : string := string_of_int ((seconds + 59) `div` 60).

Definition findChallenge (db : AccountDb) (token : string) (now : Z) : option ChallengeRow :=
  if re_test BARE_HASH token then
    match js_find (fun c => String.eqb (ch_token_hash c) (sha256Hex token)) (login_challenges db) with
    | Some row => if ch_expires_at row <? now then None else Some row
    | None => None
    end
  else None.

Definition set_passkey_challenge (value : option string) (c : ChallengeRow) : ChallengeRow :=
  mkChallenge (ch_token_hash c) (ch_user_id c) (ch_tenant_id c) (ch_role c) (ch_redirect c) (ch_attempts c) (ch_email_code_hash c)
    (ch_email_codes_sent c) (ch_email_code_sent_at c) (ch_expires_at c) value.

Definition handleLoginPasskeyOptions (env : Env) (db : AccountDb) (rq : Request) (token : string) (random : list Z) (now : Z) : AccountDb * Reply :=
  match findChallenge db token now with
  | None => (db, Refused 401 EXPIRED_SIGN_IN)
  | Some challenge =>
      let passkeys := passkeysFor db (ch_user_id challenge) (rp_rpId (rp_of env rq)) in
      if (length passkeys =? 0)%nat then (db, Refused 409 "This account has no passkey for this site. Use a code instead.")
      else
        let passkeyChallenge := newPasskeyChallenge random in
        (on_challenges (update_rows (fun c => String.eqb (ch_token_hash c) (ch_token_hash challenge)) (set_passkey_challenge (Some passkeyChallenge))) db,
         PasskeyOptions passkeyChallenge (List.map pk_id passkeys))
  end.

Definition RESTART_PASSKEY : string := "Start the passkey sign-in again.".

(** [challenge] and [state]: as the request read them. [None] is success. *)
Definition checkPasskeyAnswer (db : AccountDb) (rp : RelyingParty) (challenge : ChallengeRow) (state : FactorState) (answer : jsval) (now : Z) :
    AccountDb * option string :=
  match or_null (ch_passkey_challenge challenge) with
  | None => (db, Some RESTART_PASSKEY)
  | Some expected =>
      let unspent c := String.eqb (ch_token_hash c) (ch_token_hash challenge) && bool_decide (ch_passkey_challenge c = Some expected) in
      let db1 := on_challenges (update_rows unspent (set_passkey_challenge None)) db in
      if negb (existsb unspent (login_challenges db)) then (db1, Some RESTART_PASSKEY)
      else
        match js_find (fun p => is_text (js_get answer "id") (pk_id p)) (fs_passkeys state) with
        | None => (db1, Some "That passkey is not registered to this account for this site."%string)
        | Some stored =>
            match verifyPasskeyAssertion answer rp expected (mkStoredKey (pk_algorithm stored) (pk_public_key stored)) (pk_sign_count stored) with
            | Throws e => (db1, Some e)
            | Returns signCount =>
                let unmoved p := String.eqb (pk_id p) (pk_id stored) && String.eqb (pk_user_id p) (pk_user_id stored) && (pk_sign_count p =? pk_sign_count stored) in
                (on_passkeys (update_rows unmoved (fun p =>
                   mkPasskey (pk_id p) (pk_user_id p) (pk_rp_id p) (pk_public_key p) (pk_algorithm p) signCount (pk_name p) (pk_created_at p) (Some now))) db1,
                 if existsb unmoved (user_passkeys db) then None else Some "That passkey was just used. Try again."%string)
            end
        end
  end.

(** What the second step is answered with. *)
Inductive Answer : Type :=
| ByPasskey (answer : jsval)
| ByCode (code : string).

(** Whether the answer proves the account, and how; otherwise why not. *)
Definition check_answer (env : Env) (db : AccountDb) (rp : RelyingParty) (challenge : ChallengeRow) (state : FactorState) (answer : Answer) (nowMs : Z) :
    AccountDb * js_result (Method + string) :=
  let wrong : Method + string := inr "That code is not right. Check it and try again."%string in
  match answer with
  | ByPasskey a =>
      let '(db1, failure) := checkPasskeyAnswer db rp challenge state a (nowMs `div` 1000) in
      (db1, Returns (match failure with None => inl by_passkey | Some f => inr f end))
  | ByCode raw =>
      let code_ := str_take 40 (trim raw) in
      let emailed := re_test SIX_DIGITS code_ &&
        match or_null (ch_email_code_hash challenge) with
        | Some h => timingSafeEqual (oneTimeCodeHash (env_pepper env) (ch_token_hash challenge +:+ ":" +:+ code_)) h
        | None => false
        end in
      if emailed then (db, Returns (inl by_email))
      else
        match fs_app state with
        | Some row =>
            if String.eqb code_ "" then (db, Returns wrong)
            else
              let '(db1, m) := checkAccountCode db row code_ nowMs in
              (db1, match m with Returns (Some m') => Returns (inl m') | Returns None => Returns wrong | Throws e => Throws e end)
        | None => (db, Returns wrong)
        end
  end.

Definition set_attempts (attempts : Z) (c : ChallengeRow) : ChallengeRow :=
  mkChallenge (ch_token_hash c) (ch_user_id c) (ch_tenant_id c) (ch_role c) (ch_redirect c) attempts (ch_email_code_hash c)
    (ch_email_codes_sent c) (ch_email_code_sent_at c) (ch_expires_at c) (ch_passkey_challenge c).

(** A wrong answer: counted against the account and the challenge. *)
Definition wrong_answer (db : AccountDb) (user : User) (challenge : ChallengeRow) (failure : string) (now : Z) : AccountDb * Reply :=
  let db1 := on_core (fun c => recordLoginFailure c (u_email user) now) db in
  let attempts := ch_attempts challenge + 1 in
  if CHALLENGE_ATTEMPTS <=? attempts then (delete_challenge (ch_token_hash challenge) db1, Refused 401 "Too many wrong codes. Enter your password again.")
  else (on_challenges (update_rows (fun c => String.eqb (ch_token_hash c) (ch_token_hash challenge)) (set_attempts attempts)) db1, Refused 400 failure).

(** A right one: the delete decides a race between two of them. *)
Definition right_answer (env : Env) (db : AccountDb) (rq : Request) (user : User) (challenge : ChallengeRow) (method : Method) (trustBrowser : bool)
    (draws : Draws) (now : Z) : AccountDb * js_result Reply :=
  let consumed := existsb (fun c => String.eqb (ch_token_hash c) (ch_token_hash challenge)) (login_challenges db) in
  let db1 := delete_challenge (ch_token_hash challenge) db in
  if negb consumed then (db1, Returns (Refused 401 EXPIRED_SIGN_IN))
  else
    completeSignIn env (on_core (fun c => clearLoginFailures c (u_email user)) db1) rq
      (mkTarget (ch_user_id challenge) (ch_tenant_id challenge) (ch_role challenge) (ch_redirect challenge)) method trustBrowser draws now.

(** From the challenge, the account and its factors, as read, to the answer. *)
Definition verify_answer (env : Env) (db : AccountDb) (rq : Request) (user : User) (challenge : ChallengeRow) (state : FactorState) (answer : Answer)
    (trustBrowser : bool) (draws : Draws) (nowMs : Z) : AccountDb * js_result Reply :=
  let '(db1, checked) := check_answer env db (rp_of env rq) challenge state answer nowMs in
  match checked with
  | Throws e => (db1, Throws e)
  | Returns (inr failure) => let '(db2, r) := wrong_answer db1 user challenge failure (nowMs `div` 1000) in (db2, Returns r)
  | Returns (inl method) => right_answer env db1 rq user challenge method trustBrowser draws (nowMs `div` 1000)
  end.

Definition handleLoginVerify (env : Env) (db : AccountDb) (rq : Request) (token : string) (answer : Answer) (trustBrowser : bool)
    (draws : Draws) (nowMs : Z) : AccountDb * js_result Reply :=
  let now := nowMs `div` 1000 in
  match findChallenge db token now with
  | None => (db, Returns (Refused 401 EXPIRED_SIGN_IN))
  | Some challenge =>
      match findUserById db (ch_user_id challenge) with
      | None => (delete_challenge (ch_token_hash challenge) db, Returns (Refused 401 EXPIRED_SIGN_IN))
      | Some user =>
          let state := factorState db user (rp_rpId (rp_of env rq)) in
          if negb (hasSecondFactor state) then (delete_challenge (ch_token_hash challenge) db, Returns (Refused 401 EXPIRED_SIGN_IN))
          else if 0 <? getLockoutRemaining (core db) (u_email user) now then (db, Returns (Refused 429 ("Too many failed sign-in attempts. Try again in " +:+ minutes (getLockoutRemaining (core db) (u_email user) now) +:+ " minute(s).")))
          else verify_answer env db rq user challenge state answer trustBrowser draws nowMs
      end
  end.

Definition handleLoginEmailCode (env : Env) (db : AccountDb) (token : string) (code : Z) (sent : bool) (now : Z) : AccountDb * Reply :=
  match findChallenge db token now with
  | None => (db, Refused 401 EXPIRED_SIGN_IN)
  | Some challenge =>
      if is_Some_b (mailConfigProblem env) then (db, Refused 503 "Email codes are not available right now. Use your authenticator app or a recovery code.")
      else if EMAIL_CODES_PER_CHALLENGE <=? ch_email_codes_sent challenge then
        (db, Refused 429 "No more codes can be sent for this sign-in. Enter your password again to start over.")
      else
        let wait := if truthy (ch_email_code_sent_at challenge) then default 0 (ch_email_code_sent_at challenge) + EMAIL_CODE_GAP_SECONDS - now else 0 in
        if 0 <? wait then (db, Refused 429 ("Wait " +:+ string_of_int wait +:+ " seconds before asking for another code."))
        else
          match findUserById db (ch_user_id challenge) with
          | None => (db, Refused 401 EXPIRED_SIGN_IN)
          | Some user =>
              let '(db1, ok) := sendChallengeCode env db (ch_token_hash challenge) code sent now in
              if ok then (db1, CodeSent (maskEmail (u_email user)))
              else (db1, Refused 502 "The code could not be sent. Try again in a moment, or use your authenticator app or a recovery code.")
          end
  end.

(** ** Managing one's own factors *)

(** What a request to /api/auth/two-factor asks for, and what came with it:
    random numbers are those the handler draws. *)
Inductive FactorAction : Type :=
| SetEmail (enabled : option bool)
| NewPasskey (random : list Z)
| RegisterPasskey (name : string) (credential : jsval)
| DeletePasskey (id : string)
| SetupApp (random : list Z)
| EnableApp (code : string) (draws : list (list nat))
| ReplaceRecoveryCodes (code : string) (draws : list (list nat))
| DisableApp (code : string).

Inductive FactorReply : Type :=
| Failed (status : Z) (message : string)
| EmailCodes (on : bool)
| NewPasskeyOptions (challenge rpId : string) (exclude : list string)
| PasskeyKept (id name : string)
| Secret (secret otpauthUri : string)
| RecoveryCodes (codes : list string)
| Done.

Definition WRONG_PASSWORD : FactorReply := Failed 400 "The password is not correct".

(** The signed-in account, its session's organization and token, the password
    typed, and the time. *)
Record Caller : Type := mkCaller { cl_user : User; cl_tenant : option string; cl_token : option string; cl_password : string; cl_nowMs : Z }.

Definition cl_now (c : Caller) : Z := cl_nowMs c `div` 1000.

Definition password_right (env : Env) (c : Caller) : bool :=
  verifyPassword (cl_password c) (u_password_hash (cl_user c)) (u_salt (cl_user c)) (env_pepper env).

(** [if (!(await passwordOk())) return ...]: a wrong password is counted. *)
Definition with_password (env : Env) (c : Caller) (db : AccountDb) (k : AccountDb -> AccountDb * FactorReply) : AccountDb * FactorReply :=
  if password_right env c then k db else (on_core (fun d => recordLoginFailure d (u_email (cl_user c)) (cl_now c)) db, WRONG_PASSWORD).

Definition audit (c : Caller) (action : string) : AccountDb -> AccountDb := writeAuditLog (mkAudit (or_null (cl_tenant c)) (u_id (cl_user c)) action None).

Definition sign_out_others (c : Caller) : AccountDb -> AccountDb := on_core (fun d => deleteSessionsForUser d (u_id (cl_user c)) (cl_token c)).

(** Nothing is asked after the password any more. *)
Definition drop_challenges (c : Caller) (db : AccountDb) : AccountDb :=
  on_browsers (untrust (u_id (cl_user c))) (on_challenges (List.filter (fun ch => negb (String.eqb (ch_user_id ch) (u_id (cl_user c))))) db).

Definition set_email (env : Env) (c : Caller) (state : FactorState) (enabled : option bool) (db : AccountDb) : AccountDb * FactorReply :=
  match enabled with
  | None => (db, Failed 400 "Say whether emailed codes are on or off")
  | Some enable =>
      if negb enable && fs_required state then (db, Failed 409 "An administrator account always signs in with a second factor")
      else if enable && is_Some_b (mailConfigProblem env) then (db, Failed 503 "Email is not set up on this server, so codes cannot be sent")
      else
        with_password env c db (fun db =>
          let reply := EmailCodes (enable || fs_required state) in
          if Bool.eqb (negb (u_two_factor_email (cl_user c) =? 0)) enable then (db, reply)
          else
            let db1 := on_users (update_rows (fun u => String.eqb (u_id u) (u_id (cl_user c))) (fun u =>
                         mkUser (u_id u) (u_email u) (u_password_hash u) (u_salt u) (u_role u) (u_name u) (if enable then 1 else 0))) db in
            let db2 := if enable then sign_out_others c db1
                       else if negb (is_Some_b (fs_app state)) && (length (fs_passkeys state) =? 0)%nat then drop_challenges c db1 else db1 in
            (audit c (if enable then "auth.two_factor_email_enable" else "auth.two_factor_email_disable") db2, reply))
  end.

Definition own_passkeys (db : AccountDb) (userId : string) : list PasskeyRow := List.filter (fun p => String.eqb (pk_user_id p) userId) (user_passkeys db).

Definition new_passkey (env : Env) (c : Caller) (rp : RelyingParty) (state : FactorState) (random : list Z) (db : AccountDb) : AccountDb * FactorReply :=
  let userId := u_id (cl_user c) in
  if MAX_PASSKEYS <=? Z.of_nat (length (own_passkeys db userId)) then (db, Failed 409 "An account can have up to 10 passkeys. Remove one first.")
  else
    with_password env c db (fun db =>
      let challenge := newPasskeyChallenge random in
      let expires := cl_now c + PASSKEY_REGISTRATION_SECONDS in
      (on_registrations (upsert (fun r => String.eqb (rr_user_id r) userId) (fun r => mkRegistration (rr_user_id r) challenge (rp_rpId rp) expires)
         (mkRegistration userId challenge (rp_rpId rp) expires)) db,
       NewPasskeyOptions challenge (rp_rpId rp) (List.map pk_id (fs_passkeys state)))).

(** Control characters removed, trimmed, at most 60 characters. *)
Definition passkey_name (name : string) : string :=
  match str_take 60 (trim (str_filter (fun ch => (31 <? code ch) && negb (code ch =? 127)) name)) with ""%string => "Passkey" | s => s end.

Definition register_passkey (c : Caller) (rp : RelyingParty) (name : string) (credential : jsval) (db : AccountDb) : AccountDb * FactorReply :=
  let userId := u_id (cl_user c) in
  let unexpired r := String.eqb (rr_user_id r) userId && negb (rr_expires_at r <? cl_now c) in
  let expired := Failed 409 "This passkey setup has expired. Start again." in
  let db1 := on_registrations (List.filter (fun r => negb (unexpired r))) db in
  match js_find unexpired (passkey_registrations db) with
  | None => (db1, expired)
  | Some begun =>
      if negb (String.eqb (rr_rp_id begun) (rp_rpId rp)) then (db1, expired)
      else
        match verifyPasskeyRegistration credential rp (rr_challenge begun) with
        | Throws e => (db1, Failed 400 e)
        | Returns registered =>
            let label := passkey_name name in
            if existsb (fun p => String.eqb (pk_id p) (rg_credentialId registered)) (user_passkeys db1) then (db1, Failed 409 "This passkey is already registered.")
            else
              let row := mkPasskey (rg_credentialId registered) userId (rp_rpId rp) (sk_jwk (rg_key registered)) (sk_alg (rg_key registered))
                           (rg_signCount registered) label (cl_now c) None in
              (audit c "auth.passkey_add" (sign_out_others c (on_passkeys (fun l => l ++ [row]) db1)), PasskeyKept (rg_credentialId registered) label)
        end
  end.

Definition delete_passkey (env : Env) (c : Caller) (state : FactorState) (id : string) (db : AccountDb) : AccountDb * FactorReply :=
  let userId := u_id (cl_user c) in
  let mine p := String.eqb (pk_id p) id && String.eqb (pk_user_id p) userId in
  if String.eqb id "" || negb (existsb mine (user_passkeys db)) then (db, Failed 404 "That passkey is not registered to this account")
  else
    with_password env c db (fun db =>
      let db1 := on_passkeys (List.filter (fun p => negb (mine p))) db in
      let another := existsb (fun p => String.eqb (pk_user_id p) userId) (user_passkeys db1) in
      let db2 := if negb another && negb (is_Some_b (fs_app state)) && negb (fs_email state) then drop_challenges c db1 else db1 in
      (audit c "auth.passkey_remove" db2, Done)).

Definition otpauth_uri (email secret : string) : string :=
  "otpauth://totp/" +:+ encodeURIComponent ("Lab Kiosk:" +:+ email) +:+ "?secret=" +:+ secret +:+ "&issuer=" +:+ encodeURIComponent "Lab Kiosk"
    +:+ "&algorithm=SHA1&digits=6&period=30".

Definition setup_app (env : Env) (c : Caller) (row : option TwoFactorRow) (random : list Z) (db : AccountDb) : AccountDb * FactorReply :=
  if match row with Some r => truthy (tf_enabled_at r) | None => false end then
    (db, Failed 409 "Two-factor sign-in is already on. Turn it off first to move it to a new app.")
  else
    with_password env c db (fun db =>
      let secret := base32Encode random in
      let userId := u_id (cl_user c) in
      (on_two_factor (upsert (fun r => String.eqb (tf_user_id r) userId) (fun r => mkTwoFactor (tf_user_id r) secret (tf_enabled_at r) 0 [] (cl_now c))
         (mkTwoFactor userId secret None 0 [] (cl_now c))) db, Secret secret (otpauth_uri (u_email (cl_user c)) secret))).

Definition recovery_hashes (codes : list string) : list string := List.map (fun code_ => recovery_hash (normalizeRecoveryCode code_)) codes.

Definition enable_app (c : Caller) (row : option TwoFactorRow) (typed : string) (draws : list (list nat)) (db : AccountDb) : AccountDb * js_result FactorReply :=
  match row with
  | None => (db, Returns (Failed 409 "Start the setup first"))
  | Some r =>
      if truthy (tf_enabled_at r) then (db, Returns (Failed 409 "Two-factor sign-in is already on"))
      else
        match matchTotp (tf_totp_secret r) (str_filter (fun ch => negb (is_space ch)) typed) (tf_last_totp_step r) (cl_nowMs c) with
        | Throws e => (db, Throws e)
        | Returns None => (db, Returns (Failed 400 "That code is not right. Check the time on your device and try again."))
        | Returns (Some step) =>
            let codes := List.map newRecoveryCode draws in
            let off x := String.eqb (tf_user_id x) (u_id (cl_user c)) && negb (is_Some_b (tf_enabled_at x)) in
            let db1 := on_two_factor (update_rows off (fun x =>
                         mkTwoFactor (tf_user_id x) (tf_totp_secret x) (Some (cl_now c)) step (recovery_hashes codes) (tf_created_at x))) db in
            if negb (existsb off (user_two_factor db)) then (db1, Returns (Failed 409 "Two-factor sign-in is already on"))
            else (audit c "auth.two_factor_enable" (sign_out_others c db1), Returns (RecoveryCodes codes))
        end
  end.

(** Turning the app off or replacing its recovery codes: the password and a
    current code, then [k]. *)
Definition with_code (env : Env) (c : Caller) (row : option TwoFactorRow) (typed : string) (db : AccountDb) (k : AccountDb -> AccountDb * FactorReply) :
    AccountDb * js_result FactorReply :=
  match row with
  | Some r =>
      if truthy (tf_enabled_at r) then
        if password_right env c then
          let '(db1, proved) := checkAccountCode db r (str_take 40 (trim typed)) (cl_nowMs c) in
          match proved with
          | Throws e => (db1, Throws e)
          | Returns None => (on_core (fun d => recordLoginFailure d (u_email (cl_user c)) (cl_now c)) db1, Returns (Failed 400 "That code is not right"))
          | Returns (Some _) => let '(db2, reply) := k (on_core (fun d => clearLoginFailures d (u_email (cl_user c))) db1) in (db2, Returns reply)
          end
        else (on_core (fun d => recordLoginFailure d (u_email (cl_user c)) (cl_now c)) db, Returns WRONG_PASSWORD)
      else (db, Returns (Failed 409 "Two-factor sign-in is not on"))
  | None => (db, Returns (Failed 409 "Two-factor sign-in is not on"))
  end.

Definition replace_codes (c : Caller) (draws : list (list nat)) (db : AccountDb) : AccountDb * FactorReply :=
  let codes := List.map newRecoveryCode draws in
  (audit c "auth.two_factor_recovery_codes" (on_two_factor (update_rows (fun r => String.eqb (tf_user_id r) (u_id (cl_user c))) (fun r =>
     mkTwoFactor (tf_user_id r) (tf_totp_secret r) (tf_enabled_at r) (tf_last_totp_step r) (recovery_hashes codes) (tf_created_at r))) db), RecoveryCodes codes).

Definition disable_app (c : Caller) (db : AccountDb) : AccountDb * FactorReply :=
  (audit c "auth.two_factor_disable"
     (drop_challenges c (on_two_factor (List.filter (fun r => negb (String.eqb (tf_user_id r) (u_id (cl_user c))))) db)), Done).

(** A change asked for by a signed-in account. *)
Definition handleTwoFactorRoute (env : Env) (db : AccountDb) (rq : Request) (c : Caller) (action : FactorAction) : AccountDb * js_result FactorReply :=
  let row := findTwoFactor db (u_id (cl_user c)) in
  let rp := rp_of env rq in
  let state := factorState db (cl_user c) (rp_rpId rp) in
  let lockedFor := getLockoutRemaining (core db) (u_email (cl_user c)) (cl_now c) in
  let plain (r : AccountDb * FactorReply) : AccountDb * js_result FactorReply := (fst r, Returns (snd r)) in
  if 0 <? lockedFor then (db, Returns (Failed 429 ("Too many failed attempts. Try again in " +:+ minutes lockedFor +:+ " minute(s).")))
  else
    match action with
    | SetEmail enabled => plain (set_email env c state enabled db)
    | NewPasskey random => plain (new_passkey env c rp state random db)
    | RegisterPasskey name credential => plain (register_passkey c rp name credential db)
    | DeletePasskey id => plain (delete_passkey env c state id db)
    | SetupApp random => plain (setup_app env c row random db)
    | EnableApp typed draws => enable_app c row typed draws db
    | ReplaceRecoveryCodes typed draws => with_code env c row typed db (replace_codes c draws)
    | DisableApp typed => with_code env c row typed db (disable_app c)
    end.

End TwoFactor.
