(* ===== verification/SignIn.v ===== *)
(** What two-factor sign-in (TwoFactor.v) guarantees: codes work once whatever
    the order of requests, a challenge makes one session, guesses are few, and
    an account with a second factor is not signed in without it. *)
From S2P Require Import Prelude Int32 JsString Regex Platform Escape Db Auth Throttle Sessions Handoff Cbor WebAuthn Totp TwoFactor.

(** ** Tables with a key *)

Section Keyed.
Context {A : Type} (key : A -> string).

Definition keyed (k : string) (r : A) : bool := String.eqb (key r) k.

Lemma find_update_rows k p f l : (forall r, key (f r) = key r) ->
  js_find (keyed k) (update_rows p f l) = option_map (fun r => if p r then f r else r) (js_find (keyed k) l).
Proof.
  intros Hf. unfold update_rows, keyed. induction l as [|r l IH]; [done|]. unfold js_find in *. cbn [List.map List.find].
  assert (key (if p r then f r else r) = key r) as -> by (by destruct (p r)). by destruct (String.eqb (key r) k).
Qed.

Lemma update_rows_keys p f l : (forall r, key (f r) = key r) -> List.map key (update_rows p f l) = List.map key l.
Proof. intros Hf. unfold update_rows. rewrite List.map_map. apply List.map_ext. intros r. by destruct (p r). Qed.

(** A key occurs once, so a condition on its row is a condition on the row found. *)
Lemma exists_keyed k c l : NoDup (List.map key l) ->
  existsb (fun r => keyed k r && c r) l = match js_find (keyed k) l with Some r => c r | None => false end.
Proof.
  intros Hnd. induction l as [|r l IH]; [done|]. cbn [List.map existsb] in *. apply list.NoDup_cons in Hnd as [Hr Hnd]. unfold js_find in *. cbn [List.find].
  unfold keyed at 1 3. destruct (String.eqb_spec (key r) k) as [E|E]; cbn [andb orb]; [|by apply IH].
  destruct (c r); [done|]. cbn [orb]. apply not_true_is_false. intros (x & Hx & Hb)%existsb_elem. apply andb_true_iff in Hb as [Hk%String.eqb_eq _].
  apply Hr. rewrite E, <- Hk. apply list_elem_of_fmap. eauto.
Qed.

Lemma find_keyed k l r : js_find (keyed k) l = Some r -> key r = k.
Proof. intros [_ E]%js_find_Some. by apply String.eqb_eq in E. Qed.

End Keyed.

Lemma upsert_keys_elem {A} (key : A -> string) (same : A -> bool) update insert l k : (forall x, key (update x) = key x) ->
  k ∈ List.map key (upsert same update insert l) -> k ∈ List.map key l \/ k = key insert.
Proof.
  intros Hu. unfold upsert. destruct (existsb same l).
  - rewrite List.map_map. erewrite List.map_ext; [by left|]. intros x. by destruct (same x).
  - rewrite List.map_app. intros [?|?%list_elem_of_singleton]%elem_of_app; auto.
Qed.

Lemma sublist_bfilter {A} (p : A -> bool) l k : sublist l k -> sublist (List.filter p l) (List.filter p k).
Proof. induction 1; cbn [List.filter]; [constructor|..]; destruct (p _); try (by constructor); done. Qed.

(** ** Codes work once *)

Inductive Spent : Type := SpentStep (step : Z) | SpentCode (hash : string).

Definition steps_of (log : list Spent) : list Z := omap (fun s => match s with SpentStep n => Some n | _ => None end) log.
Definition hashes_of (log : list Spent) : list string := omap (fun s => match s with SpentCode h => Some h | _ => None end) log.

Lemma remove_first_perm {A} (p : A -> bool) l : forall k, remove_first p l = Some k -> exists x, p x = true /\ l ≡ₚ x :: k.
Proof.
  induction l as [|x l IH]; intros k E; [done|]. cbn [remove_first] in E. destruct (p x) eqn:Ep.
  - injection E as <-. eauto.
  - destruct (remove_first p l) as [k'|] eqn:Ek; [|done]. injection E as <-. destruct (IH k' eq_refl) as (y & Hy & Hp). exists y. split; [done|].
    rewrite Hp. apply perm_swap.
Qed.

Lemma returns_inj {A} (a b : A) : Returns a = Returns b -> a = b.
Proof. congruence. Qed.

Section Codes.
Context `{WebCrypto} `{HmacSha1}.

Definition typed_code (input : string) : string := str_filter (fun c => negb (is_space c)) input.

(** What an accepted code spent; [after]: the row it left. *)
Definition spent_by (input : string) (answer : js_result (option Method)) (after : TwoFactorRow) : list Spent :=
  match answer with
  | Returns (Some by_totp) => [SpentStep (tf_last_totp_step after)]
  | Returns (Some by_recovery) => [SpentCode (recovery_hash (normalizeRecoveryCode (typed_code input)))]
  | _ => []
  end.

(** A code the app shows, no more than a step away from the time. *)
Definition shows (secret input : string) (nowMs step : Z) : Prop :=
  exists bytes, base32Decode secret = Returns bytes /\ totpCode bytes step = typed_code input /\ Z.abs (step - currentTotpStep nowMs) <= 1.

Lemma matchTotp_Some secret code_ last nowMs step : matchTotp secret code_ last nowMs = Returns (Some step) ->
  last < step /\ exists bytes, base32Decode secret = Returns bytes /\ totpCode bytes step = code_ /\ Z.abs (step - currentTotpStep nowMs) <= 1.
Proof.
  unfold matchTotp. destruct (negb _); [done|]. intros E. apply bind_returns in E as (bytes & Hb & E). apply returns_inj in E. apply js_find_Some in E as [Hin Hp].
  apply andb_true_iff in Hp as [Hl%negb_true_iff%Z.leb_gt Ht%timingSafeEqual_iff]. split; [done|]. exists bytes. split_and!; [done|done|].
  repeat (apply elem_of_cons in Hin as [-> |Hin]; [lia|]). by apply elem_of_nil in Hin.
Qed.

Notation mine u := (keyed tf_user_id u).

(** A check, seen from the account's row [cur]: what an accepted code says, and the row after it. *)
Lemma checkAccountCode_spec db row input nowMs db' answer cur :
  NoDup (List.map tf_user_id (user_two_factor db)) -> findTwoFactor db (tf_user_id row) = Some cur ->
  checkAccountCode db row input nowMs = (db', answer) ->
  exists after, findTwoFactor db' (tf_user_id row) = Some after /\ tf_user_id after = tf_user_id cur /\ tf_totp_secret after = tf_totp_secret cur /\
    NoDup (List.map tf_user_id (user_two_factor db')) /\
    match answer with
    | Returns (Some m) =>
        (m = by_totp /\ tf_last_totp_step cur = tf_last_totp_step row /\ tf_last_totp_step row < tf_last_totp_step after /\
         tf_recovery_codes after = tf_recovery_codes cur /\ shows (tf_totp_secret row) input nowMs (tf_last_totp_step after)) \/
        (m = by_recovery /\ tf_last_totp_step after = tf_last_totp_step cur /\
         tf_recovery_codes cur ≡ₚ recovery_hash (normalizeRecoveryCode (typed_code input)) :: tf_recovery_codes after)
    | _ => tf_last_totp_step after = tf_last_totp_step cur /\ tf_recovery_codes after = tf_recovery_codes cur
    end.
Proof.
  intros Hnd Hcur. unfold checkAccountCode. fold (typed_code input). set (code_ := typed_code input).
  assert (Hkeys : forall p f, (forall r, tf_user_id (f r) = tf_user_id r) -> NoDup (List.map tf_user_id (update_rows p f (user_two_factor db))))
    by (intros p f Hf; by rewrite update_rows_keys).
  destruct (re_test SIX_DIGITS code_).
  - destruct (matchTotp _ _ _ _) as [[step|]|e] eqn:Em; intros [= <- <-]; [|by exists cur|by exists cur].
    apply matchTotp_Some in Em as [Hlt Hshow]. change (fun r => _ && _) with (fun r => mine (tf_user_id row) r && (tf_last_totp_step r =? tf_last_totp_step row)).
    rewrite (exists_keyed tf_user_id) by done. unfold findTwoFactor in *. change (js_find (fun r => _)) with (js_find (mine (tf_user_id row))) in *.
    cbn [user_two_factor on_two_factor]. rewrite (find_update_rows tf_user_id) by done. rewrite Hcur. cbn [option_map]. pose proof (find_keyed tf_user_id _ _ _ Hcur) as Hid. unfold keyed at 1. rewrite Hid, String.eqb_refl.
    cbn [andb]. destruct (Z.eqb_spec (tf_last_totp_step cur) (tf_last_totp_step row)) as [El|El]; eexists; split_and!; try done; try (by apply Hid); try (by apply Hkeys).
    cbn [tf_last_totp_step tf_recovery_codes]. left. done.
  - destruct (negb _); [intros [= <- <-]; by exists cur|].
    destruct (remove_first _ _) as [remaining|] eqn:Er; intros [= <- <-]; [|by exists cur].
    apply remove_first_perm in Er as (h & Hh%timingSafeEqual_iff & Hperm). subst h.
    change (fun r => _ && _) with (fun r => mine (tf_user_id row) r && bool_decide (tf_recovery_codes r = tf_recovery_codes row)).
    rewrite (exists_keyed tf_user_id) by done. unfold findTwoFactor in *. change (js_find (fun r => _)) with (js_find (mine (tf_user_id row))) in *.
    cbn [user_two_factor on_two_factor]. rewrite (find_update_rows tf_user_id) by done. rewrite Hcur. cbn [option_map]. pose proof (find_keyed tf_user_id _ _ _ Hcur) as Hid. unfold keyed at 1. rewrite Hid, String.eqb_refl.
    cbn [andb]. case_bool_decide as El; eexists; split_and!; try done; try (by apply Hid); try (by apply Hkeys).
    cbn [tf_last_totp_step tf_recovery_codes]. right. split_and!; [done|done|]. by rewrite El.
Qed.

(** Any number of requests that check codes of account [u], each with the row it
    read at some earlier moment ([seen]: every row the account ever had),
    interleaved in any order with whatever leaves the table alone. The log holds
    what was typed, when, and what it spent. *)
Inductive code_run (u : string) (start : TwoFactorRow) : list TwoFactorRow -> list (string * Z * Spent) -> AccountDb -> Prop :=
| codes_start db :
    NoDup (List.map tf_user_id (user_two_factor db)) -> findTwoFactor db u = Some start -> code_run u start [start] [] db
| codes_check seen log db row input nowMs db' answer after :
    code_run u start seen log db -> row ∈ seen -> checkAccountCode db row input nowMs = (db', answer) -> findTwoFactor db' u = Some after ->
    code_run u start (after :: seen) (log ++ List.map (fun s => (input, nowMs, s)) (spent_by input answer after)) db'
| codes_other seen log db db' :
    code_run u start seen log db -> user_two_factor db' = user_two_factor db -> code_run u start seen log db'.

(** What the row and the log say of each other at any moment. *)
Definition codes_inv (start cur : TwoFactorRow) (log : list (string * Z * Spent)) : Prop :=
  tf_user_id cur = tf_user_id start /\ tf_totp_secret cur = tf_totp_secret start /\
  StronglySorted Z.lt (tf_last_totp_step start :: steps_of (List.map snd log)) /\
  Forall (fun n => n <= tf_last_totp_step cur) (tf_last_totp_step start :: steps_of (List.map snd log)) /\
  hashes_of (List.map snd log) ++ tf_recovery_codes cur ≡ₚ tf_recovery_codes start /\
  Forall (fun e => match snd e with SpentStep n => shows (tf_totp_secret start) (fst (fst e)) (snd (fst e)) n
                   | SpentCode h => h = recovery_hash (normalizeRecoveryCode (typed_code (fst (fst e)))) end) log.

Lemma codes_inv_step start cur after log input nowMs :
  codes_inv start cur log -> tf_user_id after = tf_user_id cur -> tf_totp_secret after = tf_totp_secret cur ->
  tf_last_totp_step cur < tf_last_totp_step after -> tf_recovery_codes after = tf_recovery_codes cur ->
  shows (tf_totp_secret start) input nowMs (tf_last_totp_step after) ->
  codes_inv start after (log ++ [(input, nowMs, SpentStep (tf_last_totp_step after))]).
Proof.
  intros (Hu & Hsec & Hss & Hle & Hp & Hl) Hau Has Hlt Hrc Hsh. unfold codes_inv, steps_of, hashes_of in *. rewrite List.map_app, !omap_app.
  cbn [List.map omap list_omap snd]. rewrite app_nil_r, Hrc. split_and!; [congruence|congruence| | |done|].
  - apply (StronglySorted_app_2 _ (_ :: _)); [|done|repeat constructor]. intros x y Hx Hy. apply list_elem_of_singleton in Hy as ->.
    pose proof (proj1 (list.Forall_forall _ _) Hle x Hx). cbn beta in *. lia.
  - change (?x :: ?l ++ ?k) with ((x :: l) ++ k). apply Forall_app. split; [|repeat constructor; lia]. revert Hle. apply Forall_impl. lia.
  - apply Forall_app. split; [done|]. by repeat constructor.
Qed.

Lemma codes_inv_recovery start cur after log input nowMs :
  let h := recovery_hash (normalizeRecoveryCode (typed_code input)) in
  codes_inv start cur log -> tf_user_id after = tf_user_id cur -> tf_totp_secret after = tf_totp_secret cur ->
  tf_last_totp_step after = tf_last_totp_step cur -> tf_recovery_codes cur ≡ₚ h :: tf_recovery_codes after ->
  codes_inv start after (log ++ [(input, nowMs, SpentCode h)]).
Proof.
  intros h (Hu & Hsec & Hss & Hle & Hp & Hl) Hau Has Hls Hrc. unfold codes_inv, steps_of, hashes_of in *. rewrite List.map_app, !omap_app.
  cbn [List.map omap list_omap snd]. rewrite app_nil_r, Hls. split_and!; [congruence|congruence|done|done| |].
  - rewrite <- Hp, <- app_assoc. apply Permutation_app_head. by rewrite Hrc.
  - apply Forall_app. split; [done|]. by repeat constructor.
Qed.

Lemma code_run_inv u start seen log db : code_run u start seen log db ->
  NoDup (List.map tf_user_id (user_two_factor db)) /\ tf_user_id start = u /\
  Forall (fun r => tf_user_id r = u /\ tf_totp_secret r = tf_totp_secret start) seen /\
  exists cur, findTwoFactor db u = Some cur /\ codes_inv start cur log.
Proof.
  induction 1 as [db Hnd Hf|seen log db row input nowMs db' answer after _ IH Hrow Hc Hf|seen log db db' _ IH Hsame].
  - assert (tf_user_id start = u) by (by apply (find_keyed tf_user_id u) in Hf). split_and!; [done|done|by repeat constructor|].
    exists start. unfold codes_inv. split_and!; try done; repeat constructor. lia.
  - destruct IH as (Hnd & Hstart & Hseen & cur & Hcur & Hinv). destruct (proj1 (list.Forall_forall _ _) Hseen row Hrow) as [Hru Hrsec]. rewrite <- Hru in Hcur, Hf.
    destruct (checkAccountCode_spec _ _ _ _ _ _ _ Hnd Hcur Hc) as (after' & Hf' & Hau & Has & Hnd' & Hans). rewrite Hf in Hf'. injection Hf' as <-.
    destruct (Hinv) as (Hu & Hsec & _). split_and!; [done|done|constructor; [split; congruence|done]|]. exists after. rewrite Hru in Hf. split; [done|].
    destruct answer as [[m|]|].
    + destruct Hans as [(-> & Hcl & Hlt & Hrc & Hsh)|(-> & Hls & Hrc)]; cbn [spent_by List.map].
      * apply (codes_inv_step start cur); [done|done|done|lia|done|by rewrite <- Hrsec].
      * by apply (codes_inv_recovery start cur).
    + destruct Hans as [Hls Hrc]. cbn [spent_by List.map]. rewrite app_nil_r. unfold codes_inv in *. rewrite Hau, Has, Hls, Hrc. done.
    + destruct Hans as [Hls Hrc]. cbn [spent_by List.map]. rewrite app_nil_r. unfold codes_inv in *. rewrite Hau, Has, Hls, Hrc. done.
  - destruct IH as (Hnd & Hstart & Hseen & cur & Hcur & Hrest). unfold findTwoFactor in *. rewrite Hsame. split_and!; [done|done|done|by exists cur].
Qed.

(** C2. Codes work once. However requests that check codes interleave, even when
    several read the account before one of them writes, the app's codes that are
    accepted are for strictly later and later steps, each the code the app shows
    within a step of the time, and the recovery codes that are accepted are
    those handed out less those left, each as often as it was handed out. *)
Theorem codes_work_once u start seen log db cur :
  code_run u start seen log db -> findTwoFactor db u = Some cur ->
  StronglySorted Z.lt (tf_last_totp_step start :: steps_of (List.map snd log)) /\
  hashes_of (List.map snd log) ++ tf_recovery_codes cur ≡ₚ tf_recovery_codes start /\
  Forall (fun e => match snd e with SpentStep n => shows (tf_totp_secret start) (fst (fst e)) (snd (fst e)) n
                   | SpentCode h => h = recovery_hash (normalizeRecoveryCode (typed_code (fst (fst e)))) end) log.
Proof.
  intros Hr Hcur. destruct (code_run_inv _ _ _ _ _ Hr) as (_ & _ & _ & cur' & Hcur' & _ & _ & Hs & _ & Hp & Hl). rewrite Hcur in Hcur'. by injection Hcur' as <-.
Qed.

End Codes.

(** ** A challenge *)

(** The columns of a challenge that count and time its uses. *)
Definition budget (c : ChallengeRow) : string * Z * Z * option Z := (ch_token_hash c, ch_attempts c, ch_email_codes_sent c, ch_email_code_sent_at c).

Notation chal := (keyed ch_token_hash).

Lemma find_delete h h' db : js_find (chal h) (login_challenges (delete_challenge h' db)) = if String.eqb h' h then None else js_find (chal h) (login_challenges db).
Proof.
  unfold delete_challenge. cbn [login_challenges on_challenges]. induction (login_challenges db) as [|c l IH]; [by destruct (String.eqb h' h)|].
  unfold js_find in *. cbn [List.filter List.find]. unfold keyed at 2. destruct (String.eqb_spec (ch_token_hash c) h') as [E|E]; cbn [negb].
  - rewrite IH, E. destruct (String.eqb_spec h' h); done.
  - cbn [List.find]. unfold keyed at 1. destruct (String.eqb_spec (ch_token_hash c) h) as [E'|E']; [|done]. by rewrite (proj2 (String.eqb_neq h' h)) by congruence.
Qed.

Lemma exists_hash h db : existsb (fun c => String.eqb (ch_token_hash c) h) (login_challenges db) = is_Some_b (js_find (chal h) (login_challenges db)).
Proof.
  induction (login_challenges db) as [|c l IH]; [done|]. unfold js_find in *. cbn [existsb List.find]. unfold keyed at 1. by destruct (String.eqb (ch_token_hash c) h).
Qed.

Section Challenges.
Context `{WebCrypto} `{HmacSha1} `{TextDecoder} `{PasskeyCrypto} `{Sealing} `{UrlParser}.

(** Checking an answer makes no session and leaves every challenge's count alone. *)
Lemma checkAccountCode_frame db row input nowMs db1 r : checkAccountCode db row input nowMs = (db1, r) ->
  core db1 = core db /\ login_challenges db1 = login_challenges db /\ users db1 = users db.
Proof.
  unfold checkAccountCode. intros E. repeat (case_match; simplify_eq; try done).
Qed.

Lemma check_answer_frame env db rp challenge state answer nowMs db1 r h : check_answer env db rp challenge state answer nowMs = (db1, r) ->
  core db1 = core db /\ users db1 = users db /\ option_map budget (js_find (chal h) (login_challenges db1)) = option_map budget (js_find (chal h) (login_challenges db)).
Proof.
  unfold check_answer. destruct answer as [a|raw].
  - destruct (checkPasskeyAnswer _ _ _ _ _ _) as [db2 f] eqn:E. intros [= <- _]. unfold checkPasskeyAnswer in E.
    assert (Hb : forall p v, option_map budget (js_find (chal h) (update_rows p (set_passkey_challenge v) (login_challenges db))) = option_map budget (js_find (chal h) (login_challenges db))).
    { intros p v. rewrite find_update_rows by done. destruct (js_find (chal h) (login_challenges db)) as [c|]; [|done]. cbn. by destruct (p c). }
    repeat (case_match; simplify_eq; cbn [core users login_challenges on_challenges on_passkeys]; try done).
  - destruct (_ && _); [by intros [= <- _]|]. destruct (fs_app state) as [row|]; [|by intros [= <- _]]. destruct (String.eqb _ ""); [by intros [= <- _]|].
    destruct (checkAccountCode _ _ _ _) as [db2 m] eqn:E. intros [= <- _]. apply checkAccountCode_frame in E as (-> & -> & ->). done.
Qed.

Lemma completeSignIn_frame env db rq target method trust draws now db' r : completeSignIn env db rq target method trust draws now = (db', r) ->
  login_challenges db' = login_challenges db /\ (length (sessions (core db')) <= S (length (sessions (core db))))%nat.
Proof.
  unfold completeSignIn, createSession. destruct (existsb _ _); [intros [= <- _]; split; [done|lia]|].
  unfold remember_browser. intros [= <- _]. cbn [login_challenges core on_browsers on_core writeAuditLog sessions on_sessions]. split; [done|].
  rewrite length_app. cbn [length]. lia.
Qed.

(** Answers to the challenge with hash [h], each with the challenge as it read
    it, interleaved in any order with whatever does not make that challenge again. *)
Inductive challenge_run (h : string) : nat -> AccountDb -> Prop :=
| challenge_start db : challenge_run h 0 db
| challenge_answer n env db rq user challenge state answer trust draws nowMs db' r :
    challenge_run h n db -> ch_token_hash challenge = h -> verify_answer env db rq user challenge state answer trust draws nowMs = (db', r) ->
    challenge_run h (n + (length (sessions (core db')) - length (sessions (core db)))) db'
| challenge_other n db db' :
    challenge_run h n db -> (js_find (chal h) (login_challenges db) = None -> js_find (chal h) (login_challenges db') = None) -> challenge_run h n db'.

(** An answer that makes a session finds the challenge and removes it. *)
Lemma verify_answer_session env db rq user challenge state answer trust draws nowMs db' r :
  verify_answer env db rq user challenge state answer trust draws nowMs = (db', r) ->
  (js_find (chal (ch_token_hash challenge)) (login_challenges db) = None -> js_find (chal (ch_token_hash challenge)) (login_challenges db') = None) /\
  ((length (sessions (core db')) <= length (sessions (core db)))%nat \/
   (length (sessions (core db')) <= S (length (sessions (core db))) /\ js_find (chal (ch_token_hash challenge)) (login_challenges db) <> None /\
    js_find (chal (ch_token_hash challenge)) (login_challenges db') = None)%nat).
Proof.
  set (h := ch_token_hash challenge). unfold verify_answer. destruct (check_answer _ _ _ _ _ _ _) as [db1 checked] eqn:Ec.
  destruct (check_answer_frame _ _ _ _ _ _ _ _ _ h Ec) as (Hcore & _ & Hb).
  assert (Hnone : js_find (chal h) (login_challenges db) = None -> js_find (chal h) (login_challenges db1) = None).
  { intros E. rewrite E in Hb. by destruct (js_find (chal h) (login_challenges db1)). }
  destruct checked as [[m|f]|e].
  - unfold right_answer. fold h. rewrite exists_hash. destruct (js_find (chal h) (login_challenges db1)) as [c|] eqn:Ef; cbn [is_Some_b negb].
    + intros E. apply completeSignIn_frame in E as [El Es]. rewrite El. change (login_challenges (on_core _ (delete_challenge h db1))) with (login_challenges (delete_challenge h db1)).
      rewrite find_delete, String.eqb_refl. cbn [core on_core clearLoginFailures sessions on_login_attempts delete_challenge on_challenges] in Es. rewrite Hcore in Es. split; [done|]. right.
      split_and!; [done| |done]. intros E. by specialize (Hnone E).
    + intros [= <- _]. rewrite find_delete, String.eqb_refl. split; [done|]. left. cbn [core delete_challenge on_challenges]. by rewrite Hcore.
  - unfold wrong_answer. fold h. destruct (CHALLENGE_ATTEMPTS <=? _); intros [= <- _]; (split; [|left; cbn; rewrite Hcore; lia]).
    + intros _. by rewrite find_delete, String.eqb_refl.
    + intros E. cbn [login_challenges on_challenges on_core]. rewrite find_update_rows by done. by rewrite Hnone.
  - intros [= <- _]. split; [done|]. left. by rewrite Hcore.
Qed.

(** C3. One challenge, one session. However the answers to a challenge
    interleave, right or wrong, and whatever each of them read before it was
    answered, at most one of them signs in. *)
Theorem challenge_one_session h n db : challenge_run h n db -> (n <= 1)%nat.
Proof.
  intros Hr. assert (Hinv : (n <= 1)%nat /\ (n = 1%nat -> js_find (chal h) (login_challenges db) = None)); [|tauto].
  induction Hr as [db|n env db rq user challenge state answer trust draws nowMs db' r _ [IHn IHg] <- Hv|n db db' _ [IHn IHg] Ho]; [split; [lia|done]| |].
  - destruct (verify_answer_session _ _ _ _ _ _ _ _ _ _ _ _ Hv) as [Hkeep Hcase]. destruct Hcase as [Hle|(Hle & Hsome & Hgone)].
    + split; [lia|]. intros Hn. apply Hkeep, IHg. lia.
    + assert (n = 0%nat) by (destruct (decide (n = 1%nat)) as [E|]; [by apply IHg in E|lia]). split; [lia|]. done.
  - split; [done|]. intros Hn. apply Ho, IHg. lia.
Qed.

(** ** Guesses *)

Definition TOO_MANY : string := "Too many wrong codes. Enter your password again.".

(** The answer was checked and was wrong. *)
Definition is_wrong (r : js_result Reply) : bool :=
  match r with Returns (Refused 400 _) => true | Returns (Refused 401 m) => String.eqb m TOO_MANY | _ => false end.

(** A code was made and e-mailed, or the attempt to e-mail it failed. *)
Definition is_mailed (r : Reply) : bool := match r with CodeSent _ => true | Refused 502 _ => true | _ => false end.

Lemma completeSignIn_right env db rq target method trust draws now db' r : completeSignIn env db rq target method trust draws now = (db', r) -> is_wrong r = false.
Proof.
  unfold completeSignIn. destruct (createSession _ _); [|by intros [= _ <-]]. destruct (remember_browser _ _ _ _ _ _) as [db2 al].
  intros [= _ <-]. destruct (signInDestination _ _ _ _ _ _ _ _); done.
Qed.

Lemma findChallenge_find db token now c : findChallenge db token now = Some c -> js_find (chal (sha256Hex token)) (login_challenges db) = Some c /\ ch_token_hash c = sha256Hex token.
Proof.
  unfold findChallenge. destruct (re_test BARE_HASH token); [|done]. destruct (js_find _ _) as [row|] eqn:E; [|done].
  destruct (ch_expires_at row <? now); [done|]. intros [= <-]. split; [done|]. by apply (find_keyed ch_token_hash) in E.
Qed.

(** What one request does to its challenge: one more wrong answer, the fifth
    removing it; or a wrong answer is not what it was. *)
Lemma handleLoginVerify_budget env db rq token answer trust draws nowMs db' r :
  let h := sha256Hex token in
  handleLoginVerify env db rq token answer trust draws nowMs = (db', r) ->
  match js_find (chal h) (login_challenges db), js_find (chal h) (login_challenges db') with
  | None, c' => is_wrong r = false /\ c' = None
  | Some c, None => is_wrong r = true -> CHALLENGE_ATTEMPTS <= ch_attempts c + 1
  | Some c, Some c' => budget c' = (h, ch_attempts c + (if is_wrong r then 1 else 0), ch_email_codes_sent c, ch_email_code_sent_at c) /\
      (is_wrong r = true -> ch_attempts c + 1 < CHALLENGE_ATTEMPTS)
  end.
Proof.
  intros h. unfold handleLoginVerify. destruct (findChallenge db token (nowMs `div` 1000)) as [c|] eqn:Ef.
  2: { intros [= <- <-]. destruct (js_find (chal h) (login_challenges db)) as [c|] eqn:E; [|done]. apply (find_keyed ch_token_hash) in E. split; [|done].
       cbn [is_wrong]. rewrite Z.add_0_r. unfold budget. by rewrite E. }
  apply findChallenge_find in Ef as [Ef Eh]. fold h in Ef, Eh. rewrite Ef.
  assert (Hdel : forall db1, js_find (chal h) (login_challenges (delete_challenge (ch_token_hash c) db1)) = None) by (intros; by rewrite Eh, find_delete, String.eqb_refl).
  assert (Hstay : is_wrong r = false -> budget c = (h, ch_attempts c + (if is_wrong r then 1 else 0), ch_email_codes_sent c, ch_email_code_sent_at c) /\ (is_wrong r = true -> ch_attempts c + 1 < CHALLENGE_ATTEMPTS)).
  { intros Ew. rewrite Ew, Z.add_0_r. unfold budget. by rewrite Eh. }
  destruct (findUserById db (ch_user_id c)) as [user|]; [|intros [= <- <-]; by rewrite Hdel].
  destruct (negb (hasSecondFactor _)); [intros [= <- <-]; by rewrite Hdel|]. destruct (0 <? getLockoutRemaining _ _ _); [intros [= <- <-]; rewrite Ef; by apply Hstay|].
  unfold verify_answer. destruct (check_answer _ _ _ _ _ _ _) as [db1 checked] eqn:Ec. destruct (check_answer_frame _ _ _ _ _ _ _ _ _ h Ec) as (_ & _ & Hb).
  rewrite Ef in Hb. destruct (js_find (chal h) (login_challenges db1)) as [c1|] eqn:Ef1; [|done]. cbn [option_map] in Hb.
  assert (budget c1 = budget c) as Hbc by congruence.
  destruct checked as [[m|f]|e].
  - unfold right_answer. rewrite exists_hash, Eh, Ef1. cbn [is_Some_b negb]. intros E. pose proof (completeSignIn_right _ _ _ _ _ _ _ _ _ _ E) as Hw.
    apply completeSignIn_frame in E as [El _]. rewrite El. change (login_challenges (on_core _ (delete_challenge h db1))) with (login_challenges (delete_challenge h db1)).
    rewrite find_delete, String.eqb_refl. by rewrite Hw.
  - unfold wrong_answer. destruct (Z.leb_spec CHALLENGE_ATTEMPTS (ch_attempts c + 1)) as [Hle|Hlt]; intros [= <- <-].
    + by rewrite Hdel.
    + cbn [login_challenges on_challenges on_core]. rewrite find_update_rows by done. rewrite Ef1. cbn [option_map]. rewrite (find_keyed ch_token_hash _ _ _ Ef1), Eh. fold h. rewrite (String.eqb_refl h).
      split; [|done]. unfold budget in *. cbn [set_attempts ch_token_hash ch_attempts ch_email_codes_sent ch_email_code_sent_at is_wrong].
      injection Hbc as -> _ -> ->. by rewrite Eh.
  - intros [= <- <-]. rewrite Ef1. rewrite Hbc. by apply Hstay.
Qed.

Lemma handleLoginEmailCode_budget env db token code sent now db' r :
  let h := sha256Hex token in
  handleLoginEmailCode env db token code sent now = (db', r) ->
  match js_find (chal h) (login_challenges db), js_find (chal h) (login_challenges db') with
  | None, c' => is_mailed r = false /\ c' = None
  | Some c, Some c' =>
      if is_mailed r then budget c' = (h, ch_attempts c, ch_email_codes_sent c + 1, Some now) /\ ch_email_codes_sent c < EMAIL_CODES_PER_CHALLENGE /\
        (forall t, ch_email_code_sent_at c = Some t -> 0 < t -> t + EMAIL_CODE_GAP_SECONDS <= now)
      else budget c' = (h, ch_attempts c, ch_email_codes_sent c, ch_email_code_sent_at c)
  | Some _, None => False
  end.
Proof.
  intros h. unfold handleLoginEmailCode. destruct (findChallenge db token now) as [c|] eqn:Ef.
  2: { intros [= <- <-]. destruct (js_find (chal h) (login_challenges db)) as [c|] eqn:E; [|done]. apply (find_keyed ch_token_hash) in E. cbn. unfold budget. by rewrite E. }
  apply findChallenge_find in Ef as [Ef Eh]. fold h in Ef, Eh. rewrite Ef.
  assert (Hstay : budget c = (h, ch_attempts c, ch_email_codes_sent c, ch_email_code_sent_at c)) by (unfold budget; by rewrite Eh).
  destruct (is_Some_b (mailConfigProblem env)); [intros [= <- <-]; by rewrite Ef|].
  destruct (Z.leb_spec EMAIL_CODES_PER_CHALLENGE (ch_email_codes_sent c)) as [|Hlt]; [intros [= <- <-]; by rewrite Ef|].
  destruct (Z.ltb_spec 0 (if truthy (ch_email_code_sent_at c) then default 0 (ch_email_code_sent_at c) + EMAIL_CODE_GAP_SECONDS - now else 0)) as [|Hwait]; [intros [= <- <-]; by rewrite Ef|].
  destruct (findUserById db (ch_user_id c)) as [user|]; [|intros [= <- <-]; by rewrite Ef].
  unfold sendChallengeCode. set (f := fun c0 => mkChallenge _ _ _ _ _ _ _ _ _ _ _).
  assert (Hfind : js_find (chal h) (update_rows (fun c0 => String.eqb (ch_token_hash c0) (ch_token_hash c)) f (login_challenges db)) = Some (f c)).
  { rewrite find_update_rows by done. rewrite Ef. cbn [option_map]. by rewrite String.eqb_refl. }
  assert (Hmail : budget (f c) = (h, ch_attempts c, ch_email_codes_sent c + 1, Some now) /\ ch_email_codes_sent c < EMAIL_CODES_PER_CHALLENGE /\
    (forall t, ch_email_code_sent_at c = Some t -> 0 < t -> t + EMAIL_CODE_GAP_SECONDS <= now)).
  { unfold f, budget. cbn [ch_token_hash ch_attempts ch_email_codes_sent ch_email_code_sent_at]. split_and!; [by rewrite Eh|done|].
    intros t Et Ht. rewrite Et in Hwait. cbn [truthy default from_option id] in Hwait. rewrite (proj2 (Z.eqb_neq t 0)) in Hwait by lia. cbn [negb] in Hwait. lia. }
  destruct sent; intros [= <- <-]; cbn [login_challenges on_challenges]; rewrite Hfind; exact Hmail.
Qed.

(** Requests about the challenge with hash [h] handled one after another, and
    whatever leaves it as it was or removes it: how many answers were wrong, and
    when codes were e-mailed. *)
Inductive second_step (h : string) : nat -> list Z -> AccountDb -> Prop :=
| second_start db c mails :
    js_find (chal h) (login_challenges db) = Some c -> ch_attempts c = 0 -> ch_email_codes_sent c = Z.of_nat (length mails) ->
    ch_email_code_sent_at c = list.last mails -> (length mails <= 1)%nat -> Forall (Z.lt 0) mails -> second_step h 0 mails db
| second_answer wrong mails env db rq token answer trust draws nowMs db' r :
    second_step h wrong mails db -> sha256Hex token = h -> handleLoginVerify env db rq token answer trust draws nowMs = (db', r) ->
    second_step h (wrong + (if is_wrong r then 1 else 0)) mails db'
| second_mail wrong mails env db token code sent now db' r :
    second_step h wrong mails db -> sha256Hex token = h -> 0 < now -> handleLoginEmailCode env db token code sent now = (db', r) ->
    second_step h wrong (mails ++ if is_mailed r then [now] else []) db'
| second_other wrong mails db db' :
    second_step h wrong mails db ->
    js_find (chal h) (login_challenges db') = js_find (chal h) (login_challenges db) \/ js_find (chal h) (login_challenges db') = None ->
    second_step h wrong mails db'.

(** The row counts what happened, while there is one. *)
Definition counts (h : string) (wrong : nat) (mails : list Z) (db : AccountDb) : Prop :=
  Forall (Z.lt 0) mails /\ StronglySorted (fun a b => a + EMAIL_CODE_GAP_SECONDS <= b) mails /\ (length mails <= 3)%nat /\
  match js_find (chal h) (login_challenges db) with
  | Some c => budget c = (h, Z.of_nat wrong, Z.of_nat (length mails), list.last mails) /\ (wrong < 5)%nat
  | None => (wrong <= 5)%nat
  end.

Lemma second_step_counts h wrong mails db : second_step h wrong mails db -> counts h wrong mails db.
Proof.
  induction 1 as [db c mails Hf Ha Hs Ht Hl Hpos|wrong mails env db rq token answer trust draws nowMs db' r _ IH <- E|wrong mails env db token code sent now db' r _ IH <- Hnow E|wrong mails db db' _ IH Ho].
  - unfold counts. rewrite Hf. unfold budget. rewrite (find_keyed ch_token_hash _ _ _ Hf), Ha, Hs, Ht. split_and!; [done| |lia|done|lia].
    destruct mails as [|m [|? ?]]; [constructor|repeat constructor|cbn in Hl; lia].
  - destruct IH as (Hpos & Hss & Hlen & Hrow). apply handleLoginVerify_budget in E. unfold counts. split_and!; try done.
    destruct (js_find (chal _) (login_challenges db)) as [c|]; destruct (js_find (chal _) (login_challenges db')) as [c'|].
    + destruct Hrow as [Hb Hw]. destruct E as [Hb' Hlt]. unfold budget in Hb. injection Hb as _ Ha Hs Ht. rewrite Hb', Ha, Hs, Ht.
      unfold CHALLENGE_ATTEMPTS in Hlt. destruct (is_wrong r); [specialize (Hlt eq_refl)|]; (split; [repeat f_equal; lia|lia]).
    + destruct Hrow as [Hb Hw]. destruct (is_wrong r); lia.
    + by destruct E as [_ E].
    + destruct E as [-> _]. lia.
  - destruct IH as (Hpos & Hss & Hlen & Hrow). apply handleLoginEmailCode_budget in E. unfold counts.
    destruct (js_find (chal _) (login_challenges db)) as [c|]; destruct (js_find (chal _) (login_challenges db')) as [c'|]; [|done|by destruct E as [_ E]|].
    2: { destruct E as [-> _]. rewrite app_nil_r. done. }
    destruct Hrow as [Hb Hw]. unfold budget in Hb. injection Hb as _ Ha Hs Ht. destruct (is_mailed r); [|rewrite app_nil_r, E, Ha, Hs, Ht; done].
    destruct E as (-> & Hlt & Hgap). rewrite Hs in *. unfold EMAIL_CODES_PER_CHALLENGE in Hlt. rewrite length_app, last_snoc. cbn [length]. split_and!.
    + apply Forall_app. split; [done|by repeat constructor].
    + apply StronglySorted_app_2; [|done|repeat constructor]. intros a b Hin Hb. apply list_elem_of_singleton in Hb as ->.
      destruct mails as [|m l _] using rev_ind; [by apply elem_of_nil in Hin|].
      rewrite last_snoc in Ht. apply Forall_app in Hpos as [_ Hm]. apply Forall_cons_iff in Hm as [Hm _]. specialize (Hgap m Ht Hm).
      apply elem_of_app in Hin as [Hin|Hin]; [|by apply list_elem_of_singleton in Hin as ->].
      pose proof (StronglySorted_app_1_elem_of _ _ _ a m Hss Hin ltac:(constructor)). unfold EMAIL_CODE_GAP_SECONDS in *. cbn beta in *. lia.
    + lia.
    + rewrite Ha. repeat f_equal. lia.
    + done.
  - destruct IH as (Hpos & Hss & Hlen & Hrow). unfold counts. split_and!; try done. destruct Ho as [-> | ->]; [done|]. destruct (js_find _ _); [destruct Hrow; lia|done].
Qed.

(** Guesses are few. Of the requests about one challenge, handled one after
    another in any order, at most five are wrong answers that were checked, and
    at most three e-mail a code, a minute apart or more; whatever the
    account's lockout allows, the sign-in then starts over with the password. *)
Theorem second_step_bounded h wrong mails db : second_step h wrong mails db ->
  (wrong <= 5)%nat /\ (length mails <= 3)%nat /\ StronglySorted (fun a b => a + EMAIL_CODE_GAP_SECONDS <= b) mails.
Proof.
  intros Hr. destruct (second_step_counts _ _ _ _ Hr) as (_ & Hs & Hl & Hrow). split_and!; try done.
  destruct (js_find _ _); [destruct Hrow; lia|done].
Qed.

(** ** The second factor is asked for *)

Lemma issue_challenge_no_session env db user state target random code sent now db' r : issue_challenge env db user state target random code sent now = (db', r) ->
  core db' = core db /\ match r with Returns (SignedIn _ _ _ _ _) => False | _ => True end.
Proof.
  unfold issue_challenge. destruct (existsb _ _); [by intros [= <- <-]|]. destruct (negb _ && negb _); [|by intros [= <- <-]].
  unfold sendChallengeCode. by destruct sent; intros [= <- <-].
Qed.

(** A password alone does not sign in an account with a second factor. Away
    from a browser it trusts, the first step makes no session: it answers with a
    challenge, or fails. The one exception is written in the code: an account
    whose only factor is the e-mailed code, where e-mail is not set up. An
    administrator always has a second factor. *)
Theorem second_factor_asked env db rq target random code sent draws now db' r user :
  let state := factorState db user (rp_rpId (rp_of env rq)) in
  findUserById db (st_userId target) = Some user -> continueSignIn env db rq target random code sent draws now = (db', r) ->
  (isAdministratorAccount db (u_id user) (u_role user) = true -> hasSecondFactor state = true) /\
  (hasSecondFactor state = true -> trusted_browser db (st_userId target) (deviceTokenFrom rq) now = false ->
   fs_app state <> None \/ fs_passkeys state <> [] \/ mailConfigProblem env = None ->
   core db' = core db /\ match r with Returns (SignedIn _ _ _ _ _) => False | _ => True end).
Proof.
  intros state Hu E. split.
  - intros Ha. unfold hasSecondFactor, state, factorState. cbn [fs_email fs_app fs_passkeys]. rewrite Ha. cbn [orb]. by rewrite orb_true_r.
  - intros Hs Ht Hm. unfold continueSignIn in E. rewrite Hu in E. fold state in E. rewrite Hs, Ht in E. cbn [andb negb] in E.
    replace (_ && _ && _ && _) with false in E; [by apply issue_challenge_no_session in E|]. symmetry. destruct (fs_app state); [done|]. cbn [is_Some_b negb andb].
    destruct (fs_passkeys state); cbn [length Nat.eqb andb]; [|done]. destruct Hm as [?|[?| ->]]; [done|done|]. cbn. by rewrite andb_false_r.
Qed.

(** ** What the second step proves *)

(** The challenge's e-mailed code, a code of the account's app or a recovery
    code, or a passkey of the account for this site. *)
Definition answer_proves (env : Env) (db : AccountDb) (rp : RelyingParty) (c : ChallengeRow) (state : FactorState) (answer : Answer) (nowMs : Z) : Prop :=
  match answer with
  | ByCode raw =>
      let code_ := str_take 40 (trim raw) in
      ch_email_code_hash c = Some (oneTimeCodeHash (env_pepper env) (ch_token_hash c +:+ ":" +:+ code_)) \/
      exists row m, fs_app state = Some row /\ snd (checkAccountCode db row code_ nowMs) = Returns (Some m)
  | ByPasskey a =>
      exists p expected count, p ∈ fs_passkeys state /\ js_get a "id" = JsStr (pk_id p) /\ ch_passkey_challenge c = Some expected /\
        verifyPasskeyAssertion a rp expected (mkStoredKey (pk_algorithm p) (pk_public_key p)) (pk_sign_count p) = Returns count
  end.

Lemma or_null_Some s t : or_null s = Some t -> s = Some t.
Proof. destruct s as [[|a s]|]; cbn; congruence. Qed.

Lemma check_answer_proves env db rp c state answer nowMs db1 m : check_answer env db rp c state answer nowMs = (db1, Returns (inl m)) ->
  answer_proves env db rp c state answer nowMs.
Proof.
  unfold check_answer, answer_proves. destruct answer as [a|raw].
  - destruct (checkPasskeyAnswer _ _ _ _ _ _) as [db2 f] eqn:E. intros [= <- Hm]. destruct f as [f|]; [done|]. unfold checkPasskeyAnswer in E.
    destruct (or_null (ch_passkey_challenge c)) as [expected|] eqn:Ee; [|done]. destruct (negb (existsb _ _)); [done|].
    destruct (js_find _ (fs_passkeys state)) as [p|] eqn:Ep; [|done]. apply js_find_Some in Ep as [Hp Hid%is_text_iff].
    destruct (verifyPasskeyAssertion _ _ _ _ _) as [count|] eqn:Ev; [|done]. exists p, expected, count. by apply or_null_Some in Ee.
  - destruct (re_test SIX_DIGITS (str_take 40 (trim raw)) && _) eqn:Eh.
    + intros _. left. apply andb_true_iff in Eh as [_ Eh]. destruct (or_null (ch_email_code_hash c)) as [h|] eqn:Eo; [|done].
      apply timingSafeEqual_iff in Eh as <-. by apply or_null_Some.
    + destruct (fs_app state) as [row|] eqn:Er; [|done]. destruct (String.eqb _ ""); [done|]. intros E. right.
      destruct (checkAccountCode _ _ _ _) as [db2 [[m'|]|]] eqn:Ec; [|done|done]. exists row, m'. by rewrite Ec.
Qed.

Lemma completeSignIn_session env db rq target method trust draws now db' token secs dest device alerted :
  completeSignIn env db rq target method trust draws now = (db', Returns (SignedIn token secs dest device alerted)) ->
  secs = sessionSecondsFor (st_role target) /\ sessions (core db') = sessions (core db) ++
    [mkSessionRow (sessionKey token) (st_userId target) (or_null (st_tenantId target)) (st_role target) (now + secs) true].
Proof.
  unfold completeSignIn, createSession. destruct (existsb _ _); [done|]. destruct (remember_browser _ _ _ _ _ _) as [db2 al] eqn:Eb. intros [= <- E].
  apply bind_returns in E as (d & _ & [= <- <- _ _ _]). unfold remember_browser in Eb. injection Eb as <- _. done.
Qed.

(** C21. Whoever passes the second step proved it. The challenge is one the
    account was given, not expired, and gone afterwards; the account is not
    locked; the answer is the code e-mailed for this very challenge, a code of
    its app or a recovery code, or a passkey registered to it on this site that
    answered the challenge's own WebAuthn challenge; and the one session made is
    for the account, organization and role whose password was checked. *)
Theorem second_step_proved env db rq token answer trust draws nowMs db' tok secs dest device alerted :
  handleLoginVerify env db rq token answer trust draws nowMs = (db', Returns (SignedIn tok secs dest device alerted)) ->
  exists c user, js_find (chal (sha256Hex token)) (login_challenges db) = Some c /\ nowMs `div` 1000 <= ch_expires_at c /\
    findUserById db (ch_user_id c) = Some user /\ getLockoutRemaining (core db) (u_email user) (nowMs `div` 1000) <= 0 /\
    answer_proves env db (rp_of env rq) c (factorState db user (rp_rpId (rp_of env rq))) answer nowMs /\
    js_find (chal (sha256Hex token)) (login_challenges db') = None /\
    sessions (core db') = sessions (core db) ++
      [mkSessionRow (sessionKey tok) (ch_user_id c) (or_null (ch_tenant_id c)) (ch_role c) (nowMs `div` 1000 + sessionSecondsFor (ch_role c)) true].
Proof.
  unfold handleLoginVerify. destruct (findChallenge db token (nowMs `div` 1000)) as [c|] eqn:Ef; [|done].
  assert (Hexp : nowMs `div` 1000 <= ch_expires_at c).
  { unfold findChallenge in Ef. destruct (re_test BARE_HASH token); [|done]. destruct (js_find _ _) as [c'|]; [|done].
    destruct (Z.ltb_spec (ch_expires_at c') (nowMs `div` 1000)); [done|]. by injection Ef as <-. }
  apply findChallenge_find in Ef as [Ef Eh]. destruct (findUserById db (ch_user_id c)) as [user|] eqn:Eu; [|done].
  destruct (negb (hasSecondFactor _)); [done|]. destruct (Z.ltb_spec 0 (getLockoutRemaining (core db) (u_email user) (nowMs `div` 1000))) as [|Hlock]; [done|].
  unfold verify_answer. destruct (check_answer _ _ _ _ _ _ _) as [db1 checked] eqn:Ec.
  destruct checked as [[m|f]|e]; [|by unfold wrong_answer; destruct (CHALLENGE_ATTEMPTS <=? _)|done].
  intros E. exists c, user. destruct (check_answer_frame _ _ _ _ _ _ _ _ _ (sha256Hex token) Ec) as (Hcore & _ & _). apply check_answer_proves in Ec.
  unfold right_answer in E. destruct (negb (existsb _ _)); [done|]. pose proof (completeSignIn_frame _ _ _ _ _ _ _ _ _ _ E) as [El _].
  apply completeSignIn_session in E as [-> Es]. split_and!; try done.
  - rewrite El. change (login_challenges (on_core _ ?d)) with (login_challenges d). by rewrite find_delete, Eh, String.eqb_refl.
  - rewrite Es. cbn [core on_core clearLoginFailures sessions on_login_attempts delete_challenge on_challenges st_userId st_tenantId st_role]. by rewrite Hcore.
Qed.

(** ** Passkeys are few *)

Definition passkeys_ok (u : string) (db : AccountDb) : Prop :=
  NoDup (List.map rr_user_id (passkey_registrations db)) /\ (length (own_passkeys db u) <= 10)%nat /\
  (u ∈ List.map rr_user_id (passkey_registrations db) -> (length (own_passkeys db u) <= 9)%nat).

Definition same_passkeys (db db' : AccountDb) : Prop := user_passkeys db' = user_passkeys db /\ passkey_registrations db' = passkey_registrations db.

Lemma passkeys_ok_same u db db' : same_passkeys db db' -> passkeys_ok u db -> passkeys_ok u db'.
Proof. unfold same_passkeys, passkeys_ok, own_passkeys. intros [-> ->]. done. Qed.

Lemma with_password_ok u env c db k : (passkeys_ok u db -> passkeys_ok u (fst (k db))) -> passkeys_ok u db -> passkeys_ok u (fst (with_password env c db k)).
Proof. intros Hk Hok. unfold with_password. destruct (password_right env c); [by apply Hk|exact Hok]. Qed.

Lemma new_passkey_ok u env c rp state random db : passkeys_ok u db -> passkeys_ok u (fst (new_passkey env c rp state random db)).
Proof.
  intros Hok. unfold new_passkey. destruct (Z.leb_spec MAX_PASSKEYS (Z.of_nat (length (own_passkeys db (u_id (cl_user c)))))) as [|Hlt]; [done|]. unfold MAX_PASSKEYS in Hlt.
  apply with_password_ok; [|done]. clear Hok. intros (Hnd & Hlen & Hreg). cbn [fst]. unfold passkeys_ok, own_passkeys in *. cbn [user_passkeys passkey_registrations on_registrations].
  split_and!; [|done|].
  - apply upsert_keys_NoDup; [intros x; cbn; by rewrite String.eqb_eq|done|done].
  - intros Hu. apply upsert_keys_elem in Hu as [Hu| ->]; [by apply Hreg|cbn [rr_user_id]; lia|done].
Qed.

Lemma register_passkey_ok u c rp name credential db : passkeys_ok u db -> passkeys_ok u (fst (register_passkey c rp name credential db)).
Proof.
  intros Hok. unfold register_passkey. set (live_ := fun r => String.eqb (rr_user_id r) (u_id (cl_user c)) && _). set (db1 := on_registrations _ db).
  assert (Hok1 : passkeys_ok u db1).
  { destruct Hok as (Hnd & Hlen & Hreg). unfold passkeys_ok, db1. cbn [passkey_registrations user_passkeys on_registrations own_passkeys]. split_and!; [|done|].
    - apply (sublist_NoDup' _ _ (sublist_map _ _ _ (bfilter_sublist _ _)) Hnd).
    - intros Hu. apply Hreg. apply list_elem_of_fmap in Hu as (r & -> & Hr). apply elem_of_bfilter in Hr as [Hr _]. apply list_elem_of_fmap. eauto. }
  destruct (js_find live_ (passkey_registrations db)) as [begun|] eqn:Ef; [|done]. destruct (negb _); [done|].
  destruct (verifyPasskeyRegistration _ _ _) as [reg|]; [|done]. destruct (existsb _ (user_passkeys db1)); [done|].
  cbn [fst]. apply (passkeys_ok_same u (on_passkeys (fun l => l ++ [mkPasskey (rg_credentialId reg) (u_id (cl_user c)) (rp_rpId rp) (sk_jwk (rg_key reg)) (sk_alg (rg_key reg))
    (rg_signCount reg) (passkey_name name) (cl_now c) None]) db1)); [done|].
  apply js_find_Some in Ef as [Hin Hlive]. assert (Hb : rr_user_id begun = u_id (cl_user c)) by (apply andb_true_iff in Hlive as [E _]; by apply String.eqb_eq).
  destruct Hok as (Hnd & Hlen & Hreg). destruct Hok1 as (Hnd1 & _ & Hreg1). unfold passkeys_ok, own_passkeys in *. cbn [passkey_registrations user_passkeys on_passkeys] in *.
  rewrite List.filter_app, length_app. cbn [List.filter pk_user_id]. destruct (String.eqb_spec (u_id (cl_user c)) u) as [E|E]; cbn [length].
  - assert (Hu : u ∈ List.map rr_user_id (passkey_registrations db)) by (apply list_elem_of_fmap; exists begun; by rewrite Hb). specialize (Hreg Hu).
    split_and!; [done|unfold db1; cbn [user_passkeys on_registrations]; lia|]. intros Hu1. exfalso.
    apply list_elem_of_fmap in Hu1 as (r & Hr & Hin1). unfold db1 in Hin1. cbn [passkey_registrations on_registrations] in Hin1. apply elem_of_bfilter in Hin1 as [Hin1 Hnl].
    assert (r = begun) as -> by (apply (map_NoDup_inj rr_user_id _ _ _ Hnd Hin1 Hin); congruence). apply negb_true_iff in Hnl. unfold live_ in Hlive. congruence.
  - rewrite Nat.add_0_r. done.
Qed.

Lemma delete_passkey_ok u env c state id db : passkeys_ok u db -> passkeys_ok u (fst (delete_passkey env c state id db)).
Proof.
  intros Hok. unfold delete_passkey. destruct (_ || _); [done|]. apply with_password_ok; [|done]. clear Hok. intros (Hnd & Hlen & Hreg). cbn [fst].
  set (db1 := on_passkeys _ db). assert (Hok1 : passkeys_ok u db1).
  { assert (Hle : (length (own_passkeys db1 u) <= length (own_passkeys db u))%nat).
    { unfold own_passkeys, db1. cbn [user_passkeys on_passkeys]. rewrite bfilter_comm. apply bfilter_length_le. }
    unfold passkeys_ok. cbn [passkey_registrations db1 on_passkeys]. split_and!; [done|lia|]. intros Hu. specialize (Hreg Hu). lia. }
  revert Hok1. apply passkeys_ok_same. by destruct (_ && _ && _).
Qed.

Lemma with_code_same env c row typed db k : (forall d, same_passkeys d (fst (k d))) -> same_passkeys db (fst (with_code env c row typed db k)).
Proof.
  intros Hk. unfold with_code. destruct row as [r|]; [|done]. destruct (truthy _); [|done]. destruct (password_right env c); [|done].
  destruct (checkAccountCode _ _ _ _) as [db1 proved] eqn:E.
  assert (Hc : same_passkeys db db1) by (unfold checkAccountCode in E; repeat (case_match; simplify_eq; try done)).
  destruct proved as [[m|]|]; [|done|done]. set (d := on_core _ db1). specialize (Hk d). destruct (k d) as [db2 reply]. cbn [fst] in *.
  destruct Hc as [E1 E2], Hk as [E3 E4]. split; cbn [fst]; [by etransitivity; [exact E3|exact E1]|by etransitivity; [exact E4|exact E2]].
Qed.

(** What accounts do to their own factors, in any order, with anything that
    leaves passkeys and registrations alone or removes some. *)
Inductive factor_run (u : string) : AccountDb -> Prop :=
| factors_start db : user_passkeys db = [] -> passkey_registrations db = [] -> factor_run u db
| factors_change env db rq c action : factor_run u db -> factor_run u (fst (handleTwoFactorRoute env db rq c action))
| factors_other db db' : factor_run u db -> sublist (List.map pk_user_id (user_passkeys db')) (List.map pk_user_id (user_passkeys db)) ->
    sublist (List.map rr_user_id (passkey_registrations db')) (List.map rr_user_id (passkey_registrations db)) -> factor_run u db'.

Lemma handleTwoFactorRoute_ok u env db rq c action : passkeys_ok u db -> passkeys_ok u (fst (handleTwoFactorRoute env db rq c action)).
Proof.
  intros Hok. unfold handleTwoFactorRoute. destruct (0 <? _); [done|]. destruct action; cbn [fst].
  - unfold set_email. destruct enabled as [enable|]; [|done]. destruct (_ && _); [done|]. destruct (_ && _); [done|]. apply with_password_ok; [|done]. clear Hok.
    intros Hok. destruct (Bool.eqb _ _); [done|]. cbn [fst]. revert Hok. apply passkeys_ok_same. destruct enable; [done|]. by destruct (_ && _).
  - by apply new_passkey_ok.
  - by apply register_passkey_ok.
  - by apply delete_passkey_ok.
  - unfold setup_app. match goal with |- passkeys_ok _ (fst (if ?b then _ else _)) => destruct b; [done|] end. apply with_password_ok; [|done]. done.
  - unfold enable_app. destruct (findTwoFactor _ _) as [r|]; [|done]. destruct (truthy _); [done|]. destruct (matchTotp _ _ _ _) as [[step|]|]; [|done|done]. by destruct (negb _).
  - revert Hok. apply passkeys_ok_same, with_code_same. done.
  - revert Hok. apply passkeys_ok_same, with_code_same. done.
Qed.

(** With requests handled one after another, an account never has more than
    ten passkeys, although the limit is checked when a registration starts and
    not when it ends: a registration is spent when it ends, and an account has
    one at a time. *)
Theorem passkeys_bounded u db : factor_run u db -> (length (own_passkeys db u) <= 10)%nat.
Proof.
  intros Hr. enough (passkeys_ok u db) as (_ & ? & _) by done. induction Hr as [db Hp Hq|env db rq c action _ IH|db db' _ (Hnd & Hlen & Hreg) Hp Hq].
  - unfold passkeys_ok, own_passkeys. rewrite Hp, Hq. split_and!; [constructor|cbn; lia|]. by intros ?%elem_of_nil.
  - by apply handleTwoFactorRoute_ok.
  - assert (Hle : (length (own_passkeys db' u) <= length (own_passkeys db u))%nat).
    { unfold own_passkeys. rewrite <- !(length_map pk_user_id), !(map_bfilter pk_user_id _ (fun x => String.eqb x u)) by done. by apply sublist_length, sublist_bfilter. }
    unfold passkeys_ok. split_and!; [by apply (sublist_NoDup' _ _ Hq)|lia|]. intros Hu. apply (sublist_elem _ _ _ Hq) in Hu. specialize (Hreg Hu). lia.
Qed.

End Challenges.

(** ** Runs *)

(** An app whose code is the step itself. *)
Definition toy_hmac : HmacSha1 := {| hmacSha1 := fun _ counter => drop 4 counter ++ replicate 16 0 |}.

#[local] Existing Instance toy_crypto.
#[local] Existing Instance toy_hmac.
#[local] Existing Instance ascii_decoder.
#[local] Existing Instance toy_passkeys.
#[local] Existing Instance toy_sealing.
#[local] Existing Instance toy_url.

Definition no_core : D1Database := empty_db.
Definition demo_user : User := mkUser "u1" "ada@example.org" "" "" super_admin "Ada" 0.
Definition demo_row : TwoFactorRow := mkTwoFactor "u1" "MFRGG" (Some 1) 90 ["hrecovery:abcdefghjk"%string] 1.
Definition demo_db (app : list TwoFactorRow) (challenges : list ChallengeRow) : AccountDb := mkAccounts no_core [demo_user] app challenges [] [] [] [].
Definition demo_env : Env := mkEnv "pepper" None None.
Definition demo_request : Request := mkRequest (default (mkURL "" "" "" "" "" "" "" "" "" "") (toy_parse "https://labkiosk.org/")) None "Browser" None.
Definition demo_draws : Draws := mkDraws [1; 2] [3; 4] [5].
Definition demo_token : string := String.string_of_list_ascii (replicate 64 "a"%char).
Definition demo_challenge : ChallengeRow :=
  mkChallenge ("h" +:+ demo_token) "u1" None super_admin "/admin" 0 None 0 None 10000 None.

(** The app's code at step 100, the same code again from a request that read the
    account before, and a recovery code. *)
Lemma codes_work_once_witness :
  exists seen db cur, code_run "u1" demo_row seen
      [("000 100"%string, 3000000, SpentStep 100); ("ABCDE-fghjk"%string, 3000000, SpentCode "hrecovery:abcdefghjk")] db /\
    findTwoFactor db "u1" = Some cur /\ StronglySorted Z.lt [90; 100] /\ tf_recovery_codes cur = [].
Proof.
  set (db0 := demo_db [demo_row] []). set (db1 := fst (checkAccountCode db0 demo_row "000 100" 3000000)).
  set (db2 := fst (checkAccountCode db1 demo_row "000100" 3000000)). set (db3 := fst (checkAccountCode db2 demo_row "ABCDE-fghjk" 3000000)).
  assert (H0 : code_run "u1" demo_row [demo_row] [] db0) by (apply codes_start; [apply NoDup_singleton|reflexivity]).
  set (row1 := mkTwoFactor "u1" "MFRGG" (Some 1) 100 ["hrecovery:abcdefghjk"%string] 1). set (row3 := mkTwoFactor "u1" "MFRGG" (Some 1) 100 [] 1).
  assert (H1 : code_run "u1" demo_row [row1; demo_row] [("000 100"%string, 3000000, SpentStep 100)] db1)
    by (apply (codes_check "u1" demo_row _ _ _ demo_row "000 100" 3000000 _ (Returns (Some by_totp)) row1 H0); [constructor|vm_compute; reflexivity|vm_compute; reflexivity]).
  assert (H2 : code_run "u1" demo_row [row1; row1; demo_row] ([("000 100"%string, 3000000, SpentStep 100)] ++ []) db2)
    by (apply (codes_check "u1" demo_row _ _ _ demo_row "000100" 3000000 _ (Returns None) row1 H1); [right; constructor|vm_compute; reflexivity|vm_compute; reflexivity]).
  assert (H3 : code_run "u1" demo_row [row3; row1; row1; demo_row]
      [("000 100"%string, 3000000, SpentStep 100); ("ABCDE-fghjk"%string, 3000000, SpentCode "hrecovery:abcdefghjk")] db3)
    by (apply (codes_check "u1" demo_row _ _ _ demo_row "ABCDE-fghjk" 3000000 _ (Returns (Some by_recovery)) row3 H2); [do 2 right; constructor|vm_compute; reflexivity|vm_compute; reflexivity]).
  assert (Hf : findTwoFactor db3 "u1" = Some row3) by (vm_compute; reflexivity).
  exists [row3; row1; row1; demo_row], db3, row3. split; [exact H3|]. split; [exact Hf|]. split; [|reflexivity].
  exact (proj1 (codes_work_once "u1" demo_row _ _ db3 row3 H3 Hf)).
Defined.

(** Two right answers to one challenge, both of which read it before either wrote. *)
Definition two_answers : AccountDb * AccountDb :=
  let db0 := demo_db [demo_row] [demo_challenge] in
  let state := factorState db0 demo_user "labkiosk.org" in
  let answer db typed := fst (verify_answer demo_env db demo_request demo_user demo_challenge state (ByCode typed) false demo_draws 3000000) in
  let db1 := answer db0 "000100"%string in (db1, answer db1 "abcde-fghjk"%string).

Lemma challenge_one_session_witness :
  challenge_run ("h" +:+ demo_token) 1 (snd two_answers) /\ (1 <= 1)%nat /\ length (sessions (core (snd two_answers))) = 1%nat.
Proof.
  set (db0 := demo_db [demo_row] [demo_challenge]). set (state := factorState db0 demo_user "labkiosk.org").
  pose proof (challenge_start ("h" +:+ demo_token) db0) as H0.
  pose proof (challenge_answer _ _ demo_env db0 demo_request demo_user demo_challenge state (ByCode "000100") false demo_draws 3000000 _ _ H0 eq_refl (surjective_pairing _)) as H1.
  pose proof (challenge_answer _ _ demo_env (fst two_answers) demo_request demo_user demo_challenge state (ByCode "abcde-fghjk") false demo_draws 3000000 _ _ H1 eq_refl (surjective_pairing _)) as H2.
  assert (Hr : challenge_run ("h" +:+ demo_token) 1 (snd two_answers)).
  { match type of H2 with challenge_run _ ?n ?d => replace 1%nat with n by (vm_compute; reflexivity); replace (snd two_answers) with d by (vm_compute; reflexivity) end. exact H2. }
  split; [exact Hr|]. split; [exact (challenge_one_session _ _ _ Hr)|vm_compute; reflexivity].
Defined.

(** Six wrong answers that all read the challenge before any was counted are
    counted as one: the count is written, not added to, so the five of a
    challenge bound answers handled one after another. *)
Example attempts_race :
  let db0 := demo_db [demo_row] [demo_challenge] in
  option_map ch_attempts (js_find (keyed ch_token_hash ("h" +:+ demo_token))
    (login_challenges (Nat.iter 6 (fun db => fst (wrong_answer db demo_user demo_challenge "wrong" 3000)) db0))) = Some 1.
Proof. vm_compute. reflexivity. Qed.

(** A wrong answer, then a code e-mailed, then another asked for too early. *)
Lemma second_step_bounded_witness :
  exists db, second_step ("h" +:+ demo_token) 1 [3000] db /\ (1 <= 5)%nat /\ (length [3000] <= 3)%nat.
Proof.
  set (db0 := demo_db [demo_row] [demo_challenge]).
  assert (H0 : second_step ("h" +:+ demo_token) 0 [] db0) by (apply (second_start _ _ demo_challenge); try reflexivity; [cbn; lia|constructor]).
  pose proof (second_answer _ _ _ demo_env db0 demo_request demo_token (ByCode "000777") false demo_draws 3000000 _ _ H0 eq_refl (surjective_pairing _)) as H1.
  set (db1 := fst (handleLoginVerify demo_env db0 demo_request demo_token (ByCode "000777") false demo_draws 3000000)) in *.
  pose proof (second_mail _ _ _ demo_env db1 demo_token 4711 true 3000 _ _ H1 eq_refl ltac:(lia) (surjective_pairing _)) as H2.
  set (db2 := fst (handleLoginEmailCode demo_env db1 demo_token 4711 true 3000)) in *.
  pose proof (second_mail _ _ _ demo_env db2 demo_token 4712 true 3030 _ _ H2 eq_refl ltac:(lia) (surjective_pairing _)) as H3.
  set (db3 := fst (handleLoginEmailCode demo_env db2 demo_token 4712 true 3030)) in *.
  assert (Hr : second_step ("h" +:+ demo_token) 1 [3000] db3).
  { match type of H3 with second_step _ ?w ?m _ => replace 1%nat with w by (vm_compute; reflexivity); replace [3000] with m by (vm_compute; reflexivity) end. exact H3. }
  exists db3. split; [exact Hr|]. destruct (second_step_bounded _ _ _ _ Hr) as (Hw & Hm & _). split; [exact Hw|exact Hm].
Defined.

(** A super admin with an app signs in with the right password from a new browser. *)
Lemma second_factor_asked_witness :
  let r := continueSignIn demo_env (demo_db [demo_row] []) demo_request (mkTarget "u1" None super_admin "/admin") [9] 0 true demo_draws 3000 in
  core (fst r) = no_core /\ length (login_challenges (fst r)) = 1%nat.
Proof.
  intros r. split; [|vm_compute; reflexivity].
  refine (proj1 (proj2 (second_factor_asked demo_env (demo_db [demo_row] []) demo_request (mkTarget "u1" None super_admin "/admin") [9] 0 true demo_draws 3000
    (fst r) (snd r) demo_user eq_refl (surjective_pairing r)) _ _ _)); [vm_compute; reflexivity|vm_compute; reflexivity|left; vm_compute; discriminate].
Defined.

Lemma second_step_proved_witness :
  exists c user, js_find (keyed ch_token_hash ("h" +:+ demo_token)) [demo_challenge] = Some c /\ findUserById (demo_db [demo_row] [demo_challenge]) (ch_user_id c) = Some user.
Proof.
  pose (r := handleLoginVerify demo_env (demo_db [demo_row] [demo_challenge]) demo_request demo_token (ByCode "000100") false demo_draws 3000000).
  assert (Hr : exists tok secs dest device alerted, snd r = Returns (SignedIn tok secs dest device alerted)) by (vm_compute; do 5 eexists; reflexivity).
  destruct Hr as (tok & secs & dest & device & alerted & Hr).
  destruct (second_step_proved demo_env (demo_db [demo_row] [demo_challenge]) demo_request demo_token (ByCode "000100") false demo_draws 3000000 (fst r) tok secs dest device alerted)
    as (c & user & Hc & _ & Hu & _); [rewrite <- Hr; apply surjective_pairing|].
  exists c, user. split; [exact Hc|exact Hu].
Defined.

(** The owner of the account starts a registration and lets it be. *)
Lemma passkeys_bounded_witness :
  exists db, factor_run "u1" db /\ (length (own_passkeys db "u1") <= 10)%nat.
Proof.
  pose proof (factors_change "u1" demo_env (demo_db [] []) demo_request (mkCaller demo_user None None "" 3000000) (NewPasskey [1; 2; 3]) (factors_start "u1" (demo_db [] []) eq_refl eq_refl)) as Hr.
  eexists. split; [exact Hr|]. exact (passkeys_bounded "u1" _ Hr).
Defined.
