(* ===== verification/SsoToken.v ===== *)
(** src/cloudflare-control/src/sso.ts, its settings, the check of an ID token and
    the cache of signing keys, with canonicalHost of seo.ts.

    The lists of a settings row are stored as JSON texts: the model keeps the
    lists. RSA, JSON and UTF-8 are an interface ([TokenCrypto]); what the
    provider answers when its keys are read is an argument. *)
From S2P Require Import Prelude JsString Regex Platform Escape Db Guard Auth Handoff WebAuthn TwoFactor.

Inductive SsoProvider : Type := google | microsoft.
#[export] Instance SsoProvider_eq_dec : EqDecision SsoProvider.
Proof. solve_decision. Defined.

Definition SSO_PROVIDERS : list SsoProvider := [google; microsoft].
Definition SSO_CALLBACK_PATH : string := "/api/auth/sso/callback".
Definition STATE_SECONDS : Z := 10 * 60.
Definition SSO_HANDOFF_SECONDS : Z := 2 * 60.
Definition START_PER_ADDRESS : Z := 30.
Definition START_WINDOW : Z := 10 * 60.
Definition CLOCK_SKEW_SECONDS : Z := 120.
Definition MAX_ALLOWED_ENTRIES : nat := 20.
Definition MAX_ID_TOKEN_LENGTH : nat := 16 * 1024.
Definition MICROSOFT_CONSUMER_TENANT : string := "9188040d-6c67-4c5b-b112-36a304b66dad".
Definition CONSUMER_GOOGLE_DOMAINS : list string := ["gmail.com"; "googlemail.com"]%string.

Definition ssoProviderLabel (p : SsoProvider) : string := match p with google => "Google" | microsoft => "Microsoft" end.
Definition isSsoProvider (value : option string) : option SsoProvider :=
  match value with
  | Some s => if String.eqb s "google" then Some google else if String.eqb s "microsoft" then Some microsoft else None
  | None => None
  end.
Definition provider_text (p : SsoProvider) : string := match p with google => "google" | microsoft => "microsoft" end.

Definition authorize_url (p : SsoProvider) : string :=
  match p with google => "https://accounts.google.com/o/oauth2/v2/auth" | microsoft => "https://login.microsoftonline.com/organizations/oauth2/v2.0/authorize" end.

(** ** The platform's clients *)

Record SsoEnv : Type := mkSsoEnv {
  GOOGLE_CLIENT_ID : string;
  GOOGLE_CLIENT_SECRET : string;
  MICROSOFT_CLIENT_ID : string;
  MICROSOFT_CLIENT_SECRET : string;
  DEFAULT_DOMAIN : string;
  CANONICAL_HOST : string
}.

Definition clientCredentials (env : SsoEnv) (p : SsoProvider) : option (string * string) :=
  let id := trim (match p with google => GOOGLE_CLIENT_ID env | microsoft => MICROSOFT_CLIENT_ID env end) in
  let secret := trim (match p with google => GOOGLE_CLIENT_SECRET env | microsoft => MICROSOFT_CLIENT_SECRET env end) in
  if negb (String.eqb id "") && negb (String.eqb secret "") then Some (id, secret) else None.

Definition ssoProviderAvailable (env : SsoEnv) (p : SsoProvider) : bool := is_Some_b (clientCredentials env p).

Definition DOMAIN_BODY : re := RCat (RPlus (RCat RLabel (RChar "."))) (RBetween 2 63 (RClass is_lower)).
Definition DOMAIN_PATTERN (s : string) : bool := (1 <=? String.length s)%nat && (String.length s <=? 253)%nat && re_test DOMAIN_BODY s.
Definition TENANT_ID_PATTERN : re :=
  let hex (n : nat) := RRep n (RClass is_lower_hex) in
  RCat (hex 8%nat) (RCat (RChar "-") (RCat (hex 4%nat) (RCat (RChar "-") (RCat (hex 4%nat) (RCat (RChar "-") (RCat (hex 4%nat) (RCat (RChar "-") (hex 12%nat)))))))).

Definition base_domain (env : SsoEnv) : string := toLowerCase (Handoff.strip_dot (DEFAULT_DOMAIN env)).

Definition canonicalHost (env : SsoEnv) : js_result (option string) :=
  let base := base_domain env in
  let configured := toLowerCase (trim (CANONICAL_HOST env)) in
  if String.eqb base "" then
    if String.eqb configured "" then Returns None else Throws "CANONICAL_HOST is set but DEFAULT_DOMAIN is not; set DEFAULT_DOMAIN too"
  else if String.eqb configured "" then Returns (Some base)
  else if negb (DOMAIN_PATTERN configured) || (negb (String.eqb configured base) && negb (endsWith configured ("." +:+ base))) then
    Throws ("CANONICAL_HOST " +:+ quote_mark +:+ configured +:+ quote_mark +:+ " must be " +:+ base +:+ " or a host name under it")
  else Returns (Some configured).

Definition ssoRedirectUri (env : SsoEnv) (url_origin_ : string) (isDev : bool) : js_result (option string) :=
  if isDev then Returns (Some (url_origin_ +:+ SSO_CALLBACK_PATH))
  else
    match canonicalHost env with
    | Throws e => Throws e
    | Returns host => Returns (option_map (fun h => "https://" +:+ h +:+ SSO_CALLBACK_PATH) host)
    end.

(** ** The organization's settings *)

Record SsoSettings : Type := mkSsoSettings { googleEnabled : bool; googleDomains : list string; microsoftEnabled : bool; microsoftTenants : list string; requireSso : bool }.
Record SsoSettingsRow : Type := mkSsoRow { sr_tenant_id : string; sr_settings : SsoSettings; sr_updated_at : Z; sr_updated_by : option string }.

Definition NO_SETTINGS : SsoSettings := mkSsoSettings false [] false [] false.

Definition getSsoSettings (rows : list SsoSettingsRow) (tenantId : string) : SsoSettings :=
  match js_find (fun r => String.eqb (sr_tenant_id r) tenantId) rows with Some r => sr_settings r | None => NO_SETTINGS end.

Definition enabledIn (s : SsoSettings) (p : SsoProvider) : bool :=
  match p with
  | google => googleEnabled s && negb (length (googleDomains s) =? 0)%nat
  | microsoft => microsoftEnabled s && negb (length (microsoftTenants s) =? 0)%nat
  end.

Definition offeredProviders (env : SsoEnv) (s : SsoSettings) : list SsoProvider := List.filter (fun p => enabledIn s p && ssoProviderAvailable env p) SSO_PROVIDERS.

Definition ssoButtonsFor (env : SsoEnv) (rows : list SsoSettingsRow) (tenant : option Tenant) : list SsoProvider :=
  match tenant with
  | Some t => if bool_decide (t_status t = active) then offeredProviders env (getSsoSettings rows (t_id t)) else []
  | None => []
  end.

Definition passwordSignInRefusal (env : SsoEnv) (rows : list SsoSettingsRow) (userId : string) (role : UserRole) (tenant : option Tenant) : option string :=
  match tenant with
  | None => None
  | Some t =>
      if bool_decide (role = super_admin) || String.eqb (t_user_id t) userId then None
      else
        let settings := getSsoSettings rows (t_id t) in
        if negb (requireSso settings) then None
        else
          match offeredProviders env settings with
          | [] => None
          | (first :: _) as offered =>
              Some (t_name t +:+ " signs its staff in with " +:+ join " or " (List.map ssoProviderLabel offered) +:+ ". Use " +:+ quote_mark +:+ "Continue with " +:+ ssoProviderLabel first
                    +:+ quote_mark +:+ " on your organization's sign-in page.")
          end
  end.

(** The entries of a list so far. *)
Fixpoint clean_items (check : string -> option string) (field : string) (value : list jsval) (out : list string) : js_result (list string) :=
  match value with
  | [] => Returns out
  | JsStr raw :: rest =>
      let item := toLowerCase (trim raw) in
      if String.eqb item "" then clean_items check field rest out
      else
        match check item with
        | Some problem => Throws problem
        | None => clean_items check field rest (if bool_decide (item ∈ out) then out else out ++ [item])
        end
  | _ :: _ => Throws (field +:+ " holds text only")
  end.

Definition cleanList (value : jsval) (field : string) (check : string -> option string) : js_result (list string) :=
  match value with
  | JsArr l =>
      out ← clean_items check field l [];
      _ ← throw_if (MAX_ALLOWED_ENTRIES <? length out)%nat (field +:+ " holds at most 20 entries");
      Returns out
  | _ => Throws (field +:+ " is a list")
  end.

Definition google_domain_problem (d : string) : option string :=
  if negb (DOMAIN_PATTERN d) then Some (quote_mark +:+ str_take 80 d +:+ quote_mark +:+ " is not a domain name")
  else if bool_decide (d ∈ CONSUMER_GOOGLE_DOMAINS) then Some (d +:+ " is for personal Google accounts; name your Google Workspace domain")
  else None.

Definition tenant_id_problem (t : string) : option string :=
  if negb (re_test TENANT_ID_PATTERN t) then
    Some (quote_mark +:+ str_take 80 t +:+ quote_mark +:+ " is not an Entra tenant id (a GUID such as 72f988bf-86f1-41af-91ab-2d7cd011db47)")
  else if String.eqb t MICROSOFT_CONSUMER_TENANT then Some "That tenant id is the one for personal Microsoft accounts; name your organization's directory"%string
  else None.

(** A member that is missing is an empty list. *)
Definition or_empty (v : jsval) : jsval := if is_nullish v then JsArr [] else v.

Definition read_bool (v : jsval) (problem : string) : js_result bool := match v with JsBool b => Returns b | _ => Throws problem end.

Definition parseSsoSettings (body : jsval) : js_result SsoSettings :=
  _ ← throw_if (negb (is_object body)) "The request body must be a JSON object";
  let g := js_get body "google" in
  let m := js_get body "microsoft" in
  gEnabled ← read_bool (js_get g "enabled") "google.enabled is true or false";
  mEnabled ← read_bool (js_get m "enabled") "microsoft.enabled is true or false";
  required ← read_bool (js_get body "requireSso") "requireSso is true or false";
  domains ← cleanList (or_empty (js_get g "domains")) "google.domains" google_domain_problem;
  tenants ← cleanList (or_empty (js_get m "tenants")) "microsoft.tenants" tenant_id_problem;
  _ ← throw_if (gEnabled && (length domains =? 0)%nat) "Name at least one Google Workspace domain to turn Google sign-in on";
  _ ← throw_if (mEnabled && (length tenants =? 0)%nat) "Name at least one Entra tenant id to turn Microsoft sign-in on";
  _ ← throw_if (required && negb gEnabled && negb mEnabled) "Turn a provider on before requiring single sign-on";
  Returns (mkSsoSettings gEnabled domains mEnabled tenants required).

Definition administers (db : AccountDb) (tenant : Tenant) (userId : string) (role : UserRole) : bool :=
  bool_decide (role = super_admin) || String.eqb (t_user_id tenant) userId ||
  existsb (fun m => String.eqb (tu_tenant_id m) (t_id tenant) && String.eqb (tu_user_id m) userId && match tu_role m with tu_org_admin => true | _ => false end) (tenant_users (core db)).

Definition describeSettings (s : SsoSettings) : string :=
  let on (b : bool) := if b then "on"%string else "off"%string in
  let list l := default "-"%string (nonempty (join "," l)) in
  join " " ["google=" +:+ on (googleEnabled s); "google_domains=" +:+ list (googleDomains s); "microsoft=" +:+ on (microsoftEnabled s);
            "microsoft_tenants=" +:+ list (microsoftTenants s); "require_sso=" +:+ on (requireSso s)]%string.

(** ** ID tokens *)

(** [importKey] of a modulus and an exponent, none where it throws; the key says
    whether a signature of some bytes verifies (RSASSA-PKCS1-v1_5, SHA-256). *)
Class TokenCrypto : Type := { rsa_key : string -> string -> option (list Z -> list Z -> bool) }.

(** What checking gives: a value, an SsoError with its reason, or another error. *)
Inductive sso_result (A : Type) : Type := SsoOk (a : A) | SsoFail (reason : string) | SsoThrow.
Arguments SsoOk {A} a.
Arguments SsoFail {A} reason.
Arguments SsoThrow {A}.

#[export] Instance sso_bind : MBind sso_result := fun A B f m => match m with SsoOk a => f a | SsoFail r => SsoFail r | SsoThrow => SsoThrow end.
Definition sso_check (ok : bool) (reason : string) : sso_result unit := if ok then SsoOk tt else SsoFail reason.

(** Its characters are checked, and [atob] throws another error. *)
Definition sso_fromBase64url (value : string) : sso_result (list Z) :=
  if negb (str_forallb is_b64url value) then SsoFail "malformed"
  else
    match atob (str_map from_url value +:+ repeat_char "=" ((4 - String.length value mod 4) mod 4)) with
    | Some bytes => SsoOk bytes
    | None => SsoThrow
    end.

Record SsoIdentity : Type := mkIdentity { id_provider : SsoProvider; id_email : string; id_subject : string; id_directory : string }.

Record IdTokenExpectations : Type := mkExpect { ex_provider : SsoProvider; ex_clientId : string; ex_nonce : string; ex_googleDomains : list string; ex_microsoftTenants : list string; ex_now : Z }.

Definition EMAIL_PATTERN : re :=
  let part := RClass (fun c => negb (is_space c) && negb (is_char "@" c)) in RCat (RBetween 1 64 part) (RCat (RChar "@") (RBetween 1 255 part)).

(** [v + k < at] and [v - k > at] of a number of JSON and integers. *)
Definition number_below (v : jsval) (k at_ : Z) : option bool :=
  match v with JsInt z => Some (z + k <? at_) | JsFrac f => Some (f + k <? at_) | _ => None end.
Definition number_above (v : jsval) (k at_ : Z) : option bool :=
  match v with JsInt z => Some (at_ <? z - k) | JsFrac f => Some (at_ <=? f - k) | _ => None end.

(** A member that is set to something else. *)
Definition set_otherwise (v : jsval) (s : string) : bool :=
  match v with
  | JsUndefined | JsNull => false
  | JsBool b => b
  | JsInt z => negb (z =? 0)
  | JsStr t => negb (String.eqb t "") && negb (String.eqb t s)
  | _ => true
  end.

Definition lower_text (v : jsval) : string := match v with JsStr s => toLowerCase s | _ => ""%string end.
Definition trimmed_lower (v : jsval) : string := match v with JsStr s => toLowerCase (trim s) | _ => ""%string end.

Section Tokens.
Context `{Sealing} `{TokenCrypto}.

Definition decodeJson (part : string) : sso_result jsval :=
  match sso_fromBase64url part with
  | SsoFail r => SsoFail r
  | SsoThrow => SsoFail "malformed"
  | SsoOk bytes =>
      match json_parse (utf8_decode bytes) with
      | Some (JsObj fields) => SsoOk (JsObj fields)
      | _ => SsoFail "malformed"
      end
  end.

(** The key a token names, read as a key for RS256. *)
Definition signing_key (jwk : option jsval) : sso_result (list Z -> list Z -> bool) :=
  match jwk with
  | None => SsoFail "unknown_key"
  | Some k =>
      match (if is_text (js_get k "kty") "RSA" then Some tt else None), js_get k "n", js_get k "e" with
      | Some _, JsStr n, JsStr e =>
          if set_otherwise (js_get k "alg") "RS256" || set_otherwise (js_get k "use") "sig" then SsoFail "unknown_key"
          else match rsa_key n e with Some verify => SsoOk verify | None => SsoFail "unknown_key" end
      | _, _, _ => SsoFail "unknown_key"
      end
  end.

Definition audience_ok (claims : jsval) (clientId : string) : bool :=
  match js_get claims "aud" with
  | JsArr l => existsb (fun v => is_text v clientId) l && ((length l <=? 1)%nat || is_text (js_get claims "azp") clientId)
  | v => is_text v clientId
  end.

Definition times_ok (claims : jsval) (at_ : Z) : sso_result unit :=
  _ ← sso_check (match number_below (js_get claims "exp") CLOCK_SKEW_SECONDS at_ with Some b => negb b | None => false end) "expired";
  _ ← sso_check (match number_above (js_get claims "iat") CLOCK_SKEW_SECONDS at_ with Some b => negb b | None => false end) "issued_later";
  sso_check (match js_get claims "nbf" with JsUndefined => true | v => match number_above v CLOCK_SKEW_SECONDS at_ with Some b => negb b | None => false end end) "not_yet_valid".

(** Who the claims are about, and in which directory of the provider. *)
Definition google_identity (expect : IdTokenExpectations) (claims : jsval) (sub : string) : sso_result SsoIdentity :=
  _ ← sso_check (is_text (js_get claims "iss") "https://accounts.google.com" || is_text (js_get claims "iss") "accounts.google.com") "issuer";
  _ ← sso_check (match js_get claims "email_verified" with JsBool b => b | JsStr s => String.eqb s "true" | _ => false end) "email_unverified";
  let hd := lower_text (js_get claims "hd") in
  _ ← sso_check (negb (String.eqb hd "") && bool_decide (hd ∈ ex_googleDomains expect)) "directory";
  let email := trimmed_lower (js_get claims "email") in
  _ ← sso_check (re_test EMAIL_PATTERN email) "no_email";
  SsoOk (mkIdentity google email sub hd).

Definition microsoft_identity (expect : IdTokenExpectations) (claims : jsval) (sub : string) : sso_result SsoIdentity :=
  let tid := lower_text (js_get claims "tid") in
  _ ← sso_check (re_test TENANT_ID_PATTERN tid) "issuer";
  _ ← sso_check (is_text (js_get claims "iss") ("https://login.microsoftonline.com/" +:+ tid +:+ "/v2.0")) "issuer";
  _ ← sso_check (bool_decide (tid ∈ ex_microsoftTenants expect)) "directory";
  let mail := trimmed_lower (js_get claims "email") in
  let email := if String.eqb mail "" then trimmed_lower (js_get claims "preferred_username") else mail in
  _ ← sso_check (re_test EMAIL_PATTERN email) "no_email";
  SsoOk (mkIdentity microsoft email sub tid).

(** [resolveKey]: the key the provider publishes under a name. *)
Definition verifyIdToken (idToken : string) (expect : IdTokenExpectations) (resolveKey : SsoProvider -> string -> sso_result (option jsval)) : sso_result SsoIdentity :=
  _ ← sso_check (String.length idToken <=? MAX_ID_TOKEN_LENGTH)%nat "malformed";
  match split_on "." idToken with
  | [p0; p1; p2] =>
      header ← decodeJson p0;
      _ ← sso_check (is_text (js_get header "alg") "RS256") "algorithm";
      kid ← match js_get header "kid" with JsStr k => if String.eqb k "" || (256 <? String.length k)%nat then SsoFail "unknown_key" else SsoOk k | _ => SsoFail "unknown_key" end;
      jwk ← resolveKey (ex_provider expect) kid;
      verify ← signing_key jwk;
      signature ← sso_fromBase64url p2;
      _ ← sso_check (verify signature (utf8_encode (p0 +:+ "." +:+ p1))) "signature";
      claims ← decodeJson p1;
      _ ← sso_check (audience_ok claims (ex_clientId expect)) "audience";
      _ ← times_ok claims (ex_now expect);
      _ ← sso_check (match js_get claims "nonce" with JsStr n => timingSafeEqual n (ex_nonce expect) | _ => false end) "nonce";
      sub ← match js_get claims "sub" with JsStr s => if String.eqb s "" then SsoFail "malformed" else SsoOk s | _ => SsoFail "malformed" end;
      match ex_provider expect with google => google_identity expect claims sub | microsoft => microsoft_identity expect claims sub end
  | _ => SsoFail "malformed"
  end.

(** ** The cache of signing keys *)

Definition JWKS_TTL_MS : Z := 60 * 60 * 1000.
Definition JWKS_REFETCH_MS : Z := 60 * 1000.
Record KeySet : Type := mkKeySet { ks_provider : SsoProvider; ks_keys : list jsval; ks_fetchedAt : Z }.

Definition find_key (kid : string) (keys : list jsval) : option jsval := js_find (fun k => is_text (js_get k "kid") kid) keys.
Definition cached_keys (cache : list KeySet) (p : SsoProvider) : option KeySet := js_find (fun c => bool_decide (ks_provider c = p)) cache.

(** [answer]: the JSON the provider served, none where reading it failed. The
    cache, the key, and whether the provider was asked. *)
Definition providerSigningKey (cache : list KeySet) (p : SsoProvider) (kid : string) (answer : option jsval) (nowMs : Z) : list KeySet * sso_result (option jsval) * bool :=
  let cached := cached_keys cache p in
  let early := match cached with
    | Some c => if nowMs - ks_fetchedAt c <? JWKS_TTL_MS then
                  let hit := find_key kid (ks_keys c) in
                  if is_Some_b hit || (nowMs - ks_fetchedAt c <? JWKS_REFETCH_MS) then Some hit else None
                else None
    | None => None
    end in
  match early with
  | Some hit => (cache, SsoOk hit, false)
  | None =>
      match (match answer with Some body => match js_get body "keys" with JsArr l => Some l | _ => None end | None => None end) with
      | None => (cache, match cached with Some c => SsoOk (find_key kid (ks_keys c)) | None => SsoFail "keys_unavailable" end, true)
      | Some l =>
          let keys := List.filter is_object l in
          (upsert (fun c => bool_decide (ks_provider c = p)) (fun _ => mkKeySet p keys nowMs) (mkKeySet p keys nowMs) cache, SsoOk (find_key kid keys), true)
      end
  end.
End Tokens.

(** ** What an accepted token proves *)

Section Proves.
Context `{Sealing} `{TokenCrypto}.

Lemma sso_check_ok ok reason u : sso_check ok reason = SsoOk u -> ok = true.
Proof. by destruct ok. Qed.

Lemma sso_bind_ok {A B} (m : sso_result A) (f : A -> sso_result B) b : (m ≫= f) = SsoOk b -> exists a, m = SsoOk a /\ f a = SsoOk b.
Proof. destruct m; [intros E; by exists a|done..]. Qed.

Ltac sso_invert :=
  repeat match goal with
  | E : (_ ≫= _) = SsoOk _ |- _ => let a := fresh "a" in let E1 := fresh "E" in apply sso_bind_ok in E as (a & E1 & E); cbv beta in E
  | E : sso_check _ _ = SsoOk _ |- _ => apply sso_check_ok in E
  end.

(** A part of a token, read: base64url of the UTF-8 of a JSON object. *)
Definition reads (part : string) (v : jsval) : Prop := exists bytes, sso_fromBase64url part = SsoOk bytes /\ json_parse (utf8_decode bytes) = Some v.

(** A member that is absent, or empty, or this text. *)
Definition absent_or (v : jsval) (s : string) : Prop := v ∈ [JsUndefined; JsNull; JsBool false; JsInt 0; JsStr ""; JsStr s]%string.

(** A key for RS256: [verify] checks signatures under it. *)
Definition rs256_key (jwk : jsval) (verify : list Z -> list Z -> bool) : Prop :=
  js_get jwk "kty" = JsStr "RSA" /\ absent_or (js_get jwk "alg") "RS256" /\ absent_or (js_get jwk "use") "sig" /\
  exists n e, js_get jwk "n" = JsStr n /\ js_get jwk "e" = JsStr e /\ rsa_key n e = Some verify.

(** The claims are for this client; where they are for several, the party they were
    issued to is this client. *)
Definition meant_for (claims : jsval) (clientId : string) : Prop :=
  js_get claims "aud" = JsStr clientId \/
  exists l, js_get claims "aud" = JsArr l /\ JsStr clientId ∈ l /\ (l = [JsStr clientId] \/ js_get claims "azp" = JsStr clientId).

(** The directory of the account, and the issuer that speaks for it. *)
Definition issued_for (expect : IdTokenExpectations) (claims : jsval) (identity : SsoIdentity) : Prop :=
  match ex_provider expect with
  | google =>
      (js_get claims "iss" = JsStr "https://accounts.google.com" \/ js_get claims "iss" = JsStr "accounts.google.com") /\
      (js_get claims "email_verified" = JsBool true \/ js_get claims "email_verified" = JsStr "true") /\
      (exists hd, js_get claims "hd" = JsStr hd /\ toLowerCase hd = id_directory identity) /\ id_directory identity ∈ ex_googleDomains expect /\
      exists email, js_get claims "email" = JsStr email /\ id_email identity = toLowerCase (trim email)
  | microsoft =>
      js_get claims "iss" = JsStr ("https://login.microsoftonline.com/" +:+ id_directory identity +:+ "/v2.0") /\
      (exists tid, js_get claims "tid" = JsStr tid /\ toLowerCase tid = id_directory identity) /\ id_directory identity ∈ ex_microsoftTenants expect /\
      exists email, (js_get claims "email" = JsStr email \/ js_get claims "preferred_username" = JsStr email) /\ id_email identity = toLowerCase (trim email)
  end.

(** A number of the claims, or its floor. *)
Definition is_number (v : jsval) (z : Z) : Prop := v = JsInt z \/ v = JsFrac z.
Definition fresh_claims (claims : jsval) (at_ : Z) : Prop :=
  (exists exp, is_number (js_get claims "exp") exp /\ at_ <= exp + CLOCK_SKEW_SECONDS) /\
  (exists iat, is_number (js_get claims "iat") iat /\ iat - CLOCK_SKEW_SECONDS <= at_) /\
  (js_get claims "nbf" = JsUndefined \/ exists nbf, is_number (js_get claims "nbf") nbf /\ nbf - CLOCK_SKEW_SECONDS <= at_).

Lemma below_number v at_ : match number_below v CLOCK_SKEW_SECONDS at_ with Some b => negb b | None => false end = true -> exists z, is_number v z /\ at_ <= z + CLOCK_SKEW_SECONDS.
Proof. unfold is_number. destruct v; cbn; try done; intros E%negb_true_iff%Z.ltb_ge; eexists; (split; [by auto|lia]). Qed.

Lemma above_number v at_ : match number_above v CLOCK_SKEW_SECONDS at_ with Some b => negb b | None => false end = true -> exists z, is_number v z /\ z - CLOCK_SKEW_SECONDS <= at_.
Proof. unfold is_number. destruct v; cbn; try done; intros E%negb_true_iff; [apply Z.ltb_ge in E|apply Z.leb_gt in E]; eexists; (split; [by auto|lia]). Qed.

Lemma times_ok_fresh claims at_ u : times_ok claims at_ = SsoOk u -> fresh_claims claims at_.
Proof.
  unfold times_ok. intros E. sso_invert. split; [by apply below_number|]. split; [by apply above_number|]. destruct (js_get claims "nbf"); [by left|right; by apply above_number in E..].
Qed.

Lemma audience_meant claims clientId : audience_ok claims clientId = true -> meant_for claims clientId.
Proof.
  unfold audience_ok, meant_for. destruct (js_get claims "aud") as [| | | | |t|l|]; try done; [intros ->%String.eqb_eq; by left|]. intros [Hin Hl]%andb_true_iff. right. exists l. apply existsb_elem in Hin as (v & Hv & ->%is_text_iff). split; [done|]. split; [done|].
  apply orb_true_iff in Hl as [Hl%Nat.leb_le|?%is_text_iff]; [left|by right]. destruct l as [|x [|? ?]]; [by apply elem_of_nil in Hv| |cbn in Hl; lia]. by apply list_elem_of_singleton in Hv as <-.
Qed.

Lemma not_otherwise v s : set_otherwise v s = false -> absent_or v s.
Proof.
  unfold absent_or. rewrite !elem_of_cons. destruct v as [| |[]|z| |t| |]; cbn; try done; auto.
  - intros E%negb_false_iff%Z.eqb_eq. subst. auto.
  - intros [E%negb_false_iff%String.eqb_eq|E%negb_false_iff%String.eqb_eq]%andb_false_iff; subst; auto 10.
Qed.

Lemma lower_text_some v s : lower_text v = s -> s <> ""%string -> exists t, v = JsStr t /\ toLowerCase t = s.
Proof. destruct v; cbn; try (by intros <-). intros <- _. by eexists. Qed.

Lemma trimmed_some v : re_test EMAIL_PATTERN (trimmed_lower v) = true -> exists t, v = JsStr t /\ trimmed_lower v = toLowerCase (trim t).
Proof.
  assert (Hno : re_test EMAIL_PATTERN "" = false) by (vm_compute; reflexivity). destruct v as [| | | | |t| |]; cbn [trimmed_lower]; rewrite ?Hno; intros E; try discriminate E. by exists t.
Qed.

Lemma google_identity_ok expect claims sub identity : ex_provider expect = google -> google_identity expect claims sub = SsoOk identity -> id_provider identity = google /\ id_subject identity = sub /\ issued_for expect claims identity.
Proof.
  unfold google_identity, issued_for. intros -> E. sso_invert. cbv zeta in E. sso_invert. injection E as <-. cbn [id_provider id_subject id_directory id_email]. apply orb_true_iff in E0. rewrite !is_text_iff in E0. apply andb_true_iff in E2 as [Hne%negb_true_iff%String.eqb_neq Hd%bool_decide_eq_true].
  split; [done|]. split; [done|]. split; [done|]. split; [destruct (js_get claims "email_verified") as [| |[]| | |t| |]; try done; [by left|right; by apply String.eqb_eq in E1 as ->]|]. split; [by apply lower_text_some|]. split; [done|]. by apply trimmed_some.
Qed.

Lemma microsoft_identity_ok expect claims sub identity : ex_provider expect = microsoft -> microsoft_identity expect claims sub = SsoOk identity -> id_provider identity = microsoft /\ id_subject identity = sub /\ issued_for expect claims identity.
Proof.
  unfold microsoft_identity, issued_for. intros -> E. cbv zeta in E. sso_invert. injection E as <-. cbn [id_provider id_subject id_directory id_email]. apply bool_decide_eq_true in E2. apply is_text_iff in E1.
  split; [done|]. split; [done|]. split; [done|]. split; [apply lower_text_some; [done|]; intros En; rewrite En in E0; vm_compute in E0; discriminate E0|]. split; [done|].
  destruct (String.eqb (trimmed_lower (js_get claims "email")) ""); apply trimmed_some in E3 as (t & Et & E3); exists t; auto.
Qed.

Lemma decodeJson_reads part v : decodeJson part = SsoOk v -> reads part v.
Proof. unfold decodeJson. intros E. destruct (sso_fromBase64url part) as [bytes| |] eqn:Eb; try done. exists bytes. split; [done|]. destruct (json_parse _) as [[]|]; try done. by injection E as <-. Qed.

Lemma signing_key_rs256 jwk verify : signing_key jwk = SsoOk verify -> exists k, jwk = Some k /\ rs256_key k verify.
Proof.
  unfold signing_key. destruct jwk as [jwk|]; [|done]. destruct (is_text (js_get jwk "kty") "RSA") eqn:Ekty; [|done]. destruct (js_get jwk "n") as [| | | | |n| |] eqn:En; try done. destruct (js_get jwk "e") as [| | | | |e| |] eqn:Ee; try done.
  destruct (_ || _) eqn:Eo; [done|]. apply orb_false_iff in Eo as [Ea Eu]. destruct (rsa_key n e) as [v|] eqn:Ev; [|done]. intros [= <-]. exists jwk. split; [done|]. apply is_text_iff in Ekty. unfold rs256_key. split_and!; try done; try by apply not_otherwise. by exists n, e.
Qed.

(** C14. What an ID token that is accepted proves. It is three parts between dots: a
    header that says RS256 and names a key, claims, and a signature. The provider
    publishes, under that very name, an RSA key for RS256, and the bytes of the third
    part are a signature under it of the first two. The claims are for this platform's
    client (and, where they are for several, issued to it), were not expired, issued in
    the future or not yet valid, beyond two minutes of skew, carry the nonce of this
    very sign-in and the subject of the identity, and come from the issuer of a
    directory that the organization listed, the one the identity is in, with its
    address; Google's with an address Google verified. *)
Theorem id_token_proves idToken expect resolveKey identity : verifyIdToken idToken expect resolveKey = SsoOk identity ->
  exists p0 p1 p2 header claims kid jwk verify signature,
    idToken = p0 +:+ "." +:+ p1 +:+ "." +:+ p2 /\ Forall (fun p => has_char "." p = false) [p0; p1; p2] /\
    reads p0 header /\ js_get header "alg" = JsStr "RS256" /\ js_get header "kid" = JsStr kid /\ kid <> ""%string /\
    resolveKey (ex_provider expect) kid = SsoOk (Some jwk) /\ rs256_key jwk verify /\
    sso_fromBase64url p2 = SsoOk signature /\ verify signature (utf8_encode (p0 +:+ "." +:+ p1)) = true /\
    reads p1 claims /\ meant_for claims (ex_clientId expect) /\ fresh_claims claims (ex_now expect) /\
    js_get claims "nonce" = JsStr (ex_nonce expect) /\ js_get claims "sub" = JsStr (id_subject identity) /\ id_subject identity <> ""%string /\
    id_provider identity = ex_provider expect /\ issued_for expect claims identity.
Proof.
  unfold verifyIdToken. intros E. apply sso_bind_ok in E as (u & E0 & E). apply sso_check_ok in E0. pose proof (join_split_on "." idToken) as Hj. pose proof (split_on_parts "." idToken) as Hparts. destruct (split_on "." idToken) as [|p0 [|p1 [|p2 [|? ?]]]]; try discriminate.
  sso_invert. rename a into header, E1 into Eheader, E2 into Ealg, a1 into kid, E3 into Ekid, a2 into jwk, E4 into Ejwk, a3 into verify, E5 into Everify, a4 into signature, E6 into Esignature, E7 into Everified, a6 into claims, E8 into Eclaims, E9 into Eaud, a8 into unit1, E10 into Etimes, a9 into unit2, E11 into Enonce, a10 into sub, E12 into Esub.
  apply signing_key_rs256 in Everify as (k & -> & Hkey). destruct (js_get claims "nonce") as [| | | | |nonce| |] eqn:En'; try discriminate. apply timingSafeEqual_iff in Enonce as ->.
  destruct (js_get claims "sub") as [| | | | |s| |] eqn:Es; try discriminate. destruct (String.eqb_spec s ""); [discriminate|]. injection Esub as ->.
  destruct (js_get header "kid") as [| | | | |name| |] eqn:Ek; try discriminate. destruct (String.eqb_spec name ""); [discriminate|]. destruct (_ <? _)%nat; [discriminate|]. injection Ekid as ->.
  assert (Hid : id_provider identity = ex_provider expect /\ id_subject identity = sub /\ issued_for expect claims identity).
  { destruct (ex_provider expect) eqn:Ep; [by apply google_identity_ok|by apply microsoft_identity_ok]. }
  destruct Hid as (? & <- & ?). exists p0, p1, p2, header, claims, kid, k, verify, signature. rewrite <- Hj. split_and!; try done.
  - by apply decodeJson_reads.
  - by apply is_text_iff.
  - by apply decodeJson_reads.
  - by apply audience_meant.
  - by eapply times_ok_fresh.
Qed.
End Proves.

(** ** A sign-in that runs *)

(** A JSON reader for one header and one set of claims, and RSA keys that accept
    the signature of a single byte. *)
Definition demo_header : jsval := JsObj [("alg", JsStr "RS256"); ("kid", JsStr "k1")]%string.
Definition demo_claims : jsval :=
  JsObj [("iss", JsStr "https://accounts.google.com"); ("aud", JsArr [JsStr "client"]); ("exp", JsInt 5000); ("iat", JsInt 1000); ("nonce", JsStr "AAAA"); ("sub", JsStr "s1"); ("hd", JsStr "Greenwood.example");
         ("email", JsStr " Ada@greenwood.example"); ("email_verified", JsBool true)]%string.
Definition token_sealing : Sealing := {|
  handoffKey := fun _ => [];
  gcm_encrypt := fun _ _ p => p;
  gcm_decrypt := fun _ _ c => Some c;
  utf8_encode := fun s => List.map code (String.list_ascii_of_string s);
  utf8_decode := fun l => String.string_of_list_ascii (List.map chr l);
  json_stringify := fun _ => ""%string;
  json_parse := fun s => if String.eqb s "H" then Some demo_header else if String.eqb s "C" then Some demo_claims else None
|}.
Definition token_keys : TokenCrypto := {| rsa_key := fun _ _ => Some (fun signature _ => (length signature =? 1)%nat) |}.
Definition demo_jwk : jsval := JsObj [("kid", JsStr "k1"); ("kty", JsStr "RSA"); ("n", JsStr "AQAB"); ("e", JsStr "AQAB"); ("use", JsStr "sig")]%string.
Definition demo_id_token : string := "SA.Qw.AA".
Definition demo_expect : IdTokenExpectations := mkExpect google "client" "AAAA" ["greenwood.example"%string] [] 2000.
Definition demo_resolve : SsoProvider -> string -> sso_result (option jsval) := fun _ kid => SsoOk (find_key kid [demo_jwk]).

(** A token whose address and directory are written with capitals. *)
Lemma id_token_proves_witness :
  exists identity, @verifyIdToken token_sealing token_keys demo_id_token demo_expect demo_resolve = SsoOk identity /\ id_email identity = "ada@greenwood.example" /\ id_directory identity ∈ ex_googleDomains demo_expect.
Proof.
  assert (E : @verifyIdToken token_sealing token_keys demo_id_token demo_expect demo_resolve = SsoOk (mkIdentity google "ada@greenwood.example" "s1" "greenwood.example")) by (vm_compute; reflexivity).
  eexists. split; [exact E|]. split; [reflexivity|].
  destruct (@id_token_proves token_sealing token_keys _ _ _ _ E) as (p0 & p1 & p2 & header & claims & kid & jwk & verify & signature & H). do 17 (apply proj2 in H). exact (proj1 (proj2 (proj2 (proj2 H)))).
Defined.

(** Where the provider's keys cannot be read, the cache stays as old as it was,
    and each sign-in asks again: here two in one second, and a key set that is two
    hours old answers both. *)
Example keys_asked_again :
  let cache := [mkKeySet google [demo_jwk] 0] in
  providerSigningKey cache google "k1" None 7200000 = (cache, SsoOk (Some demo_jwk), true) /\
  providerSigningKey cache google "k1" None 7200500 = (cache, SsoOk (Some demo_jwk), true).
Proof. vm_compute. done. Qed.

(** Where they can be read, a name the keys do not have asks once a minute. *)
Example keys_asked_once :
  let answer := Some (JsObj [("keys"%string, JsArr [demo_jwk])]) in
  let '(cache, found, asked) := providerSigningKey [] google "other" answer 1000 in
  found = SsoOk None /\ asked = true /\ providerSigningKey cache google "other" answer 60999 = (cache, SsoOk None, false) /\ snd (providerSigningKey cache google "other" answer 61000) = true.
Proof. vm_compute. done. Qed.

(** A signature of five characters is no base64: [atob] throws, and not the error
    the callback turns into a reason. *)
Example signature_of_five : @verifyIdToken token_sealing token_keys "SA.Qw.AAAAA" demo_expect demo_resolve = SsoThrow.
Proof. vm_compute. reflexivity. Qed.
