(* ===== verification/Sso.v ===== *)
(** src/cloudflare-control/src/sso.ts, its routes: the settings of single sign-on,
    and a sign-in across its three requests, start, callback and redeem.

    The table of states stands beside the database of accounts (TwoFactor.v). The
    callback is the statement that spends a state and what follows it, two
    functions, so that other requests may come between them. What the provider
    answers, its keys, random bytes and the clock are arguments; the cookie that
    names the browser is given as [parseCookies] reads it. *)
From S2P Require Import Prelude Int32 JsString Regex Platform Escape Db Guard Auth Throttle Sessions Handoff Cbor WebAuthn Totp TwoFactor SsoToken.

Record StateRow : Type := mkState {
  sa_state_hash : string;
  sa_tenant_id : string;
  sa_provider : SsoProvider;
  sa_code_verifier : string;
  sa_nonce : string;
  sa_redirect_uri : string;
  sa_return_origin : string;
  sa_browser_hash : string;
  sa_used_at : option Z;
  sa_user_id : option string;
  sa_handoff_hash : option string;
  sa_created_at : Z;
  sa_expires_at : Z
}.

Record SsoState : Type := mkSso { accounts : AccountDb; sso_settings : list SsoSettingsRow; sso_states : list StateRow }.
Definition on_accounts (f : AccountDb -> AccountDb) (s : SsoState) : SsoState := mkSso (f (accounts s)) (sso_settings s) (sso_states s).
Definition on_settings (f : list SsoSettingsRow -> list SsoSettingsRow) (s : SsoState) : SsoState := mkSso (accounts s) (f (sso_settings s)) (sso_states s).
Definition on_states (f : list StateRow -> list StateRow) (s : SsoState) : SsoState := mkSso (accounts s) (sso_settings s) (f (sso_states s)).

Definition purgeExpiredSsoStates (now : Z) : SsoState -> SsoState := on_states (List.filter (fun r => negb (sa_expires_at r <? now))).

Inductive SsoAnswer : Type :=
| SsoError (status : Z) (message : string)
| SsoPage (message : string)
| SsoRedirect (location : string)
| SsoAuthorize (target : string) (params : list (string * string)) (cookie : string)
| SsoSettingsSaved (canEdit : bool) (settings : SsoSettings)
| SsoSignedIn (answer : Reply) (cookie : string).

Definition browserCookie (value : string) (secure : bool) (maxAge : Z) : string :=
  join "; " (["labkiosk_sso=" +:+ value; "Path=/api/auth/sso"; "Max-Age=" +:+ string_of_int maxAge; "HttpOnly"; "SameSite=Strict"]%string ++ if secure then ["Secure"%string] else []).

Definition browserTokenFrom (cookie : option string) : option string :=
  match cookie with Some v => if re_test BARE_HASH v then Some v else None | None => None end.

(** The Host header, or the host of the URL. *)
Definition request_host (rq : Request) : string := toLowerCase (default (url_host (rq_url rq)) (rq_host rq ≫= nonempty)).

Definition delete_state (hash : string) : SsoState -> SsoState := on_states (List.filter (fun r => negb (String.eqb (sa_state_hash r) hash))).

(** ** Settings *)

Definition turning_on (before after : SsoSettings) (p : SsoProvider) : bool :=
  match p with google => googleEnabled after && negb (googleEnabled before) | microsoft => microsoftEnabled after && negb (microsoftEnabled before) end.

(** [body]: none for a GET; the JSON of a POST, none where it is not JSON. *)
Definition handleSsoSettings (env : SsoEnv) (tenant : Tenant) (session : Session) (body : option (option jsval)) (now : Z) (s : SsoState) : SsoState * SsoAnswer :=
  let canEdit := administers (accounts s) tenant (user_id session) (role session) in
  let settings := getSsoSettings (sso_settings s) (t_id tenant) in
  match body with
  | None => (s, SsoSettingsSaved canEdit settings)
  | Some json =>
      if negb canEdit then (s, SsoError 403 "Only the organization's administrators change single sign-on")
      else
        match json with
        | None => (s, SsoError 400 "The request body must be JSON")
        | Some body =>
            match parseSsoSettings body with
            | Throws e => (s, SsoError 400 e)
            | Returns next =>
                match js_find (fun p => turning_on settings next p && negb (ssoProviderAvailable env p)) SSO_PROVIDERS with
                | Some p => (s, SsoError 409 (ssoProviderLabel p +:+ " sign-in is not set up on this platform yet"))
                | None =>
                    if String.eqb (describeSettings settings) (describeSettings next) then (s, SsoSettingsSaved canEdit next)
                    else
                      let row := mkSsoRow (t_id tenant) next now (if bool_decide (role session = super_admin) then None else Some (user_id session)) in
                      (on_accounts (writeAuditLog (mkAudit (Some (t_id tenant)) (user_id session) "settings.sso" (Some (describeSettings next))))
                         (on_settings (upsert (fun r => String.eqb (sr_tenant_id r) (t_id tenant)) (fun _ => row) row) s), SsoSettingsSaved canEdit next)
                end
            end
        end
  end.

Section Flow.
Context `{WebCrypto} `{HmacSha1} `{TextDecoder} `{PasskeyCrypto} `{Sealing} `{UrlParser} `{TokenCrypto}.

Definition signInPage (returnOrigin tenantSlug param value : string) : string :=
  returnOrigin +:+ "/?login=1&tenant=" +:+ encodeURIComponent tenantSlug +:+ "&" +:+ param +:+ "=" +:+ encodeURIComponent value.

(** [host]: [hostname(request)]; [origin]: that of its URL. *)
Definition returnOriginFor (env : SsoEnv) (host origin : string) (tenant : Tenant) (isDev : bool) : js_result (option string) :=
  if isDev then Returns (Some origin)
  else
    let base := base_domain env in
    match canonicalHost env with
    | Throws e => Throws e
    | Returns canonical =>
        let allowed := [base; toLowerCase (t_subdomain tenant +:+ "." +:+ base)] ++ match t_custom_domain tenant ≫= nonempty with Some d => [toLowerCase d] | None => [] end
                       ++ match canonical with Some c => [toLowerCase c] | None => [] end in
        Returns (if negb (String.eqb base "") && bool_decide (host ∈ allowed) then Some ("https://" +:+ host) else None)
    end.

(** ** Start *)

Record StartRequest : Type := mkStart {
  sq_host : string;
  sq_origin : string;
  sq_isDev : bool;
  sq_secure : bool;
  sq_clientIp : string;
  sq_provider : option string;
  sq_cookie : option string
}.
Record StartDraws : Type := mkStartDraws { sd_state : list Z; sd_verifier : list Z; sd_nonce : list Z; sd_browser : list Z; sd_waitNow : Z; sd_hitNow : Z; sd_now : Z }.

Definition randomToken (bytes : list Z) : string := toBase64url bytes.
Definition code_challenge (verifier : string) : string := toBase64url (sha256 (encode_utf8 verifier)).
Definition browser_of (rq : StartRequest) (d : StartDraws) : string := default (bufferToHex (sd_browser d)) (browserTokenFrom (sq_cookie rq)).

Definition new_state (rq : StartRequest) (d : StartDraws) (tenant : Tenant) (provider : SsoProvider) (redirectUri returnOrigin : string) : StateRow :=
  mkState (sha256Hex (randomToken (sd_state d))) (t_id tenant) provider (randomToken (sd_verifier d)) (randomToken (sd_nonce d)) redirectUri returnOrigin
    (sha256Hex (browser_of rq d)) None None None (sd_now d) (sd_now d + STATE_SECONDS).

Definition authorize_params (provider : SsoProvider) (clientId redirectUri : string) (settings : SsoSettings) (d : StartDraws) : list (string * string) :=
  [("client_id", clientId); ("response_type", "code"); ("redirect_uri", redirectUri); ("scope", "openid email profile"); ("state", randomToken (sd_state d)); ("nonce", randomToken (sd_nonce d));
   ("code_challenge", code_challenge (randomToken (sd_verifier d))); ("code_challenge_method", "S256"); ("prompt", "select_account")]%string
  ++ match provider, googleDomains settings with google, [d] => [("hd"%string, d)] | _, _ => [] end.

Definition handleSsoStart (env : SsoEnv) (rq : StartRequest) (d : StartDraws) (tenant : option Tenant) (s : SsoState) : SsoState * js_result SsoAnswer :=
  match isSsoProvider (sq_provider rq), tenant with
  | None, _ => (s, Returns (SsoError 400 "provider is google or microsoft"))
  | Some _, None => (s, Returns (SsoError 400 "No organization selected for this sign-in"))
  | Some provider, Some tenant =>
      match returnOriginFor env (sq_host rq) (sq_origin rq) tenant (sq_isDev rq) with
      | Throws e => (s, Throws e)
      | Returns None => (s, Returns (SsoError 400 "Single sign-on starts on the organization's sign-in page"))
      | Returns (Some returnOrigin) =>
          let settings := getSsoSettings (sso_settings s) (t_id tenant) in
          match clientCredentials env provider with
          | Some (clientId, _) =>
              if negb (bool_decide (t_status tenant = active)) || negb (enabledIn settings provider) then
                (s, Returns (SsoRedirect (signInPage returnOrigin (t_subdomain tenant) "sso_error" "unavailable")))
              else
                match ssoRedirectUri env (sq_origin rq) (sq_isDev rq) with
                | Throws e => (s, Throws e)
                | Returns None => (s, Returns (SsoError 503 "DEFAULT_DOMAIN is not set, so there is no sign-in callback"))
                | Returns (Some redirectUri) =>
                    let key := "sso:" +:+ sq_clientIp rq in
                    let wait := rateLimitWait (core (accounts s)) key START_PER_ADDRESS START_WINDOW (sd_waitNow d) in
                    if 0 <? wait then (s, Returns (SsoError 429 ("Too many sign-ins from this address. Try again in " +:+ minutes wait +:+ " minute(s).")))
                    else
                      let s1 := on_accounts (on_core (fun db => recordRateLimitHit db key START_WINDOW (sd_hitNow d))) s in
                      let row := new_state rq d tenant provider redirectUri returnOrigin in
                      if existsb (fun r => String.eqb (sa_state_hash r) (sa_state_hash row)) (sso_states s1) then (s1, Throws "D1_ERROR: UNIQUE constraint failed: sso_states.state_hash")
                      else
                        (on_states (fun l => l ++ [row]) s1,
                         Returns (SsoAuthorize (authorize_url provider) (authorize_params provider clientId redirectUri settings d) (browserCookie (browser_of rq d) (sq_secure rq) STATE_SECONDS)))
                end
          | None => (s, Returns (SsoRedirect (signInPage returnOrigin (t_subdomain tenant) "sso_error" "unavailable")))
          end
      end
  end.

(** ** Callback *)

Definition STATE_PATTERN : re := RRep 43 (RClass is_b64url).

Definition claimable (hash : string) (ts : Z) (r : StateRow) : bool := String.eqb (sa_state_hash r) hash && negb (is_Some_b (sa_used_at r)) && (ts <=? sa_expires_at r).
Definition set_used (ts : Z) (r : StateRow) : StateRow :=
  mkState (sa_state_hash r) (sa_tenant_id r) (sa_provider r) (sa_code_verifier r) (sa_nonce r) (sa_redirect_uri r) (sa_return_origin r) (sa_browser_hash r) (Some ts) (sa_user_id r)
    (sa_handoff_hash r) (sa_created_at r) (sa_expires_at r).

(** The statement that spends a state, and the row it returns. *)
Definition claimState (state : string) (ts : Z) (s : SsoState) : SsoState * option StateRow :=
  let hash := sha256Hex state in
  (on_states (update_rows (claimable hash ts) (set_used ts)) s, set_used ts <$> js_find (claimable hash ts) (sso_states s)).

Definition findUserByEmail (db : AccountDb) (email : string) : option User := js_find (fun u => String.eqb (u_email u) (toLowerCase email)) (users db).

Definition matchAccount (db : AccountDb) (tenant : Tenant) (email : string) : option User :=
  match findUserByEmail db email with
  | None => None
  | Some user =>
      if bool_decide (u_role user = super_admin) then None
      else if String.eqb (t_user_id tenant) (u_id user) then Some user
      else if existsb (fun m => String.eqb (tu_tenant_id m) (t_id tenant) && String.eqb (tu_user_id m) (u_id user)) (tenant_users (core db)) then Some user
      else None
  end.

Definition set_handoff (hash userId handoff : string) (expires : Z) (r : StateRow) : StateRow :=
  if String.eqb (sa_state_hash r) hash then
    mkState (sa_state_hash r) (sa_tenant_id r) (sa_provider r) (sa_code_verifier r) (sa_nonce r) (sa_redirect_uri r) (sa_return_origin r) (sa_browser_hash r) (sa_used_at r) (Some userId)
      (Some handoff) (sa_created_at r) expires
  else r.

(** What the provider answers a form with: nothing, or whether the status was a
    success and the JSON of the body, where it is JSON. *)
Inductive TokenAnswer : Type := Unreachable | Answered (ok : bool) (body : option jsval).

Definition token_url (p : SsoProvider) : string :=
  match p with google => "https://oauth2.googleapis.com/token" | microsoft => "https://login.microsoftonline.com/organizations/oauth2/v2.0/token" end.

(** [post]: the provider's answer to a form sent to an address. *)
Definition exchangeCode (p : SsoProvider) (credentials : string * string) (row : StateRow) (authCode : string) (post : string -> list (string * string) -> TokenAnswer) : sso_result string :=
  let form := [("grant_type", "authorization_code"); ("code", authCode); ("redirect_uri", sa_redirect_uri row); ("client_id", fst credentials); ("client_secret", snd credentials);
               ("code_verifier", sa_code_verifier row)]%string in
  match post (token_url p) form with
  | Unreachable | Answered _ None => SsoFail "token_exchange"
  | Answered ok (Some data) =>
      if is_nullish data then SsoThrow
      else if negb ok then SsoFail "token_exchange"
      else match js_get data "id_token" with JsStr t => SsoOk t | _ => SsoFail "token_exchange" end
  end.

(** What the provider sends the browser back with, what it answers for the code,
    and the random bytes of the code the sign-in page is given. *)
Record CallbackRequest : Type := mkCallback {
  cb_request : Request;
  cb_error : option string;
  cb_code : string;
  cb_post : string -> list (string * string) -> TokenAnswer;
  cb_keys : SsoProvider -> string -> sso_result (option jsval);
  cb_random : list Z;
  cb_now : Z
}.

Definition failure_reason (reason : string) : string :=
  if String.eqb reason "token_exchange" || String.eqb reason "keys_unavailable" then "provider" else if String.eqb reason "directory" then "directory" else "identity".

(** What the token is checked against. *)
Definition expectations (row : StateRow) (clientId : string) (settings : SsoSettings) (now : Z) : IdTokenExpectations :=
  mkExpect (sa_provider row) clientId (sa_nonce row) (googleDomains settings) (microsoftTenants settings) now.

Definition identify (cb : CallbackRequest) (row : StateRow) (credentials : string * string) (settings : SsoSettings) : sso_result SsoIdentity :=
  idToken ← exchangeCode (sa_provider row) credentials row (cb_code cb) (cb_post cb);
  verifyIdToken idToken (expectations row (fst credentials) settings (cb_now cb)) (cb_keys cb).

Definition finishCallback (env : SsoEnv) (cb : CallbackRequest) (row : StateRow) (s : SsoState) : SsoState * js_result SsoAnswer :=
  match parseURL (sa_redirect_uri row) with
  | None => (s, Throws "Invalid URL")
  | Some u =>
      if negb (String.eqb (request_host (cb_request cb)) (toLowerCase (url_host u))) then
        (delete_state (sa_state_hash row) s, Returns (SsoPage "This sign-in came back to the wrong address. Start again from your organization's sign-in page."))
      else
        let tenant := findTenantById (core (accounts s)) (sa_tenant_id row) in
        let fail s' reason := (delete_state (sa_state_hash row) s',
          Returns (SsoRedirect (signInPage (sa_return_origin row) (match tenant with Some t => t_subdomain t | None => ""%string end) "sso_error" reason))) in
        match tenant with
        | None => fail s "unavailable"%string
        | Some t =>
            if negb (bool_decide (t_status t = active)) then fail s "unavailable"%string
            else
              match cb_error cb ≫= nonempty with
              | Some e => fail s (if String.eqb e "access_denied" then "cancelled"%string else "provider"%string)
              | None =>
                  if String.eqb (cb_code cb) "" || (4096 <? String.length (cb_code cb))%nat then fail s "provider"%string
                  else
                    let settings := getSsoSettings (sso_settings s) (t_id t) in
                    match (if enabledIn settings (sa_provider row) then clientCredentials env (sa_provider row) else None) with
                    | None => fail s "unavailable"%string
                    | Some credentials =>
                        match identify cb row credentials settings with
                        | SsoThrow => (s, Throws "The ID token could not be read")
                        | SsoFail reason => fail s (failure_reason reason)
                        | SsoOk identity =>
                            if 0 <? getLockoutRemaining (core (accounts s)) (id_email identity) (cb_now cb) then fail s "locked"%string
                            else
                              match matchAccount (accounts s) t (id_email identity) with
                              | None => fail (on_accounts (on_core (fun db => recordLoginFailure db (id_email identity) (cb_now cb))) s) "no_account"%string
                              | Some user =>
                                  let handoff := bufferToHex (cb_random cb) in
                                  if existsb (fun r => negb (String.eqb (sa_state_hash r) (sa_state_hash row)) && bool_decide (sa_handoff_hash r = Some (sha256Hex handoff))) (sso_states s) then
                                    (s, Throws "D1_ERROR: UNIQUE constraint failed: sso_states.handoff_hash")
                                  else
                                    (on_states (List.map (set_handoff (sa_state_hash row) (u_id user) (sha256Hex handoff) (cb_now cb + SSO_HANDOFF_SECONDS))) s,
                                     Returns (SsoRedirect (signInPage (sa_return_origin row) (t_subdomain t) "sso" handoff)))
                              end
                        end
                    end
              end
        end
  end.

Definition handleSsoCallback (env : SsoEnv) (state : string) (ts : Z) (cb : CallbackRequest) (s : SsoState) : SsoState * js_result SsoAnswer :=
  if negb (re_test STATE_PATTERN state) then (s, Returns (SsoPage "This sign-in link is not complete. Start again from your organization's sign-in page."))
  else
    match claimState state ts s with
    | (s1, None) => (s1, Returns (SsoPage "This sign-in has expired or was already used. Start again from your organization's sign-in page."))
    | (s1, Some row) => finishCallback env cb row s1
    end.

(** ** Redeem *)

Record RedeemRequest : Type := mkRedeem {
  rd_request : Request;
  rd_origin : option string;
  rd_body : option jsval;
  rd_cookie : option string;
  rd_secure : bool;
  rd_random : list Z;
  rd_code : Z;
  rd_sent : bool;
  rd_draws : Draws;
  rd_now : Z
}.

Definition CROSS_SITE_SSO : SsoAnswer := SsoError 403 "Cross-site requests are not accepted".
Definition EXPIRED_SSO : SsoAnswer := SsoError 401 "This sign-in has expired. Start again.".

(** Whether the page that asks is on another host than the one asked. *)
Definition cross_site (rd : RedeemRequest) : bool :=
  match rd_origin rd ≫= nonempty with
  | None => false
  | Some origin => match parseURL origin with Some u => negb (String.eqb (toLowerCase (url_host u)) (request_host (rd_request rd))) | None => true end
  end.

(** The row a code takes out of the table. *)
Definition spend_handoff (code : string) (s : SsoState) : SsoState * option StateRow :=
  let has r := bool_decide (sa_handoff_hash r = Some (sha256Hex code)) in
  (on_states (List.filter (fun r => negb (has r))) s, js_find has (sso_states s)).

(** The user a row signs in, where the request is the one it was made for. *)
Definition redeemable (rd : RedeemRequest) (row : option StateRow) : js_result (option (StateRow * string)) :=
  match row with
  | None => Returns None
  | Some row =>
      match sa_user_id row ≫= nonempty with
      | None => Returns None
      | Some userId =>
          if sa_expires_at row <? rd_now rd then Returns None
          else
            match parseURL (sa_return_origin row) with
            | None => Throws "Invalid URL"
            | Some u =>
                if negb (String.eqb (toLowerCase (url_host u)) (request_host (rd_request rd))) then Returns None
                else
                  match browserTokenFrom (rd_cookie rd) with
                  | None => Returns None
                  | Some browser => if timingSafeEqual (sha256Hex browser) (sa_browser_hash row) then Returns (Some (row, userId)) else Returns None
                  end
            end
      end
  end.

(** The sign-in a redeemed row becomes: as after a password. *)
Definition sign_in_row (env : Env) (redirectFor : Tenant -> string) (rd : RedeemRequest) (row : StateRow) (userId : string) (s : SsoState) : SsoState * option SignInTarget * js_result SsoAnswer :=
  match findTenantById (core (accounts s)) (sa_tenant_id row) with
  | None => (s, None, Returns (SsoError 403 "This organization's console is not available"))
  | Some tenant =>
      if negb (bool_decide (t_status tenant = active)) then (s, None, Returns (SsoError 403 "This organization's console is not available"))
      else
        match findUserById (accounts s) userId with
        | None => (s, None, Returns EXPIRED_SSO)
        | Some user =>
            match matchAccount (accounts s) tenant (u_email user) with
            | None => (s, None, Returns EXPIRED_SSO)
            | Some _ =>
                let lockedFor := getLockoutRemaining (core (accounts s)) (u_email user) (rd_now rd) in
                if 0 <? lockedFor then (s, None, Returns (SsoError 429 ("Too many failed sign-in attempts. Try again in " +:+ minutes lockedFor +:+ " minute(s).")))
                else
                  let s1 := on_accounts (fun db => writeAuditLog (mkAudit (Some (t_id tenant)) (u_id user) "auth.sso" (Some ("provider=" +:+ provider_text (sa_provider row))))
                                                    (on_core (fun c => clearLoginFailures c (u_email user)) db)) s in
                  let target := mkTarget (u_id user) (Some (t_id tenant)) (u_role user) (redirectFor tenant) in
                  let '(db, answer) := continueSignIn env (accounts s1) (rd_request rd) target (rd_random rd) (rd_code rd) (rd_sent rd) (rd_draws rd) (rd_now rd) in
                  (on_accounts (fun _ => db) s1, Some target,
                   match answer with Returns a => Returns (SsoSignedIn a (browserCookie "" (rd_secure rd) 0)) | Throws e => Throws e end)
            end
        end
  end.

(** The state, the sign-in that was continued, and the answer. *)
Definition handleSsoRedeem (env : Env) (redirectFor : Tenant -> string) (rd : RedeemRequest) (s : SsoState) : SsoState * option (StateRow * SignInTarget) * js_result SsoAnswer :=
  if cross_site rd then (s, None, Returns CROSS_SITE_SSO)
  else
    match rd_body rd with
    | None => (s, None, Returns (SsoError 400 "The request body must be JSON"))
    | Some body =>
        let code := match js_get body "code" with JsStr c => c | _ => ""%string end in
        if negb (re_test BARE_HASH code) then (s, None, Returns (SsoError 400 "The sign-in code is not valid"))
        else
          let '(s1, found) := spend_handoff code s in
          match redeemable rd found with
          | Throws e => (s1, None, Throws e)
          | Returns None => (s1, None, Returns EXPIRED_SSO)
          | Returns (Some (row, userId)) =>
              let '(s2, target, answer) := sign_in_row env redirectFor rd row userId s1 in
              (s2, (fun t => (row, t)) <$> target, answer)
          end
    end.
End Flow.

(** ** Every run of sign-ins *)

Section Runs.
Context `{WebCrypto} `{HmacSha1} `{TextDecoder} `{PasskeyCrypto} `{Sealing} `{UrlParser} `{TokenCrypto}.

(** What a callback that succeeds found: the identity its token proves and the
    account of the organization that has its address. *)
Definition vouch (env : SsoEnv) (cb : CallbackRequest) (row : StateRow) (s : SsoState) : option (SsoIdentity * User) :=
  match findTenantById (core (accounts s)) (sa_tenant_id row) with
  | None => None
  | Some t =>
      let settings := getSsoSettings (sso_settings s) (t_id t) in
      match (if bool_decide (t_status t = active) && enabledIn settings (sa_provider row) then clientCredentials env (sa_provider row) else None) with
      | None => None
      | Some credentials =>
          match identify cb row credentials settings with
          | SsoOk identity => (fun user => (identity, user)) <$> matchAccount (accounts s) t (id_email identity)
          | _ => None
          end
      end
  end.

(** A callback that is over: what it read, when, and in which state. *)
Record Vouched : Type := mkVouched { v_env : SsoEnv; v_cb : CallbackRequest; v_row : StateRow; v_state : SsoState }.

(** The state, the callbacks between the statement that spends a state and what
    follows, and what happened: the rows that were started, the callbacks that
    finished, the sign-ins that were continued. *)
Record SsoWorld : Type := mkWorld {
  w_state : SsoState;
  w_pending : list StateRow;
  w_started : list StateRow;
  w_vouched : list Vouched;
  w_signed : list (StateRow * SignInTarget * RedeemRequest)
}.

(** The rows a request added. *)
Definition added (s s' : SsoState) : list StateRow := drop (length (sso_states s)) (sso_states s').

(** A request starts a sign-in, with a state drawn for the first time; the
    provider sends a browser back, and the state is spent; a callback under way
    finishes; a page redeems a code; old rows are purged; or another request
    changes the accounts and the settings, and rows go with an account or an
    organization that is deleted. *)
Inductive sso_step (w : SsoWorld) : SsoWorld -> Prop :=
| x_start env rq d tenant s' answer : handleSsoStart env rq d tenant (w_state w) = (s', answer) ->
    sha256Hex (randomToken (sd_state d)) ∉ List.map sa_state_hash (w_started w) ->
    sso_step w (mkWorld s' (w_pending w) (w_started w ++ added (w_state w) s') (w_vouched w) (w_signed w))
| x_claim state ts s' row : claimState state ts (w_state w) = (s', row) ->
    sso_step w (mkWorld s' (w_pending w ++ option_list row) (w_started w) (w_vouched w) (w_signed w))
| x_finish env cb before row after s' answer : w_pending w = before ++ row :: after -> finishCallback env cb row (w_state w) = (s', answer) ->
    sso_step w (mkWorld s' (before ++ after) (w_started w) (w_vouched w ++ [mkVouched env cb row (w_state w)]) (w_signed w))
| x_redeem env redirectFor rd s' signed answer : handleSsoRedeem env redirectFor rd (w_state w) = (s', signed, answer) ->
    sso_step w (mkWorld s' (w_pending w) (w_started w) (w_vouched w) (w_signed w ++ option_list ((fun x => (fst x, snd x, rd)) <$> signed)))
| x_purge now : sso_step w (mkWorld (purgeExpiredSsoStates now (w_state w)) (w_pending w) (w_started w) (w_vouched w) (w_signed w))
| x_elsewhere s' : sso_states s' `sublist_of` sso_states (w_state w) -> sso_step w (mkWorld s' (w_pending w) (w_started w) (w_vouched w) (w_signed w)).

Inductive sso_run : SsoWorld -> Prop :=
| x_begin s : sso_states s = [] -> sso_run (mkWorld s [] [] [] [])
| x_next w w' : sso_run w -> sso_step w w' -> sso_run w'.

(** What of a row never changes. *)
Definition same_start (a b : StateRow) : Prop :=
  sa_state_hash a = sa_state_hash b /\ sa_tenant_id a = sa_tenant_id b /\ sa_provider a = sa_provider b /\ sa_code_verifier a = sa_code_verifier b /\ sa_nonce a = sa_nonce b /\
  sa_redirect_uri a = sa_redirect_uri b /\ sa_return_origin a = sa_return_origin b /\ sa_browser_hash a = sa_browser_hash b.

(** A row that carries a code: a callback for it found an account. *)
Definition row_vouched (w : SsoWorld) (r : StateRow) (userId : string) : Prop :=
  exists v identity user, v ∈ w_vouched w /\ vouch (v_env v) (v_cb v) (v_row v) (v_state v) = Some (identity, user) /\ same_start (v_row v) r /\ u_id user = userId /\
    sa_expires_at r = cb_now (v_cb v) + SSO_HANDOFF_SECONDS.

(** A sign-in that was continued: the row it came from, for the user a callback
    vouched for, in the browser that started it, on the host it started on. *)
Definition signed_ok (w : SsoWorld) (x : StateRow * SignInTarget * RedeemRequest) : Prop :=
  let '(row, target, rd) := x in
  (exists start, start ∈ w_started w /\ same_start start row) /\ row_vouched w row (st_userId target) /\ st_tenantId target = Some (sa_tenant_id row) /\
  (exists browser, browserTokenFrom (rd_cookie rd) = Some browser /\ sha256Hex browser = sa_browser_hash row) /\
  (exists u, parseURL (sa_return_origin row) = Some u /\ toLowerCase (url_host u) = request_host (rd_request rd)) /\ rd_now rd <= sa_expires_at row.

Record sso_inv (w : SsoWorld) : Prop := {
  x_hashes : NoDup (List.map sa_state_hash (sso_states (w_state w)));
  x_started : NoDup (List.map sa_state_hash (w_started w));
  x_rows : forall r, r ∈ sso_states (w_state w) -> exists start, start ∈ w_started w /\ same_start start r;
  x_pending : forall r, r ∈ w_pending w -> exists start, start ∈ w_started w /\ same_start start r;
  x_codes : forall r h, r ∈ sso_states (w_state w) -> sa_handoff_hash r = Some h -> exists userId, sa_user_id r = Some userId /\ row_vouched w r userId;
  x_signed : forall x, x ∈ w_signed w -> signed_ok w x /\ sa_state_hash (fst (fst x)) ∉ List.map sa_state_hash (sso_states (w_state w));
  x_once : NoDup (List.map (fun x => sa_state_hash (fst (fst x))) (w_signed w))
}.

Lemma same_start_refl r : same_start r r.
Proof. by split_and!. Qed.
Lemma same_start_sym a b : same_start a b -> same_start b a.
Proof. unfold same_start. naive_solver. Qed.
Lemma same_start_trans a b c : same_start a b -> same_start b c -> same_start a c.
Proof. unfold same_start. intros (?&?&?&?&?&?&?&?) (?&?&?&?&?&?&?&?). split_and!; congruence. Qed.

(** Only what happened matters to what is said of a sign-in. *)
Lemma row_vouched_mono w w' r u : (forall v, v ∈ w_vouched w -> v ∈ w_vouched w') -> row_vouched w r u -> row_vouched w' r u.
Proof. intros Hv (v & i & x & Hin & ?). exists v, i, x. split; [by apply Hv|done]. Qed.

Lemma signed_ok_mono w w' x : (forall r, r ∈ w_started w -> r ∈ w_started w') -> (forall v, v ∈ w_vouched w -> v ∈ w_vouched w') -> signed_ok w x -> signed_ok w' x.
Proof.
  intros Hs Hv. destruct x as [[row target] rd]. intros ((start & Hin & ?) & Hr & ?). split; [exists start; split; [by apply Hs|done]|]. split; [by apply (row_vouched_mono w)|done].
Qed.

(** The table keeps its rows, some of them changed in what may change. *)
Lemma inv_rows w s' pending vouched : sso_inv w ->
  NoDup (List.map sa_state_hash (sso_states s')) ->
  (forall r, r ∈ sso_states s' -> exists r0, r0 ∈ sso_states (w_state w) /\ same_start r0 r) ->
  (forall r, r ∈ pending -> exists r0, (r0 ∈ sso_states (w_state w) \/ r0 ∈ w_pending w) /\ same_start r0 r) ->
  (forall v, v ∈ w_vouched w -> v ∈ vouched) ->
  (forall r h, r ∈ sso_states s' -> sa_handoff_hash r = Some h -> exists userId, sa_user_id r = Some userId /\ row_vouched (mkWorld s' pending (w_started w) vouched (w_signed w)) r userId) ->
  sso_inv (mkWorld s' pending (w_started w) vouched (w_signed w)).
Proof.
  intros [I1 I2 I3 I4 I5 I6 I7] Hn Hrows Hpend Hv Hcodes. constructor; cbn [w_state w_pending w_started w_vouched w_signed]; [done|done| | |done| |done].
  - intros r Hr. destruct (Hrows r Hr) as (r0 & Hr0 & Hs). destruct (I3 r0 Hr0) as (start & Hin & ?). exists start. split; [done|by eapply same_start_trans].
  - intros r Hr. destruct (Hpend r Hr) as (r0 & [Hr0|Hr0] & Hs); [destruct (I3 r0 Hr0) as (start & Hin & ?)|destruct (I4 r0 Hr0) as (start & Hin & ?)]; exists start; (split; [done|by eapply same_start_trans]).
  - intros x Hx. destruct (I6 x Hx) as [Hok Hgone]. split; [by apply (signed_ok_mono w)|]. intros (r & E & Hr)%list_elem_of_fmap. apply Hgone. destruct (Hrows r Hr) as (r0 & Hr0 & (Eh & _)). rewrite E, <- Eh. by apply list_elem_of_fmap_2.
Qed.

Lemma inv_sub w s' : sso_inv w -> sso_states s' `sublist_of` sso_states (w_state w) -> sso_inv (mkWorld s' (w_pending w) (w_started w) (w_vouched w) (w_signed w)).
Proof.
  intros Hi Hsub. assert (Hin : forall r, r ∈ sso_states s' -> r ∈ sso_states (w_state w)) by (intros r Hr; eapply elem_of_submseteq; [exact Hr|by apply sublist_submseteq]). apply inv_rows; [done| | | |done|].
  - eapply sublist_NoDup'; [apply sublist_map; exact Hsub|apply Hi].
  - intros r Hr. exists r. split; [by apply Hin|apply same_start_refl].
  - intros r Hr. exists r. split; [by right|apply same_start_refl].
  - intros r h Hr Hh. destruct (x_codes w Hi r h (Hin r Hr) Hh) as (u & Hu & Hv). exists u. split; [done|]. by apply (row_vouched_mono w).
Qed.

Lemma map_hashes (f : StateRow -> StateRow) l : (forall r, same_start r (f r)) -> List.map sa_state_hash (List.map f l) = List.map sa_state_hash l.
Proof. intros Hf. rewrite List.map_map. apply List.map_ext. intros r. by destruct (Hf r) as (-> & _). Qed.

(** A state that starts with the hash of a row of the table is that row's. *)
Lemma start_unique w a b sa sb : sso_inv w -> sa ∈ w_started w -> sb ∈ w_started w -> same_start sa a -> same_start sb b -> sa_state_hash a = sa_state_hash b -> same_start a b.
Proof.
  intros Hi Ha Hb Hsa Hsb E. assert (sa = sb) as <-.
  { apply (map_NoDup_inj sa_state_hash (w_started w)); [apply Hi|done|done|]. destruct Hsa as (-> & _), Hsb as (-> & _). done. }
  eapply same_start_trans; [by apply same_start_sym|done].
Qed.

Lemma inv_start w env rq d tenant s' answer : sso_inv w -> handleSsoStart env rq d tenant (w_state w) = (s', answer) ->
  sha256Hex (randomToken (sd_state d)) ∉ List.map sa_state_hash (w_started w) ->
  sso_inv (mkWorld s' (w_pending w) (w_started w ++ added (w_state w) s') (w_vouched w) (w_signed w)).
Proof.
  intros Hi E Hfresh. assert (Hcase : sso_states s' = sso_states (w_state w) \/ exists row, sso_states s' = sso_states (w_state w) ++ [row] /\ sa_state_hash row = sha256Hex (randomToken (sd_state d)) /\ sa_handoff_hash row = None).
  { revert E. unfold handleSsoStart. repeat case_match; intros [= <- _]; first [by left|right; eexists; by split_and!]. }
  unfold added. destruct Hcase as [Hs|(row & Hs & Hh & Hn)].
  - rewrite Hs, drop_all, app_nil_r. apply inv_sub; [done|by rewrite Hs].
  - rewrite Hs, drop_app_length. destruct Hi as [I1 I2 I3 I4 I5 I6 I7].
    assert (Hnew : forall r, r ∈ sso_states (w_state w) -> sa_state_hash r <> sa_state_hash row).
    { intros r Hr E'. destruct (I3 r Hr) as (start & Hin & (Es & _)). apply Hfresh. rewrite <- Hh, <- E', <- Es. by apply list_elem_of_fmap_2. }
    constructor; cbn [w_state w_pending w_started w_vouched w_signed]; rewrite ?Hs, ?List.map_app.
    + apply list.NoDup_app. split_and!; [done| |apply NoDup_singleton]. intros h (r & -> & Hr)%list_elem_of_fmap Hx%list_elem_of_singleton. by apply (Hnew r).
    + apply list.NoDup_app. split_and!; [done| |apply NoDup_singleton]. intros h Hx ->%list_elem_of_singleton. apply Hfresh. by rewrite <- Hh.
    + intros r [Hr| ->%list_elem_of_singleton]%elem_of_app; [destruct (I3 r Hr) as (st & ? & ?); exists st; split; [apply elem_of_app; by left|done]|exists row; split; [apply elem_of_app; right; by apply list_elem_of_singleton|apply same_start_refl]].
    + intros r Hr. destruct (I4 r Hr) as (st & ? & ?). exists st. split; [apply elem_of_app; by left|done].
    + intros r h [Hr| ->%list_elem_of_singleton]%elem_of_app Hc; [|congruence]. by apply (I5 r h).
    + intros x Hx. destruct (I6 x Hx) as [Hok Hgone]. split; [apply (signed_ok_mono w); [intros r Hr; apply elem_of_app; by left|done|done]|].
      intros [?|E'%list_elem_of_singleton]%elem_of_app; [done|]. destruct x as [[r0 t0] rd0]. destruct Hok as ((start & Hin & (Es & _)) & _). apply Hfresh. cbn in E'. rewrite <- Hh, <- E', <- Es. by apply list_elem_of_fmap_2.
    + done.
Qed.

Lemma inv_claim w state ts s' row : sso_inv w -> claimState state ts (w_state w) = (s', row) -> sso_inv (mkWorld s' (w_pending w ++ option_list row) (w_started w) (w_vouched w) (w_signed w)).
Proof.
  intros Hi [= <- <-]. set (f r := if claimable (sha256Hex state) ts r then set_used ts r else r).
  assert (Hf : forall r, same_start r (f r)) by (intros r; unfold f; case_match; by split_and!).
  apply inv_rows; [done| | | |done|].
  - cbn. change (update_rows _ _ ?l) with (List.map f l). rewrite (map_hashes f) by done. apply Hi.
  - intros r (r0 & -> & Hr)%list_elem_of_fmap. exists r0. split; [done|apply Hf].
  - intros r [Hr|Hr]%elem_of_app; [exists r; split; [by right|apply same_start_refl]|]. destruct (js_find _ _) as [r0|] eqn:Ef; [|by apply elem_of_nil in Hr].
    apply list_elem_of_singleton in Hr as ->. apply js_find_Some in Ef as [Hr0 _]. exists r0. split; [by left|by split_and!].
  - intros r h (r0 & -> & Hr)%list_elem_of_fmap Hh. destruct (x_codes w Hi r0 h Hr) as (u & Hu & v & i & x & Hin & Hv & Hss & ? & ?); [revert Hh; by case_match|].
    exists u. split; [by case_match|]. exists v, i, x. split_and!; [done|done|by eapply same_start_trans; [exact Hss|apply Hf]|done|by case_match].
Qed.

(** What follows the spending of a state: the table loses rows or keeps them, or
    a callback that vouches for an account gives its row a code. *)
Lemma finishCallback_states env cb row s s' answer : finishCallback env cb row s = (s', answer) ->
  sso_states s' `sublist_of` sso_states s \/
  exists identity user handoff, vouch env cb row s = Some (identity, user) /\
    sso_states s' = List.map (set_handoff (sa_state_hash row) (u_id user) handoff (cb_now cb + SSO_HANDOFF_SECONDS)) (sso_states s).
Proof.
  unfold finishCallback, vouch. intros E. destruct (parseURL _); [|by injection E as <- _; left].
  destruct (negb _); [injection E as <- _; left; apply bfilter_sublist|]. destruct (findTenantById _ _) as [t|]; [|injection E as <- _; left; apply bfilter_sublist].
  destruct (bool_decide (t_status t = active)); cbn [negb andb] in E |- *; [|injection E as <- _; left; apply bfilter_sublist].
  destruct (cb_error cb ≫= nonempty); [injection E as <- _; left; apply bfilter_sublist|]. destruct (_ || _); [injection E as <- _; left; apply bfilter_sublist|].
  destruct (if enabledIn _ _ then _ else _) as [credentials|]; [|injection E as <- _; left; apply bfilter_sublist].
  destruct (identify _ _ _ _) as [identity|reason|]; [|injection E as <- _; left; apply bfilter_sublist|by injection E as <- _; left].
  destruct (0 <? _); [injection E as <- _; left; apply bfilter_sublist|]. destruct (matchAccount _ _ _) as [user|]; [|injection E as <- _; left; apply bfilter_sublist].
  destruct (existsb _ _); [by injection E as <- _; left|]. injection E as <- _. right. by exists identity, user, (sha256Hex (bufferToHex (cb_random cb))).
Qed.

Lemma inv_finish w env cb before row after s' answer : sso_inv w -> w_pending w = before ++ row :: after -> finishCallback env cb row (w_state w) = (s', answer) ->
  sso_inv (mkWorld s' (before ++ after) (w_started w) (w_vouched w ++ [mkVouched env cb row (w_state w)]) (w_signed w)).
Proof.
  intros Hi Hp E. set (v := mkVouched env cb row (w_state w)). assert (Hv : forall x, x ∈ w_vouched w -> x ∈ w_vouched w ++ [v]) by (intros x Hx; apply elem_of_app; by left).
  assert (Hpend : forall r, r ∈ before ++ after -> exists r0, (r0 ∈ sso_states (w_state w) \/ r0 ∈ w_pending w) /\ same_start r0 r).
  { intros r Hr. exists r. split; [right; rewrite Hp; set_solver|apply same_start_refl]. }
  destruct (finishCallback_states _ _ _ _ _ _ E) as [Hsub|(identity & user & handoff & Evouch & Hs)].
  - pose proof (inv_sub w s' Hi Hsub) as [J1 _ J3 _ J5 _ _]. apply inv_rows; [done|done| |done|done|].
    + intros r Hr. exists r. split; [eapply elem_of_submseteq; [exact Hr|by apply sublist_submseteq]|apply same_start_refl].
    + intros r h Hr Hh. destruct (J5 r h Hr Hh) as (u & Hu & Hrv). exists u. split; [done|]. eapply row_vouched_mono; [|exact Hrv]. exact Hv.
  - set (f := set_handoff _ _ _ _) in Hs. assert (Hf : forall r, same_start r (f r)) by (intros r; unfold f, set_handoff; case_match; by split_and!).
    apply inv_rows; [done| | |done|done|]; rewrite Hs.
    + rewrite (map_hashes f) by done. apply Hi.
    + intros r (r0 & -> & Hr)%list_elem_of_fmap. exists r0. split; [done|apply Hf].
    + intros r h (r0 & -> & Hr)%list_elem_of_fmap Hh. destruct (String.eqb (sa_state_hash r0) (sa_state_hash row)) eqn:Eh; unfold f, set_handoff in Hh |- *; rewrite Eh in Hh |- *.
      * exists (u_id user). split; [done|]. exists v, identity, user. split_and!; [apply elem_of_app; right; by apply list_elem_of_singleton|exact Evouch| |done|done].
        destruct (x_rows w Hi r0 Hr) as (sa & Hsa & Hsa'). destruct (x_pending w Hi row) as (sb & Hsb & Hsb'); [rewrite Hp; set_solver|].
        eapply same_start_trans; [eapply (start_unique w row r0); [done|exact Hsb|exact Hsa|done|done|]|by split_and!]. by apply String.eqb_eq in Eh.
      * destruct (x_codes w Hi r0 h Hr Hh) as (u & Hu & Hrv). exists u. split; [done|]. eapply row_vouched_mono; [|exact Hrv]. exact Hv.
Qed.

(** A code takes its row out of the table; a sign-in goes on only for the user of
    that row, in the browser and on the host that started it. *)
Lemma redeemable_ok rd row r userId : redeemable rd row = Returns (Some (r, userId)) -> row = Some r /\ sa_user_id r = Some userId /\ rd_now rd <= sa_expires_at r /\
  (exists browser, browserTokenFrom (rd_cookie rd) = Some browser /\ sha256Hex browser = sa_browser_hash r) /\
  (exists u, parseURL (sa_return_origin r) = Some u /\ toLowerCase (url_host u) = request_host (rd_request rd)).
Proof.
  unfold redeemable. destruct row as [r0|]; [|done]. destruct (sa_user_id r0) as [u|] eqn:Eu; [|done]. cbn [mbind option_bind]. unfold nonempty. destruct (String.eqb u ""); [done|].
  destruct (Z.ltb_spec (sa_expires_at r0) (rd_now rd)); [done|]. destruct (parseURL _) as [url|] eqn:Ep; [|done]. destruct (String.eqb _ _) eqn:Ehost; [|done]. cbn [negb]. destruct (browserTokenFrom _) as [b|]; [|done].
  destruct (timingSafeEqual _ _) eqn:Eb; [|done]. intros [= <- <-]. apply timingSafeEqual_iff in Eb. apply String.eqb_eq in Ehost. split_and!; [done|done|done|by exists b|by exists url].
Qed.

Lemma sign_in_row_ok env redirectFor rd row userId s s' target answer : sign_in_row env redirectFor rd row userId s = (s', target, answer) ->
  sso_states s' = sso_states s /\ forall t, target = Some t -> st_userId t = userId /\ st_tenantId t = Some (sa_tenant_id row).
Proof.
  unfold sign_in_row. intros E. destruct (findTenantById _ _) as [t|] eqn:Et; [|by injection E as <- <- _]. destruct (negb _); [by injection E as <- <- _|].
  destruct (findUserById _ _) as [user|] eqn:Eu; [|by injection E as <- <- _]. destruct (matchAccount _ _ _); [|by injection E as <- <- _]. destruct (0 <? _); [by injection E as <- <- _|].
  cbv zeta in E. destruct (continueSignIn _ _ _ _ _ _ _ _ _) as [db a]. injection E as <- <- _. split; [done|]. intros x [= <-]. apply js_find_Some in Eu as [_ Eu%String.eqb_eq].
  apply findTenantById_Some in Et as [_ Et]. cbn. by rewrite Eu, Et.
Qed.

Lemma redeem_ok env redirectFor rd s s' signed answer : handleSsoRedeem env redirectFor rd s = (s', signed, answer) ->
  sso_states s' `sublist_of` sso_states s /\
  forall row t, signed = Some (row, t) -> row ∈ sso_states s /\ row ∉ sso_states s' /\ is_Some (sa_handoff_hash row) /\ sa_user_id row = Some (st_userId t) /\ st_tenantId t = Some (sa_tenant_id row) /\
    rd_now rd <= sa_expires_at row /\ (exists browser, browserTokenFrom (rd_cookie rd) = Some browser /\ sha256Hex browser = sa_browser_hash row) /\
    (exists u, parseURL (sa_return_origin row) = Some u /\ toLowerCase (url_host u) = request_host (rd_request rd)).
Proof.
  unfold handleSsoRedeem. intros E. destruct (cross_site rd); [by injection E as <- <- _|]. destruct (rd_body rd) as [body|]; [|by injection E as <- <- _]. cbv zeta in E.
  destruct (negb _); [by injection E as <- <- _|]. set (code := match js_get body "code" with JsStr c => c | _ => ""%string end) in E. clearbody code.
  unfold spend_handoff in E. set (has := fun r => bool_decide (sa_handoff_hash r = Some (sha256Hex code))) in E. set (s1 := on_states _ s) in E.
  assert (Hsub : sso_states s1 `sublist_of` sso_states s) by apply bfilter_sublist.
  destruct (redeemable rd _) as [[[row userId]|]|e] eqn:Er; [|by injection E as <- <- _..]. destruct (sign_in_row _ _ _ _ _ _) as [[s2 target] a] eqn:Ei. injection E as <- <- _.
  apply sign_in_row_ok in Ei as [-> Ht]. split; [done|]. intros r t Hrt. destruct target as [t0|]; [|discriminate]. cbn in Hrt. apply Some_inj in Hrt. injection Hrt as <- <-. apply redeemable_ok in Er as (Ef & Hu & Hexp & Hb & Hh).
  destruct (Ht t0 eq_refl) as [-> Hten]. apply js_find_Some in Ef as [Hin Hhas]. split_and!; try done.
  - intros [_ Hx]%elem_of_bfilter. fold (has row) in Hx. by rewrite Hhas in Hx.
  - apply bool_decide_eq_true in Hhas. by rewrite Hhas.
Qed.

Lemma inv_redeem w env redirectFor rd s' signed answer : sso_inv w -> handleSsoRedeem env redirectFor rd (w_state w) = (s', signed, answer) ->
  sso_inv (mkWorld s' (w_pending w) (w_started w) (w_vouched w) (w_signed w ++ option_list ((fun x => (fst x, snd x, rd)) <$> signed))).
Proof.
  intros Hi E. apply redeem_ok in E as [Hsub Hsigned]. pose proof (inv_sub w s' Hi Hsub) as [J1 J2 J3 J4 J5 J6 J7]. destruct signed as [[row t]|]; [|cbn; by rewrite app_nil_r].
  destruct (Hsigned row t eq_refl) as (Hin & Hout & [h Hh] & Hu & Hten & Hexp & Hb & Hhost). cbn [fmap option_fmap option_map option_list fst snd].
  assert (Hsame : forall r, r ∈ sso_states s' -> r ∈ sso_states (w_state w)) by (intros r Hr; eapply elem_of_submseteq; [exact Hr|by apply sublist_submseteq]).
  assert (Hgone : sa_state_hash row ∉ List.map sa_state_hash (sso_states s')).
  { intros (r & Er & Hr)%list_elem_of_fmap. assert (r = row) as -> by (apply (map_NoDup_inj sa_state_hash (sso_states (w_state w))); [apply Hi|by apply Hsame|done|done]). done. }
  assert (Hok : signed_ok w (row, t, rd)).
  { destruct (x_codes w Hi row h Hin Hh) as (u & Hu' & Hv). split_and!; try done; [by apply (x_rows w Hi)|]. rewrite Hu in Hu'. by injection Hu' as <-. }
  constructor; cbn [w_state w_pending w_started w_vouched w_signed]; try done.
  - intros x [Hx|Hx]%elem_of_app; [by destruct (J6 x Hx)|]. apply list_elem_of_singleton in Hx as ->. done.
  - rewrite List.map_app. apply list.NoDup_app. split_and!; [done| |apply NoDup_singleton]. intros hash (x & -> & Hx)%list_elem_of_fmap Hr%list_elem_of_singleton.
    destruct (x_signed w Hi x Hx) as [_ Hn]. apply Hn. cbn in Hr. rewrite Hr. by apply list_elem_of_fmap_2.
Qed.

Lemma sso_run_inv w : sso_run w -> sso_inv w.
Proof.
  induction 1 as [s Hs|w w' _ Hi Hstep].
  - constructor; cbn; rewrite ?Hs; cbn; try apply NoDup_nil_2; intros *; intros Hx; by apply elem_of_nil in Hx.
  - destruct Hstep; [by eapply inv_start|by eapply inv_claim|by eapply inv_finish|by eapply inv_redeem|apply inv_sub; [done|apply bfilter_sublist]|by apply inv_sub].
Qed.

(** C13. Whatever the requests do and however they come between one another, each
    sign-in that single sign-on continues comes from a state of its own: a start
    of this platform, sent by a callback whose ID token proved an identity and
    that found, in the organization the sign-in started at, the account with its
    address, which is the one signed in; the page that redeems it is on the host
    where the sign-in started, in the browser that started it, at most two
    minutes after the callback. *)
Theorem sso_sign_ins_bound w : sso_run w ->
  NoDup (List.map (fun x => sa_state_hash (fst (fst x))) (w_signed w)) /\
  forall row target rd, (row, target, rd) ∈ w_signed w ->
    (exists start, start ∈ w_started w /\ same_start start row) /\ st_tenantId target = Some (sa_tenant_id row) /\
    (exists v identity user, v ∈ w_vouched w /\ same_start (v_row v) row /\ vouch (v_env v) (v_cb v) (v_row v) (v_state v) = Some (identity, user) /\ u_id user = st_userId target /\
       rd_now rd <= cb_now (v_cb v) + SSO_HANDOFF_SECONDS) /\
    (exists browser, browserTokenFrom (rd_cookie rd) = Some browser /\ sha256Hex browser = sa_browser_hash row) /\
    (exists u, parseURL (sa_return_origin row) = Some u /\ toLowerCase (url_host u) = request_host (rd_request rd)).
Proof.
  intros Hi%sso_run_inv. split; [apply Hi|]. intros row target rd Hx. destruct (x_signed w Hi _ Hx) as [(Hs & (v & i & u & Hv & Ev & Hss & Hu & Hexp) & Ht & Hb & Hh & Hnow) _].
  split_and!; try done. exists v, i, u. split_and!; try done. by rewrite <- Hexp.
Qed.
End Runs.

(** ** A run *)

#[local] Existing Instance toy_crypto.
#[local] Existing Instance ascii_decoder.
#[local] Existing Instance toy_passkeys.
#[local] Existing Instance token_sealing.
#[local] Existing Instance toy_url.
#[local] Existing Instance token_keys.
Definition sso_hmac : HmacSha1 := {| hmacSha1 := fun _ counter => counter |}.
#[local] Existing Instance sso_hmac.

Definition sso_env : SsoEnv := mkSsoEnv "client" "secret" "" "" "labkiosk.org" "".
Definition sso_org : Tenant := mkTenant "t1" "u9" "Greenwood" "greenwood" None active portal "" None None 0 None 0 0 stable 0 0 0 0 30 None None None 0.
Definition sso_teacher : User := mkUser "u1" "ada@greenwood.example" "" "" org_admin "Ada" 0.
Definition sso_begin : SsoState :=
  mkSso (mkAccounts (on_tenant_users (fun _ => [mkTenantUser "t1" "u1" tu_org_admin None]) (on_tenants (fun _ => [sso_org]) empty_db)) [sso_teacher] [] [] [] [] [] [])
    [mkSsoRow "t1" (mkSsoSettings true ["greenwood.example"%string] false [] true) 0 None] [].
Definition sso_request (url : string) : Request := mkRequest (default (mkURL "" "" "" "" "" "" "" "" "" "") (toy_parse url)) None "Browser" None.
Definition start_request : StartRequest := mkStart "greenwood.labkiosk.org" "https://greenwood.labkiosk.org" false true "198.51.100.7" (Some "google"%string) None.
Definition start_draws : StartDraws := mkStartDraws (replicate 32 1) (replicate 32 2) [0; 0; 0] (replicate 32 171) 1990 1990 1990.
Definition callback_request : CallbackRequest :=
  mkCallback (sso_request "https://labkiosk.org/api/auth/sso/callback") None "code" (fun _ _ => Answered true (Some (JsObj [("id_token"%string, JsStr demo_id_token)]))) demo_resolve (replicate 32 205) 2000.
Definition redeem_request : RedeemRequest :=
  mkRedeem (sso_request "https://greenwood.labkiosk.org/api/auth/sso/redeem") (Some "https://greenwood.labkiosk.org"%string) (Some (JsObj [("code"%string, JsStr (bufferToHex (replicate 32 205)))]))
    (Some (bufferToHex (replicate 32 171))) true [] 0 true (mkDraws (replicate 32 9) [] []) 2100.

Definition after_start : SsoState := fst (handleSsoStart sso_env start_request start_draws (Some sso_org) sso_begin).
Definition claimed : SsoState * option StateRow := claimState (randomToken (replicate 32 1)) 2000 after_start.
Definition claimed_row : StateRow := default (new_state start_request start_draws sso_org google "" "") (snd claimed).
Definition after_callback : SsoState := fst (finishCallback sso_env callback_request claimed_row (fst claimed)).
Definition redeemed := handleSsoRedeem (mkEnv "pepper" (Some "labkiosk.org"%string) None) (fun _ => "/admin"%string) redeem_request after_callback.

(** A teacher's sign-in through its three requests; a second redeem of its code,
    or one from another browser, does not go on. *)
Lemma sso_sign_ins_bound_witness :
  exists w row target, sso_run w /\ w_signed w = [(row, target, redeem_request)] /\ st_userId target = "u1" /\
    (exists browser, browserTokenFrom (rd_cookie redeem_request) = Some browser /\ sha256Hex browser = sa_browser_hash row).
Proof.
  pose proof (x_begin sso_begin eq_refl) as R0. set (w0 := mkWorld sso_begin [] [] [] []) in R0.
  assert (H1 : sso_step w0 _) by (eapply (x_start w0 sso_env start_request start_draws (Some sso_org)); [apply surjective_pairing|apply not_elem_of_nil]).
  pose proof (x_next _ _ R0 H1) as R1. match type of R1 with sso_run ?w => set (w1 := w) in R1 end.
  assert (H2 : sso_step w1 _) by (apply (x_claim w1 (randomToken (replicate 32 1)) 2000); apply surjective_pairing).
  pose proof (x_next _ _ R1 H2) as R2. match type of R2 with sso_run ?w => set (w2 := w) in R2 end.
  assert (H3 : sso_step w2 _) by (eapply (x_finish w2 sso_env callback_request [] claimed_row []); [vm_compute; reflexivity|apply surjective_pairing]).
  pose proof (x_next _ _ R2 H3) as R3. match type of R3 with sso_run ?w => set (w3 := w) in R3 end.
  assert (H4 : sso_step w3 _) by (apply (x_redeem w3 (mkEnv "pepper" (Some "labkiosk.org"%string) None) (fun _ => "/admin"%string) redeem_request (fst (fst redeemed)) (snd (fst redeemed)) (snd redeemed)); vm_compute; reflexivity).
  pose proof (x_next _ _ R3 H4) as R4.
  match type of R4 with sso_run ?w => set (w4 := w) in * end. destruct (sso_sign_ins_bound w4 R4) as [_ Hs].
  destruct (w_signed w4) as [|[[row target] rd] [|? ?]] eqn:Ew; [vm_compute in Ew; discriminate| |vm_compute in Ew; discriminate].
  assert (rd = redeem_request /\ st_userId target = "u1"%string) as [-> Hu] by (vm_compute in Ew; injection Ew as <- <- <-; split; vm_compute; reflexivity).
  exists w4, row, target. split; [exact R4|]. split; [exact Ew|]. split; [exact Hu|].
  destruct (Hs row target redeem_request) as (_ & _ & _ & Hb & _); [apply elem_of_cons; by left|]. exact Hb.
Defined.

Example redeemed_twice :
  let again rd s := handleSsoRedeem (mkEnv "pepper" (Some "labkiosk.org"%string) None) (fun _ => "/admin"%string) rd s in
  let other := mkRedeem (rd_request redeem_request) (rd_origin redeem_request) (rd_body redeem_request) (Some (bufferToHex (replicate 32 172))) true [] 0 true (rd_draws redeem_request) 2100 in
  snd (again redeem_request (fst (fst redeemed))) = Returns EXPIRED_SSO /\ snd (again other after_callback) = Returns EXPIRED_SSO /\
  sso_states (fst (fst (again other after_callback))) = [].
Proof. vm_compute. done. Qed.
