(* ===== verification/Relay.v ===== *)
(** Remote Control without a tunnel: src/cloudflare-control/src/remote_relay.ts.

    One relay per workstation joins an operator's socket and the workstation's
    and passes bytes between them. The state is what the Durable Object keeps:
    the name it is bound to, the session's row, the sockets the runtime lists,
    each with its attachment, and the alarm. A socket that was told to close may
    stay listed until the runtime reports it gone, and sending on it may fail;
    both are events here. Handlers return the new state and what they send, and
    the events of the runtime are the steps of a transition system. *)
From S2P Require Import Prelude JsString Regex Platform Auth.

Definition RELAY_JOIN_SECONDS : Z := 60.
Definition RELAY_MAX_SECONDS : Z := 4 * 60 * 60.
Definition CLOSE_RELAY_REPLACED : Z := 4000.
Definition CLOSE_RELAY_PEER_GONE : Z := 4004.
Definition CLOSE_RELAY_EXPIRED : Z := 4008.
Definition CLOSE_RELAY_REVOKED : Z := 4009.

Inductive RelaySide : Type := console | device.

#[export] Instance RelaySide_eq_dec : EqDecision RelaySide.
Proof. solve_decision. Defined.

Definition other_side (s : RelaySide) : RelaySide := match s with console => device | device => console end.

Definition relayName (tenantId clientId : string) : string := tenantId +:+ ":" +:+ clientId.

Definition RELAY_TOKEN_PATTERN : re := BARE_HASH.

(** Hex SHA-256 of a token, and a fresh token of 32 random bytes. *)
Definition hashRelayToken `{WebCrypto} (token : string) : string := sha256Hex token.
Definition newRelayToken (random : list Z) : string := bufferToHex random.

Record SessionRow : Type := mkRelaySession { token_hash : string; session_user : string; join_by : Z; ends_at : Z }.

(** A socket the runtime lists: which one it is, and its attachment. *)
Record Socket : Type := mkSocket { ws_id : nat; ws_side : RelaySide; ws_token : string }.

#[export] Instance Socket_eq_dec : EqDecision Socket.
Proof. solve_decision. Defined.

Record Relay : Type := mkRelay {
  binding : option string;
  session : option SessionRow;
  sockets : list Socket;
  relay_alarm : option Z
}.

(** What a handler sends: bytes or the ready message on a socket, a close, and
    the end of a session to the organization's hub. *)
Inductive Effect : Type :=
| Send (ws : nat) (bytes : list Z)
| Ready (ws : nat)
| Close (ws : nat) (code : Z)
| RemoteEnded (tenantId clientId : string).

Definition Refusal : Type := Z * string.

(** ** Sessions *)

Definition bind (name : string) (r : Relay) : Relay * bool :=
  if String.eqb name "" then (r, false)
  else match binding r with
       | Some bound => (r, String.eqb bound name)
       | None => (mkRelay (Some name) (session r) (sockets r) (relay_alarm r), true)
       end.

Definition close_all (code : Z) (l : list Socket) : list Effect := List.map (fun ws => Close (ws_id ws) code) l.

Definition open_session (tokenHash userId : string) (now : Z) (r : Relay) : Relay * list Effect :=
  (mkRelay (binding r) (Some (mkRelaySession tokenHash userId (now + RELAY_JOIN_SECONDS) (now + RELAY_MAX_SECONDS))) (sockets r)
     (Some ((now + RELAY_JOIN_SECONDS) * 1000)), close_all CLOSE_RELAY_REPLACED (sockets r)).

Definition current (side : RelaySide) (tokenHash : string) (l : list Socket) : option Socket :=
  js_find (fun ws => bool_decide (ws_side ws = side) && String.eqb (ws_token ws) tokenHash) l.

(** The session is forgotten and its seat given back. *)
Definition ended (r : Relay) : Relay * list Effect :=
  let bound := default "" (binding r) in
  let at_ := indexOf ":" bound in
  (mkRelay (binding r) None (sockets r) (relay_alarm r),
   if at_ <=? 0 then [] else [RemoteEnded (str_take (Z.to_nat at_) bound) (str_drop (Z.to_nat at_ + 1) bound)]).

Definition side_text (s : RelaySide) : string := match s with console => "console" | device => "device" end.

Definition joinRefusal (side : RelaySide) (tokenHash userId : string) (now : Z) (r : Relay) : option Refusal :=
  match session r with
  | None => Some (403, "This Remote Control session is not open"%string)
  | Some s =>
      if negb (re_test RELAY_TOKEN_PATTERN tokenHash) || negb (String.eqb (token_hash s) tokenHash) then Some (403, "This Remote Control session is not open"%string)
      else if bool_decide (side = console) && negb (String.eqb (session_user s) userId) then Some (403, "This Remote Control session was opened by someone else"%string)
      else if join_by s <? now then Some (410, "This Remote Control session has expired; open it again"%string)
      else if bool_decide (current side tokenHash (sockets r) = None) then None
      else Some (409, "This Remote Control session already has its " +:+ side_text side)
  end.

Definition accept (id : nat) (side : RelaySide) (tokenHash : string) (r : Relay) : Relay * list Effect :=
  let l := sockets r ++ [mkSocket id side tokenHash] in
  match current device tokenHash l, current console tokenHash l with
  | Some d, Some _ =>
      (mkRelay (binding r) (session r) l (match session r with Some s => Some (ends_at s * 1000) | None => relay_alarm r end), [Ready (ws_id d)])
  | _, _ => (mkRelay (binding r) (session r) l (relay_alarm r), [])
  end.

(** ** Requests *)

Inductive Answer : Type :=
| Opened (joinSeconds : Z)
| Closed (was_open : bool)
| Joined
| Refused (refusal : Refusal).

Definition OTHER_WORKSTATION : Refusal := (409, "This relay belongs to another workstation"%string).

Definition handle_open (name tokenHash userId : string) (now : Z) (r : Relay) : Relay * list Effect * Answer :=
  let '(r1, ok) := bind name r in
  if negb ok then (r1, [], Refused OTHER_WORKSTATION)
  else if negb (re_test RELAY_TOKEN_PATTERN tokenHash) || String.eqb userId "" then (r1, [], Refused (400, "Missing session"%string))
  else (open_session tokenHash userId now r1, Opened RELAY_JOIN_SECONDS).

Definition handle_close (name : string) (r : Relay) : Relay * list Effect * Answer :=
  let '(r1, ok) := bind name r in
  if negb ok then (r1, [], Refused OTHER_WORKSTATION)
  else
    let '(r2, notice) := ended r1 in
    (r2, close_all CLOSE_RELAY_REVOKED (sockets r1) ++ notice, Closed (match session r1 with Some _ => true | None => false end)).

(** The upgrade of one side; [id]: the new socket. *)
Definition handle_join (name : string) (id : nat) (side : RelaySide) (tokenHash userId : string) (now : Z) (r : Relay) : Relay * list Effect * Answer :=
  let '(r1, ok) := bind name r in
  if negb ok then (r1, [], Refused OTHER_WORKSTATION)
  else match joinRefusal side tokenHash userId now r1 with
       | Some refusal => (r1, [], Refused refusal)
       | None => (accept id side tokenHash r1, Joined)
       end.

(** ** Traffic *)

Definition in_session (ws : Socket) (r : Relay) : bool :=
  match session r with Some s => String.eqb (token_hash s) (ws_token ws) | None => false end.

(** [bytes]: [None] for text. [delivers]: whether the runtime takes what is sent
    on a socket, which it refuses on one that is closed. *)
Definition webSocketMessage (ws : Socket) (bytes : option (list Z)) (delivers : Socket -> bool) (r : Relay) : Relay * list Effect :=
  if negb (in_session ws r) then (r, [Close (ws_id ws) CLOSE_RELAY_EXPIRED])
  else
    match bytes with
    | None => (r, [])
    | Some b =>
        match current (other_side (ws_side ws)) (ws_token ws) (sockets r) with
        | None => (r, [])
        | Some other =>
            if delivers other then (r, [Send (ws_id other) b])
            else let '(r1, notice) := ended r in (r1, close_all CLOSE_RELAY_PEER_GONE (sockets r) ++ notice)
        end
    end.

Definition departed (ws : Socket) (r : Relay) : Relay * list Effect :=
  if negb (in_session ws r) then (r, [])
  else
    let '(r1, notice) := ended r in
    (r1, close_all CLOSE_RELAY_PEER_GONE (List.filter (fun other => negb (bool_decide (ws_id other = ws_id ws))) (sockets r)) ++ notice).

Definition RESERVED_CLOSE_CODES : list Z := [1005; 1006; 1015].

Definition webSocketClose (ws : Socket) (code : Z) (r : Relay) : Relay * list Effect :=
  let '(r1, out) := departed ws r in
  (r1, out ++ [Close (ws_id ws) (if bool_decide (code ∈ RESERVED_CLOSE_CODES) then 1000 else code)]).

Definition webSocketError (ws : Socket) (r : Relay) : Relay * list Effect := departed ws r.

(** The runtime has taken the alarm that fired. *)
Definition alarm (now : Z) (r : Relay) : Relay * list Effect :=
  match session r with
  | None => (r, [])
  | Some s =>
      let joined := negb (bool_decide (current console (token_hash s) (sockets r) = None)) && negb (bool_decide (current device (token_hash s) (sockets r) = None)) in
      if (ends_at s <=? now) || (negb joined && (join_by s <=? now)) then
        let '(r1, notice) := ended r in (r1, close_all CLOSE_RELAY_EXPIRED (sockets r) ++ notice)
      else (mkRelay (binding r) (session r) (sockets r) (Some ((if joined then ends_at s else join_by s) * 1000)), [])
  end.

(** ** Steps *)

Definition gone (ws : Socket) (r : Relay) : Relay :=
  mkRelay (binding r) (session r) (List.filter (fun other => negb (bool_decide (ws_id other = ws_id ws))) (sockets r)) (relay_alarm r).

Definition take_alarm (r : Relay) : Relay := mkRelay (binding r) (session r) (sockets r) None.

(** What was asked of the relay and granted. *)
Inductive Granted : Type :=
| GOpen (h user : string) (at_ : Z)
| GJoin (ws : Socket) (user : string) (at_ : Z).

Definition granted_open (h user : string) (now : Z) (a : Answer) : list Granted := match a with Opened _ => [GOpen h user now] | _ => [] end.
Definition granted_join (ws : Socket) (user : string) (now : Z) (a : Answer) : list Granted := match a with Joined => [GJoin ws user now] | _ => [] end.

(** What happens to a relay at a time: the new state, what it sends and what it
    grants. A fresh session has a token no listed socket has, a new socket a new
    identity, and a socket leaves the list when its close was handled. *)
Inductive relay_step (now : Z) (r : Relay) : Relay -> list Effect -> list Granted -> Prop :=
| step_open name h user r' out a :
    handle_open name h user now r = (r', out, a) -> (forall ws, ws ∈ sockets r -> ws_token ws <> h) -> relay_step now r r' out (granted_open h user now a)
| step_close name r' out a : handle_close name r = (r', out, a) -> relay_step now r r' out []
| step_join name id side h user r' out a :
    handle_join name id side h user now r = (r', out, a) -> (forall ws, ws ∈ sockets r -> ws_id ws <> id) ->
    relay_step now r r' out (granted_join (mkSocket id side h) user now a)
| step_message ws bytes delivers r' out :
    ws ∈ sockets r -> webSocketMessage ws bytes delivers r = (r', out) -> relay_step now r r' out []
| step_left ws code r' out : ws ∈ sockets r -> webSocketClose ws code r = (r', out) -> relay_step now r (gone ws r') out []
| step_error ws r' out : ws ∈ sockets r -> webSocketError ws r = (r', out) -> relay_step now r (gone ws r') out []
| step_alarm t r' out :
    relay_alarm r = Some t -> t <= now * 1000 -> alarm now (take_alarm r) = (r', out) -> relay_step now r r' out [].

Definition new_relay : Relay := mkRelay None None [] None.

(** Runs, with everything granted so far. Time does not go back. *)
Inductive relay_run : Z -> Relay -> list Granted -> Prop :=
| relay_start now : relay_run now new_relay []
| relay_next t r hist now r' out granted : relay_run t r hist -> t <= now -> relay_step now r r' out granted -> relay_run now r' (hist ++ granted).

(** ** The invariant *)

(** A socket of the session was admitted to it: in time, and an operator's only
    for whoever opened it. *)
Definition admitted (s : SessionRow) (hist : list Granted) (ws : Socket) : Prop :=
  exists user t, GJoin ws user t ∈ hist /\ t <= join_by s /\ (ws_side ws = console -> user = session_user s).

Definition both_here (s : SessionRow) (l : list Socket) : Prop := current console (token_hash s) l <> None /\ current device (token_hash s) l <> None.

Record relay_ok (r : Relay) (hist : list Granted) : Prop := {
  ok_ids : NoDup (List.map ws_id (sockets r));
  ok_opened s : session r = Some s -> GOpen (token_hash s) (session_user s) (join_by s - RELAY_JOIN_SECONDS) ∈ hist /\ ends_at s = join_by s - RELAY_JOIN_SECONDS + RELAY_MAX_SECONDS;
  ok_admitted s ws : session r = Some s -> ws ∈ sockets r -> ws_token ws = token_hash s -> admitted s hist ws;
  ok_single s ws ws' : session r = Some s -> ws ∈ sockets r -> ws' ∈ sockets r -> ws_token ws = token_hash s -> ws_token ws' = token_hash s ->
    ws_side ws = ws_side ws' -> ws = ws';
  ok_alarm s : session r = Some s -> relay_alarm r = Some (join_by s * 1000) \/ (both_here s (sockets r) /\ relay_alarm r = Some (ends_at s * 1000))
}.

Lemma current_None side h l : current side h l = None <-> forall ws, ws ∈ l -> ws_token ws = h -> ws_side ws <> side.
Proof.
  unfold current. rewrite js_find_None. split; intros Hn ws Hw.
  - intros Ht Hs. specialize (Hn ws Hw). rewrite bool_decide_eq_true_2, Ht, String.eqb_refl in Hn by done. done.
  - apply not_true_is_false. intros [Hs%bool_decide_eq_true Ht%String.eqb_eq]%andb_true_iff. by apply (Hn ws Hw).
Qed.

Lemma current_Some side h l ws : current side h l = Some ws -> ws ∈ l /\ ws_side ws = side /\ ws_token ws = h.
Proof. unfold current. intros [Hin [Hs%bool_decide_eq_true Ht%String.eqb_eq]%andb_true_iff]%js_find_Some. done. Qed.

(** A relay without a session has nothing to keep but its sockets. *)
Lemma relay_ok_ended r hist : NoDup (List.map ws_id (sockets r)) -> session r = None -> relay_ok r hist.
Proof. intros Hnd Hs. constructor; [done|..]; intros s; rewrite Hs; discriminate. Qed.

Lemma relay_ok_grows r hist granted : relay_ok r hist -> relay_ok r (hist ++ granted).
Proof.
  intros [Hid Ho Ha Hs Hal]. constructor; [done| | |done|done].
  - intros s E. destruct (Ho s E) as [Hin He]. split; [|done]. apply elem_of_app. by left.
  - intros s ws E Hw Ht. destruct (Ha s ws E Hw Ht) as (u & t & Hj & Hrest). exists u, t. split; [|done]. apply elem_of_app. by left.
Qed.

(** Only the session, the sockets and the alarm matter. *)
Lemma relay_ok_bind name r hist : relay_ok r hist -> relay_ok (fst (bind name r)) hist /\ session (fst (bind name r)) = session r /\ sockets (fst (bind name r)) = sockets r /\ relay_alarm (fst (bind name r)) = relay_alarm r.
Proof.
  unfold bind. intros [Hid Ho Ha Hs Hal]. destruct (String.eqb name ""); [done|]. destruct (binding r); [done|]. by split.
Qed.

Lemma gone_sockets ws r : sockets (gone ws r) = List.filter (fun other => negb (bool_decide (ws_id other = ws_id ws))) (sockets r).
Proof. done. Qed.

Lemma gone_NoDup ws r : NoDup (List.map ws_id (sockets r)) -> NoDup (List.map ws_id (sockets (gone ws r))).
Proof. intros Hnd. rewrite gone_sockets. apply (sublist_NoDup' _ _ (sublist_map _ _ _ (bfilter_sublist _ _)) Hnd). Qed.

(** A socket of no session leaves. *)
Lemma relay_ok_gone r hist ws : relay_ok r hist -> ws ∈ sockets r -> in_session ws r = false -> relay_ok (gone ws r) hist.
Proof.
  intros [Hid Ho Ha Hs Hal] Hin Hns. assert (Hsub : forall x, x ∈ sockets (gone ws r) -> x ∈ sockets r) by (intros x [Hx _]%elem_of_bfilter; done).
  constructor; [by apply gone_NoDup|exact Ho|intros s x E Hx; eauto|intros s x y E Hx Hy; eauto|].
  intros s E. destruct (Hal s E) as [Hj|[[Hc Hd] He]]; [by left|right]. split; [|done]. unfold in_session in Hns. cbn [session gone] in E. rewrite E in Hns. apply String.eqb_neq in Hns.
  assert (Hkeep : forall side, current side (token_hash s) (sockets r) <> None -> current side (token_hash s) (sockets (gone ws r)) <> None).
  { intros side Hc'. destruct (current side (token_hash s) (sockets r)) as [x|] eqn:Ex; [|done]. apply current_Some in Ex as (Hx & Hside & Htok).
    intros Hn. rewrite current_None in Hn. apply (Hn x); [|done|done]. apply elem_of_bfilter. split; [done|]. rewrite bool_decide_eq_false_2; [done|].
    intros Eid. assert (x = ws) as -> by (by apply (map_NoDup_inj ws_id (sockets r))). congruence. }
  split; apply Hkeep; done.
Qed.

(** ** Every step keeps it *)

Lemma open_ok now r hist name h user r' out a :
  relay_ok r hist -> handle_open name h user now r = (r', out, a) -> (forall ws, ws ∈ sockets r -> ws_token ws <> h) -> relay_ok r' (hist ++ granted_open h user now a).
Proof.
  intros Hok E Hfresh. unfold handle_open in E. destruct (relay_ok_bind name r hist Hok) as (Hok1 & _ & Hso & _). destruct (bind name r) as [r1 ok]. cbn [fst] in *.
  destruct (negb ok); [injection E as <- _ <-; by apply relay_ok_grows|]. destruct (_ || _); [injection E as <- _ <-; by apply relay_ok_grows|].
  injection E as <- _ <-. cbn [granted_open]. constructor; cbn [session sockets relay_alarm].
  - apply (ok_ids _ _ Hok1).
  - intros s [= <-]. cbn [token_hash session_user join_by ends_at]. replace (now + RELAY_JOIN_SECONDS - RELAY_JOIN_SECONDS) with now by lia.
    split; [|done]. apply elem_of_app. right. constructor.
  - intros s ws [= <-] Hw Ht. rewrite Hso in Hw. by destruct (Hfresh ws Hw).
  - intros s ws ws' [= <-] Hw _ Ht. rewrite Hso in Hw. by destruct (Hfresh ws Hw).
  - intros s [= <-]. by left.
Qed.

Lemma joinRefusal_None side h user now r : joinRefusal side h user now r = None ->
  exists s, session r = Some s /\ token_hash s = h /\ (side = console -> user = session_user s) /\ now <= join_by s /\ current side h (sockets r) = None.
Proof.
  unfold joinRefusal. destruct (session r) as [s|]; [|done]. destruct (negb (re_test _ _) || _) eqn:E1; [done|]. apply orb_false_iff in E1 as [_ E1%negb_false_iff%String.eqb_eq].
  destruct (bool_decide (side = console) && _) eqn:E2; [done|]. destruct (Z.ltb_spec (join_by s) now) as [|Hle]; [done|]. destruct (bool_decide (current side h (sockets r) = None)) eqn:Ec; [|done]. apply bool_decide_eq_true in Ec. intros _.
  exists s. split_and!; try done. intros ->. apply andb_false_iff in E2 as [E2|E2]; [by rewrite bool_decide_eq_true_2 in E2|]. by apply negb_false_iff, String.eqb_eq in E2.
Qed.

Lemma elem_of_snoc {A} (l : list A) x y : x ∈ l ++ [y] <-> x ∈ l \/ x = y.
Proof. by rewrite elem_of_app, list_elem_of_singleton. Qed.

Lemma accept_fields id side h r : let r' := fst (accept id side h r) in
  binding r' = binding r /\ session r' = session r /\ sockets r' = sockets r ++ [mkSocket id side h] /\
  (relay_alarm r' = relay_alarm r \/ exists s, session r = Some s /\ relay_alarm r' = Some (ends_at s * 1000) /\
     current console h (sockets r') <> None /\ current device h (sockets r') <> None).
Proof.
  unfold accept. cbv zeta. destruct (current device h _) as [d|] eqn:Ed; [destruct (current console h _) as [c|] eqn:Ec|]; cbn [fst binding session sockets relay_alarm]; split_and!; auto.
  destruct (session r) as [s|] eqn:Es; [|by left]. right. exists s. rewrite Ed, Ec. done.
Qed.

Lemma join_ok now r hist name id side h user r' out a :
  relay_ok r hist -> handle_join name id side h user now r = (r', out, a) -> (forall ws, ws ∈ sockets r -> ws_id ws <> id) ->
  relay_ok r' (hist ++ granted_join (mkSocket id side h) user now a).
Proof.
  intros Hok E Hfresh. unfold handle_join in E. destruct (relay_ok_bind name r hist Hok) as (Hok1 & _ & Hso & _). destruct (bind name r) as [r1 ok]. cbn [fst] in *.
  destruct (negb ok); [injection E as <- _ <-; by apply relay_ok_grows|]. destruct (joinRefusal side h user now r1) as [rf|] eqn:Ej; [injection E as <- _ <-; by apply relay_ok_grows|].
  apply joinRefusal_None in Ej as (s & Es & Hh & Huser & Htime & Hnone). destruct (accept_fields id side h r1) as (_ & Hs & Hk & Hal).
  destruct (accept id side h r1) as [r2 o]. injection E as <- _ <-. cbn [fst granted_join] in *. rewrite <- Hso in Hfresh.
  apply (relay_ok_grows _ _ [GJoin (mkSocket id side h) user now]) in Hok1. destruct Hok1 as [Hid Ho Ha Hsi Halm].
  assert (Hnew : forall s0 x, session r1 = Some s0 -> x ∈ sockets r1 -> ws_token x = token_hash s0 -> ws_side x <> side) by (intros s0 x E0 Hx Hx'; rewrite Es in E0;
    injection E0 as <-; rewrite Hh in Hx'; rewrite current_None in Hnone; by apply Hnone).
  constructor.
  - rewrite Hk, List.map_app. apply list.NoDup_app. split_and!; [done| |apply NoDup_singleton]. intros n (x & -> & Hx)%list_elem_of_fmap Hn%list_elem_of_singleton. by apply (Hfresh x).
  - rewrite Hs. exact Ho.
  - rewrite Hs, Hk. intros s0 ws E0 [Hw| ->]%elem_of_snoc Ht; [by apply Ha|]. rewrite Es in E0. injection E0 as <-. exists user, now. split_and!; [apply elem_of_snoc; by right|done|exact Huser].
  - rewrite Hs, Hk. intros s0 x y E0 [Hx| ->]%elem_of_snoc [Hy| ->]%elem_of_snoc Htx Hty Hside; [by apply (Hsi s0)| | |done].
    + by destruct (Hnew s0 x E0 Hx Htx).
    + by destruct (Hnew s0 y E0 Hy Hty).
  - rewrite Hs. intros s0 E0. rewrite Es in E0. injection E0 as <-. destruct Hal as [-> |(s1 & E1 & -> & Hc & Hd)].
    + destruct (Halm s Es) as [?|[[Hc Hd] ?]]; [by left|right]. split; [|done]. unfold both_here. rewrite Hk. unfold current. rewrite !js_find_app.
      unfold current in Hc, Hd. split; [destruct (js_find (fun ws => bool_decide (ws_side ws = console) && _) _)|destruct (js_find (fun ws => bool_decide (ws_side ws = device) && _) _)]; done.
    + rewrite Es in E1. injection E1 as <-. right. split; [|done]. unfold both_here. by rewrite Hh.
Qed.

Lemma ended_fields r : session (fst (ended r)) = None /\ sockets (fst (ended r)) = sockets r.
Proof. done. Qed.

Lemma departed_ok r hist ws r' out : relay_ok r hist -> ws ∈ sockets r -> departed ws r = (r', out) -> relay_ok (gone ws r') hist.
Proof.
  intros Hok Hw. unfold departed. destruct (in_session ws r) eqn:Ei; cbn [negb].
  - cbn [ended]. intros [= <- _]. apply relay_ok_ended; [|done]. apply gone_NoDup, (ok_ids _ _ Hok).
  - intros [= <- _]. by apply relay_ok_gone.
Qed.

Lemma alarm_ok now r hist r' out : relay_ok r hist -> alarm now (take_alarm r) = (r', out) -> relay_ok r' hist.
Proof.
  intros Hok. unfold alarm. cbn [session take_alarm]. destruct (session r) as [s|] eqn:Es; [|intros [= <- _]; apply relay_ok_ended; [apply (ok_ids _ _ Hok)|done]].
  cbn [sockets]. set (joined := negb (bool_decide _) && negb (bool_decide _)). destruct (_ || _); [cbn [ended]; intros [= <- _]; apply relay_ok_ended; [apply (ok_ids _ _ Hok)|done]|].
  intros [= <- _]. destruct Hok as [Hid Ho Ha Hsi Hal]. constructor; cbn [session sockets relay_alarm]; [done|rewrite <- Es; exact Ho|rewrite <- Es; exact Ha|rewrite <- Es; exact Hsi|].
  intros s0 [= <-]. destruct joined eqn:Ej; [right|by left]. split; [|done]. unfold joined in Ej. apply andb_true_iff in Ej as [Hc Hd].
  apply negb_true_iff, bool_decide_eq_false in Hc, Hd. done.
Qed.

Lemma message_cases ws bytes delivers r r' out : webSocketMessage ws bytes delivers r = (r', out) ->
  (r' = r \/ session r' = None /\ sockets r' = sockets r) /\
  forall id b, Send id b ∈ out -> in_session ws r = true /\ bytes = Some b /\ exists other, current (other_side (ws_side ws)) (ws_token ws) (sockets r) = Some other /\ ws_id other = id.
Proof.
  assert (Hclose : forall code l id b, Send id b ∉ close_all code l) by (intros code l id b (x & E & _)%list_elem_of_fmap; done).
  assert (Hnote : forall r0 id b, Send id b ∉ snd (ended r0)) by (intros r0 id b; cbn [ended snd]; destruct (_ <=? _); intros Hin; [by apply elem_of_nil in Hin|by apply list_elem_of_singleton in Hin]).
  unfold webSocketMessage. destruct (in_session ws r) eqn:Ei; cbn [negb].
  2: { intros [= <- <-]. split; [by left|]. by intros id b ?%list_elem_of_singleton. }
  destruct bytes as [bs|]; [|intros [= <- <-]; split; [by left|]; by intros id b ?%elem_of_nil].
  destruct (current _ _ _) as [other|]; [|intros [= <- <-]; split; [by left|]; by intros id b ?%elem_of_nil].
  destruct (delivers other).
  - intros [= <- <-]. split; [by left|]. intros id b Hs%list_elem_of_singleton. injection Hs as -> ->. eauto.
  - specialize (Hnote r). destruct (ended r) as [r1 notice] eqn:Ee. intros [= <- <-]. unfold ended in Ee. injection Ee as <- _. split; [by right|].
    intros id b [Hin|Hin]%elem_of_app; [by apply Hclose in Hin|by apply Hnote in Hin].
Qed.

Lemma step_ok now r hist r' out granted : relay_ok r hist -> relay_step now r r' out granted -> relay_ok r' (hist ++ granted).
Proof.
  intros Hok Hstep. destruct Hstep as [name h user r' out a E Hf|name r' out a E|name id side h user r' out a E Hf|ws bytes delivers r' out Hw E|ws code r' out Hw E|ws r' out Hw E|t r' out Ht Hle E].
  - by apply (open_ok now r hist name h user r' out a).
  - rewrite app_nil_r. unfold handle_close in E. destruct (relay_ok_bind name r hist Hok) as (Hok1 & _). destruct (bind name r) as [r1 ok]. cbn [fst] in *.
    destruct (negb ok); injection E as <- _ _; [done|]. apply relay_ok_ended; [apply (ok_ids _ _ Hok1)|done].
  - by apply (join_ok now r hist name id side h user r' out a).
  - rewrite app_nil_r. apply message_cases in E as [[-> |[Hs Hk]] _]; [done|]. apply relay_ok_ended; [rewrite Hk; apply (ok_ids _ _ Hok)|done].
  - rewrite app_nil_r. unfold webSocketClose in E. destruct (departed ws r) as [r1 o] eqn:Ed. injection E as <- _. by apply (departed_ok r hist ws r1 o).
  - rewrite app_nil_r. by apply (departed_ok r hist ws r' out).
  - rewrite app_nil_r. by apply (alarm_ok now r hist r' out).
Qed.

Lemma run_ok t r hist : relay_run t r hist -> relay_ok r hist.
Proof. induction 1 as [now|t r hist now r' out granted _ IH _ Hs]; [apply relay_ok_ended; [constructor|done]|by apply (step_ok now r hist r' out)]. Qed.

(** ** What the relay promises *)

(** Only a message passes bytes on. *)
Lemma only_messages_send now r r' out granted id b : relay_step now r r' out granted -> Send id b ∈ out ->
  exists ws bytes delivers r1, ws ∈ sockets r /\ webSocketMessage ws bytes delivers r = (r1, out).
Proof.
  assert (Hclose : forall code l, Send id b ∉ close_all code l) by (intros code l (x & E & _)%list_elem_of_fmap; done).
  assert (Hnote : forall r0, Send id b ∉ snd (ended r0)) by (intros r0; cbn [ended snd]; destruct (_ <=? _); intros Hin; [by apply elem_of_nil in Hin|by apply list_elem_of_singleton in Hin]).
  assert (Hdep : forall ws, Send id b ∉ snd (departed ws r)).
  { intros ws. unfold departed. destruct (negb _); [by intros ?%elem_of_nil|]. specialize (Hnote r). destruct (ended r) as [r1 n]. cbn [snd] in *.
    intros [Hin|Hin]%elem_of_app; [by apply Hclose in Hin|done]. }
  intros [name h user r1 o a E Hf|name r1 o a E|name i side h user r1 o a E Hf|ws bytes delivers r1 o Hw E|ws code r1 o Hw E|ws r1 o Hw E|t r1 o Ht Hle E] Hin.
  - exfalso. unfold handle_open in E. destruct (bind name r) as [r2 ok]. destruct (negb ok); [|destruct (_ || _)]; injection E as _ <- _; [by apply elem_of_nil in Hin..|].
    by apply Hclose in Hin.
  - exfalso. unfold handle_close in E. destruct (bind name r) as [r2 ok]. destruct (negb ok); [injection E as _ <- _; by apply elem_of_nil in Hin|].
    specialize (Hnote r2). destruct (ended r2) as [r3 n]. injection E as _ <- _. apply elem_of_app in Hin as [Hin|Hin]; [by apply Hclose in Hin|done].
  - exfalso. unfold handle_join in E. destruct (bind name r) as [r2 ok]. destruct (negb ok); [injection E as _ <- _; by apply elem_of_nil in Hin|].
    destruct (joinRefusal _ _ _ _ _); [injection E as _ <- _; by apply elem_of_nil in Hin|]. unfold accept in E.
    destruct (current device h _); [destruct (current console h _)|]; injection E as _ <- _; [by apply list_elem_of_singleton in Hin|by apply elem_of_nil in Hin..].
  - eauto 10.
  - exfalso. unfold webSocketClose in E. specialize (Hdep ws). destruct (departed ws r) as [r2 n]. injection E as _ <-. cbn [snd] in Hdep.
    apply elem_of_app in Hin as [Hin|Hin]; [done|by apply list_elem_of_singleton in Hin].
  - exfalso. specialize (Hdep ws). unfold webSocketError in E. rewrite E in Hdep. done.
  - exfalso. unfold alarm in E. destruct (session (take_alarm r)); [|injection E as _ <-; by apply elem_of_nil in Hin].
    specialize (Hnote (take_alarm r)). destruct (_ || _); [|injection E as _ <-; by apply elem_of_nil in Hin].
    destruct (ended (take_alarm r)) as [r3 n]. injection E as _ <-. apply elem_of_app in Hin as [Hin|Hin]; [by apply Hclose in Hin|done].
Qed.

(** C25. Remote Control is between two. Whatever happens, bytes are passed on only
    from one side of the session that is open to the other side of the same
    session, to the one socket there is on that side. Both were admitted to
    that session within a minute of its opening, and the operator's is that of
    whoever opened it. *)
Theorem relay_between_two t r hist now r' out granted id b :
  relay_run t r hist -> relay_step now r r' out granted -> Send id b ∈ out ->
  exists s from to, session r = Some s /\ from ∈ sockets r /\ to ∈ sockets r /\ ws_id to = id /\ ws_side to = other_side (ws_side from) /\
    ws_token from = token_hash s /\ ws_token to = token_hash s /\ admitted s hist from /\ admitted s hist to /\
    GOpen (token_hash s) (session_user s) (join_by s - RELAY_JOIN_SECONDS) ∈ hist /\
    (forall other, other ∈ sockets r -> ws_token other = token_hash s -> other = from \/ other = to).
Proof.
  intros Hr Hs Hin. destruct (only_messages_send _ _ _ _ _ _ _ Hs Hin) as (ws & bytes & delivers & r1 & Hw & E).
  destruct (message_cases _ _ _ _ _ _ E) as [_ Hsend]. destruct (Hsend _ _ Hin) as (Hsess & _ & other & Ho & Hid).
  apply current_Some in Ho as (Hoin & Hside & Htok). unfold in_session in Hsess. destruct (session r) as [s|] eqn:Es; [|done]. apply String.eqb_eq in Hsess.
  destruct (run_ok _ _ _ Hr) as [Hnd Hop Ha Hsi _]. destruct (Hop s Es) as [Hopen _].
  exists s, ws, other. split_and!; try done; try congruence; try (apply Ha; congruence).
  intros x Hx Ht. destruct (decide (ws_side x = ws_side ws)) as [E'|E']; [left; apply (Hsi s); congruence|right]. apply (Hsi s); try congruence.
  rewrite Hside. destruct (ws_side x), (ws_side ws); done.
Qed.

(** The hub is told of the organization and workstation the relay is named for. *)
Lemma ended_notice r tenantId clientId : binding r = Some (relayName tenantId clientId) -> tenantId <> ""%string -> has_char ":" tenantId = false ->
  snd (ended r) = [RemoteEnded tenantId clientId].
Proof.
  intros Hb Hne Hc. unfold ended, relayName in *. rewrite Hb. cbn [default from_option id snd]. unfold indexOf.
  change (tenantId +:+ ":" +:+ clientId) with (tenantId +:+ String ":"%char clientId). rewrite indexOf_from_name by done.
  destruct tenantId as [|d a]; [done|]. rewrite (proj2 (Z.leb_gt _ _)) by (cbn [String.length]; lia). replace (Z.to_nat (0 + Z.of_nat (String.length (String d a)))) with (String.length (String d a)) by lia. do 2 f_equal.
  - apply str_take_app.
  - change (String d a +:+ String ":"%char clientId) with (String d a +:+ (":" +:+ clientId)). rewrite <- str_app_assoc.
    replace (String.length (String d a) + 1)%nat with (String.length (String d a +:+ ":")) by (rewrite str_length_app; done). apply str_drop_app.
Qed.

(** Whoever is still listed is closed, and the hub is told. *)
Definition ends (r r' : Relay) (out : list Effect) : Prop :=
  (forall ws, ws ∈ sockets r' -> exists code, Close (ws_id ws) code ∈ out) /\ (forall n, n ∈ snd (ended r) -> n ∈ out).

Lemma ends_close_all code l r r' rest : (forall ws, ws ∈ sockets r' -> ws ∈ l) -> ends r r' ((close_all code l ++ snd (ended r)) ++ rest).
Proof.
  intros Hsub. split.
  - intros ws Hw. exists code. apply elem_of_app. left. apply elem_of_app. left. apply list_elem_of_fmap. eauto.
  - intros n Hn. apply elem_of_app. left. apply elem_of_app. by right.
Qed.

Lemma departed_ends ws r r' out rest s : departed ws r = (r', out) -> session r = Some s -> session r' = None -> ends r (gone ws r') (out ++ rest).
Proof.
  unfold departed. intros E Es Hn. destruct (in_session ws r); cbn [negb] in E; [|injection E as <- _; congruence].
  cbn [ended] in E. injection E as <- <-. apply (ends_close_all _ (List.filter _ (sockets r))). intros x Hx. exact Hx.
Qed.

Lemma message_ends ws bytes delivers r r' out s : webSocketMessage ws bytes delivers r = (r', out) -> session r = Some s -> session r' = None -> ends r r' out.
Proof.
  unfold webSocketMessage. intros E Es Hn. destruct (negb _); [injection E as <- _; congruence|]. destruct bytes as [bs|]; [|injection E as <- _; congruence].
  destruct (current _ _ _) as [other|]; [|injection E as <- _; congruence]. destruct (delivers other); [injection E as <- _; congruence|].
  cbn [ended] in E. injection E as <- <-. rewrite <- (app_nil_r (_ ++ _)). by apply ends_close_all.
Qed.

Lemma alarm_ends now r r' out s : alarm now (take_alarm r) = (r', out) -> session r = Some s -> session r' = None -> ends r r' out.
Proof.
  unfold alarm. cbn [session take_alarm sockets]. intros E Es Hn. rewrite Es in E. destruct (_ || _); [|injection E as <- _; discriminate].
  cbn [ended] in E. injection E as <- <-. rewrite <- (app_nil_r (_ ++ _)). by apply (ends_close_all _ (sockets r) r).
Qed.

Lemma close_ends name r r' out a s : handle_close name r = (r', out, a) -> session r = Some s -> session r' = None -> ends r r' out.
Proof.
  unfold handle_close, bind. intros E Es Hn. destruct (String.eqb name ""); cbn [negb] in E; [injection E as <- _ _; congruence|].
  destruct (binding r) as [bound|] eqn:Eb.
  - destruct (String.eqb bound name); cbn [negb] in E; [|injection E as <- _ _; congruence]. cbn [ended] in E. injection E as <- <- _.
    rewrite <- (app_nil_r (_ ++ _)). by apply ends_close_all.
  - cbn [negb ended binding session sockets] in E. injection E as <- <- _. split.
    + intros ws Hw. exists CLOSE_RELAY_REVOKED. apply elem_of_app. left. apply list_elem_of_fmap. eauto.
    + intros n. cbn [ended snd]. rewrite Eb. by intros ?%elem_of_nil.
Qed.

Lemma step_ends t r hist now r' out granted s : relay_run t r hist -> relay_step now r r' out granted -> session r = Some s -> session r' = None -> ends r r' out.
Proof.
  intros Hr Hstep Es Hn.
  destruct Hstep as [name h user r1 o a E Hf|name r1 o a E|name i side h user r1 o a E Hf|ws bytes delivers r1 o Hw E|ws code r1 o Hw E|ws r1 o Hw E|t' r1 o Ht Hle E].
  - exfalso. unfold handle_open in E. destruct (relay_ok_bind name r hist (run_ok _ _ _ Hr)) as (_ & Hse & _). destruct (bind name r) as [r2 ok]. cbn [fst] in Hse.
    destruct (negb ok); [|destruct (_ || _)]; injection E as <- _ _; [congruence..|discriminate].
  - by apply (close_ends name _ _ _ a s).
  - exfalso. unfold handle_join in E. destruct (relay_ok_bind name r hist (run_ok _ _ _ Hr)) as (_ & Hse & _). destruct (bind name r) as [r2 ok]. cbn [fst] in Hse.
    destruct (negb ok); [injection E as <- _ _; congruence|]. destruct (joinRefusal _ _ _ _ _); [injection E as <- _ _; congruence|].
    destruct (accept_fields i side h r2) as (_ & Hs2 & _). destruct (accept i side h r2) as [r3 o3]. injection E as <- _ _. cbn [fst] in Hs2. congruence.
  - by apply (message_ends ws bytes delivers _ _ _ s).
  - unfold webSocketClose in E. destruct (departed ws r) as [r2 o2] eqn:Ed. injection E as <- <-. by apply (departed_ends ws r r2 o2 _ s).
  - unfold webSocketError in E. rewrite <- (app_nil_r o). by apply (departed_ends ws r r1 o [] s).
  - by apply (alarm_ends now _ _ _ s).
Qed.

(** A session ends for both, and in time. While one is open the alarm is
    set: a minute after it was opened, or at its limit of four hours once both
    sides are there; when it fires at the limit, or at the minute with a side
    missing, the session ends. Whatever ends a session, every socket still
    listed is closed and the hub is told to free the seat of that workstation. *)
Theorem relay_ends_for_both t r hist s :
  relay_run t r hist -> session r = Some s ->
  (relay_alarm r = Some (join_by s * 1000) \/ (both_here s (sockets r) /\ relay_alarm r = Some (ends_at s * 1000))) /\
  (forall now r' out, alarm now (take_alarm r) = (r', out) -> ends_at s <= now \/ (join_by s <= now /\ ~ both_here s (sockets r)) -> session r' = None) /\
  (forall now r' out granted, relay_step now r r' out granted -> session r' = None ->
     (forall ws, ws ∈ sockets r' -> exists code, Close (ws_id ws) code ∈ out) /\
     (forall tenantId clientId, binding r = Some (relayName tenantId clientId) -> tenantId <> ""%string -> has_char ":" tenantId = false ->
        RemoteEnded tenantId clientId ∈ out)).
Proof.
  intros Hr Es. destruct (run_ok _ _ _ Hr) as [_ _ _ _ Hal]. split; [by apply Hal|]. split.
  - intros now r' out E Hwhen. unfold alarm in E. cbn [session take_alarm sockets] in E. rewrite Es in E. set (joined := negb (bool_decide _) && negb (bool_decide _)) in E.
    destruct ((ends_at s <=? now) || (negb joined && (join_by s <=? now))) eqn:Eb; [cbn [ended] in E; by injection E as <- _|]. exfalso.
    apply orb_false_iff in Eb as [H1%Z.leb_gt H2]. destruct Hwhen as [?|[Hj Hb]]; [lia|]. apply andb_false_iff in H2 as [H2|H2%Z.leb_gt]; [|lia].
    apply Hb. apply negb_false_iff in H2. unfold joined in H2. apply andb_true_iff in H2 as [Hc Hd]. apply negb_true_iff, bool_decide_eq_false in Hc, Hd. done.
  - intros now r' out granted Hstep Hend. destruct (step_ends _ _ _ _ _ _ _ s Hr Hstep Es Hend) as [Hclose Hnote]. split; [exact Hclose|].
    intros tn cl Hb Hne Hc. apply Hnote. rewrite (ended_notice r tn cl Hb Hne Hc). constructor.
Qed.

(** ** A session, end to end *)

Definition demo_hash : string := "0123456789abcdef0123456789abcdef0123456789abcdef0123456789abcdef".
Definition demo_console : Socket := mkSocket 1 console demo_hash.
Definition demo_device : Socket := mkSocket 2 device demo_hash.

(** The operator u1 opens a session at 100 and joins it at 110, the workstation at 120. *)
Definition demo_relay : Relay :=
  mkRelay (Some "org1:pc-7"%string) (Some (mkRelaySession demo_hash "u1" 160 14500)) [demo_console; demo_device] (Some 14500000).
Definition demo_history : list Granted := [GOpen demo_hash "u1" 100; GJoin demo_console "u1" 110; GJoin demo_device "" 120].

Lemma demo_run : relay_run 120 demo_relay demo_history.
Proof.
  change demo_history with ((([] ++ [GOpen demo_hash "u1" 100]) ++ [GJoin demo_console "u1" 110]) ++ [GJoin demo_device "" 120]).
  eapply (relay_next 110); [|lia|].
  - eapply (relay_next 100); [|lia|].
    + eapply (relay_next 0); [apply relay_start|lia|]. eapply (step_open 100 new_relay "org1:pc-7" demo_hash "u1" _ _ (Opened RELAY_JOIN_SECONDS)); [vm_compute; reflexivity|by intros ws ?%elem_of_nil].
    + eapply (step_join 110 _ "org1:pc-7" 1 console demo_hash "u1" _ _ Joined); [vm_compute; reflexivity|by intros ws ?%elem_of_nil].
  - eapply (step_join 120 _ "org1:pc-7" 2 device demo_hash "" _ _ Joined); [vm_compute; reflexivity|].
    intros ws ->%list_elem_of_singleton. done.
Qed.

(** What the operator types reaches the workstation. *)
Lemma relay_between_two_witness : exists s from to, session demo_relay = Some s /\ from ∈ sockets demo_relay /\ to ∈ sockets demo_relay /\ ws_id to = 2%nat /\
  ws_side to = other_side (ws_side from) /\ ws_token from = token_hash s /\ ws_token to = token_hash s /\ admitted s demo_history from /\ admitted s demo_history to /\
  GOpen (token_hash s) (session_user s) (join_by s - RELAY_JOIN_SECONDS) ∈ demo_history /\
  (forall other, other ∈ sockets demo_relay -> ws_token other = token_hash s -> other = from \/ other = to).
Proof.
  apply (relay_between_two 120 demo_relay demo_history 121 demo_relay [Send 2 [104; 105]] [] 2%nat [104; 105] demo_run); [|constructor].
  eapply (step_message 121 demo_relay demo_console (Some [104; 105]) (fun _ => true)); [constructor|vm_compute; reflexivity].
Defined.

(** Its workstation leaves, and the session ends for the operator too. *)
Lemma relay_ends_for_both_witness : exists r', relay_step 130 demo_relay r' [Close 1 CLOSE_RELAY_PEER_GONE; RemoteEnded "org1" "pc-7"; Close 2 1000] [] /\
  session r' = None /\ (forall ws, ws ∈ sockets r' -> exists code, Close (ws_id ws) code ∈ [Close 1 CLOSE_RELAY_PEER_GONE; RemoteEnded "org1" "pc-7"; Close 2 1000]).
Proof.
  assert (Hs : relay_step 130 demo_relay (mkRelay (Some "org1:pc-7"%string) None [demo_console] (Some 14500000)) [Close 1 CLOSE_RELAY_PEER_GONE; RemoteEnded "org1" "pc-7"; Close 2 1000] []).
  { apply (step_left 130 demo_relay demo_device 1006 (mkRelay (Some "org1:pc-7"%string) None [demo_console; demo_device] (Some 14500000))); [apply list_elem_of_further, list_elem_of_here|vm_compute; reflexivity]. }
  eexists. split; [exact Hs|]. split; [reflexivity|].
  destruct (relay_ends_for_both 120 demo_relay demo_history _ demo_run eq_refl) as (_ & _ & H). exact (proj1 (H _ _ _ _ Hs eq_refl)).
Defined.
