(* ===== verification/Education.v ===== *)
(** src/cloudflare-control/src/education.ts: an institution's application for
    the free plan, the code that confirms its address, and the platform's
    decision. Certificates are kept in the R2 bucket, a map; the map in memory
    that stands in for it in tests is not modelled. Identifiers and the random
    draws of a code are arguments. *)
From S2P Require Import Prelude JsString Regex Platform Db Escape Allowlist Guard Plans Calendar Power Auth Totp Billing.

Definition ED_INSTITUTION : nat := 160.
Definition ED_BOARD : nat := 80.
Definition ED_AFFILIATION : nat := 60.
Definition ED_WEBSITE : nat := 300.
Definition ED_EMAIL : nat := 254.
Definition ED_CERTIFICATE_BYTES : Z := 5 * 1024 * 1024.
Definition ED_CERTIFICATE_NAME : nat := 160.
Definition ED_REASON : nat := 500.
Definition ED_CODE_MINUTES : Z := 30.
Definition ED_CODE_ATTEMPTS : Z := 5.
Definition CERTIFICATE_RETENTION_DAYS : Z := 90.

Definition PUBLIC_MAIL_DOMAINS : list string :=
  ["gmail.com"; "googlemail.com"; "yahoo.com"; "yahoo.co.in"; "ymail.com"; "outlook.com"; "hotmail.com"; "live.com"; "msn.com"; "icloud.com"; "me.com"; "aol.com";
   "proton.me"; "protonmail.com"; "zoho.com"; "zohomail.in"; "rediffmail.com"; "yandex.com"; "gmx.com"; "mail.com"]%string.

(** [CERTIFICATE_TYPES[type]]: the first bytes of each type and its name. The
    names every object inherits are found too, and are no types. *)
Inductive CertificateType : Type := KnownType (magic : list Z) (label : string) | Inherited | NoType.
Definition INHERITED_NAMES : list string :=
  ["constructor"; "__defineGetter__"; "__defineSetter__"; "hasOwnProperty"; "__lookupGetter__"; "__lookupSetter__"; "isPrototypeOf"; "propertyIsEnumerable"; "toString"; "valueOf"; "__proto__";
   "toLocaleString"]%string.
Definition certificate_type (type : string) : CertificateType :=
  if String.eqb type "application/pdf" then KnownType [0x25; 0x50; 0x44; 0x46] "PDF"
  else if String.eqb type "image/jpeg" then KnownType [0xff; 0xd8; 0xff] "JPEG"
  else if String.eqb type "image/png" then KnownType [0x89; 0x50; 0x4e; 0x47] "PNG"
  else if bool_decide (type ∈ INHERITED_NAMES) then Inherited
  else NoType.

(** [value.replace(/\s+/g, " ").trim().slice(0, max)] of a text field. *)
Definition line (value : option string) (max : nat) : string :=
  match value with Some s => str_take max (trim (collapse is_space false s)) | None => ""%string end.

Definition bareHost (host : string) : string := strip_www (toLowerCase host).

(** What follows the last [@], and whether something comes before it. *)
Fixpoint after_last (c : ascii) (s : string) : option string :=
  match s with
  | ""%string => None
  | String d t => match after_last c t with Some r => Some r | None => if is_char c d then Some t else None end
  end.

Section Form.
Context `{UrlParser}.

Definition emailMatchesWebsite (email website : string) : bool :=
  match after_last "@" email with
  | None => false
  | Some rest =>
      if (String.length email <=? S (String.length rest))%nat then false
      else
        let domain := toLowerCase rest in
        match parseURL website with
        | None => false
        | Some u =>
            let host := bareHost (url_hostname u) in
            if String.eqb domain "" || String.eqb host "" || bool_decide (domain ∈ PUBLIC_MAIL_DOMAINS) || bool_decide (host ∈ PUBLIC_MAIL_DOMAINS) then false
            else String.eqb domain host || endsWith domain ("." +:+ host) || endsWith host ("." +:+ domain)
        end
  end.

Record UploadedFile : Type := mkFile { uf_name : string; uf_type : string; uf_bytes : list Z }.

Record EducationInput : Type := mkEducationInput {
  ei_institution : string;
  ei_board : string;
  ei_affiliationNumber : string;
  ei_website : string;
  ei_email : string;
  ei_certificate_name : string;
  ei_certificate_type : string;
  ei_certificate_bytes : list Z
}.

(** The multipart body: its text fields, and its file. *)
Record EducationForm : Type := mkForm {
  fm_institution : option string;
  fm_board : option string;
  fm_affiliationNumber : option string;
  fm_website : option string;
  fm_email : option string;
  fm_certificate : option UploadedFile
}.

(** Something, an @, something, a dot and something, with no white space or
    other @: what the address must look like. *)
Definition OFFICIAL_EMAIL : re :=
  let plain := RPlus (RClass (fun c => negb (is_space c) && negb (is_char "@" c))) in RCat plain (RCat (RChar "@") (RCat plain (RCat (RChar ".") plain))).

Definition HTTP_SCHEME (s : string) : bool := startsWith (toLowerCase s) "http://" || startsWith (toLowerCase s) "https://".

Definition is_name_char (c : ascii) : bool :=
  is_lower (lower_char c) || is_digit c || is_char "_" c || is_char "." c || is_char "-" c || is_char " " c || is_char "(" c || is_char ")" c.

(** The form read, or the reason it is refused; a crash of the code throws. *)
Definition parseEducationForm (form : EducationForm) : js_result (EducationInput + string) :=
  let institution := line (fm_institution form) ED_INSTITUTION in
  let board := line (fm_board form) ED_BOARD in
  let affiliationNumber := line (fm_affiliationNumber form) ED_AFFILIATION in
  let rawWebsite := line (fm_website form) ED_WEBSITE in
  let website := if String.eqb rawWebsite "" then None else safeHttpUrl (if HTTP_SCHEME rawWebsite then rawWebsite else "https://" +:+ rawWebsite) in
  let email := toLowerCase (line (fm_email form) ED_EMAIL) in
  if (String.length institution <? 3)%nat then Returns (inr "Enter the institution's full name"%string)
  else if (String.length board <? 2)%nat then Returns (inr "Enter the board or body it is affiliated with, such as CBSE or a state board"%string)
  else if (String.length affiliationNumber <? 2)%nat then Returns (inr "Enter the affiliation or recognition number"%string)
  else
    match website with
    | None => Returns (inr "Enter the institution's website, such as https://institute.edu.in"%string)
    | Some website =>
        if negb (re_test OFFICIAL_EMAIL email) then Returns (inr "Enter the institution's official email address"%string)
        else if negb (emailMatchesWebsite email website) then
          Returns (inr "The email address must be on the institution website's own domain, not a personal or free email service"%string)
        else
          match fm_certificate form with
          | None => Returns (inr "Attach the affiliation or recognition certificate"%string)
          | Some file =>
              let size := Z.of_nat (length (uf_bytes file)) in
              match certificate_type (uf_type file) with
              | NoType => Returns (inr "The certificate must be a PDF, JPEG or PNG file"%string)
              | known =>
                  if size =? 0 then Returns (inr "The certificate file is empty"%string)
                  else if ED_CERTIFICATE_BYTES <? size then Returns (inr "The certificate must be 5 MB or smaller"%string)
                  else
                    match known with
                    | KnownType magic label =>
                        if negb (bool_decide (take (length magic) (uf_bytes file) = magic)) then Returns (inr ("The certificate is not a real " +:+ label +:+ " file"))
                        else
                          let clean := str_map (fun c => if is_name_char c then c else "_"%char) (line (Some (uf_name file)) ED_CERTIFICATE_NAME) in
                          Returns (inl (mkEducationInput institution board affiliationNumber website email (if String.eqb clean "" then "certificate" else clean) (uf_type file) (uf_bytes file)))
                    | _ => Throws "Cannot read properties of undefined (reading 'every')"
                    end
              end
          end
    end.
End Form.

(** ** The code *)

(** [uniformBelow] (conversations.ts), from the draws of 32 bits in their order;
    none where every one of them was rejected. *)
Fixpoint uniformBelow (limit : Z) (draws : list Z) : option Z :=
  match draws with
  | [] => None
  | d :: rest => if d <? 2 ^ 32 / limit * limit then Some (d mod limit) else uniformBelow limit rest
  end.

Definition sixDigits (draws : list Z) : option string := pad6 <$> uniformBelow 1000000 draws.

Section Flow.
Context `{WebCrypto}.

Definition codeHash (id code : string) : string := sha256Hex ("education:" +:+ id +:+ ":" +:+ code).

Definition has_app (id : string) (a : EducationApplication) : bool := String.eqb (ea_id a) id.
Definition findApplication (s : PlanState) (id : string) : option EducationApplication := js_find (has_app id) (education_applications s).

(** The newest row, the last inserted of those of one second. *)
Definition latestApplication (s : PlanState) (tenantId : string) : option EducationApplication :=
  head (js_sort (fun a b => ea_created_at b - ea_created_at a) (rev (List.filter (fun a => String.eqb (ea_tenant_id a) tenantId) (education_applications s)))).

Definition CERTIFICATE_PREFIX : string := "education/".

Definition storeCertificate (key : string) (bytes : list Z) (type : string) : PlanState -> PlanState :=
  on_certificates (upsert (fun e => String.eqb (fst e) key) (fun _ => (key, mkCertificate bytes type)) (key, mkCertificate bytes type)).
Definition readCertificate (key : string) (s : PlanState) : option Certificate :=
  if negb (startsWith key CERTIFICATE_PREFIX) then None else assoc key (certificates s).
Definition deleteCertificate (key : string) : PlanState -> PlanState := on_certificates (List.filter (fun e => negb (String.eqb (fst e) key))).

Definition discardApplication (a : EducationApplication) (s : PlanState) : PlanState :=
  on_applications (List.filter (fun r => negb (has_app (ea_id a) r))) (match ea_certificate_key a with Some key => deleteCertificate key s | None => s end).

Record EdRefusal : Type := mkEdRefusal { er_error : string; er_status : Z }.

Definition new_application (id tenantId userId key code : string) (input : EducationInput) (now : Z) : EducationApplication :=
  mkApplication id tenantId (ei_institution input) (ei_board input) (ei_affiliationNumber input) (ei_website input) (ei_email input) (Some (codeHash id code))
    (Some (now + ED_CODE_MINUTES * 60)) 0 None (Some key) (ei_certificate_name input) (ei_certificate_type input) (Z.of_nat (length (ei_certificate_bytes input)))
    app_verifying None (Some userId) now None None None.

Definition startApplication (tenantId userId id code : string) (input : EducationInput) (now : Z) (s : PlanState) : PlanState * (EducationApplication + EdRefusal) :=
  let latest := latestApplication s tenantId in
  let status := ea_status <$> latest in
  if bool_decide (status = Some app_pending) then (s, inr (mkEdRefusal "An application is already waiting for review" 409))
  else
    let s1 := match latest with Some a => if bool_decide (ea_status a = app_verifying) then discardApplication a s else s | None => s end in
    let key := CERTIFICATE_PREFIX +:+ tenantId +:+ "/" +:+ id in
    let row := new_application id tenantId userId key code input now in
    (on_applications (fun l => l ++ [row]) (storeCertificate key (ei_certificate_bytes input) (ei_certificate_type input) s1), inl row).

Definition update_application (id : string) (f : EducationApplication -> EducationApplication) : PlanState -> PlanState :=
  on_applications (List.map (fun a => if has_app id a then f a else a)).

Definition wrong_code (a : EducationApplication) : EducationApplication :=
  mkApplication (ea_id a) (ea_tenant_id a) (ea_institution a) (ea_board a) (ea_affiliation_number a) (ea_website a) (ea_email a) (ea_code_hash a) (ea_code_expires_at a)
    (ea_code_attempts a + 1) (ea_email_verified_at a) (ea_certificate_key a) (ea_certificate_name a) (ea_certificate_type a) (ea_certificate_size a) (ea_status a)
    (ea_decision_reason a) (ea_created_by a) (ea_created_at a) (ea_submitted_at a) (ea_decided_at a) (ea_decided_by a).
Definition confirmed (now : Z) (a : EducationApplication) : EducationApplication :=
  if negb (bool_decide (ea_status a = app_verifying)) then a
  else mkApplication (ea_id a) (ea_tenant_id a) (ea_institution a) (ea_board a) (ea_affiliation_number a) (ea_website a) (ea_email a) None None (ea_code_attempts a) (Some now)
    (ea_certificate_key a) (ea_certificate_name a) (ea_certificate_type a) (ea_certificate_size a) app_pending (ea_decision_reason a) (ea_created_by a) (ea_created_at a)
    (Some now) (ea_decided_at a) (ea_decided_by a).

(** The confirmed row is read back. *)
Definition confirmApplicationEmail (tenantId id code : string) (now : Z) (s : PlanState) : PlanState * (option EducationApplication + EdRefusal) :=
  match findApplication s id with
  | None => (s, inr (mkEdRefusal "Application not found" 404))
  | Some a =>
      if negb (String.eqb (ea_tenant_id a) tenantId) then (s, inr (mkEdRefusal "Application not found" 404))
      else
        match (if bool_decide (ea_status a = app_verifying) then ea_code_hash a ≫= nonempty else None) with
        | None => (s, inr (mkEdRefusal "This application's address is already confirmed" 409))
        | Some hash =>
            if ED_CODE_ATTEMPTS <=? ea_code_attempts a then (s, inr (mkEdRefusal "Too many wrong codes. Send the application again for a new code." 429))
            else if match ea_code_expires_at a with Some e => (e =? 0) || (e <? now) | None => true end then
              (s, inr (mkEdRefusal "The code has expired. Send the application again for a new one." 410))
            else if negb (re_test SIX_DIGITS code) || negb (timingSafeEqual (codeHash id code) hash) then
              (update_application id wrong_code s, inr (mkEdRefusal "That code is not right" 400))
            else let s1 := update_application id (confirmed now) s in (s1, inl (findApplication s1 id))
        end
  end.

(** Waiting applications first, then by when they were decided or submitted. *)
Definition review_key (a : EducationApplication) : Z := match ea_decided_at a with Some d => d | None => default 0 (ea_submitted_at a) end.
Definition by_review (a b : EducationApplication) : Z :=
  let rank x := if bool_decide (ea_status x = app_pending) then 0 else 1 in
  if rank a =? rank b then review_key b - review_key a else rank a - rank b.
Definition listApplicationsForReview (s : PlanState) : list (EducationApplication * string * string) :=
  take 300 (js_sort (fun x y => by_review (fst (fst x)) (fst (fst y)))
    (omap (fun a => if bool_decide (ea_status a = app_verifying) then None else (fun t => (a, t_name t, t_subdomain t)) <$> findTenantById (ps_db s) (ea_tenant_id a)) (education_applications s))).

Definition decided (approve : bool) (reason : option string) (userId : string) (now : Z) (a : EducationApplication) : EducationApplication :=
  mkApplication (ea_id a) (ea_tenant_id a) (ea_institution a) (ea_board a) (ea_affiliation_number a) (ea_website a) (ea_email a) (ea_code_hash a) (ea_code_expires_at a)
    (ea_code_attempts a) (ea_email_verified_at a) (ea_certificate_key a) (ea_certificate_name a) (ea_certificate_type a) (ea_certificate_size a)
    (if approve then app_approved else app_rejected) reason (ea_created_by a) (ea_created_at a) (ea_submitted_at a) (Some now) (Some userId).

Definition is_waiting (id : string) (a : EducationApplication) : bool := has_app id a && bool_decide (ea_status a = app_pending).

Definition decideApplication (id : string) (approve : bool) (reason : option string) (userId : string) (now : Z) (s : PlanState) : PlanState * bool :=
  (on_applications (List.map (fun a => if is_waiting id a then decided approve reason userId now a else a)) s, existsb (is_waiting id) (education_applications s)).

(** ** The hourly purge *)

Definition without_certificate (a : EducationApplication) : EducationApplication :=
  mkApplication (ea_id a) (ea_tenant_id a) (ea_institution a) (ea_board a) (ea_affiliation_number a) (ea_website a) (ea_email a) (ea_code_hash a) (ea_code_expires_at a)
    (ea_code_attempts a) (ea_email_verified_at a) None (ea_certificate_name a) (ea_certificate_type a) (ea_certificate_size a) (ea_status a) (ea_decision_reason a)
    (ea_created_by a) (ea_created_at a) (ea_submitted_at a) (ea_decided_at a) (ea_decided_by a).

Definition purgeable (now : Z) (a : EducationApplication) : bool :=
  (bool_decide (ea_status a = app_verifying) && (ea_created_at a <? now - DAY)) ||
  (bool_decide (ea_status a = app_rejected) && bool_decide (is_Some (ea_certificate_key a)) && match ea_decided_at a with Some d => d <? now - CERTIFICATE_RETENTION_DAYS * DAY | None => false end).

Definition purge_one (s : PlanState) (a : EducationApplication) : PlanState :=
  if bool_decide (ea_status a = app_verifying) then discardApplication a s
  else update_application (ea_id a) without_certificate (match ea_certificate_key a with Some key => deleteCertificate key s | None => s end).

Definition purgeEducationApplications (now : Z) (s : PlanState) : PlanState * Z :=
  let results := take 100 (List.filter (purgeable now) (education_applications s)) in
  (foldl purge_one s results, Z.of_nat (length results)).
End Flow.

(** ** The life of an application *)

(** No value is drawn more often than another: each is given by as many of the
    accepted draws, one for each multiple of the limit below the ceiling. *)
Lemma uniformBelow_fair limit v d : 0 < limit <= 2 ^ 32 -> 0 <= v < limit -> 0 <= d < 2 ^ 32 ->
  uniformBelow limit [d] = Some v <-> exists q, 0 <= q < 2 ^ 32 / limit /\ d = q * limit + v.
Proof.
  intros Hl Hv Hd. cbn [uniformBelow]. destruct (Z.ltb_spec d (2 ^ 32 / limit * limit)) as [H|H].
  - split.
    + intros [= <-]. exists (d / limit). pose proof (Z.div_mod d limit ltac:(lia)). split; [|lia]. split; [apply Z.div_pos; lia|]. apply Z.div_lt_upper_bound; lia.
    + intros (q & Hq & ->). f_equal. rewrite Z.add_comm, Z.mod_add by lia. by apply Z.mod_small.
  - split; [done|]. intros (q & Hq & ->). exfalso. assert (q + 1 <= 2 ^ 32 / limit) by lia. nia.
Qed.

(** What happens to applications: one is started for an organization, with a
    code that is emailed; a code is entered; the platform decides; old ones are
    purged. Each at a time. *)
Inductive EdEvent : Type :=
| EdStart (tenantId userId id code : string) (input : EducationInput)
| EdConfirm (tenantId id code : string)
| EdDecide (id : string) (approve : bool) (reason : option string) (userId : string)
| EdPurge.

Definition ed_step `{WebCrypto} (s : PlanState) (e : EdEvent * Z) : PlanState :=
  let '(ev, now) := e in
  match ev with
  | EdStart tenantId userId id code input => fst (startApplication tenantId userId id code input now s)
  | EdConfirm tenantId id code => fst (confirmApplicationEmail tenantId id code now s)
  | EdDecide id approve reason userId => fst (decideApplication id approve reason userId now s)
  | EdPurge => fst (purgeEducationApplications now s)
  end.

(** The state a history of events leads to. *)
Definition ed_run `{WebCrypto} (s : PlanState) (history : list (EdEvent * Z)) : PlanState := foldl ed_step s history.

Definition started_id (e : EdEvent * Z) : option string := match fst e with EdStart _ _ id _ _ => Some id | _ => None end.

(** Identifiers are drawn once, and time does not go back. *)
Record ed_history (history : list (EdEvent * Z)) : Prop := {
  eh_ids : NoDup (omap started_id history);
  eh_times : StronglySorted Z.le (List.map snd history)
}.

Definition is_open (a : EducationApplication) : bool := bool_decide (ea_status a = app_verifying) || bool_decide (ea_status a = app_pending).

Section Life.
Context `{WebCrypto}.

(** How an application came to its status. *)
Definition was_started (history : list (EdEvent * Z)) (a : EducationApplication) (code : string) (t0 : Z) : Prop :=
  exists userId input, (EdStart (ea_tenant_id a) userId (ea_id a) code input, t0) ∈ history.
Definition was_confirmed (history : list (EdEvent * Z)) (a : EducationApplication) (code : string) (t0 : Z) : Prop :=
  exists entered t1, (EdConfirm (ea_tenant_id a) (ea_id a) entered, t1) ∈ history /\ codeHash (ea_id a) entered = codeHash (ea_id a) code /\ t1 <= t0 + ED_CODE_MINUTES * 60 /\
    ea_email_verified_at a = Some t1.
Definition was_decided (history : list (EdEvent * Z)) (a : EducationApplication) (approve : bool) : Prop :=
  exists reason userId t2, (EdDecide (ea_id a) approve reason userId, t2) ∈ history /\ ea_decided_at a = Some t2 /\ ea_decided_by a = Some userId.

Definition app_ok (history : list (EdEvent * Z)) (a : EducationApplication) : Prop :=
  0 <= ea_code_attempts a <= ED_CODE_ATTEMPTS /\
  exists code t0, was_started history a code t0 /\
    match ea_status a with
    | app_verifying => ea_code_hash a = Some (codeHash (ea_id a) code) /\ ea_code_expires_at a = Some (t0 + ED_CODE_MINUTES * 60)
    | app_pending => was_confirmed history a code t0
    | app_approved => was_confirmed history a code t0 /\ was_decided history a true
    | app_rejected => was_confirmed history a code t0 /\ was_decided history a false
    end.

Lemma app_ok_mono history e a : app_ok history a -> app_ok (history ++ [e]) a.
Proof.
  intros [Ha (code & t0 & (u & i & Hs) & Hst)]. split; [done|]. exists code, t0. split; [exists u, i; apply elem_of_app; by left|].
  assert (Hc : was_confirmed history a code t0 -> was_confirmed (history ++ [e]) a code t0) by (intros (x & t1 & Hin & ?); exists x, t1; split; [apply elem_of_app; by left|done]).
  assert (Hd : forall b, was_decided history a b -> was_decided (history ++ [e]) a b) by (intros b (x & y & t2 & Hin & ?); exists x, y, t2; split; [apply elem_of_app; by left|done]).
  destruct (ea_status a); [done|by apply Hc|destruct Hst; split; auto..].
Qed.

(** *** What every history keeps *)

Definition same_identity (a b : EducationApplication) : Prop := ea_id a = ea_id b /\ ea_tenant_id a = ea_tenant_id b /\ ea_created_at a = ea_created_at b.

(** Applications are in the order they were started, and those of an
    organization that are followed by another are decided. *)
Definition in_order (a b : EducationApplication) : Prop := ea_created_at a <= ea_created_at b /\ (ea_tenant_id a = ea_tenant_id b -> is_open a = false).

Record ed_inv (history : list (EdEvent * Z)) (s : PlanState) : Prop := {
  ev_ok : Forall (app_ok history) (education_applications s);
  ev_ids : NoDup (List.map ea_id (education_applications s));
  ev_known : forall a, a ∈ education_applications s -> ea_id a ∈ omap started_id history;
  ev_past : forall a, a ∈ education_applications s -> ea_created_at a ∈ List.map snd history;
  ev_order : StronglySorted in_order (education_applications s)
}.

Lemma ed_inv_mono history e s : ed_inv history s -> ed_inv (history ++ [e]) s.
Proof.
  intros [H1 H2 H3 H4 H5]. constructor; [|done| | |done].
  - revert H1. apply Forall_impl. intros a. apply app_ok_mono.
  - intros a Ha. rewrite omap_app. apply elem_of_app. left. by apply H3.
  - intros a Ha. rewrite List.map_app. apply elem_of_app. left. by apply H4.
Qed.

Lemma ed_inv_sub history s s' : ed_inv history s -> education_applications s' `sublist_of` education_applications s -> ed_inv history s'.
Proof.
  intros [H1 H2 H3 H4 H5] Hsub. assert (Hin : forall a, a ∈ education_applications s' -> a ∈ education_applications s) by (intros a Ha; eapply elem_of_submseteq; [exact Ha|by apply sublist_submseteq]).
  constructor; [apply list.Forall_forall; intros a Ha; apply (proj1 (list.Forall_forall _ _) H1); auto|eapply sublist_NoDup'; [by apply sublist_map|done]|auto|auto|by eapply StronglySorted_sub].
Qed.

Lemma ed_inv_map history s s' f : ed_inv history s -> education_applications s' = List.map f (education_applications s) ->
  (forall a, a ∈ education_applications s -> same_identity (f a) a /\ (is_open (f a) = true -> is_open a = true) /\ (app_ok history a -> app_ok history (f a))) -> ed_inv history s'.
Proof.
  intros [H1 H2 H3 H4 H5] Hs Hf. assert (Hid : forall a, a ∈ education_applications s -> same_identity (f a) a) by (intros a Ha; by apply Hf). constructor; rewrite Hs.
  - apply list.Forall_forall. intros a (b & -> & Hb)%list_elem_of_fmap. apply Hf; [done|]. by apply (proj1 (list.Forall_forall _ _) H1).
  - rewrite List.map_map. erewrite List.map_ext_in; [exact H2|]. intros a Ha%list_elem_of_In. by apply Hid.
  - intros a (b & -> & Hb)%list_elem_of_fmap. destruct (Hid b Hb) as (-> & _). by apply H3.
  - intros a (b & -> & Hb)%list_elem_of_fmap. destruct (Hid b Hb) as (_ & _ & ->). by apply H4.
  - eapply StronglySorted_map; [|exact H5]. intros a b Ha Hb [Hc Ho]. destruct (Hid a Ha) as (_ & Ta & Ca), (Hid b Hb) as (_ & Tb & Cb). unfold in_order. rewrite Ta, Tb, Ca, Cb. split; [done|].
    intros E. apply Ho in E. destruct (is_open (f a)) eqn:Eo; [|done]. destruct (Hf a Ha) as (_ & Hopen & _). rewrite Hopen in E; done.
Qed.

(** Of the last application of an organization. *)
Lemma latest_is_last history s t : ed_inv history s -> latestApplication s t = head (rev (List.filter (fun a => String.eqb (ea_tenant_id a) t) (education_applications s))).
Proof.
  intros Hi. unfold latestApplication. rewrite js_sort_id; [done|].
  assert (Hs : StronglySorted (fun x y => in_order y x) (rev (List.filter (fun a => String.eqb (ea_tenant_id a) t) (education_applications s)))) by (apply StronglySorted_rev; eapply StronglySorted_sub; [apply bfilter_sublist|apply Hi]).
  rewrite <- (List.map_id (rev _)). eapply StronglySorted_map; [|exact Hs]. intros x y _ _ [Hxy _]. lia.
Qed.

(** An application of an organization is its latest, or is decided. *)
Lemma latest_or_closed history s t a : ed_inv history s -> a ∈ education_applications s -> ea_tenant_id a = t -> latestApplication s t = Some a \/ is_open a = false.
Proof.
  intros Hi Ha Ht. rewrite (latest_is_last history) by done. set (l := List.filter (fun a => String.eqb (ea_tenant_id a) t) (education_applications s)).
  assert (Hal : a ∈ l) by (apply elem_of_bfilter; split; [done|by apply String.eqb_eq]). assert (Hs : StronglySorted in_order l) by (eapply StronglySorted_sub; [apply bfilter_sublist|apply Hi]).
  assert (Htl : forall x, x ∈ l -> ea_tenant_id x = t) by (by intros x [_ Hx%String.eqb_eq]%elem_of_bfilter). clearbody l. destruct l as [|z l _] using rev_ind; [by apply elem_of_nil in Hal|]. rewrite rev_app_distr. cbn.
  apply elem_of_app in Hal as [Hal| ->%list_elem_of_singleton]; [right|by left]. apply StronglySorted_app in Hs as (Hlt & _ & _). destruct (Hlt a z Hal ltac:(constructor)) as [_ Hopen]. apply Hopen. rewrite Ht.
  symmetry. apply Htl, elem_of_app. right. constructor.
Qed.

Lemma ed_inv_add history tenantId userId id code input now s s' key :
  ed_inv history s -> id ∉ omap started_id history -> Forall (fun t => t <= now) (List.map snd history) ->
  (forall a, a ∈ education_applications s -> ea_tenant_id a = tenantId -> is_open a = false) ->
  education_applications s' = education_applications s ++ [new_application id tenantId userId key code input now] ->
  ed_inv (history ++ [(EdStart tenantId userId id code input, now)]) s'.
Proof.
  intros Hi Hfresh Htimes Hopen Hs. destruct (ed_inv_mono history (EdStart tenantId userId id code input, now) s Hi) as [H1 H2 H3 H4 H5]. destruct Hi as [_ _ Hknown Hpast _]. constructor; rewrite Hs.
  - apply Forall_app. split; [done|]. constructor; [|constructor]. split; [cbn; unfold ED_CODE_ATTEMPTS; lia|]. exists code, now. split; [|done]. exists userId, input. apply elem_of_app. right. constructor.
  - rewrite List.map_app. apply list.NoDup_app. split_and!; [done| |apply NoDup_singleton]. intros x (a & -> & Ha)%list_elem_of_fmap Hx%list_elem_of_singleton. cbn in Hx. apply Hfresh. rewrite <- Hx. by apply Hknown.
  - intros a [Ha| ->%list_elem_of_singleton]%elem_of_app; [by apply H3|]. rewrite omap_app. apply elem_of_app. right. cbn. constructor.
  - intros a [Ha| ->%list_elem_of_singleton]%elem_of_app; [by apply H4|]. rewrite List.map_app. apply elem_of_app. right. cbn. constructor.
  - apply StronglySorted_snoc; [done|]. apply list.Forall_forall. intros a Ha. split; [|by intros; apply Hopen]. cbn. by apply (proj1 (list.Forall_forall _ _) Htimes), Hpast.
Qed.

Lemma start_inv history tenantId userId id code input now s :
  ed_inv history s -> id ∉ omap started_id history -> Forall (fun t => t <= now) (List.map snd history) ->
  ed_inv (history ++ [(EdStart tenantId userId id code input, now)]) (ed_step s (EdStart tenantId userId id code input, now)).
Proof.
  intros Hi Hfresh Htimes. cbn [ed_step]. unfold startApplication. cbv zeta. case_bool_decide as Hp; [by apply ed_inv_mono|]. cbn [fst].
  set (s1 := match latestApplication s tenantId with Some a => _ | None => s end). assert (Hs1 : ed_inv history s1 /\ forall a, a ∈ education_applications s1 -> ea_tenant_id a = tenantId -> is_open a = false).
  { pose proof (fun a => latest_or_closed history s tenantId a Hi) as Hlast. unfold s1. destruct (latestApplication s tenantId) as [z|] eqn:El; [|split; [done|]; intros a Ha Ht; by destruct (Hlast a Ha Ht)]. cbn in Hp.
    case_bool_decide as Hv; [|split; [done|]; intros a Ha Ht; destruct (Hlast a Ha Ht) as [[= ->]|]; [unfold is_open; by rewrite !bool_decide_eq_false_2 by congruence|done]].
    assert (Happs : education_applications (discardApplication z s) = List.filter (fun r => negb (has_app (ea_id z) r)) (education_applications s)) by (unfold discardApplication; by destruct (ea_certificate_key z)).
    split; [eapply ed_inv_sub; [exact Hi|rewrite Happs; apply bfilter_sublist]|]. intros a Ha Ht. rewrite Happs in Ha. apply elem_of_bfilter in Ha as [Ha Hne]. destruct (Hlast a Ha Ht) as [[= ->]|]; [|done].
    unfold has_app in Hne. by rewrite String.eqb_refl in Hne. }
  destruct Hs1 as [Hi1 Hopen1]. by eapply (ed_inv_add history _ _ _ _ _ _ s1).
Qed.
(** An entry of a code changes the row of its identifier alone. *)
Lemma update_inv history s id f : ed_inv history s ->
  (forall a, a ∈ education_applications s -> ea_id a = id -> same_identity (f a) a /\ (is_open (f a) = true -> is_open a = true) /\ (app_ok history a -> app_ok history (f a))) ->
  ed_inv history (update_application id f s).
Proof.
  intros Hi Hf. eapply ed_inv_map; [exact Hi|done|]. intros a Ha. cbv beta. destruct (has_app id a) eqn:E; [|done]. apply String.eqb_eq in E. by apply Hf.
Qed.

Lemma findApplication_unique history s id a b : ed_inv history s -> findApplication s id = Some a -> b ∈ education_applications s -> ea_id b = id -> b = a.
Proof.
  intros Hi Hf Hb E. apply js_find_Some in Hf as [Ha Ea%String.eqb_eq]. eapply (map_NoDup_inj ea_id); [apply Hi|done|done|congruence].
Qed.

Lemma wrong_code_ok history a : ea_status a = app_verifying -> ea_code_attempts a < ED_CODE_ATTEMPTS -> app_ok history a -> app_ok history (wrong_code a).
Proof.
  intros Hst Hlt [Hb (code & t0 & Hs & Hm)]. split; [cbn; lia|]. exists code, t0. split; [exact Hs|]. cbn. rewrite Hst in *. exact Hm.
Qed.

Lemma confirmed_ok history a hash entered e now : ea_status a = app_verifying -> ea_code_hash a = Some hash -> hash = codeHash (ea_id a) entered -> ea_code_expires_at a = Some e -> now <= e ->
  (EdConfirm (ea_tenant_id a) (ea_id a) entered, now) ∈ history -> app_ok history a -> app_ok history (confirmed now a).
Proof.
  intros Hst Hh -> He Hn Hin [Hb (code & t0 & Hs & Hm)]. unfold confirmed. rewrite bool_decide_eq_true_2 by done. cbn [negb]. rewrite Hst, Hh, He in Hm. destruct Hm as [Hm1 Hm2]. injection Hm1 as Hm1. injection Hm2 as Hm2.
  split; [exact Hb|]. exists code, t0. split; [exact Hs|]. exists entered, now. cbn. split_and!; [done|done|lia|done].
Qed.

Lemma decided_ok history a approve reason userId now : ea_status a = app_pending -> (EdDecide (ea_id a) approve reason userId, now) ∈ history -> app_ok history a ->
  app_ok history (decided approve reason userId now a).
Proof.
  intros Hst Hin [Hb (code & t0 & Hs & Hm)]. split; [exact Hb|]. exists code, t0. split; [exact Hs|]. rewrite Hst in Hm. destruct Hm as (x & t1 & Hm). cbn.
  destruct approve; (split; [by exists x, t1|by exists reason, userId, now]).
Qed.

Lemma confirm_inv history tenantId id code now s : ed_inv history s ->
  ed_inv (history ++ [(EdConfirm tenantId id code, now)]) (ed_step s (EdConfirm tenantId id code, now)).
Proof.
  intros Hi0. pose proof (ed_inv_mono history (EdConfirm tenantId id code, now) s Hi0) as Hi. set (h := history ++ _) in *. cbn [ed_step]. unfold confirmApplicationEmail.
  destruct (findApplication s id) as [a|] eqn:Ef; [|done]. destruct (String.eqb_spec (ea_tenant_id a) tenantId) as [Et|]; cbn [negb]; [|done].
  assert (Hid : ea_id a = id) by (by apply js_find_Some in Ef as [_ E%String.eqb_eq]).
  case_bool_decide as Hst; [|done]. destruct (ea_code_hash a) as [hash0|] eqn:Eh; [|done]. cbn [mbind option_bind]. unfold nonempty. destruct (String.eqb_spec hash0 ""); [done|].
  destruct (Z.leb_spec ED_CODE_ATTEMPTS (ea_code_attempts a)); [done|]. destruct (ea_code_expires_at a) as [e|] eqn:Ee; [|done]. destruct ((e =? 0) || (e <? now)) eqn:Eexp; [done|].
  apply orb_false_iff in Eexp as [_ Hn%Z.ltb_ge].
  destruct (negb (re_test SIX_DIGITS code) || negb (timingSafeEqual (codeHash id code) hash0)) eqn:Ec; cbv zeta; cbn [fst]; (apply update_inv; [exact Hi|]); intros b Hb Eb;
    pose proof (findApplication_unique h s id a b Hi Ef Hb Eb) as ->.
  - split_and!; [done|done|]. by apply wrong_code_ok.
  - apply orb_false_iff in Ec as [_ Ec%negb_false_iff%timingSafeEqual_iff]. split_and!.
    + unfold confirmed. by destruct (negb _).
    + intros _. unfold is_open. by rewrite (bool_decide_eq_true_2 (ea_status a = app_verifying)).
    + apply (confirmed_ok h a hash0 code e now); [done|done|congruence|done|done|]. rewrite Et, Hid. apply elem_of_app. right. constructor.
Qed.

Lemma decide_inv history id approve reason userId now s : ed_inv history s ->
  ed_inv (history ++ [(EdDecide id approve reason userId, now)]) (ed_step s (EdDecide id approve reason userId, now)).
Proof.
  intros Hi. eapply ed_inv_map; [by apply ed_inv_mono|reflexivity|]. intros a Ha. cbv beta. destruct (is_waiting id a) eqn:E; [|done]. apply andb_true_iff in E as [Eid%String.eqb_eq Est%bool_decide_eq_true].
  split_and!; [done| |].
  - intros _. unfold is_open. rewrite Est. by apply orb_true_iff; right.
  - apply decided_ok; [done|]. rewrite Eid. apply elem_of_app. right. constructor.
Qed.

Lemma purge_one_inv history s a : ed_inv history s -> ed_inv history (purge_one s a).
Proof.
  intros Hi. unfold purge_one. case_bool_decide.
  - eapply ed_inv_sub; [exact Hi|]. unfold discardApplication. destruct (ea_certificate_key a); cbn; apply bfilter_sublist.
  - apply update_inv; [destruct (ea_certificate_key a); [|done]; eapply ed_inv_sub; [exact Hi|done]|]. intros b _ _. split_and!; done.
Qed.

Lemma purge_inv history now s : ed_inv history s -> ed_inv (history ++ [(EdPurge, now)]) (ed_step s (EdPurge, now)).
Proof.
  intros Hi%(ed_inv_mono _ (EdPurge, now)). cbn [ed_step]. unfold purgeEducationApplications. cbn [fst]. generalize (take 100 (List.filter (purgeable now) (education_applications s))) as l. intros l.
  revert s Hi. induction l as [|a l IH]; intros s Hi; [exact Hi|]. cbn. by apply IH, purge_one_inv.
Qed.

Lemma ed_history_snoc history e : ed_history (history ++ [e]) ->
  ed_history history /\ Forall (fun t => t <= snd e) (List.map snd history) /\ (forall id, started_id e = Some id -> id ∉ omap started_id history).
Proof.
  intros [Hids Htimes]. rewrite omap_app in Hids. apply list.NoDup_app in Hids as (Hn & Hd & _). rewrite List.map_app in Htimes. apply StronglySorted_app in Htimes as (Hlt & Hl & _).
  split_and!; [by constructor| |].
  - apply list.Forall_forall. intros t Ht. apply Hlt; [done|constructor].
  - intros id Hid Hin. apply (Hd id Hin). cbn. rewrite Hid. constructor.
Qed.

Lemma ed_run_inv s history : education_applications s = [] -> ed_history history -> ed_inv history (ed_run s history).
Proof.
  intros Hs. induction history as [|[ev now] history IH] using rev_ind; intros Hh.
  - unfold ed_run. cbn. constructor; rewrite Hs; [constructor|constructor|by intros a ?%elem_of_nil|by intros a ?%elem_of_nil|constructor].
  - apply ed_history_snoc in Hh as (Hh & Htimes & Hfresh). unfold ed_run. rewrite foldl_app. specialize (IH Hh). destruct ev; [apply start_inv; [done|by apply Hfresh|done]|by apply confirm_inv|by apply decide_inv|by apply purge_inv].
Qed.

(** C12. Whatever applications, codes, decisions and purges come, in whatever
    order: an application waits for the platform only after the code emailed to
    its address was entered, for its organization, within thirty minutes of its
    start; it is approved or rejected only after that, and by a decision of the
    platform that is recorded; at most five wrong codes are counted for one; and
    an organization never has two applications that are open. *)
Theorem education_verified s history : education_applications s = [] -> ed_history history ->
  Forall (app_ok history) (education_applications (ed_run s history)) /\
  (forall a b, a ∈ education_applications (ed_run s history) -> b ∈ education_applications (ed_run s history) -> ea_tenant_id a = ea_tenant_id b -> is_open a = true -> is_open b = true -> a = b).
Proof.
  intros Hs Hh. pose proof (ed_run_inv s history Hs Hh) as Hi. split; [apply Hi|]. intros a b Ha Hb Ht Oa Ob.
  destruct (latest_or_closed history _ (ea_tenant_id b) a Hi Ha Ht) as [Ea|Ea]; [|congruence]. destruct (latest_or_closed history _ (ea_tenant_id b) b Hi Hb eq_refl) as [Eb|Eb]; [|congruence]. congruence.
Qed.
End Life.

(** An application that is confirmed with its second code, then approved. *)
Definition demo_input : EducationInput := mkEducationInput "Institute of Testing" "CBSE" "1234" "https://institute.edu.in/" "head@institute.edu.in" "letter.pdf" "application/pdf" [0x25; 0x50; 0x44; 0x46].
Definition demo_plan : PlanState := mkPlanState empty_db [] [] [] [] [].
Definition demo_life : list (EdEvent * Z) :=
  [(EdStart "org" "owner" "a1" "042042" demo_input, 1000); (EdConfirm "org" "a1" "111111", 1100); (EdConfirm "org" "a1" "042042", 1200); (EdDecide "a1" true None "root", 5000); (EdPurge, 9000)].

Lemma demo_life_history : ed_history demo_life.
Proof. constructor; [apply NoDup_singleton|]. cbn. repeat constructor; lia. Qed.

Lemma education_verified_witness :
  List.map (fun a => (ea_status a, ea_code_attempts a, ea_email_verified_at a)) (education_applications (ed_run (H := toy_crypto) demo_plan demo_life)) = [(app_approved, 1, Some 1200)] /\
  Forall (app_ok (H := toy_crypto) demo_life) (education_applications (ed_run (H := toy_crypto) demo_plan demo_life)).
Proof. split; [vm_compute; reflexivity|]. apply (education_verified (H := toy_crypto) demo_plan demo_life eq_refl demo_life_history). Defined.
