(* ===== verification/PlanRoutes.v ===== *)
(** src/cloudflare-control/src/plan_routes.ts: the routes behind Plan, Razorpay's
    way back and its webhook, and the platform's review of applications.

    What a request carries is [PlanRequest]: the JSON body with those of its
    members the code passes to [String], the form, the query's parameters. What
    comes from outside while it is handled is [Given]: the clock, identifiers and
    random draws, the account behind the session (of the table of users), what
    Razorpay answers, and whether an email went out. Emails are left out. *)
From S2P Require Import Prelude JsString Regex Platform Escape Db Allowlist Guard Plans Calendar Power Auth Throttle Handoff Billing Totp Education.

Definition P_trialDays : Z := 15.
Definition P_educationWorkstations : Z := 45.
Definition P_educationDays : Z := 365.
Definition EDUCATION_LIMIT : Z := 5.
Definition EDUCATION_WINDOW : Z := 3600.

Record PlanContext : Type := mkPlanContext {
  pc_env : BillingEnv;
  pc_session : option Session;
  pc_tenant : option Tenant;
  pc_isDev : bool;
  pc_origin : string;
  pc_baseDomain : string;
  pc_mailProblem : option string
}.

Record PlanBody : Type := mkPlanBody { pb_raw : jsval; pb_id : string; pb_code : string; pb_clientId : string }.

Record PlanRequest : Type := mkPlanRequest {
  pq_method : string;
  pq_path : string;
  pq_body : option PlanBody;
  pq_length : Z;
  pq_form : option EducationForm;
  pq_query : string -> option string;
  pq_raw : string;
  pq_signature : option string
}.

Record Given : Type := mkGiven {
  gv_nowMs : Z;
  gv_waitNow : Z;
  gv_hitNow : Z;
  gv_id : string;
  gv_draws : list Z;
  gv_account : option (string * string);
  gv_first : Reply;
  gv_second : Reply;
  gv_mailed : bool;
  gv_rupee : string
}.

Record ApplicationJson : Type := mkApplicationJson {
  aj_id : string;
  aj_institution : string;
  aj_board : string;
  aj_affiliationNumber : string;
  aj_website : string;
  aj_email : string;
  aj_certificateName : string;
  aj_status : EducationStatus;
  aj_reason : option string;
  aj_createdAt : Z;
  aj_submittedAt : option Z;
  aj_decidedAt : option Z
}.
Definition applicationJson (a : EducationApplication) : ApplicationJson :=
  mkApplicationJson (ea_id a) (ea_institution a) (ea_board a) (ea_affiliation_number a) (ea_website a) (ea_email a) (ea_certificate_name a) (ea_status a) (ea_decision_reason a)
    (ea_created_at a) (ea_submitted_at a) (ea_decided_at a).

Record PaymentJson : Type := mkPaymentJson { pj_id : string; pj_period : BillingPeriod; pj_workstations : Z; pj_total : string; pj_paidAt : option Z; pj_endsAt : option Z; pj_paymentId : option string }.
Definition paymentJson (sign : string) (p : Payment) : PaymentJson :=
  mkPaymentJson (py_id p) (py_period p) (P_includedWorkstations + py_extra_workstations p) (rupees sign (py_total_paise p)) (py_paid_at p) (py_period_ends_at p) (py_razorpay_payment_id p).

Record PlanView : Type := mkPlanView {
  pv_plan : Entitlement;
  pv_trialRefusal : option string;
  pv_trialStartedAt : option Z;
  pv_education : option ApplicationJson;
  pv_workstations : list EnrolledWorkstation;
  pv_online : bool;
  pv_payments : list PaymentJson;
  pv_now : Z
}.

Record ReviewJson : Type := mkReviewJson { rj_application : ApplicationJson; rj_organization : string; rj_subdomain : string; rj_hasCertificate : bool; rj_certificateType : string; rj_certificateSize : Z }.

Inductive PlanResponse : Type :=
| PError (status : Z) (error : string)
| PContactSales
| PPlan (view : PlanView)
| PTrial (endsAt : Z)
| PApplication (application : ApplicationJson)
| PCheckout (url : option string)
| PLicence (displaced : option string)
| PRedirect (url : string)
| POk
| PApplications (applications : list ReviewJson)
| PCertificate (file : Certificate) (disposition : string)
| PDecided (emailed : bool)
| PThrown (error : string).

(** Licensed workstations last, then those seen last first. *)
Definition by_licensed (a b : EnrolledWorkstation) : Z :=
  let bit (x : bool) := if x then 1 else 0 in
  let d := bit (ew_licensed a) - bit (ew_licensed b) in
  if d =? 0 then ew_lastSeen b - ew_lastSeen a else d.

Section Routes.
Context `{Collation} `{UrlParser} `{WebCrypto}.

Definition planUrl (ctx : PlanContext) (subdomain query : string) : string :=
  if pc_isDev ctx then pc_origin ctx +:+ "/admin/plan?tenant=" +:+ encodeURIComponent subdomain +:+ "&" +:+ query
  else "https://" +:+ subdomain +:+ "." +:+ pc_baseDomain ctx +:+ "/admin/plan?" +:+ query.

(** ** Effects *)

Definition notifyTenant (tenantId title body : string) (createdBy : option string) (s : PlanState) : js_result PlanState :=
  db ← createNotification (ps_db s) (Some tenantId) "license" title body createdBy;
  Returns (on_ps_db (fun _ => db) s).

Definition syncPlan (tenantId : string) (nowMs : Z) (s : PlanState) : js_result PlanState :=
  match syncLicences (ps_db s) tenantId nowMs with
  | Throws e => Throws e
  | Returns (db, _, told) => let s1 := on_ps_db (fun _ => db) s in Returns (if told then ps_notify tenantId s1 else s1)
  end.

(** A statement that throws ends the request; what was written before stays. *)
Definition and_then (s : PlanState) (m : js_result PlanState) (k : PlanState -> PlanState * PlanResponse) : PlanState * PlanResponse :=
  match m with Returns s' => k s' | Throws e => (s, PThrown e) end.

(** ** Organization *)

Definition get_plan (ctx : PlanContext) (g : Given) (tenant : Tenant) (s : PlanState) : PlanResponse :=
  let now := gv_nowMs g / 1000 in
  PPlan (mkPlanView (entitlement tenant now) (trialRefusal tenant now) (t_trial_started_at tenant) (applicationJson <$> latestApplication s (t_id tenant))
    (js_sort by_licensed (listEnrolledWorkstations (ps_db s) (t_id tenant))) (billingEnabled (pc_env ctx)) (List.map (paymentJson (gv_rupee g)) (listPayments s (t_id tenant))) now).

Definition post_trial (g : Given) (tenant : Tenant) (userId : string) (s : PlanState) : PlanState * PlanResponse :=
  let now := gv_nowMs g / 1000 in
  match trialRefusal tenant now with
  | Some refusal => (s, PError 409 refusal)
  | None =>
      let ends := now + P_trialDays * DAY in
      let s1 := on_ps_db (updateLicense (t_id tenant) evaluation ends (Z.max P_includedWorkstations (t_workstation_limit tenant)) (Some now) now) s in
      let s2 := ps_audited (mkAudit (Some (t_id tenant)) userId "plan.trial" (Some ("ends=" +:+ licenseDate ends))) s1 in
      and_then s2 (notifyTenant (t_id tenant) "Free trial started"
          (t_name tenant +:+ " can use " +:+ string_of_int P_includedWorkstations +:+ " workstations until " +:+ licenseDate ends +:+ ". Subscribe under Plan before then to keep them.") (Some userId) s2) (fun s3 =>
      and_then s3 (syncPlan (t_id tenant) (gv_nowMs g) s3) (fun s4 => (s4, PTrial ends)))
  end.

Definition post_education (ctx : PlanContext) (req : PlanRequest) (g : Given) (tenant : Tenant) (userId : string) (s : PlanState) : PlanState * PlanResponse :=
  let now := gv_nowMs g / 1000 in
  let key := "education:" +:+ t_id tenant in
  let wait := rateLimitWait (ps_db s) key EDUCATION_LIMIT EDUCATION_WINDOW (gv_waitNow g) in
  if 0 <? wait then (s, PError 429 ("Too many applications. Try again in " +:+ string_of_int ((wait + 59) / 60) +:+ " minutes."))
  else
    match pc_mailProblem ctx with
    | Some problem => (s, PError 503 ("The confirmation code cannot be emailed: " +:+ problem))
    | None =>
        if ED_CERTIFICATE_BYTES + 64 * 1024 <? pq_length req then (s, PError 413 "The certificate must be 5 MB or smaller")
        else
          match pq_form req with
          | None => (s, PError 400 "Send the application as a form with the certificate attached")
          | Some form =>
              match parseEducationForm form with
              | Throws e => (s, PThrown e)
              | Returns (inr error) => (s, PError 400 error)
              | Returns (inl value) =>
                  match sixDigits (gv_draws g) with
                  | None => (s, PThrown "no draw was accepted")
                  | Some code =>
                      match startApplication (t_id tenant) userId (gv_id g) code value now s with
                      | (s1, inr refusal) => (s1, PError (er_status refusal) (er_error refusal))
                      | (s1, inl application) =>
                          let s2 := on_ps_db (fun db => recordRateLimitHit db key EDUCATION_WINDOW (gv_hitNow g)) s1 in
                          if negb (gv_mailed g) then (s2, PError 502 "The code could not be emailed to that address. Check it and try again.")
                          else
                            (ps_audited (mkAudit (Some (t_id tenant)) userId "plan.education_apply" (Some ("application=" +:+ ea_id application +:+ " email=" +:+ ei_email value))) s2,
                             PApplication (applicationJson application))
                      end
                  end
              end
          end
    end.

Definition post_verify (req : PlanRequest) (g : Given) (tenant : Tenant) (userId : string) (s : PlanState) : PlanState * PlanResponse :=
  match pq_body req with
  | None => (s, PError 400 "The request body must be JSON")
  | Some body =>
      match confirmApplicationEmail (t_id tenant) (pb_id body) (trim (pb_code body)) (gv_nowMs g / 1000) s with
      | (s1, inr refusal) => (s1, PError (er_status refusal) (er_error refusal))
      | (s1, inl None) => (s1, PThrown "Cannot read properties of null (reading 'id')")
      | (s1, inl (Some a)) => (ps_audited (mkAudit (Some (t_id tenant)) userId "plan.education_submit" (Some ("application=" +:+ ea_id a))) s1, PApplication (applicationJson a))
      end
  end.

Definition checkout_details (p : Payment) : string :=
  "payment=" +:+ py_id p +:+ " period=" +:+ (match py_period p with month => "month" | year => "year" end) +:+ " extra=" +:+ string_of_int (py_extra_workstations p)
  +:+ " total=" +:+ string_of_int (py_total_paise p).

Definition post_checkout (ctx : PlanContext) (req : PlanRequest) (g : Given) (tenant : Tenant) (userId : string) (s : PlanState) : PlanState * PlanResponse :=
  match pq_body req with
  | None => (s, PError 400 "The request body must be JSON")
  | Some body =>
      match parseQuoteInput (pb_raw body) with
      | Throws error => (s, PError 400 error)
      | Returns quote =>
          if negb (billingEnabled (pc_env ctx)) then (s, PContactSales)
          else
            match gv_account g with
            | None => (s, PError 401 "Your account was not found")
            | Some (email, name) =>
                let input := mkLinkInput (t_id tenant) (t_name tenant) userId email (default (t_name tenant) (nonempty name)) quote (pc_origin ctx +:+ "/api/billing/return") (gv_nowMs g / 1000) in
                match createPaymentLink (pc_env ctx) (gv_id g) input (gv_first g) (gv_second g) s with
                | (s1, Throws e) => (s1, PError 502 e)
                | (s1, Returns payment) => (ps_audited (mkAudit (Some (t_id tenant)) userId "plan.checkout" (Some (checkout_details payment))) s1, PCheckout (py_short_url payment))
                end
            end
      end
  end.

Definition post_licence (req : PlanRequest) (g : Given) (tenant : Tenant) (userId : string) (s : PlanState) : PlanState * PlanResponse :=
  match pq_body req with
  | None => (s, PError 400 "The request body must be JSON")
  | Some body =>
      let clientId := trim (pb_clientId body) in
      if String.eqb clientId "" then (s, PError 400 "Name the workstation")
      else
        let '(db, moved, told) := moveLicence (ps_db s) (t_id tenant) clientId (gv_nowMs g) in
        let s1 := on_ps_db (fun _ => db) s in
        let s2 := if told then ps_notify (t_id tenant) s1 else s1 in
        match moved with
        | MoveError error status => (s2, PError status error)
        | Displaced displaced =>
            (ps_audited (mkAudit (Some (t_id tenant)) userId "plan.licence_move" (Some ("to=" +:+ clientId +:+ " from=" +:+ default "free place"%string displaced))) s2, PLicence displaced)
        end
  end.

Definition organizationPlan (ctx : PlanContext) (req : PlanRequest) (g : Given) (s : PlanState) : PlanState * PlanResponse :=
  match requireTenantPermission (ps_db s) (pc_session ctx) (pc_tenant ctx) "settings", pc_tenant ctx, pc_session ctx with
  | Some denied, _, _ => (s, PError (status denied) (message denied))
  | None, Some tenant, Some session =>
      let userId := user_id session in
      let asks path method := String.eqb (pq_path req) path && String.eqb (pq_method req) method in
      if asks "/api/plan" "GET" then (s, get_plan ctx g tenant s)
      else if asks "/api/plan/trial" "POST" then post_trial g tenant userId s
      else if asks "/api/plan/education" "POST" then post_education ctx req g tenant userId s
      else if asks "/api/plan/education/verify" "POST" then post_verify req g tenant userId s
      else if asks "/api/plan/checkout" "POST" then post_checkout ctx req g tenant userId s
      else if asks "/api/plan/licence" "POST" then post_licence req g tenant userId s
      else (s, PError 404 "Not found")
  | None, _, _ => (s, PThrown "nobody")
  end.

(** ** Razorpay *)

Definition paid_details (p : Payment) (via : string) : string :=
  "payment=" +:+ py_id p +:+ " razorpay=" +:+ default "null"%string (py_razorpay_payment_id p) +:+ " via=" +:+ via +:+ " total=" +:+ string_of_int (py_total_paise p)
  +:+ " ends=" +:+ match py_period_ends_at p with Some e => if e =? 0 then "-"%string else licenseDate e | None => "-"%string end.

Definition activate (ref : PaidRef) (via : string) (g : Given) (s : PlanState) : PlanState * js_result (option Payment) :=
  let '(s1, extended) := recordPayment ref (gv_nowMs g / 1000) s in
  match extended with
  | None => (s1, Returns None)
  | Some payment =>
      let tenant := findTenantById (ps_db s1) (py_tenant_id payment) in
      let s2 := ps_audited (mkAudit (Some (py_tenant_id payment)) "" "plan.paid" (Some (paid_details payment via))) s1 in
      match tenant with
      | None => (s2, Returns (Some payment))
      | Some tenant =>
          match notifyTenant (t_id tenant) "Payment received"
                  ("Thank you. " +:+ t_name tenant +:+ " is subscribed for " +:+ string_of_int (P_includedWorkstations + py_extra_workstations payment) +:+ " workstations until "
                   +:+ licenseDate (default 0 (py_period_ends_at payment)) +:+ " (paid " +:+ rupees (gv_rupee g) (py_total_paise payment) +:+ ").") (py_created_by payment) s2 with
          | Throws e => (s2, Throws e)
          | Returns s3 =>
              match syncPlan (t_id tenant) (gv_nowMs g) s3 with
              | Throws e => (s3, Throws e)
              | Returns s4 => (s4, Returns (Some payment))
              end
          end
      end
  end.

Definition findPaymentTenant (s : PlanState) (id : string) : option string :=
  payment ← findPayment s id;
  tenant ← findTenantById (ps_db s) (py_tenant_id payment);
  Some (t_subdomain tenant).

Definition param (req : PlanRequest) (name : string) : string := default ""%string (pq_query req name).

Definition billingReturn (ctx : PlanContext) (req : PlanRequest) (g : Given) (s : PlanState) : PlanState * PlanResponse :=
  let ref := mkReturn (param req "razorpay_payment_link_id") (param req "razorpay_payment_link_reference_id") (param req "razorpay_payment_link_status")
               (param req "razorpay_payment_id") (param req "razorpay_signature") in
  match (if String.eqb (rr_referenceId ref) "" then None else findPaymentTenant s (rr_referenceId ref)) with
  | None => (s, PError 404 "This payment is not known")
  | Some subdomain =>
      let secret := RAZORPAY_KEY_SECRET (pc_env ctx) in
      if negb (negb (String.eqb secret "") && verifyReturnSignature secret ref) then (s, PRedirect (planUrl ctx subdomain "payment=unverified"))
      else if negb (String.eqb (rr_status ref) "paid") then (s, PRedirect (planUrl ctx subdomain "payment=cancelled"))
      else
        match activate (mkPaid (rr_referenceId ref) (rr_linkId ref) (rr_paymentId ref)) "return" g s with
        | (s1, Throws e) => (s1, PThrown e)
        | (s1, Returns _) => (s1, PRedirect (planUrl ctx subdomain "payment=paid"))
        end
  end.

(** [parse] is [JSON.parse]. *)
Definition billingWebhook (parse : string -> option jsval) (ctx : PlanContext) (req : PlanRequest) (g : Given) (s : PlanState) : PlanState * PlanResponse :=
  let secret := RAZORPAY_WEBHOOK_SECRET (pc_env ctx) in
  if String.eqb secret "" then (s, PError 503 "The webhook is not set up")
  else if negb (verifyWebhookSignature secret (pq_raw req) (default ""%string (pq_signature req))) then (s, PError 401 "The signature does not verify")
  else
    match parse (pq_raw req) with
    | None => (s, PError 400 "The body is not JSON")
    | Some body =>
        match paidLinkFromWebhook body with
        | None => (s, POk)
        | Some paid =>
            match activate paid "webhook" g s with
            | (s1, Throws e) => (s1, PThrown e)
            | (s1, Returns _) => (s1, POk)
            end
        end
    end.

(** ** Platform *)

Definition reviewJson (r : EducationApplication * string * string) : ReviewJson :=
  let '(a, name, subdomain) := r in
  mkReviewJson (applicationJson a) name subdomain (bool_decide (is_Some (ea_certificate_key a ≫= nonempty))) (ea_certificate_type a) (ea_certificate_size a).

Definition is_id_char (c : ascii) : bool := is_lower_hex c || is_char "-" c.

(** The identifier in /api/super/education/:id/certificate. *)
Definition certificate_path (path : string) : option string :=
  if negb (startsWith path "/api/super/education/") then None
  else
    let rest := str_drop 21 path in
    let id := str_take 36 rest in
    if str_forallb is_id_char id && (String.length id =? 36)%nat && String.eqb (str_drop 36 rest) "/certificate" then Some id else None.

Definition get_certificate (userId id : string) (s : PlanState) : PlanState * PlanResponse :=
  match findApplication s id with
  | None => (s, PError 404 "Certificate not found")
  | Some application =>
      match ea_certificate_key application ≫= nonempty with
      | None => (s, PError 404 "Certificate not found")
      | Some key =>
          match readCertificate key s with
          | None => (s, PError 404 "Certificate not found")
          | Some file =>
              (ps_audited (mkAudit (Some (ea_tenant_id application)) userId "plan.education_certificate_read" (Some ("application=" +:+ ea_id application))) s,
               PCertificate file ("inline; filename=" +:+ quote_mark +:+ str_filter (fun c => negb (Ascii.eqb c (chr 34))) (ea_certificate_name application) +:+ quote_mark))
          end
      end
  end.

Definition decision_audit (application : EducationApplication) (approve : bool) (reason userId : string) : AuditRow :=
  mkAudit (Some (ea_tenant_id application)) userId (if approve then "plan.education_approve" else "plan.education_reject")
    (Some ("application=" +:+ ea_id application +:+ if String.eqb reason "" then "" else " reason=" +:+ reason)).

Definition approve_plan (application : EducationApplication) (tenant : Tenant) (userId : string) (nowMs : Z) (s : PlanState) : PlanState * js_result PlanState :=
  let now := nowMs / 1000 in
  let ends := now + P_educationDays * DAY in
  let plan := entitlement tenant now in
  let s1 := on_ps_db (updateLicense (t_id tenant) education ends (Z.max P_educationWorkstations (if bool_decide (en_kind plan = pk_free) then 0 else en_limit plan)) None now) s in
  match notifyTenant (t_id tenant) "Education plan approved"
          (ea_institution application +:+ " is verified. " +:+ t_name tenant +:+ " is on the free Education plan until " +:+ licenseDate ends +:+ "; apply again under Plan before then to renew it.")
          (Some userId) s1 with
  | Throws e => (s1, Throws e)
  | Returns s2 => (s2, syncPlan (t_id tenant) nowMs s2)
  end.

Definition reject_plan (application : EducationApplication) (tenant : Tenant) (reason userId : string) (s : PlanState) : js_result PlanState :=
  notifyTenant (t_id tenant) "Education application not approved"
    ("The Education application for " +:+ ea_institution application +:+ " was not approved: " +:+ reason +:+ " You can apply again under Plan.") (Some userId) s.

(** What the body decides: to approve, to reject, or neither. *)
Definition decision_word (v : jsval) : option bool :=
  match v with JsStr word => if String.eqb word "approve" then Some true else if String.eqb word "reject" then Some false else None | _ => None end.

Definition post_decide (req : PlanRequest) (g : Given) (userId : string) (s : PlanState) : PlanState * PlanResponse :=
  match pq_body req with
  | None => (s, PError 400 "The request body must be JSON")
  | Some body =>
      match decision_word (js_get (pb_raw body) "decision") with
      | None => (s, PError 400 "The decision must be approve or reject")
      | Some approve =>
          let reason := line (match js_get (pb_raw body) "reason" with JsStr r => Some r | _ => None end) ED_REASON in
          if negb approve && (String.length reason <? 5)%nat then (s, PError 400 "Say why, so the institution can fix it")
          else
            match findApplication s (pb_id body) with
            | None => (s, PError 404 "Application not found")
            | Some application =>
                match findTenantById (ps_db s) (ea_tenant_id application) with
                | None => (s, PError 404 "Organization not found")
                | Some tenant =>
                    let '(s1, changed) := decideApplication (ea_id application) approve (nonempty reason) userId (gv_nowMs g / 1000) s in
                    if negb changed then (s1, PError 409 "This application is not waiting for a decision")
                    else
                      let '(s2, done_) := if approve then approve_plan application tenant userId (gv_nowMs g) s1 else (s1, reject_plan application tenant reason userId s1) in
                      and_then s2 done_ (fun s3 => (ps_audited (decision_audit application approve reason userId) s3, PDecided (gv_mailed g)))
                end
            end
      end
  end.

Definition superEducation (ctx : PlanContext) (req : PlanRequest) (g : Given) (s : PlanState) : PlanState * PlanResponse :=
  match requireSuperAdmin (pc_session ctx), pc_session ctx with
  | Some denied, _ => (s, PError (status denied) (message denied))
  | None, Some session =>
      let userId := user_id session in
      if String.eqb (pq_path req) "/api/super/education" && String.eqb (pq_method req) "GET" then (s, PApplications (List.map reviewJson (listApplicationsForReview s)))
      else
        match (if String.eqb (pq_method req) "GET" then certificate_path (pq_path req) else None) with
        | Some id => get_certificate userId id s
        | None =>
            if String.eqb (pq_path req) "/api/super/education/decide" && String.eqb (pq_method req) "POST" then post_decide req g userId s
            else (s, PError 404 "Not found")
        end
  | None, None => (s, PThrown "no session")
  end.

(** No answer for a request of another part. *)
Definition handlePlanRoutes (parse : string -> option jsval) (ctx : PlanContext) (req : PlanRequest) (g : Given) (s : PlanState) : option (PlanState * PlanResponse) :=
  let path := pq_path req in
  if String.eqb path "/api/billing/return" && String.eqb (pq_method req) "GET" then Some (billingReturn ctx req g s)
  else if String.eqb path "/api/billing/razorpay/webhook" && String.eqb (pq_method req) "POST" then Some (billingWebhook parse ctx req g s)
  else if String.eqb path "/api/super/education" || startsWith path "/api/super/education/" then Some (superEducation ctx req g s)
  else if String.eqb path "/api/plan" || startsWith path "/api/plan/" then Some (organizationPlan ctx req g s)
  else None.
End Routes.

(** ** Who changes a plan *)

(** The plan of an organization: its kind, its end, its workstations, its trial. *)
Definition license_of (t : Tenant) : option LicensePlan * option Z * Z * option Z := (t_license_plan t, t_license_expires_at t, t_workstation_limit t, t_trial_started_at t).
Definition plan_of (s : PlanState) (id : string) : option (option LicensePlan * option Z * Z * option Z) := license_of <$> findTenantById (ps_db s) id.

Definition keeps (s s' : PlanState) : Prop := tenants (ps_db s') = tenants (ps_db s).

Lemma keeps_plan s s' id : keeps s s' -> plan_of s' id = plan_of s id.
Proof. unfold keeps, plan_of, findTenantById. by intros ->. Qed.

Lemma keeps_trans s1 s2 s3 : keeps s1 s2 -> keeps s2 s3 -> keeps s1 s3.
Proof. unfold keeps. congruence. Qed.

Section Keeping.
Context `{Collation} `{UrlParser} `{WebCrypto}.

Lemma notifyTenant_keeps tenantId title body by_ s s' : notifyTenant tenantId title body by_ s = Returns s' -> keeps s s'.
Proof. unfold notifyTenant, createNotification. destruct (_ || _); [done|]. intros E. by apply Returns_inj in E as <-. Qed.

Lemma syncLicences_keeps db tenantId nowMs db' r told : syncLicences db tenantId nowMs = Returns (db', r, told) -> tenants db' = tenants db.
Proof.
  unfold syncLicences. destruct (findTenantById db tenantId) as [t|]; [|intros E; by simplify_eq]. cbv zeta. unfold rebalanceLicences. cbv zeta. set (result := if _ <? _ then _ else _). clearbody result.
  destruct (_ && _); [intros E; by simplify_eq|]. unfold createNotification. destruct (Z.eqb _ 0); cbn [mbind js_result_bind]; [intros E; by simplify_eq|]. destruct (_ || _); [done|]. cbn [mbind js_result_bind]. intros E. by simplify_eq.
Qed.

Lemma syncPlan_keeps tenantId nowMs s s' : syncPlan tenantId nowMs s = Returns s' -> keeps s s'.
Proof.
  unfold syncPlan. destruct (syncLicences _ _ _) as [[[db r] told]|] eqn:E; [|done]. apply syncLicences_keeps in E. intros E'. apply Returns_inj in E' as <-. unfold keeps. by destruct told.
Qed.

Lemma moveLicence_keeps db tenantId clientId nowMs : tenants (fst (fst (moveLicence db tenantId clientId nowMs))) = tenants db.
Proof.
  unfold moveLicence. destruct (findTenantById db tenantId); [|done]. unfold moveLicenceTo. destruct (js_find _ _) as [w|]; [|done]. destruct (ew_licensed w); [done|]. cbv zeta.
  destruct (_ <=? _); [|done]. by destruct (js_sort _ _).
Qed.

Lemma startApplication_keeps tenantId userId id code input now s : keeps s (fst (startApplication tenantId userId id code input now s)).
Proof.
  unfold startApplication, keeps. cbv zeta. case_bool_decide; [done|]. cbn. destruct (latestApplication s tenantId) as [a|]; [|done]. case_bool_decide; [|done]. unfold discardApplication. by destruct (ea_certificate_key a).
Qed.

Lemma confirm_keeps tenantId id code now s : keeps s (fst (confirmApplicationEmail tenantId id code now s)).
Proof.
  unfold confirmApplicationEmail. destruct (findApplication s id) as [a|]; [|done]. destruct (negb _); [done|]. case_bool_decide; [|done]. destruct (ea_code_hash a ≫= nonempty); [|done]. destruct (_ <=? _); [done|].
  destruct (ea_code_expires_at a); [|done]. destruct ((_ =? _) || _); [done|]. by destruct (_ || _).
Qed.

Lemma createPaymentLink_keeps env id input first second s : keeps s (fst (createPaymentLink env id input first second s)).
Proof.
  unfold createPaymentLink. destruct (negb _); [done|]. destruct (razorpayRoute env); [|done]. unfold insert_payment. destruct (existsb _ _); [done|]. destruct (fetchRazorpay first second); [done|]. cbv zeta.
  destruct (is_nullish _); [by destruct (_ && _)|]. destruct (_ && _); [|done]. destruct (js_get _ "id"); try done. destruct (js_get _ "short_url"); try done. unfold set_link. by destruct (existsb _ _).
Qed.

Lemma and_then_keeps s m k s' r : (forall s1, m = Returns s1 -> keeps s s1) -> (forall s1 s2 r', k s1 = (s2, r') -> keeps s1 s2) -> and_then s m k = (s', r) -> keeps s s'.
Proof.
  intros Hm Hk. unfold and_then. destruct m as [s1|e]; [|intros E; by simplify_eq]. intros E. eapply keeps_trans; [by apply Hm|by eapply Hk].
Qed.
End Keeping.

Lemma updateLicense_plan id plan ends limit trial now s t : plan_of (on_ps_db (updateLicense id plan ends limit trial now) s) t =
  if String.eqb t id then (fun x => (Some plan, Some ends, limit, match trial with Some y => Some y | None => t_trial_started_at x end)) <$> findTenantById (ps_db s) t else plan_of s t.
Proof.
  unfold plan_of, findTenantById, updateLicense. cbn [ps_db on_ps_db tenants on_tenants]. rewrite js_find_map by (intros x; by destruct (String.eqb (t_id x) id)). destruct (js_find _ _) as [x|] eqn:E; [|by destruct (String.eqb t id)].
  apply js_find_Some in E as [_ Ex%String.eqb_eq]. cbn. rewrite Ex. by destruct (String.eqb t id).
Qed.

Section Changes.
Context `{Collation} `{UrlParser} `{WebCrypto}.
Variables (parse : string -> option jsval) (ctx : PlanContext) (req : PlanRequest) (g : Given) (s : PlanState).

Definition asked (method path : string) : Prop := pq_method req = method /\ pq_path req = path.

Definition return_ref : ReturnRef :=
  mkReturn (param req "razorpay_payment_link_id") (param req "razorpay_payment_link_reference_id") (param req "razorpay_payment_link_status") (param req "razorpay_payment_id") (param req "razorpay_signature").

(** Razorpay says that a link was paid: under the key of the account on the
    payer's way back, or under the webhook's secret. *)
Inductive razorpay_says : PaidRef -> Prop :=
| says_return : asked "GET" "/api/billing/return" -> RAZORPAY_KEY_SECRET (pc_env ctx) <> ""%string ->
    toLowerCase (rr_signature return_ref) = hmacHex (RAZORPAY_KEY_SECRET (pc_env ctx)) (return_message return_ref) -> rr_status return_ref = "paid"%string ->
    razorpay_says (mkPaid (rr_referenceId return_ref) (rr_linkId return_ref) (rr_paymentId return_ref))
| says_webhook body ref : asked "POST" "/api/billing/razorpay/webhook" -> RAZORPAY_WEBHOOK_SECRET (pc_env ctx) <> ""%string ->
    toLowerCase (default ""%string (pq_signature req)) = hmacHex (RAZORPAY_WEBHOOK_SECRET (pc_env ctx)) (pq_raw req) -> parse (pq_raw req) = Some body -> paidLinkFromWebhook body = Some ref ->
    razorpay_says ref.

Let now := gv_nowMs g / 1000.

(** The ways the plan of an organization changes, and what it becomes. *)
Inductive plan_change (id : string) : option LicensePlan * option Z * Z * option Z -> Prop :=
| by_trial tenant : asked "POST" "/api/plan/trial" -> pc_tenant ctx = Some tenant -> t_id tenant = id ->
    requireTenantPermission (ps_db s) (pc_session ctx) (Some tenant) "settings" = None -> trialRefusal tenant now = None ->
    plan_change id (Some evaluation, Some (now + P_trialDays * DAY), Z.max P_includedWorkstations (t_workstation_limit tenant), Some now)
| by_payment ref row tenant : razorpay_says ref -> findPayment s (pr_referenceId ref) = Some row -> py_link_id row = Some (pr_linkId ref) -> py_status row = pay_created ->
    findTenantById (ps_db s) id = Some tenant -> py_tenant_id row = id ->
    plan_change id (Some subscriber, Some (periodEnd (paid_from tenant now) (py_period row)), P_includedWorkstations + py_extra_workstations row, t_trial_started_at tenant)
| by_approval body application tenant : asked "POST" "/api/super/education/decide" -> requireSuperAdmin (pc_session ctx) = None ->
    pq_body req = Some body -> js_get (pb_raw body) "decision" = JsStr "approve" -> ea_id application = pb_id body ->
    application ∈ education_applications s -> ea_status application = app_pending -> ea_tenant_id application = id -> findTenantById (ps_db s) id = Some tenant ->
    plan_change id (Some education, Some (now + P_educationDays * DAY), Z.max P_educationWorkstations (if bool_decide (en_kind (entitlement tenant now) = pk_free) then 0 else en_limit (entitlement tenant now)), t_trial_started_at tenant).

Definition changes_well (s' : PlanState) : Prop := forall id, plan_of s' id = plan_of s id \/ exists p, plan_of s' id = Some p /\ plan_change id p.

Lemma keeps_well s' : keeps s s' -> changes_well s'.
Proof. intros Hk id. left. by apply keeps_plan. Qed.

Lemma keeps_changes s1 s2 : changes_well s1 -> keeps s1 s2 -> changes_well s2.
Proof. intros Hw Hk id. rewrite (keeps_plan s1 s2 id Hk). apply Hw. Qed.

Lemma post_trial_well tenant userId s' r : asked "POST" "/api/plan/trial" -> pc_tenant ctx = Some tenant -> requireTenantPermission (ps_db s) (pc_session ctx) (Some tenant) "settings" = None ->
  post_trial g tenant userId s = (s', r) -> changes_well s'.
Proof.
  intros Ha Ht Hp. unfold post_trial. fold now. destruct (trialRefusal tenant now) as [e|] eqn:Er; [intros E; simplify_eq; by apply keeps_well|]. cbv zeta. intros E.
  eapply keeps_changes; [|eapply and_then_keeps; [..|exact E]].
  - intros id. unfold ps_audited. rewrite (keeps_plan (on_ps_db (updateLicense (t_id tenant) evaluation (now + P_trialDays * DAY) (Z.max P_includedWorkstations (t_workstation_limit tenant)) (Some now) now) s)) by done.
    rewrite updateLicense_plan. destruct (String.eqb_spec id (t_id tenant)) as [->|]; [|by left]. unfold plan_of. destruct (findTenantById (ps_db s) (t_id tenant)) as [x|]; [right|by left]. cbn. eexists. split; [done|]. by apply by_trial.
  - intros s1 E1. by eapply notifyTenant_keeps.
  - intros s1 s2 r' E1. eapply and_then_keeps; [..|exact E1]; [intros s3; apply syncPlan_keeps|]. intros s3 s4 r'' E2. by injection E2 as <- _.
Qed.

Lemma activate_well ref via s' r : NoDup (ids s) -> razorpay_says ref -> activate ref via g s = (s', r) -> changes_well s'.
Proof.
  intros Hn Hs. unfold activate. fold now. destruct (recordPayment_cases ref now s Hn) as [(s0 & E & Hdb)|(row & tenant & Ef & Hl & Hst & Et & E)]; rewrite E; clear E.
  - intros E. simplify_eq. apply keeps_well. unfold keeps. by rewrite Hdb.
  - set (s1 := extend _ _ _ _). assert (Hw : changes_well s1).
    { intros id. assert (Hid : t_id tenant = py_tenant_id row) by (by apply js_find_Some in Et as [_ E%String.eqb_eq]). unfold s1, extend, set_end. cbv zeta. set (lic := updateLicense _ _ _ _ _ _).
      rewrite (keeps_plan (on_ps_db lic s)) by done. unfold lic. rewrite updateLicense_plan. destruct (String.eqb_spec id (t_id tenant)) as [->|]; [|by left]. right. rewrite Hid, Et. cbn. eexists. split; [done|]. by eapply by_payment. }
    intros E. eapply keeps_changes; [exact Hw|]. clearbody s1. destruct (findTenantById (ps_db s1) _) as [t|]; [|by simplify_eq]. destruct (notifyTenant _ _ _ _ _) as [s3|] eqn:E3; [|by simplify_eq]. apply notifyTenant_keeps in E3.
    destruct (syncPlan _ _ _) as [s4|] eqn:E4; simplify_eq; [apply syncPlan_keeps in E4; by eapply keeps_trans|done].
Qed.

Lemma decision_word_true v : decision_word v = Some true -> v = JsStr "approve".
Proof. destruct v as [| | | | |word| |]; try done. unfold decision_word. destruct (String.eqb_spec word "approve") as [->|]; [done|]. by destruct (String.eqb word "reject"). Qed.

Lemma decide_well userId s' r : asked "POST" "/api/super/education/decide" -> requireSuperAdmin (pc_session ctx) = None -> NoDup (List.map ea_id (education_applications s)) ->
  post_decide req g userId s = (s', r) -> changes_well s'.
Proof.
  intros Ha Hs Hn. unfold post_decide. fold now. destruct (pq_body req) as [body|] eqn:Eb; [|intros E; simplify_eq; by apply keeps_well]. destruct (decision_word _) as [approve|] eqn:Ed; [|intros E; simplify_eq; by apply keeps_well].
  cbv zeta. set (reason := line _ ED_REASON). destruct (negb approve && _); [intros E; simplify_eq; by apply keeps_well|]. destruct (findApplication s (pb_id body)) as [a|] eqn:Ea; [|intros E; simplify_eq; by apply keeps_well].
  destruct (findTenantById (ps_db s) (ea_tenant_id a)) as [tenant|] eqn:Et; [|intros E; simplify_eq; by apply keeps_well]. unfold decideApplication. destruct (existsb _ _) eqn:Ew; cbn [negb]; [|intros E; simplify_eq; by apply keeps_well].
  set (s1 := on_applications _ s). assert (Hpend : a ∈ education_applications s /\ ea_status a = app_pending).
  { apply existsb_elem in Ew as (b & Hb & Hw). apply andb_true_iff in Hw as [Eid%String.eqb_eq Est%bool_decide_eq_true]. apply js_find_Some in Ea as [Hin _].
    assert (b = a) as -> by (by eapply (map_NoDup_inj ea_id)). done. }
  destruct Hpend as [Hin Hst]. assert (Hid : t_id tenant = ea_tenant_id a) by (by apply js_find_Some in Et as [_ E%String.eqb_eq]).
  assert (Hk : forall s2 s3 r', (ps_audited (decision_audit a approve reason userId) s2, PDecided (gv_mailed g)) = (s3, r') -> keeps s2 s3) by (intros s2 s3 r' E; by injection E as <- _).
  assert (Hnamed : ea_id a = pb_id body) by (by apply js_find_Some in Ea as [_ E%String.eqb_eq]).
  destruct approve; [apply decision_word_true in Ed|intros E; apply keeps_well; eapply (keeps_trans s s1); [done|]; eapply and_then_keeps; [..|exact E]; [intros s2; apply notifyTenant_keeps|exact Hk]].
  unfold approve_plan. fold now. cbv zeta. set (lic := updateLicense _ _ _ _ _ _). assert (Hw : changes_well (on_ps_db lic s1)).
  { intros id. rewrite (keeps_plan (on_ps_db lic s)) by done. unfold lic. rewrite updateLicense_plan, Hid. destruct (String.eqb_spec id (ea_tenant_id a)) as [->|]; [|by left]. right. rewrite Et. cbn. eexists. split; [done|]. by eapply by_approval. }
  destruct (notifyTenant _ _ _ _ _) as [s2|] eqn:E2; [|unfold and_then; intros E; injection E as <- _; exact Hw]. apply notifyTenant_keeps in E2. intros E. eapply keeps_changes; [exact Hw|]. eapply keeps_trans; [exact E2|].
  eapply and_then_keeps; [..|exact E]; [intros s3; apply syncPlan_keeps|exact Hk].
Qed.

Lemma superEducation_well s' r : NoDup (List.map ea_id (education_applications s)) -> superEducation ctx req g s = (s', r) -> changes_well s'.
Proof.
  intros Hn. unfold superEducation. destruct (requireSuperAdmin (pc_session ctx)) as [d|] eqn:Ed; [intros E; simplify_eq; by apply keeps_well|]. destruct (pc_session ctx) as [session|] eqn:Es; [|intros E; simplify_eq; by apply keeps_well]. cbv zeta.
  destruct (_ && _); [intros E; simplify_eq; by apply keeps_well|]. destruct (if String.eqb (pq_method req) "GET" then _ else None) as [id|].
  - unfold get_certificate. intros E. apply keeps_well. destruct (findApplication s id); [|by simplify_eq]. destruct (_ ≫= nonempty); [|by simplify_eq]. destruct (readCertificate _ _); by simplify_eq.
  - destruct (String.eqb_spec (pq_path req) "/api/super/education/decide") as [Ep|]; cbn [andb]; [|intros E; simplify_eq; by apply keeps_well]. destruct (String.eqb_spec (pq_method req) "POST") as [Em|]; cbn [andb]; [|intros E; simplify_eq; by apply keeps_well].
    apply decide_well; [done|by rewrite Es|done].
Qed.

Lemma quiet_routes tenant userId s' r :
  post_education ctx req g tenant userId s = (s', r) \/ post_verify req g tenant userId s = (s', r) \/ post_checkout ctx req g tenant userId s = (s', r) \/ post_licence req g tenant userId s = (s', r) -> keeps s s'.
Proof.
  intros [E|[E|[E|E]]].
  - unfold post_education in E. cbv zeta in E. destruct (0 <? _); [by simplify_eq|]. destruct (pc_mailProblem ctx); [by simplify_eq|]. destruct (_ <? _); [by simplify_eq|]. destruct (pq_form req); [|by simplify_eq].
    destruct (parseEducationForm _) as [[value|]|]; [|by simplify_eq..]. destruct (sixDigits _) as [code|]; [|by simplify_eq].
    pose proof (startApplication_keeps (t_id tenant) userId (gv_id g) code value (gv_nowMs g / 1000) s) as Hk. destruct (startApplication _ _ _ _ _ _ _) as [s1 [a|why]]; cbn [fst] in Hk; [|by simplify_eq]. destruct (negb _); injection E as <- _; exact Hk.
  - unfold post_verify in E. destruct (pq_body req) as [body|]; [|by simplify_eq]. pose proof (confirm_keeps (t_id tenant) (pb_id body) (trim (pb_code body)) (gv_nowMs g / 1000) s) as Hk.
    destruct (confirmApplicationEmail _ _ _ _ _) as [s1 [[a|]|why]]; cbn [fst] in Hk; injection E as <- _; exact Hk.
  - unfold post_checkout in E. destruct (pq_body req) as [body|]; [|by simplify_eq]. destruct (parseQuoteInput _); [|by simplify_eq]. destruct (negb _); [by simplify_eq|]. destruct (gv_account g) as [[email name]|]; [|by simplify_eq]. cbv zeta in E.
    match type of E with context [createPaymentLink ?env ?i ?l ?a ?b s] => pose proof (createPaymentLink_keeps env i l a b s) as Hk; destruct (createPaymentLink env i l a b s) as [s1 [p|why]] end; cbn [fst] in Hk; injection E as <- _; exact Hk.
  - unfold post_licence in E. destruct (pq_body req) as [body|]; [|by simplify_eq]. cbv zeta in E. destruct (String.eqb _ _); [by simplify_eq|]. pose proof (moveLicence_keeps (ps_db s) (t_id tenant) (trim (pb_clientId body)) (gv_nowMs g)) as Hk.
    destruct (moveLicence _ _ _ _) as [[db moved] told]. cbn [fst] in Hk. destruct told, moved; injection E as <- _; exact Hk.
Qed.

Lemma organizationPlan_well s' r : organizationPlan ctx req g s = (s', r) -> changes_well s'.
Proof.
  unfold organizationPlan. destruct (requireTenantPermission _ _ _ _) as [d|] eqn:Ed; [intros E; simplify_eq; by apply keeps_well|]. destruct (pc_tenant ctx) as [tenant|] eqn:Et; [|intros E; simplify_eq; by apply keeps_well].
  destruct (pc_session ctx) as [session|] eqn:Es; [|intros E; simplify_eq; by apply keeps_well]. cbv zeta. pose proof (quiet_routes tenant (user_id session) s' r) as Hq.
  destruct (_ && _); [intros E; simplify_eq; by apply keeps_well|]. destruct (String.eqb_spec (pq_path req) "/api/plan/trial") as [Ep|]; cbn [andb]; [destruct (String.eqb_spec (pq_method req) "POST") as [Em|]; cbn [andb]|].
  1: { apply post_trial_well; [done|done|by rewrite Es]. }
  all: repeat (destruct (_ && _); [intros E; apply keeps_well, Hq; auto|]); intros E; simplify_eq; by apply keeps_well.
Qed.
End Changes.

(** C10. Whatever request comes to the routes of plans, and from whomever: the
    plan of an organization (its kind, its end, its workstations, its trial)
    stays as it is, or changes in one of three ways: an administrator of that
    organization who may change its settings starts its trial, which it is not
    refused; Razorpay says, in a message signed under the secret it shares with
    the platform, that a payment of that organization not yet recorded was made;
    or a platform administrator, in a request that says approve and names it,
    approves its waiting application. *)
Theorem plan_changes_authorized `{Collation} `{UrlParser} `{WebCrypto} parse ctx req g s s' r :
  NoDup (ids s) -> NoDup (List.map ea_id (education_applications s)) -> handlePlanRoutes parse ctx req g s = Some (s', r) ->
  forall id, plan_of s' id = plan_of s id \/ exists p, plan_of s' id = Some p /\ plan_change parse ctx req g s id p.
Proof.
  intros Hi Ha. fold (changes_well parse ctx req g s s'). unfold handlePlanRoutes. cbv zeta.
  destruct (String.eqb_spec (pq_path req) "/api/billing/return") as [Ep|]; [destruct (String.eqb_spec (pq_method req) "GET") as [Em|]|]; cbn [andb].
  1: { intros E. apply (f_equal (default (s, POk))) in E. cbn [default Datatypes.id] in E. unfold billingReturn in E. cbv zeta in E. fold (return_ref req) in E. destruct (if String.eqb _ "" then None else _) as [sub|]; [|simplify_eq; by apply keeps_well].
    destruct (String.eqb_spec (RAZORPAY_KEY_SECRET (pc_env ctx)) "") as [|Hs]; cbn [negb andb] in E; [simplify_eq; by apply keeps_well|]. destruct (verifyReturnSignature _ _) eqn:Ev; cbn [negb] in E; [|simplify_eq; by apply keeps_well].
    destruct (String.eqb_spec (rr_status (return_ref req)) "paid") as [Est|]; cbn [negb] in E; [|simplify_eq; by apply keeps_well]. unfold verifyReturnSignature in Ev. destruct (String.eqb _ _); [done|]. apply timingSafeEqual_iff in Ev.
    destruct (activate _ _ _ _) as [s1 [p|e]] eqn:Eact; simplify_eq; (eapply activate_well; [done| |exact Eact]); by apply says_return. }
  all: destruct (String.eqb_spec (pq_path req) "/api/billing/razorpay/webhook") as [Ep'|]; [destruct (String.eqb_spec (pq_method req) "POST") as [Em'|]|]; cbn [andb]; try congruence.
  all: repeat (destruct (_ || _)); try done.
  all: intros E; apply (f_equal (default (s, POk))) in E; cbn [default Datatypes.id] in E; try (by eapply superEducation_well); try (by eapply organizationPlan_well).
  all: unfold billingWebhook in E; cbv zeta in E; destruct (String.eqb_spec (RAZORPAY_WEBHOOK_SECRET (pc_env ctx)) "") as [|Hs]; [simplify_eq; by apply keeps_well|]; destruct (verifyWebhookSignature _ _ _) eqn:Ev; cbn [negb] in E; [|simplify_eq; by apply keeps_well].
  all: destruct (parse (pq_raw req)) as [body|] eqn:Eb; [|simplify_eq; by apply keeps_well]; destruct (paidLinkFromWebhook body) as [ref|] eqn:Eref; [|simplify_eq; by apply keeps_well].
  all: unfold verifyWebhookSignature in Ev; destruct (String.eqb _ _); [done|]; apply timingSafeEqual_iff in Ev; destruct (activate _ _ _ _) as [s1 [p|e]] eqn:Eact; simplify_eq; (eapply activate_well; [done| |exact Eact]); by eapply says_webhook.
Qed.

(** The webhook of a payment of [greenwood]. *)
Definition hook_env : BillingEnv := mkBillingEnv "key" "secret" "hook" "" "".
Definition hook_context : PlanContext := mkPlanContext hook_env None None false "https://labkiosk.example" "labkiosk.example" None.
Definition hook_body : jsval :=
  JsObj [("event", JsStr "payment_link.paid");
         ("payload", JsObj [("payment_link", JsObj [("entity", JsObj [("id", JsStr "plink_1"); ("reference_id", JsStr "lk1"); ("status", JsStr "paid")])]);
                            ("payment", JsObj [("entity", JsObj [("id", JsStr "pay_9")])])])]%string.
Definition hook_request : PlanRequest :=
  mkPlanRequest "POST" "/api/billing/razorpay/webhook" None 0 None (fun _ => None) "raw" (Some (hmacHex (H := toy_crypto) "hook" "raw")).
Definition hook_given : Given := mkGiven 1700000000000 0 0 "" [] None Unreachable Unreachable true "Rs".
Definition hook_state : PlanState := on_payments (fun _ => [demo_payment "lk1" "plink_1"]) demo_billing.
Definition hook_after : PlanState :=
  match handlePlanRoutes (H := code_collation) (H0 := toy_url) (H1 := toy_crypto) (fun _ => Some hook_body) hook_context hook_request hook_given hook_state with Some (s, _) => s | None => hook_state end.

Lemma plan_changes_authorized_witness :
  plan_of hook_after "t1" = Some (Some subscriber, Some 1702592000, 45, None) /\
  exists p, plan_of hook_after "t1" = Some p /\ plan_change (H1 := toy_crypto) (fun _ => Some hook_body) hook_context hook_request hook_given hook_state "t1" p.
Proof.
  split; [vm_compute; reflexivity|]. assert (E : handlePlanRoutes (H := code_collation) (H0 := toy_url) (H1 := toy_crypto) (fun _ => Some hook_body) hook_context hook_request hook_given hook_state = Some (hook_after, POk)) by (vm_compute; reflexivity).
  destruct (plan_changes_authorized (H := code_collation) (H0 := toy_url) (H1 := toy_crypto) (fun _ => Some hook_body) hook_context hook_request hook_given hook_state hook_after POk ltac:(apply NoDup_singleton) ltac:(constructor) E "t1"%string) as [Hs|Hp]; [vm_compute in Hs; discriminate Hs|exact Hp].
Defined.

(** Without the webhook's secret a message is refused. *)
Example forged_webhook :
  handlePlanRoutes (H := code_collation) (H0 := toy_url) (H1 := toy_crypto) (fun _ => Some hook_body) hook_context
    (mkPlanRequest "POST" "/api/billing/razorpay/webhook" None 0 None (fun _ => None) "raw" (Some "00"%string)) hook_given hook_state = Some (hook_state, PError 401 "The signature does not verify").
Proof. vm_compute. reflexivity. Qed.
