(* ===== verification/Mime.v ===== *)
(** src/cloudflare-control/src/mime.ts: reading an incoming email.

    [TextDecoder] and the characters past 255 that an entity may name are an
    interface; [atob] is modelled (Handoff.v). The nesting [walk] follows is
    bounded by the code's own limit, which is the fuel; the loop of
    [htmlToText] is given one step more than the text has characters, and ends
    within them ([html_loop_ends]). *)
From S2P Require Import Prelude JsString Regex Scan Platform Escape Db Auth Handoff.

Class MailText : Type := {
  (** [new TextDecoder(label)]: none where the label is not known. *)
  decoder : string -> option (list Z -> string);
  decode_utf8 : list Z -> string;
  (** [String.fromCodePoint(n)] for n past 255. *)
  far_character : Z -> string
}.

Record ParsedAddress : Type := mkAddress { pa_address : string; pa_name : string }.
Record MailAttachment : Type := mkAttachment { at_index : Z; at_filename : string; at_contentType : string; at_size : Z }.
Record ParsedEmail : Type := mkEmail {
  em_from : option ParsedAddress;
  em_replyTo : option ParsedAddress;
  em_subject : string;
  em_messageId : option string;
  em_inReplyTo : option string;
  em_references : list string;
  em_text : string;
  em_attachments : list MailAttachment;
  em_automated : bool
}.

Definition MAX_BODY_CHARS : nat := 20 * 1000.
Definition MAX_MIME_DEPTH : nat := 8.
Definition MAX_MIME_PARTS : Z := 64.
Definition MAX_ATTACHMENTS : Z := 50.
Definition MAX_HTML_CHARS : nat := 200 * 1000.

Definition HeaderMap : Type := list (string * list string).
Record Part : Type := mkPart { part_headers : HeaderMap; part_body : string }.

Definition bytesToBinary (bytes : list Z) : string := String.string_of_list_ascii (List.map chr bytes).
Definition binaryToBytes (binary : string) : list Z := List.map code (String.list_ascii_of_string binary).

Definition splitHeadersAndBody (binary : string) : string * string :=
  let crlf := str_index (String CR (String LF_ (String CR (String LF_ "")))) binary in
  let lf := str_index (String LF_ (String LF_ "")) binary in
  match crlf, lf with
  | Some i, None => (str_take i binary, str_drop (i + 4) binary)
  | Some i, Some j => if (i <=? j)%nat then (str_take i binary, str_drop (i + 4) binary) else (str_take j binary, str_drop (j + 2) binary)
  | None, Some j => (str_take j binary, str_drop (j + 2) binary)
  | None, None => (binary, ""%string)
  end.

Definition is_blank (c : ascii) : bool := is_char " " c || is_char (chr 9) c.

(** A line folded onto the next. *)
Definition folded : matcher := fun s =>
  rest ← eol s;
  let '(blanks, rest') := span is_blank rest in
  if String.eqb blanks "" then None else Some (" "%string, rest').

Definition header (headers : HeaderMap) (name : string) : string := default ""%string (assoc name headers ≫= head).
Definition has_header (headers : HeaderMap) (name : string) : bool := bool_decide (is_Some (assoc name headers)).

Definition add_header (map : HeaderMap) (line : string) : HeaderMap :=
  match str_index ":" line with
  | None | Some O => map
  | Some colon =>
      let name := toLowerCase (trim (str_take colon line)) in
      let value := trim (str_drop (S colon) line) in
      upsert (fun e => String.eqb (fst e) name) (fun e => (fst e, snd e ++ [value])) (name, [value]) map
  end.

(** Two hexadecimal digits after a mark, as the character they are. *)
Definition hex_pair (mark : ascii) : matcher := fun s =>
  match s with
  | String c (String x (String y rest)) =>
      if is_char mark c then
        match hex_value x, hex_value y with Some a, Some b => Some (String (chr (16 * a + b)) "", rest) | _, _ => None end
      else None
  | _ => None
  end.

Definition soft_break : matcher := fun s =>
  match s with String c t => if is_char "=" c then (fun rest => (""%string, rest)) <$> eol t else None | _ => None end.

Definition backslash : ascii := chr 92.
Definition dquote : ascii := chr 34.

(** [/\\(.)/g], replaced by the character. *)
Definition escaped : matcher := fun s =>
  match s with String c (String d rest) => if is_char backslash c && negb (is_eol_char d) then Some (String d "", rest) else None | _ => None end.

(** The rest of a quoted string, with its end. *)
Fixpoint quoted (s : string) : option (string * string) :=
  match s with
  | ""%string => None
  | String c t =>
      if is_char dquote c then Some (String c "", t)
      else if is_char backslash c then
        match t with
        | String d u => if is_eol_char d then None else (fun q => (String c (String d (fst q)), snd q)) <$> quoted u
        | _ => None
        end
      else (fun q => (String c (fst q), snd q)) <$> quoted t
  end.

(** Quoted strings and characters other than the semicolon, as far as they go. *)
Fixpoint pieces (n : nat) (s : string) : string * string :=
  match n, s with
  | O, _ | _, ""%string => (""%string, s)
  | S n', String c t =>
      if is_char dquote c then
        match quoted t with Some (q, rest) => let '(p, r) := pieces n' rest in (String c q +:+ p, r) | None => (""%string, s) end
      else if is_char ";" c then (""%string, s)
      else let '(p, r) := pieces n' t in (String c p, r)
  end.
Definition section_of_value : matcher := fun s => let '(p, r) := pieces (String.length s) s in if String.eqb p "" then None else Some (p, r).

Definition is_quoted (s : string) : bool := match s with String c _ => is_char dquote c && endsWith s (String dquote "") | _ => false end.

(** A character set, an apostrophe, a language, an apostrophe and the value: the
    first and the last. *)
Definition extended_value (s : string) : option (string * string) :=
  let '(charset, r1) := span (fun c => negb (is_char "'" c)) s in
  match r1 with
  | ""%string => None
  | String _ r2 =>
      match snd (span (fun c => negb (is_char "'" c)) r2) with
      | ""%string => None
      | String _ value => if str_forallb (fun c => negb (is_eol_char c)) value then Some (charset, value) else None
      end
  end.

Section Reading.
Context `{MailText}.

Definition decodeCharset (bytes : list Z) (charset : option string) : string :=
  let label := toLowerCase (trim (default "utf-8"%string (charset ≫= nonempty))) in
  match decoder label with Some decode => decode bytes | None => decode_utf8 bytes end.

Definition parseHeaders (head : string) : HeaderMap :=
  let text := replace_all folded (decodeCharset (binaryToBytes head) (Some "utf-8"%string)) in
  foldl add_header [] (split_all eol text).

(** ** Encoded words *)

(** The space between two encoded words. *)
Definition between_words : matcher := fun s =>
  rest ← after "?=" s;
  let '(space, rest') := span is_space rest in
  if String.eqb space "" then None else (fun r => ("?==?"%string, r)) <$> after "=?" rest'.

Definition not_mark (c : ascii) : bool := negb (is_char "?" c).

Definition encoded_word : matcher := fun s =>
  r1 ← after "=?" s;
  let '(charset, r2) := span not_mark r1 in
  if String.eqb charset "" then None
  else
    match r2 with
    | String _ (String enc (String mark r3)) =>
        if negb (is_char "?" mark) then None
        else
          let '(data, r4) := span not_mark r3 in
          rest ← after "?=" r4;
          let charset' := head (split_on "*" charset) in
          if is_char "b" (lower_char enc) then
            Some (match atob (str_filter (fun c => negb (is_space c)) data) with Some bytes => decodeCharset bytes charset' | None => data end, rest)
          else if is_char "q" (lower_char enc) then
            Some (decodeCharset (binaryToBytes (replace_all (hex_pair "=") (str_map (fun c => if is_char "_" c then " "%char else c) data))) charset', rest)
          else None
    | _ => None
    end.

Definition decodeEncodedWords (value : string) : string := replace_all encoded_word (replace_all between_words value).

(** ** Structured headers *)

Definition param_of (raw : string) : option (string * string) :=
  match str_index "=" raw with
  | None => None
  | Some eq =>
      let name := toLowerCase (trim (str_take eq raw)) in
      let val := trim (str_drop (S eq) raw) in
      let val := if is_quoted val then replace_all escaped (str_drop 1 (str_drop_last 1 val)) else val in
      if endsWith name "*" then
        Some (str_drop_last 1 name,
              match extended_value val with
              | Some (charset, value) => decodeCharset (binaryToBytes (replace_all (hex_pair "%") value)) (Some charset)
              | None => val
              end)
      else Some (name, val)
  end.

(** The value, and the parameters, the last of a name first. *)
Definition parseStructured (value : string) : string * list (string * string) :=
  let parts := match_all section_of_value value in
  (toLowerCase (trim (default ""%string (head parts))), rev (omap param_of (tail parts))).

Definition param_value (name : string) (params : list (string * string)) : option string := assoc name params ≫= nonempty.

Definition is_b64_char (c : ascii) : bool := is_alpha c || is_digit c || is_char "+" c || is_char "/" c || is_char "=" c.

Definition decodeTransfer (body encoding : string) : list Z :=
  let enc := toLowerCase (trim encoding) in
  if String.eqb enc "base64" then default (binaryToBytes body) (atob (str_filter is_b64_char body))
  else if String.eqb enc "quoted-printable" then binaryToBytes (replace_all (hex_pair "=") (replace_all soft_break body))
  else binaryToBytes body.
End Reading.

(** ** HTML *)

Definition SKIPPED_ELEMENTS : list string := ["script"; "style"; "head"; "title"]%string.
Definition BLOCK_ELEMENTS : list string := ["p"; "div"; "li"; "tr"; "h1"; "h2"; "h3"; "h4"; "h5"; "h6"; "blockquote"]%string.

(** The name of a tag, lower-case, from what follows its opening mark. *)
Definition tag_name (s : string) : string :=
  let s' := match s with String c t => if is_char "/" c then t else s | _ => s end in
  match s' with
  | String c t => if is_lower c then String c (fst (span (fun d => is_lower d || is_digit d) t)) else ""%string
  | _ => ""%string
  end.

(** What one turn of the loop adds to the text, and what is left of the markup;
    [None] where the loop ends. *)
Definition html_step (html : string) : string * option string :=
  match str_index "<" html with
  | None => (html, None)
  | Some open =>
      let before := str_take open html in
      let tag := str_drop open html in
      if startsWith tag "<!--" then
        (before, Some (match str_index "-->" (str_drop 4 tag) with Some close => str_drop (4 + close + 3) tag | None => ""%string end))
      else
        let inside := str_drop 1 tag in
        match str_index ">" inside with
        | None => (before, None)
        | Some close =>
            let name := tag_name (toLowerCase (str_take (Nat.min close 39) inside)) in
            let closing := startsWith inside "/" in
            let rest := str_drop (S close) inside in
            if negb closing && bool_decide (name ∈ SKIPPED_ELEMENTS) then
              (before, Some (match str_index ("</" +:+ name) (toLowerCase rest) with
                             | Some fin => match str_index ">" (str_drop fin rest) with Some k => str_drop (fin + S k) rest | None => ""%string end
                             | None => ""%string
                             end))
            else
              (before +:+ (if String.eqb name "br" || (closing && bool_decide (name ∈ BLOCK_ELEMENTS)) then String LF_ ""
                           else if String.eqb name "li" && negb closing then "- "%string else ""%string), Some rest)
        end
  end.

(** The loop; [None] where it has not ended within its steps. *)
Fixpoint html_loop (n : nat) (html : string) : option string :=
  match html with
  | ""%string => Some ""%string
  | _ =>
      match n with
      | O => None
      | S n' =>
          let '(text, rest) := html_step html in
          match rest with None => Some text | Some html' => (fun t => text +:+ t) <$> html_loop n' html' end
      end
  end.

Definition hex_number (s : string) : Z := foldl (fun acc c => 16 * acc + default 0 (hex_value c)) 0 (String.list_ascii_of_string s).
Definition is_hex_any (c : ascii) : bool := bool_decide (is_Some (hex_value c)).

Section Text.
Context `{MailText}.

Definition character (n : Z) : string :=
  if (n <=? 0) || (0x110000 <=? n) then ""%string else if n <? 256 then String (chr n) "" else far_character n.

(** A name every object inherits is found too. *)
Definition ENTITIES (name : string) : option string :=
  if String.eqb name "amp" then Some "&"%string
  else if String.eqb name "lt" then Some "<"%string
  else if String.eqb name "gt" then Some ">"%string
  else if String.eqb name "quot" then Some (String dquote "")
  else if String.eqb name "apos" then Some "'"%string
  else if String.eqb name "nbsp" then Some " "%string
  else if String.eqb name "constructor" then Some "function Object() { [native code] }"%string
  else None.

Definition entity : matcher := fun s =>
  r0 ← after "&" s;
  match r0 with
  | String c r1 =>
      if is_char "#" c then
        match r1 with
        | String x r2 =>
            if is_char "x" (lower_char x) then
              let '(digits, r3) := span is_hex_any r2 in
              rest ← (if String.eqb digits "" then None else after ";" r3);
              Some (character (hex_number digits), rest)
            else
              let '(digits, r3) := span is_digit r1 in
              rest ← (if String.eqb digits "" then None else after ";" r3);
              Some (character (digits_value digits), rest)
        | _ => None
        end
      else
        let '(name, r1) := span is_alpha r0 in
        rest ← (if String.eqb name "" then None else after ";" r1);
        Some (default ("&" +:+ name +:+ ";") (ENTITIES (toLowerCase name)), rest)
  | _ => None
  end.

Definition trailing_blanks : matcher := fun s =>
  let '(blanks, rest) := span is_blank s in
  if String.eqb blanks "" then None else (fun r => (String LF_ "", r)) <$> after (String LF_ "") rest.
Definition blank_lines : matcher := fun s =>
  let '(feeds, rest) := span (is_char LF_) s in
  if (String.length feeds <? 3)%nat then None else Some (String LF_ (String LF_ ""), rest).

Definition html_text (html : string) : string := default ""%string (html_loop (String.length html) html).
Definition htmlToText (html : string) : string := replace_all blank_lines (replace_all trailing_blanks (replace_all entity (html_text html))).

(** ** Quoted history *)

Definition RDot : re := RClass (fun c => negb (is_eol_char c)).
Definition RSpaces : re := RStar (RClass is_space).
(** A literal in any case. *)
Fixpoint RAnyCase (s : string) : re := match s with ""%string => REps | String c t => RCat (RClass (fun d => is_char (lower_char c) (lower_char d))) (RAnyCase t) end.
Definition RDashes : re := RCat (RRep 2 (RChar "-")) (RStar (RChar "-")).

(** The patterns that start a quoted thread, each with what must follow. *)
Definition HISTORY_MARKERS : list (re * (string -> bool)) :=
  [(RCat (RLit "On ") (RCat (RBetween 4 300 RDot) (RCat (RLit "wrote:") RSpaces)), at_eol);
   (RCat RDashes (RCat RSpaces (RCat (RAnyCase "Original Message") (RCat RSpaces (RCat RDashes RSpaces)))), at_eol);
   (RCat (RRep 8 (RChar "_")) (RCat (RStar (RChar "_")) (RCat RSpaces (RCat (RChar LF_) (RCat (RAlt (RLit "From") (RAlt (RLit "De") (RLit "Von"))) (RChar ":"))))), fun _ => true);
   (RCat (RLit "From: ") (RCat (RPlus RDot) (RCat (RChar LF_) (RCat (RAlt (RLit "Sent") (RLit "Date")) (RCat (RLit ": ") (RCat (RPlus RDot) (RCat (RChar LF_) (RLit "To: "))))))), fun _ => true)].

Definition stripQuotedHistory (text : string) : string :=
  let cut := foldl (fun cut marker => match line_matching (fst marker) (snd marker) true text with Some i => Nat.min i cut | None => cut end) (String.length text) HISTORY_MARKERS in
  let kept := trimEnd (str_take cut text) in
  if String.eqb (trim kept) "" then text else kept.

(** ** Addresses and identifiers *)

Definition is_address_char (c : ascii) : bool := negb (is_char "<" c || is_char ">" c || is_space c).

(** An [@] with something on both sides. *)
Definition has_inner_at (s : string) : bool := match s with String _ t => has_char "@" (str_drop_last 1 t) | _ => false end.

(** [<], white space, an address, white space and [>], at the start. *)
Definition angled_address (s : string) : option string :=
  r1 ← after "<" s;
  let '(run, r2) := span is_address_char (snd (span is_space r1)) in
  _ ← after ">" (snd (span is_space r2));
  if has_inner_at run then Some run else None.

(** The first such place of a line, and what is before it. *)
Fixpoint find_angled (s : string) : option (string * string) :=
  match angled_address s with
  | Some address => Some (""%string, address)
  | None => match s with String c t => if is_eol_char c then None else (fun r => (String c (fst r), snd r)) <$> find_angled t | _ => None end
  end.

Definition is_bare_char (c : ascii) : bool := negb (is_space c || bool_decide (c ∈ ["<"; ">"; dquote; "("; ")"; ","; ";"; ":"]%char)).

(** A run of such characters with an [@] inside it. *)
Definition bare_run : matcher := fun s => let '(run, rest) := span is_bare_char s in if String.eqb run "" then None else Some (run, rest).

Definition unquote (s : string) : string :=
  if is_quoted s && (2 <=? String.length s)%nat && str_forallb (fun c => negb (is_eol_char c)) (str_drop 1 (str_drop_last 1 s)) then str_drop 1 (str_drop_last 1 s) else s.

Definition parseAddressHeader (value : string) : option ParsedAddress :=
  let decoded := trim (decodeEncodedWords value) in
  if String.eqb decoded "" then None
  else
    match find_angled decoded with
    | Some (before, address) => Some (mkAddress (toLowerCase address) (replace_all escaped (unquote (trim before))))
    | None => (fun run => mkAddress (toLowerCase run) "") <$> js_find has_inner_at (match_all bare_run decoded)
    end.

Definition message_id : matcher := fun s =>
  r1 ← after "<" s;
  let '(run, r2) := span is_address_char r1 in
  rest ← (if String.eqb run "" then None else after ">" r2);
  Some ("<" +:+ run +:+ ">", rest).
Definition messageIds (value : string) : list string := match_all message_id value.
End Text.

(** ** The parts of a message *)

Record Collected : Type := mkCollected {
  co_plain : option string;
  co_html : option string;
  co_attachments : list MailAttachment;
  co_parts : Z;
  co_wanted : option Z;
  co_found : option (list Z)
}.

(** A name safe to offer as a download. *)
Definition cleanFilename (name : string) : string :=
  let base := str_drop (Nat.max (last_index "/" name) (last_index backslash name)) name in
  str_take 150 (trim (str_map (fun c => if (code c <? 0x20) || (code c =? 0x7f) || is_char dquote c then "_"%char else c) base)).

Definition TYPE_PATTERN : re :=
  let plain := RPlus (RClass (fun c => is_lower c || is_digit c || is_char "." c || is_char "+" c || is_char "-" c)) in RCat plain (RCat (RChar "/") plain).

(** A section less the line end at its start and the one at its end. *)
Definition strip_first_eol (s : string) : string := default s (eol s).
Definition strip_last_eol (s : string) : string :=
  if endsWith s (String CR (String LF_ "")) then str_drop_last 2 s else if endsWith s (String LF_ "") then str_drop_last 1 s else s.

(** The sections before the epilogue. *)
Fixpoint before_epilogue (sections : list string) : list string :=
  match sections with [] => [] | x :: l => if startsWith x "--" then [] else x :: before_epilogue l end.

Section Parts.
Context `{MailText}.

Definition part_of (binary : string) : Part := let '(head, body) := splitHeadersAndBody binary in mkPart (parseHeaders head) body.

Definition count_part (acc : Collected) : Collected := mkCollected (co_plain acc) (co_html acc) (co_attachments acc) (co_parts acc + 1) (co_wanted acc) (co_found acc).

Definition part_type (part : Part) : string * list (string * string) :=
  parseStructured (default "text/plain; charset=us-ascii"%string (nonempty (header (part_headers part) "content-type"))).
Definition part_disposition (part : Part) : string * list (string * string) := parseStructured (header (part_headers part) "content-disposition").
Definition part_filename (part : Part) : string :=
  decodeEncodedWords (match param_value "filename" (snd (part_disposition part)) with Some f => f | None => default ""%string (param_value "name" (snd (part_type part))) end).

(** A part that holds no other part. *)
Definition add_leaf (part : Part) (acc : Collected) : Collected :=
  let type := part_type part in
  let filename := part_filename part in
  let bytes := decodeTransfer (part_body part) (header (part_headers part) "content-transfer-encoding") in
  let isText := startsWith (fst type) "text/" in
  let isAttachment := String.eqb (fst (part_disposition part)) "attachment" || (negb (String.eqb filename "") && negb isText) in
  if isAttachment || negb isText then
    let index := Z.of_nat (length (co_attachments acc)) in
    if MAX_ATTACHMENTS <=? index then acc
    else
      let clean := cleanFilename filename in
      mkCollected (co_plain acc) (co_html acc)
        (co_attachments acc ++ [mkAttachment index (if String.eqb clean "" then "attachment"%string else clean)
           (if re_test TYPE_PATTERN (fst type) then fst type else "application/octet-stream"%string) (Z.of_nat (length bytes))])
        (co_parts acc) (co_wanted acc) (if bool_decide (co_wanted acc = Some index) then Some bytes else co_found acc)
  else
    let text := decodeCharset bytes (assoc "charset" (snd type)) in
    if String.eqb (fst type) "text/html" then
      mkCollected (co_plain acc) (Some (default text (co_html acc))) (co_attachments acc) (co_parts acc) (co_wanted acc) (co_found acc)
    else mkCollected (Some (default text (co_plain acc))) (co_html acc) (co_attachments acc) (co_parts acc) (co_wanted acc) (co_found acc).

(** What a part holds: the sections of a multipart, a forwarded message, or
    nothing. *)
Definition inner_parts (part : Part) : option (list Part) :=
  let type := part_type part in
  match (if startsWith (fst type) "multipart/" then param_value "boundary" (snd type) else None) with
  | Some boundary => Some (List.map (fun x => part_of (strip_last_eol (strip_first_eol x))) (before_epilogue (tail (split_all (after ("--" +:+ boundary)) (part_body part)))))
  | None =>
      if String.eqb (fst type) "message/rfc822"
      then Some [part_of (bytesToBinary (decodeTransfer (part_body part) (header (part_headers part) "content-transfer-encoding")))]
      else None
  end.

(** [levels] is how many levels may still be entered: [MAX_MIME_DEPTH + 1 - depth]. *)
Fixpoint walk (levels : nat) (part : Part) (acc : Collected) : Collected :=
  match levels with
  | O => acc
  | S levels' =>
      if MAX_MIME_PARTS <=? co_parts acc then acc
      else
        let acc := count_part acc in
        match inner_parts part with
        | Some inner => foldl (fun a p => walk levels' p a) acc inner
        | None => add_leaf part acc
        end
  end.

Definition collect (raw : list Z) (wanted : option Z) : HeaderMap * Collected :=
  let part := part_of (bytesToBinary raw) in
  (part_headers part, walk (S MAX_MIME_DEPTH) part (mkCollected None None [] 0 wanted None)).

Definition extractAttachment (raw : list Z) (index : Z) : option (MailAttachment * list Z) :=
  let acc := snd (collect raw (Some index)) in
  attachment ← (if index <? 0 then None else co_attachments acc !! Z.to_nat index);
  bytes ← co_found acc;
  Some (attachment, bytes).

Definition crlf_match : matcher := fun s => (fun rest => (String LF_ "", rest)) <$> after (String CR (String LF_ "")) s.
Definition spaces : matcher := fun s => let '(space, rest) := span is_space s in if String.eqb space "" then None else Some (" "%string, rest).

Definition message_text (acc : Collected) : string :=
  let rawText := match co_plain acc, co_html acc with Some p, _ => p | None, Some h => htmlToText (str_take MAX_HTML_CHARS h) | None, None => ""%string end in
  str_take MAX_BODY_CHARS (stripQuotedHistory (trim (replace_all crlf_match rawText))).

Definition parseEmail (raw : list Z) : ParsedEmail :=
  let '(headers, acc) := collect raw None in
  let autoSubmitted := toLowerCase (header headers "auto-submitted") in
  let precedence := toLowerCase (header headers "precedence") in
  let references := messageIds (join " " (default [] (assoc "references" headers))) in
  mkEmail (parseAddressHeader (header headers "from")) (parseAddressHeader (header headers "reply-to"))
    (str_take 300 (trim (replace_all spaces (decodeEncodedWords (header headers "subject")))))
    (head (messageIds (header headers "message-id"))) (head (messageIds (header headers "in-reply-to")))
    (drop (length references - 50) references) (message_text acc) (co_attachments acc)
    ((negb (String.eqb autoSubmitted "") && negb (String.eqb autoSubmitted "no")) || String.eqb precedence "bulk" || String.eqb precedence "junk" || String.eqb precedence "list"
     || has_header headers "list-id").
End Parts.

(** ** The loop of [htmlToText] ends, and leaves no markup *)

Lemma str_drop_length' n s : String.length (str_drop n s) = (String.length s - n)%nat.
Proof. revert s. induction n as [|n IH]; intros [|c s]; cbn; try lia. by rewrite IH. Qed.

Lemma str_index_before c s : match str_index (String c "") s with Some n => has_char c (str_take n s) = false | None => has_char c s = false end.
Proof.
  induction s as [|d s IH]; [done|]. cbn [str_index]. destruct (startsWith (String d s) (String c "")) eqn:E; [done|]. assert (Hd : is_char c d = false) by (cbn in E; rewrite andb_true_r in E; exact E).
  destruct (str_index (String c "") s) as [k|]; cbn; unfold has_char in *; cbn; by rewrite Hd, IH.
Qed.

Lemma startsWith_nonempty s c p : startsWith s (String c p) = true -> (1 <= String.length s)%nat.
Proof. destruct s; [done|]. cbn. lia. Qed.

Lemma html_step_shorter html text rest : html_step html = (text, Some rest) -> (String.length rest < String.length html)%nat.
Proof.
  unfold html_step. destruct (str_index "<" html) as [open|] eqn:Eo; [|done]. destruct (str_index_take _ _ _ Eo) as (_ & Hs & Hle). cbv zeta. apply startsWith_nonempty in Hs. rewrite str_drop_length' in Hs.
  assert (H0 : (String.length "" < String.length html)%nat) by (cbn; lia). destruct (startsWith _ "<!--").
  - intros E. apply (f_equal snd) in E. cbn [snd] in E. apply Some_inj in E as <-. destruct (str_index "-->" _); [|done]. rewrite !str_drop_length'. lia.
  - destruct (str_index ">" _) as [close|]; [|done]. destruct (negb _ && _); intros E; apply (f_equal snd) in E; cbn [snd] in E; apply Some_inj in E as <-; [|rewrite !str_drop_length'; lia].
    destruct (str_index _ (toLowerCase _)); [|done]. destruct (str_index ">" (str_drop n _)); [|done]. rewrite !str_drop_length'. lia.
Qed.

Lemma html_step_plain html : has_char "<" (fst (html_step html)) = false.
Proof.
  unfold html_step. pose proof (str_index_before "<" html) as Hb. destruct (str_index "<" html) as [open|]; [|done]. cbv zeta. destruct (startsWith _ "<!--"); [done|]. destruct (str_index ">" _); [|done].
  destruct (negb _ && _); [done|]. cbn [fst]. rewrite has_char_app, Hb. cbn [orb]. destruct (_ || _); [done|]. by destruct (_ && _).
Qed.

(** C35. The loop of htmlToText ends, whatever the markup, within as many turns
    as it has characters, each of which reads at least one; and what it leaves
    has no opening mark, so nothing that was removed comes together as a tag. *)
Theorem html_loop_ends html n : (String.length html <= n)%nat -> exists text, html_loop n html = Some text /\ html_text html = text /\ has_char "<" text = false.
Proof.
  intros Hn. assert (Hl : forall n k html, (String.length html <= n)%nat -> (String.length html <= k)%nat -> exists text, html_loop n html = Some text /\ html_loop k html = Some text /\ has_char "<" text = false).
  { clear. induction n as [|n IH]; intros k html Hn Hk; [destruct html; [by destruct k; exists ""%string|cbn in Hn; lia]|].
    destruct html as [|c html]; [by destruct k; exists ""%string|]. destruct k as [|k]; [cbn in Hk; lia|]. cbn [html_loop].
    pose proof (html_step_plain (String c html)) as Hp. destruct (html_step (String c html)) as [text [rest|]] eqn:E; cbn [fst] in Hp; [|by exists text].
    apply html_step_shorter in E. cbn [String.length] in *. destruct (IH k rest) as (t & -> & -> & Ht); [lia|lia|]. exists (text +:+ t). cbn. by rewrite has_char_app, Hp, Ht. }
  destruct (Hl n (String.length html) html Hn ltac:(lia)) as (text & E1 & E2 & Ht). exists text. unfold html_text. by rewrite E2.
Qed.

(** ** Every attachment that is listed can be taken out *)

Section Attachments.
Context `{MailText}.

Definition safe_name (s : string) : bool := negb (String.eqb s "") && (String.length s <=? 150)%nat && str_forallb (fun c => (32 <=? code c) && negb (code c =? 127) && negb (is_char dquote c) && negb (is_char "/" c) && negb (is_char backslash c)) s.

(** The two ways a message is read agree. *)
Definition same_listing (a b : Collected) : Prop := co_plain a = co_plain b /\ co_html a = co_html b /\ co_attachments a = co_attachments b /\ co_parts a = co_parts b.

Lemma add_leaf_same part a b : same_listing a b -> same_listing (add_leaf part a) (add_leaf part b).
Proof.
  destruct a as [p h l n w f], b as [p' h' l' n' w' f']. intros (E1 & E2 & E3 & E4). cbn in E1, E2, E3, E4. subst. unfold add_leaf, same_listing. cbn [co_attachments co_plain co_html co_parts co_wanted co_found]. cbv zeta.
  destruct (_ || negb _); [by destruct (_ <=? _)|]. by destruct (String.eqb (fst (part_type part)) "text/html").
Qed.

Lemma walk_same levels : forall part a b, same_listing a b -> same_listing (walk levels part a) (walk levels part b).
Proof.
  induction levels as [|levels IH]; intros part a b Hab; [done|]. cbn [walk]. destruct Hab as (E1 & E2 & E3 & E4). rewrite E4. destruct (_ <=? _); [done|]. assert (Hc : same_listing (count_part a) (count_part b)) by (unfold same_listing; cbn; by rewrite E1, E2, E3, E4).
  destruct (inner_parts part) as [inner|]; [|by apply add_leaf_same]. revert Hc. generalize (count_part a) (count_part b). induction inner as [|p inner IHi]; intros x y Hxy; [done|]. cbn. by apply IHi, IH.
Qed.

Record collected_ok (acc : Collected) : Prop := {
  ok_count : Z.of_nat (length (co_attachments acc)) <= MAX_ATTACHMENTS;
  ok_parts : co_parts acc <= MAX_MIME_PARTS;
  ok_each : forall k a, co_attachments acc !! k = Some a -> at_index a = Z.of_nat k /\ safe_name (at_filename a) = true /\ re_test TYPE_PATTERN (at_contentType a) = true;
  ok_found : forall i a, co_wanted acc = Some (Z.of_nat i) -> co_attachments acc !! i = Some a -> exists bytes, co_found acc = Some bytes /\ at_size a = Z.of_nat (length bytes)
}.

Lemma forallb_take p n s : str_forallb p s = true -> str_forallb p (str_take n s) = true.
Proof. rewrite <- (str_take_drop n s) at 1. rewrite str_forallb_app. by intros [? _]%andb_true_iff. Qed.

Lemma forallb_drop p n s : str_forallb p s = true -> str_forallb p (str_drop n s) = true.
Proof. rewrite <- (str_take_drop n s) at 1. rewrite str_forallb_app. by intros [_ ?]%andb_true_iff. Qed.

Lemma forallb_trim p s : str_forallb p s = true -> str_forallb p (trim s) = true.
Proof.
  intros Hs. unfold trim. assert (H1 : str_forallb p (trimStart s) = true) by (induction s as [|c s IH]; [done|]; cbn in *; apply andb_true_iff in Hs as [Hc Hs]; destruct (is_space c); [auto|cbn; by rewrite Hc]).
  revert H1. generalize (trimStart s). clear. intros s. induction s as [|c s IH]; [done|]. cbn. intros [Hc Hs]%andb_true_iff. destruct (is_space c && _); [done|]. cbn. by rewrite Hc, IH.
Qed.

Lemma last_index_none c s : has_char c (str_drop (last_index c s) s) = false.
Proof.
  induction s as [|d s IH]; [done|]. cbn [last_index]. destruct (last_index c s) as [|n] eqn:E; [|exact IH]. cbn [str_drop] in *. destruct (is_char c d) eqn:Ed; cbn [str_drop]; [exact IH|]. unfold has_char in *. cbn. by rewrite Ed.
Qed.

Lemma str_drop_add a : forall b s, str_drop (a + b) s = str_drop b (str_drop a s).
Proof. induction a as [|a IH]; intros b s; [done|]. destruct s as [|c s]; [by destruct b|]. apply IH. Qed.

Lemma drop_max_none c n s : (last_index c s <= n)%nat -> has_char c (str_drop n s) = false.
Proof.
  intros Hn. replace n with (last_index c s + (n - last_index c s))%nat by lia. rewrite str_drop_add. pose proof (last_index_none c s) as Hl. unfold has_char in *. rewrite str_existsb_forallb in *. apply negb_false_iff in Hl. by rewrite forallb_drop.
Qed.

Lemma cleanFilename_safe name : cleanFilename name <> ""%string -> safe_name (cleanFilename name) = true.
Proof.
  intros Hne. unfold safe_name. rewrite (proj2 (String.eqb_neq _ _) Hne). cbn [negb andb]. apply andb_true_iff. split; [apply Nat.leb_le; unfold cleanFilename; rewrite str_take_length; lia|].
  unfold cleanFilename. cbv zeta. set (n := Nat.max _ _). apply forallb_take, forallb_trim. pose proof (drop_max_none "/" n name ltac:(lia)) as H1. pose proof (drop_max_none backslash n name ltac:(lia)) as H2.
  revert H1 H2. generalize (str_drop n name). clear. intros s. unfold has_char. induction s as [|c s IH]; [done|]. cbn [str_existsb str_map str_forallb]. intros [H1 H1']%orb_false_iff [H2 H2']%orb_false_iff. rewrite (IH H1' H2'), andb_true_r.
  pose proof (all_chars_forall (fun c => let d := if (code c <? 0x20) || (code c =? 0x7f) || is_char dquote c then "_"%char else c in is_char "/" c || is_char backslash c ||
    ((32 <=? code d) && negb (code d =? 127) && negb (is_char dquote d) && negb (is_char "/" d) && negb (is_char backslash d))) ltac:(vm_compute; reflexivity) c) as Hc. cbv beta zeta in Hc. rewrite H1, H2 in Hc. exact Hc.
Qed.

Lemma octet_stream_type : re_test TYPE_PATTERN "application/octet-stream" = true.
Proof. vm_compute. reflexivity. Qed.

Lemma add_leaf_ok part acc : collected_ok acc -> collected_ok (add_leaf part acc).
Proof.
  intros Hok. unfold add_leaf. cbv zeta. destruct (_ || negb _); [|destruct (String.eqb (fst (part_type part)) "text/html"); destruct Hok as [H1 H2 H3 H4]; constructor; done]. destruct (Z.leb_spec MAX_ATTACHMENTS (Z.of_nat (length (co_attachments acc)))); [done|].
  set (bytes := decodeTransfer _ _). set (clean := cleanFilename _). destruct Hok as [H1 H2 H3 H4]. constructor; cbn [co_attachments co_parts co_wanted co_found].
  - rewrite length_app. cbn. lia.
  - done.
  - intros k a [Ha|[Hk Ha]]%lookup_app_Some; [by apply H3|]. apply list_lookup_singleton_Some in Ha as [Hz <-]. cbn [at_index at_filename at_contentType]. split_and!; [lia| |].
    + destruct (String.eqb_spec clean ""); [vm_compute; reflexivity|by apply cleanFilename_safe].
    + destruct (re_test TYPE_PATTERN (fst (part_type part))) eqn:E; [done|apply octet_stream_type].
  - intros i a Hw Ha. rewrite Hw. apply lookup_app_Some in Ha as [Ha|[Hk Ha]].
    + rewrite bool_decide_eq_false_2; [by apply (H4 i a)|]. apply lookup_lt_Some in Ha. intros E. injection E as E. lia.
    + apply list_lookup_singleton_Some in Ha as [Hz <-]. rewrite bool_decide_eq_true_2 by (f_equal; lia). by exists bytes.
Qed.

Lemma walk_ok levels : forall part acc, collected_ok acc -> collected_ok (walk levels part acc).
Proof.
  induction levels as [|levels IH]; intros part acc Hok; [done|]. cbn [walk]. destruct (Z.leb_spec MAX_MIME_PARTS (co_parts acc)); [done|]. assert (Hc : collected_ok (count_part acc)) by (destruct Hok as [H1 H2 H3 H4]; constructor; cbn; [done|lia|done|done]).
  destruct (inner_parts part) as [inner|]; [|by apply add_leaf_ok]. revert Hc. generalize (count_part acc). induction inner as [|p inner IHi]; intros x Hx; [done|]. cbn. by apply IHi, IH.
Qed.

Lemma collect_ok raw wanted : collected_ok (snd (collect raw wanted)).
Proof. unfold collect. cbn [snd]. apply walk_ok. constructor; cbn; [unfold MAX_ATTACHMENTS; lia|unfold MAX_MIME_PARTS; lia|done|done]. Qed.

Lemma walk_wanted levels : forall part acc, co_wanted (walk levels part acc) = co_wanted acc.
Proof.
  induction levels as [|levels IH]; intros part acc; [done|]. cbn [walk]. destruct (_ <=? _); [done|]. destruct (inner_parts part) as [inner|].
  - change (co_wanted acc) with (co_wanted (count_part acc)). generalize (count_part acc). induction inner as [|p inner IHi]; intros x; [done|]. cbn. by rewrite IHi, IH.
  - unfold add_leaf. cbv zeta. destruct (_ || negb _); [by destruct (_ <=? _)|]. by destruct (String.eqb (fst (part_type part)) "text/html").
Qed.

Lemma collect_listing raw w w' : co_attachments (snd (collect raw w)) = co_attachments (snd (collect raw w')).
Proof. unfold collect. cbn [snd]. apply walk_same. done. Qed.

(** C29. Of every message, however it is built: at most fifty attachments are
    listed, each under its place in the list, with a name that has no path, no
    control character and no quotation mark and is at most 150 characters, and a
    type of the form type/subtype. The attachment of a place that is listed can
    be taken back out of the message, with as many bytes as were listed; of any
    other place there is none. *)
Theorem attachments_extractable raw : let listed := em_attachments (parseEmail raw) in
  Z.of_nat (length listed) <= MAX_ATTACHMENTS /\
  (forall i, i < 0 -> extractAttachment raw i = None) /\
  (forall i, match listed !! i with
    | Some a => at_index a = Z.of_nat i /\ safe_name (at_filename a) = true /\ re_test TYPE_PATTERN (at_contentType a) = true /\
        exists bytes, extractAttachment raw (Z.of_nat i) = Some (a, bytes) /\ at_size a = Z.of_nat (length bytes)
    | None => extractAttachment raw (Z.of_nat i) = None
    end).
Proof.
  cbv zeta. assert (Hlist : em_attachments (parseEmail raw) = co_attachments (snd (collect raw None))) by (unfold parseEmail; by destruct (collect raw None)). rewrite Hlist. split; [apply collect_ok|]. split.
  - intros i Hi. unfold extractAttachment. by rewrite (proj2 (Z.ltb_lt _ _) Hi).
  - intros i. unfold extractAttachment. rewrite (proj2 (Z.ltb_ge _ _)) by lia. rewrite Nat2Z.id, (collect_listing raw (Some (Z.of_nat i)) None). destruct (co_attachments _ !! i) as [a|] eqn:Ea; [|done].
    rewrite (collect_listing raw None (Some (Z.of_nat i))) in Ea. destruct (ok_each _ (collect_ok raw (Some (Z.of_nat i))) i a Ea) as (? & ? & ?). split_and!; [done..|].
    destruct (ok_found _ (collect_ok raw (Some (Z.of_nat i))) i a) as (bytes & Hf & Hsize); [apply walk_wanted|done|]. exists bytes. rewrite Hf. done.
Qed.
End Attachments.

(** ** Transfer encodings are undone *)

(** The quoted-printable texts of some bytes: a byte is written as its character,
    unless that is [=], or as [=] and two hexadecimal digits; a line may be
    broken after [=], where [breaks]. *)
Inductive qp_text (breaks : bool) : list Z -> string -> Prop :=
| qp_end : qp_text breaks [] ""
| qp_char c bytes body : is_char "=" c = false -> qp_text breaks bytes body -> qp_text breaks (code c :: bytes) (String c body)
| qp_hex x y a b bytes body : hex_value x = Some a -> hex_value y = Some b -> qp_text breaks bytes body -> qp_text breaks (16 * a + b :: bytes) (String "=" (String x (String y body)))
| qp_lf bytes body : breaks = true -> qp_text breaks bytes body -> qp_text breaks bytes (String "=" (String LF_ body))
| qp_crlf bytes body : breaks = true -> qp_text breaks bytes body -> qp_text breaks bytes (String "=" (String CR (String LF_ body))).

Lemma eol_shorter s rest : eol s = Some rest -> (String.length rest < String.length s)%nat.
Proof.
  destruct s as [|c t]; [done|]. cbn [eol]. destruct (is_char LF_ c); [intros [= <-]; cbn; lia|]. destruct (is_char CR c); [|done]. destruct t as [|d u]; [done|]. destruct (is_char LF_ d); [|done]. intros [= <-]. cbn. lia.
Qed.

Lemma soft_break_consumes : consumes soft_break.
Proof. intros [|c t] r rest; [done|]. cbn [soft_break]. destruct (is_char "=" c); [|done]. destruct (eol t) as [u|] eqn:E; [|done]. apply eol_shorter in E. intros [= _ <-]. cbn [String.length]. lia. Qed.

Lemma hex_pair_consumes mark : consumes (hex_pair mark).
Proof.
  intros [|c [|x [|y t]]] r rest; cbn [hex_pair]; try done. destruct (is_char mark c); [|done]. destruct (hex_value x), (hex_value y); try done. intros E. apply (f_equal (fmap snd)) in E. cbn in E. injection E as <-. cbn [String.length]. lia.
Qed.

Lemma hex_value_facts x a : hex_value x = Some a -> is_char LF_ x = false /\ is_char CR x = false /\ is_char "=" x = false /\ 0 <= a < 16.
Proof.
  pose proof (all_chars_forall (fun x => match hex_value x with Some a => negb (is_char LF_ x) && negb (is_char CR x) && negb (is_char "=" x) && (0 <=? a) && (a <? 16) | None => true end) ltac:(vm_compute; reflexivity) x) as Hx. cbv beta in Hx.
  intros E. rewrite E in Hx. rewrite !andb_true_iff, !negb_true_iff, Z.leb_le, Z.ltb_lt in Hx. tauto.
Qed.

Lemma soft_break_char c t : is_char "=" c = false -> replace_all soft_break (String c t) = String c (replace_all soft_break t).
Proof. intros Hc. rewrite replace_all_step by apply soft_break_consumes. cbn [soft_break]. by rewrite Hc. Qed.

Lemma unbroken bytes body : qp_text true bytes body -> qp_text false bytes (replace_all soft_break body).
Proof.
  induction 1 as [|c bytes body Hc _ IH|x y a b bytes body Hx Hy _ IH|bytes body _ _ IH|bytes body _ _ IH]; [constructor|rewrite soft_break_char by done; by constructor| | |].
  - rewrite replace_all_step by apply soft_break_consumes. destruct (hex_value_facts x a Hx) as (H1 & H2 & H3 & _), (hex_value_facts y b Hy) as (_ & _ & H4 & _).
    replace (soft_break (String "=" (String x (String y body)))) with (None (A := string * string)) by (cbn [soft_break eol]; rewrite H1, H2; done). rewrite !soft_break_char by done. by constructor.
  - rewrite replace_all_step by apply soft_break_consumes. exact IH.
  - rewrite replace_all_step by apply soft_break_consumes. exact IH.
Qed.

Lemma hex_undone bytes body : qp_text false bytes body -> binaryToBytes (replace_all (hex_pair "=") body) = bytes.
Proof.
  induction 1 as [|c bytes body Hc _ IH|x y a b bytes body Hx Hy _ IH|bytes body E _ _|bytes body E _ _]; [done| | |done|done].
  - rewrite replace_all_step by apply hex_pair_consumes. replace (hex_pair "=" (String c body)) with (None (A := string * string)) by (unfold hex_pair; rewrite Hc; by destruct body as [|? [|? ?]]).
    unfold binaryToBytes in *. cbn [String.list_ascii_of_string List.map]. by rewrite IH.
  - rewrite replace_all_step by apply hex_pair_consumes. unfold hex_pair at 1. change (is_char "=" "=") with true. cbv iota. rewrite Hx, Hy. unfold binaryToBytes in *. cbn [String.append String.list_ascii_of_string List.map]. rewrite IH. f_equal.
    apply code_chr. destruct (hex_value_facts x a Hx) as (_ & _ & _ & ?), (hex_value_facts y b Hy) as (_ & _ & _ & ?). lia.
Qed.

(** What a sender encoded is read back as the same bytes: base64 broken into
    lines, or with any other characters between its own; quoted-printable, with
    any choice of what is written out and of where lines are broken; and bytes
    sent as they are. *)
Theorem transfer_roundtrip bytes : Forall is_byte bytes ->
  (forall body, str_filter is_b64_char body = btoa bytes -> decodeTransfer body "base64" = bytes) /\
  (forall body, qp_text true bytes body -> decodeTransfer body "quoted-printable" = bytes) /\
  decodeTransfer (bytesToBinary bytes) "8bit" = bytes.
Proof.
  intros Hb. split_and!.
  - intros body E. unfold decodeTransfer. change (toLowerCase (trim "base64")) with "base64"%string. cbv zeta. rewrite String.eqb_refl, E, atob_btoa by done. done.
  - intros body Hq. unfold decodeTransfer. change (toLowerCase (trim "quoted-printable")) with "quoted-printable"%string. cbv zeta. change (String.eqb "quoted-printable" "base64") with false. rewrite String.eqb_refl. by apply hex_undone, unbroken.
  - change (decodeTransfer (bytesToBinary bytes) "8bit") with (binaryToBytes (bytesToBinary bytes)). unfold binaryToBytes, bytesToBinary. rewrite String.list_ascii_of_string_of_list_ascii, List.map_map. rewrite <- (List.map_id bytes) at 2.
    apply List.map_ext_in. intros b Hin. apply code_chr. apply (proj1 (List.Forall_forall _ _) Hb b Hin).
Qed.

(** ** An example *)

Definition latin1 : MailText := {| decoder := fun _ => Some bytesToBinary; decode_utf8 := bytesToBinary; far_character := fun _ => "?"%string |}.

Definition nl : string := String CR (String LF_ "").
Definition q (s : string) : string := String dquote (s +:+ String dquote "").
Definition demo_email : list Z := binaryToBytes (join nl
  ["From: " +:+ q "Ann \(Lab\)" +:+ " <Ann@Example.org>"; "Subject: =?utf-8?Q?Caf=E9_?= =?utf-8?B?bWVudQ==?="; "Message-ID: <1@example.org>"; "References: <a@b>"; " <c@d>";
   "Content-Type: multipart/mixed; boundary=" +:+ q "b;1"; ""; "preamble"; "--b;1"; "Content-Type: text/html"; ""; "<p>Hi &amp; bye</p><script>x<y</script>";
   "--b;1"; "Content-Type: application/pdf; name=" +:+ q "../menu.pdf"; "Content-Transfer-Encoding: base64"; ""; "JVBE"; "Rg=="; "--b;1--"; "epilogue"])%string.

Example demo_email_parsed :
  let e := parseEmail (H := latin1) demo_email in
  em_from e = Some (mkAddress "ann@example.org" "Ann (Lab)") /\ em_subject e = ("Caf" +:+ String (chr 233) " menu")%string /\ em_references e = ["<a@b>"; "<c@d>"]%string /\
  em_text e = "Hi & bye"%string /\ em_attachments e = [mkAttachment 0 "menu.pdf" "application/pdf" 4] /\
  extractAttachment (H := latin1) demo_email 0 = Some (mkAttachment 0 "menu.pdf" "application/pdf" 4, [0x25; 0x50; 0x44; 0x46]).
Proof. vm_compute. split_and!; reflexivity. Qed.

Lemma html_loop_ends_witness : (7 <= 7)%nat /\ exists text, html_loop 7 "<b>x<i>"%string = Some text /\ html_text "<b>x<i>"%string = text /\ has_char "<" text = false.
Proof. split; [lia|]. apply (html_loop_ends "<b>x<i>"%string 7). cbn. lia. Defined.

Lemma transfer_roundtrip_witness :
  Forall is_byte [0x25; 0x50; 0xe9] /\ decodeTransfer ("JV" +:+ nl +:+ "Dp")%string "base64" = [0x25; 0x50; 0xe9] /\ decodeTransfer ("%=" +:+ nl +:+ "P=E9")%string "quoted-printable" = [0x25; 0x50; 0xe9].
Proof.
  assert (Hb : Forall is_byte [0x25; 0x50; 0xe9]) by (repeat constructor; unfold is_byte; lia). split; [exact Hb|]. destruct (transfer_roundtrip _ Hb) as (H1 & H2 & _). split.
  - apply H1. vm_compute. reflexivity.
  - apply H2. apply (qp_char true "%"%char); [reflexivity|]. apply qp_crlf; [reflexivity|]. apply (qp_char true "P"%char); [reflexivity|]. apply (qp_hex true "E"%char "9"%char 14 9); [reflexivity|reflexivity|]. apply qp_end.
Defined.

(** An entity that has the name of something every object inherits is no
    character of the message. *)
Example inherited_entity : htmlToText (H := latin1) "&constructor;"%string = "function Object() { [native code] }"%string.
Proof. vm_compute. reflexivity. Qed.
