(* ===== verification/Conversations.v ===== *)
(** src/cloudflare-control/src/conversations.ts: conversations and their messages,
    the tracking ids that subjects carry, the profile of an organization, and the
    codes that prove an address by e-mail.

    The tables are lists of rows in the order they were written; what their keys
    forbid throws. Identifiers, random bytes and the clock are arguments. *)
From S2P Require Import Prelude JsString Regex Scan Platform Db Auth WebAuthn Totp TwoFactor.

Inductive ConversationKind : Type := k_signup | k_remote_control | k_support.
Inductive ConversationStatus : Type := s_open | s_approved | s_rejected | s_closed.
Inductive MessageDirection : Type := inbound | outbound | note | event.
Inductive ConversationCategory : Type := registration | remote_control | support | sales | billing | legal | general | letter.
#[export] Instance ConversationKind_eq_dec : EqDecision ConversationKind.
Proof. solve_decision. Defined.
#[export] Instance ConversationStatus_eq_dec : EqDecision ConversationStatus.
Proof. solve_decision. Defined.
#[export] Instance MessageDirection_eq_dec : EqDecision MessageDirection.
Proof. solve_decision. Defined.
#[export] Instance ConversationCategory_eq_dec : EqDecision ConversationCategory.
Proof. solve_decision. Defined.

Inductive Box : Type := tasks_box | support_box.
#[export] Instance Box_eq_dec : EqDecision Box.
Proof. solve_decision. Defined.

(** Name, category, prefix, label and tab. *)
Record CategoryInfo : Type := mkCategory { ci_name : string; ci_category : ConversationCategory; ci_prefix : string; ci_label : string; ci_box : Box }.
Definition CATEGORIES : list CategoryInfo :=
  [mkCategory "registration" registration "REG" "Registration" tasks_box; mkCategory "remote_control" remote_control "RMT" "Remote Control" tasks_box;
   mkCategory "support" support "SUP" "Support" support_box; mkCategory "sales" sales "SAL" "Sales" support_box; mkCategory "billing" billing "BIL" "Billing" support_box;
   mkCategory "legal" legal "LGL" "Legal & privacy" support_box; mkCategory "general" general "GEN" "General" support_box; mkCategory "letter" letter "LTR" "Letters" support_box].

Definition isCategory (value : string) : option ConversationCategory := ci_category <$> js_find (fun c => String.eqb (ci_name c) value) CATEGORIES.
Definition category_info (c : ConversationCategory) : CategoryInfo :=
  default (mkCategory "general" general "GEN" "General" support_box) (js_find (fun i => bool_decide (ci_category i = c)) CATEGORIES).
Definition categoryLabel (c : ConversationCategory) : string := ci_label (category_info c).

Definition MAILBOX_CATEGORIES : list (string * ConversationCategory) :=
  List.map (fun n => (n, support)) ["support"; "help"; "helpdesk"]%string ++ List.map (fun n => (n, sales)) ["sales"; "quote"; "quotes"; "pricing"; "licensing"]%string
  ++ List.map (fun n => (n, billing)) ["billing"; "accounts"; "invoice"; "invoices"; "payments"]%string
  ++ List.map (fun n => (n, legal)) ["legal"; "privacy"; "abuse"; "security"; "compliance"; "dpo"]%string.

(** The part of an address before the [@] and before a [+]. *)
Definition mailbox_local (mailbox : option string) : string :=
  let address := toLowerCase (default ""%string mailbox) in
  let at_ := indexOf "@" address in
  default ""%string (head (split_on "+" (if 0 <? at_ then str_take (Z.to_nat at_) address else address))).

(** What an object has beside its own members and a lower-case text can name:
    the lookup finds it, and it is no category. *)
Definition inherited (name : string) : bool := bool_decide (name ∈ ["constructor"; "__proto__"]%string).

Definition categoryForMailbox (mailbox : option string) : option ConversationCategory :=
  let local := mailbox_local mailbox in
  match assoc local MAILBOX_CATEGORIES with Some c => Some c | None => if inherited local then None else Some general end.

Definition str_contains (s part : string) : bool := bool_decide (is_Some (str_index part s)).
Definition categoryForTopic (topic : string) : ConversationCategory :=
  let has := existsb (str_contains (toLowerCase topic)) in
  if has ["sales"; "pricing"; "quote"; "licen"; "purchase"; "demo"]%string then sales
  else if has ["billing"; "invoice"; "payment"]%string then billing
  else if has ["legal"; "privacy"; "security"; "abuse"]%string then legal
  else if has ["support"; "help"; "technical"; "problem"; "bug"]%string then support
  else general.

Record ContactReason : Type := mkReason { re_value : string; re_category : ConversationCategory; re_label : string }.
Definition CONTACT_REASONS : list ContactReason :=
  [mkReason "sales" sales "Sales and licensing"; mkReason "reseller" sales "Become a reseller"; mkReason "support" support "Technical support";
   mkReason "billing" billing "Billing and invoices"; mkReason "legal" legal "Privacy, security or legal"; mkReason "general" general "Something else"].

Definition TASK_KINDS : list ConversationKind := [k_signup; k_remote_control].

Record Conversation : Type := mkConversation {
  cv_id : string;
  cv_kind : ConversationKind;
  cv_tenant_id : option string;
  cv_reference : string;
  cv_subject : string;
  cv_contact_email : string;
  cv_contact_name : option string;
  cv_status : ConversationStatus;
  cv_unread : bool;
  cv_created_at : Z;
  cv_updated_at : Z;
  cv_last_message_at : Z;
  cv_resolved_at : option Z;
  cv_resolved_by : option string;
  cv_mailbox : option string;
  cv_category : ConversationCategory;
  cv_deleted_at : option Z
}.

Record AttachmentInfo : Type := mkAttachmentInfo { ai_index : Z; ai_filename : string; ai_contentType : string; ai_size : Z }.

Record ConversationMessage : Type := mkMessage {
  cm_id : string;
  cm_conversation_id : string;
  cm_direction : MessageDirection;
  cm_from_address : option string;
  cm_to_address : option string;
  cm_subject : option string;
  cm_body : string;
  cm_email_message_id : option string;
  cm_author_user_id : option string;
  (** Whether it was sent; none where that is not a question. *)
  cm_delivery : option bool;
  cm_raw_key : option string;
  cm_attachments : list AttachmentInfo;
  cm_created_at : Z
}.

Record OrganizationProfile : Type := mkProfile {
  op_tenant_id : string;
  op_legal_name : option string;
  op_contact_name : string;
  op_contact_email : string;
  op_contact_phone : string;
  op_email_verified_at : option Z;
  op_phone_verified_at : option Z;
  op_phone_verified_by : option string;
  op_address_line1 : string;
  op_address_line2 : option string;
  op_city : string;
  op_region : option string;
  op_postal_code : string;
  op_country : string;
  op_tax_id : option string;
  op_billing_email : option string;
  op_workstation_estimate : option Z;
  op_organization_type : option string;
  op_notes : option string;
  op_created_at : Z;
  op_updated_at : Z;
  op_phone_link : option (string * Z)
}.

Inductive EmailCodePurpose : Type := for_signup | for_contact.
#[export] Instance EmailCodePurpose_eq_dec : EqDecision EmailCodePurpose.
Proof. solve_decision. Defined.
Record EmailCodeRow : Type := mkEmailCode { ec_id : string; ec_purpose : EmailCodePurpose; ec_email : string; ec_code_hash : string; ec_attempts : Z; ec_expires_at : Z; ec_sent_at : Z }.

Record ConvState : Type := mkConv {
  conversations : list Conversation;
  conversation_messages : list ConversationMessage;
  organization_profiles : list OrganizationProfile;
  email_codes : list EmailCodeRow
}.
Definition on_conversations (f : list Conversation -> list Conversation) (s : ConvState) : ConvState := mkConv (f (conversations s)) (conversation_messages s) (organization_profiles s) (email_codes s).
Definition on_messages (f : list ConversationMessage -> list ConversationMessage) (s : ConvState) : ConvState := mkConv (conversations s) (f (conversation_messages s)) (organization_profiles s) (email_codes s).
Definition on_profiles (f : list OrganizationProfile -> list OrganizationProfile) (s : ConvState) : ConvState := mkConv (conversations s) (conversation_messages s) (f (organization_profiles s)) (email_codes s).
Definition on_codes (f : list EmailCodeRow -> list EmailCodeRow) (s : ConvState) : ConvState := mkConv (conversations s) (conversation_messages s) (organization_profiles s) (f (email_codes s)).

Definition MAX_MESSAGE_CHARS : nat := 20 * 1000.

(** ** Tracking ids *)

Definition REFERENCE_ALPHABET : string := "ABCDEFGHJKMNPQRSTVWXYZ23456789".
Definition REFERENCE_PREFIXES : list string := "LK"%string :: List.map ci_prefix CATEGORIES.

Definition reference_char (b : Z) : ascii := default " "%char (String.get (Z.to_nat (b mod 30)) REFERENCE_ALPHABET).
Definition newReference (c : ConversationCategory) (bytes : list Z) : string :=
  ci_prefix (category_info c) +:+ "-" +:+ String.string_of_list_ascii (List.map reference_char bytes).

Definition ascii_upper (c : ascii) : ascii := if is_lower c then chr (code c - 32) else c.
Definition is_reference_char (c : ascii) : bool := is_upper (ascii_upper c) || is_digit c.

(** [(?:LK|REG|...)-[A-Z0-9]{6}], without case: the text that matches at the start. *)
Definition reference_of (prefix s : string) : option (string * string) :=
  let n := (String.length prefix + 7)%nat in
  let text := str_take n s in
  if String.eqb (str_map ascii_upper (str_take (String.length prefix + 1) text)) (prefix +:+ "-") && (String.length text =? n)%nat
     && str_forallb is_reference_char (str_drop (String.length prefix + 1) text)
  then Some (text, str_drop n s) else None.

(** [\[(...)\]] at the start of a text. *)
Definition bracketed : matcher := fun s =>
  match s with
  | String c t =>
      if is_char "[" c then
        head (omap (fun p => match reference_of p t with
                             | Some (text, String d rest) => if is_char "]" d then Some (text, rest) else None
                             | _ => None
                             end) REFERENCE_PREFIXES)
      else None
  | _ => None
  end.

Definition referenceInSubject (subject : string) : option string := str_map ascii_upper <$> head (match_all bracketed subject).

(** The same with the spaces after it, for nothing. *)
Definition bracketed_and_spaces : matcher := fun s => (fun x => (""%string, snd (span is_space (snd x)))) <$> bracketed s.
Definition subjectWithReference (reference subject : string) : string := "[" +:+ reference +:+ "] " +:+ trim (replace_all bracketed_and_spaces subject).

(** ** Conversations *)

Record NewConversation : Type := mkNew {
  nc_kind : ConversationKind;
  nc_tenantId : option string;
  nc_subject : string;
  nc_contactEmail : string;
  nc_contactName : option string;
  nc_mailbox : option string;
  (** None where it is left out; a member that is no category is [Some None]. *)
  nc_category : option (option ConversationCategory);
  nc_unread : bool
}.

Definition category_of (data : NewConversation) : option ConversationCategory :=
  match nc_kind data with
  | k_signup => Some registration
  | k_remote_control => Some remote_control
  | k_support => match nc_category data with Some c => c | None => categoryForMailbox (nc_mailbox data) end
  end.

(** [id]: the identifier drawn; [bytes]: those of the reference. A category that is
    none has no prefix, and reading it throws. *)
Definition createConversation (data : NewConversation) (id : string) (bytes : list Z) (ts : Z) (s : ConvState) : js_result (ConvState * Conversation) :=
  match category_of data with
  | None => Throws "Cannot read properties of undefined (reading 'prefix')"
  | Some category =>
      let c := mkConversation id (nc_kind data) (nc_tenantId data) (newReference category bytes) (str_take 300 (nc_subject data)) (toLowerCase (nc_contactEmail data))
                 (str_take 120 <$> (nc_contactName data ≫= nonempty)) s_open (nc_unread data) ts ts ts None None (toLowerCase <$> (nc_mailbox data ≫= nonempty)) category None in
      if existsb (fun x => String.eqb (cv_id x) id || String.eqb (cv_reference x) (cv_reference c)) (conversations s) then Throws "D1_ERROR: UNIQUE constraint failed"
      else Returns (on_conversations (fun l => l ++ [c]) s, c)
  end.

Definition touch_conversation (dir : MessageDirection) (ts : Z) (c : Conversation) : Conversation :=
  let into := bool_decide (dir = inbound) in
  mkConversation (cv_id c) (cv_kind c) (cv_tenant_id c) (cv_reference c) (cv_subject c) (cv_contact_email c) (cv_contact_name c) (cv_status c) (into || cv_unread c) (cv_created_at c) ts ts
    (cv_resolved_at c) (cv_resolved_by c) (cv_mailbox c) (cv_category c) (if into then None else cv_deleted_at c).

Definition has_id (id : string) (c : Conversation) : bool := String.eqb (cv_id c) id.
Definition update_conversation (id : string) (f : Conversation -> Conversation) : ConvState -> ConvState := on_conversations (update_rows (has_id id) f).

(** A batch: the message and the conversation, or neither. *)
Definition addConversationMessage (m : ConversationMessage) (s : ConvState) : js_result ConvState :=
  let m' := mkMessage (cm_id m) (cm_conversation_id m) (cm_direction m) (cm_from_address m) (cm_to_address m) (cm_subject m) (str_take MAX_MESSAGE_CHARS (cm_body m)) (cm_email_message_id m)
              (cm_author_user_id m) (cm_delivery m) (cm_raw_key m) (cm_attachments m) (cm_created_at m) in
  if existsb (fun x => String.eqb (cm_id x) (cm_id m)) (conversation_messages s) then Throws "D1_ERROR: UNIQUE constraint failed: conversation_messages.id"
  else if negb (existsb (has_id (cm_conversation_id m)) (conversations s)) then Throws "D1_ERROR: FOREIGN KEY constraint failed"
  else Returns (update_conversation (cm_conversation_id m) (touch_conversation (cm_direction m) (cm_created_at m)) (on_messages (fun l => l ++ [m']) s)).

Definition findConversation (s : ConvState) (id : string) : option Conversation := js_find (has_id id) (conversations s).
Definition findConversationByReference (s : ConvState) (reference : string) : option Conversation :=
  js_find (fun c => String.eqb (cv_reference c) (str_map ascii_upper reference)) (conversations s).

(** An identifier without the angle brackets around it. *)
Definition without_brackets (id : string) : string :=
  if startsWith id "<" && endsWith id ">" && (2 <=? String.length id)%nat && negb (str_existsb is_eol_char id) then str_drop_last 1 (str_drop 1 id) else id.

(** The forms of the identifiers, each once, the last ninety. *)
Definition id_forms (ids : list string) : list string :=
  let forms := js_dedup (mjoin (List.map (fun id => [id; without_brackets id]) (List.filter (fun id => negb (String.eqb id "")) ids))) in
  drop (length forms - 90) forms.

(** Newest first; of messages of one second, the first that was written. *)
Definition findConversationByEmailMessageIds (s : ConvState) (ids : list string) : option Conversation :=
  let forms := id_forms ids in
  let found := List.filter (fun m => match cm_email_message_id m with Some i => bool_decide (i ∈ forms) | None => false end) (conversation_messages s) in
  let newest := js_sort (fun a b => cm_created_at b - cm_created_at a) (List.filter (fun m => existsb (has_id (cm_conversation_id m)) (conversations s)) found) in
  head newest ≫= (fun m => findConversation s (cm_conversation_id m)).

Definition findOpenConversationForTenant (s : ConvState) (tenantId : string) (kind : ConversationKind) : option Conversation :=
  head (js_sort (fun a b => cv_created_at b - cv_created_at a)
          (List.filter (fun c => bool_decide (cv_tenant_id c = Some tenantId) && bool_decide (cv_kind c = kind) && bool_decide (cv_status c = s_open)) (conversations s))).

(** ** The boxes *)

Inductive ConversationFilter : Type := f_open | f_closed | f_all | f_unread | f_read | f_deleted.
Definition CONVERSATION_FILTERS : list (string * ConversationFilter) := [("open", f_open); ("closed", f_closed); ("all", f_all); ("unread", f_unread); ("read", f_read); ("deleted", f_deleted)]%string.
Definition still_open (c : Conversation) : bool := bool_decide (cv_status c = s_open).
Definition is_kept (c : Conversation) : bool := negb (is_Some_b (cv_deleted_at c)).
Definition FILTER_CLAUSES (f : ConversationFilter) (c : Conversation) : bool :=
  match f with
  | f_open => still_open c && is_kept c
  | f_closed => negb (still_open c) && is_kept c
  | f_all => is_kept c
  | f_unread => cv_unread c && is_kept c
  | f_read => negb (cv_unread c) && is_kept c
  | f_deleted => negb (is_kept c)
  end.

Record ConversationListRow : Type := mkListRow { lr_conversation : Conversation; lr_message_count : Z; lr_organization_name : option string; lr_organization_subdomain : option string }.

(** Open ones first, the oldest first; then the others, the most recent first. *)
Definition by_work (a b : Conversation) : Z :=
  let rank c := if still_open c then 0 else 1 in
  let key c := if still_open c then cv_created_at c else - cv_last_message_at c in
  if rank a =? rank b then key a - key b else rank a - rank b.

Definition listed_in (kinds : list ConversationKind) (f : ConversationFilter) (mailbox : option string) (category : option ConversationCategory) (c : Conversation) : bool :=
  bool_decide (cv_kind c ∈ kinds) && FILTER_CLAUSES f c
  && match mailbox ≫= nonempty with Some m => bool_decide (cv_mailbox c = Some (toLowerCase m)) | None => true end
  && match category with Some k => bool_decide (cv_category c = k) | None => true end.

Definition list_row (db : D1Database) (s : ConvState) (c : Conversation) : ConversationListRow :=
  let tenant := cv_tenant_id c ≫= findTenantById db in
  mkListRow c (Z.of_nat (length (List.filter (fun m => String.eqb (cm_conversation_id m) (cv_id c)) (conversation_messages s)))) (t_name <$> tenant) (t_subdomain <$> tenant).

Definition listConversations (db : D1Database) (s : ConvState) (kinds : list ConversationKind) (f : ConversationFilter) (limit : Z) (mailbox : option string) (category : option ConversationCategory) : list ConversationListRow :=
  take (Z.to_nat (Z.max 1 (Z.min 500 limit))) (List.map (list_row db s) (js_sort by_work (List.filter (listed_in kinds f mailbox category) (conversations s)))).

Definition count_of (p : Conversation -> bool) (s : ConvState) : Z := Z.of_nat (length (List.filter p (conversations s))).
Record InboxCounts : Type := mkCounts { openTasks : Z; openSupport : Z; unreadSupport : Z; deletedSupport : Z }.
Definition inboxCounts (s : ConvState) : InboxCounts :=
  let mail c := bool_decide (cv_kind c = k_support) in
  mkCounts (count_of (fun c => bool_decide (cv_kind c ∈ TASK_KINDS) && still_open c) s) (count_of (fun c => mail c && still_open c && is_kept c) s)
    (count_of (fun c => mail c && cv_unread c && is_kept c) s) (count_of (fun c => mail c && negb (is_kept c)) s).

Record CategoryCount : Type := mkCategoryCount { cc_id : ConversationCategory; cc_label : string; cc_prefix : string; cc_open : Z; cc_total : Z }.
Definition categoryCounts (s : ConvState) (box : Box) : list CategoryCount :=
  List.map (fun i => let mine c := is_kept c && bool_decide (cv_category c = ci_category i) in
                     mkCategoryCount (ci_category i) (ci_label i) (ci_prefix i) (count_of (fun c => mine c && still_open c) s) (count_of mine s))
    (List.filter (fun i => bool_decide (ci_box i = box)) CATEGORIES).

Record MailboxCount : Type := mkMailboxCount { mc_mailbox : string; mc_open : Z; mc_unread : Z; mc_total : Z }.
Definition mailboxCounts (s : ConvState) : list MailboxCount :=
  let rows := List.filter (fun c => bool_decide (cv_kind c = k_support) && is_kept c) (conversations s) in
  let names := js_sort by_code (js_dedup (omap cv_mailbox rows)) in
  take 200 (List.map (fun m => let mine c := bool_decide (cv_kind c = k_support) && is_kept c && bool_decide (cv_mailbox c = Some m) in
                               mkMailboxCount m (count_of (fun c => mine c && still_open c) s) (count_of (fun c => mine c && cv_unread c) s) (count_of mine s)) names).

(** ** Changing a conversation *)

Definition messages_of (id : string) (m : ConversationMessage) : bool := String.eqb (cm_conversation_id m) id.

(** The state and the keys of the stored originals. *)
Definition deleteConversation (id : string) (s : ConvState) : ConvState * list string :=
  (on_conversations (List.filter (fun c => negb (has_id id c))) (on_messages (List.filter (fun m => negb (messages_of id m))) s),
   omap cm_raw_key (List.filter (messages_of id) (conversation_messages s))).

Definition findConversationMessage (s : ConvState) (conversationId messageId : string) : option ConversationMessage :=
  js_find (fun m => String.eqb (cm_id m) messageId && messages_of conversationId m) (conversation_messages s).
Definition listConversationMessages (s : ConvState) (id : string) : list ConversationMessage :=
  js_sort (fun a b => cm_created_at a - cm_created_at b) (List.filter (messages_of id) (conversation_messages s)).

Definition set_unread (b : bool) (c : Conversation) : Conversation :=
  mkConversation (cv_id c) (cv_kind c) (cv_tenant_id c) (cv_reference c) (cv_subject c) (cv_contact_email c) (cv_contact_name c) (cv_status c) b (cv_created_at c) (cv_updated_at c) (cv_last_message_at c)
    (cv_resolved_at c) (cv_resolved_by c) (cv_mailbox c) (cv_category c) (cv_deleted_at c).
Definition markConversationRead (id : string) (read : bool) : ConvState -> ConvState := update_conversation id (set_unread (negb read)).

Definition set_deleted (deleted : bool) (ts : Z) (c : Conversation) : Conversation :=
  mkConversation (cv_id c) (cv_kind c) (cv_tenant_id c) (cv_reference c) (cv_subject c) (cv_contact_email c) (cv_contact_name c) (cv_status c) (cv_unread c) (cv_created_at c) ts (cv_last_message_at c)
    (cv_resolved_at c) (cv_resolved_by c) (cv_mailbox c) (cv_category c) (if deleted then Some ts else None).
Definition setConversationDeleted (id : string) (deleted : bool) (ts : Z) : ConvState -> ConvState := update_conversation id (set_deleted deleted ts).

Definition set_status (status : ConversationStatus) (userId : option string) (ts : Z) (c : Conversation) : Conversation :=
  let reopened := bool_decide (status = s_open) in
  mkConversation (cv_id c) (cv_kind c) (cv_tenant_id c) (cv_reference c) (cv_subject c) (cv_contact_email c) (cv_contact_name c) status (cv_unread c) (cv_created_at c) ts (cv_last_message_at c)
    (if reopened then None else Some ts) (if reopened then None else userId) (cv_mailbox c) (cv_category c) (cv_deleted_at c).
Definition setConversationStatus (id : string) (status : ConversationStatus) (userId : option string) (ts : Z) : ConvState -> ConvState := update_conversation id (set_status status userId ts).

(** ** Profiles *)

(** A row as the registration fills it in, without what the table adds. *)
Definition ProfileInput : Type := OrganizationProfile.

Definition createOrganizationProfile (tenantId : string) (p : ProfileInput) (phoneVerifiedAt : option Z) (ts : Z) (s : ConvState) : js_result ConvState :=
  if existsb (fun x => String.eqb (op_tenant_id x) tenantId) (organization_profiles s) then Throws "D1_ERROR: UNIQUE constraint failed: organization_profiles.tenant_id"
  else Returns (on_profiles (fun l => l ++ [mkProfile tenantId (op_legal_name p) (op_contact_name p) (toLowerCase (op_contact_email p)) (op_contact_phone p) (op_email_verified_at p) phoneVerifiedAt None
    (op_address_line1 p) (op_address_line2 p) (op_city p) (op_region p) (op_postal_code p) (op_country p) (op_tax_id p) (op_billing_email p) (op_workstation_estimate p) (op_organization_type p)
    (op_notes p) ts ts None]) s).

Definition has_tenant (tenantId : string) (p : OrganizationProfile) : bool := String.eqb (op_tenant_id p) tenantId.
Definition findOrganizationProfile (s : ConvState) (tenantId : string) : option OrganizationProfile := js_find (has_tenant tenantId) (organization_profiles s).

Definition set_phone_verified (userId : string) (ts : Z) (p : OrganizationProfile) : OrganizationProfile :=
  mkProfile (op_tenant_id p) (op_legal_name p) (op_contact_name p) (op_contact_email p) (op_contact_phone p) (op_email_verified_at p) (Some ts) (Some userId) (op_address_line1 p) (op_address_line2 p)
    (op_city p) (op_region p) (op_postal_code p) (op_country p) (op_tax_id p) (op_billing_email p) (op_workstation_estimate p) (op_organization_type p) (op_notes p) (op_created_at p) ts (op_phone_link p).
Definition markPhoneVerified (tenantId userId : string) (ts : Z) : ConvState -> ConvState := on_profiles (update_rows (has_tenant tenantId) (set_phone_verified userId ts)).

(** ** Codes by e-mail *)

Definition EMAIL_CODE_TTL_SECONDS : Z := 600.
Definition EMAIL_CODE_RESEND_SECONDS : Z := 60.
Definition EMAIL_CODE_MAX_ATTEMPTS : Z := 5.

Definition purpose_text (p : EmailCodePurpose) : string := match p with for_signup => "signup" | for_contact => "contact" end.
Definition codeId (p : EmailCodePurpose) (email : string) : string := purpose_text p +:+ ":" +:+ toLowerCase email.
Definition has_code (id : string) (r : EmailCodeRow) : bool := String.eqb (ec_id r) id.

Definition emailCodeCooldown (s : ConvState) (p : EmailCodePurpose) (email : string) (now : Z) : Z :=
  match js_find (has_code (codeId p email)) (email_codes s) with Some r => Z.max 0 (ec_sent_at r + EMAIL_CODE_RESEND_SECONDS - now) | None => 0 end.

Definition discardEmailCode (p : EmailCodePurpose) (email : string) : ConvState -> ConvState := on_codes (List.filter (fun r => negb (has_code (codeId p email) r))).
Definition purgeExpiredEmailCodes (now : Z) : ConvState -> ConvState := on_codes (List.filter (fun r => negb (ec_expires_at r <=? now))).

Inductive CodeVerdict : Type := code_ok | code_wrong | code_expired.

Definition count_attempt (r : EmailCodeRow) : EmailCodeRow := mkEmailCode (ec_id r) (ec_purpose r) (ec_email r) (ec_code_hash r) (ec_attempts r + 1) (ec_expires_at r) (ec_sent_at r).

Section Codes.
Context `{WebCrypto} `{PasskeyCrypto}.

Definition emailCodeHash (pepper : string) (p : EmailCodePurpose) (email code_ : string) : string := oneTimeCodeHash pepper (codeId p email +:+ ":" +:+ code_).

(** [draw]: what [uniformBelow(1_000_000)] gives. *)
Definition issueEmailCode (pepper : string) (p : EmailCodePurpose) (email : string) (draw now : Z) (s : ConvState) : ConvState * string :=
  let code_ := pad6 draw in
  let hash := emailCodeHash pepper p email code_ in
  (on_codes (upsert (has_code (codeId p email))
      (fun r => mkEmailCode (ec_id r) (ec_purpose r) (ec_email r) hash 0 (now + EMAIL_CODE_TTL_SECONDS) now)
      (mkEmailCode (codeId p email) p (toLowerCase email) hash 0 (now + EMAIL_CODE_TTL_SECONDS) now)) s, code_).

Definition checkEmailCode (pepper : string) (p : EmailCodePurpose) (email typed : string) (now : Z) (s : ConvState) : ConvState * CodeVerdict :=
  match js_find (has_code (codeId p email)) (email_codes s) with
  | None => (s, code_expired)
  | Some row =>
      if (ec_expires_at row <=? now) || (EMAIL_CODE_MAX_ATTEMPTS <=? ec_attempts row) then (s, code_expired)
      else if timingSafeEqual (emailCodeHash pepper p email (trim typed)) (ec_code_hash row) then (s, code_ok)
      else if EMAIL_CODE_MAX_ATTEMPTS <=? ec_attempts row + 1 then (discardEmailCode p email s, code_wrong)
      else (on_codes (update_rows (has_code (codeId p email)) count_attempt) s, code_wrong)
  end.
End Codes.

(** ** Subjects carry their tracking id *)


Lemma reference_char_ok b : is_reference_char (reference_char b) = true /\ ascii_upper (reference_char b) = reference_char b.
Proof.
  assert (Hall : forallb (fun n => let c := default " "%char (String.get n REFERENCE_ALPHABET) in is_reference_char c && Ascii.eqb (ascii_upper c) c) (List.seq 0 30) = true) by (vm_compute; reflexivity).
  rewrite forallb_forall in Hall. specialize (Hall (Z.to_nat (b mod 30))). pose proof (Z.mod_pos_bound b 30 ltac:(lia)). assert (Hin : List.In (Z.to_nat (b mod 30)) (List.seq 0 30)) by (apply in_seq; lia).
  apply Hall in Hin. cbv zeta in Hin. apply andb_true_iff in Hin as [H1 H2%Ascii.eqb_eq]. done.
Qed.

(** Six characters after a prefix and a dash, in brackets. *)
Lemma bracketed_reference p x0 x1 x2 x3 x4 x5 rest : p ∈ REFERENCE_PREFIXES -> forallb is_reference_char [x0; x1; x2; x3; x4; x5] = true ->
  bracketed ("[" +:+ (p +:+ "-" +:+ String x0 (String x1 (String x2 (String x3 (String x4 (String x5 "")))))) +:+ "]" +:+ rest) =
  Some (p +:+ "-" +:+ String x0 (String x1 (String x2 (String x3 (String x4 (String x5 ""))))), rest).
Proof.
  intros Hp Hx. unfold forallb in Hx. repeat match goal with H : _ && _ = true |- _ => apply andb_true_iff in H as [? H] end.
  vm_compute in Hp. repeat (apply elem_of_cons in Hp as [->|Hp]); try (by apply elem_of_nil in Hp).
  all: unfold bracketed, reference_of, REFERENCE_PREFIXES; cbn -[is_reference_char]; repeat match goal with H : is_reference_char _ = true |- _ => rewrite H; clear H end; reflexivity.
Qed.

Lemma str_take_past a b n : (String.length a <= n)%nat -> str_take n (a +:+ b) = a +:+ str_take (n - String.length a) b.
Proof. revert n. induction a as [|c a IH]; intros n Hn; [cbn; by rewrite Nat.sub_0_r|]. destruct n; [cbn in Hn; lia|]. cbn in *. rewrite IH by lia. done. Qed.

Lemma match_all_skip m pre s : (forall c t, has_char c pre = true -> m (String c t) = None) -> match_all m (pre +:+ s) = match_all m s.
Proof.
  unfold match_all. induction pre as [|c pre IH]; intros Hm; [done|]. cbn [String.append String.length match_steps]. rewrite Hm by (unfold has_char, is_char; cbn [str_existsb]; by rewrite Ascii.eqb_refl).
  apply IH. intros d t Hd. apply Hm. unfold has_char in *. cbn. by rewrite Hd, orb_true_r.
Qed.

(** The prefix of a category is one of those a subject may carry. *)
Lemma category_prefix c : ci_prefix (category_info c) ∈ REFERENCE_PREFIXES /\ String.length (ci_prefix (category_info c)) = 3%nat /\ str_map ascii_upper (ci_prefix (category_info c)) = ci_prefix (category_info c).
Proof. split_and!; destruct c; try reflexivity; apply list_elem_of_In; cbn; tauto. Qed.

(** A tracking id survives the way through a customer's mailbox: of the subject
    a conversation's e-mail is sent with, whatever it was about before and also
    where it named other ids, cut anywhere after its id, behind any marks an
    answer puts in front ("Re:", "AW: Fwd:", with no bracket), the id that is read
    is that of the conversation. *)
Theorem reference_roundtrip category bytes subject pre n : length bytes = 6%nat -> has_char "[" pre = false -> (String.length pre + 12 <= n)%nat ->
  referenceInSubject (str_take n (pre +:+ subjectWithReference (newReference category bytes) subject)) = Some (newReference category bytes).
Proof.
  intros Hb Hpre Hn. do 6 (destruct bytes as [|? bytes]; [done|]). destruct bytes as [|? ?]; [|done]. unfold referenceInSubject, subjectWithReference. set (rest := (" " +:+ trim (replace_all bracketed_and_spaces subject))%string).
  pose proof (category_prefix category) as (Hp & Hlen & Hup). set (p := ci_prefix (category_info category)) in *. set (ref := newReference _ _).
  assert (Eref : ref = p +:+ "-" +:+ String (reference_char z) (String (reference_char z0) (String (reference_char z1) (String (reference_char z2) (String (reference_char z3) (String (reference_char z4) "")))))) by reflexivity.
  assert (Hl : String.length ref = 10%nat) by (rewrite Eref, str_length_app, Hlen; reflexivity).
  replace (pre +:+ _) with ((pre +:+ "[" +:+ ref +:+ "]") +:+ rest) by (unfold rest; by rewrite !str_app_assoc). rewrite str_take_past by (rewrite !str_length_app, Hl; cbn; lia).
  set (cut := str_take _ rest). rewrite str_app_assoc, match_all_skip.
  - assert (Ebr : bracketed (("[" +:+ ref +:+ "]") +:+ cut) = Some (ref, cut)).
    { rewrite !str_app_assoc, Eref. apply bracketed_reference; [done|]. cbn [forallb]. by rewrite !(proj1 (reference_char_ok _)). }
    unfold match_all. change (("[" +:+ ref +:+ "]") +:+ cut) with (String "[" ((ref +:+ "]") +:+ cut)) in *. cbn [String.length match_steps]. rewrite Ebr. cbn [head fmap option_fmap option_map]. f_equal.
    rewrite Eref, str_map_app, Hup. f_equal. cbn [str_map String.append]. by rewrite !(proj2 (reference_char_ok _)).
  - intros c t Hc. cbn. destruct (is_char "[" c) eqn:E; [|done]. apply Ascii.eqb_eq in E as ->. congruence.
Qed.

Lemma reference_roundtrip_witness :
  referenceInSubject (str_take 40 ("Re: " +:+ subjectWithReference (newReference support [1; 31; 61; 255; 0; 29]) "[LK-abcdef] Printer")) = Some "SUP-BBBSA9"%string.
Proof. apply (reference_roundtrip support [1; 31; 61; 255; 0; 29] "[LK-abcdef] Printer" "Re: " 40); [reflexivity|reflexivity|cbn; lia]. Defined.

(** Taking a tracking id out of a subject can leave another one, which the subject
    then carries beside its own. *)
Example ids_stacked : subjectWithReference "SUP-BBBSA9" "[GEN-[LK-abcdef] ABCDEF] Printer" = "[SUP-BBBSA9] [GEN-ABCDEF] Printer".
Proof. vm_compute. reflexivity. Qed.

(** Mail to an address named like a member every object has is of no category, and
    no conversation is made for it. *)
Example constructor_mailbox :
  createConversation (mkNew k_support None "Hello" "a@example.org" None (Some "constructor@labkiosk.org"%string) (Some (categoryForMailbox (Some "constructor@labkiosk.org"%string))) true) "id" [1; 2; 3; 4; 5; 6] 0 (mkConv [] [] [] [])
  = Throws "Cannot read properties of undefined (reading 'prefix')".
Proof. vm_compute. reflexivity. Qed.
