(* ===== verification/Mail.v ===== *)
(** src/cloudflare-control/src/mail.ts: addresses, who an outgoing message is from,
    and sending it; and the calls that may fail.

    A call to the database, the bucket or the mail service has one of three
    outcomes ([Outcome]), given as a list in the order of the calls; a list that
    has run out stands for calls that succeed. The HTML part of a message and the
    outbox that tests and local development read are not modelled: [me_local] is
    kept, since the checks of the configuration look at it. *)
From S2P Require Import Prelude JsString Regex Scan Db Auth Mime Conversations.

(** ** Calls that may fail *)

(** It is done; nothing happened and it throws; it is done and it throws all the
    same, because the answer was lost. *)
Inductive Outcome : Type := Done | Lost | Unheard.

Definition eff (S A : Type) : Type := list Outcome -> S -> S * list Outcome * js_result A.

#[export] Instance eff_ret {S} : MRet (eff S) := fun A a o s => (s, o, Returns a).
#[export] Instance eff_bind {S} : MBind (eff S) := fun A B f m o s =>
  match m o s with (s', o', Returns a) => f a o' s' | (s', o', Throws e) => (s', o', Throws e) end.

Definition CALL_FAILED : string := "The call failed".
Definition eff_throw {S A} (e : string) : eff S A := fun o s => (s, o, Throws e).
Definition eff_call {S A} (f : S -> js_result (S * A)) : eff S A := fun o s =>
  match o with
  | [] => match f s with Returns (s', a) => (s', [], Returns a) | Throws e => (s, [], Throws e) end
  | Done :: o' => match f s with Returns (s', a) => (s', o', Returns a) | Throws e => (s, o', Throws e) end
  | Lost :: o' => (s, o', Throws CALL_FAILED)
  | Unheard :: o' => (match f s with Returns (s', _) => s' | Throws _ => s end, o', Throws CALL_FAILED)
  end.
(** A call that reads, and one that writes. *)
Definition eff_read {S A} (f : S -> A) : eff S A := eff_call (fun s => Returns (s, f s)).
Definition eff_write {S} (f : S -> S) : eff S unit := eff_call (fun s => Returns (f s, tt)).
(** [try { m } catch { ... }]: the value, or none. *)
Definition eff_try {S A} (m : eff S A) : eff S (option A) := fun o s =>
  match m o s with (s', o', Returns a) => (s', o', Returns (Some a)) | (s', o', Throws _) => (s', o', Returns None) end.

(** ** Addresses *)

Record MailEnv : Type := mkMailEnv { me_local : bool; me_EMAIL : bool; me_MAILER : bool; MAIL_FROM : string; SUPPORT_ADDRESS : string; SUPPORT_FORWARD_TO : string; me_DEFAULT_DOMAIN : string }.

Definition isBareAddress (value : string) : bool :=
  if str_existsb (fun c => is_space c || is_char "<" c || is_char ">" c) value then false
  else
    let at_ := indexOf "@" value in
    if (at_ <? 1) || negb (at_ =? Z.of_nat (last_index "@" value) - 1) then false
    else
      let domain := str_drop (Z.to_nat at_ + 1) value in
      let dot := Z.of_nat (last_index "." domain) - 1 in
      (0 <? dot) && (dot <? Z.of_nat (String.length domain) - 1).

Record MailAddress : Type := mkMailAddress { ma_email : string; ma_name : string }.

Definition parseAddress (value : string) : option MailAddress :=
  let text := trim value in
  if String.eqb text "" || (400 <? String.length text)%nat then None
  else if endsWith text ">" then
    match last_index "<" text with
    | O => None
    | S open =>
        let email := str_drop (open + 1) (str_drop_last 1 text) in
        if negb (isBareAddress email) then None
        else
          let name := trim (str_take open text) in
          let mark := String dquote "" in
          Some (mkMailAddress (toLowerCase email) (if (2 <=? String.length name)%nat && startsWith name mark && endsWith name mark then str_drop_last 1 (str_drop 1 name) else name))
    end
  else if isBareAddress text then Some (mkMailAddress (toLowerCase text) "") else None.

Definition supportAddress (env : MailEnv) : option string := ma_email <$> parseAddress (SUPPORT_ADDRESS env).
Definition senderAddress (env : MailEnv) : option string := ma_email <$> parseAddress (MAIL_FROM env).
Definition address_domain (address : string) : string := str_drop (Z.to_nat (indexOf "@" address + 1)) address.

Definition supportMailbox (env : MailEnv) : option string :=
  match supportAddress env with
  | Some a => Some a
  | None => if me_local env && negb (String.eqb (me_DEFAULT_DOMAIN env) "") then Some ("support@" +:+ toLowerCase (me_DEFAULT_DOMAIN env)) else None
  end.
Definition mailDomain (env : MailEnv) : option string := address_domain <$> supportMailbox env.
Definition sendingDomain (env : MailEnv) : option string := address_domain <$> senderAddress env.

Definition usesLocalOutbox (env : MailEnv) : bool := me_local env && ((negb (me_EMAIL env) && negb (me_MAILER env)) || negb (is_Some_b (parseAddress (MAIL_FROM env)))).

Definition mailConfigProblem (env : MailEnv) : option string :=
  if usesLocalOutbox env then None
  else
    let missing := (if negb (me_EMAIL env) && negb (me_MAILER env) then ["the MAILER service binding (or the EMAIL send_email binding)"%string] else [])
                   ++ (if is_Some_b (parseAddress (MAIL_FROM env)) then [] else ["the MAIL_FROM variable"%string])
                   ++ (if is_Some_b (parseAddress (SUPPORT_ADDRESS env)) then [] else ["the SUPPORT_ADDRESS variable"%string]) in
    match missing with
    | [] => None
    | _ => Some ("Email is not configured on this server: " +:+ join ", " missing +:+ " (docs/DEPLOYMENT.md, " +:+ quote_mark +:+ "Email" +:+ quote_mark +:+ ").")
    end.

(** Who a message is from, and where answers go. *)
Definition envelopeFor (env : MailEnv) (mailbox : option string) : MailAddress * option string :=
  let configured := default (mkMailAddress "noreply@outbox.local" "") (parseAddress (MAIL_FROM env)) in
  let name := default "Lab Kiosk"%string (nonempty (ma_name configured)) in
  match ma_email <$> ((mailbox ≫= nonempty) ≫= parseAddress) with
  | None => (mkMailAddress (ma_email configured) name, supportAddress env)
  | Some box =>
      let local := str_take (Z.to_nat (indexOf "@" box)) box in
      let domain := address_domain (ma_email configured) in
      (mkMailAddress (if String.eqb (address_domain box) domain then box else local +:+ "@" +:+ domain) name, Some box)
  end.

(** A run of line breaks, for a space. *)
Definition line_breaks : matcher := fun s => let '(run, rest) := span is_eol_char s in if String.eqb run "" then None else Some (" "%string, rest).
Definition headerSafe (value : string) : string := trim (replace_all line_breaks value).

(** ** Sending *)

Record OutgoingMail : Type := mkOutgoing {
  om_to : string;
  om_toName : option string;
  om_subject : string;
  om_text : string;
  om_autoReply : bool;
  om_inReplyTo : option string;
  om_references : list string;
  om_mailbox : option string
}.
Record SentMail : Type := mkSent { sm_from : MailAddress; sm_to : string; sm_toName : string; sm_replyTo : option string; sm_subject : string; sm_text : string; sm_headers : list (string * string); sm_messageId : string }.

Definition outgoing_headers (mail : OutgoingMail) : list (string * string) :=
  let references := List.filter (fun r => negb (String.eqb r "")) (List.map headerSafe (om_references mail)) in
  match om_inReplyTo mail ≫= nonempty with Some r => [("In-Reply-To"%string, headerSafe r)] | None => [] end
  ++ match references with [] => [] | _ => [("References"%string, join " " (drop (length references - 20) references))] end
  ++ (if om_autoReply mail then [("Auto-Submitted", "auto-replied"); ("X-Auto-Response-Suppress", "All")]%string else []).

Section Sending.
Context {S : Type} (record_sent : SentMail -> S -> S).

(** [messageId]: what the service that accepts the message names it. The message
    goes to the e-mail Worker, and where that fails and there is another way,
    that way. *)
Definition sendMail (env : MailEnv) (mail : OutgoingMail) (messageId : string) : eff S string :=
  match parseAddress (om_to mail) with
  | None => eff_throw "The recipient address is not valid"
  | Some to_ =>
      let '(from, replyTo) := envelopeFor env (om_mailbox mail) in
      let toName := match om_toName mail ≫= nonempty with Some n => headerSafe n | None => ""%string end in
      let sent := mkSent from (ma_email to_) toName replyTo (str_take 250 (headerSafe (om_subject mail))) (om_text mail) (outgoing_headers mail) messageId in
      let send := eff_call (fun s => Returns (record_sent sent s, messageId)) in
      if usesLocalOutbox env then mret messageId
      else
        match mailConfigProblem env with
        | Some problem => eff_throw problem
        | None =>
            if me_MAILER env then
              r ← eff_try send;
              match r with
              | Some id => mret id
              | None => if me_EMAIL env then send else eff_throw CALL_FAILED
              end
            else send
        end
  end.
End Sending.

(** ** What a program does to the state, whatever fails *)

Section Keeps.
Context {S : Type}.

Lemma eff_bind_inv {A B} (m : eff S A) (f : A -> eff S B) o s s' o' r : (m ≫= f) o s = (s', o', r) ->
  exists s1 o1 r1, m o s = (s1, o1, r1) /\ match r1 with Returns a => f a o1 s1 = (s', o', r) | Throws e => s' = s1 /\ o' = o1 /\ r = Throws e end.
Proof. unfold mbind, eff_bind. destruct (m o s) as [[s1 o1] [a|e]]; intros E; eexists _, _, _; (split; [done|]); [done|by simplify_eq]. Qed.

Lemma eff_bind_returns {A B} (m : eff S A) (f : A -> eff S B) o s s' o' b : (m ≫= f) o s = (s', o', Returns b) -> exists s1 o1 a, m o s = (s1, o1, Returns a) /\ f a o1 s1 = (s', o', Returns b).
Proof. intros (s1 & o1 & [a|e] & E1 & E)%eff_bind_inv; [by exists s1, o1, a|]. by destruct E as (_ & _ & ?). Qed.

Lemma eff_call_inv {A} (f : S -> js_result (S * A)) o s s' o' r : eff_call f o s = (s', o', r) ->
  (s' = s \/ exists a, f s = Returns (s', a)) /\ forall a, r = Returns a -> f s = Returns (s', a).
Proof.
  unfold eff_call. destruct o as [|[] o]; destruct (f s) as [[s1 a]|e]; intros [= <- <- <-]; (split; [first [by left|right; by eexists]|]); intros x [=]; by subst.
Qed.

Lemma eff_read_inv {A} (f : S -> A) o s s' o' r : eff_read f o s = (s', o', r) -> s' = s /\ forall a, r = Returns a -> a = f s.
Proof. intros [[->|[a Ea]] Hr]%eff_call_inv; (split; [done||by injection Ea as <- _|]); intros x Hx; specialize (Hr x Hx); by injection Hr. Qed.

Lemma eff_write_inv (f : S -> S) o s s' o' r : eff_write f o s = (s', o', r) -> (s' = s \/ s' = f s) /\ forall a, r = Returns a -> s' = f s.
Proof. intros [Hs Hr]%eff_call_inv. split; [destruct Hs as [->|[a Ea]]; [by left|right; by injection Ea]|]. intros x Hx. specialize (Hr x Hx). by injection Hr. Qed.

Lemma eff_try_inv {A} (m : eff S A) o s s' o' r : eff_try m o s = (s', o', r) -> exists r1, m o s = (s', o', r1) /\ r = Returns (match r1 with Returns a => Some a | Throws _ => None end).
Proof. unfold eff_try. destruct (m o s) as [[s1 o1] [a|e]]; intros [= <- <- <-]; by eexists. Qed.

(** A preorder that every state along the way is in. *)
Context (R : S -> S -> Prop) `{!PreOrder R}.
Definition keeps {A} (m : eff S A) : Prop := forall o s s' o' r, m o s = (s', o', r) -> R s s'.

Lemma keeps_ret {A} (a : A) : keeps (mret a).
Proof. intros o s s' o' r [= <- _ _]. reflexivity. Qed.
Lemma keeps_throw {A} e : keeps (eff_throw (A := A) e).
Proof. intros o s s' o' r [= <- _ _]. reflexivity. Qed.
Lemma keeps_bind {A B} (m : eff S A) (f : A -> eff S B) : keeps m -> (forall a, keeps (f a)) -> keeps (m ≫= f).
Proof.
  intros Hm Hf o s s' o' r (s1 & o1 & r1 & E & Hr)%eff_bind_inv. apply Hm in E. destruct r1 as [a|e]; [apply Hf in Hr; by transitivity s1|by destruct Hr as (-> & _ & _)].
Qed.
Lemma keeps_call {A} (f : S -> js_result (S * A)) : (forall s s' a, f s = Returns (s', a) -> R s s') -> keeps (eff_call f).
Proof. intros Hf o s s' o' r [[->|[a Ea]] _]%eff_call_inv; [reflexivity|by eapply Hf]. Qed.
Lemma keeps_read {A} (f : S -> A) : keeps (eff_read f).
Proof. apply keeps_call. intros s s' a [= <- _]. reflexivity. Qed.
Lemma keeps_try {A} (m : eff S A) : keeps m -> keeps (eff_try m).
Proof. intros Hm o s s' o' r (r1 & E & _)%eff_try_inv. by eapply Hm. Qed.

Lemma keeps_sendMail (record : SentMail -> S -> S) env mail id : (forall m s, R s (record m s)) -> keeps (sendMail record env mail id).
Proof.
  intros Hr. unfold sendMail. destruct (parseAddress _); [|apply keeps_throw]. destruct (envelopeFor _ _) as [from replyTo]. destruct (usesLocalOutbox env); [apply keeps_ret|]. destruct (mailConfigProblem env); [apply keeps_throw|].
  assert (Hsend : forall x, keeps (eff_call (fun s => Returns (record x s, id)))) by (intros x; apply keeps_call; intros s s' a [= <- _]; apply Hr).
  destruct (me_MAILER env); [|apply Hsend]. apply keeps_bind; [by apply keeps_try|]. intros [i|]; [apply keeps_ret|]. destruct (me_EMAIL env); [apply Hsend|apply keeps_throw].
Qed.
End Keeps.
