(* ===== verification/Mailroom.v ===== *)
(** Mail that arrives: src/cloudflare-control/src/mail_store.ts, the inbound part of
    inbox.ts, sendOnConversation of signup.ts, and the Worker that receives the
    mail of the domain, src/cloudflare-email-routing/src/index.ts.

    Every call to the database, the bucket, the mail service or the other Worker
    may fail (Mail.v). The bucket is a map from keys to objects; the map in memory
    that stands in for it in tests is not modelled. *)
From S2P Require Import Prelude JsString Regex Scan Auth Db Exams WebAuthn Mime TwoFactor Conversations Mail.

Record BucketObject : Type := mkObject { bo_bytes : list Z; bo_from : string; bo_to : string; bo_uploaded : Z }.

(** The tables, the bucket, and what was sent and forwarded. *)
Record Room : Type := mkRoom { rm_conv : ConvState; rm_bucket : list (string * BucketObject); rm_sent : list SentMail; rm_forwarded : list (string * option string) }.
Definition on_conv (f : ConvState -> ConvState) (s : Room) : Room := mkRoom (f (rm_conv s)) (rm_bucket s) (rm_sent s) (rm_forwarded s).
Definition on_bucket (f : list (string * BucketObject) -> list (string * BucketObject)) (s : Room) : Room := mkRoom (rm_conv s) (f (rm_bucket s)) (rm_sent s) (rm_forwarded s).
Definition record_sent (m : SentMail) (s : Room) : Room := mkRoom (rm_conv s) (rm_bucket s) (rm_sent s ++ [m]) (rm_forwarded s).
Definition record_forward (x : string * option string) (s : Room) : Room := mkRoom (rm_conv s) (rm_bucket s) (rm_sent s) (rm_forwarded s ++ [x]).

(** ** The store of originals *)

Definition MAIL_PREFIX : string := "mail/".
Definition PENDING_PREFIX : string := "mail-pending/".
Definition MAIL_ID : re :=
  let hex (n : nat) := RRep n (RClass is_lower_hex) in
  RCat (hex 8%nat) (RCat (RChar "-") (RCat (hex 4%nat) (RCat (RChar "-") (RCat (hex 4%nat) (RCat (RChar "-") (RCat (hex 4%nat) (RCat (RChar "-") (hex 12%nat)))))))).
Definition isMailId (id : string) : bool := re_test MAIL_ID id.
Definition rawMailKey (id : string) : string := MAIL_PREFIX +:+ id +:+ ".eml".
Definition pendingKey (id : string) : string := PENDING_PREFIX +:+ id.

Definition has_key (key : string) (x : string * BucketObject) : bool := String.eqb (fst x) key.
Definition bucket_get (key : string) (s : Room) : option BucketObject := snd <$> js_find (has_key key) (rm_bucket s).
Definition bucket_put (key : string) (obj : BucketObject) : Room -> Room := on_bucket (upsert (has_key key) (fun _ => (key, obj)) (key, obj)).
Definition bucket_delete (keys : list string) : Room -> Room := on_bucket (List.filter (fun x => negb (bool_decide (fst x ∈ keys)))).

Record PendingMail : Type := mkPending { pm_id : string; pm_from : string; pm_to : string; pm_storedAt : Z }.

Definition storeRawMail (key : string) (bytes : list Z) (now : Z) : eff Room unit :=
  if negb (startsWith key MAIL_PREFIX) then eff_throw "Not a mail key" else eff_write (bucket_put key (mkObject bytes "" "" now)).
Definition loadRawMail (key : string) : eff Room (option (list Z)) :=
  if negb (startsWith key MAIL_PREFIX) then mret None else eff_read (fun s => bo_bytes <$> bucket_get key s).

(** A thousand keys at a call. *)
Fixpoint delete_chunks (chunks : list (list string)) : eff Room unit :=
  match chunks with [] => mret tt | keys :: rest => _ ← eff_write (bucket_delete keys); delete_chunks rest end.
Definition deleteRawMail (keys : list string) : eff Room unit :=
  let own := List.filter (fun k => startsWith k MAIL_PREFIX) keys in delete_chunks (chunks (length own) 1000 own).

Definition listPendingMail (limit : nat) : eff Room (list PendingMail) :=
  eff_read (fun s =>
    let listed := take limit (js_sort (fun a b => by_code (fst a) (fst b)) (List.filter (fun x => startsWith (fst x) PENDING_PREFIX) (rm_bucket s))) in
    omap (fun x => let id := str_drop (String.length PENDING_PREFIX) (fst x) in
                   if isMailId id then Some (mkPending id (bo_from (snd x)) (bo_to (snd x)) (bo_uploaded (snd x))) else None) listed).

Definition clearPendingMail (id : string) : eff Room unit :=
  if negb (isMailId id) then eff_throw "Not a mail id" else eff_write (bucket_delete [pendingKey id]).

(** ** Writing on a conversation *)

Record FilingDraws : Type := mkFilingDraws { fd_conversation : string; fd_reference : list Z; fd_outbound : string; fd_provider : string }.

Record SendOptions : Type := mkSendOptions { so_subject : option string; so_authorUserId : option string; so_inReplyTo : option string; so_references : list string; so_autoReply : bool; so_recordedBody : option string }.

Definition add_message (m : ConversationMessage) : eff Room unit := eff_call (fun s => c ← addConversationMessage m (rm_conv s); Returns (on_conv (fun _ => c) s, tt)).

Definition sendOnConversation (env : MailEnv) (c : Conversation) (body : string) (opts : SendOptions) (id providerId : string) (now : Z) : eff Room bool :=
  let subject := subjectWithReference (cv_reference c) (default (cv_subject c) (so_subject opts ≫= nonempty)) in
  sent ← eff_try (sendMail record_sent env (mkOutgoing (cv_contact_email c) (cv_contact_name c) subject body (so_autoReply opts) (so_inReplyTo opts) (so_references opts) (cv_mailbox c)) providerId);
  _ ← add_message (mkMessage id (cv_id c) outbound (match cv_mailbox c ≫= nonempty with Some m => Some m | None => supportAddress env end) (Some (cv_contact_email c)) (Some subject)
        (default body (so_recordedBody opts)) sent (so_authorUserId opts) (Some (is_Some_b sent)) None [] now);
  mret (is_Some_b sent).

(** ** Filing a message *)

Definition MAX_INBOUND_BYTES : Z := 25 * 1024 * 1024.
Definition MAX_PARSED_BYTES : Z := 10 * 1024 * 1024.
Definition MAX_HEADER_BYTES : nat := 256 * 1024.

(** Where the header section ends: after the first line feed before an empty line. *)
Fixpoint header_end (i limit : nat) (raw : list Z) : option nat :=
  match raw with
  | a :: (b :: rest) as tail =>
      if (S i <? limit)%nat then
        if (a =? 10) && ((b =? 10) || ((b =? 13) && match rest with c :: _ => c =? 10 | [] => false end)) then Some (S i) else header_end (S i) limit tail
      else None
  | _ => None
  end.

Definition CRLF : string := String CR (String LF_ "").
Definition headerSectionOnly (raw : list Z) (note_ : string) : list Z :=
  let limit := Nat.min (length raw) MAX_HEADER_BYTES in
  match header_end 0 limit raw with
  | None => take limit raw ++ binaryToBytes (CRLF +:+ CRLF +:+ note_)
  | Some n => take n raw ++ binaryToBytes (CRLF +:+ note_)
  end.

(** [Math.max(1, Math.round(bytes / 1024))]. *)
Definition size_kb (bytes : Z) : string := string_of_int (Z.max 1 ((bytes + 512) / 1024)).

(** [address.slice(address.lastIndexOf("@") + 1).toLowerCase()]. *)
Definition domainOf (address : string) : string := toLowerCase (str_drop (last_index "@" address) address).

Record IncomingMail : Type := mkIncoming { im_id : string; im_from : string; im_to : string; im_parsable : list Z; im_rawKey : option string }.

Definition NO_RECEIPT_SENDER : re :=
  let word (s : string) := RLit s in
  let plural (s : string) := RCat (RLit s) (ROpt (RChar "s")) in
  let dash := ROpt (RChar "-") in
  let names := foldr RAlt RNone [word "mailer-daemon"; word "postmaster"; RCat (word "no") (RCat dash (word "reply")); RCat (word "do") (RCat dash (RCat (word "not") (RCat dash (word "reply"))));
                                 word "donotreply"; plural "bounce"; plural "notification"; plural "alert"; RCat (word "news") (ROpt (word "letter"))] in
  RCat names (ROpt (RCat (RClass (fun c => is_char "+" c || is_char "." c || is_char "_" c || is_char "-" c)) (RStar RDot))).
Definition RECEIPT_GAP_SECONDS : Z := 24 * 3600.
Definition LF2 : string := String LF_ (String LF_ "").

Definition receipt_text (c : Conversation) : string :=
  "Hello" +:+ match cv_contact_name c ≫= nonempty with Some n => " " +:+ n | None => "" end +:+ "," +:+ LF2 +:+
  "Thank you for writing to Lab Kiosk. Your message " +:+ quote_mark +:+ cv_subject c +:+ quote_mark +:+ " has reached us, and a person will read it." +:+ LF2 +:+
  "Your tracking ID is " +:+ cv_reference c +:+ ". Reply to this email to add anything: keeping the tracking ID in the subject keeps it all in one place." +:+ LF2 +:+ "Lab Kiosk".

Definition sendReceipt (env : MailEnv) (c : Conversation) (envelopeFrom : string) (messageId : option string) (d : FilingDraws) (now : Z) : eff Room unit :=
  if is_Some_b (mailConfigProblem env) then mret tt
  else
    let local := default ""%string (head (split_on "@" (cv_contact_email c))) in
    if negb (is_Some_b (parseAddress envelopeFrom)) || re_test NO_RECEIPT_SENDER local then mret tt
    else
      recent ← eff_read (fun s => existsb (fun x => String.eqb (cv_contact_email x) (cv_contact_email c) && negb (String.eqb (cv_id x) (cv_id c)) && (now - RECEIPT_GAP_SECONDS <? cv_created_at x)) (conversations (rm_conv s)));
      if (recent : bool) then mret tt
      else
        _ ← sendOnConversation env c (receipt_text c)
              (mkSendOptions (Some "We received your message"%string) None messageId (match messageId ≫= nonempty with Some m => [m] | None => [] end) true None) (fd_outbound d) (fd_provider d) now;
        mret tt.

Section Filing.
Context `{MailText}.

Definition author_of (mail : IncomingMail) : ParsedAddress := default (mkAddress (toLowerCase (im_from mail)) "") (em_from (parseEmail (im_parsable mail))).

(** Mail from the domain everything is sent from. *)
Definition is_loop (env : MailEnv) (mail : IncomingMail) : bool :=
  match sendingDomain env with
  | Some own => String.eqb (domainOf (pa_address (author_of mail))) own || String.eqb (domainOf (im_from mail)) own
  | None => false
  end.

(** The conversation a message names, where it is its contact who writes. *)
Definition thread_for (parsed : ParsedEmail) (author : ParsedAddress) : eff Room (option Conversation) :=
  byReference ← match referenceInSubject (em_subject parsed) with Some r => eff_read (fun s => findConversationByReference (rm_conv s) r) | None => mret None end;
  found ← match byReference with
          | Some c => mret (Some c)
          | None =>
              let ids := default ""%string (em_inReplyTo parsed) :: em_references parsed in
              match id_forms ids with [] => mret None | _ => eff_read (fun s => findConversationByEmailMessageIds (rm_conv s) ids) end
          end;
  mret (match found with Some c => if String.eqb (cv_contact_email c) (pa_address author) then Some c else None | None => None end).

(** The conversation the message goes to: a known one, opened again where it was
    closed, or a new one in the mailbox it was sent to. *)
Definition conversation_for (known : option Conversation) (mail : IncomingMail) (parsed : ParsedEmail) (sender : ParsedAddress) (d : FilingDraws) (now : Z) : eff Room Conversation :=
  match known with
  | None =>
      let mailbox := ma_email <$> parseAddress (im_to mail) in
      eff_call (fun s => x ← createConversation (mkNew k_support None (default "(no subject)"%string (nonempty (em_subject parsed))) (pa_address sender) (nonempty (pa_name sender)) mailbox
                            (Some (categoryForMailbox mailbox)) true) (fd_conversation d) (fd_reference d) now (rm_conv s);
                         Returns (on_conv (fun _ => fst x) s, snd x))
  | Some c =>
      _ ← (if bool_decide (cv_kind c = k_support) && bool_decide (cv_status c = s_closed) && negb (em_automated parsed)
           then eff_write (on_conv (setConversationStatus (cv_id c) s_open None now)) else mret tt);
      mret c
  end.

Definition inbound_message (mail : IncomingMail) (parsed : ParsedEmail) (sender : ParsedAddress) (c : Conversation) (now : Z) : ConversationMessage :=
  mkMessage (im_id mail) (cv_id c) inbound (Some (pa_address sender)) (Some (toLowerCase (im_to mail))) (Some (em_subject parsed))
    (default "(no text)"%string (nonempty (em_text parsed)) +:+ (if em_automated parsed then LF2 +:+ "[Automatic message]" else "")) (em_messageId parsed) None None (im_rawKey mail)
    (List.map (fun a => mkAttachmentInfo (at_index a) (at_filename a) (at_contentType a) (at_size a)) (em_attachments parsed)) now.

Definition fileIncomingMail (env : MailEnv) (mail : IncomingMail) (d : FilingDraws) (now : Z) : eff Room (option Conversation) :=
  let parsed := parseEmail (im_parsable mail) in
  let author := author_of mail in
  let sender := default author (em_replyTo parsed) in
  if is_loop env mail then mret None
  else
    known ← thread_for parsed author;
    c ← conversation_for known mail parsed sender d now;
    _ ← add_message (inbound_message mail parsed sender c now);
    _ ← (if negb (is_Some_b known) && negb (em_automated parsed) then sendReceipt env c (im_from mail) (em_messageId parsed) d now else mret tt);
    mret (Some c).

Inductive IntakeResult : Type := Filed (reference : string) | Dropped | Missing.

(** The reference of the conversation a message is in. *)
Definition filed_reference (s : ConvState) (id : string) : option string :=
  m ← js_find (fun m => String.eqb (cm_id m) id) (conversation_messages s);
  c ← findConversation s (cm_conversation_id m);
  Some (cv_reference c).

(** What is parsed of a stored original. *)
Definition parsable_of (raw : list Z) : list Z :=
  if MAX_PARSED_BYTES <? Z.of_nat (length raw)
  then headerSectionOnly raw ("(This message is " +:+ size_kb (Z.of_nat (length raw)) +:+ " KB, too large to show here. Download the original to read it.)") else raw.

Definition envelope_text (s : string) : string := str_take 320 (trim s).
Definition stored_mail (id from to_ : string) (raw : list Z) : IncomingMail := mkIncoming id (envelope_text from) (envelope_text to_) (parsable_of raw) (Some (rawMailKey id)).

Definition fileStoredInboundMail (env : MailEnv) (id from to_ : string) (d : FilingDraws) (now : Z) : eff Room IntakeResult :=
  if negb (isMailId id) then eff_throw "Not a mail id"
  else if negb (is_Some_b (parseAddress (envelope_text to_))) then eff_throw "The recipient is not an email address"
  else
    filed ← eff_read (fun s => filed_reference (rm_conv s) id);
    match filed with
    | Some reference => _ ← clearPendingMail id; mret (Filed reference)
    | None =>
        raw ← loadRawMail (rawMailKey id);
        match raw with
        | None => _ ← clearPendingMail id; mret Missing
        | Some raw =>
            c ← fileIncomingMail env (stored_mail id from to_ raw) d now;
            _ ← match c with None => deleteRawMail [rawMailKey id] | Some _ => mret tt end;
            _ ← clearPendingMail id;
            mret (match c with Some c => Filed (cv_reference c) | None => Dropped end)
        end
    end.

(** ** The hourly sweep *)

Definition SWEEP_MIN_AGE_MS : Z := 10 * 60 * 1000.
Definition SWEEP_LIMIT : nat := 50.

Fixpoint sweep_loop (env : MailEnv) (pending : list PendingMail) (draws : string -> FilingDraws) (nowMs now : Z) (handled : Z) : eff Room Z :=
  match pending with
  | [] => mret handled
  | p :: rest =>
      if nowMs - pm_storedAt p <? SWEEP_MIN_AGE_MS then sweep_loop env rest draws nowMs now handled
      else
        r ← eff_try (fileStoredInboundMail env (pm_id p) (pm_from p) (pm_to p) (draws (pm_id p)) now);
        sweep_loop env rest draws nowMs now (match r with Some _ => handled + 1 | None => handled end)
  end.

Definition fileStrandedInboundMail (env : MailEnv) (draws : string -> FilingDraws) (nowMs now : Z) : eff Room Z :=
  pending ← listPendingMail SWEEP_LIMIT;
  sweep_loop env pending draws nowMs now 0.

(** ** Mail routed to the controller *)

Record InboundMessage : Type := mkInbound { in_from : string; in_to : string; in_raw : list Z; in_rawSize : Z; in_headers : list (string * string) }.

Section Direct.
Context `{PasskeyCrypto}.

Definition headersOnly (message : InboundMessage) (note_ : string) : list Z :=
  encode_utf8 (join CRLF (List.map (fun '(name, value) => name +:+ ": " +:+ value) (in_headers message)) +:+ CRLF +:+ CRLF +:+ note_).

Definition direct_parsable (message : InboundMessage) : list Z :=
  if MAX_INBOUND_BYTES <? in_rawSize message then headersOnly message ("(This message was " +:+ size_kb (in_rawSize message) +:+ " KB, too large to receive here.)")
  else if MAX_PARSED_BYTES <? Z.of_nat (length (in_raw message))
  then headersOnly message ("(This message is " +:+ size_kb (in_rawSize message) +:+ " KB, too large to show here. Download the original to read it.)")
  else in_raw message.

Definition handleInboundEmail (env : MailEnv) (message : InboundMessage) (id : string) (d : FilingDraws) (nowMs now : Z) : eff Room (option Conversation) :=
  stored ← (if MAX_INBOUND_BYTES <? in_rawSize message then mret None else eff_try (storeRawMail (rawMailKey id) (in_raw message) nowMs));
  let rawKey := match stored with Some _ => Some (rawMailKey id) | None => None end in
  c ← fileIncomingMail env (mkIncoming id (in_from message) (in_to message) (direct_parsable message) rawKey) d now;
  match c with
  | None => _ ← match rawKey with Some k => deleteRawMail [k] | None => mret tt end; mret None
  | Some c =>
      _ ← (if String.eqb (SUPPORT_FORWARD_TO env) "" then mret None else eff_try (eff_write (record_forward (SUPPORT_FORWARD_TO env, Some (cv_reference c)))));
      mret (Some c)
  end.

(** The controller's own e-mail handler (index.ts). *)
Definition email (env : MailEnv) (message : InboundMessage) (id : string) (d : FilingDraws) (nowMs now : Z) : eff Room unit :=
  r ← eff_try (handleInboundEmail env message id d nowMs now);
  match r with
  | Some _ => mret tt
  | None => if String.eqb (SUPPORT_FORWARD_TO env) "" then eff_throw "Filing an incoming email failed" else eff_write (record_forward (SUPPORT_FORWARD_TO env, None))
  end.
End Direct.

(** ** The Worker that receives the domain's mail *)

(** A call to another Worker: it runs, it never ran, or it ran and its answer was lost. *)
Definition eff_rpc {S A} (m : eff S A) : eff S A := fun o s =>
  match o with
  | [] => m [] s
  | Done :: o' => m o' s
  | Lost :: o' => (s, o', Throws CALL_FAILED)
  | Unheard :: o' => let '(s', o'', _) := m o' s in (s', o'', Throws CALL_FAILED)
  end.

(** The original and its marker; whether both were written. *)
Definition store (id : string) (message : InboundMessage) (nowMs : Z) : eff Room bool :=
  original ← eff_try (eff_write (bucket_put (rawMailKey id) (mkObject (in_raw message) "" "" nowMs)));
  match original with
  | None => mret false
  | Some _ =>
      marker ← eff_try (eff_write (bucket_put (pendingKey id) (mkObject [] (in_from message) (in_to message) nowMs)));
      match marker with
      | Some _ => mret true
      | None => _ ← eff_try (eff_write (bucket_delete [rawMailKey id])); mret false
      end
  end.

(** How the Worker answers the mail server: it takes the message, refuses it as too
    large, or throws, which bounces it. *)
Inductive Accepted : Type := Taken (stored : bool) | TooLarge.

Definition handleEmail (env : MailEnv) (forwardTo : string) (message : InboundMessage) (id : string) (d : FilingDraws) (nowMs now : Z) : eff Room Accepted :=
  let to_ := trim forwardTo in
  if MAX_INBOUND_BYTES <? in_rawSize message then mret TooLarge
  else
    kept ← store id message nowMs;
    if negb kept then
      if String.eqb to_ "" then eff_throw "The incoming message could not be stored and no SUPPORT_FORWARD_TO is set."
      else _ ← eff_write (record_forward (to_, None)); mret (Taken false)
    else
      result ← eff_try (eff_rpc (fileStoredInboundMail env id (in_from message) (in_to message) d now));
      let copy := if String.eqb to_ "" then false
                  else match result with Some Dropped => false | Some _ => true | None => negb (String.eqb (domainOf (in_from message)) (domainOf (in_to message))) end in
      _ ← (if copy then eff_try (eff_write (record_forward (to_, match result with Some (Filed r) => Some r | _ => None end))) else mret None);
      mret (Taken true).
End Filing.

(** ** Filing changes only the tables *)

Section Filed.
Context `{MailText}.

Definition message_ids (s : Room) : list string := List.map cm_id (conversation_messages (rm_conv s)).

(** The messages filing may add: the one that arrived, and its receipt. *)
Definition added_by (id : string) (rawKey : option string) (receipt : string) (m : ConversationMessage) : Prop :=
  (cm_id m = receipt /\ cm_raw_key m = None) \/ (cm_id m = id /\ cm_direction m = inbound /\ cm_raw_key m = rawKey).

Record filing (id : string) (rawKey : option string) (receipt : string) (s s' : Room) : Prop := {
  fi_bucket : rm_bucket s' = rm_bucket s;
  fi_messages : exists extra, conversation_messages (rm_conv s') = conversation_messages (rm_conv s) ++ extra /\ forall m, m ∈ extra -> added_by id rawKey receipt m;
  fi_once : NoDup (message_ids s) -> NoDup (message_ids s')
}.

#[export] Instance filing_preorder id rawKey receipt : PreOrder (filing id rawKey receipt).
Proof.
  split.
  - intros s. split; [done| |done]. exists []. rewrite app_nil_r. split; [done|]. intros m Hm. by apply elem_of_nil in Hm.
  - intros a b c [Hb (x & Hx & Ax) Hn] [Hb' (y & Hy & Ay) Hn']. split; [congruence| |tauto]. exists (x ++ y). rewrite Hy, Hx, app_assoc. split; [done|]. intros m [Hm|Hm]%elem_of_app; [by apply Ax|by apply Ay].
Qed.

Lemma filing_same id rawKey receipt s s' : rm_bucket s' = rm_bucket s -> conversation_messages (rm_conv s') = conversation_messages (rm_conv s) -> filing id rawKey receipt s s'.
Proof. intros Hb Hm. split; [done| |unfold message_ids; by rewrite Hm]. exists []. rewrite app_nil_r, Hm. split; [done|]. intros m Hx. by apply elem_of_nil in Hx. Qed.

Lemma addConversationMessage_ok m s s' : addConversationMessage m s = Returns s' -> exists m', conversation_messages s' = conversation_messages s ++ [m'] /\
  cm_id m' = cm_id m /\ cm_direction m' = cm_direction m /\ cm_raw_key m' = cm_raw_key m /\ cm_conversation_id m' = cm_conversation_id m /\ cm_id m ∉ List.map cm_id (conversation_messages s).
Proof.
  unfold addConversationMessage. destruct (existsb _ (conversation_messages s)) eqn:E; [done|]. destruct (negb _); [done|]. intros <-%Returns_inj. eexists. split; [reflexivity|]. split_and!; [reflexivity..|].
  intros (x & Ex & Hx)%list_elem_of_fmap. assert (existsb (fun y => String.eqb (cm_id y) (cm_id m)) (conversation_messages s) = true); [|congruence]. apply existsb_elem. exists x. by rewrite Ex, String.eqb_refl.
Qed.

Lemma keeps_add_message id rawKey receipt m : added_by id rawKey receipt m -> keeps (filing id rawKey receipt) (add_message m).
Proof.
  intros Hm. apply keeps_call; [apply _|]. intros s s' a. destruct (addConversationMessage m (rm_conv s)) as [c|] eqn:E; cbn; [|done]. intros [= <- _].
  apply addConversationMessage_ok in E as (m' & Hc & Ei & Ed & Ek & _ & Hnew). split; [done| |].
  - exists [m']. split; [done|]. intros x ->%list_elem_of_singleton. unfold added_by in *. by rewrite Ei, Ed, Ek.
  - unfold message_ids. cbn. rewrite Hc, List.map_app. intros Hn. apply list.NoDup_app. split_and!; [done| |apply NoDup_singleton]. intros x Hx ->%list_elem_of_singleton. by rewrite Ei in Hx.
Qed.

Lemma keeps_sendOnConversation id rawKey receipt env c body opts providerId now : keeps (filing id rawKey receipt) (sendOnConversation env c body opts receipt providerId now).
Proof.
  apply keeps_bind; [apply _|apply keeps_try, keeps_sendMail; [apply _|]; intros; by apply filing_same|]. intros sent. apply keeps_bind; [apply _|apply keeps_add_message; by left|]. intros []. apply keeps_ret, _.
Qed.

Lemma keeps_sendReceipt id rawKey env c from messageId d now : keeps (filing id rawKey (fd_outbound d)) (sendReceipt env c from messageId d now).
Proof.
  unfold sendReceipt. destruct (is_Some_b _); [apply keeps_ret, _|]. destruct (_ || _); [apply keeps_ret, _|]. apply keeps_bind; [apply _|apply keeps_read, _|]. intros [|]; [apply keeps_ret, _|].
  apply keeps_bind; [apply _|apply keeps_sendOnConversation|]. intros. apply keeps_ret, _.
Qed.

Lemma keeps_thread_for id rawKey receipt parsed author : keeps (filing id rawKey receipt) (thread_for parsed author).
Proof.
  apply keeps_bind; [apply _|destruct (referenceInSubject _); [apply keeps_read, _|apply keeps_ret, _]|]. intros byReference. apply keeps_bind; [apply _| |intros; apply keeps_ret, _].
  destruct byReference; [apply keeps_ret, _|]. cbv zeta. destruct (id_forms _); [apply keeps_ret, _|apply keeps_read, _].
Qed.

Lemma keeps_conversation_for id rawKey receipt known mail parsed sender d now : keeps (filing id rawKey receipt) (conversation_for known mail parsed sender d now).
Proof.
  destruct known as [c|]; cbn [conversation_for].
  - apply keeps_bind; [apply _| |intros; apply keeps_ret, _]. destruct (_ && _); [|apply keeps_ret, _]. apply keeps_call; [apply _|]. intros s s' a [= <- _]. by apply filing_same.
  - apply keeps_call; [apply _|]. intros s s' a. destruct (createConversation _ _ _ _ _) as [[cs c]|] eqn:E; cbn; [|done]. intros [= <- _].
    apply filing_same; [done|]. unfold createConversation in E. destruct (category_of _); [|done]. destruct (existsb _ _); [done|]. by injection E as <- _.
Qed.

(** Where it answers with a conversation, the message is there; with none, it was a loop. *)
Lemma fileIncomingMail_spec env mail d now o s s' o' r : fileIncomingMail env mail d now o s = (s', o', r) ->
  filing (im_id mail) (im_rawKey mail) (fd_outbound d) s s' /\
  match r with Returns None => is_loop env mail = true /\ s' = s | Returns (Some _) => im_id mail ∈ message_ids s' | Throws _ => True end.
Proof.
  unfold fileIncomingMail. destruct (is_loop env mail) eqn:El; [intros [= <- <- <-]; split; [reflexivity|done]|]. set (receipt := fd_outbound d).
  intros (s1 & o1 & r1 & E1 & E)%eff_bind_inv. apply (keeps_thread_for (im_id mail) (im_rawKey mail) receipt) in E1. destruct r1 as [known|e]; [|by destruct E as (-> & _ & ->)].
  apply eff_bind_inv in E as (s2 & o2 & r2 & E2 & E). apply (keeps_conversation_for (im_id mail) (im_rawKey mail) receipt) in E2. destruct r2 as [c|e]; [|destruct E as (-> & _ & ->); split; [by transitivity s1|done]].
  apply eff_bind_inv in E as (s3 & o3 & r3 & E3 & E). set (m := inbound_message _ _ _ _ _) in E3. assert (Hm : added_by (im_id mail) (im_rawKey mail) receipt m) by (right; done).
  pose proof (keeps_add_message _ _ _ _ Hm _ _ _ _ _ E3) as Ha. destruct r3 as [u|e]; [|destruct E as (-> & _ & ->); split; [transitivity s1; [done|by transitivity s2]|done]].
  apply eff_bind_inv in E as (s4 & o4 & r4 & E4 & E). assert (Hk : filing (im_id mail) (im_rawKey mail) receipt s3 s4).
  { destruct (_ && _); [exact (keeps_sendReceipt _ _ _ _ _ _ _ _ _ _ _ _ _ E4)|]. by injection E4 as <- _ _. }
  assert (Hall : filing (im_id mail) (im_rawKey mail) receipt s s4) by (transitivity s1; [done|]; transitivity s2; [done|]; by transitivity s3).
  destruct r4 as [u'|e]; [|destruct E as (-> & _ & ->); done]. injection E as <- _ <-. split; [done|]. destruct (fi_messages _ _ _ _ _ Hk) as (extra & Hx & _). unfold message_ids. rewrite Hx, List.map_app. apply elem_of_app. left.
  apply eff_call_inv in E3 as [_ E3]. specialize (E3 u eq_refl). destruct (addConversationMessage m (rm_conv s2)) as [cs|] eqn:Ea; [|done]. cbn in E3. injection E3 as <- _.
  apply addConversationMessage_ok in Ea as (m' & Hc & Ei & _). cbn. rewrite Hc, List.map_app. apply elem_of_app. right. cbn. rewrite Ei. by apply list_elem_of_singleton.
Qed.

(** ** The bucket *)

Lemma find_deleted k (keys : list string) l : js_find (has_key k) (List.filter (fun x => negb (bool_decide (fst x ∈ keys))) l) = if bool_decide (k ∈ keys) then None else js_find (has_key k) l.
Proof.
  unfold js_find. induction l as [|x l IH]; [cbn; by case_bool_decide|]. cbn [List.filter List.find]. destruct (has_key k x) eqn:Ek; unfold has_key in Ek.
  - apply String.eqb_eq in Ek. subst k. destruct (bool_decide (fst x ∈ keys)) eqn:Eb; cbn [negb]; [exact IH|]. cbn [List.find]. unfold has_key at 1. by rewrite String.eqb_refl.
  - destruct (bool_decide (fst x ∈ keys)); cbn [negb List.find]; [exact IH|]. unfold has_key at 1. by rewrite Ek.
Qed.

Lemma bucket_get_delete k keys s : bucket_get k (bucket_delete keys s) = if bool_decide (k ∈ keys) then None else bucket_get k s.
Proof. unfold bucket_get, bucket_delete. cbn [rm_bucket on_bucket]. rewrite find_deleted. by destruct (bool_decide _). Qed.

Lemma bucket_get_put k k' obj s : bucket_get k (bucket_put k' obj s) = if String.eqb k k' then Some obj else bucket_get k s.
Proof.
  unfold bucket_get, bucket_put. cbn [rm_bucket on_bucket]. destruct (String.eqb_spec k k') as [->|Hk].
  - rewrite js_find_upsert; [by destruct (js_find _ _)|intros x _; apply String.eqb_refl|apply String.eqb_refl].
  - rewrite js_find_upsert_other; [done| |apply String.eqb_neq; cbn; congruence]. intros x Hx%String.eqb_eq. unfold has_key. cbn. split; apply String.eqb_neq; cbn in *; congruence.
Qed.

Lemma rawMailKey_inj a b : rawMailKey a = rawMailKey b -> a = b.
Proof. unfold rawMailKey. intros E%str_app_inv_l. pose proof (f_equal String.length E) as El. rewrite !str_length_app in El. by apply str_app_inv_len in E as [-> _]; [|lia]. Qed.
Lemma pendingKey_inj a b : pendingKey a = pendingKey b -> a = b.
Proof. apply str_app_inv_l. Qed.
Lemma raw_not_pending a b : rawMailKey a <> pendingKey b.
Proof. discriminate. Qed.

(** ** One call to file a stored message *)

Lemma fi_ids id rawKey receipt s s' x : filing id rawKey receipt s s' -> x ∈ message_ids s -> x ∈ message_ids s'.
Proof. intros [_ (extra & E & _) _] Hx. unfold message_ids in *. rewrite E, List.map_app. apply elem_of_app. by left. Qed.

Lemma filed_reference_elem s id reference : filed_reference (rm_conv s) id = Some reference -> id ∈ message_ids s.
Proof.
  unfold filed_reference. destruct (js_find _ _) as [m|] eqn:E; [|done]. intros _. apply js_find_Some in E as [Hm E%String.eqb_eq]. subst. by apply list_elem_of_fmap_2.
Qed.

Lemma clearPending_inv id o s s' o' r : isMailId id = true -> clearPendingMail id o s = (s', o', r) -> s' = s \/ s' = bucket_delete [pendingKey id] s.
Proof. unfold clearPendingMail. intros ->. cbn [negb]. by intros [? _]%eff_write_inv. Qed.

Lemma deleteRaw_inv id o s s' o' r : deleteRawMail [rawMailKey id] o s = (s', o', r) -> s' = s \/ s' = bucket_delete [rawMailKey id] s.
Proof.
  change (deleteRawMail [rawMailKey id]) with (delete_chunks [[rawMailKey id]]). cbn [delete_chunks]. intros (s1 & o1 & r1 & [E _]%eff_write_inv & Hr)%eff_bind_inv. destruct r1; [by injection Hr as <- _ _|by destruct Hr as (-> & _)].
Qed.

Definition bucket_keys (s : Room) : list string := List.map fst (rm_bucket s).
Lemma bucket_delete_keys keys s : NoDup (bucket_keys s) -> NoDup (bucket_keys (bucket_delete keys s)).
Proof. intros Hn. eapply sublist_NoDup'; [|exact Hn]. apply sublist_map, bfilter_sublist. Qed.
Lemma bucket_put_keys key obj s : NoDup (bucket_keys s) -> NoDup (bucket_keys (bucket_put key obj s)).
Proof.
  unfold bucket_keys, bucket_put, upsert. cbn [rm_bucket on_bucket]. set (l := rm_bucket s). intros Hn. destruct (existsb (has_key key) l) eqn:E.
  - rewrite List.map_map. erewrite List.map_ext; [exact Hn|]. intros x. cbn. destruct (has_key key x) eqn:Ex; [|done]. by apply String.eqb_eq in Ex.
  - rewrite List.map_app. apply list.NoDup_app. split_and!; [done| |apply NoDup_singleton]. intros k (x & -> & Hx)%list_elem_of_fmap Ek%list_elem_of_singleton. cbn in Ek.
    assert (existsb (has_key key) l = true); [|congruence]. apply existsb_elem. exists x. split; [done|]. by apply String.eqb_eq.
Qed.

(** What it does: the tables only gain the message and its receipt; the original
    goes only where the message is a loop; the marker goes only where the message
    is in the tables, is a loop, or has no original. *)
Record stored_call (env : MailEnv) (id from to_ : string) (receipt : string) (s s' : Room) : Prop := {
  sc_messages : exists extra, conversation_messages (rm_conv s') = conversation_messages (rm_conv s) ++ extra /\ forall m, m ∈ extra -> added_by id (Some (rawMailKey id)) receipt m;
  sc_once : NoDup (message_ids s) -> NoDup (message_ids s');
  sc_keys : NoDup (bucket_keys s) -> NoDup (bucket_keys s');
  sc_others : forall k, k <> rawMailKey id -> k <> pendingKey id -> bucket_get k s' = bucket_get k s;
  sc_original : bucket_get (rawMailKey id) s' = bucket_get (rawMailKey id) s \/
    (bucket_get (rawMailKey id) s' = None /\ exists obj, bucket_get (rawMailKey id) s = Some obj /\ is_loop env (stored_mail id from to_ (bo_bytes obj)) = true);
  sc_marker : bucket_get (pendingKey id) s' = bucket_get (pendingKey id) s \/
    (bucket_get (pendingKey id) s' = None /\
     (id ∈ message_ids s' \/ bucket_get (rawMailKey id) s = None \/ exists obj, bucket_get (rawMailKey id) s = Some obj /\ is_loop env (stored_mail id from to_ (bo_bytes obj)) = true))
}.

Lemma stored_call_filing env id from to_ receipt s s' : filing id (Some (rawMailKey id)) receipt s s' -> stored_call env id from to_ receipt s s'.
Proof. intros [Hb Hm Hn]. split; [done|done|unfold bucket_keys; by rewrite Hb|intros k _ _; unfold bucket_get; by rewrite Hb|left; unfold bucket_get; by rewrite Hb|left; unfold bucket_get; by rewrite Hb]. Qed.

(** The marker cleared last, for a reason. *)
Lemma stored_call_clear env id from to_ receipt s s1 s' : stored_call env id from to_ receipt s s1 ->
  (id ∈ message_ids s1 \/ bucket_get (rawMailKey id) s = None \/ exists obj, bucket_get (rawMailKey id) s = Some obj /\ is_loop env (stored_mail id from to_ (bo_bytes obj)) = true) ->
  s' = s1 \/ s' = bucket_delete [pendingKey id] s1 -> stored_call env id from to_ receipt s s'.
Proof.
  intros [Hm Hn Hks Ho Hr Hk] Hwhy [->| ->]; [done|]. split; [done|done|intros ?; by apply bucket_delete_keys, Hks| | |].
  - intros k H1 H2. rewrite bucket_get_delete, bool_decide_eq_false_2; [by apply Ho|]. by intros ?%list_elem_of_singleton.
  - rewrite bucket_get_delete, bool_decide_eq_false_2; [done|]. intros E%list_elem_of_singleton. by apply raw_not_pending in E.
  - right. split; [|done]. rewrite bucket_get_delete, bool_decide_eq_true_2; [done|]. by apply list_elem_of_singleton.
Qed.

Lemma fileStored_spec env id from to_ d now o s s' o' r : fileStoredInboundMail env id from to_ d now o s = (s', o', r) -> stored_call env id from to_ (fd_outbound d) s s'.
Proof.
  assert (Hrefl : stored_call env id from to_ (fd_outbound d) s s) by (apply stored_call_filing; reflexivity).
  unfold fileStoredInboundMail. destruct (isMailId id) eqn:Eid; [|by intros [= <- _ _]]. destruct (negb (is_Some_b _)); [by intros [= <- _ _]|]. cbn [negb].
  intros (s1 & o1 & r1 & E1 & E)%eff_bind_inv. apply eff_read_inv in E1 as [-> E1]. destruct r1 as [filed|e]; [|by destruct E as (-> & _)]. specialize (E1 filed eq_refl). destruct filed as [reference|].
  { apply eff_bind_inv in E as (s2 & o2 & r2 & E2 & E). apply clearPending_inv in E2; [|done]. assert (s' = s2) as -> by (destruct r2; [by injection E as <- _ _|by destruct E as (-> & _)]).
    eapply stored_call_clear; [exact Hrefl| |exact E2]. left. by eapply filed_reference_elem. }
  apply eff_bind_inv in E as (s2 & o2 & r2 & E2 & E). unfold loadRawMail in E2. change (startsWith (rawMailKey id) MAIL_PREFIX) with true in E2. cbn [negb] in E2. apply eff_read_inv in E2 as [-> E2].
  destruct r2 as [raw|e]; [|by destruct E as (-> & _)]. specialize (E2 raw eq_refl). destruct raw as [raw|].
  2:{ apply eff_bind_inv in E as (s3 & o3 & r3 & E3 & E). apply clearPending_inv in E3; [|done]. assert (s' = s3) as -> by (destruct r3; [by injection E as <- _ _|by destruct E as (-> & _)]).
      eapply stored_call_clear; [exact Hrefl| |exact E3]. right. left. by destruct (bucket_get _ s). }
  destruct (bucket_get (rawMailKey id) s) as [obj|] eqn:Eobj; [|done]. injection E2 as ->. apply eff_bind_inv in E as (s3 & o3 & r3 & E3 & E).
  apply fileIncomingMail_spec in E3 as [Hfil Hres]. cbn [im_id im_rawKey stored_mail] in Hfil. pose proof (stored_call_filing env id from to_ _ _ _ Hfil) as Hsc. destruct r3 as [c|e]; [|by destruct E as (-> & _)].
  apply eff_bind_inv in E as (s4 & o4 & r4 & E4 & E). destruct c as [c|].
  - injection E4 as <- <- <-. apply eff_bind_inv in E as (s5 & o5 & r5 & E5 & E). apply clearPending_inv in E5; [|done]. assert (s' = s5) as -> by (destruct r5; [by injection E as <- _ _|by destruct E as (-> & _)]).
    eapply stored_call_clear; [exact Hsc|by left|exact E5].
  - destruct Hres as [Hloop ->]. apply deleteRaw_inv in E4. assert (Hsc4 : stored_call env id from to_ (fd_outbound d) s s4).
    { destruct E4 as [->| ->]; [done|]. split; [by apply Hrefl|by apply Hrefl|by apply bucket_delete_keys| | |left].
      - intros k H1 H2. rewrite bucket_get_delete, bool_decide_eq_false_2; [done|]. by intros ?%list_elem_of_singleton.
      - right. rewrite bucket_get_delete, bool_decide_eq_true_2 by (by apply list_elem_of_singleton). split; [done|]. by exists obj.
      - rewrite bucket_get_delete, bool_decide_eq_false_2; [done|]. intros E'%list_elem_of_singleton. by symmetry in E'; apply raw_not_pending in E'. }
    destruct r4 as [u|e]; [|by destruct E as (-> & _)]. apply eff_bind_inv in E as (s5 & o5 & r5 & E5 & E). apply clearPending_inv in E5; [|done]. assert (s' = s5) as -> by (destruct r5; [by injection E as <- _ _|by destruct E as (-> & _)]).
    eapply stored_call_clear; [exact Hsc4| |exact E5]. right. right. by exists obj.
Qed.
End Filed.

(** ** Every run of the mailroom *)

Section Runs.
Context `{MailText} `{PasskeyCrypto}.
Context (env : MailEnv).

(** A message the Worker took and stored. *)
Record Arrival : Type := mkArrival { ar_id : string; ar_from : string; ar_to : string; ar_raw : list Z }.
Definition arrival_mail (a : Arrival) : IncomingMail := stored_mail (ar_id a) (ar_from a) (ar_to a) (ar_raw a).

Record MailWorld : Type := mkWorld { mw_room : Room; mw_accepted : list Arrival; mw_deleted : list string }.

(** Identifiers of messages that nothing else has. *)
Definition unused (w : MailWorld) (id : string) : Prop :=
  isMailId id = true /\ id ∉ List.map ar_id (mw_accepted w) /\ id ∉ message_ids (mw_room w) /\ bucket_get (rawMailKey id) (mw_room w) = None /\ bucket_get (pendingKey id) (mw_room w) = None.
Definition not_mail (w : MailWorld) (id : string) : Prop := id ∉ List.map ar_id (mw_accepted w).

Definition taken (r : js_result Accepted) (a : Arrival) : list Arrival := match r with Returns (Taken true) => [a] | _ => [] end.

(** A message arrives, is filed by the sweep, or comes to the controller itself; the
    console adds messages of its own, changes conversations, or deletes one for good. *)
Inductive mail_step (w : MailWorld) : MailWorld -> Prop :=
| ms_arrive forwardTo message id d nowMs now o s' o' r : unused w id -> not_mail w (fd_outbound d) -> fd_outbound d <> id ->
    handleEmail env forwardTo message id d nowMs now o (mw_room w) = (s', o', r) ->
    mail_step w (mkWorld s' (mw_accepted w ++ taken r (mkArrival id (in_from message) (in_to message) (in_raw message))) (mw_deleted w))
| ms_sweep draws nowMs now o s' o' r : (forall id, not_mail w (fd_outbound (draws id))) ->
    fileStrandedInboundMail env draws nowMs now o (mw_room w) = (s', o', r) -> mail_step w (mkWorld s' (mw_accepted w) (mw_deleted w))
| ms_direct message id d nowMs now o s' o' r : unused w id -> not_mail w (fd_outbound d) -> email env message id d nowMs now o (mw_room w) = (s', o', r) ->
    mail_step w (mkWorld s' (mw_accepted w) (mw_deleted w))
| ms_console s' extra : rm_bucket s' = rm_bucket (mw_room w) -> conversation_messages (rm_conv s') = conversation_messages (rm_conv (mw_room w)) ++ extra ->
    (forall m, m ∈ extra -> not_mail w (cm_id m) /\ cm_raw_key m = None) -> NoDup (message_ids s') -> mail_step w (mkWorld s' (mw_accepted w) (mw_deleted w))
| ms_delete id : let '(conv', keys) := deleteConversation id (rm_conv (mw_room w)) in
    mail_step w (mkWorld (bucket_delete keys (on_conv (fun _ => conv') (mw_room w))) (mw_accepted w)
                   (mw_deleted w ++ List.map cm_id (List.filter (messages_of id) (conversation_messages (rm_conv (mw_room w)))))).

Inductive mail_run : MailWorld -> Prop :=
| mr_begin s : conversation_messages (rm_conv s) = [] -> rm_bucket s = [] -> mail_run (mkWorld s [] [])
| mr_next w w' : mail_run w -> mail_step w w' -> mail_run w'.

Definition original_kept (s : Room) (a : Arrival) : Prop := exists obj, bucket_get (rawMailKey (ar_id a)) s = Some obj /\ bo_bytes obj = ar_raw a.
Definition is_filed (s : Room) (a : Arrival) : Prop :=
  exists m, m ∈ conversation_messages (rm_conv s) /\ cm_id m = ar_id a /\ cm_direction m = inbound /\ cm_raw_key m = Some (rawMailKey (ar_id a)).
Definition is_waiting (s : Room) (a : Arrival) : Prop := exists obj, bucket_get (pendingKey (ar_id a)) s = Some obj /\ bo_from obj = ar_from a /\ bo_to obj = ar_to a.

(** The message is in the tables, or waits with its marker, and its original is
    kept; or it is a loop; or it was deleted in the console. *)
Definition accounted (w : MailWorld) (a : Arrival) : Prop :=
  (original_kept (mw_room w) a /\ (is_filed (mw_room w) a \/ is_waiting (mw_room w) a)) \/ is_loop env (arrival_mail a) = true \/ ar_id a ∈ mw_deleted w.

Record arrival_ok (s : Room) (deleted : list string) (a : Arrival) : Prop := {
  ao_marker : forall obj, bucket_get (pendingKey (ar_id a)) s = Some obj -> bo_from obj = ar_from a /\ bo_to obj = ar_to a;
  ao_original : forall obj, bucket_get (rawMailKey (ar_id a)) s = Some obj -> bo_bytes obj = ar_raw a;
  ao_message : forall m, m ∈ conversation_messages (rm_conv s) -> cm_id m = ar_id a -> cm_direction m = inbound /\ cm_raw_key m = Some (rawMailKey (ar_id a));
  ao_accounted : accounted (mkWorld s [] deleted) a
}.

Record room_ok (s : Room) : Prop := {
  ro_once : NoDup (message_ids s);
  ro_bucket : NoDup (bucket_keys s);
  ro_keys : forall m k, m ∈ conversation_messages (rm_conv s) -> cm_raw_key m = Some k -> k = rawMailKey (cm_id m)
}.

Definition mail_inv (w : MailWorld) : Prop :=
  room_ok (mw_room w) /\ NoDup (List.map ar_id (mw_accepted w)) /\ forall a, a ∈ mw_accepted w -> arrival_ok (mw_room w) (mw_deleted w) a.

(** A call to file a message, for this arrival or another. *)
Lemma stored_call_room id from to_ receipt s s' : stored_call env id from to_ receipt s s' -> room_ok s -> room_ok s'.
Proof.
  intros [(extra & Hm & Ha) Hn Hks _ _ _] [Ro Rb Rk]. split; [by apply Hn|by apply Hks|]. intros m k. rewrite Hm. intros [Hx|Hx]%elem_of_app Hk; [by apply Rk|]. destruct (Ha m Hx) as [[_ E]|(E & _ & E')]; [congruence|]. rewrite E. congruence.
Qed.

Lemma is_filed_mono s s' a : (exists extra, conversation_messages (rm_conv s') = conversation_messages (rm_conv s) ++ extra) -> is_filed s a -> is_filed s' a.
Proof. intros [extra E] (m & Hm & ?). exists m. split; [rewrite E; apply elem_of_app; by left|done]. Qed.

Lemma stored_call_arrival id from to_ receipt s s' deleted a : stored_call env id from to_ receipt s s' -> receipt <> ar_id a -> (id = ar_id a -> from = ar_from a /\ to_ = ar_to a) ->
  arrival_ok s deleted a -> arrival_ok s' deleted a.
Proof.
  intros Hc Hreceipt Hsame [Am Ao Ae Aa]. destruct Hc as [(extra & Hm & Hadd) _ _ Hothers Hraw Hmark]. assert (Hmono : exists extra, conversation_messages (rm_conv s') = conversation_messages (rm_conv s) ++ extra) by by exists extra.
  assert (Hmsg : forall m, m ∈ conversation_messages (rm_conv s') -> cm_id m = ar_id a -> cm_direction m = inbound /\ cm_raw_key m = Some (rawMailKey (ar_id a))).
  { intros m. rewrite Hm. intros [Hx|Hx]%elem_of_app E; [by apply Ae|]. destruct (Hadd m Hx) as [[E' _]|(E' & Hd & Hk)]; [congruence|]. split; [done|]. rewrite Hk. congruence. }
  destruct (decide (id = ar_id a)) as [->|Hid].
  2:{ assert (Hr : bucket_get (rawMailKey (ar_id a)) s' = bucket_get (rawMailKey (ar_id a)) s) by (apply Hothers; [intros E%rawMailKey_inj; congruence|apply raw_not_pending]).
      assert (Hp : bucket_get (pendingKey (ar_id a)) s' = bucket_get (pendingKey (ar_id a)) s) by (apply Hothers; [intros E; symmetry in E; by apply raw_not_pending in E|intros E%pendingKey_inj; congruence]).
      split; [by rewrite Hp|by rewrite Hr|done|]. destruct Aa as [[Hk Hw]|Hrest]; [left|by right]. cbn [mw_room] in *. unfold original_kept, is_waiting in *. rewrite Hr, Hp. split; [done|]. destruct Hw as [Hf|Hw]; [left; by eapply is_filed_mono|by right]. }
  destruct (Hsame eq_refl) as [-> ->]. split; [|..|done|].
  - intros obj Hobj. apply Am. destruct Hmark as [<-|[E _]]; [done|congruence].
  - intros obj Hobj. apply Ao. destruct Hraw as [<-|[E _]]; [done|congruence].
  - assert (Hloop : (exists obj, bucket_get (rawMailKey (ar_id a)) s = Some obj /\ is_loop env (stored_mail (ar_id a) (ar_from a) (ar_to a) (bo_bytes obj)) = true) -> is_loop env (arrival_mail a) = true).
    { intros (obj & Hobj & Hl). unfold arrival_mail. by rewrite <- (Ao obj Hobj). }
    destruct Aa as [[Hk Hw]|Hrest]; [|by right]. cbn [mw_room] in Hk, Hw. destruct Hraw as [Eraw|[_ Hl]]; [|right; left; by apply Hloop]. destruct Hmark as [Emark|[_ [Hids|[Hnone|Hl]]]]; [| |destruct Hk as (obj & Eo & _); congruence|right; left; by apply Hloop].
    + left. cbn [mw_room]. unfold original_kept, is_waiting in *. rewrite Eraw, Emark. split; [done|]. destruct Hw as [Hf|Hw]; [left; by eapply is_filed_mono|by right].
    + left. cbn [mw_room]. unfold original_kept in *. rewrite Eraw. split; [done|]. left. apply list_elem_of_fmap in Hids as (m & Ei & Hx). destruct (Hmsg m Hx ltac:(done)). by exists m.
Qed.

(** ** What leaves the other messages alone *)

Definition away (id receipt : string) (s s' : Room) : Prop :=
  (room_ok s -> room_ok s') /\ forall deleted a, ar_id a <> id -> ar_id a <> receipt -> arrival_ok s deleted a -> arrival_ok s' deleted a.

#[export] Instance away_preorder id receipt : PreOrder (away id receipt).
Proof. split; [done|]. intros a b c [H1 H2] [H3 H4]. split; [tauto|]. intros deleted x Hi Hr Hx. by apply H4, H2. Qed.

Lemma away_filing id rawKey receipt s s' : rawKey = None \/ rawKey = Some (rawMailKey id) -> filing id rawKey receipt s s' -> away id receipt s s'.
Proof.
  intros Hk [Hb (extra & Hm & Hadd) Hn]. split.
  - intros [Ro Rb Rk]. split; [by apply Hn|unfold bucket_keys; by rewrite Hb|]. intros m k. rewrite Hm. intros [Hx|Hx]%elem_of_app E; [by apply Rk|].
    destruct (Hadd m Hx) as [[_ E']|(Ei & _ & E')]; [congruence|]. rewrite Ei. destruct Hk; congruence.
  - intros deleted a Hi Hr [Am Ao Ae Aa]. unfold bucket_get in *. split; [unfold bucket_get; by rewrite Hb|unfold bucket_get; by rewrite Hb| |].
    + intros m. rewrite Hm. intros [Hx|Hx]%elem_of_app E; [by apply Ae|]. destruct (Hadd m Hx) as [[E' _]|(E' & _)]; congruence.
    + destruct Aa as [[Hk' Hw]|Hrest]; [left|by right]. cbn [mw_room] in *. unfold original_kept, is_waiting, bucket_get in *. rewrite Hb. split; [done|]. destruct Hw as [Hf|Hw]; [left|by right]. eapply is_filed_mono; [by exists extra|done].
Qed.

Lemma away_stored id from to_ receipt s s' : stored_call env id from to_ receipt s s' -> away id receipt s s'.
Proof. intros Hc. split; [by eapply stored_call_room|]. intros deleted a Hi Hr. eapply stored_call_arrival; [exact Hc|congruence|congruence]. Qed.

(** The tables stay, and all objects but those of one message. *)
Lemma away_bucket id receipt s s' : rm_conv s' = rm_conv s -> (NoDup (bucket_keys s) -> NoDup (bucket_keys s')) -> (forall k, k <> rawMailKey id -> k <> pendingKey id -> bucket_get k s' = bucket_get k s) -> away id receipt s s'.
Proof.
  intros Hc Hn Hb. split; [intros [Ro Rb Rk]; split; [unfold message_ids; by rewrite Hc|by apply Hn|by rewrite Hc]|]. intros deleted a Hi Hr [Am Ao Ae Aa].
  assert (Er : bucket_get (rawMailKey (ar_id a)) s' = bucket_get (rawMailKey (ar_id a)) s) by (apply Hb; [intros E%rawMailKey_inj; congruence|apply raw_not_pending]).
  assert (Ep : bucket_get (pendingKey (ar_id a)) s' = bucket_get (pendingKey (ar_id a)) s) by (apply Hb; [intros E; symmetry in E; by apply raw_not_pending in E|intros E%pendingKey_inj; congruence]).
  split; [by rewrite Ep|by rewrite Er|by rewrite Hc|]. destruct Aa as [[Hk Hw]|Hrest]; [left|by right]. cbn [mw_room] in *. unfold original_kept, is_waiting, is_filed in *. by rewrite Er, Ep, Hc.
Qed.

Lemma away_put id receipt key obj s : key = rawMailKey id \/ key = pendingKey id -> away id receipt s (bucket_put key obj s).
Proof. intros Hk. apply away_bucket; [done|apply bucket_put_keys|]. intros k H1 H2. rewrite bucket_get_put. destruct (String.eqb_spec k key); [subst; by destruct Hk|done]. Qed.
Lemma away_delete id receipt s : away id receipt s (bucket_delete [rawMailKey id] s).
Proof. apply away_bucket; [done|apply bucket_delete_keys|]. intros k H1 H2. rewrite bucket_get_delete, bool_decide_eq_false_2; [done|]. by intros ?%list_elem_of_singleton. Qed.
Lemma away_forward id receipt x s : away id receipt s (record_forward x s).
Proof. by apply away_bucket. Qed.

Lemma keeps_write R `{!PreOrder R} (f : Room -> Room) : (forall s, R s (f s)) -> keeps R (eff_write f).
Proof. intros Hf o s s' o' r [[->| ->] _]%eff_write_inv; [reflexivity|apply Hf]. Qed.
Lemma keeps_rpc R `{!PreOrder R} {A} (m : eff Room A) : keeps R m -> keeps R (eff_rpc m).
Proof.
  intros Hm o s s' o' r. unfold eff_rpc. destruct o as [|[] o]; [apply Hm|apply Hm|intros [= <- _ _]; reflexivity|]. destruct (m o s) as [[s1 o1] r1] eqn:E. intros [= <- _ _]. by eapply Hm.
Qed.
Lemma keeps_fileStored id from to_ d now : keeps (away id (fd_outbound d)) (fileStoredInboundMail env id from to_ d now).
Proof. intros o s s' o' r E. eapply away_stored. by eapply fileStored_spec. Qed.

Lemma keeps_deleteRaw id receipt : keeps (away id receipt) (deleteRawMail [rawMailKey id]).
Proof. intros o s s' o' r [->| ->]%deleteRaw_inv; [reflexivity|apply away_delete]. Qed.

Lemma keeps_store id receipt message nowMs : keeps (away id receipt) (store id message nowMs).
Proof.
  apply keeps_bind; [apply _|apply keeps_try, keeps_write; [apply _|]; intros; apply away_put; by left|]. intros [u|]; [|apply keeps_ret, _].
  apply keeps_bind; [apply _|apply keeps_try, keeps_write; [apply _|]; intros; apply away_put; by right|]. intros [v|]; [apply keeps_ret, _|].
  apply keeps_bind; [apply _|apply keeps_try, keeps_write; [apply _|]; intros; apply away_delete|]. intros. apply keeps_ret, _.
Qed.

Lemma keeps_handleEmail forwardTo message id d nowMs now : keeps (away id (fd_outbound d)) (handleEmail env forwardTo message id d nowMs now).
Proof.
  unfold handleEmail. destruct (_ <? _); [apply keeps_ret, _|]. apply keeps_bind; [apply _|apply keeps_store|]. intros kept. destruct (negb kept).
  - destruct (String.eqb _ _); [apply keeps_throw, _|]. apply keeps_bind; [apply _|apply keeps_write; [apply _|]; intros; apply away_forward|intros; apply keeps_ret, _].
  - apply keeps_bind; [apply _|apply keeps_try, keeps_rpc, keeps_fileStored; apply _|]. intros result. apply keeps_bind; [apply _| |intros; apply keeps_ret, _].
    destruct (if String.eqb _ _ then _ else _); [apply keeps_try, keeps_write; [apply _|]; intros; apply away_forward|apply keeps_ret, _].
Qed.

Lemma keeps_email message id d nowMs now : keeps (away id (fd_outbound d)) (email env message id d nowMs now).
Proof.
  apply keeps_bind; [apply _| |intros [?|]; [apply keeps_ret, _|]; destruct (String.eqb _ _); [apply keeps_throw, _|apply keeps_write; [apply _|]; intros; apply away_forward]].
  apply keeps_try. apply keeps_bind; [apply _| |].
  - destruct (_ <? _); [apply keeps_ret, _|]. apply keeps_try. unfold storeRawMail. change (startsWith (rawMailKey id) MAIL_PREFIX) with true. apply keeps_write; [apply _|]. intros. apply away_put. by left.
  - intros stored. set (rawKey := match stored with Some _ => Some (rawMailKey id) | None => None end). assert (Hk : rawKey = None \/ rawKey = Some (rawMailKey id)) by (subst rawKey; destruct stored; [by right|by left]). clearbody rawKey.
    apply keeps_bind; [apply _| |].
    + intros o s s' o' r [Hf _]%fileIncomingMail_spec. eapply away_filing; [exact Hk|exact Hf].
    + intros [c|].
      * apply keeps_bind; [apply _| |intros; apply keeps_ret, _]. destruct (String.eqb _ _); [apply keeps_ret, _|]. apply keeps_try, keeps_write; [apply _|]. intros. apply away_forward.
      * apply keeps_bind; [apply _| |intros; apply keeps_ret, _]. destruct rawKey as [k|]; [|apply keeps_ret, _]. destruct Hk as [|[= ->]]; [done|]. apply keeps_deleteRaw.
Qed.

(** What the sweep works on are markers. *)
Lemma listPending_inv limit o s s' o' pending p : room_ok s -> listPendingMail limit o s = (s', o', Returns pending) -> p ∈ pending ->
  exists obj, bucket_get (pendingKey (pm_id p)) s = Some obj /\ pm_from p = bo_from obj /\ pm_to p = bo_to obj.
Proof.
  intros [_ Rb _] [_ E]%eff_read_inv Hp. specialize (E pending eq_refl). subst pending. apply list_elem_of_omap in Hp as ([k obj] & Hx & Hp). apply list.elem_of_take in Hx as (i & Hx & _). apply list_elem_of_lookup_2, elem_of_js_sort, elem_of_bfilter in Hx as [Hx Hs].
  cbn [fst snd] in *. apply startsWith_iff in Hs as [id ->]. cbv zeta in Hp. rewrite str_drop_app in Hp. destruct (isMailId id); [|done]. apply Some_inj in Hp. subst p. cbn [pm_id pm_from pm_to]. exists obj. split; [|done].
  unfold bucket_get. destruct (js_find_is_Some (has_key (pendingKey id)) (rm_bucket s) (PENDING_PREFIX +:+ id, obj) Hx) as [[k' obj'] E']; [apply String.eqb_refl|]. rewrite E'. cbn.
  apply js_find_Some in E' as [Hx' Ek%String.eqb_eq]. cbn in Ek. subst k'. assert (Heq : (pendingKey id, obj') = (PENDING_PREFIX +:+ id, obj)) by (apply (map_NoDup_inj fst (rm_bucket s)); done). by injection Heq as ->.
Qed.

Lemma sweep_loop_ok draws nowMs now deleted accepted : (forall id, fd_outbound (draws id) ∉ List.map ar_id accepted) -> forall pending handled o s s' o' r,
  (forall p a, p ∈ pending -> a ∈ accepted -> pm_id p = ar_id a -> pm_from p = ar_from a /\ pm_to p = ar_to a) -> sweep_loop env pending draws nowMs now handled o s = (s', o', r) ->
  room_ok s -> (forall a, a ∈ accepted -> arrival_ok s deleted a) -> room_ok s' /\ forall a, a ∈ accepted -> arrival_ok s' deleted a.
Proof.
  intros Hd. induction pending as [|p rest IH]; intros handled o s s' o' r Hp E Hr Ha; cbn [sweep_loop] in E; [by injection E as <- _ _|].
  assert (Hp' : forall q a, q ∈ rest -> a ∈ accepted -> pm_id q = ar_id a -> pm_from q = ar_from a /\ pm_to q = ar_to a) by (intros q a Hq; apply Hp; by right).
  destruct (_ <? _); [by eapply IH|]. apply eff_bind_inv in E as (s1 & o1 & r1 & E1 & E). apply eff_try_inv in E1 as (r2 & E1 & ->). apply fileStored_spec in E1. eapply IH; [exact Hp'|exact E|by eapply stored_call_room|].
  intros a Hin. eapply stored_call_arrival; [exact E1| |intros Ei; apply Hp; [left|done|done]|by apply Ha]. intros Ei. apply (Hd (pm_id p)). rewrite Ei. by apply list_elem_of_fmap_2.
Qed.

(** ** A message that arrives *)

Lemma store_true id message nowMs o s s' o' : store id message nowMs o s = (s', o', Returns true) ->
  s' = bucket_put (pendingKey id) (mkObject [] (in_from message) (in_to message) nowMs) (bucket_put (rawMailKey id) (mkObject (in_raw message) "" "" nowMs) s).
Proof.
  intros (s1 & o1 & r1 & E1 & E)%eff_bind_inv. apply eff_try_inv in E1 as (x1 & E1 & ->). apply eff_write_inv in E1 as [_ E1]. destruct x1 as [u|]; [|discriminate]. rewrite (E1 u eq_refl) in E.
  apply eff_bind_inv in E as (s2 & o2 & r2 & E2 & E). apply eff_try_inv in E2 as (x2 & E2 & ->). apply eff_write_inv in E2 as [_ E2]. destruct x2 as [v|].
  - injection E as <- _. by apply (E2 v).
  - apply eff_bind_inv in E as (s3 & o3 & r3 & _ & E). destruct r3 as [w|e]; [discriminate|by destruct E as (_ & _ & ?)].
Qed.

Definition stays (deleted : list string) (a : Arrival) (s s' : Room) : Prop := arrival_ok s deleted a -> arrival_ok s' deleted a.
#[export] Instance stays_preorder deleted a : PreOrder (stays deleted a).
Proof. unfold stays. split; [intros s Ha; exact Ha|]. intros x y z Hxy Hyz Ha. by apply Hyz, Hxy. Qed.

Lemma stays_forward deleted a x s : stays deleted a s (record_forward x s).
Proof. intros [Am Ao Ae Aa]. by split. Qed.

Lemma arrival_stored deleted id message nowMs s : id ∉ message_ids s ->
  arrival_ok (bucket_put (pendingKey id) (mkObject [] (in_from message) (in_to message) nowMs) (bucket_put (rawMailKey id) (mkObject (in_raw message) "" "" nowMs) s)) deleted
    (mkArrival id (in_from message) (in_to message) (in_raw message)).
Proof.
  intros Hm. set (s1 := bucket_put _ _ _). assert (Ep : bucket_get (pendingKey id) s1 = Some (mkObject [] (in_from message) (in_to message) nowMs)) by (unfold s1; by rewrite bucket_get_put, String.eqb_refl).
  assert (Er : bucket_get (rawMailKey id) s1 = Some (mkObject (in_raw message) "" "" nowMs)).
  { unfold s1. rewrite bucket_get_put, (proj2 (String.eqb_neq _ _)) by apply raw_not_pending. by rewrite bucket_get_put, String.eqb_refl. }
  split; cbn [ar_id ar_from ar_to ar_raw].
  - rewrite Ep. by intros obj [= <-].
  - rewrite Er. by intros obj [= <-].
  - intros m Hx E. destruct Hm. rewrite <- E. by apply list_elem_of_fmap_2.
  - left. split; [eexists; split; [exact Er|done]|right; eexists; split; [exact Ep|done]].
Qed.

Lemma arrives deleted forwardTo message id d nowMs now o s s' o' : id ∉ message_ids s -> fd_outbound d <> id ->
  handleEmail env forwardTo message id d nowMs now o s = (s', o', Returns (Taken true)) -> arrival_ok s' deleted (mkArrival id (in_from message) (in_to message) (in_raw message)).
Proof.
  intros Hm Hd. set (a := mkArrival _ _ _ _). unfold handleEmail. destruct (_ <? _); [discriminate|]. intros (s1 & o1 & r1 & E1 & E)%eff_bind_inv. destruct r1 as [kept|e]; [|by destruct E as (_ & _ & ?)]. destruct kept; cbn [negb] in E.
  2:{ destruct (String.eqb _ _); [discriminate|]. apply eff_bind_inv in E as (s2 & o2 & r2 & _ & E). destruct r2; [discriminate|by destruct E as (_ & _ & ?)]. }
  apply store_true in E1 as ->. assert (Hall : stays deleted a (bucket_put (pendingKey id) (mkObject [] (in_from message) (in_to message) nowMs) (bucket_put (rawMailKey id) (mkObject (in_raw message) "" "" nowMs) s)) s'); [|by apply Hall, arrival_stored].
  revert E. match goal with |- ?m o1 ?s1 = _ -> _ => assert (Hk : keeps (stays deleted a) m); [|intros E; by eapply Hk] end.
  apply keeps_bind; [apply _|apply keeps_try, keeps_rpc; [apply _|]|].
  - intros o2 s2 s2' o2' r2 E2%fileStored_spec. intros Ha. by eapply stored_call_arrival.
  - intros result. apply keeps_bind; [apply _| |intros; apply keeps_ret, _]. destruct (if String.eqb _ _ then _ else _); [|apply keeps_ret, _]. apply keeps_try, keeps_write; [apply _|]. intros. apply stays_forward.
Qed.

Lemma inv_away w s' id receipt : away id receipt (mw_room w) s' -> id ∉ List.map ar_id (mw_accepted w) -> receipt ∉ List.map ar_id (mw_accepted w) -> mail_inv w ->
  room_ok s' /\ forall a, a ∈ mw_accepted w -> arrival_ok s' (mw_deleted w) a.
Proof.
  intros [Hr Ha] Hi Hre (Ho & _ & Hall). split; [by apply Hr|]. intros a Hin. apply Ha; [..|by apply Hall]; intros <-; [apply Hi|apply Hre]; by apply list_elem_of_fmap_2.
Qed.

Lemma inv_console w s' extra : mail_inv w -> rm_bucket s' = rm_bucket (mw_room w) -> conversation_messages (rm_conv s') = conversation_messages (rm_conv (mw_room w)) ++ extra ->
  (forall m, m ∈ extra -> not_mail w (cm_id m) /\ cm_raw_key m = None) -> NoDup (message_ids s') -> mail_inv (mkWorld s' (mw_accepted w) (mw_deleted w)).
Proof.
  intros ([Ro Rb Rk] & Hn & Ha) Hb Hm Hx Hnd. split_and!; cbn [mw_room mw_accepted mw_deleted].
  - split; [done|unfold bucket_keys; by rewrite Hb|]. intros m k. rewrite Hm. intros [Hin|Hin]%elem_of_app Hk; [by apply Rk|]. destruct (Hx m Hin). congruence.
  - done.
  - intros a Hin. destruct (Ha a Hin) as [Am Ao Ae Aa]. unfold bucket_get in *. split; [unfold bucket_get; by rewrite Hb|unfold bucket_get; by rewrite Hb| |].
    + intros m. rewrite Hm. intros [Hi|Hi]%elem_of_app E; [by apply Ae|]. destruct (Hx m Hi) as [Hno _]. destruct Hno. rewrite E. by apply list_elem_of_fmap_2.
    + destruct Aa as [[Hk Hw]|Hrest]; [left|by right]. cbn [mw_room] in *. unfold original_kept, is_waiting, bucket_get in *. rewrite Hb. split; [done|]. destruct Hw as [Hf|Hw]; [left|by right]. eapply is_filed_mono; [by exists extra|done].
Qed.

(** What is deleted takes its originals along, and no others. *)
Lemma inv_delete w id : mail_inv w -> let '(conv', keys) := deleteConversation id (rm_conv (mw_room w)) in
  mail_inv (mkWorld (bucket_delete keys (on_conv (fun _ => conv') (mw_room w))) (mw_accepted w) (mw_deleted w ++ List.map cm_id (List.filter (messages_of id) (conversation_messages (rm_conv (mw_room w)))))).
Proof.
  intros ([Ro Rb Rk] & Hn & Ha). unfold deleteConversation. set (s := mw_room w) in *. set (gone := List.filter (messages_of id) _). set (keys := omap cm_raw_key gone).
  assert (Hkeys : forall k, k ∈ keys -> exists m, m ∈ gone /\ k = rawMailKey (cm_id m)).
  { intros k (m & Hm & Ek)%list_elem_of_omap. exists m. split; [done|]. apply elem_of_bfilter in Hm as [Hm _]. by apply Rk. }
  split_and!; cbn [mw_room mw_accepted mw_deleted].
  - split; [eapply sublist_NoDup'; [apply sublist_map, bfilter_sublist|exact Ro]|by apply bucket_delete_keys|]. intros m k Hm. apply elem_of_bfilter in Hm as [Hm _]. by apply Rk.
  - done.
  - intros a Hin. destruct (Ha a Hin) as [Am Ao Ae Aa]. destruct (decide (ar_id a ∈ List.map cm_id gone)) as [Hg|Hg].
    + split; [intros obj|intros obj| |right; right; cbn; apply elem_of_app; by right]; [rewrite bucket_get_delete; case_bool_decide; [done|apply Am]|rewrite bucket_get_delete; case_bool_decide; [done|apply Ao]|].
      intros m [Hm _]%elem_of_bfilter. by apply Ae.
    + assert (Hr : rawMailKey (ar_id a) ∉ keys) by (intros (m & Hm & E%rawMailKey_inj)%Hkeys; apply Hg; rewrite E; by apply list_elem_of_fmap_2).
      assert (Hp : pendingKey (ar_id a) ∉ keys) by (intros (m & _ & E)%Hkeys; symmetry in E; by apply raw_not_pending in E).
      split; [intros obj|intros obj| |]; [rewrite bucket_get_delete, bool_decide_eq_false_2 by done; by apply Am|rewrite bucket_get_delete, bool_decide_eq_false_2 by done; by apply Ao|intros m [Hm _]%elem_of_bfilter; by apply Ae|].
      destruct Aa as [[Hk Hw]|[Hl|Hd]]; [left|by right; left|right; right; cbn; apply elem_of_app; by left]. cbn [mw_room] in *. unfold original_kept, is_waiting in *. rewrite !bucket_get_delete, !bool_decide_eq_false_2 by done. split; [done|].
      destruct Hw as [(m & Hm & Ei & Hrest)|Hw]; [left|by right]. exists m. split; [|done]. apply elem_of_bfilter. split; [done|]. apply negb_true_iff, not_true_iff_false. intros Hmo. apply Hg. rewrite <- Ei. apply list_elem_of_fmap_2. by apply elem_of_bfilter.
Qed.

Lemma mail_run_inv w : mail_run w -> mail_inv w.
Proof.
  induction 1 as [s Hm Hb|w w' _ Hi Hstep].
  - split_and!; cbn; [|apply NoDup_nil_2|intros a Ha; by apply elem_of_nil in Ha]. split; [unfold message_ids; rewrite Hm; apply NoDup_nil_2|unfold bucket_keys; rewrite Hb; apply NoDup_nil_2|rewrite Hm; intros m k Hx; by apply elem_of_nil in Hx].
  - destruct Hstep as [forwardTo message id d nowMs now o s' o' r Hu Hd Hne E|draws nowMs now o s' o' r Hd E|message id d nowMs now o s' o' r Hu Hd E|s' extra Hb Hm Hx Hn|id].
    + destruct Hu as (Hid & Hacc & Hmsg & _). destruct (inv_away w s' id (fd_outbound d)) as [Hr Ha]; [by eapply keeps_handleEmail|done|done|done|]. destruct Hi as (_ & Hn & _). split_and!; cbn [mw_room mw_accepted mw_deleted]; [done| |].
      * rewrite List.map_app. apply list.NoDup_app. split_and!; [done| |destruct r as [[[]|]|]; cbn; first [apply NoDup_singleton|apply NoDup_nil_2]]. intros x Hx Hx'. destruct r as [[[]|]|]; cbn in Hx'; try (by apply elem_of_nil in Hx'). by apply list_elem_of_singleton in Hx' as ->.
      * intros a [Hin|Hin]%elem_of_app; [by apply Ha|]. destruct r as [[[]|]|]; try (by apply elem_of_nil in Hin). apply list_elem_of_singleton in Hin as ->. by eapply arrives.
    + apply eff_bind_inv in E as (s1 & o1 & r1 & E1 & E). pose proof (proj1 (eff_read_inv _ _ _ _ _ _ E1)) as ->. destruct r1 as [pending|e]; [|destruct E as (-> & _); done]. destruct Hi as (Hro & Hn & Ha).
      destruct (sweep_loop_ok draws nowMs now (mw_deleted w) (mw_accepted w) Hd pending 0 o1 (mw_room w) s' o' r) as [Hr' Ha']; [|exact E|done|done|by split_and!].
      intros p a Hp Hin Ei. destruct (listPending_inv _ _ _ _ _ _ _ Hro E1 Hp) as (obj & Hobj & -> & ->). rewrite Ei in Hobj. by apply (ao_marker _ _ _ (Ha a Hin)).
    + destruct Hu as (Hid & Hacc & _). destruct (inv_away w s' id (fd_outbound d)) as [Hr Ha]; [by eapply keeps_email|done|done|done|]. destruct Hi as (_ & Hn & _). by split_and!.
    + by apply (inv_console w s' extra).
    + exact (inv_delete w id Hi).
Qed.

(** C15. No message is lost and none is filed twice, whatever call fails, and also
    where one took effect although its answer was lost. Of every message the
    Worker took and stored: it is in the tables, once, as an incoming message
    with its original, or it waits with its original and the marker that names
    its envelope; unless it comes from the platform's own domain, or was deleted
    in the console since. *)
Theorem mail_never_lost w a : mail_run w -> a ∈ mw_accepted w ->
  accounted w a /\ (length (List.filter (fun m => String.eqb (cm_id m) (ar_id a)) (conversation_messages (rm_conv (mw_room w)))) <= 1)%nat.
Proof.
  intros Hi%mail_run_inv Ha. destruct Hi as ([Ro Rb Rk] & _ & Hall). split; [exact (ao_accounted _ _ _ (Hall a Ha))|]. set (l := conversation_messages _) in *. unfold message_ids in Ro. fold l in Ro. clearbody l. clear -Ro.
  induction l as [|m l IH]; [cbn; lia|]. cbn [List.map List.filter] in *. apply list.NoDup_cons in Ro as [Hm Ro]. destruct (String.eqb_spec (cm_id m) (ar_id a)) as [E|E]; [|by apply IH]. cbn [length].
  assert (List.filter (fun x => String.eqb (cm_id x) (ar_id a)) l = []) as ->; [|cbn; lia]. apply elem_of_nil_inv. intros x [Hx Ex%String.eqb_eq]%elem_of_bfilter. apply Hm. rewrite E, <- Ex. by apply list_elem_of_fmap_2.
Qed.
End Runs.

(** ** Who may write in a conversation, and that filing ends *)

Section Threads.
Context `{MailText}.

Definition conversation_ids (s : Room) : list string := List.map cv_id (conversations (rm_conv s)).

Lemma findConversation_elem s id c : findConversation s id = Some c -> c ∈ conversations s.
Proof. by intros [? _]%js_find_Some. Qed.

(** The conversation found is one of the table, and its contact is who writes. *)
Lemma thread_for_inv parsed author o s s' o' r : thread_for parsed author o s = (s', o', r) ->
  s' = s /\ (o = [] -> o' = [] /\ exists known, r = Returns known) /\ forall c, r = Returns (Some c) -> c ∈ conversations (rm_conv s) /\ cv_contact_email c = pa_address author.
Proof.
  intros (s1 & o1 & r1 & E1 & E)%eff_bind_inv.
  assert (H1 : s1 = s /\ (o = [] -> o1 = [] /\ exists x, r1 = Returns x) /\ forall c, r1 = Returns (Some c) -> c ∈ conversations (rm_conv s)).
  { destruct (referenceInSubject _) as [ref|]; [|injection E1 as <- <- <-; split_and!; [done|eauto|done]]. pose proof (eff_read_inv _ _ _ _ _ _ E1) as [-> Hr]. split_and!; [done|intros ->; injection E1 as <- <-; eauto|].
    intros c Hc. specialize (Hr _ Hc). symmetry in Hr. by apply js_find_Some in Hr as [? _]. }
  destruct H1 as (-> & Hn & Hc). destruct r1 as [found|e]; [|destruct E as (-> & -> & ->); split_and!; [done| |done]; intros Ho; destruct (Hn Ho) as (_ & x & ?); done].
  apply eff_bind_inv in E as (s2 & o2 & r2 & E2 & E).
  assert (H2 : s2 = s /\ (o1 = [] -> o2 = [] /\ exists x, r2 = Returns x) /\ forall c, r2 = Returns (Some c) -> c ∈ conversations (rm_conv s)).
  { destruct found as [c|]; [injection E2 as <- <- <-; split_and!; [done|eauto|]; intros x [= <-]; by apply Hc|]. cbv zeta in E2. destruct (id_forms _); [injection E2 as <- <- <-; split_and!; [done|eauto|done]|].
    pose proof (eff_read_inv _ _ _ _ _ _ E2) as [-> Hr]. split_and!; [done|intros ->; injection E2 as <- <-; eauto|]. intros c Hx. specialize (Hr _ Hx). symmetry in Hr. unfold findConversationByEmailMessageIds in Hr. cbv zeta in Hr.
    destruct (head _); [|done]. by apply findConversation_elem in Hr. }
  destruct H2 as (-> & Hn2 & Hc2). destruct r2 as [c2|e]; [|destruct E as (-> & -> & ->); split_and!; [done| |done]; intros Ho; destruct (Hn Ho) as (Ho1 & _); destruct (Hn2 Ho1) as (_ & x & ?); done].
  injection E as <- <- <-. split_and!; [done|intros Ho; destruct (Hn Ho) as (Ho1 & _); destruct (Hn2 Ho1) as (-> & _); eauto|]. intros c [= Ec]. destruct c2 as [c2|]; [|done]. destruct (String.eqb_spec (cv_contact_email c2) (pa_address author)); [|done].
  injection Ec as ->. split; [by apply Hc2|done].
Qed.

(** The messages that are written under an identifier and by its filing go to one
    conversation. *)
Definition goes_to (id cid : string) (s s' : Room) : Prop :=
  forall m, m ∈ conversation_messages (rm_conv s') -> m ∈ conversation_messages (rm_conv s) \/ cm_id m <> id \/ cm_conversation_id m = cid.
#[export] Instance goes_to_preorder id cid : PreOrder (goes_to id cid).
Proof. split; [intros s m Hm; by left|]. intros a b c H1 H2 m Hm. destruct (H2 m Hm) as [Hb|?]; [by apply H1|by right]. Qed.

Lemma goes_to_same id cid s s' : conversation_messages (rm_conv s') = conversation_messages (rm_conv s) -> goes_to id cid s s'.
Proof. intros E m. rewrite E. by left. Qed.

Lemma keeps_add_to id cid m : cm_id m <> id \/ cm_conversation_id m = cid -> keeps (goes_to id cid) (add_message m).
Proof.
  intros Hm. apply keeps_call; [apply _|]. intros s s' a. destruct (addConversationMessage m (rm_conv s)) as [c|] eqn:E; cbn; [|done]. intros [= <- _]. apply addConversationMessage_ok in E as (m' & Hc & Ei & _ & _ & Ec & _).
  intros x. cbn. rewrite Hc. intros [Hx| ->%list_elem_of_singleton]%elem_of_app; [by left|right]. by rewrite Ei, Ec.
Qed.

Lemma keeps_receipt_to id cid env c from messageId d now : fd_outbound d <> id -> keeps (goes_to id cid) (sendReceipt env c from messageId d now).
Proof.
  intros Hd. unfold sendReceipt. destruct (is_Some_b _); [apply keeps_ret, _|]. destruct (_ || _); [apply keeps_ret, _|]. apply keeps_bind; [apply _|apply keeps_read, _|]. intros [|]; [apply keeps_ret, _|].
  apply keeps_bind; [apply _| |intros; apply keeps_ret, _]. apply keeps_bind; [apply _|apply keeps_try, keeps_sendMail; [apply _|]; intros; by apply goes_to_same|]. intros sent. apply keeps_bind; [apply _|apply keeps_add_to; by left|]. intros. apply keeps_ret, _.
Qed.

Lemma createConversation_ok data id bytes ts s s' c : createConversation data id bytes ts s = Returns (s', c) ->
  cv_id c = id /\ conversations s' = conversations s ++ [c] /\ conversation_messages s' = conversation_messages s.
Proof. unfold createConversation. destruct (category_of _); [|done]. destruct (existsb _ _); [done|]. by intros [= <- <-]. Qed.

Lemma conversation_for_inv known mail parsed sender d now o s s' o' r : conversation_for known mail parsed sender d now o s = (s', o', r) ->
  conversation_messages (rm_conv s') = conversation_messages (rm_conv s) /\ forall c, r = Returns c -> known = Some c \/ cv_id c = fd_conversation d.
Proof.
  destruct known as [k|]; cbn [conversation_for]; intros E.
  - apply eff_bind_inv in E as (s1 & o1 & r1 & E1 & E). assert (Hs1 : conversation_messages (rm_conv s1) = conversation_messages (rm_conv s)) by (destruct (_ && _); [by apply eff_write_inv in E1 as [[->| ->] _]|by injection E1 as <- _ _]).
    destruct r1 as [u|e]; [injection E as <- <- <-; split; [done|]; intros c [= <-]; by left|by destruct E as (-> & _ & ->)].
  - cbv zeta in E. apply eff_call_inv in E as [Hs Hr]. destruct (createConversation _ _ _ _ _) as [[cs c]|e] eqn:Ec; cbn in Hs, Hr.
    + apply createConversation_ok in Ec as (Hid & _ & Hm). split; [destruct Hs as [->|[a Ea]]; [done|by injection Ea as <- _]|]. intros x Hx. specialize (Hr x Hx). injection Hr as _ <-. by right.
    + split; [by destruct Hs as [->|[a Ea]]|]. intros x Hx. by specialize (Hr x Hx).
Qed.

(** C20. Knowing the tracking id of a conversation, or the identifiers of its
    messages, lets no stranger write in it: a message is added to a conversation
    that was there before only where its author, the address of its From header
    or else of its envelope, is the contact of that conversation, whatever its
    Reply-To, and whatever calls fail. *)
Theorem strangers_stay_out env mail d now o s s' o' r m c : fileIncomingMail env mail d now o s = (s', o', r) -> NoDup (conversation_ids s) -> fd_conversation d ∉ conversation_ids s -> fd_outbound d <> im_id mail ->
  m ∈ conversation_messages (rm_conv s') -> m ∉ conversation_messages (rm_conv s) -> cm_id m = im_id mail -> c ∈ conversations (rm_conv s) -> cm_conversation_id m = cv_id c ->
  cv_contact_email c = pa_address (author_of mail).
Proof.
  intros E Hn Hfresh Hd Hm Hnew Hid Hc Hcid. unfold fileIncomingMail in E. destruct (is_loop env mail); [by injection E as <- _ _|]. apply eff_bind_inv in E as (s1 & o1 & r1 & E1 & E).
  apply thread_for_inv in E1 as (-> & _ & Hthread). destruct r1 as [known|e]; [|by destruct E as (-> & _)]. apply eff_bind_inv in E as (s2 & o2 & r2 & E2 & E).
  apply conversation_for_inv in E2 as [Hms2 Hconv].
  destruct r2 as [c2|e]; [|destruct E as (-> & _); by rewrite Hms2 in Hm]. revert E. match goal with |- ?p o2 s2 = _ -> _ => assert (Hk : keeps (goes_to (im_id mail) (cv_id c2)) p) end.
  { apply keeps_bind; [apply _|apply keeps_add_to; by right|]. intros. apply keeps_bind; [apply _| |intros; apply keeps_ret, _]. destruct (_ && _); [by apply keeps_receipt_to|apply keeps_ret, _]. }
  intros E%Hk. destruct (E m Hm) as [Hb|[Hb|Hb]]; [by rewrite Hms2 in Hb|done|]. destruct (Hconv c2 eq_refl) as [->|Hnewc]; [|destruct Hfresh; rewrite <- Hnewc, <- Hb, Hcid; by apply list_elem_of_fmap_2].
  destruct (Hthread c2 eq_refl) as [Hin <-]. f_equal. apply (map_NoDup_inj cv_id (conversations (rm_conv s))); [done|done|done|congruence].
Qed.

(** ** Filing ends, where nothing fails *)

Lemma add_message_ok m s : cm_id m ∉ message_ids s -> cm_conversation_id m ∈ conversation_ids s ->
  exists s', add_message m [] s = (s', [], Returns tt) /\ rm_bucket s' = rm_bucket s /\ message_ids s' = message_ids s ++ [cm_id m] /\ conversation_ids s' = conversation_ids s.
Proof.
  intros Hm Hc. unfold add_message, eff_call, addConversationMessage. destruct (existsb (fun x => String.eqb (cm_id x) (cm_id m)) _) eqn:Ex.
  { apply existsb_elem in Ex as (x & Hx & E%String.eqb_eq). destruct Hm. rewrite <- E. by apply list_elem_of_fmap_2. }
  assert (existsb (has_id (cm_conversation_id m)) (conversations (rm_conv s)) = true) as ->.
  { apply existsb_elem. apply list_elem_of_fmap in Hc as (c & E & Hc). exists c. split; [done|]. unfold has_id. by rewrite E, String.eqb_refl. }
  eexists. split; [reflexivity|]. unfold message_ids, conversation_ids. cbn [rm_bucket rm_conv on_conv conversation_messages conversations on_messages on_conversations update_conversation]. rewrite List.map_app. split_and!; try done.
  unfold update_rows. rewrite List.map_map. apply List.map_ext. intros c. by destruct (has_id _ c).
Qed.

Lemma sendMail_ends env mail id s : exists s' r, sendMail record_sent env mail id [] s = (s', [], r) /\ rm_conv s' = rm_conv s /\ rm_bucket s' = rm_bucket s.
Proof.
  unfold sendMail. destruct (parseAddress _); [|by eexists _, _]. destruct (envelopeFor _ _). destruct (usesLocalOutbox env); [by eexists _, _|]. destruct (mailConfigProblem env); [by eexists _, _|]. destruct (me_MAILER env); by eexists _, _.
Qed.

Lemma sendReceipt_ends env c from messageId d now s : cv_id c ∈ conversation_ids s -> fd_outbound d ∉ message_ids s ->
  exists s', sendReceipt env c from messageId d now [] s = (s', [], Returns tt) /\ rm_bucket s' = rm_bucket s /\ forall x, x ∈ message_ids s -> x ∈ message_ids s'.
Proof.
  intros Hc Hd. unfold sendReceipt. destruct (is_Some_b _); [by eexists|]. destruct (_ || _); [by eexists|]. unfold mbind, eff_bind, eff_read, eff_call. destruct (existsb _ _); [by eexists|].
  unfold sendOnConversation, mbind, eff_bind, eff_try. match goal with |- context [sendMail record_sent ?e ?m ?i [] s] => destruct (sendMail_ends e m i s) as (s1 & r1 & E1 & Hc1 & Hb1) end. rewrite E1.
  assert (Hd1 : fd_outbound d ∉ message_ids s1) by (unfold message_ids; by rewrite Hc1). assert (Hc1' : cv_id c ∈ conversation_ids s1) by (unfold conversation_ids; by rewrite Hc1).
  assert (Hids : message_ids s1 = message_ids s) by (unfold message_ids; by rewrite Hc1).
  destruct r1 as [id|e]; (match goal with |- context [add_message ?m [] s1] => destruct (add_message_ok m s1) as (s2 & E2 & Hb2 & Hi2 & _); [done|done|] end; rewrite E2; eexists; split; [reflexivity|]; split; [congruence|]; intros x Hx; rewrite Hi2, Hids; apply elem_of_app; by left).
Qed.

(** What a filing needs: identifiers that are not in use, and a mailbox that is not
    named as something every object has (those have no category). *)
Record can_file (mail : IncomingMail) (d : FilingDraws) (s : Room) : Prop := {
  cf_message : im_id mail ∉ message_ids s;
  cf_receipt : fd_outbound d ∉ message_ids s /\ fd_outbound d <> im_id mail;
  cf_mailbox : mailbox_local (ma_email <$> parseAddress (im_to mail)) ∉ ["constructor"; "__proto__"]%string;
  cf_conversation c : c ∈ conversations (rm_conv s) -> cv_id c <> fd_conversation d /\ forall category, cv_reference c <> newReference category (fd_reference d)
}.

Lemma conversation_for_ends known mail parsed sender d now s : can_file mail d s -> (forall c, known = Some c -> c ∈ conversations (rm_conv s)) ->
  exists s' c, conversation_for known mail parsed sender d now [] s = (s', [], Returns c) /\ rm_bucket s' = rm_bucket s /\ message_ids s' = message_ids s /\ cv_id c ∈ conversation_ids s'.
Proof.
  intros [_ _ Hbox Hfree] Hk. assert (exists category, categoryForMailbox (ma_email <$> parseAddress (im_to mail)) = Some category) as [category Ecat].
  { unfold categoryForMailbox. destruct (assoc _ MAILBOX_CATEGORIES) as [c|]; [by exists c|]. unfold inherited. rewrite bool_decide_eq_false_2 by done. by eexists. } destruct known as [k|]; cbn [conversation_for].
  - specialize (Hk k eq_refl). assert (Hin : cv_id k ∈ conversation_ids s) by by apply list_elem_of_fmap_2. destruct (_ && _); [|by eexists _, _]. eexists _, _. split; [reflexivity|]. split_and!; [done..|].
    unfold conversation_ids. cbn. unfold update_rows. rewrite List.map_map. erewrite List.map_ext; [exact Hin|]. intros x. cbn. by destruct (has_id _ x).
  - cbv zeta. unfold eff_call, createConversation, category_of. cbn [nc_kind nc_category]. rewrite Ecat. destruct (existsb _ _) eqn:Ex.
    { apply existsb_elem in Ex as (x & Hx & [E%String.eqb_eq|E%String.eqb_eq]%orb_true_iff); cbn [cv_reference] in E; destruct (Hfree x Hx) as [? Hr]; [by destruct (Hr category)|congruence]. }
    eexists _, _. split; [reflexivity|]. split_and!; [done..|]. unfold conversation_ids. cbn. rewrite List.map_app. apply elem_of_app. right. by apply list_elem_of_singleton.
Qed.

Lemma fileIncomingMail_ends env mail d now s : can_file mail d s -> is_loop env mail = false ->
  exists s' c, fileIncomingMail env mail d now [] s = (s', [], Returns (Some c)) /\ rm_bucket s' = rm_bucket s /\ im_id mail ∈ message_ids s'.
Proof.
  intros Hf Hl. unfold fileIncomingMail. rewrite Hl. unfold mbind at 1, eff_bind at 1. destruct (thread_for _ _ [] s) as [[s1 o1] r1] eqn:E1. apply thread_for_inv in E1 as (-> & Hn & Hthread). destruct (Hn eq_refl) as (-> & known & ->).
  destruct (conversation_for_ends known mail (parseEmail (im_parsable mail)) (default (author_of mail) (em_replyTo (parseEmail (im_parsable mail)))) d now s Hf) as (s2 & c & E2 & Hb2 & Hm2 & Hc2); [intros c ->; by apply Hthread|].
  unfold mbind at 1, eff_bind at 1. rewrite E2. destruct Hf as [Hm [Hr Hne] _ _]. unfold mbind at 1, eff_bind at 1. match goal with |- context [add_message ?m [] s2] => destruct (add_message_ok m s2) as (s3 & E3 & Hb3 & Hm3 & Hc3); [by rewrite Hm2|exact Hc2|] end.
  rewrite E3. unfold mbind at 1, eff_bind at 1. assert (Hin : im_id mail ∈ message_ids s3) by (rewrite Hm3; apply elem_of_app; right; by apply list_elem_of_singleton).
  destruct (_ && _); [|eexists _, _; split; [reflexivity|]; split; [congruence|done]].
  destruct (sendReceipt_ends env c (im_from mail) (em_messageId (parseEmail (im_parsable mail))) d now s3) as (s4 & E4 & Hb4 & Hm4); [by rewrite Hc3| |].
  { rewrite Hm3, Hm2. intros [?|?%list_elem_of_singleton]%elem_of_app; done. }
  rewrite E4. eexists _, _. split; [reflexivity|]. split; [congruence|by apply Hm4].
Qed.

(** C30. A message that waits is filed as soon as nothing fails: with its original in
    the bucket, a recipient that is an address, identifiers that are not in use,
    and a mailbox not called constructor or __proto__ (a conversation begun by mail
    to those is never filed), the call returns; it says the message was dropped, and then it is a loop,
    or names its conversation, and then the message is in the tables; and the
    marker is gone. *)
Theorem filing_completes env id from to_ d now s obj : isMailId id = true -> parseAddress (envelope_text to_) <> None -> bucket_get (rawMailKey id) s = Some obj -> can_file (stored_mail id from to_ (bo_bytes obj)) d s ->
  exists s' r, fileStoredInboundMail env id from to_ d now [] s = (s', [], Returns r) /\ bucket_get (pendingKey id) s' = None /\
    (r = Dropped /\ is_loop env (stored_mail id from to_ (bo_bytes obj)) = true \/ exists reference, r = Filed reference /\ id ∈ message_ids s').
Proof.
  intros Hid Hto Hobj Hf. unfold fileStoredInboundMail. rewrite Hid. cbn [negb]. destruct (parseAddress (envelope_text to_)) eqn:Eto; [|done]. cbn [is_Some_b negb]. unfold mbind at 1, eff_bind at 1, eff_read at 1, eff_call at 1.
  assert (filed_reference (rm_conv s) id = None) as -> by (destruct (filed_reference _ id) eqn:E; [|done]; apply filed_reference_elem in E; by destruct (cf_message _ _ _ Hf)).
  unfold mbind at 1, eff_bind at 1. assert (loadRawMail (rawMailKey id) [] s = (s, [], Returns (Some (bo_bytes obj)))) as -> by (unfold loadRawMail; change (startsWith (rawMailKey id) MAIL_PREFIX) with true; cbn [negb]; unfold eff_read, eff_call; by rewrite Hobj).
  assert (Hclear : forall t, clearPendingMail id [] t = (bucket_delete [pendingKey id] t, [], Returns tt)) by (intros t; unfold clearPendingMail; by rewrite Hid). unfold mbind at 1, eff_bind at 1.
  assert (Hgone : forall t, bucket_get (pendingKey id) (bucket_delete [pendingKey id] t) = None) by (intros t; rewrite bucket_get_delete, bool_decide_eq_true_2; [done|by apply list_elem_of_singleton]).
  destruct (is_loop env (stored_mail id from to_ (bo_bytes obj))) eqn:El.
  - unfold fileIncomingMail. rewrite El. unfold mret, eff_ret. unfold mbind at 1, eff_bind at 1. change (deleteRawMail [rawMailKey id] [] s) with (bucket_delete [rawMailKey id] s, @nil Outcome, Returns tt).
    unfold mbind, eff_bind. rewrite Hclear. eexists _, _. split; [reflexivity|]. split; [apply Hgone|by left].
  - destruct (fileIncomingMail_ends env _ d now s Hf El) as (s1 & c & E1 & _ & Hin). rewrite E1. unfold mbind, eff_bind, mret, eff_ret. rewrite Hclear. eexists _, _. split; [reflexivity|]. split; [apply Hgone|right]. by eexists.
Qed.
End Threads.

(** ** Runs *)

#[local] Existing Instance latin1.
#[local] Existing Instance toy_passkeys.

Definition mail_env : MailEnv := mkMailEnv false true true "Lab Kiosk <noreply@labkiosk.org>" "support@labkiosk.org" "" "labkiosk.org".
Definition mail_raw (subject : string) : list Z := binaryToBytes ("From: Ada <ada@example.org>" +:+ CRLF +:+ "Subject: " +:+ subject +:+ CRLF +:+ CRLF +:+ "The printer is out of paper.").
Definition mail_message (subject : string) : InboundMessage := mkInbound "ada@example.org" "support@labkiosk.org" (mail_raw subject) 80 [].
Definition mail_id (n : Z) : string := "00000000-0000-4000-8000-00000000000" +:+ string_of_int n.
Definition mail_draws (id : string) : FilingDraws := mkFilingDraws ("c" +:+ id) [1; 2; 3; 4; 5; 6] ("o" +:+ id) "<p@labkiosk.org>".
Definition empty_room : Room := mkRoom (mkConv [] [] [] []) [] [] [].

(** The call that creates the conversation fails; an hour later the sweep files the
    message, and the answer to the call that adds it is lost; the next sweep finds it. *)
Definition after_arrival := handleEmail mail_env "" (mail_message "Printer") (mail_id 1) (mail_draws (mail_id 1)) 0 0 [Done; Done; Done; Done; Done; Lost] empty_room.
Definition after_sweep := fileStrandedInboundMail mail_env mail_draws 3600000 3600 [Done; Done; Done; Done; Unheard] (fst (fst after_arrival)).
Definition after_second := fileStrandedInboundMail mail_env mail_draws 7200000 7200 [] (fst (fst after_sweep)).
Definition demo_arrival : Arrival := mkArrival (mail_id 1) "ada@example.org" "support@labkiosk.org" (mail_raw "Printer").

Example mail_run_states :
  bucket_keys (fst (fst after_arrival)) = [rawMailKey (mail_id 1); pendingKey (mail_id 1)] /\ message_ids (fst (fst after_arrival)) = [] /\
  bucket_keys (fst (fst after_sweep)) = [rawMailKey (mail_id 1); pendingKey (mail_id 1)] /\ message_ids (fst (fst after_sweep)) = [mail_id 1] /\
  bucket_keys (fst (fst after_second)) = [rawMailKey (mail_id 1)] /\ message_ids (fst (fst after_second)) = [mail_id 1].
Proof. vm_compute. split_and!; reflexivity. Qed.

Lemma mail_never_lost_witness :
  exists w, mail_run mail_env w /\ mw_accepted w = [demo_arrival] /\ (length (List.filter (fun m => String.eqb (cm_id m) (ar_id demo_arrival)) (conversation_messages (rm_conv (mw_room w)))) <= 1)%nat /\ accounted mail_env w demo_arrival.
Proof.
  pose proof (mr_begin mail_env empty_room eq_refl eq_refl) as R0. set (w0 := mkWorld empty_room [] []) in R0.
  assert (H1 : mail_step mail_env w0 (mkWorld (fst (fst after_arrival)) (mw_accepted w0 ++ taken (snd after_arrival) demo_arrival) [])).
  { apply (ms_arrive mail_env w0 "" (mail_message "Printer") (mail_id 1) (mail_draws (mail_id 1)) 0 0 [Done; Done; Done; Done; Done; Lost] _ (snd (fst after_arrival))); [|apply not_elem_of_nil|discriminate|vm_compute; reflexivity].
    split_and!; [vm_compute; reflexivity|apply not_elem_of_nil|apply not_elem_of_nil|reflexivity|reflexivity]. }
  pose proof (mr_next _ _ _ R0 H1) as R1. set (w1 := mkWorld (fst (fst after_arrival)) _ []) in R1.
  assert (H2 : mail_step mail_env w1 (mkWorld (fst (fst after_sweep)) (mw_accepted w1) [])).
  { apply (ms_sweep mail_env w1 mail_draws 3600000 3600 [Done; Done; Done; Done; Unheard] _ (snd (fst after_sweep)) (snd after_sweep)); [|vm_compute; reflexivity].
    intros id. unfold not_mail. vm_compute. intros Hin. apply list_elem_of_In in Hin as [E|[]]. discriminate. }
  pose proof (mr_next _ _ _ R1 H2) as R2. set (w2 := mkWorld (fst (fst after_sweep)) _ []) in R2. assert (Hacc : mw_accepted w2 = [demo_arrival]) by (vm_compute; reflexivity).
  destruct (mail_never_lost mail_env w2 demo_arrival R2) as [Hok Hone]; [rewrite Hacc; apply elem_of_cons; by left|]. exists w2. by split_and!.
Defined.

(** A conversation, and mail that names it from its contact and from a stranger. *)
Definition one_conversation : Room := fst (fst (fileIncomingMail mail_env (mkIncoming (mail_id 1) "ada@example.org" "support@labkiosk.org" (mail_raw "Printer") None) (mail_draws (mail_id 1)) 0 [] empty_room)).
Definition demo_reference : string := newReference support [1; 2; 3; 4; 5; 6].
Definition answer_mail (from : string) : IncomingMail :=
  mkIncoming (mail_id 2) from "support@labkiosk.org" (binaryToBytes ("From: " +:+ from +:+ CRLF +:+ "Subject: Re: [" +:+ demo_reference +:+ "] Printer" +:+ CRLF +:+ CRLF +:+ "Hello")) None.
Definition second_draws : FilingDraws := mkFilingDraws "c2" [6; 5; 4; 3; 2; 1] "o2" "<q@labkiosk.org>".
Definition answered (from : string) := fileIncomingMail mail_env (answer_mail from) second_draws 100 [] one_conversation.

Lemma strangers_stay_out_witness : exists m c, m ∈ conversation_messages (rm_conv (fst (fst (answered "ada@example.org")))) /\ c ∈ conversations (rm_conv one_conversation) /\ cm_conversation_id m = cv_id c /\ cv_contact_email c = "ada@example.org".
Proof.
  destruct (conversations (rm_conv one_conversation)) as [|c [|? ?]] eqn:Ec; [vm_compute in Ec; discriminate| |vm_compute in Ec; discriminate].
  destruct (list.last (conversation_messages (rm_conv (fst (fst (answered "ada@example.org")))))) as [m|] eqn:Em; [|vm_compute in Em; discriminate].
  assert (Hm : m ∈ conversation_messages (rm_conv (fst (fst (answered "ada@example.org"))))) by (apply last_Some_elem_of; exact Em).
  assert (Hc : c ∈ [c]) by (apply elem_of_cons; by left). assert (Hcid : cm_conversation_id m = cv_id c) by (vm_compute in Em, Ec; injection Em as <-; injection Ec as <-; reflexivity).
  set (x := answered "ada@example.org") in *. assert (E : fileIncomingMail mail_env (answer_mail "ada@example.org") second_draws 100 [] one_conversation = (fst (fst x), snd (fst x), snd x)) by (vm_compute; reflexivity).
  exists m, c. split; [exact Hm|]. split; [exact Hc|]. split; [exact Hcid|].
  transitivity (pa_address (author_of (answer_mail "ada@example.org"))); [apply (strangers_stay_out _ _ _ _ _ _ _ _ _ m c E)|]; try exact Hm; try exact Hcid.
  - vm_compute. apply NoDup_singleton.
  - vm_compute. intros Hin. apply list_elem_of_In in Hin as [Ed|[]]. discriminate.
  - discriminate.
  - intros Hin. apply list_elem_of_In in Hin. vm_compute in Em. injection Em as <-. vm_compute in Hin. destruct Hin as [Ed|[Ed|[]]]; discriminate.
  - vm_compute in Em. injection Em as <-. vm_compute. reflexivity.
  - rewrite Ec. exact Hc.
  - vm_compute. reflexivity.
Defined.

(** The stranger's message starts a conversation of its own. *)
Example stranger_apart : List.map cv_contact_email (conversations (rm_conv (fst (fst (answered "eve@example.net"))))) = ["ada@example.org"; "eve@example.net"]%string.
Proof. vm_compute. reflexivity. Qed.

(** A message that waits, to a mailbox of the platform. *)
Definition waiting_room (to_ : string) (ids : list string) : Room :=
  foldl (fun s id => bucket_put (pendingKey id) (mkObject [] "ada@example.org" to_ 0) (bucket_put (rawMailKey id) (mkObject (mail_raw "Printer") "" "" 0) s)) empty_room ids.

Lemma filing_completes_witness :
  exists s' r, fileStoredInboundMail mail_env (mail_id 1) "ada@example.org" "help@labkiosk.org" (mail_draws (mail_id 1)) 0 [] (waiting_room "help@labkiosk.org" [mail_id 1]) = (s', [], Returns r) /\
    bucket_get (pendingKey (mail_id 1)) s' = None /\ r = Filed (newReference support [1; 2; 3; 4; 5; 6]).
Proof.
  set (s := waiting_room _ _). destruct (filing_completes mail_env (mail_id 1) "ada@example.org" "help@labkiosk.org" (mail_draws (mail_id 1)) 0 s (mkObject (mail_raw "Printer") "" "" 0)) as (s' & r & E & Hp & Hr).
  - vm_compute. reflexivity.
  - vm_compute. discriminate.
  - vm_compute. reflexivity.
  - split; [vm_compute; apply not_elem_of_nil|split; [vm_compute; apply not_elem_of_nil|discriminate]| |].
    + vm_compute. intros Hin. apply list_elem_of_In in Hin as [Ed|[Ed|[]]]; discriminate.
    + intros c Hc. vm_compute in Hc. by apply not_elem_of_nil in Hc.
  - exists s', r. split; [exact E|]. split; [exact Hp|]. vm_compute in E. injection E as <- <-. vm_compute. reflexivity.
Defined.

(** Mail to an address whose category is none is never filed, and its marker stays:
    fifty such messages, first in the order of the keys, are all that a sweep looks
    at, and the message after them waits for ever. *)
Definition poison_ids : list string := List.map (fun n => "00000000-0000-4000-8000-0000000000" +:+ string_of_int (Z.of_nat n)) (List.seq 10 50).
Definition last_id : string := "ffffffff-0000-4000-8000-000000000000".
Definition poisoned : Room :=
  bucket_put (pendingKey last_id) (mkObject [] "ada@example.org" "support@labkiosk.org" 0) (bucket_put (rawMailKey last_id) (mkObject (mail_raw "Printer") "" "" 0) (waiting_room "constructor@labkiosk.org" poison_ids)).

Example sweep_starved : let '(s', _, r) := fileStrandedInboundMail mail_env mail_draws 3600000 3600 [] poisoned in r = Returns 0 /\ bucket_keys s' = bucket_keys poisoned /\ message_ids s' = [].
Proof. vm_compute. split_and!; reflexivity. Qed.

(** A filing that fails after the conversation was made leaves it without a message,
    and each attempt makes another. *)
Example conversations_left :
  let attempt n s := fst (fst (fileStoredInboundMail mail_env (mail_id 1) "ada@example.org" "help@labkiosk.org" (mkFilingDraws ("c" +:+ string_of_int n) [n; 2; 3; 4; 5; 6] "o" "p") n [Done; Done; Done; Lost] s)) in
  let s := attempt 3 (attempt 2 (attempt 1 (waiting_room "help@labkiosk.org" [mail_id 1]))) in
  length (conversations (rm_conv s)) = 3%nat /\ message_ids s = [].
Proof. vm_compute. split; reflexivity. Qed.

(** A conversation is with the address of the Reply-To; its customer, who goes on
    writing from another address, starts a new one each time. *)
Example reply_to_apart :
  let mail n := mkIncoming (mail_id n) "ada@example.org" "help@labkiosk.org"
    (binaryToBytes ("From: ada@example.org" +:+ CRLF +:+ "Reply-To: office@example.org" +:+ CRLF +:+ "Subject: Re: [" +:+ newReference support [1; 2; 3; 4; 5; 6] +:+ "] Printer" +:+ CRLF +:+ CRLF +:+ "Hello")) None in
  let file n s := fst (fst (fileIncomingMail mail_env (mail n) (mkFilingDraws ("c" +:+ string_of_int n) [n; 2; 3; 4; 5; 6] ("o" +:+ string_of_int n) "p") n [] s)) in
  length (conversations (rm_conv (file 2 (file 1 empty_room)))) = 2%nat.
Proof. vm_compute. reflexivity. Qed.
