(* ===== verification/Inbox.v ===== *)
(** src/cloudflare-control/src/inbox.ts, the Super Admin's Tasks and Mail: every
    route, the letters and replies it sends, and the decision of a registration or
    of a request for Remote Control; with issuePhoneLink of phone_link.ts and the
    update of an organization's row (db.ts).

    Calls may fail as in Mail.v. The columns of an organization that only Remote
    Control reads stand in a table of their own beside its row. Texts of the body
    of a request are given as [String(x ?? ...)] makes them; identifiers, random
    bytes and the clock are arguments. What a page renders is not modelled. *)
From S2P Require Import Prelude JsString Regex Scan Platform Db Plans Auth Exams WebAuthn Mime TwoFactor Conversations Mail Mailroom.

Definition MAX_WORKSTATION_LIMIT : Z := 100000.
Definition MAX_REMOTE_CONTROL_SEATS : Z := 1000.
Definition PHONE_LINK_DAYS : Z := 7.

Inductive RemoteControlStatus : Type := rc_none | rc_pending | rc_approved | rc_rejected.
#[export] Instance RemoteControlStatus_eq_dec : EqDecision RemoteControlStatus.
Proof. solve_decision. Defined.
Record RemoteColumns : Type := mkRemote { rc_tenant_id : string; rc_status : RemoteControlStatus; rc_seats : Z; rc_revoked_at : option Z }.

(** The database, the mailroom, and the hubs told that a configuration changed. *)
Record InboxState : Type := mkInbox { ib_accounts : AccountDb; ib_remote : list RemoteColumns; ib_room : Room; ib_told : list string }.
Definition on_ib_accounts (f : AccountDb -> AccountDb) (s : InboxState) : InboxState := mkInbox (f (ib_accounts s)) (ib_remote s) (ib_room s) (ib_told s).
Definition on_ib_remote (f : list RemoteColumns -> list RemoteColumns) (s : InboxState) : InboxState := mkInbox (ib_accounts s) (f (ib_remote s)) (ib_room s) (ib_told s).
Definition on_ib_room (f : Room -> Room) (s : InboxState) : InboxState := mkInbox (ib_accounts s) (ib_remote s) (f (ib_room s)) (ib_told s).
Definition ib_conv (s : InboxState) : ConvState := rm_conv (ib_room s).
Definition on_ib_conv (f : ConvState -> ConvState) : InboxState -> InboxState := on_ib_room (on_conv f).

(** A program on the mailroom, run in the whole. *)
Definition in_room {A} (m : eff Room A) : eff InboxState A := fun o s => let '(room, o', r) := m o (ib_room s) in (on_ib_room (fun _ => room) s, o', r).

(** [updateTenant(db, id, { status, workstation_limit })]. *)
Definition set_tenant (status : TenantStatus) (limit : option Z) (now : Z) (t : Tenant) : Tenant :=
  mkTenant (t_id t) (t_user_id t) (t_name t) (t_subdomain t) (t_chosen_subdomain t) status (t_mode t) (t_default_url t) (t_custom_domain t) (t_broadcast_url t)
    (t_broadcast_epoch t) (t_home_route t) (t_online_workstations t) (t_http_workstations t) (t_update_channel t) (t_lan_sharing t) (t_usage_sites t) (t_printing_enabled t)
    (t_home_reset t) (default (t_workstation_limit t) limit) (t_license_plan t) (t_license_expires_at t) (t_trial_started_at t) now.
Definition update_tenant (id : string) (status : TenantStatus) (limit : option Z) (now : Z) : InboxState -> InboxState :=
  on_ib_accounts (on_core (on_tenants (List.map (fun t => if String.eqb (t_id t) id then set_tenant status limit now t else t)))).

(** [updateTenant(db, id, { remote_control_status, remote_control_seats, remote_control_revoked_at })]. *)
Definition update_remote (id : string) (f : RemoteColumns -> RemoteColumns) : InboxState -> InboxState :=
  on_ib_remote (upsert (fun r => String.eqb (rc_tenant_id r) id) f (f (mkRemote id rc_none 1 None))).

(** The audit log never breaks what it records. *)
Definition audit (entry : AuditRow) : eff InboxState unit := _ ← eff_try (eff_write (on_ib_accounts (writeAuditLog entry))); mret tt.
Definition told (tenantId : string) : eff InboxState unit := _ ← eff_try (eff_write (fun s => mkInbox (ib_accounts s) (ib_remote s) (ib_room s) (ib_told s ++ [tenantId]))); mret tt.
Definition notification (tenantId kind title body : string) (createdBy : string) : eff InboxState unit :=
  eff_call (fun s => db ← createNotification (core (ib_accounts s)) (Some tenantId) kind title body (Some createdBy); Returns (on_ib_accounts (on_core (fun _ => db)) s, tt)).
Definition event_message (id conversationId body : string) (author : string) (now : Z) : ConversationMessage :=
  mkMessage id conversationId event None None None body None (Some author) None None [] now.

(** ** Requests *)

Definition SUPPORT_KINDS : list ConversationKind := [k_support].

Inductive AttachmentRef : Type := original | nth_attachment (index : Z).
Inductive InboxPath : Type :=
| path_list
| path_compose
| path_conversation (id : string)
| path_action (id action : string)
| path_attachment (id messageId : string) (index : AttachmentRef).

Definition INBOX_ID : re := RRep 36 (RClass (fun c => is_lower_hex c || is_char "-" c)).
Definition INBOX_ACTIONS : list string := ["reply"; "note"; "approve"; "reject"; "verify-phone"; "phone-link"; "status"; "unread"; "trash"; "restore"; "delete"]%string.
Definition attachment_ref (s : string) : option AttachmentRef :=
  if String.eqb s "original" then Some original
  else if (1 <=? String.length s)%nat && (String.length s <=? 2)%nat && str_forallb is_digit s then Some (nth_attachment (digits_value s)) else None.

(** INBOX_PATH, by the parts between slashes. *)
Definition inbox_path (path : string) : option InboxPath :=
  match split_on "/" path with
  | ""%string :: a :: b :: c :: rest =>
      if negb (String.eqb a "api" && String.eqb b "super" && String.eqb c "inbox") then None
      else
        match rest with
        | [] => Some path_list
        | [x] => if String.eqb x "compose" then Some path_compose else if re_test INBOX_ID x then Some (path_conversation x) else None
        | [x; y] => if re_test INBOX_ID x && bool_decide (y ∈ INBOX_ACTIONS) then Some (path_action x y) else None
        | [x; y; z; i] => if re_test INBOX_ID x && String.eqb y "attachment" && re_test INBOX_ID z then path_attachment x z <$> attachment_ref i else None
        | _ => None
        end
  | _ => None
  end.
Definition isInboxRoute (path : string) : bool := is_Some_b (inbox_path path).

Record InboxInput : Type := mkInput { ii_message : string; ii_close : bool; ii_status : string; ii_workstationLimit : jsval; ii_remoteControlSeats : jsval }.
Record ComposeInput : Type := mkCompose { co_from : string; co_to : string; co_subject_ : string; co_message : string; co_letter : bool }.

Record InboxRequest : Type := mkInboxRequest {
  ir_session : option Session;
  ir_method : string;
  ir_path : string;
  ir_params : list (string * string);
  (** None where the body is not JSON. *)
  ir_body : option InboxInput;
  ir_compose : option ComposeInput;
  ir_console : string -> string;
  ir_origin : string;
  (** Whether phone verification by text message is set up. *)
  ir_sms : bool;
  ir_event : string;
  ir_draws : FilingDraws;
  ir_token : list Z;
  ir_now : Z
}.

Record Listing : Type := mkListing {
  li_box : Box;
  li_filter : ConversationFilter;
  li_mailbox : option string;
  li_category : option ConversationCategory;
  li_items : list ConversationListRow;
  li_categories : list CategoryCount;
  li_counts : InboxCounts;
  li_mailboxes : list MailboxCount;
  li_mailDomain : option string
}.

Inductive InboxAnswer : Type :=
| IError (status : Z) (message : string)
| IOk
| IDeleted (deleted : bool)
| IStatus (status : ConversationStatus)
| IVerified (at_ : Z)
| IEmailSent (sent : bool)
| ICreated (id : string) (sent : bool)
| IDownload (bytes : list Z) (filename : string)
| IListing (l : Listing)
| IConversation (c : Conversation) (messages : list (ConversationMessage * option string)) (organization : option Tenant) (profile : option OrganizationProfile).

Definition clean_lines (s : string) (max : nat) : string := str_take max (trim (replace_all crlf_match s)).
Definition one_line (s : string) (max : nat) : string := str_take max (trim (replace_all spaces s)).
Definition readMessage (i : InboxInput) : InboxInput := mkInput (clean_lines (ii_message i) MAX_MESSAGE_CHARS) (ii_close i) (ii_status i) (ii_workstationLimit i) (ii_remoteControlSeats i).

(** The newest message the customer sent, and the chain. *)
Definition threadingFor (id : string) : eff InboxState (option string * list string) :=
  messages ← eff_read (fun s => listConversationMessages (ib_conv s) id);
  let ids := omap (fun m => match cm_email_message_id m with Some i => if startsWith i "<" then Some i else None | None => None end) messages in
  let lastInbound := js_find (fun m => bool_decide (cm_direction m = inbound) && is_Some_b (cm_email_message_id m ≫= nonempty)) (rev messages) in
  mret (lastInbound ≫= cm_email_message_id, ids).

(** The name of a file for a header: printable ASCII, no quotes or backslashes. *)
Definition ascii_name (filename : string) : string :=
  default "attachment"%string (nonempty (str_map (fun c => if in_range 32 126 c && negb (is_char dquote c) && negb (is_char backslash c) then c else "_"%char) filename)).

(** ** A new e-mail *)

Definition MAILBOX_LOCAL : re :=
  let word := RClass (fun c => is_lower c || is_digit c) in
  let inner := RClass (fun c => is_lower c || is_digit c || is_char "." c || is_char "_" c || is_char "+" c || is_char "-" c) in
  RCat word (ROpt (RCat (RUpto 62 inner) word)).

Definition user_name (s : InboxState) (id : string) : option string := (u_name <$> findUserById (ib_accounts s) id) ≫= nonempty.

Definition compose_from (from domain : string) : string :=
  let input := toLowerCase (trim from) in
  if has_char "@" input then (if endsWith input ("@" +:+ domain) then str_drop_last (String.length domain + 1) input else ""%string) else input.

Definition handleCompose (env : MailEnv) (rq : InboxRequest) (userId : string) : eff InboxState InboxAnswer :=
  match mailConfigProblem env, mailDomain env with
  | Some problem, _ => mret (IError 503 problem)
  | None, None => mret (IError 503 "Set SUPPORT_ADDRESS to say which domain the mailboxes are on")
  | None, Some domain =>
      match ir_compose rq with
      | None => mret (IError 400 "The request body must be JSON")
      | Some body =>
          let fromLocal := compose_from (co_from body) domain in
          if negb (re_test MAILBOX_LOCAL fromLocal) then mret (IError 400 ("Send from an address on " +:+ domain))
          else
            match parseAddress (co_to body) with
            | None => mret (IError 400 "Enter the recipient's email address")
            | Some to_ =>
                let toDomain := address_domain (ma_email to_) in
                if String.eqb toDomain domain || bool_decide (sendingDomain env = Some toDomain) then mret (IError 400 "That address is one of the platform's own mailboxes")
                else
                  let subject := one_line (co_subject_ body) 200 in
                  let message := clean_lines (co_message body) MAX_MESSAGE_CHARS in
                  if String.eqb subject "" then mret (IError 400 "Write a subject")
                  else if String.eqb message "" then mret (IError 400 "Write the message first")
                  else
                    let d := ir_draws rq in
                    author ← eff_read (fun s => user_name s userId);
                    c ← eff_call (fun s => x ← createConversation (mkNew k_support None subject (ma_email to_) (nonempty (ma_name to_)) (Some (fromLocal +:+ "@" +:+ domain))
                                             (if co_letter body then Some (Some letter) else None) false) (fd_conversation d) (fd_reference d) (ir_now rq) (ib_conv s);
                                           Returns (on_ib_conv (fun _ => fst x) s, snd x));
                    sent ← in_room (sendOnConversation env c message (mkSendOptions None (Some userId) None [] false None) (fd_outbound d) (fd_provider d) (ir_now rq));
                    _ ← audit (mkAudit None userId "inbox.compose" (Some ("reference=" +:+ cv_reference c +:+ " mailbox=" +:+ default "null"%string (cv_mailbox c) +:+ " delivered=" +:+ (if (sent : bool) then "true" else "false"))));
                    mret (ICreated (cv_id c) sent)
            end
      end
  end.

(** ** The routes *)

Definition param (rq : InboxRequest) (name : string) : option string := assoc name (ir_params rq).

Definition list_inbox (env : MailEnv) (rq : InboxRequest) (s : InboxState) : Listing :=
  let box := if bool_decide (param rq "box" = Some "support"%string) then support_box else tasks_box in
  let is_mail := bool_decide (box = support_box) in
  let filter := default f_open (param rq "filter" ≫= (fun f => assoc f CONVERSATION_FILTERS)) in
  let mailbox := if is_mail then ma_email <$> parseAddress (default ""%string (param rq "mailbox")) else None in
  let category := param rq "category" ≫= isCategory in
  mkListing box filter mailbox category (listConversations (core (ib_accounts s)) (ib_conv s) (if is_mail then SUPPORT_KINDS else TASK_KINDS) filter 200 mailbox category)
    (categoryCounts (ib_conv s) box) (inboxCounts (ib_conv s)) (if is_mail then mailboxCounts (ib_conv s) else []) (mailDomain env).

Definition METHOD : InboxAnswer := IError 405 "Method not allowed".
Definition posted {A} (rq : InboxRequest) (other : A) (m : A) : A := if String.eqb (ir_method rq) "POST" then m else other.

Section Routes.
Context `{MailText} `{WebCrypto}.

Definition get_attachment (rq : InboxRequest) (c : Conversation) (messageId : string) (index : AttachmentRef) : eff InboxState InboxAnswer :=
  if negb (String.eqb (ir_method rq) "GET") then mret METHOD
  else
    message ← eff_read (fun s => findConversationMessage (ib_conv s) (cv_id c) messageId);
    match (message ≫= cm_raw_key) ≫= nonempty with
    | None => mret (IError 404 "This message has no stored original")
    | Some key =>
        raw ← in_room (loadRawMail key);
        match raw with
        | None => mret (IError 404 "The stored original of this message is gone")
        | Some raw =>
            match index with
            | original => mret (IDownload raw (cv_reference c +:+ ".eml"))
            | nth_attachment i =>
                match extractAttachment raw i with
                | None => mret (IError 404 "This message has no such attachment")
                | Some (a, bytes) => mret (IDownload bytes (at_filename a))
                end
            end
        end
    end.

Definition mail_details (c : Conversation) : option string := Some ("reference=" +:+ cv_reference c +:+ " mailbox=" +:+ default "-"%string (cv_mailbox c ≫= nonempty)).

Definition trash_or_restore (rq : InboxRequest) (c : Conversation) (deleted : bool) (userId : string) : eff InboxState InboxAnswer :=
  posted rq (mret METHOD)
    (if negb (bool_decide (cv_kind c = k_support)) then mret (IError 400 "Tasks stay on record and cannot be deleted")
     else
       _ ← (if Bool.eqb (negb (is_kept c)) deleted then mret tt
            else _ ← eff_write (on_ib_conv (setConversationDeleted (cv_id c) deleted (ir_now rq)));
                 audit (mkAudit (cv_tenant_id c) userId (if deleted then "inbox.trash" else "inbox.restore") (mail_details c)));
       mret (IDeleted deleted)).

Definition delete_for_good (rq : InboxRequest) (c : Conversation) (userId : string) : eff InboxState InboxAnswer :=
  posted rq (mret METHOD)
    (if negb (bool_decide (cv_kind c = k_support)) then mret (IError 400 "Tasks stay on record and cannot be deleted")
     else if is_kept c then mret (IError 409 "Move the conversation to Deleted first")
     else
       messages ← eff_read (fun s => listConversationMessages (ib_conv s) (cv_id c));
       removed ← eff_try (in_room (deleteRawMail (omap (fun m => cm_raw_key m ≫= nonempty) messages)));
       match removed with
       | None => mret (IError 502 "The stored messages could not be deleted. Nothing was removed; try again.")
       | Some _ =>
           _ ← eff_write (on_ib_conv (fun s => fst (deleteConversation (cv_id c) s)));
           _ ← audit (mkAudit (cv_tenant_id c) userId "inbox.delete" (mail_details c));
           mret IOk
       end).

(** The whole conversation, marked read; the hash of a phone link stays here. *)
Definition hide_link (p : OrganizationProfile) : OrganizationProfile :=
  mkProfile (op_tenant_id p) (op_legal_name p) (op_contact_name p) (op_contact_email p) (op_contact_phone p) (op_email_verified_at p) (op_phone_verified_at p) (op_phone_verified_by p) (op_address_line1 p)
    (op_address_line2 p) (op_city p) (op_region p) (op_postal_code p) (op_country p) (op_tax_id p) (op_billing_email p) (op_workstation_estimate p) (op_organization_type p) (op_notes p) (op_created_at p)
    (op_updated_at p) ((fun x => (""%string, snd x)) <$> op_phone_link p).

Definition open_conversation (rq : InboxRequest) (c : Conversation) (tenant : option Tenant) : eff InboxState InboxAnswer :=
  if negb (String.eqb (ir_method rq) "GET") then mret METHOD
  else
    _ ← eff_write (on_ib_conv (markConversationRead (cv_id c) true));
    messages ← eff_read (fun s => List.map (fun m => (m, cm_author_user_id m ≫= (fun u => Some (default "Platform"%string (user_name s u))))) (listConversationMessages (ib_conv s) (cv_id c)));
    profile ← match tenant with Some t => eff_read (fun s => findOrganizationProfile (ib_conv s) (t_id t)) | None => mret None end;
    mret (IConversation (set_unread false c) messages tenant (hide_link <$> profile)).

Definition reply (env : MailEnv) (rq : InboxRequest) (input : InboxInput) (c : Conversation) (userId : string) : eff InboxState InboxAnswer :=
  if String.eqb (ii_message input) "" then mret (IError 400 "Write the reply first")
  else
    match mailConfigProblem env with
    | Some problem => mret (IError 503 problem)
    | None =>
        threading ← threadingFor (cv_id c);
        _ ← eff_read (fun s => user_name s userId);
        sent ← in_room (sendOnConversation env c (ii_message input)
                 (mkSendOptions (Some (if startsWith (cv_subject c) "Re:" then cv_subject c else "Re: " +:+ cv_subject c)) (Some userId) (fst threading) (snd threading) false None)
                 (fd_outbound (ir_draws rq)) (fd_provider (ir_draws rq)) (ir_now rq));
        _ ← (if ii_close input && bool_decide (cv_kind c = k_support) then eff_write (on_ib_conv (setConversationStatus (cv_id c) s_closed (Some userId) (ir_now rq))) else mret tt);
        _ ← audit (mkAudit (cv_tenant_id c) userId "inbox.reply" (Some ("reference=" +:+ cv_reference c +:+ " delivered=" +:+ (if (sent : bool) then "true" else "false"))));
        mret (if (sent : bool) then IOk else IError 502 "The reply was saved but the email could not be sent. Try again later.")
    end.

Definition status_of (s : string) : option ConversationStatus := if String.eqb s "open" then Some s_open else if String.eqb s "closed" then Some s_closed else None.

Definition verify_phone (rq : InboxRequest) (c : Conversation) (tenant : Tenant) (profile : option OrganizationProfile) (userId : string) : eff InboxState InboxAnswer :=
  if negb (bool_decide (cv_kind c = k_signup)) then mret (IError 400 "Only a registration has a phone number to verify")
  else
    match profile with
    | None => mret (IError 404 "This registration has no contact details")
    | Some p =>
        match op_phone_verified_at p ≫= (fun z => if z =? 0 then None else Some z) with
        | Some at_ => mret (IVerified at_)
        | None =>
            _ ← eff_write (on_ib_conv (markPhoneVerified (t_id tenant) userId (ir_now rq)));
            _ ← in_room (add_message (event_message (ir_event rq) (cv_id c) ("Phone number " +:+ op_contact_phone p +:+ " marked as verified.") userId (ir_now rq)));
            _ ← audit (mkAudit (Some (t_id tenant)) userId "tenant.verify_phone" None);
            mret IOk
        end
    end.

(** ** A link that verifies a number by text message *)

Definition linkHash (token_ : string) : string := sha256Hex ("phone-link:" +:+ token_).
Definition set_phone_link (link : option (string * Z)) (ts : Z) (p : OrganizationProfile) : OrganizationProfile :=
  mkProfile (op_tenant_id p) (op_legal_name p) (op_contact_name p) (op_contact_email p) (op_contact_phone p) (op_email_verified_at p) (op_phone_verified_at p) (op_phone_verified_by p) (op_address_line1 p)
    (op_address_line2 p) (op_city p) (op_region p) (op_postal_code p) (op_country p) (op_tax_id p) (op_billing_email p) (op_workstation_estimate p) (op_organization_type p) (op_notes p) (op_created_at p)
    ts link.
Definition issuePhoneLink (tenantId : string) (bytes : list Z) (now : Z) : eff InboxState string :=
  let token_ := bufferToHex bytes in
  eff_call (fun s => if existsb (has_tenant tenantId) (organization_profiles (ib_conv s))
                     then Returns (on_ib_conv (on_profiles (update_rows (has_tenant tenantId) (set_phone_link (Some (linkHash token_, now + PHONE_LINK_DAYS * 24 * 3600)) now))) s, token_)
                     else Throws ("Organization " +:+ tenantId +:+ " has no profile to send a phone link for")).

(** A number with all but its last four digits hidden; [bullet] is the sign for one. *)
Definition maskPhone (bullet : string) (phone : string) : string :=
  let digits := str_filter is_digit phone in
  let many (n : nat) := join "" (replicate n bullet) in
  if (String.length digits <=? 4)%nat then many 4%nat
  else (if startsWith (trim phone) "+" then "+" else "") +:+ many (Nat.min (String.length digits - 4) 10) +:+ " " +:+ str_drop (String.length digits - 4) digits.

Definition phone_text (bullet : string) (p : OrganizationProfile) (tenant : Tenant) (link : string) : string :=
  "Hello " +:+ op_contact_name p +:+ "," +:+ LF2 +:+ "Lab Kiosk now confirms phone numbers by text message. Please verify the number on record for " +:+ t_name tenant +:+ ", " +:+ maskPhone bullet (op_contact_phone p)
  +:+ ": open this link and enter the code we text to it." +:+ LF2 +:+ link +:+ LF2 +:+ "The link works once and expires in " +:+ string_of_int PHONE_LINK_DAYS
  +:+ " days. If the number is not right, reply to this email with the correct one." +:+ LF2 +:+ "Lab Kiosk".

Definition phone_link (env : MailEnv) (bullet : string) (rq : InboxRequest) (c : Conversation) (tenant : Tenant) (profile : option OrganizationProfile) (userId : string) : eff InboxState InboxAnswer :=
  if negb (bool_decide (cv_kind c = k_signup)) then mret (IError 400 "Only a registration has a phone number to verify")
  else
    match profile with
    | None => mret (IError 404 "This registration has no contact details")
    | Some p =>
        if is_Some_b (op_phone_verified_at p ≫= (fun z => if z =? 0 then None else Some z)) then mret (IError 409 "This phone number is already verified")
        else if bool_decide (t_status tenant = rejected) then mret (IError 409 "This registration was rejected")
        else if negb (ir_sms rq) then mret (IError 503 "Phone verification by text message is not set up on this platform (docs/DEPLOYMENT.md).")
        else
          match mailConfigProblem env with
          | Some problem => mret (IError 503 problem)
          | None =>
              token_ ← issuePhoneLink (t_id tenant) (ir_token rq) (ir_now rq);
              threading ← threadingFor (cv_id c);
              sent ← in_room (sendOnConversation env c (phone_text bullet p tenant (ir_origin rq +:+ "/verify-phone?t=" +:+ token_))
                       (mkSendOptions (Some "Please verify your phone number"%string) (Some userId) (fst threading) (snd threading) false (Some (phone_text bullet p tenant "(one-time link)")))
                       (fd_outbound (ir_draws rq)) (fd_provider (ir_draws rq)) (ir_now rq));
              _ ← audit (mkAudit (Some (t_id tenant)) userId "tenant.phone_link" (Some ("delivered=" +:+ (if (sent : bool) then "true" else "false"))));
              mret (if (sent : bool) then IOk else IError 502 "The link could not be emailed. Try again later.")
          end
    end.

(** ** Decisions *)

(** A whole number from 1 to a maximum. *)
Definition whole_between (v : jsval) (max : Z) : option Z := match v with JsInt z => if (1 <=? z) && (z <=? max) then Some z else None | _ => None end.

Definition hello (c : Conversation) : string := "Hello " +:+ default ""%string (cv_contact_name c) +:+ "," +:+ LF2.
Definition with_note (input : InboxInput) : string := if String.eqb (ii_message input) "" then ""%string else LF2 +:+ ii_message input.

Definition tell (env : MailEnv) (rq : InboxRequest) (c : Conversation) (userId subject body : string) (threading : option string * list string) : eff InboxState InboxAnswer :=
  sent ← in_room (sendOnConversation env c body (mkSendOptions (Some subject) (Some userId) (fst threading) (snd threading) false None) (fd_outbound (ir_draws rq)) (fd_provider (ir_draws rq)) (ir_now rq));
  mret (IEmailSent sent).

Definition set_decision (rq : InboxRequest) (c : Conversation) (status : ConversationStatus) (userId body : string) : eff InboxState unit :=
  _ ← eff_write (on_ib_conv (setConversationStatus (cv_id c) status (Some userId) (ir_now rq)));
  in_room (add_message (event_message (ir_event rq) (cv_id c) body userId (ir_now rq))).

Definition plural (n : Z) : string := if n =? 1 then "" else "s".

Definition approve_signup (env : MailEnv) (rq : InboxRequest) (input : InboxInput) (c : Conversation) (tenant : Tenant) (profile : option OrganizationProfile) (userId : string) (threading : option string * list string) : eff InboxState InboxAnswer :=
  let set x := match x with Some z => negb (z =? 0) | None => false end in
  if negb (bool_decide (t_status tenant = pending)) then mret (IError 409 "This organization is not waiting for approval")
  else if negb (set (profile ≫= op_email_verified_at)) then mret (IError 409 "The email address has not been verified")
  else if negb (set (profile ≫= op_phone_verified_at)) then mret (IError 409 "Verify the phone number before approving")
  else
    match whole_between (ii_workstationLimit input) MAX_WORKSTATION_LIMIT with
    | None => mret (IError 400 ("Set the workstation limit: a whole number from 1 to " +:+ string_of_int MAX_WORKSTATION_LIMIT))
    | Some limit =>
        _ ← eff_write (update_tenant (t_id tenant) active (Some limit) (ir_now rq));
        _ ← set_decision rq c s_approved userId "Registration approved.";
        _ ← audit (mkAudit (Some (t_id tenant)) userId "tenant.approve" (Some ("subdomain=" +:+ t_subdomain tenant +:+ " workstation_limit=" +:+ string_of_int limit)));
        _ ← notification (t_id tenant) "account" "Welcome to Lab Kiosk"
              (t_name tenant +:+ " is active and may enrol up to " +:+ string_of_int limit +:+ " workstation" +:+ plural limit +:+ ". Your enrollment key and the setup steps for your workstations are under Settings.") userId;
        _ ← told (t_id tenant);
        tell env rq c userId "Your organization is active"
          (hello c +:+ t_name tenant +:+ " is now active on Lab Kiosk." +:+ with_note input +:+ LF2 +:+ "Sign in to your console with the email address and password you registered with:" +:+ String LF_ ""
           +:+ ir_console rq (t_subdomain tenant) +:+ LF2 +:+ "Your enrollment key and the setup steps for your workstations are under Settings." +:+ LF2 +:+ "Lab Kiosk") threading
    end.

Definition reject_signup (env : MailEnv) (rq : InboxRequest) (input : InboxInput) (c : Conversation) (tenant : Tenant) (userId : string) (threading : option string * list string) : eff InboxState InboxAnswer :=
  if negb (bool_decide (t_status tenant = pending)) then mret (IError 409 "This organization is not waiting for approval")
  else
    _ ← eff_write (update_tenant (t_id tenant) rejected None (ir_now rq));
    _ ← set_decision rq c s_rejected userId "Registration rejected.";
    _ ← audit (mkAudit (Some (t_id tenant)) userId "tenant.reject" None);
    _ ← told (t_id tenant);
    tell env rq c userId "About your registration"
      (hello c +:+ "We are not able to activate " +:+ t_name tenant +:+ " on Lab Kiosk at this time." +:+ with_note input +:+ LF2 +:+ "Reply to this email if you would like to discuss it." +:+ LF2 +:+ "Lab Kiosk") threading.

(** [seats]: those of an approval, none for a rejection. *)
Definition remote_note (tenant : Tenant) (seats : option Z) : string :=
  match seats with
  | Some n => "Remote Control is now available to " +:+ t_name tenant +:+ ", with " +:+ string_of_int n +:+ " session" +:+ plural n +:+ " open at once. Administrators can open it from a connected workstation's card."
  | None => "Lab Kiosk is not able to turn on Remote Control for " +:+ t_name tenant +:+ " at this time. Reply to the email about your request to discuss it."
  end.
Definition remote_mail (rq : InboxRequest) (input : InboxInput) (c : Conversation) (tenant : Tenant) (approve : bool) : string :=
  if approve
  then hello c +:+ "Remote Control is now available to " +:+ t_name tenant +:+ "." +:+ with_note input +:+ LF2 +:+ "Open Workstations in your console and choose Remote Control on any connected workstation:" +:+ String LF_ ""
       +:+ ir_console rq (t_subdomain tenant) +:+ LF2 +:+ "Lab Kiosk"
  else hello c +:+ "We are not able to turn on Remote Control for " +:+ t_name tenant +:+ " at this time." +:+ with_note input +:+ LF2 +:+ "Reply to this email if you would like to discuss it." +:+ LF2 +:+ "Lab Kiosk".

Definition decide_remote (env : MailEnv) (rq : InboxRequest) (input : InboxInput) (c : Conversation) (tenant : Tenant) (approve : bool) (userId : string) (threading : option string * list string) : eff InboxState InboxAnswer :=
  let seats := if approve then whole_between (ii_remoteControlSeats input) MAX_REMOTE_CONTROL_SEATS else None in
  if negb (bool_decide (t_status tenant = active)) then mret (IError 409 "The organization is not active")
  else if approve && negb (is_Some_b seats) then mret (IError 400 ("Set the Remote Control seats: a whole number from 1 to " +:+ string_of_int MAX_REMOTE_CONTROL_SEATS))
  else
    _ ← eff_write (update_remote (t_id tenant) (fun r => match seats with Some n => mkRemote (rc_tenant_id r) rc_approved n None | None => mkRemote (rc_tenant_id r) rc_rejected (rc_seats r) (rc_revoked_at r) end));
    _ ← set_decision rq c (if approve then s_approved else s_rejected) userId (if approve then "Remote Control approved." else "Remote Control request rejected.");
    _ ← audit (mkAudit (Some (t_id tenant)) userId (if approve then "remote_control.approve" else "remote_control.reject") ((fun n => "seats=" +:+ string_of_int n) <$> seats));
    _ ← notification (t_id tenant) "remote_control" (if approve then "Remote Control is on" else "Remote Control request not approved") (remote_note tenant seats) userId;
    tell env rq c userId (if approve then "Remote Control is on" else "About your Remote Control request") (remote_mail rq input c tenant approve) threading.

Definition decide_task (env : MailEnv) (rq : InboxRequest) (input : InboxInput) (c : Conversation) (tenant : Tenant) (profile : option OrganizationProfile) (action userId : string) : eff InboxState InboxAnswer :=
  if negb (still_open c) then mret (IError 409 "This task has already been decided")
  else
    match mailConfigProblem env with
    | Some problem => mret (IError 503 problem)
    | None =>
        threading ← threadingFor (cv_id c);
        let approve := String.eqb action "approve" in
        if negb approve && negb (String.eqb action "reject") then mret (IError 400 "Unknown action")
        else
          match cv_kind c with
          | k_signup => if approve then approve_signup env rq input c tenant profile userId threading else reject_signup env rq input c tenant userId threading
          | k_remote_control => decide_remote env rq input c tenant approve userId threading
          | k_support => mret (IError 400 "Unknown action")
          end
    end.

(** The actions that read a message from the body. *)
Definition act (env : MailEnv) (bullet : string) (rq : InboxRequest) (c : Conversation) (tenant : option Tenant) (action userId : string) : eff InboxState InboxAnswer :=
  match ir_body rq with
  | None => mret (IError 400 "The request body must be JSON")
  | Some body =>
      let input := readMessage body in
      let named := String.eqb action in
      if named "unread"%string then _ ← eff_write (on_ib_conv (markConversationRead (cv_id c) false)); mret IOk
      else if named "note"%string then
        if String.eqb (ii_message input) "" then mret (IError 400 "Write the note first")
        else _ ← in_room (add_message (mkMessage (ir_event rq) (cv_id c) note None None None (ii_message input) None (Some userId) None None [] (ir_now rq))); mret IOk
      else if named "reply"%string then reply env rq input c userId
      else if named "status"%string then
        if negb (bool_decide (cv_kind c = k_support)) then mret (IError 400 "Tasks are closed by approving or rejecting them")
        else match status_of (ii_status input) with
             | None => mret (IError 400 "Status must be open or closed")
             | Some st => _ ← eff_write (on_ib_conv (setConversationStatus (cv_id c) st (Some userId) (ir_now rq))); mret (IStatus st)
             end
      else if bool_decide (cv_kind c = k_support) then mret (IError 400 "Support conversations are not approved or rejected")
      else
        match tenant with
        | None => mret (IError 404 "The organization this request belongs to no longer exists")
        | Some tenant =>
            profile ← eff_read (fun s => findOrganizationProfile (ib_conv s) (t_id tenant));
            if named "verify-phone"%string then verify_phone rq c tenant profile userId
            else if named "phone-link"%string then phone_link env bullet rq c tenant profile userId
            else decide_task env rq input c tenant profile action userId
        end
  end.

Definition on_conversation (id : string) (k : Conversation -> option Tenant -> eff InboxState InboxAnswer)
    (early : Conversation -> option (eff InboxState InboxAnswer)) : eff InboxState InboxAnswer :=
  conversation ← eff_read (fun s => findConversation (ib_conv s) id);
  match conversation with
  | None => mret (IError 404 "No such conversation")
  | Some c =>
      match early c with
      | Some answer => answer
      | None =>
          tenant ← match cv_tenant_id c ≫= nonempty with Some t => eff_read (fun s => findTenantById (core (ib_accounts s)) t) | None => mret None end;
          k c tenant
      end
  end.

Definition run_path (env : MailEnv) (bullet : string) (rq : InboxRequest) (path : InboxPath) (userId : string) : eff InboxState InboxAnswer :=
  match path with
  | path_compose => posted rq (mret METHOD) (handleCompose env rq userId)
  | path_list => if negb (String.eqb (ir_method rq) "GET") then mret METHOD else l ← eff_read (list_inbox env rq); mret (IListing l)
  | path_attachment id messageId index => on_conversation id (fun _ _ => mret METHOD) (fun c => Some (get_attachment rq c messageId index))
  | path_conversation id => on_conversation id (open_conversation rq) (fun _ => None)
  | path_action id action =>
      on_conversation id (fun c tenant => posted rq (mret METHOD) (act env bullet rq c tenant action userId))
        (fun c => if String.eqb action "trash" then Some (trash_or_restore rq c true userId) else if String.eqb action "restore" then Some (trash_or_restore rq c false userId)
                  else if String.eqb action "delete" then Some (delete_for_good rq c userId) else None)
  end.

(** [bullet]: the sign of a hidden digit. *)
Definition handleInboxRoute (env : MailEnv) (bullet : string) (rq : InboxRequest) : eff InboxState InboxAnswer :=
  match ir_session rq with
  | None => mret (IError 401 "Authentication required")
  | Some session =>
      if negb (bool_decide (role session = super_admin)) then mret (IError 403 "Super administrator access required")
      else
        match inbox_path (ir_path rq) with
        | None => eff_throw "Cannot read properties of null"
        | Some path => run_path env bullet rq path (user_id session)
        end
  end.
End Routes.

(** ** What the console may change *)

Section May.
Context `{MailText} `{WebCrypto}.
Context (grants : Tenant -> Prop) (free gone : string -> Prop).

Definition tenants_of (s : InboxState) : list Tenant := tenants (core (ib_accounts s)).

(** What of a conversation never changes, and its decision. *)
Definition same_task (a b : Conversation) : Prop :=
  cv_id a = cv_id b /\ cv_kind a = cv_kind b /\ cv_tenant_id a = cv_tenant_id b /\ cv_reference a = cv_reference b /\ cv_contact_email a = cv_contact_email b /\ cv_category a = cv_category b.
Definition same_decision (a b : Conversation) : Prop := cv_status a = cv_status b /\ cv_resolved_at a = cv_resolved_at b /\ cv_resolved_by a = cv_resolved_by b.

(** Organizations change only to what [grants] allows; a task stays, but those of
    [gone]; its decision stays, but those of [free]. *)
Definition may (s s' : InboxState) : Prop :=
  (forall t, t ∈ tenants_of s' -> t ∈ tenants_of s \/ grants t) /\
  forall c, c ∈ conversations (ib_conv s) -> cv_kind c <> k_support -> ~ gone (cv_id c) ->
    exists c', c' ∈ conversations (ib_conv s') /\ same_task c' c /\ (~ free (cv_id c) -> same_decision c' c).

#[export] Instance may_preorder : PreOrder may.
Proof.
  split; [intros s; split; [by left|]; intros c Hc _ _; exists c; by split_and!|]. intros a b c [T1 C1] [T2 C2]. split.
  - intros t Ht. destruct (T2 t Ht) as [Hb|]; [by apply T1|by right].
  - intros x Hx Hk Hg. destruct (C1 x Hx Hk Hg) as (y & Hy & (E1 & E2 & E3 & E4 & E5 & E6) & Hd). destruct (C2 y Hy) as (z & Hz & (F1 & F2 & F3 & F4 & F5 & F6) & Hd'); [congruence|congruence|].
    exists z. split; [done|]. split; [unfold same_task; split_and!; congruence|]. intros Hf. destruct (Hd Hf) as (G1 & G2 & G3). destruct Hd' as (K1 & K2 & K3); [congruence|]. unfold same_decision. split_and!; congruence.
Qed.

(** The tables of accounts change, but not the organizations. *)
Lemma may_accounts s s' : tenants_of s' = tenants_of s -> ib_conv s' = ib_conv s -> may s s'.
Proof. intros Ht Hc. split; [rewrite Ht; by left|]. intros c Hin _ _. exists c. rewrite Hc. by split_and!. Qed.

(** Rows are changed in what is neither their identity nor their decision, or added. *)
Lemma may_rows s s' : tenants_of s' = tenants_of s -> (forall c, c ∈ conversations (ib_conv s) -> exists c', c' ∈ conversations (ib_conv s') /\ same_task c' c /\ same_decision c' c) -> may s s'.
Proof. intros Ht Hc. split; [rewrite Ht; by left|]. intros c Hin _ _. destruct (Hc c Hin) as (c' & ? & ? & ?). by exists c'. Qed.

Lemma may_update id f s : (forall c, same_task (f c) c /\ same_decision (f c) c) -> may s (on_ib_conv (update_conversation id f) s).
Proof.
  intros Hf. apply may_rows; [done|]. intros c Hc. exists (if has_id id c then f c else c). split; [cbn; by apply (list_elem_of_fmap_2 (fun r => if has_id id r then f r else r))|]. destruct (has_id id c); [apply Hf|by split_and!].
Qed.

Lemma may_status id status userId ts s : free id -> may s (on_ib_conv (setConversationStatus id status userId ts) s).
Proof.
  intros Hfree. split; [by left|]. intros c Hc _ _. exists (if has_id id c then set_status status userId ts c else c). split; [cbn; by apply (list_elem_of_fmap_2 (fun r => if has_id id r then set_status status userId ts r else r))|].
  destruct (has_id id c) eqn:E; [|by split_and!]. apply String.eqb_eq in E. split; [by split_and!|]. intros Hn. by rewrite E in Hn.
Qed.

Lemma keeps_ib_write f : (forall s, may s (f s)) -> keeps may (eff_write f).
Proof. intros Hf o s s' o' r [[->| ->] _]%eff_write_inv; [reflexivity|apply Hf]. Qed.

Lemma keeps_audit entry : keeps may (audit entry).
Proof. apply keeps_bind; [apply _|apply keeps_try, keeps_ib_write; intros s; by apply may_accounts|intros; apply keeps_ret, _]. Qed.

Lemma keeps_told id : keeps may (told id).
Proof. apply keeps_bind; [apply _|apply keeps_try, keeps_ib_write; intros s; by apply may_accounts|intros; apply keeps_ret, _]. Qed.

Lemma keeps_notification tenantId kind title body userId : keeps may (notification tenantId kind title body userId).
Proof.
  apply keeps_call; [apply _|]. intros s s' a. destruct (createNotification _ _ _ _ _ _) as [db|] eqn:E; cbn; [|done]. intros [= <- _]. apply may_accounts; [|done]. unfold createNotification in E. cbv zeta in E. destruct (_ || _); [done|]. by injection E as <-.
Qed.

(** The mailroom keeps its conversations, when messages are added and sent. *)
Definition rows_kept (s s' : Room) : Prop := forall c, c ∈ conversations (rm_conv s) -> exists c', c' ∈ conversations (rm_conv s') /\ same_task c' c /\ same_decision c' c.
Instance rows_kept_preorder : PreOrder rows_kept.
Proof.
  split; [intros s c Hc; exists c; by split_and!|]. intros a b c H1 H2 x Hx. destruct (H1 x Hx) as (y & Hy & (E1 & E2 & E3 & E4 & E5 & E6) & (G1 & G2 & G3)). destruct (H2 y Hy) as (z & Hz & (F1 & F2 & F3 & F4 & F5 & F6) & (K1 & K2 & K3)).
  exists z. split; [done|]. unfold same_task, same_decision. split_and!; congruence.
Qed.

Lemma keeps_in_room {A} (m : eff Room A) : keeps rows_kept m -> keeps may (in_room m).
Proof. intros Hm o s s' o' r. unfold in_room. destruct (m o (ib_room s)) as [[room o1] r1] eqn:E. intros [= <- _ _]. apply Hm in E. by apply may_rows. Qed.

Lemma rows_add_message m : keeps rows_kept (add_message m).
Proof.
  apply keeps_call; [apply _|]. intros s s' a. unfold addConversationMessage. destruct (existsb _ _); [done|]. destruct (negb _); [done|]. cbn [mbind js_result_bind]. intros Hs. apply Returns_inj in Hs. apply (f_equal fst) in Hs. cbn [fst] in Hs. subst s'.
  intros c Hc. set (f := touch_conversation (cm_direction m) (cm_created_at m)). exists (if has_id (cm_conversation_id m) c then f c else c). split; [by apply (list_elem_of_fmap_2 (fun r => if has_id (cm_conversation_id m) r then f r else r))|]. destruct (has_id _ c); by split_and!.
Qed.

Lemma rows_send env c body opts id providerId now : keeps rows_kept (sendOnConversation env c body opts id providerId now).
Proof.
  apply keeps_bind; [apply _|apply keeps_try, keeps_sendMail; [apply _|]; intros m s x Hx; exists x; by split_and!|]. intros sent. apply keeps_bind; [apply _|apply rows_add_message|]. intros. apply keeps_ret, _.
Qed.

(** The parts of a route, one after the other. *)
Ltac keep_step :=
  match goal with
  | |- keeps may (mret _) => apply keeps_ret, _
  | |- keeps may (eff_throw _) => apply keeps_throw, _
  | |- keeps may (eff_read _) => apply keeps_read, _
  | |- keeps may (audit _) => apply keeps_audit
  | |- keeps may (told _) => apply keeps_told
  | |- keeps may (notification _ _ _ _ _) => apply keeps_notification
  | |- keeps may (in_room (sendOnConversation _ _ _ _ _ _ _)) => apply keeps_in_room, rows_send
  | |- keeps may (in_room (add_message _)) => apply keeps_in_room, rows_add_message
  | |- keeps may (eff_try _) => apply keeps_try
  | |- keeps may (posted _ _ _) => unfold posted
  | |- keeps may (_ ≫= _) => apply keeps_bind; [apply _| |intros ?]
  | |- keeps may (match ?x with _ => _ end) => destruct x
  end.
Ltac keep := repeat keep_step.

Lemma keeps_threading id : keeps may (threadingFor id).
Proof. unfold threadingFor. keep. Qed.

Lemma keeps_tell env rq c userId subject body threading : keeps may (tell env rq c userId subject body threading).
Proof. unfold tell. keep. Qed.

Lemma keeps_decision rq c status userId body : free (cv_id c) -> keeps may (set_decision rq c status userId body).
Proof. intros Hf. unfold set_decision. keep. apply keeps_ib_write. intros st. by apply may_status. Qed.

Lemma keeps_compose env rq userId : keeps may (handleCompose env rq userId).
Proof.
  unfold handleCompose. keep. apply keeps_call; [apply _|]. intros st st' x. destruct (createConversation _ _ _ _ _) as [[cs cc]|] eqn:E; cbn [mbind js_result_bind]; [|done]. intros Hs. apply Returns_inj in Hs. apply (f_equal fst) in Hs. cbn [fst] in Hs. subst st'.
  apply createConversation_ok in E as (_ & Ec & _). apply may_rows; [done|]. intros k Hk. exists k. cbn. rewrite Ec. split; [apply elem_of_app; by left|by split_and!].
Qed.

Lemma rows_bucket f : (forall s, rm_conv (f s) = rm_conv s) -> keeps rows_kept (eff_write f).
Proof. intros Hf o s s' o' r [[->| ->] _]%eff_write_inv; [reflexivity|]. intros c Hc. exists c. rewrite Hf. by split_and!. Qed.

Lemma rows_delete keys : keeps rows_kept (deleteRawMail keys).
Proof.
  unfold deleteRawMail. cbv zeta. induction (chunks _ _ _) as [|k l IH]; cbn [delete_chunks]; [apply keeps_ret, _|]. apply keeps_bind; [apply _|by apply rows_bucket|]. intros. apply IH.
Qed.

Lemma keeps_attachment rq c messageId index : keeps may (get_attachment rq c messageId index).
Proof. unfold get_attachment. keep. apply keeps_in_room. unfold loadRawMail. destruct (negb _); [apply keeps_ret, _|apply keeps_read, _]. Qed.

Lemma keeps_trash rq c deleted userId : keeps may (trash_or_restore rq c deleted userId).
Proof. unfold trash_or_restore. keep. apply keeps_ib_write. intros st. apply may_update. intros ?. by split_and!. Qed.

Lemma keeps_delete rq c userId : (cv_kind c = k_support -> gone (cv_id c)) -> keeps may (delete_for_good rq c userId).
Proof.
  intros Hg. unfold delete_for_good. case_bool_decide as Hk; cbn [negb]; [|keep]. keep; [apply keeps_in_room, rows_delete|]. apply keeps_ib_write. intros st. split; [by left|]. intros x Hx _ Hng. exists x. split; [|by split_and!]. cbn. apply elem_of_bfilter. split; [done|].
  apply negb_true_iff, String.eqb_neq. intros E. apply Hng. rewrite E. by apply Hg.
Qed.

Lemma keeps_open rq c tenant : keeps may (open_conversation rq c tenant).
Proof. unfold open_conversation. keep. apply keeps_ib_write. intros st. apply may_update. intros ?. by split_and!. Qed.

Lemma keeps_reply env rq input c userId : (cv_kind c = k_support -> free (cv_id c)) -> keeps may (reply env rq input c userId).
Proof.
  intros Hf. unfold reply. destruct (ii_close input && bool_decide (cv_kind c = k_support)) eqn:E; keep; try apply keeps_threading. apply andb_true_iff in E as [_ E%bool_decide_eq_true]. apply keeps_ib_write. intros st. by apply may_status, Hf.
Qed.

(** Profiles change, and nothing else. *)
Lemma may_profiles f s : may s (on_ib_conv (on_profiles f) s).
Proof. apply may_rows; [done|]. intros c Hc. exists c. by split_and!. Qed.

Lemma keeps_verify rq c tenant profile userId : keeps may (verify_phone rq c tenant profile userId).
Proof. unfold verify_phone. keep. apply keeps_ib_write. intros st. apply may_profiles. Qed.

Lemma keeps_link env bullet rq c tenant profile userId : keeps may (phone_link env bullet rq c tenant profile userId).
Proof. unfold phone_link. keep; try apply keeps_threading. apply keeps_call; [apply _|]. intros st st' x. destruct (existsb _ _); [|done]. intros Hs. apply Returns_inj in Hs. apply (f_equal fst) in Hs. cbn [fst] in Hs. subst st'. apply may_profiles. Qed.

(** ** Decisions are guarded *)

Lemma may_tenant id status limit now s : (forall t, t_id t = id -> grants (set_tenant status limit now t)) -> may s (update_tenant id status limit now s).
Proof.
  intros Hg. split; [|intros c Hc _ _; exists c; by split_and!]. intros t (x & -> & Hx)%list_elem_of_fmap. destruct (String.eqb_spec (t_id x) id) as [E|_]; [right; by apply Hg|by left].
Qed.

(** A profile with both its address and its number verified. *)
Definition verified (profile : option OrganizationProfile) : Prop :=
  exists p e f, profile = Some p /\ op_email_verified_at p = Some e /\ e <> 0 /\ op_phone_verified_at p = Some f /\ f <> 0.

Lemma whole_between_iff v max z : whole_between v max = Some z -> v = JsInt z /\ 1 <= z <= max.
Proof. destruct v; cbn; try done. destruct (_ && _) eqn:E; [|done]. intros [= ->]. split; [done|]. apply andb_true_iff in E as [?%Z.leb_le ?%Z.leb_le]. lia. Qed.

Lemma keeps_approve env rq input c tenant profile userId threading : free (cv_id c) ->
  (t_status tenant = pending -> verified profile -> forall limit t, ii_workstationLimit input = JsInt limit -> 1 <= limit <= MAX_WORKSTATION_LIMIT -> t_id t = t_id tenant -> grants (set_tenant active (Some limit) (ir_now rq) t)) ->
  keeps may (approve_signup env rq input c tenant profile userId threading).
Proof.
  intros Hf Hg. unfold approve_signup. case_bool_decide as Hp; cbn [negb]; [|keep]. destruct (profile ≫= op_email_verified_at) as [e|] eqn:Ee; cbn [negb]; [|keep]. destruct (Z.eqb_spec e 0); cbn [negb]; [keep|].
  destruct (profile ≫= op_phone_verified_at) as [f|] eqn:Ef; cbn [negb]; [|keep]. destruct (Z.eqb_spec f 0); cbn [negb]; [keep|]. destruct (whole_between _ _) as [limit|] eqn:El; [|keep]. apply whole_between_iff in El as [El Hl].
  assert (Hv : verified profile) by (destruct profile as [p|]; [|done]; by exists p, e, f). keep; [|by apply keeps_decision|apply keeps_tell]. apply keeps_ib_write. intros st. apply may_tenant. intros t Ht. by apply Hg.
Qed.

Lemma keeps_reject env rq input c tenant userId threading : free (cv_id c) -> (forall t limit now, grants (set_tenant rejected limit now t)) -> keeps may (reject_signup env rq input c tenant userId threading).
Proof.
  intros Hf Hg. unfold reject_signup. keep; [|by apply keeps_decision|apply keeps_tell]. apply keeps_ib_write. intros st. apply may_tenant. intros t _. apply Hg.
Qed.

Lemma keeps_remote env rq input c tenant approve userId threading : free (cv_id c) -> keeps may (decide_remote env rq input c tenant approve userId threading).
Proof. intros Hf. unfold decide_remote. keep; try (by apply keeps_decision); try apply keeps_tell; apply keeps_ib_write; intros st; by apply may_accounts. Qed.

Lemma keeps_decide env rq input c tenant profile action userId : (cv_status c = s_open -> free (cv_id c)) -> (forall t limit now, grants (set_tenant rejected limit now t)) ->
  (action = "approve"%string -> cv_kind c = k_signup -> cv_status c = s_open -> t_status tenant = pending -> verified profile -> forall limit t, ii_workstationLimit input = JsInt limit -> 1 <= limit <= MAX_WORKSTATION_LIMIT -> t_id t = t_id tenant -> grants (set_tenant active (Some limit) (ir_now rq) t)) ->
  keeps may (decide_task env rq input c tenant profile action userId).
Proof.
  intros Hf Hr Hg. unfold decide_task, still_open. case_bool_decide as Ho; cbn [negb]; [|keep]. destruct (mailConfigProblem env); [keep|]. apply keeps_bind; [apply _|apply keeps_threading|]. intros threading. cbv zeta. destruct (_ && _); [keep|].
  destruct (cv_kind c) eqn:Ek; [|apply keeps_remote, Hf, Ho|keep]. destruct (String.eqb_spec action "approve"); [apply keeps_approve; [by apply Hf|by apply Hg]|apply keeps_reject; [by apply Hf|done]].
Qed.

(** ** A request *)

Context (s0 : InboxState) (rq : InboxRequest).
Hypothesis free_ok : forall c, c ∈ conversations (ib_conv s0) -> cv_kind c = k_support \/ cv_status c = s_open -> free (cv_id c).
Hypothesis gone_ok : forall c, c ∈ conversations (ib_conv s0) -> cv_kind c = k_support -> gone (cv_id c).
Hypothesis reject_ok : forall t limit now, grants (set_tenant rejected limit now t).
Hypothesis approve_ok : forall c tenant body limit t, c ∈ conversations (ib_conv s0) -> ir_method rq = "POST"%string -> inbox_path (ir_path rq) = Some (path_action (cv_id c) "approve") -> ir_body rq = Some body -> ii_workstationLimit body = JsInt limit -> cv_kind c = k_signup -> cv_status c = s_open -> cv_tenant_id c = Some (t_id tenant) -> tenant ∈ tenants_of s0 ->
  t_status tenant = pending -> verified (findOrganizationProfile (ib_conv s0) (t_id tenant)) -> 1 <= limit <= MAX_WORKSTATION_LIMIT -> t_id t = t_id tenant -> grants (set_tenant active (Some limit) (ir_now rq) t).

(** A program that keeps the relation, run here. *)
Ltac by_keeps E := revert E; match goal with |- ?m _ _ = _ -> _ => let Hk := fresh "Hk" in assert (Hk : keeps may m); [|intros E; exact (Hk _ _ _ _ _ E)] end.

Lemma act_may env bullet c tenant action userId o s' o' r : c ∈ conversations (ib_conv s0) -> ir_method rq = "POST"%string -> inbox_path (ir_path rq) = Some (path_action (cv_id c) action) ->
  (forall t, tenant = Some t -> t ∈ tenants_of s0 /\ cv_tenant_id c = Some (t_id t)) -> act env bullet rq c tenant action userId o s0 = (s', o', r) -> may s0 s'.
Proof.
  intros Hc Hmethod Hpath Ht E. unfold act in E. destruct (ir_body rq) as [body|] eqn:Ebody; [|by_keeps E; keep]. cbv zeta in E. set (input := readMessage body) in E.
  destruct (String.eqb action "unread"); [by_keeps E; keep; apply keeps_ib_write; intros st; apply may_update; intros ?; by split_and!|]. destruct (String.eqb action "note"); [by_keeps E; keep|].
  destruct (String.eqb action "reply"); [by_keeps E; apply keeps_reply; intros Hk; apply free_ok; auto|]. destruct (String.eqb action "status").
  { by_keeps E. case_bool_decide as Hk; cbn [negb]; keep. apply keeps_ib_write. intros st. apply may_status, free_ok; auto. }
  case_bool_decide as Hk; [by_keeps E; keep|]. destruct tenant as [t|]; [|by_keeps E; keep]. destruct (Ht t eq_refl) as [Hin Hid].
  apply eff_bind_inv in E as (s1 & o1 & r1 & E1 & E). apply eff_read_inv in E1 as [-> E1]. destruct r1 as [profile|e]; [|destruct E as (-> & _); reflexivity]. specialize (E1 profile eq_refl).
  destruct (String.eqb action "verify-phone"); [by_keeps E; apply keeps_verify|]. destruct (String.eqb action "phone-link"); [by_keeps E; apply keeps_link|]. by_keeps E. apply keeps_decide; [auto|done|].
  intros -> Hs Ho Hp Hv limit x Hlimit Hl Hx. apply (approve_ok c t body); try done. by rewrite <- E1.
Qed.

Lemma on_conversation_may id k early o s' o' r :
  (forall c m, c ∈ conversations (ib_conv s0) -> early c = Some m -> keeps may m) ->
  (forall c tenant o1, c ∈ conversations (ib_conv s0) -> cv_id c = id -> (forall t, tenant = Some t -> t ∈ tenants_of s0 /\ cv_tenant_id c = Some (t_id t)) -> k c tenant o1 s0 = (s', o', r) -> may s0 s') ->
  on_conversation id k early o s0 = (s', o', r) -> may s0 s'.
Proof.
  intros He Hk E. apply eff_bind_inv in E as (s1 & o1 & r1 & E1 & E). apply eff_read_inv in E1 as [-> E1]. destruct r1 as [found|e]; [|destruct E as (-> & _); reflexivity]. specialize (E1 found eq_refl).
  destruct found as [c|]; [|by_keeps E; keep]. symmetry in E1. pose proof E1 as [_ Eid%String.eqb_eq]%js_find_Some. apply findConversation_elem in E1. destruct (early c) as [m|] eqn:Em; [by_keeps E; by eapply He|].
  apply eff_bind_inv in E as (s2 & o2 & r2 & E2 & E). assert (Hs2 : s2 = s0 /\ forall t, r2 = Returns (Some t) -> t ∈ tenants_of s0 /\ cv_tenant_id c = Some (t_id t)).
  { destruct (cv_tenant_id c) as [t|]; cbn [mbind option_bind] in E2; [|by injection E2 as <- _ <-]. unfold nonempty in E2. destruct (String.eqb t ""); [by injection E2 as <- _ <-|]. apply eff_read_inv in E2 as [-> E2]. split; [done|].
    intros x Hx. specialize (E2 _ Hx). symmetry in E2. apply js_find_Some in E2 as [Hin Hid%String.eqb_eq]. split; [done|]. by rewrite Hid. }
  destruct Hs2 as [-> Ht]. destruct r2 as [tenant|e]; [|destruct E as (-> & _); reflexivity]. eapply Hk; [exact E1|exact Eid| |exact E]. intros t ->. by apply Ht.
Qed.

Lemma route_may env bullet o s' o' r : handleInboxRoute env bullet rq o s0 = (s', o', r) -> may s0 s'.
Proof.
  unfold handleInboxRoute. intros E. destruct (ir_session rq) as [session|]; [|by_keeps E; keep]. case_bool_decide; cbn [negb] in E; [|by_keeps E; keep]. remember (inbox_path (ir_path rq)) as found eqn:Epath in E. symmetry in Epath. destruct found as [path|]; [|by_keeps E; keep]. destruct path as [| |id|id action|id messageId index]; cbn [run_path] in E.
  - by_keeps E. keep.
  - by_keeps E. keep. apply keeps_compose.
  - revert E. apply on_conversation_may; [done|]. intros c tenant o1 _ _ _ E. by_keeps E. apply keeps_open.
  - revert E. apply on_conversation_may.
    + intros c m Hc. destruct (String.eqb action "trash"); [intros [= <-]; apply keeps_trash|]. destruct (String.eqb action "restore"); [intros [= <-]; apply keeps_trash|]. destruct (String.eqb action "delete"); [|done]. intros [= <-]. apply keeps_delete. by apply gone_ok.
    + intros c tenant o1 Hc <- Ht E. unfold posted in E. destruct (String.eqb_spec (ir_method rq) "POST"); [by eapply act_may|by_keeps E; keep].
  - revert E. apply on_conversation_may; [intros c m _ [= <-]; apply keeps_attachment|]. intros c tenant o1 _ _ _ E. by_keeps E. keep.
Qed.
End May.

(** ** What a request decides *)

Section Decided.
Context `{MailText} `{WebCrypto}.

Lemma path_action_text path id action : inbox_path path = Some (path_action id action) -> path = "/api/super/inbox/" +:+ id +:+ "/" +:+ action.
Proof.
  unfold inbox_path. intros E. rewrite <- (join_split_on "/" path). destruct (split_on "/" path) as [|[|] [|a [|b [|c rest]]]]; try done. destruct (negb _) eqn:En; [done|]. apply negb_false_iff in En. rewrite !andb_true_iff, !String.eqb_eq in En. destruct En as [[-> ->] ->].
  destruct rest as [|x [|y [|z [|i [|? ?]]]]]; try done.
  - destruct (String.eqb x "compose"); [done|]. by destruct (re_test INBOX_ID x).
  - destruct (_ && _); [|done]. by injection E as -> ->.
  - destruct (_ && _); [|done]. by destruct (attachment_ref i).
Qed.

(** C17. An organization comes to be active through the console only when a super
    admin approves the registration it waits with: the request is a POST whose path
    names a task and the action approve; the task is one of the table, open, of the
    kind of a registration and of that organization; the organization is pending; its
    profile has an address that was verified and a number that was verified; and the
    limit it gets is the one the request gives, a whole number from 1 to 100,000.
    Whatever else the request asks, and whatever calls fail on the way. *)
Theorem approvals_guarded env bullet rq o s s' o' r t : handleInboxRoute env bullet rq o s = (s', o', r) -> t ∈ tenants_of s' -> t ∉ tenants_of s -> t_status t = active ->
  (exists session, ir_session rq = Some session /\ role session = super_admin) /\ 1 <= t_workstation_limit t <= 100000 /\
  (exists body, ir_body rq = Some body /\ ii_workstationLimit body = JsInt (t_workstation_limit t)) /\
  exists c before, c ∈ conversations (ib_conv s) /\ ir_method rq = "POST"%string /\ ir_path rq = "/api/super/inbox/" +:+ cv_id c +:+ "/approve" /\
    cv_kind c = k_signup /\ cv_status c = s_open /\ cv_tenant_id c = Some (t_id t) /\
    before ∈ tenants_of s /\ t_id before = t_id t /\ t_status before = pending /\ verified (findOrganizationProfile (ib_conv s) (t_id t)).
Proof.
  intros E Hin Hnew Hactive. split.
  - unfold handleInboxRoute in E. destruct (ir_session rq) as [session|]; [|injection E as <- _ _; done]. case_bool_decide as Hr; cbn [negb] in E; [by exists session|injection E as <- _ _; done].
  - set (grants := fun x : Tenant => t_status x = active -> 1 <= t_workstation_limit x <= 100000 /\ (exists body, ir_body rq = Some body /\ ii_workstationLimit body = JsInt (t_workstation_limit x)) /\
      exists c before, c ∈ conversations (ib_conv s) /\ ir_method rq = "POST"%string /\ ir_path rq = "/api/super/inbox/" +:+ cv_id c +:+ "/approve" /\ cv_kind c = k_signup /\ cv_status c = s_open /\
      cv_tenant_id c = Some (t_id x) /\ before ∈ tenants_of s /\ t_id before = t_id x /\ t_status before = pending /\ verified (findOrganizationProfile (ib_conv s) (t_id x))).
    assert (Hm : may grants (fun _ => True) (fun _ => True) s s').
    { eapply route_may; [done|done|done| |exact E]. intros c tenant body limit x Hc Hmt Hpa%path_action_text Hb Hbl Hk Ho Ht Htin Hp Hv Hl Hx _. cbn [t_workstation_limit t_id set_tenant default]. split; [exact Hl|]. split; [by exists body|]. exists c, tenant. rewrite Hx. by split_and!. }
    destruct Hm as [Hm _]. destruct (Hm t Hin) as [Hold|Hg]; [done|]. by apply Hg.
Qed.

(** Tasks stay on record: whatever a request of the console asks, and whatever
    calls fail on the way, each registration and each request for Remote Control
    keeps its row, with its reference, its organization and its contact; and one
    that was decided keeps its decision, with when it was made and by whom. *)
Theorem tasks_stay_on_record env bullet rq o s s' o' r c : handleInboxRoute env bullet rq o s = (s', o', r) -> NoDup (List.map cv_id (conversations (ib_conv s))) -> c ∈ conversations (ib_conv s) -> cv_kind c <> k_support ->
  exists c', c' ∈ conversations (ib_conv s') /\ same_task c' c /\ (cv_status c <> s_open -> same_decision c' c).
Proof.
  intros E Hn Hc Hk. set (free := fun id => exists x, x ∈ conversations (ib_conv s) /\ cv_id x = id /\ (cv_kind x = k_support \/ cv_status x = s_open)). set (gone := fun id => exists x, x ∈ conversations (ib_conv s) /\ cv_id x = id /\ cv_kind x = k_support).
  assert (Hm : may (fun _ => True) free gone s s') by (eapply route_may; [intros x Hx Hx'; by exists x|intros x Hx Hx'; by exists x|done|done|exact E]).
  assert (Huniq : forall x, x ∈ conversations (ib_conv s) -> cv_id x = cv_id c -> x = c) by (intros x Hx Ex; by apply (map_NoDup_inj cv_id (conversations (ib_conv s)))).
  destruct Hm as [_ Hm]. destruct (Hm c Hc Hk) as (c' & Hc' & Hs & Hd); [intros (x & Hx & Ex & Hxk); by rewrite (Huniq x Hx Ex) in Hxk|]. exists c'. split; [done|]. split; [done|]. intros Ho. apply Hd.
  intros (x & Hx & Ex & Hxk). rewrite (Huniq x Hx Ex) in Hxk. by destruct Hxk.
Qed.
End Decided.

(** ** A registration decided *)

#[local] Existing Instance latin1.
#[local] Existing Instance toy_crypto.

Definition task_id : string := "00000000-0000-4000-8000-0000000000aa".
Definition applicant : Tenant := mkTenant "t1" "u1" "Greenwood" "greenwood" None pending portal "" None None 0 None 0 0 stable 0 0 0 0 1 None None None 0.
Definition application : Conversation := mkConversation task_id k_signup (Some "t1"%string) "REG-AAAAAA" "Greenwood" "ada@example.org" (Some "Ada"%string) s_open true 0 0 0 None None None registration None.
(** A profile whose number was verified at [phone]. *)
Definition contact_details (phone : option Z) : OrganizationProfile :=
  mkProfile "t1" None "Ada" "ada@example.org" "+1 555 0100" (Some 10) phone None "1 Road" None "Town" None "1000" "IN" None None None None None 0 0 None.
Definition console_before (phone : option Z) (task : Conversation) : InboxState :=
  mkInbox (mkAccounts (on_tenants (fun _ => [applicant]) empty_db) [] [] [] [] [] [] []) [] (mkRoom (mkConv [task] [] [contact_details phone] []) [] [] []) [].
Definition console_request (action : string) : InboxRequest :=
  mkInboxRequest (Some (mkSession "s" "root" None super_admin 9999)) "POST" ("/api/super/inbox/" +:+ task_id +:+ "/" +:+ action) [] (Some (mkInput "Welcome" false "" (JsInt 30) JsUndefined)) None
    (fun sub => "https://" +:+ sub +:+ ".labkiosk.org") "https://labkiosk.org" false "e1" (mkFilingDraws "c9" [1; 2; 3; 4; 5; 6] "o1" "<p@labkiosk.org>") [] 100.
Definition console_after (action : string) (phone : option Z) (task : Conversation) := handleInboxRoute mail_env "*" (console_request action) [] (console_before phone task).

Lemma approvals_guarded_witness :
  exists t, t ∈ tenants_of (fst (fst (console_after "approve" (Some 20) application))) /\ t_status t = active /\ t_workstation_limit t = 30 /\ verified (findOrganizationProfile (ib_conv (console_before (Some 20) application)) (t_id t)).
Proof.
  set (x := console_after "approve" (Some 20) application). assert (E : handleInboxRoute mail_env "*" (console_request "approve") [] (console_before (Some 20) application) = (fst (fst x), snd (fst x), snd x)) by (vm_compute; reflexivity).
  exists (set_tenant active (Some 30) 100 applicant). assert (Hin : set_tenant active (Some 30) 100 applicant ∈ tenants_of (fst (fst x))) by (apply list_elem_of_In; vm_compute; by left).
  split; [exact Hin|]. split; [reflexivity|]. split; [reflexivity|]. destruct (approvals_guarded _ _ _ _ _ _ _ _ _ E Hin) as (_ & _ & _ & c & before & H); [|reflexivity|apply H].
  intros [D|[]]%list_elem_of_In. apply (f_equal t_status) in D. discriminate.
Defined.

(** Without a verified number the same request is refused. *)
Example approval_refused : snd (console_after "approve" None application) = Returns (IError 409 "Verify the phone number before approving").
Proof. vm_compute. reflexivity. Qed.

(** A task that was rejected is not approved later. *)
Definition decided_task : Conversation := set_status s_rejected (Some "root"%string) 50 application.

Lemma tasks_stay_on_record_witness :
  snd (console_after "approve" (Some 20) decided_task) = Returns (IError 409 "This task has already been decided") /\
  exists c', c' ∈ conversations (ib_conv (fst (fst (console_after "approve" (Some 20) decided_task)))) /\ same_task c' decided_task /\ same_decision c' decided_task.
Proof.
  split; [vm_compute; reflexivity|]. set (x := console_after "approve" (Some 20) decided_task).
  destruct (tasks_stay_on_record mail_env "*" (console_request "approve") [] (console_before (Some 20) decided_task) (fst (fst x)) (snd (fst x)) (snd x) decided_task) as (c' & Hc & Hs & Hd).
  - vm_compute. reflexivity.
  - apply NoDup_singleton.
  - apply elem_of_cons. by left.
  - discriminate.
  - exists c'. split; [exact Hc|]. split; [exact Hs|]. apply Hd. discriminate.
Defined.
