(* ===== verification/Geo.v ===== *)
(** src/cloudflare-control/src/geo.ts: the countries a registration may name, their
    divisions, and the formats of their postal codes and tax numbers.

    The patterns of the tables are text, as in the source, and are read by
    [new_RegExp]: groups, alternatives, classes, [\d], escapes, [?], [{n}] and
    [{m,n}] between [^] and [$], which is all the tables use. A name outside ASCII
    is written in UTF-8 here and read by [latin]. *)
From S2P Require Import Prelude JsString Regex Scan Mime.

(** ** Text *)

(** The characters below 256 of a text written in UTF-8. *)
Fixpoint latin (s : string) : string :=
  match s with
  | String a ((String b t) as rest) => if 194 <=? code a then String (chr ((code a - 192) * 64 + (code b - 128))) (latin t) else String a (latin rest)
  | _ => s
  end.

(** [toUpperCase]; the capitals of two characters below 256 are not below 256, and
    those two stay. *)
Definition upper_text (c : ascii) : string :=
  if code c =? 223 then "SS"
  else if is_lower c || in_range 224 246 c || in_range 248 254 c then String (chr (code c - 32)) "" else String c "".
Fixpoint toUpperCase (s : string) : string := match s with ""%string => ""%string | String c t => upper_text c +:+ toUpperCase t end.

(** [String(raw ?? "").replace(/\s+/g, " ").trim()]. *)
Definition squeeze (s : string) : string := trim (replace_all spaces s).

(** ** Patterns *)

Fixpoint parse_class (p : ascii -> bool) (s : string) : option ((ascii -> bool) * string) :=
  match s with
  | ""%string => None
  | String c s1 =>
      if is_char "]" c then Some (p, s1)
      else if is_char backslash c then
        match s1 with ""%string => None | String d s2 => parse_class (fun x => p x || (if is_char "d" d then is_digit x else is_char d x)) s2 end
      else
        match s1 with
        | String dash (String hi s2) =>
            if is_char "-" dash && negb (is_char "]" hi) then parse_class (fun x => p x || in_range (code c) (code hi) x) s2
            else parse_class (fun x => p x || is_char c x) s1
        | _ => parse_class (fun x => p x || is_char c x) s1
        end
  end.

(** What follows an atom: nothing, [?], [{n}] or [{m,n}]. *)
Definition parse_quant (a : re) (s : string) : option (re * string) :=
  match s with
  | String c s1 =>
      if is_char "?" c then Some (ROpt a, s1)
      else if is_char "{" c then
        let '(m, rest) := span is_digit s1 in
        match rest with
        | String close rest1 =>
            if is_char "}" close then Some (RRep (Z.to_nat (digits_value m)) a, rest1)
            else
              let '(n, rest2) := span is_digit rest1 in
              match rest2 with
              | String close rest3 => if is_char "}" close then Some (RBetween (Z.to_nat (digits_value m)) (Z.to_nat (digits_value n)) a, rest3) else None
              | _ => None
              end
        | _ => None
        end
      else Some (a, s)
  | _ => Some (a, s)
  end.

Fixpoint parse_alt (fuel : nat) (s : string) : option (re * string) :=
  match fuel with
  | O => None
  | S f =>
      match parse_seq f s with
      | Some (r, String c rest) => if is_char "|" c then '(r', rest') ← parse_alt f rest; Some (RAlt r r', rest') else Some (r, String c rest)
      | x => x
      end
  end
with parse_seq (fuel : nat) (s : string) : option (re * string) :=
  match fuel with
  | O => None
  | S f =>
      match s with
      | ""%string => Some (REps, s)
      | String c s1 =>
          if is_char "|" c || is_char ")" c || is_char "$" c then Some (REps, s)
          else
            '(a, rest) ← (if is_char "(" c then
                            match parse_alt f s1 with Some (r, String close rest) => if is_char ")" close then Some (r, rest) else None | _ => None end
                          else if is_char "[" c then '(p, rest) ← parse_class (fun _ => false) s1; Some (RClass p, rest)
                          else if is_char backslash c then match s1 with String d rest => Some (if is_char "d" d then RClass is_digit else RChar d, rest) | _ => None end
                          else Some (RChar c, s1));
            '(item, rest') ← parse_quant a rest;
            '(r, rest'') ← parse_seq f rest';
            Some (RCat item r, rest'')
      end
  end.

(** A pattern between its anchors. *)
Definition new_RegExp (pattern : string) : option re :=
  match pattern with
  | String c s => if negb (is_char "^" c) then None else match parse_seq (2 * String.length s) s with Some (r, rest) => if String.eqb rest "$" then Some r else None | None => None end
  | _ => None
  end.
(** [new RegExp(pattern).test(value)]; a pattern outside the syntax matches nothing. *)
Definition pattern_test (pattern value : string) : bool := match new_RegExp pattern with Some r => re_test r value | None => false end.

(** ** The tables *)

Record CountryRow : Type := row { cr_code : string; cr_name : string; cr_dial : string; cr_aliases : string }.
Record Divisions : Type := mkDivisions { dv_label : string; dv_names : list string }.
Record TaxIdFormat : Type := mkTaxFormat { tf_label : string; tf_pattern : option (string * string) }.
Definition EU_VAT : string := "VAT number".

Definition COUNTRIES : list CountryRow := [
  row "AF" "Afghanistan" "93" ""; row "AX" (latin "Åland Islands") "358" ""; row "AL" "Albania" "355" ""; row "DZ" "Algeria" "213" "";
  row "AS" "American Samoa" "1684" ""; row "AD" "Andorra" "376" ""; row "AO" "Angola" "244" ""; row "AI" "Anguilla" "1264" ""; row "AG" "Antigua and Barbuda" "1268" "";
  row "AR" "Argentina" "54" ""; row "AM" "Armenia" "374" ""; row "AW" "Aruba" "297" ""; row "AU" "Australia" "61" ""; row "AT" "Austria" "43" "";
  row "AZ" "Azerbaijan" "994" ""; row "BS" "Bahamas" "1242" ""; row "BH" "Bahrain" "973" ""; row "BD" "Bangladesh" "880" ""; row "BB" "Barbados" "1246" "";
  row "BY" "Belarus" "375" ""; row "BE" "Belgium" "32" ""; row "BZ" "Belize" "501" ""; row "BJ" "Benin" "229" ""; row "BM" "Bermuda" "1441" "";
  row "BT" "Bhutan" "975" ""; row "BO" "Bolivia" "591" ""; row "BA" "Bosnia and Herzegovina" "387" ""; row "BW" "Botswana" "267" ""; row "BR" "Brazil" "55" "Brasil";
  row "IO" "British Indian Ocean Territory" "246" ""; row "VG" "British Virgin Islands" "1284" ""; row "BN" "Brunei" "673" ""; row "BG" "Bulgaria" "359" "";
  row "BF" "Burkina Faso" "226" ""; row "BI" "Burundi" "257" ""; row "KH" "Cambodia" "855" ""; row "CM" "Cameroon" "237" ""; row "CA" "Canada" "1" "";
  row "CV" "Cape Verde" "238" "Cabo Verde"; row "BQ" "Caribbean Netherlands" "599" "Bonaire Sint Eustatius Saba"; row "KY" "Cayman Islands" "1345" "";
  row "CF" "Central African Republic" "236" ""; row "TD" "Chad" "235" ""; row "CL" "Chile" "56" ""; row "CN" "China" "86" ""; row "CX" "Christmas Island" "61" "";
  row "CC" "Cocos (Keeling) Islands" "61" ""; row "CO" "Colombia" "57" ""; row "KM" "Comoros" "269" ""; row "CG" "Congo (Brazzaville)" "242" "Republic of the Congo";
  row "CD" "Congo (Kinshasa)" "243" "Democratic Republic of the Congo DRC"; row "CK" "Cook Islands" "682" ""; row "CR" "Costa Rica" "506" "";
  row "CI" (latin "Côte d'Ivoire") "225" "Ivory Coast"; row "HR" "Croatia" "385" ""; row "CU" "Cuba" "53" ""; row "CW" (latin "Curaçao") "599" "";
  row "CY" "Cyprus" "357" ""; row "CZ" "Czechia" "420" "Czech Republic"; row "DK" "Denmark" "45" ""; row "DJ" "Djibouti" "253" ""; row "DM" "Dominica" "1767" "";
  row "DO" "Dominican Republic" "1809" ""; row "EC" "Ecuador" "593" ""; row "EG" "Egypt" "20" ""; row "SV" "El Salvador" "503" ""; row "GQ" "Equatorial Guinea" "240" "";
  row "ER" "Eritrea" "291" ""; row "EE" "Estonia" "372" ""; row "SZ" "Eswatini" "268" "Swaziland"; row "ET" "Ethiopia" "251" ""; row "FK" "Falkland Islands" "500" "";
  row "FO" "Faroe Islands" "298" ""; row "FJ" "Fiji" "679" ""; row "FI" "Finland" "358" ""; row "FR" "France" "33" ""; row "GF" "French Guiana" "594" "";
  row "PF" "French Polynesia" "689" ""; row "GA" "Gabon" "241" ""; row "GM" "Gambia" "220" ""; row "GE" "Georgia" "995" ""; row "DE" "Germany" "49" "Deutschland";
  row "GH" "Ghana" "233" ""; row "GI" "Gibraltar" "350" ""; row "GR" "Greece" "30" ""; row "GL" "Greenland" "299" ""; row "GD" "Grenada" "1473" "";
  row "GP" "Guadeloupe" "590" ""; row "GU" "Guam" "1671" ""; row "GT" "Guatemala" "502" ""; row "GG" "Guernsey" "44" ""; row "GN" "Guinea" "224" "";
  row "GW" "Guinea-Bissau" "245" ""; row "GY" "Guyana" "592" ""; row "HT" "Haiti" "509" ""; row "HN" "Honduras" "504" ""; row "HK" "Hong Kong" "852" "";
  row "HU" "Hungary" "36" ""; row "IS" "Iceland" "354" ""; row "IN" "India" "91" "Bharat"; row "ID" "Indonesia" "62" ""; row "IR" "Iran" "98" "";
  row "IQ" "Iraq" "964" ""; row "IE" "Ireland" "353" ""; row "IM" "Isle of Man" "44" ""; row "IL" "Israel" "972" ""; row "IT" "Italy" "39" "Italia";
  row "JM" "Jamaica" "1876" ""; row "JP" "Japan" "81" ""; row "JE" "Jersey" "44" ""; row "JO" "Jordan" "962" ""; row "KZ" "Kazakhstan" "7" ""; row "KE" "Kenya" "254" "";
  row "KI" "Kiribati" "686" ""; row "XK" "Kosovo" "383" ""; row "KW" "Kuwait" "965" ""; row "KG" "Kyrgyzstan" "996" ""; row "LA" "Laos" "856" "";
  row "LV" "Latvia" "371" ""; row "LB" "Lebanon" "961" ""; row "LS" "Lesotho" "266" ""; row "LR" "Liberia" "231" ""; row "LY" "Libya" "218" "";
  row "LI" "Liechtenstein" "423" ""; row "LT" "Lithuania" "370" ""; row "LU" "Luxembourg" "352" ""; row "MO" "Macao" "853" "Macau"; row "MG" "Madagascar" "261" "";
  row "MW" "Malawi" "265" ""; row "MY" "Malaysia" "60" ""; row "MV" "Maldives" "960" ""; row "ML" "Mali" "223" ""; row "MT" "Malta" "356" "";
  row "MH" "Marshall Islands" "692" ""; row "MQ" "Martinique" "596" ""; row "MR" "Mauritania" "222" ""; row "MU" "Mauritius" "230" ""; row "YT" "Mayotte" "262" "";
  row "MX" "Mexico" "52" (latin "México"); row "FM" "Micronesia" "691" ""; row "MD" "Moldova" "373" ""; row "MC" "Monaco" "377" ""; row "MN" "Mongolia" "976" "";
  row "ME" "Montenegro" "382" ""; row "MS" "Montserrat" "1664" ""; row "MA" "Morocco" "212" ""; row "MZ" "Mozambique" "258" ""; row "MM" "Myanmar" "95" "Burma";
  row "NA" "Namibia" "264" ""; row "NR" "Nauru" "674" ""; row "NP" "Nepal" "977" ""; row "NL" "Netherlands" "31" "Holland"; row "NC" "New Caledonia" "687" "";
  row "NZ" "New Zealand" "64" ""; row "NI" "Nicaragua" "505" ""; row "NE" "Niger" "227" ""; row "NG" "Nigeria" "234" ""; row "NU" "Niue" "683" "";
  row "NF" "Norfolk Island" "672" ""; row "KP" "North Korea" "850" ""; row "MK" "North Macedonia" "389" ""; row "MP" "Northern Mariana Islands" "1670" "";
  row "NO" "Norway" "47" ""; row "OM" "Oman" "968" ""; row "PK" "Pakistan" "92" ""; row "PW" "Palau" "680" ""; row "PS" "Palestine" "970" ""; row "PA" "Panama" "507" "";
  row "PG" "Papua New Guinea" "675" ""; row "PY" "Paraguay" "595" ""; row "PE" "Peru" "51" ""; row "PH" "Philippines" "63" ""; row "PL" "Poland" "48" "";
  row "PT" "Portugal" "351" ""; row "PR" "Puerto Rico" "1787" ""; row "QA" "Qatar" "974" ""; row "RE" (latin "Réunion") "262" ""; row "RO" "Romania" "40" "";
  row "RU" "Russia" "7" ""; row "RW" "Rwanda" "250" ""; row "BL" (latin "Saint Barthélemy") "590" ""; row "SH" "Saint Helena" "290" "";
  row "KN" "Saint Kitts and Nevis" "1869" ""; row "LC" "Saint Lucia" "1758" ""; row "MF" "Saint Martin" "590" ""; row "PM" "Saint Pierre and Miquelon" "508" "";
  row "VC" "Saint Vincent and the Grenadines" "1784" ""; row "WS" "Samoa" "685" ""; row "SM" "San Marino" "378" ""; row "ST" (latin "São Tomé and Príncipe") "239" "";
  row "SA" "Saudi Arabia" "966" "KSA"; row "SN" "Senegal" "221" ""; row "RS" "Serbia" "381" ""; row "SC" "Seychelles" "248" ""; row "SL" "Sierra Leone" "232" "";
  row "SG" "Singapore" "65" ""; row "SX" "Sint Maarten" "1721" ""; row "SK" "Slovakia" "421" ""; row "SI" "Slovenia" "386" ""; row "SB" "Solomon Islands" "677" "";
  row "SO" "Somalia" "252" ""; row "ZA" "South Africa" "27" ""; row "KR" "South Korea" "82" "Korea Republic of"; row "SS" "South Sudan" "211" "";
  row "ES" "Spain" "34" (latin "España"); row "LK" "Sri Lanka" "94" ""; row "SD" "Sudan" "249" ""; row "SR" "Suriname" "597" "";
  row "SJ" "Svalbard and Jan Mayen" "47" ""; row "SE" "Sweden" "46" ""; row "CH" "Switzerland" "41" ""; row "SY" "Syria" "963" ""; row "TW" "Taiwan" "886" "";
  row "TJ" "Tajikistan" "992" ""; row "TZ" "Tanzania" "255" ""; row "TH" "Thailand" "66" ""; row "TL" "Timor-Leste" "670" "East Timor"; row "TG" "Togo" "228" "";
  row "TK" "Tokelau" "690" ""; row "TO" "Tonga" "676" ""; row "TT" "Trinidad and Tobago" "1868" ""; row "TN" "Tunisia" "216" "";
  row "TR" (latin "Türkiye") "90" "Turkey"; row "TM" "Turkmenistan" "993" ""; row "TC" "Turks and Caicos Islands" "1649" ""; row "TV" "Tuvalu" "688" "";
  row "VI" "U.S. Virgin Islands" "1340" ""; row "UG" "Uganda" "256" ""; row "UA" "Ukraine" "380" ""; row "AE" "United Arab Emirates" "971" "UAE Emirates";
  row "GB" "United Kingdom" "44" "UK Great Britain England Scotland Wales"; row "US" "United States" "1" "USA America"; row "UY" "Uruguay" "598" "";
  row "UZ" "Uzbekistan" "998" ""; row "VU" "Vanuatu" "678" ""; row "VA" "Vatican City" "39" "Holy See"; row "VE" "Venezuela" "58" ""; row "VN" "Vietnam" "84" "Viet Nam";
  row "WF" "Wallis and Futuna" "681" ""; row "EH" "Western Sahara" "212" ""; row "YE" "Yemen" "967" ""; row "ZM" "Zambia" "260" ""; row "ZW" "Zimbabwe" "263" ""
]%string.

Definition STATES : list (string * Divisions) := [
  ("AE", mkDivisions "Emirate" [
    "Abu Dhabi"; "Ajman"; "Dubai"; "Fujairah"; "Ras Al Khaimah"; "Sharjah"; "Umm Al Quwain"]);
  ("AU", mkDivisions "State or territory" [
    "Australian Capital Territory"; "New South Wales"; "Northern Territory"; "Queensland"; "South Australia"; "Tasmania"; "Victoria"; "Western Australia"]);
  ("BR", mkDivisions "State" [
    "Acre"; "Alagoas"; latin "Amapá"; "Amazonas"; "Bahia"; latin "Ceará"; "Distrito Federal"; latin "Espírito Santo"; latin "Goiás"; latin "Maranhão"; "Mato Grosso";
    "Mato Grosso do Sul"; "Minas Gerais"; latin "Pará"; latin "Paraíba"; latin "Paraná"; "Pernambuco"; latin "Piauí"; "Rio de Janeiro"; "Rio Grande do Norte";
    "Rio Grande do Sul"; latin "Rondônia"; "Roraima"; "Santa Catarina"; latin "São Paulo"; "Sergipe"; "Tocantins"]);
  ("CA", mkDivisions "Province or territory" [
    "Alberta"; "British Columbia"; "Manitoba"; "New Brunswick"; "Newfoundland and Labrador"; "Northwest Territories"; "Nova Scotia"; "Nunavut"; "Ontario";
    "Prince Edward Island"; "Quebec"; "Saskatchewan"; "Yukon"]);
  ("DE", mkDivisions "State" [
    latin "Baden-Württemberg"; "Bavaria"; "Berlin"; "Brandenburg"; "Bremen"; "Hamburg"; "Hesse"; "Lower Saxony"; "Mecklenburg-Vorpommern"; "North Rhine-Westphalia";
    "Rhineland-Palatinate"; "Saarland"; "Saxony"; "Saxony-Anhalt"; "Schleswig-Holstein"; "Thuringia"]);
  ("GB", mkDivisions "Country" [
    "England"; "Northern Ireland"; "Scotland"; "Wales"]);
  ("IN", mkDivisions "State or union territory" [
    "Andaman and Nicobar Islands"; "Andhra Pradesh"; "Arunachal Pradesh"; "Assam"; "Bihar"; "Chandigarh"; "Chhattisgarh"; "Dadra and Nagar Haveli and Daman and Diu";
    "Delhi"; "Goa"; "Gujarat"; "Haryana"; "Himachal Pradesh"; "Jammu and Kashmir"; "Jharkhand"; "Karnataka"; "Kerala"; "Ladakh"; "Lakshadweep"; "Madhya Pradesh";
    "Maharashtra"; "Manipur"; "Meghalaya"; "Mizoram"; "Nagaland"; "Odisha"; "Puducherry"; "Punjab"; "Rajasthan"; "Sikkim"; "Tamil Nadu"; "Telangana"; "Tripura";
    "Uttar Pradesh"; "Uttarakhand"; "West Bengal"]);
  ("JP", mkDivisions "Prefecture" [
    "Aichi"; "Akita"; "Aomori"; "Chiba"; "Ehime"; "Fukui"; "Fukuoka"; "Fukushima"; "Gifu"; "Gunma"; "Hiroshima"; "Hokkaido"; "Hyogo"; "Ibaraki"; "Ishikawa"; "Iwate";
    "Kagawa"; "Kagoshima"; "Kanagawa"; "Kochi"; "Kumamoto"; "Kyoto"; "Mie"; "Miyagi"; "Miyazaki"; "Nagano"; "Nagasaki"; "Nara"; "Niigata"; "Oita"; "Okayama"; "Okinawa";
    "Osaka"; "Saga"; "Saitama"; "Shiga"; "Shimane"; "Shizuoka"; "Tochigi"; "Tokushima"; "Tokyo"; "Tottori"; "Toyama"; "Wakayama"; "Yamagata"; "Yamaguchi"; "Yamanashi"]);
  ("MX", mkDivisions "State" [
    "Aguascalientes"; "Baja California"; "Baja California Sur"; "Campeche"; "Chiapas"; "Chihuahua"; latin "Ciudad de México"; "Coahuila"; "Colima"; "Durango";
    "Guanajuato"; "Guerrero"; "Hidalgo"; "Jalisco"; latin "México"; latin "Michoacán"; "Morelos"; "Nayarit"; latin "Nuevo León"; "Oaxaca"; "Puebla"; latin "Querétaro";
    "Quintana Roo"; latin "San Luis Potosí"; "Sinaloa"; "Sonora"; "Tabasco"; "Tamaulipas"; "Tlaxcala"; "Veracruz"; latin "Yucatán"; "Zacatecas"]);
  ("MY", mkDivisions "State or federal territory" [
    "Johor"; "Kedah"; "Kelantan"; "Kuala Lumpur"; "Labuan"; "Malacca"; "Negeri Sembilan"; "Pahang"; "Penang"; "Perak"; "Perlis"; "Putrajaya"; "Sabah"; "Sarawak";
    "Selangor"; "Terengganu"]);
  ("NG", mkDivisions "State" [
    "Abia"; "Adamawa"; "Akwa Ibom"; "Anambra"; "Bauchi"; "Bayelsa"; "Benue"; "Borno"; "Cross River"; "Delta"; "Ebonyi"; "Edo"; "Ekiti"; "Enugu";
    "Federal Capital Territory"; "Gombe"; "Imo"; "Jigawa"; "Kaduna"; "Kano"; "Katsina"; "Kebbi"; "Kogi"; "Kwara"; "Lagos"; "Nasarawa"; "Niger"; "Ogun"; "Ondo"; "Osun";
    "Oyo"; "Plateau"; "Rivers"; "Sokoto"; "Taraba"; "Yobe"; "Zamfara"]);
  ("PK", mkDivisions "Province or territory" [
    "Azad Jammu and Kashmir"; "Balochistan"; "Gilgit-Baltistan"; "Islamabad Capital Territory"; "Khyber Pakhtunkhwa"; "Punjab"; "Sindh"]);
  ("US", mkDivisions "State" [
    "Alabama"; "Alaska"; "Arizona"; "Arkansas"; "California"; "Colorado"; "Connecticut"; "Delaware"; "District of Columbia"; "Florida"; "Georgia"; "Hawaii"; "Idaho";
    "Illinois"; "Indiana"; "Iowa"; "Kansas"; "Kentucky"; "Louisiana"; "Maine"; "Maryland"; "Massachusetts"; "Michigan"; "Minnesota"; "Mississippi"; "Missouri";
    "Montana"; "Nebraska"; "Nevada"; "New Hampshire"; "New Jersey"; "New Mexico"; "New York"; "North Carolina"; "North Dakota"; "Ohio"; "Oklahoma"; "Oregon";
    "Pennsylvania"; "Rhode Island"; "South Carolina"; "South Dakota"; "Tennessee"; "Texas"; "Utah"; "Vermont"; "Virginia"; "Washington"; "West Virginia"; "Wisconsin";
    "Wyoming"]);
  ("ZA", mkDivisions "Province" [
    "Eastern Cape"; "Free State"; "Gauteng"; "KwaZulu-Natal"; "Limpopo"; "Mpumalanga"; "North West"; "Northern Cape"; "Western Cape"])
]%string.

Definition POSTAL_FORMATS : list (string * (string * string)) := [
  ("AD", ("^AD\d{3}$", "AD500")); ("AF", ("^\d{4}$", "1001")); ("AL", ("^\d{4}$", "1001")); ("AM", ("^\d{4}$", "0010"));
  ("AR", ("^([A-Z]\d{4}[A-Z]{3}|\d{4})$", "C1425CLA")); ("AT", ("^\d{4}$", "1010")); ("AU", ("^\d{4}$", "2000")); ("AZ", ("^(AZ ?)?\d{4}$", "AZ 1000"));
  ("BA", ("^\d{5}$", "71000")); ("BD", ("^\d{4}$", "1207")); ("BE", ("^\d{4}$", "1000")); ("BG", ("^\d{4}$", "1000")); ("BN", ("^[A-Z]{2} ?\d{4}$", "BS8811"));
  ("BR", ("^\d{5}-?\d{3}$", "01310-100")); ("BT", ("^\d{5}$", "11001")); ("BY", ("^\d{6}$", "220030"));
  ("CA", ("^[ABCEGHJ-NPRSTVXY]\d[ABCEGHJ-NPRSTV-Z] ?\d[ABCEGHJ-NPRSTV-Z]\d$", "K1A 0B1")); ("CH", ("^\d{4}$", "8001")); ("CL", ("^\d{7}$", "8320000"));
  ("CN", ("^\d{6}$", "100000")); ("CO", ("^\d{6}$", "110111")); ("CR", ("^\d{5}$", "10101")); ("CY", ("^\d{4}$", "1010")); ("CZ", ("^\d{3} ?\d{2}$", "110 00"));
  ("DE", ("^\d{5}$", "10115")); ("DK", ("^\d{4}$", "1050")); ("DO", ("^\d{5}$", "10101")); ("DZ", ("^\d{5}$", "16000")); ("EC", ("^\d{6}$", "170150"));
  ("EE", ("^\d{5}$", "10111")); ("EG", ("^\d{5}$", "11511")); ("ES", ("^\d{5}$", "28001")); ("ET", ("^\d{4}$", "1000")); ("FI", ("^\d{5}$", "00100"));
  ("FO", ("^\d{3}$", "100")); ("FR", ("^\d{5}$", "75001")); ("GB", ("^(GIR ?0AA|[A-Z]{1,2}\d[A-Z\d]? ?\d[A-Z]{2})$", "SW1A 1AA")); ("GE", ("^\d{4}$", "0105"));
  ("GL", ("^\d{4}$", "3900")); ("GR", ("^\d{3} ?\d{2}$", "104 31")); ("GT", ("^\d{5}$", "01001")); ("HR", ("^\d{5}$", "10000")); ("HU", ("^\d{4}$", "1051"));
  ("ID", ("^\d{5}$", "10110")); ("IE", ("^[A-Z]\d[\dW] ?[A-Z\d]{4}$", "D02 AF30")); ("IL", ("^\d{5}(\d{2})?$", "9414219")); ("IN", ("^[1-9]\d{2} ?\d{3}$", "110001"));
  ("IQ", ("^\d{5}$", "10001")); ("IR", ("^\d{10}$", "1193653471")); ("IS", ("^\d{3}$", "101")); ("IT", ("^\d{5}$", "00118")); ("JO", ("^\d{5}$", "11118"));
  ("JP", ("^\d{3}-?\d{4}$", "100-0001")); ("KE", ("^\d{5}$", "00100")); ("KR", ("^\d{5}$", "04524")); ("KW", ("^\d{5}$", "13001")); ("KZ", ("^\d{6}$", "010000"));
  ("LA", ("^\d{5}$", "01000")); ("LI", ("^\d{4}$", "9490")); ("LK", ("^\d{5}$", "00100")); ("LT", ("^(LT-)?\d{5}$", "LT-01100")); ("LU", ("^(L-)?\d{4}$", "L-1009"));
  ("LV", ("^(LV-)?\d{4}$", "LV-1050")); ("MA", ("^\d{5}$", "10000")); ("MC", ("^980\d{2}$", "98000")); ("MD", ("^(MD-?)?\d{4}$", "MD-2001"));
  ("MK", ("^\d{4}$", "1000")); ("MM", ("^\d{5}$", "11181")); ("MT", ("^[A-Z]{3} ?\d{4}$", "VLT 1117")); ("MV", ("^\d{5}$", "20026")); ("MX", ("^\d{5}$", "06000"));
  ("MY", ("^\d{5}$", "50000")); ("NG", ("^\d{6}$", "100001")); ("NL", ("^\d{4} ?[A-Z]{2}$", "1012 AB")); ("NO", ("^\d{4}$", "0150")); ("NP", ("^\d{5}$", "44600"));
  ("NZ", ("^\d{4}$", "6011")); ("OM", ("^\d{3}$", "100")); ("PE", ("^\d{5}$", "15001")); ("PH", ("^\d{4}$", "1000")); ("PK", ("^\d{5}$", "44000"));
  ("PL", ("^\d{2}-\d{3}$", "00-001")); ("PR", ("^\d{5}(-\d{4})?$", "00901")); ("PT", ("^\d{4}-\d{3}$", "1000-001")); ("RO", ("^\d{6}$", "010011"));
  ("RS", ("^\d{5}$", "11000")); ("RU", ("^\d{6}$", "101000")); ("SA", ("^\d{5}(-\d{4})?$", "11564")); ("SE", ("^\d{3} ?\d{2}$", "111 20"));
  ("SG", ("^\d{6}$", "018956")); ("SI", ("^\d{4}$", "1000")); ("SK", ("^\d{3} ?\d{2}$", "811 01")); ("SM", ("^4789\d$", "47890")); ("TH", ("^\d{5}$", "10200"));
  ("TN", ("^\d{4}$", "1000")); ("TR", ("^\d{5}$", "34000")); ("TW", ("^\d{3}(-?\d{2,3})?$", "100")); ("UA", ("^\d{5}$", "01001")); ("US", ("^\d{5}(-\d{4})?$", "94103"));
  ("UY", ("^\d{5}$", "11000")); ("UZ", ("^\d{6}$", "100000")); ("VA", ("^00120$", "00120")); ("VE", ("^\d{4}$", "1010")); ("VN", ("^\d{5,6}$", "100000"));
  ("ZA", ("^\d{4}$", "8001"))
]%string.

Definition NO_POSTAL_CODE : list string := [
  "AE"; "AG"; "AO"; "AW"; "BJ"; "BF"; "BI"; "BS"; "BW"; "BZ"; "CD"; "CF"; "CG"; "CI"; "CK"; "CM"; "CW"; "DJ"; "DM"; "ER"; "FJ"; "GD"; "GH"; "GM"; "GQ"; "GY"; "HK"; "KI";
  "KM"; "KN"; "KP"; "LC"; "ML"; "MO"; "MR"; "MW"; "NR"; "NU"; "QA"; "RW"; "SB"; "SC"; "SL"; "SO"; "SR"; "ST"; "SX"; "SY"; "TD"; "TG"; "TK"; "TL"; "TO"; "TT"; "TV"; "UG";
  "VU"; "YE"; "ZW"
]%string.

Definition TAX_IDS : list (string * TaxIdFormat) := [
  ("AE", mkTaxFormat "TRN (Tax Registration Number)" (Some ("^\d{15}$", "100123456700003"))); ("AR", mkTaxFormat "CUIT" (Some ("^\d{2}-?\d{8}-?\d$", "30-12345678-9")));
  ("AT", mkTaxFormat EU_VAT (Some ("^(AT)?U\d{8}$", "ATU12345678"))); ("AU", mkTaxFormat "ABN" (Some ("^\d{11}$", "51 824 753 556")));
  ("BE", mkTaxFormat EU_VAT (Some ("^(BE)?[01]\d{9}$", "BE0123456789"))); ("BG", mkTaxFormat EU_VAT (Some ("^(BG)?\d{9,10}$", "BG123456789")));
  ("BR", mkTaxFormat "CNPJ" (Some ("^\d{2}\.?\d{3}\.?\d{3}/?\d{4}-?\d{2}$", "12.345.678/0001-95")));
  ("CA", mkTaxFormat "Business Number (GST/HST)" (Some ("^\d{9}(RT\d{4})?$", "123456789RT0001")));
  ("CH", mkTaxFormat "UID (VAT number)" (Some ("^CHE-?\d{3}\.?\d{3}\.?\d{3}(MWST|TVA|IVA)?$", "CHE-123.456.789")));
  ("CL", mkTaxFormat "RUT" (Some ("^\d{1,2}\.?\d{3}\.?\d{3}-?[\dK]$", "76.123.456-7")));
  ("CN", mkTaxFormat "Unified Social Credit Code" (Some ("^[0-9A-Z]{18}$", "91350100M000100Y43")));
  ("CY", mkTaxFormat EU_VAT (Some ("^(CY)?\d{8}[A-Z]$", "CY12345678X"))); ("CZ", mkTaxFormat EU_VAT (Some ("^(CZ)?\d{8,10}$", "CZ12345678")));
  ("DE", mkTaxFormat "VAT number (USt-IdNr.)" (Some ("^(DE)?\d{9}$", "DE123456789"))); ("DK", mkTaxFormat "CVR / VAT number" (Some ("^(DK)?\d{8}$", "DK12345678")));
  ("EE", mkTaxFormat EU_VAT (Some ("^(EE)?\d{9}$", "EE123456789"))); ("ES", mkTaxFormat "NIF / VAT number" (Some ("^(ES)?[0-9A-Z]\d{7}[0-9A-Z]$", "ESB12345678")));
  ("FI", mkTaxFormat EU_VAT (Some ("^(FI)?\d{8}$", "FI12345678"))); ("FR", mkTaxFormat "VAT number (TVA)" (Some ("^(FR)?[0-9A-Z]{2}\d{9}$", "FR12345678901")));
  ("GB", mkTaxFormat "VAT registration number" (Some ("^(GB)?(\d{9}|\d{12})$", "GB123456789"))); ("GR", mkTaxFormat EU_VAT (Some ("^(EL|GR)?\d{9}$", "EL123456789")));
  ("HR", mkTaxFormat "OIB / VAT number" (Some ("^(HR)?\d{11}$", "HR12345678901"))); ("HU", mkTaxFormat EU_VAT (Some ("^(HU)?\d{8}$", "HU12345678")));
  ("IE", mkTaxFormat EU_VAT (Some ("^(IE)?(\d{7}[A-Z]{1,2}|\d[A-Z+*]\d{5}[A-Z])$", "IE1234567T")));
  ("IL", mkTaxFormat "Company or VAT number" (Some ("^\d{9}$", "512345678")));
  ("IN", mkTaxFormat "GSTIN" (Some ("^\d{2}[A-Z]{5}\d{4}[A-Z][1-9A-Z]Z[0-9A-Z]$", "27AAPFU0939F1ZV")));
  ("IT", mkTaxFormat "Partita IVA" (Some ("^(IT)?\d{11}$", "IT12345678901"))); ("JP", mkTaxFormat "Corporate Number" (Some ("^T?\d{13}$", "1234567890123")));
  ("KE", mkTaxFormat "KRA PIN" (Some ("^[AP]\d{9}[A-Z]$", "P051234567X")));
  ("KR", mkTaxFormat "Business Registration Number" (Some ("^\d{3}-?\d{2}-?\d{5}$", "123-45-67890")));
  ("LT", mkTaxFormat EU_VAT (Some ("^(LT)?(\d{9}|\d{12})$", "LT123456789"))); ("LU", mkTaxFormat EU_VAT (Some ("^(LU)?\d{8}$", "LU12345678")));
  ("LV", mkTaxFormat EU_VAT (Some ("^(LV)?\d{11}$", "LV12345678901"))); ("MT", mkTaxFormat EU_VAT (Some ("^(MT)?\d{8}$", "MT12345678")));
  ("MX", mkTaxFormat "RFC" (Some (latin "^[A-ZÑ&]{3,4}\d{6}[A-Z0-9]{3}$", "ABC680524P76"))); ("MY", mkTaxFormat "SST registration or TIN" None);
  ("NL", mkTaxFormat "VAT number (btw-id)" (Some ("^(NL)?\d{9}B\d{2}$", "NL123456789B01")));
  ("NO", mkTaxFormat "Organisation number (MVA)" (Some ("^(NO)?\d{9}(MVA)?$", "NO123456789MVA")));
  ("NZ", mkTaxFormat "GST number (IRD)" (Some ("^\d{8,9}$", "123456789"))); ("PE", mkTaxFormat "RUC" (Some ("^\d{11}$", "20123456789")));
  ("PL", mkTaxFormat "NIP / VAT number" (Some ("^(PL)?\d{10}$", "PL1234567890"))); ("PT", mkTaxFormat "NIF / VAT number" (Some ("^(PT)?\d{9}$", "PT123456789")));
  ("RO", mkTaxFormat "CUI / VAT number" (Some ("^(RO)?\d{2,10}$", "RO12345678"))); ("RU", mkTaxFormat "INN" (Some ("^(\d{10}|\d{12})$", "7707083893")));
  ("SA", mkTaxFormat "VAT registration number" (Some ("^\d{15}$", "300123456700003"))); ("SE", mkTaxFormat EU_VAT (Some ("^(SE)?\d{12}$", "SE123456789001")));
  ("SG", mkTaxFormat "UEN / GST registration number" (Some ("^[0-9A-Z]{9,10}$", "201912345K"))); ("SI", mkTaxFormat EU_VAT (Some ("^(SI)?\d{8}$", "SI12345678")));
  ("SK", mkTaxFormat EU_VAT (Some ("^(SK)?\d{10}$", "SK1234567890"))); ("TH", mkTaxFormat "Tax Identification Number" (Some ("^\d{13}$", "0105512345678")));
  ("TR", mkTaxFormat "Vergi Kimlik No (VKN)" (Some ("^\d{10}$", "1234567890"))); ("US", mkTaxFormat "EIN" (Some ("^\d{2}-?\d{7}$", "12-3456789")));
  ("ZA", mkTaxFormat "VAT number" (Some ("^4\d{9}$", "4123456789")))
]%string.

Definition KEEPS_LEADING_ZERO : list string := ["CG"; "CI"; "IT"; "SM"; "VA"]%string.
Definition DEFAULT_TAX_ID_LABEL : string := "Tax ID".

(** ** Checks *)

Record Country : Type := mkCountry { co_code : string; co_name_ : string; co_dial : string }.

(** BY_CODE and BY_NAME: of rows with the same key the last counts. *)
Definition BY_CODE (code_ : string) : option CountryRow := js_find (fun r => String.eqb (cr_code r) code_) (rev COUNTRIES).
Definition BY_NAME (name : string) : option CountryRow := js_find (fun r => String.eqb (toLowerCase (cr_name r)) name) (rev COUNTRIES).

(** [raw]: the text [String(raw ?? "")]. *)
Definition findCountry (raw : string) : option Country :=
  let value := squeeze raw in
  if String.eqb value "" then None
  else
    (fun r => mkCountry (cr_code r) (cr_name r) (cr_dial r)) <$>
      match BY_CODE (toUpperCase value) with Some r => Some r | None => BY_NAME (toLowerCase value) end.

Definition cleanPostalCode (raw : string) : string := str_take 20 (toUpperCase (squeeze raw)).
Definition no_spaces : matcher := fun s => (fun x => (""%string, snd x)) <$> spaces s.
Definition cleanTaxId (raw : string) : string := str_take 40 (toUpperCase (replace_all no_spaces raw)).
Definition needsPostalCode (countryCode : string) : bool := negb (bool_decide (countryCode ∈ NO_POSTAL_CODE)).

Definition postalCodeProblem (countryCode postalCode : string) : option string :=
  match assoc countryCode POSTAL_FORMATS with
  | None => None
  | Some (pattern, example) =>
      if String.eqb postalCode "" then None
      else if pattern_test pattern postalCode then None else Some ("That is not a postal code of this country. Example: " +:+ example)
  end.

Definition findState (countryCode raw : string) : option string :=
  let wanted := toLowerCase (squeeze raw) in
  match assoc countryCode STATES with
  | None => None
  | Some states => if String.eqb wanted "" then None else js_find (fun name => String.eqb (toLowerCase name) wanted) (dv_names states)
  end.

Definition taxIdProblem (countryCode taxId : string) : option string :=
  match assoc countryCode TAX_IDS with
  | Some (mkTaxFormat label (Some (pattern, example))) =>
      if String.eqb taxId "" then None else if pattern_test pattern taxId then None else Some ("That is not a valid " +:+ label +:+ ". Example: " +:+ example)
  | _ => None
  end.

(** ** The tables are in order *)

Definition is_country (code_ : string) : bool := existsb (fun r => String.eqb (cr_code r) code_) COUNTRIES.
Definition is_fine (problem : option string) : bool := match problem with None => true | Some _ => false end.
Definition postal_ok (x : string * (string * string)) : bool :=
  let '(c, (pattern, example)) := x in
  is_country c && needsPostalCode c && is_Some_b (new_RegExp pattern) && String.eqb (cleanPostalCode example) example && is_fine (postalCodeProblem c example).
Definition tax_ok (x : string * TaxIdFormat) : bool :=
  is_country (fst x) && match tf_pattern (snd x) with Some (pattern, example) => is_Some_b (new_RegExp pattern) && is_fine (taxIdProblem (fst x) (cleanTaxId example)) | None => true end.
Definition states_ok (x : string * Divisions) : bool := is_country (fst x) && bool_decide (NoDup (List.map toLowerCase (dv_names (snd x)))).

Lemma formats_checked : forallb postal_ok POSTAL_FORMATS = true /\ forallb tax_ok TAX_IDS = true /\ forallb states_ok STATES = true /\ forallb is_country NO_POSTAL_CODE = true.
Proof. vm_compute. split_and!; reflexivity. Qed.

Lemma countries_checked :
  bool_decide (NoDup (List.map cr_code COUNTRIES)) = true /\ bool_decide (NoDup (List.map (fun r => toLowerCase (cr_name r)) COUNTRIES)) = true /\
  forallb (fun r => (String.length (cr_code r) =? 2)%nat && (3 <=? String.length (cr_name r))%nat) COUNTRIES = true.
Proof. vm_compute. split_and!; reflexivity. Qed.

(** The only row with a key is the one found. *)
Lemma find_keyed_row {A} (key : A -> string) l k x : NoDup (List.map key l) -> x ∈ l /\ key x = k <-> js_find (fun y => String.eqb (key y) k) l = Some x.
Proof.
  intros Hn. split.
  - intros [Hx E]. destruct (js_find _ l) as [y|] eqn:F; [apply js_find_Some in F as [Hy Ey%String.eqb_eq]; f_equal; apply (map_NoDup_inj key l); congruence|].
    rewrite js_find_None in F. specialize (F x Hx). cbv beta in F. by rewrite E, String.eqb_refl in F.
  - intros [Hx E%String.eqb_eq]%js_find_Some. done.
Qed.

Lemma find_keyed_rev {A} (key : A -> string) l k x : NoDup (List.map key l) -> x ∈ l /\ key x = k <-> js_find (fun y => String.eqb (key y) k) (rev l) = Some x.
Proof.
  intros Hn. rewrite <- find_keyed_row; [by rewrite !list_elem_of_In, <- in_rev|]. rewrite map_rev. by rewrite <- Permutation_rev.
Qed.

Lemma length_lower s : String.length (toLowerCase s) = String.length s.
Proof. unfold toLowerCase. induction s as [|c s IH]; cbn; [done|by rewrite IH]. Qed.
Lemma length_upper s : (String.length s <= String.length (toUpperCase s))%nat.
Proof. induction s as [|c s IH]; cbn; [done|]. rewrite str_length_app. unfold upper_text. destruct (_ =? _); [cbn; lia|]. destruct (_ || _); cbn; lia. Qed.

Definition as_country (r : CountryRow) : Country := mkCountry (cr_code r) (cr_name r) (cr_dial r).

(** The lists of the registration form answer as one table. A country is found
    exactly by its code in either case or by its name in either case, whatever the
    spaces around and between the words, and always the same one; a division of a
    country is found exactly by its name, in either case, as the table spells it.
    And the form never asks what it then refuses: every country with a format, with
    divisions or without postal codes is in the list; every pattern is read; every
    example satisfies the pattern it is the example of; and no country has both a
    format of postal codes and none. *)
Theorem geo_answers :
  (forall raw c, findCountry raw = Some c <-> squeeze raw <> ""%string /\ exists r, r ∈ COUNTRIES /\ c = as_country r /\ (toUpperCase (squeeze raw) = cr_code r \/ toLowerCase (squeeze raw) = toLowerCase (cr_name r))) /\
  (forall code_ raw name, findState code_ raw = Some name <-> squeeze raw <> ""%string /\ exists d, assoc code_ STATES = Some d /\ name ∈ dv_names d /\ toLowerCase name = toLowerCase (squeeze raw)) /\
  (forall c pattern example, (c, (pattern, example)) ∈ POSTAL_FORMATS -> is_country c = true /\ c ∉ NO_POSTAL_CODE /\ postalCodeProblem c (cleanPostalCode example) = None) /\
  (forall c format pattern example, (c, format) ∈ TAX_IDS -> tf_pattern format = Some (pattern, example) -> is_country c = true /\ taxIdProblem c (cleanTaxId example) = None).
Proof.
  destruct countries_checked as (Hcodes%bool_decide_eq_true & Hnames%bool_decide_eq_true & Hlen). destruct formats_checked as (Hp & Ht & Hs & _). rewrite forallb_forall in Hlen, Hp, Ht, Hs. split_and!.
  - intros raw c. unfold findCountry. cbv zeta. destruct (String.eqb_spec (squeeze raw) "") as [E|E]; [split; [done|by intros []]|].
    assert (Hbc : forall r, r ∈ COUNTRIES -> toUpperCase (squeeze raw) = cr_code r -> BY_CODE (toUpperCase (squeeze raw)) = Some r) by (intros r Hr Er; apply find_keyed_rev; done).
    split.
    + intros F. apply fmap_Some in F as (r & F & ->). split; [done|]. exists r. destruct (BY_CODE _) as [r'|] eqn:Ec; [injection F as ->; apply find_keyed_rev in Ec as [? ?]; [|done]; by auto|].
      apply find_keyed_rev in F as [? ?]; [|done]. by auto.
    + intros (_ & r & Hr & -> & [Ec|Ec]); [by rewrite (Hbc r)|]. destruct (BY_CODE _) as [r'|] eqn:Eb.
      * apply find_keyed_rev in Eb as [Hr' Eb]; [|done]. exfalso. pose proof (Hlen _ (proj1 (list_elem_of_In _ _) Hr)) as L. pose proof (Hlen _ (proj1 (list_elem_of_In _ _) Hr')) as L'.
        apply andb_true_iff in L as [_ L%Nat.leb_le], L' as [L'%Nat.eqb_eq _]. pose proof (length_upper (squeeze raw)). apply (f_equal String.length) in Ec, Eb. rewrite !length_lower in Ec. lia.
      * unfold BY_NAME. by rewrite (proj1 (find_keyed_rev (fun r => toLowerCase (cr_name r)) COUNTRIES _ r Hnames) (conj Hr (eq_sym Ec))).
  - intros c raw name. unfold findState. cbv zeta. destruct (assoc c STATES) as [d|] eqn:Ed; [|split; [done|by intros (_ & ? & ? & _)]].
    pose proof (Hs _ (proj1 (list_elem_of_In _ _) (assoc_elem _ _ _ Ed))) as Hd. apply andb_true_iff in Hd as [_ Hd%bool_decide_eq_true]. cbn [snd] in Hd.
    destruct (String.eqb_spec (toLowerCase (squeeze raw)) "") as [E|E].
    + split; [done|]. intros (Hne & _). destruct (squeeze raw); [done|discriminate].
    + rewrite <- find_keyed_row by done. split; [intros [? ?]; split; [intros F; by rewrite F in E|by exists d]|]. intros (_ & d' & Hd' & ? & ?). injection Hd' as <-. by split.
  - intros c pattern example Hin%list_elem_of_In. specialize (Hp _ Hin). cbn [postal_ok] in Hp. rewrite !andb_true_iff in Hp. destruct Hp as ((((Hc & Hneed%negb_true_iff%bool_decide_eq_false) & _) & Heq%String.eqb_eq) & Hfine).
    split_and!; [done|done|]. rewrite Heq. unfold is_fine in Hfine. by destruct (postalCodeProblem c example).
  - intros c format pattern example Hin%list_elem_of_In E. specialize (Ht _ Hin). unfold tax_ok in Ht. cbn [fst snd] in Ht. rewrite E in Ht. bool_to_prop. split; [done|]. unfold is_fine in *. by destruct (taxIdProblem c _).
Qed.

Example latin_sample : String.length (latin "São Tomé and Príncipe") = 21%nat /\ findCountry " türkiye"%string = None /\ (co_code <$> findCountry (latin " TÜRKIYE ")) = Some "TR"%string.
Proof. vm_compute. split_and!; reflexivity. Qed.
