(* ===== verification/Phone.v ===== *)
(** src/cloudflare-control/src/phone_verify.ts and phone_link.ts: a phone number is
    proved by the ID token Firebase gives a page whose visitor entered the code it
    texted.

    The keys of Google are a cache of the Worker, read anew when they are old or do
    not have the key a token names; what Google answers is an argument at each place
    it is asked. A modulus or an exponent that is not text is taken as one that
    [importKey] refuses. The state of the link's route is that of the console
    (Inbox.v), and its statements may fail as in Mail.v. *)
From S2P Require Import Prelude JsString Regex Scan Platform Db Plans Auth WebAuthn Handoff SsoToken Mime TwoFactor Conversations Mail Mailroom Inbox.

Definition MAX_AUTH_AGE_SECONDS : Z := 15 * 60.
Definition PHONE_SKEW_SECONDS : Z := 60.
Definition DEFAULT_KEYS_SECONDS : Z := 3600.
Definition MAX_TOKEN_LENGTH : nat := 4096.

(** ** Settings *)

Record FirebaseEnv : Type := mkFirebaseEnv { FIREBASE_PROJECT_ID : string; FIREBASE_API_KEY : string; FIREBASE_AUTH_DOMAIN : string }.
Record FirebaseConfig : Type := mkFirebase { fb_projectId : string; fb_apiKey : string; fb_authDomain : string }.

Definition firebaseConfig (env : FirebaseEnv) : option FirebaseConfig :=
  let projectId := trim (FIREBASE_PROJECT_ID env) in
  let apiKey := trim (FIREBASE_API_KEY env) in
  let authDomain := trim (FIREBASE_AUTH_DOMAIN env) in
  if String.eqb projectId "" || String.eqb apiKey "" || String.eqb authDomain "" then None else Some (mkFirebase projectId apiKey authDomain).

Definition lower_label : re := RPlus (RClass (fun c => is_lower c || is_digit c || is_char "-" c)).
Definition PROJECT_ID : re := RBetween 4 40 (RClass (fun c => is_lower c || is_digit c || is_char "-" c)).
Definition API_KEY : re := RBetween 20 60 (RClass (fun c => is_upper c || is_lower c || is_digit c || is_char "_" c || is_char "-" c)).
Definition AUTH_DOMAIN : re := RCat lower_label (RPlus (RCat (RChar ".") lower_label)).

Definition firebaseConfigProblem (env : FirebaseEnv) : option string :=
  let values := List.map trim [FIREBASE_PROJECT_ID env; FIREBASE_API_KEY env; FIREBASE_AUTH_DOMAIN env] in
  match length (List.filter (fun v => negb (String.eqb v "")) values), values with
  | 0%nat, _ => None
  | 3%nat, [projectId; apiKey; authDomain] =>
      if negb (re_test PROJECT_ID projectId) then Some "FIREBASE_PROJECT_ID must be the project's id: lowercase letters, digits and hyphens."%string
      else if negb (re_test API_KEY apiKey) then Some "FIREBASE_API_KEY must be the web API key from the Firebase console."%string
      else if negb (re_test AUTH_DOMAIN authDomain) then Some "FIREBASE_AUTH_DOMAIN must be a host name, such as <project>.firebaseapp.com."%string
      else None
  | _, _ => Some "Phone verification is half configured: set FIREBASE_PROJECT_ID, FIREBASE_API_KEY and FIREBASE_AUTH_DOMAIN, or none of them (docs/DEPLOYMENT.md)."%string
  end.

(** Phone verification is on. *)
Definition firebase_on (env : FirebaseEnv) : option FirebaseConfig := match firebaseConfigProblem env with Some _ => None | None => firebaseConfig env end.

(** ** Keys *)

(** An answer of the key server: its status is a success, its JSON, its Cache-Control. *)
Record KeysResponse : Type := mkKeysResponse { kr_ok : bool; kr_body : option jsval; kr_cacheControl : option string }.
Notation rsa_verify := (list Z -> list Z -> bool).
Record KeyCache : Type := mkKeyCache { kc_keys : list (option string * rsa_verify); kc_until : Z }.

(** [/max-age=(\d+)/]: the digits of the first place that has some. *)
Fixpoint max_age_digits (s : string) : option string :=
  match s with
  | ""%string => None
  | String _ t =>
      match after "max-age=" s with
      | Some rest => let '(digits, _) := span is_digit rest in if String.eqb digits "" then max_age_digits t else Some digits
      | None => max_age_digits t
      end
  end.
Definition maxAge (cacheControl : option string) : Z :=
  let seconds := match max_age_digits (default ""%string cacheControl) with Some d => digits_value d | None => DEFAULT_KEYS_SECONDS end in
  Z.min (Z.max seconds 60) (24 * 3600).

(** What a condition takes for true. *)
Definition js_true (v : jsval) : bool :=
  match v with JsUndefined | JsNull => false | JsBool b => b | JsInt z => negb (z =? 0) | JsStr s => negb (String.eqb s "") | _ => true end.

Section Tokens.
Context `{Sealing} `{TokenCrypto}.

(** The keys of a set, the last of each name first; none where reading them throws.
    A name that is not text is the name of no token. *)
Fixpoint read_keys (jwks : list jsval) (keys : list (option string * rsa_verify)) : option (list (option string * rsa_verify)) :=
  match jwks with
  | [] => Some keys
  | JsNull :: _ => None
  | jwk :: rest =>
      if negb (js_true (js_get jwk "kid")) || negb (is_text (js_get jwk "kty") "RSA") || negb (js_true (js_get jwk "n")) || negb (js_true (js_get jwk "e")) then read_keys rest keys
      else
        match js_get jwk "n", js_get jwk "e" with
        | JsStr n, JsStr e =>
            key ← rsa_key n e;
            read_keys rest ((match js_get jwk "kid" with JsStr kid => Some kid | _ => None end, key) :: keys)
        | _, _ => None
        end
  end.

Definition served_keys (answer : option KeysResponse) : option (list (option string * rsa_verify)) :=
  r ← answer;
  if negb (kr_ok r) then None
  else
    body ← kr_body r;
    keys ← match js_get body "keys" with JsArr l => read_keys l [] | _ => None end;
    match keys with [] => None | _ => Some keys end.

Definition firebaseKeys (cache : option KeyCache) (answer : option KeysResponse) (now : Z) (forceRefresh : bool) : option KeyCache * option (list (option string * rsa_verify)) :=
  match cache with
  | Some c => if negb forceRefresh && (now <? kc_until c) then (cache, Some (kc_keys c))
              else match served_keys answer with Some keys => (Some (mkKeyCache keys (now + maxAge (answer ≫= kr_cacheControl))), Some keys) | None => (cache, None) end
  | None => match served_keys answer with Some keys => (Some (mkKeyCache keys (now + maxAge (answer ≫= kr_cacheControl))), Some keys) | None => (None, None) end
  end.

(** ** Tokens *)

Definition base64urlBytes (value : string) : option (list Z) :=
  if negb (str_forallb is_b64url value) then None else atob (str_map from_url value +:+ repeat_char "=" ((4 - String.length value mod 4) mod 4)).
Definition base64urlJson (value : string) : option jsval :=
  bytes ← base64urlBytes value;
  match json_parse (utf8_decode bytes) with Some (JsObj fields) => Some (JsObj fields) | _ => None end.

Inductive PhoneRefusal : Type := ph_malformed | ph_signature | ph_claims | ph_stale | ph_mismatch.
Inductive PhoneTokenResult : Type := PhoneOk (phone : string) | PhoneRefused (reason : PhoneRefusal) | PhoneUnavailable.

(** [x <= n], [x > n] and [x < n] of a number of the claims; another value is NaN. *)
Definition claim_le (v : jsval) (n : Z) : bool := match v with JsInt z => z <=? n | JsFrac f => f <? n | _ => false end.
Definition claim_gt (v : jsval) (n : Z) : bool := match v with JsInt z => n <? z | JsFrac f => n <=? f | _ => false end.
Definition claim_lt (v : jsval) (n : Z) : bool := match v with JsInt z => z <? n | JsFrac f => f <? n | _ => false end.

Definition claims_ok (config : FirebaseConfig) (claims : jsval) (now : Z) : bool :=
  is_text (js_get claims "iss") ("https://securetoken.google.com/" +:+ fb_projectId config) &&
  is_text (js_get claims "aud") (fb_projectId config) &&
  match js_get claims "sub" with JsStr s => negb (String.eqb s "") | _ => false end &&
  is_text (js_get (js_get claims "firebase") "sign_in_provider") "phone" &&
  claim_le (js_get claims "iat") (now + PHONE_SKEW_SECONDS) && claim_gt (js_get claims "exp") (now - PHONE_SKEW_SECONDS) && claim_le (js_get claims "auth_time") (now + PHONE_SKEW_SECONDS).

Definition key_named (kid : string) (keys : list (option string * rsa_verify)) : option rsa_verify := snd <$> js_find (fun x => bool_decide (fst x = Some kid)) keys.

(** The key a token names, by the cache or by Google's answers. *)
Definition named_key (cache : option KeyCache) (answer1 answer2 : option KeysResponse) (kid : string) (now : Z) : option KeyCache * option (option rsa_verify) :=
  let '(cache1, keys) := firebaseKeys cache answer1 now false in
  match keys with
  | None => (cache1, None)
  | Some keys =>
      match key_named kid keys with
      | Some key => (cache1, Some (Some key))
      | None => let '(cache2, keys) := firebaseKeys cache1 answer2 now true in (cache2, key_named kid <$> keys)
      end
  end.

Definition verifyPhoneToken (config : FirebaseConfig) (cache : option KeyCache) (answer1 answer2 : option KeysResponse) (token_ : jsval) (expectedPhone : string) (now : Z) : option KeyCache * PhoneTokenResult :=
  let refused reason := (cache, PhoneRefused reason) in
  match token_ with
  | JsStr token_ =>
      if String.eqb token_ "" || (MAX_TOKEN_LENGTH <? String.length token_)%nat then refused ph_malformed
      else
        match split_on "." token_ with
        | [p0; p1; p2] =>
            match base64urlJson p0, base64urlJson p1, base64urlBytes p2 with
            | Some header, Some claims, Some signature =>
                match (if is_text (js_get header "alg") "RS256" then js_get header "kid" else JsUndefined) with
                | JsStr kid =>
                    let '(cache', key) := named_key cache answer1 answer2 kid now in
                    (cache',
                     match key with
                     | None => PhoneUnavailable
                     | Some None => PhoneRefused ph_signature
                     | Some (Some verify) =>
                         if negb (verify signature (utf8_encode (p0 +:+ "." +:+ p1))) then PhoneRefused ph_signature
                         else if negb (claims_ok config claims now) then PhoneRefused ph_claims
                         else if claim_lt (js_get claims "auth_time") (now - MAX_AUTH_AGE_SECONDS) then PhoneRefused ph_stale
                         else if negb (is_text (js_get claims "phone_number") expectedPhone) then PhoneRefused ph_mismatch
                         else PhoneOk expectedPhone
                     end)
                | _ => refused ph_malformed
                end
            | _, _, _ => refused ph_malformed
            end
        | _ => refused ph_malformed
        end
  | _ => refused ph_malformed
  end.
End Tokens.

Definition phoneTokenMessage (result : PhoneTokenResult) : string * Z :=
  match result with
  | PhoneUnavailable => ("We could not check your phone number just now. Please try again in a moment."%string, 503)
  | PhoneRefused ph_stale => ("The phone check has expired. Send a new text message code and enter it."%string, 400)
  | PhoneRefused ph_mismatch => ("The phone number was changed after it was checked. Send a new text message code to this number."%string, 400)
  | _ => ("Verify your phone number with the code we text to it."%string, 400)
  end.

(** ** The emailed link *)

Definition TOKEN_PATTERN : re := RRep 64 (RClass is_lower_hex).
Definition LINK_GONE : InboxAnswer := IError 410 "This link has expired or was already used. Reply to our email for a new one.".

Section Link.
Context `{WebCrypto} `{Sealing} `{TokenCrypto}.

Definition has_link (token_ : string) (p : OrganizationProfile) : bool := match op_phone_link p with Some (hash, _) => String.eqb hash (linkHash token_) | None => false end.
Definition link_works (token_ : string) (now : Z) (p : OrganizationProfile) : bool :=
  match op_phone_link p with Some (_, expires) => has_link token_ p && (now <? expires) && negb (is_Some_b (op_phone_verified_at p)) | None => false end.

Definition findPhoneLink (token_ : jsval) (now : Z) : eff InboxState (option OrganizationProfile) :=
  match token_ with
  | JsStr t => if re_test TOKEN_PATTERN t then eff_read (fun s => js_find (link_works t now) (organization_profiles (ib_conv s))) else mret None
  | _ => mret None
  end.

Definition set_phone_by_text (ts : Z) (p : OrganizationProfile) : OrganizationProfile :=
  mkProfile (op_tenant_id p) (op_legal_name p) (op_contact_name p) (op_contact_email p) (op_contact_phone p) (op_email_verified_at p) (Some ts) None (op_address_line1 p)
    (op_address_line2 p) (op_city p) (op_region p) (op_postal_code p) (op_country p) (op_tax_id p) (op_billing_email p) (op_workstation_estimate p) (op_organization_type p) (op_notes p) (op_created_at p)
    ts None.
Definition completes (token_ tenantId : string) (p : OrganizationProfile) : bool := has_tenant tenantId p && has_link token_ p && negb (is_Some_b (op_phone_verified_at p)).
Definition completePhoneLink (token_ tenantId : string) (ts : Z) : eff InboxState bool :=
  eff_call (fun s => Returns (on_ib_conv (on_profiles (update_rows (completes token_ tenantId) (set_phone_by_text ts))) s, existsb (completes token_ tenantId) (organization_profiles (ib_conv s)))).

(** The newest registration of an organization. *)
Definition signup_task (tenantId : string) (s : ConvState) : option Conversation :=
  head (js_sort (fun a b => cv_created_at b - cv_created_at a) (List.filter (fun c => bool_decide (cv_tenant_id c = Some tenantId) && bool_decide (cv_kind c = k_signup)) (conversations s))).

(** [body]: none where it is not JSON. *)
Definition handleVerifyPhone (env : FirebaseEnv) (cache : option KeyCache) (answer1 answer2 : option KeysResponse) (body : option jsval) (event_id : string) (now : Z) : eff InboxState (InboxAnswer * option KeyCache) :=
  match body with
  | None => mret (IError 400 "The request body must be JSON", cache)
  | Some body =>
      match firebase_on env with
      | None => mret (IError 503 "Phone verification by text message is not set up on this platform.", cache)
      | Some firebase =>
          if is_nullish body then eff_throw "Cannot read properties of null"
          else
            profile ← findPhoneLink (js_get body "token") now;
            match profile, js_get body "token" with
            | Some profile, JsStr token_ =>
                let '(cache', checked) := verifyPhoneToken firebase cache answer1 answer2 (js_get body "phoneToken") (op_contact_phone profile) now in
                match checked with
                | PhoneOk _ =>
                    done_ ← completePhoneLink token_ (op_tenant_id profile) now;
                    if negb (done_ : bool) then mret (LINK_GONE, cache')
                    else
                      task ← eff_read (fun s => signup_task (op_tenant_id profile) (ib_conv s));
                      _ ← match task with
                          | Some c => in_room (add_message (mkMessage event_id (cv_id c) event None None None ("Phone number " +:+ op_contact_phone profile +:+ " verified by text message from the emailed link.") None None None None [] now))
                          | None => mret tt
                          end;
                      tenant ← eff_read (fun s => findTenantById (core (ib_accounts s)) (op_tenant_id profile));
                      _ ← audit (mkAudit (Some (op_tenant_id profile)) (match tenant with Some t => t_user_id t | None => ""%string end) "tenant.verify_phone_sms" None);
                      mret (IOk, cache')
                | refused => mret (IError (snd (phoneTokenMessage refused)) (fst (phoneTokenMessage refused)), cache')
                end
            | _, _ => mret (LINK_GONE, cache)
            end
      end
  end.
End Link.

(** ** What an accepted token proves *)

Section Proves.
Context `{WebCrypto} `{Sealing} `{TokenCrypto}.

(** The checks a Worker makes, one after the other, with what Google answers it. *)
Record PhoneCall : Type := mkPhoneCall { pc_token : jsval; pc_phone : string; pc_now : Z; pc_answer1 : option KeysResponse; pc_answer2 : option KeysResponse }.
Definition check_call (config : FirebaseConfig) (cache : option KeyCache) (c : PhoneCall) : option KeyCache * PhoneTokenResult :=
  verifyPhoneToken config cache (pc_answer1 c) (pc_answer2 c) (pc_token c) (pc_phone c) (pc_now c).
Definition cache_after (config : FirebaseConfig) (calls : list PhoneCall) : option KeyCache := foldl (fun cache c => fst (check_call config cache c)) None calls.

(** Keys that Google served at one of the calls, less than a day before [now]. *)
Definition served_at (calls : list PhoneCall) (keys : list (option string * rsa_verify)) (until : Z) : Prop :=
  exists c answer, c ∈ calls /\ (answer = pc_answer1 c \/ answer = pc_answer2 c) /\ served_keys answer = Some keys /\ until <= pc_now c + 24 * 3600.
Definition cache_ok (calls : list PhoneCall) (cache : option KeyCache) : Prop := forall c, cache = Some c -> served_at calls (kc_keys c) (kc_until c).

Lemma maxAge_day cc : maxAge cc <= 24 * 3600.
Proof. unfold maxAge. lia. Qed.

Lemma firebaseKeys_ok calls c cache answer force cache' keys : cache_ok calls cache -> c ∈ calls -> answer = pc_answer1 c \/ answer = pc_answer2 c ->
  firebaseKeys cache answer (pc_now c) force = (cache', keys) -> cache_ok calls cache' /\ forall l, keys = Some l -> served_at calls l (pc_now c).
Proof.
  intros Hok Hc Ha. pose proof (maxAge_day (answer ≫= kr_cacheControl)) as Hm.
  assert (Hfresh : forall l, served_keys answer = Some l -> cache_ok calls (Some (mkKeyCache l (pc_now c + maxAge (answer ≫= kr_cacheControl)))) /\ forall k, Some l = Some k -> served_at calls k (pc_now c)).
  { intros l Hl. split; [intros x [= <-]; exists c, answer; cbn [kc_keys kc_until]; split_and!; try done; lia|]. intros k [= <-]. exists c, answer. split_and!; try done. lia. }
  unfold firebaseKeys. destruct cache as [x|].
  - destruct (_ && _) eqn:E.
    + intros [= <- <-]. split; [done|]. intros l [= <-]. destruct (Hok x eq_refl) as (c' & a & ? & ? & ? & ?). apply andb_true_iff in E as [_ E%Z.ltb_lt]. exists c', a. split_and!; try done. lia.
    + destruct (served_keys answer) as [l|] eqn:El; intros [= <- <-]; [by apply Hfresh|by split].
  - destruct (served_keys answer) as [l|] eqn:El; intros [= <- <-]; [by apply Hfresh|by split].
Qed.

Lemma named_key_ok calls c cache kid cache' r : cache_ok calls cache -> c ∈ calls -> named_key cache (pc_answer1 c) (pc_answer2 c) kid (pc_now c) = (cache', r) ->
  cache_ok calls cache' /\ forall verify, r = Some (Some verify) -> exists keys, key_named kid keys = Some verify /\ served_at calls keys (pc_now c).
Proof.
  intros Hok Hc. unfold named_key. destruct (firebaseKeys cache (pc_answer1 c) (pc_now c) false) as [cache1 keys] eqn:E1. destruct (firebaseKeys_ok calls c _ _ _ _ _ Hok Hc (or_introl eq_refl) E1) as [Hok1 Hk1].
  destruct keys as [keys|]; [|by intros [= <- <-]]. destruct (key_named kid keys) as [v|] eqn:Ek; [intros [= <- <-]; split; [done|]; intros v' [= <-]; exists keys; split; [done|by apply Hk1]|].
  destruct (firebaseKeys cache1 (pc_answer2 c) (pc_now c) true) as [cache2 keys2] eqn:E2. destruct (firebaseKeys_ok calls c _ _ _ _ _ Hok1 Hc (or_intror eq_refl) E2) as [Hok2 Hk2]. intros [= <- <-]. split; [done|].
  intros v. destruct keys2 as [l|]; [|done]. intros [= E]. exists l. split; [done|by apply Hk2].
Qed.

(** What the claims say. *)
Definition proves_phone (config : FirebaseConfig) (claims : jsval) (phone : string) (now : Z) : Prop :=
  js_get claims "iss" = JsStr ("https://securetoken.google.com/" +:+ fb_projectId config) /\ js_get claims "aud" = JsStr (fb_projectId config) /\
  js_get (js_get claims "firebase") "sign_in_provider" = JsStr "phone" /\ js_get claims "phone_number" = JsStr phone /\
  (exists at_, (js_get claims "auth_time" = JsInt at_ \/ js_get claims "auth_time" = JsFrac at_) /\ now - MAX_AUTH_AGE_SECONDS <= at_ <= now + PHONE_SKEW_SECONDS) /\
  (exists exp, (js_get claims "exp" = JsInt exp \/ js_get claims "exp" = JsFrac exp) /\ now - PHONE_SKEW_SECONDS <= exp).

Lemma claims_ok_proves config claims phone now : claims_ok config claims now = true -> claim_lt (js_get claims "auth_time") (now - MAX_AUTH_AGE_SECONDS) = false -> is_text (js_get claims "phone_number") phone = true ->
  proves_phone config claims phone now.
Proof.
  unfold claims_ok. rewrite !andb_true_iff. intros ((((((Hiss & Haud) & _) & Hp) & _) & Hexp) & Hle) Hlt Hphone. unfold proves_phone. split_and!; try by apply is_text_iff.
  - destruct (js_get claims "auth_time"); cbn in Hle, Hlt; try done; eexists; (split; [eauto|]); [apply Z.leb_le in Hle|apply Z.ltb_lt in Hle]; apply Z.ltb_ge in Hlt; lia.
  - destruct (js_get claims "exp"); cbn in Hexp; try done; eexists; (split; [eauto|]); [apply Z.ltb_lt in Hexp|apply Z.leb_le in Hexp]; lia.
Qed.

(** The token is signed by a key Google served, and its claims name the number. *)
Definition phone_proof (config : FirebaseConfig) (calls : list PhoneCall) (token_ : jsval) (phone : string) (now : Z) : Prop :=
  exists p0 p1 p2 kid keys verify signature claims,
    token_ = JsStr (p0 +:+ "." +:+ p1 +:+ "." +:+ p2) /\ served_at calls keys now /\ key_named kid keys = Some verify /\
    base64urlBytes p2 = Some signature /\ verify signature (utf8_encode (p0 +:+ "." +:+ p1)) = true /\ base64urlJson p1 = Some claims /\ proves_phone config claims phone now.

Lemma check_call_ok config calls c cache cache' r : cache_ok calls cache -> c ∈ calls -> check_call config cache c = (cache', r) ->
  cache_ok calls cache' /\ forall phone, r = PhoneOk phone -> phone = pc_phone c /\ phone_proof config calls (pc_token c) phone (pc_now c).
Proof.
  intros Hok Hc. unfold check_call, verifyPhoneToken. cbv zeta. destruct (pc_token c) as [| | | | |t| |] eqn:Et; try (intros [= <- <-]; by split). destruct (_ || _); [intros [= <- <-]; by split|].
  pose proof (join_split_on "." t) as Hj. destruct (split_on "." t) as [|p0 [|p1 [|p2 [|? ?]]]]; try (intros [= <- <-]; by split).
  destruct (base64urlJson p0) as [header|]; [|intros [= <- <-]; by split]. destruct (base64urlJson p1) as [claims|] eqn:Ec; [|intros [= <- <-]; by split]. destruct (base64urlBytes p2) as [signature|] eqn:Es; [|intros [= <- <-]; by split].
  destruct (if is_text _ _ then _ else _) as [| | | | |kid| |]; try (intros [= <- <-]; by split). destruct (named_key _ _ _ kid _) as [cache1 key] eqn:Ek. apply (named_key_ok calls) in Ek as [Hok1 Hk]; [|done..]. intros [= <- <-]. split; [done|].
  intros phone. destruct key as [[verify|]|]; [|done..]. destruct (negb (verify _ _)) eqn:Ev; [done|]. destruct (negb (claims_ok _ _ _)) eqn:Eok; [done|]. destruct (claim_lt _ _) eqn:El; [done|]. destruct (negb (is_text _ _)) eqn:Ep; [done|].
  intros [= <-]. apply negb_false_iff in Ev, Eok, Ep. split; [done|]. destruct (Hk verify eq_refl) as (keys & Hkey & Hserved). exists p0, p1, p2, kid, keys, verify, signature, claims. rewrite <- Hj. split_and!; try done. by apply claims_ok_proves.
Qed.

Lemma cache_ok_mono calls calls' cache : (forall c, c ∈ calls -> c ∈ calls') -> cache_ok calls cache -> cache_ok calls' cache.
Proof. intros Hs Hok x Hx. destruct (Hok x Hx) as (c & a & ? & ? & ? & ?). exists c, a. split_and!; auto. Qed.

Lemma cache_after_ok config calls : cache_ok calls (cache_after config calls).
Proof.
  induction calls as [|c calls IH] using rev_ind; [intros x Hx; discriminate|]. unfold cache_after. rewrite foldl_app. cbn [foldl]. destruct (check_call config (foldl _ None calls) c) as [cache r] eqn:E. cbn [fst].
  eapply check_call_ok in E as [Hok _]; [exact Hok| |]; [eapply cache_ok_mono; [|exact IH]; intros x Hx; apply elem_of_app; by left|]. apply elem_of_app. right. by apply list_elem_of_singleton.
Qed.

(** A phone number counts as proved only by a token of Firebase for it. After
    any sequence of earlier checks, whatever keys Google served or failed to serve
    then, a token that is accepted is signed over its header and claims by a key
    Google served, under the name the token gives, at most a day before; and its
    claims are of this project, of a sign-in by phone, with this very number, made
    at most fifteen minutes ago, not expired and not in the future, beyond a minute
    of skew. *)
Theorem phone_token_proves config calls c phone : snd (check_call config (cache_after config calls) c) = PhoneOk phone ->
  phone = pc_phone c /\ phone_proof config (calls ++ [c]) (pc_token c) phone (pc_now c).
Proof.
  intros E. destruct (check_call config (cache_after config calls) c) as [cache r] eqn:Ec. cbn [snd] in E. subst r. eapply (check_call_ok config (calls ++ [c])) in Ec as [_ Hp]; [by apply Hp| |].
  - eapply cache_ok_mono; [|apply cache_after_ok]. intros x Hx. apply elem_of_app. by left.
  - apply elem_of_app. right. by apply list_elem_of_singleton.
Qed.
End Proves.

(** ** The link works once *)

Section Spent.
Context `{WebCrypto} `{Sealing} `{TokenCrypto}.

Definition profiles_of (s : InboxState) : list OrganizationProfile := organization_profiles (ib_conv s).
Definition same_profiles (s s' : InboxState) : Prop := profiles_of s' = profiles_of s.
Instance same_profiles_preorder : PreOrder same_profiles.
Proof. split; [done|]. intros a b c E1 E2. unfold same_profiles in *. congruence. Qed.

Lemma keeps_profiles_message m : keeps same_profiles (in_room (add_message m)).
Proof.
  intros o s s' o' r. unfold in_room. destruct (add_message m o (ib_room s)) as [[room o1] r1] eqn:E. intros [= <- _ _]. apply eff_call_inv in E as [[->|(u & E)] _]; [done|].
  unfold addConversationMessage in E. destruct (existsb _ _); [done|]. destruct (negb _); [done|]. cbn [mbind js_result_bind] in E. apply Returns_inj in E. apply (f_equal fst) in E. cbn [fst] in E. by subst room.
Qed.

Lemma keeps_profiles_audit entry : keeps same_profiles (audit entry).
Proof. apply keeps_bind; [apply _|apply keeps_try|intros; apply keeps_ret, _]. apply keeps_call; [apply _|]. intros s s' u [= <- _]. done. Qed.

(** After the number is recorded nothing touches the profiles. *)
Lemma keeps_told_verified profile event_id now (cache' : option KeyCache) : keeps same_profiles (
  task ← eff_read (fun s => signup_task (op_tenant_id profile) (ib_conv s));
  _ ← match task with
      | Some c => in_room (add_message (mkMessage event_id (cv_id c) event None None None ("Phone number " +:+ op_contact_phone profile +:+ " verified by text message from the emailed link.") None None None None [] now))
      | None => mret tt
      end;
  tenant ← eff_read (fun s => findTenantById (core (ib_accounts s)) (op_tenant_id profile));
  _ ← audit (mkAudit (Some (op_tenant_id profile)) (match tenant with Some t => t_user_id t | None => ""%string end) "tenant.verify_phone_sms" None);
  mret (IOk, cache')).
Proof.
  apply keeps_bind; [apply _|apply keeps_read, _|]. intros task. apply keeps_bind; [apply _|destruct task; [apply keeps_profiles_message|apply keeps_ret, _]|]. intros _.
  apply keeps_bind; [apply _|apply keeps_read, _|]. intros t. apply keeps_bind; [apply _|apply keeps_profiles_audit|]. intros _. apply keeps_ret, _.
Qed.

(** What the update leaves of the rows. *)
Lemma completed_rows t id now l p' : p' ∈ update_rows (completes t id) (set_phone_by_text now) l -> p' ∈ l \/ exists p, p ∈ l /\ completes t id p = true /\ p' = set_phone_by_text now p.
Proof. intros (p & -> & Hp)%list_elem_of_fmap. destruct (completes t id p) eqn:E; [right; by exists p|by left]. Qed.

Lemma complete_inv t id now o s s' o' r : completePhoneLink t id now o s = (s', o', r) ->
  (profiles_of s' = profiles_of s \/ profiles_of s' = update_rows (completes t id) (set_phone_by_text now) (profiles_of s)) /\
  (r = Returns true -> exists p, p ∈ profiles_of s /\ completes t id p = true /\ set_phone_by_text now p ∈ profiles_of s').
Proof.
  intros [Hs Hr]%eff_call_inv. split; [destruct Hs as [->|(a & [= <- _])]; [by left|by right]|]. intros ->. specialize (Hr _ eq_refl). injection Hr as <- He. apply existsb_elem in He as (p & Hp & Hc). exists p. split_and!; try done.
  unfold profiles_of, ib_conv. cbn. apply list_elem_of_fmap. exists p. by rewrite Hc.
Qed.

(** The emailed link verifies a number once, and only with a proof of it. A
    request with a link changes no profile but the one the link is of: that one was
    not verified, the link on record is the hash of the token sent and had not
    expired, and the request carried a token of Firebase that proves the number on
    record. A profile so verified has no link any more; and a request that is
    answered with success has verified one. Whatever calls fail on the way. *)
Theorem phone_link_spent env calls answer1 answer2 body event_id now o s s' o' r : NoDup (List.map op_tenant_id (profiles_of s)) ->
  handleVerifyPhone env (cache_after (default (mkFirebase "" "" "") (firebase_on env)) calls) answer1 answer2 (Some body) event_id now o s = (s', o', r) ->
  (forall p', p' ∈ profiles_of s' -> p' ∉ profiles_of s -> exists p token_ expires config, p ∈ profiles_of s /\ p' = set_phone_by_text now p /\ op_phone_verified_at p = None /\
     js_get body "token" = JsStr token_ /\ op_phone_link p = Some (linkHash token_, expires) /\ now < expires /\ op_phone_link p' = None /\ firebase_on env = Some config /\
     phone_proof config (calls ++ [mkPhoneCall (js_get body "phoneToken") (op_contact_phone p) now answer1 answer2]) (js_get body "phoneToken") (op_contact_phone p) now) /\
  (forall cache, r = Returns (IOk, cache) -> exists p, p ∈ profiles_of s /\ op_phone_verified_at p = None /\ set_phone_by_text now p ∈ profiles_of s').
Proof.
  intros Hn. unfold handleVerifyPhone. destruct (firebase_on env) as [config|] eqn:Ef; [|intros [= <- _ <-]; split; [done|by intros]]. destruct (is_nullish body); [intros [= <- _ <-]; split; [done|by intros]|]. cbn [default]. unfold id.
  intros E. apply eff_bind_inv in E as (s1 & o1 & r1 & E1 & E). assert (Hfind : s1 = s /\ forall p, r1 = Returns (Some p) -> exists t, js_get body "token" = JsStr t /\ p ∈ profiles_of s /\ link_works t now p = true).
  { unfold findPhoneLink in E1. destruct (js_get body "token") as [| | | | |t| |]; try (injection E1 as <- _ <-; by split). destruct (re_test _ t); [|injection E1 as <- _ <-; by split]. apply eff_read_inv in E1 as [-> E1]. split; [done|].
    intros p Hp. specialize (E1 _ Hp). symmetry in E1. apply js_find_Some in E1 as [? ?]. by exists t. }
  destruct Hfind as [-> Hfind]. destruct r1 as [profile|e]; [|destruct E as (-> & -> & ->); split; [done|by intros]]. destruct profile as [p|]; [|injection E as <- _ <-; split; [done|by intros]].
  destruct (Hfind p eq_refl) as (t & Ht & Hp & Hw). rewrite Ht in E. destruct (verifyPhoneToken _ _ _ _ _ _ _) as [cache' checked] eqn:Ev. destruct checked as [phone|reason|]; [|injection E as <- _ <-; split; [done|by intros]..].
  pose proof (phone_token_proves config calls (mkPhoneCall (js_get body "phoneToken") (op_contact_phone p) now answer1 answer2) phone) as Hproof. unfold check_call in Hproof. cbn [pc_answer1 pc_answer2 pc_token pc_phone pc_now] in Hproof. rewrite Ev in Hproof.
  destruct (Hproof eq_refl) as [-> Hproof']. clear Hproof. apply eff_bind_inv in E as (s2 & o2 & r2 & E2 & E). apply complete_inv in E2 as [Hrows Hdone].
  assert (Hlast : profiles_of s' = profiles_of s2 /\ forall cache, r = Returns (IOk, cache) -> r2 = Returns true).
  { destruct r2 as [[]|e]; cbn [negb] in E; [|by injection E as <- _ <-|destruct E as (-> & _ & ->); by split]. split; [|done]. exact (keeps_told_verified p event_id now cache' _ _ _ _ _ E). }
  destruct Hlast as [Hlast Hok]. split.
  - intros p' Hin Hout. rewrite Hlast in Hin. destruct Hrows as [Hr|Hr]; rewrite Hr in Hin; [done|]. apply completed_rows in Hin as [Hin|(q & Hq & Hc & ->)]; [done|]. unfold completes in Hc. rewrite !andb_true_iff in Hc. destruct Hc as [[Hid%String.eqb_eq Hl] Hv%negb_true_iff].
    assert (q = p) as -> by (apply (map_NoDup_inj op_tenant_id (profiles_of s)); done). unfold link_works in Hw. unfold has_link in Hl, Hw. destruct (op_phone_link p) as [[hash expires]|] eqn:El; [|done]. rewrite !andb_true_iff in Hw. destruct Hw as [[_ Hw%Z.ltb_lt] _]. apply String.eqb_eq in Hl as ->.
    exists p, t, expires, config. split_and!; try done. by destruct (op_phone_verified_at p).
  - intros cache Hr. destruct (Hdone (Hok cache Hr)) as (q & Hq & Hc & Hin). exists q. rewrite Hlast. split_and!; try done. unfold completes in Hc. rewrite !andb_true_iff in Hc. destruct Hc as [_ Hv%negb_true_iff]. by destruct (op_phone_verified_at q).
Qed.
End Spent.

(** ** A link that is used *)

Definition phone_claims : jsval :=
  JsObj [("iss", JsStr "https://securetoken.google.com/lab-kiosk"); ("aud", JsStr "lab-kiosk"); ("sub", JsStr "u"); ("firebase", JsObj [("sign_in_provider", JsStr "phone")]); ("iat", JsInt 90); ("exp", JsInt 3690); ("auth_time", JsInt 80);
         ("phone_number", JsStr "+1 555 0100")]%string.
Definition phone_sealing : Sealing := {|
  handoffKey := fun _ => [];
  gcm_encrypt := fun _ _ p => p;
  gcm_decrypt := fun _ _ c => Some c;
  utf8_encode := fun s => List.map code (String.list_ascii_of_string s);
  utf8_decode := fun l => String.string_of_list_ascii (List.map chr l);
  json_stringify := fun _ => ""%string;
  json_parse := fun s => if String.eqb s "H" then Some demo_header else if String.eqb s "C" then Some phone_claims else None
|}.
#[local] Existing Instance phone_sealing.
#[local] Existing Instance token_keys.
#[local] Existing Instance toy_crypto.

Definition phone_env : FirebaseEnv := mkFirebaseEnv "lab-kiosk" "AAAAAAAAAAAAAAAAAAAA" "lab-kiosk.firebaseapp.com".
Definition key_answer : option KeysResponse := Some (mkKeysResponse true (Some (JsObj [("keys"%string, JsArr [demo_jwk])])) (Some "public, max-age=600"%string)).
Definition link_token : string := join "" (replicate 32 "0a"%string).
Definition link_before (phone : string) : InboxState :=
  let p := set_phone_link (Some (linkHash link_token, 500)) 0 (contact_details None) in
  on_ib_conv (on_profiles (fun _ => [mkProfile (op_tenant_id p) None "Ada" "ada@example.org" phone (Some 10) None None "1 Road" None "Town" None "1000" "IN" None None None None None 0 0 (op_phone_link p)])) (console_before None application).
Definition link_body : jsval := JsObj [("token", JsStr link_token); ("phoneToken", JsStr "SA.Qw.AA")]%string.
Definition link_after (s : InboxState) := handleVerifyPhone phone_env None key_answer None (Some link_body) "e1" 100 [] s.

Lemma phone_link_spent_witness :
  exists p', p' ∈ profiles_of (fst (fst (link_after (link_before "+1 555 0100")))) /\ op_phone_verified_at p' = Some 100 /\ op_phone_link p' = None /\ (exists config, firebase_on phone_env = Some config /\ phone_proof config [mkPhoneCall (JsStr "SA.Qw.AA") "+1 555 0100" 100 key_answer None] (JsStr "SA.Qw.AA") "+1 555 0100" 100).
Proof.
  set (x := link_after (link_before "+1 555 0100")).
  assert (E : handleVerifyPhone phone_env (cache_after (default (mkFirebase "" "" "") (firebase_on phone_env)) []) key_answer None (Some link_body) "e1" 100 [] (link_before "+1 555 0100") = (fst (fst x), snd (fst x), snd x)) by (vm_compute; reflexivity).
  destruct (phone_link_spent phone_env [] key_answer None link_body "e1" 100 [] (link_before "+1 555 0100") _ _ _ (NoDup_singleton _) E) as [Hnew Hok].
  destruct (Hok (Some (mkKeyCache [(Some "k1"%string, fun signature _ => (length signature =? 1)%nat)] 700))) as (p & Hp & _ & Hin); [vm_compute; reflexivity|].
  exists (set_phone_by_text 100 p). split; [exact Hin|]. split; [reflexivity|]. split; [reflexivity|]. apply list_elem_of_In in Hp as [Hp|[]].
  destruct (Hnew _ Hin) as (q & t & expires & config & Hq & _ & _ & _ & _ & _ & _ & Hc & Hproof); [intros [D|[]]%list_elem_of_In; apply (f_equal op_phone_verified_at) in D; discriminate|].
  exists config. split; [exact Hc|]. apply list_elem_of_In in Hq as [<-|[]]. exact Hproof.
Defined.

(** The link does not work again, nor for another number than the one proved. *)
Example link_used_again : snd (link_after (fst (fst (link_after (link_before "+1 555 0100"))))) = Returns (LINK_GONE, None) /\
  match snd (link_after (link_before "+1 555 0199")) with Returns (a, _) => a = IError 400 "The phone number was changed after it was checked. Send a new text message code to this number." | Throws _ => False end.
Proof. vm_compute. split; reflexivity. Qed.
