(* ===== verification/Legal.v ===== *)
(** src/cloudflare-control/src/legal.ts and the routes of index.ts that use it: the
    versions of the legal documents, who accepted which, and when a console asks
    before anything else.

    The documents in force are an argument, so that a run spans releases that
    change them; [LEGAL_DOCUMENTS] are those of the source. A handler runs alone.
    What is mailed and whether a message goes out are arguments; an organization's
    row is older than those inserted after it. *)
From S2P Require Import Prelude JsString Scan Platform Db Calendar Mime Guard TwoFactor.

Inductive LegalDocumentId : Type := terms | content | privacy.
#[export] Instance LegalDocumentId_eq_dec : EqDecision LegalDocumentId.
Proof. solve_decision. Defined.
Definition document_text (d : LegalDocumentId) : string := match d with terms => "terms" | content => "content" | privacy => "privacy" end.

Record LegalDocument : Type := mkDocument { ld_id : LegalDocumentId; ld_title : string; ld_path : string; ld_version : string; ld_required : bool }.

Definition LEGAL_DOCUMENTS : list LegalDocument := [
  mkDocument terms "Terms of Service" "/terms" "2026-10-20" true;
  mkDocument content "Content Policy" "/content-policy" "2026-10-13" true;
  mkDocument privacy "Privacy Policy" "/privacy" "2026-11-03" false
].

Definition LEGAL_NOTICE_DAYS : Z := 30.
Definition LEGAL_DAY : Z := 86400.

Record LegalVersion : Type := mkVersion { lv_document : string; lv_version : string; lv_published_at : Z; lv_notified_at : option Z }.
Inductive AcceptanceSource : Type := at_registration | in_console.
Record AcceptanceRow : Type := mkAcceptance {
  ac_id : string;
  ac_tenant_id : string;
  ac_tenant_name : string;
  ac_user_id : string;
  ac_user_email : string;
  ac_document : string;
  ac_version : string;
  ac_source : AcceptanceSource;
  ac_accepted_at : Z;
  ac_ip : option string;
  ac_user_agent : option string
}.

Record LegalState : Type := mkLegal { lg_accounts : AccountDb; legal_versions : list LegalVersion; legal_acceptances : list AcceptanceRow }.
Definition on_versions (f : list LegalVersion -> list LegalVersion) (s : LegalState) : LegalState := mkLegal (lg_accounts s) (f (legal_versions s)) (legal_acceptances s).
Definition on_acceptances (f : list AcceptanceRow -> list AcceptanceRow) (s : LegalState) : LegalState := mkLegal (lg_accounts s) (legal_versions s) (f (legal_acceptances s)).
Definition lg_audited (entry : AuditRow) (s : LegalState) : LegalState := mkLegal (writeAuditLog entry (lg_accounts s)) (legal_versions s) (legal_acceptances s).

(** ** Versions *)

Definition isLegalDocumentId (value : jsval) : option LegalDocumentId :=
  match value with JsStr s => js_find (fun d => String.eqb (document_text d) s) (List.map ld_id LEGAL_DOCUMENTS) | _ => None end.

Definition is_version (d : LegalDocument) (r : LegalVersion) : bool := String.eqb (lv_document r) (document_text (ld_id d)) && String.eqb (lv_version r) (ld_version d).

Record PublishedVersion : Type := mkPublished { pv_doc : LegalDocument; pv_publishedAt : Z; pv_effectiveAt : Z; pv_notifiedAt : option Z }.
Definition published (d : LegalDocument) (r : LegalVersion) : PublishedVersion := mkPublished d (lv_published_at r) (lv_published_at r + LEGAL_NOTICE_DAYS * LEGAL_DAY) (lv_notified_at r).

(** INSERT OR IGNORE. *)
Definition insert_version (d : LegalDocument) (now : Z) (l : list LegalVersion) : list LegalVersion :=
  if existsb (is_version d) l then l else l ++ [mkVersion (document_text (ld_id d)) (ld_version d) now None].

(** [rows]: the table as it was read first. *)
Fixpoint publish_loop (rows : list LegalVersion) (docs : list LegalDocument) (now : Z) (table : list LegalVersion) : js_result (list LegalVersion * list PublishedVersion) :=
  match docs with
  | [] => Returns (table, [])
  | d :: rest =>
      match js_find (is_version d) rows with
      | Some row => '(table', l) ← publish_loop rows rest now table; Returns (table', published d row :: l)
      | None =>
          let table1 := insert_version d now table in
          match js_find (is_version d) table1 with
          | None => Throws ("Could not record " +:+ document_text (ld_id d) +:+ " version " +:+ ld_version d)
          | Some row => '(table', l) ← publish_loop rows rest now table1; Returns (table', published d row :: l)
          end
      end
  end.
Definition publishedLegalVersions (docs : list LegalDocument) (now : Z) (s : LegalState) : js_result (LegalState * list PublishedVersion) :=
  '(table, l) ← publish_loop (legal_versions s) docs now (legal_versions s); Returns (on_versions (fun _ => table) s, l).

(** ** Acceptances *)

Definition terms_accepted (s : LegalState) (tenantId : string) (d : LegalDocument) : bool :=
  existsb (fun r => String.eqb (ac_tenant_id r) tenantId && String.eqb (ac_document r) (document_text (ld_id d)) && String.eqb (ac_version r) (ld_version d)) (legal_acceptances s).

Record LegalStatus : Type := mkStatus { ls_pending : list PublishedVersion; ls_gated : bool }.
Definition organizationLegalStatus (docs : list LegalDocument) (tenantId : string) (now : Z) (s : LegalState) : js_result (LegalState * LegalStatus) :=
  '(s', versions) ← publishedLegalVersions docs now s;
  let pending := List.filter (fun v => ld_required (pv_doc v) && negb (terms_accepted s' tenantId (pv_doc v))) versions in
  Returns (s', mkStatus pending (existsb (fun v => pv_effectiveAt v <=? now) pending)).

Record AcceptanceInput : Type := mkAcceptanceInput {
  ai_tenantId : string; ai_tenantName : string; ai_userId : string; ai_userEmail : string; ai_documents : list LegalDocument; ai_source : AcceptanceSource; ai_ip : option string; ai_userAgent : option string
}.
(** [ids]: the new identifier of each row. *)
Definition acceptance_rows (ids : nat -> string) (i : AcceptanceInput) (now : Z) : list AcceptanceRow :=
  imap (fun n d => mkAcceptance (ids n) (ai_tenantId i) (str_take 200 (ai_tenantName i)) (ai_userId i) (str_take 320 (ai_userEmail i)) (document_text (ld_id d)) (ld_version d) (ai_source i) now
                     (str_take 64 <$> (ai_ip i ≫= nonempty)) (str_take 400 <$> (ai_userAgent i ≫= nonempty))) (ai_documents i).
Definition recordLegalAcceptances (ids : nat -> string) (i : AcceptanceInput) (now : Z) : LegalState -> LegalState := on_acceptances (fun l => l ++ acceptance_rows ids i now).

Definition by_acceptance (a b : AcceptanceRow) : Z := if ac_accepted_at a =? ac_accepted_at b then by_code (ac_id a) (ac_id b) else ac_accepted_at a - ac_accepted_at b.
Definition listLegalAcceptances (s : LegalState) (tenantId : option string) : list AcceptanceRow :=
  js_sort by_acceptance (match tenantId ≫= nonempty with Some t => List.filter (fun r => String.eqb (ac_tenant_id r) t) (legal_acceptances s) | None => legal_acceptances s end).

(** How many active organizations accepted a version: the count of its distinct tenants. *)
Definition legalAcceptanceCounts (s : LegalState) (d : LegalDocument) : Z :=
  Z.of_nat (length (List.filter (fun t => bool_decide (t_status t = active) && terms_accepted s (t_id t) d) (tenants (core (lg_accounts s))))).

(** ** The record as CSV *)

(** [new Date(seconds * 1000).toISOString()], of a year of four digits. *)
Definition iso_text (seconds : Z) : string :=
  let t := seconds mod LEGAL_DAY in
  date_text (civil (utc_day_number (seconds * 1000))) +:+ "T" +:+ two (t / 3600) +:+ ":" +:+ two (t / 60 mod 60) +:+ ":" +:+ two (t mod 60) +:+ ".000Z".

(** A text a spreadsheet would run as a formula. *)
Definition is_formula (text : string) : bool :=
  match text with String c _ => is_char "=" c || is_char "+" c || is_char "-" c || is_char "@" c || (code c =? 9) || (code c =? 13) | _ => false end.
Definition safe_cell (text : string) : string := if is_formula text then "'" +:+ text else text.
Fixpoint doubled_quotes (s : string) : string :=
  match s with ""%string => ""%string | String c t => if is_char dquote c then String dquote (String dquote (doubled_quotes t)) else String c (doubled_quotes t) end.
Definition csv_field (text : string) : string := String dquote (doubled_quotes (safe_cell text) +:+ quote_mark).
Definition csv_line (fields : list string) : string := join "," (List.map csv_field fields).

Definition source_text (s : AcceptanceSource) : string := match s with at_registration => "registration" | in_console => "console" end.
Definition acceptance_fields (r : AcceptanceRow) : list string :=
  [ac_tenant_id r; ac_tenant_name r; ac_user_id r; ac_user_email r; ac_document r; ac_version r; source_text (ac_source r); iso_text (ac_accepted_at r); default ""%string (ac_ip r); default ""%string (ac_user_agent r)].
Definition CSV_HEADER : list string := ["organization_id"; "organization"; "user_id"; "email"; "document"; "version"; "source"; "accepted_at_utc"; "ip"; "user_agent"]%string.
Definition CRLF_ : string := String (chr 13) (String (chr 10) "").
Definition acceptancesCsv (rows : list AcceptanceRow) : string := join CRLF_ (csv_line CSV_HEADER :: List.map (fun r => csv_line (acceptance_fields r)) rows) +:+ CRLF_.

(** ** The routes *)

Definition isOrganizationAdministrator (db : AccountDb) (session : Session) (tenant : Tenant) : bool :=
  if bool_decide (role session = super_admin) then false
  else if String.eqb (t_user_id tenant) (user_id session) then true
  else existsb (fun m => String.eqb (tu_tenant_id m) (t_id tenant) && String.eqb (tu_user_id m) (user_id session) && match tu_role m with tu_org_admin => true | _ => false end &&
                         existsb (fun u => String.eqb (u_id u) (tu_user_id m)) (users db)) (tenant_users (core db)).

Inductive LegalAnswer : Type :=
| LError (status : Z) (message : string)
| LStatus (status : LegalStatus) (canAccept : bool)
| LAccepted (documents : list LegalDocument).

(** GET /api/legal/status, and POST /api/legal/accept: [body] is given for the latter, none inside where it is not JSON. *)
Record LegalRequest : Type := mkLegalRequest { lr_session : option Session; lr_tenant : option Tenant; lr_body : option (option jsval); lr_ip : option string; lr_agent : option string }.

Definition stale_text (stale : list PublishedVersion) : string :=
  "Accept the current " +:+ join " and " (List.map (fun v => ld_title (pv_doc v) +:+ " (version " +:+ ld_version (pv_doc v) +:+ ")") stale) +:+ "; reload the page to read it".

Definition accept_terms (ids : nat -> string) (session : Session) (tenant : Tenant) (canAccept : bool) (status : LegalStatus) (body : option jsval) (ip agent : option string) (now : Z) (s : LegalState) : LegalState * LegalAnswer :=
  if bool_decide (role session = super_admin) then (s, LError 403 "A platform administrator cannot accept terms for an organization")
  else if negb canAccept then (s, LError 403 "Only the organization's owner or an administrator can accept the terms")
  else
    match body with
    | None => (s, LError 400 "The request body must be JSON")
    | Some body =>
        let versions := js_get body "versions" in
        if negb (is_plain_object versions) then (s, LError 400 "versions names the version of each document accepted")
        else
          match ls_pending status with
          | [] => (s, LError 409 "The current terms are already accepted")
          | (_ :: _) as waiting =>
              let stale := List.filter (fun v => negb (match js_get versions (document_text (ld_id (pv_doc v))) with JsStr g => String.eqb g (ld_version (pv_doc v)) | _ => false end)) waiting in
              match stale with
              | _ :: _ => (s, LError 409 (stale_text stale))
              | [] =>
                  match findUserById (lg_accounts s) (user_id session) with
                  | None => (s, LError 403 "Your account was not found")
                  | Some user =>
                      let docs := List.map pv_doc waiting in
                      let s1 := recordLegalAcceptances ids (mkAcceptanceInput (t_id tenant) (t_name tenant) (u_id user) (u_email user) docs in_console ip agent) now s in
                      (lg_audited (mkAudit (Some (t_id tenant)) (u_id user) "legal.accept" (Some (join " " (List.map (fun d => document_text (ld_id d) +:+ "=" +:+ ld_version d) docs)))) s1, LAccepted docs)
                  end
              end
          end
    end.

Definition legal_route (docs : list LegalDocument) (ids : nat -> string) (rq : LegalRequest) (now : Z) (s : LegalState) : js_result (LegalState * LegalAnswer) :=
  match requireTenantAdmin (lr_session rq) (lr_tenant rq), lr_session rq, lr_tenant rq with
  | None, Some session, Some tenant =>
      let canAccept := isOrganizationAdministrator (lg_accounts s) session tenant in
      '(s1, status) ← organizationLegalStatus docs (t_id tenant) now s;
      match lr_body rq with
      | None => Returns (s1, LStatus status canAccept)
      | Some body => Returns (accept_terms ids session tenant canAccept status body (lr_ip rq) (lr_agent rq) now s1)
      end
  | Some refusal, _, _ => Returns (s, LError (Guard.status refusal) (Guard.message refusal))
  | None, _, _ => Returns (s, LError 401 "Authentication required")
  end.

(** POST /api/super/legal/notify of a document: the owners of the active
    organizations that have not accepted it are mailed, the newest first; [sends]
    says which message goes out. *)
Definition to_be_told (d : LegalDocument) (superAdminId : string) (s : LegalState) : list (Tenant * User) :=
  omap (fun t => if bool_decide (t_status t = active) && negb (isDemoTenant (Some t) superAdminId) && negb (terms_accepted s (t_id t) d) then (fun u => (t, u)) <$> findUserById (lg_accounts s) (t_user_id t) else None) (rev (tenants (core (lg_accounts s)))).
Definition notify_document (docs : list LegalDocument) (document : LegalDocumentId) (superAdminId : string) (sends : string -> bool) (now : Z) (s : LegalState) : js_result (LegalState * (LegalAnswer + list string)) :=
  '(s1, versions) ← publishedLegalVersions docs now s;
  match js_find (fun v => bool_decide (ld_id (pv_doc v) = document)) versions with
  | None => Throws "Cannot read properties of undefined"
  | Some v =>
      let d := pv_doc v in
      if negb (ld_required d) then Returns (s1, inl (LError 400 ("The " +:+ ld_title d +:+ " is not accepted by organizations")))
      else
        let told := List.map (fun x => u_email (snd x)) (to_be_told d superAdminId s1) in
        let count p := string_of_int (Z.of_nat (length (List.filter p told))) in
        let s2 := on_versions (List.map (fun r => if is_version d r then mkVersion (lv_document r) (lv_version r) (lv_published_at r) (Some now) else r)) s1 in
        Returns (lg_audited (mkAudit None superAdminId "legal.notify" (Some (document_text (ld_id d) +:+ "=" +:+ ld_version d +:+ " emailed=" +:+ count sends +:+ " failed=" +:+ count (fun x => negb (sends x))))) s2, inr told)
  end.

(** ** A reader of CSV (RFC 4180, every field quoted) *)

(** The rest of a quoted field, after its opening quote. *)
Fixpoint read_field (s : string) : option (string * string) :=
  match s with
  | ""%string => None
  | String c t =>
      if is_char dquote c then
        match t with
        | String d t' => if is_char dquote d then '(text, rest) ← read_field t'; Some (String dquote text, rest) else Some (""%string, t)
        | _ => Some (""%string, t)
        end
      else '(text, rest) ← read_field t; Some (String c text, rest)
  end.

Fixpoint read_record (fuel : nat) (s : string) : option (list string * string) :=
  match fuel, s with
  | S f, String q t =>
      if negb (is_char dquote q) then None
      else
        '(text, rest) ← read_field t;
        match rest with
        | String c rest' =>
            if is_char "," c then '(fields, rest'') ← read_record f rest'; Some (text :: fields, rest'')
            else (fun r => ([text], r)) <$> after CRLF_ rest
        | _ => None
        end
  | _, _ => None
  end.

Fixpoint read_csv (fuel : nat) (s : string) : option (list (list string)) :=
  match fuel with
  | O => None
  | S f => if String.eqb s "" then Some [] else '(fields, rest) ← read_record (String.length s) s; rows ← read_csv f rest; Some (fields :: rows)
  end.

Lemma read_field_quoted text rest : (forall c t, rest = String c t -> is_char dquote c = false) -> read_field (doubled_quotes text +:+ String dquote rest) = Some (text, rest).
Proof.
  intros Hr. induction text as [|c text IH]; cbn [doubled_quotes].
  - cbn [read_field String.append]. change (is_char dquote dquote) with true. cbv iota. destruct rest as [|d rest]; [done|]. by rewrite (Hr d rest eq_refl).
  - destruct (is_char dquote c) eqn:Ec; cbn [read_field String.append].
    + apply Ascii.eqb_eq in Ec as ->. change (is_char dquote dquote) with true. cbv iota. by rewrite IH.
    + by rewrite Ec, IH.
Qed.

Lemma read_record_line fields rest fuel : fields <> [] -> (length fields <= fuel)%nat -> read_record fuel (csv_line fields +:+ CRLF_ +:+ rest) = Some (List.map safe_cell fields, rest).
Proof.
  revert fuel. induction fields as [|x fields IH]; intros fuel Hne Hf; [done|]. destruct fuel as [|f]; [cbn in Hf; lia|]. clear Hne. unfold csv_line in *. cbn [List.map join]. destruct (List.map csv_field fields) as [|y ys] eqn:Ey.
  - destruct fields; [|done]. unfold csv_field at 1. cbn [read_record String.append]. change (negb (is_char dquote dquote)) with false. cbv iota. rewrite str_app_assoc. change (quote_mark +:+ ?a) with (String dquote a).
    rewrite read_field_quoted by (intros c t [= <- _]; done). done.
  - rewrite !str_app_assoc. unfold csv_field at 1. cbn [read_record String.append]. change (negb (is_char dquote dquote)) with false. cbv iota. rewrite !str_app_assoc. change (quote_mark +:+ ?a) with (String dquote a).
    rewrite read_field_quoted by (intros c t [= <- _]; done). cbn [mbind option_bind]. cbn [String.append]. change (is_char "," ",") with true. cbv iota.
    rewrite IH; [done|by destruct fields|cbn in Hf; lia].
Qed.

(** Lines one after the other, each ended. *)
Definition csv_text (lines : list (list string)) : string := join "" (List.map (fun l => csv_line l +:+ CRLF_) lines).

Lemma join_lines x l : join CRLF_ (x :: l) +:+ CRLF_ = join "" (List.map (fun y => y +:+ CRLF_) (x :: l)).
Proof. revert x. induction l as [|y l IH]; intros x; [done|]. change (join CRLF_ (x :: y :: l)) with (x +:+ CRLF_ +:+ join CRLF_ (y :: l)). rewrite !str_app_assoc, IH. cbn [List.map join String.append]. by rewrite !str_app_assoc. Qed.

Lemma csv_text_cons l lines : csv_text (l :: lines) = csv_line l +:+ CRLF_ +:+ csv_text lines.
Proof. unfold csv_text. cbn [List.map]. destruct lines as [|m lines]; [cbn [List.map join]; by rewrite str_app_nil_r|]. cbn [List.map join String.append]. by rewrite str_app_assoc. Qed.

Lemma csv_line_length l : (length l <= String.length (csv_line l))%nat.
Proof.
  unfold csv_line. induction l as [|x l IH]; [done|]. cbn [List.map length]. destruct (List.map csv_field l) as [|y ys] eqn:Ey; cbn [join].
  - destruct l; [|done]. cbn. lia.
  - rewrite !str_length_app. unfold csv_field at 1. cbn [String.length]. cbn [join] in IH. lia.
Qed.

Lemma read_csv_text lines fuel : Forall (fun l => l <> []) lines -> (length lines < fuel)%nat -> read_csv fuel (csv_text lines) = Some (List.map (List.map safe_cell) lines).
Proof.
  intros Hl. revert fuel. induction Hl as [|l lines Hne _ IH]; intros fuel Hf; (destruct fuel as [|f]; [cbn in Hf; lia|]); [done|]. rewrite csv_text_cons. cbn [read_csv].
  pose proof (csv_line_length l) as Hlen. assert (Hpos : (0 < length l)%nat) by (destruct l; cbn; [done|lia]). replace (String.eqb _ "") with false.
  2: { symmetry. apply String.eqb_neq. intros E. apply (f_equal String.length) in E. rewrite !str_length_app in E. cbn in E. lia. }
  rewrite read_record_line; [|done|rewrite !str_length_app; lia]. cbn [mbind option_bind]. rewrite IH by (cbn in Hf; lia). done.
Qed.

(** C34. The record of acceptances as CSV says exactly what was recorded, whatever
    quotes, commas and line ends the names hold: a reader of RFC 4180 gets, after
    the header, the fields of every row in order; and no cell is one a spreadsheet
    would run as a formula: a field that begins like one is prefixed. *)
Theorem acceptances_csv_roundtrip rows :
  read_csv (length rows + 2) (acceptancesCsv rows) = Some (CSV_HEADER :: List.map (fun r => List.map safe_cell (acceptance_fields r)) rows) /\
  Forall (Forall (fun cell => is_formula cell = false)) (List.map (fun r => List.map safe_cell (acceptance_fields r)) rows).
Proof.
  split.
  - unfold acceptancesCsv. rewrite join_lines. change (join "" _) with (csv_text (CSV_HEADER :: List.map acceptance_fields rows)) || idtac.
    replace (join "" _) with (csv_text (CSV_HEADER :: List.map acceptance_fields rows)) by (unfold csv_text; cbn [List.map]; by rewrite !map_map).
    rewrite read_csv_text; [cbn [List.map]; by rewrite map_map| |cbn [length]; rewrite length_map; lia]. constructor; [done|]. apply list.Forall_forall. intros l (r & -> & _)%list_elem_of_fmap. done.
  - apply list.Forall_forall. intros l (r & -> & _)%list_elem_of_fmap. apply list.Forall_forall. intros c (x & -> & _)%list_elem_of_fmap. unfold safe_cell. destruct (is_formula x) eqn:E; done.
Qed.

(** A name with a quote, a comma and a formula. *)
Example csv_sample : read_csv 3 (acceptancesCsv [mkAcceptance "i" "t1" (String dquote "=a,b") "u1" "=1+1" "terms" "v1" in_console 86399 None None]) =
  Some [CSV_HEADER; ["t1"; String dquote "=a,b"; "u1"; "'=1+1"; "terms"; "v1"; "console"; "1970-01-01T23:59:59.000Z"; ""; ""]%string].
Proof. vm_compute. reflexivity. Qed.

(** ** When a console asks before anything else *)

Definition same_version (d e : LegalDocument) : bool := bool_decide (ld_id d = ld_id e) && String.eqb (ld_version d) (ld_version e).

(** When the documents in force were looked at: the time, and the documents. *)
Definition served_first (log : list (Z * list LegalDocument)) (d : LegalDocument) : option Z := fst <$> js_find (fun x => existsb (same_version d) (snd x)) log.

Definition published_at (table : list LegalVersion) (d : LegalDocument) : option Z := lv_published_at <$> js_find (is_version d) table.

Lemma is_version_same d e r : same_version d e = true -> is_version d r = is_version e r.
Proof. unfold same_version, is_version. intros [->%bool_decide_eq_true ->%String.eqb_eq]%andb_true_iff. done. Qed.

Lemma new_version_same d e now : is_version d (mkVersion (document_text (ld_id e)) (ld_version e) now None) = same_version d e.
Proof.
  unfold is_version, same_version. cbn [lv_document lv_version]. destruct (String.eqb_spec (ld_version e) (ld_version d)) as [E|E].
  - rewrite E, String.eqb_refl, !andb_true_r. by destruct (ld_id d), (ld_id e).
  - rewrite andb_false_r. destruct (String.eqb_spec (ld_version d) (ld_version e)); [congruence|]. by rewrite andb_false_r.
Qed.

Lemma insert_version_at d now table e : published_at (insert_version d now table) e = match published_at table e with Some t => Some t | None => if same_version e d then Some now else None end.
Proof.
  unfold insert_version, published_at. destruct (existsb (is_version d) table) eqn:Ex.
  - destruct (js_find (is_version e) table) eqn:Ee; [done|]. destruct (same_version e d) eqn:Es; [|done]. apply existsb_elem in Ex as (r & Hr & Hv). rewrite js_find_None in Ee. specialize (Ee r Hr). rewrite (is_version_same e d) in Ee by done. congruence.
  - rewrite js_find_app. destruct (js_find (is_version e) table); [done|]. unfold js_find. cbn [List.find]. rewrite new_version_same. by destruct (same_version e d).
Qed.

(** Recording the documents in force: each version keeps the time it was first seen. *)
Lemma publish_loop_at rows docs now table : (forall e r, js_find (is_version e) rows = Some r -> js_find (is_version e) table = Some r) ->
  exists table' l, publish_loop rows docs now table = Returns (table', l) /\
    (forall e, published_at table' e = match published_at table e with Some t => Some t | None => if existsb (same_version e) docs then Some now else None end) /\
    (forall e r, js_find (is_version e) table = Some r -> js_find (is_version e) table' = Some r) /\
    Forall2 (fun d v => pv_doc v = d /\ exists t, published_at table' d = Some t /\ pv_effectiveAt v = t + LEGAL_NOTICE_DAYS * LEGAL_DAY) docs l.
Proof.
  revert table. induction docs as [|d docs IH]; intros table Hr; cbn [publish_loop].
  - exists table, []. split_and!; [done| |done|constructor]. intros e. by destruct (published_at table e).
  - destruct (js_find (is_version d) rows) as [row|] eqn:Ed.
    + destruct (IH table Hr) as (table' & l & -> & Hp & Hk & Hl). exists table', (published d row :: l). split; [done|]. split_and!; [|done|].
      * intros e. rewrite Hp. cbn [existsb]. destruct (published_at table e) eqn:Ee; [done|]. destruct (same_version e d) eqn:Es; [|done]. unfold published_at in Ee. rewrite (Hr e row) in Ee; [done|].
        rewrite <- Ed. clear -Es. induction rows as [|x rows IHr]; [done|]. unfold js_find in *. cbn [List.find]. by rewrite (is_version_same e d), IHr.
      * constructor; [|done]. split; [done|]. exists (lv_published_at row). unfold published_at. by rewrite (Hk d row (Hr _ _ Ed)).
    + pose proof (insert_version_at d now table) as Hi. assert (Hfind : forall e r, js_find (is_version e) table = Some r -> js_find (is_version e) (insert_version d now table) = Some r).
      { intros e r He. unfold insert_version. destruct (existsb _ _); [done|]. by rewrite js_find_app, He. }
      pose proof (Hi d) as Hd. unfold published_at at 1 in Hd. destruct (js_find (is_version d) (insert_version d now table)) as [row|] eqn:Erow.
      2: { exfalso. unfold same_version in Hd. rewrite bool_decide_eq_true_2, String.eqb_refl in Hd by done. by destruct (published_at table d). }
      destruct (IH (insert_version d now table)) as (table' & l & -> & Hp & Hk & Hl); [intros e r He; by apply Hfind, Hr|]. exists table', (published d row :: l). split; [done|]. split_and!.
      * intros e. rewrite Hp, Hi. cbn [existsb]. destruct (published_at table e); [done|]. by destruct (same_version e d).
      * intros e r He. by apply Hk, Hfind.
      * constructor; [|done]. split; [done|]. exists (lv_published_at row). unfold published_at. by rewrite (Hk d row Erow).
Qed.

(** What happens to the tables: registrations, requests and notices of whatever
    release, while accounts come and go and time passes. The log holds when the
    documents in force were looked at. *)
Inductive legal_run : list (Z * list LegalDocument) -> Z -> LegalState -> Prop :=
| run_start accounts now : legal_run [] now (mkLegal accounts [] [])
| run_time log now later s : legal_run log now s -> now <= later -> legal_run log later s
| run_accounts log now s accounts : legal_run log now s -> legal_run log now (mkLegal accounts (legal_versions s) (legal_acceptances s))
| run_register log now s ids i : legal_run log now s -> legal_run log now (recordLegalAcceptances ids i now s)
| run_route log now s docs ids rq s' a : legal_run log now s -> requireTenantAdmin (lr_session rq) (lr_tenant rq) = None -> legal_route docs ids rq now s = Returns (s', a) -> legal_run (log ++ [(now, docs)]) now s'
| run_notify log now s docs document who sends s' a : legal_run log now s -> notify_document docs document who sends now s = Returns (s', a) -> legal_run (log ++ [(now, docs)]) now s'.

Definition log_ok (log : list (Z * list LegalDocument)) (s : LegalState) : Prop := forall e, published_at (legal_versions s) e = served_first log e.

Lemma served_first_app log now docs e : served_first (log ++ [(now, docs)]) e = match served_first log e with Some t => Some t | None => if existsb (same_version e) docs then Some now else None end.
Proof. unfold served_first. rewrite js_find_app. destruct (js_find _ log); [done|]. unfold js_find. cbn [List.find snd]. by destruct (existsb _ docs). Qed.

Lemma published_ok log now docs s : log_ok log s -> exists table l, publishedLegalVersions docs now s = Returns (on_versions (fun _ => table) s, l) /\ log_ok (log ++ [(now, docs)]) (on_versions (fun _ => table) s) /\
  Forall2 (fun d v => pv_doc v = d /\ exists t, served_first (log ++ [(now, docs)]) d = Some t /\ pv_effectiveAt v = t + LEGAL_NOTICE_DAYS * LEGAL_DAY) docs l.
Proof.
  intros Hok. unfold publishedLegalVersions. destruct (publish_loop_at (legal_versions s) docs now (legal_versions s)) as (table & l & -> & Hp & _ & Hl); [done|]. exists table, l. split; [done|].
  assert (Hlog : log_ok (log ++ [(now, docs)]) (on_versions (fun _ => table) s)) by (intros e; change (published_at table e = served_first (log ++ [(now, docs)]) e); by rewrite Hp, served_first_app, Hok). split; [done|].
  eapply Forall2_impl; [|exact Hl]. intros d v (Hd & t & Ht & He). split; [done|]. exists t. split; [|done]. rewrite <- Hlog. exact Ht.
Qed.

(** The documents an organization still has to accept. *)
Definition to_accept (s : LegalState) (tenantId : string) (docs : list LegalDocument) : list LegalDocument := List.filter (fun d => ld_required d && negb (terms_accepted s tenantId d)) docs.

Lemma status_ok log now docs tenantId s : log_ok log s -> exists s1 status, organizationLegalStatus docs tenantId now s = Returns (s1, status) /\ log_ok (log ++ [(now, docs)]) s1 /\
  lg_accounts s1 = lg_accounts s /\ legal_acceptances s1 = legal_acceptances s /\ List.map pv_doc (ls_pending status) = to_accept s tenantId docs /\
  (ls_gated status = true <-> exists d t, d ∈ to_accept s tenantId docs /\ served_first (log ++ [(now, docs)]) d = Some t /\ t + LEGAL_NOTICE_DAYS * LEGAL_DAY <= now).
Proof.
  intros Hok. unfold organizationLegalStatus. destruct (published_ok log now docs s Hok) as (table & l & -> & Hlog & Hl). cbn [mbind js_result_bind]. cbv beta iota zeta. set (s1 := on_versions (fun _ => table) s) in *.
  set (keep := fun v => ld_required (pv_doc v) && negb (terms_accepted s1 tenantId (pv_doc v))). exists s1, (mkStatus (List.filter keep l) (existsb (fun v => pv_effectiveAt v <=? now) (List.filter keep l))). split_and!; try done; cbn [ls_pending ls_gated].
  - clear Hlog. unfold to_accept. induction Hl as [|d v docs' l' (Hd & _) _ IH]; [done|]. cbn [List.filter]. unfold keep at 1. rewrite Hd. change (terms_accepted s1 tenantId d) with (terms_accepted s tenantId d). destruct (_ && _); cbn [List.map]; by rewrite ?Hd, IH.
  - unfold to_accept. rewrite existsb_elem. setoid_rewrite elem_of_bfilter. split.
    + intros (v & [Hv Hk] & He%Z.leb_le). apply list_elem_of_lookup in Hv as (n & Hn). destruct (Forall2_lookup_r _ _ _ _ _ Hl Hn) as (d & Hd & <- & t & Ht & Heff). exists (pv_doc v), t. split_and!; [by eapply list_elem_of_lookup_2|exact Hk|done|lia].
    + intros (d & t & [Hd Hk] & Ht & Hle). apply list_elem_of_lookup in Hd as (n & Hn). destruct (Forall2_lookup_l _ _ _ _ _ Hl Hn) as (v & Hv & Hvd & t' & Ht' & Heff). exists v. split; [split; [by eapply list_elem_of_lookup_2|unfold keep; by rewrite Hvd]|].
      apply Z.leb_le. assert (t' = t) as -> by congruence. lia.
Qed.

(** What accepting does: nothing, or the rows of the documents that wait. *)
Lemma accept_inv ids session tenant canAccept status body ip agent now s s' a : accept_terms ids session tenant canAccept status body ip agent now s = (s', a) ->
  legal_versions s' = legal_versions s /\ (s' = s /\ (forall l, a <> LAccepted l) /\ (forall st c, a <> LStatus st c) \/
    canAccept = true /\ role session <> super_admin /\ a = LAccepted (List.map pv_doc (ls_pending status)) /\ exists user, findUserById (lg_accounts s) (user_id session) = Some user /\
      legal_acceptances s' = legal_acceptances s ++ acceptance_rows ids (mkAcceptanceInput (t_id tenant) (t_name tenant) (u_id user) (u_email user) (List.map pv_doc (ls_pending status)) in_console ip agent) now).
Proof.
  unfold accept_terms. case_bool_decide as Hr; [intros [= <- <-]; split; [done|]; by left|]. destruct canAccept; cbn [negb]; [|intros [= <- <-]; split; [done|]; by left]. destruct body as [body|]; [|intros [= <- <-]; split; [done|]; by left]. cbv zeta.
  destruct (negb (is_plain_object _)); [intros [= <- <-]; split; [done|]; by left|]. destruct (ls_pending status) as [|v l]; [intros [= <- <-]; split; [done|]; by left|]. cbv iota beta. match goal with |- context [match ?stale with [] => _ | _ :: _ => _ end] => destruct stale end; [|intros [= <- <-]; split; [done|]; by left].
  destruct (findUserById _ _) as [user|]; intros [= <- <-]; (split; [done|]); [right|by left]. split_and!; try done. by exists user.
Qed.

Lemma route_ok log now docs ids rq s session tenant : log_ok log s -> requireTenantAdmin (lr_session rq) (lr_tenant rq) = None -> lr_session rq = Some session -> lr_tenant rq = Some tenant ->
  exists s1 status s' a, organizationLegalStatus docs (t_id tenant) now s = Returns (s1, status) /\ legal_route docs ids rq now s = Returns (s', a) /\ log_ok (log ++ [(now, docs)]) s' /\
    (lr_body rq = None /\ s' = s1 /\ a = LStatus status (isOrganizationAdministrator (lg_accounts s) session tenant) \/
     exists body, lr_body rq = Some body /\ accept_terms ids session tenant (isOrganizationAdministrator (lg_accounts s) session tenant) status body (lr_ip rq) (lr_agent rq) now s1 = (s', a)).
Proof.
  intros Hok Hd Hs Ht. destruct (status_ok log now docs (t_id tenant) s Hok) as (s1 & status & E & Hlog & _). unfold legal_route. rewrite Hd, Hs, Ht, E. cbn [mbind js_result_bind]. cbv beta iota. exists s1, status. destruct (lr_body rq) as [body|]; [|eexists _, _; split_and!; try done; by left].
  destruct (accept_terms _ _ _ _ _ _ _ _ _ _) as [s' a] eqn:Ea. exists s', a. split_and!; try done; [|right; by exists body]. apply accept_inv in Ea as [Hv _]. intros e. rewrite Hv. apply Hlog.
Qed.

Lemma admitted_request rq : requireTenantAdmin (lr_session rq) (lr_tenant rq) = None -> exists session tenant, lr_session rq = Some session /\ lr_tenant rq = Some tenant.
Proof. destruct (lr_session rq) as [session|]; [|done]. destruct (lr_tenant rq) as [tenant|]; [|done]. by exists session, tenant. Qed.

Lemma legal_run_ok log now s : legal_run log now s -> log_ok log s.
Proof.
  induction 1 as [accounts now|log now later s _ IH _|log now s accounts _ IH|log now s ids i _ IH|log now s docs ids rq s' a _ IH Hd E|log now s docs document who sends s' a _ IH E]; try done.
  - destruct (admitted_request rq Hd) as (session & tenant & Hs & Ht). destruct (route_ok log now docs ids rq s session tenant IH Hd Hs Ht) as (s1 & status & s2 & b & _ & E' & Hlog & _). rewrite E' in E. by injection E as <- <-.
  - unfold notify_document in E. destruct (published_ok log now docs s IH) as (table & l & E' & Hlog & _). rewrite E' in E. cbn [mbind js_result_bind] in E. cbv beta iota in E. destruct (js_find _ l) as [v|]; [|done]. destruct (negb _); [by injection E as <- _|].
    injection E as <- _. intros e. rewrite <- Hlog. cbn [lg_audited legal_versions on_versions]. unfold published_at. clear. induction table as [|r table IH]; [done|]. unfold js_find in *. cbn [List.map List.find]. destruct (is_version (pv_doc v) r) eqn:Ev.
    + change (is_version e (mkVersion (lv_document r) (lv_version r) (lv_published_at r) (Some now))) with (is_version e r). by destruct (is_version e r).
    + by destruct (is_version e r).
Qed.

Lemma accepted_rows s' s ids i now d : legal_acceptances s' = legal_acceptances s ++ acceptance_rows ids i now -> d ∈ ai_documents i -> terms_accepted s' (ai_tenantId i) d = true.
Proof.
  intros Hs Hd. unfold terms_accepted. rewrite Hs. apply list_elem_of_lookup in Hd as (n & Hn). apply existsb_elem. eexists. split; [apply elem_of_app; right; eapply list_elem_of_lookup_2; unfold acceptance_rows; rewrite list_lookup_imap, Hn; reflexivity|].
  cbn. by rewrite !String.eqb_refl.
Qed.

(** C22. When a console asks for the terms before anything else. In any run over any
    releases of the documents, a request of an organization's console is answered;
    the console is gated exactly when a required document in force, which the
    organization has not accepted in that version, was first served thirty days ago
    or more; only the organization's owner or one of its administrators accepts, and
    then exactly what waits is recorded for it, after which nothing in force waits;
    nothing recorded is ever changed or removed. *)
Theorem legal_gate_exact log now s docs ids rq session tenant : legal_run log now s -> requireTenantAdmin (lr_session rq) (lr_tenant rq) = None -> lr_session rq = Some session -> lr_tenant rq = Some tenant ->
  exists s' a, legal_route docs ids rq now s = Returns (s', a) /\
    (forall status canAccept, a = LStatus status canAccept -> ls_gated status = true <-> exists d t, d ∈ to_accept s (t_id tenant) docs /\ served_first (log ++ [(now, docs)]) d = Some t /\ t + LEGAL_NOTICE_DAYS * LEGAL_DAY <= now) /\
    (legal_acceptances s' = legal_acceptances s /\ (forall l, a <> LAccepted l) \/
     a = LAccepted (to_accept s (t_id tenant) docs) /\ isOrganizationAdministrator (lg_accounts s) session tenant = true /\
       (exists i, ai_tenantId i = t_id tenant /\ ai_userId i = user_id session /\ ai_documents i = to_accept s (t_id tenant) docs /\ legal_acceptances s' = legal_acceptances s ++ acceptance_rows ids i now) /\
       (forall d, d ∈ docs -> ld_required d = true -> terms_accepted s' (t_id tenant) d = true)).
Proof.
  intros Hrun Hd Hs Ht. apply legal_run_ok in Hrun as Hok. destruct (status_ok log now docs (t_id tenant) s Hok) as (s1 & status & E1 & _ & Hacc & Hrows & Hpend & Hgate).
  destruct (route_ok log now docs ids rq s session tenant Hok Hd Hs Ht) as (s1' & status' & s' & a & E1' & E & _ & Hcase). rewrite E1 in E1'. injection E1' as <- <-. exists s', a. split; [done|].
  destruct Hcase as [(_ & -> & ->)|(body & _ & Ea)]; [split; [intros st c [= <- _]; exact Hgate|left; by split]|]. apply accept_inv in Ea as [_ [(-> & Hn & Hst)|(Hcan & _ & -> & user & Hu & Hnew)]].
  - split; [intros st c Hc; by destruct (Hst st c)|left; by split].
  - split; [done|right]. rewrite Hpend in *. rewrite Hrows in Hnew. split_and!; [done|done| |].
    + eexists. split_and!; [| | |exact Hnew]; try done. cbn. rewrite Hacc in Hu. apply js_find_Some in Hu as [_ Hu]. by apply String.eqb_eq in Hu.
    + intros d Hin Hreq. destruct (terms_accepted s (t_id tenant) d) eqn:Eacc.
      * unfold terms_accepted in *. rewrite Hnew, existsb_app, Eacc. done.
      * eapply (accepted_rows s' s ids _ now d Hnew). cbn [ai_documents]. apply elem_of_bfilter. split; [done|]. by rewrite Hreq, Eacc.
Qed.

(** ** An organization that is asked *)

Definition legal_org : Tenant := mkTenant "t1" "u1" "Greenwood" "greenwood" None active portal "" None None 0 None 0 0 stable 0 0 0 0 30 None None None 0.
Definition legal_accounts : AccountDb := mkAccounts (on_tenants (fun _ => [legal_org]) empty_db) [mkUser "u1" "ada@example.org" "" "" org_admin "Ada" 0] [] [] [] [] [] [].
Definition legal_begin : LegalState := mkLegal legal_accounts [] [].
Definition legal_request (body : option (option jsval)) : LegalRequest := mkLegalRequest (Some (mkSession "s" "u1" (Some "t1"%string) org_admin 9999999)) (Some legal_org) body (Some "192.0.2.7"%string) None.
Definition given_versions : jsval := JsObj [("versions"%string, JsObj [("terms", JsStr "2026-10-20"); ("content", JsStr "2026-10-13")]%string)].
Definition row_ids (n : nat) : string := string_of_int (Z.of_nat n).
Definition after_first : LegalState := match legal_route LEGAL_DOCUMENTS row_ids (legal_request None) 1000 legal_begin with Returns (s, _) => s | Throws _ => legal_begin end.

(** First asked at 1000; gated thirty days later, and not a second before; and
    accepting lifts it. *)
Lemma legal_gate_exact_witness :
  exists s' a, legal_route LEGAL_DOCUMENTS row_ids (legal_request (Some (Some given_versions))) 2593000 after_first = Returns (s', a) /\ a = LAccepted (take 2 LEGAL_DOCUMENTS) /\ terms_accepted s' "t1" (mkDocument terms "Terms of Service" "/terms" "2026-10-20" true) = true.
Proof.
  assert (R0 : legal_run [] 1000 legal_begin) by apply run_start. assert (R1 : legal_run ([] ++ [(1000, LEGAL_DOCUMENTS)]) 1000 after_first).
  { eapply (run_route [] 1000 legal_begin LEGAL_DOCUMENTS row_ids (legal_request None)); [exact R0|vm_compute; reflexivity|vm_compute; reflexivity]. }
  pose proof (run_time _ _ 2593000 _ R1 ltac:(lia)) as R2. destruct (legal_gate_exact _ _ _ LEGAL_DOCUMENTS row_ids (legal_request (Some (Some given_versions))) _ legal_org R2 ltac:(vm_compute; reflexivity) eq_refl eq_refl) as (s' & a & E & _ & Hcase).
  exists s', a. split; [exact E|]. destruct Hcase as [[_ Hno]|(Ha & _ & _ & Hacc)].
  - exfalso. vm_compute in E. injection E as <- <-. by eapply Hno.
  - split; [rewrite Ha; vm_compute; reflexivity|]. apply Hacc; [apply elem_of_cons; by left|reflexivity].
Defined.

Example legal_gate_times :
  let gated now := match legal_route LEGAL_DOCUMENTS row_ids (legal_request None) now after_first with Returns (_, LStatus st _) => Some (ls_gated st) | _ => None end in
  gated 2592999 = Some false /\ gated 2593000 = Some true.
Proof. vm_compute. split; reflexivity. Qed.
