(* ===== verification/Partners.v ===== *)
(** src/cloudflare-control/src/partners.ts: certified computer models, and the
    resellers a visitor finds on the hardware page.

    A value of a request is a [jsval]; what is not text counts as empty. *)
From S2P Require Import Prelude JsString Regex Scan Platform Escape Mime Geo.

Definition LIMIT_COMPANY : nat := 160.
Definition LIMIT_PHONE : nat := 40.
Definition LIMIT_PLACE : nat := 80.
Definition LIMIT_WEBSITE : nat := 300.
Definition LIMIT_STOCKS : nat := 500.
Definition LIMIT_NOTE : nat := 300.

Definition PHONE_PATTERN : re := RCat (ROpt (RChar "+")) (RBetween 6 40 (RClass (fun c => is_digit c || is_char " " c || is_char "(" c || is_char ")" c || is_char "-" c))).

Definition match_key (value : string) : string := toLowerCase (trim value).
Definition line_of (value : jsval) (max : nat) : string := match value with JsStr s => str_take max (squeeze s) | _ => ""%string end.
Definition not_empty (s : string) : option string := if String.eqb s "" then None else Some s.

(** SQLite's NOCASE: by bytes, the letters of ASCII as if small. *)
Definition nocase (s : string) : string := str_map (fun c => if is_upper c then lower_char c else c) s.
Definition by_nocase (a b : string) : Z := by_code (nocase a) (nocase b).
(** The first comparison that tells two rows apart. *)
Fixpoint by_first (l : list Z) : Z := match l with [] => 0 | x :: rest => if x =? 0 then by_first rest else x end.

(** ** Certified models *)

Record CertifiedRow : Type := mkCertified { ce_vendor_key : string; ce_model_key : string; ce_vendor : string; ce_model : string; ce_note : option string; ce_certified_at : Z; ce_certified_by : option string }.
Record CertifiedModel : Type := mkModel { cm_vendor : string; cm_model : string; cm_note : option string; cm_certifiedAt : Z }.

Definition listCertifiedModels (rows : list CertifiedRow) : list CertifiedModel :=
  List.map (fun r => mkModel (ce_vendor r) (ce_model r) (ce_note r) (ce_certified_at r))
    (js_sort (fun a b => by_first [by_nocase (ce_vendor a) (ce_vendor b); by_nocase (ce_model a) (ce_model b)]) rows).

(** The Map of [certifiedLookup]: a later model of the list replaces an earlier one with its key. *)
Definition NUL : string := String (chr 0) "".
Definition lookup_key (vendor model : string) : string := match_key vendor +:+ NUL +:+ match_key model.
Definition certifiedLookup (certified : list CertifiedModel) (vendor model : string) : option CertifiedModel :=
  js_find (fun c => String.eqb (lookup_key (cm_vendor c) (cm_model c)) (lookup_key vendor model)) (rev certified).

Definition has_keys (vendor model : string) (r : CertifiedRow) : bool := String.eqb (ce_vendor_key r) (match_key vendor) && String.eqb (ce_model_key r) (match_key model).

Definition certifyModel (vendor_ model_ note_ : jsval) (userId : string) (now : Z) (rows : list CertifiedRow) : list CertifiedRow * option string :=
  let vendor := line_of vendor_ 120 in
  let model := line_of model_ 160 in
  let note := not_empty (line_of note_ LIMIT_NOTE) in
  if String.eqb vendor "" || String.eqb model "" then (rows, Some "Name the maker and the model"%string)
  else (upsert (has_keys vendor model) (fun r => mkCertified (ce_vendor_key r) (ce_model_key r) vendor model note (ce_certified_at r) (ce_certified_by r))
          (mkCertified (match_key vendor) (match_key model) vendor model note now (Some userId)) rows, None).

Definition uncertifyModel (vendor_ model_ : jsval) (rows : list CertifiedRow) : list CertifiedRow * bool :=
  let hit := has_keys (line_of vendor_ 120) (line_of model_ 160) in
  (List.filter (fun r => negb (hit r)) rows, existsb hit rows).

(** ** Resellers *)

Inductive ResellerStatus : Type := r_pending | r_approved | r_rejected.
#[export] Instance ResellerStatus_eq_dec : EqDecision ResellerStatus.
Proof. solve_decision. Defined.

Record Reseller : Type := mkReseller {
  rs_id : string;
  rs_company : string;
  rs_contact_name : string;
  rs_email : string;
  rs_phone : string;
  rs_state : string;
  rs_city : string;
  rs_website : option string;
  rs_stocks : option string;
  rs_status : ResellerStatus;
  rs_conversation_id : option string;
  rs_created_at : Z;
  rs_decided_at : option Z;
  rs_decided_by : option string
}.
Record PublicReseller : Type := mkPublicReseller { pr_company : string; pr_email : string; pr_phone : string; pr_state : string; pr_city : string; pr_website : option string; pr_stocks : option string }.
Record ResellerApplication : Type := mkApplication { ra_company : string; ra_phone : string; ra_state : string; ra_city : string; ra_website : option string; ra_stocks : option string }.

(** [/^https?:\/\//i]. *)
Definition has_scheme (s : string) : bool := startsWith (toLowerCase s) "http://" || startsWith (toLowerCase s) "https://".

Definition parseResellerApplication `{UrlParser} (organization : string) (phone_ state_ city_ website_ stocks_ : jsval) : string + ResellerApplication :=
  let company := line_of (JsStr organization) LIMIT_COMPANY in
  if (String.length company <? 2)%nat then inl "Enter your company's name under Organization"%string
  else
    let phone := line_of phone_ LIMIT_PHONE in
    if negb (re_test PHONE_PATTERN phone) then inl "Enter a phone number customers can call, such as +91 98765 43210"%string
    else
      let state := line_of state_ LIMIT_PLACE in
      let city := line_of city_ LIMIT_PLACE in
      if String.eqb state "" || String.eqb city "" then inl "Enter the state and the city you sell in"%string
      else
        let rawWebsite := line_of website_ LIMIT_WEBSITE in
        let website := if String.eqb rawWebsite "" then None else safeHttpUrl (if has_scheme rawWebsite then rawWebsite else "https://" +:+ rawWebsite) in
        if negb (String.eqb rawWebsite "") && match website with Some w => String.eqb w "" | None => true end then inl "The website must be an address such as https://example.com"%string
        else inr (mkApplication company phone state city website (not_empty (line_of stocks_ LIMIT_STOCKS))).

Definition is_open_reseller (email : string) (r : Reseller) : bool := String.eqb (rs_email r) (toLowerCase email) && (bool_decide (rs_status r = r_pending) || bool_decide (rs_status r = r_approved)).
Definition openResellerFor (rows : list Reseller) (email : string) : option Reseller := js_find (is_open_reseller email) rows.

Definition createReseller (a : ResellerApplication) (name email conversationId id : string) (now : Z) (rows : list Reseller) : list Reseller :=
  rows ++ [mkReseller id (ra_company a) name (toLowerCase email) (ra_phone a) (ra_state a) (ra_city a) (ra_website a) (ra_stocks a) r_pending (Some conversationId) now None None].

Definition status_rank (s : ResellerStatus) : Z := match s with r_pending => 0 | r_approved => 1 | r_rejected => 2 end.
Definition listResellers (rows : list Reseller) : list Reseller :=
  take 500 (js_sort (fun a b => by_first [status_rank (rs_status a) - status_rank (rs_status b); rs_created_at b - rs_created_at a]) rows).
Definition findReseller (rows : list Reseller) (id : string) : option Reseller := js_find (fun r => String.eqb (rs_id r) id) rows.

Definition decides (id : string) (status : ResellerStatus) (r : Reseller) : bool := String.eqb (rs_id r) id && negb (bool_decide (rs_status r = status)).
Definition set_reseller (status : ResellerStatus) (userId : string) (now : Z) (r : Reseller) : Reseller :=
  mkReseller (rs_id r) (rs_company r) (rs_contact_name r) (rs_email r) (rs_phone r) (rs_state r) (rs_city r) (rs_website r) (rs_stocks r) status (rs_conversation_id r) (rs_created_at r) (Some now) (Some userId).
Definition decideReseller (id : string) (status : ResellerStatus) (userId : string) (now : Z) (rows : list Reseller) : list Reseller * bool :=
  (List.map (fun r => if decides id status r then set_reseller status userId now r else r) rows, existsb (decides id status) rows).

Definition listPublicResellers (rows : list Reseller) : list PublicReseller :=
  List.map (fun r => mkPublicReseller (rs_company r) (rs_email r) (rs_phone r) (rs_state r) (rs_city r) (rs_website r) (rs_stocks r))
    (js_sort (fun a b => by_first [by_nocase (rs_state a) (rs_state b); by_nocase (rs_city a) (rs_city b); by_nocase (rs_company a) (rs_company b)]) (List.filter (fun r => bool_decide (rs_status r = r_approved)) rows)).
