(* ===== verification/Signup.v ===== *)
(** src/cloudflare-control/src/signup.ts: registration, the contact form and the
    request for Remote Control, with turnstile.ts, addresses.ts, the check of
    breached passwords (auth.ts) and the rows of a new account (db.ts).

    The texts of a form are given as [String(x ?? "")] makes them; the values whose
    type is looked at are [jsval]s. Statements of the database and messages may fail
    as in Mail.v; the other services (Turnstile, the list of breached passwords,
    Google's keys) answer with an argument. Identifiers, random bytes and the clock,
    read once for a request, are arguments. The HTML of a message is not modelled. *)
From S2P Require Import Prelude JsString Regex Scan Platform Escape Db Allowlist Guard Plans Auth Throttle HubStatus WebAuthn Handoff SsoToken Totp Mime TwoFactor Sso Conversations Mail Mailroom Inbox Geo Phone Legal Partners.

(** ** Turnstile *)

Record TurnstileEnv : Type := mkTurnstile { TURNSTILE_SITE_KEY : string; TURNSTILE_SECRET_KEY : string }.

Definition turnstileSiteKey (env : TurnstileEnv) : option string :=
  if String.eqb (trim (TURNSTILE_SITE_KEY env)) "" || String.eqb (trim (TURNSTILE_SECRET_KEY env)) "" then None else Some (trim (TURNSTILE_SITE_KEY env)).
Definition turnstileConfigProblem (env : TurnstileEnv) : option string :=
  if Bool.eqb (String.eqb (trim (TURNSTILE_SITE_KEY env)) "") (String.eqb (trim (TURNSTILE_SECRET_KEY env)) "") then None
  else Some "Turnstile is half configured: set both TURNSTILE_SITE_KEY and TURNSTILE_SECRET_KEY, or neither (docs/DEPLOYMENT.md)."%string.

(** [answer]: the JSON siteverify gave, none where it did not answer with a success. *)
Definition turnstileRefusal (env : TurnstileEnv) (token_ : jsval) (answer : option jsval) (action : string) : js_result (option (string * Z)) :=
  match turnstileConfigProblem env, turnstileSiteKey env with
  | Some _, _ => Returns (Some ("This form is temporarily unavailable. Please write to us by email."%string, 503))
  | None, None => Returns None
  | None, Some _ =>
      let response := match token_ with JsStr t => trim t | _ => ""%string end in
      if String.eqb response "" || (2048 <? String.length response)%nat then Returns (Some ("Please complete the check above the button and try again."%string, 400))
      else
        match answer with
        | None => Returns (Some ("We could not check that you are human just now. Please try again in a moment."%string, 503))
        | Some JsNull => Throws "Cannot read properties of null"
        | Some result =>
            if negb (js_true (js_get result "success")) then Returns (Some ("The check did not pass. Please try it again."%string, 400))
            else if js_true (js_get result "action") && negb (is_text (js_get result "action") action) then Returns (Some ("The check did not pass. Please try it again."%string, 400))
            else Returns None
        end
  end.

(** ** Breached passwords *)

(** [sha1]: the digest; [answer]: the lines of the range the digest begins, none
    where they could not be read. A count that no double holds is not positive. *)
Definition breachedPasswordProblem (off : bool) (sha1 : string -> list Z) (answer : string -> option string) (password : string) : option string :=
  if off then None
  else
    let digest := toUpperCase (bufferToHex (sha1 password)) in
    let suffix := str_drop 5 digest in
    match answer (str_take 5 digest) with
    | None => None
    | Some body =>
        if existsb (fun line => match split_on ":" (trim line) with
                                | candidate :: count :: _ => String.eqb candidate suffix && match string_number count with Some (NInt n) => 0 <? n | Some (NFrac f) => 0 <=? f | None => false end
                                | _ => false
                                end) (split_on (chr 10) body)
        then Some "This password has appeared in a data breach. Please choose a different one."%string else None
    end.

(** ** Addresses *)

Definition NAME_PART_LENGTH : nat := 20.
Definition SUFFIX_ALPHABET : string := "abcdefghijkmnpqrstuvwxyz23456789".
Definition ATTEMPTS : nat := 8.

(** NFKD of a character below 256, with [~] for each mark above 255 it leaves,
    which is no letter or digit either. *)
Definition nfkd_char (c : ascii) : string :=
  let n := code c in
  let within lo hi := (lo <=? n) && (n <=? hi) in
  if within 192 197 then "A~" else if n =? 199 then "C~" else if within 200 203 then "E~" else if within 204 207 then "I~" else if n =? 209 then "N~" else if within 210 214 then "O~"
  else if within 217 220 then "U~" else if n =? 221 then "Y~" else if within 224 229 then "a~" else if n =? 231 then "c~" else if within 232 235 then "e~" else if within 236 239 then "i~"
  else if n =? 241 then "n~" else if within 242 246 then "o~" else if within 249 252 then "u~" else if (n =? 253) || (n =? 255) then "y~"
  else if n =? 160 then " " else if (n =? 168) || (n =? 175) || (n =? 180) || (n =? 184) then " ~" else if n =? 170 then "a" else if n =? 178 then "2" else if n =? 179 then "3" else if n =? 181 then "~"
  else if n =? 185 then "1" else if n =? 186 then "o" else if n =? 188 then "1~4" else if n =? 189 then "1~2" else if n =? 190 then "3~4" else String c "".
Fixpoint nfkd (s : string) : string := match s with ""%string => ""%string | String c t => nfkd_char c +:+ nfkd t end.

(** [/[^a-z0-9]+/g] for a dash. *)
Definition slug_gap : matcher := fun s => let '(gap, rest) := span (fun c => negb (is_lower c || is_digit c)) s in if String.eqb gap "" then None else Some ("-"%string, rest).
Fixpoint drop_dashes (s : string) : string := match s with String c t => if is_char "-" c then drop_dashes t else s | _ => s end.
Definition rev_string (s : string) : string := String.string_of_list_ascii (rev (String.list_ascii_of_string s)).
Definition drop_last_dashes (s : string) : string := rev_string (drop_dashes (rev_string s)).
Definition nameSlug (name : string) : string :=
  let slug := drop_last_dashes (str_take NAME_PART_LENGTH (drop_last_dashes (drop_dashes (replace_all slug_gap (toLowerCase (nfkd name)))))) in
  if (2 <=? String.length slug)%nat then slug else "org".

Definition randomSuffix (bytes : list Z) : string := String.string_of_list_ascii (List.map (fun b => default " "%char (String.get (Z.to_nat (b mod 32)) SUFFIX_ALPHABET)) bytes).

Definition consoleSubdomain (t : Tenant) : string := default (t_subdomain t) (t_chosen_subdomain t ≫= nonempty).
Definition showsHomepage (address_generated : bool) (t : Tenant) : bool := negb address_generated || is_Some_b (t_chosen_subdomain t ≫= nonempty).

Definition FEATURE_TIP_INTERVAL_SECONDS : Z := 30 * 24 * 3600.
Inductive TipFeature : Type := tip_remote_control | tip_address.
(** [dismissed], [generated], [requested]: columns that only this reads. *)
Definition featureTipFor (t : Tenant) (dismissed : option Z) (rc : RemoteControlStatus) (generated : bool) (requested : option string) (now : Z) : list TipFeature :=
  if negb (bool_decide (t_status t = active)) then []
  else if match dismissed with Some d => negb (d =? 0) && (now - d <? FEATURE_TIP_INTERVAL_SECONDS) | None => false end then []
  else (if bool_decide (rc = rc_none) then [tip_remote_control] else [])
       ++ (if generated && negb (is_Some_b (t_chosen_subdomain t ≫= nonempty)) && negb (is_Some_b (requested ≫= nonempty)) then [tip_address] else []).

(** ** Fields *)

Definition CODE_PER_ADDRESS : Z := 10.
Definition CODE_PER_EMAIL : Z := 5.
Definition CODE_WINDOW : Z := 3600.
Definition CONTACT_LIMIT : Z := 5.
Definition CONTACT_WINDOW : Z := 3600.
Definition REGISTER_LIMIT : Z := 10.
Definition REGISTER_WINDOW : Z := 3600.
Definition ORGANIZATION_TYPES : list string := ["business"; "government"; "library"; "education"; "nonprofit"; "other"]%string.
Definition DISPOSABLE_EMAIL_DOMAINS : list string :=
  ["10minutemail.com"; "burnermail.io"; "dispostable.com"; "emailondeck.com"; "fakeinbox.com"; "getnada.com"; "guerrillamail.com"; "guerrillamail.net"; "maildrop.cc"; "mailinator.com"; "mailnesia.com"; "mintemail.com"; "mohmal.com";
   "sharklasers.com"; "spamgourmet.com"; "temp-mail.org"; "tempail.com"; "tempmail.com"; "tempmailo.com"; "throwawaymail.com"; "trashmail.com"; "yopmail.com"]%string.

Definition isDisposableEmail (email : string) : bool := match split_on "@" (toLowerCase (trim email)) with _ :: domain :: _ => bool_decide (domain ∈ DISPOSABLE_EMAIL_DOMAINS) | _ => false end.

Definition PHONE : re := RCat (RChar "+") (RCat (RClass (in_range 49 57)) (RBetween 7 14 (RClass is_digit))).
Definition normalizePhone (raw : string) : option string :=
  let compact := str_filter (fun c => negb (is_space c || is_char "(" c || is_char ")" c || is_char "." c || is_char "-" c)) (trim raw) in
  let withPlus := if startsWith compact "00" then "+" +:+ str_drop 2 compact else compact in
  if re_test PHONE withPlus then Some withPlus else None.

Definition text (value : string) (max : nat) : string := one_line value max.
Definition multiline (value : string) (max : nat) : string := clean_lines value max.

Record SignupBody : Type := mkSignupBody {
  sb_name : string; sb_legalName : string; sb_organizationType : string; sb_contactName : string; sb_email : string; sb_emailCode : string; sb_phone : string; sb_phoneToken : jsval; sb_password : string;
  sb_addressLine1 : string; sb_addressLine2 : string; sb_city : string; sb_region : string; sb_postalCode : string; sb_country : string; sb_taxId : string; sb_billingEmail : string;
  sb_workstationEstimate : jsval; sb_notes : string; sb_acceptTerms : jsval
}.
Record SignupFields : Type := mkFields { sf_name : string; sf_password : string; sf_emailCode : string; sf_profile : ProfileInput }.

(** The first problem with the fields that are asked of everybody. *)
Definition required_problem (b : SignupBody) : option string :=
  let email := toLowerCase (text (sb_email b) 254) in
  if String.eqb (text (sb_name b) 120) "" then Some "Organization name is required"%string
  else if String.eqb (text (sb_contactName b) 120) "" then Some "The technical contact's name is required"%string
  else if negb (isPlausibleEmail email) then Some "Please enter a valid email address"%string
  else if isDisposableEmail email then Some "Please use a permanent work email address"%string
  else if negb (is_Some_b (normalizePhone (sb_phone b))) then Some "Enter the phone number with its country code, for example +91 98765 43210"%string
  else validatePasswordStrength (sb_password b).

(** The address: the problem with it, or the region. *)
Definition read_region (b : SignupBody) (country : Country) : string + option string :=
  let postalCode := cleanPostalCode (sb_postalCode b) in
  if String.eqb (text (sb_addressLine1 b) 200) "" || String.eqb (text (sb_city b) 100) "" then inl "The street address and city are required"%string
  else if String.eqb postalCode "" && needsPostalCode (co_code country) then inl "The postal code is required"%string
  else
    match postalCodeProblem (co_code country) postalCode with
    | Some problem => inl problem
    | None =>
        match assoc (co_code country) STATES with
        | Some states =>
            match findState (co_code country) (sb_region b) with
            | Some region => inr (Some region)
            | None => inl ("Choose the " +:+ toLowerCase (dv_label states) +:+ " from the list")
            end
        | None => inr (nonempty (text (sb_region b) 100))
        end
    end.

Definition estimate (v : jsval) : option Z := match to_number v with Some (NInt n) => if (0 <? n) && (n <=? 100000) then Some n else None | _ => None end.

Definition readSignup (b : SignupBody) : string + SignupFields :=
  match required_problem b, findCountry (sb_country b) with
  | Some problem, _ => inl problem
  | None, None => inl "Choose your country from the list"%string
  | None, Some country =>
      match read_region b country with
      | inl problem => inl problem
      | inr region =>
          let taxId := cleanTaxId (sb_taxId b) in
          let billingEmail := toLowerCase (text (sb_billingEmail b) 254) in
          let emailCode := text (sb_emailCode b) 12 in
          let type := toLowerCase (text (sb_organizationType b) 20) in
          match taxIdProblem (co_code country) taxId with
          | Some problem => inl problem
          | None =>
              if negb (re_test SIX_DIGITS emailCode) then inl "Enter the six-digit code we emailed you"%string
              else if negb (match sb_acceptTerms b with JsBool true => true | _ => false end) then inl "Please accept the Terms of Service and Privacy Policy"%string
              else if negb (String.eqb billingEmail "") && negb (isPlausibleEmail billingEmail) then inl "The billing email address is not valid"%string
              else inr (mkFields (text (sb_name b) 120) (sb_password b) emailCode
                     (mkProfile "" (nonempty (text (sb_legalName b) 160)) (text (sb_contactName b) 120) (toLowerCase (text (sb_email b) 254)) (default ""%string (normalizePhone (sb_phone b))) None None None
                        (text (sb_addressLine1 b) 200) (nonempty (text (sb_addressLine2 b) 200)) (text (sb_city b) 100) region (cleanPostalCode (sb_postalCode b)) (co_name_ country) (nonempty taxId) (nonempty billingEmail)
                        (estimate (sb_workstationEstimate b)) (if bool_decide (type ∈ ORGANIZATION_TYPES) then Some type else None) (nonempty (multiline (sb_notes b) 1000)) 0 0 None))
          end
      end
  end.

(** A registration in one block of text. *)
Definition optional_line (label : string) (v : option string) : list string := match v with Some x => [label +:+ x] | None => [] end.
Definition signupSummary (p : ProfileInput) (organizationName subdomain : string) (phoneVerified : bool) : string :=
  join (String LF_ "")
    (["Organization: " +:+ organizationName] ++ optional_line "Legal / billing name: " (op_legal_name p) ++ optional_line "Type: " (op_organization_type p)
     ++ ["Console address: " +:+ subdomain; "Technical contact: " +:+ op_contact_name p; "Email: " +:+ op_contact_email p +:+ " (verified by code)";
         "Phone: " +:+ op_contact_phone p +:+ " (" +:+ (if phoneVerified then "verified by text message code" else "not yet verified") +:+ ")";
         "Address: " +:+ join ", " (List.filter (fun x => negb (String.eqb x "")) [op_address_line1 p; default ""%string (op_address_line2 p); op_city p; default ""%string (op_region p); op_postal_code p; op_country p])]
     ++ optional_line "Tax ID: " (op_tax_id p) ++ optional_line "Billing email: " (op_billing_email p) ++ optional_line "Expected workstations: " (string_of_int <$> op_workstation_estimate p)
     ++ optional_line (String LF_ "Notes from the customer:" +:+ String LF_ "") (op_notes p)).

(** ** The state and its steps *)

Record SignupState : Type := mkSignup { su_inbox : InboxState; su_acceptances : list AcceptanceRow; su_resellers : list Reseller; su_keys : option KeyCache }.
Definition on_su_inbox (f : InboxState -> InboxState) (s : SignupState) : SignupState := mkSignup (f (su_inbox s)) (su_acceptances s) (su_resellers s) (su_keys s).
Definition on_su_core (f : D1Database -> D1Database) : SignupState -> SignupState := on_su_inbox (on_ib_accounts (on_core f)).
Definition su_core (s : SignupState) : D1Database := core (ib_accounts (su_inbox s)).
Definition su_conv (s : SignupState) : ConvState := ib_conv (su_inbox s).

Definition in_inbox {A} (m : eff InboxState A) : eff SignupState A := fun o s => let '(i, o', r) := m o (su_inbox s) in (on_su_inbox (fun _ => i) s, o', r).
Definition in_su_room {A} (m : eff Room A) : eff SignupState A := in_inbox (in_room m).
(** What is no call: it cannot fail as one. *)
Definition eff_local {S A} (f : S -> S * A) : eff S A := fun o s => let '(s', a) := f s in (s', o, Returns a).
Definition eff_result {S A} (r : js_result A) : eff S A := match r with Returns a => mret a | Throws e => eff_throw e end.
(** One statement after another. *)
Fixpoint eff_each {S A} (f : A -> eff S unit) (l : list A) : eff S unit := match l with [] => mret tt | x :: rest => _ ← f x; eff_each f rest end.

Inductive SignupAnswer : Type :=
| SError (status : Z) (message : string)
| SSent (expiresIn : Z)
| SPending (reference : string)
| SFiled (reference : string)
| SRequested (reference : string).

Record SignupEnv : Type := mkSignupEnv { se_mail : MailEnv; se_firebase : FirebaseEnv; se_turnstile : TurnstileEnv; se_pepper : js_result string; se_breach_off : bool; se_baseDomain : string }.

(** What the other services answer, and what is drawn. *)
Record SignupWorld : Type := mkSignupWorld {
  sw_ip : string;
  sw_now : Z;
  sw_siteverify : option jsval;
  sw_sha1 : string -> list Z;
  sw_range : string -> option string;
  sw_keys1 : option KeysResponse;
  sw_keys2 : option KeysResponse;
  sw_agent : option string;
  (** The six-digit code, and the names the mail service gives two messages. *)
  sw_code : Z;
  sw_mail1 : string;
  sw_mail2 : string;
  sw_user : string;
  sw_salt : list Z;
  sw_suffix : nat -> list Z;
  sw_tenant : string;
  sw_site : nat -> string;
  sw_icon : nat -> string;
  sw_domain : nat -> string;
  sw_acceptance : nat -> string;
  sw_conversation : string;
  sw_reference : list Z;
  sw_message : string;
  sw_outbound : string;
  sw_reseller : string
}.

Definition notifyPlatformOwner (env : MailEnv) (subject body providerId : string) : eff SignupState unit :=
  if String.eqb (SUPPORT_FORWARD_TO env) "" then mret tt
  else _ ← eff_try (in_su_room (sendMail record_sent env (mkOutgoing (SUPPORT_FORWARD_TO env) None subject body false None [] None) providerId)); mret tt.

Definition minutes_text (seconds : Z) : string := string_of_int ((seconds + 59) / 60).

(** ** Codes *)

Section Signup.
Context `{UrlParser} `{WebCrypto} `{PasskeyCrypto} `{Sealing} `{TokenCrypto}.

Definition hit (key : string) (window now : Z) : eff SignupState unit := eff_write (on_su_core (fun db => recordRateLimitHit db key window now)).
Definition wait_for (key : string) (limit window now : Z) : eff SignupState Z := eff_read (fun s => rateLimitWait (su_core s) key limit window now).

(** What is read decides; only a wrong code is written down. *)
Definition check_code (pepper : string) (p : EmailCodePurpose) (email typed : string) (now : Z) : eff SignupState CodeVerdict :=
  verdict ← eff_read (fun s => snd (checkEmailCode pepper p email typed now (su_conv s)));
  _ ← match verdict with code_wrong => eff_write (on_su_inbox (on_ib_conv (fun c => fst (checkEmailCode pepper p email typed now c)))) | _ => mret tt end;
  mret verdict.

Definition code_mail (p : EmailCodePurpose) (code_ : string) : string :=
  "Your Lab Kiosk verification code is " +:+ code_ +:+ "." +:+ LF2 +:+
  match p with
  | for_signup => "Enter it in the registration form to confirm this email address. It expires in 10 minutes." +:+ LF2 +:+ "If you did not ask to register an organization, ignore this message; nothing happens without the code."
  | for_contact => "Enter it in the contact form to confirm this email address. It expires in 10 minutes." +:+ LF2 +:+ "If you did not start a message to Lab Kiosk, ignore this one; nothing is sent without the code."
  end.

(** The code is written down, mailed, and taken back when the mail does not go out. *)
Definition send_code (env : SignupEnv) (w : SignupWorld) (p : EmailCodePurpose) (email : string) : eff SignupState SignupAnswer :=
  pepper ← eff_result (se_pepper env);
  let code_ := pad6 (sw_code w) in
  _ ← eff_write (on_su_inbox (on_ib_conv (fun c => fst (issueEmailCode pepper p email (sw_code w) (sw_now w) c))));
  sent ← eff_try (in_su_room (sendMail record_sent (se_mail env) (mkOutgoing email None (code_ +:+ " is your Lab Kiosk verification code") (code_mail p code_) false None [] None) (sw_mail1 w)));
  match sent with
  | Some _ => mret (SSent EMAIL_CODE_TTL_SECONDS)
  | None => _ ← eff_write (on_su_inbox (on_ib_conv (discardEmailCode p email))); mret (SError 502 "We could not send the code to that address. Check it and try again.")
  end.

(** POST /api/auth/register/email-code and /api/contact/email-code. [body]: the
    address and the Turnstile token, none where it is not JSON. *)
Definition email_code (env : SignupEnv) (w : SignupWorld) (p : EmailCodePurpose) (unavailable : string) (body : option (string * jsval)) : eff SignupState SignupAnswer :=
  match mailConfigProblem (se_mail env), body with
  | Some _, _ => mret (SError 503 unavailable)
  | None, None => mret (SError 400 "The request body must be JSON")
  | None, Some (rawEmail, turnstileToken) =>
      let email := toLowerCase (text rawEmail 254) in
      let signup := bool_decide (p = for_signup) in
      if negb (isPlausibleEmail email) then mret (SError 400 "Please enter a valid email address")
      else if signup && isDisposableEmail email then mret (SError 400 "Please use a permanent work email address")
      else
        refused ← eff_result (turnstileRefusal (se_turnstile env) turnstileToken (sw_siteverify w) (purpose_text p));
        match refused with
        | Some (message, status) => mret (SError status message)
        | None =>
            let addressKey := purpose_text p +:+ "-code:" +:+ sw_ip w in
            let emailKey := purpose_text p +:+ "-code-email:" +:+ email in
            waitAddress ← wait_for addressKey CODE_PER_ADDRESS CODE_WINDOW (sw_now w);
            waitEmail ← wait_for emailKey CODE_PER_EMAIL CODE_WINDOW (sw_now w);
            if (0 <? waitAddress) || (0 <? waitEmail) then mret (SError 429 ("Too many codes requested. Try again in " +:+ minutes_text (Z.max waitAddress waitEmail) +:+ " minute(s)."))
            else
              cooldown ← eff_read (fun s => emailCodeCooldown (su_conv s) p email (sw_now w));
              if 0 <? cooldown then mret (SError 429 ("A code was just sent. You can ask for another in " +:+ string_of_int cooldown +:+ " seconds."))
              else
                known ← (if signup then eff_read (fun s => findUserByEmail (ib_accounts (su_inbox s)) email) else mret None);
                if is_Some_b known then mret (SError 409 "Email already registered. Please sign in.")
                else
                  _ ← hit addressKey CODE_WINDOW (sw_now w);
                  _ ← hit emailKey CODE_WINDOW (sw_now w);
                  send_code env w p email
        end
  end.

Definition handleSignupEmailCode (env : SignupEnv) (w : SignupWorld) (body : option (string * jsval)) : eff SignupState SignupAnswer :=
  email_code env w for_signup "Registration is temporarily unavailable. Please write to us instead." body.
Definition handleContactEmailCode (env : SignupEnv) (w : SignupWorld) (body : option (string * jsval)) : eff SignupState SignupAnswer :=
  email_code env w for_contact "The contact form is temporarily unavailable. Please write to us by email instead." body.

(** ** The rows of a new account *)

Definition createUser (email password name pepper : string) (role : option UserRole) (id : string) (salt : list Z) : eff SignupState User :=
  let '(hashHex, saltHex) := hashPassword password pepper salt in
  let user := mkUser id (toLowerCase email) hashHex saltHex (default org_admin role) name 0 in
  eff_call (fun s =>
    if existsb (fun u => String.eqb (u_id u) id || String.eqb (u_email u) (u_email user)) (users (ib_accounts (su_inbox s))) then Throws "D1_ERROR: UNIQUE constraint failed: users"
    else Returns (on_su_inbox (on_ib_accounts (on_users (fun l => l ++ [user]))) s, user)).

(** A draw of the suffix after the other, until one is free. *)
Fixpoint subdomain_loop (base : string) (draws : list (list Z)) : eff SignupState string :=
  match draws with
  | [] => eff_throw ("No free address found for " +:+ quote_mark +:+ base +:+ quote_mark +:+ " after " +:+ string_of_int (Z.of_nat ATTEMPTS) +:+ " attempts")
  | bytes :: rest =>
      let candidate := base +:+ "-" +:+ randomSuffix bytes in
      if isReservedSlug candidate then subdomain_loop base rest
      else
        taken ← eff_read (fun s => findTenantBySubdomain (su_core s) candidate);
        if is_Some_b taken then subdomain_loop base rest else mret candidate
  end.
Definition generateSubdomain (name : string) (draws : nat -> list Z) : eff SignupState string := subdomain_loop (nameSlug name) (List.map draws (List.seq 0 ATTEMPTS)).

Record DefaultCard : Type := mkDefaultCard { dc_title : string; dc_url : string; dc_domain : string; dc_category : string; dc_thumbnail : string }.
Definition photo (name : string) : string := "https://images.unsplash.com/photo-" +:+ name +:+ "?w=600&q=80".
Definition DEFAULT_CARDS : list DefaultCard :=
  [mkDefaultCard "Khan Academy" "https://www.khanacademy.org" "khanacademy.org" "Mathematics & Science" (photo "1509228468518-180dd4864904");
   mkDefaultCard "Scratch Studio" "https://scratch.mit.edu" "scratch.mit.edu" "Coding & Creative" (photo "1517694712202-14dd9538aa97");
   mkDefaultCard "CK-12 STEM" "https://india.ck12.org" "ck12.org" "Science & Physics" (photo "1532094349884-543bc11b234d");
   mkDefaultCard "GeoGebra Math" "https://www.geogebra.org/calculator" "geogebra.org" "Geometry & 3D" (photo "1635070041078-e363dbe005cb");
   mkDefaultCard "PhET Simulations" "https://phet.colorado.edu/en/simulations/filter?type=html" "colorado.edu" "Physics & Chemistry" (photo "1507413245164-6160d8298b31");
   mkDefaultCard "Wikipedia Simple" "https://simple.wikipedia.org" "wikipedia.org" "Encyclopedia" (photo "1457369804613-52c61a468e7d")].

(** The icons are pictures, given with the identifiers. *)
Definition card_row (w : SignupWorld) (tenantId : string) (i : nat) (c : DefaultCard) : PortalSite :=
  mkPortalSite (sw_site w i) tenantId (dc_title c) (dc_url c) (dc_domain c) (dc_category c) (Some (sw_icon w i)) (Some (dc_thumbnail c)) (Z.of_nat i) 1 (sw_now w) None None.
Definition insert_card (row : PortalSite) : eff SignupState unit :=
  eff_call (fun s => if existsb (fun r => String.eqb (card_id r) (card_id row)) (portal_sites (su_core s)) then Throws "D1_ERROR: UNIQUE constraint failed: portal_sites.id"
                     else Returns (on_su_core (on_portal_sites (fun l => l ++ [row])) s, tt)).
Definition seedDefaultPortalSites (w : SignupWorld) (tenantId : string) : eff SignupState unit := eff_each insert_card (imap (card_row w tenantId) DEFAULT_CARDS).
Definition seed_whitelist (w : SignupWorld) (tenantId : string) : eff SignupState unit :=
  eff_each (fun row => eff_write (on_su_core (insert_whitelist row))) (imap (fun i domain => mkWhitelist (sw_domain w i) tenantId domain (sw_now w)) DEFAULT_WHITELIST_DOMAINS).

Record NewTenant : Type := mkNewTenant { nt_userId : string; nt_name : string; nt_subdomain : string; nt_status : option TenantStatus; nt_mode : option KioskMode; nt_defaultUrl : option string }.

(** The row, with what the table fills in. *)
Definition new_tenant (data : NewTenant) (id : string) (now : Z) : Tenant :=
  mkTenant id (nt_userId data) (nt_name data) (toLowerCase (nt_subdomain data)) None (default pending (nt_status data)) (default portal (nt_mode data))
    (default "https://www.khanacademy.org"%string (nt_defaultUrl data ≫= nonempty)) None None 0 (Some "/"%string) 0 0 stable 0 1 0 1 45 None None None now.

Definition createTenant (w : SignupWorld) (data : NewTenant) : eff SignupState Tenant :=
  let t := new_tenant data (sw_tenant w) (sw_now w) in
  _ ← eff_call (fun s =>
        if existsb (fun x => String.eqb (t_id x) (t_id t) || String.eqb (t_subdomain x) (t_subdomain t)) (tenants (su_core s)) then Throws "D1_ERROR: UNIQUE constraint failed: tenants"
        else if negb (existsb (fun u => String.eqb (u_id u) (nt_userId data)) (users (ib_accounts (su_inbox s)))) then Throws "D1_ERROR: FOREIGN KEY constraint failed"
        else Returns (on_su_core (on_tenants (fun l => l ++ [t])) s, tt));
  _ ← seedDefaultPortalSites w (t_id t);
  _ ← seed_whitelist w (t_id t);
  mret t.

(** ** Conversations *)

Definition start_conversation (w : SignupWorld) (data : NewConversation) : eff SignupState Conversation :=
  eff_call (fun s => x ← createConversation data (sw_conversation w) (sw_reference w) (sw_now w) (su_conv s); Returns (on_su_inbox (on_ib_conv (fun _ => fst x)) s, snd x)).
Definition add_su_message (w : SignupWorld) (c : Conversation) (dir : MessageDirection) (from : string) (subject : option string) (body : string) : eff SignupState unit :=
  in_su_room (add_message (mkMessage (sw_message w) (cv_id c) dir (Some from) None subject body None None None None [] (sw_now w))).
Definition send_receipt (env : SignupEnv) (w : SignupWorld) (c : Conversation) (subject body : string) (autoReply : bool) : eff SignupState unit :=
  _ ← in_su_room (sendOnConversation (se_mail env) c body (mkSendOptions (Some subject) None None [] autoReply None) (sw_outbound w) (sw_mail1 w) (sw_now w)); mret tt.
Definition tell_owner (env : SignupEnv) (w : SignupWorld) (c : Conversation) (subject body : string) : eff SignupState unit :=
  notifyPlatformOwner (se_mail env) (subjectWithReference (cv_reference c) subject) body (sw_mail2 w).

(** ** Registration *)

(** The number is proved where Firebase is set up: the moment, or the refusal. The
    keys it asks for are kept in the Worker. *)
Definition phone_check (env : SignupEnv) (w : SignupWorld) (token_ : jsval) (phone : string) : eff SignupState ((string * Z) + option Z) :=
  match firebaseConfig (se_firebase env) with
  | None => mret (inr None)
  | Some firebase =>
      checked ← eff_local (fun s =>
        let '(cache, result) := verifyPhoneToken firebase (su_keys s) (sw_keys1 w) (sw_keys2 w) token_ phone (sw_now w) in (mkSignup (su_inbox s) (su_acceptances s) (su_resellers s) cache, result));
      mret (match checked with PhoneOk _ => inr (Some (sw_now w)) | refused => inl (phoneTokenMessage refused) end)
  end.

Definition registration_receipt (fields : SignupFields) (reference : string) (console : string) (phoneVerified : bool) : string :=
  "Hello " +:+ op_contact_name (sf_profile fields) +:+ "," +:+ LF2 +:+ "Thank you for registering " +:+ sf_name fields +:+ " with Lab Kiosk. Your request reference is " +:+ reference +:+ "." +:+ LF2 +:+
  (if phoneVerified then "Your account will be activated once our team has reviewed it. We may write to you about licensing first. "
   else "Your account will be activated once our team has reviewed it. We will confirm your phone number (" +:+ op_contact_phone (sf_profile fields) +:+ ") and may write to you about licensing first. ") +:+
  "You will receive an email as soon as the account is active, with the address of your console: " +:+ console +:+ "." +:+ LF2 +:+ "Reply to this email if you have any questions." +:+ LF2 +:+ "Lab Kiosk".

Definition verify_profile (now : Z) (p : ProfileInput) : ProfileInput :=
  mkProfile (op_tenant_id p) (op_legal_name p) (op_contact_name p) (op_contact_email p) (op_contact_phone p) (Some now) (op_phone_verified_at p) (op_phone_verified_by p) (op_address_line1 p) (op_address_line2 p) (op_city p)
    (op_region p) (op_postal_code p) (op_country p) (op_tax_id p) (op_billing_email p) (op_workstation_estimate p) (op_organization_type p) (op_notes p) (op_created_at p) (op_updated_at p) (op_phone_link p).

(** The task of a registration, its receipt and the word to the platform's owner. *)
Definition file_registration (env : SignupEnv) (w : SignupWorld) (fields : SignupFields) (user : User) (t : Tenant) (subdomain : string) (phoneVerifiedAt : option Z) : eff SignupState SignupAnswer :=
  let p := verify_profile (sw_now w) (sf_profile fields) in
  let console := subdomain +:+ "." +:+ se_baseDomain env in
  let summary := signupSummary p (sf_name fields) console (is_Some_b phoneVerifiedAt) in
  c ← start_conversation w (mkNew k_signup (Some (t_id t)) ("Registration of " +:+ sf_name fields) (op_contact_email p) (Some (op_contact_name p)) None None true);
  _ ← add_su_message w c event (op_contact_email p) None ("New registration." +:+ LF2 +:+ summary);
  _ ← in_inbox (audit (mkAudit (Some (t_id t)) (u_id user) "tenant.register" (Some ("subdomain=" +:+ t_subdomain t +:+ " reference=" +:+ cv_reference c))));
  _ ← send_receipt env w c "We received your registration" (registration_receipt fields (cv_reference c) console (is_Some_b phoneVerifiedAt)) false;
  _ ← tell_owner env w c ("New registration: " +:+ sf_name fields) (summary +:+ LF2 +:+ "Review it under Tasks in the Super Admin console.");
  mret (SPending (cv_reference c)).

(** The account, once the address and the number are proved. *)
Definition create_account (env : SignupEnv) (w : SignupWorld) (fields : SignupFields) (pepper : string) (phoneVerifiedAt : option Z) : eff SignupState SignupAnswer :=
  let p := sf_profile fields in
  user ← createUser (op_contact_email p) (sf_password fields) (op_contact_name p) pepper (Some org_admin) (sw_user w) (sw_salt w);
  subdomain ← generateSubdomain (sf_name fields) (sw_suffix w);
  t ← createTenant w (mkNewTenant (u_id user) (sf_name fields) subdomain (Some pending) None None);
  _ ← eff_call (fun s => c ← createOrganizationProfile (t_id t) (verify_profile (sw_now w) p) phoneVerifiedAt (sw_now w) (su_conv s); Returns (on_su_inbox (on_ib_conv (fun _ => c)) s, tt));
  _ ← eff_write (on_su_inbox (on_ib_conv (discardEmailCode for_signup (op_contact_email p))));
  _ ← eff_write (fun s => mkSignup (su_inbox s)
        (su_acceptances s ++ acceptance_rows (sw_acceptance w) (mkAcceptanceInput (t_id t) (sf_name fields) (u_id user) (op_contact_email p) LEGAL_DOCUMENTS at_registration (Some (sw_ip w)) (sw_agent w)) (sw_now w))
        (su_resellers s) (su_keys s));
  file_registration env w fields user t subdomain phoneVerifiedAt.

(** POST /api/auth/register. [body]: none where it is not JSON. *)
Definition handleRegister (env : SignupEnv) (w : SignupWorld) (body : option SignupBody) : eff SignupState SignupAnswer :=
  match mailConfigProblem (se_mail env), firebaseConfigProblem (se_firebase env), body with
  | Some _, _, _ | None, Some _, _ => mret (SError 503 "Registration is temporarily unavailable. Please write to us instead.")
  | None, None, None => mret (SError 400 "The request body must be JSON")
  | None, None, Some b =>
      match readSignup b with
      | inl problem => mret (SError 400 problem)
      | inr fields =>
          let registerKey := "register:" +:+ sw_ip w in
          let email := op_contact_email (sf_profile fields) in
          wait ← wait_for registerKey REGISTER_LIMIT REGISTER_WINDOW (sw_now w);
          if 0 <? wait then mret (SError 429 ("Too many registrations from this address. Try again in " +:+ minutes_text wait +:+ " minute(s)."))
          else
            _ ← hit registerKey REGISTER_WINDOW (sw_now w);
            match breachedPasswordProblem (se_breach_off env) (sw_sha1 w) (sw_range w) (sf_password fields) with
            | Some problem => mret (SError 400 problem)
            | None =>
                phone ← phone_check env w (sb_phoneToken b) (op_contact_phone (sf_profile fields));
                match phone with
                | inl (message, status) => mret (SError status message)
                | inr phoneVerifiedAt =>
                    pepper ← eff_result (se_pepper env);
                    verdict ← check_code pepper for_signup email (sf_emailCode fields) (sw_now w);
                    match verdict with
                    | code_expired => mret (SError 400 "That code has expired. Ask for a new one.")
                    | code_wrong => mret (SError 400 "That code is not correct")
                    | code_ok =>
                        known ← eff_read (fun s => findUserByEmail (ib_accounts (su_inbox s)) email);
                        if is_Some_b known then mret (SError 409 "Email already registered. Please sign in.")
                        else create_account env w fields pepper phoneVerifiedAt
                    end
                end
            end
      end
  end.

(** ** The contact form *)

Record ContactBody : Type := mkContactBody {
  cb_name : string; cb_organization : string; cb_email : string; cb_emailCode : string; cb_reason : string; cb_message : string; cb_phone : jsval; cb_state : jsval; cb_city : jsval; cb_website : jsval; cb_stocks : jsval
}.
Record ContactFields : Type := mkContactFields { cf_name : string; cf_organization : string; cf_email : string; cf_emailCode : string; cf_reason : ContactReason; cf_message : string }.

Definition readContact (b : ContactBody) : string + ContactFields :=
  let name := text (cb_name b) 120 in
  let email := toLowerCase (text (cb_email b) 254) in
  let emailCode := text (cb_emailCode b) 12 in
  let message := multiline (cb_message b) 5000 in
  if String.eqb name "" || String.eqb email "" || String.eqb message "" then inl "Your name, email address and a message are required"%string
  else if negb (isPlausibleEmail email) then inl "Please enter a valid email address"%string
  else
    match js_find (fun r => String.eqb (re_value r) (text (cb_reason b) 40)) CONTACT_REASONS with
    | None => inl "Please choose what your message is about"%string
    | Some reason =>
        if String.eqb emailCode "" then inl "Enter the code we emailed you. Use Send code if you do not have one."%string
        else inr (mkContactFields name (text (cb_organization b) 160) email emailCode reason message)
    end.

(** "Become a reseller": the listing, none for another reason, or the refusal. *)
Definition reseller_for (b : ContactBody) (f : ContactFields) : eff SignupState ((Z * string) + option ResellerApplication) :=
  if negb (String.eqb (re_value (cf_reason f)) "reseller") then mret (inr None)
  else
    match parseResellerApplication (cf_organization f) (cb_phone b) (cb_state b) (cb_city b) (cb_website b) (cb_stocks b) with
    | inl problem => mret (inl (400, problem))
    | inr application =>
        existing ← eff_read (fun s => openResellerFor (su_resellers s) (cf_email f));
        mret (match existing with
              | None => inr (Some application)
              | Some r => inl (409, if bool_decide (rs_status r = r_approved) then "This address is already listed as a reseller. Write to us to change the listing."%string
                                    else "An application from this address is already waiting for review. We will reply by email."%string)
              end)
    end.

Definition LF1 : string := String LF_ "".
Definition listing_text (reseller : option ResellerApplication) : string :=
  match reseller with
  | None => ""
  | Some r => LF2 +:+ "Reseller listing:" +:+ LF1 +:+ "Company: " +:+ ra_company r +:+ LF1 +:+ "Phone: " +:+ ra_phone r +:+ LF1 +:+ "State: " +:+ ra_state r +:+ LF1 +:+ "City: " +:+ ra_city r +:+ LF1 +:+
      "Website: " +:+ default "-"%string (ra_website r) +:+ LF1 +:+ "Stocks: " +:+ default "-"%string (ra_stocks r) +:+ LF1 +:+ "Approve or reject it in Super Admin -> System -> Hardware."
  end.

(** The message is filed, the code is spent, the sender has a receipt. *)
Definition file_contact (env : SignupEnv) (w : SignupWorld) (f : ContactFields) (reseller : option ResellerApplication) : eff SignupState SignupAnswer :=
  let named := default (cf_name f) (nonempty (cf_organization f)) in
  c ← start_conversation w (mkNew k_support None (re_label (cf_reason f) +:+ ": " +:+ named) (cf_email f) (Some (cf_name f)) (supportMailbox (se_mail env)) (Some (Some (re_category (cf_reason f)))) true);
  _ ← match reseller with
      | None => mret tt
      | Some a => eff_write (fun s => mkSignup (su_inbox s) (su_acceptances s) (createReseller a (cf_name f) (cf_email f) (cv_id c) (sw_reseller w) (sw_now w) (su_resellers s)) (su_keys s))
      end;
  _ ← add_su_message w c inbound (cf_email f) (Some (cv_subject c))
        (cf_message f +:+ listing_text reseller +:+ LF2 +:+ "-- Sent with the contact form" +:+ (if String.eqb (cf_organization f) "" then "" else " on behalf of " +:+ cf_organization f) +:+ ". The sender proved this address with an emailed code.");
  _ ← eff_write (on_su_inbox (on_ib_conv (discardEmailCode for_contact (cf_email f))));
  _ ← send_receipt env w c "We received your message"
        ("Hello " +:+ cf_name f +:+ "," +:+ LF2 +:+ "We received your message (reference " +:+ cv_reference c +:+ ") and will reply to this address. To add to it, reply to this email and keep the reference in the subject." +:+ LF2 +:+ "Lab Kiosk") true;
  _ ← tell_owner env w c ("Contact form: " +:+ cv_subject c)
        ("From: " +:+ cf_name f +:+ " <" +:+ cf_email f +:+ "> (address verified)" +:+ LF1 +:+ "Organization: " +:+ default "-"%string (nonempty (cf_organization f)) +:+ LF1 +:+ "About: " +:+ re_label (cf_reason f) +:+ LF2 +:+
         cf_message f +:+ listing_text reseller +:+ LF2 +:+ "Reply from Mail in the Super Admin console.");
  mret (SFiled (cv_reference c)).

(** POST /api/contact. *)
Definition handleContactForm (env : SignupEnv) (w : SignupWorld) (body : option ContactBody) : eff SignupState SignupAnswer :=
  match mailConfigProblem (se_mail env), body with
  | Some _, _ => mret (SError 503 "The contact form is temporarily unavailable. Please write to us by email instead.")
  | None, None => mret (SError 400 "The request body must be JSON")
  | None, Some b =>
      match readContact b with
      | inl problem => mret (SError 400 problem)
      | inr f =>
          reseller ← reseller_for b f;
          match reseller with
          | inl (status, problem) => mret (SError status problem)
          | inr reseller =>
              let key := "contact:" +:+ sw_ip w in
              wait ← wait_for key CONTACT_LIMIT CONTACT_WINDOW (sw_now w);
              if 0 <? wait then mret (SError 429 ("Too many messages from this address. Try again in " +:+ minutes_text wait +:+ " minute(s)."))
              else
                pepper ← eff_result (se_pepper env);
                verdict ← check_code pepper for_contact (cf_email f) (cf_emailCode f) (sw_now w);
                match verdict with
                | code_expired => mret (SError 400 "That code has expired. Ask for a new one.")
                | code_wrong => mret (SError 400 "That code is not correct")
                | code_ok => _ ← hit key CONTACT_WINDOW (sw_now w); file_contact env w f reseller
                end
          end
      end
  end.

(** ** Asking for Remote Control *)

(** What is asked of a request, before anything is written. [status]: of the row the
    router read; [body]: the reason, none where the body is not JSON. *)
Definition ask_remote (w : SignupWorld) (t : Tenant) (requester : User) : eff SignupState Conversation :=
  _ ← eff_write (on_su_inbox (update_remote (t_id t) (fun r => mkRemote (rc_tenant_id r) rc_pending (rc_seats r) (rc_revoked_at r))));
  existing ← eff_read (fun s => findOpenConversationForTenant (su_conv s) (t_id t) k_remote_control);
  match existing with
  | Some c => mret c
  | None => start_conversation w (mkNew k_remote_control (Some (t_id t)) ("Remote Control for " +:+ t_name t) (u_email requester) (Some (u_name requester)) None None true)
  end.

(** POST /api/tenant/remote-control/request. *)
Definition handleRemoteControlRequest (env : SignupEnv) (w : SignupWorld) (t : Tenant) (status : RemoteControlStatus) (userId : string) (body : option string) : eff SignupState SignupAnswer :=
  match status, mailConfigProblem (se_mail env), body with
  | rc_approved, _, _ => mret (SError 409 "Remote Control is already available to this organization")
  | rc_pending, _, _ => mret (SError 409 "Remote Control has already been requested and is waiting for review")
  | _, Some _, _ => mret (SError 503 "Requests are temporarily unavailable. Please write to support instead.")
  | _, None, None => mret (SError 400 "The request body must be JSON")
  | _, None, Some rawReason =>
      let reason := multiline rawReason 2000 in
      requester ← eff_read (fun s => findUserById (ib_accounts (su_inbox s)) userId);
      match requester with
      | None => mret (SError 401 "Authentication required")
      | Some u =>
          let asked := u_name u +:+ " <" +:+ u_email u +:+ "> asked for Remote Control for " +:+ t_name t +:+ " (" +:+ t_subdomain t +:+ ")." in
          c ← ask_remote w t u;
          _ ← add_su_message w c event (u_email u) None (asked +:+ (if String.eqb reason "" then "" else LF2 +:+ "Reason given:" +:+ LF1 +:+ reason));
          _ ← in_inbox (audit (mkAudit (Some (t_id t)) (u_id u) "remote_control.request" (Some ("reference=" +:+ cv_reference c))));
          _ ← send_receipt env w c "Remote Control request received"
                ("Hello " +:+ u_name u +:+ "," +:+ LF2 +:+ "We received your request to turn on Remote Control for " +:+ t_name t +:+ " (reference " +:+ cv_reference c +:+ "). We will email you when it has been reviewed; licensing may need to be arranged first." +:+ LF2 +:+ "Lab Kiosk") false;
          _ ← tell_owner env w c ("Remote Control requested: " +:+ t_name t) (asked +:+ (if String.eqb reason "" then "" else LF2 +:+ reason) +:+ LF2 +:+ "Review it under Tasks in the Super Admin console.");
          mret (SRequested (cv_reference c))
      end
  end.
End Signup.

(** ** What a form may change *)

#[local] Existing Instance rows_kept_preorder.

(** The tables that decide what somebody may do, and the answers of a registration. *)
Definition kept_tables (s : SignupState) :=
  (tenants (su_core s), sessions (su_core s), users (ib_accounts (su_inbox s)), ib_remote (su_inbox s), organization_profiles (su_conv s), email_codes (su_conv s), su_acceptances s).

(** None of them changes, and no conversation goes. *)
Definition steady (s s' : SignupState) : Prop := kept_tables s' = kept_tables s /\ rows_kept (ib_room (su_inbox s)) (ib_room (su_inbox s')).
#[export] Instance steady_preorder : PreOrder steady.
Proof. split; [intros s; by split|]. intros a b c [E1 R1] [E2 R2]. split; [congruence|by etransitivity]. Qed.

(** The same of a program on the mailroom. *)
Definition room_steady (s s' : Room) : Prop := (organization_profiles (rm_conv s'), email_codes (rm_conv s')) = (organization_profiles (rm_conv s), email_codes (rm_conv s)) /\ rows_kept s s'.
#[export] Instance room_steady_preorder : PreOrder room_steady.
Proof. split; [intros s; by split|]. intros a b c [E1 R1] [E2 R2]. split; [congruence|by etransitivity]. Qed.

Lemma steady_room {A} (m : eff Room A) : keeps room_steady m -> keeps steady (in_su_room m).
Proof.
  intros Hm o s s' o' r. unfold in_su_room, in_inbox, in_room. destruct (m o (ib_room (su_inbox s))) as [[room o1] r1] eqn:E. intros [= <- _ _]. apply Hm in E as [Et Hr]. injection Et as Ep Ec. split; [|done].
  unfold kept_tables, su_conv, ib_conv. cbn. by rewrite Ep, Ec.
Qed.

Lemma room_rows {A} (m : eff Room A) : keeps rows_kept m -> keeps (fun s s' => (organization_profiles (rm_conv s'), email_codes (rm_conv s')) = (organization_profiles (rm_conv s), email_codes (rm_conv s))) m -> keeps room_steady m.
Proof. intros H1 H2 o s s' o' r E. split; [by eapply H2|by eapply H1]. Qed.

Lemma room_add_message m : keeps room_steady (add_message m).
Proof.
  apply room_rows; [apply rows_add_message|]. apply keeps_call; [split; [by intros ?|by intros ??? -> ->]|]. intros s s' a. unfold addConversationMessage. destruct (existsb _ _); [done|]. destruct (negb _); [done|]. cbn [mbind js_result_bind].
  intros Hs. apply Returns_inj in Hs. apply (f_equal fst) in Hs. cbn [fst] in Hs. by subst s'.
Qed.
Lemma room_sendMail env mail id : keeps room_steady (sendMail record_sent env mail id).
Proof. apply keeps_sendMail; [apply _|]. intros m s. split; [done|]. intros c Hc. exists c. by split_and!. Qed.
Lemma room_send env c body opts id providerId now : keeps room_steady (sendOnConversation env c body opts id providerId now).
Proof. apply keeps_bind; [apply _|apply keeps_try, room_sendMail|]. intros sent. apply keeps_bind; [apply _|apply room_add_message|]. intros. apply keeps_ret, _. Qed.

Lemma steady_write f : (forall s, steady s (f s)) -> keeps steady (eff_write f).
Proof. intros Hf o s s' o' r [[->| ->] _]%eff_write_inv; [reflexivity|apply Hf]. Qed.
Lemma steady_each {A} (f : A -> eff SignupState unit) l : (forall x, keeps steady (f x)) -> keeps steady (eff_each f l).
Proof. intros Hf. induction l as [|x l IH]; [apply keeps_ret, _|]. apply keeps_bind; [apply _|apply Hf|]. by intros []. Qed.
Lemma steady_audit entry : keeps steady (in_inbox (audit entry)).
Proof.
  intros o s s' o' r. unfold in_inbox. destruct (audit entry o (su_inbox s)) as [[i o1] r1] eqn:E. intros [= <- _ _]. unfold audit in E. apply eff_bind_inv in E as (s1 & o2 & r2 & E & E2). apply eff_try_inv in E as (r3 & E & ->).
  injection E2 as <- _ _. apply eff_write_inv in E as [[->| ->] _]; (split; [done|]; intros c Hc; exists c; by split_and!).
Qed.
Lemma steady_open w data : keeps steady (start_conversation w data).
Proof.
  apply keeps_call; [apply _|]. intros s s' a. unfold createConversation. destruct (category_of data) as [category|]; cbn [mbind js_result_bind]; [|done]. destruct (existsb _ _); [done|]. intros [= <- _]. split; [done|].
  intros c Hc. exists c. split; [|by split_and!]. apply elem_of_app. by left.
Qed.
Lemma steady_message w c dir from subject body : keeps steady (add_su_message w c dir from subject body).
Proof. apply steady_room, room_add_message. Qed.
Lemma steady_receipt env w c subject body autoReply : keeps steady (send_receipt env w c subject body autoReply).
Proof. apply keeps_bind; [apply _|apply steady_room, room_send|]. intros. apply keeps_ret, _. Qed.
Lemma steady_owner env w c subject body : keeps steady (tell_owner env w c subject body).
Proof. unfold tell_owner, notifyPlatformOwner. destruct (String.eqb _ _); [apply keeps_ret, _|]. apply keeps_bind; [apply _|apply keeps_try, steady_room, room_sendMail|]. intros. apply keeps_ret, _. Qed.
Lemma steady_seeds w id : keeps steady (_ ← seedDefaultPortalSites w id; seed_whitelist w id).
Proof.
  apply keeps_bind; [apply _|apply steady_each; intros row|intros _; apply steady_each; intros row; apply steady_write; intros s; split; [done|]; intros c Hc; exists c; by split_and!].
  apply keeps_call; [apply _|]. intros s s' a. destruct (existsb _ _); [done|]. intros [= <- _]. split; [done|]. intros c Hc. exists c. by split_and!.
Qed.
Lemma steady_hit key window now : keeps steady (hit key window now).
Proof. apply steady_write. intros s. split; [done|]. intros c Hc. exists c. by split_and!. Qed.
Lemma steady_reseller rows s : steady s (mkSignup (su_inbox s) (su_acceptances s) rows (su_keys s)).
Proof. split; [done|]. intros c Hc. exists c. by split_and!. Qed.

Create HintDb signup.
#[export] Hint Resolve steady_preorder keeps_ret keeps_throw keeps_read steady_audit steady_open steady_message steady_receipt steady_owner steady_hit : signup.
Ltac steady_step := first [solve [eauto 2 with signup] | apply keeps_bind; [apply _| |intros ?]].

Lemma steady_file env w fields user t subdomain at_ : keeps steady (file_registration env w fields user t subdomain at_).
Proof. unfold file_registration. repeat steady_step. Qed.

(** ** What is proved before an account exists *)

Section Proved.
Context `{UrlParser} `{WebCrypto} `{PasskeyCrypto} `{Sealing} `{TokenCrypto}.

(** A code that was mailed to the address, not expired, not guessed at five times. *)
Definition proves_email (pepper : string) (p : EmailCodePurpose) (email typed : string) (now : Z) (s : SignupState) : Prop :=
  exists row, row ∈ email_codes (su_conv s) /\ ec_id row = codeId p email /\ now < ec_expires_at row /\ ec_attempts row < EMAIL_CODE_MAX_ATTEMPTS /\ ec_code_hash row = emailCodeHash pepper p email (trim typed).

Lemma checkEmailCode_ok pepper p email typed now s : snd (checkEmailCode pepper p email typed now (su_conv s)) = code_ok -> proves_email pepper p email typed now s.
Proof.
  unfold checkEmailCode. destruct (js_find _ _) as [row|] eqn:Er; [|done]. apply js_find_Some in Er as [Hrow Hid%String.eqb_eq]. destruct (_ || _) eqn:Ex; [done|]. apply orb_false_iff in Ex as [Ex%Z.leb_gt Ea%Z.leb_gt].
  destruct (timingSafeEqual _ _) eqn:Et; [|by destruct (_ <=? _)]. apply timingSafeEqual_iff in Et. intros _. exists row. by split_and!.
Qed.

Lemma checkEmailCode_codes pepper p email typed now c : exists f, fst (checkEmailCode pepper p email typed now c) = on_codes f c.
Proof.
  assert (Hid : exists f, c = on_codes f c) by (exists (fun l => l); by destruct c). unfold checkEmailCode. destruct (js_find _ _); [|done]. destruct (_ || _); [done|]. destruct (timingSafeEqual _ _); [done|].
  destruct (_ <=? _); by eexists.
Qed.

(** Only the table of codes changes, and only where the code was wrong. *)
Lemma check_code_inv pepper p email typed now o s s' o' r : check_code pepper p email typed now o s = (s', o', r) ->
  (exists f, s' = on_su_inbox (on_ib_conv (on_codes f)) s) /\ (r = Returns code_ok -> s' = s /\ proves_email pepper p email typed now s).
Proof.
  assert (Hid : exists f, s = on_su_inbox (on_ib_conv (on_codes f)) s) by (exists (fun l => l); by destruct s as [[? ? [[] ? ? ?] ?] ? ? ?]).
  intros (s1 & o1 & r1 & E1 & E)%eff_bind_inv. apply eff_read_inv in E1 as [-> Hv]. destruct r1 as [verdict|e]; [|destruct E as (-> & _ & ->); by split]. specialize (Hv _ eq_refl). destruct verdict.
  - apply eff_bind_inv in E as (s2 & o2 & r2 & E2 & E). injection E2 as <- <- <-. injection E as <- _ <-. split; [done|]. intros _. split; [done|]. by apply checkEmailCode_ok.
  - apply eff_bind_inv in E as (s2 & o2 & r2 & E2 & E). apply eff_write_inv in E2 as [E2 _]. assert (Es : s' = s2 /\ r <> Returns code_ok) by (destruct r2; [by injection E as <- _ <-|by destruct E as (-> & _ & ->)]). destruct Es as [-> Hr]. split; [|done].
    destruct E2 as [->| ->]; [done|]. destruct (checkEmailCode_codes pepper p email typed now (su_conv s)) as [f Ef]. exists f. unfold on_su_inbox, on_ib_conv, on_ib_room, on_conv. fold (ib_conv (su_inbox s)). fold (su_conv s). by rewrite Ef.
  - injection E as <- _ <-. by split.
Qed.

(** ** The steps of a new account *)

(** Who may do what is as it was. *)
Definition grants_of (s : SignupState) := (tenants (su_core s), sessions (su_core s), users (ib_accounts (su_inbox s)), ib_remote (su_inbox s)).
Definition grants_kept (s s' : SignupState) : Prop := grants_of s' = grants_of s.
#[export] Instance no_grant_preorder : PreOrder grants_kept.
Proof. split; [by intros ?|]. intros a b c Hab Hbc. unfold grants_kept in *. congruence. Qed.
Lemma steady_no_grant {A} (m : eff SignupState A) : keeps steady m -> keeps grants_kept m.
Proof. intros Hm o s s' o' r [E _]%Hm. injection E. intros. unfold grants_kept, grants_of. congruence. Qed.
Lemma write_no_grant f : (forall s, grants_kept s (f s)) -> keeps grants_kept (eff_write f).
Proof. intros Hf o s s' o' r [[->| ->] _]%eff_write_inv; [reflexivity|apply Hf]. Qed.

Lemma subdomain_loop_inv base draws o s s' o' r : subdomain_loop base draws o s = (s', o', r) ->
  s' = s /\ forall c, r = Returns c -> isReservedSlug c = false /\ findTenantBySubdomain (su_core s) c = None.
Proof.
  revert o. induction draws as [|bytes rest IH]; intros o; cbn [subdomain_loop]; [by intros [= <- _ <-]|]. destruct (isReservedSlug _) eqn:Er; [apply IH|]. intros (s1 & o1 & r1 & E1 & E)%eff_bind_inv. apply eff_read_inv in E1 as [-> Hr].
  destruct r1 as [taken|e]; [|by destruct E as (-> & _ & ->)]. specialize (Hr _ eq_refl). destruct taken; cbn [is_Some_b] in E; [by apply IH in E|]. injection E as <- _ <-. split; [done|]. intros c [= <-]. by split.
Qed.

Definition with_tenant (t : Tenant) : SignupState -> SignupState := on_su_core (on_tenants (fun l => l ++ [t])).
Lemma createTenant_inv w data o s s' o' r : createTenant w data o s = (s', o', r) ->
  exists s1, (s1 = s \/ s1 = with_tenant (new_tenant data (sw_tenant w) (sw_now w)) s) /\ steady s1 s' /\ forall t, r = Returns t -> t = new_tenant data (sw_tenant w) (sw_now w) /\ s1 = with_tenant t s.
Proof.
  unfold createTenant. cbv zeta. intros (s1 & o1 & r1 & E1 & E)%eff_bind_inv. set (t := new_tenant _ _ _) in *. exists s1.
  assert (Hs : (s1 = s \/ s1 = with_tenant t s) /\ forall a, r1 = Returns a -> s1 = with_tenant t s).
  { apply eff_call_inv in E1 as [Ha Hb]. split.
    - destruct Ha as [->|[a Ea]]; [by left|]. right. destruct (existsb _ _); [done|]. destruct (negb _); [done|]. by injection Ea.
    - intros a Hr. specialize (Hb a Hr). destruct (existsb _ _); [done|]. destruct (negb _); [done|]. by injection Hb. }
  destruct Hs as [Hs Hr]. split; [done|]. destruct r1 as [a|e]; [|destruct E as (-> & _ & ->); by split]. rewrite (Hr a eq_refl) in *. clear Hr.
  apply eff_bind_inv in E as (s2 & o2 & r2 & E2 & E). pose proof (steady_seeds w (t_id t) o1 (with_tenant t s)) as Hseed. unfold mbind, eff_bind in Hseed. rewrite E2 in Hseed.
  destruct r2 as [b|e]; [|destruct E as (-> & _ & ->); split; [by eapply Hseed|done]]. apply eff_bind_inv in E as (s3 & o3 & r3 & E3 & E). rewrite E3 in Hseed. specialize (Hseed _ _ _ eq_refl).
  destruct r3; [injection E as <- _ <-; split; [done|]; by intros x [= <-]|]. destruct E as (-> & _ & ->). by split.
Qed.

Definition account_user (w : SignupWorld) (fields : SignupFields) (pepper : string) : User :=
  let h := hashPassword (sf_password fields) pepper (sw_salt w) in mkUser (sw_user w) (toLowerCase (op_contact_email (sf_profile fields))) (fst h) (snd h) org_admin (op_contact_name (sf_profile fields)) 0.
Definition with_user (u : User) : SignupState -> SignupState := on_su_inbox (on_ib_accounts (on_users (fun l => l ++ [u]))).
(** The organization of a registration: pending, its owner the new account, at an address that nobody has. *)
Definition opened_for (w : SignupWorld) (fields : SignupFields) (s : SignupState) (t : Tenant) : Prop :=
  t_status t = pending /\ t_user_id t = sw_user w /\ t_name t = sf_name fields /\ findTenantBySubdomain (su_core s) (t_subdomain t) = None.

Lemma createUser_inv w fields pepper o s s' o' r : let p := sf_profile fields in
  createUser (op_contact_email p) (sf_password fields) (op_contact_name p) pepper (Some org_admin) (sw_user w) (sw_salt w) o s = (s', o', r) ->
  (s' = s \/ s' = with_user (account_user w fields pepper) s) /\ forall u, r = Returns u -> u = account_user w fields pepper /\ s' = with_user u s.
Proof.
  cbv zeta. unfold createUser, account_user. destruct (hashPassword _ _ _) as [hash salt]. cbn [fst snd default]. intros [Ha Hb]%eff_call_inv. split.
  - destruct Ha as [->|[a Ea]]; [by left|]. right. destruct (existsb _ _); [done|]. by injection Ea.
  - intros u Hr. specialize (Hb u Hr). destruct (existsb _ _); [done|]. injection Hb as <- <-. by split.
Qed.

(** What follows the row of the organization grants nothing. *)
Definition after_tenant (env : SignupEnv) (w : SignupWorld) (fields : SignupFields) (user : User) (subdomain : string) (phoneVerifiedAt : option Z) (t : Tenant) : eff SignupState SignupAnswer :=
  let p := sf_profile fields in
  _ ← eff_call (fun s => c ← createOrganizationProfile (t_id t) (verify_profile (sw_now w) p) phoneVerifiedAt (sw_now w) (su_conv s); Returns (on_su_inbox (on_ib_conv (fun _ => c)) s, tt));
  _ ← eff_write (on_su_inbox (on_ib_conv (discardEmailCode for_signup (op_contact_email p))));
  _ ← eff_write (fun s => mkSignup (su_inbox s)
        (su_acceptances s ++ acceptance_rows (sw_acceptance w) (mkAcceptanceInput (t_id t) (sf_name fields) (u_id user) (op_contact_email p) LEGAL_DOCUMENTS at_registration (Some (sw_ip w)) (sw_agent w)) (sw_now w))
        (su_resellers s) (su_keys s));
  file_registration env w fields user t subdomain phoneVerifiedAt.

Lemma after_no_grant env w fields user subdomain at_ t : keeps grants_kept (after_tenant env w fields user subdomain at_ t).
Proof.
  unfold after_tenant. cbv zeta. apply keeps_bind; [apply _| |intros _].
  - apply keeps_call; [apply _|]. intros s s' a. destruct (createOrganizationProfile _ _ _ _ _); cbn [mbind js_result_bind]; [|done]. by intros [= <- _].
  - apply keeps_bind; [apply _|by apply write_no_grant|intros _]. apply keeps_bind; [apply _|by apply write_no_grant|intros _]. apply steady_no_grant, steady_file.
Qed.

Lemma account_grants env w fields pepper at_ o s s' o' r : create_account env w fields pepper at_ o s = (s', o', r) ->
  exists us ts, grants_of s' = (tenants (su_core s) ++ ts, sessions (su_core s), users (ib_accounts (su_inbox s)) ++ us, ib_remote (su_inbox s)) /\
    (us = [] \/ us = [account_user w fields pepper]) /\ (ts = [] \/ us = [account_user w fields pepper] /\ exists t, ts = [t] /\ opened_for w fields s t).
Proof.
  unfold create_account. cbv zeta. intros (s1 & o1 & r1 & E1 & E)%eff_bind_inv. apply createUser_inv in E1 as [Hs Hr]. destruct r1 as [user|e]; [|destruct E as (-> & _ & _)].
  2: { destruct Hs as [->| ->]; [exists [], []; rewrite !app_nil_r|exists [account_user w fields pepper], []; rewrite app_nil_r]; split_and!; auto. }
  destruct (Hr _ eq_refl) as [-> ->]. clear Hs Hr. set (u := account_user w fields pepper) in *. exists [u].
  apply eff_bind_inv in E as (s2 & o2 & r2 & E2 & E). apply subdomain_loop_inv in E2 as [-> Hfree]. destruct r2 as [sub|e]; [|destruct E as (-> & _ & _); exists []; rewrite app_nil_r; split_and!; auto]. destruct (Hfree _ eq_refl) as [_ Hsub].
  apply eff_bind_inv in E as (s3 & o3 & r3 & E3 & E). apply createTenant_inv in E3 as (s4 & H4 & [E4 _] & Ht). set (t := new_tenant _ _ _) in *.
  assert (Ho : opened_for w fields s t). { unfold opened_for. cbn [t_status t_user_id t_name t_subdomain t new_tenant nt_status nt_userId nt_name nt_subdomain default u account_user u_id]. split_and!; try done. unfold findTenantBySubdomain in *. rewrite toLowerCase_idemp. exact Hsub. }
  assert (E' : grants_of s' = grants_of s3). { destruct r3 as [x|e]; [|by destruct E as (-> & _ & _)]. by apply (after_no_grant _ _ _ _ _ _ _ _ _ _ _ _ E). }
  rewrite E'. assert (E'' : grants_of s3 = grants_of s4) by (injection E4; intros; unfold grants_of; congruence). rewrite E''.
  destruct H4 as [->| ->]; [exists []; rewrite app_nil_r|exists [t]]; (split; [done|]); split; auto. right. split; [done|]. by exists t.
Qed.

(** What a finished registration left: the profile, the acceptance of every document
    in force, an open task with the reference that is answered, and no code. *)
Definition on_record (w : SignupWorld) (fields : SignupFields) (phoneVerifiedAt : option Z) (s s' : SignupState) (t : Tenant) (a : SignupAnswer) : Prop :=
  let email := op_contact_email (sf_profile fields) in
  (exists p, organization_profiles (su_conv s') = organization_profiles (su_conv s) ++ [p] /\ op_tenant_id p = t_id t /\ op_contact_email p = toLowerCase email /\ op_contact_phone p = op_contact_phone (sf_profile fields) /\
     op_email_verified_at p = Some (sw_now w) /\ op_phone_verified_at p = phoneVerifiedAt) /\
  (exists rows, su_acceptances s' = su_acceptances s ++ rows /\ List.map ac_document rows = List.map (fun d => document_text (ld_id d)) LEGAL_DOCUMENTS /\ List.map ac_version rows = List.map ld_version LEGAL_DOCUMENTS /\ Forall (fun r => ac_tenant_id r = t_id t) rows) /\
  (exists c, c ∈ conversations (su_conv s') /\ cv_kind c = k_signup /\ cv_tenant_id c = Some (t_id t) /\ cv_status c = s_open /\ a = SPending (cv_reference c)) /\
  (forall row, row ∈ email_codes (su_conv s') -> ec_id row <> codeId for_signup email).

Lemma file_done env w fields user t sub at_ o s s' o' a : file_registration env w fields user t sub at_ o s = (s', o', Returns a) ->
  kept_tables s' = kept_tables s /\ exists c, c ∈ conversations (su_conv s') /\ cv_kind c = k_signup /\ cv_tenant_id c = Some (t_id t) /\ cv_status c = s_open /\ a = SPending (cv_reference c).
Proof.
  intros E. split; [by apply steady_file in E as [? _]|]. unfold file_registration in E. cbv zeta in E. apply eff_bind_returns in E as (s1 & o1 & c & E1 & E).
  assert (Hc : c ∈ conversations (su_conv s1) /\ cv_kind c = k_signup /\ cv_tenant_id c = Some (t_id t) /\ cv_status c = s_open).
  { apply eff_call_inv in E1 as [_ E1]. specialize (E1 _ eq_refl). unfold createConversation in E1. cbn [category_of nc_kind mbind js_result_bind] in E1. destruct (existsb _ _); [done|]. injection E1 as <- <-. split; [|done]. apply elem_of_app. right. by apply list_elem_of_singleton. }
  destruct Hc as (Hc & Hk & Ht & Hs). revert E. match goal with |- ?m o1 s1 = _ -> _ => assert (Hm : keeps steady m) by (repeat steady_step) end. intros E. pose proof (Hm _ _ _ _ _ E) as [_ Hrows].
  destruct (Hrows c Hc) as (c' & Hc' & (_ & Hk' & Ht' & Hr' & _) & (Hs' & _)). exists c'. split; [done|]. rewrite Hk', Ht', Hs', Hr'. split_and!; try done.
  apply eff_bind_returns in E as (? & ? & ? & _ & E). apply eff_bind_returns in E as (? & ? & ? & _ & E). apply eff_bind_returns in E as (? & ? & ? & _ & E). apply eff_bind_returns in E as (? & ? & ? & _ & E). by injection E as _ _ <-.
Qed.

Lemma acceptance_columns ids i now : let rows := acceptance_rows ids i now in
  List.map ac_document rows = List.map (fun d => document_text (ld_id d)) (ai_documents i) /\ List.map ac_version rows = List.map ld_version (ai_documents i) /\ Forall (fun r => ac_tenant_id r = ai_tenantId i) rows.
Proof.
  cbv zeta. unfold acceptance_rows. generalize (ai_documents i). intros l. revert ids. induction l as [|d l IH]; intros ids; [by split_and!|]. rewrite imap_cons. cbn [List.map]. destruct (IH (fun n => ids (S n))) as (E1 & E2 & E3).
  split_and!; [cbn [ac_document]; f_equal; exact E1|cbn [ac_version]; f_equal; exact E2|constructor; [done|exact E3]].
Qed.

Lemma after_done env w fields user sub at_ t o s s' o' a : after_tenant env w fields user sub at_ t o s = (s', o', Returns a) -> on_record w fields at_ s s' t a.
Proof.
  unfold after_tenant. cbv zeta. intros (s1 & o1 & [] & E1 & E)%eff_bind_returns. apply eff_call_inv in E1 as [_ E1]. specialize (E1 _ eq_refl). unfold createOrganizationProfile in E1. destruct (existsb _ _); [done|]. cbn [mbind js_result_bind] in E1. injection E1 as <-.
  apply eff_bind_returns in E as (s2 & o2 & [] & E2 & E). apply eff_write_inv in E2 as [_ E2]. rewrite (E2 _ eq_refl) in E. clear E2. apply eff_bind_returns in E as (s3 & o3 & [] & E3 & E). apply eff_write_inv in E3 as [_ E3]. rewrite (E3 _ eq_refl) in E. clear E3.
  apply file_done in E as [Ek Hc]. injection Ek as _ _ _ _ Ep Ec Ea. unfold on_record. cbv zeta. rewrite Ep, Ec, Ea. split; [eexists; split; [reflexivity|]; by split_and!|]. split.
  - eexists. split; [reflexivity|]. apply (acceptance_columns _ (mkAcceptanceInput _ _ _ _ LEGAL_DOCUMENTS _ _ _)).
  - split; [done|]. cbn. intros row Hrow Hid. apply elem_of_bfilter in Hrow as [_ Hrow]. unfold has_code in Hrow. by rewrite Hid, String.eqb_refl in Hrow.
Qed.

Lemma account_done env w fields pepper at_ o s s' o' a : create_account env w fields pepper at_ o s = (s', o', Returns a) ->
  exists t, tenants (su_core s') = tenants (su_core s) ++ [t] /\ on_record w fields at_ s s' t a.
Proof.
  intros E. unfold create_account in E. cbv zeta in E. apply eff_bind_returns in E as (s1 & o1 & u & E1 & E). apply createUser_inv in E1 as [_ E1]. destruct (E1 _ eq_refl) as [-> ->]. apply eff_bind_returns in E as (s2 & o2 & sub & E2 & E). apply subdomain_loop_inv in E2 as [-> _].
  apply eff_bind_returns in E as (s3 & o3 & t & E3 & E). apply createTenant_inv in E3 as (s4 & _ & [Hk _] & Ht). destruct (Ht _ eq_refl) as [_ ->]. clear Ht E1. injection Hk as Et _ _ _ Ep Ec Ea.
  exists t. pose proof (after_no_grant _ _ _ _ _ _ _ _ _ _ _ _ E) as Hg. injection Hg as Et' _ _ _. apply after_done in E. split; [by rewrite Et', Et|]. unfold on_record in *. cbv zeta in *. by rewrite Ep, Ea in E.
Qed.

(** ** The checks of a registration *)

(** [calls]: the checks this Worker made before, which its keys are from. *)
Definition keys_from (env : SignupEnv) (calls : list PhoneCall) (s : SignupState) : Prop := forall config, firebaseConfig (se_firebase env) = Some config -> su_keys s = cache_after config calls.
Definition phone_time (env : SignupEnv) (w : SignupWorld) : option Z := match firebaseConfig (se_firebase env) with Some _ => Some (sw_now w) | None => None end.
Definition phone_proved (env : SignupEnv) (w : SignupWorld) (calls : list PhoneCall) (token_ : jsval) (phone : string) : Prop :=
  forall config, firebaseConfig (se_firebase env) = Some config -> phone_proof config (calls ++ [mkPhoneCall token_ phone (sw_now w) (sw_keys1 w) (sw_keys2 w)]) token_ phone (sw_now w).

Lemma phone_check_inv env w calls token_ phone o s s' o' r : keys_from env calls s -> phone_check env w token_ phone o s = (s', o', r) ->
  kept_tables s' = kept_tables s /\ forall at_, r = Returns (inr at_) -> at_ = phone_time env w /\ phone_proved env w calls token_ phone.
Proof.
  intros Hk. unfold phone_check, phone_time, phone_proved. destruct (firebaseConfig _) as [config|] eqn:Ef; [|intros [= <- _ <-]; split; [done|]; by intros ? [= <-]]. specialize (Hk _ Ef).
  intros (s1 & o1 & r1 & E1 & E)%eff_bind_inv. unfold eff_local in E1. destruct (verifyPhoneToken _ _ _ _ _ _ _) as [cache result] eqn:Ev. injection E1 as <- <- <-. injection E as <- _ <-. split; [done|]. intros at_ [= Ha].
  destruct result as [x| |]; [injection Ha as <-|done..]. split; [done|]. intros c' [= <-]. pose proof (phone_token_proves config calls (mkPhoneCall token_ phone (sw_now w) (sw_keys1 w) (sw_keys2 w)) x) as Hp.
  unfold check_call in Hp. cbn [pc_answer1 pc_answer2 pc_token pc_phone pc_now] in Hp. rewrite <- Hk, Ev in Hp. by destruct (Hp eq_refl) as [-> Hproof].
Qed.

(** A line of a range that says the rest of a digest was in a breach. *)
Definition counts_above_zero (count : string) : Prop := match string_number count with Some (NInt n) => 0 < n | Some (NFrac f) => 0 <= f | None => False end.
Definition digest_listed (body rest : string) : Prop := exists line count more, line ∈ split_on (chr 10) body /\ split_on ":" (trim line) = rest :: count :: more /\ counts_above_zero count.
(** Where the check is on and its service answers, the answer does not list the
    password. Where it is off or the service cannot be read, nothing is known. *)
Definition unbreached (env : SignupEnv) (w : SignupWorld) (password : string) : Prop :=
  let digest := toUpperCase (bufferToHex (sw_sha1 w password)) in
  se_breach_off env = false -> forall body, sw_range w (str_take 5 digest) = Some body -> ~ digest_listed body (str_drop 5 digest).

Lemma breach_none env w password : breachedPasswordProblem (se_breach_off env) (sw_sha1 w) (sw_range w) password = None -> unbreached env w password.
Proof.
  unfold breachedPasswordProblem, unbreached. cbv zeta. intros Hnone Hoff body Hb (line & count & more & Hl & Hs & Hc). rewrite Hoff, Hb in Hnone. destruct (existsb _ _) eqn:He; [done|].
  rewrite <- not_true_iff_false in He. apply He, existsb_exists. exists line. rewrite <- list_elem_of_In, Hs, String.eqb_refl. split; [done|]. unfold counts_above_zero in Hc. destruct (string_number count) as [[n|f]|]; [by apply Z.ltb_lt|by apply Z.leb_le|done].
Qed.

(** A request that comes to the account has passed every check. *)
Definition passed_checks (env : SignupEnv) (w : SignupWorld) (calls : list PhoneCall) (b : SignupBody) (fields : SignupFields) (pepper : string) (s : SignupState) : Prop :=
  let email := op_contact_email (sf_profile fields) in
  readSignup b = inr fields /\ se_pepper env = Returns pepper /\ unbreached env w (sf_password fields) /\
  proves_email pepper for_signup email (sf_emailCode fields) (sw_now w) s /\ phone_proved env w calls (sb_phoneToken b) (op_contact_phone (sf_profile fields)) /\ findUserByEmail (ib_accounts (su_inbox s)) email = None.

Lemma tables_grants_kept s s' : kept_tables s' = kept_tables s -> grants_kept s s'.
Proof. intros E. injection E. intros. unfold grants_kept, grants_of. congruence. Qed.
Lemma codes_no_grant f s : grants_kept s (on_su_inbox (on_ib_conv (on_codes f)) s).
Proof. done. Qed.

(** A request that ends before the account: nothing is granted, nothing answered as pending. *)
Definition refused (s s' : SignupState) (r : js_result SignupAnswer) : Prop := grants_kept s s' /\ forall reference, r <> Returns (SPending reference).
Lemma refused_error s s1 status message o1 s' o' r : grants_kept s s1 -> (mret (SError status message) : eff SignupState SignupAnswer) o1 s1 = (s', o', r) -> refused s s' r.
Proof. intros Hs [= <- _ <-]. by split. Qed.
Lemma refused_throw s s1 o1 (o' : list Outcome) s' r e : grants_kept s s1 -> s' = s1 /\ o' = o1 /\ r = Throws e -> refused s s' r.
Proof. intros Hs (-> & _ & ->). by split. Qed.
#[local] Hint Resolve refused_error refused_throw tables_grants_kept : signup.

Lemma register_inv env w body calls o s s' o' r : keys_from env calls s -> handleRegister env w body o s = (s', o', r) ->
  refused s s' r \/ exists b fields pepper s1 o1, body = Some b /\ passed_checks env w calls b fields pepper s /\ kept_tables s1 = kept_tables s /\ create_account env w fields pepper (phone_time env w) o1 s1 = (s', o', r).
Proof.
  intros Hk E. assert (Hsame : grants_kept s s) by reflexivity. unfold handleRegister in E. destruct (mailConfigProblem _); [|destruct (firebaseConfigProblem _); [|destruct body as [b|]]]; try (left; solve [eauto with signup]).
  destruct (readSignup b) as [?|fields] eqn:Eb; [left; solve [eauto with signup]|]. cbv zeta in E.
  apply eff_bind_inv in E as (s1 & o1 & r1 & E1 & E). apply eff_read_inv in E1 as [-> _]. destruct r1 as [wait|e]; [|left; solve [eauto with signup]]. destruct (0 <? wait); [left; solve [eauto with signup]|].
  apply eff_bind_inv in E as (s2 & o2 & r2 & E2 & E). pose proof (steady_hit _ _ _ _ _ _ _ _ E2) as [Ht2 _]. assert (Hk2 : keys_from env calls s2) by (apply eff_write_inv in E2 as [[->| ->] _]; exact Hk). clear E2.
  destruct r2 as [u2|e]; [|left; solve [eauto with signup]]. destruct (breachedPasswordProblem _ _ _ _) eqn:Ebr; [left; solve [eauto with signup]|]. apply breach_none in Ebr.
  apply eff_bind_inv in E as (s3 & o3 & r3 & E3 & E). apply (phone_check_inv env w calls) in E3 as [Ht3 Hp]; [|done]. rewrite Ht2 in Ht3. destruct r3 as [[[message status]|at_]|e]; [left; solve [eauto with signup]| |left; solve [eauto with signup]].
  destruct (Hp _ eq_refl) as [-> Hproved]. apply eff_bind_inv in E as (s4 & o4 & r4 & E4 & E). destruct (se_pepper env) as [pepper|e] eqn:Epep; injection E4 as <- <- <-; [|left; solve [eauto with signup]].
  apply eff_bind_inv in E as (s5 & o5 & r5 & E5 & E). apply check_code_inv in E5 as [[f Hf] Hok]. assert (Hg5 : grants_kept s s5) by (subst s5; transitivity s3; [by apply tables_grants_kept|apply codes_no_grant]).
  destruct r5 as [[]|e]; [|left; solve [eauto with signup]..]. clear Hf. destruct (Hok eq_refl) as [-> Hcode].
  apply eff_bind_inv in E as (s6 & o6 & r6 & E6 & E). apply eff_read_inv in E6 as [-> Hknown]. destruct r6 as [known|e]; [|left; solve [eauto with signup]]. specialize (Hknown _ eq_refl). destruct known; cbn [is_Some_b] in E; [left; solve [eauto with signup]|].
  right. exists b, fields, pepper, s3, o6. split; [done|]. split; [|by split]. injection Ht3 as _ _ Hu _ _ Hc _. unfold passed_checks. cbv zeta. split_and!; try done; [|unfold findUserByEmail in *; by rewrite <- Hu].
  destruct Hcode as (row & Hrow & Hrest). exists row. rewrite <- Hc. by split.
Qed.

(** C16. An organization comes into being only for somebody who proved what the form
    asks. Whatever a registration carries, whatever the other services answer and
    whatever calls fail: no session is opened and Remote Control is as it was; an
    organization that was not there before is the only one, pending, at an address
    no other has, owned by the one account that was added, an administrator of an
    organization with an e-mail address nobody had; the fields passed every check,
    the code was one mailed to the address, not expired nor guessed at five times;
    where the list of breached passwords is asked and answers, its answer does not
    list the password (where it is off or cannot be read, registration goes on); and
    where Firebase is set up, the telephone number is proved by its token. A request
    that is answered as pending left the organization with its profile, the proof of
    the address dated and, where Firebase is set up, that of the number, the
    acceptance of the current version of every legal document, an open task that has
    the reference in the answer, and no code to be used again. *)
Theorem registration_proved env w body calls o s s' o' r : keys_from env calls s -> handleRegister env w body o s = (s', o', r) ->
  sessions (su_core s') = sessions (su_core s) /\ ib_remote (su_inbox s') = ib_remote (su_inbox s) /\
  (forall t, t ∈ tenants (su_core s') -> t ∉ tenants (su_core s) -> exists b fields pepper, body = Some b /\ passed_checks env w calls b fields pepper s /\ opened_for w fields s t /\
     tenants (su_core s') = tenants (su_core s) ++ [t] /\ users (ib_accounts (su_inbox s')) = users (ib_accounts (su_inbox s)) ++ [account_user w fields pepper]) /\
  (forall reference, r = Returns (SPending reference) -> exists b fields t, body = Some b /\ readSignup b = inr fields /\ tenants (su_core s') = tenants (su_core s) ++ [t] /\
     on_record w fields (phone_time env w) s s' t (SPending reference)).
Proof.
  intros Hk E. apply (register_inv env w body calls) in E as [[Hg Hr]|(b & fields & pepper & s1 & o1 & -> & Ha & Ht & E)]; [|..|done].
  - injection Hg as Et Es _ Er. split_and!; [done|done|intros t; by rewrite Et|]. intros reference Hp. by apply Hr in Hp.
  - pose proof Ht as Ht'. injection Ht' as Et Es Eu Er Ep Ec Ea. pose proof E as E'. apply account_grants in E as (us & ts & Hg & Hus & Hts). rewrite Et, Es, Eu, Er in Hg. injection Hg as Et' Es' Eu' Er'. split_and!; [done|done| |].
    + intros t Hin Hnew. rewrite Et' in Hin. destruct Hts as [->|(-> & x & -> & Ho)]; [by rewrite app_nil_r in Hin|]. apply elem_of_app in Hin as [Hin|Hin%list_elem_of_singleton]; [done|]. subst x. exists b, fields, pepper. split_and!; try done.
      destruct Ho as (? & ? & ? & Hf). unfold opened_for. split_and!; try done. unfold findTenantBySubdomain in *. by rewrite <- Et.
    + intros reference ->. apply account_done in E' as (t & Hten & Hrec). exists b, fields, t. split_and!; [done|by destruct Ha|congruence|]. unfold on_record in *. cbv zeta in *. by rewrite Ep, Ea in Hrec.
Qed.

(** ** The contact form *)

(** What a message leaves: the conversations and their messages, the mail sent, the listings. *)
Definition filed (s : SignupState) := (conversations (su_conv s), conversation_messages (su_conv s), rm_sent (ib_room (su_inbox s)), su_resellers s).
Definition unfiled (s s' : SignupState) (r : js_result SignupAnswer) : Prop := filed s' = filed s /\ grants_kept s s' /\ forall reference, r <> Returns (SFiled reference).
Lemma unfiled_error s s1 status message o1 s' o' r : filed s1 = filed s -> grants_kept s s1 -> (mret (SError status message) : eff SignupState SignupAnswer) o1 s1 = (s', o', r) -> unfiled s s' r.
Proof. intros Hf Hs [= <- _ <-]. by split_and!. Qed.
Lemma unfiled_throw s s1 o1 (o' : list Outcome) s' r e : filed s1 = filed s -> grants_kept s s1 -> s' = s1 /\ o' = o1 /\ r = Throws e -> unfiled s s' r.
Proof. intros Hf Hs (-> & _ & ->). by split_and!. Qed.
#[local] Hint Resolve unfiled_error unfiled_throw : signup.

Lemma reseller_for_inv b f o s s' o' r : reseller_for b f o s = (s', o', r) ->
  s' = s /\ forall a, r = Returns (inr (Some a)) -> re_value (cf_reason f) = "reseller"%string /\ parseResellerApplication (cf_organization f) (cb_phone b) (cb_state b) (cb_city b) (cb_website b) (cb_stocks b) = inr a.
Proof.
  unfold reseller_for. destruct (negb _) eqn:En; [by intros [= <- _ <-]|]. apply negb_false_iff, String.eqb_eq in En. destruct (parseResellerApplication _ _ _ _ _ _) as [problem|x]; [by intros [= <- _ <-]|]. intros (s1 & o1 & r1 & E1 & E)%eff_bind_inv. apply eff_read_inv in E1 as [-> _].
  destruct r1 as [[y|]|e]; [by injection E as <- _ <-|injection E as <- _ <-; split; [done|]; by intros a [= <-]|by destruct E as (-> & _ & ->)].
Qed.

Lemma contact_inv env w body o s s' o' r : handleContactForm env w body o s = (s', o', r) ->
  unfiled s s' r \/ exists b f pepper reseller s1 o1, body = Some b /\ readContact b = inr f /\ se_pepper env = Returns pepper /\ proves_email pepper for_contact (cf_email f) (cf_emailCode f) (sw_now w) s /\
    (forall a, reseller = Some a -> re_value (cf_reason f) = "reseller"%string /\ parseResellerApplication (cf_organization f) (cb_phone b) (cb_state b) (cb_city b) (cb_website b) (cb_stocks b) = inr a) /\
    kept_tables s1 = kept_tables s /\ filed s1 = filed s /\ file_contact env w f reseller o1 s1 = (s', o', r).
Proof.
  intros E. assert (Hsame : grants_kept s s) by reflexivity. assert (Hf : filed s = filed s) by done. unfold handleContactForm in E. destruct (mailConfigProblem _); [|destruct body as [b|]]; try (left; solve [eauto with signup]). destruct (readContact b) as [?|f] eqn:Eb; [left; solve [eauto with signup]|].
  apply eff_bind_inv in E as (s1 & o1 & r1 & E1 & E). apply reseller_for_inv in E1 as [-> Happ]. destruct r1 as [[[status problem]|reseller]|e]; [left; solve [eauto with signup]| |left; solve [eauto with signup]]. cbv zeta in E.
  apply eff_bind_inv in E as (s2 & o2 & r2 & E2 & E). apply eff_read_inv in E2 as [-> _]. destruct r2 as [wait|e]; [|left; solve [eauto with signup]]. destruct (0 <? wait); [left; solve [eauto with signup]|].
  apply eff_bind_inv in E as (s3 & o3 & r3 & E3 & E). destruct (se_pepper env) as [pepper|e] eqn:Epep; injection E3 as <- <- <-; [|left; solve [eauto with signup]].
  apply eff_bind_inv in E as (s4 & o4 & r4 & E4 & E). apply check_code_inv in E4 as [[g Hg] Hok]. assert (Hg4 : grants_kept s s4 /\ filed s4 = filed s) by (subst s4; done). destruct Hg4.
  destruct r4 as [[]|e]; [|left; solve [eauto with signup]..]. clear Hg. destruct (Hok eq_refl) as [-> Hcode]. apply eff_bind_inv in E as (s5 & o5 & r5 & E5 & E).
  pose proof (steady_hit _ _ _ _ _ _ _ _ E5) as [Ht5 _]. assert (Hf5 : filed s5 = filed s) by (by apply eff_write_inv in E5 as [[->| ->] _]). destruct r5 as [u|e]; [|left; solve [eauto with signup]].
  right. exists b, f, pepper, reseller, s5, o5. split_and!; try done. intros a ->. by apply Happ.
Qed.

Lemma file_contact_no_grant env w f reseller : keeps grants_kept (file_contact env w f reseller).
Proof.
  unfold file_contact. cbv zeta. apply keeps_bind; [apply _|apply steady_no_grant, steady_open|intros c]. apply keeps_bind; [apply _|destruct reseller; [by apply write_no_grant|apply keeps_ret, _]|intros _].
  apply keeps_bind; [apply _|apply steady_no_grant, steady_message|intros _]. apply keeps_bind; [apply _|by apply write_no_grant|intros _]. apply steady_no_grant. repeat steady_step.
Qed.

Lemma file_contact_done env w f reseller o s s' o' a : file_contact env w f reseller o s = (s', o', Returns a) ->
  (exists c, c ∈ conversations (su_conv s') /\ cv_kind c = k_support /\ cv_contact_email c = toLowerCase (cf_email f) /\ cv_category c = re_category (cf_reason f) /\ a = SFiled (cv_reference c)) /\
  forall row, row ∈ email_codes (su_conv s') -> ec_id row <> codeId for_contact (cf_email f).
Proof.
  unfold file_contact. cbv zeta. intros (s1 & o1 & c & E1 & E)%eff_bind_returns.
  assert (Hc : c ∈ conversations (su_conv s1) /\ cv_kind c = k_support /\ cv_contact_email c = toLowerCase (cf_email f) /\ cv_category c = re_category (cf_reason f)).
  { apply eff_call_inv in E1 as [_ E1]. specialize (E1 _ eq_refl). unfold createConversation in E1. cbn [category_of nc_kind nc_category mbind js_result_bind] in E1. destruct (existsb _ _); [done|]. injection E1 as <- <-. split; [|done]. apply elem_of_app. right. by apply list_elem_of_singleton. }
  destruct Hc as (Hc & Hk & He & Hcat). apply eff_bind_returns in E as (s2 & o2 & [] & E2 & E). assert (Hr2 : rows_kept (ib_room (su_inbox s1)) (ib_room (su_inbox s2))).
  { destruct reseller; [|injection E2 as <- _; reflexivity]. apply eff_write_inv in E2 as [[->| ->] _]; reflexivity. }
  apply eff_bind_returns in E as (s3 & o3 & [] & E3 & E). pose proof (steady_message _ _ _ _ _ _ _ _ _ _ _ E3) as [_ Hr3]. apply eff_bind_returns in E as (s4 & o4 & [] & E4 & E). apply eff_write_inv in E4 as [_ E4]. rewrite (E4 _ eq_refl) in E. clear E4.
  revert E. match goal with |- ?m o4 ?x = _ -> _ => assert (Hm : keeps steady m) by (repeat steady_step); set (sx := x) end. intros E. pose proof (Hm _ _ _ _ _ E) as [Hk5 Hr5].
  assert (Hall : rows_kept (ib_room (su_inbox s1)) (ib_room (su_inbox s'))) by (etransitivity; [exact Hr2|]; etransitivity; [exact Hr3|exact Hr5]).
  split.
  - destruct (Hall c Hc) as (c' & Hc' & (_ & Hk' & _ & Hr' & He' & Hcat') & _). exists c'. rewrite Hk', He', Hcat', Hr'. split_and!; try done.
    apply eff_bind_returns in E as (? & ? & ? & _ & E). apply eff_bind_returns in E as (? & ? & ? & _ & E). by injection E as _ _ <-.
  - injection Hk5 as _ _ _ _ _ Ec _. rewrite Ec. cbn. intros row Hrow Hid. apply elem_of_bfilter in Hrow as [_ Hrow]. unfold has_code in Hrow. by rewrite Hid, String.eqb_refl in Hrow.
Qed.

(** Nothing is filed for an address that was not proved. Whatever the contact form
    carries and whatever calls fail, it grants nothing: organizations, accounts,
    sessions and Remote Control are as they were. Where a conversation, a message, an
    e-mail or a reseller's application is new, the form was complete and its code was
    one mailed to its address, not expired nor guessed at five times. An answer that
    the message was filed gives the reference of a conversation with that address,
    under the category its reason has, and the code cannot be used again. *)
Theorem contact_proved env w body o s s' o' r : handleContactForm env w body o s = (s', o', r) ->
  grants_kept s s' /\
  (filed s' <> filed s -> exists b f pepper, body = Some b /\ readContact b = inr f /\ se_pepper env = Returns pepper /\ proves_email pepper for_contact (cf_email f) (cf_emailCode f) (sw_now w) s) /\
  (forall reference, r = Returns (SFiled reference) -> exists b f c, body = Some b /\ readContact b = inr f /\ c ∈ conversations (su_conv s') /\ cv_reference c = reference /\ cv_kind c = k_support /\
     cv_contact_email c = toLowerCase (cf_email f) /\ cv_category c = re_category (cf_reason f) /\ forall row, row ∈ email_codes (su_conv s') -> ec_id row <> codeId for_contact (cf_email f)).
Proof.
  intros [(Hf & Hg & Hr)|(b & f & pepper & reseller & s1 & o1 & -> & Hb & Hp & Hcode & _ & Ht & _ & E)]%contact_inv.
  - split_and!; [done|by intros []|]. intros reference He. by apply Hr in He.
  - split_and!; [transitivity s1; [by apply tables_grants_kept|by eapply file_contact_no_grant]|intros _; by exists b, f, pepper|].
    intros reference ->. apply file_contact_done in E as [(c & ? & ? & ? & ? & [= ->]) Hspent]. exists b, f, c. by split_and!.
Qed.
End Proved.

(** ** A registration *)

#[local] Existing Instance toy_url.
#[local] Existing Instance toy_crypto.
#[local] Existing Instance toy_passkeys.
#[local] Existing Instance token_keys.

Definition reg_claims : jsval := match phone_claims with JsObj l => JsObj (("phone_number"%string, JsStr "+15550100") :: l) | v => v end.
Definition reg_sealing : Sealing := {|
  handoffKey := fun _ => [];
  gcm_encrypt := fun _ _ p => p;
  gcm_decrypt := fun _ _ c => Some c;
  utf8_encode := fun s => List.map code (String.list_ascii_of_string s);
  utf8_decode := fun l => String.string_of_list_ascii (List.map chr l);
  json_stringify := fun _ => ""%string;
  json_parse := fun s => if String.eqb s "H" then Some demo_header else if String.eqb s "C" then Some reg_claims else None
|}.
#[local] Existing Instance reg_sealing.

Definition reg_env : SignupEnv := mkSignupEnv mail_env phone_env (mkTurnstile "" "") (Returns "pepper"%string) false "labkiosk.org".
(** The service of breached passwords lists another password twelve times, and this one as padding, zero times. *)
Definition reg_digest (password : string) : list Z := [186; 190; 128 + Z.of_nat (String.length password) mod 16].
Definition reg_range (start : string) : option string := if String.eqb start "BABE8" then Some ("7:12" +:+ String (chr 10) "0:0")%string else None.
Definition reg_world : SignupWorld :=
  mkSignupWorld "192.0.2.1" 100 None reg_digest reg_range key_answer None None 123456 "m1" "m2" "u1" [1; 2; 3] (fun n => [Z.of_nat n; 1; 2; 3]) "t1" (fun n => string_of_int (Z.of_nat n)) (fun _ => "i"%string)
    (fun n => string_of_int (Z.of_nat n)) (fun n => string_of_int (Z.of_nat n)) "c1" [1; 2; 3; 4; 5; 6] "msg1" "msg2" "r1".
Definition empty_signup : SignupState := mkSignup (mkInbox (mkAccounts empty_db [] [] [] [] [] [] []) [] (mkRoom (mkConv [] [] [] []) [] [] []) []) [] [] None.
Definition reg_before : SignupState := on_su_inbox (on_ib_conv (fun c => fst (issueEmailCode "pepper" for_signup "ada@example.org" 123456 90 c))) empty_signup.
Definition reg_body : SignupBody :=
  mkSignupBody "Greenwood School" "" "education" "Ada" "Ada@Example.org" "123456" "+1 555 0100" (JsStr "SA.Qw.AA") "Correct-horse-42" "1 Road" "" "Town" "" "018956" "Singapore" "" "" (JsInt 30) "" (JsBool true).
Definition reg_after := handleRegister reg_env reg_world (Some reg_body) [] reg_before.

Lemma reg_keys : keys_from reg_env [] reg_before.
Proof. by intros config _. Qed.
Lemma reg_run : handleRegister reg_env reg_world (Some reg_body) [] reg_before = (fst (fst reg_after), snd (fst reg_after), snd reg_after).
Proof. unfold reg_after. by destruct (handleRegister _ _ _ _ _) as [[? ?] ?]. Qed.

Lemma registration_proved_witness :
  exists t b fields pepper, tenants (su_core (fst (fst reg_after))) = [t] /\ t_subdomain t = "greenwood-school-abcd"%string /\ t_status t = pending /\ passed_checks reg_env reg_world [] b fields pepper reg_before /\
    on_record reg_world fields (Some 100) reg_before (fst (fst reg_after)) t (SPending "REG-BCDEFG").
Proof.
  destruct (registration_proved _ _ _ _ _ _ _ _ _ reg_keys reg_run) as (_ & _ & Hnew & Hdone).
  destruct (Hdone "REG-BCDEFG"%string) as (b & fields & t & Hb & Hf & Ht & Hrec); [vm_compute; reflexivity|]. assert (Hin : t ∈ tenants (su_core (fst (fst reg_after)))) by (rewrite Ht; apply elem_of_app; right; by apply list_elem_of_singleton).
  destruct (Hnew t Hin) as (b' & fields' & pepper & Hb' & Ha & Ho & _); [by intros []%list_elem_of_In|]. rewrite Hb in Hb'. injection Hb' as <-. pose proof Ha as (Hf' & _). rewrite Hf in Hf'. injection Hf' as <-.
  exists t, b, fields, pepper. split_and!; [exact Ht| |by destruct Ho|exact Ha|exact Hrec].
  change (tenants (su_core (fst (fst reg_after))) = [t]) in Ht. apply (f_equal (List.map t_subdomain)) in Ht. assert (E : List.map t_subdomain (tenants (su_core (fst (fst reg_after)))) = ["greenwood-school-abcd"%string]) by (vm_compute; reflexivity). rewrite E in Ht. by injection Ht as <-.
Defined.

(** A password the service lists opens nothing. *)
Example breached_refused :
  let b := mkSignupBody "Greenwood School" "" "education" "Ada" "Ada@Example.org" "123456" "+1 555 0100" (JsStr "SA.Qw.AA") "Correct-horse-battery-2" "1 Road" "" "Town" "" "018956" "Singapore" "" "" (JsInt 30) "" (JsBool true) in
  snd (handleRegister reg_env reg_world (Some b) [] reg_before) = Returns (SError 400 "This password has appeared in a data breach. Please choose a different one.").
Proof. vm_compute. reflexivity. Qed.

(** The code that registered an organization registers no second one; and without
    the proof of the number there is none. *)
Example code_used_again : snd (handleRegister reg_env reg_world (Some reg_body) [] (fst (fst reg_after))) = Returns (SError 400 "That code has expired. Ask for a new one.").
Proof. vm_compute. reflexivity. Qed.
Example number_unproved :
  snd (handleRegister reg_env (mkSignupWorld "192.0.2.1" 100 None (fun _ => []) (fun _ => None) None None None 123456 "m1" "m2" "u1" [] (fun _ => []) "t1" (fun _ => ""%string) (fun _ => ""%string) (fun _ => ""%string) (fun _ => ""%string) "c1" [] "" "" "") (Some reg_body) [] reg_before)
  = Returns (SError 503 "We could not check your phone number just now. Please try again in a moment.").
Proof. vm_compute. reflexivity. Qed.

Definition contact_before : SignupState := on_su_inbox (on_ib_conv (fun c => fst (issueEmailCode "pepper" for_contact "ada@example.org" 123456 90 c))) empty_signup.
Definition contact_body : ContactBody := mkContactBody "Ada" "Greenwood" "ada@example.org" "123456" "sales" "Hello" JsUndefined JsUndefined JsUndefined JsUndefined JsUndefined.
Definition contact_after := handleContactForm reg_env reg_world (Some contact_body) [] contact_before.

Lemma contact_proved_witness :
  (exists f pepper, readContact contact_body = inr f /\ proves_email pepper for_contact (cf_email f) (cf_emailCode f) 100 contact_before) /\
  exists c, c ∈ conversations (su_conv (fst (fst contact_after))) /\ cv_reference c = "SAL-BCDEFG"%string /\ cv_category c = sales.
Proof.
  assert (E : handleContactForm reg_env reg_world (Some contact_body) [] contact_before = (fst (fst contact_after), snd (fst contact_after), snd contact_after)) by (unfold contact_after; by destruct (handleContactForm _ _ _ _ _) as [[? ?] ?]).
  destruct (contact_proved _ _ _ _ _ _ _ _ E) as (_ & Hproof & Hdone). split.
  - assert (Hfiled : filed (fst (fst contact_after)) <> filed contact_before).
    { intros D. apply (f_equal (fun x => length (fst (fst (fst x))))) in D. vm_compute in D. discriminate. }
    destruct (Hproof Hfiled) as (b & f & pepper & Hb & Hf & _ & Hp). apply (inj Some) in Hb. subst b. exists f, pepper. split; [exact Hf|exact Hp].
  - destruct (Hdone "SAL-BCDEFG"%string) as (b & f & c & Hb & Hf & Hc & Hr & _ & _ & Hcat & _); [vm_compute; reflexivity|]. apply (inj Some) in Hb. subst b. exists c. split_and!; [exact Hc|exact Hr|]. rewrite Hcat. vm_compute in Hf. by injection Hf as <-.
Defined.

(** The rows of an account are not written together. Where the row of the
    organization fails after that of the user, the address is taken: the next
    attempt is told to sign in, and there is no organization to sign in to. *)
Definition reg_stranded := handleRegister reg_env reg_world (Some reg_body) [Done; Done; Done; Done; Done; Done; Lost] reg_before.
Example account_stranded :
  let s := fst (fst reg_stranded) in
  snd reg_stranded = Throws CALL_FAILED /\ tenants (su_core s) = [] /\ snd (handleRegister reg_env reg_world (Some reg_body) [] s) = Returns (SError 409 "Email already registered. Please sign in.").
Proof. vm_compute. split_and!; reflexivity. Qed.
