(* ===== verification/Directory.v ===== *)
(** The directory of resellers and the certified models in the Super Admin's console
    (/api/super/partners, /hardware/certify, /hardware/uncertify and
    /resellers/decide of src/cloudflare-control/src/index.ts), over partners.ts and
    the contact form.

    Calls may fail as in Mail.v. *)
From S2P Require Import Prelude JsString Platform Escape Db Guard Auth WebAuthn TwoFactor Conversations Mail Mailroom Inbox Partners Signup.

Record Directory : Type := mkDirectory { dr_signup : SignupState; dr_certified : list CertifiedRow }.
Definition in_signup {A} (m : eff SignupState A) : eff Directory A := fun o d => let '(s, o', r) := m o (dr_signup d) in (mkDirectory s (dr_certified d), o', r).
Definition dr_resellers (d : Directory) : list Reseller := su_resellers (dr_signup d).

Inductive PartnerPath : Type := path_partners | path_certify | path_uncertify | path_decide.
Record PartnerRequest : Type := mkPartnerRequest {
  pq_session : option Session;
  pq_path : PartnerPath;
  (** None where it is not JSON. *)
  pq_body : option jsval;
  pq_now : Z;
  (** The identifiers of a message on a conversation, and of its e-mail. *)
  pq_outbound : string;
  pq_mail : string
}.
Inductive PartnerAnswer : Type :=
| PError (status : Z) (message : string)
| PLists (certified : list CertifiedModel) (resellers : list Reseller)
| PCertified (certified : list CertifiedModel)
| PDecided (reseller : Reseller) (emailed : bool).

Definition on_certified (f : list CertifiedRow -> list CertifiedRow) (d : Directory) : Directory := mkDirectory (dr_signup d) (f (dr_certified d)).
Definition set_resellers (rows : list Reseller) (d : Directory) : Directory :=
  mkDirectory (mkSignup (su_inbox (dr_signup d)) (su_acceptances (dr_signup d)) rows (su_keys (dr_signup d))) (dr_certified d).

(** [String(value)] of a text; a value that is none names no model. *)
Definition text_of (v : jsval) : string := match v with JsStr s => s | _ => "" end.
Definition partner_audit (userId action details : string) : eff Directory unit := in_signup (in_inbox (audit (mkAudit None userId action (Some (str_take 300 details))))).

Definition certify_route (rq : PartnerRequest) (userId : string) (body : jsval) : eff Directory PartnerAnswer :=
  let vendor := js_get body "vendor" in
  let model := js_get body "model" in
  match snd (certifyModel vendor model (js_get body "note") userId (pq_now rq) []) with
  | Some problem => mret (PError 400 problem)
  | None =>
      _ ← eff_write (on_certified (fun rows => fst (certifyModel vendor model (js_get body "note") userId (pq_now rq) rows)));
      _ ← partner_audit userId "hardware.certify" (text_of vendor +:+ " " +:+ text_of model);
      certified ← eff_read (fun d => listCertifiedModels (dr_certified d));
      mret (PCertified certified)
  end.

Definition uncertify_route (userId : string) (body : jsval) : eff Directory PartnerAnswer :=
  let vendor := js_get body "vendor" in
  let model := js_get body "model" in
  changed ← eff_call (fun d => let '(rows, changed) := uncertifyModel vendor model (dr_certified d) in Returns (on_certified (fun _ => rows) d, changed));
  if negb changed then mret (PError 404 "That model is not certified")
  else
    _ ← partner_audit userId "hardware.uncertify" (text_of vendor +:+ " " +:+ text_of model);
    certified ← eff_read (fun d => listCertifiedModels (dr_certified d));
    mret (PCertified certified).

Definition listed_text (baseDomain : string) (r : Reseller) : string :=
  "Hello " +:+ rs_contact_name r +:+ "," +:+ LF2 +:+ rs_company r +:+ " is now listed as a Lab Kiosk reseller at https://" +:+ baseDomain +:+ "/hardware#resellers, under " +:+ rs_city r +:+ ", " +:+ rs_state r +:+ ", with " +:+
  rs_phone r +:+ " and " +:+ rs_email r +:+ ". Reply to this email to change the listing or to be taken off it." +:+ LF2 +:+ "Lab Kiosk".

(** An approved reseller is told so, on the conversation of the application. *)
Definition tell_reseller (env : SignupEnv) (rq : PartnerRequest) (userId : string) (status : ResellerStatus) (r : Reseller) : eff Directory bool :=
  match (if bool_decide (status = r_approved) then rs_conversation_id r ≫= nonempty else None) with
  | None => mret false
  | Some id =>
      conversation ← eff_read (fun d => findConversation (su_conv (dr_signup d)) id);
      match conversation with
      | None => mret false
      | Some c => in_signup (in_su_room (sendOnConversation (se_mail env) c (listed_text (se_baseDomain env) r)
                    (mkSendOptions (Some "You are listed as a Lab Kiosk reseller"%string) (Some userId) None [] false None) (pq_outbound rq) (pq_mail rq) (pq_now rq)))
      end
  end.

Definition decision_of (body : jsval) : option (string * ResellerStatus) :=
  match js_get body "decision" with
  | JsStr s => if String.eqb s "approve" then Some (s, r_approved) else if String.eqb s "reject" then Some (s, r_rejected) else None
  | _ => None
  end.
Definition status_word (s : ResellerStatus) : string := match s with r_pending => "pending" | r_approved => "approved" | r_rejected => "rejected" end.

Definition decide_route (env : SignupEnv) (rq : PartnerRequest) (userId : string) (body : jsval) : eff Directory PartnerAnswer :=
  match decision_of body with
  | None => mret (PError 400 ("decision is " +:+ quote_mark +:+ "approve" +:+ quote_mark +:+ " or " +:+ quote_mark +:+ "reject" +:+ quote_mark))
  | Some (decision, status) =>
      reseller ← match js_get body "id" with JsStr id => eff_read (fun d => findReseller (dr_resellers d) id) | _ => mret None end;
      match reseller with
      | None => mret (PError 404 "Reseller not found")
      | Some r =>
          changed ← eff_call (fun d => let '(rows, changed) := decideReseller (rs_id r) status userId (pq_now rq) (dr_resellers d) in Returns (set_resellers rows d, changed));
          if negb changed then mret (PError 409 ("This reseller is already " +:+ status_word status))
          else
            _ ← partner_audit userId ("reseller." +:+ decision) ("id=" +:+ rs_id r +:+ " company=" +:+ rs_company r);
            emailed ← tell_reseller env rq userId status r;
            mret (PDecided (mkReseller (rs_id r) (rs_company r) (rs_contact_name r) (rs_email r) (rs_phone r) (rs_state r) (rs_city r) (rs_website r) (rs_stocks r) status (rs_conversation_id r)
                             (rs_created_at r) (rs_decided_at r) (rs_decided_by r)) emailed)
      end
  end.

Definition partner_route (env : SignupEnv) (rq : PartnerRequest) : eff Directory PartnerAnswer :=
  match requireSuperAdmin (pq_session rq), pq_session rq with
  | None, Some session =>
      match pq_path rq, pq_body rq with
      | path_partners, _ => certified ← eff_read (fun d => listCertifiedModels (dr_certified d)); resellers ← eff_read (fun d => listResellers (dr_resellers d)); mret (PLists certified resellers)
      | _, None => mret (PError 400 "The request body must be JSON")
      | path_certify, Some v => certify_route rq (user_id session) (if is_nullish v then JsObj [] else v)
      | path_uncertify, Some v => uncertify_route (user_id session) (if is_nullish v then JsObj [] else v)
      | path_decide, Some v => decide_route env rq (user_id session) (if is_nullish v then JsObj [] else v)
      end
  | Some refusal, _ => mret (PError (Guard.status refusal) (Guard.message refusal))
  | None, None => mret (PError 401 "Authentication required")
  end.

(** ** Who is in the directory *)

Section Vetted.
Context `{UrlParser} `{WebCrypto} `{PasskeyCrypto}.

(** What happens to the directory: a message of the contact form, a request of the
    console, and whatever leaves the table of resellers alone. *)
Inductive DirEvent : Type :=
| by_contact (env : SignupEnv) (w : SignupWorld) (body : option ContactBody)
| by_console (env : SignupEnv) (rq : PartnerRequest)
| by_others.

Inductive dir_step : Directory -> DirEvent -> Directory -> Prop :=
| step_contact d env w body o s' o' r : handleContactForm env w body o (dr_signup d) = (s', o', r) -> dir_step d (by_contact env w body) (mkDirectory s' (dr_certified d))
| step_console d env rq o d' o' r : partner_route env rq o d = (d', o', r) -> dir_step d (by_console env rq) d'
| step_others d d' : dr_resellers d' = dr_resellers d -> dir_step d by_others d'.

(** The events so far, each with the state it met. *)
Inductive dir_run : list (Directory * DirEvent) -> Directory -> Prop :=
| run_begin d : dr_resellers d = [] -> dir_run [] d
| run_step hist d e d' : dir_run hist d -> dir_step d e d' -> dir_run (hist ++ [(d, e)]) d'.

(** The listing is that of an application whose sender proved the address. *)
Definition applied (hist : list (Directory * DirEvent)) (x : Reseller) : Prop :=
  exists d env w b f pepper a, (d, by_contact env w (Some b)) ∈ hist /\ readContact b = inr f /\ re_value (cf_reason f) = "reseller"%string /\
    se_pepper env = Returns pepper /\ proves_email pepper for_contact (cf_email f) (cf_emailCode f) (sw_now w) (dr_signup d) /\
    parseResellerApplication (cf_organization f) (cb_phone b) (cb_state b) (cb_city b) (cb_website b) (cb_stocks b) = inr a /\ rs_email x = toLowerCase (cf_email f) /\
    (rs_company x, rs_phone x, rs_state x, rs_city x, rs_website x, rs_stocks x) = (ra_company a, ra_phone a, ra_state a, ra_city a, ra_website a, ra_stocks a).

(** A platform administrator decided to list it. *)
Definition approved_in (hist : list (Directory * DirEvent)) (id : string) : Prop :=
  exists d env rq session v, (d, by_console env rq) ∈ hist /\ pq_session rq = Some session /\ role session = super_admin /\ pq_path rq = path_decide /\ pq_body rq = Some v /\
    js_get v "decision" = JsStr "approve" /\ js_get v "id" = JsStr id.

Definition vetted (hist : list (Directory * DirEvent)) (x : Reseller) : Prop := applied hist x /\ (rs_status x = r_approved -> approved_in hist (rs_id x)).

(** *** The table of resellers *)

Definition resellers_kept (s s' : SignupState) : Prop := su_resellers s' = su_resellers s.
#[export] Instance resellers_kept_preorder : PreOrder resellers_kept.
Proof. split; [by intros ?|]. intros a b c Ha Hb. unfold resellers_kept in *. congruence. Qed.
Lemma kept_inbox {A} (m : eff InboxState A) : keeps resellers_kept (in_inbox m).
Proof. intros o s s' o' r. unfold in_inbox. destruct (m o (su_inbox s)) as [[i o1] r1]. by intros [= <- _ _]. Qed.
Lemma kept_write f : (forall s, resellers_kept s (f s)) -> keeps resellers_kept (eff_write f).
Proof. intros Hf o s s' o' r [[->| ->] _]%eff_write_inv; [reflexivity|apply Hf]. Qed.
Lemma kept_start w data : keeps resellers_kept (start_conversation w data).
Proof. apply keeps_call; [apply _|]. intros s s' a. destruct (createConversation _ _ _ _ _); cbn [mbind js_result_bind]; [|done]. by intros [= <- _]. Qed.
Lemma kept_owner env w c subject body : keeps resellers_kept (tell_owner env w c subject body).
Proof. unfold tell_owner, notifyPlatformOwner. destruct (String.eqb _ _); [apply keeps_ret, _|]. apply keeps_bind; [apply _|apply keeps_try, kept_inbox|intros; apply keeps_ret, _]. Qed.
Lemma kept_receipt env w c subject body autoReply : keeps resellers_kept (send_receipt env w c subject body autoReply).
Proof. apply keeps_bind; [apply _|apply kept_inbox|intros; apply keeps_ret, _]. Qed.

Lemma file_contact_resellers env w f reseller o s s' o' r : file_contact env w f reseller o s = (s', o', r) ->
  su_resellers s' = su_resellers s \/ exists a cid, reseller = Some a /\ su_resellers s' = createReseller a (cf_name f) (cf_email f) cid (sw_reseller w) (sw_now w) (su_resellers s).
Proof.
  unfold file_contact. cbv zeta. intros (s1 & o1 & r1 & E1 & E)%eff_bind_inv. apply kept_start in E1. destruct r1 as [c|e]; [|left; by destruct E as (-> & _)].
  apply eff_bind_inv in E as (s2 & o2 & r2 & E2 & E).
  assert (Hrest : su_resellers s' = su_resellers s2).
  { destruct r2 as [u|e]; [|by destruct E as (-> & _)]. revert E. match goal with |- ?m o2 s2 = _ -> _ => assert (Hm : keeps resellers_kept m) end; [|intros E; by apply Hm in E].
    apply keeps_bind; [apply _|apply kept_inbox|intros _]. apply keeps_bind; [apply _|by apply kept_write|intros _]. apply keeps_bind; [apply _|apply kept_receipt|intros _]. apply keeps_bind; [apply _|apply kept_owner|intros _]. apply keeps_ret, _. }
  rewrite Hrest. destruct reseller as [a|]; [|injection E2 as <- _ _; by left]. apply eff_write_inv in E2 as [[->| ->] _]; [by left|]. right. exists a, (cv_id c). split; [done|]. cbn [su_resellers]. unfold resellers_kept in E1. by rewrite E1.
Qed.

Lemma contact_resellers d env w body o s' o' r hist : handleContactForm env w body o (dr_signup d) = (s', o', r) ->
  su_resellers s' = dr_resellers d \/ exists x, su_resellers s' = dr_resellers d ++ [x] /\ rs_status x = r_pending /\ applied (hist ++ [(d, by_contact env w body)]) x.
Proof.
  intros [(Hf & _)|(b & f & pepper & reseller & s1 & o1 & -> & Hb & Hp & Hcode & Happ & _ & Hf & E)]%contact_inv; [left; by injection Hf|]. injection Hf as _ _ _ Hr.
  apply file_contact_resellers in E as [E|(a & cid & -> & E)]; [left; unfold dr_resellers; congruence|]. right. unfold createReseller in E. rewrite Hr in E. eexists. split; [exact E|]. split; [done|]. destruct (Happ a eq_refl) as [Hreason Hparse].
  exists d, env, w, b, f, pepper, a. split_and!; try done. apply elem_of_app. right. by apply list_elem_of_singleton.
Qed.

(** The console's other steps leave the table alone. *)
Definition table_kept (d d' : Directory) : Prop := dr_resellers d' = dr_resellers d.
#[export] Instance table_kept_preorder : PreOrder table_kept.
Proof. split; [by intros ?|]. intros a b c Ha Hb. unfold table_kept in *. congruence. Qed.
Lemma table_signup {A} (m : eff SignupState A) : keeps resellers_kept m -> keeps table_kept (in_signup m).
Proof. intros Hm o d d' o' r. unfold in_signup. destruct (m o (dr_signup d)) as [[s1 o1] r1] eqn:E. intros [= <- _ _]. by apply Hm in E. Qed.
Lemma table_audit userId action details : keeps table_kept (partner_audit userId action details).
Proof. apply table_signup, kept_inbox. Qed.
Lemma table_certified f : keeps table_kept (eff_write (on_certified f)).
Proof. by intros o d d' o' r [[->| ->] _]%eff_write_inv. Qed.
Lemma table_tell env rq userId status r : keeps table_kept (tell_reseller env rq userId status r).
Proof.
  unfold tell_reseller. destruct (if bool_decide _ then _ else _) as [id|]; [|apply keeps_ret, _]. apply keeps_bind; [apply _|apply keeps_read, _|intros [c|]; [|apply keeps_ret, _]]. apply table_signup, kept_inbox.
Qed.

Lemma decide_resellers env rq userId v o d d' o' r : decide_route env rq userId v o d = (d', o', r) ->
  dr_resellers d' = dr_resellers d \/ exists word status id, decision_of v = Some (word, status) /\ js_get v "id" = JsStr id /\ dr_resellers d' = fst (decideReseller id status userId (pq_now rq) (dr_resellers d)).
Proof.
  unfold decide_route. destruct (decision_of v) as [[word status]|] eqn:Ed; [|intros [= <- _ _]; by left]. intros (d1 & o1 & r1 & E1 & E)%eff_bind_inv.
  assert (Hf : d1 = d /\ forall x, r1 = Returns (Some x) -> exists id, js_get v "id" = JsStr id /\ rs_id x = id).
  { destruct (js_get v "id") as [| | | | |id| |]; try (injection E1 as <- _ <-; by split). apply eff_read_inv in E1 as [-> Hr]. split; [done|]. intros x Hx. specialize (Hr _ Hx). symmetry in Hr. apply js_find_Some in Hr as [_ Hid%String.eqb_eq]. by exists id. }
  destruct Hf as [-> Hfound]. destruct r1 as [[x|]|e]; [|left; by injection E as <- _ _|left; by destruct E as (-> & _)]. destruct (Hfound x eq_refl) as (id & Hid & Hx). subst id.
  apply eff_bind_inv in E as (d2 & o2 & r2 & E2 & E). assert (Hlast : dr_resellers d' = dr_resellers d2).
  { destruct r2 as [changed|e]; [|by destruct E as (-> & _)]. destruct (negb changed); [by injection E as <- _ _|]. apply eff_bind_inv in E as (d3 & o3 & r3 & E3 & E). apply table_audit in E3. destruct r3; [|by destruct E as (-> & _)].
    apply eff_bind_inv in E as (d4 & o4 & r4 & E4 & E). apply table_tell in E4. destruct r4; [injection E as <- _ _|destruct E as (-> & _)]; unfold table_kept in *; congruence. }
  rewrite Hlast. apply eff_call_inv in E2 as [[->|[a Ea]] _]; [by left|]. right. exists word, status, (rs_id x). split_and!; [done|done|]. destruct (decideReseller _ _ _ _ _) as [rows changed]. by injection Ea as <- _.
Qed.

Lemma console_resellers env rq o d d' o' r : partner_route env rq o d = (d', o', r) ->
  dr_resellers d' = dr_resellers d \/ exists session v word status id, pq_session rq = Some session /\ role session = super_admin /\ pq_path rq = path_decide /\ pq_body rq = Some v /\
    decision_of v = Some (word, status) /\ js_get v "id" = JsStr id /\ dr_resellers d' = fst (decideReseller id status (user_id session) (pq_now rq) (dr_resellers d)).
Proof.
  unfold partner_route. destruct (requireSuperAdmin (pq_session rq)) as [refusal|] eqn:Eg; [intros [= <- _ _]; by left|]. destruct (pq_session rq) as [session|]; [|intros [= <- _ _]; by left].
  assert (Hrole : role session = super_admin) by (unfold requireSuperAdmin in Eg; by destruct (bool_decide_reflect (role session = super_admin))).
  assert (Hkept : forall m : eff Directory PartnerAnswer, keeps table_kept m -> m o d = (d', o', r) -> dr_resellers d' = dr_resellers d) by (intros m Hm E; by apply Hm in E).
  destruct (pq_path rq) eqn:Ep; [intros E; left; eapply Hkept; [|exact E]; apply keeps_bind; [apply _|apply keeps_read, _|intros]; apply keeps_bind; [apply _|apply keeps_read, _|intros]; apply keeps_ret, _|..];
    (destruct (pq_body rq) as [v|] eqn:Eb; [|intros [= <- _ _]; by left]); intros E.
  - left. eapply Hkept; [|exact E]. unfold certify_route. cbv zeta. destruct (snd _); [apply keeps_ret, _|]. apply keeps_bind; [apply _|apply table_certified|intros]. apply keeps_bind; [apply _|apply table_audit|intros]. apply keeps_bind; [apply _|apply keeps_read, _|intros; apply keeps_ret, _].
  - left. eapply Hkept; [|exact E]. unfold uncertify_route. cbv zeta. apply keeps_bind; [apply _| |intros changed].
    + apply keeps_call; [apply _|]. intros x x' a. destruct (uncertifyModel _ _ _). by intros [= <- _].
    + destruct (negb changed); [apply keeps_ret, _|]. apply keeps_bind; [apply _|apply table_audit|intros]. apply keeps_bind; [apply _|apply keeps_read, _|intros; apply keeps_ret, _].
  - apply decide_resellers in E as [E|(word & status & id & Hd & Hid & E)]; [by left|]. right. assert (Hv : is_nullish v = false) by (by destruct (is_nullish v)). rewrite Hv in *. by exists session, v, word, status, id.
Qed.

(** *** The invariant *)

Lemma vetted_mono hist more x : vetted hist x -> vetted (hist ++ more) x.
Proof.
  intros [(d & env & w & b & f & pepper & a & Hin & Hrest) Happ]. split.
  - exists d, env, w, b, f, pepper, a. split; [apply elem_of_app; by left|done].
  - intros Hs. destruct (Happ Hs) as (d' & env' & rq & session & v & Hin' & Hrest'). exists d', env', rq, session, v. split; [apply elem_of_app; by left|done].
Qed.

Lemma decision_approve v word : decision_of v = Some (word, r_approved) -> js_get v "decision" = JsStr "approve".
Proof. unfold decision_of. destruct (js_get v "decision") as [| | | | |s| |]; try done. destruct (String.eqb_spec s "approve"); [by subst|]. by destruct (String.eqb s "reject"). Qed.

Lemma run_vetted hist d : dir_run hist d -> forall x, x ∈ dr_resellers d -> vetted hist x.
Proof.
  induction 1 as [d Hd|hist d e d' Hrun IH Hstep]; intros x Hx; [rewrite Hd in Hx; by apply elem_of_nil in Hx|]. destruct Hstep as [d env w body o s' o' r E|d env rq o d' o' r E|d d' E].
  - apply (contact_resellers d env w body o s' o' r hist) in E as [E|(y & E & Hs & Ha)]; unfold dr_resellers in Hx; cbn [dr_signup] in Hx; rewrite E in Hx; [by apply vetted_mono, IH|].
    apply elem_of_app in Hx as [Hx|Hx%list_elem_of_singleton]; [by apply vetted_mono, IH|]. subst y. split; [done|]. by rewrite Hs.
  - apply console_resellers in E as [E|(session & v & word & status & id & Hse & Hrole & Hpath & Hbody & Hdec & Hid & E)]; rewrite E in Hx; [by apply vetted_mono, IH|].
    unfold decideReseller in Hx. cbn [fst] in Hx. apply list_elem_of_fmap in Hx as (y & -> & Hy). destruct (decides id status y) eqn:Ey; [|by apply vetted_mono, IH]. apply andb_true_iff in Ey as [Eid%String.eqb_eq _].
    destruct (vetted_mono hist [(d, by_console env rq)] y (IH y Hy)) as [Ha _]. split; [exact Ha|]. cbn [set_reseller rs_status rs_id]. intros ->. apply decision_approve in Hdec. exists d, env, rq, session, v. rewrite Eid. split_and!; try done.
    apply elem_of_app. right. by apply list_elem_of_singleton.
  - rewrite E in Hx. by apply vetted_mono, IH.
Qed.

(** C19. Every reseller on the public page proved an address and was approved. After any
    sequence of messages from the contact form and requests to the console, whoever
    sends them and whatever calls fail: the page lists exactly the resellers that are
    approved now; each came with a "Become a reseller" message whose sender entered
    the code mailed to the address that is listed, and shows the company, telephone
    number, place, website and stock that message gave; and a platform administrator
    asked for its approval by its identifier. *)
Theorem listed_resellers_vetted hist d p : dir_run hist d ->
  p ∈ listPublicResellers (dr_resellers d) <->
  exists x, x ∈ dr_resellers d /\ rs_status x = r_approved /\ p = mkPublicReseller (rs_company x) (rs_email x) (rs_phone x) (rs_state x) (rs_city x) (rs_website x) (rs_stocks x) /\
    applied hist x /\ approved_in hist (rs_id x).
Proof.
  intros Hrun. unfold listPublicResellers. rewrite list_elem_of_fmap. setoid_rewrite elem_of_js_sort. setoid_rewrite elem_of_bfilter. split.
  - intros (x & -> & Hx & Hs%bool_decide_eq_true). exists x. destruct (run_vetted _ _ Hrun x Hx) as [Ha Happ]. split_and!; try done. by apply Happ.
  - intros (x & Hx & Hs & -> & _). exists x. split_and!; try done. by apply bool_decide_eq_true.
Qed.
End Vetted.

(** ** A reseller *)

#[local] Existing Instance toy_url.
#[local] Existing Instance toy_crypto.
#[local] Existing Instance toy_passkeys.

Definition shop_body : ContactBody :=
  mkContactBody "Ada" "Ada Computers" "ada@example.org" "123456" "reseller" "List us" (JsStr "+91 98765 43210") (JsStr "Kerala") (JsStr "Kochi") JsUndefined (JsStr "Mini PCs").
Definition shop_begin : Directory := mkDirectory contact_before [].
Definition shop_applied := handleContactForm reg_env reg_world (Some shop_body) [] contact_before.
Definition shop_pending : Directory := mkDirectory (fst (fst shop_applied)) [].
Definition shop_request (decision : string) : PartnerRequest :=
  mkPartnerRequest (Some (mkSession "s" "root" None super_admin 9999)) path_decide (Some (JsObj [("id", JsStr "r1"); ("decision", JsStr decision)]%string)) 200 "o2" "<p2@labkiosk.org>".
Definition shop_decided := partner_route reg_env (shop_request "approve") [] shop_pending.
Definition shop_hist : list (Directory * DirEvent) := [(shop_begin, by_contact reg_env reg_world (Some shop_body)); (shop_pending, by_console reg_env (shop_request "approve"))].

Lemma shop_run : dir_run shop_hist (fst (fst shop_decided)).
Proof.
  apply (run_step [(shop_begin, by_contact reg_env reg_world (Some shop_body))] shop_pending).
  - apply (run_step [] shop_begin); [by apply run_begin|]. apply (step_contact shop_begin reg_env reg_world (Some shop_body) [] _ (snd (fst shop_applied)) (snd shop_applied)). unfold shop_applied, shop_begin, dr_signup. by destruct (handleContactForm _ _ _ _ _) as [[? ?] ?].
  - apply (step_console _ _ _ [] _ (snd (fst shop_decided)) (snd shop_decided)). unfold shop_decided. by destruct (partner_route _ _ _ _) as [[? ?] ?].
Qed.

Definition shop_listing : PublicReseller := mkPublicReseller "Ada Computers" "ada@example.org" "+91 98765 43210" "Kerala" "Kochi" None (Some "Mini PCs"%string).

Lemma listed_resellers_vetted_witness :
  listPublicResellers (dr_resellers (fst (fst shop_decided))) = [shop_listing] /\ exists x, rs_id x = "r1"%string /\ applied shop_hist x /\ approved_in shop_hist (rs_id x).
Proof.
  assert (E : listPublicResellers (dr_resellers (fst (fst shop_decided))) = [shop_listing]) by (vm_compute; reflexivity). split; [exact E|].
  destruct (proj1 (listed_resellers_vetted _ _ shop_listing shop_run)) as (x & Hx & _ & _ & Ha & Hv); [rewrite E; by apply list_elem_of_singleton|]. exists x. split_and!; [|exact Ha|exact Hv].
  assert (Hids : forallb (fun y => String.eqb (rs_id y) "r1") (dr_resellers (fst (fst shop_decided))) = true) by (vm_compute; reflexivity). revert Hids Hx. generalize (dr_resellers (fst (fst shop_decided))). clear. intros l Hids Hx. rewrite forallb_forall in Hids.
  apply String.eqb_eq, Hids, list_elem_of_In, Hx.
Defined.

(** Taken off the page again. *)
Example shop_rejected : listPublicResellers (dr_resellers (fst (fst (partner_route reg_env (shop_request "reject") [] (fst (fst shop_decided)))))) = [].
Proof. vm_compute. reflexivity. Qed.
