(* ===== verification/Issues.v ===== *)
(** src/cloudflare-control/src/boot_report.ts: what workstations report of their
    boots, restarts and disks, and the list of errors and warnings an administrator
    sees; with the routes that take the reports (index.ts).

    The columns of a workstation and of an organization that only this reads stand
    in tables of their own. Which device a request comes from is an argument
    ([requireDevice], Guard.v); the identifiers drawn and the clock are arguments. *)
From S2P Require Import Prelude JsString Regex Scan Platform Db Guard Auth Power Releases.

(** ** Rows *)

Inductive BootReportState : Type := b_installed | b_failed | b_rolled_back | b_fallback | b_error.
#[export] Instance BootReportState_eq_dec : EqDecision BootReportState.
Proof. solve_decision. Defined.
Definition BOOT_REPORT_STATES : list (string * BootReportState) := [("installed", b_installed); ("failed", b_failed); ("rolled-back", b_rolled_back); ("fallback", b_fallback); ("error", b_error)]%string.

Inductive ReportState : Type := rp_none | rp_pending | rp_sent.
#[export] Instance ReportState_eq_dec : EqDecision ReportState.
Proof. solve_decision. Defined.
Inductive ReportMatch : Type := match_new | match_existing.

(** What a workstation's row holds of its boots. *)
Record BootColumns : Type := mkBootColumns { bc_tenant_id : string; bc_client_id : string; bc_image_version : option string; bc_update_state : option BootReportState; bc_update_error : option string; bc_update_state_at : Z; bc_updated_at : Z }.
(** What an organization's row holds of its bug reports. *)
Record BugColumns : Type := mkBugColumns { bo_id : string; bo_enabled : bool; bo_terms_version : option string; bo_terms_accepted_at : option Z }.
Record WorkstationIssue : Type := mkWorkstationIssue { wi_issue : IssueRow; wi_version : option string; wi_state : ReportState; wi_signature : option string; wi_match : option ReportMatch; wi_log : option string }.

Record IssueDb : Type := mkIssueDb { id_devices : list BootColumns; id_orgs : list BugColumns; id_issues : list WorkstationIssue }.
Definition on_devices (f : list BootColumns -> list BootColumns) (db : IssueDb) : IssueDb := mkIssueDb (f (id_devices db)) (id_orgs db) (id_issues db).
Definition on_orgs (f : list BugColumns -> list BugColumns) (db : IssueDb) : IssueDb := mkIssueDb (id_devices db) (f (id_orgs db)) (id_issues db).
Definition on_issues (f : list WorkstationIssue -> list WorkstationIssue) (db : IssueDb) : IssueDb := mkIssueDb (id_devices db) (id_orgs db) (f (id_issues db)).

(** ** Boots *)

Definition MAX_ERROR_LENGTH : nat := 300.
Definition MAX_REPORT_AGE_SECONDS : Z := 7 * 86400.
Definition MAX_CLOCK_AHEAD_SECONDS : Z := 300.
Definition BOOT_REPORT_MIN_GAP_SECONDS : Z := 60.

Record BootReport : Type := mkBootReport { br_state : BootReportState; br_version : string; br_previous : option string; br_failed : option string; br_error : option string; br_at : Z }.

(** The severity and the kind of an outcome that is an issue. *)
Definition ISSUES (s : BootReportState) : option (string * string) :=
  match s with
  | b_failed => Some ("error", "update_failed")%string
  | b_rolled_back => Some ("error", "update_rolled_back")%string
  | b_error => Some ("error", "boot_error")%string
  | b_fallback => Some ("warning", "boot_fallback")%string
  | b_installed => None
  end.

Definition optionalVersion (value : jsval) (field : string) : js_result (option string) :=
  if is_absent value then Returns None
  else match value with JsStr s => if re_test RELEASE_VERSION_PATTERN s then Returns (Some s) else Throws (field +:+ " is not a release version") | _ => Throws (field +:+ " is not a release version") end.

(** [.replace(/[\u0000-\u001f\u007f]+/g, " ").trim().slice(0, n) || null]. *)
Definition report_error (value : jsval) : js_result (option string) :=
  if is_absent value then Returns None
  else match value with JsStr s => Returns (nonempty (str_take MAX_ERROR_LENGTH (trim (collapse is_control false s)))) | _ => Throws "error must be text" end.

Definition parseBootReport (input : jsval) (now : Z) : js_result BootReport :=
  _ ← throw_if (negb (is_plain_object input)) "The boot report must be a JSON object";
  state ← match as_string (js_get input "state") ≫= fun s => assoc s BOOT_REPORT_STATES with Some s => Returns s | None => Throws "state is not a reportable boot outcome" end;
  version ← match js_get input "version" with JsStr v => if re_test RELEASE_VERSION_PATTERN v then Returns v else Throws "version is not a release version" | _ => Throws "version is not a release version" end;
  at_ ← match as_integer (js_get input "at") with Some z => Returns z | None => Throws "at must be a whole number of seconds" end;
  _ ← throw_if ((now + MAX_CLOCK_AHEAD_SECONDS <? at_) || (at_ <? now - MAX_REPORT_AGE_SECONDS)) "at is outside the accepted window";
  error ← report_error (js_get input "error");
  previous ← optionalVersion (js_get input "previous") "previous";
  failed_ ← optionalVersion (js_get input "failed") "failed";
  Returns (mkBootReport state version previous failed_ error at_).

Definition describeBootReport (r : BootReport) : string :=
  match br_state r with
  | b_failed => br_version r +:+ " failed its health check on its first boot; restarting into " +:+ default "the previous image"%string (br_previous r ≫= nonempty) +:+ "."
  | b_rolled_back => default "A new image"%string (br_failed r ≫= nonempty) +:+ " failed its first boot; back on " +:+ br_version r +:+ "."
  | b_fallback => "Started " +:+ br_version r +:+ " because the image it should have started is missing or damaged."
  | b_error => default "The boot record could not be read or written."%string (br_error r ≫= nonempty)
  | b_installed => "Running " +:+ br_version r +:+ "."
  end.

Definition is_device (tenantId clientId : string) (d : BootColumns) : bool := String.eqb (bc_tenant_id d) tenantId && String.eqb (bc_client_id d) clientId.
Definition known_device (db : IssueDb) (tenantId clientId : string) : bool := existsb (is_device tenantId clientId) (id_devices db).
Definition takes_report (tenantId clientId : string) (r : BootReport) (d : BootColumns) : bool := is_device tenantId clientId d && (bc_update_state_at d + BOOT_REPORT_MIN_GAP_SECONDS <=? br_at r).
Definition set_boot (r : BootReport) (now : Z) (d : BootColumns) : BootColumns := mkBootColumns (bc_tenant_id d) (bc_client_id d) (Some (br_version r)) (Some (br_state r)) (br_error r) (br_at r) now.
Definition has_issue_id (id : string) (w : WorkstationIssue) : bool := String.eqb (i_id (wi_issue w)) id.
Definition is_org (id : string) (o : BugColumns) : bool := String.eqb (bo_id o) id.

(** The issue waits for the hourly run only where its organization takes part. *)
Definition boot_issue (id tenantId clientId severity kind : string) (r : BootReport) (now : Z) (o : BugColumns) : WorkstationIssue :=
  mkWorkstationIssue (mkIssue id tenantId clientId severity kind (describeBootReport r) (br_at r) now) (Some (br_version r)) (if bo_enabled o then rp_pending else rp_none) None None None.

(** Two statements; [id]: the identifier drawn. *)
Definition recordBootReport (db : IssueDb) (tenantId clientId : string) (r : BootReport) (id : string) (now : Z) : IssueDb * js_result Recorded :=
  if negb (existsb (takes_report tenantId clientId r) (id_devices db)) then (db, Returns (if known_device db tenantId clientId then duplicate else unknown_workstation))
  else
    let db1 := on_devices (List.map (fun d => if takes_report tenantId clientId r d then set_boot r now d else d)) db in
    match ISSUES (br_state r), js_find (is_org tenantId) (id_orgs db) with
    | Some (severity, kind), Some o =>
        if existsb (has_issue_id id) (id_issues db) then (db1, Throws "D1_ERROR: UNIQUE constraint failed: workstation_issues.id")
        else (on_issues (fun l => l ++ [boot_issue id tenantId clientId severity kind r now o]) db1, Returns recorded)
    | _, _ => (db1, Returns recorded)
    end.

(** ** Restarts *)

Inductive RestartKind : Type := unexpected_restart | watchdog_reset.
Definition restart_text (k : RestartKind) : string := match k with unexpected_restart => "unexpected_restart" | watchdog_reset => "watchdog_reset" end.
Definition RESTART_KINDS : list (string * RestartKind) := [("unexpected_restart", unexpected_restart); ("watchdog_reset", watchdog_reset)]%string.
Definition BOOT_ID_PATTERN : re := RRep 32 (RClass is_lower_hex).
Definition MAX_RESTART_LOG_CHARS : nat := Z.to_nat (16 * 1024).
Definition RESTART_LOG_RETENTION_DAYS : Z := 30.
Definition MAX_RESTART_REPORTS_PER_DAY : Z := 24.

Record RestartReport : Type := mkRestartReport { rr_bootId : string; rr_kind : RestartKind; rr_version : option string; rr_startedAt : Z; rr_endedAt : Z; rr_log : string }.
Definition RESTART_ISSUES (k : RestartKind) : string := match k with unexpected_restart => "warning" | watchdog_reset => "error" end.

Definition wholeSeconds (value : jsval) (field : string) : js_result Z := match as_integer value with Some z => Returns z | None => Throws (field +:+ " must be a whole number of seconds") end.

(** [.replace(/\r\n?/g, "\n")], and the control characters but tab and line feed. *)
Fixpoint unix_lines (s : string) : string :=
  match s with
  | ""%string => ""
  | String c t => if is_char CR c then String LF_ (match t with String d u => if is_char LF_ d then unix_lines u else unix_lines t | _ => unix_lines t end) else String c (unix_lines t)
  end.
Definition is_log_control (c : ascii) : bool := in_range 0 8 c || in_range 11 31 c || (code c =? 127).
Definition clean_log (log : string) : string :=
  let cleaned := collapse is_log_control false (unix_lines log) in
  if (MAX_RESTART_LOG_CHARS <? String.length cleaned)%nat then str_drop (String.length cleaned - MAX_RESTART_LOG_CHARS) cleaned else cleaned.

Definition parseRestartReport (input : jsval) (now : Z) : js_result RestartReport :=
  _ ← throw_if (negb (is_plain_object input)) "The restart report must be a JSON object";
  bootId ← match js_get input "bootId" with JsStr s => if re_test BOOT_ID_PATTERN s then Returns s else Throws "bootId is not a boot id" | _ => Throws "bootId is not a boot id" end;
  kind ← match as_string (js_get input "kind") ≫= fun s => assoc s RESTART_KINDS with Some k => Returns k | None => Throws "kind is not a kind of restart" end;
  startedAt ← wholeSeconds (js_get input "startedAt") "startedAt";
  endedAt ← wholeSeconds (js_get input "endedAt") "endedAt";
  _ ← throw_if (endedAt <? startedAt) "endedAt is before startedAt";
  _ ← throw_if ((now + MAX_CLOCK_AHEAD_SECONDS <? endedAt) || (endedAt <? now - MAX_REPORT_AGE_SECONDS)) "endedAt is outside the accepted window";
  log ← match js_get input "log" with JsStr s => Returns s | _ => Throws "log must be text" end;
  version ← optionalVersion (js_get input "version") "version";
  Returns (mkRestartReport bootId kind version startedAt endedAt (clean_log log)).

(** [Math.round(seconds / unit)]. *)
Definition rounded (seconds unit : Z) : string := string_of_int ((2 * seconds + unit) / (2 * unit)).
Definition formatDuration (seconds : Z) : string :=
  if seconds <? 120 then string_of_int (Z.max seconds 0) +:+ " seconds"
  else if seconds <? 7200 then rounded seconds 60 +:+ " minutes"
  else if seconds <? 172800 then rounded seconds 3600 +:+ " hours"
  else rounded seconds 86400 +:+ " days".

Definition describeRestartReport (r : RestartReport) : string :=
  let ran := match rr_version r ≫= nonempty with Some v => "Running " +:+ v +:+ ", it" | None => "It"%string end +:+ " ran for " +:+ formatDuration (rr_endedAt r - rr_startedAt r) in
  match rr_kind r with
  | watchdog_reset => ran +:+ " and stopped responding; the hardware watchdog restarted it."
  | unexpected_restart => ran +:+ " and restarted without shutting down: a power cut, a forced power-off, a hang or a crash."
  end.

Inductive RestartOutcome : Type := outcome (r : Recorded) | too_many.

(** Issues of a kind that one workstation was listed for since [from]. *)
Definition recent_issue (kinds : list string) (tenantId clientId : string) (from : Z) (w : WorkstationIssue) : bool :=
  String.eqb (i_tenant_id (wi_issue w)) tenantId && String.eqb (i_client_id (wi_issue w)) clientId && bool_decide (i_kind (wi_issue w) ∈ kinds) && (from <? i_created_at (wi_issue w)).
Definition recent_issues (kinds : list string) (tenantId clientId : string) (from : Z) (db : IssueDb) : Z := Z.of_nat (length (List.filter (recent_issue kinds tenantId clientId from) (id_issues db))).
Definition RESTART_ISSUE_KINDS : list string := ["unexpected_restart"; "watchdog_reset"]%string.

Definition is_issue_of (id tenantId : string) (w : WorkstationIssue) : bool := has_issue_id id w && String.eqb (i_tenant_id (wi_issue w)) tenantId.
(** [INSERT OR IGNORE]: whether it changed anything. *)
Definition insert_issue (w : WorkstationIssue) (db : IssueDb) : IssueDb * bool :=
  if existsb (has_issue_id (i_id (wi_issue w))) (id_issues db) then (db, false) else (on_issues (fun l => l ++ [w]) db, true).

Section Derived.
Context `{WebCrypto}.

Definition restart_id (tenantId clientId bootId : string) : string := "restart-" +:+ str_take 32 (sha256Hex (tenantId +:+ ":" +:+ clientId +:+ ":" +:+ bootId)).
Definition restart_issue (tenantId clientId : string) (r : RestartReport) (now : Z) : WorkstationIssue :=
  mkWorkstationIssue (mkIssue (restart_id tenantId clientId (rr_bootId r)) tenantId clientId (RESTART_ISSUES (rr_kind r)) (restart_text (rr_kind r)) (describeRestartReport r) (rr_endedAt r) now)
    (rr_version r) rp_none None None (nonempty (rr_log r)).

Definition recordRestartReport (db : IssueDb) (tenantId clientId : string) (r : RestartReport) (now : Z) : IssueDb * RestartOutcome :=
  if negb (known_device db tenantId clientId) then (db, outcome unknown_workstation)
  else if existsb (is_issue_of (restart_id tenantId clientId (rr_bootId r)) tenantId) (id_issues db) then (db, outcome duplicate)
  else if MAX_RESTART_REPORTS_PER_DAY <=? recent_issues RESTART_ISSUE_KINDS tenantId clientId (now - 86400) db then (db, too_many)
  else let '(db', changed) := insert_issue (restart_issue tenantId clientId r now) db in (db', outcome (if changed then recorded else duplicate)).

(** ** Disks *)

Inductive DiskHealthState : Type := d_warning | d_failing.
Definition disk_state_text (s : DiskHealthState) : string := match s with d_warning => "warning" | d_failing => "failing" end.
Definition DISK_HEALTH_STATES : list (string * DiskHealthState) := [("warning", d_warning); ("failing", d_failing)]%string.
Definition letters_1_3 : re := RBetween 1 3 (RClass is_lower).
Definition digits_1_3 : re := RBetween 1 3 (RClass is_digit).
Definition DISK_DEVICE_PATTERN : re :=
  RAlt (RCat (RLit "sd") letters_1_3) (RAlt (RCat (RLit "vd") letters_1_3) (RAlt (RCat (RLit "hd") letters_1_3)
    (RAlt (RCat (RLit "nvme") (RCat digits_1_3 (RCat (RLit "n") digits_1_3))) (RCat (RLit "mmcblk") digits_1_3)))).
Definition MAX_DISKS_PER_REPORT : nat := 8.
Definition MAX_DISK_FIELD : nat := 120.
Definition MAX_DISK_SUMMARY : nat := 300.
Definition MAX_DISK_REPORTS_PER_DAY : Z := 8.

Record DiskHealth : Type := mkDiskHealth { dh_device : string; dh_model : string; dh_serial : string; dh_state : DiskHealthState; dh_summary : string }.

(** [/ {2,}/g]: a run of spaces as one. *)
Definition diskText (value : jsval) (field : string) (max : nat) : js_result string :=
  match value with JsStr s => Returns (str_take max (trim (collapse (is_char " ") false (collapse is_control false s)))) | _ => Throws (field +:+ " must be text") end.
Definition or_empty (v : jsval) : jsval := if is_nullish v then JsStr "" else v.

Definition parse_disk (index : nat) (entry : jsval) : js_result DiskHealth :=
  let at_ := "disks[" +:+ string_of_int (Z.of_nat index) +:+ "]" in
  _ ← throw_if (negb (is_plain_object entry)) (at_ +:+ " must be an object");
  device ← match js_get entry "device" with JsStr d => if re_test DISK_DEVICE_PATTERN d then Returns d else Throws (at_ +:+ ".device is not a disk") | _ => Throws (at_ +:+ ".device is not a disk") end;
  state ← match as_string (js_get entry "state") ≫= fun s => assoc s DISK_HEALTH_STATES with Some s => Returns s | None => Throws (at_ +:+ ".state must be warning or failing") end;
  summary ← diskText (js_get entry "summary") (at_ +:+ ".summary") MAX_DISK_SUMMARY;
  _ ← throw_if (String.eqb summary "") (at_ +:+ ".summary is empty");
  model ← diskText (or_empty (js_get entry "model")) (at_ +:+ ".model") MAX_DISK_FIELD;
  serial ← diskText (or_empty (js_get entry "serial")) (at_ +:+ ".serial") MAX_DISK_FIELD;
  Returns (mkDiskHealth device model serial state summary).

(** [entries.map(f)], where [f] may throw. *)
Fixpoint map_entries {A} (f : nat -> jsval -> js_result A) (i : nat) (l : list jsval) : js_result (list A) :=
  match l with [] => Returns [] | v :: rest => x ← f i v; xs ← map_entries f (S i) rest; Returns (x :: xs) end.

Definition parseDiskHealthReport (input : jsval) : js_result (list DiskHealth) :=
  _ ← throw_if (negb (is_plain_object input)) "The disk health report must be a JSON object";
  match js_get input "disks" with
  | JsArr (d :: rest) => if (MAX_DISKS_PER_REPORT <? length (d :: rest))%nat then Throws "disks must list 1 to 8 disks" else map_entries parse_disk 0 (d :: rest)
  | _ => Throws "disks must list 1 to 8 disks"
  end.

Definition describeDiskHealth (d : DiskHealth) : string :=
  "Disk " +:+ (if String.eqb (dh_model d) "" then dh_device d else dh_model d +:+ " (" +:+ dh_device d +:+ ")") +:+ ": " +:+ dh_summary d +:+ " " +:+
  match dh_state d with d_failing => "Replace it before it stops working." | d_warning => "Plan to replace it." end.

Inductive DiskHealthOutcome : Type := disks_recorded (n : Z) | disks_unknown | disks_too_many.

Definition disk_id (tenantId clientId : string) (d : DiskHealth) : string :=
  "disk-" +:+ str_take 32 (sha256Hex (tenantId +:+ ":" +:+ clientId +:+ ":" +:+ dh_device d +:+ ":" +:+ dh_serial d +:+ ":" +:+ disk_state_text (dh_state d))).
Definition disk_issue (tenantId clientId : string) (d : DiskHealth) (now : Z) : WorkstationIssue :=
  mkWorkstationIssue (mkIssue (disk_id tenantId clientId d) tenantId clientId (match dh_state d with d_failing => "error" | d_warning => "warning" end) "disk_health" (describeDiskHealth d) now now) None rp_none None None None.

Fixpoint disk_loop (tenantId clientId : string) (disks : list DiskHealth) (now budget n : Z) (db : IssueDb) : IssueDb * DiskHealthOutcome :=
  match disks with
  | [] => (db, disks_recorded n)
  | d :: rest =>
      if existsb (is_issue_of (disk_id tenantId clientId d) tenantId) (id_issues db) then disk_loop tenantId clientId rest now budget n db
      else if budget <=? 0 then (db, if n =? 0 then disks_too_many else disks_recorded n)
      else
        let '(db', changed) := insert_issue (disk_issue tenantId clientId d now) db in
        if changed then disk_loop tenantId clientId rest now (budget - 1) (n + 1) db' else disk_loop tenantId clientId rest now budget n db'
  end.
Definition recordDiskHealthReport (db : IssueDb) (tenantId clientId : string) (disks : list DiskHealth) (now : Z) : IssueDb * DiskHealthOutcome :=
  if negb (known_device db tenantId clientId) then (db, disks_unknown)
  else disk_loop tenantId clientId disks now (MAX_DISK_REPORTS_PER_DAY - recent_issues ["disk_health"%string] tenantId clientId (now - 86400) db) 0 db.
End Derived.

(** ** Reading and purging *)

Definition WORKSTATION_ISSUE_RETENTION_DAYS : Z := 90.
Definition MAX_ISSUES_LISTED : Z := 200.

(** None where the organization has no such issue; [Some None] where it has no log. *)
Definition getWorkstationIssueLog (db : IssueDb) (tenantId issueId : string) : option (option string) := wi_log <$> js_find (is_issue_of issueId tenantId) (id_issues db).

Definition clear_log (before : Z) (w : WorkstationIssue) : WorkstationIssue :=
  if is_Some_b (wi_log w) && (i_created_at (wi_issue w) <? before) then mkWorkstationIssue (wi_issue w) (wi_version w) (wi_state w) (wi_signature w) (wi_match w) None else w.
Definition purgeOldWorkstationIssues (now : Z) : IssueDb -> IssueDb :=
  on_issues (fun l => List.filter (fun w => negb (i_created_at (wi_issue w) <? now - WORKSTATION_ISSUE_RETENTION_DAYS * 86400)) (List.map (clear_log (now - RESTART_LOG_RETENTION_DAYS * 86400)) l)).

(** ** The routes of a workstation *)

Section Routes.
Context `{WebCrypto}.

Inductive ReportAnswer : Type := RRefused (refusal : Guard.Refusal) | RKept (recorded : Z).
Definition NOT_CHECKED_IN : Guard.Refusal := Guard.mkRefusal "This workstation has not checked in yet; send the report again later" 409.
Definition report_refused (what e : string) : Guard.Refusal := Guard.mkRefusal (what +:+ " report refused: " +:+ (if String.eqb e "" then "unreadable" else e)) 400.
Definition answer_of (r : Recorded) : ReportAnswer := match r with unknown_workstation => RRefused NOT_CHECKED_IN | recorded => RKept 1 | duplicate => RKept 0 end.

(** [auth]: what [requireDevice] answers; [body]: a body that is no JSON throws. *)
Definition handleBootReport (auth : DeviceToken + Guard.Refusal) (body : js_result jsval) (id : string) (now : Z) (db : IssueDb) : IssueDb * js_result ReportAnswer :=
  match auth with
  | inr refused => (db, Returns (RRefused refused))
  | inl device =>
      match (input ← body; parseBootReport input now) with
      | Throws e => (db, Returns (RRefused (report_refused "Boot" e)))
      | Returns report => let '(db', r) := recordBootReport db (dt_tenant_id device) (dt_client_id device) report id now in (db', r ← r; Returns (answer_of r))
      end
  end.

Definition handleRestartReport (auth : DeviceToken + Guard.Refusal) (body : js_result jsval) (now : Z) (db : IssueDb) : IssueDb * ReportAnswer :=
  match auth with
  | inr refused => (db, RRefused refused)
  | inl device =>
      match (input ← body; parseRestartReport input now) with
      | Throws e => (db, RRefused (report_refused "Restart" e))
      | Returns report =>
          let '(db', r) := recordRestartReport db (dt_tenant_id device) (dt_client_id device) report now in
          (db', match r with too_many => RRefused (Guard.mkRefusal "Too many restart reports from this workstation today; send it again later" 429) | outcome r => answer_of r end)
      end
  end.

Definition handleDiskHealthReport (auth : DeviceToken + Guard.Refusal) (body : js_result jsval) (now : Z) (db : IssueDb) : IssueDb * ReportAnswer :=
  match auth with
  | inr refused => (db, RRefused refused)
  | inl device =>
      match (input ← body; parseDiskHealthReport input) with
      | Throws e => (db, RRefused (report_refused "Disk health" e))
      | Returns disks =>
          let '(db', r) := recordDiskHealthReport db (dt_tenant_id device) (dt_client_id device) disks now in
          (db', match r with
                | disks_unknown => RRefused NOT_CHECKED_IN
                | disks_too_many => RRefused (Guard.mkRefusal "This workstation has reported enough disk problems today" 429)
                | disks_recorded n => RKept n
                end)
      end
  end.
End Routes.

(** ** Runs *)

Section Runs.
Context `{WebCrypto}.

(** What reaches the table: reports of workstations and the hourly purge, each at its
    time. *)
Inductive IssueEvent : Type :=
  | IE_boot (auth : DeviceToken + Guard.Refusal) (body : js_result jsval) (id : string)
  | IE_restart (auth : DeviceToken + Guard.Refusal) (body : js_result jsval)
  | IE_disk (auth : DeviceToken + Guard.Refusal) (body : js_result jsval)
  | IE_purge.

Definition issue_step (e : IssueEvent) (now : Z) (db : IssueDb) : IssueDb :=
  match e with
  | IE_boot auth body id => fst (handleBootReport auth body id now db)
  | IE_restart auth body => fst (handleRestartReport auth body now db)
  | IE_disk auth body => fst (handleDiskHealthReport auth body now db)
  | IE_purge => purgeOldWorkstationIssues now db
  end.

Definition issue_run (events : list (IssueEvent * Z)) (db : IssueDb) : IssueDb := foldl (fun db '(e, now) => issue_step e now db) db events.

(** How many issues of some kinds a workstation has that were listed in the day that
    ends at [until]. *)
Definition in_day (kinds : list string) (tenantId clientId : string) (until : Z) (w : WorkstationIssue) : bool :=
  recent_issue kinds tenantId clientId (until - 86400) w && (i_created_at (wi_issue w) <=? until).
Definition listed_in_day (kinds : list string) (tenantId clientId : string) (until : Z) (db : IssueDb) : Z := Z.of_nat (length (List.filter (in_day kinds tenantId clientId until) (id_issues db))).

Definition BOOT_ISSUE_KINDS : list string := ["update_failed"; "update_rolled_back"; "boot_error"; "boot_fallback"]%string.
Definition is_boot_issue (w : WorkstationIssue) : bool := bool_decide (i_kind (wi_issue w) ∈ BOOT_ISSUE_KINDS).
(** Two issues of one workstation's boots, the earlier first. *)
Definition boots_apart (v w : WorkstationIssue) : Prop :=
  is_boot_issue v = true → is_boot_issue w = true → i_tenant_id (wi_issue v) = i_tenant_id (wi_issue w) → i_client_id (wi_issue v) = i_client_id (wi_issue w) →
  i_occurred_at (wi_issue v) + BOOT_REPORT_MIN_GAP_SECONDS <= i_occurred_at (wi_issue w).
Definition device_key (d : BootColumns) : string * string := (bc_tenant_id d, bc_client_id d).


(** ** The lists stay bounded *)

Definition push_issue (w : WorkstationIssue) : IssueDb -> IssueDb := on_issues (fun l => l ++ [w]).

Lemma bfilter_length_mono {A} (p q : A -> bool) l : (forall x, p x = true -> q x = true) -> (length (List.filter p l) <= length (List.filter q l))%nat.
Proof. intros Hpq. induction l as [|x l IH]; cbn; [lia|]. destruct (p x) eqn:Hp; [rewrite (Hpq x Hp); cbn; lia|]. destruct (q x); cbn; lia. Qed.

Lemma in_day_iff kinds t c u w : in_day kinds t c u w = true <-> i_tenant_id (wi_issue w) = t /\ i_client_id (wi_issue w) = c /\ i_kind (wi_issue w) ∈ kinds /\ u - 86400 < i_created_at (wi_issue w) <= u.
Proof. unfold in_day, recent_issue. rewrite !andb_true_iff, !String.eqb_eq, bool_decide_eq_true, Z.ltb_lt, Z.leb_le. tauto. Qed.

(** One more issue that the day before it left room for keeps every day within the
    bound. *)
Lemma push_within kinds bound w db :
  (i_kind (wi_issue w) ∈ kinds -> recent_issues kinds (i_tenant_id (wi_issue w)) (i_client_id (wi_issue w)) (i_created_at (wi_issue w) - 86400) db < bound) ->
  (forall t c u, listed_in_day kinds t c u db <= bound) -> forall t c u, listed_in_day kinds t c u (push_issue w db) <= bound.
Proof.
  intros Hroom Hall t c u. unfold listed_in_day, push_issue. cbn. rewrite List.filter_app, length_app. cbn. specialize (Hall t c u). unfold listed_in_day in Hall.
  destruct (in_day kinds t c u w) eqn:Hw; cbn; [|lia]. apply in_day_iff in Hw as (<- & <- & Hk & Hlo & Hhi). specialize (Hroom Hk). unfold recent_issues in Hroom.
  enough (length (List.filter (in_day kinds (i_tenant_id (wi_issue w)) (i_client_id (wi_issue w)) u) (id_issues db)) <= length (List.filter (recent_issue kinds (i_tenant_id (wi_issue w)) (i_client_id (wi_issue w)) (i_created_at (wi_issue w) - 86400)) (id_issues db)))%nat by lia.
  apply bfilter_length_mono. intros v (Ht & Hc & Hv & ? & ?)%in_day_iff. unfold recent_issue. rewrite !andb_true_iff, !String.eqb_eq, bool_decide_eq_true, Z.ltb_lt. repeat split; try done. lia.
Qed.

Definition issue_ids (db : IssueDb) : list string := List.map (fun w => i_id (wi_issue w)) (id_issues db).

Record lists_ok (db : IssueDb) : Prop := mkListsOk {
  lo_ids : NoDup (issue_ids db);
  lo_restarts : forall t c u, listed_in_day RESTART_ISSUE_KINDS t c u db <= MAX_RESTART_REPORTS_PER_DAY;
  lo_disks : forall t c u, listed_in_day ["disk_health"%string] t c u db <= MAX_DISK_REPORTS_PER_DAY;
  lo_apart : StronglySorted boots_apart (id_issues db);
  lo_keys : NoDup (List.map device_key (id_devices db));
  lo_rows : forall w d, w ∈ id_issues db -> is_boot_issue w = true -> d ∈ id_devices db -> is_device (i_tenant_id (wi_issue w)) (i_client_id (wi_issue w)) d = true -> i_occurred_at (wi_issue w) <= bc_update_state_at d
}.

Lemma push_ids w db : existsb (has_issue_id (i_id (wi_issue w))) (id_issues db) = false -> NoDup (issue_ids db) -> NoDup (issue_ids (push_issue w db)).
Proof.
  intros Hn Hd. unfold issue_ids, push_issue. cbn. rewrite List.map_app. apply list.NoDup_app. split; [done|]. split; [|apply NoDup_singleton].
  intros x (v & Hid & Hv)%list_elem_of_In%List.in_map_iff Hx. cbn in Hx. apply list_elem_of_singleton in Hx as ->. assert (existsb (has_issue_id (i_id (wi_issue w))) (id_issues db) = true); [|congruence].
  apply existsb_elem. exists v. split; [by apply list_elem_of_In|]. by apply String.eqb_eq.
Qed.

(** An issue that is no boot's leaves the boots as they were. *)
Lemma push_other w db :
  is_boot_issue w = false -> existsb (has_issue_id (i_id (wi_issue w))) (id_issues db) = false ->
  (i_kind (wi_issue w) ∈ RESTART_ISSUE_KINDS -> recent_issues RESTART_ISSUE_KINDS (i_tenant_id (wi_issue w)) (i_client_id (wi_issue w)) (i_created_at (wi_issue w) - 86400) db < MAX_RESTART_REPORTS_PER_DAY) ->
  (i_kind (wi_issue w) ∈ ["disk_health"%string] -> recent_issues ["disk_health"%string] (i_tenant_id (wi_issue w)) (i_client_id (wi_issue w)) (i_created_at (wi_issue w) - 86400) db < MAX_DISK_REPORTS_PER_DAY) ->
  lists_ok db -> lists_ok (push_issue w db).
Proof.
  intros Hboot Hid Hr Hd [Ids Rs Ds Ap Ks Rows]. constructor; [by apply push_ids|by apply push_within|by apply push_within| |done|].
  - apply StronglySorted_snoc; [done|]. apply list.Forall_forall. intros v _ _ Hw. congruence.
  - intros v d Hv Hb Hd' Hk. apply elem_of_app in Hv as [Hv| ->%list_elem_of_singleton]; [by eapply Rows|congruence].
Qed.

Lemma mapped_apart {A B} (f : A -> B) l x y : NoDup (List.map f l) -> x ∈ l -> y ∈ l -> f x = f y -> x = y.
Proof.
  induction l as [|z l IH]; cbn; intros Hn Hx Hy Hf; [by apply elem_of_nil in Hx|]. apply list.NoDup_cons in Hn as [Hz Hn]. apply elem_of_cons in Hx as [-> |Hx], Hy as [-> |Hy]; [done| | |by apply IH].
  - destruct Hz. apply list_elem_of_In, List.in_map_iff. exists y. split; [done|by apply list_elem_of_In].
  - destruct Hz. apply list_elem_of_In, List.in_map_iff. exists x. split; [done|by apply list_elem_of_In].
Qed.

Lemma is_device_iff t c d : is_device t c d = true <-> device_key d = (t, c).
Proof. unfold is_device, device_key. rewrite andb_true_iff, !String.eqb_eq. split; [intros [-> ->]; done|intros [= -> ->]; done]. Qed.

Definition booted (t c : string) (r : BootReport) (now : Z) : IssueDb -> IssueDb := on_devices (List.map (fun d => if takes_report t c r d then set_boot r now d else d)).

Lemma booted_keys t c r now db : List.map device_key (id_devices (booted t c r now db)) = List.map device_key (id_devices db).
Proof. unfold booted. cbn. rewrite List.map_map. apply List.map_ext. intros d. by destruct (takes_report t c r d). Qed.

Lemma booted_ok t c r now db : lists_ok db -> lists_ok (booted t c r now db).
Proof.
  intros [Ids Rs Ds Ap Ks Rows]. constructor; [done..| |]; [by rewrite booted_keys|]. intros w d' Hw Hb Hd Hk.
  apply list_elem_of_In, List.in_map_iff in Hd as (d & <- & Hd%list_elem_of_In). destruct (takes_report t c r d) eqn:Ht; [|by eapply Rows].
  apply andb_true_iff in Ht as [_ Hgap%Z.leb_le]. specialize (Rows w d Hw Hb Hd Hk). unfold BOOT_REPORT_MIN_GAP_SECONDS in Hgap. cbn. lia.
Qed.

Lemma issue_kind_boot st severity kind : ISSUES st = Some (severity, kind) -> kind ∈ BOOT_ISSUE_KINDS.
Proof. by destruct st; intros [= <- <-]; apply (bool_decide_unpack _). Qed.

Lemma boot_recorded_ok t c r id severity kind now o db :
  existsb (takes_report t c r) (id_devices db) = true -> ISSUES (br_state r) = Some (severity, kind) -> existsb (has_issue_id id) (id_issues db) = false ->
  lists_ok db -> lists_ok (push_issue (boot_issue id t c severity kind r now o) (booted t c r now db)).
Proof.
  intros Htake Hi Hid Hok. pose proof (issue_kind_boot _ _ _ Hi) as Hkind. pose proof (booted_ok t c r now db Hok) as [Ids Rs Ds Ap Ks Rows].
  apply existsb_elem in Htake as (d & Hd & Ht). pose proof Ht as [Hk Hgap]%andb_true_iff. apply Z.leb_le in Hgap.
  constructor; [by apply push_ids|apply push_within; [|done]..| |done|].
  1, 2: intros Hin; cbn in Hin; exfalso; revert Hkind Hin; clear; set_solver.
  - apply StronglySorted_snoc; [done|]. apply list.Forall_forall. intros v Hv Hb _ Et Ec. cbn in *. etrans; [|exact Hgap]. apply Z.add_le_mono_r.
    apply (lo_rows db Hok v d Hv Hb Hd). by rewrite Et, Ec.
  - intros v d' Hv Hb Hd' Hk'. apply elem_of_app in Hv as [Hv| ->%list_elem_of_singleton]; [by eapply Rows|]. cbn in Hk' |- *.
    apply list_elem_of_In, List.in_map_iff in Hd' as (d0 & <- & Hd0%list_elem_of_In).
    assert (d0 = d) as ->; [|rewrite Ht; cbn; lia]. apply is_device_iff in Hk. eapply (mapped_apart device_key); [apply Hok|done..|]. rewrite Hk.
    apply is_device_iff. by destruct (takes_report t c r d0).
Qed.

Lemma boot_ok t c r id now db : lists_ok db -> lists_ok (fst (recordBootReport db t c r id now)).
Proof.
  intros Hok. unfold recordBootReport. destruct (existsb (takes_report t c r) (id_devices db)) eqn:Ht; [|done]. cbn.
  destruct (ISSUES (br_state r)) as [[severity kind]|] eqn:Hi; [|by apply booted_ok]. destruct (js_find _ _) as [o|]; [|by apply booted_ok].
  destruct (existsb (has_issue_id id) (id_issues db)) eqn:Hid; [by apply booted_ok|by apply boot_recorded_ok].
Qed.

Lemma restart_ok t c r now db : lists_ok db -> lists_ok (fst (recordRestartReport db t c r now)).
Proof.
  intros Hok. unfold recordRestartReport. destruct (known_device db t c); [|done]. cbn. destruct (existsb _ _); [done|]. destruct (_ <=? _) eqn:Hroom; [done|]. apply Z.leb_gt in Hroom.
  unfold insert_issue. destruct (existsb _ _) eqn:Hid; [done|]. cbn. apply push_other; [by destruct r as [? []]|done|done| |done].
  intros Hin. exfalso. cbn in Hin. revert Hin. clear. destruct (rr_kind r); cbn; set_solver.
Qed.

Lemma disks_ok t c disks now : forall budget n db, budget <= MAX_DISK_REPORTS_PER_DAY - recent_issues ["disk_health"%string] t c (now - 86400) db ->
  lists_ok db -> lists_ok (fst (disk_loop t c disks now budget n db)).
Proof.
  induction disks as [|d rest IH]; intros budget n db Hb Hok; cbn; [done|]. destruct (existsb _ _); [by apply IH|]. destruct (budget <=? 0) eqn:Hz; [done|]. apply Z.leb_gt in Hz.
  unfold insert_issue. destruct (existsb (has_issue_id _) _) eqn:Hid; [by apply IH|]. apply IH.
  - unfold recent_issues in *. cbn. rewrite List.filter_app, length_app. cbn. case_match; cbn; lia.
  - apply push_other; [done|done| |cbn; lia|done]. intros Hin. exfalso. cbn in Hin. revert Hin. clear. set_solver.
Qed.

Lemma clear_log_issue before w : wi_issue (clear_log before w) = wi_issue w.
Proof. unfold clear_log. by destruct (_ && _). Qed.

Lemma purged_elem now w db : w ∈ id_issues (purgeOldWorkstationIssues now db) <-> exists v, v ∈ id_issues db /\ w = clear_log (now - RESTART_LOG_RETENTION_DAYS * 86400) v /\ now - WORKSTATION_ISSUE_RETENTION_DAYS * 86400 <= i_created_at (wi_issue v).
Proof.
  unfold purgeOldWorkstationIssues. cbn [on_issues id_issues]. rewrite elem_of_bfilter, negb_true_iff, Z.ltb_ge, list_elem_of_In, List.in_map_iff. setoid_rewrite <- list_elem_of_In.
  split; [intros [(v & <- & Hv) Ha]; rewrite clear_log_issue in Ha; by exists v|intros (v & Hv & -> & Ha); rewrite clear_log_issue; split; [by exists v|done]].
Qed.

Lemma purged_in_day kinds t c u now db : listed_in_day kinds t c u (purgeOldWorkstationIssues now db) <= listed_in_day kinds t c u db.
Proof.
  unfold listed_in_day, purgeOldWorkstationIssues. cbn. rewrite bfilter_comm. etrans; [apply Nat2Z.inj_le, bfilter_length_le|].
  rewrite <- (map_bfilter _ (in_day kinds t c u)), length_map; [lia|]. intros w _. unfold in_day, recent_issue. by rewrite clear_log_issue.
Qed.

Lemma purge_ok now db : lists_ok db -> lists_ok (purgeOldWorkstationIssues now db).
Proof.
  intros [Ids Rs Ds Ap Ks Rows]. constructor; [|intros; etrans; [apply purged_in_day|done]..| |done|].
  - unfold issue_ids, purgeOldWorkstationIssues. cbn. eapply sublist_NoDup'; [apply sublist_map, bfilter_sublist|]. rewrite List.map_map. erewrite List.map_ext; [exact Ids|]. intros w. cbn. by rewrite clear_log_issue.
  - unfold purgeOldWorkstationIssues. cbn. eapply StronglySorted_sub; [apply bfilter_sublist|]. eapply StronglySorted_map; [|exact Ap]. intros v w _ _. unfold boots_apart, is_boot_issue. by rewrite !clear_log_issue.
  - intros w d (v & Hv & -> & _)%purged_elem. unfold is_boot_issue. rewrite clear_log_issue. intros Hb. by apply Rows.
Qed.

Lemma lists_step_ok e now db : lists_ok db -> lists_ok (issue_step e now db).
Proof.
  intros Hok. destruct e as [[device|?] body id|[device|?] body|[device|?] body|]; cbn; try done; [| | |by apply purge_ok].
  - destruct (input ← body; parseBootReport input now) as [r|]; [|done]. pose proof (boot_ok (dt_tenant_id device) (dt_client_id device) r id now db Hok). by destruct (recordBootReport _ _ _ _ _ _).
  - destruct (input ← body; parseRestartReport input now) as [r|]; [|done]. pose proof (restart_ok (dt_tenant_id device) (dt_client_id device) r now db Hok). by destruct (recordRestartReport _ _ _ _ _).
  - destruct (input ← body; parseDiskHealthReport input) as [l|]; [|done]. unfold recordDiskHealthReport. destruct (known_device _ _ _); [|done].
    pose proof (disks_ok (dt_tenant_id device) (dt_client_id device) l now _ 0 db (Z.le_refl _) Hok). cbn [negb]. by destruct (disk_loop _ _ _ _ _ _ _).
Qed.

(** C31. No workstation can flood the list of errors and warnings: from an empty list,
    whatever reports arrive, from whichever workstations, at whatever times the clock
    shows and however the purge falls between them, a workstation has at most 24
    restarts and at most 8 disk problems listed in any day, two problems of its boots
    are at least a minute apart in the order they were listed, and no identifier is
    listed twice. *)
Theorem issue_lists_bounded (devices : list BootColumns) (orgs : list BugColumns) (events : list (IssueEvent * Z)) :
  NoDup (List.map device_key devices) ->
  let db := issue_run events (mkIssueDb devices orgs []) in
  (forall t c u, listed_in_day RESTART_ISSUE_KINDS t c u db <= MAX_RESTART_REPORTS_PER_DAY) /\
  (forall t c u, listed_in_day ["disk_health"%string] t c u db <= MAX_DISK_REPORTS_PER_DAY) /\
  StronglySorted boots_apart (id_issues db) /\ NoDup (issue_ids db).
Proof.
  intros Hk. cbn zeta. assert (Hok : lists_ok (issue_run events (mkIssueDb devices orgs []))).
  { assert (H0 : lists_ok (mkIssueDb devices orgs [])) by (constructor; [constructor|done|done|constructor|done|intros w d Hw; by apply elem_of_nil in Hw]).
    revert H0. generalize (mkIssueDb devices orgs []). induction events as [|[e now] l IH]; intros db Hok; [done|]. by apply IH, lists_step_ok. }
  destruct Hok. auto.
Qed.

(** ** A restart is listed once *)

(** What a report does to the tables: it may list issues after the others, and it
    keeps the workstations. *)
Definition grows (db db' : IssueDb) : Prop := (exists k, id_issues db' = id_issues db ++ k) /\ List.map device_key (id_devices db') = List.map device_key (id_devices db).

Lemma grows_refl db : grows db db.
Proof. split; [exists []; by rewrite app_nil_r|done]. Qed.

Lemma grows_trans db1 db2 db3 : grows db1 db2 -> grows db2 db3 -> grows db1 db3.
Proof. intros [[k Hk] Hd] [[k' Hk'] Hd']. split; [exists (k ++ k'); by rewrite Hk', Hk, app_assoc|congruence]. Qed.

Lemma grows_insert w db : grows db (fst (insert_issue w db)).
Proof. unfold insert_issue. destruct (existsb _ _); [apply grows_refl|]. split; [by exists [w]|done]. Qed.

Lemma grows_boot t c r id now db : grows db (fst (recordBootReport db t c r id now)).
Proof.
  assert (Hb : grows db (booted t c r now db)) by (split; [exists []; by rewrite app_nil_r|apply booted_keys]).
  unfold recordBootReport. destruct (negb _); [apply grows_refl|]. fold (booted t c r now db). destruct (ISSUES _) as [[severity kind]|]; [|done]. destruct (js_find _ _) as [o|]; [|done].
  destruct (existsb _ _); [done|]. eapply grows_trans; [exact Hb|]. split; [by eexists [_]|done].
Qed.

Lemma grows_restart t c r now db : grows db (fst (recordRestartReport db t c r now)).
Proof.
  unfold recordRestartReport. destruct (negb _); [apply grows_refl|]. destruct (existsb _ _); [apply grows_refl|]. destruct (_ <=? _); [apply grows_refl|].
  pose proof (grows_insert (restart_issue t c r now) db). by destruct (insert_issue _ _).
Qed.

Lemma grows_disks t c disks now : forall budget n db, grows db (fst (disk_loop t c disks now budget n db)).
Proof.
  induction disks as [|d rest IH]; intros budget n db; cbn; [apply grows_refl|]. destruct (existsb _ _); [apply IH|]. destruct (_ <=? _); [apply grows_refl|].
  pose proof (grows_insert (disk_issue t c d now) db) as Hi. destruct (insert_issue _ _) as [db' []]; (eapply grows_trans; [exact Hi|apply IH]).
Qed.

Lemma grows_step e now db : e <> IE_purge -> grows db (issue_step e now db).
Proof.
  intros He. destruct e as [[device|?] body id|[device|?] body|[device|?] body|]; cbn; try done; try apply grows_refl.
  - destruct (input ← body; parseBootReport input now) as [r|]; [|apply grows_refl]. pose proof (grows_boot (dt_tenant_id device) (dt_client_id device) r id now db). by destruct (recordBootReport _ _ _ _ _ _).
  - destruct (input ← body; parseRestartReport input now) as [r|]; [|apply grows_refl]. pose proof (grows_restart (dt_tenant_id device) (dt_client_id device) r now db). by destruct (recordRestartReport _ _ _ _ _).
  - destruct (input ← body; parseDiskHealthReport input) as [l|]; [|apply grows_refl]. unfold recordDiskHealthReport. destruct (negb _); [apply grows_refl|].
    pose proof (grows_disks (dt_tenant_id device) (dt_client_id device) l now (MAX_DISK_REPORTS_PER_DAY - recent_issues ["disk_health"%string] (dt_tenant_id device) (dt_client_id device) (now - 86400) db) 0 db). by destruct (disk_loop _ _ _ _ _ _ _).
Qed.

(** An issue stays while the purges leave those as old as it. *)
Lemma run_keeps_issue events w : forall db, w ∈ List.map wi_issue (id_issues db) -> Forall (fun e => snd e - WORKSTATION_ISSUE_RETENTION_DAYS * 86400 <= i_created_at w) events ->
  w ∈ List.map wi_issue (id_issues (issue_run events db)) /\ List.map device_key (id_devices (issue_run events db)) = List.map device_key (id_devices db).
Proof.
  induction events as [|[e now] l IH]; intros db Hw Ht; [done|]. apply list.Forall_cons in Ht as [Ht Hl]. cbn [snd] in Ht. change (issue_run ((e, now) :: l) db) with (issue_run l (issue_step e now db)).
  assert (Hs : w ∈ List.map wi_issue (id_issues (issue_step e now db)) /\ List.map device_key (id_devices (issue_step e now db)) = List.map device_key (id_devices db)).
  { assert (e = IE_purge \/ e <> IE_purge) as [->|He] by (destruct e; [by right..|by left]).
    - split; [|done]. apply list_elem_of_In, List.in_map_iff in Hw as (v & <- & Hv%list_elem_of_In). apply list_elem_of_In, List.in_map_iff. exists (clear_log (now - RESTART_LOG_RETENTION_DAYS * 86400) v).
      split; [apply clear_log_issue|]. apply list_elem_of_In, purged_elem. by exists v.
    - destruct (grows_step e now db He) as [[k Hk] Hd]. split; [|done]. rewrite Hk, List.map_app. by apply elem_of_app; left. }
  destruct Hs as [Hs Hd]. rewrite <- Hd. by apply IH.
Qed.

Lemma returns_bind {A B} (a : A) (f : A -> js_result B) : (Returns a ≫= f) = f a.
Proof. reflexivity. Qed.

(** The window is the only thing of a report that depends on the clock. *)
Lemma parsed_again input now r now' : parseRestartReport input now = Returns r ->
  now - MAX_REPORT_AGE_SECONDS <= rr_endedAt r <= now + MAX_CLOCK_AHEAD_SECONDS /\ (parseRestartReport input now' = Returns r \/ exists e, parseRestartReport input now' = Throws e).
Proof.
  intros Hp. unfold parseRestartReport in Hp. invert_returns. subst r.
  match goal with Hw : (_ || _) = false |- _ => apply orb_false_iff in Hw as [Hlo%Z.ltb_ge Hhi%Z.ltb_ge] end. split; [cbn; lia|].
  unfold parseRestartReport. repeat match goal with E : ?x = Returns _ |- _ => rewrite E, returns_bind; clear E | E : ?x = false |- _ => rewrite E; clear E end.
  destruct (throw_if ((now' + _ <? _) || _) _); rewrite ?E4; [left; reflexivity|right; eexists; reflexivity].
Qed.

Lemma restart_recorded t c r now db db' : recordRestartReport db t c r now = (db', outcome recorded) -> known_device db t c = true /\ db' = push_issue (restart_issue t c r now) db.
Proof.
  unfold recordRestartReport. destruct (known_device db t c); [|done]. cbn. destruct (existsb _ _); [done|]. destruct (_ <=? _); [done|]. unfold insert_issue. destruct (existsb _ _); [done|]. by intros [= <-].
Qed.

Lemma kept_one r : answer_of r = RKept 1 -> r = recorded.
Proof. by destruct r. Qed.

Lemma known_by_keys db db' t c : List.map device_key (id_devices db') = List.map device_key (id_devices db) -> known_device db t c = true -> known_device db' t c = true.
Proof.
  unfold known_device. rewrite !existsb_elem. intros Hk (d & Hd & Hi%is_device_iff). assert (Hin : (t, c) ∈ List.map device_key (id_devices db)) by (rewrite <- Hi; by apply list_elem_of_In, List.in_map, list_elem_of_In).
  rewrite <- Hk in Hin. apply list_elem_of_In, List.in_map_iff in Hin as (d' & Hk' & Hd'%list_elem_of_In). exists d'. split; [done|by apply is_device_iff].
Qed.

Lemma sent_again now t c r db events now' :
  known_device db t c = true -> Forall (fun e => snd e <= now') events -> rr_endedAt r <= now + MAX_CLOCK_AHEAD_SECONDS -> now' - MAX_REPORT_AGE_SECONDS <= rr_endedAt r ->
  let later := issue_run events (push_issue (restart_issue t c r now) db) in recordRestartReport later t c r now' = (later, outcome duplicate).
Proof.
  intros Hknown Ht Hnow Hnow'. cbn zeta. destruct (run_keeps_issue events (wi_issue (restart_issue t c r now)) (push_issue (restart_issue t c r now) db)) as [Hin Hkeys].
  { cbn. rewrite List.map_app. apply elem_of_app. right. by left. }
  { eapply list.Forall_impl; [exact Ht|]. intros e He. cbn in He |- *. unfold WORKSTATION_ISSUE_RETENTION_DAYS, MAX_REPORT_AGE_SECONDS, MAX_CLOCK_AHEAD_SECONDS in *. lia. }
  unfold recordRestartReport. rewrite (known_by_keys db _ t c Hkeys Hknown). cbn [negb]. replace (existsb _ _) with true; [done|]. symmetry. apply existsb_elem.
  apply list_elem_of_In, List.in_map_iff in Hin as (w & Hw & Hin%list_elem_of_In). exists w. split; [done|]. unfold is_issue_of, has_issue_id. rewrite Hw. cbn. by rewrite !String.eqb_refl.
Qed.

(** A restart is listed once per boot: a report answered as recorded is in the
    list, and the same report sent again, after any other reports and purges up to
    then, changes nothing: it is answered as recorded before, or refused because its
    window has passed. *)
Theorem restart_listed_once (device : DeviceToken) (body : js_result jsval) (now now' : Z) (db db' : IssueDb) (events : list (IssueEvent * Z)) :
  handleRestartReport (inl device) body now db = (db', RKept 1) -> Forall (fun e => snd e <= now') events ->
  let later := issue_run events db' in
  (exists r, (input ← body; parseRestartReport input now) = Returns r /\ id_issues db' = id_issues db ++ [restart_issue (dt_tenant_id device) (dt_client_id device) r now]) /\
  (handleRestartReport (inl device) body now' later = (later, RKept 0) \/
   exists e, handleRestartReport (inl device) body now' later = (later, RRefused (report_refused "Restart" e))).
Proof.
  intros Hfirst Ht. cbn zeta. unfold handleRestartReport in *. destruct body as [input|]; [|done]. rewrite returns_bind in Hfirst |- *.
  destruct (parseRestartReport input now) as [r|] eqn:Hp; [|done]. destruct (recordRestartReport _ _ _ _ _) as [db1 o] eqn:Hr in Hfirst. injection Hfirst as -> Ho.
  destruct o as [o|]; [|done]. apply kept_one in Ho as ->. apply restart_recorded in Hr as [Hknown ->]. split; [by exists r|].
  destruct (parsed_again input now r now' Hp) as [Hw [Hp'|[e Hp']]]; rewrite returns_bind, Hp'; [left|right; by exists e].
  apply parsed_again with (now' := now') in Hp' as [Hw' _]. pose proof (sent_again now _ _ r db events now' Hknown Ht (proj2 Hw) (proj1 Hw')) as Ha. cbn zeta in Ha. rewrite Ha. reflexivity.
Qed.
End Runs.

(** ** Examples *)

#[local] Existing Instance bytes_crypto.
Definition lab_token (client : string) : DeviceToken := mkDeviceToken "t1" "hash" "acme" client 0 0 false.
Definition lab_devices : list BootColumns := [mkBootColumns "acme" "pc-1" None None None 0 0; mkBootColumns "acme" "pc-2" None None None 0 0].
Definition lab_orgs : list BugColumns := [mkBugColumns "acme" false None None].
Definition lab_db : IssueDb := mkIssueDb lab_devices lab_orgs [].
Definition failed_boot (at_ : Z) : js_result jsval := Returns (JsObj [("state", JsStr "failed"); ("version", JsStr "1.4.0"); ("at", JsInt at_)]%string).
Definition restart_body (bootId : string) (at_ : Z) : js_result jsval :=
  Returns (JsObj [("bootId", JsStr bootId); ("kind", JsStr "watchdog_reset"); ("startedAt", JsInt (at_ - 90)); ("endedAt", JsInt at_); ("log", JsStr "last line")]%string).
Definition worn_disks (devices : list string) : js_result jsval :=
  Returns (JsObj [("disks", JsArr (List.map (fun d => JsObj [("device", JsStr d); ("state", JsStr "failing"); ("summary", JsStr "Worn out.")]%string) devices))]%string).
Definition boot_a : string := "0123456789abcdef0123456789abcdef".

Definition lab_day : list (IssueEvent * Z) :=
  [(IE_boot (inl (lab_token "pc-1")) (failed_boot 1000) "i1", 1010);
   (IE_boot (inl (lab_token "pc-1")) (failed_boot 1030) "i2", 1040);
   (IE_boot (inl (lab_token "pc-1")) (failed_boot 1060) "i3", 1070);
   (IE_restart (inl (lab_token "pc-2")) (restart_body boot_a 1200), 1300);
   (IE_disk (inl (lab_token "pc-2")) (worn_disks ["sda"; "sdb"; "sdc"; "sdd"; "sde"; "sdf"; "sdg"; "sdh"]%string), 1400);
   (IE_disk (inl (lab_token "pc-2")) (worn_disks ["sdi"]%string), 1500);
   (IE_purge, 2000)].

Example lab_day_listed : let db := issue_run lab_day lab_db in
  List.map (fun w => i_kind (wi_issue w)) (id_issues db) = ["update_failed"; "update_failed"; "watchdog_reset"; "disk_health"; "disk_health"; "disk_health"; "disk_health"; "disk_health"; "disk_health"; "disk_health"; "disk_health"]%string /\
  snd (handleDiskHealthReport (inl (lab_token "pc-2")) (worn_disks ["sdi"]%string) 1500 db) = RRefused (Guard.mkRefusal "This workstation has reported enough disk problems today" 429).
Proof. vm_compute. done. Qed.

Lemma issue_lists_bounded_witness : NoDup (List.map device_key lab_devices) /\
  (forall t c u, listed_in_day ["disk_health"%string] t c u (issue_run lab_day (mkIssueDb lab_devices lab_orgs [])) <= MAX_DISK_REPORTS_PER_DAY) /\
  StronglySorted boots_apart (id_issues (issue_run lab_day (mkIssueDb lab_devices lab_orgs []))).
Proof.
  assert (Hn : NoDup (List.map device_key lab_devices)) by (apply (bool_decide_unpack _); vm_compute; done).
  destruct (issue_lists_bounded lab_devices lab_orgs lab_day Hn) as (_ & Hd & Hs & _). exact (conj Hn (conj Hd Hs)).
Defined.

(** A report sent again two days later, after a purge, and again when its week is over. *)
Definition after_restart : IssueDb := fst (handleRestartReport (inl (lab_token "pc-2")) (restart_body boot_a 1200) 1300 lab_db).
Lemma restart_listed_once_witness :
  handleRestartReport (inl (lab_token "pc-2")) (restart_body boot_a 1200) 1300 lab_db = (after_restart, RKept 1) /\
  (let later := issue_run [(IE_purge, 174000)] after_restart in
   handleRestartReport (inl (lab_token "pc-2")) (restart_body boot_a 1200) 174100 later = (later, RKept 0) \/
   exists e, handleRestartReport (inl (lab_token "pc-2")) (restart_body boot_a 1200) 174100 later = (later, RRefused (report_refused "Restart" e))).
Proof.
  assert (Hf : handleRestartReport (inl (lab_token "pc-2")) (restart_body boot_a 1200) 1300 lab_db = (after_restart, RKept 1)) by (vm_compute; reflexivity).
  split; [exact Hf|]. refine (proj2 (restart_listed_once (lab_token "pc-2") (restart_body boot_a 1200) 1300 174100 lab_db after_restart [(IE_purge, 174000)] Hf _)).
  constructor; [cbn; lia|constructor].
Defined.

Example restart_window_over :
  handleRestartReport (inl (lab_token "pc-2")) (restart_body boot_a 1200) 700000 after_restart = (after_restart, RRefused (report_refused "Restart" "endedAt is outside the accepted window")).
Proof. vm_compute. done. Qed.
