(* ===== verification/Hardware.v ===== *)
(** src/cloudflare-control/src/hardware.ts: the machine a workstation runs on, and the
    list of models built from every organization's reports; with the video decoding
    report of boot_report.ts and the two routes that take these reports (index.ts).

    The columns of a workstation that only this reads stand in a table of their own,
    beside the platform's tables (Db.v). [stringify] and [parse] are JSON.stringify
    and JSON.parse; which device a request comes from is an argument. *)
From S2P Require Import Prelude JsString Regex Scan Platform Db Guard Auth Power Partners Issues.

(** ** A machine *)

Inductive BootMode : Type := uefi | bios.
#[export] Instance BootMode_eq_dec : EqDecision BootMode.
Proof. solve_decision. Defined.
Definition boot_mode_text (m : BootMode) : string := match m with uefi => "uefi" | bios => "bios" end.
Definition BOOT_MODES : list (string * BootMode) := [("uefi", uefi); ("bios", bios)]%string.

Definition MAX_MACS_PER_REPORT : nat := 8.
Definition PUBLIC_MODEL_MIN_ORGANIZATIONS : Z := 3.
Definition MAX_VENDOR : nat := 80.
Definition MAX_MODEL : nat := 80.
Definition MAX_CPU : nat := 120.
Definition MAC_PATTERN : re := RCat (RRep 2 (RClass is_lower_hex)) (RRep 5 (RCat (RChar ":") (RRep 2 (RClass is_lower_hex)))).

Definition PLACEHOLDER_NAMES : list string :=
  ["to be filled by o.e.m."; "to be filled by oem"; "system product name"; "system manufacturer"; "system version"; "default string"; "not applicable"; "not specified";
   "none"; "oem"; "o.e.m."; "unknown"; "invalid"; "type1productconfigid"; "123456789"; "x.x"]%string.

Record Hardware : Type := mkHardware {
  hw_vendor : string; hw_model : string; hw_cpu : string; hw_cores : Z; hw_memoryMb : Z; hw_bootMode : BootMode;
  hw_keyboard : option bool; hw_touch : option bool; hw_macs : list string
}.

Definition hardware_text (value : jsval) (field : string) (max : nat) : js_result string :=
  if is_nullish value then Returns ""%string
  else match value with JsStr s => Returns (str_take max (trim (collapse_spaces (collapse is_control false s)))) | _ => Throws (field +:+ " must be text") end.

Definition firmwareName (value : jsval) (field : string) (max : nat) : js_result string :=
  name ← hardware_text value field max;
  Returns (if bool_decide (toLowerCase name ∈ PLACEHOLDER_NAMES) then ""%string else name).

Definition whole (value : jsval) (field : string) (min max : Z) : js_result Z :=
  match as_integer value with
  | Some z => if (z <? min) || (max <? z) then Throws (field +:+ " must be a whole number from " +:+ string_of_int min +:+ " to " +:+ string_of_int max) else Returns z
  | None => Throws (field +:+ " must be a whole number from " +:+ string_of_int min +:+ " to " +:+ string_of_int max)
  end.

Definition presence (value : jsval) (field : string) : js_result (option bool) :=
  if is_nullish value then Returns None else match value with JsBool b => Returns (Some b) | _ => Throws (field +:+ " must be true, false or null") end.

(** [parseInt(mac.slice(0, 2), 16)] of an address that [MAC_PATTERN] matched. *)
Definition first_octet (mac : string) : Z := match mac with String a (String b _) => parse_hex_byte a b | _ => 0 end.
Definition wakeableMac (mac : string) : bool :=
  if String.eqb mac "00:00:00:00:00:00" || String.eqb mac "ff:ff:ff:ff:ff:ff" then false else Z.land (first_octet mac) 1 =? 0.

Fixpoint mac_loop (index : nat) (values : list jsval) (macs : list string) : js_result (list string) :=
  match values with
  | [] => Returns macs
  | value :: rest =>
      let mac := match value with JsStr s => toLowerCase s | _ => ""%string end in
      if negb (re_test MAC_PATTERN mac) then Throws ("macs[" +:+ string_of_int (Z.of_nat index) +:+ "] is not a MAC address")
      else mac_loop (S index) rest (if wakeableMac mac && negb (bool_decide (mac ∈ macs)) then macs ++ [mac] else macs)
  end.

Definition parseHardwareReport (input : jsval) : js_result Hardware :=
  _ ← throw_if (negb (is_plain_object input)) "The hardware report must be a JSON object";
  bootMode ← match as_string (js_get input "bootMode") ≫= fun s => assoc s BOOT_MODES with Some m => Returns m | None => Throws "bootMode is uefi or bios" end;
  macs ← match js_get input "macs" with
         | JsUndefined | JsNull => Returns []
         | JsArr raw => if (MAX_MACS_PER_REPORT <? length raw)%nat then Throws "macs must list at most 8 addresses" else mac_loop 0 raw []
         | _ => Throws "macs must list at most 8 addresses"
         end;
  vendor ← firmwareName (js_get input "vendor") "vendor" MAX_VENDOR;
  model ← firmwareName (js_get input "model") "model" MAX_MODEL;
  cpu ← hardware_text (js_get input "cpu") "cpu" MAX_CPU;
  cores ← whole (js_get input "cores") "cores" 1 1024;
  memoryMb ← whole (js_get input "memoryMb") "memoryMb" 64 (16 * 1024 * 1024);
  keyboard ← presence (js_get input "keyboard") "keyboard";
  touch ← presence (js_get input "touch") "touch";
  Returns (mkHardware vendor model cpu cores memoryMb bootMode keyboard touch macs).

(** The report as JSON.stringify sees it. *)
Definition presence_json (b : option bool) : jsval := match b with None => JsNull | Some b => JsBool b end.
Definition hardware_json (h : Hardware) : jsval :=
  JsObj [("vendor", JsStr (hw_vendor h)); ("model", JsStr (hw_model h)); ("cpu", JsStr (hw_cpu h)); ("cores", JsInt (hw_cores h)); ("memoryMb", JsInt (hw_memoryMb h));
         ("bootMode", JsStr (boot_mode_text (hw_bootMode h))); ("keyboard", presence_json (hw_keyboard h)); ("touch", presence_json (hw_touch h));
         ("macs", JsArr (List.map JsStr (hw_macs h)))]%string.

(** ** Video decoding *)

Definition GPU_VENDORS : list string := ["intel"; "amd"; "nvidia"; "virtual"; "other"]%string.
Definition VIDEO_CODECS : list string := ["h264"; "hevc"; "vp8"; "vp9"; "av1"; "mpeg2"; "vc1"; "jpeg"]%string.
Definition MAX_GPUS_PER_REPORT : nat := 4.
Definition KERNEL_DRIVER_PATTERN : re := RBetween 1 40 (RClass (fun c => is_lower c || is_upper c || is_digit c || is_char "_" c || is_char "." c || is_char "-" c)).
Definition MAX_VA_DRIVER : nat := 120.
Definition MAX_VIDEO_PROBLEM : nat := 200.

Record GpuDecoding : Type := mkGpu { gpu_vendor : string; gpu_kernelDriver : string; gpu_vaDriver : string; gpu_decode : list string; gpu_encode : list string; gpu_problem : option string }.
Record VideoDecoding : Type := mkVideo { vd_gpus : list GpuDecoding; vd_problem : option string }.

(** Every entry is checked; what is kept is in the order of [VIDEO_CODECS]. *)
Definition codecList (value : jsval) (field : string) : js_result (list string) :=
  match value with
  | JsArr l =>
      if (length VIDEO_CODECS <? length l)%nat then Throws (field +:+ " must list at most 8 codecs")
      else
        codecs ← result_map (fun v => match as_string v with Some s => if bool_decide (s ∈ VIDEO_CODECS) then Returns s else Throws (field +:+ " names an unknown codec") | None => Throws (field +:+ " names an unknown codec") end) l;
        Returns (List.filter (fun c => bool_decide (c ∈ codecs)) VIDEO_CODECS)
  | _ => Throws (field +:+ " must list at most 8 codecs")
  end.

Definition optionalProblem (value : jsval) (field : string) : js_result (option string) :=
  if is_nullish value then Returns None else problem ← diskText value field MAX_VIDEO_PROBLEM; Returns (nonempty problem).

Definition or_empty_list (v : jsval) : jsval := if is_nullish v then JsArr [] else v.

Definition parse_gpu (index : nat) (entry : jsval) : js_result GpuDecoding :=
  let at_ := "gpus[" +:+ string_of_int (Z.of_nat index) +:+ "]" in
  _ ← throw_if (negb (is_plain_object entry)) (at_ +:+ " must be an object");
  vendor ← match as_string (js_get entry "vendor") with Some v => if bool_decide (v ∈ GPU_VENDORS) then Returns v else Throws (at_ +:+ ".vendor is not a known vendor") | None => Throws (at_ +:+ ".vendor is not a known vendor") end;
  kernelDriver ← match or_empty (js_get entry "kernelDriver") with JsStr k => if negb (String.eqb k "") && negb (re_test KERNEL_DRIVER_PATTERN k) then Throws (at_ +:+ ".kernelDriver is not a driver name") else Returns k | _ => Throws (at_ +:+ ".kernelDriver is not a driver name") end;
  vaDriver ← diskText (or_empty (js_get entry "vaDriver")) (at_ +:+ ".vaDriver") MAX_VA_DRIVER;
  decode ← codecList (or_empty_list (js_get entry "decode")) (at_ +:+ ".decode");
  encode ← codecList (or_empty_list (js_get entry "encode")) (at_ +:+ ".encode");
  problem ← optionalProblem (js_get entry "problem") (at_ +:+ ".problem");
  Returns (mkGpu vendor kernelDriver vaDriver decode encode problem).

Definition parseVideoDecodingReport (input : jsval) : js_result VideoDecoding :=
  _ ← throw_if (negb (is_plain_object input)) "The video decoding report must be a JSON object";
  gpus ← match js_get input "gpus" with
         | JsArr l => if (MAX_GPUS_PER_REPORT <? length l)%nat then Throws "gpus must list at most 4 GPUs" else map_entries parse_gpu 0 l
         | _ => Throws "gpus must list at most 4 GPUs"
         end;
  problem ← optionalProblem (js_get input "problem") "problem";
  _ ← throw_if ((length gpus =? 0)%nat && negb (is_Some_b problem)) "A report with no GPU must say why";
  Returns (mkVideo gpus problem).

Definition problem_json (p : option string) : list (string * jsval) := match p with Some s => [("problem"%string, JsStr s)] | None => [] end.
Definition gpu_json (g : GpuDecoding) : jsval :=
  JsObj ([("vendor", JsStr (gpu_vendor g)); ("kernelDriver", JsStr (gpu_kernelDriver g)); ("vaDriver", JsStr (gpu_vaDriver g));
          ("decode", JsArr (List.map JsStr (gpu_decode g))); ("encode", JsArr (List.map JsStr (gpu_encode g)))]%string ++ problem_json (gpu_problem g)).
Definition video_json (v : VideoDecoding) : jsval := JsObj (("gpus"%string, JsArr (List.map gpu_json (vd_gpus v))) :: problem_json (vd_problem v)).

(** ** What is kept *)

(** A workstation's columns, and the models as the hourly run left them. *)
Record ReportColumns : Type := mkReportColumns { rc_tenant_id : string; rc_client_id : string; rc_video_decoding : option string; rc_video_decoding_at : option Z; rc_hardware : option string; rc_hardware_at : option Z }.
Record HardwareModelRow : Type := mkModelRow { hm_vendor : string; hm_model : string; hm_organizations : Z; hm_workstations : Z; hm_uefi : Z; hm_touch : Z; hm_min_memory_mb : option Z; hm_computed_at : Z }.
Record HardwareModel : Type := mkHardwareModel { mo_vendor : string; mo_model : string; mo_organizations : Z; mo_workstations : Z; mo_uefi : Z; mo_touch : Z; mo_minMemoryMb : option Z }.
Record HardwareDb : Type := mkHardwareDb { hd_devices : list ReportColumns; hd_models : list HardwareModelRow }.
Definition on_reports (f : list ReportColumns -> list ReportColumns) (db : HardwareDb) : HardwareDb := mkHardwareDb (f (hd_devices db)) (hd_models db).

Definition is_row_of (tenantId clientId : string) (r : ReportColumns) : bool := String.eqb (rc_tenant_id r) tenantId && String.eqb (rc_client_id r) clientId.
Definition set_video (json : string) (now : Z) (r : ReportColumns) : ReportColumns := mkReportColumns (rc_tenant_id r) (rc_client_id r) (Some json) (Some now) (rc_hardware r) (rc_hardware_at r).
Definition set_hardware (json : string) (now : Z) (r : ReportColumns) : ReportColumns := mkReportColumns (rc_tenant_id r) (rc_client_id r) (rc_video_decoding r) (rc_video_decoding_at r) (Some json) (Some now).
(** An UPDATE of a workstation's row: whether it changed one. *)
Definition update_row (f : ReportColumns -> ReportColumns) (tenantId clientId : string) (db : HardwareDb) : HardwareDb * bool :=
  (on_reports (List.map (fun r => if is_row_of tenantId clientId r then f r else r)) db, existsb (is_row_of tenantId clientId) (hd_devices db)).

Section Json.
Context `{Collation}.
Variable stringify : jsval -> string.
Variable parse : string -> js_result jsval.

Definition recordHardware (db : HardwareDb) (tenantId clientId : string) (report : Hardware) (now : Z) : HardwareDb * bool := update_row (set_hardware (stringify (hardware_json report)) now) tenantId clientId db.
Definition recordVideoDecoding (db : HardwareDb) (tenantId clientId : string) (report : VideoDecoding) (now : Z) : HardwareDb * bool := update_row (set_video (stringify (video_json report)) now) tenantId clientId db.

(** With [reportedAt], in milliseconds. *)
Definition stored {A} (read : jsval -> js_result A) (json : option string) (at_ : option Z) : option (A * Z) :=
  match json ≫= nonempty with
  | None => None
  | Some text => match (v ← parse text; read v) with Returns a => Some (a, default 0 at_ * 1000) | Throws _ => None end
  end.
Definition storedHardware : option string -> option Z -> option (Hardware * Z) := stored parseHardwareReport.
Definition storedVideoDecoding : option string -> option Z -> option (VideoDecoding * Z) := stored parseVideoDecodingReport.

(** ** The routes of a workstation *)

Definition take_report {A} (what : string) (read : jsval -> js_result A) (record : HardwareDb -> string -> string -> A -> Z -> HardwareDb * bool)
    (auth : DeviceToken + Guard.Refusal) (body : js_result jsval) (now : Z) (db : HardwareDb) : HardwareDb * (unit + Guard.Refusal) :=
  match auth with
  | inr refused => (db, inr refused)
  | inl device =>
      match (input ← body; read input) with
      | Throws e => (db, inr (report_refused what e))
      | Returns report => let '(db', kept) := record db (dt_tenant_id device) (dt_client_id device) report now in (db', if kept then inl tt else inr NOT_CHECKED_IN)
      end
  end.
Definition handleHardwareReport := take_report "Hardware" parseHardwareReport recordHardware.
Definition handleVideoDecodingReport := take_report "Video decoding" parseVideoDecodingReport recordVideoDecoding.

(** ** The models *)

Record Tally : Type := mkTally { ty_spellings : list (string * Z); ty_tenants : list string; ty_workstations : Z; ty_uefi : Z; ty_touch : Z; ty_minMemoryMb : option Z }.
Definition empty_tally : Tally := mkTally [] [] 0 0 0 None.

Definition spelling_of (h : Hardware) : string := hw_vendor h +:+ NUL +:+ hw_model h.
Definition model_key (h : Hardware) : string := toLowerCase (hw_vendor h) +:+ NUL +:+ toLowerCase (hw_model h).
Definition has_touch (h : Hardware) : bool := bool_decide (hw_touch h = Some true).
Definition is_uefi (h : Hardware) : bool := bool_decide (hw_bootMode h = uefi).
Definition bump (k : string) (l : list (string * Z)) : list (string * Z) := map_set k (default 0 (assoc k l) + 1) l.

Definition add_machine (t : Tally) (row : string * Hardware) : Tally :=
  mkTally (bump (spelling_of (snd row)) (ty_spellings t)) (set_add (ty_tenants t) (fst row)) (ty_workstations t + 1)
    (ty_uefi t + (if is_uefi (snd row) then 1 else 0)) (ty_touch t + (if has_touch (snd row) then 1 else 0))
    (Some (match ty_minMemoryMb t with None => hw_memoryMb (snd row) | Some m => Z.min m (hw_memoryMb (snd row)) end)).
Definition tally_row (tallies : list (string * Tally)) (row : string * Hardware) : list (string * Tally) :=
  map_set (model_key (snd row)) (add_machine (default empty_tally (assoc (model_key (snd row)) tallies)) row) tallies.

(** The rows of the JOIN: workstations of organizations that are no demos. *)
Definition joined (db : D1Database) (r : ReportColumns) : list Tenant := List.filter (fun t => String.eqb (t_id t) (rc_tenant_id r) && negb (bool_decide (t_subdomain t ∈ DEMO_SLUGS))) (tenants db).
Definition hardware_rows (db : D1Database) (hd : HardwareDb) : list (string * string) :=
  flat_map (fun r => match rc_hardware r with Some json => List.map (fun _ => (rc_tenant_id r, json)) (joined db r) | None => [] end) (hd_devices hd).
(** A report that no longer reads, or names no maker or no model, is left out. *)
Definition readable (row : string * string) : option (string * Hardware) :=
  match (v ← parse (snd row); parseHardwareReport v) with
  | Throws _ => None
  | Returns h => if String.eqb (hw_vendor h) "" || String.eqb (hw_model h) "" then None else Some (fst row, h)
  end.
Definition counted_rows (db : D1Database) (hd : HardwareDb) : list (string * Hardware) := omap readable (hardware_rows db hd).

Definition by_use (a b : string * Z) : Z := if snd b - snd a =? 0 then localeCompare (fst a) (fst b) else snd b - snd a.
Definition shown_spelling (t : Tally) : string := match js_sort by_use (ty_spellings t) with (s, _) :: _ => s | [] => ""%string end.
Definition model_row (now : Z) (t : Tally) : HardwareModelRow :=
  let names := split_on (chr 0) (shown_spelling t) in
  mkModelRow (default ""%string (names !! 0%nat)) (default ""%string (names !! 1%nat)) (Z.of_nat (length (ty_tenants t))) (ty_workstations t) (ty_uefi t) (ty_touch t) (ty_minMemoryMb t) now.
Definition row_key (m : HardwareModelRow) : string * string := (hm_vendor m, hm_model m).

(** One batch: the table is emptied, and an INSERT of a key it has undoes all of it. *)
Definition rebuildHardwareModels (db : D1Database) (hd : HardwareDb) (now : Z) : HardwareDb * js_result Z :=
  let tallies := foldl tally_row [] (counted_rows db hd) in
  let rows := List.map (fun e => model_row now (snd e)) tallies in
  if bool_decide (NoDup (List.map row_key rows)) then (mkHardwareDb (hd_devices hd) rows, Returns (Z.of_nat (length tallies)))
  else (hd, Throws "D1_ERROR: UNIQUE constraint failed: hardware_models.vendor, hardware_models.model").

Definition modelOf (r : HardwareModelRow) : HardwareModel := mkHardwareModel (hm_vendor r) (hm_model r) (hm_organizations r) (hm_workstations r) (hm_uefi r) (hm_touch r) (hm_min_memory_mb r).
Definition listHardwareModels (hd : HardwareDb) (limit : nat) : list HardwareModel :=
  take limit (List.map modelOf (js_sort (fun a b => by_first [hm_workstations b - hm_workstations a; by_code (hm_vendor a) (hm_vendor b); by_code (hm_model a) (hm_model b)]) (hd_models hd))).
Definition listPublicHardwareModels (hd : HardwareDb) : list HardwareModel :=
  List.map modelOf (js_sort (fun a b => by_first [by_nocase (hm_vendor a) (hm_vendor b); by_nocase (hm_model a) (hm_model b)])
    (List.filter (fun r => PUBLIC_MODEL_MIN_ORGANIZATIONS <=? hm_organizations r) (hd_models hd))).
Definition hardwareModelsComputedAt (hd : HardwareDb) : option Z :=
  match List.map hm_computed_at (hd_models hd) with [] => None | x :: l => Some (foldl Z.max x l) end.
End Json.

(** ** Counting by key *)

Section Grouping.
Context {V R : Type} (key : R -> string) (step : V -> R -> V) (v0 : V).

(** [map.set(key, step(map.get(key) ?? v0, row))] for each row. *)
Definition gather (m : list (string * V)) (row : R) : list (string * V) := map_set (key row) (step (default v0 (assoc (key row) m)) row) m.
Definition keyed (k : string) (rows : list R) : list R := List.filter (fun r => String.eqb (key r) k) rows.

Lemma assoc_existsb k (m : list (string * V)) : existsb (fun '(k', _) => String.eqb k' k) m = is_Some_b (assoc k m).
Proof. induction m as [|[k' v] m IH]; [done|]. cbn. rewrite (String.eqb_sym k' k). by destruct (String.eqb k k'). Qed.

Lemma assoc_map_set k k' v (m : list (string * V)) : assoc k (map_set k' v m) = if String.eqb k k' then Some v else assoc k m.
Proof.
  unfold map_set. rewrite assoc_existsb. destruct (assoc k' m) as [w|] eqn:E; cbn.
  - revert E. induction m as [|[k1 v1] m IH]; [done|]. cbn. rewrite (String.eqb_sym k1 k'). destruct (String.eqb_spec k' k1) as [<-|Hne]; cbn; intros Hm.
    + destruct (String.eqb_spec k k') as [->|]; [done|]. clear Hm IH. induction m as [|[k2 v2] m IH]; [done|]. cbn. rewrite (String.eqb_sym k2 k').
      destruct (String.eqb_spec k' k2) as [<-|]; cbn; [destruct (String.eqb_spec k k'); [congruence|done]|by rewrite IH].
    + destruct (String.eqb_spec k k1) as [->|]; [|by apply IH]. destruct (String.eqb_spec k1 k'); [congruence|done].
  - induction m as [|[k1 v1] m IH]; cbn in *; [by destruct (String.eqb k k')|]. destruct (String.eqb_spec k' k1) as [<-|Hne]; [done|]. rewrite IH by done.
    destruct (String.eqb_spec k k1) as [->|]; [|done]. destruct (String.eqb_spec k1 k'); [congruence|done].
Qed.

Lemma map_set_distinct k v (m : list (string * V)) : NoDup (List.map fst m) -> NoDup (List.map fst (map_set k v m)).
Proof.
  intros Hn. unfold map_set. destruct (existsb _ m) eqn:E.
  - rewrite List.map_map. erewrite List.map_ext; [exact Hn|]. intros [k' w]. by destruct (String.eqb k' k).
  - rewrite List.map_app. apply list.NoDup_app. split; [done|]. split; [|apply NoDup_singleton]. intros x Hx ->%list_elem_of_singleton. cbn in Hx.
    apply list_elem_of_In, List.in_map_iff in Hx as ([k' w] & Hk & Hin). cbn in Hk. subst k'. assert (existsb (fun '(k', _) => String.eqb k' k) m = true); [|congruence].
    apply existsb_exists. exists (k, w). split; [done|apply String.eqb_refl].
Qed.

Lemma gathered_distinct rows : NoDup (List.map fst (foldl gather [] rows)).
Proof. induction rows as [|row rows IH] using rev_ind; [constructor|]. rewrite foldl_app. by apply map_set_distinct. Qed.

(** Each key holds what its own rows add up to. *)
Lemma gathered_assoc rows k : assoc k (foldl gather [] rows) = match keyed k rows with [] => None | l => Some (foldl step v0 l) end.
Proof.
  induction rows as [|row rows IH] using rev_ind; [done|]. rewrite foldl_app. cbn. unfold gather at 1. rewrite assoc_map_set. unfold keyed in *. rewrite List.filter_app. cbn.
  rewrite (String.eqb_sym (key row) k). destruct (String.eqb_spec k (key row)) as [->|]; [|by rewrite app_nil_r].
  rewrite IH. destruct (List.filter _ rows) as [|x l]; [done|]. cbn [app]. change (x :: l ++ [row]) with ((x :: l) ++ [row]). by rewrite foldl_app.
Qed.

Lemma gathered_elem rows k v : (k, v) ∈ foldl gather [] rows <-> keyed k rows <> [] /\ v = foldl step v0 (keyed k rows).
Proof.
  assert (Hin : forall m : list (string * V), NoDup (List.map fst m) -> (k, v) ∈ m <-> assoc k m = Some v).
  { intros m. induction m as [|[k' w] m IH]; cbn; intros Hn; [split; [intros Hx; by apply elem_of_nil in Hx|done]|]. apply list.NoDup_cons in Hn as [Hk Hn]. rewrite elem_of_cons, (IH Hn).
    destruct (String.eqb_spec k k') as [->|Hne]; [|split; [intros [[=]|?]; done|by right]]. split; [intros [[= ->]|Ha]; [done|]|intros [= ->]; by left].
    destruct Hk. apply assoc_elem in Ha. apply list_elem_of_In, List.in_map_iff. exists (k', v). split; [done|by apply list_elem_of_In]. }
  rewrite Hin by apply gathered_distinct. rewrite gathered_assoc. destruct (keyed k rows); [naive_solver|]. split; [intros [= <-]; done|intros [_ ->]; done].
Qed.
End Grouping.

(** ** What a tally holds *)

Section Tallies.
Context `{C : Collation} `{!LawfulCollation C}.

Definition count_of {A} (p : A -> bool) (l : list A) : Z := Z.of_nat (length (List.filter p l)).
Definition organizations_of (rows : list (string * Hardware)) : gset string := list_to_set (List.map fst rows).

Lemma count_of_snoc {A} (p : A -> bool) l x : count_of p (l ++ [x]) = count_of p l + (if p x then 1 else 0).
Proof. unfold count_of. rewrite List.filter_app, length_app. cbn. destruct (p x); cbn; lia. Qed.

Record tally_of (rows : list (string * Hardware)) (t : Tally) : Prop := {
  to_tenants : ty_tenants t = js_dedup (List.map fst rows);
  to_workstations : ty_workstations t = Z.of_nat (length rows);
  to_uefi : ty_uefi t = count_of (fun r => is_uefi (snd r)) rows;
  to_touch : ty_touch t = count_of (fun r => has_touch (snd r)) rows;
  to_memory m : ty_minMemoryMb t = Some m -> (exists r, r ∈ rows /\ hw_memoryMb (snd r) = m) /\ forall r, r ∈ rows -> m <= hw_memoryMb (snd r);
  to_some : rows <> [] -> ty_minMemoryMb t <> None
}.

Lemma tally_holds rows : tally_of rows (foldl add_machine empty_tally rows).
Proof.
  induction rows as [|row rows [Ht Hw Hu Hc Hm Hs]] using rev_ind; [by constructor|]. rewrite foldl_app. set (t := foldl add_machine empty_tally rows) in *. constructor; cbn.
  - rewrite Ht. unfold js_dedup. by rewrite List.map_app, foldl_app.
  - rewrite Hw, length_app. cbn. lia.
  - by rewrite count_of_snoc, Hu.
  - by rewrite count_of_snoc, Hc.
  - intros m [= <-]. destruct (ty_minMemoryMb t) as [m|] eqn:Em.
    + destruct (Hm m eq_refl) as [(r & Hr & Er) Hmin]. split; [|intros r' [Hr'| ->%list_elem_of_singleton]%elem_of_app; [specialize (Hmin r' Hr'); lia|lia]].
      destruct (Z.min_spec m (hw_memoryMb (snd row))) as [[_ ->]|[_ ->]]; [exists r; split; [by apply elem_of_app; left|done]|exists row; split; [apply elem_of_app; right; by left|done]].
    + assert (rows = []) as -> by (destruct rows; [done|by destruct (Hs ltac:(done))]). split; [exists row; split; [by left|done]|]. intros r' ->%list_elem_of_singleton. done.
  - done.
Qed.

Lemma tally_spellings rows : ty_spellings (foldl add_machine empty_tally rows) = foldl (gather (fun r => spelling_of (snd r)) (fun n _ => n + 1) 0) [] rows.
Proof. induction rows as [|row rows IH] using rev_ind; [done|]. rewrite !foldl_app. cbn. by rewrite IH. Qed.

Lemma counted_up {R} (l : list R) : foldl (fun n _ => n + 1) 0 l = Z.of_nat (length l).
Proof. induction l as [|x l IH] using rev_ind; [done|]. rewrite foldl_app, length_app. cbn. lia. Qed.

Definition spelled_like (s : string) (r : string * Hardware) : bool := String.eqb (spelling_of (snd r)) s.

#[local] Instance by_use_order : Comparator by_use.
Proof.
  assert (Comparator (fun a b : string * Z => localeCompare (fst a) (fst b))) by (constructor; intros; [apply cmp_total|by eapply (cmp_trans (cmp := localeCompare))]).
  pose proof (lex_comparator (fun a : string * Z => - snd a) (fun a b => localeCompare (fst a) (fst b))) as [Ht Htr].
  assert (Heq : forall a b, by_use a b = (if - snd a - - snd b =? 0 then localeCompare (fst a) (fst b) else - snd a - - snd b)).
  { intros a b. unfold by_use. by replace (snd b - snd a) with (- snd a - - snd b) by lia. }
  constructor; intros; rewrite ?Heq in *; eauto.
Qed.

(** The spelling shown is one a machine reported, and none is reported more often. *)
Lemma shown_most rows : rows <> [] -> let s := shown_spelling (foldl add_machine empty_tally rows) in
  (exists r, r ∈ rows /\ spelling_of (snd r) = s) /\ forall r, r ∈ rows -> count_of (spelled_like (spelling_of (snd r))) rows <= count_of (spelled_like s) rows.
Proof.
  intros Hne. cbn zeta. unfold shown_spelling. rewrite tally_spellings. set (m := foldl _ [] rows).
  assert (Hm : forall k n, (k, n) ∈ m <-> keyed (fun r => spelling_of (snd r)) k rows <> [] /\ n = count_of (spelled_like k) rows) by (intros k n; unfold m; rewrite gathered_elem, counted_up; done).
  assert (Hin : forall r, r ∈ rows -> (spelling_of (snd r), count_of (spelled_like (spelling_of (snd r))) rows) ∈ m).
  { intros r Hr. apply Hm. split; [|done]. intros Hk. assert (Hx : r ∈ keyed (fun r => spelling_of (snd r)) (spelling_of (snd r)) rows) by (apply elem_of_bfilter; split; [done|apply String.eqb_refl]). rewrite Hk in Hx. by apply elem_of_nil in Hx. }
  pose proof (js_sort_sorted by_use m) as Hs. pose proof (elem_of_js_sort by_use m) as Hp. destruct (js_sort by_use m) as [|[s n] l].
  { destruct rows as [|r rows]; [done|]. specialize (Hin r ltac:(by left)). apply Hp, elem_of_nil in Hin. done. }
  destruct (proj1 (Hm s n) (proj1 (Hp _) ltac:(by left))) as [Hk ->]. split.
  - destruct (keyed _ s rows) as [|r k] eqn:Ek; [done|]. exists r. assert (Hr : r ∈ keyed (fun r => spelling_of (snd r)) s rows) by (rewrite Ek; by left). apply elem_of_bfilter in Hr as [Hr Hs'%String.eqb_eq]. done.
  - intros r Hr. specialize (Hin r Hr). apply Hp in Hin. apply elem_of_cons in Hin as [[= Hs' _]|Hin]; [by rewrite Hs'|]. apply StronglySorted_inv in Hs as [_ Hs].
    apply (proj1 (list.Forall_forall _ _) Hs) in Hin. unfold by_use in Hin. cbn in Hin. destruct (_ =? 0) eqn:Ez in Hin; [apply Z.eqb_eq in Ez; lia|lia].
Qed.
End Tallies.

(** ** Names have no control character *)

Definition no_nul (s : string) : Prop := str_forallb (fun c => negb (is_char (chr 0) c)) s = true.

Lemma no_nul_char s : no_nul s <-> has_char (chr 0) s = false.
Proof. unfold no_nul, has_char. rewrite str_existsb_forallb. by destruct (str_forallb _ s). Qed.

Lemma no_nul_collapse b s : no_nul (collapse is_control b s).
Proof.
  unfold no_nul. revert b. induction s as [|c s IH]; intros b; [done|]. cbn [collapse]. destruct (is_control c) eqn:Hc; [destruct b; [apply IH|cbn [str_forallb]; by rewrite IH]|]. cbn [str_forallb]. rewrite IH, andb_true_r.
  apply negb_true_iff. unfold is_char. destruct (Ascii.eqb_spec c (chr 0)) as [->|]; [|done]. by vm_compute in Hc.
Qed.

Lemma no_nul_spaces s : no_nul s -> no_nul (collapse_spaces s).
Proof.
  unfold no_nul. induction s as [|c s IH]; [done|]. cbn [str_forallb]. intros [Hc Hs]%andb_true_iff. specialize (IH Hs). cbn [collapse_spaces]. destruct s as [|d s]; [cbn [str_forallb]; by rewrite Hc|].
  destruct (is_space c && is_space d); [|cbn [str_forallb]; by rewrite Hc, IH]. destruct (collapse_spaces (String d s)) as [|e t]; [done|]. cbn [str_forallb] in IH |- *. by apply andb_true_iff in IH as [_ ->].
Qed.

Lemma no_nul_trim s : no_nul s -> no_nul (trim s).
Proof.
  assert (Hstart : forall s, no_nul s -> no_nul (trimStart s)) by (unfold no_nul; intros u; induction u as [|c u IH]; [done|]; intros Hu; cbn [trimStart]; destruct (is_space c); [cbn [str_forallb] in Hu; apply andb_true_iff in Hu as [_ Hu]; by apply IH|done]).
  assert (Hend : forall s, no_nul s -> no_nul (trimEnd s)) by (unfold no_nul; intros u; induction u as [|c u IH]; [done|]; intros Hu; cbn [trimEnd]; destruct (str_forallb is_space _); [done|]; cbn [str_forallb] in Hu |- *; apply andb_true_iff in Hu as [-> Hu]; by rewrite IH).
  intros Hs. by apply Hend, Hstart.
Qed.

Lemma no_nul_take n s : no_nul s -> no_nul (str_take n s).
Proof. intros Hs. unfold no_nul in *. rewrite <- (str_take_drop n s), str_forallb_app in Hs. by apply andb_true_iff in Hs as [? _]. Qed.

Lemma firmware_no_nul v field max name : firmwareName v field max = Returns name -> no_nul name.
Proof.
  unfold firmwareName. intros Hf. invert_returns. destruct (bool_decide _); [by subst|]. subst. unfold hardware_text in *. destruct (is_nullish v); [by invert_returns; subst|].
  destruct v; try done. invert_returns. subst. by apply no_nul_take, no_nul_trim, no_nul_spaces, no_nul_collapse.
Qed.

Lemma parsed_names input h : parseHardwareReport input = Returns h -> no_nul (hw_vendor h) /\ no_nul (hw_model h).
Proof. unfold parseHardwareReport. intros Hp. invert_returns. subst h. cbn. split; by eapply firmware_no_nul. Qed.

Lemma lower_nul c : is_char (chr 0) (lower_char c) = is_char (chr 0) c.
Proof. destruct c as [[] [] [] [] [] [] [] []]; vm_compute; reflexivity. Qed.

Lemma no_nul_lower s : no_nul s -> no_nul (toLowerCase s).
Proof. unfold no_nul, toLowerCase. induction s as [|c s IH]; [done|]. cbn [str_map str_forallb]. rewrite lower_nul. intros [-> Hs]%andb_true_iff. by apply IH. Qed.

Lemma nul_app a b : a +:+ NUL +:+ b = a +:+ String (chr 0) b.
Proof. done. Qed.

Lemma model_key_inj h k : no_nul (hw_vendor h) -> no_nul (hw_vendor k) -> model_key h = model_key k <-> toLowerCase (hw_vendor h) = toLowerCase (hw_vendor k) /\ toLowerCase (hw_model h) = toLowerCase (hw_model k).
Proof.
  intros Hh Hk. unfold model_key. rewrite !nul_app. split; [|by intros [-> ->]]. intros He. by apply str_sep_inj in He; [|by apply no_nul_char, no_nul_lower..].
Qed.

Lemma spelling_names h : no_nul (hw_vendor h) -> no_nul (hw_model h) -> split_on (chr 0) (spelling_of h) = [hw_vendor h; hw_model h].
Proof. intros Hv Hm. unfold spelling_of. rewrite nul_app, split_on_app by (by apply no_nul_char). by rewrite split_on_none by (by apply no_nul_char). Qed.

(** ** The list of models *)

Section Models.
Context `{C : Collation} `{!LawfulCollation C}.
Variable parse : string -> js_result jsval.

(** A machine of a model, whichever way its firmware spells it. *)
Definition same_model (m : HardwareModelRow) (row : string * Hardware) : bool :=
  String.eqb (toLowerCase (hm_vendor m)) (toLowerCase (hw_vendor (snd row))) && String.eqb (toLowerCase (hm_model m)) (toLowerCase (hw_model (snd row))).
Definition key_of_row (m : HardwareModelRow) : string := toLowerCase (hm_vendor m) +:+ NUL +:+ toLowerCase (hm_model m).

Lemma counted_names db hd row : row ∈ counted_rows parse db hd -> no_nul (hw_vendor (snd row)) /\ no_nul (hw_model (snd row)).
Proof.
  unfold counted_rows. rewrite list_elem_of_omap. intros (raw & _ & Hr). unfold readable in Hr. destruct (_ ≫= _) as [h|] eqn:Hp in Hr; [|done]. destruct (_ || _); [done|]. injection Hr as <-. cbn.
  invert_returns. by eapply parsed_names.
Qed.

Notation tallies_of rows := (foldl tally_row [] rows).
Notation by_model := (fun r : string * Hardware => model_key (snd r)).

Lemma tallies_elem rows k t : (k, t) ∈ tallies_of rows <-> keyed by_model k rows <> [] /\ t = foldl add_machine empty_tally (keyed by_model k rows).
Proof. exact (gathered_elem by_model add_machine empty_tally rows k t). Qed.

Lemma tallies_distinct rows : NoDup (List.map fst (tallies_of rows)).
Proof. exact (gathered_distinct by_model add_machine empty_tally rows). Qed.

(** The names of a model are those of one of its machines. *)
Lemma model_named db hd now k t : (k, t) ∈ tallies_of (counted_rows parse db hd) ->
  exists r, r ∈ keyed by_model k (counted_rows parse db hd) /\ hm_vendor (model_row now t) = hw_vendor (snd r) /\ hm_model (model_row now t) = hw_model (snd r) /\ spelling_of (snd r) = shown_spelling t /\ model_key (snd r) = k.
Proof.
  intros [Hne Ht]%tallies_elem. destruct (shown_most _ Hne) as [(r & Hr & Hs) _]. rewrite <- Ht in Hs. exists r. split; [done|]. apply elem_of_bfilter in Hr as [Hr Hk%String.eqb_eq].
  destruct (counted_names db hd r Hr) as [Hv Hm]. unfold model_row. cbn [hm_vendor hm_model]. rewrite <- Hs, (spelling_names _ Hv Hm). done.
Qed.

Lemma model_group db hd now k t : (k, t) ∈ tallies_of (counted_rows parse db hd) ->
  List.filter (same_model (model_row now t)) (counted_rows parse db hd) = keyed by_model k (counted_rows parse db hd).
Proof.
  intros Hin. destruct (model_named db hd now k t Hin) as (r & Hr & Ev & Em & _ & <-). apply elem_of_bfilter in Hr as [Hr _]. apply List.filter_ext_in. intros x Hx%list_elem_of_In.
  destruct (counted_names db hd r Hr) as [Hv _], (counted_names db hd x Hx) as [Hxv _]. unfold same_model. rewrite Ev, Em. apply eq_true_iff_eq. rewrite andb_true_iff, !String.eqb_eq, (model_key_inj _ _ Hxv Hv). naive_solver.
Qed.

Lemma keys_of_rows db hd now : let tallies := tallies_of (counted_rows parse db hd) in List.map key_of_row (List.map (fun e => model_row now (snd e)) tallies) = List.map fst tallies.
Proof.
  cbn zeta. rewrite List.map_map. apply List.map_ext_in. intros [k t] Hin%list_elem_of_In. destruct (model_named db hd now k t Hin) as (r & _ & Ev & Em & _ & <-). unfold key_of_row. cbn [fst snd]. by rewrite Ev, Em.
Qed.

Lemma rebuilt db hd now : rebuildHardwareModels parse db hd now =
  (mkHardwareDb (hd_devices hd) (List.map (fun e => model_row now (snd e)) (tallies_of (counted_rows parse db hd))), Returns (Z.of_nat (length (tallies_of (counted_rows parse db hd))))).
Proof.
  unfold rebuildHardwareModels. rewrite bool_decide_eq_true_2; [done|]. apply (NoDup_fmap_1 (fun '(v, m) => toLowerCase v +:+ NUL +:+ toLowerCase m)). unfold fmap. change (@list_fmap) with (fun A B (f : A -> B) => List.map f).
  cbn beta. rewrite List.map_map. pose proof (tallies_distinct (counted_rows parse db hd)) as Hn. rewrite <- (keys_of_rows db hd now) in Hn. done.
Qed.

Lemma organizations_size rows : Z.of_nat (length (js_dedup (List.map fst rows))) = Z.of_nat (size (organizations_of rows)).
Proof.
  rewrite <- (size_list_to_set (C := gset string)) by apply js_dedup_NoDup. do 2 f_equal. unfold organizations_of. apply set_eq. intros x. by rewrite !elem_of_list_to_set, elem_of_js_dedup.
Qed.

(** Row [r] is machine [h] of an organization that is no demo: its report still
    reads, and names a maker and a model. *)
Definition machine (db : D1Database) (r : ReportColumns) (h : Hardware) : Prop :=
  (exists t, t ∈ tenants db /\ t_id t = rc_tenant_id r /\ t_subdomain t ∉ DEMO_SLUGS) /\
  (exists json value, rc_hardware r = Some json /\ parse json = Returns value /\ parseHardwareReport value = Returns h) /\ hw_vendor h <> ""%string /\ hw_model h <> ""%string.

(** The machines among the workstations' rows, one for each row that is one. *)
Inductive machines_among (db : D1Database) : list ReportColumns -> list (string * Hardware) -> Prop :=
| among_none : machines_among db [] []
| among_machine r h rows machines : machine db r h -> machines_among db rows machines -> machines_among db (r :: rows) ((rc_tenant_id r, h) :: machines)
| among_other r rows machines : (forall h, ~ machine db r h) -> machines_among db rows machines -> machines_among db (r :: rows) machines.

Lemma joined_once db r : NoDup (List.map t_id (tenants db)) -> joined db r = [] \/ exists t, joined db r = [t].
Proof.
  intros Hn. unfold joined. induction (tenants db) as [|t l IH]; [by left|]. cbn in *. apply list.NoDup_cons in Hn as [Ht Hn]. destruct (String.eqb_spec (t_id t) (rc_tenant_id r)) as [E|E]; [|by apply IH].
  assert (List.filter (fun t => String.eqb (t_id t) (rc_tenant_id r) && negb (bool_decide (t_subdomain t ∈ DEMO_SLUGS))) l = []) as ->.
  { destruct (List.filter _ l) as [|x k] eqn:Ef; [done|]. assert (Hx : x ∈ x :: k) by constructor. rewrite <- Ef in Hx. apply elem_of_bfilter in Hx as [Hx [Ex%String.eqb_eq _]%andb_true_iff]. destruct Ht. rewrite E, <- Ex. apply list_elem_of_fmap. by exists x. }
  destruct (_ && _); [right; by exists t|by left].
Qed.

Lemma joined_elem db r t : t ∈ joined db r <-> t ∈ tenants db /\ t_id t = rc_tenant_id r /\ t_subdomain t ∉ DEMO_SLUGS.
Proof. unfold joined. rewrite elem_of_bfilter, andb_true_iff, String.eqb_eq, negb_true_iff, bool_decide_eq_false. tauto. Qed.

Lemma readable_iff tenant json r : readable parse (tenant, json) = Some r <->
  exists h value, r = (tenant, h) /\ parse json = Returns value /\ parseHardwareReport value = Returns h /\ hw_vendor h <> ""%string /\ hw_model h <> ""%string.
Proof.
  unfold readable. cbn [fst snd]. destruct (parse json) as [v|e]; [rewrite returns_bind|]. 2: { split; [done|]. by intros (h & value & _ & ? & _). }
  destruct (parseHardwareReport v) as [h|e] eqn:Ep. 2: { split; [done|]. intros (h & value & _ & [= <-] & ? & _). congruence. }
  destruct (String.eqb_spec (hw_vendor h) ""); [|destruct (String.eqb_spec (hw_model h) "")]; cbn [orb].
  - split; [done|]. intros (h' & value & _ & [= <-] & ? & ? & _). congruence.
  - split; [done|]. intros (h' & value & _ & [= <-] & ? & _ & ?). congruence.
  - split; [intros [= <-]; by exists h, v|]. intros (h' & value & -> & [= <-] & ? & _). congruence.
Qed.

Lemma counted_among db rows models : NoDup (List.map t_id (tenants db)) -> machines_among db rows (counted_rows parse db (mkHardwareDb rows models)).
Proof.
  intros Hn. unfold counted_rows, hardware_rows. cbn [hd_devices]. induction rows as [|r rows IH]; [constructor|]. cbn [flat_map]. rewrite omap_app.
  destruct (rc_hardware r) as [json|] eqn:Ej; [|apply among_other; [intros h (_ & (? & ? & ? & _) & _); congruence|done]].
  destruct (joined_once db r Hn) as [E|[t E]]; rewrite E; cbn [List.map].
  - apply among_other; [|done]. intros h ((t & Ht) & _). apply joined_elem in Ht. rewrite E in Ht. by apply elem_of_nil in Ht.
  - assert (Ht : t ∈ tenants db /\ t_id t = rc_tenant_id r /\ t_subdomain t ∉ DEMO_SLUGS) by (apply joined_elem; rewrite E; constructor).
    cbn [omap list_omap]. destruct (readable parse (rc_tenant_id r, json)) as [x|] eqn:Ex.
    + apply readable_iff in Ex as (h & value & -> & Hv & Hh & Hne). apply (among_machine db r h); [|done]. split; [by exists t|]. split; [by exists json, value|done].
    + apply among_other; [|done]. intros h (_ & (j & value & [= <-]%(eq_trans (eq_sym Ej)) & Hv & Hh) & Hne). assert (readable parse (rc_tenant_id r, json) = Some (rc_tenant_id r, h)); [|congruence]. apply readable_iff. by exists h, value.
Qed.

(** C32. The list of models says exactly what the workstations reported. Counted is
    each workstation, of an organization that is no demo, whose last report still
    reads and names a maker and a model: no other, and none of them left out. The
    hourly rebuild never fails and lists each model once, whatever its case; a
    model's figures are those of its machines (how many different organizations,
    how many machines, how many start by UEFI or have a touchscreen, and the least
    memory), under the spelling most of them report; and the public list shows the
    models that at least three organizations run. *)
Theorem hardware_models_exact (db : D1Database) (hd : HardwareDb) (now : Z) : NoDup (List.map t_id (tenants db)) ->
  let '(hd', result) := rebuildHardwareModels parse db hd now in exists rows, machines_among db (hd_devices hd) rows /\
  result = Returns (Z.of_nat (length (hd_models hd'))) /\ NoDup (List.map key_of_row (hd_models hd')) /\
  (forall row, row ∈ rows -> exists m, m ∈ hd_models hd' /\ same_model m row = true) /\
  (forall m, m ∈ hd_models hd' ->
     let machines := List.filter (same_model m) rows in
     hm_organizations m = Z.of_nat (size (organizations_of machines)) /\ hm_workstations m = Z.of_nat (length machines) /\
     hm_uefi m = count_of (fun r => is_uefi (snd r)) machines /\ hm_touch m = count_of (fun r => has_touch (snd r)) machines /\
     (exists least, hm_min_memory_mb m = Some least /\ (exists r, r ∈ machines /\ hw_memoryMb (snd r) = least) /\ forall r, r ∈ machines -> least <= hw_memoryMb (snd r)) /\
     (exists r, r ∈ machines /\ hm_vendor m = hw_vendor (snd r) /\ hm_model m = hw_model (snd r) /\
        forall r', r' ∈ machines -> count_of (spelled_like (spelling_of (snd r'))) machines <= count_of (spelled_like (spelling_of (snd r))) machines)) /\
  (forall m, m ∈ listPublicHardwareModels hd' <-> exists row, row ∈ hd_models hd' /\ m = modelOf row /\ 3 <= Z.of_nat (size (organizations_of (List.filter (same_model row) rows)))).
Proof.
  intros Hids. rewrite rebuilt. cbn [hd_models]. set (rows := counted_rows parse db hd). exists rows. split; [by destruct hd; apply counted_among|]. rewrite length_map. split; [done|]. unfold rows. rewrite (keys_of_rows db hd now). split; [apply tallies_distinct|].
  assert (Hfig : forall m, m ∈ List.map (fun e => model_row now (snd e)) (tallies_of rows) -> exists k t, (k, t) ∈ tallies_of rows /\ m = model_row now t).
  { intros m ([k t] & <- & Hin%list_elem_of_In)%list_elem_of_In%List.in_map_iff. by exists k, t. }
  assert (Horg : forall k t, (k, t) ∈ tallies_of rows -> hm_organizations (model_row now t) = Z.of_nat (size (organizations_of (List.filter (same_model (model_row now t)) rows)))).
  { intros k t Hin. unfold rows. rewrite (model_group db hd now k t Hin). apply tallies_elem in Hin as [_ ->]. cbn [model_row hm_organizations]. rewrite (to_tenants _ _ (tally_holds _)). apply organizations_size. }
  split_and!.
  - intros row Hrow. pose (k := model_key (snd row)). assert (Hk : keyed by_model k rows <> []) by (intros Hk; assert (Hx : row ∈ keyed by_model k rows) by (apply elem_of_bfilter; split; [done|apply String.eqb_refl]); rewrite Hk in Hx; by apply elem_of_nil in Hx).
    assert (Hin : (k, foldl add_machine empty_tally (keyed by_model k rows)) ∈ tallies_of rows) by (by apply tallies_elem). eexists. split; [apply list_elem_of_In, List.in_map_iff; eexists; split; [reflexivity|by apply list_elem_of_In]|].
    cbn [snd]. apply (elem_of_bfilter (same_model _) rows). unfold rows. erewrite model_group; [|exact Hin]. apply elem_of_bfilter. split; [done|apply String.eqb_refl].
  - intros m Hm. destruct (Hfig m Hm) as (k & t & Hin & ->). cbn zeta. split; [by apply (Horg k)|]. destruct (model_named db hd now k t Hin) as (r & Hr & Ev & Em & Es & _). unfold rows. rewrite (model_group db hd now k t Hin).
    pose proof Hin as [Hne Ht]%tallies_elem. destruct (tally_holds (keyed by_model k rows)) as [_ Hw Hu Hc Hmin Hsome]. rewrite <- Ht in Hw, Hu, Hc, Hmin, Hsome. split_and!; [done..| |].
    + cbn [model_row hm_min_memory_mb]. destruct (ty_minMemoryMb t) as [least|]; [|by destruct (Hsome Hne)]. exists least. split; [done|by apply Hmin].
    + exists r. split; [done|]. split; [done|]. split; [done|]. rewrite Es. rewrite Ht. by apply shown_most.
  - intros m. unfold listPublicHardwareModels. rewrite list_elem_of_fmap. split; intros (row & Hrow).
    + destruct Hrow as [-> Hrow]. apply elem_of_js_sort, elem_of_bfilter in Hrow as [Hrow Hmin%Z.leb_le]. exists row. split; [done|]. split; [done|]. destruct (Hfig row Hrow) as (k & t & Hin & ->). unfold rows in Horg. rewrite <- (Horg k) by done. exact Hmin.
    + destruct Hrow as (Hrow & -> & Hmin). exists row. split; [done|]. apply elem_of_js_sort, elem_of_bfilter. split; [done|]. apply Z.leb_le. destruct (Hfig row Hrow) as (k & t & Hin & ->). unfold rows in Horg. rewrite (Horg k) by done. exact Hmin.
Qed.
End Models.

(** ** A stored report reads back *)

Definition good_mac (mac : string) : Prop := toLowerCase mac = mac /\ re_test MAC_PATTERN mac = true /\ wakeableMac mac = true.

Lemma mac_loop_ok values : forall i macs out, mac_loop i values macs = Returns out -> Forall good_mac macs -> NoDup macs ->
  Forall good_mac out /\ NoDup out /\ (length out <= length macs + length values)%nat.
Proof.
  induction values as [|v values IH]; intros i macs out; cbn [mac_loop]; [intros [= <-] Hg Hn; cbn; split_and!; [done..|lia]|]. set (mac := match v with JsStr s => toLowerCase s | _ => ""%string end).
  destruct (re_test MAC_PATTERN mac) eqn:Hp; cbn [negb]; [|done]. intros Hl Hg Hn. destruct (wakeableMac mac && negb (bool_decide (mac ∈ macs))) eqn:Hw.
  - apply andb_true_iff in Hw as [Hw Hnew%negb_true_iff%bool_decide_eq_false]. apply IH in Hl as (? & ? & Hlen).
    + split_and!; [done..|]. rewrite length_app in Hlen. cbn in *. lia.
    + apply Forall_app. split; [done|]. constructor; [|constructor]. split; [|done]. unfold mac. destruct v; try done. apply toLowerCase_idemp.
    + apply list.NoDup_app. split; [done|]. split; [|apply NoDup_singleton]. by intros x Hx ->%list_elem_of_singleton.
  - apply IH in Hl as (? & ? & Hlen); [|done..]. split_and!; [done..|cbn; lia].
Qed.

Lemma mac_loop_again l : forall i macs, Forall good_mac l -> NoDup (macs ++ l) -> mac_loop i (List.map JsStr l) macs = Returns (macs ++ l).
Proof.
  induction l as [|mac l IH]; intros i macs Hg Hn; cbn [List.map mac_loop]; [by rewrite app_nil_r|]. apply list.Forall_cons in Hg as [(Hlow & Hp & Hw) Hg]. rewrite Hlow, Hp, Hw. cbn [negb andb].
  assert (Hnew : mac ∉ macs) by (apply list.NoDup_app in Hn as (_ & Hd & _); intros Hx; by apply (Hd mac Hx); left). rewrite bool_decide_eq_false_2 by done. cbn [negb].
  rewrite IH; [by rewrite <- app_assoc|done|by rewrite <- app_assoc].
Qed.

(** What a report says apart from its three texts, which may lose a last space. *)
Definition same_machine (h k : Hardware) : Prop :=
  hw_cores h = hw_cores k /\ hw_memoryMb h = hw_memoryMb k /\ hw_bootMode h = hw_bootMode k /\ hw_keyboard h = hw_keyboard k /\ hw_touch h = hw_touch k /\ hw_macs h = hw_macs k.

Lemma whole_bounds v field lo hi z : whole v field lo hi = Returns z -> whole (JsInt z) field lo hi = Returns z.
Proof. unfold whole. destruct (as_integer v) as [n|]; [|done]. destruct (_ || _) eqn:E; [done|]. intros [= ->]. cbn. by rewrite E. Qed.

Lemma presence_again b field : presence (presence_json b) field = Returns b.
Proof. by destruct b. Qed.

Lemma text_of_text s field max : exists t, hardware_text (JsStr s) field max = Returns t.
Proof. eexists. reflexivity. Qed.

Lemma name_of_text s field max : exists t, firmwareName (JsStr s) field max = Returns t.
Proof. eexists. reflexivity. Qed.

Lemma parsed_macs input h : parseHardwareReport input = Returns h -> Forall good_mac (hw_macs h) /\ NoDup (hw_macs h) /\ (length (hw_macs h) <= MAX_MACS_PER_REPORT)%nat.
Proof.
  unfold parseHardwareReport. intros Hp. invert_returns. subst h. cbn [hw_macs]. destruct (js_get input "macs"); try done; [|invert_returns; subst; split_and!; [constructor..|cbn; lia]|].
  - invert_returns. subst. split_and!; [constructor..|cbn; lia].
  - destruct (_ <? _)%nat eqn:Hl; [done|]. apply Nat.ltb_ge in Hl. match goal with E : mac_loop _ _ _ = _ |- _ => apply mac_loop_ok in E as (? & ? & Hlen); [|constructor..] end. split_and!; [done..|cbn in Hlen; lia].
Qed.

Lemma mode_again m : (as_string (JsStr (boot_mode_text m)) ≫= fun s => assoc s BOOT_MODES) = Some m.
Proof. by destruct m. Qed.

Lemma parsed_wholes input h : parseHardwareReport input = Returns h ->
  whole (JsInt (hw_cores h)) "cores" 1 1024 = Returns (hw_cores h) /\ whole (JsInt (hw_memoryMb h)) "memoryMb" 64 (16 * 1024 * 1024) = Returns (hw_memoryMb h).
Proof. unfold parseHardwareReport. intros Hp. invert_returns. subst h. cbn [hw_cores hw_memoryMb]. split; by eapply whole_bounds. Qed.

Lemma parsed_json input h : parseHardwareReport input = Returns h -> exists h', parseHardwareReport (hardware_json h) = Returns h' /\ same_machine h' h.
Proof.
  intros Hp. destruct (parsed_macs input h Hp) as (Hg & Hn & Hlen), (parsed_wholes input h Hp) as [Hc Hm]. clear Hp.
  destruct (name_of_text (hw_vendor h) "vendor" MAX_VENDOR) as [vendor Hv], (name_of_text (hw_model h) "model" MAX_MODEL) as [model Ho], (text_of_text (hw_cpu h) "cpu" MAX_CPU) as [cpu Hu].
  exists (mkHardware vendor model cpu (hw_cores h) (hw_memoryMb h) (hw_bootMode h) (hw_keyboard h) (hw_touch h) (hw_macs h)). split; [|repeat split].
  unfold parseHardwareReport. change (is_plain_object (hardware_json h)) with true. change (throw_if (negb true) ?e) with (Returns tt). rewrite returns_bind.
  change (js_get (hardware_json h) "bootMode") with (JsStr (boot_mode_text (hw_bootMode h))). rewrite mode_again, returns_bind.
  change (js_get (hardware_json h) "macs") with (JsArr (List.map JsStr (hw_macs h))). cbv beta iota. rewrite length_map, (proj2 (Nat.ltb_ge _ _) Hlen), mac_loop_again by done. cbn [app]. rewrite returns_bind.
  change (js_get (hardware_json h) "vendor") with (JsStr (hw_vendor h)). rewrite Hv, returns_bind. change (js_get (hardware_json h) "model") with (JsStr (hw_model h)). rewrite Ho, returns_bind.
  change (js_get (hardware_json h) "cpu") with (JsStr (hw_cpu h)). rewrite Hu, returns_bind. change (js_get (hardware_json h) "cores") with (JsInt (hw_cores h)). rewrite Hc, returns_bind.
  change (js_get (hardware_json h) "memoryMb") with (JsInt (hw_memoryMb h)). rewrite Hm, returns_bind. change (js_get (hardware_json h) "keyboard") with (presence_json (hw_keyboard h)).
  change (js_get (hardware_json h) "touch") with (presence_json (hw_touch h)). by rewrite !presence_again, !returns_bind.
Qed.

(** A workstation's machine reads back as it reported it: where the route accepts
    a hardware report, every reading of the workstation's row gives the same machine,
    dated to that report, with at most eight different addresses, each of which a
    Wake-on-LAN packet can be sent to; and no other workstation's row changes. *)
Theorem hardware_reads_back (stringify : jsval -> string) (parse : string -> js_result jsval) (device : DeviceToken) (body : js_result jsval) (now : Z) (hd hd' : HardwareDb) :
  (forall h, parse (stringify (hardware_json h)) = Returns (hardware_json h) /\ stringify (hardware_json h) <> ""%string) ->
  handleHardwareReport stringify (inl device) body now hd = (hd', inl tt) ->
  exists h, (input ← body; parseHardwareReport input) = Returns h /\
  (forall r, r ∈ hd_devices hd' -> is_row_of (dt_tenant_id device) (dt_client_id device) r = true ->
     exists h', storedHardware parse (rc_hardware r) (rc_hardware_at r) = Some (h', now * 1000) /\ same_machine h' h /\ NoDup (hw_macs h') /\ Forall good_mac (hw_macs h') /\ (length (hw_macs h') <= MAX_MACS_PER_REPORT)%nat) /\
  (exists r, r ∈ hd_devices hd' /\ is_row_of (dt_tenant_id device) (dt_client_id device) r = true) /\
  (forall r, is_row_of (dt_tenant_id device) (dt_client_id device) r = false -> r ∈ hd_devices hd' <-> r ∈ hd_devices hd).
Proof.
  intros Hjson. unfold handleHardwareReport, take_report. destruct (input ← body; parseHardwareReport input) as [h|] eqn:Hp; [|done]. unfold recordHardware, update_row. cbv zeta.
  set (mine := is_row_of (dt_tenant_id device) (dt_client_id device)). destruct (existsb mine (hd_devices hd)) eqn:Hknown; [|done]. intros [= <-]. exists h. split; [done|]. cbn [on_reports hd_devices].
  assert (Hmine : forall json r, mine (set_hardware json now r) = mine r) by done. split_and!.
  - intros r (r0 & <- & _)%list_elem_of_In%List.in_map_iff Hr. destruct (mine r0) eqn:E; [|congruence]. invert_returns. match goal with E : parseHardwareReport _ = Returns h |- _ => rename E into Hh end.
    destruct (parsed_json _ h Hh) as (h' & Hh' & Hs). exists h'. destruct (parsed_macs _ h Hh) as (Hg & Hn & Hl), Hs as (? & ? & ? & ? & ? & Hmacs). unfold same_machine. rewrite Hmacs. split; [|by split_and!].
    unfold storedHardware, stored. cbn [set_hardware rc_hardware rc_hardware_at]. destruct (Hjson h) as [Hj Hne]. change (Some (stringify (hardware_json h)) ≫= nonempty) with (nonempty (stringify (hardware_json h))).
    unfold nonempty. destruct (String.eqb_spec (stringify (hardware_json h)) ""); [done|]. rewrite Hj, returns_bind, Hh'. done.
  - apply existsb_elem in Hknown as (r & Hr & Hm). eexists. split; [apply list_elem_of_In, List.in_map_iff; exists r; split; [reflexivity|by apply list_elem_of_In]|]. by rewrite Hm.
  - intros r Hr. rewrite list_elem_of_In, List.in_map_iff. split.
    + intros (r0 & <- & Hin%list_elem_of_In). destruct (mine r0) eqn:E; [by rewrite Hmine, E in Hr|done].
    + intros Hin. exists r. rewrite Hr. split; [done|by apply list_elem_of_In].
Qed.

(** ** Examples *)

(** A text of a machine that reads back: each character marked, each text ended; a
    number as its sign and as many marks, a list after its length. *)
Fixpoint enc (s rest : string) : string := match s with ""%string => String "." rest | String c t => String "x" (String c (enc t rest)) end.
Fixpoint dec (s : string) : option (string * string) :=
  match s with
  | String m t => if Ascii.eqb m "." then Some (""%string, t) else match t with String c u => '(w, rest) ← dec u; Some (String c w, rest) | ""%string => None end
  | ""%string => None
  end.
Definition marks (n : nat) : string := String.string_of_list_ascii (repeat "1"%char n).
Definition number (z : Z) : string := String (if z <? 0 then "-" else "+") (marks (Z.to_nat (Z.abs z))).
Definition unnumber (s : string) : Z := match s with String m t => (if Ascii.eqb m "-" then -1 else 1) * Z.of_nat (String.length t) | ""%string => 0 end.
Definition enc_all (l : list string) (rest : string) : string := foldr enc rest l.
Fixpoint dec_all (n : nat) (s : string) : option (list string * string) :=
  match n with O => Some ([], s) | S n => '(w, s) ← dec s; '(ws, s) ← dec_all n s; Some (w :: ws, s) end.

Definition text_of (v : jsval) : string := match v with JsStr s => s | JsInt z => number z | JsBool b => if b then "true" else "false" | _ => "null" end%string.
Definition presence_of (s : string) : jsval := if String.eqb s "true" then JsBool true else if String.eqb s "false" then JsBool false else JsNull.
Definition machine_fields : list string := ["vendor"; "model"; "cpu"; "cores"; "memoryMb"; "bootMode"; "keyboard"; "touch"]%string.
Definition machine_text (v : jsval) : string :=
  let macs := match js_get v "macs" with JsArr l => List.map text_of l | _ => [] end in
  enc_all (List.map (fun f => text_of (js_get v f)) machine_fields) (enc (number (Z.of_nat (length macs))) (enc_all macs "")).
Definition machine_of (s : string) : js_result jsval :=
  match '(fields, s) ← dec_all 8 s; '(n, s) ← dec s; '(macs, _) ← dec_all (Z.to_nat (unnumber n)) s; Some (fields, macs) with
  | Some ([vendor; model; cpu; cores; memory; mode; keyboard; touch], macs) =>
      Returns (JsObj [("vendor", JsStr vendor); ("model", JsStr model); ("cpu", JsStr cpu); ("cores", JsInt (unnumber cores)); ("memoryMb", JsInt (unnumber memory)); ("bootMode", JsStr mode);
                      ("keyboard", presence_of keyboard); ("touch", presence_of touch); ("macs", JsArr (List.map JsStr macs))]%string)
  | _ => Throws "no machine"
  end.

Lemma dec_enc s rest : dec (enc s rest) = Some (s, rest).
Proof. induction s as [|c s IH]; [done|]. cbn. by rewrite IH. Qed.

Lemma dec_enc_all l rest : dec_all (length l) (enc_all l rest) = Some (l, rest).
Proof. induction l as [|w l IH]; [done|]. cbn. rewrite dec_enc. cbn. unfold enc_all in IH. by rewrite IH. Qed.

Lemma marks_length n : String.length (marks n) = n.
Proof. unfold marks. induction n as [|n IH]; [done|]. cbn. by rewrite IH. Qed.

Lemma unnumber_number z : unnumber (number z) = z.
Proof. unfold number, unnumber. rewrite marks_length. destruct (Z.ltb_spec z 0); cbn -[Z.mul Z.abs]; lia. Qed.

Lemma presence_read b : presence_of (text_of (presence_json b)) = presence_json b.
Proof. by destruct b as [[]|]. Qed.

Lemma machine_read h : machine_of (machine_text (hardware_json h)) = Returns (hardware_json h) /\ machine_text (hardware_json h) <> ""%string.
Proof.
  split; [|unfold machine_text; cbn; by destruct (hw_vendor h)]. unfold machine_text. change (js_get (hardware_json h) "macs") with (JsArr (List.map JsStr (hw_macs h))). cbv beta iota zeta.
  rewrite List.map_map. change (List.map (fun x => text_of (JsStr x)) (hw_macs h)) with (List.map (fun x => x) (hw_macs h)). rewrite List.map_id. unfold machine_of.
  change 8%nat with (length (List.map (fun f => text_of (js_get (hardware_json h) f)) machine_fields)). rewrite dec_enc_all. cbn [mbind option_bind]. rewrite dec_enc. cbn [mbind option_bind]. rewrite unnumber_number, Nat2Z.id, dec_enc_all. cbn -[unnumber number presence_of text_of].
  change (text_of (JsInt ?z)) with (number z). rewrite !unnumber_number, !presence_read. reflexivity.
Qed.

Definition bench (vendor model : string) (mb : Z) (mac : string) : jsval :=
  JsObj [("vendor", JsStr vendor); ("model", JsStr model); ("cpu", JsStr "CPU"); ("cores", JsInt 4); ("memoryMb", JsInt mb); ("bootMode", JsStr "uefi"); ("macs", JsArr [JsStr mac; JsStr "00:00:00:00:00:00"; JsStr mac])]%string.
Definition bench_device (tenant client : string) : DeviceToken := mkDeviceToken "t1" "hash" tenant client 0 0 false.
Definition bench_rows : list ReportColumns := [mkReportColumns "a" "pc-1" None None None None; mkReportColumns "b" "pc-1" None None None None].
Definition bench_hd : HardwareDb := mkHardwareDb bench_rows [].
Definition bench_body : js_result jsval := Returns (bench "LENOVO" "ThinkCentre  M70q" 8192 "A0:36:9F:00:11:22").
Definition bench_after : HardwareDb := fst (handleHardwareReport machine_text (inl (bench_device "a" "pc-1")) bench_body 50 bench_hd).

Lemma hardware_reads_back_witness :
  (forall h, machine_of (machine_text (hardware_json h)) = Returns (hardware_json h) /\ machine_text (hardware_json h) <> ""%string) /\
  handleHardwareReport machine_text (inl (bench_device "a" "pc-1")) bench_body 50 bench_hd = (bench_after, inl tt) /\
  exists r, r ∈ hd_devices bench_after /\ is_row_of "a" "pc-1" r = true.
Proof.
  assert (Hf : handleHardwareReport machine_text (inl (bench_device "a" "pc-1")) bench_body 50 bench_hd = (bench_after, inl tt)) by (vm_compute; reflexivity).
  split; [exact machine_read|]. split; [exact Hf|].
  destruct (hardware_reads_back machine_text machine_of (bench_device "a" "pc-1") bench_body 50 bench_hd bench_after machine_read Hf) as (h & _ & _ & Hr & _). exact Hr.
Defined.

Example bench_read : exists h, storedHardware machine_of (head (hd_devices bench_after) ≫= rc_hardware) (Some 50) = Some (h, 50000) /\ hw_model h = "ThinkCentre M70q"%string /\ hw_macs h = ["a0:36:9f:00:11:22"%string].
Proof. eexists. vm_compute. done. Qed.

(** Three organizations and a demo: the demo's machine is not counted. *)
Definition fleet_tenant (id slug : string) : Tenant := mkTenant id "u1" id slug None active portal "" None None 0 None 0 0 stable 0 1 0 0 10 None None None 0.
Definition fleet_db : D1Database := on_tenants (fun _ => [fleet_tenant "a" "acme"; fleet_tenant "b" "school"; fleet_tenant "c" "library"; fleet_tenant "d" "web-demo"]%string) empty_db.
Definition fleet_row (tenant client vendor : string) (mb : Z) : ReportColumns :=
  mkReportColumns tenant client None None (match parseHardwareReport (bench vendor "M70q" mb "a0:36:9f:00:11:22") with Returns h => Some (machine_text (hardware_json h)) | Throws _ => None end) (Some 50).
Definition fleet_hd : HardwareDb := mkHardwareDb [fleet_row "a" "pc-1" "LENOVO" 8192; fleet_row "b" "pc-1" "Lenovo" 4096; fleet_row "c" "pc-1" "Lenovo" 8192; fleet_row "c" "pc-2" "Dell" 8192; fleet_row "d" "pc-1" "Dell" 8192] [].

#[local] Existing Instance code_collation.
#[local] Existing Instance code_collation_lawful.

Example fleet_listed :
  let hd' := fst (rebuildHardwareModels machine_of fleet_db fleet_hd 100) in
  hd_models hd' = [mkModelRow "Lenovo" "M70q" 3 3 3 0 (Some 4096) 100; mkModelRow "Dell" "M70q" 1 1 1 0 (Some 8192) 100] /\
  listPublicHardwareModels hd' = [mkHardwareModel "Lenovo" "M70q" 3 3 3 0 (Some 4096)].
Proof. vm_compute. done. Qed.

Lemma hardware_models_exact_witness : NoDup (List.map t_id (tenants fleet_db)) /\
  let '(hd', result) := rebuildHardwareModels machine_of fleet_db fleet_hd 100 in
  exists rows, machines_among machine_of fleet_db (hd_devices fleet_hd) rows /\ result = Returns (Z.of_nat (length (hd_models hd'))) /\ NoDup (List.map key_of_row (hd_models hd')).
Proof.
  assert (Hids : NoDup (List.map t_id (tenants fleet_db))) by (apply (bool_decide_eq_true_1 _); vm_compute; reflexivity). split; [exact Hids|].
  pose proof (hardware_models_exact machine_of fleet_db fleet_hd 100 Hids) as Hm. destruct (rebuildHardwareModels machine_of fleet_db fleet_hd 100) as [hd' result].
  destruct Hm as (rows & Ha & Hr & Hn & _). exists rows. exact (conj Ha (conj Hr Hn)).
Defined.
