(* ===== verification/Bugs.v ===== *)
(** src/cloudflare-control/src/bug_reports.ts: workstation problems reported to GitHub
    for the organizations that agreed to it, with the routes that list the problems
    and turn the reports on and off (index.ts).

    Calls may fail as in Mail.v. Workers AI and GitHub are parameters: what they
    answer may depend on everything that happened before, and every request that
    leaves the platform is kept in the state. The organizations' columns and the
    problems are those of Issues.v. *)
From S2P Require Import Prelude JsString Regex Scan Platform Db Guard Auth WebAuthn TwoFactor Power Releases HubStore HubConfig HubStatus Conversations Mail Issues.

Definition BUG_REPORT_AI_MODEL : string := "@cf/openai/gpt-oss-120b".
Definition AI_REASONING_EFFORT : string := "high".
Definition AI_MAX_OUTPUT_TOKENS : Z := 6000.
Definition BUG_REPORT_TERMS_VERSION : string := "2026-10-04".
Definition MAX_ISSUES_PER_RUN : nat := 20.
Definition MAX_GITHUB_WRITES_PER_RUN : nat := 5.
Definition MAX_CANDIDATES : nat := 15.
Definition MAX_STATUS_CHECKS_PER_RUN : nat := 10.
Definition MAX_TITLE_LENGTH : nat := 100.
Definition MAX_SUMMARY_LENGTH : nat := 1200.
Definition is_alpha_num (c : ascii) : bool := is_lower c || is_upper c || is_digit c.
Definition REPO_PATTERN : re :=
  RCat (RClass is_alpha_num) (RCat (RUpto 38 (RClass (fun c => is_alpha_num c || is_char "-" c)))
    (RCat (RChar "/") (RBetween 1 100 (RClass (fun c => is_alpha_num c || is_char "." c || is_char "_" c || is_char "-" c))))).

Definition KIND_LABELS : list (string * string) :=
  [("update_failed", "System update failed its health check"); ("update_rolled_back", "System update rolled back");
   ("boot_fallback", "Workstation started a fallback image"); ("boot_error", "Boot record error")]%string.
Definition kind_label (kind : string) : string := default kind (assoc kind KIND_LABELS).

Record BugEnv : Type := mkBugEnv { be_AI : bool; be_TOKEN : option string; be_REPO : option string }.

Definition bugReportRepository (env : BugEnv) : option string :=
  if negb (be_AI env) then None
  else
    match be_TOKEN env ≫= nonempty, be_REPO env ≫= nonempty with
    | Some _, Some raw => if re_test REPO_PATTERN (trim raw) then Some (trim raw) else None
    | _, _ => None
    end.

(** ** Masking

    For each pattern of [REDACTIONS], what a match may follow, what it matches and
    what may follow it. For every one of them the match JavaScript finds is the
    longest, since where a match can end is decided by what follows it. *)

Definition is_word (c : ascii) : bool := is_alpha_num c || is_char "_" c.
Definition is_hex_i (c : ascii) : bool := is_lower_hex (lower_char c).
Definition is_letter_i (c : ascii) : bool := is_lower c || is_upper c.

(** [\b] before a match, and after one whose last character is a word's. *)
Definition boundary (before : option ascii) (s : string) : bool :=
  let w c := match c with Some c => is_word c | None => false end in
  xorb (w before) (match s with String c _ => is_word c | ""%string => false end).
Definition word_ends (s : string) : bool := match s with String c _ => negb (is_word c) | ""%string => true end.
Definition no_address_before (before : option ascii) (s : string) : bool := match before with Some c => negb (is_word c || is_char ":" c || is_char "." c) | None => true end.
Definition no_address_after (s : string) : bool := match s with String c _ => negb (is_word c || is_char ":" c) | ""%string => true end.

Record Redaction : Type := mkRedaction { rd_before : option ascii -> string -> bool; rd_pattern : re; rd_after : string -> bool; rd_mask : string }.

Definition hexes (n : nat) : re := RRep n (RClass is_hex_i).
Definition REDACTIONS : list Redaction :=
  [mkRedaction boundary (RCat (RClass is_letter_i) (RCat (RStar (RClass (fun c => is_alpha_num c || is_char "+" c || is_char "." c || is_char "-" c))) (RCat (RLit "://") (RPlus (RClass (fun c => negb (is_space c))))))) (fun _ => true) "<url>";
   mkRedaction (fun _ _ => true) (RCat (RPlus (RClass (fun c => is_alpha_num c || is_char "." c || is_char "_" c || is_char "%" c || is_char "+" c || is_char "-" c))) (RCat (RChar "@")
     (RCat (RPlus (RClass (fun c => is_alpha_num c || is_char "." c || is_char "-" c))) (RCat (RChar ".") (RCat (RRep 2 (RClass is_letter_i)) (RStar (RClass is_letter_i))))))) (fun _ => true) "<email>";
   mkRedaction boundary (RCat (hexes 8) (RCat (RChar "-") (RCat (hexes 4) (RCat (RChar "-") (RCat (hexes 4) (RCat (RChar "-") (RCat (hexes 4) (RCat (RChar "-") (hexes 12))))))))) word_ends "<uuid>";
   mkRedaction boundary (RCat (RRep 3 (RCat (RBetween 1 3 (RClass is_digit)) (RChar "."))) (RBetween 1 3 (RClass is_digit))) word_ends "<ip>";
   mkRedaction no_address_before (RCat (RUpto 4 (RClass is_hex_i)) (RBetween 2 7 (RCat (RChar ":") (RUpto 4 (RClass is_hex_i))))) no_address_after "<ip>";
   mkRedaction boundary (RCat (hexes 16) (RStar (RClass is_hex_i))) word_ends "<hex>";
   mkRedaction boundary (let label := RCat (RPlus (RClass (fun c => is_alpha_num c || is_char "-" c))) (RChar ".") in
     RCat label (RCat label (RCat (RStar label) (RCat (RRep 2 (RClass is_letter_i)) (RStar (RClass is_letter_i)))))) word_ends "<host>"].

(** The rest after the longest match at the start of a text. *)
Fixpoint re_longest (r : re) (stop : string -> bool) (s : string) : option string :=
  match r with
  | RNone => None
  | _ =>
      match match s with String c t => re_longest (deriv c r) stop t | ""%string => None end with
      | Some rest => Some rest
      | None => if nullable r && stop s then Some s else None
      end
  end.
Fixpoint last_of (s : string) : option ascii := match s with "" => None | String c "" => Some c | String _ t => last_of t end%string.

(** [out.replace(pattern, mask)]; [before] is the character before [s]. *)
Fixpoint mask_steps (n : nat) (rd : Redaction) (before : option ascii) (s : string) : string :=
  match n, s with
  | O, _ | _, ""%string => s
  | S n', String c t =>
      match if rd_before rd before s then re_longest (rd_pattern rd) (rd_after rd) s else None with
      | Some rest => rd_mask rd +:+ mask_steps n' rd (last_of (str_take (String.length s - String.length rest) s)) rest
      | None => String c (mask_steps n' rd (Some c) t)
      end
  end.
Definition mask_all (s : string) (rd : Redaction) : string := mask_steps (String.length s) rd None s.

Definition redactProblemText (text : string) : string := trim (collapse is_space false (foldl mask_all (collapse is_control false text) REDACTIONS)).

Example masked :
  List.map redactProblemText
    ["fetch https://lab.school.edu/x?y=1 failed"; "mail root@pc1.school.edu.in now"; "from 10.0.0.12 to fe80::1ff:fe23 (aa:bb:cc:dd:ee:ff)"; "id 123e4567-e89b-12d3-a456-426614174000 of 0123456789abcdef01"; "pc7.lab.school.edu, 1.4.0 failed"]%string =
  ["fetch <url> failed"; "mail <email> now"; "from <ip> to <ip> (<ip>)"; "id <uuid> of <hex>"; "<host>, 1.4.0 failed"]%string.
Proof. vm_compute. reflexivity. Qed.

(** ** Rows *)

Inductive BugReportStatus : Type := bs_open | bs_in_progress | bs_pr_open | bs_resolved | bs_closed.
#[export] Instance BugReportStatus_eq_dec : EqDecision BugReportStatus.
Proof. solve_decision. Defined.
Definition bug_status_text (s : BugReportStatus) : string := match s with bs_open => "open" | bs_in_progress => "in_progress" | bs_pr_open => "pr_open" | bs_resolved => "resolved" | bs_closed => "closed" end.

Record BugFacts : Type := mkFacts { bf_kind : string; bf_imageVersion : option string; bf_problem : string; bf_signature : string }.
Record BugDraft : Type := mkDraft { bd_title : string; bd_summary : string }.
Record BugCandidate : Type := mkCandidate { bc_issue_number : Z; bc_issue_url : string; bc_title : option string; bc_problem : option string; bc_version : option string; bc_status : BugReportStatus; bc_pr_url : option string }.
Inductive Triage : Type := T_existing (candidate : BugCandidate) | T_new (draft : BugDraft) (by_ai : bool).

Record BugReport : Type := mkBugReport {
  bg_signature : string; bg_kind : string; bg_image_version : option string; bg_issue_number : Z; bg_issue_url : string; bg_created_at : Z;
  bg_title : option string; bg_problem : option string; bg_status : BugReportStatus; bg_pr_url : option string; bg_status_checked_at : Z
}.

(** A request that left the platform for GitHub's issues. *)
Record Post : Type := mkPost { po_url : string; po_body : jsval }.
Record BugWorld : Type := mkBugWorld { bw_db : IssueDb; bw_reports : list BugReport; bw_posts : list Post; bw_asked : list jsval; bw_calls : Z }.
Definition on_bug_db (f : IssueDb -> IssueDb) (w : BugWorld) : BugWorld := mkBugWorld (f (bw_db w)) (bw_reports w) (bw_posts w) (bw_asked w) (bw_calls w).
Definition on_bug_reports (f : list BugReport -> list BugReport) (w : BugWorld) : BugWorld := mkBugWorld (bw_db w) (f (bw_reports w)) (bw_posts w) (bw_asked w) (bw_calls w).
Definition posted (p : Post) (w : BugWorld) : BugWorld := mkBugWorld (bw_db w) (bw_reports w) (bw_posts w ++ [p]) (bw_asked w) (bw_calls w + 1).
Definition asked (q : jsval) (w : BugWorld) : BugWorld := mkBugWorld (bw_db w) (bw_reports w) (bw_posts w) (bw_asked w ++ [q]) (bw_calls w + 1).
Definition called (w : BugWorld) : BugWorld := mkBugWorld (bw_db w) (bw_reports w) (bw_posts w) (bw_asked w) (bw_calls w + 1).

(** ** Texts *)

Section Texts.
(** U+200B, one character. *)
Variable ZERO_WIDTH_SPACE : ascii.

Fixpoint no_mentions (s : string) : string := match s with ""%string => ""%string | String c t => if is_char "@" c then String c (String ZERO_WIDTH_SPACE (no_mentions t)) else String c (no_mentions t) end.

Definition cleanTitle (text : string) : string := str_take MAX_TITLE_LENGTH (trim (collapse is_space false (no_mentions (collapse is_control false text)))).

Definition is_markdown (c : ascii) : bool :=
  is_char "\" c || is_char "`" c || is_char "*" c || is_char "_" c || is_char "[" c || is_char "]" c || is_char "<" c || is_char ">" c || is_char "!" c || is_char "#" c || is_char "|" c || is_char "~" c.
Fixpoint escape_markdown (s : string) : string := match s with ""%string => ""%string | String c t => if is_markdown c then String "\" (String c (escape_markdown t)) else String c (escape_markdown t) end.
Definition is_control_no_lf (c : ascii) : bool := in_range 0 9 c || in_range 11 31 c || (code c =? 127).
Definition inertMarkdown (text : string) : string := trim (no_mentions (escape_markdown (collapse is_control_no_lf false text))).

Definition templateDraft (facts : BugFacts) : BugDraft :=
  mkDraft (cleanTitle (kind_label (bf_kind facts) +:+ match bf_imageVersion facts ≫= nonempty with Some v => " (" +:+ v +:+ ")" | None => ""%string end)) (bf_problem facts).

(** The runs of tildes: [text.matchAll(/~+/g)]. *)
Definition tildes : matcher := fun s => match span (is_char "~") s with (""%string, _) => None | (run, rest) => Some (run, rest) end.
Definition longest_run (text : string) : nat := foldr Nat.max 2%nat (List.map String.length (match_all tildes text)).
Definition tilde_line (n : nat) : string := String.string_of_list_ascii (repeat "~"%char n).
Definition LF : string := String LF_ "".
Definition fenced (text : string) : string :=
  let fence := tilde_line (S (longest_run text)) in fence +:+ "text" +:+ LF +:+ text +:+ LF +:+ fence.

Definition REPORT_FOOTER : string :=
  "Filed automatically by Lab Kiosk for an organization that accepted the Automatic Bug Report Terms. " +:+
  "Organization and workstation names, network addresses, host names and identifiers are left out.".

Definition factLines (facts : BugFacts) : list string :=
  ["- Kind: `" +:+ bf_kind facts +:+ "`"; "- Image version: `" +:+ default "unknown"%string (bf_imageVersion facts ≫= nonempty) +:+ "`"; "- Signature: `" +:+ str_take 16 (bf_signature facts) +:+ "`"; "";
   "Problem, as the workstation reported it (redacted):"; ""; fenced (bf_problem facts)]%string.

Definition issueBody (facts : BugFacts) (draft : BugDraft) (by_ai : bool) : string :=
  join LF ([inertMarkdown (bd_summary draft); ""; "### Report"; ""]%string ++ factLines facts ++
    [""; "---"; REPORT_FOOTER +:+ (if by_ai then " The first paragraph was drafted by Workers AI from the report above; the report itself is exact." else " The report is exact.")]%string).

Definition variantComment (facts : BugFacts) : string :=
  join LF (["Another workstation reported a problem that Workers AI matched to this issue."; ""]%string ++ factLines facts ++ [""; "---"; REPORT_FOOTER]%string).

(** ** Workers AI *)

Definition Q (s : string) : string := quote_mark +:+ s +:+ quote_mark.
Definition AI_INSTRUCTIONS : string :=
  "You triage bug reports for Lab Kiosk, a Debian-based kiosk operating system that installs system images " +:+
  "side by side and rolls back an update whose first boot fails its health check. You are given one problem a " +:+
  "workstation reported and the open reports already filed for the same kind of problem, as JSON. Decide whether " +:+
  "the new problem has the same underlying cause as one of the existing reports. Different host names, addresses " +:+
  "or other masked values do not make problems different; a different failing component, error or cause does. " +:+
  "If it matches, reply with JSON only: " +:+
  "{" +:+ Q "decision" +:+ ": " +:+ Q "existing" +:+ ", " +:+ Q "issue" +:+ ": <the existing report's issue number>}. " +:+
  "If none matches, reply with JSON only: " +:+
  "{" +:+ Q "decision" +:+ ": " +:+ Q "new" +:+ ", " +:+ Q "title" +:+ ": " +:+ Q "..." +:+ ", " +:+ Q "summary" +:+ ": " +:+ Q "..." +:+ "}: a title under 90 characters naming the problem, and " +:+
  "a summary of two to four plain sentences on what happened and what a developer should look at first. " +:+
  "Use only the facts given. Do not invent versions, file names, logs or causes, and do not use markdown.".

Definition null_or (s : option string) : jsval := match s with Some s => JsStr s | None => JsNull end.

Definition says (s : string) (v : jsval) : bool := match v with JsStr t => String.eqb t s | _ => false end.

(** The [text]s of the [output_text] parts of the [message]s of [output]. *)
Definition output_texts (output : list jsval) : list string :=
  flat_map (fun item =>
    match js_get item "content" with
    | JsArr parts => if says "message" (js_get item "type") then omap (fun part => if says "output_text" (js_get part "type") then as_string (js_get part "text") else None) parts else []
    | _ => []
    end) output.

Definition first_choice (result : jsval) : jsval := match js_get result "choices" with JsArr (c :: _) => js_get (js_get c "message") "content" | _ => JsUndefined end.
Definition modelText (result : jsval) : js_result string :=
  let texts := omap as_string [result; js_get result "response"; js_get result "output_text"; first_choice result] in
  match texts with
  | s :: _ => Returns s
  | [] =>
      match js_get result "output" with
      | JsArr items => match output_texts items with [] => Throws "the model returned no text" | texts => Returns (join LF texts) end
      | _ => Throws "the model returned no text"
      end
  end.

Variable stringify : jsval -> string.
Variable parse : string -> js_result jsval.

Definition ai_request (facts : BugFacts) (candidates : list BugCandidate) : jsval :=
  JsObj [("input", JsArr [JsObj [("role", JsStr "system"); ("content", JsStr AI_INSTRUCTIONS)];
           JsObj [("role", JsStr "user"); ("content", JsStr (stringify (JsObj
             [("newProblem", JsObj [("kind", JsStr (bf_kind facts)); ("description", JsStr (kind_label (bf_kind facts))); ("imageVersion", null_or (bf_imageVersion facts)); ("problem", JsStr (bf_problem facts))]);
              ("existingReports", JsArr (List.map (fun c => JsObj [("issue", JsInt (bc_issue_number c)); ("title", null_or (bc_title c)); ("imageVersion", null_or (bc_version c)); ("problem", null_or (bc_problem c)); ("status", JsStr (bug_status_text (bc_status c)))]) candidates))])))]]);
         ("reasoning", JsObj [("effort", JsStr AI_REASONING_EFFORT)]); ("max_output_tokens", JsInt AI_MAX_OUTPUT_TOKENS)]%string.

(** [/\{[\s\S]*\}/]: from the first brace to the last. *)
Definition parseModelJson (text : string) : js_result jsval :=
  match str_index "{" text with
  | None => Throws "the model did not return JSON"
  | Some i =>
      let from := str_drop i text in
      match last_index "}" from with
      | O => Throws "the model did not return JSON"
      | n => match parse (str_take n from) with
             | Returns v => if is_plain_object v then Returns v else Throws "the model returned malformed JSON (not an object)"
             | Throws e => Throws ("the model returned malformed JSON (" +:+ e +:+ ")")
             end
      end
  end.

Definition is_number_of (v : jsval) (n : Z) : bool := match to_number v with Some (NInt z) => z =? n | _ => false end.
Definition read_triage (candidates : list BugCandidate) (answer : jsval) : js_result Triage :=
  let decision := js_get answer "decision" in
  if says "existing" decision then
    match js_find (fun c => is_number_of (js_get answer "issue") (bc_issue_number c)) candidates with
    | Some c => Returns (T_existing c)
    | None => Throws "the model named an issue which it was not shown"
    end
  else if negb (says "new" decision) then Throws "the model gave no decision"
  else
    match js_get answer "title", js_get answer "summary" with
    | JsStr title, JsStr summary =>
        let cleanedTitle := cleanTitle title in
        let cleanedSummary := str_take MAX_SUMMARY_LENGTH (trim summary) in
        if (String.length cleanedTitle <? 8)%nat || (String.length cleanedSummary <? 20)%nat then Throws "the model's title or summary is too short"
        else Returns (T_new (mkDraft cleanedTitle cleanedSummary) true)
    | _, _ => Throws "the model left out the title or summary"
    end.

(** What the model and GitHub answer: a status and a body that may not be JSON. *)
Variable ai_run : BugWorld -> jsval -> js_result jsval.
Variable github_answer : BugWorld -> string -> string -> Z * js_result jsval.

Definition of_result {S A} (r : js_result A) : eff S A := match r with Returns a => mret a | Throws e => eff_throw e end.

Definition triageWithAi (facts : BugFacts) (candidates : list BugCandidate) : eff BugWorld Triage :=
  answered ← eff_call (fun w => Returns (asked (ai_request facts candidates) w, ai_run w (ai_request facts candidates)));
  result ← of_result answered;
  text ← of_result (modelText result);
  answer ← of_result (parseModelJson text);
  of_result (read_triage candidates answer).

(** ** GitHub *)

Definition HTTPS_GITHUB : string := "https://github.com/".
Definition API : string := "https://api.github.com/repos/".
Definition method_expects (post : bool) : Z := if post then 201 else 200.

(** [fetch], then the status, then the body. *)
Definition github (post : bool) (url : string) (body : jsval) : eff BugWorld jsval :=
  answered ← eff_call (fun w => Returns ((if post then posted (mkPost url body) else called) w, github_answer w (if post then "POST" else "GET") url));
  if negb (fst answered =? method_expects post) then eff_throw "GitHub answered another status" else of_result (snd answered).

Record FiledIssue : Type := mkFiled { fi_number : Z; fi_url : string }.

(** GitHub's issue numbers are whole. *)
Definition new_issue (title body : string) : jsval := JsObj [("title", JsStr title); ("body", JsStr body)]%string.
Definition createGithubIssue (repo title body : string) : eff BugWorld FiledIssue :=
  data ← github true (API +:+ repo +:+ "/issues") (new_issue title body);
  match js_get data "number", js_get data "html_url" with
  | JsInt number, JsStr url => if startsWith url (HTTPS_GITHUB +:+ repo +:+ "/issues/") then mret (mkFiled number url) else eff_throw "GitHub's reply did not name the new issue"
  | _, _ => eff_throw "GitHub's reply did not name the new issue"
  end.

Definition is_truthy (v : jsval) : bool := match v with JsUndefined | JsNull | JsBool false | JsStr ""%string => false | JsInt z => negb (z =? 0) | _ => true end.
(** The pull request of the repository that an event of the timeline references. *)
Definition referenced (repo : string) (event : jsval) : option string :=
  if says "cross-referenced" (js_get event "event") then
    let source := js_get (js_get event "source") "issue" in
    match js_get source "html_url" with
    | JsStr url => if is_truthy (js_get source "pull_request") && startsWith url (HTTPS_GITHUB +:+ repo +:+ "/pull/") then Some url else None
    | _ => None
    end
  else None.
Definition IN_PROGRESS : re := RCat (RLit "in") (RCat (ROpt (RClass (fun c => is_char " " c || is_char "_" c || is_char "-" c))) (RLit "progress")).
Definition is_in_progress (issue : jsval) : bool :=
  match js_get issue "assignees" with JsArr (_ :: _) => true | _ => false end ||
  match js_get issue "labels" with JsArr labels => existsb (fun label => match js_get label "name" with JsStr name => re_test IN_PROGRESS (toLowerCase (trim name)) | _ => false end) labels | _ => false end.

Definition issue_api (repo : string) (number : Z) : string := API +:+ repo +:+ "/issues/" +:+ string_of_int number.
Definition readIssueStatus (repo : string) (issueNumber : Z) : eff BugWorld (BugReportStatus * option string) :=
  issue ← github false (issue_api repo issueNumber) JsUndefined;
  if says "closed" (js_get issue "state") then mret (if says "completed" (js_get issue "state_reason") then bs_resolved else bs_closed, None)
  else if negb (says "open" (js_get issue "state")) then eff_throw "GitHub reported the issue in another state"
  else
    timeline ← github false (issue_api repo issueNumber +:+ "/timeline?per_page=100") JsUndefined;
    match timeline with
    | JsArr events =>
        match head (rev (omap (referenced repo) events)) with
        | Some url => mret (bs_pr_open, Some url)
        | None => mret (if is_in_progress issue then bs_in_progress else bs_open, None)
        end
    | _ => eff_throw "GitHub's timeline is not a list"
    end.

(** ** The hourly run *)

Record BugReportRun : Type := mkRun { br_filed : Z; br_matched : Z; br_linked : Z; br_refreshed : Z }.

Definition is_open_status (s : BugReportStatus) : bool := bool_decide (s ∈ [bs_open; bs_in_progress; bs_pr_open]).
(** [MIN]: NULLs are passed over. *)
Definition min_text (l : list (option string)) : option string := head (js_sort by_code (omap id l)).
(** As texts: in_progress, open, pr_open. *)
Definition min_status (l : list BugReportStatus) : BugReportStatus :=
  if bool_decide (bs_in_progress ∈ l) then bs_in_progress else if bool_decide (bs_open ∈ l) then bs_open else bs_pr_open.
Definition of_number (n : Z) (r : BugReport) : bool := bg_issue_number r =? n.
Definition candidate_of (rows : list BugReport) (n : Z) : BugCandidate :=
  let l := List.filter (of_number n) rows in
  mkCandidate n (default ""%string (min_text (List.map (fun r => Some (bg_issue_url r)) l))) (min_text (List.map bg_title l)) (min_text (List.map bg_problem l))
    (min_text (List.map bg_image_version l)) (min_status (List.map bg_status l)) (min_text (List.map bg_pr_url l)).
Definition newest_of (rows : list BugReport) (n : Z) : Z := foldr Z.max 0 (List.map bg_created_at (List.filter (of_number n) rows)).
Definition issue_numbers (rows : list BugReport) : list Z := js_sort Z.sub (js_dedup (List.map bg_issue_number rows)).

Definition openCandidates (kind : string) (w : BugWorld) : list BugCandidate :=
  let rows := List.filter (fun r => String.eqb (bg_kind r) kind && is_open_status (bg_status r)) (bw_reports w) in
  take MAX_CANDIDATES (List.map (candidate_of rows) (js_sort (fun a b => newest_of rows b - newest_of rows a) (issue_numbers rows))).

Definition set_sent (signature : string) (m : ReportMatch) (i : WorkstationIssue) : WorkstationIssue := mkWorkstationIssue (wi_issue i) (wi_version i) rp_sent (Some signature) (Some m) (wi_log i).
Definition markSent (issueId signature : string) (m : ReportMatch) : eff BugWorld unit :=
  eff_write (on_bug_db (on_issues (List.map (fun i => if has_issue_id issueId i then set_sent signature m i else i)))).

Definition known_signature (signature : string) (w : BugWorld) : bool := existsb (fun r => String.eqb (bg_signature r) signature) (bw_reports w).
Definition insert_report (r : BugReport) : eff BugWorld unit :=
  eff_call (fun w => if known_signature (bg_signature r) w then Throws "D1_ERROR: UNIQUE constraint failed: bug_reports.signature" else Returns (on_bug_reports (fun l => l ++ [r]) w, tt)).

Definition checked_at (rows : list BugReport) (n : Z) : Z :=
  match List.map bg_status_checked_at (List.filter (of_number n) rows) with [] => 0 | x :: l => foldr Z.min x l end.
Definition due_numbers (w : BugWorld) : list Z := take MAX_STATUS_CHECKS_PER_RUN (js_sort (fun a b => checked_at (bw_reports w) a - checked_at (bw_reports w) b) (issue_numbers (bw_reports w))).
Definition set_status (status : BugReportStatus) (prUrl : option string) (now : Z) (r : BugReport) : BugReport :=
  mkBugReport (bg_signature r) (bg_kind r) (bg_image_version r) (bg_issue_number r) (bg_issue_url r) (bg_created_at r) (bg_title r) (bg_problem r) status (match prUrl with Some u => Some u | None => bg_pr_url r end) now.
Fixpoint refresh_loop (repo : string) (now : Z) (numbers : list Z) (refreshed : Z) : eff BugWorld Z :=
  match numbers with
  | [] => mret refreshed
  | n :: rest =>
      state ← eff_try (readIssueStatus repo n);
      match state with
      | None => mret refreshed
      | Some (status, prUrl) =>
          _ ← eff_write (on_bug_reports (List.map (fun r => if of_number n r then set_status status prUrl now r else r)));
          refresh_loop repo now rest (refreshed + 1)
      end
  end.
Definition refreshStatuses (repo : string) (now : Z) : eff BugWorld Z := due ← eff_read due_numbers; refresh_loop repo now due 0.

(** The problems of organizations opted in under the current terms, oldest first. *)
Definition opted_in (o : BugColumns) : bool := bo_enabled o && bool_decide (bo_terms_version o = Some BUG_REPORT_TERMS_VERSION).
Definition reportable (db : IssueDb) (i : WorkstationIssue) : bool :=
  bool_decide (wi_state i = rp_pending) && existsb (fun o => is_org (i_tenant_id (wi_issue i)) o && opted_in o) (id_orgs db).
Definition pending_issues (w : BugWorld) : list WorkstationIssue :=
  take MAX_ISSUES_PER_RUN (js_sort (fun a b => i_created_at (wi_issue a) - i_created_at (wi_issue b)) (List.filter (reportable (bw_db w)) (id_issues (bw_db w)))).

Context `{WebCrypto}.

Definition bugSignature (kind : string) (imageVersion : option string) (redacted : string) : string := sha256Hex (kind +:+ LF +:+ default ""%string imageVersion +:+ LF +:+ redacted).
(** What of a problem may leave the platform. *)
Definition facts_of (i : WorkstationIssue) : BugFacts :=
  let problem := redactProblemText (i_details (wi_issue i)) in
  mkFacts (i_kind (wi_issue i)) (wi_version i) problem (bugSignature (i_kind (wi_issue i)) (wi_version i) problem).

Definition variant_body (facts : BugFacts) : jsval := JsObj [("body"%string, JsStr (variantComment facts))].
Definition file_variant (repo : string) (now : Z) (i : WorkstationIssue) (target : BugCandidate) : eff BugWorld unit :=
  let facts := facts_of i in
  _ ← github true (issue_api repo (bc_issue_number target) +:+ "/comments") (variant_body facts);
  _ ← insert_report (mkBugReport (bf_signature facts) (bf_kind facts) (bf_imageVersion facts) (bc_issue_number target) (bc_issue_url target) now (bc_title target) (Some (bf_problem facts)) (bc_status target) (bc_pr_url target) 0);
  markSent (i_id (wi_issue i)) (bf_signature facts) match_existing.
Definition file_new (repo : string) (now : Z) (i : WorkstationIssue) (draft : BugDraft) (by_ai : bool) : eff BugWorld unit :=
  let facts := facts_of i in
  issue ← createGithubIssue repo ("[Workstation] " +:+ bd_title draft) (issueBody facts draft by_ai);
  _ ← insert_report (mkBugReport (bf_signature facts) (bf_kind facts) (bf_imageVersion facts) (fi_number issue) (fi_url issue) now (Some (bd_title draft)) (Some (bf_problem facts)) bs_open None now);
  markSent (i_id (wi_issue i)) (bf_signature facts) match_new.

Definition count_filed (t : Triage) (run : BugReportRun) : BugReportRun :=
  match t with T_existing _ => mkRun (br_filed run) (br_matched run + 1) (br_linked run) (br_refreshed run) | T_new _ _ => mkRun (br_filed run + 1) (br_matched run) (br_linked run) (br_refreshed run) end.

Fixpoint report_loop (repo : string) (now : Z) (rows : list WorkstationIssue) (writes : nat) (run : BugReportRun) : eff BugWorld BugReportRun :=
  match rows with
  | [] => mret run
  | i :: rest =>
      let facts := facts_of i in
      known ← eff_read (known_signature (bf_signature facts));
      if known : bool then
        _ ← markSent (i_id (wi_issue i)) (bf_signature facts) match_existing;
        report_loop repo now rest writes (mkRun (br_filed run) (br_matched run) (br_linked run + 1) (br_refreshed run))
      else if (MAX_GITHUB_WRITES_PER_RUN <=? writes)%nat then mret run
      else
        candidates ← eff_read (openCandidates (bf_kind facts));
        triaged ← eff_try (triageWithAi facts candidates);
        match triaged, candidates with
        | None, _ :: _ => mret run
        | _, _ =>
            let triage := default (T_new (templateDraft facts) false) triaged in
            filed ← eff_try (match triage with T_existing target => file_variant repo now i target | T_new draft by_ai => file_new repo now i draft by_ai end);
            match filed with
            | None => mret run
            | Some _ => report_loop repo now rest (S writes) (count_filed triage run)
            end
        end
  end.

Definition processBugReports (env : BugEnv) (now : Z) : eff BugWorld BugReportRun :=
  match bugReportRepository env with
  | None => mret (mkRun 0 0 0 0)
  | Some repo =>
      rows ← eff_read pending_issues;
      run ← report_loop repo now rows 0 (mkRun 0 0 0 0);
      refreshed ← refreshStatuses repo now;
      mret (mkRun (br_filed run) (br_matched run) (br_linked run) refreshed)
  end.

(** ** Turning it on and off *)

Definition set_enabled (enabled : bool) (now : Z) (o : BugColumns) : BugColumns :=
  if enabled then mkBugColumns (bo_id o) true (Some BUG_REPORT_TERMS_VERSION) (Some now) else mkBugColumns (bo_id o) false (bo_terms_version o) (bo_terms_accepted_at o).
Definition drop_pending (tenantId : string) (i : WorkstationIssue) : WorkstationIssue :=
  if String.eqb (i_tenant_id (wi_issue i)) tenantId && bool_decide (wi_state i = rp_pending) then mkWorkstationIssue (wi_issue i) (wi_version i) rp_none (wi_signature i) (wi_match i) (wi_log i) else i.
(** One batch. *)
Definition setBugReportsEnabled (tenantId : string) (enabled : bool) (now : Z) (db : IssueDb) : IssueDb :=
  let db1 := on_orgs (List.map (fun o => if is_org tenantId o then set_enabled enabled now o else o)) db in
  if enabled then db1 else on_issues (List.map (drop_pending tenantId)) db1.

Record BugState : Type := mkBugState { bs_world : BugWorld; bs_accounts : AccountDb }.
Inductive BugAnswer : Type := BRefused (refusal : Guard.Refusal) | BSaved (enabled : bool).

Definition touched (now : Z) (t : Tenant) : Tenant :=
  mkTenant (t_id t) (t_user_id t) (t_name t) (t_subdomain t) (t_chosen_subdomain t) (t_status t) (t_mode t) (t_default_url t) (t_custom_domain t) (t_broadcast_url t)
    (t_broadcast_epoch t) (t_home_route t) (t_online_workstations t) (t_http_workstations t) (t_update_channel t) (t_lan_sharing t) (t_usage_sites t)
    (t_printing_enabled t) (t_home_reset t) (t_workstation_limit t) (t_license_plan t) (t_license_expires_at t) (t_trial_started_at t) now.
Definition touch_tenant (id : string) (now : Z) : AccountDb -> AccountDb := on_core (on_tenants (List.map (fun t => if String.eqb (t_id t) id then touched now t else t))).

(** Never reached: who has no session or no organization has no permission. *)
Definition NOT_SIGNED_IN : Guard.Refusal := Guard.mkRefusal "Authentication required" 401.

(** POST /api/settings/bug-reports; [body]: None where it is no JSON. *)
Definition handleBugSettings (env : BugEnv) (session : option Session) (tenant : option Tenant) (body : option jsval) (now : Z) (s : BugState) : BugState * BugAnswer :=
  match requireTenantPermission (TwoFactor.core (bs_accounts s)) session tenant "settings", session, tenant with
  | Some denied, _, _ => (s, BRefused denied)
  | None, Some who, Some t =>
      match body with
      | None => (s, BRefused (Guard.mkRefusal "The request body must be JSON" 400))
      | Some body =>
          match js_get body "enabled" with
          | JsBool enabled =>
              if enabled && negb (is_Some_b (bugReportRepository env)) then (s, BRefused (Guard.mkRefusal "Automatic bug reports are not set up on this platform" 409))
              else if enabled && negb (says BUG_REPORT_TERMS_VERSION (js_get body "acceptTerms")) then
                (s, BRefused (Guard.mkRefusal ("Accept the Automatic Bug Report Terms (version " +:+ BUG_REPORT_TERMS_VERSION +:+ ") to turn this on") 400))
              else
                (mkBugState (on_bug_db (setBugReportsEnabled (t_id t) enabled now) (bs_world s))
                   (writeAuditLog (mkAudit (Some (t_id t)) (user_id who) "settings.bug_reports" (Some (if enabled then "on, terms " +:+ BUG_REPORT_TERMS_VERSION +:+ " accepted" else "off"%string)))
                      (touch_tenant (t_id t) now (bs_accounts s))), BSaved enabled)
          | _ => (s, BRefused (Guard.mkRefusal "enabled must be true or false" 400))
          end
      end
  | None, _, _ => (s, BRefused NOT_SIGNED_IN)
  end.

(** ** The list of problems *)

Record ListedIssue : Type := mkListed { li_issue : WorkstationIssue; li_has_log : bool; li_report : option BugReport }.
Definition newest_issue (a b : WorkstationIssue) : Z :=
  let d := i_created_at (wi_issue b) - i_created_at (wi_issue a) in if d =? 0 then i_occurred_at (wi_issue b) - i_occurred_at (wi_issue a) else d.
(** [limit]: the whole part of a finite number. *)
Definition listed_limit (limit : Z) : nat := Z.to_nat (Z.min (Z.max (if limit =? 0 then 1 else limit) 1) MAX_ISSUES_LISTED).
Definition listWorkstationIssues (w : BugWorld) (tenantId : string) (limit : Z) : list ListedIssue :=
  List.map (fun i => mkListed i (is_Some_b (wi_log i)) (wi_signature i ≫= fun sig => js_find (fun r => String.eqb (bg_signature r) sig) (bw_reports w)))
    (take (listed_limit limit) (js_sort newest_issue (List.filter (fun i => String.eqb (i_tenant_id (wi_issue i)) tenantId) (id_issues (bw_db w))))).

Record BugSettings : Type := mkBugSettings { st_enabled : bool; st_available : bool; st_repository : option string; st_termsVersion : string; st_acceptedTermsVersion : option string; st_termsAcceptedAt : option Z }.
Definition bug_settings (env : BugEnv) (w : BugWorld) (tenantId : string) : BugSettings :=
  let o := js_find (is_org tenantId) (id_orgs (bw_db w)) in
  mkBugSettings (match o with Some o => bo_enabled o | None => false end) (is_Some_b (bugReportRepository env)) (bugReportRepository env) BUG_REPORT_TERMS_VERSION (o ≫= bo_terms_version) (o ≫= bo_terms_accepted_at).

Definition ISSUE_ID : re := RBetween 1 64 (RClass (fun c => is_digit c || is_upper c || is_lower c || is_char "-" c)).

(** GET /api/workstation-issues; [limit]: the parameter as it is read. *)
Definition getIssues (env : BugEnv) (session : option Session) (tenant : option Tenant) (limit : option string) (s : BugState) : (list ListedIssue * BugSettings) + Guard.Refusal :=
  match requireTenantPermission (TwoFactor.core (bs_accounts s)) session tenant "settings", tenant with
  | Some denied, _ => inr denied
  | None, None => inr NOT_SIGNED_IN
  | None, Some t =>
      let n := match string_number (default "100"%string (limit ≫= nonempty)) with Some (NInt z) | Some (NFrac z) => z | None => 100 end in
      inl (listWorkstationIssues (bs_world s) (t_id t) n, bug_settings env (bs_world s) (t_id t))
  end.

(** GET /api/workstation-issues/log. *)
Definition getIssueLog (session : option Session) (tenant : option Tenant) (id : string) (s : BugState) : option string + Guard.Refusal :=
  match requireTenantPermission (TwoFactor.core (bs_accounts s)) session tenant "settings", tenant with
  | Some denied, _ => inr denied
  | None, None => inr NOT_SIGNED_IN
  | None, Some t =>
      if negb (re_test ISSUE_ID id) then inr (Guard.mkRefusal "id is not an issue id" 400)
      else match getWorkstationIssueLog (bw_db (bs_world s)) (t_id t) id with None => inr (Guard.mkRefusal "No such issue" 404) | Some log => inl log end
  end.

(** ** Runs *)

Inductive BugEvent : Type :=
| BE_report (e : IssueEvent) (now : Z)
| BE_settings (session : option Session) (tenant : option Tenant) (body : option jsval) (now : Z)
| BE_cron (outcomes : list Outcome) (now : Z).

Variable env : BugEnv.

Definition bug_step (s : BugState) (e : BugEvent) : BugState :=
  match e with
  | BE_report e now => mkBugState (on_bug_db (issue_step e now) (bs_world s)) (bs_accounts s)
  | BE_settings session tenant body now => fst (handleBugSettings env session tenant body now s)
  | BE_cron outcomes now => mkBugState (fst (fst (processBugReports env now outcomes (bs_world s)))) (bs_accounts s)
  end.
Definition bug_run (events : list BugEvent) (s : BugState) : BugState := foldl bug_step s events.


(** ** What leaves the platform *)

(** What may be said of a problem: its kind, its version and its masked text. *)
Definition masked_facts (i : WorkstationIssue) : BugFacts :=
  mkFacts (i_kind (wi_issue i)) (wi_version i) (redactProblemText (i_details (wi_issue i)))
    (sha256Hex (i_kind (wi_issue i) +:+ LF +:+ default ""%string (wi_version i) +:+ LF +:+ redactProblemText (i_details (wi_issue i)))).

(** A draft with the title and the summary of an answer the model gave to a question. *)
Definition wrote (question : jsval) (draft : BugDraft) : Prop :=
  exists w answer text v title summary, ai_run w question = Returns answer /\ modelText answer = Returns text /\ parseModelJson text = Returns v /\
    js_get v "title" = JsStr title /\ js_get v "summary" = JsStr summary /\ draft = mkDraft (cleanTitle title) (str_take MAX_SUMMARY_LENGTH (trim summary)).

Section Leaving.
(** The problems that may be spoken of, and the repository. *)
Variable P : WorkstationIssue -> Prop.
Variable repo : string.

















Definition triaged (i : WorkstationIssue) (candidates : list BugCandidate) (t : Triage) : Prop :=
  match t with T_existing c => c ∈ candidates | T_new draft by_ai => by_ai = true /\ wrote (ai_request (masked_facts i) candidates) draft end.









End Leaving.

(** Whatever is said, a run leaves the organizations as they are and starts no problem waiting. *)
Definition tables_hold (w w' : BugWorld) : Prop :=
  id_orgs (bw_db w') = id_orgs (bw_db w) /\ forall j, j ∈ id_issues (bw_db w') -> wi_state j = rp_pending -> j ∈ id_issues (bw_db w).
#[local] Instance tables_hold_order : PreOrder tables_hold.
Proof. split; [by split|]. intros w1 w2 w3 [O1 I1] [O2 I2]. split; [congruence|auto]. Qed.










(** ** Who agreed *)










Definition db_of (s : BugState) : IssueDb := bw_db (bs_world s).











End Texts.

(** ** Examples *)

#[local] Existing Instance bytes_crypto.
Definition bug_env : BugEnv := mkBugEnv true (Some "token"%string) (Some "acme/kiosk"%string).
Definition bug_tenant : Tenant := mkTenant "acme" "u1" "Acme" "acme" None active portal "" None None 0 None 0 0 stable 0 1 0 0 10 None None None 0.
Definition bug_owner : Session := mkSession "tok" "u1" (Some "acme"%string) org_admin 10000.
Definition bug_accounts : AccountDb := mkAccounts (on_tenants (fun _ => [bug_tenant]) empty_db) [] [] [] [] [] [] [].
Definition bug_start : BugState := mkBugState (mkBugWorld (mkIssueDb lab_devices lab_orgs []) [] [] [] 0) bug_accounts.

(** A model that is away, and a GitHub that takes every report as its issue 7. *)
Definition away (w : BugWorld) (q : jsval) : js_result jsval := Throws "no model".
Definition takes_all (w : BugWorld) (method url : string) : Z * js_result jsval :=
  (if String.eqb method "POST" then 201 else 200, Returns (JsObj [("number", JsInt 7); ("html_url", JsStr "https://github.com/acme/kiosk/issues/7"); ("state", JsStr "closed"); ("state_reason", JsStr "completed")]%string)).
Definition demo_bug_run := bug_run (chr 200) (fun _ => "{}"%string) (fun _ => Throws "no JSON") away takes_all bug_env.
Definition yes_body : option jsval := Some (JsObj [("enabled", JsBool true); ("acceptTerms", JsStr BUG_REPORT_TERMS_VERSION)]%string).
Definition no_body : option jsval := Some (JsObj [("enabled", JsBool false)]%string).
Definition boot_event (at_ : Z) (id : string) : BugEvent := BE_report (IE_boot (inl (lab_token "pc-1")) (failed_boot at_) id) (at_ + 10).
Definition settings_event (body : option jsval) (now : Z) : BugEvent := BE_settings (Some bug_owner) (Some bug_tenant) body now.

(** The first problem is listed before the organization agrees and is never reported;
    the second is; the third waits when the organization withdraws. *)
Definition bug_history : list BugEvent := [boot_event 1000 "i1"; settings_event yes_body 1020; boot_event 1100 "i2"; BE_cron [] 1200; boot_event 1300 "i3"; settings_event no_body 1400; settings_event yes_body 1500; BE_cron [] 1600].

Example history_sent :
  let s := demo_bug_run bug_history bug_start in
  length (bw_posts (bs_world s)) = 1%nat /\
  List.map (fun i => (i_id (wi_issue i), wi_state i)) (id_issues (db_of s)) = [("i1", rp_none); ("i2", rp_sent); ("i3", rp_none)]%string /\
  List.map bg_status (bw_reports (bs_world s)) = [bs_resolved] /\
  List.map au_action (audit_log (bs_accounts s)) = ["settings.bug_reports"; "settings.bug_reports"; "settings.bug_reports"]%string.
Proof. vm_compute. done. Qed.

