(* ===== verification/Markdown.v ===== *)
(** src/cloudflare-control/src/markdown.ts: the pages of the documentation, from
    Markdown to HTML.

    Where a link leads is an argument ([LinkResolver]). The loops over the lines of a
    page take as many steps as it has lines; [None] would say that they did not
    suffice. *)
From S2P Require Import Prelude JsString Regex Scan Platform Escape.

Record MarkdownHeading : Type := mkHeading { mh_level : nat; mh_id : string; mh_text : string }.
Record Link : Type := mkLink { lk_href : string; lk_external : bool }.
Definition LinkResolver : Type := string -> option Link.

Definition BACKTICK : ascii := "`".
Definition headingId (text : string) : string :=
  str_map (fun c => if is_char " " c then "-"%char else c) (str_filter (fun c => is_lower c || is_digit c || is_char "-" c || is_char "_" c || is_char " " c) (toLowerCase text)).

(** ** A line *)

Definition tag (name body : string) : string := "<" +:+ name +:+ ">" +:+ body +:+ "</" +:+ name +:+ ">".

(** At a star of the escaped text: what it opens, and where that ends. *)
Definition starred : matcher := fun s =>
  if startsWith s "**" then
    match str_index "**" (str_drop 2 s) with
    | Some (S k) => Some (tag "strong" (str_take (S k) (str_drop 2 s)), str_drop (S k + 4) s)
    | _ => None
    end
  else
    match s with
    | String c (String d t) =>
        if is_char "*" c && negb (is_char " " d) then
          match str_index "*" (String d t) with
          | Some (S k) => if match str_drop k (String d t) with String e _ => is_char " " e | ""%string => false end then None else Some (tag "em" (str_take (S k) (String d t)), str_drop (S k + 2) s)
          | _ => None
          end
        else None
    | _ => None
    end.
Definition emphasis (text : string) : string := replace_all starred (escapeHtml text).

(** The quotes of an attribute. *)
Definition quoted (s : string) : string := quote_mark +:+ s +:+ quote_mark.
Definition anchor (link : Link) : string :=
  "<a href=" +:+ quoted (escapeHtml (lk_href link)) +:+ (if lk_external link then " target=" +:+ quoted "_blank" +:+ " rel=" +:+ quoted "noopener noreferrer" else ""%string) +:+ ">".

Section Render.
Variable resolveLink : LinkResolver.

Fixpoint link_steps (n : nat) (rest : string) : string :=
  match n with
  | O => emphasis rest
  | S n' =>
      match str_index "[" rest with
      | None => emphasis rest
      | Some open =>
          match str_index "](" (str_drop open rest) with
          | None => emphasis rest
          | Some k =>
              let label := str_take (k - 1) (str_drop (S open) rest) in
              match str_index ")" (str_drop (open + k) rest) with
              | None => emphasis rest
              | Some j =>
                  if has_char LF_ label then emphasis rest
                  else
                    let target := trim (str_take (j - 2) (str_drop (open + k + 2) rest)) in
                    let link := if negb (String.eqb target "") && negb (str_existsb is_space target) then resolveLink target else None in
                    emphasis (str_take open rest) +:+ match link with Some l => anchor l +:+ emphasis label +:+ "</a>" | None => emphasis label end +:+
                    link_steps n' (str_drop (open + k + j + 1) rest)
              end
          end
      end
  end.
Definition inlineText (text : string) : string := link_steps (S (String.length text)) text.

(** The parts between backticks; with an odd number of them, the last opens nothing. *)
Fixpoint join_tail (parts : list string) : list string :=
  match parts with [a; b] => [a +:+ String BACKTICK b] | p :: rest => p :: join_tail rest | [] => [] end.
Fixpoint format_parts (code_span : bool) (parts : list string) : string :=
  match parts with [] => ""%string | p :: rest => (if code_span then tag "code" (escapeHtml p) else inlineText p) +:+ format_parts (negb code_span) rest end.
Definition inline (text : string) : string :=
  let parts := split_on BACKTICK text in
  format_parts false (if Nat.even (length parts) then join_tail parts else parts).

(** ** Tables and lists *)

Definition BACKSLASH : ascii := "\".
Fixpoint cell_loop (s cell : string) (inCode : bool) : list string :=
  match s with
  | ""%string => [trim cell]
  | String c t =>
      let inCode := if is_char BACKTICK c then negb inCode else inCode in
      match t with
      | String d u =>
          if is_char BACKSLASH c && is_char "|" d then cell_loop u (cell +:+ "|") inCode
          else if is_char "|" c && negb inCode then trim cell :: cell_loop t "" inCode
          else cell_loop t (cell +:+ String c "") inCode
      | ""%string => if is_char "|" c && negb inCode then trim cell :: cell_loop t "" inCode else cell_loop t (cell +:+ String c "") inCode
      end
  end.
Definition tableCells (line : string) : list string :=
  let row := trim line in
  let row := if startsWith row "|" then str_drop 1 row else row in
  let row := if endsWith row "|" && negb (endsWith row (String BACKSLASH "|")) then str_take (String.length row - 1) row else row in
  cell_loop row "" false.

Definition isTableRule (line : string) : bool :=
  has_char "-" line && forallb (fun c => negb (String.eqb c "") && str_forallb (fun ch => is_char "-" ch || is_char ":" ch || is_char " " ch) c) (tableCells line).

Record ListMarker : Type := mkMarker { lm_indent : nat; lm_ordered : bool; lm_text : string }.
Definition listMarker (line : string) : option ListMarker :=
  let body := trimStart line in
  let indent := (String.length line - String.length body)%nat in
  if (startsWith body "- " || startsWith body "* ") && (2 <? String.length body)%nat then Some (mkMarker indent false (str_drop 2 body))
  else
    let digits := String.length (fst (span is_digit body)) in
    if (0 <? digits)%nat && (digits <? 4)%nat && startsWith (str_drop digits body) ". " then Some (mkMarker indent true (str_drop (digits + 2) body)) else None.

Definition is_blank (line : string) : bool := String.eqb (trim line) "".
Definition is_fence (line : string) : bool := startsWith line "```".
Definition isBlockStart (line : string) : bool :=
  startsWith line "#" || is_fence line || startsWith line ">" || String.eqb (trim line) "---" || is_Some_b (listMarker line) || startsWith (trim line) "|".

(** The patterns of a replacement text, where the match is the closing tag at the end of [before]. *)
Definition LI_END : string := "</li>".
Fixpoint expand (before : string) (s : string) : string :=
  match s with
  | ""%string => ""%string
  | String c t =>
      match t with
      | String d u =>
          if is_char "$" c then
            if is_char "$" d then String c (expand before u)
            else if is_char "&" d then LI_END +:+ expand before u
            else if is_char BACKTICK d then before +:+ expand before u
            else if code d =? 39 then expand before u
            else String c (expand before t)
          else String c (expand before t)
      | ""%string => s
      end
  end.
(** [item.replace(/<\/li>$/, text)]. *)
Definition replace_end (item text : string) : string :=
  if endsWith item LI_END then let before := str_take (String.length item - 5) item in before +:+ expand before text else item.
Definition continue_last (nested : list string) (text : string) : list string :=
  match rev nested with l :: before => rev before ++ [replace_end l (" " +:+ inline text +:+ LI_END)] | [] => [] end.

(** The lines that belong to an item: its text, its nested items and their tag, and the lines left. *)
Fixpoint item_lines (indent : nat) (lines : list string) (text : string) (nested : list string) (nestedTag : string) : string * list string * string * list string :=
  match lines with
  | [] => (text, nested, nestedTag, [])
  | line :: rest =>
      if negb (is_blank line) && startsWith line " " then
        match listMarker line with
        | Some inner =>
            if (S indent <? lm_indent inner)%nat then item_lines indent rest text (nested ++ [tag "li" (inline (lm_text inner))]) (if lm_ordered inner then "ol" else "ul")%string
            else (text, nested, nestedTag, lines)
        | None =>
            if is_fence (trim line) then (text, nested, nestedTag, lines)
            else match nested with
                 | [] => item_lines indent rest (text +:+ " " +:+ trim line) nested nestedTag
                 | _ => item_lines indent rest text (continue_last nested (trim line)) nestedTag
                 end
        end
      else (text, nested, nestedTag, lines)
  end.

(** A blank line between items of the same list does not end it. *)
Definition skip_blank (first : ListMarker) (lines : list string) : list string :=
  match lines with
  | blank :: ((next :: _) as rest) =>
      if is_blank blank && match listMarker next with Some m => (lm_indent m =? lm_indent first)%nat && Bool.eqb (lm_ordered m) (lm_ordered first) | None => false end then rest else lines
  | _ => lines
  end.

Fixpoint list_steps (n : nat) (first : ListMarker) (lines : list string) : option (string * list string) :=
  match lines with
  | [] => Some (""%string, [])
  | line :: rest =>
      match listMarker line with
      | None => Some (""%string, lines)
      | Some marker =>
          if (S (lm_indent first) <? lm_indent marker)%nat then Some (""%string, lines)
          else
            match n with
            | O => None
            | S n' =>
                let '(text, nested, nestedTag, after_item) := item_lines (lm_indent first) rest (lm_text marker) [] "ul" in
                '(items, after_list) ← list_steps n' first (skip_blank first after_item);
                Some (tag "li" (inline text +:+ match nested with [] => ""%string | _ => tag nestedTag (join "" nested) end) +:+ items, after_list)
            end
      end
  end.

(** ** A page *)

(** The lines that a condition holds of at the start, and the rest. *)
Fixpoint span_lines (p : string -> bool) (lines : list string) : list string * list string :=
  match lines with [] => ([], []) | l :: rest => if p l then let '(a, b) := span_lines p rest in (l :: a, b) else ([], lines) end.

Record Page : Type := mkPage { pg_out : list string; pg_headings : list MarkdownHeading; pg_used : list (string * nat) }.
Definition block (html : string) (p : Page) : Page := mkPage (pg_out p ++ [html]) (pg_headings p) (pg_used p).

Definition hashes (line : string) : nat := String.length (fst (span (is_char "#") line)).
Definition is_heading (line : string) : bool :=
  let level := hashes line in (1 <=? level)%nat && (level <=? 6)%nat && startsWith (str_drop level line) " ".
Definition level_text (n : nat) : string := string_of_int (Z.of_nat n).
Definition not_formatting (c : ascii) : bool := negb (is_char BACKTICK c || is_char "*" c).
Definition set_used (id : string) (n : nat) (used : list (string * nat)) : list (string * nat) := (id, n) :: used.

Definition heading (line : string) (p : Page) : Page :=
  let level := hashes line in
  let text := trim (str_drop (S level) line) in
  let plain := str_filter not_formatting text in
  let id := let id := headingId plain in if String.eqb id "" then "section"%string else id in
  let seen := default O (assoc id (pg_used p)) in
  let used := set_used id (S seen) (pg_used p) in
  let id := match seen with O => id | _ => id +:+ "-" +:+ level_text seen end in
  mkPage (pg_out p ++ ["<h" +:+ level_text level +:+ " id=" +:+ quoted (escapeHtml id) +:+ ">" +:+ inline text +:+ "</h" +:+ level_text level +:+ ">"]) (pg_headings p ++ [mkHeading level id plain]) used.

Definition table_html (header : list string) (rows : list (list string)) : string :=
  "<div class=" +:+ quoted "docs-table" +:+ "><table><thead><tr>" +:+ join "" (List.map (fun c => tag "th" (inline c)) header) +:+ "</tr></thead><tbody>" +:+
  join "" (List.map (fun row => tag "tr" (join "" (imap (fun col _ => tag "td" (inline (default ""%string (row !! col)))) header))) rows) +:+ "</tbody></table></div>".

Fixpoint page_steps (n : nat) (lines : list string) (p : Page) : option Page :=
  match lines with
  | [] => Some p
  | line :: rest =>
      match n with
      | O => None
      | S n' =>
          if is_blank line then page_steps n' rest p
          else if is_fence line then
            let '(code_lines, rest) := span_lines (fun l => negb (is_fence l)) rest in
            page_steps n' (tail rest) (block ("<pre><code>" +:+ escapeHtml (join (String LF_ "") code_lines) +:+ "</code></pre>") p)
          else if is_heading line then page_steps n' rest (heading line p)
          else if String.eqb (trim line) "---" then page_steps n' rest (block "<hr>" p)
          else if startsWith (trim line) "|" && match rest with rule :: _ => isTableRule rule | [] => false end then
            let '(rows, rest) := span_lines (fun l => startsWith (trim l) "|") (tail rest) in
            page_steps n' rest (block (table_html (tableCells line) (List.map tableCells rows)) p)
          else if startsWith line ">" then
            let '(quote_lines, rest) := span_lines (fun l => startsWith l ">") lines in
            page_steps n' rest (block (tag "blockquote" (join "" (List.map (fun q => tag "p" (inline q)) (List.filter (fun q => negb (String.eqb q "")) (List.map (fun l => trim (str_drop 1 l)) quote_lines))))) p)
          else
            match listMarker line with
            | Some first =>
                '(items, rest) ← list_steps (length lines) first lines;
                page_steps n' rest (block (tag (if lm_ordered first then "ol" else "ul") items) p)
            | None =>
                let '(paragraph, rest) := span_lines (fun l => negb (is_blank l) && negb (isBlockStart l)) rest in
                page_steps n' rest (block (tag "p" (inline (join " " (trim line :: List.map trim paragraph)))) p)
            end
      end
  end.

(** [.replace(/\r\n/g, "\n").split("\n")]. *)
Definition crlf : matcher := fun s => match s with String c (String d t) => if is_char CR c && is_char LF_ d then Some (String LF_ "", t) else None | _ => None end.
Definition source_lines (markdown : string) : list string := split_on LF_ (replace_all crlf markdown).
Record RenderedMarkdown : Type := mkRendered { rm_html : string; rm_headings : list MarkdownHeading }.
Definition renderMarkdown (markdown : string) : option RenderedMarkdown :=
  let lines := source_lines markdown in
  p ← page_steps (length lines) lines (mkPage [] [] []);
  Some (mkRendered (join (String LF_ "") (pg_out p)) (pg_headings p)).

(** ** What a page may hold *)

Definition open_tag (name : string) : string := "<" +:+ name +:+ ">".
Definition close_tag (name : string) : string := "</" +:+ name +:+ ">".
Definition TAG_NAMES : list string := ["strong"; "em"; "code"; "pre"; "p"; "li"; "ul"; "ol"; "blockquote"; "table"; "thead"; "tbody"; "tr"; "th"; "td"]%string.
Definition STATIC_TAGS : list string :=
  List.map open_tag TAG_NAMES ++ List.map close_tag (["a"; "div"; "h1"; "h2"; "h3"; "h4"; "h5"; "h6"]%string ++ TAG_NAMES) ++ ["<hr>"; "<div class=" +:+ quoted "docs-table" +:+ ">"]%string.
Definition is_id_char (c : ascii) : bool := is_lower c || is_digit c || is_char "-" c || is_char "_" c.
Definition heading_tag (level : nat) (id : string) : string := "<h" +:+ level_text level +:+ " id=" +:+ quoted id +:+ ">".

(** A tag the renderer writes: one of a fixed list, a heading with its id, or a link to an address the resolver gave. *)
Definition safe_tag (t : string) : Prop :=
  t ∈ STATIC_TAGS \/ (exists level id, (1 <= level <= 6)%nat /\ str_forallb is_id_char id = true /\ t = heading_tag level id) \/ (exists target link, resolveLink target = Some link /\ t = anchor link).

(** Such tags, and characters that are no markup. *)
Inductive inert : string -> Prop :=
| inert_nil : inert ""
| inert_char c s : is_markup c = false -> inert s -> inert (String c s)
| inert_tag t s : safe_tag t -> inert s -> inert (t +:+ s).

Lemma inert_app a b : inert a -> inert b -> inert (a +:+ b).
Proof. induction 1 as [|c s Hc Hs IH|t s Ht Hs IH]; intros Hb; [done|cbn; constructor; [done|by apply IH]|]. rewrite str_app_assoc. apply inert_tag; [done|by apply IH]. Qed.

Lemma inert_static t : t ∈ STATIC_TAGS -> inert t.
Proof. intros Ht. rewrite <- (str_app_nil_r t). apply inert_tag; [by left|constructor]. Qed.

Lemma inert_text s : str_forallb (fun d => negb (is_markup d)) s = true -> inert s.
Proof. induction s as [|c s IH]; [constructor|]. cbn. intros [Hc%negb_true_iff Hs]%andb_true_iff. constructor; [done|by apply IH]. Qed.

Lemma inert_wrap name body : name ∈ TAG_NAMES -> inert body -> inert (tag name body).
Proof.
  intros Hn Hb. unfold tag. replace ("<" +:+ name +:+ ">" +:+ body +:+ "</" +:+ name +:+ ">") with (open_tag name +:+ body +:+ close_tag name) by (unfold open_tag, close_tag; by rewrite !str_app_assoc).
  apply inert_app; [|apply inert_app; [done|]]; apply inert_static; unfold STATIC_TAGS; apply elem_of_app; [left|right; apply elem_of_app; left]; apply list_elem_of_In, List.in_map, list_elem_of_In; [done|apply elem_of_app; by right].
Qed.

Lemma inert_join sep l : inert sep -> Forall inert l -> inert (join sep l).
Proof. intros Hs. induction 1 as [|x l Hx Hl IH]; [constructor|]. destruct l as [|y l]; [done|]. change (join sep (x :: y :: l)) with (x +:+ sep +:+ join sep (y :: l)). by apply inert_app; [|apply inert_app]. Qed.

Lemma chars_dropped p n s : str_forallb p s = true -> str_forallb p (str_drop n s) = true.
Proof. intros Hs. rewrite <- (str_take_drop n s), str_forallb_app in Hs. by apply andb_true_iff in Hs as [_ ?]. Qed.
Lemma chars_taken p n s : str_forallb p s = true -> str_forallb p (str_take n s) = true.
Proof. intros Hs. rewrite <- (str_take_drop n s), str_forallb_app in Hs. by apply andb_true_iff in Hs as [? _]. Qed.

Ltac known_tag := apply (bool_decide_unpack _); vm_compute; reflexivity.

Lemma starred_inert s r rest : str_forallb (fun d => negb (is_markup d)) s = true -> starred s = Some (r, rest) -> inert r /\ str_forallb (fun d => negb (is_markup d)) rest = true.
Proof.
  intros Hs. unfold starred. destruct (startsWith s "**").
  - destruct (str_index "**" (str_drop 2 s)) as [[|k]|]; [done| |done]. intros [= <- <-]. split; [|by apply (chars_dropped _ (S k + 4) s)]. apply inert_wrap; [known_tag|]. by apply inert_text, (chars_taken _ (S k)), (chars_dropped _ 2 s).
  - destruct s as [|c [|d t]]; [done..|]. destruct (_ && _); [|done]. destruct (str_index "*" (String d t)) as [[|k]|]; [done| |done]. destruct (match _ with String _ _ => _ | _ => _ end); [done|]. intros [= <- <-]. split; [|by apply (chars_dropped _ (S k + 2) (String c (String d t)))].
    apply inert_wrap; [known_tag|]. apply inert_text, (chars_taken _ (S k) (String d t)), (chars_dropped _ 1 (String c (String d t))), Hs.
Qed.

Lemma emphasis_inert text : inert (emphasis text).
Proof.
  unfold emphasis, replace_all. pose proof (escapeHtml_no_markup text) as Hs. generalize (String.length (escapeHtml text)). revert Hs. generalize (escapeHtml text). intros s Hs n. revert s Hs.
  induction n as [|n IH]; intros s Hs; [by apply inert_text|]. destruct s as [|c t]; [constructor|]. cbn [replace_steps]. destruct (starred (String c t)) as [[r rest]|] eqn:E.
  - destruct (starred_inert _ _ _ Hs E) as [Hr Hrest]. apply inert_app; [done|by apply IH].
  - cbn in Hs. apply andb_true_iff in Hs as [Hc%negb_true_iff Ht]. constructor; [done|by apply IH].
Qed.

Lemma links_inert n : forall rest, inert (link_steps n rest).
Proof.
  induction n as [|n IH]; intros rest; cbn [link_steps]; [apply emphasis_inert|]. destruct (str_index "[" rest) as [open|]; [|apply emphasis_inert]. destruct (str_index "](" _) as [k|]; [|apply emphasis_inert].
  destruct (str_index ")" _) as [j|]; [|apply emphasis_inert]. destruct (has_char _ _); [apply emphasis_inert|]. apply inert_app; [apply emphasis_inert|]. apply inert_app; [|apply IH].
  set (target := trim _). destruct (negb (String.eqb target "") && negb (str_existsb is_space target)); [|apply emphasis_inert]. destruct (resolveLink target) as [l|] eqn:E; [|apply emphasis_inert].
  apply inert_tag; [right; right; by exists target, l|]. apply inert_app; [apply emphasis_inert|apply inert_static; known_tag].
Qed.

Lemma inline_inert text : inert (inline text).
Proof.
  unfold inline. generalize (if Nat.even (length (split_on BACKTICK text)) then join_tail (split_on BACKTICK text) else split_on BACKTICK text). generalize false. intros b parts. revert b.
  induction parts as [|p parts IH]; intros b; cbn [format_parts]; [constructor|]. apply inert_app; [|apply IH]. destruct b; [apply inert_wrap; [known_tag|apply inert_text, escapeHtml_no_markup]|apply links_inert].
Qed.

(** ** Nested items *)

Hypothesis no_dollar : forall target link, resolveLink target = Some link -> has_char "$" (lk_href link) = false.

Lemma escape_no_dollar s : has_char "$" s = false -> has_char "$" (escapeHtml s) = false.
Proof.
  induction s as [|c s IH]; [done|]. cbn [escapeHtml]. change (has_char "$" (String c s)) with (is_char "$" c || has_char "$" s). intros [Hc Hs]%orb_false_iff. rewrite has_char_app, (IH Hs), orb_false_r.
  unfold html_entity. repeat case_match; try reflexivity. cbn [default]. unfold has_char. cbn. by rewrite Hc.
Qed.

Lemma int_no_dollar n : has_char "$" (level_text n) = false.
Proof. apply int_has_no; [done|lia]. Qed.

Lemma id_no_dollar id : str_forallb is_id_char id = true -> has_char "$" id = false.
Proof. apply has_char_absent. intros d. unfold is_id_char, is_char, is_lower, is_digit. destruct (Ascii.eqb_spec d "$"); [subst d; by vm_compute|done]. Qed.

Lemma tag_no_dollar t : safe_tag t -> has_char "$" t = false /\ exists r, t = String "<" r.
Proof.
  intros [Ht|[(level & id & _ & Hid & ->)|(target & link & Hl & ->)]].
  - assert (Hall : forallb (fun t => negb (has_char "$" t) && startsWith t "<") STATIC_TAGS = true) by (vm_compute; reflexivity). apply forallb_elem with (x := t) in Hall; [|done].
    apply andb_true_iff in Hall as [Hd%negb_true_iff Hs]. split; [done|]. destruct t as [|c r]; [done|]. cbn in Hs. destruct (Ascii.eqb_spec c "<") as [->|]; [by exists r|]. by destruct r.
  - split; [|by eexists]. unfold heading_tag, quoted. rewrite !has_char_app, int_no_dollar, (id_no_dollar id Hid). reflexivity.
  - split; [|by eexists]. unfold anchor, quoted. rewrite !has_char_app, (escape_no_dollar _ (no_dollar _ _ Hl)). destruct (lk_external link); reflexivity.
Qed.

Lemma inert_first d u : inert (String d u) -> d = "<"%char \/ (is_markup d = false /\ inert u).
Proof.
  remember (String d u) as s eqn:Es. intros Hs. revert d u Es. induction Hs as [|c s Hc Hs IH|t s Ht Hs IH]; intros d u Es; [done| |].
  - injection Es as -> ->. by right.
  - destruct (tag_no_dollar t Ht) as [_ [r ->]]. cbn in Es. injection Es as <- _. by left.
Qed.

Lemma expand_tag before t s : has_char "$" t = false -> expand before (t +:+ s) = t +:+ expand before s.
Proof.
  induction t as [|c t IH]; [done|]. change (has_char "$" (String c t)) with (is_char "$" c || has_char "$" t). intros [Hc Ht]%orb_false_iff. cbn [String.append expand]. rewrite Hc.
  specialize (IH Ht). destruct (t +:+ s) as [|d u] eqn:E; [|by rewrite IH]. destruct t; [cbn in E; subst s; done|done].
Qed.

Lemma expand_inert before : inert before -> forall n s, (String.length s <= n)%nat -> inert s -> inert (expand before s).
Proof.
  intros Hb. induction n as [|n IH]; intros s Hn Hs; [destruct s; [constructor|cbn in Hn; lia]|]. destruct Hs as [|c s Hc Hs|t s Ht Hs]; [constructor| |].
  - cbn in Hn. cbn [expand]. destruct s as [|d u]; [by repeat constructor|]. assert (Hrest : inert (String c (expand before (String d u)))) by (constructor; [done|apply IH; [lia|done]]).
    destruct (is_char "$" c); [|done]. cbn in Hn. destruct (inert_first d u Hs) as [->|[Hd Hu]]; [exact Hrest|]. assert (Hexp : inert (expand before u)) by (apply IH; [lia|done]).
    destruct (is_char "$" d); [by constructor|]. destruct (is_char "&" d); [apply inert_app; [apply inert_static; known_tag|done]|]. destruct (is_char BACKTICK d); [by apply inert_app|]. by destruct (code d =? 39).
  - destruct (tag_no_dollar t Ht) as [Hd [r ->]]. rewrite expand_tag by done. apply inert_tag; [done|]. apply IH; [|done]. rewrite str_length_app in Hn. cbn in Hn. lia.
Qed.

Lemma expand_step before c d u : expand before (String c (String d u)) =
  if is_char "$" c then if is_char "$" d then String c (expand before u) else if is_char "&" d then LI_END +:+ expand before u else if is_char BACKTICK d then before +:+ expand before u
    else if code d =? 39 then expand before u else String c (expand before (String d u))
  else String c (expand before (String d u)).
Proof. reflexivity. Qed.

Lemma expand_end before : forall n x, (String.length x <= n)%nat -> expand before (x +:+ LI_END) = expand before x +:+ LI_END.
Proof.
  induction n as [|n IH]; intros x Hn; [destruct x; [done|cbn in Hn; lia]|]. destruct x as [|c x]; [done|]. cbn in Hn. cbn [String.append]. destruct x as [|d u].
  - cbn [String.append expand]. destruct (is_char "$" c); reflexivity.
  - cbn [String.append] in *. cbn in Hn. pose proof (IH (String d u) ltac:(cbn; lia)) as Hdu. cbn [String.append] in Hdu. rewrite !expand_step, Hdu, (IH u) by lia.
    destruct (is_char "$" c); [|done]. destruct (is_char "$" d); [done|]. destruct (is_char "&" d); [by rewrite str_app_assoc|]. destruct (is_char BACKTICK d); [by rewrite str_app_assoc|]. by destruct (code d =? 39).
Qed.

(** A nested item: something inert, and its closing tag. *)
Definition is_item (item : string) : Prop := exists body, inert body /\ item = body +:+ LI_END.

Lemma item_inert item : is_item item -> inert item.
Proof. intros (body & Hb & ->). apply inert_app; [done|apply inert_static; known_tag]. Qed.

Lemma new_item text : is_item (tag "li" (inline text)).
Proof.
  exists (open_tag "li" +:+ inline text). split; [apply inert_app; [apply inert_static; known_tag|apply inline_inert]|]. unfold tag, open_tag, LI_END. by rewrite !str_app_assoc.
Qed.

Lemma take_app a b : str_take (String.length (a +:+ b) - String.length b) (a +:+ b) = a.
Proof. rewrite str_length_app. replace (String.length a + String.length b - String.length b)%nat with (String.length a) by lia. apply str_take_app. Qed.

Lemma continued_item item text : is_item item -> is_item (replace_end item (" " +:+ inline text +:+ LI_END)).
Proof.
  intros (body & Hb & ->). unfold replace_end. destruct (endsWith (body +:+ LI_END) LI_END); [|by exists body]. cbv zeta. change 5%nat with (String.length LI_END). rewrite take_app.
  replace (" " +:+ inline text +:+ LI_END) with ((" " +:+ inline text) +:+ LI_END) by done. rewrite (expand_end body _ _ (le_n _)), <- str_app_assoc. eexists. split; [|reflexivity].
  apply inert_app; [done|]. eapply expand_inert; [done|apply le_n|]. apply (inert_char " "%char); [done|apply inline_inert].
Qed.

Lemma continue_items nested text : Forall is_item nested -> Forall is_item (continue_last nested text).
Proof.
  intros Hn. unfold continue_last. destruct (rev nested) as [|l before] eqn:E; [constructor|]. assert (Hr : Forall is_item (l :: before)) by (rewrite <- E; by apply Forall_rev). apply list.Forall_cons in Hr as [Hl Hb].
  apply Forall_app. split; [by apply Forall_rev|]. constructor; [by apply continued_item|constructor].
Qed.

Lemma item_lines_ok indent lines : forall text nested nestedTag text' nested' nestedTag' rest,
  item_lines indent lines text nested nestedTag = (text', nested', nestedTag', rest) -> Forall is_item nested -> nestedTag ∈ ["ul"; "ol"]%string ->
  Forall is_item nested' /\ nestedTag' ∈ ["ul"; "ol"]%string /\ (length rest <= length lines)%nat.
Proof.
  induction lines as [|line lines IH]; intros text nested nestedTag text' nested' nestedTag' rest; cbn [item_lines]; [intros [= <- <- <- <-] Hf Ht; split_and!; done|].
  assert (Hstop : (text, nested, nestedTag, line :: lines) = (text', nested', nestedTag', rest) -> Forall is_item nested -> nestedTag ∈ ["ul"; "ol"]%string ->
    Forall is_item nested' /\ nestedTag' ∈ ["ul"; "ol"]%string /\ (length rest <= length (line :: lines))%nat) by (intros [= <- <- <- <-] Hf Ht; split_and!; done).
  assert (Hmore : forall text nested nestedTag, item_lines indent lines text nested nestedTag = (text', nested', nestedTag', rest) -> Forall is_item nested -> nestedTag ∈ ["ul"; "ol"]%string ->
    Forall is_item nested' /\ nestedTag' ∈ ["ul"; "ol"]%string /\ (length rest <= length (line :: lines))%nat) by (intros ? ? ? Hi Hf Ht; destruct (IH _ _ _ _ _ _ _ Hi Hf Ht) as (? & ? & ?); split_and!; [done..|cbn; lia]).
  destruct (_ && _); [|done]. destruct (listMarker line) as [inner|].
  - destruct (S indent <? lm_indent inner)%nat; [|done]. intros Hi Hf _. eapply Hmore; [exact Hi| |by destruct (lm_ordered inner); known_tag]. apply Forall_app. split; [done|]. constructor; [apply new_item|constructor].
  - destruct (is_fence (trim line)); [done|]. destruct nested as [|x nested]; [apply Hmore|]. intros Hi Hf Ht. eapply Hmore; [exact Hi|by apply continue_items|done].
Qed.

Lemma skip_blank_le first lines : (length (skip_blank first lines) <= length lines)%nat.
Proof. unfold skip_blank. destruct lines as [|a [|b l]]; [done..|]. destruct (_ && _); cbn; lia. Qed.

Lemma list_steps_ok first : forall n lines, (length lines <= n)%nat -> exists items rest, list_steps n first lines = Some (items, rest) /\ inert items /\ (length rest <= length lines)%nat /\
  (forall line tail marker, lines = line :: tail -> listMarker line = Some marker -> (lm_indent marker <= S (lm_indent first))%nat -> (length rest <= length tail)%nat).
Proof.
  induction n as [|n IH]; intros lines Hn.
  { destruct lines; [|cbn in Hn; lia]. exists ""%string, []. split_and!; [done|constructor|done|done]. }
  destruct lines as [|line lines]; [exists ""%string, []; split_and!; [done|constructor|done|done]|]. cbn [list_steps].
  destruct (listMarker line) as [marker|] eqn:Em; [|exists ""%string, (line :: lines); split_and!; [done|constructor|done|intros ? ? ? [= <- <-]; congruence]].
  destruct (S (lm_indent first) <? lm_indent marker)%nat eqn:Ei.
  { apply Nat.ltb_lt in Ei. exists ""%string, (line :: lines). split_and!; [done|constructor|done|]. intros ? ? ? [= <- <-] Hm Hle. rewrite Em in Hm. injection Hm as <-. lia. }
  destruct (item_lines _ _ _ _ _) as [[[text nested] nestedTag] after_item] eqn:El. apply item_lines_ok in El as (Hf & Ht & Hl); [|constructor|known_tag]. pose proof (skip_blank_le first after_item) as Hs. cbn in Hn.
  destruct (IH (skip_blank first after_item)) as (items & rest & Hls & Hin & Hle & _); [lia|]. rewrite Hls. cbn [mbind option_bind]. eexists _, _. split; [reflexivity|]. split_and!.
  - apply inert_app; [|done]. apply inert_wrap; [known_tag|]. apply inert_app; [apply inline_inert|]. destruct nested as [|x nested]; [constructor|]. apply inert_wrap; [by set_unfold in Ht; destruct Ht as [->|[->|[]]]; known_tag|].
    apply inert_join; [constructor|]. eapply list.Forall_impl; [exact Hf|]. apply item_inert.
  - cbn. lia.
  - intros ? ? ? [= <- <-] _ _. lia.
Qed.

(** ** Pages *)

Lemma span_lines_le p lines a b : span_lines p lines = (a, b) -> (length b <= length lines)%nat.
Proof.
  revert a b. induction lines as [|l lines IH]; intros a b; cbn; [by intros [= <- <-]|]. destruct (p l); [|by intros [= <- <-]]. destruct (span_lines p lines) as [x y]. intros [= <- <-]. specialize (IH x y eq_refl). cbn. lia.
Qed.

Lemma tail_le {A} (l : list A) : (length (tail l) <= length l)%nat.
Proof. destruct l; cbn; lia. Qed.

Lemma id_char_plain c : implb (is_id_char c) (match html_entity c with None => true | Some _ => false end) = true.
Proof. revert c. apply all_chars_forall. vm_compute. reflexivity. Qed.

Lemma escape_id s : str_forallb is_id_char s = true -> escapeHtml s = s.
Proof.
  induction s as [|c s IH]; [done|]. cbn [str_forallb escapeHtml]. intros [Hc Hs]%andb_true_iff. rewrite (IH Hs). pose proof (id_char_plain c) as Hp. rewrite Hc in Hp. by destruct (html_entity c).
Qed.

Lemma headingId_chars text : str_forallb is_id_char (headingId text) = true.
Proof.
  unfold headingId. pose proof (str_filter_forallb (fun c => is_lower c || is_digit c || is_char "-" c || is_char "_" c || is_char " " c) (toLowerCase text)) as Hf. revert Hf. generalize (str_filter (fun c => is_lower c || is_digit c || is_char "-" c || is_char "_" c || is_char " " c) (toLowerCase text)).
  intros s. induction s as [|c s IH]; [done|]. cbn [str_forallb str_map]. intros [Hc Hs]%andb_true_iff. rewrite (IH Hs), andb_true_r. destruct (is_char " " c); [done|]. rewrite orb_false_r in Hc. exact Hc.
Qed.

Lemma level_chars n : str_forallb is_id_char (level_text n) = true.
Proof. unfold level_text. eapply str_forallb_impl; [|apply string_of_int_digits; lia]. intros c Hc. unfold is_id_char. by rewrite Hc, orb_true_r. Qed.

Lemma heading_close level : (1 <= level <= 6)%nat -> inert ("</h" +:+ level_text level +:+ ">").
Proof. intros Hl. apply inert_static. destruct level as [|[|[|[|[|[|[|level]]]]]]]; first [lia|known_tag]. Qed.

Lemma heading_ok line p : is_heading line = true -> Forall inert (pg_out p) -> Forall inert (pg_out (heading line p)).
Proof.
  unfold is_heading. intros Hl Hp. apply andb_true_iff in Hl as [Hl _]. apply andb_true_iff in Hl as [H1%Nat.leb_le H6%Nat.leb_le]. unfold heading. cbn [pg_out]. apply Forall_app. split; [done|]. constructor; [|constructor].
  set (plain := str_filter not_formatting _). set (id0 := if String.eqb (headingId plain) "" then _ else _). assert (Hid0 : str_forallb is_id_char id0 = true) by (unfold id0; destruct (String.eqb _ _); [done|apply headingId_chars]).
  set (seen := default O _). set (id := match seen with O => id0 | _ => _ end). assert (Hid : str_forallb is_id_char id = true) by (unfold id; destruct seen; [done|]; rewrite !str_forallb_app, Hid0, level_chars; done).
  rewrite (escape_id id Hid). replace ("<h" +:+ level_text (hashes line) +:+ " id=" +:+ quoted id +:+ ">" +:+ inline (trim (str_drop (S (hashes line)) line)) +:+ "</h" +:+ level_text (hashes line) +:+ ">")
    with (heading_tag (hashes line) id +:+ inline (trim (str_drop (S (hashes line)) line)) +:+ "</h" +:+ level_text (hashes line) +:+ ">") by (unfold heading_tag; by rewrite !str_app_assoc).
  apply inert_tag; [right; left; by eexists _, _|]. apply inert_app; [apply inline_inert|by apply heading_close].
Qed.

Lemma table_inert header rows : inert (table_html header rows).
Proof.
  unfold table_html. change ("<div class=" +:+ quoted "docs-table" +:+ "><table><thead><tr>" +:+ ?x) with (("<div class=" +:+ quoted "docs-table" +:+ ">") +:+ "<table>" +:+ "<thead>" +:+ "<tr>" +:+ x).
  change ("</tr></thead><tbody>" +:+ ?x) with ("</tr>" +:+ "</thead>" +:+ "<tbody>" +:+ x). change "</tbody></table></div>"%string with ("</tbody>" +:+ "</table>" +:+ "</div>").
  do 4 (apply inert_app; [apply inert_static; known_tag|]). apply inert_app; [|do 3 (apply inert_app; [apply inert_static; known_tag|]); apply inert_app; [|do 2 (apply inert_app; [apply inert_static; known_tag|]); apply inert_static; known_tag]].
  - apply inert_join; [constructor|]. apply list.Forall_forall. intros x (c & <- & _)%list_elem_of_In%List.in_map_iff. apply inert_wrap; [known_tag|apply inline_inert].
  - apply inert_join; [constructor|]. apply list.Forall_forall. intros x (row & <- & _)%list_elem_of_In%List.in_map_iff. apply inert_wrap; [known_tag|]. apply inert_join; [constructor|].
    apply list.Forall_forall. intros y Hy. apply list_elem_of_lookup in Hy as [col Hy]. rewrite list_lookup_imap in Hy. destruct (header !! col); [|done]. injection Hy as <-. apply inert_wrap; [known_tag|apply inline_inert].
Qed.

Lemma block_ok html p : inert html -> Forall inert (pg_out p) -> Forall inert (pg_out (block html p)).
Proof. intros Hh Hp. cbn. apply Forall_app. split; [done|]. by constructor; [|constructor]. Qed.

Lemma page_ok n : forall lines p, (length lines <= n)%nat -> Forall inert (pg_out p) -> exists p', page_steps n lines p = Some p' /\ Forall inert (pg_out p').
Proof.
  induction n as [|n IH]; intros lines p Hn Hp; [destruct lines; [by exists p|cbn in Hn; lia]|]. destruct lines as [|line rest]; [by exists p|]. cbn in Hn. cbn [page_steps]. destruct (is_blank line); [apply IH; [lia|done]|].
  destruct (is_fence line).
  { destruct (span_lines _ rest) as [code_lines rest'] eqn:Es. apply span_lines_le in Es. pose proof (tail_le rest'). apply IH; [lia|]. apply block_ok; [|done].
    change ("<pre><code>" +:+ ?x) with ("<pre>" +:+ "<code>" +:+ x). change "</code></pre>"%string with ("</code>" +:+ "</pre>"). do 2 (apply inert_app; [apply inert_static; known_tag|]). apply inert_app; [apply inert_text, escapeHtml_no_markup|]. apply inert_app; apply inert_static; known_tag. }
  destruct (is_heading line) eqn:Eh; [apply IH; [lia|by apply heading_ok]|]. destruct (String.eqb (trim line) "---"); [apply IH; [lia|apply block_ok; [apply inert_static; known_tag|done]]|].
  destruct (_ && _).
  { destruct (span_lines _ (tail rest)) as [rows rest'] eqn:Es. apply span_lines_le in Es. pose proof (tail_le rest). apply IH; [lia|]. apply block_ok; [apply table_inert|done]. }
  destruct (startsWith line ">") eqn:Eq.
  { cbn [span_lines]. rewrite Eq. destruct (span_lines _ rest) as [quotes rest'] eqn:Es. apply span_lines_le in Es. apply IH; [lia|]. apply block_ok; [|done]. apply inert_wrap; [known_tag|]. apply inert_join; [constructor|].
    apply list.Forall_forall. intros x (c & <- & _)%list_elem_of_In%List.in_map_iff. apply inert_wrap; [known_tag|apply inline_inert]. }
  destruct (listMarker line) as [first|] eqn:Em.
  - destruct (list_steps_ok first (length (line :: rest)) (line :: rest) (le_n _)) as (items & rest' & -> & Hin & _ & Hlt). cbn [mbind option_bind]. specialize (Hlt line rest first eq_refl Em ltac:(lia)). apply IH; [lia|].
    apply block_ok; [|done]. apply inert_wrap; [by destruct (lm_ordered first); known_tag|done].
  - destruct (span_lines _ rest) as [paragraph rest'] eqn:Es. apply span_lines_le in Es. apply IH; [lia|]. apply block_ok; [|done]. apply inert_wrap; [known_tag|apply inline_inert].
Qed.

(** C23. A page of the documentation is inert: whatever its source holds, rendering it
    ends, and every angle bracket and every quote of the HTML belongs to a tag the
    renderer writes itself, without attributes but the class of a table, the id of a
    heading (small letters, digits, hyphens and underscores) and the address of a link,
    which is one the resolver gave; everything else is escaped. The addresses have no
    dollar sign (one in a nested item would be read as a replacement pattern). *)
Theorem markdown_inert (markdown : string) : exists r, renderMarkdown markdown = Some r /\ inert (rm_html r).
Proof.
  unfold renderMarkdown. destruct (page_ok (length (source_lines markdown)) (source_lines markdown) (mkPage [] [] []) (le_n _) ltac:(constructor)) as (p & -> & Hp). cbn [mbind option_bind]. eexists. split; [reflexivity|].
  cbn [rm_html]. apply inert_join; [by repeat constructor|done].
Qed.
End Render.

(** ** Examples *)

Definition page_of (lines : list string) : string := join (String LF_ "") lines.
Definition page_links : LinkResolver := fun target => if (startsWith target "#" || startsWith target "https://") && negb (has_char "$" target) then Some (mkLink target (startsWith target "https://")) else None.

Lemma page_links_plain target link : page_links target = Some link -> has_char "$" (lk_href link) = false.
Proof. unfold page_links. destruct (has_char "$" target) eqn:E; [by rewrite andb_false_r|]. destruct (_ && _); [|done]. by intros [= <-]. Qed.

Definition sample_page : string := page_of ["# Set up"; "See <script> [the site](https://x/?a=1&b) or [here](javascript:alert)."; "- one"; "  - *in*"; ""; "> note"]%string.
Lemma markdown_inert_witness : (forall target link, page_links target = Some link -> has_char "$" (lk_href link) = false) /\ exists r, renderMarkdown page_links sample_page = Some r /\ inert page_links (rm_html r).
Proof. exact (conj page_links_plain (markdown_inert page_links page_links_plain sample_page)). Defined.

Example sample_html : option_map rm_html (renderMarkdown page_links sample_page) = Some (page_of
  ["<h1 id=" +:+ quoted "set-up" +:+ ">Set up</h1>";
   "<p>See &lt;script&gt; <a href=" +:+ quoted "https://x/?a=1&amp;b" +:+ " target=" +:+ quoted "_blank" +:+ " rel=" +:+ quoted "noopener noreferrer" +:+ ">the site</a> or here.</p>";
   "<ul><li>one<ul><li><em>in</em></li></ul></li></ul>"; "<blockquote><p>note</p></blockquote>"]%string).
Proof. vm_compute. reflexivity. Qed.

(** In the second line of a nested item the text is a replacement text, in which a
    dollar sign and an ampersand stand for the closing tag. *)
Example dollar_lost : option_map rm_html (renderMarkdown page_links (page_of ["- one"; "  - costs"; "    $& more"]%string)) = Some "<ul><li>one<ul><li>costs </li>amp; more</li></ul></li></ul>"%string.
Proof. vm_compute. reflexivity. Qed.

(** A heading that is numbered takes the id of one written so. *)
Example headings_collide : option_map (fun r => List.map mh_id (rm_headings r)) (renderMarkdown page_links (page_of ["# Logs"; "# Logs"; "# Logs-1"]%string)) = Some ["logs"; "logs-1"; "logs-1"]%string.
Proof. vm_compute. reflexivity. Qed.
