(* ===== verification/Status.v ===== *)
(** src/cloudflare-control/src/status.ts and the routes /api/super/status… of index.ts:
    the checks of the platform, their counts by day, and the incidents the Super
    Admin posts.

    What the database, the hub and the bucket answered to a check is an argument
    ([Probes]). An incident is updated by a read and, later, a batch that writes
    ([write_update]); between the two, other requests may run, so the histories below
    are made of the batches. Times are in seconds. *)
From S2P Require Import Prelude JsString Platform Escape Calendar Db Regex Guard TwoFactor Conversations Mail Usage.

Definition STATUS_DAYS : Z := 90.
Definition INCIDENT_RETENTION_DAYS : Z := 365.
Definition DAY_SECONDS : Z := 86400.
Definition INCIDENT_TITLE : nat := 120.
Definition INCIDENT_BODY : nat := 2000.

Inductive IncidentStatus : Type := investigating | identified | monitoring | resolved.
Inductive IncidentImpact : Type := minor | major.
Inductive StatusComponent : Type := c_console | c_workstations | c_email | c_updates.
#[export] Instance IncidentStatus_eq_dec : EqDecision IncidentStatus.
Proof. solve_decision. Defined.
#[export] Instance IncidentImpact_eq_dec : EqDecision IncidentImpact.
Proof. solve_decision. Defined.
#[export] Instance StatusComponent_eq_dec : EqDecision StatusComponent.
Proof. solve_decision. Defined.

Definition incident_status_text (s : IncidentStatus) : string :=
  match s with investigating => "investigating" | identified => "identified" | monitoring => "monitoring" | resolved => "resolved" end.
Definition INCIDENT_STATUSES : list IncidentStatus := [investigating; identified; monitoring; resolved].
Definition impact_text (i : IncidentImpact) : string := match i with minor => "minor" | major => "major" end.
Definition INCIDENT_IMPACTS : list IncidentImpact := [minor; major].

Definition COMPONENT_LABELS (c : StatusComponent) : string :=
  match c with c_console => "Console and sign-in" | c_workstations => "Workstation connections" | c_email => "Email" | c_updates => "Updates and downloads" end.

Record CheckResult : Type := mkCheck { ck_component : StatusComponent; ck_ok : bool; ck_detail : option string }.
Record StatusDay : Type := mkStatusDay { sd_day : string; sd_checks : Z; sd_failures : Z }.
Record ComponentStatus : Type := mkComponentStatus { cs_component : StatusComponent; cs_label : string; cs_ok : option bool; cs_detail : option string; cs_checkedAt : option Z; cs_days : list (option StatusDay) }.

(** ** The tables *)

Record StatusLatest : Type := mkLatest { sl_component : StatusComponent; sl_ok : Z; sl_detail : option string; sl_checked_at : Z }.
Record StatusDaily : Type := mkDaily { dl_component : StatusComponent; dl_day : string; dl_checks : Z; dl_failures : Z }.
Record IncidentRow : Type := mkIncident { in_id : string; in_title : string; in_impact : IncidentImpact; in_status : IncidentStatus; in_created_at : Z; in_resolved_at : option Z; in_created_by : option string }.
Record IncidentUpdate : Type := mkUpdate { iu_id : string; iu_incident_id : string; iu_status : IncidentStatus; iu_body : string; iu_created_at : Z }.
Record StatusDb : Type := mkStatusDb { st_latest : list StatusLatest; st_daily : list StatusDaily; st_incidents : list IncidentRow; st_updates : list IncidentUpdate; st_audit : list AuditRow }.
Definition NO_STATUS : StatusDb := mkStatusDb [] [] [] [] [].

Definition on_checks (f : list StatusLatest -> list StatusLatest) (g : list StatusDaily -> list StatusDaily) (db : StatusDb) : StatusDb :=
  mkStatusDb (f (st_latest db)) (g (st_daily db)) (st_incidents db) (st_updates db) (st_audit db).
Definition on_incidents (f : list IncidentRow -> list IncidentRow) (g : list IncidentUpdate -> list IncidentUpdate) (db : StatusDb) : StatusDb :=
  mkStatusDb (st_latest db) (st_daily db) (f (st_incidents db)) (g (st_updates db)) (st_audit db).

(** The day of a moment, which Usage.v takes in milliseconds. *)
Definition status_day (seconds : Z) : string := utcDay (seconds * 1000).

(** ** The checks *)

Record StatusEnv : Type := mkStatusEnv { se_RELEASES : bool; se_ORG_HUB : bool; se_mail_env : MailEnv }.
(** What [SELECT 1], the ping of the hub and the listing of the bucket gave: a call
    that throws, with its message; the hub answers with an HTTP status. *)
Record Probes : Type := mkProbes { pb_db : js_result unit; pb_hub : js_result Z; pb_releases : js_result unit }.

Definition err_message (e : string) : string := str_take 200 e.
Definition statusComponents (env : StatusEnv) : list StatusComponent :=
  if se_RELEASES env then [c_console; c_workstations; c_email; c_updates] else [c_console; c_workstations; c_email].

Definition check_hub (env : StatusEnv) (p : Probes) : CheckResult :=
  match (if negb (se_ORG_HUB env) then Throws "ORG_HUB is not bound" else pb_hub p) with
  | Returns code => let ok := (200 <=? code) && (code <=? 299) in mkCheck c_workstations ok (if ok then None else Some ("Hub answered " +:+ string_of_int code))
  | Throws e => mkCheck c_workstations false (Some (err_message e))
  end.
Definition checkComponents (env : StatusEnv) (p : Probes) : list CheckResult :=
  let mailProblem := mailConfigProblem (se_mail_env env) in
  [match pb_db p with Returns _ => mkCheck c_console true None | Throws e => mkCheck c_console false (Some ("Database: " +:+ err_message e)) end;
   check_hub env p;
   mkCheck c_email (negb (is_Some_b mailProblem)) mailProblem]
  ++ if se_RELEASES env then [match pb_releases p with Returns _ => mkCheck c_updates true None | Throws e => mkCheck c_updates false (Some ("Releases bucket: " +:+ err_message e)) end] else [].

Definition is_latest (c : StatusComponent) (r : StatusLatest) : bool := bool_decide (sl_component r = c).
Definition is_daily (c : StatusComponent) (day : string) (r : StatusDaily) : bool := bool_decide (dl_component r = c) && String.eqb (dl_day r) day.

(** The two statements for one result. *)
Definition record_check (at_ : Z) (db : StatusDb) (r : CheckResult) : StatusDb :=
  let row := mkLatest (ck_component r) (if ck_ok r then 1 else 0) (ck_detail r) at_ in
  let failed := if ck_ok r then 0 else 1 in
  let day := status_day at_ in
  on_checks (upsert (is_latest (ck_component r)) (fun _ => row) row)
            (upsert (is_daily (ck_component r) day) (fun d => mkDaily (dl_component d) (dl_day d) (dl_checks d + 1) (dl_failures d + failed)) (mkDaily (ck_component r) day 1 failed)) db.
Definition recordStatusChecks (results : list CheckResult) (at_ : Z) (db : StatusDb) : StatusDb := foldl (record_check at_) db results.
Definition runStatusChecks (env : StatusEnv) (p : Probes) (at_ : Z) : eff StatusDb (list CheckResult) :=
  let results := checkComponents env p in
  _ ← eff_write (recordStatusChecks results at_);
  mret results.

(** An incident is deleted with its updates. *)
Definition stale_incident (at_ : Z) (i : IncidentRow) : bool := match in_resolved_at i with Some t => t <? at_ - INCIDENT_RETENTION_DAYS * DAY_SECONDS | None => false end.
Definition purgeOldStatus (at_ : Z) (db : StatusDb) : StatusDb :=
  let gone := List.map in_id (List.filter (stale_incident at_) (st_incidents db)) in
  on_incidents (List.filter (fun i => negb (stale_incident at_ i))) (List.filter (fun u => negb (existsb (String.eqb (iu_incident_id u)) gone)))
    (on_checks (fun l => l) (List.filter (fun d => negb (str_ltb (dl_day d) (status_day (at_ - STATUS_DAYS * DAY_SECONDS))))) db).

(** ** The page *)

(** The days of the strip, the oldest first. *)
Definition strip_days (at_ : Z) : list string := List.map (fun i => status_day (at_ - (STATUS_DAYS - 1 - Z.of_nat i) * DAY_SECONDS)) (seq 0 90).
(** [new Map(...)] keeps the last entry of a day. *)
Definition strip_cell (rows : list StatusDaily) (day : string) : option StatusDay :=
  (fun d => mkStatusDay day (dl_checks d) (dl_failures d)) <$> js_find (fun d => String.eqb (dl_day d) day) (rev rows).
Definition component_status (at_ : Z) (db : StatusDb) (c : StatusComponent) : ComponentStatus :=
  let first := status_day (at_ - (STATUS_DAYS - 1) * DAY_SECONDS) in
  let daily := List.filter (fun d => negb (str_ltb (dl_day d) first)) (st_daily db) in
  let row := js_find (is_latest c) (st_latest db) in
  let counts := List.filter (fun d => bool_decide (dl_component d = c)) daily in
  mkComponentStatus c (COMPONENT_LABELS c) ((fun r => sl_ok r =? 1) <$> row) (row ≫= sl_detail) (sl_checked_at <$> row) (List.map (strip_cell counts) (strip_days at_)).
Definition componentStatuses (env : StatusEnv) (db : StatusDb) (at_ : Z) : list ComponentStatus := List.map (component_status at_ db) (statusComponents env).

Record Incident : Type := mkIncidentView { iv_row : IncidentRow; iv_updates : list IncidentUpdate }.
Definition newest_incident (a b : IncidentRow) : Z := in_created_at b - in_created_at a.
Definition newest_update (a b : IncidentUpdate) : Z := iu_created_at b - iu_created_at a.
Definition is_open (i : IncidentRow) : bool := negb (is_Some_b (in_resolved_at i)).
Definition update_of (id : string) (u : IncidentUpdate) : bool := String.eqb (iu_incident_id u) id.
Definition listIncidents (db : StatusDb) (at_ : Z) : list Incident :=
  let incidents := take 50 (js_sort newest_incident (List.filter (fun i => is_open i || (at_ - STATUS_DAYS * DAY_SECONDS <=? in_created_at i)) (st_incidents db))) in
  let updates := js_sort newest_update (List.filter (fun u => existsb (fun i => String.eqb (in_id i) (iu_incident_id u)) incidents) (st_updates db)) in
  List.map (fun i => mkIncidentView i (List.filter (update_of (in_id i)) updates)) incidents.

Definition severity (i : IncidentRow) : Z := match in_impact i with major => 0 | minor => 1 end.
Definition worst_first (a b : IncidentRow) : Z := if severity a =? severity b then newest_incident a b else severity a - severity b.
Definition openIncident (db : StatusDb) : option IncidentRow := head (js_sort worst_first (List.filter is_open (st_incidents db))).

(** ** Incidents *)

Definition clean_text (value : jsval) (max : nat) : string := match value with JsStr s => str_take max (trim s) | _ => "" end.
Definition read_impact (v : jsval) : option IncidentImpact := match v with JsStr s => js_find (fun i => String.eqb (impact_text i) s) INCIDENT_IMPACTS | _ => None end.
Definition read_incident_status (v : jsval) : option IncidentStatus := match v with JsStr s => js_find (fun i => String.eqb (incident_status_text i) s) INCIDENT_STATUSES | _ => None end.

(** An identifier is the key of its table, and an update belongs to an incident: a
    batch that breaks one of these writes nothing. *)
Definition has_incident (id : string) (db : StatusDb) : bool := existsb (fun i => String.eqb (in_id i) id) (st_incidents db).
Definition has_update (id : string) (db : StatusDb) : bool := existsb (fun u => String.eqb (iu_id u) id) (st_updates db).
Definition CONSTRAINT : string := "constraint failed".

Definition insert_incident (id uid title : string) (impact : IncidentImpact) (body userId : string) (at_ : Z) (db : StatusDb) : js_result (StatusDb * unit) :=
  if has_incident id db || has_update uid db then Throws CONSTRAINT
  else Returns (on_incidents (fun l => l ++ [mkIncident id title impact investigating at_ None (Some userId)]) (fun l => l ++ [mkUpdate uid id investigating body at_]) db, tt).
Definition createIncident (input : jsval) (userId id uid : string) (at_ : Z) : eff StatusDb (string + string) :=
  if is_nullish input then eff_throw "TypeError"
  else
    let title := clean_text (js_get input "title") INCIDENT_TITLE in
    let body := clean_text (js_get input "body") INCIDENT_BODY in
    if String.eqb title "" then mret (inl "An incident needs a title"%string)
    else if String.eqb body "" then mret (inl "Say what is happening in the first update"%string)
    else
      match read_impact (js_get input "impact") with
      | None => mret (inl "Impact is minor or major"%string)
      | Some impact => _ ← eff_call (insert_incident id uid title impact body userId at_); mret (inr id)
      end.

Definition set_incident (status : IncidentStatus) (at_ : Z) (i : IncidentRow) : IncidentRow :=
  mkIncident (in_id i) (in_title i) (in_impact i) status (in_created_at i) (if bool_decide (status = resolved) then Some at_ else None) (in_created_by i).
Definition write_update (id : string) (status : IncidentStatus) (uid body : string) (at_ : Z) (db : StatusDb) : js_result (StatusDb * unit) :=
  if negb (has_incident id db) || has_update uid db then Throws CONSTRAINT
  else Returns (on_incidents (List.map (fun i => if String.eqb (in_id i) id then set_incident status at_ i else i)) (fun l => l ++ [mkUpdate uid id status body at_]) db, tt).
(** A time of 0 is no time. *)
Definition is_settled (i : IncidentRow) : bool := match in_resolved_at i with Some t => negb (t =? 0) | None => false end.
Definition updateIncident (id : string) (input : jsval) (uid : string) (at_ : Z) : eff StatusDb (option (string * Z)) :=
  if is_nullish input then eff_throw "TypeError"
  else
    let body := clean_text (js_get input "body") INCIDENT_BODY in
    if String.eqb body "" then mret (Some ("An update needs a message"%string, 400))
    else
      match read_incident_status (js_get input "status") with
      | None => mret (Some ("Status is one of " +:+ join ", " (List.map incident_status_text INCIDENT_STATUSES), 400))
      | Some status =>
          incident ← eff_read (fun db => js_find (fun i => String.eqb (in_id i) id) (st_incidents db));
          match incident with
          | None => mret (Some ("Incident not found"%string, 404))
          | Some i =>
              if is_settled i then mret (Some ("This incident is resolved"%string, 409))
              else _ ← eff_call (write_update id status uid body at_); mret None
          end
      end.

(** ** The routes *)

Inductive StatusPath : Type := path_status | path_open | path_update (id : string).
Inductive StatusAnswer : Type :=
| SError (status : Z) (message : string)
| SPage (components : list ComponentStatus) (incidents : list Incident)
| SOpened (id : string) (incidents : list Incident)
| SUpdated (incidents : list Incident).
(** [tr_id] and [tr_uid] are the identifiers to draw. *)
Record StatusRequest : Type := mkStatusRequest { tr_session : option Session; tr_path : StatusPath; tr_body : option jsval; tr_now : Z; tr_id : string; tr_uid : string }.

Definition status_audit (userId action details : string) : eff StatusDb unit :=
  eff_write (fun db => mkStatusDb (st_latest db) (st_daily db) (st_incidents db) (st_updates db) (st_audit db ++ [mkAudit None userId action (Some details)])).
Definition text_word (v : jsval) : string := match v with JsStr s => s | _ => "" end.

Definition status_route (env : StatusEnv) (rq : StatusRequest) : eff StatusDb StatusAnswer :=
  match requireSuperAdmin (tr_session rq), tr_session rq with
  | None, Some session =>
      match tr_path rq, tr_body rq with
      | path_status, _ =>
          components ← eff_read (fun db => componentStatuses env db (tr_now rq));
          incidents ← eff_read (fun db => listIncidents db (tr_now rq));
          mret (SPage components incidents)
      | _, None => mret (SError 400 "The request body must be JSON")
      | path_open, Some body =>
          created ← createIncident body (user_id session) (tr_id rq) (tr_uid rq) (tr_now rq);
          match created with
          | inl problem => mret (SError 400 problem)
          | inr id =>
              _ ← status_audit (user_id session) "status.incident_open" ("incident=" +:+ id);
              incidents ← eff_read (fun db => listIncidents db (tr_now rq));
              mret (SOpened id incidents)
          end
      | path_update id, Some body =>
          problem ← updateIncident id body (tr_uid rq) (tr_now rq);
          match problem with
          | Some (message, code) => mret (SError code message)
          | None =>
              _ ← status_audit (user_id session) "status.incident_update" ("incident=" +:+ id +:+ " status=" +:+ text_word (js_get body "status"));
              incidents ← eff_read (fun db => listIncidents db (tr_now rq));
              mret (SUpdated incidents)
          end
      end
  | Some refusal, _ => mret (SError (Guard.status refusal) (Guard.message refusal))
  | None, None => mret (SError 401 "Authentication required")
  end.

(** ** Histories *)

(** What writes these tables: a round of checks, the purge, a new incident, the batch
    of an update (whenever its check was), and the deletion of an account. *)
Inductive StatusEvent : Type :=
| ev_round (results : list CheckResult) (at_ : Z)
| ev_purge (at_ : Z)
| ev_open (id uid title : string) (impact : IncidentImpact) (body userId : string) (at_ : Z)
| ev_update (id : string) (status : IncidentStatus) (uid body : string) (at_ : Z)
| ev_account_deleted (userId : string).

Definition written (db : StatusDb) (r : js_result (StatusDb * unit)) : StatusDb := match r with Returns (db', _) => db' | Throws _ => db end.
Definition forget_author (userId : string) (i : IncidentRow) : IncidentRow :=
  mkIncident (in_id i) (in_title i) (in_impact i) (in_status i) (in_created_at i) (in_resolved_at i) (if bool_decide (in_created_by i = Some userId) then None else in_created_by i).
Definition apply_event (db : StatusDb) (e : StatusEvent) : StatusDb :=
  match e with
  | ev_round results at_ => recordStatusChecks results at_ db
  | ev_purge at_ => purgeOldStatus at_ db
  | ev_open id uid title impact body userId at_ => written db (insert_incident id uid title impact body userId at_ db)
  | ev_update id status uid body at_ => written db (write_update id status uid body at_ db)
  | ev_account_deleted userId => on_incidents (List.map (forget_author userId)) (fun l => l) db
  end.
Definition status_after (evs : list StatusEvent) : StatusDb := foldl apply_event NO_STATUS evs.

(** Every check that was recorded, with its time. *)
Definition event_checks (e : StatusEvent) : list (Z * CheckResult) := match e with ev_round results at_ => List.map (pair at_) results | _ => [] end.
Definition checks_of (evs : list StatusEvent) : list (Z * CheckResult) := List.flat_map event_checks evs.

(** The page as the log of the checks says it. *)
Definition on_component (c : StatusComponent) (e : Z * CheckResult) : bool := bool_decide (ck_component (snd e) = c).
Definition on_day (c : StatusComponent) (n : Z) (e : Z * CheckResult) : bool := on_component c e && (fst e / DAY_SECONDS =? n).
Definition failed_check (e : Z * CheckResult) : bool := negb (ck_ok (snd e)).
Definition tally (log : list (Z * CheckResult)) (c : StatusComponent) (n : Z) : option (Z * Z) :=
  match List.filter (on_day c n) log with [] => None | l => Some (Z.of_nat (length l), Z.of_nat (length (List.filter failed_check l))) end.
Definition last_check (log : list (Z * CheckResult)) (c : StatusComponent) : option (Z * CheckResult) := head (rev (List.filter (on_component c) log)).
Definition reference_day (at_ : Z) (log : list (Z * CheckResult)) (c : StatusComponent) (i : nat) : option StatusDay :=
  let n := at_ / DAY_SECONDS - (STATUS_DAYS - 1 - Z.of_nat i) in
  (fun t => mkStatusDay (date_text (civil n)) (fst t) (snd t)) <$> tally log c n.
Definition reference_status (at_ : Z) (log : list (Z * CheckResult)) (c : StatusComponent) : ComponentStatus :=
  let latest := last_check log c in
  mkComponentStatus c (COMPONENT_LABELS c) ((fun e => ck_ok (snd e)) <$> latest) (latest ≫= fun e => ck_detail (snd e)) (fst <$> latest) (List.map (reference_day at_ log c) (seq 0 90)).

(** The clock: the rounds and the purges were before [at_]. *)
Definition timed (at_ : Z) (e : StatusEvent) : Prop :=
  match e with ev_round _ t | ev_purge t => dated (t * 1000) /\ t <= at_ | _ => True end.

Lemma second_day t : utc_day_number (t * 1000) = t / DAY_SECONDS.
Proof. unfold utc_day_number, MS_PER_DAY, DAY_SECONDS. change 86400000 with (86400 * 1000). by rewrite Z.div_mul_cancel_r. Qed.

Lemma status_day_text t : status_day t = date_text (civil (t / DAY_SECONDS)).
Proof. unfold status_day, utcDay. by rewrite second_day. Qed.

Lemma days_before t k : (t - k * DAY_SECONDS) / DAY_SECONDS = t / DAY_SECONDS - k.
Proof. replace (t - k * DAY_SECONDS) with (t + (- k) * DAY_SECONDS) by lia. rewrite Z.div_add by done. lia. Qed.

Lemma dated_day t k : dated (t * 1000) -> -366 < k < 366 -> text_day (t / DAY_SECONDS + k).
Proof. rewrite <- second_day. apply dated_near. Qed.

Lemma day_text_inj a b : text_day a -> text_day b -> date_text (civil a) = date_text (civil b) -> a = b.
Proof.
  intros Ha Hb E. pose proof (text_order a b Ha Hb) as H1. pose proof (text_order b a Hb Ha) as H2. pose proof (text_order b b Hb Hb) as H3. rewrite E, H3, Z.ltb_irrefl in H1, H2. symmetry in H1, H2. apply Z.ltb_ge in H1, H2. lia.
Qed.

(** Where a condition holds of one element at most, two lists with the same such
    elements give the same. *)
Lemma js_find_same {A} (p q : A -> bool) l k : (forall x y, x ∈ l -> y ∈ l -> p x = true -> p y = true -> x = y) ->
  (forall x, x ∈ l /\ p x = true <-> x ∈ k /\ q x = true) -> js_find p l = js_find q k.
Proof.
  intros Hu He. destruct (js_find q k) as [y|] eqn:Eq.
  - apply js_find_Some, He in Eq as [Hy Hp]. destruct (js_find_is_Some p l y Hy Hp) as [x Ex]. rewrite Ex. apply js_find_Some in Ex as [Hx Hpx]. f_equal. by apply Hu.
  - apply js_find_None. intros x Hx. destruct (p x) eqn:Ep; [|done]. destruct (proj1 (He x) (conj Hx Ep)) as [Hk Hq]. by rewrite (proj1 (js_find_None q k) Eq x Hk) in Hq.
Qed.

Lemma is_daily_iff c day r : is_daily c day r = true <-> dl_component r = c /\ dl_day r = day.
Proof. unfold is_daily. by rewrite andb_true_iff, bool_decide_eq_true, String.eqb_eq. Qed.

Definition daily_key (r : StatusDaily) : StatusComponent * string := (dl_component r, dl_day r).
Lemma daily_unique l c day : NoDup (List.map daily_key l) -> forall x y, x ∈ l -> y ∈ l -> is_daily c day x = true -> is_daily c day y = true -> x = y.
Proof.
  induction l as [|r l IH]; [set_solver|]. cbn [List.map]. intros [Hr Hn]%list.NoDup_cons x y Hx Hy [Ex Dx]%is_daily_iff [Ey Dy]%is_daily_iff.
  assert (Hk : daily_key x = daily_key y) by (unfold daily_key; congruence).
  apply elem_of_cons in Hx as [->|Hx], Hy as [->|Hy]; [done| | |apply IH; [done..| |]; by apply is_daily_iff].
  - destruct Hr. rewrite Hk. by apply list_elem_of_fmap_2.
  - destruct Hr. rewrite <- Hk. by apply list_elem_of_fmap_2.
Qed.

(** ** The counts *)

Definition cell (db : StatusDb) (c : StatusComponent) (n : Z) : option (Z * Z) :=
  (fun d => (dl_checks d, dl_failures d)) <$> js_find (is_daily c (date_text (civil n))) (st_daily db).
Definition latest_of (db : StatusDb) (c : StatusComponent) : option (Z * CheckResult) :=
  (fun r => (sl_checked_at r, mkCheck (sl_component r) (sl_ok r =? 1) (sl_detail r))) <$> js_find (is_latest c) (st_latest db).

Record counted (at_ : Z) (db : StatusDb) (log : list (Z * CheckResult)) : Prop := mkCounted {
  cn_keys : NoDup (List.map daily_key (st_daily db));
  cn_cells : forall c n, text_day n -> at_ / DAY_SECONDS - (STATUS_DAYS - 1) <= n -> cell db c n = tally log c n;
  cn_latest : forall c, latest_of db c = last_check log c }.

Lemma tally_snoc log t r c n : tally (log ++ [(t, r)]) c n =
  if on_day c n (t, r) then Some (let f := if ck_ok r then 0 else 1 in match tally log c n with Some (a, b) => (a + 1, b + f) | None => (1, f) end) else tally log c n.
Proof.
  unfold tally. rewrite List.filter_app. change (List.filter (on_day c n) [(t, r)]) with (if on_day c n (t, r) then [(t, r)] else []). destruct (on_day c n (t, r)); [|by rewrite app_nil_r].
  assert (Hf : forall l : list (Z * CheckResult), Z.of_nat (length (List.filter failed_check (l ++ [(t, r)]))) = Z.of_nat (length (List.filter failed_check l)) + if ck_ok r then 0 else 1).
  { intros l. rewrite List.filter_app, length_app. cbn [List.filter]. unfold failed_check at 2. cbn [snd]. destruct (ck_ok r); cbn [negb length]; lia. }
  destruct (List.filter (on_day c n) log) as [|e l] eqn:E; cbn [app].
  - specialize (Hf []). cbn [app] in Hf. rewrite Hf. by destruct (ck_ok r).
  - f_equal. change (e :: l ++ [(t, r)]) with ((e :: l) ++ [(t, r)]). rewrite Hf, length_app. cbn [length]. f_equal. lia.
Qed.

Lemma last_check_snoc log t r c : last_check (log ++ [(t, r)]) c = if on_component c (t, r) then Some (t, r) else last_check log c.
Proof. unfold last_check. rewrite List.filter_app. cbn [List.filter]. destruct (on_component c (t, r)); [by rewrite rev_app_distr|by rewrite app_nil_r]. Qed.

Lemma record_cell db t r c n : dated (t * 1000) -> text_day n -> cell (record_check t db r) c n =
  if on_day c n (t, r) then Some (let f := if ck_ok r then 0 else 1 in match cell db c n with Some (a, b) => (a + 1, b + f) | None => (1, f) end) else cell db c n.
Proof.
  intros Ht Hn. unfold cell, record_check. cbn [st_daily on_checks]. rewrite status_day_text. unfold on_day, on_component. cbn [fst snd].
  pose proof (dated_day t 0 Ht ltac:(lia)) as Hd. rewrite Z.add_0_r in Hd. destruct (bool_decide_reflect (ck_component r = c)) as [<-|Hc]; cbn [andb]; [destruct (Z.eqb_spec (t / DAY_SECONDS) n) as [<-|Hne]|].
  - rewrite js_find_upsert; [|by intros x [? ?]%is_daily_iff; apply is_daily_iff|by apply is_daily_iff]. cbn [fmap option_fmap option_map]. by destruct (js_find _ _).
  - f_equal. apply js_find_upsert_other; [intros x [Ec Ed]%is_daily_iff; split|]; unfold is_daily; cbn [dl_component dl_day];
      (rewrite (proj2 (String.eqb_neq _ _)); [apply andb_false_r|]); rewrite ?Ed; intros E; by apply day_text_inj in E.
  - f_equal. apply js_find_upsert_other; [intros x [Ec Ed]%is_daily_iff; split|]; unfold is_daily; cbn [dl_component dl_day]; rewrite ?Ec, bool_decide_eq_false_2 by done; done.
Qed.

Lemma record_latest db t r c : latest_of (record_check t db r) c = if on_component c (t, r) then Some (t, r) else latest_of db c.
Proof.
  unfold latest_of, record_check, on_component. cbn [st_latest on_checks snd]. destruct (bool_decide_reflect (ck_component r = c)) as [<-|Hc].
  - rewrite js_find_upsert by (intros; by apply bool_decide_eq_true_2). cbn [fmap option_fmap option_map]. destruct r as [k ok d]. by destruct (js_find _ _), ok.
  - f_equal. apply js_find_upsert_other; [intros x Hx%bool_decide_eq_true; split|]; apply bool_decide_eq_false_2; cbn [sl_component]; congruence.
Qed.

Lemma counted_check at_ db log t r : dated (t * 1000) -> counted at_ db log -> counted at_ (record_check t db r) (log ++ [(t, r)]).
Proof.
  intros Ht [Hk Hc Hl]. split.
  - unfold record_check. cbn [st_daily on_checks]. apply upsert_keys_NoDup; [|done|done]. intros x. rewrite is_daily_iff. unfold daily_key. cbn [dl_component dl_day]. split; [by intros [-> ->]|by intros [= -> ->]].
  - intros c n Hn Hle. by rewrite record_cell, tally_snoc, Hc.
  - intros c. by rewrite record_latest, last_check_snoc, Hl.
Qed.

Lemma counted_round at_ t results : dated (t * 1000) -> forall db log, counted at_ db log -> counted at_ (recordStatusChecks results t db) (log ++ List.map (pair t) results).
Proof.
  intros Ht. unfold recordStatusChecks. induction results as [|r results IH]; intros db log Hc; cbn [foldl List.map]; [by rewrite app_nil_r|].
  rewrite cons_middle, app_assoc. by apply IH, counted_check.
Qed.

Lemma counted_purge at_ db log t : dated (t * 1000) -> t <= at_ -> counted at_ db log -> counted at_ (purgeOldStatus t db) log.
Proof.
  intros Ht Hle [Hk Hc Hl]. split; [|intros c n Hn Hr; rewrite <- Hc by done|exact Hl].
  - cbn [st_daily purgeOldStatus on_incidents on_checks]. clear -Hk. induction (st_daily db) as [|d l IH]; [done|]. apply list.NoDup_cons in Hk as [Hd Hk]. cbn [List.filter]. destruct (negb _); [|by apply IH].
    cbn [List.map]. apply list.NoDup_cons. split; [|by apply IH]. intros (x & E & [Hx _]%elem_of_bfilter)%list_elem_of_fmap. destruct Hd. rewrite E. by apply list_elem_of_fmap_2.
  - unfold cell. cbn [st_daily purgeOldStatus on_incidents on_checks]. rewrite js_find_bfilter by (by apply daily_unique). destruct (js_find _ _) as [d|] eqn:E; [|done]. apply js_find_Some in E as [_ [_ ->]%is_daily_iff].
    rewrite status_day_text, days_before, text_order; [|done|apply (dated_day t (- STATUS_DAYS) Ht); unfold STATUS_DAYS; lia].
    pose proof (Z.div_le_mono t at_ DAY_SECONDS ltac:(done) Hle). destruct (Z.ltb_spec n (t / DAY_SECONDS - STATUS_DAYS)); [lia|done].
Qed.

Lemma other_event at_ db e log : match e with ev_round _ _ | ev_purge _ => False | _ => True end -> counted at_ db log -> counted at_ (apply_event db e) log.
Proof.
  intros He [Hk Hc Hl]. assert (E : st_daily (apply_event db e) = st_daily db /\ st_latest (apply_event db e) = st_latest db).
  { destruct e; try done; cbn [apply_event]; unfold insert_incident, write_update; by repeat case_match. }
  destruct E as [Ed El]. split; [by rewrite Ed|intros; unfold cell; rewrite Ed; by apply Hc|intros; unfold latest_of; rewrite El; apply Hl].
Qed.

Lemma counted_history at_ evs : Forall (timed at_) evs -> counted at_ (status_after evs) (checks_of evs).
Proof.
  induction evs as [|e evs IH] using rev_ind; [intros _; split; [constructor|done|done]|]. intros [Hevs He]%Forall_app. apply list.Forall_cons in He as [He _]. specialize (IH Hevs).
  unfold status_after, checks_of. rewrite foldl_app, flat_map_app. cbn [foldl flat_map]. rewrite app_nil_r. fold (status_after evs) (checks_of evs).
  destruct e; cbn [timed event_checks apply_event] in *; rewrite ?app_nil_r; [by apply counted_round; [apply He|]|by apply counted_purge; [apply He|apply He|]|by apply (other_event _ _ (ev_open _ _ _ _ _ _ _))|by apply (other_event _ _ (ev_update _ _ _ _ _))|by apply (other_event _ _ (ev_account_deleted _))].
Qed.

Lemma strip_exact at_ db log c i : dated (at_ * 1000) -> (i < 90)%nat -> counted at_ db log ->
  strip_cell (List.filter (fun d => bool_decide (dl_component d = c)) (List.filter (fun d => negb (str_ltb (dl_day d) (status_day (at_ - (STATUS_DAYS - 1) * DAY_SECONDS)))) (st_daily db)))
    (status_day (at_ - (STATUS_DAYS - 1 - Z.of_nat i) * DAY_SECONDS)) = reference_day at_ log c i.
Proof.
  intros Hat Hi [Hk Hc _]. unfold strip_cell, reference_day. rewrite !status_day_text, !days_before. set (n := at_ / DAY_SECONDS - (STATUS_DAYS - 1 - Z.of_nat i)).
  assert (Hn : text_day n) by (replace n with (at_ / DAY_SECONDS + (Z.of_nat i - 89)) by (unfold n, STATUS_DAYS; lia); apply dated_day; [done|lia]).
  rewrite <- (Hc c n Hn) by (unfold n; lia). unfold cell. rewrite <- option_fmap_compose. f_equal.
  symmetry. apply js_find_same; [by apply daily_unique|]. intros x. rewrite <- Permutation_rev, !elem_of_bfilter, is_daily_iff, bool_decide_eq_true, String.eqb_eq.
  split; [intros (Hx & <- & Ed)|intros (((Hx & _) & <-) & Ed); done]. repeat split; [done| |done].
  rewrite Ed, text_order; [|done|apply (dated_day at_ (- (STATUS_DAYS - 1)) Hat); unfold STATUS_DAYS; lia]. apply negb_true_iff, Z.ltb_ge. unfold n. lia.
Qed.

(** C33. The status page says exactly what the checks found. After any history of
    rounds of checks and purges before the page is read, with incidents opened and
    updated in between, each component shows the result, the message and the time of
    its last check, and for each of the last 90 UTC days the number of checks and of
    failures recorded on that day, or nothing where there was none: what the purge
    deletes is never part of the strip. *)
Theorem status_page_exact (env : StatusEnv) (evs : list StatusEvent) (at_ : Z) : dated (at_ * 1000) -> Forall (timed at_) evs ->
  componentStatuses env (status_after evs) at_ = List.map (reference_status at_ (checks_of evs)) (statusComponents env).
Proof.
  intros Hat Hevs. pose proof (counted_history at_ evs Hevs) as Hc. apply List.map_ext. intros c. unfold component_status, reference_status. cbv zeta.
  rewrite <- (cn_latest _ _ _ Hc). unfold latest_of, strip_days. rewrite List.map_map, option_fmap_bind, <- !option_fmap_compose. f_equal; [by destruct (js_find _ _)..|].
  apply List.map_ext_in. intros i [_ Hi]%in_seq. by apply strip_exact.
Qed.

(** ** Incidents and their updates *)

Definition updates_of (db : StatusDb) (id : string) : list IncidentUpdate := List.filter (update_of id) (st_updates db).
(** The row of an incident says what its last update says. *)
Definition follows (db : StatusDb) (i : IncidentRow) : Prop :=
  exists before u, updates_of db (in_id i) = before ++ [u] /\ in_status i = iu_status u /\ in_resolved_at i = if bool_decide (iu_status u = resolved) then Some (iu_created_at u) else None.
Record incidents_ok (db : StatusDb) : Prop := mkIncidentsOk {
  io_ids : NoDup (List.map in_id (st_incidents db));
  io_owned : forall u, u ∈ st_updates db -> has_incident (iu_incident_id u) db = true;
  io_follows : forall i, i ∈ st_incidents db -> follows db i }.

Lemma has_incident_iff id db : has_incident id db = true <-> id ∈ List.map in_id (st_incidents db).
Proof.
  unfold has_incident. rewrite existsb_elem. setoid_rewrite String.eqb_eq. split; [intros (i & Hi & <-); by apply list_elem_of_fmap_2|]. intros (i & -> & Hi)%list_elem_of_fmap. by exists i.
Qed.

Lemma map_ids_ok (f : IncidentRow -> IncidentRow) (g : list IncidentUpdate -> list IncidentUpdate) db : (forall i, in_id (f i) = in_id i) -> List.map in_id (st_incidents (on_incidents (List.map f) g db)) = List.map in_id (st_incidents db).
Proof. intros Hf. cbn [st_incidents on_incidents]. rewrite List.map_map. by apply List.map_ext. Qed.

(** A change of the rows that keeps what they say, with the updates left alone. *)
Lemma rows_follow db db' : st_updates db' = st_updates db -> List.map in_id (st_incidents db') = List.map in_id (st_incidents db) ->
  (forall i', i' ∈ st_incidents db' -> exists i, i ∈ st_incidents db /\ in_id i' = in_id i /\ in_status i' = in_status i /\ in_resolved_at i' = in_resolved_at i) -> incidents_ok db -> incidents_ok db'.
Proof.
  intros Hu Hids Hrows [Hn Ho Hf]. split; [by rewrite Hids|intros u; rewrite has_incident_iff, Hids, <- has_incident_iff, Hu; apply Ho|].
  intros i' (i & Hi & Eid & Es & Er)%Hrows. unfold follows, updates_of. rewrite Hu, Eid, Es, Er. by apply Hf.
Qed.

Lemma round_incidents results at_ db : st_incidents (recordStatusChecks results at_ db) = st_incidents db /\ st_updates (recordStatusChecks results at_ db) = st_updates db.
Proof. unfold recordStatusChecks. revert db. induction results as [|r results IH]; intros db; [done|]. cbn [foldl]. by rewrite !(proj1 (IH _)), !(proj2 (IH _)). Qed.

Lemma same_id db i j : NoDup (List.map in_id (st_incidents db)) -> i ∈ st_incidents db -> j ∈ st_incidents db -> in_id i = in_id j -> i = j.
Proof.
  induction (st_incidents db) as [|x l IH]; [set_solver|]. cbn [List.map]. intros [Hx Hn]%list.NoDup_cons Hi Hj E.
  apply elem_of_cons in Hi as [->|Hi], Hj as [->|Hj]; [done| | |by apply IH]; destruct Hx; [rewrite E|rewrite <- E]; by apply list_elem_of_fmap_2.
Qed.

Lemma filter_kept {A} (p q : A -> bool) l : (forall x, p x = true -> q x = true) -> List.filter p (List.filter q l) = List.filter p l.
Proof. intros Hpq. induction l as [|x l IH]; [done|]. cbn [List.filter]. destruct (p x) eqn:Ep; [rewrite (Hpq x Ep); cbn [List.filter]; by rewrite Ep, IH|]. destruct (q x); [cbn [List.filter]; by rewrite Ep|done]. Qed.

Lemma purge_incidents at_ db : incidents_ok db -> incidents_ok (purgeOldStatus at_ db).
Proof.
  intros [Hn Ho Hf]. set (gone := List.map in_id (List.filter (stale_incident at_) (st_incidents db))).
  assert (Hgone : forall i, i ∈ st_incidents db -> existsb (String.eqb (in_id i)) gone = stale_incident at_ i).
  { intros i Hi. apply eq_true_iff_eq. rewrite existsb_elem. setoid_rewrite String.eqb_eq. split.
    - intros (k & (j & -> & [Hj Hs]%elem_of_bfilter)%list_elem_of_fmap & E). by rewrite (same_id db i j).
    - intros Hs. exists (in_id i). split; [|done]. apply list_elem_of_fmap_2, elem_of_bfilter. done. }
  split.
  - cbn [purgeOldStatus on_incidents on_checks st_incidents]. clear -Hn. induction (st_incidents db) as [|x l IH]; [done|]. apply list.NoDup_cons in Hn as [Hx Hn]. cbn [List.filter]. destruct (negb _); [|by apply IH].
    cbn [List.map]. apply list.NoDup_cons. split; [|by apply IH]. intros (y & E & [Hy _]%elem_of_bfilter)%list_elem_of_fmap. destruct Hx. rewrite E. by apply list_elem_of_fmap_2.
  - intros u [Hu Hk]%elem_of_bfilter. apply Ho, existsb_elem in Hu as (i & Hi & E%String.eqb_eq). rewrite <- E in Hk. unfold gone in Hgone. rewrite Hgone in Hk by done.
    apply existsb_elem. exists i. split; [by apply elem_of_bfilter|by apply String.eqb_eq].
  - intros i [Hi Hs]%elem_of_bfilter. destruct (Hf i Hi) as (before & u & E & H'). exists before, u. split; [|done]. rewrite <- E. unfold updates_of. cbn [purgeOldStatus on_incidents on_checks st_updates st_incidents].
    apply filter_kept. intros w Hw%String.eqb_eq. fold gone. by rewrite Hw, Hgone.
Qed.

Lemma updates_snoc db id u l f : st_updates db = l ++ [u] -> iu_incident_id u = f -> updates_of db id = List.filter (update_of id) l ++ if String.eqb f id then [u] else [].
Proof. intros E Ef. unfold updates_of. rewrite E, List.filter_app. cbn [List.filter]. unfold update_of at 2. by rewrite Ef. Qed.

Lemma opened_incidents id uid title impact body userId at_ db : incidents_ok db -> incidents_ok (written db (insert_incident id uid title impact body userId at_ db)).
Proof.
  intros Hok. pose proof Hok as [Hn Ho Hf]. unfold insert_incident. destruct (has_incident id db) eqn:Eh; [done|]. destruct (has_update uid db); [done|]. cbn [orb written].
  assert (Hnew : ~ id ∈ List.map in_id (st_incidents db)) by (rewrite <- has_incident_iff; congruence). split.
  - cbn [st_incidents on_incidents]. rewrite List.map_app. apply list.NoDup_app. split; [done|]. split; [intros x Hx Hs%list_elem_of_singleton; by subst x|]. apply NoDup_singleton.
  - intros u. rewrite has_incident_iff. cbn [st_incidents st_updates on_incidents]. rewrite List.map_app. cbn [List.map in_id]. intros [Hu|Hu%list_elem_of_singleton]%elem_of_app; apply elem_of_app; [left|right; subst u; by left]. by apply has_incident_iff, Ho.
  - intros i. cbn [st_incidents on_incidents]. intros [Hi|Hi%list_elem_of_singleton]%elem_of_app; [|subst i]; unfold follows; erewrite (updates_snoc _ _ _ (st_updates db)) by reflexivity; cbn [in_id iu_incident_id].
    + rewrite (proj2 (String.eqb_neq _ _)), app_nil_r by (intros ->; by apply Hnew, list_elem_of_fmap_2). by apply Hf.
    + rewrite String.eqb_refl. eexists _, _. split; [reflexivity|done].
Qed.

Lemma updated_incidents id status uid body at_ db : incidents_ok db -> incidents_ok (written db (write_update id status uid body at_ db)).
Proof.
  intros Hok. pose proof Hok as [Hn Ho Hf]. unfold write_update. destruct (has_incident id db) eqn:Eh; [|done]. destruct (has_update uid db); [done|]. cbn [negb orb written].
  set (f := fun i => if String.eqb (in_id i) id then set_incident status at_ i else i). set (g := fun l => l ++ [mkUpdate uid id status body at_]).
  assert (Hids : List.map in_id (st_incidents (on_incidents (List.map f) g db)) = List.map in_id (st_incidents db)) by (apply map_ids_ok; intros i; unfold f; by destruct (String.eqb (in_id i) id)). split.
  - by rewrite Hids.
  - intros u. rewrite has_incident_iff, Hids, <- has_incident_iff. intros [Hu|Hu%list_elem_of_singleton]%elem_of_app; [by apply Ho|by subst u].
  - intros i' (i & -> & Hi)%list_elem_of_fmap. unfold follows. erewrite (updates_snoc _ _ _ (st_updates db)) by reflexivity. unfold f. destruct (String.eqb_spec (in_id i) id) as [<-|Hne]; cbn [set_incident in_id iu_incident_id].
    + rewrite String.eqb_refl. eexists _, _. split; [reflexivity|]. done.
    + rewrite (proj2 (String.eqb_neq _ _)), app_nil_r by done. by apply Hf.
Qed.

Lemma event_incidents db e : incidents_ok db -> incidents_ok (apply_event db e).
Proof.
  intros Hok. destruct e as [results t|t| | |userId]; cbn [apply_event]; [|by apply purge_incidents|by apply opened_incidents|by apply updated_incidents|].
  - destruct (round_incidents results t db) as [Ei Eu]. apply (rows_follow db); [done|by rewrite Ei| |done]. rewrite Ei. intros i Hi. by exists i.
  - apply (rows_follow db); [done|by apply map_ids_ok| |done]. intros i' (i & -> & Hi)%list_elem_of_fmap. by exists i.
Qed.

Lemma history_incidents evs : incidents_ok (status_after evs).
Proof.
  induction evs as [|e evs IH] using rev_ind; [split; [constructor|by intros ? ?%elem_of_nil|by intros ? ?%elem_of_nil]|].
  unfold status_after. rewrite foldl_app. by apply event_incidents.
Qed.

Lemma open_status db i : follows db i -> is_open i = negb (bool_decide (in_status i = resolved)).
Proof. intros (before & u & _ & -> & Er). unfold is_open. rewrite Er. by case_bool_decide. Qed.

#[export] Instance worst_first_comparator : Comparator worst_first.
Proof.
  assert (Hs : forall a, severity a = 0 \/ severity a = 1) by (intros a; unfold severity; destruct (in_impact a); auto).
  split; intros; unfold worst_first, newest_incident in *.
  - destruct (Z.eqb_spec (severity x) (severity y)), (Z.eqb_spec (severity y) (severity x)); lia.
  - destruct (Z.eqb_spec (severity x) (severity y)), (Z.eqb_spec (severity y) (severity z)), (Z.eqb_spec (severity x) (severity z)); lia.
Qed.

(** What the console and the status page say of an incident is what was posted
    last. After any history, in which the batch of an update may run long after its
    check and between those of others, each incident of the page has every update
    posted to it and the status of the last one, and is closed, at the time of that
    update, exactly when it says resolved; and the banner shows no incident only when
    all are resolved, else the newest of the most severe that are not. *)
Theorem incidents_follow_updates (evs : list StatusEvent) (at_ : Z) : let db := status_after evs in
  (forall v, v ∈ listIncidents db at_ -> iv_updates v ≡ₚ updates_of db (in_id (iv_row v)) /\ follows db (iv_row v)) /\
  match openIncident db with
  | None => forall i, i ∈ st_incidents db -> in_status i = resolved
  | Some i => i ∈ st_incidents db /\ in_status i <> resolved /\
      forall j, j ∈ st_incidents db -> in_status j <> resolved -> severity i < severity j \/ (severity i = severity j /\ in_created_at j <= in_created_at i)
  end.
Proof.
  intros db. pose proof (history_incidents evs) as [Hn Ho Hf]. fold db in Hn, Ho, Hf. split.
  - intros v. unfold listIncidents. cbv zeta. set (rows := take 50 _). intros (i & -> & Hi)%list_elem_of_fmap. cbn [iv_row iv_updates]. split.
    + apply (Permutation_trans (bfilter_perm _ _ _ (js_sort_perm _ _))). unfold updates_of. rewrite filter_kept; [done|]. intros u Hu%String.eqb_eq. apply existsb_elem. exists i. split; [done|]. by apply String.eqb_eq.
    + apply Hf. apply (subseteq_take 50) in Hi. apply elem_of_js_sort, elem_of_bfilter in Hi. apply Hi.
  - unfold openIncident. pose proof (js_sort_sorted worst_first (List.filter is_open (st_incidents db))) as Hs. destruct (js_sort _ _) as [|i l] eqn:E; cbn [head].
    + intros i Hi. pose proof (open_status db i (Hf i Hi)) as Hop. destruct (bool_decide_reflect (in_status i = resolved)) as [|Hne]; [done|]. assert (Hin : i ∈ js_sort worst_first (List.filter is_open (st_incidents db))) by (by apply elem_of_js_sort, elem_of_bfilter).
      rewrite E in Hin. by apply elem_of_nil in Hin.
    + apply StronglySorted_inv in Hs as [_ Hs]. rewrite list.Forall_forall in Hs.
      assert (Hin : forall j, j ∈ i :: l <-> j ∈ st_incidents db /\ in_status j <> resolved).
      { intros j. rewrite <- E, elem_of_js_sort, elem_of_bfilter. split; intros [Hj Hp]; (split; [done|]); revert Hp; rewrite (open_status db j (Hf j Hj)), negb_true_iff, bool_decide_eq_false; done. }
      destruct (proj1 (Hin i)) as [Hi Hr]; [by left|]. split; [done|]. split; [done|]. intros j Hj Hjr. destruct (proj1 (elem_of_cons l j i) (proj2 (Hin j) (conj Hj Hjr))) as [->|Hl]; [right; lia|].
      apply Hs in Hl. unfold worst_first, newest_incident in Hl. destruct (Z.eqb_spec (severity i) (severity j)); [right|left]; lia.
Qed.

(** ** The routes make such histories *)

(** The tables of the status page, the log of the Super Admin's actions apart. *)
Definition same_tables (a b : StatusDb) : Prop := st_latest a = st_latest b /\ st_daily a = st_daily b /\ st_incidents a = st_incidents b /\ st_updates a = st_updates b.
#[export] Instance same_tables_equiv : Equivalence same_tables.
Proof. split; [by repeat split|by intros a b (?&?&?&?); repeat split|]. intros a b c (?&?&?&?) (?&?&?&?). repeat split; congruence. Qed.

Lemma record_same at_ r a b : same_tables a b -> same_tables (record_check at_ a r) (record_check at_ b r).
Proof. destruct a, b. by intros (E1 & E2 & E3 & E4); cbn in *; subst. Qed.

#[export] Instance apply_event_proper : Proper (same_tables ==> eq ==> same_tables) apply_event.
Proof.
  intros a b Hab e ? <-. destruct e as [results t| | | |]; cbn [apply_event].
  - revert a b Hab. unfold recordStatusChecks. induction results as [|r results IH]; intros a b Hab; [done|]. by apply IH, record_same.
  - destruct a, b. by destruct Hab as (E1 & E2 & E3 & E4); cbn in *; subst.
  - destruct a, b. destruct Hab as (E1 & E2 & E3 & E4); cbn in *; subst. unfold insert_incident, has_incident, has_update. cbn [st_incidents st_updates]. by destruct (_ || _).
  - destruct a, b. destruct Hab as (E1 & E2 & E3 & E4); cbn in *; subst. unfold write_update, has_incident, has_update. cbn [st_incidents st_updates]. by destruct (_ || _).
  - destruct a, b. by destruct Hab as (E1 & E2 & E3 & E4); cbn in *; subst.
Qed.

Lemma history_same evs : forall a b, same_tables a b -> same_tables (foldl apply_event a evs) (foldl apply_event b evs).
Proof. induction evs as [|e evs IH]; intros a b Hab; [done|]. cbn [foldl]. apply IH. by rewrite Hab. Qed.

(** What a request writes is what some events write. *)
Definition by_events (a b : StatusDb) : Prop := exists evs, same_tables b (foldl apply_event a evs).
#[export] Instance by_events_preorder : PreOrder by_events.
Proof.
  split; [intros a; by exists []|]. intros a b c [evs Hb] [evs' Hc]. exists (evs ++ evs'). rewrite foldl_app. rewrite Hc. by apply history_same.
Qed.

Lemma by_event a e : by_events a (apply_event a e).
Proof. by exists [e]. Qed.
Lemma keeps_status_audit userId action details : keeps by_events (status_audit userId action details).
Proof. apply keeps_call; [apply _|]. intros s s' a [= <- _]. by exists []. Qed.
Lemma keeps_status_read {A} (f : StatusDb -> A) : keeps by_events (eff_read f).
Proof. apply keeps_read, _. Qed.
Lemma keeps_status_ret {A} (a : A) : keeps by_events (mret a).
Proof. apply keeps_ret, _. Qed.
#[local] Hint Resolve keeps_status_audit keeps_status_read keeps_status_ret : kiosk.
#[local] Ltac status_calls := repeat first [done | solve [auto with kiosk] | apply keeps_throw, _ | apply keeps_bind; [apply _| |intros] | case_match].

Lemma keeps_create input userId id uid at_ : keeps by_events (createIncident input userId id uid at_).
Proof.
  unfold createIncident. cbv zeta. destruct (is_nullish input); [status_calls|]. destruct (String.eqb _ _); [status_calls|]. destruct (String.eqb _ _); [status_calls|].
  destruct (read_impact _) as [i|]; [|status_calls]. apply keeps_bind; [apply _| |intros; status_calls]. apply keeps_call; [apply _|]. intros s s' a E.
  pose proof (by_event s (ev_open id uid (clean_text (js_get input "title") INCIDENT_TITLE) i (clean_text (js_get input "body") INCIDENT_BODY) userId at_)) as Hs. cbn [apply_event] in Hs. by rewrite E in Hs.
Qed.

Lemma keeps_update id input uid at_ : keeps by_events (updateIncident id input uid at_).
Proof.
  unfold updateIncident. cbv zeta. destruct (is_nullish input); [status_calls|]. destruct (String.eqb _ _); [status_calls|]. destruct (read_incident_status _) as [status|]; [|status_calls].
  apply keeps_bind; [apply _|auto with kiosk|intros [i|]; [|status_calls]]. destruct (is_settled i); [status_calls|]. apply keeps_bind; [apply _| |intros; status_calls]. apply keeps_call; [apply _|]. intros s s' a' E.
  pose proof (by_event s (ev_update id status uid (clean_text (js_get input "body") INCIDENT_BODY) at_)) as Hs. cbn [apply_event] in Hs. by rewrite E in Hs.
Qed.

(** A request to the routes of the status page, whatever its calls do, changes its
    tables only as the events of a history do, and not at all unless a Super Admin is
    signed in. *)
Theorem status_routes_step env rq o db db' o' r : status_route env rq o db = (db', o', r) ->
  by_events db db' /\ (match tr_session rq with Some s => role s <> super_admin | None => True end -> db' = db).
Proof.
  intros E. split.
  - revert o db db' o' r E. fold (keeps by_events (status_route env rq)). unfold status_route. status_calls; first [apply keeps_create|apply keeps_update].
  - unfold status_route, requireSuperAdmin in E. destruct (tr_session rq) as [s|]; [|by injection E]. intros Hr. rewrite bool_decide_eq_false_2 in E by done. by injection E.
Qed.

(** ** Examples *)

Definition probes_up : Probes := mkProbes (Returns tt) (Returns 200) (Returns tt).
Definition probes_hub_down : Probes := mkProbes (Returns tt) (Returns 503) (Throws "no bucket").
Definition status_env : StatusEnv := mkStatusEnv true true (mkMailEnv false true false "Lab Kiosk <noreply@labkiosk.org>" "support@labkiosk.org" "" "labkiosk.org").
Definition noon : Z := 1790000000.
(** Two rounds on one day and one on the next, a purge, and an incident. *)
Definition rounds : list StatusEvent :=
  [ev_round (checkComponents status_env probes_up) noon; ev_round (checkComponents status_env probes_hub_down) (noon + 300); ev_open "i1" "u1" "Slow" minor "Looking" "root" (noon + 400);
   ev_purge (noon + 3600); ev_round (checkComponents status_env probes_up) (noon + DAY_SECONDS)].

Lemma rounds_timed : Forall (timed (noon + DAY_SECONDS + 60)) rounds.
Proof. repeat apply list.Forall_cons_2; [..|by apply list.Forall_nil]; cbn; unfold dated, noon, DAY_SECONDS; split; try (split; vm_compute; done); lia. Qed.
Lemma read_dated : dated ((noon + DAY_SECONDS + 60) * 1000).
Proof. unfold dated. split; vm_compute; done. Qed.

Lemma status_page_exact_witness : dated ((noon + DAY_SECONDS + 60) * 1000) /\ Forall (timed (noon + DAY_SECONDS + 60)) rounds /\
  componentStatuses status_env (status_after rounds) (noon + DAY_SECONDS + 60) = List.map (reference_status (noon + DAY_SECONDS + 60) (checks_of rounds)) (statusComponents status_env).
Proof. exact (conj read_dated (conj rounds_timed (status_page_exact status_env rounds (noon + DAY_SECONDS + 60) read_dated rounds_timed))). Defined.

Example hub_strip : List.map (fun s => (cs_component s, cs_ok s, drop 88 (cs_days s))) (componentStatuses status_env (status_after rounds) (noon + DAY_SECONDS + 60)) =
  let day f := [Some (mkStatusDay "2026-09-21" 2 f); Some (mkStatusDay "2026-09-22" 1 0)] in
  [(c_console, Some true, day 0); (c_workstations, Some true, day 1); (c_email, Some true, day 0); (c_updates, Some true, day 1)].
Proof. vm_compute. reflexivity. Qed.

(** Two updates are posted at the same time, and both checks see an open incident: the
    one that resolves it is written first, and the other opens it again. *)
Example incident_reopened :
  let said status := JsObj [("status", JsStr status); ("body", JsStr "Done")]%string in
  let db := status_after rounds in
  let alone := fst (fst (updateIncident "i1" (said "resolved") "u2" 500 [] db)) in
  snd (updateIncident "i1" (said "monitoring") "u3" 501 [] alone) = Returns (Some ("This incident is resolved"%string, 409)) /\
  option_map in_resolved_at (head (st_incidents alone)) = Some (Some 500) /\
  option_map in_status (openIncident (apply_event alone (ev_update "i1" monitoring "u3" "Done" 501))) = Some monitoring.
Proof. vm_compute. done. Qed.
