(* ===== verification/Notices.v ===== *)
(** src/cloudflare-control/src/notifications.ts and the routes /api/notifications… and
    /api/super/notifications of index.ts: what the platform tells organizations, who
    sees it, and who has dismissed it.

    A notification stands here with its identifier and time, which the tables of Db.v
    leave out, and the time an organization registered beside its row. Calls may fail
    as in Mail.v; the messages of a batch, which the source sends at once, are sent one
    after the other. *)
From S2P Require Import Prelude JsString Scan Platform Escape Db Guard Exams Plans TwoFactor Conversations Mail Mailroom Markdown.

Record Notice : Type := mkNotice { nt_id : string; nt_tenant_id : option string; nt_kind : string; nt_title : string; nt_body : string; nt_created_at : Z; nt_created_by : option string }.
Record NoticeRead : Type := mkRead { rd_notification_id : string; rd_user_id : string; rd_read_at : Z }.
Record NoticeDb : Type := mkNoticeDb { nd_accounts : AccountDb; nd_registered : list (string * Z); nd_notices : list Notice; nd_reads : list NoticeRead; nd_mails : list SentMail }.
Definition on_notices (f : list Notice -> list Notice) (g : list NoticeRead -> list NoticeRead) (db : NoticeDb) : NoticeDb :=
  mkNoticeDb (nd_accounts db) (nd_registered db) (f (nd_notices db)) (g (nd_reads db)) (nd_mails db).
Definition record_mail (m : SentMail) (db : NoticeDb) : NoticeDb := mkNoticeDb (nd_accounts db) (nd_registered db) (nd_notices db) (nd_reads db) (nd_mails db ++ [m]).

(** ** Writing one *)

Definition insert_notice (n : Notice) (db : NoticeDb) : js_result (NoticeDb * unit) :=
  if existsb (fun m => String.eqb (nt_id m) (nt_id n)) (nd_notices db) then Throws "constraint failed" else Returns (on_notices (fun l => l ++ [n]) (fun l => l) db, tt).
Definition write_notice (tenantId : option string) (kind title body : string) (createdBy : option string) (id : string) (now : Z) : eff NoticeDb string :=
  let title := str_take NOTIFICATION_TITLE (trim title) in
  let body := str_take NOTIFICATION_BODY (trim body) in
  if String.eqb title "" || String.eqb body "" then eff_throw "A notification needs a title and a message"
  else _ ← eff_call (insert_notice (mkNotice id tenantId kind title body now createdBy)); mret id.

(** ** Reading them *)

(** [ORDER BY created_at DESC, id]. *)
Definition newest_notice (a b : Notice) : Z := if nt_created_at a =? nt_created_at b then by_code (nt_id a) (nt_id b) else nt_created_at b - nt_created_at a.
Definition read_by (db : NoticeDb) (userId : string) (n : Notice) : bool := existsb (fun r => String.eqb (rd_notification_id r) (nt_id n) && String.eqb (rd_user_id r) userId) (nd_reads db).
Definition visible_to (tenantId : string) (registered : Z) (n : Notice) : bool :=
  match nt_tenant_id n with Some t => String.eqb t tenantId | None => registered <=? nt_created_at n end.
Definition notice_limit (limit : Z) : nat := Z.to_nat (Z.min (Z.max limit 1) 200).
Definition candidates (db : NoticeDb) (tenantId userId : string) (unreadOnly : bool) : list Notice :=
  match assoc tenantId (nd_registered db) with
  | Some registered => List.filter (fun n => visible_to tenantId registered n && (negb unreadOnly || negb (read_by db userId n))) (nd_notices db)
  | None => []
  end.
Definition listNotificationsFor (db : NoticeDb) (tenantId userId : string) (unreadOnly : bool) (limit : Z) : list (Notice * bool) :=
  List.map (fun n => (n, read_by db userId n)) (take (notice_limit limit) (js_sort newest_notice (candidates db tenantId userId unreadOnly))).

(** [INSERT OR IGNORE]. *)
Definition mark_read (userId : string) (now : Z) (db : NoticeDb) (n : Notice) : NoticeDb :=
  if read_by db userId n then db else on_notices (fun l => l) (fun l => l ++ [mkRead (nt_id n) userId now]) db.
Definition is_wanted (ids : option (list string)) (n : Notice) : bool := match ids with Some l => existsb (String.eqb (nt_id n)) l | None => true end.
Definition markNotificationsRead (tenantId userId : string) (ids : option (list string)) (now : Z) : eff NoticeDb Z :=
  visible ← eff_read (fun db => listNotificationsFor db tenantId userId true 200);
  let marking := List.filter (is_wanted ids) (List.map fst visible) in
  match marking with
  | [] => mret 0
  | _ => _ ← eff_write (fun db => foldl (mark_read userId now) db marking); mret (Z.of_nat (length marking))
  end.

Record SentNotice : Type := mkSentNotice { sn_notice : Notice; sn_tenant_name : option string; sn_reads : Z }.
Definition listSentNotifications (db : NoticeDb) : list SentNotice :=
  List.map (fun n => mkSentNotice n (t_name <$> (nt_tenant_id n ≫= findTenantById (TwoFactor.core (nd_accounts db))))
                       (Z.of_nat (length (List.filter (fun r => String.eqb (rd_notification_id r) (nt_id n)) (nd_reads db)))))
    (take 100 (js_sort newest_notice (nd_notices db))).

(** ** Mailing one *)

Record OrganizationOwner : Type := mkOwner { ow_tenantId : string; ow_name : string; ow_email : string; ow_ownerName : string }.
Definition owner_of (db : AccountDb) (t : Tenant) : option OrganizationOwner :=
  u ← js_find (fun u => String.eqb (u_id u) (t_user_id t)) (users db);
  if isDemoSlug (t_subdomain t) && bool_decide (u_role u = super_admin) then None else Some (mkOwner (t_id t) (t_name t) (u_email u) (u_name u)).
Definition activeOrganizationOwners (db : AccountDb) (tenantId : option string) : list OrganizationOwner :=
  omap (owner_of db) (js_sort (fun a b => by_code (t_name a) (t_name b))
    (List.filter (fun t => bool_decide (t_status t = active) && match tenantId with Some id => String.eqb (t_id t) id | None => true end) (tenants (TwoFactor.core db)))).

Record EmailOutcome : Type := mkOutcome { eo_emailed : Z; eo_emailFailed : Z; eo_emailProblem : option string }.
Definition EMAILS_AT_ONCE : nat := 10.
Definition notice_mail (subject text : string) (owner : OrganizationOwner) : OutgoingMail :=
  mkOutgoing (ow_email owner) (Some (ow_ownerName owner)) subject ("Hello " +:+ ow_ownerName owner +:+ "," +:+ LF2 +:+ text +:+ LF2 +:+ "Lab Kiosk") false None [] None.
Definition count_mail (outcome : EmailOutcome) (r : option string) : EmailOutcome :=
  match r with
  | Some _ => mkOutcome (eo_emailed outcome + 1) (eo_emailFailed outcome) (eo_emailProblem outcome)
  | None => mkOutcome (eo_emailed outcome) (eo_emailFailed outcome + 1) (eo_emailProblem outcome)
  end.
Section Emails.
Context (env : MailEnv) (messageId : OrganizationOwner -> string) (subject text : string).
Fixpoint send_batch (owners : list OrganizationOwner) (outcome : EmailOutcome) : eff NoticeDb EmailOutcome :=
  match owners with
  | [] => mret outcome
  | owner :: rest => r ← eff_try (sendMail record_mail env (notice_mail subject text owner) (messageId owner)); send_batch rest (count_mail outcome r)
  end.
Fixpoint send_batches (batches : list (list OrganizationOwner)) (outcome : EmailOutcome) : eff NoticeDb EmailOutcome :=
  match batches with [] => mret outcome | batch :: rest => outcome ← send_batch batch outcome; send_batches rest outcome end.
Definition emailOrganizations (owners : list OrganizationOwner) : eff NoticeDb EmailOutcome :=
  match owners with
  | [] => mret (mkOutcome 0 0 None)
  | _ =>
      match mailConfigProblem env with
      | Some _ => mret (mkOutcome 0 0 (Some "This server cannot send email, so no organization was emailed"%string))
      | None => send_batches (chunks (length owners) EMAILS_AT_ONCE owners) (mkOutcome 0 0 None)
      end
  end.
End Emails.

(** ** The routes *)

Inductive NoticeAnswer : Type :=
| NError (status : Z) (message : string)
| NListed (notifications : list (Notice * bool)) (unread : Z)
| NSent (notifications : list SentNotice)
| NDone (id : string) (outcome : EmailOutcome) (notifications : list SentNotice).

Definition text_items (l : list jsval) : option (list string) := mapM (fun v => match v with JsStr s => Some s | _ => None end) l.
(** The member [ids]: every one of them, a list, or neither. *)
Definition read_ids (body : jsval) : option (option (list string)) :=
  match js_get body "ids" with
  | JsUndefined | JsNull => Some None
  | JsArr l => if (length l <=? 200)%nat then Some <$> text_items l else None
  | _ => None
  end.
Definition list_notices (tenantId userId : string) : eff NoticeDb NoticeAnswer :=
  notifications ← eff_read (fun db => listNotificationsFor db tenantId userId false 50);
  mret (NListed notifications (Z.of_nat (length (List.filter (fun n => negb (snd n)) notifications)))).

(** [body]: of a GET, none; of a POST, its JSON, or none where it is not JSON. *)
Definition notices_route (session : option Session) (tenant : option Tenant) (body : option (option jsval)) (now : Z) : eff NoticeDb NoticeAnswer :=
  match requireTenantAdmin session tenant, session, tenant with
  | None, Some s, Some t =>
      match body with
      | None => list_notices (t_id t) (user_id s)
      | Some None => mret (NError 400 "The request body must be JSON")
      | Some (Some body) =>
          match read_ids body with
          | None => mret (NError 400 "ids is a list of notification ids")
          | Some ids => _ ← markNotificationsRead (t_id t) (user_id s) ids now; list_notices (t_id t) (user_id s)
          end
      end
  | Some refusal, _, _ => mret (NError (Guard.status refusal) (Guard.message refusal))
  | None, _, _ => mret (NError 401 "Authentication required")
  end.

Definition notice_text (v : jsval) : string := match v with JsStr s => trim s | _ => "" end.
Definition notice_body (v : jsval) : string := match v with JsStr s => trim (replace_all crlf s) | _ => "" end.
(** The organization it is for: all of them, one, or the refusal. *)
Definition notice_target (v : jsval) : eff NoticeDb (NoticeAnswer + option string) :=
  match v with
  | JsUndefined | JsNull => mret (inr None)
  | _ =>
      target ← match v with JsStr id => eff_read (fun db => findTenantById (TwoFactor.core (nd_accounts db)) id) | _ => mret None end;
      match target with
      | None => mret (inl (NError 404 "Organization not found"))
      | Some t => if bool_decide (t_status t = active) then mret (inr (Some (t_id t))) else mret (inl (NError 409 "Only an active organization can be notified"))
      end
  end.
Definition notice_audit (entry : AuditRow) : eff NoticeDb unit :=
  eff_write (fun db => mkNoticeDb (writeAuditLog entry (nd_accounts db)) (nd_registered db) (nd_notices db) (nd_reads db) (nd_mails db)).

(** The notification itself, once the request is found in order. *)
Definition deliver_notice (env : MailEnv) (messageId : OrganizationOwner -> string) (userId title text : string) (email : bool) (tenantId : option string) (id : string) (now : Z) : eff NoticeDb NoticeAnswer :=
  id ← write_notice tenantId "general" title text (Some userId) id now;
  outcome ← if email then owners ← eff_read (fun db => activeOrganizationOwners (nd_accounts db) tenantId); emailOrganizations env messageId title text owners else mret (mkOutcome 0 0 None);
  _ ← notice_audit (mkAudit tenantId userId "notification.send" (Some ("id=" +:+ id +:+ " to=" +:+ default "all"%string tenantId +:+ " emailed=" +:+ string_of_int (eo_emailed outcome) +:+ " failed=" +:+ string_of_int (eo_emailFailed outcome))));
  notifications ← eff_read listSentNotifications;
  mret (NDone id outcome notifications).
Definition read_email (v : jsval) : option bool := match v with JsUndefined => Some false | JsBool b => Some b | _ => None end.
Definition send_notice (env : MailEnv) (messageId : OrganizationOwner -> string) (userId : string) (body : jsval) (id : string) (now : Z) : eff NoticeDb NoticeAnswer :=
  let title := notice_text (js_get body "title") in
  let text := notice_body (js_get body "body") in
  if String.eqb title "" || (NOTIFICATION_TITLE <? String.length title)%nat then mret (NError 400 "A title of up to 120 characters is required")
  else if String.eqb text "" || (NOTIFICATION_BODY <? String.length text)%nat then mret (NError 400 "A message of up to 2000 characters is required")
  else
    match read_email (js_get body "email") with
    | None => mret (NError 400 "email is true or false")
    | Some email =>
        target ← notice_target (js_get body "tenantId");
        match target with
        | inl refusal => mret refusal
        | inr tenantId => deliver_notice env messageId userId title text email tenantId id now
        end
    end.
Inductive NoticeMethod : Type := notice_get | notice_post (body : option jsval) | notice_other.
Definition platform_notices_route (env : MailEnv) (messageId : OrganizationOwner -> string) (session : option Session) (method : NoticeMethod) (id : string) (now : Z) : eff NoticeDb NoticeAnswer :=
  match requireSuperAdmin session, session with
  | None, Some s =>
      match method with
      | notice_post None => mret (NError 400 "The request body must be JSON")
      | notice_post (Some v) => send_notice env messageId (user_id s) (if is_nullish v then JsObj [] else v) id now
      | notice_other => mret (NError 405 "Method not allowed")
      | notice_get => notifications ← eff_read listSentNotifications; mret (NSent notifications)
      end
  | Some refusal, _ => mret (NError (Guard.status refusal) (Guard.message refusal))
  | None, None => mret (NError 401 "Authentication required")
  end.

(** ** Who sees what *)

#[export] Instance newest_notice_comparator : Comparator newest_notice.
Proof.
  destruct (strict_cmp_comparator by_code by_code_strict) as [Ht Htr]. split; unfold newest_notice; intros.
  - destruct (Z.eqb_spec (nt_created_at x) (nt_created_at y)), (Z.eqb_spec (nt_created_at y) (nt_created_at x)); try lia. apply Ht.
  - destruct (Z.eqb_spec (nt_created_at x) (nt_created_at y)), (Z.eqb_spec (nt_created_at y) (nt_created_at z)), (Z.eqb_spec (nt_created_at x) (nt_created_at z)); try lia. by eapply Htr.
Qed.

Lemma candidates_iff db tenantId userId unreadOnly n : n ∈ candidates db tenantId userId unreadOnly <->
  n ∈ nd_notices db /\ (exists registered, assoc tenantId (nd_registered db) = Some registered /\ visible_to tenantId registered n = true) /\ (unreadOnly = true -> read_by db userId n = false).
Proof.
  unfold candidates. destruct (assoc tenantId (nd_registered db)) as [registered|]; [|split; [by intros ?%elem_of_nil|by intros (_ & (? & ? & _) & _)]].
  rewrite elem_of_bfilter, andb_true_iff, orb_true_iff, !negb_true_iff. split.
  - intros (Hn & Hv & Hr). split; [done|]. split; [by exists registered|]. intros ->. by destruct Hr.
  - intros (Hn & (? & [= <-] & Hv) & Hr). split; [done|]. split; [done|]. destruct unreadOnly; [right; by apply Hr|by left].
Qed.

(** Nothing that is left out of the first elements of a sorted list comes before one of them. *)
Lemma left_out {A} (cmp : A -> A -> Z) `{!Comparator cmp} l k x y : x ∈ l -> ~ x ∈ take k (js_sort cmp l) -> y ∈ take k (js_sort cmp l) -> cmp y x <= 0 /\ length (take k (js_sort cmp l)) = k.
Proof.
  intros Hx Hout Hy. pose proof (js_sort_sorted cmp l) as Hs. apply (elem_of_js_sort cmp) in Hx. rewrite <- (take_drop k (js_sort cmp l)) in Hs, Hx.
  apply elem_of_app in Hx as [Hx|Hx]; [done|]. split; [by apply (StronglySorted_app_1_elem_of _ _ _ y x Hs)|].
  rewrite length_take. enough (k < length (js_sort cmp l))%nat by lia. apply list_elem_of_In, (@List.in_split A) in Hx as (a & b & E). apply (f_equal length) in E. rewrite length_drop, length_app in E. cbn in E. lia.
Qed.

(** A user of an organization is shown its own notifications and those written for
    every organization since it registered, no others, each with whether this user
    dismissed it; where not all fit, those left out are the oldest. *)
Theorem notices_seen (db : NoticeDb) (tenantId userId : string) (unreadOnly : bool) (limit : Z) :
  let listed := listNotificationsFor db tenantId userId unreadOnly limit in
  (forall n read, (n, read) ∈ listed -> n ∈ candidates db tenantId userId unreadOnly /\ read = read_by db userId n) /\
  (forall n m read, n ∈ candidates db tenantId userId unreadOnly -> ~ (n, read_by db userId n) ∈ listed -> (m, read) ∈ listed -> newest_notice m n <= 0 /\ length listed = notice_limit limit) /\
  (length listed <= 200)%nat.
Proof.
  unfold listNotificationsFor. cbv zeta. split; [|split].
  - intros n read (m & [= -> ->] & Hm)%list_elem_of_fmap. split; [|done]. apply (subseteq_take (notice_limit limit)) in Hm. by apply elem_of_js_sort in Hm.
  - intros n m read Hn Hout (x & [= -> ->] & Hx)%list_elem_of_fmap. rewrite length_map. apply (left_out newest_notice _ _ n x Hn); [|done]. intros Hin. apply Hout. by apply (list_elem_of_fmap_2 (fun n => (n, read_by db userId n))).
  - rewrite length_map, length_take. unfold notice_limit. lia.
Qed.

(** ** Dismissing *)

Lemma mark_read_by userId now db n u m : read_by (mark_read userId now db n) u m = read_by db u m || (String.eqb userId u && String.eqb (nt_id n) (nt_id m)).
Proof.
  unfold mark_read. destruct (read_by db userId n) eqn:E.
  - destruct (String.eqb_spec userId u) as [<-|]; [|by rewrite orb_false_r]. destruct (String.eqb_spec (nt_id n) (nt_id m)) as [En|]; [|by rewrite orb_false_r]. unfold read_by in *. rewrite <- En, E. done.
  - unfold read_by at 1. cbn [on_notices nd_reads]. rewrite existsb_app. cbn [existsb rd_notification_id rd_user_id]. rewrite orb_false_r. by rewrite (andb_comm (String.eqb userId u)).
Qed.

Lemma marked_read_by userId now l : forall db u m, read_by (foldl (mark_read userId now) db l) u m = read_by db u m || (String.eqb userId u && existsb (fun n => String.eqb (nt_id n) (nt_id m)) l).
Proof.
  induction l as [|n l IH]; intros db u m; cbn [foldl existsb]; [by rewrite andb_false_r, orb_false_r|]. rewrite IH, mark_read_by. by destruct (read_by db u m), (String.eqb userId u), (String.eqb (nt_id n) (nt_id m)).
Qed.

Lemma marked_rows userId now l : forall db, let db' := foldl (mark_read userId now) db l in
  nd_notices db' = nd_notices db /\ nd_registered db' = nd_registered db /\ forall r, r ∈ nd_reads db' -> r ∈ nd_reads db \/ exists n, n ∈ l /\ r = mkRead (nt_id n) userId now.
Proof.
  induction l as [|n l IH]; intros db; cbn [foldl]; [by repeat split; auto|]. destruct (IH (mark_read userId now db n)) as (-> & -> & Hr). unfold mark_read in *. destruct (read_by db userId n); cbn [on_notices nd_notices nd_registered nd_reads] in *; (split; [done|]); (split; [done|]); intros r [H|(m & Hm & ->)]%Hr.
  - by left.
  - right. exists m. split; [by right|done].
  - apply elem_of_app in H as [H|H%list_elem_of_singleton]; [by left|]. right. exists n. split; [by left|done].
  - right. exists m. split; [by right|done].
Qed.

(** The lists of others depend on what they have dismissed only. *)
Lemma candidates_same db db' tenantId userId unreadOnly limit : nd_notices db' = nd_notices db -> nd_registered db' = nd_registered db -> (forall n, read_by db' userId n = read_by db userId n) ->
  listNotificationsFor db' tenantId userId unreadOnly limit = listNotificationsFor db tenantId userId unreadOnly limit.
Proof.
  intros Hn Hg Hr. unfold listNotificationsFor, candidates. rewrite Hg, Hn. erewrite List.map_ext by (intros n; by rewrite Hr).
  destruct (assoc _ _) as [registered|]; [|done]. erewrite List.filter_ext; [done|]. intros n. cbn. by rewrite Hr.
Qed.

(** What a request to dismiss did: nothing, or the wanted ones of the 200 newest. *)
Lemma mark_inv tenantId userId ids now o db db' o' r : markNotificationsRead tenantId userId ids now o db = (db', o', r) ->
  let marking := List.filter (is_wanted ids) (List.map fst (listNotificationsFor db tenantId userId true 200)) in
  (db' = db \/ db' = foldl (mark_read userId now) db marking) /\ (forall k, r = Returns k -> db' = foldl (mark_read userId now) db marking).
Proof.
  intros (db1 & o1 & r1 & [-> E1]%eff_read_inv & E)%eff_bind_inv. destruct r1 as [visible|e]; [|destruct E as (-> & _ & ->); split; [by left|done]]. specialize (E1 _ eq_refl). subst visible. cbv zeta.
  set (marking := List.filter _ _) in *. destruct marking as [|n l]; [by injection E as <- _ <-; split; [by left|]|].
  apply eff_bind_inv in E as (db2 & o2 & r2 & [E2 E2']%eff_write_inv & E). destruct r2 as [u|e]; [injection E as <- _ <-|destruct E as (-> & _ & ->)]; split; [by right; apply (E2' u)|by intros; apply (E2' u)|done|done].
Qed.

Lemma route_inv session tenant body now o db db' o' r : notices_route session tenant body now o db = (db', o', r) ->
  db' = db /\ (forall v l k, body = Some (Some v) -> r = Returns (NListed l k) -> False) \/ exists s t v ids, session = Some s /\ tenant = Some t /\ requireTenantAdmin session tenant = None /\ body = Some (Some v) /\ read_ids v = Some ids /\
    let marking := List.filter (is_wanted ids) (List.map fst (listNotificationsFor db (t_id t) (user_id s) true 200)) in
    (db' = db \/ db' = foldl (mark_read (user_id s) now) db marking) /\ (forall l k, r = Returns (NListed l k) -> db' = foldl (mark_read (user_id s) now) db marking).
Proof.
  assert (Hlist : forall tenantId userId o db db' o' r, list_notices tenantId userId o db = (db', o', r) -> db' = db).
  { intros tenantId userId. fold (keeps (fun a b => b = a) (list_notices tenantId userId)). apply keeps_bind; [split; [done|congruence]|apply keeps_read; split; [done|congruence]|intros; apply keeps_ret; split; [done|congruence]]. }
  unfold notices_route. destruct (requireTenantAdmin session tenant) as [refusal|]; [intros [= <- _ <-]; by left|]. destruct session as [s|]; [|intros [= <- _ <-]; by left]. destruct tenant as [t|]; [|intros [= <- _ <-]; by left].
  destruct body as [[v|]|]; [|intros [= <- _ <-]; by left|intros ->%Hlist; by left]. destruct (read_ids v) as [ids|] eqn:Ei; [|intros [= <- _ <-]; by left].
  intros (db1 & o1 & r1 & [H1 H2]%mark_inv & E)%eff_bind_inv. right. exists s, t, v, ids. do 5 (split; [done|]). cbv zeta. destruct r1 as [k|e]; [apply Hlist in E as ->; split; [done|]; intros; by apply (H2 k)|destruct E as (-> & _ & ->); by split].
Qed.

(** Dismissing is private and confined. A request to the notifications of an
    organization, whatever its calls do, writes and removes no notification and
    changes what no other user sees; what it dismisses is visible to the
    organization the caller administers; and when it answers with the list, each of
    the wanted ones among the 200 newest that this user had not dismissed is
    dismissed. *)
Theorem dismissals_private session tenant body now o db db' o' r : notices_route session tenant body now o db = (db', o', r) ->
  nd_notices db' = nd_notices db /\
  (forall tenantId userId unreadOnly limit, (forall s, session = Some s -> user_id s <> userId) -> listNotificationsFor db' tenantId userId unreadOnly limit = listNotificationsFor db tenantId userId unreadOnly limit) /\
  (forall rd, rd ∈ nd_reads db' -> rd ∈ nd_reads db \/ exists s t n, session = Some s /\ tenant = Some t /\ requireTenantAdmin session tenant = None /\ n ∈ candidates db (t_id t) (user_id s) true /\ rd = mkRead (nt_id n) (user_id s) now) /\
  (forall s t v ids l k n, session = Some s -> tenant = Some t -> body = Some (Some v) -> read_ids v = Some ids -> r = Returns (NListed l k) -> (n, false) ∈ listNotificationsFor db (t_id t) (user_id s) true 200 -> is_wanted ids n = true -> read_by db' (user_id s) n = true).
Proof.
  intros E. destruct (route_inv _ _ _ _ _ _ _ _ _ E) as [[-> Hno]|(s & t & v & ids & -> & -> & Hg & -> & Hids & [Hdb Hret])].
  { split; [done|]. split; [done|]. split; [by left|]. intros. exfalso. subst. by eapply Hno. }
  set (marking := List.filter _ _) in *. pose proof (marked_rows (user_id s) now marking db) as (Mn & Mg & Mr).
  assert (Hsub : forall n, n ∈ marking -> n ∈ candidates db (t_id t) (user_id s) true).
  { intros n [Hn _]%elem_of_bfilter. apply list_elem_of_fmap in Hn as ([n' b] & -> & (m & [= -> ->] & Hm)%list_elem_of_fmap). apply (subseteq_take (notice_limit 200)) in Hm. by apply elem_of_js_sort in Hm. }
  split; [by destruct Hdb as [->| ->]|]. split; [|split].
  - intros tenantId userId unreadOnly limit Hother. destruct Hdb as [->| ->]; [done|]. by rewrite (candidates_same db) by (done || intros m; rewrite marked_read_by, (proj2 (String.eqb_neq _ _) (Hother s eq_refl)); apply orb_false_r).
  - intros rd Hrd. destruct Hdb as [->| ->]; [by left|]. apply Mr in Hrd as [Hrd|(n & Hn & ->)]; [by left|]. right. exists s, t, n. repeat split; auto.
  - intros s0 t0 v0 ids0 l k n [= <-] [= <-] [= <-] Hids' Hl Hin Hw. rewrite (Hret _ _ Hl), marked_read_by, String.eqb_refl. apply orb_true_iff. right. apply existsb_elem. exists n. split; [|apply String.eqb_refl].
    rewrite Hids in Hids'. injection Hids' as ->. apply elem_of_bfilter. split; [|done]. by apply (list_elem_of_fmap_2 fst _ (n, false)).
Qed.

(** ** Sending *)

Definition notices_kept (a b : NoticeDb) : Prop := nd_notices b = nd_notices a /\ nd_reads b = nd_reads a.
#[export] Instance notices_kept_preorder : PreOrder notices_kept.
Proof. split; [by split|]. intros a b c [? ?] [? ?]. split; congruence. Qed.

Definition counted_mails (outcome : EmailOutcome) : Z := eo_emailed outcome + eo_emailFailed outcome.

Section Sent.
Context (env : MailEnv) (messageId : OrganizationOwner -> string) (subject text : string).

Lemma batch_counted owners : forall outcome o db db' o' r, send_batch env messageId subject text owners outcome o db = (db', o', r) ->
  notices_kept db db' /\ exists out, r = Returns out /\ counted_mails out = counted_mails outcome + Z.of_nat (length owners).
Proof.
  induction owners as [|owner rest IH]; intros outcome o db db' o' r; cbn [send_batch length].
  - intros [= <- _ <-]. split; [done|]. exists outcome. split; [done|lia].
  - intros (db1 & o1 & r1 & (r2 & Es & ->)%eff_try_inv & E)%eff_bind_inv. apply IH in E as [Hk (out & -> & Hc)].
    assert (K : keeps notices_kept (sendMail record_mail env (notice_mail subject text owner) (messageId owner))) by (apply keeps_sendMail; [apply _|by intros]).
    apply K in Es. split; [by transitivity db1|]. exists out. split; [done|]. rewrite Hc. destruct r2; unfold counted_mails, count_mail; cbn [eo_emailed eo_emailFailed]; lia.
Qed.

Lemma batches_counted batches : forall outcome o db db' o' r, send_batches env messageId subject text batches outcome o db = (db', o', r) ->
  notices_kept db db' /\ exists out, r = Returns out /\ counted_mails out = counted_mails outcome + Z.of_nat (length (concat batches)).
Proof.
  induction batches as [|batch rest IH]; intros outcome o db db' o' r; cbn [send_batches concat].
  - intros [= <- _ <-]. split; [done|]. exists outcome. split; [done|cbn; lia].
  - intros (db1 & o1 & r1 & [Hk (out & -> & Hc)]%batch_counted & E)%eff_bind_inv. apply IH in E as [Hk' (out' & -> & Hc')]. split; [by transitivity db1|]. exists out'. split; [done|]. rewrite length_app. lia.
Qed.

Lemma emails_counted owners o db db' o' r : emailOrganizations env messageId subject text owners o db = (db', o', r) ->
  notices_kept db db' /\ exists out, r = Returns out /\ counted_mails out = if mailConfigProblem env then 0 else Z.of_nat (length owners).
Proof.
  unfold emailOrganizations. destruct owners as [|owner rest]; [intros [= <- _ <-]; split; [done|]; eexists; split; [done|]; by destruct (mailConfigProblem env)|].
  destruct (mailConfigProblem env); [intros [= <- _ <-]; split; [done|]; by eexists|]. intros [Hk (out & -> & Hc)]%batches_counted. split; [done|]. exists out. split; [done|]. rewrite Hc, chunks_concat; [done|unfold EMAILS_AT_ONCE; lia|done].
Qed.
End Sent.

Lemma write_notice_inv tenantId kind title body createdBy id now o db db' o' r : write_notice tenantId kind title body createdBy id now o db = (db', o', Returns r) ->
  let n := mkNotice id tenantId kind (str_take NOTIFICATION_TITLE (trim title)) (str_take NOTIFICATION_BODY (trim body)) now createdBy in
  r = id /\ nd_accounts db' = nd_accounts db /\ nd_notices db' = nd_notices db ++ [n] /\ nt_title n <> ""%string /\ nt_body n <> ""%string.
Proof.
  unfold write_notice. cbv zeta. destruct (_ || _) eqn:Ee; [done|]. intros (db1 & o1 & r1 & [_ H]%eff_call_inv & E)%eff_bind_inv. destruct r1 as [u|e]; [|by destruct E as (_ & _ & E)]. specialize (H _ eq_refl). injection E as <- _ <-.
  unfold insert_notice in H. destruct (existsb _ _); [done|]. injection H as <- _. apply orb_false_iff in Ee as [?%String.eqb_neq ?%String.eqb_neq]. by repeat split.
Qed.

Lemma target_inv v o db db' o' tenantId : notice_target v o db = (db', o', Returns (inr tenantId)) ->
  db' = db /\ match tenantId with None => is_nullish v = true | Some id => exists t, findTenantById (TwoFactor.core (nd_accounts db)) (t_id t) = Some t /\ t_status t = active /\ id = t_id t end.
Proof.
  unfold notice_target. destruct v as [| | | | |id| |]; try (by intros [= <- _ <-]); try (intros E; unfold mbind, eff_bind, mret, eff_ret in E; discriminate E).
  intros (db1 & o1 & r1 & [-> Hr]%eff_read_inv & E)%eff_bind_inv. destruct r1 as [target|]; [|by destruct E as (_ & _ & E)]. specialize (Hr _ eq_refl). destruct target as [t|]; [|done].
  destruct (bool_decide_reflect (t_status t = active)); [|done]. injection E as <- _ <-. split; [done|]. exists t. symmetry in Hr. pose proof Hr as Ht. apply js_find_Some in Ht as [_ Ht%String.eqb_eq]. by rewrite Ht.
Qed.

Lemma target_refusal v o db db' o' nid out l : notice_target v o db = (db', o', Returns (inl (NDone nid out l))) -> False.
Proof.
  assert (Hm : forall m : eff NoticeDb (option Tenant), (target ← m; match target with None => mret (inl (NError 404 "Organization not found")) | Some t => if bool_decide (t_status t = active) then mret (inr (Some (t_id t))) else mret (inl (NError 409 "Only an active organization can be notified")) end) o db = (db', o', Returns (inl (NDone nid out l))) -> False).
  { intros m (db1 & o1 & r1 & _ & E)%eff_bind_inv. destruct r1 as [[t|]|e]; [destruct (bool_decide _)| |destruct E as (_ & _ & E)]; discriminate E. }
  unfold notice_target. destruct v; try (intros E; discriminate E); apply Hm.
Qed.

Lemma deliver_inv env messageId userId title text email tenantId id now o db db' o' nid out l : deliver_notice env messageId userId title text email tenantId id now o db = (db', o', Returns (NDone nid out l)) ->
  exists n, nt_tenant_id n = tenantId /\ nd_notices db' = nd_notices db ++ [n] /\ nt_id n = nid /\ nt_created_at n = now /\ nt_title n <> ""%string /\ nt_body n <> ""%string /\
    (counted_mails out = 0 \/ counted_mails out = Z.of_nat (length (activeOrganizationOwners (nd_accounts db) tenantId))).
Proof.
  unfold deliver_notice. intros (db1 & o1 & r1 & Ew & E)%eff_bind_inv. destruct r1 as [id'|e]; [|by destruct E as (_ & _ & E)]. apply write_notice_inv in Ew as (-> & Ea & En & Ht & Hb).
  apply eff_bind_inv in E as (db2 & o2 & r2 & Em & E). destruct r2 as [outcome|e]; [|by destruct E as (_ & _ & E)].
  assert (Hm : notices_kept db1 db2 /\ (counted_mails outcome = 0 \/ counted_mails outcome = Z.of_nat (length (activeOrganizationOwners (nd_accounts db) tenantId)))).
  { destruct email; [|injection Em as <- _ <-; split; [done|by left]]. apply eff_bind_inv in Em as (db3 & o3 & r3 & [-> Hr]%eff_read_inv & Em). destruct r3 as [owners|e]; [|by destruct Em as (_ & _ & Em)]. specialize (Hr _ eq_refl). subst owners.
    apply emails_counted in Em as [Hk (x & [= <-] & Hc)]. split; [done|]. rewrite <- Ea. destruct (mailConfigProblem env); [by left|by right]. }
  destruct Hm as [[Hk _] Hc]. apply eff_bind_inv in E as (db3 & o3 & r3 & [Hs _]%eff_write_inv & E). destruct r3 as [u|e]; [|by destruct E as (_ & _ & E)]. apply eff_bind_inv in E as (db4 & o4 & r4 & [-> _]%eff_read_inv & E). destruct r4; [|by destruct E as (_ & _ & E)].
  injection E as <- _ <- <- _. assert (E3 : nd_notices db3 = nd_notices db2) by (by destruct Hs as [->| ->]). eexists. split; [|split; [by rewrite E3, Hk, En|done]]. done.
Qed.

Lemma send_notice_inv env messageId userId v id now o db db' o' nid out l : send_notice env messageId userId v id now o db = (db', o', Returns (NDone nid out l)) ->
  exists tenantId n, nt_tenant_id n = tenantId /\ nd_notices db' = nd_notices db ++ [n] /\ nt_id n = nid /\ nt_created_at n = now /\ nt_title n <> ""%string /\ nt_body n <> ""%string /\
    match tenantId with None => True | Some id => exists t, findTenantById (TwoFactor.core (nd_accounts db)) (t_id t) = Some t /\ t_status t = active /\ id = t_id t end /\
    (counted_mails out = 0 \/ counted_mails out = Z.of_nat (length (activeOrganizationOwners (nd_accounts db) tenantId))).
Proof.
  unfold send_notice. cbv zeta. destruct (_ || _); [done|]. destruct (_ || _); [done|]. destruct (read_email _) as [email|]; [|done]. intros (db1 & o1 & r1 & Et & E)%eff_bind_inv. destruct r1 as [[refusal|tenantId]|e]; [| |by destruct E as (_ & _ & E)].
  - injection E as <- _ ->. by apply target_refusal in Et.
  - apply target_inv in Et as [-> Ht]. apply deliver_inv in E as (n & H1 & H2 & H3 & H4 & H5 & H6 & H7). exists tenantId, n. do 6 (split; [done|]). split; [by destruct tenantId|done].
Qed.

(** A notification the platform answers for is written once, by a Super Admin, with a
    title and a message, for one active organization or for all; it is among those its
    organizations see from then on, when they registered before it; and its mail was
    tried for each of the owners it reaches, or for none. *)
Theorem notice_reaches env messageId session method id now o db db' o' nid out l :
  platform_notices_route env messageId session method id now o db = (db', o', Returns (NDone nid out l)) ->
  exists s n, session = Some s /\ role s = super_admin /\ nd_notices db' = nd_notices db ++ [n] /\ nt_id n = nid /\ nt_title n <> ""%string /\ nt_body n <> ""%string /\
    match nt_tenant_id n with None => True | Some t => exists org, findTenantById (TwoFactor.core (nd_accounts db)) t = Some org /\ t_status org = active end /\
    (forall tenantId registered userId, nt_tenant_id n = None \/ nt_tenant_id n = Some tenantId -> assoc tenantId (nd_registered db') = Some registered -> registered <= now -> n ∈ candidates db' tenantId userId false) /\
    (counted_mails out = 0 \/ counted_mails out = Z.of_nat (length (activeOrganizationOwners (nd_accounts db) (nt_tenant_id n)))).
Proof.
  unfold platform_notices_route. destruct (requireSuperAdmin session) as [|] eqn:Eg; [done|]. destruct session as [s|]; [|done]. destruct method as [|[v|]|]; [| |done|done].
  { intros (db1 & o1 & r1 & _ & E)%eff_bind_inv. destruct r1; [done|by destruct E as (_ & _ & E)]. }
  assert (Hrole : role s = super_admin) by (unfold requireSuperAdmin in Eg; by destruct (bool_decide_reflect (role s = super_admin))).
  intros (tenantId & n & En & Hn & Hid & Hnow & Ht & Hb & Htarget & Hc)%send_notice_inv. exists s, n. do 6 (split; [done|]). rewrite En. split; [|split; [|done]].
  - destruct tenantId as [t|]; [|done]. destruct Htarget as (org & Ho & Ha & ->). by exists org.
  - intros t registered userId Hfor Hreg Hle. apply candidates_iff. rewrite Hn. split; [apply elem_of_app; right; by left|]. split; [|done]. exists registered. split; [done|]. unfold visible_to. rewrite En. destruct Hfor as [->| ->]; [apply Z.leb_le; lia|apply String.eqb_refl].
Qed.

(** ** Examples *)

Definition notice_org : Tenant := mkTenant "t1" "u1" "Greenwood" "greenwood" None active portal "" None None 0 None 0 0 stable 0 0 0 0 30 None None None 0.
Definition notice_owner : Session := mkSession "k" "u1" (Some "t1"%string) org_admin 1000000.
Definition notice_platform : Session := mkSession "p" "root" None super_admin 1000000.
Definition notice_accounts : AccountDb := mkAccounts (on_tenants (fun _ => [notice_org]) empty_db) [mkUser "u1" "ada@example.org" "" "" org_admin "Ada" 0] [] [] [] [] [] [].
Definition notice_env : MailEnv := mkMailEnv false true false "Lab Kiosk <noreply@labkiosk.org>" "support@labkiosk.org" "" "labkiosk.org".
(** [n] notifications, one a second. *)
Definition told (n : nat) : NoticeDb := mkNoticeDb notice_accounts [("t1"%string, 0)] (List.map (fun i => mkNotice (string_of_int (Z.of_nat i)) None "general" "Hello" "All" (Z.of_nat i) None) (seq 1 n)) [] [].
Definition unread_after (r : NoticeDb * list Outcome * js_result NoticeAnswer) : nat := length (candidates (fst (fst r)) "t1" "u1" true).

(** Every one is dismissed where there are 200 at most; of 203, the three oldest are
    left and show again. *)
Example dismiss_all : let dismiss n := notices_route (Some notice_owner) (Some notice_org) (Some (Some (JsObj []))) 500 [] (told n) in
  unread_after (dismiss 200%nat) = 0%nat /\ unread_after (dismiss 203%nat) = 3%nat.
Proof. vm_compute. done. Qed.

(** A notification for every organization, mailed to the one owner; then with the
    message lost on its way. *)
Example notice_mailed : let body := JsObj [("title", JsStr "Work tonight"); ("body", JsStr " We update the hubs. "); ("email", JsBool true)]%string in
  let send o := platform_notices_route notice_env (fun _ => "m1"%string) (Some notice_platform) (notice_post (Some body)) "n1" 600 o (told 1) in
  let counts r := match r with (db, _, Returns (NDone id out l)) => Some (id, eo_emailed out, eo_emailFailed out, length l, List.map sm_to (nd_mails db)) | _ => None end in
  counts (send []) = Some ("n1"%string, 1, 0, 2%nat, ["ada@example.org"%string]) /\ counts (send [Done; Done; Lost]) = Some ("n1"%string, 0, 1, 2%nat, []).
Proof. vm_compute. done. Qed.
